(* ===== verification/_CoqProject ===== *)
-Q . S2P
Prelude.v
TextConv.v
Shm.v
Keymap.v
KeyInject.v
Clipboard.v
Buffer.v
GlBuffers.v
Cursor.v
Viewport.v
Renderer.v
AppBuffers.v
Events.v
Server.v
Wire.v
ShmSocket.v
Activity.v
ClipSync.v
TextInput.v
Typing.v
Keycodes.v
Devices.v
Mutex.v
Sync.v
Present.v
GpuInit.v
Startup.v
Natives.v
Screen.v
FbConfigs.v
Glx.v
Display.v
Pixels.v
Relay.v
Handover.v
Resize.v
