(* ===== verification/Prelude.v ===== *)
(** * Verification of the C core of Termux:X11

    The program under src/app/src/main/cpp/lorie/ is an X server for Android in
    two processes.  The server process draws into shared buffers, keeps the
    clipboard, injects keys and times frames; the app process receives the
    buffers and shows the root window.  The two share one block of memory
    (lorie_shared_server_state) and a socket.  This library models the parts
    of that program that carry logic of their own and proves them correct;
    where the code does something else than it means to, a theorem says
    exactly what it does.

    ** The parts

    - [Prelude]: faults, the [outcome] monad, fixed-width integers, byte
      buffers, and the tactics the other files use.
    - [TextConv]: clipboard.c 36-180.  lorieConvertLF, lorieUtf8ToLatin1,
      lorieLatin1ToUtf8, lorieCheckUTF8, byte by byte.  Theorems: the round
      trip Latin-1 to UTF-8 and back, the result on every valid UTF-8 text, the
      language lorieCheckUTF8 accepts, and that no buffer is overrun.
    - [Clipboard]: clipboard.c 184-578.  Requests, their queue, ownership and
      received selections; it calls [TextConv].  The X server is the class
      [Dix], its documented behaviour the class [DixLaws].  Theorems: each
      request is answered exactly once, and never from outdated text; the
      handlers are installed once, however often the server starts again.
    - [Shm]: shm/shmem.c.  shmget, shmat, shmdt and shmctl over a table of
      ashmem regions.  Theorems: the invariant of the table over every sequence
      of calls, deferred removal, two processes that share a segment by its
      key or identifier, and the loop that looks for a free key.
    - [ShmSocket]: the sockets of shm/shmem.c, which [Shm] leaves to its kernel:
      their names and the bytes of an exchange, and processes that run together,
      each with its mutex and its serving thread; over [Shm] and [Wire].
      Theorems: which segments can be attached over a socket; every call returns,
      but for processes that wait for one another in circles.
    - [Keymap]: InputXKB.c, first half.  Which key and modifier state produce a
      keysym; the XKB macros are the class [XkbMacros] with [XkbMacrosLaws].
      Theorems: the lookup is exact and stays in the tables; the modifier
      searches.
    - [KeyInject]: InputXKB.c, second half.  lorieKeysymKeyboardEvent and
      lorieAddKeysym; it calls [Keymap].  Theorems: a release matches its
      press, fake modifiers are undone, injection always ends, and how keys
      are reused.
    - [Buffer]: buffer.c and buffer.h.  LorieBuffer and the memory, descriptors
      and hardware buffers it owns.  Theorems: allocation and release balance,
      conversion, locking, and what a buffer looks like after it was sent.
    - [GlBuffers]: renderer.c 441-479 and the list functions of buffer.c.  The
      three lists of buffers in the app, their loops and the GL objects.
    - [Cursor]: InitOutput.c 203-221 and 322-379.  The cursor picture in the
      shared block, and the test pattern.
    - [Viewport]: the geometry of renderer.c, in single precision: zoom,
      panning after the cursor, texture coordinates.
    - [Renderer]: renderer.c.  The renderer thread, the GUI thread and the X
      server as interleaved steps over [GlBuffers], [Viewport] and the shared
      block of [Cursor].  Theorems: no interleaving uses what was freed,
      unmapped or given back, and all objects are accounted for; the GUI thread
      never waits forever; what a turn of the drawing code does; windows.
    - [AppBuffers]: what the buffer lists of the app mean: the calls of
      [Renderer] as announcements, and the buffers alive after them.
    - [Events]: lorie.h 92-160 and the send functions of activity.c.  The
      messages between the processes, byte by byte.  Theorem: they are read
      back as they were written.
    - [Server]: cmdentrypoint.c 207-491 and lorieActivityConnected.  Reading the
      activity's socket, dispatching its events to the X server, and the
      buffers announced to it; over [Events] and [Buffer].  Theorems: the
      stream never gets out of step; what the activity knows is what is
      registered; stylus buttons; and where connections and valuators go wrong.
    - [Wire]: descriptors on the socket (buffer.c 464-526), the bytes of
      struct LorieBuffer, and the server's messages as bytes.
    - [Activity]: activity.c 133-241.  The app's callback for the server's
      messages; its calls are actions of [Renderer].  Theorems: the app's
      buffers are the server's, whatever the interleaving (the refinement that
      joins [Server], [Wire], [Activity], [AppBuffers] and [Renderer]); what
      the end of a connection leaves; and three ways it goes wrong.
    - [ClipSync]: the clipboard in both processes, [Clipboard], [Server], [Wire]
      and [Activity] in one piece.  Theorems: text copied on Android reaches the X
      client that asks for it, and text copied in X reaches Android.
    - [TextInput]: sendTextEvent.  Theorem: text arrives as the characters it is
      made of.
    - [Typing]: from the bytes of a text in the app to the keys in X, [TextInput],
      [Server] and [KeyInject] in one piece.  Theorem: the text is typed, and no
      key is left down.
    - [Keycodes]: the key code table of lorie.h and its reader.
    - [Devices]: InitInput.c.  The input devices; over [Server].  Theorems: the
      events the server queues are well typed for the devices; the stylus
      switch; start-up and reset.
    - [Mutex]: lorie.h 50-90.  The mutex shared by the two processes, which is
      re-initialised when its owner has died.  Theorems: mutual exclusion,
      recovery, and what breaks them.
    - [Sync]: xshmfence.c and the condition variable proxy of renderer.c.
    - [Present]: InitOutput.c.  Vertical blanks, the redraw of each frame,
      pixmaps over [Buffer], page flips, reconfiguration.
    - [Screen]: InitOutput.c, the rest of the screen: the shared block, modes,
      the screen's pixmap, resizing with the tree of windows, hooks and the
      frame callback; over [Present] and [Server].
    - [Display]: the server's redraw ([Present]) and the renderer thread
      ([Renderer]) on one shared block, with the signal between them.  Theorem:
      damage is shown, exactly once, within two frames, even when the signal is
      lost.
    - [Relay]: [Display] and the proxy thread of [Sync], which passes the server's
      signals on to the renderer thread.  Theorems: the proxy never waits on a
      block that was unmapped; [Relay] refines [Display], so damage is shown
      through the three threads.
    - [Resize]: a window of another size, from the app's message to the buffers
      of its renderer: [Events], [Server], [Present], [Screen], [Wire],
      [Activity] and [Renderer] in one piece.  Theorem: both sides end up with
      the new picture, and only that.
    - [FbConfigs], [Glx]: fbconfigs.h row by row, and the GLX provider of
      InitOutput.c 1006-1076.  Theorem: the table is the product it should be.
    - [GpuInit]: renderer.c 33-113, 209-427 and 844-896.  What is logged about
      errors, shader programs, the test of the device, the start of the renderer
      thread.
    - [Pixels]: the GL commands of renderer.c 708-732 and 895-939 and of buffer.c
      397-426, and what the fragment programs of [GpuInit] compute; over
      [Renderer] and [GlBuffers].  GL is the class [Gl], its documented behaviour
      the class [GlLaws].  Theorems: the root window and the cursor have the
      colours on the screen that the X server gave them.
    - [Startup]: cmdentrypoint.c 43-209 and 498-573, the arguments and the
      start-up command of InitOutput.c, with the thread that waits for it,
      requestConnection of activity.c, and the threads and children that copy
      and print the log.
    - [Natives]: how Java's native methods and the C functions are matched.

    Functions and fields have the names they have in C.

    ** How the code is represented

    A C function that can go wrong or loop returns an [outcome]: [Ret v], or a
    [Fault] that says what the code does that it must not (an access outside an
    object, a null or dangling pointer, an exit).  A theorem that concludes
    [f x = Ret v] therefore says that [f] returns, and returns [v].  Globals
    are a record that is passed along.  Integers are [Z], wrapped to their width
    where the code's types wrap them.  A [char *] is the list of bytes from
    that address to the end of its object.  Resources (descriptors, mappings,
    memory, window references) are lists of what is held, and giving back
    something that is not held is a fault.  What a thread does between two lock
    operations is one step.

    Code that is not in the repository (the X server, XKB, EGL and GL, Android,
    the kernel) is an argument: a record of the results of its calls, or a class
    of its operations with a second class of laws, which are its documented
    behaviour.  The laws are shown satisfiable by the concrete instances at the
    end of each file, on which the witnesses run.

    ** Fuel

    Loops over memory are structural on the bytes left.  The loop that answers
    queued requests takes one round per request; shmget's key loop is given one
    round, which is enough unless links cannot be created, when no number is;
    the loops that empty a list of buffers take one round per reference, and
    compute that number themselves; the loop that reads events takes 24 bytes a
    round and is given one round per byte, on the server's side as on the
    app's, and two calls of it empty the socket ([read_all] is given two); text is
    sent with one round per byte; the thread that waits for the command takes
    one round per answer; the others, one round per element.  That the fuel is enough is part of the theorems, never a hypothesis
    about the result.  The loop that copies the log has no end, and its theorem
    says so for any fuel.  The processes of [ShmSocket] run event by event, and
    how many events their threads can make is a theorem.

    ** What is not modelled

    - Calls without logic of their own: the tables of callbacks given to the X
      server, the listener that empties the image reader, and functions that
      only call one of a library.
    - Blending and how texels between two pixels are mixed: [Pixels] says which
      texels are drawn, in which colour and with which filter.
    - The Java code of the app, and the code of the submodules: the X server,
      EGL, GL, Android and the kernel are arguments.
    - Memory ordering between the two processes: steps are sequentially
      consistent, and a struct that is written to the socket is written whole. *)
From stdpp Require Export base tactics list numbers option gmap strings.
From Stdlib Require Export ZArith Lia.

#[export] Set Default Goal Selector "!".

(** ** Faults and the outcome monad

    C code either returns a value or runs into behaviour the language does not
    define.  [outcome] keeps the two apart, and keeps the fuel of a loop apart
    from both, so that a theorem [f x = Ret v] says that [f] terminates on [x]
    without touching memory it does not own. *)
Inductive fault : Type :=
  | OutOfBounds    (** read or write outside the object *)
  | NullDeref      (** use of a null pointer *)
  | FuelExhausted  (** the loop bound of the model was too small *)
  | FatalExit.     (** [FatalError], [_exit]: the process ends *)

Inductive outcome (A : Type) : Type :=
  | Ret (a : A)
  | Fault (f : fault).
Arguments Ret {A} a.
Arguments Fault {A} f.

#[export] Instance fault_eq_dec : EqDecision fault.
Proof. solve_decision. Defined.
#[export] Instance outcome_eq_dec {A} `{!EqDecision A} : EqDecision (outcome A).
Proof. solve_decision. Defined.

#[export] Instance outcome_ret : MRet outcome := fun A a => Ret a.
#[export] Instance outcome_bind : MBind outcome := fun A B k m =>
  match m with
  | Ret a => k a
  | Fault f => Fault f
  end.

Declare Scope c_scope.
Delimit Scope c_scope with C.
Open Scope Z_scope.

(** ** Fixed-width integers: the value of [z] stored in a [w]-bit C integer *)
Definition wrap_u (w z : Z) : Z := z `mod` 2 ^ w.
Definition wrap_s (w z : Z) : Z := (z + 2 ^ (w - 1)) `mod` 2 ^ w - 2 ^ (w - 1).

Abbreviation u8 := (wrap_u 8).
Abbreviation u16 := (wrap_u 16).
Abbreviation u32 := (wrap_u 32).
Abbreviation u64 := (wrap_u 64).
Abbreviation i8 := (wrap_s 8).
Abbreviation i16 := (wrap_s 16).
Abbreviation i32 := (wrap_s 32).

(** C truth value of an integer. *)
Definition truth (z : Z) : bool := negb (z =? 0).
Definition byteP (b : Z) : Prop := 0 <= b < 256.

(** ** Byte buffers *)
Definition rd (m : list Z) (i : nat) : outcome Z :=
  match m !! i with
  | Some b => Ret b
  | None => Fault OutOfBounds
  end.

Definition wr (m : list Z) (i : nat) (b : Z) : outcome (list Z) :=
  if decide (i < length m)%nat then Ret (<[i := b]> m) else Fault OutOfBounds.

Definition zeros (n : nat) : list Z := replicate n 0.

(** Giving back one thing that is held; what is not held cannot be given back. *)
Fixpoint remove_one {A} `{!EqDecision A} (r : A) (held : list A) : outcome (list A) :=
  match held with
  | [] => Fault OutOfBounds
  | r' :: held => if decide (r = r') then Ret held else h ← remove_one r held; Ret (r' :: h)
  end.

(** The bytes of a C string: up to, and without, its NUL. *)
Fixpoint cstring (m : list Z) : outcome (list Z) :=
  match m with
  | [] => Fault OutOfBounds
  | b :: m' => if b =? 0 then Ret [] else s ← cstring m'; Ret (b :: s)
  end.

(** ** Lemmas on the integers *)
Lemma wrap_u_bound w z : 0 <= w -> 0 <= wrap_u w z < 2 ^ w.
Proof. intros. apply Z.mod_pos_bound, Z.pow_pos_nonneg; lia. Qed.

Lemma wrap_u_small w z : 0 <= z < 2 ^ w -> wrap_u w z = z.
Proof. apply Z.mod_small. Qed.

Lemma wrap_s_bound w z : 0 < w -> - 2 ^ (w - 1) <= wrap_s w z < 2 ^ (w - 1).
Proof.
  intros. unfold wrap_s.
  pose proof (Z.mod_pos_bound (z + 2 ^ (w - 1)) (2 ^ w) ltac:(apply Z.pow_pos_nonneg; lia)).
  assert (2 ^ w = 2 * 2 ^ (w - 1)) by (rewrite <- Z.pow_succ_r by lia; f_equal; lia).
  lia.
Qed.

Lemma wrap_s_small w z : 0 < w -> - 2 ^ (w - 1) <= z < 2 ^ (w - 1) -> wrap_s w z = z.
Proof.
  intros. unfold wrap_s.
  assert (2 ^ w = 2 * 2 ^ (w - 1)) by (rewrite <- Z.pow_succ_r by lia; f_equal; lia).
  rewrite Z.mod_small by lia. lia.
Qed.

Lemma truth_true z : truth z = true <-> z <> 0.
Proof. unfold truth. rewrite negb_true_iff, Z.eqb_neq. done. Qed.

Lemma truth_false z : truth z = false <-> z = 0.
Proof. unfold truth. rewrite negb_false_iff, Z.eqb_eq. done. Qed.

(** Shifting in [n] fresh low bits. *)
Lemma lor_shiftl_add d x n : 0 <= n -> 0 <= x < 2 ^ n -> Z.lor (Z.shiftl d n) x = d * 2 ^ n + x.
Proof.
  intros Hn Hx. rewrite <- Z.shiftl_mul_pow2 by done. symmetry.
  apply Z.add_nocarry_lor, Z.bits_inj'. intros i Hi.
  rewrite Z.land_spec, Z.shiftl_spec, Z.bits_0 by done.
  destruct (Z.ltb_spec i n).
  - by rewrite Z.testbit_neg_r by lia.
  - rewrite <- (Z.mod_small x (2 ^ n)) by done.
    by rewrite Z.mod_pow2_bits_high, andb_false_r by lia.
Qed.

(** A decidable fact about one byte is checked on the 256 bytes. *)
Lemma byte_cases (P : Z -> bool) :
  forallb P (map Z.of_nat (seq 0 256)) = true -> forall b, byteP b -> P b = true.
Proof.
  intros HP b Hb. rewrite forallb_forall in HP. apply HP.
  apply in_map_iff. exists (Z.to_nat b). split.
  - apply Z2Nat.id. destruct Hb. lia.
  - apply in_seq. destruct Hb. lia.
Qed.

(** ** Lemmas on the monad and on buffers *)
Lemma outcome_bind_ret {A B} (a : A) (k : A -> outcome B) : (x ← Ret a; k x) = k a.
Proof. reflexivity. Qed.

Lemma outcome_bind_Ret_inv {A B} (m : outcome A) (k : A -> outcome B) b :
  (x ← m; k x) = Ret b -> exists a, m = Ret a /\ k a = Ret b.
Proof. destruct m; simpl; [eauto|discriminate]. Qed.

Section remove_one.
Context {A : Type} `{!EqDecision A}.
Implicit Types (r : A) (l : list A).

Lemma remove_one_head r l : remove_one r (r :: l) = Ret l.
Proof. cbn. by rewrite decide_True. Qed.

Lemma remove_one_skip r r' l :
  r <> r' -> remove_one r (r' :: l) = (h ← remove_one r l; Ret (r' :: h)).
Proof. intros. cbn. by rewrite decide_False. Qed.

Lemma remove_one_perm r l : r ∈ l -> exists l', remove_one r l = Ret l' /\ l ≡ₚ r :: l'.
Proof.
  induction l as [|r' l IH]; [by intros ?%elem_of_nil|]. intros Hin. cbn.
  destruct (decide (r = r')) as [->|N]; [by exists l|].
  destruct IH as (l' & -> & Hl'); [set_solver|]. cbn [mbind outcome_bind]. exists (r' :: l').
  split; [done|]. rewrite Hl'. apply Permutation_swap.
Qed.
End remove_one.

Lemma zeros_S n : zeros (S n) = 0 :: zeros n.
Proof. reflexivity. Qed.

Lemma length_zeros n : length (zeros n) = n.
Proof. apply length_replicate. Qed.

Lemma zeros_app n m : zeros n ++ zeros m = zeros (n + m).
Proof. symmetry. apply replicate_add. Qed.

(** Appending to the filled part of a zeroed buffer. *)
Lemma wr_fill p n b : wr (p ++ zeros (S n)) (length p) b = Ret ((p ++ [b]) ++ zeros n).
Proof.
  unfold wr. rewrite decide_True by (rewrite length_app, length_zeros; lia).
  rewrite zeros_S, insert_app_r_alt by lia.
  rewrite Nat.sub_diag. simpl. by rewrite <- app_assoc.
Qed.

Lemma rd_app_r p q : rd (p ++ q) (length p) = rd q 0.
Proof. unfold rd. rewrite lookup_app_r by lia. by rewrite Nat.sub_diag. Qed.

Lemma cstring_app s rest : Forall (fun b => b <> 0) s -> cstring (s ++ 0 :: rest) = Ret s.
Proof.
  induction 1 as [|b s Hb Hs IH]; [done|]. simpl.
  destruct (Z.eqb_spec b 0); [done|]. by rewrite IH.
Qed.

(** ** Tactics and hint databases *)
Create HintDb cint discriminated.
Create Rewrite HintDb cmodel.
#[export] Hint Rewrite @outcome_bind_ret Z.land_0_r Z.lor_0_r zeros_S length_zeros : cmodel.
#[export] Hint Resolve wrap_u_bound wrap_s_bound : cint.

(** Case analysis on every boolean test of the goal, each turned into its
    arithmetic meaning. *)
Ltac case_bool :=
  match goal with
  | |- context [if ?b then _ else _] =>
      match type of b with
      | bool => let E := fresh "E" in destruct b eqn:E
      end
  end.

Ltac bool_arith :=
  repeat match goal with
  | H : context [negb _ = true] |- _ => rewrite negb_true_iff in H
  | H : context [negb _ = false] |- _ => rewrite negb_false_iff in H
  | H : (_ && _)%bool = true |- _ => apply andb_true_iff in H; destruct H
  | H : (_ || _)%bool = false |- _ => apply orb_false_iff in H; destruct H
  | H : (_ && _)%bool = false |- _ => apply andb_false_iff in H
  | H : (_ || _)%bool = true |- _ => apply orb_true_iff in H
  | H : (_ =? _) = true |- _ => apply Z.eqb_eq in H
  | H : (_ =? _) = false |- _ => apply Z.eqb_neq in H
  | H : (_ <? _) = true |- _ => apply Z.ltb_lt in H
  | H : (_ <? _) = false |- _ => apply Z.ltb_ge in H
  | H : (_ <=? _) = true |- _ => apply Z.leb_le in H
  | H : (_ <=? _) = false |- _ => apply Z.leb_gt in H
  | H : truth _ = true |- _ => apply truth_true in H
  | H : truth _ = false |- _ => apply truth_false in H
  end.

(** Linear arithmetic with quotients and remainders by constants. *)
Ltac divmod := unfold wrap_u, wrap_s in *; Z.div_mod_to_equations; lia.

(** Run the monad, and nothing else. *)
Ltac cbind := cbn [mbind outcome_bind mret outcome_ret].

(** Evaluate the integer comparisons of the goal that arithmetic decides. *)
Ltac decide_tests :=
  repeat match goal with
  | |- context [?a <? ?b] =>
      first [rewrite (proj2 (Z.ltb_lt a b)) by (simpl; lia)
            |rewrite (proj2 (Z.ltb_ge a b)) by (simpl; lia)]
  | |- context [?a <=? ?b] =>
      first [rewrite (proj2 (Z.leb_le a b)) by (simpl; lia)
            |rewrite (proj2 (Z.leb_gt a b)) by (simpl; lia)]
  | |- context [?a =? ?b] =>
      first [rewrite (proj2 (Z.eqb_eq a b)) by (simpl; lia)
            |rewrite (proj2 (Z.eqb_neq a b)) by (simpl; lia)]
  end;
  cbn [negb andb orb].


(** Split the first call of a goal [m ≫= k = Ret b -> ...]: it must return. *)
Ltac bind_case :=
  match goal with
  | |- (mbind _ ?m = Ret _) -> _ =>
      let E := fresh "E" in destruct m eqn:E; cbn [mbind outcome_bind]; [|done]
  end.

(** ** Filters *)
Lemma Forall_filter_in {A} (P Q : A -> Prop) `{!forall x, Decision (Q x)} l :
  Forall P l -> Forall P (filter Q l).
Proof. rewrite !Forall_forall. intros Hl x [_ Hx]%list_elem_of_filter. by apply Hl. Qed.

Lemma filter_all {A} (P : A -> Prop) `{!forall x, Decision (P x)} l : Forall P l -> filter P l = l.
Proof. induction 1 as [|x l Hx _ IH]; [done|]. by rewrite filter_cons_True, IH. Qed.
