(* ===== verification/TextConv.v ===== *)
(** * Text conversion of the clipboard (clipboard.c, lines 36-180)

    A [char *] is the list of the bytes from that address to the end of the
    object it points into; reading from the empty list is a read outside the
    object.  Output buffers are updated in place, and a write outside them is
    a fault as well. *)
From S2P Require Import Prelude.

(** ** The code *)

(** [for (; i < bytes; i++) if (src[i] != '\r') dst[j++] = src[i];] *)
Fixpoint lorieConvertLF_loop (n : nat) (src : list Z) (i j : nat) (dst : list Z)
  : outcome (list Z) :=
  match n with
  | O => Ret dst
  | S n' =>
      c ← rd src i;
      if c =? 13 then lorieConvertLF_loop n' src (S i) j dst
      else dst' ← wr dst j c; lorieConvertLF_loop n' src (S i) (S j) dst'
  end.

Definition lorieConvertLF (src dst : list Z) (bytes : nat) : outcome (list Z) :=
  lorieConvertLF_loop bytes src 0 0 dst.

(** [o] is the offset of the pointer [out] in its buffer. *)
Fixpoint lorieLatin1ToUTF8 (out : list Z) (o : nat) (inp : list Z) : outcome (list Z) :=
  match inp with
  | [] => Fault OutOfBounds
  | c :: inp' =>
      if c =? 0 then Ret out
      else if c <? 128 then
        out1 ← wr out o c;
        lorieLatin1ToUTF8 out1 (S o) inp'
      else
        out1 ← wr out o (0xc2 + (if 0xbf <? c then 1 else 0));
        out2 ← wr out1 (S o) (Z.land c 0x3f + 0x80);
        lorieLatin1ToUTF8 out2 (S (S o)) inp'
  end.

Definition continuation (b : Z) : bool := Z.land b 0xc0 =? 0x80.

(** The list is [utf + ix]; the loop condition reads [utf[ix]] before it
    compares [ix] with [size]. *)
Fixpoint lorieCheckUTF8_at (utf : list Z) (ix size : Z) : outcome bool :=
  match utf with
  | [] => Fault OutOfBounds
  | c :: r1 =>
    if (c =? 0) || negb (ix <? size) then Ret true
    else if Z.land c 0x80 =? 0 then lorieCheckUTF8_at r1 (ix + 1) size
    else match r1 with
    | [] => Fault OutOfBounds
    | c1 :: r2 =>
      if negb (continuation c1) then Ret false
      else if Z.land c 0xe0 =? 0xe0 then
        match r2 with
        | [] => Fault OutOfBounds
        | c2 :: r3 =>
          if negb (continuation c2) then Ret false
          else if Z.land c 0xf0 =? 0xf0 then
            if negb (Z.land c 0xf8 =? 0xf0) then Ret false
            else match r3 with
            | [] => Fault OutOfBounds
            | c3 :: r4 =>
              if negb (continuation c3) then Ret false
              else lorieCheckUTF8_at r4 (ix + 4) size
            end
          else lorieCheckUTF8_at r3 (ix + 3) size
        end
      else lorieCheckUTF8_at r2 (ix + 2) size
    end
  end.

Definition lorieCheckUTF8 (utf : list Z) (size : Z) : outcome bool :=
  lorieCheckUTF8_at utf 0 size.

(** The [while] of the invalid-lead branch: it reads one byte more than it
    consumes. *)
Fixpoint skip_continuations (src : list Z) (max consumed : Z) : outcome Z :=
  if max =? 0 then Ret consumed
  else match src with
  | [] => Fault OutOfBounds
  | b :: src' =>
      if continuation b then skip_continuations src' (max - 1) (consumed + 1)
      else Ret consumed
  end.

(** [while (count--)]; the result is the pair of the return value and [*dst]. *)
Fixpoint ucs4_continuations (count : nat) (src : list Z) (max consumed dst : Z)
  : outcome (Z * Z) :=
  match count with
  | O =>
      if (0xd800 <=? dst) && (dst <? 0xe000) then Ret (consumed, 0xfffd)
      else Ret (consumed, dst)
  | S count' =>
      let consumed := consumed + 1 in
      if max =? 0 then Ret (consumed, 0xfffd)
      else match src with
      | [] => Fault OutOfBounds
      | b :: src' =>
          if negb (continuation b) then Ret (consumed, 0xfffd)
          else ucs4_continuations count' src' (max - 1) consumed
                 (u32 (Z.lor (u32 (Z.shiftl dst 6)) (Z.land b 0x3f)))
      end
  end.

Definition lorieUtf8ToUCS4 (src : list Z) (max : Z) : outcome (Z * Z) :=
  if max =? 0 then Ret (0, 0xfffd)
  else match src with
  | [] => Fault OutOfBounds
  | b :: src' =>
      if Z.land b 0x80 =? 0 then ucs4_continuations 0 src' (max - 1) 1 b
      else if Z.land b 0xe0 =? 0xc0 then
        ucs4_continuations 1 src' (max - 1) 1 (Z.land b 0x1f)
      else if Z.land b 0xf0 =? 0xe0 then
        ucs4_continuations 2 src' (max - 1) 1 (Z.land b 0x0f)
      else if Z.land b 0xf8 =? 0xf0 then
        ucs4_continuations 3 src' (max - 1) 1 (Z.land b 0x07)
      else
        consumed ← skip_continuations src' (max - 1) 1;
        Ret (consumed, 0xfffd)
  end.

(** [while ((in_len > 0) && ( *in != 0))]: first pass, counting. *)
Fixpoint latin1_size (fuel : nat) (inp : list Z) (in_len sz : Z) : outcome Z :=
  match fuel with
  | O => Fault FuelExhausted
  | S fuel' =>
      if in_len =? 0 then Ret sz
      else
        b ← rd inp 0;
        if b =? 0 then Ret sz
        else
          '(len, ucs) ← lorieUtf8ToUCS4 inp in_len;
          latin1_size fuel' (drop (Z.to_nat len) inp) (u64 (in_len - len)) (u64 (sz + 1))
  end.

Definition latin1_of (ucs : Z) : Z := if 0xff <? ucs then 63 else u8 ucs.

(** Second pass, writing [out[position++]]. *)
Fixpoint latin1_fill (fuel : nat) (inp : list Z) (in_len : Z) (out : list Z) (position : nat)
  : outcome (list Z) :=
  match fuel with
  | O => Fault FuelExhausted
  | S fuel' =>
      if in_len =? 0 then Ret out
      else
        b ← rd inp 0;
        if b =? 0 then Ret out
        else
          '(len, ucs) ← lorieUtf8ToUCS4 inp in_len;
          out' ← wr out position (latin1_of ucs);
          latin1_fill fuel' (drop (Z.to_nat len) inp) (u64 (in_len - len)) out' (S position)
  end.

(** The result is the string [strdup] copies; [(size_t) -1] bounds the first
    pass and [(size_t) 4.294967295E9] the second. *)
Definition lorieUtf8ToLatin1 (src : list Z) : outcome (list Z) :=
  sz ← latin1_size (S (length src)) src (u64 (-1)) 0;
  out ← latin1_fill (S (length src)) src 4294967295 (zeros (Z.to_nat (u64 (sz + 1)))) 0;
  cstring out.

(** ** Reference definitions *)

(** UTF-8 as RFC 3629 defines it. *)
Definition utf8_encode (cp : Z) : list Z :=
  if cp <? 0x80 then [cp]
  else if cp <? 0x800 then [0xc0 + cp / 64; 0x80 + cp `mod` 64]
  else if cp <? 0x10000 then
    [0xe0 + cp / 4096; 0x80 + (cp / 64) `mod` 64; 0x80 + cp `mod` 64]
  else
    [0xf0 + cp / 262144; 0x80 + (cp / 4096) `mod` 64; 0x80 + (cp / 64) `mod` 64;
     0x80 + cp `mod` 64].

Definition utf8_encode_all (cps : list Z) : list Z := cps ≫= utf8_encode.

(** Unicode scalar values other than NUL. *)
Definition scalar (cp : Z) : Prop :=
  0 < cp < 0xd800 \/ 0xe000 <= cp < 0x110000.

(** What the checker accepts: leads followed by as many continuation bytes as
    their top bits announce, a stray continuation byte counting as the lead of
    a pair. *)
Inductive utf8_shape : list Z -> Prop :=
  | shape_nil : utf8_shape []
  | shape_1 c s : 0 < c < 0x80 -> utf8_shape s -> utf8_shape (c :: s)
  | shape_2 c c1 s :
      0x80 <= c < 0xe0 -> continuation c1 = true -> utf8_shape s ->
      utf8_shape (c :: c1 :: s)
  | shape_3 c c1 c2 s :
      0xe0 <= c < 0xf0 -> continuation c1 = true -> continuation c2 = true ->
      utf8_shape s -> utf8_shape (c :: c1 :: c2 :: s)
  | shape_4 c c1 c2 c3 s :
      0xf0 <= c < 0xf8 -> continuation c1 = true -> continuation c2 = true ->
      continuation c3 = true -> utf8_shape s -> utf8_shape (c :: c1 :: c2 :: c3 :: s).

(** ** The masks of the code as comparisons *)
Lemma mask_80 b : byteP b -> (Z.land b 0x80 =? 0) = (b <? 0x80).
Proof. intros; apply eqb_true_iff; by apply (byte_cases (fun b => eqb (Z.land b 0x80 =? 0) (b <? 0x80))). Qed.

Lemma mask_e0_lead3 b : byteP b -> (Z.land b 0xe0 =? 0xe0) = (0xe0 <=? b).
Proof. intros; apply eqb_true_iff; by apply (byte_cases (fun b => eqb (Z.land b 0xe0 =? 0xe0) (0xe0 <=? b))). Qed.

Lemma mask_f0_lead4 b : byteP b -> (Z.land b 0xf0 =? 0xf0) = (0xf0 <=? b).
Proof. intros; apply eqb_true_iff; by apply (byte_cases (fun b => eqb (Z.land b 0xf0 =? 0xf0) (0xf0 <=? b))). Qed.

Lemma mask_f8 b : byteP b -> (Z.land b 0xf8 =? 0xf0) = (0xf0 <=? b) && (b <? 0xf8).
Proof. intros; apply eqb_true_iff; by apply (byte_cases (fun b => eqb (Z.land b 0xf8 =? 0xf0) ((0xf0 <=? b) && (b <? 0xf8)))). Qed.

Lemma mask_lead2 b : byteP b -> (Z.land b 0xe0 =? 0xc0) = (0xc0 <=? b) && (b <? 0xe0).
Proof. intros; apply eqb_true_iff; by apply (byte_cases (fun b => eqb (Z.land b 0xe0 =? 0xc0) ((0xc0 <=? b) && (b <? 0xe0)))). Qed.

Lemma mask_lead3 b : byteP b -> (Z.land b 0xf0 =? 0xe0) = (0xe0 <=? b) && (b <? 0xf0).
Proof. intros; apply eqb_true_iff; by apply (byte_cases (fun b => eqb (Z.land b 0xf0 =? 0xe0) ((0xe0 <=? b) && (b <? 0xf0)))). Qed.

Lemma continuation_range b : byteP b -> continuation b = (0x80 <=? b) && (b <? 0xc0).
Proof. intros; apply eqb_true_iff; by apply (byte_cases (fun b => eqb (continuation b) ((0x80 <=? b) && (b <? 0xc0)))). Qed.

Lemma land_low b n : 0 <= n -> Z.land b (2 ^ n - 1) = b `mod` 2 ^ n.
Proof. intros. rewrite <- Z.land_ones, Z.ones_equiv by done. f_equal. Qed.

Lemma continuation_of x : 0 <= x < 64 -> continuation (0x80 + x) = true.
Proof.
  intros. rewrite continuation_range by (unfold byteP; lia).
  apply andb_true_iff; split; [apply Z.leb_le | apply Z.ltb_lt]; lia.
Qed.

Lemma payload_of x : 0 <= x < 64 -> Z.land (0x80 + x) 0x3f = x.
Proof. intros. change 0x3f with (2 ^ 6 - 1). rewrite land_low by lia. divmod. Qed.

Lemma payload_shift d x : 0 <= d -> 0 <= x < 64 -> d * 64 + x < 2 ^ 32 ->
  u32 (Z.lor (u32 (Z.shiftl d 6)) x) = d * 64 + x.
Proof.
  intros. rewrite (wrap_u_small 32 (Z.shiftl d 6)).
  - rewrite lor_shiftl_add by lia. apply wrap_u_small. lia.
  - rewrite Z.shiftl_mul_pow2 by lia. lia.
Qed.

(** One more continuation byte. *)
Lemma ucs4_continuations_S count d x rest max consumed :
  max <> 0 -> 0 <= d -> 0 <= x < 64 -> d * 64 + x < 2 ^ 32 ->
  ucs4_continuations (S count) (0x80 + x :: rest) max consumed d =
  ucs4_continuations count rest (max - 1) (consumed + 1) (d * 64 + x).
Proof.
  intros Hm Hd Hx Hb. simpl. rewrite (proj2 (Z.eqb_neq max 0)) by done.
  rewrite continuation_of, payload_of by done. simpl. by rewrite payload_shift.
Qed.

Lemma ucs4_continuations_0 rest max consumed d :
  ~ (0xd800 <= d < 0xe000) -> ucs4_continuations 0 rest max consumed d = Ret (consumed, d).
Proof. intros. simpl. case_bool; [bool_arith; lia | done]. Qed.

(** The dispatch on the lead byte. *)
Lemma lead_dispatch b r max :
  byteP b -> max <> 0 -> b < 0x80 \/ 0xc0 <= b < 0xf8 ->
  lorieUtf8ToUCS4 (b :: r) max =
  if b <? 0x80 then ucs4_continuations 0 r (max - 1) 1 b
  else if b <? 0xe0 then ucs4_continuations 1 r (max - 1) 1 (b - 0xc0)
  else if b <? 0xf0 then ucs4_continuations 2 r (max - 1) 1 (b - 0xe0)
  else ucs4_continuations 3 r (max - 1) 1 (b - 0xf0).
Proof.
  intros Hb Hm Hr. unfold lorieUtf8ToUCS4. rewrite (proj2 (Z.eqb_neq max 0)) by done.
  rewrite mask_80, mask_lead2, mask_lead3, mask_f8 by done.
  change 0x1f with (2 ^ 5 - 1). change 0x0f with (2 ^ 4 - 1). change 0x07 with (2 ^ 3 - 1).
  rewrite !land_low by lia.
  repeat case_bool; bool_arith; try lia; try done; f_equal; unfold byteP in *; divmod.
Qed.

(** ** Decoding what RFC 3629 encodes *)
Lemma utf8_decode_encode cp rest max :
  scalar cp -> Z.of_nat (length (utf8_encode cp)) <= max ->
  lorieUtf8ToUCS4 (utf8_encode cp ++ rest) max = Ret (Z.of_nat (length (utf8_encode cp)), cp).
Proof.
  unfold scalar, utf8_encode. intros Hs.
  repeat case_bool; bool_arith; intros Hm; cbn [app length] in *;
    (rewrite lead_dispatch by (unfold byteP; divmod));
    repeat (case_bool; bool_arith; try divmod);
    rewrite ?ucs4_continuations_S by divmod;
    (rewrite ucs4_continuations_0 by divmod); do 2 f_equal; divmod.
Qed.

Lemma utf8_encode_nonempty cp : (0 < length (utf8_encode cp) <= 4)%nat.
Proof. unfold utf8_encode. repeat case_bool; simpl; lia. Qed.

Lemma utf8_encode_bytes cp : scalar cp -> Forall (fun b => 0 < b < 256) (utf8_encode cp).
Proof.
  unfold scalar, utf8_encode. intros.
  repeat case_bool; bool_arith; repeat constructor; divmod.
Qed.

Lemma utf8_encode_all_bytes cps :
  Forall scalar cps -> Forall (fun b => 0 < b < 256) (utf8_encode_all cps).
Proof.
  induction 1; [constructor|]. cbn. apply Forall_app. auto using utf8_encode_bytes.
Qed.

Lemma utf8_encode_all_cons cp cps :
  utf8_encode_all (cp :: cps) = utf8_encode cp ++ utf8_encode_all cps.
Proof. reflexivity. Qed.

Lemma utf8_encode_all_length cps : (length cps <= length (utf8_encode_all cps))%nat.
Proof.
  induction cps as [|cp cps IH]; [done|].
  rewrite utf8_encode_all_cons, length_app. simpl.
  pose proof (utf8_encode_nonempty cp). lia.
Qed.

(** One iteration of either pass on encoded text. *)
Lemma utf8_head cp rest :
  scalar cp -> exists b, rd (utf8_encode cp ++ rest) 0 = Ret b /\ (b =? 0) = false.
Proof.
  intros Hs. pose proof (utf8_encode_nonempty cp) as Hl.
  pose proof (utf8_encode_bytes cp Hs) as Hb.
  destruct (utf8_encode cp) as [|b bs]; [simpl in Hl; lia|].
  exists b. split; [done|]. inversion Hb; subst. apply Z.eqb_neq. lia.
Qed.

Lemma drop_encoded cp rest :
  drop (Z.to_nat (Z.of_nat (length (utf8_encode cp)))) (utf8_encode cp ++ rest) = rest.
Proof. rewrite Nat2Z.id. by rewrite drop_app_length. Qed.

Lemma latin1_size_spec cps fuel rest in_len sz :
  Forall scalar cps -> (length cps < fuel)%nat ->
  Z.of_nat (length (utf8_encode_all cps)) <= in_len < 2 ^ 64 ->
  0 <= sz -> sz + Z.of_nat (length cps) < 2 ^ 64 ->
  latin1_size fuel (utf8_encode_all cps ++ 0 :: rest) in_len sz
  = Ret (sz + Z.of_nat (length cps)).
Proof.
  intros Hcps. revert fuel in_len sz. induction Hcps as [|cp cps Hcp Hcps IH];
    intros fuel in_len sz Hf Hl Hsz Hb; destruct fuel as [|fuel]; try (simpl in Hf; lia).
  - cbn. case_bool; f_equal; lia.
  - rewrite utf8_encode_all_cons in *. rewrite length_app in Hl. rewrite <- app_assoc.
    pose proof (utf8_encode_nonempty cp). cbn [latin1_size].
    rewrite (proj2 (Z.eqb_neq in_len 0)) by lia.
    destruct (utf8_head cp (utf8_encode_all cps ++ 0 :: rest) Hcp) as (b & -> & Hb0).
    cbn. rewrite Hb0, utf8_decode_encode by (done || lia). cbn.
    rewrite drop_encoded. cbn [length] in *. rewrite !wrap_u_small by lia.
    rewrite IH by (simpl in *; lia). f_equal. lia.
Qed.

Lemma latin1_fill_spec cps fuel rest in_len out n :
  Forall scalar cps -> (length cps < fuel)%nat ->
  Z.of_nat (length (utf8_encode_all cps)) <= in_len < 2 ^ 64 ->
  (length cps <= n)%nat ->
  latin1_fill fuel (utf8_encode_all cps ++ 0 :: rest) in_len (out ++ zeros n) (length out)
  = Ret (out ++ map latin1_of cps ++ zeros (n - length cps)).
Proof.
  intros Hcps. revert fuel in_len out n. induction Hcps as [|cp cps Hcp Hcps IH];
    intros fuel in_len out n Hf Hl Hn; destruct fuel as [|fuel]; try (simpl in Hf; lia).
  - cbn. rewrite Nat.sub_0_r. case_bool; done.
  - rewrite utf8_encode_all_cons in *. rewrite length_app in Hl. rewrite <- app_assoc.
    pose proof (utf8_encode_nonempty cp). cbn [latin1_fill].
    rewrite (proj2 (Z.eqb_neq in_len 0)) by lia.
    destruct (utf8_head cp (utf8_encode_all cps ++ 0 :: rest) Hcp) as (b & -> & Hb0).
    cbn. rewrite Hb0, utf8_decode_encode by (done || lia). cbn.
    destruct n as [|n]; [simpl in Hn; lia|]. rewrite wr_fill. cbn.
    rewrite drop_encoded, wrap_u_small by lia.
    replace (S (length out)) with (length (out ++ [latin1_of cp]))
      by (rewrite length_app; simpl; lia).
    rewrite IH by (simpl in *; lia). cbn. by rewrite <- app_assoc.
Qed.

Lemma utf8ToLatin1_of_encoding cps rest :
  Forall scalar cps -> Z.of_nat (length (utf8_encode_all cps)) <= 4294967295 ->
  lorieUtf8ToLatin1 (utf8_encode_all cps ++ 0 :: rest) = Ret (map latin1_of cps).
Proof.
  intros Hcps Hl. pose proof (utf8_encode_all_length cps) as Hlen.
  unfold lorieUtf8ToLatin1.
  assert (length cps < S (length (utf8_encode_all cps ++ 0%Z :: rest)))%nat as Hf
    by (rewrite length_app; lia).
  revert Hf. generalize (S (length (utf8_encode_all cps ++ 0 :: rest))). intros fuel Hf.
  change (u64 (-1)) with 18446744073709551615.
  rewrite latin1_size_spec by (done || lia).
  cbn [mbind outcome_bind]. rewrite (wrap_u_small 64) by lia.
  replace (Z.to_nat (0 + Z.of_nat (length cps) + 1)) with (length cps + 1)%nat by lia.
  pose proof (latin1_fill_spec cps fuel rest 4294967295 [] (length cps + 1)) as Hfill.
  cbn [app length] in Hfill. rewrite Hfill by (done || lia).
  cbn [mbind outcome_bind]. replace (length cps + 1 - length cps)%nat with 1%nat by lia.
  apply cstring_app, Forall_map, (Forall_impl _ _ _ Hcps).
  intros cp Hcp. cbn. unfold latin1_of, scalar in *. case_bool; bool_arith; [lia|].
  rewrite wrap_u_small; lia.
Qed.

(** Latin-1 to UTF-8 writes the RFC 3629 encoding. *)
Lemma latin1_byte_encode c :
  0 < c < 256 -> utf8_encode c =
  if c <? 128 then [c] else [0xc2 + (if 0xbf <? c then 1 else 0); Z.land c 0x3f + 0x80].
Proof.
  intros. unfold utf8_encode. change 0x3f with (2 ^ 6 - 1). rewrite land_low by lia.
  repeat case_bool; bool_arith; try lia; try done;
    (f_equal; [divmod | f_equal; divmod]).
Qed.

Lemma lorieLatin1ToUTF8_spec s rest out n :
  Forall (fun b => 0 < b < 256) s -> (length (utf8_encode_all s) <= n)%nat ->
  lorieLatin1ToUTF8 (out ++ zeros n) (length out) (s ++ 0 :: rest)
  = Ret (out ++ utf8_encode_all s ++ zeros (n - length (utf8_encode_all s))).
Proof.
  intros Hs. revert out n. induction Hs as [|c s Hc Hs IH]; intros out n Hn.
  - cbn. by rewrite Nat.sub_0_r.
  - rewrite utf8_encode_all_cons, length_app in *. cbn [app lorieLatin1ToUTF8].
    rewrite (proj2 (Z.eqb_neq c 0)) by lia. rewrite latin1_byte_encode in * by done.
    destruct (c <? 128).
    + destruct n as [|n]; [simpl in Hn; lia|]. rewrite wr_fill. cbn.
      replace (S (length out)) with (length (out ++ [c])) by (rewrite length_app; simpl; lia).
      rewrite IH by (simpl in *; lia). by rewrite <- app_assoc.
    + destruct n as [|[|n]]; try (simpl in Hn; lia). rewrite wr_fill. cbind.
      generalize (0xc2 + (if 0xbf <? c then 1 else 0)), (Z.land c 0x3f + 0x80). intros x y.
      replace (S (length out)) with (length (out ++ [x])) by (rewrite length_app; simpl; lia).
      rewrite wr_fill. cbind.
      replace (S (length (out ++ [x]))) with (length ((out ++ [x]) ++ [y]))
        by (rewrite !length_app; simpl; lia).
      rewrite IH by (simpl in *; lia). by rewrite <- !app_assoc.
Qed.

Lemma latin1_encoding_length s :
  Forall (fun b => 0 < b < 256) s -> (length (utf8_encode_all s) <= 2 * length s)%nat.
Proof.
  induction 1 as [|c s Hc Hs IH]; [done|].
  rewrite utf8_encode_all_cons, length_app, latin1_byte_encode by done.
  case_bool; simpl; lia.
Qed.

(** ** The UTF-8 checker *)

(** The code's case analysis on the lead byte [c], as ranges. *)
Ltac check_masks c :=
  rewrite ?(mask_80 c), ?(mask_e0_lead3 c), ?(mask_f0_lead4 c), ?(mask_f8 c)
    by (unfold byteP; lia).

Lemma shape_2_inv c c1 s :
  0x80 <= c < 0xe0 -> utf8_shape (c :: c1 :: s) -> continuation c1 = true /\ utf8_shape s.
Proof. intros Hc H. inversion H; subst; try lia. done. Qed.

Lemma shape_3_inv c c1 c2 s :
  0xe0 <= c < 0xf0 -> utf8_shape (c :: c1 :: c2 :: s) ->
  continuation c1 = true /\ continuation c2 = true /\ utf8_shape s.
Proof. intros Hc H. inversion H; subst; try lia. done. Qed.

Lemma shape_4_inv c c1 c2 c3 s :
  0xf0 <= c < 0xf8 -> utf8_shape (c :: c1 :: c2 :: c3 :: s) ->
  continuation c1 = true /\ continuation c2 = true /\ continuation c3 = true /\ utf8_shape s.
Proof. intros Hc H. inversion H; subst; try lia. done. Qed.

(** What one failing lead needs to be rejected by the grammar. *)
Ltac not_shape :=
  eexists; split; [reflexivity|]; split; [done|];
  let Hbad := fresh "Hbad" in
  intros Hbad; exfalso; inversion Hbad; subst; (lia || congruence).

Lemma check_at_spec n s ix rest :
  (length s <= n)%nat -> Forall (fun b => 0 < b < 256) s ->
  exists b, lorieCheckUTF8_at (s ++ 0 :: rest) ix (ix + Z.of_nat (length s)) = Ret b
            /\ (b = true <-> utf8_shape s).
Proof.
  revert s ix. induction n as [|n IH]; intros s ix Hn Hs.
  { destruct s; [|simpl in Hn; lia]. exists true. split; [done|]. split; constructor. }
  destruct s as [|c s]; [exists true; split; [done|]; split; constructor|].
  inversion Hs as [|? ? Hc Hs1]; subst. simpl in Hn.
  cbn [app lorieCheckUTF8_at].
  rewrite (proj2 (Z.eqb_neq c 0)), (proj2 (Z.ltb_lt ix _)) by (simpl; lia).
  cbn [negb orb]. check_masks c. case_bool; bool_arith.
  { destruct (IH s (ix + 1) ltac:(lia) Hs1) as (b & Hb & Hiff). exists b. split.
    - rewrite <- Hb. f_equal. simpl. lia.
    - rewrite Hiff. split; [constructor; [lia|done]|]. intros H. inversion H; subst; done || lia. }
  destruct s as [|c1 s]; cbn [app]; [not_shape|].
  destruct (continuation c1) eqn:E1; cbn [negb]; [|not_shape].
  inversion Hs1 as [|? ? Hc1 Hs2]; subst. case_bool; bool_arith.
  2: { destruct (IH s (ix + 2) ltac:(simpl in *; lia) Hs2) as (b & Hb & Hiff). exists b. split.
    - rewrite <- Hb. f_equal. simpl. lia.
    - rewrite Hiff. split; [by constructor|]. intros Hsh. apply shape_2_inv in Hsh; [tauto|lia]. }
  destruct s as [|c2 s]; cbn [app]; [not_shape|].
  destruct (continuation c2) eqn:E2; cbn [negb]; [|not_shape].
  inversion Hs2 as [|? ? Hc2 Hs3]; subst. case_bool; bool_arith.
  2: { destruct (IH s (ix + 3) ltac:(simpl in *; lia) Hs3) as (b & Hb & Hiff). exists b. split.
    - rewrite <- Hb. f_equal. simpl. lia.
    - rewrite Hiff. split; [by constructor|]. intros Hsh. apply shape_3_inv in Hsh; [tauto|lia]. }
  destruct (_ && _) eqn:E4; cbn [negb]; [|bool_arith; not_shape]. bool_arith.
  destruct s as [|c3 s]; cbn [app]; [not_shape|].
  destruct (continuation c3) eqn:Ec3; cbn [negb]; [|not_shape].
  inversion Hs3 as [|? ? Hc3 Hs4]; subst.
  destruct (IH s (ix + 4) ltac:(simpl in *; lia) Hs4) as (b & Hb & Hiff). exists b. split.
  - rewrite <- Hb. f_equal. simpl. lia.
  - rewrite Hiff. split; [by constructor|]. intros Hsh. apply shape_4_inv in Hsh; [tauto|lia].
Qed.

(** Without a NUL after the text, the loop condition reads one byte too far. *)
Lemma shape_read_past_end s :
  utf8_shape s -> Forall byteP s ->
  forall ix, 0 <= ix -> lorieCheckUTF8_at s ix (ix + Z.of_nat (length s)) = Fault OutOfBounds.
Proof.
  induction 1 as [|c s Hc Hs IH|c c1 s Hc Ec1 Hs IH|c c1 c2 s Hc Ec1 Ec2 Hs IH
                  |c c1 c2 c3 s Hc Ec1 Ec2 Ec3 Hs IH]; intros HB ix Hix; [done| ..];
    repeat match goal with H : Forall byteP (_ :: _) |- _ => inversion H; subst; clear H end;
    cbn [lorieCheckUTF8_at];
    decide_tests; check_masks c; decide_tests; rewrite ?Ec1, ?Ec2, ?Ec3; cbn [negb];
    match goal with
    | IH : Forall byteP ?s -> _ |- lorieCheckUTF8_at ?s (?ix + ?k) ?e = _ =>
        specialize (IH ltac:(done) (ix + k) ltac:(lia)); rewrite <- IH; f_equal; simpl; lia
    end.
Qed.

(** With any byte after the text, the check accepts it. *)
Lemma shape_accepted s x rest :
  utf8_shape s -> Forall byteP s ->
  forall ix, 0 <= ix -> lorieCheckUTF8_at (s ++ x :: rest) ix (ix + Z.of_nat (length s)) = Ret true.
Proof.
  induction 1 as [|c s Hc Hs IH|c c1 s Hc Ec1 Hs IH|c c1 c2 s Hc Ec1 Ec2 Hs IH
                  |c c1 c2 c3 s Hc Ec1 Ec2 Ec3 Hs IH]; intros HB ix Hix;
    [cbn [app lorieCheckUTF8_at length]; by rewrite (proj2 (Z.ltb_ge ix _)), orb_true_r by lia|..];
    repeat match goal with H : Forall byteP (_ :: _) |- _ => inversion H; subst; clear H end;
    cbn [app lorieCheckUTF8_at];
    decide_tests; check_masks c; decide_tests; rewrite ?Ec1, ?Ec2, ?Ec3; cbn [negb];
    match goal with
    | IH : Forall byteP ?s -> _ |- lorieCheckUTF8_at (?s ++ _) (?ix + ?k) ?e = _ =>
        specialize (IH ltac:(done) (ix + k) ltac:(lia)); rewrite <- IH; f_equal; simpl; lia
    end.
Qed.

Lemma encoded_shape cps : Forall scalar cps -> utf8_shape (utf8_encode_all cps).
Proof.
  induction 1 as [|cp cps Hcp Hcps IH]; [constructor|].
  rewrite utf8_encode_all_cons. unfold scalar, utf8_encode in *.
  repeat case_bool; bool_arith; cbn [app]; constructor;
    first [apply continuation_of; divmod | done | divmod].
Qed.

(** ** Dropping carriage returns *)
Lemma lorieConvertLF_loop_spec n src i j p k :
  length p = j -> (length src = i + n)%nat -> (n <= k)%nat ->
  lorieConvertLF_loop n src i j (p ++ zeros k)
  = Ret (p ++ filter (fun c => c <> 13) (drop i src)
           ++ zeros (k - length (filter (fun c => c <> 13) (drop i src)))).
Proof.
  revert i j p k. induction n as [|n IH]; intros i j p k Hp Hl Hk.
  - rewrite drop_ge by lia. cbn. by rewrite Nat.sub_0_r.
  - cbn [lorieConvertLF_loop]. unfold rd.
    destruct (lookup_lt_is_Some_2 src i ltac:(lia)) as [c Hc]. rewrite Hc. cbind.
    rewrite (drop_S src c i) by done. destruct (Z.eqb_spec c 13) as [->|Hne].
    + rewrite IH by lia. rewrite filter_cons_False by lia. done.
    + destruct k as [|k]; [lia|]. subst j. rewrite wr_fill. cbind.
      rewrite filter_cons_True by done.
      rewrite (IH (S i) (S (length p)) (p ++ [c]) k) by (rewrite ?length_app; simpl; lia).
      by rewrite <- app_assoc.
Qed.

(** ** Properties *)

(** C33: converting a Latin-1 clipboard to UTF-8, in the buffer of
    [2 * (size + 1)] zero bytes that lorieHandleSelection allocates, stays
    inside the buffer, and converting the result back gives the same bytes. *)
Theorem latin1_utf8_roundtrip (s : list Z) :
  Forall (fun b => 0 < b < 256) s -> Z.of_nat (length s) < 2 ^ 31 ->
  exists u, lorieLatin1ToUTF8 (zeros (2 * (length s + 1))) 0 (s ++ [0]) = Ret u
            /\ length u = (2 * (length s + 1))%nat
            /\ lorieUtf8ToLatin1 u = Ret s.
Proof.
  intros Hs Hl. pose proof (latin1_encoding_length s Hs) as Hle.
  set (m := (2 * (length s + 1) - length (utf8_encode_all s))%nat).
  exists (utf8_encode_all s ++ zeros m). split; [|split].
  - apply (lorieLatin1ToUTF8_spec s [] [] (2 * (length s + 1)) Hs). lia.
  - rewrite length_app, length_zeros. lia.
  - assert (m = S (m - 1)) as -> by lia. rewrite zeros_S, utf8ToLatin1_of_encoding; [| |lia].
    + f_equal. rewrite <- (map_id s) at 2. apply map_ext_Forall, (Forall_impl _ _ _ Hs).
      intros b Hb. unfold latin1_of. case_bool; bool_arith; [lia|]. apply wrap_u_small. lia.
    + apply (Forall_impl _ _ _ Hs). intros b Hb. unfold scalar. lia.
Qed.

Lemma latin1_utf8_roundtrip_witness :
  exists u, lorieLatin1ToUTF8 (zeros (2 * (length [104; 233; 255] + 1))) 0 ([104; 233; 255] ++ [0]) = Ret u
            /\ length u = (2 * (length [104; 233; 255] + 1))%nat
            /\ lorieUtf8ToLatin1 u = Ret [104; 233; 255].
Proof. apply (latin1_utf8_roundtrip [104; 233; 255]); [repeat constructor; lia | simpl; lia]. Defined.

Lemma utf8_to_latin1_text (cps rest : list Z) :
  Forall scalar cps -> Z.of_nat (length (utf8_encode_all cps)) <= 4294967295 ->
  lorieUtf8ToLatin1 (utf8_encode_all cps ++ 0 :: rest)
  = Ret (map (fun cp => if cp <? 256 then cp else 63) cps).
Proof.
  intros Hcps Hl. rewrite utf8ToLatin1_of_encoding by done. f_equal.
  apply map_ext_Forall, (Forall_impl _ _ _ Hcps). intros cp Hcp.
  unfold latin1_of, scalar in *. repeat case_bool; bool_arith; try lia. apply wrap_u_small. lia.
Qed.

(** C35: on the UTF-8 encoding of any sequence of Unicode scalar values, the
    Latin-1 conversion never reads or writes out of bounds, and yields one
    byte per character: the character itself below 256, a question mark
    above. *)
Theorem utf8_to_latin1_correct (cps rest : list Z) :
  Forall scalar cps -> Z.of_nat (length (utf8_encode_all cps)) <= 4294967295 ->
  lorieUtf8ToLatin1 (utf8_encode_all cps ++ 0 :: rest)
  = Ret (map (fun cp => if cp <? 256 then cp else 63) cps).
Proof. apply utf8_to_latin1_text. Qed.

Lemma utf8_to_latin1_correct_witness :
  lorieUtf8ToLatin1 (utf8_encode_all [233; 0x20ac; 0x1f600; 65] ++ 0 :: [7])
  = Ret [233; 63; 63; 65].
Proof.
  apply (utf8_to_latin1_correct [233; 0x20ac; 0x1f600; 65] [7]);
    [repeat constructor; unfold scalar; lia | vm_compute; discriminate].
Defined.

(** On NUL-terminated text the UTF-8 check never reads past the
    terminator, whatever the bytes, and accepts exactly the sequences of leads
    followed by the announced number of continuation bytes; in particular it
    accepts every RFC 3629 encoding. *)
Theorem check_utf8_decides (s rest : list Z) :
  Forall (fun b => 0 < b < 256) s ->
  (exists b, lorieCheckUTF8 (s ++ 0 :: rest) (Z.of_nat (length s)) = Ret b
             /\ (b = true <-> utf8_shape s))
  /\ (forall cps, Forall scalar cps -> s = utf8_encode_all cps ->
      lorieCheckUTF8 (s ++ 0 :: rest) (Z.of_nat (length s)) = Ret true).
Proof.
  intros Hs. destruct (check_at_spec (length s) s 0 rest ltac:(lia) Hs) as (b & Hb & Hiff).
  split; [by exists b|]. intros cps Hcps ->. unfold lorieCheckUTF8.
  rewrite Z.add_0_l in Hb. rewrite Hb. f_equal. apply Hiff, encoded_shape, Hcps.
Qed.

Lemma check_utf8_decides_witness :
  exists b, lorieCheckUTF8 ([195; 169] ++ 0 :: []) (Z.of_nat (length [195; 169])) = Ret b
            /\ (b = true <-> utf8_shape [195; 169]).
Proof. apply (check_utf8_decides [195; 169] []); repeat constructor; lia. Defined.

(** The check also accepts two stray continuation bytes in a row, which
    no character encodes to and which the decoder turns into U+FFFD. *)
Theorem check_utf8_accepts_stray (c1 c2 max : Z) (rest : list Z) :
  0x80 <= c1 < 0xc0 -> 0x80 <= c2 < 0xc0 -> 2 <= max ->
  lorieCheckUTF8 (c1 :: c2 :: 0 :: rest) 2 = Ret true
  /\ lorieUtf8ToUCS4 (c1 :: c2 :: 0 :: rest) max = Ret (2, 0xfffd)
  /\ (forall cp, scalar cp -> utf8_encode cp <> [c1; c2]).
Proof.
  intros H1 H2 Hm. assert (continuation c2 = true) as Hc2.
  { rewrite continuation_range by (unfold byteP; lia).
    apply andb_true_iff; split; [apply Z.leb_le | apply Z.ltb_lt]; lia. }
  split; [|split].
  - destruct (check_at_spec 2 [c1; c2] 0 rest) as (b & Hb & Hiff);
      [simpl; lia | repeat constructor; lia |].
    cbn [app length] in Hb. unfold lorieCheckUTF8. rewrite <- (Z.add_0_l 2).
    change 2 with (Z.of_nat 2). rewrite Hb. f_equal. apply Hiff. constructor; [lia|done|constructor].
  - unfold lorieUtf8ToUCS4. rewrite (proj2 (Z.eqb_neq max 0)) by lia.
    rewrite mask_80, mask_lead2, mask_lead3, mask_f8 by (unfold byteP; lia).
    repeat (case_bool; bool_arith; try lia). cbn [skip_continuations].
    rewrite (proj2 (Z.eqb_neq (max - 1) 0)), Hc2 by lia.
    by case_bool.
  - intros cp Hcp. unfold utf8_encode, scalar in *.
    repeat case_bool; bool_arith; intros Heq; inversion Heq; divmod.
Qed.

Lemma check_utf8_accepts_stray_witness :
  lorieCheckUTF8 [0x80; 0x80; 0] 2 = Ret true
  /\ lorieUtf8ToUCS4 [0x80; 0x80; 0] 3 = Ret (2, 0xfffd)
  /\ (forall cp, scalar cp -> utf8_encode cp <> [0x80; 0x80]).
Proof. apply (check_utf8_accepts_stray 0x80 0x80 3 []); lia. Defined.

(** On a property buffer that holds exactly [size] bytes, without a NUL
    behind them, every text the check would accept makes it read one byte past
    the end of the buffer, because the loop condition reads [utf[ix]] before
    it compares [ix] with [size]. *)
Theorem check_utf8_overread (s : list Z) :
  utf8_shape s -> Forall byteP s ->
  lorieCheckUTF8 s (Z.of_nat (length s)) = Fault OutOfBounds.
Proof. intros Hs HB. by apply (shape_read_past_end s Hs HB 0). Qed.

Lemma check_utf8_overread_witness : lorieCheckUTF8 [104; 105] (Z.of_nat (length [104; 105])) = Fault OutOfBounds.
Proof.
  apply (check_utf8_overread [104; 105]);
    [apply shape_1; [lia|]; apply shape_1; [lia|]; apply shape_nil
    | repeat constructor; lia].
Defined.

(** LorieConvertLF copies the first [bytes] bytes without the carriage
    returns, in order, and leaves the rest of the zeroed destination of
    [bytes + 1] bytes alone: no write is out of bounds, and at least one NUL
    remains after the text. *)
Theorem convert_lf_correct (src : list Z) :
  exists k, lorieConvertLF src (zeros (length src + 1)) (length src)
            = Ret (filter (fun c => c <> 13) src ++ zeros (S k)).
Proof.
  exists (length src - length (filter (fun c => c <> 13%Z) src))%nat.
  pose proof (length_filter (fun c => c <> 13%Z) src) as Hle.
  unfold lorieConvertLF.
  pose proof (lorieConvertLF_loop_spec (length src) src 0 0 [] (length src + 1)) as Hspec.
  cbn [app] in Hspec. rewrite drop_0 in Hspec. rewrite Hspec by (simpl; lia). do 3 f_equal. lia.
Qed.
