(* ===== verification/Shm.v ===== *)
(** * System V shared memory over ashmem (shm/shmem.c)

    [shm_state] holds the globals of the file for one process, the links of
    [_PATH_TMP] it can see and the shared-memory descriptors it has open.  What
    the kernel answers during a call is the record [kernel]; the answers of other
    processes are among them, each there at once: [ShmSocket] computes them and
    models that the process waits for them, with its mutex held.  [malloc] and
    [realloc] are taken to succeed; the code uses their results untested. *)
From S2P Require Import Prelude.

(** ** Data *)

Record shmem_t : Type := mk_shmem {
  id : Z;
  addr : Z;                  (** 0 is NULL *)
  descriptor : Z;
  size : Z;
  markedForDeletion : bool;
  key : Z
}.

Inductive shm_effect : Type :=
  | Listening (socket_id : Z)
  | Linked (key shmid : Z)
  | Unlinked (key : Z)
  | Mapped (address size : Z)
  | Unmapped (address size : Z)
  | Closed (fd : Z).

Inductive shm_errno : Type := ENONE | EINVAL | ENOMEM | EOTHER.

Record shm_state : Type := mk_state {
  shmem : list shmem_t;
  shmem_counter : Z;
  ashv_local_socket_id : Z;
  ashv_pid_setup : Z;
  ashv_listening_thread_id : bool;   (** a thread has been created *)
  syscall_supported : bool;
  links : gmap Z Z;                  (** key of the link, [atoi] of its target *)
  fds : gset Z;                      (** open shared-memory descriptors *)
  errno : shm_errno;
  effects : list shm_effect          (** most recent first *)
}.

(** What another process answers on its socket, and what [ioctl] then says of
    the descriptor it sent. *)
Inductive remote_reply : Type :=
  | NoReply                          (** no socket, refused, short read, no descriptor *)
  | Reply (rkey rfd rsize : Z).

(** The answers of the kernel during one call. *)
Record kernel : Type := mk_kernel {
  getpid : Z;
  getpagesize : Z;
  socket_fd : Z;                     (** [socket], 0 being the failure the code tests *)
  bind_ok : Z -> bool;               (** is this socket id free? *)
  listen_ok : bool;
  symlink_ok : bool;                 (** may links be created and removed at all? *)
  ashmem_open : Z;
  ashmem_set_name : Z;
  ashmem_set_size : Z -> Z;
  remote : Z -> remote_reply;
  mmap : Z -> Z -> Z -> Z;           (** hint, size and descriptor to address, -1 on failure *)
  sys_shmget : Z -> Z -> Z;
  sys_shmat : Z -> Z -> Z;
  sys_shmdt : Z -> Z;
  sys_shmctl : Z -> Z -> Z
}.

Definition IPC_PRIVATE : Z := 0.

Inductive shm_cmd : Type := IPC_RMID | IPC_STAT | IPC_OTHER (c : Z).
Definition cmd_code (c : shm_cmd) : Z :=
  match c with IPC_RMID => 0 | IPC_STAT => 2 | IPC_OTHER c => c end.

(** The fields [shmctl] fills from the table, and the mode, 0666. *)
Record shmid_ds : Type := mk_ds { shm_segsz : Z; shm_nattch : Z; shm_perm_key : Z; shm_perm_mode : Z }.

(** ** Field updates *)
Definition set_shmem l st := mk_state l (shmem_counter st) (ashv_local_socket_id st)
  (ashv_pid_setup st) (ashv_listening_thread_id st) (syscall_supported st) (links st) (fds st)
  (errno st) (effects st).
Definition set_counter c st := mk_state (shmem st) c (ashv_local_socket_id st)
  (ashv_pid_setup st) (ashv_listening_thread_id st) (syscall_supported st) (links st) (fds st)
  (errno st) (effects st).
Definition set_socket_id i st := mk_state (shmem st) (shmem_counter st) i
  (ashv_pid_setup st) (ashv_listening_thread_id st) (syscall_supported st) (links st) (fds st)
  (errno st) (effects st).
Definition set_pid p st := mk_state (shmem st) (shmem_counter st) (ashv_local_socket_id st)
  p (ashv_listening_thread_id st) (syscall_supported st) (links st) (fds st)
  (errno st) (effects st).
Definition set_thread b st := mk_state (shmem st) (shmem_counter st) (ashv_local_socket_id st)
  (ashv_pid_setup st) b (syscall_supported st) (links st) (fds st) (errno st) (effects st).
Definition set_links m st := mk_state (shmem st) (shmem_counter st) (ashv_local_socket_id st)
  (ashv_pid_setup st) (ashv_listening_thread_id st) (syscall_supported st) m (fds st)
  (errno st) (effects st).
Definition set_fds s st := mk_state (shmem st) (shmem_counter st) (ashv_local_socket_id st)
  (ashv_pid_setup st) (ashv_listening_thread_id st) (syscall_supported st) (links st) s
  (errno st) (effects st).
Definition set_errno e st := mk_state (shmem st) (shmem_counter st) (ashv_local_socket_id st)
  (ashv_pid_setup st) (ashv_listening_thread_id st) (syscall_supported st) (links st) (fds st)
  e (effects st).
Definition log e st := mk_state (shmem st) (shmem_counter st) (ashv_local_socket_id st)
  (ashv_pid_setup st) (ashv_listening_thread_id st) (syscall_supported st) (links st) (fds st)
  (errno st) (e :: effects st).
Definition set_addr a s := mk_shmem (id s) a (descriptor s) (size s) (markedForDeletion s) (key s).
Definition set_marked s := mk_shmem (id s) (addr s) (descriptor s) (size s) true (key s).

(** [close] and a call that returns a new descriptor. *)
Definition close_fd (fd : Z) (st : shm_state) : shm_state :=
  log (Closed fd) (set_fds (fds st ∖ {[fd]}) st).
Definition open_fd (fd : Z) (st : shm_state) : shm_state := set_fds ({[fd]} ∪ fds st) st.

(** ** Detection of proot *)

(** [status] is the content of /proc/self/status, [None] when it cannot be
    opened.  [tracer_str || sscanf(tracer_str, ...)] returns at once when the
    string is found and hands NULL to [sscanf] when it is not, so the code
    behind the test is never reached. *)
Definition isProot (status : option string) : outcome bool :=
  match status with
  | None => Ret false
  | Some buf =>
      match String.index 0 "TracerPid:" buf with
      | Some _ => Ret false
      | None => Fault NullDeref
      end
  end.

(** [enosys]: does the probing system call answer ENOSYS? *)
Definition check_syscall_support (status : option string) (enosys supported : bool)
  : outcome bool :=
  p ← isProot status;
  if negb p then Ret supported
  else if negb enosys then Ret true else Ret supported.

(** ** Identifiers *)
Definition ROUND_UP (n s : Z) : Z := u64 (u64 (n + s - 1) / s * s).

Definition ashv_shmid_from_counter (socket_id counter : Z) : Z :=
  i32 (socket_id * 0x10000 + counter).

(** C division truncates towards zero. *)
Definition ashv_socket_id_from_shmid (shmid : Z) : Z := Z.quot shmid 0x10000.

Definition ashv_find_local_index (shmid : Z) (l : list shmem_t) : option nat :=
  fst <$> list_find (fun s => id s = shmid) l.

(** ** Bookkeeping *)
Definition ashv_check_pid (k : kernel) (st : shm_state) : shm_state :=
  if ashv_pid_setup st =? 0 then set_pid (getpid k) st
  else if negb (ashv_pid_setup st =? getpid k) then
    set_shmem [] (set_thread false (set_socket_id 0 (set_pid (getpid k) st)))
  else st.

Definition ashmem_create_region (k : kernel) (sz : Z) : Z :=
  if ashmem_open k <? 0 then ashmem_open k
  else if ashmem_set_name k <? 0 then ashmem_set_name k
  else if ashmem_set_size k sz <? 0 then ashmem_set_size k sz
  else ashmem_open k.

Definition android_shmem_delete (idx : nat) (st : shm_state) : shm_state :=
  match shmem st !! idx with
  | None => st
  | Some s =>
      let st := if negb (descriptor s =? 0) then close_fd (descriptor s) st else st in
      set_shmem (delete idx (shmem st)) st
  end.

(** One turn of the serving thread: the identifier received, if a whole one
    was, and the key and descriptor sent back. *)
Definition ashv_serve (received : option Z) (st : shm_state) : option (Z * Z) :=
  shmid ← received;
  idx ← ashv_find_local_index shmid (shmem st);
  s ← shmem st !! idx;
  Some (key s, descriptor s).

Definition ashv_read_remote_segment (k : kernel) (shmid : Z) (st : shm_state)
  : shm_state * option nat :=
  match remote k shmid with
  | NoReply => (st, None)
  | Reply rkey rfd rsize =>
      let st := open_fd rfd st in
      let sz := i32 rsize in
      if (sz =? 0) || (sz =? -1) then (st, None)
      else
        let s := mk_shmem shmid 0 rfd (u64 sz) false rkey in
        (set_shmem (shmem st ++ [s]) st, Some (length (shmem st)))
  end.

(** ** shmget *)

(** [for (i = 0; i < 4096; i++)]: the first socket id that can be bound. *)
Fixpoint bind_loop (k : kernel) (n : nat) (i : Z) : option Z :=
  match n with
  | O => None
  | S n' =>
      let socket_id := Z.land (getpid k + i) 0xffff in
      if bind_ok k socket_id then Some socket_id else bind_loop k n' (i + 1)
  end.

(** Start the serving thread; the boolean says whether [shmget] may go on. *)
Definition start_listening (k : kernel) (st : shm_state) : shm_state * bool :=
  if ashv_listening_thread_id st then (st, true)
  else if socket_fd k =? 0 then (set_errno EINVAL st, false)
  else match bind_loop k 4096 0 with
  | None => (set_errno ENOMEM (set_socket_id 0 st), false)
  | Some socket_id =>
      let st := set_socket_id socket_id st in
      if negb (listen_ok k) then (set_errno ENOMEM st, false)
      else (log (Listening socket_id) (set_thread true st), true)
  end.

Definition next_shmid (st : shm_state) : shm_state * Z :=
  let c := Z.land (shmem_counter st + 1) 0x7fff in
  (set_counter c st, ashv_shmid_from_counter (ashv_local_socket_id st) c).

(** The [while (true)] of a keyed request: either the identifier of an
    existing segment, or the identifier under which the link now points to
    this process. *)
Inductive key_result : Type := Existing (shmid : Z) | Owned (shmid : Z).

Definition take_ownership (k : kernel) (ky shmid : Z) (st : shm_state)
  : shm_state * Z * bool :=
  let '(st, shmid) := if shmid =? -1 then next_shmid st else (st, shmid) in
  if symlink_ok k && bool_decide (links st !! ky = None) then
    (log (Linked ky shmid) (set_links (<[ky := shmid]> (links st)) st), shmid, true)
  else (st, shmid, false).

Definition find_or_read (k : kernel) (target : Z) (st : shm_state) : shm_state * option nat :=
  match ashv_find_local_index target (shmem st) with
  | Some idx => (st, Some idx)
  | None => ashv_read_remote_segment k target st
  end.

(** One round: the identifier this process would use, -1 as long as it has none,
    and the result if the loop ends.  A link can be removed when one can be made. *)
Definition key_round (k : kernel) (ky shmid : Z) (st : shm_state)
  : outcome (shm_state * Z * option key_result) :=
  let own st :=
    let '(st, shmid, ok) := take_ownership k ky shmid st in
    Ret (st, shmid, if ok : bool then Some (Owned shmid) else None) in
  match links st !! ky with
  | None => own st
  | Some target =>
      let '(st, idx) := if negb (target =? 0) then find_or_read k target st else (st, None) in
      match idx with
      | Some idx =>
          match shmem st !! idx with
          | Some s => Ret (st, shmid, Some (Existing (id s)))
          | None => Fault OutOfBounds
          end
      | None =>
          own (if symlink_ok k then log (Unlinked ky) (set_links (delete ky (links st)) st) else st)
      end
  end.

Fixpoint key_loop (fuel : nat) (k : kernel) (ky shmid : Z) (st : shm_state)
  : outcome (shm_state * key_result) :=
  match fuel with
  | O => Fault FuelExhausted
  | S fuel' =>
      '(st, shmid, r) ← key_round k ky shmid st;
      match r with
      | Some r => Ret (st, r)
      | None => key_loop fuel' k ky shmid st
      end
  end.

Definition create_segment (k : kernel) (ky shmid sz : Z) (st : shm_state) : shm_state * Z :=
  let '(st, shmid) := if shmid =? -1 then next_shmid st else (st, shmid) in
  let sz := ROUND_UP sz (getpagesize k) in
  let fd := ashmem_create_region k sz in
  if fd <? 0 then (set_errno EOTHER st, -1)
  else (set_shmem (shmem st ++ [mk_shmem shmid 0 fd sz false ky]) (open_fd fd st), shmid).

Definition shmget (fuel : nat) (k : kernel) (ky sz : Z) (st : shm_state)
  : outcome (shm_state * Z) :=
  if syscall_supported st then
    Ret (st, sys_shmget k ky (if 2 ^ 63 - 1 <? sz then 2 ^ 64 - 1 else sz))
  else
    let '(st, ok) := start_listening k (ashv_check_pid k st) in
    if negb ok then Ret (st, -1)
    else if negb (ky =? IPC_PRIVATE) then
      '(st, r) ← key_loop fuel k ky (-1) st;
      match r with
      | Existing shmid => Ret (st, shmid)
      | Owned shmid => Ret (create_segment k ky shmid sz st)
      end
    else Ret (create_segment k ky (-1) sz st).

(** ** shmat, shmdt, shmctl *)
Definition shmat (k : kernel) (shmid shmaddr : Z) (st : shm_state) : shm_state * Z :=
  if syscall_supported st then (st, sys_shmat k shmid shmaddr)
  else
    let st := ashv_check_pid k st in
    let socket_id := ashv_socket_id_from_shmid shmid in
    let '(st, idx) :=
      match ashv_find_local_index shmid (shmem st) with
      | Some idx => (st, Some idx)
      | None =>
          if negb (socket_id =? ashv_local_socket_id st)
          then ashv_read_remote_segment k shmid st else (st, None)
      end in
    match idx with
    | None => (set_errno EINVAL st, -1)
    | Some idx =>
        match shmem st !! idx with
        | None => (st, -1)
        | Some s =>
            if addr s =? 0 then
              let a := mmap k shmaddr (size s) (descriptor s) in
              if a =? -1 then (st, -1)
              else (log (Mapped a (size s)) (set_shmem (<[idx := set_addr a s]> (shmem st)) st),
                    if a =? 0 then -1 else a)
            else (st, addr s)
        end
    end.

Definition shmdt (k : kernel) (shmaddr : Z) (st : shm_state) : shm_state * Z :=
  if syscall_supported st then (st, sys_shmdt k shmaddr)
  else
    let st := ashv_check_pid k st in
    match list_find (fun s => addr s = shmaddr) (shmem st) with
    | None => (st, 0)
    | Some (i, s) =>
        let st := log (Unmapped (addr s) (size s))
                    (set_shmem (<[i := set_addr 0 s]> (shmem st)) st) in
        if markedForDeletion s
           || negb (ashv_socket_id_from_shmid (id s) =? ashv_local_socket_id st)
        then (android_shmem_delete i st, 0)
        else (st, 0)
    end.

(** [buf] says whether the caller passed a buffer; the buffer's new content is
    the third component. *)
Definition shmctl (k : kernel) (shmid : Z) (cmd : shm_cmd) (buf : bool) (st : shm_state)
  : shm_state * Z * option shmid_ds :=
  if syscall_supported st then (st, sys_shmctl k shmid (cmd_code cmd), None)
  else
    let st := ashv_check_pid k st in
    match cmd with
    | IPC_RMID =>
        match ashv_find_local_index shmid (shmem st) with
        | None => (st, 0, None)
        | Some idx =>
            match shmem st !! idx with
            | None => (st, 0, None)
            | Some s =>
                if negb (addr s =? 0)
                then (set_shmem (<[idx := set_marked s]> (shmem st)) st, 0, None)
                else (android_shmem_delete idx st, 0, None)
            end
        end
    | IPC_STAT =>
        if negb buf then (set_errno EINVAL st, -1, None)
        else match ashv_find_local_index shmid (shmem st) with
        | None => (set_errno EINVAL st, -1, None)
        | Some idx =>
            match shmem st !! idx with
            | None => (set_errno EINVAL st, -1, None)
            | Some s => (st, 0, Some (mk_ds (size s) 1 (key s) 438))
            end
        end
    | IPC_OTHER _ => (set_errno EINVAL st, -1, None)
    end.

(** ** Traces of calls *)
Inductive shm_call : Type :=
  | CGet (fuel : nat) (ky sz : Z)
  | CAt (shmid shmaddr : Z)
  | CDt (shmaddr : Z)
  | CCtl (shmid : Z) (cmd : shm_cmd) (buf : bool).

Definition run_call (k : kernel) (c : shm_call) (st : shm_state) : outcome (shm_state * Z) :=
  match c with
  | CGet fuel ky sz => shmget fuel k ky sz st
  | CAt shmid a => Ret (shmat k shmid a st)
  | CDt a => Ret (shmdt k a st)
  | CCtl shmid cmd buf => Ret (fst (shmctl k shmid cmd buf st))
  end.

(** What the process may rely on during a call: no fork since the table was
    set up, and descriptors and addresses the kernel hands out are not in use. *)
Record call_ok (k : kernel) (st : shm_state) : Prop := {
  ok_emulated : syscall_supported st = false;
  ok_pid : ashv_pid_setup st = 0 \/ ashv_pid_setup st = getpid k;
  ok_region : ashmem_open k < 0 \/ (0 < ashmem_open k /\ (ashmem_open k ∉ fds st));
  ok_remote : forall shmid rkey rfd rsize, remote k shmid = Reply rkey rfd rsize ->
    0 < rfd /\ (rfd ∉ fds st) /\ rfd <> ashmem_open k;
  ok_mmap : forall hint sz fd a, mmap k hint sz fd = a -> a <> -1 -> a <> 0 ->
    a ∉ (addr <$> shmem st)
}.

(** The socket id in the high half of an identifier. *)
Definition carried_socket (shmid : Z) : Z := u32 shmid / 0x10000.

(** Sockets have one owner each: while this process has its own, no other process
    answers for an identifier that carries it, and a socket id that can be bound
    is carried by no segment of the table and answered for by nobody. *)
Record sockets_apart (k : kernel) (st : shm_state) : Prop := {
  apart_own : ashv_listening_thread_id st = true ->
    forall shmid, remote k shmid <> NoReply -> carried_socket shmid <> ashv_local_socket_id st;
  apart_bound : ashv_listening_thread_id st = false -> forall socket_id, bind_ok k socket_id = true ->
    (forall s, s ∈ shmem st -> carried_socket (id s) <> socket_id)
    /\ forall shmid, remote k shmid <> NoReply -> carried_socket shmid <> socket_id
}.

Definition is_get (c : shm_call) : nat := match c with CGet _ _ _ => 1 | _ => 0 end.

(** A sequence of calls under the conditions [ok], with the number of [shmget]s. *)
Inductive shm_steps (ok : kernel -> shm_state -> Prop) : nat -> shm_state -> shm_state -> Prop :=
  | steps_refl st : shm_steps ok 0 st st
  | steps_call gets st st1 st2 k c r :
      shm_steps ok gets st st1 -> ok k st1 -> run_call k c st1 = Ret (st2, r) ->
      shm_steps ok (gets + is_get c) st st2.

(** Every segment of the table has its own open descriptor, attached segments
    have distinct addresses, and a segment is marked for deletion only while it
    is attached. *)
Record table_ok (st : shm_state) : Prop := {
  tab_descriptors : NoDup (descriptor <$> shmem st);
  tab_open : Forall (fun s => 0 < descriptor s /\ descriptor s ∈ fds st) (shmem st);
  tab_addr : forall i j s t, shmem st !! i = Some s -> shmem st !! j = Some t ->
    addr s = addr t -> addr s <> 0 -> i = j;
  tab_marked : Forall (fun s => markedForDeletion s = true -> addr s <> 0) (shmem st)
}.

(** And its own identifier. *)
Record shm_inv (st : shm_state) : Prop := {
  inv_ids : NoDup (id <$> shmem st);
  inv_descriptors : NoDup (descriptor <$> shmem st);
  inv_open : Forall (fun s => 0 < descriptor s /\ descriptor s ∈ fds st) (shmem st);
  inv_addr : forall i j s t, shmem st !! i = Some s -> shmem st !! j = Some t ->
    addr s = addr t -> addr s <> 0 -> i = j;
  inv_marked : Forall (fun s => markedForDeletion s = true -> addr s <> 0) (shmem st)
}.

Lemma inv_intro st : NoDup (id <$> shmem st) -> table_ok st -> shm_inv st.
Proof. by intros ? []. Qed.

(** ** Lemmas on the table *)
Lemma find_local_index_Some shmid l i :
  ashv_find_local_index shmid l = Some i ->
  exists s, l !! i = Some s /\ id s = shmid.
Proof.
  unfold ashv_find_local_index. destruct (list_find _ l) as [[j s]|] eqn:E; [|done].
  apply list_find_Some in E as (Hj & Hs & _). intros [= <-]. eauto.
Qed.

Lemma find_local_index_None shmid l :
  ashv_find_local_index shmid l = None <-> shmid ∉ (id <$> l).
Proof.
  unfold ashv_find_local_index. split.
  - destruct (list_find _ l) as [[j s]|] eqn:E; [done|]. intros _ Hin.
    apply list_find_None in E. apply list_elem_of_fmap in Hin as (s & -> & Hs).
    rewrite Forall_forall in E. by apply (E s).
  - intros Hn. destruct (list_find _ l) as [[j s]|] eqn:E; [|done].
    apply list_find_Some in E as (Hj & Hs & _). exfalso. apply Hn.
    rewrite <- Hs. apply list_elem_of_fmap_2, (list_elem_of_lookup_2 _ _ _ Hj).
Qed.

Lemma NoDup_fmap_lookup {A B} (f : A -> B) (l : list A) i j x y :
  NoDup (f <$> l) -> l !! i = Some x -> l !! j = Some y -> f x = f y -> i = j.
Proof.
  intros Hnd Hi Hj E. eapply NoDup_lookup; [done| |].
  - rewrite list_lookup_fmap, Hi. done.
  - rewrite list_lookup_fmap, Hj, E. done.
Qed.

(** Updating an entry without changing [f] leaves the [f] column alone. *)
Lemma fmap_insert_same {A B} (f : A -> B) (l : list A) i x y :
  l !! i = Some x -> f y = f x -> f <$> <[i := y]> l = f <$> l.
Proof.
  intros Hi E. rewrite list_fmap_insert, E. apply list_insert_id.
  by rewrite list_lookup_fmap, Hi.
Qed.

Lemma Forall_insert_in {A} (P : A -> Prop) l i x : Forall P l -> P x -> Forall P (<[i := x]> l).
Proof. intros. by apply Forall_insert. Qed.

Lemma fmap_delete_list {A B} (f : A -> B) (l : list A) i : f <$> delete i l = delete i (f <$> l).
Proof. revert i. induction l as [|x l IH]; intros [|i]; [done..|]. cbn. f_equal. apply IH. Qed.

Lemma NoDup_delete {A} (l : list A) i : NoDup l -> NoDup (delete i l).
Proof. intros. eapply sublist_NoDup; [done|apply sublist_delete]. Qed.

Lemma Forall_delete_in {A} (P : A -> Prop) l i : Forall P l -> Forall P (delete i l).
Proof. apply Forall_delete. Qed.

Lemma NoDup_app_one {A} (l : list A) x : NoDup l -> x ∉ l -> NoDup (l ++ [x]).
Proof.
  intros. apply NoDup_app. split; [done|]. split; [|apply NoDup_singleton].
  intros y Hy ->%list_elem_of_singleton. done.
Qed.

(** ** Each operation on the table preserves the invariant *)

(** The invariant depends on the table and on the open descriptors only. *)
Lemma inv_table st st' :
  shmem st' = shmem st -> fds st' = fds st -> table_ok st -> table_ok st'.
Proof. intros El Ef []. split; rewrite ?El, ?Ef; done. Qed.

Lemma inv_more_fds st fd : table_ok st -> table_ok (open_fd fd st).
Proof.
  intros [Hd Ho Ha Hm]. split; [done| |done|done].
  apply (Forall_impl _ _ _ Ho). intros s [Hpos Hin]. split; [done|set_solver].
Qed.

Lemma inv_append st s :
  table_ok st -> descriptor s ∉ fds st -> 0 < descriptor s ->
  addr s = 0 -> markedForDeletion s = false ->
  table_ok (set_shmem (shmem st ++ [s]) (open_fd (descriptor s) st)).
Proof.
  intros [Hd Ho Ha Hm] Hfd Hpos Haddr Hmark. split; cbn.
  - rewrite fmap_app. apply NoDup_app_one; [done|].
    intros (t & E & Ht)%list_elem_of_fmap. rewrite Forall_forall in Ho.
    apply Ho in Ht as [_ Ht]. rewrite <- E in Ht. done.
  - apply Forall_app. split.
    + apply (Forall_impl _ _ _ Ho). intros t [Hpos' Hin]. split; [done|set_solver].
    + repeat constructor; [done|set_solver].
  - intros i j x y Hx Hy E Hne.
    apply lookup_app_Some in Hx as [Hx|[? Hx]], Hy as [Hy|[? Hy]].
    + by eapply Ha.
    + apply list_lookup_singleton_Some in Hy as [? <-]. congruence.
    + apply list_lookup_singleton_Some in Hx as [? <-]. congruence.
    + apply list_lookup_singleton_Some in Hx as [? _], Hy as [? _]. lia.
  - apply Forall_app. split; [done|]. repeat constructor. congruence.
Qed.

(** Changing the address or the mark of one entry. *)
Lemma inv_update st i s s' :
  table_ok st -> shmem st !! i = Some s ->
  descriptor s' = descriptor s ->
  (addr s' <> 0 -> addr s' ∉ (addr <$> delete i (shmem st))) ->
  (markedForDeletion s' = true -> addr s' <> 0) ->
  table_ok (set_shmem (<[i := s']> (shmem st)) st).
Proof.
  intros [Hd Ho Ha Hm] Hs Ed Haddr Hmark. split; cbn.
  - by rewrite (fmap_insert_same descriptor _ _ s).
  - apply Forall_insert; [done|]. rewrite Ed. by eapply (Forall_lookup_1 _ _ _ _ Ho).
  - assert (forall j t, shmem st !! j = Some t -> j <> i -> addr s' <> 0 -> addr t <> addr s') as Hother.
    { intros j t Ht Hj Hne E. apply (Haddr Hne). rewrite <- E.
      apply list_elem_of_fmap_2. destruct (decide (j < i)%nat).
      - apply (list_elem_of_lookup_2 _ j). by rewrite list_lookup_delete_lt.
      - apply (list_elem_of_lookup_2 _ (pred j)). rewrite list_lookup_delete_ge by lia.
        by replace (S (pred j)) with j by lia. }
    pose proof (lookup_lt_Some _ _ _ Hs) as Hlt.
    intros j1 j2 x y Hx Hy E Hne.
    destruct (decide (j1 = i)) as [->|N1], (decide (j2 = i)) as [->|N2]; [done| | |].
    + rewrite list_lookup_insert_eq in Hx by done. rewrite list_lookup_insert_ne in Hy by done.
      simplify_eq. exfalso. by eapply Hother.
    + rewrite list_lookup_insert_ne in Hx by done. rewrite list_lookup_insert_eq in Hy by done.
      simplify_eq. exfalso. eapply Hother; [done..|congruence|done].
    + rewrite list_lookup_insert_ne in Hx, Hy by done. by eapply Ha.
  - by apply Forall_insert.
Qed.

Lemma inv_delete st i : table_ok st -> table_ok (android_shmem_delete i st).
Proof.
  intros [Hd Ho Ha Hm]. unfold android_shmem_delete.
  destruct (shmem st !! i) as [s|] eqn:Hs; [|split; done].
  assert (0 < descriptor s) as Hpos.
  { rewrite Forall_lookup in Ho. by destruct (Ho _ _ Hs). }
  rewrite (proj2 (Z.eqb_neq _ 0)) by lia. cbn [negb]. split; cbn.
  - rewrite fmap_delete_list. by apply NoDup_delete.
  - apply Forall_lookup. intros j t Ht.
    assert (exists j', j' <> i /\ shmem st !! j' = Some t) as (j' & Hj' & Ht').
    { destruct (decide (j < i)%nat).
      - rewrite list_lookup_delete_lt in Ht by done. exists j. split; [lia|done].
      - rewrite list_lookup_delete_ge in Ht by lia. exists (S j). split; [lia|done]. }
    rewrite Forall_lookup in Ho. destruct (Ho _ _ Ht') as [? Hin]. split; [done|].
    apply elem_of_difference. split; [done|]. intros E%elem_of_singleton.
    apply Hj'. by eapply (NoDup_fmap_lookup descriptor).
  - assert (forall j t, delete i (shmem st) !! j = Some t ->
      shmem st !! (if decide (j < i)%nat then j else S j) = Some t) as Hlk.
    { intros j t Ht. case_decide.
      - by rewrite list_lookup_delete_lt in Ht.
      - by rewrite list_lookup_delete_ge in Ht by lia. }
    intros j1 j2 x y Hx%Hlk Hy%Hlk E Hne. pose proof (Ha _ _ _ _ Hx Hy E Hne).
    repeat case_decide; lia.
  - by apply Forall_delete_in.
Qed.

(** ** The calls *)
Lemma land_7fff c : 0 <= Z.land c 0x7fff < 0x8000.
Proof.
  change 0x7fff with (Z.ones 15). rewrite Z.land_ones by lia.
  apply Z.mod_pos_bound. lia.
Qed.

(** The identifiers made from the counter never collide with the -1 the loop
    uses for "none yet". *)
Lemma shmid_not_minus_1 socket_id c : ashv_shmid_from_counter socket_id (Z.land c 0x7fff) <> -1.
Proof. pose proof (land_7fff c). unfold ashv_shmid_from_counter. divmod. Qed.

Lemma check_pid_table k st :
  ashv_pid_setup st = 0 \/ ashv_pid_setup st = getpid k ->
  exists p, ashv_check_pid k st = st \/ ashv_check_pid k st = set_pid p st.
Proof.
  intros Hp. exists (getpid k). unfold ashv_check_pid.
  destruct (Z.eqb_spec (ashv_pid_setup st) 0); [by right|].
  destruct (Z.eqb_spec (ashv_pid_setup st) (getpid k)); [by left|]. lia.
Qed.

(** Case analysis on [ashv_check_pid] in a process that did not fork. *)
Ltac check_pid Hp :=
  let p := fresh "p" in destruct (check_pid_table _ _ Hp) as [p [-> | ->]].

Lemma inv_read_remote k shmid st :
  table_ok st ->
  (forall rkey rfd rsize, remote k shmid = Reply rkey rfd rsize -> 0 < rfd /\ (rfd ∉ fds st)) ->
  table_ok (ashv_read_remote_segment k shmid st).1.
Proof.
  intros Hinv Hr. unfold ashv_read_remote_segment.
  destruct (remote k shmid) as [|rkey rfd rsize]; [done|].
  destruct (Hr _ _ _ eq_refl). destruct (_ || _).
  - simpl. by apply inv_more_fds.
  - by apply (inv_append st (mk_shmem shmid 0 rfd (u64 (i32 rsize)) false rkey)).
Qed.

Lemma read_remote_None k shmid st st' :
  ashv_read_remote_segment k shmid st = (st', None) ->
  shmem st' = shmem st /\ links st' = links st /\ shmem_counter st' = shmem_counter st
  /\ forall fd, fd ∈ fds st' -> fd ∈ fds st \/ exists rk rs, remote k shmid = Reply rk fd rs.
Proof.
  unfold ashv_read_remote_segment. destruct (remote k shmid) as [|rkey rfd rsize].
  - intros [= <-]. eauto.
  - destruct (_ || _); [|done]. intros [= <-]. cbn. repeat (split; [done|]).
    intros fd [->%elem_of_singleton|]%elem_of_union; eauto.
Qed.

Lemma take_ownership_spec k ky shmid st st' shmid' ok :
  take_ownership k ky shmid st = (st', shmid', ok) ->
  shmem st' = shmem st /\ fds st' = fds st /\ shmid' <> -1 /\ (ok = false -> links st' = links st).
Proof.
  unfold take_ownership, next_shmid. intros Ht.
  destruct (Z.eqb_spec shmid (-1)) as [->|Hne]; cbn in Ht.
  - pose proof (shmid_not_minus_1 (ashv_local_socket_id st) (shmem_counter st + 1)).
    destruct (_ && _); simplify_eq; cbn; split_and!; done.
  - destruct (_ && _); simplify_eq; cbn; split_and!; done.
Qed.

Lemma find_or_read_spec k target st st' r :
  find_or_read k target st = (st', r) -> table_ok st ->
  (forall shmid rkey rfd rsize, remote k shmid = Reply rkey rfd rsize ->
     0 < rfd /\ (rfd ∉ fds st) /\ rfd <> ashmem_open k) ->
  (ashmem_open k < 0 \/ ashmem_open k ∉ fds st) ->
  table_ok st'
  /\ (r = None -> shmem st' = shmem st /\ links st' = links st
                 /\ shmem_counter st' = shmem_counter st
                 /\ (ashmem_open k < 0 \/ ashmem_open k ∉ fds st')).
Proof.
  unfold find_or_read. intros Hf Hinv Hr Ho.
  destruct (ashv_find_local_index target (shmem st)) as [idx|] eqn:E.
  { simplify_eq. split; [done|]. intros [=]. }
  split.
  - replace st' with (ashv_read_remote_segment k target st).1 by (by rewrite Hf).
    apply inv_read_remote; [done|]. intros. by edestruct Hr as (? & ? & ?).
  - intros ->. destruct (read_remote_None _ _ _ _ Hf) as (? & ? & ? & Hfds).
    do 3 (split; [done|]). destruct Ho as [Ho|Ho]; [by left|right].
    intros [Hin|(rk & rs & Hrep)]%Hfds; [done|]. by destruct (Hr _ _ _ _ Hrep) as (? & ? & ?).
Qed.

(** A round that ends with a result, or without one, has not touched the table,
    but for the segment it has read. *)
Lemma key_round_table k ky shmid st st' shmid' r :
  key_round k ky shmid st = Ret (st', shmid', r) -> table_ok st ->
  (forall i rkey rfd rsize, remote k i = Reply rkey rfd rsize ->
     0 < rfd /\ (rfd ∉ fds st) /\ rfd <> ashmem_open k) ->
  (ashmem_open k < 0 \/ ashmem_open k ∉ fds st) ->
  table_ok st' /\ forall i, r = Some (Owned i) ->
    i <> -1 /\ shmem st' = shmem st /\ (ashmem_open k < 0 \/ ashmem_open k ∉ fds st').
Proof.
  unfold key_round. intros Hrun Hinv Hr Ho.
  assert (forall st1, (let '(st0, shmid0, ok) := take_ownership k ky shmid st1 in
      Ret (st0, shmid0, if ok : bool then Some (Owned shmid0) else None)) = Ret (st', shmid', r) ->
      shmem st' = shmem st1 /\ fds st' = fds st1 /\ forall i, r = Some (Owned i) -> i <> -1) as Hown.
  { intros st1. destruct (take_ownership k ky shmid st1) as [[st0 i] ok] eqn:Et. intros [= <- <- <-].
    apply take_ownership_spec in Et as (? & ? & ? & _). split_and!; [done..|]. destruct ok; [by intros ? [= <-]|done]. }
  destruct (links st !! ky) as [target|].
  2: { apply Hown in Hrun as (E1 & E2 & Hi). split; [by apply (inv_table st)|]. intros i E. rewrite E2. by eauto. }
  destruct (if negb (target =? 0) then find_or_read k target st else (st, None)) as [st1 idx] eqn:Ef.
  assert (table_ok st1 /\ (idx = None -> shmem st1 = shmem st /\ links st1 = links st
            /\ shmem_counter st1 = shmem_counter st
            /\ (ashmem_open k < 0 \/ ashmem_open k ∉ fds st1))) as [Hinv1 Hnone].
  { destruct (negb (target =? 0)); [by eapply find_or_read_spec|]. by simplify_eq. }
  destruct idx as [idx|]; [by destruct (shmem st1 !! idx); simplify_eq|].
  destruct (Hnone eq_refl) as (El & _ & _ & Ho1). apply Hown in Hrun as (E1 & E2 & Hi).
  assert (shmem st' = shmem st1 /\ fds st' = fds st1) as [F1 F2] by (rewrite E1, E2; by destruct (symlink_ok k)).
  split; [by apply (inv_table st1)|]. intros i E. rewrite F1, F2. by eauto.
Qed.

(** *** Rounds that get nowhere *)

(** The answer gives no segment. *)
Definition refused (reply : remote_reply) : bool :=
  match reply with NoReply => true | Reply _ _ n => (i32 n =? 0) || (i32 n =? -1) end.

(** Links cannot be made, and the key has no link, or one to a segment that is
    not there. *)
Definition hopeless (k : kernel) (ky : Z) (st : shm_state) : Prop :=
  symlink_ok k = false
  /\ forall target, links st !! ky = Some target ->
       target = 0 \/ (target ∉ (id <$> shmem st)) /\ refused (remote k target) = true.

Lemma read_refused k shmid st :
  refused (remote k shmid) = true ->
  exists st', ashv_read_remote_segment k shmid st = (st', None) /\ shmem st' = shmem st /\ links st' = links st.
Proof.
  unfold ashv_read_remote_segment. destruct (remote k shmid) as [|rk rf rs]; cbn [refused].
  - intros _. by eexists.
  - intros ->. by eexists.
Qed.

Lemma hopeless_round k ky shmid st :
  hopeless k ky st -> exists st' shmid', key_round k ky shmid st = Ret (st', shmid', None)
    /\ hopeless k ky st' /\ shmid' <> -1 /\ links st' = links st /\ shmem st' = shmem st.
Proof.
  intros [Hsym Ht].
  assert (forall st1, exists st' shmid', take_ownership k ky shmid st1 = (st', shmid', false)
    /\ shmem st' = shmem st1 /\ links st' = links st1 /\ shmid' <> -1) as Hown.
  { intros st1. destruct (take_ownership k ky shmid st1) as [[st' i] ok] eqn:E.
    assert (ok = false) as ->.
    { revert E. unfold take_ownership, next_shmid. rewrite Hsym. by destruct (shmid =? -1); intros [= <- <- <-]. }
    apply take_ownership_spec in E as (? & _ & ? & ?). exists st', i. by split_and!; auto. }
  assert (exists st1, shmem st1 = shmem st /\ links st1 = links st /\
    key_round k ky shmid st = (let '(st, shmid, ok) := take_ownership k ky shmid st1 in
      Ret (st, shmid, if ok : bool then Some (Owned shmid) else None))) as (st1 & E1 & E2 & ->).
  { unfold key_round. rewrite Hsym. destruct (links st !! ky) as [target|] eqn:El; [|by exists st].
    destruct (Ht target eq_refl) as [->|[Hid Hr]]; [by exists st|].
    destruct (Z.eqb_spec target 0) as [->|Hne]; cbn [negb]; [by exists st|].
    unfold find_or_read. rewrite (proj2 (find_local_index_None _ _) Hid).
    destruct (read_refused k target st Hr) as (st1 & -> & ? & ?). by exists st1. }
  destruct (Hown st1) as (st' & i & -> & F1 & F2 & Hi). exists st', i.
  split_and!; try done; [|congruence|congruence]. split; [done|]. rewrite F1, F2, E1, E2. exact Ht.
Qed.

Lemma hopeless_loop k ky fuel shmid st : hopeless k ky st -> key_loop fuel k ky shmid st = Fault FuelExhausted.
Proof.
  revert shmid st. induction fuel as [|n IH]; intros shmid st Hh; [done|]. cbn [key_loop].
  destruct (hopeless_round k ky shmid st Hh) as (st' & i & -> & Hh' & _). cbind. by apply IH.
Qed.

(** With the answers of one call, the loop ends in its first round or never. *)
Lemma round_without_result k ky shmid st st' shmid' :
  key_round k ky shmid st = Ret (st', shmid', None) -> hopeless k ky st.
Proof.
  unfold key_round. intros Hrun.
  assert (forall st1, (let '(st0, shmid0, ok) := take_ownership k ky shmid st1 in
      Ret (st0, shmid0, if ok : bool then Some (Owned shmid0) else None)) = Ret (st', shmid', None) ->
      symlink_ok k = false \/ is_Some (links st1 !! ky)) as Hown.
  { intros st1 H. destruct (symlink_ok k) eqn:Hs; [|by left]. right. apply not_eq_None_Some. intros E. revert H.
    unfold take_ownership, next_shmid. rewrite Hs.
    destruct (shmid =? -1); cbn [andb links set_counter]; by rewrite bool_decide_true. }
  destruct (links st !! ky) as [target|] eqn:El.
  2: { destruct (Hown st Hrun) as [H|[? H]]; [|congruence]. split; [done|]. congruence. }
  destruct (Z.eqb_spec target 0) as [->|Hne]; cbn [negb] in Hrun.
  - destruct (symlink_ok k) eqn:Hsym; [|split; [done|]; intros t Et; left; congruence].
    apply Hown in Hrun as [?|[? H]]; [done|]. cbn in H. by rewrite lookup_delete_eq in H.
  - destruct (find_or_read k target st) as [st1 [idx|]] eqn:Ef; [by destruct (shmem st1 !! idx)|].
    assert ((target ∉ (id <$> shmem st)) /\ refused (remote k target) = true) as Hr.
    { revert Ef. unfold find_or_read. destruct (ashv_find_local_index target (shmem st)) eqn:E; [done|].
      apply find_local_index_None in E. intros Ef. split; [done|]. revert Ef. unfold ashv_read_remote_segment.
      destruct (remote k target) as [|rk rf rs]; [done|]. cbn [refused]. by destruct (_ || _). }
    destruct (symlink_ok k) eqn:Hsym.
    + apply Hown in Hrun as [?|[? H]]; [done|]. cbn in H. by rewrite lookup_delete_eq in H.
    + split; [done|]. intros t Et. right. congruence.
Qed.

Lemma key_loop_first fuel k ky shmid st st' r :
  key_loop fuel k ky shmid st = Ret (st', r) -> exists shmid', key_round k ky shmid st = Ret (st', shmid', Some r).
Proof.
  destruct fuel as [|n]; [done|]. cbn [key_loop].
  destruct (key_round k ky shmid st) as [[[st1 i] [r1|]]|] eqn:E; cbind; [|intros H|done].
  - intros [= <- <-]. by exists i.
  - pose proof (round_without_result _ _ _ _ _ _ E) as Hh. destruct (hopeless_round k ky shmid st Hh) as (st2 & j & E2 & Hh2 & _).
    rewrite E in E2. injection E2 as -> ->. by rewrite (hopeless_loop k ky n j st2 Hh2) in H.
Qed.

Lemma region_fd k sz : 0 <= ashmem_create_region k sz -> ashmem_create_region k sz = ashmem_open k.
Proof. unfold ashmem_create_region. repeat case_bool; bool_arith; lia. Qed.

Lemma inv_create k ky shmid sz st :
  table_ok st ->
  (ashmem_open k < 0 \/ (0 < ashmem_open k /\ (ashmem_open k ∉ fds st))) ->
  table_ok (create_segment k ky shmid sz st).1.
Proof.
  intros Hinv Ho. unfold create_segment, next_shmid.
  assert (exists st1 shmid1, (if shmid =? -1 then
      (set_counter (Z.land (shmem_counter st + 1) 0x7fff) st,
       ashv_shmid_from_counter (ashv_local_socket_id st) (Z.land (shmem_counter st + 1) 0x7fff))
      else (st, shmid)) = (st1, shmid1) /\ shmem st1 = shmem st /\ fds st1 = fds st)
    as (st1 & shmid1 & -> & El & Ef) by (destruct (shmid =? -1); by eexists _, _).
  set (n := ROUND_UP sz _). destruct (Z.ltb_spec (ashmem_create_region k n) 0); cbn.
  - by apply (inv_table st).
  - rewrite El. rewrite region_fd in * by lia.
    apply (inv_table (set_shmem (shmem st ++ [mk_shmem shmid1 0 (ashmem_open k) n false ky])
                        (open_fd (ashmem_open k) st))); [done|cbn; by rewrite Ef|].
    destruct Ho as [|[]]; [lia|].
    by apply (inv_append st (mk_shmem shmid1 0 (ashmem_open k) n false ky)).
Qed.

Lemma inv_check_pid k st :
  table_ok st -> ashv_pid_setup st = 0 \/ ashv_pid_setup st = getpid k ->
  table_ok (ashv_check_pid k st) /\ shmem (ashv_check_pid k st) = shmem st
  /\ fds (ashv_check_pid k st) = fds st
  /\ shmem_counter (ashv_check_pid k st) = shmem_counter st.
Proof. intros Hinv Hp. check_pid Hp; split_and!; done || by apply (inv_table st). Qed.

Lemma start_listening_table k st st' ok :
  start_listening k st = (st', ok) ->
  shmem st' = shmem st /\ fds st' = fds st /\ shmem_counter st' = shmem_counter st.
Proof.
  unfold start_listening. intros H.
  repeat case_match; simplify_eq; done.
Qed.

Lemma inv_shmget fuel k ky sz st st' r :
  table_ok st -> call_ok k st -> shmget fuel k ky sz st = Ret (st', r) -> table_ok st'.
Proof.
  intros Hinv [He Hp Ho Hr _] H. unfold shmget in H. rewrite He in H.
  destruct (start_listening k (ashv_check_pid k st)) as [st1 ok] eqn:Es.
  apply start_listening_table in Es as (E1 & E2 & E3).
  destruct (inv_check_pid k st Hinv Hp) as (Hinv0 & F1 & F2 & F3).
  rewrite F1 in E1. rewrite F2 in E2.
  assert (table_ok st1) as Hinv1 by (by apply (inv_table st)).
  destruct ok; cbn [negb] in H; [|by simplify_eq]. rewrite <- E2 in Ho.
  destruct (negb (ky =? IPC_PRIVATE)).
  - apply outcome_bind_Ret_inv in H as ([st2 r2] & [i2 Hk]%key_loop_first & H).
    apply key_round_table in Hk as [Hinv2 Howned]; [|done|by rewrite E2|tauto].
    destruct r2 as [i|i]; [by simplify_eq|].
    destruct (Howned i eq_refl) as (_ & _ & Ho2).
    assert ((create_segment k ky i sz st2).1 = st') as <- by (injection H as E; by rewrite E).
    apply inv_create; [done|]. destruct Ho, Ho2; tauto.
  - assert ((create_segment k ky (-1) sz st1).1 = st') as <- by (injection H as E; by rewrite E).
    by apply inv_create.
Qed.

Lemma inv_shmat k shmid a st : table_ok st -> call_ok k st -> table_ok (shmat k shmid a st).1.
Proof.
  intros Hinv [He Hp _ Hr Hm]. unfold shmat. rewrite He.
  destruct (inv_check_pid k st Hinv Hp) as (Hinv0 & F1 & F2 & _).
  set (st0 := ashv_check_pid k st) in *. rewrite <- F2 in Hr.
  set (found := match ashv_find_local_index shmid (shmem st0) with Some _ => _ | None => _ end).
  assert (table_ok found.1 /\ (addr <$> shmem found.1) ⊆ 0 :: (addr <$> shmem st0))
    as [Hinv1 Haddr].
  { subst found. destruct (ashv_find_local_index _ _) eqn:E; [split; [done|set_solver]|].
    case_bool; [|split; [done|set_solver]]. split.
    - apply inv_read_remote; [done|]. intros. by edestruct Hr as (? & ? & ?).
    - unfold ashv_read_remote_segment. destruct (remote k shmid); [set_solver|].
      case_bool; [set_solver|]. cbn. rewrite fmap_app. cbn. set_solver. }
  destruct found as [st1 [idx|]]; cbn in *; [|by apply (inv_table st1)].
  destruct (shmem st1 !! idx) as [s|] eqn:Hs; [|done].
  destruct (Z.eqb_spec (addr s) 0) as [Ea|Ea]; [|done].
  destruct (Z.eqb_spec (mmap k a (size s) (descriptor s)) (-1)) as [Em|Em]; [done|]. cbn.
  apply (inv_table (set_shmem (<[idx := set_addr (mmap k a (size s) (descriptor s)) s]>
                      (shmem st1)) st1)); [done..|].
  apply (inv_update _ _ s); [done..| |].
  - cbn. intros Hne Hin. rewrite fmap_delete_list in Hin.
    apply (sublist_subseteq _ (addr <$> shmem st1)), Haddr in Hin; [|apply sublist_delete].
    apply elem_of_cons in Hin as [|Hin]; [done|]. rewrite F1 in Hin. by eapply Hm.
  - cbn. intros Hmark. destruct Hinv1. rewrite Forall_lookup in tab_marked0.
    by destruct (tab_marked0 _ _ Hs Hmark).
Qed.

Lemma delete_insert_list {A} (l : list A) i x : delete i (<[i := x]> l) = delete i l.
Proof. revert i. induction l as [|y l IH]; intros [|i]; [done..|]. cbn. f_equal. apply IH. Qed.

(** Deleting an entry only looks at its descriptor. *)
Lemma delete_after_update st i s s' e :
  shmem st !! i = Some s -> descriptor s' = descriptor s ->
  let st' := log e (set_shmem (<[i := s']> (shmem st)) st) in
  shmem (android_shmem_delete i st') = shmem (android_shmem_delete i st)
  /\ fds (android_shmem_delete i st') = fds (android_shmem_delete i st).
Proof.
  intros Hs Ed. cbn. unfold android_shmem_delete. cbn.
  rewrite list_lookup_insert_eq by (by eapply lookup_lt_Some). rewrite Hs, Ed.
  case_bool; cbn; by rewrite delete_insert_list.
Qed.

Lemma inv_shmdt k a st : table_ok st -> call_ok k st -> table_ok (shmdt k a st).1.
Proof.
  intros Hinv [He Hp _ _ _]. unfold shmdt. rewrite He.
  destruct (inv_check_pid k st Hinv Hp) as (Hinv0 & _).
  set (st0 := ashv_check_pid k st) in *. clearbody st0.
  destruct (list_find _ (shmem st0)) as [[i s]|] eqn:E; [|done].
  apply list_find_Some in E as (Hs & Ea & Hfirst).
  destruct (_ || _) eqn:Hor; cbn [fst].
  - destruct (delete_after_update st0 i s (set_addr 0 s) (Unmapped (addr s) (size s)) Hs eq_refl)
      as [E1 E2].
    apply (inv_table (android_shmem_delete i st0)); [apply E1|apply E2|]. by apply inv_delete.
  - bool_arith.
    apply (inv_table (set_shmem (<[i := set_addr 0 s]> (shmem st0)) st0)); [done..|].
    apply (inv_update _ _ s); [done..|]. cbn. congruence.
Qed.

Lemma inv_shmctl k shmid cmd buf st :
  table_ok st -> call_ok k st -> table_ok (shmctl k shmid cmd buf st).1.1.
Proof.
  intros Hinv [He Hp _ _ _]. unfold shmctl. rewrite He.
  destruct (inv_check_pid k st Hinv Hp) as (Hinv0 & _).
  set (st0 := ashv_check_pid k st) in *. clearbody st0.
  assert (forall e, table_ok (set_errno e st0)) as Herr by (intros; by apply (inv_table st0)).
  destruct cmd as [| |]; [|repeat case_match; cbn; done || apply Herr|apply Herr].
  destruct (ashv_find_local_index shmid (shmem st0)) as [idx|]; [|done].
  destruct (shmem st0 !! idx) as [s|] eqn:Hs; [|done].
  destruct (Z.eqb_spec (addr s) 0) as [Ea|Ea]; cbn [negb fst]; [by apply inv_delete|].
  apply (inv_update _ _ s); [done..| |done]. cbn. intros _ Hin.
  rewrite fmap_delete_list in Hin. destruct Hinv0 as [_ _ Ha _].
  apply list_elem_of_lookup in Hin as [j Hj].
  assert (exists j', j' <> idx /\ (addr <$> shmem st0) !! j' = Some (addr s)) as (j' & Hne & Hj').
  { destruct (decide (j < idx)%nat).
    - rewrite list_lookup_delete_lt in Hj by done. exists j. split; [lia|done].
    - rewrite list_lookup_delete_ge in Hj by lia. exists (S j). split; [lia|done]. }
  rewrite list_lookup_fmap, fmap_Some in Hj'. destruct Hj' as (t & Ht & E).
  apply Hne, (Ha _ _ _ _ Ht Hs); congruence.
Qed.

Lemma inv_run_call k c st st' r :
  table_ok st -> call_ok k st -> run_call k c st = Ret (st', r) -> table_ok st'.
Proof.
  intros Hinv Hok. destruct c as [fuel ky sz|shmid a|a|shmid cmd buf]; cbn [run_call].
  - by apply inv_shmget.
  - intros [= E]. rewrite <- (f_equal fst E : _ = st'). by apply inv_shmat.
  - intros [= E]. rewrite <- (f_equal fst E : _ = st'). by apply inv_shmdt.
  - intros [= E]. rewrite <- (f_equal fst E : _ = st'). by apply inv_shmctl.
Qed.

(** ** Identifiers are distinct until the counter comes round *)
Lemma carried_from_counter sid c :
  0 <= sid < 0x10000 -> 0 <= c < 0x8000 -> carried_socket (ashv_shmid_from_counter sid c) = sid.
Proof. intros. unfold carried_socket, ashv_shmid_from_counter. divmod. Qed.

Lemma from_counter_inj sid c d :
  0 <= c < 0x8000 -> 0 <= d < 0x8000 -> ashv_shmid_from_counter sid c = ashv_shmid_from_counter sid d -> c = d.
Proof. unfold ashv_shmid_from_counter. divmod. Qed.

(** The identifiers are distinct, and those with the process's own socket id were
    made from the counter, which has been raised [gets] times at most. *)
Record ids_inv (gets : nat) (st : shm_state) : Prop := {
  ids_distinct : NoDup (id <$> shmem st);
  ids_counter : 0 <= shmem_counter st <= Z.of_nat gets;
  ids_own : ashv_listening_thread_id st = true ->
    0 <= ashv_local_socket_id st < 0x10000
    /\ forall i, i ∈ (id <$> shmem st) -> carried_socket i = ashv_local_socket_id st ->
         exists c, 1 <= c <= shmem_counter st /\ i = ashv_shmid_from_counter (ashv_local_socket_id st) c
}.

Definition same_globals (st st' : shm_state) : Prop :=
  shmem_counter st' = shmem_counter st /\ ashv_local_socket_id st' = ashv_local_socket_id st
  /\ ashv_listening_thread_id st' = ashv_listening_thread_id st.

Lemma ids_shrink gets st st' :
  ids_inv gets st -> same_globals st st' -> (id <$> shmem st') `sublist_of` (id <$> shmem st) -> ids_inv gets st'.
Proof.
  intros [Hd Hc Ho] (Ec & Es & Et) Hsub. split; rewrite ?Ec, ?Es, ?Et; [by eapply sublist_NoDup|done|].
  intros Ht. destruct (Ho Ht) as [Hb Hown]. split; [done|]. intros i Hi. by eapply Hown, sublist_subseteq.
Qed.

Lemma ids_same gets st st' : ids_inv gets st -> same_globals st st' -> shmem st' = shmem st -> ids_inv gets st'.
Proof. intros ? ? E. eapply ids_shrink; [done..|]. by rewrite E. Qed.

Lemma ids_more gets st : ids_inv gets st -> ids_inv (gets + 1) st.
Proof. intros [? ? ?]. split; [done|lia|done]. Qed.

(** The identifier of a segment of another process. *)
Lemma ids_foreign gets st st' i :
  ids_inv gets st -> same_globals st st' -> (id <$> shmem st') = (id <$> shmem st) ++ [i] -> i ∉ (id <$> shmem st) ->
  (ashv_listening_thread_id st = true -> carried_socket i <> ashv_local_socket_id st) -> ids_inv gets st'.
Proof.
  intros [Hd Hc Ho] (Ec & Es & Et) El Hi Hf. split; rewrite ?El, ?Ec, ?Es, ?Et; [by apply NoDup_app_one|done|].
  intros Ht. destruct (Ho Ht) as [Hb Hown]. split; [done|].
  intros j [Hj| ->%list_elem_of_singleton]%elem_of_app; [by apply Hown|]. intros E. by destruct (Hf Ht).
Qed.

Lemma read_remote_globals k shmid st : same_globals st (ashv_read_remote_segment k shmid st).1.
Proof. unfold ashv_read_remote_segment. destruct (remote k shmid); [done|]. by destruct (_ || _). Qed.

Lemma ids_read_remote gets k shmid st :
  ids_inv gets st -> shmid ∉ (id <$> shmem st) ->
  (ashv_listening_thread_id st = true -> remote k shmid <> NoReply -> carried_socket shmid <> ashv_local_socket_id st) ->
  ids_inv gets (ashv_read_remote_segment k shmid st).1.
Proof.
  intros Hinv Hid Hf. pose proof (read_remote_globals k shmid st) as Hg. revert Hg.
  unfold ashv_read_remote_segment. destruct (remote k shmid) as [|rk rf rs]; [done|].
  destruct (_ || _); intros Hg; [by eapply ids_same|].
  eapply (ids_foreign gets st _ shmid); [done..|by cbn; rewrite fmap_app|done|]. intros Ht. by apply Hf.
Qed.

Lemma ids_find_or_read gets k target st st' r :
  find_or_read k target st = (st', r) -> ids_inv gets st ->
  (ashv_listening_thread_id st = true -> remote k target <> NoReply -> carried_socket target <> ashv_local_socket_id st) ->
  ids_inv gets st' /\ same_globals st st'.
Proof.
  unfold find_or_read. intros Hf Hinv Hr. destruct (ashv_find_local_index target (shmem st)) eqn:E; [by simplify_eq|].
  apply find_local_index_None in E. replace st' with (ashv_read_remote_segment k target st).1 by (by rewrite Hf).
  split; [by apply ids_read_remote|apply read_remote_globals].
Qed.

(** The identifier the process has made from the counter and not used yet. *)
Definition made (gets : nat) (st : shm_state) (i : Z) : Prop :=
  ashv_listening_thread_id st = true /\ ids_inv (gets + 1) st /\ 1 <= shmem_counter st
  /\ i = ashv_shmid_from_counter (ashv_local_socket_id st) (shmem_counter st) /\ i ∉ (id <$> shmem st).

Lemma next_shmid_made gets st st' i :
  Z.of_nat gets < 0x7fff -> ids_inv gets st -> ashv_listening_thread_id st = true ->
  next_shmid st = (st', i) -> made gets st' i /\ shmem st' = shmem st /\ links st' = links st.
Proof.
  intros Hg [Hd Hc Ho] Ht [= <- <-]. cbn [shmem set_counter links].
  assert (Z.land (shmem_counter st + 1) 0x7fff = shmem_counter st + 1) as Ec.
  { change 0x7fff with (Z.ones 15). rewrite Z.land_ones by lia. apply Z.mod_small. lia. }
  rewrite Ec. destruct (Ho Ht) as [Hb Hown]. unfold made. cbn. split_and!; try done; [|lia|].
  - split; cbn; [done|lia|]. intros _. split; [done|]. intros j Hj Es. destruct (Hown j Hj Es) as (c & ? & ->).
    exists c. split; [lia|done].
  - intros Hin. destruct (Hown _ Hin) as (c & Hc2 & E); [apply carried_from_counter; lia|].
    apply from_counter_inj in E; lia.
Qed.

Lemma ids_take_ownership gets k ky shmid st st' i ok :
  Z.of_nat gets < 0x7fff -> ashv_listening_thread_id st = true -> shmid = -1 /\ ids_inv gets st \/ made gets st shmid ->
  take_ownership k ky shmid st = (st', i, ok) -> made gets st' i.
Proof.
  intros Hg Ht Hs. unfold take_ownership.
  destruct (if shmid =? -1 then next_shmid st else (st, shmid)) as [st1 j] eqn:E.
  assert (made gets st1 j) as Hm.
  { destruct Hs as [[-> Hinv]|Hs]; [by apply (next_shmid_made gets st)|].
    assert (shmid <> -1) as Hne.
    { destruct Hs as (_ & [_ Hc _] & Hc1 & -> & _). rewrite <- (Z.mod_small (shmem_counter st) (2 ^ 15)) by lia.
      rewrite <- Z.land_ones by lia. apply shmid_not_minus_1. }
    rewrite (proj2 (Z.eqb_neq _ _) Hne) in E. by injection E as <- <-. }
  clear Hs E. destruct (_ && _); intros [= <- <- <-]; [|done].
  destruct Hm as (? & ? & ? & ? & ?). unfold made. split_and!; try done. by eapply ids_same.
Qed.

Lemma ids_key_round gets k ky st st' i r :
  Z.of_nat gets < 0x7fff -> ashv_listening_thread_id st = true -> ids_inv gets st ->
  (forall shmid, remote k shmid <> NoReply -> carried_socket shmid <> ashv_local_socket_id st) ->
  key_round k ky (-1) st = Ret (st', i, Some r) ->
  match r with Existing _ => ids_inv gets st' | Owned j => made gets st' j end.
Proof.
  intros Hg Ht Hinv Hr. unfold key_round.
  assert (forall st1, ids_inv gets st1 -> ashv_listening_thread_id st1 = true ->
      (let '(st0, shmid0, ok) := take_ownership k ky (-1) st1 in
       Ret (st0, shmid0, if ok : bool then Some (Owned shmid0) else None)) = Ret (st', i, Some r) ->
      match r with Existing _ => ids_inv gets st' | Owned j => made gets st' j end) as Hown.
  { intros st1 H1 H2. destruct (take_ownership k ky (-1) st1) as [[st0 j] []] eqn:Et; [|done]. intros [= <- <- <-].
    by eapply ids_take_ownership; [..|exact Et]; [|done|left]. }
  destruct (links st !! ky) as [target|]; [|by apply Hown].
  destruct (if negb (target =? 0) then find_or_read k target st else (st, None)) as [st1 idx] eqn:Ef.
  assert (ids_inv gets st1 /\ same_globals st st1) as [H1 (_ & _ & E3)].
  { destruct (negb (target =? 0)); [|by simplify_eq]. eapply ids_find_or_read; [done..|]. intros _. apply Hr. }
  destruct idx as [idx|].
  - destruct (shmem st1 !! idx); [|done]. intros [= <- <- <-]. exact H1.
  - intros Hrun. eapply Hown; [| |exact Hrun]; destruct (symlink_ok k); [by eapply ids_same|done|cbn; congruence|congruence].
Qed.

Lemma ids_create gets k ky shmid sz st :
  Z.of_nat gets < 0x7fff -> ashv_listening_thread_id st = true -> shmid = -1 /\ ids_inv gets st \/ made gets st shmid ->
  shmid <> -1 \/ shmid = -1 /\ ids_inv gets st -> ids_inv (gets + 1) (create_segment k ky shmid sz st).1.
Proof.
  intros Hg Ht Hs Hc. unfold create_segment.
  destruct (if shmid =? -1 then next_shmid st else (st, shmid)) as [st1 j] eqn:E.
  assert (made gets st1 j) as (Ht1 & Hinv & Hpos & Ej & Hj).
  { destruct (Z.eqb_spec shmid (-1)) as [->|Hne].
    - apply (next_shmid_made gets st); [done| |done..]. by destruct Hc as [|[_ ?]].
    - injection E as <- <-. by destruct Hs as [[? _]|?]. }
  set (n := ROUND_UP sz _). destruct (_ <? 0); cbn; [by eapply ids_same|].
  destruct Hinv as [Hd Hcnt Ho]. destruct (Ho Ht1) as [Hb Hown]. split; cbn; rewrite ?fmap_app.
  - by apply NoDup_app_one.
  - done.
  - intros _. split; [done|]. intros x [Hx|Hx]%elem_of_app; [by apply Hown|].
    apply list_elem_of_singleton in Hx as ->. intros _. exists (shmem_counter st1). by split; [lia|].
Qed.

Lemma bind_loop_bound k n i sid : bind_loop k n i = Some sid -> bind_ok k sid = true /\ 0 <= sid < 0x10000.
Proof.
  revert i. induction n as [|n IH]; intros i; [done|]. cbn [bind_loop].
  destruct (bind_ok k (Z.land (getpid k + i) 0xffff)) eqn:E; [|apply IH]. intros [= <-]. split; [done|].
  change 0xffff with (Z.ones 16). rewrite Z.land_ones by lia. apply Z.mod_pos_bound. lia.
Qed.

Lemma ids_start_listening gets k st st' ok :
  ids_inv gets st -> sockets_apart k st -> start_listening k st = (st', ok) ->
  ids_inv gets st' /\ shmem st' = shmem st /\ (ok = true -> ashv_listening_thread_id st' = true
    /\ forall shmid, remote k shmid <> NoReply -> carried_socket shmid <> ashv_local_socket_id st').
Proof.
  intros Hinv [Hown Hbound]. unfold start_listening.
  destruct (ashv_listening_thread_id st) eqn:Et; [intros [= <- <-]; by auto|].
  assert (forall st2, shmem st2 = shmem st -> shmem_counter st2 = shmem_counter st ->
    ashv_listening_thread_id st2 = false -> ids_inv gets st2) as Hid.
  { intros st2 E1 E2 E3. destruct Hinv as [Hd Hc _]. split; rewrite ?E1, ?E2, ?E3; done. }
  destruct (socket_fd k =? 0); [intros [= <- <-]; by split; [apply Hid|]|].
  destruct (bind_loop k 4096 0) as [sid|] eqn:Eb; [|intros [= <- <-]; by split; [apply Hid|]].
  apply bind_loop_bound in Eb as [Eb Hsid].
  destruct (listen_ok k); cbn [negb]; [|intros [= <- <-]; by split; [apply Hid|]].
  intros [= <- <-]. destruct (Hbound eq_refl sid Eb) as [Hseg Hrem]. split; [|by cbn].
  destruct Hinv as [Hd Hc _]. split; cbn; [done..|]. intros _. split; [done|].
  intros i (s & -> & Hs)%list_elem_of_fmap Ei. by destruct (Hseg s Hs).
Qed.

Lemma check_pid_ids gets k st :
  ids_inv gets st -> sockets_apart k st -> ashv_pid_setup st = 0 \/ ashv_pid_setup st = getpid k ->
  ids_inv gets (ashv_check_pid k st) /\ sockets_apart k (ashv_check_pid k st).
Proof. intros [] [] Hp. check_pid Hp; by split. Qed.

Lemma ids_shmget fuel gets k ky sz st st' r :
  Z.of_nat gets < 0x7fff -> ids_inv gets st -> call_ok k st -> sockets_apart k st ->
  shmget fuel k ky sz st = Ret (st', r) -> ids_inv (gets + 1) st'.
Proof.
  intros Hg Hinv [He Hp _ _ _] Hap H. unfold shmget in H. rewrite He in H.
  destruct (check_pid_ids gets k st Hinv Hap Hp) as [Hinv0 Hap0].
  destruct (start_listening k (ashv_check_pid k st)) as [st1 ok] eqn:Es.
  destruct (ids_start_listening gets k _ _ _ Hinv0 Hap0 Es) as (Hinv1 & _ & Hl).
  destruct ok; cbn [negb] in H; [|simplify_eq; by apply ids_more]. destruct (Hl eq_refl) as [Ht Hr].
  destruct (negb (ky =? IPC_PRIVATE)).
  - apply outcome_bind_Ret_inv in H as ([st2 r2] & [i2 Hk]%key_loop_first & H).
    apply (ids_key_round gets) in Hk; try done.
    destruct r2 as [i|i]; [simplify_eq; by apply ids_more|].
    assert ((create_segment k ky i sz st2).1 = st') as <- by (injection H as E; by rewrite E).
    apply ids_create; [done|by destruct Hk|by right|]. left. destruct Hk as (_ & [_ Hc _] & Hc1 & -> & _).
    rewrite <- (Z.mod_small (shmem_counter st2) (2 ^ 15)) by lia. rewrite <- Z.land_ones by lia. apply shmid_not_minus_1.
  - assert ((create_segment k ky (-1) sz st1).1 = st') as <- by (injection H as E; by rewrite E).
    apply ids_create; [done|done|by left|by right].
Qed.

Lemma ids_shmat gets k shmid a st :
  ids_inv gets st -> call_ok k st -> sockets_apart k st -> ids_inv gets (shmat k shmid a st).1.
Proof.
  intros Hinv [He Hp _ _ _] Hap. unfold shmat. rewrite He.
  destruct (check_pid_ids gets k st Hinv Hap Hp) as [Hinv0 [Hap0 _]].
  set (st0 := ashv_check_pid k st) in *. clearbody st0.
  set (found := match ashv_find_local_index shmid (shmem st0) with Some _ => _ | None => _ end).
  assert (ids_inv gets found.1) as Hinv1.
  { subst found. destruct (ashv_find_local_index _ _) eqn:E; [done|]. apply find_local_index_None in E.
    case_bool; [|done]. apply ids_read_remote; [done..|]. intros. by apply Hap0. }
  destruct found as [st1 [idx|]]; cbn in *; [|by eapply ids_same].
  destruct (shmem st1 !! idx) as [s|] eqn:Hs; [|done].
  destruct (addr s =? 0); [|done]. destruct (_ =? -1); [done|]. cbn.
  eapply ids_shrink; [done..|]. cbn. by rewrite (fmap_insert_same id _ _ s).
Qed.

Lemma ids_delete gets i st : ids_inv gets st -> ids_inv gets (android_shmem_delete i st).
Proof.
  intros Hinv. unfold android_shmem_delete. destruct (shmem st !! i); [|done].
  destruct (negb _); (eapply ids_shrink; [done..|]); cbn; rewrite fmap_delete_list; apply sublist_delete.
Qed.

Lemma ids_shmdt gets k a st : ids_inv gets st -> call_ok k st -> sockets_apart k st -> ids_inv gets (shmdt k a st).1.
Proof.
  intros Hinv [He Hp _ _ _] Hap. unfold shmdt. rewrite He.
  destruct (check_pid_ids gets k st Hinv Hap Hp) as [Hinv0 _]. set (st0 := ashv_check_pid k st) in *. clearbody st0.
  destruct (list_find _ (shmem st0)) as [[i s]|] eqn:E; [|done]. apply list_find_Some in E as (Hs & _).
  assert (ids_inv gets (log (Unmapped (addr s) (size s)) (set_shmem (<[i := set_addr 0 s]> (shmem st0)) st0))) as H1.
  { eapply ids_shrink; [done..|]. cbn. by rewrite (fmap_insert_same id _ _ s). }
  destruct (_ || _); cbn [fst]; [by apply ids_delete|done].
Qed.

Lemma ids_shmctl gets k shmid cmd buf st :
  ids_inv gets st -> call_ok k st -> sockets_apart k st -> ids_inv gets (shmctl k shmid cmd buf st).1.1.
Proof.
  intros Hinv [He Hp _ _ _] Hap. unfold shmctl. rewrite He.
  destruct (check_pid_ids gets k st Hinv Hap Hp) as [Hinv0 _]. set (st0 := ashv_check_pid k st) in *. clearbody st0.
  assert (forall e, ids_inv gets (set_errno e st0)) as Herr by (intros; by eapply ids_same).
  destruct cmd as [| |]; [|repeat case_match; cbn; done || apply Herr|apply Herr].
  destruct (ashv_find_local_index shmid (shmem st0)) as [idx|]; [|done].
  destruct (shmem st0 !! idx) as [s|] eqn:Hs; [|done].
  destruct (negb _); cbn [fst]; [|by apply ids_delete].
  eapply ids_shrink; [done..|]. cbn. by rewrite (fmap_insert_same id _ _ s).
Qed.

Lemma ids_run_call gets k c st st' r :
  Z.of_nat (gets + is_get c) < 0x8000 -> ids_inv gets st -> call_ok k st -> sockets_apart k st ->
  run_call k c st = Ret (st', r) -> ids_inv (gets + is_get c) st'.
Proof.
  destruct c as [fuel ky sz|shmid a|a|shmid cmd buf]; cbn [run_call is_get]; intros Hg Hinv Hok Hap;
    rewrite ?Nat.add_0_r in *.
  - apply ids_shmget; [lia|done..].
  - intros [= E]. rewrite <- (f_equal fst E : _ = st'). by apply ids_shmat.
  - intros [= E]. rewrite <- (f_equal fst E : _ = st'). by apply ids_shmdt.
  - intros [= E]. rewrite <- (f_equal fst E : _ = st'). by apply ids_shmctl.
Qed.

Definition apart_ok (k : kernel) (st : shm_state) : Prop := call_ok k st /\ sockets_apart k st.

(** A process that has made no call yet. *)
Definition fresh_table (st : shm_state) : Prop :=
  shmem st = [] /\ shmem_counter st = 0 /\ ashv_listening_thread_id st = false.

Lemma ids_steps st gets st' :
  fresh_table st -> shm_steps apart_ok gets st st' -> Z.of_nat gets < 2 ^ 15 -> ids_inv gets st'.
Proof.
  intros (Hempty & Hc & Ht) Hsteps Hg. assert (ids_inv 0 st) as Hids.
  { split; [rewrite Hempty; constructor|lia|congruence]. }
  clear Hempty Hc Ht. induction Hsteps as [|gets st st1 st2 k c r Hsteps IH [Hok Hap] Hrun]; [done|].
  eapply ids_run_call; [done| |done..]. apply IH; [lia|done].
Qed.

Lemma table_steps (ok : kernel -> shm_state -> Prop) st gets st' :
  fresh_table st -> (forall k st, ok k st -> call_ok k st) -> shm_steps ok gets st st' -> table_ok st'.
Proof.
  intros (Hempty & _) Hsub Hsteps. assert (table_ok st) as Hinit by (split; rewrite Hempty; try constructor; done).
  clear Hempty. induction Hsteps as [|gets st st1 st2 k c r Hsteps IH Hok Hrun]; [done|].
  eapply inv_run_call; [by apply IH|by apply Hsub|done].
Qed.

(** ** Lookups by identifier and by address *)
Lemma find_local_index_unique l i s :
  NoDup (id <$> l) -> l !! i = Some s -> ashv_find_local_index (id s) l = Some i.
Proof.
  intros Hnd Hi. destruct (ashv_find_local_index (id s) l) as [j|] eqn:E.
  - apply find_local_index_Some in E as (t & Ht & Eid). f_equal.
    by eapply (NoDup_fmap_lookup id).
  - apply find_local_index_None in E. exfalso. apply E.
    by eapply list_elem_of_fmap_2, list_elem_of_lookup_2.
Qed.

Lemma find_addr_unique (l : list shmem_t) i s :
  (forall j t, l !! j = Some t -> addr t = addr s -> j = i) -> l !! i = Some s ->
  list_find (fun t => addr t = addr s) l = Some (i, s).
Proof.
  intros Huniq Hi. apply list_find_Some. split_and!; [done..|].
  intros j t Ht Hlt E. apply Huniq in Ht; [lia|done].
Qed.

Lemma delete_insert_app {A} (l : list A) x : delete (length l) (l ++ [x]) = l.
Proof. induction l as [|y l IH]; [done|]. cbn. by f_equal. Qed.

(** Detaching at an address: what is left depends on [markedForDeletion] and on
    the socket id the identifier carries. *)
Lemma shmdt_spec k st i s :
  syscall_supported st = false -> (ashv_pid_setup st = 0 \/ ashv_pid_setup st = getpid k) ->
  list_find (fun t => addr t = addr s) (shmem st) = Some (i, s) ->
  let dies := markedForDeletion s
              || negb (ashv_socket_id_from_shmid (id s) =? ashv_local_socket_id st) in
  let '(st', r) := shmdt k (addr s) st in
  r = 0
  /\ shmem st' = (if dies then delete i (shmem st) else <[i := set_addr 0 s]> (shmem st))
  /\ fds st' = (if dies && negb (descriptor s =? 0) then fds st ∖ {[descriptor s]} else fds st)
  /\ effects st' =
       (if dies && negb (descriptor s =? 0) then [Closed (descriptor s)] else [])
       ++ Unmapped (addr s) (size s) :: effects st.
Proof.
  intros He Hp Hf dies. pose proof Hf as (Hs & _ & _)%list_find_Some.
  unfold shmdt. rewrite He.
  assert (list_find (fun t => addr t = addr s) (shmem (ashv_check_pid k st)) = Some (i, s)
    /\ ashv_local_socket_id (ashv_check_pid k st) = ashv_local_socket_id st
    /\ shmem (ashv_check_pid k st) = shmem st /\ fds (ashv_check_pid k st) = fds st
    /\ effects (ashv_check_pid k st) = effects st) as (Ef & El & E1 & E2 & E3).
  { check_pid Hp; done. }
  rewrite Ef. cbn [ashv_local_socket_id log set_shmem]. rewrite El. fold dies. destruct dies; cbn [andb].
  - unfold android_shmem_delete. cbn. rewrite E1, list_lookup_insert_eq by (by eapply lookup_lt_Some).
    cbn. case_bool; cbn; rewrite ?E2, ?E3, delete_insert_list; done.
  - cbn. by rewrite E1, E2, E3.
Qed.

(** Once the pid is recorded, [ashv_check_pid] does nothing. *)
Lemma check_pid_done k st : ashv_pid_setup st = getpid k -> ashv_check_pid k st = st.
Proof.
  intros E. unfold ashv_check_pid. rewrite E.
  destruct (Z.eqb_spec (getpid k) 0); [|by rewrite Z.eqb_refl].
  destruct st. cbn in E. by subst.
Qed.

Lemma check_pid_fields k st :
  ashv_pid_setup st = 0 \/ ashv_pid_setup st = getpid k ->
  let st0 := ashv_check_pid k st in
  ashv_pid_setup st0 = getpid k /\ shmem st0 = shmem st /\ fds st0 = fds st
  /\ effects st0 = effects st /\ syscall_supported st0 = syscall_supported st
  /\ ashv_local_socket_id st0 = ashv_local_socket_id st
  /\ shmem_counter st0 = shmem_counter st.
Proof.
  intros Hp. cbn. unfold ashv_check_pid.
  destruct (Z.eqb_spec (ashv_pid_setup st) 0); [done|].
  destruct (Z.eqb_spec (ashv_pid_setup st) (getpid k)); [done|lia].
Qed.

(** ** A concrete process *)

(** [fd] and [a] are the descriptor and the address the kernel hands out next. *)
Definition sample_kernel (fd a : Z) : kernel := mk_kernel 100 4096 3 (fun _ => true) true true
  fd 0 (fun _ => 0) (fun _ => NoReply) (fun _ _ _ => a) (fun _ _ => 0) (fun _ _ => 0)
  (fun _ => 0) (fun _ _ => 0).
Definition shm_init : shm_state := mk_state [] 0 0 0 false false ∅ ∅ ENONE [].

Lemma sample_ok fd a st :
  syscall_supported st = false -> ashv_pid_setup st = 0 \/ ashv_pid_setup st = 100 ->
  fd < 0 \/ (0 < fd /\ (fd ∉ fds st)) -> (a ∉ (addr <$> shmem st)) ->
  call_ok (sample_kernel fd a) st.
Proof. intros. split; cbn; try done. by intros ? ? ? b <-. Qed.

Lemma sample_apart fd a st :
  ashv_listening_thread_id st = true \/ shmem st = [] -> sockets_apart (sample_kernel fd a) st.
Proof.
  intros Ht. split; [by intros|]. intros Ht2 sid _. split; [|by intros].
  destruct Ht as [Ht|Ht]; [congruence|]. rewrite Ht. by intros s Hs%elem_of_nil.
Qed.

Definition st_created : shm_state :=
  match shmget 1 (sample_kernel 7 0x5000) 0 100 shm_init with
  | Ret (st, _) => st
  | Fault _ => shm_init
  end.
Definition st_attached : shm_state := (shmat (sample_kernel (-1) 0x5000) 6553601 0 st_created).1.

(** A table of one segment. *)
Lemma inv_singleton st s :
  shmem st = [s] -> 0 < descriptor s -> descriptor s ∈ fds st ->
  (markedForDeletion s = true -> addr s <> 0) -> shm_inv st.
Proof.
  intros E Hpos Hin Hm. split; rewrite E.
  - apply NoDup_singleton.
  - apply NoDup_singleton.
  - by repeat constructor.
  - intros i j x y [-> _]%list_lookup_singleton_Some [-> _]%list_lookup_singleton_Some. done.
  - by repeat constructor.
Qed.

(** ** Properties *)

(** C17: every table reachable from an empty one by shmget, shmat, shmdt and
    shmctl is well formed: descriptors are pairwise distinct and open, no two
    segments are mapped at one address, and only attached segments carry the
    deletion mark. The identifiers are pairwise distinct too for fewer than 2^15
    calls of shmget, after which the counter comes round, provided that no two
    processes use one socket id. *)
Theorem shm_table_invariant st gets st' :
  fresh_table st ->
  (shm_steps call_ok gets st st' -> table_ok st')
  /\ (shm_steps apart_ok gets st st' -> Z.of_nat gets < 2 ^ 15 -> shm_inv st').
Proof.
  intros Hf. split; [by apply (table_steps call_ok)|]. intros Hsteps Hg. apply inv_intro.
  - by destruct (ids_steps st gets st' Hf Hsteps Hg).
  - eapply (table_steps apart_ok); [done| |done]. by intros ? ? [].
Qed.

Lemma shm_table_invariant_witness :
  shm_inv st_attached /\ shmem st_attached = [mk_shmem 6553601 0x5000 7 4096 false 0].
Proof.
  split; [|vm_compute; reflexivity].
  refine (proj2 (shm_table_invariant shm_init 1 st_attached _) _ _); [done| |reflexivity].
  refine (steps_call _ 1 shm_init st_created _ (sample_kernel (-1) 0x5000) (CAt 6553601 0) 0x5000 _ _ _).
  - refine (steps_call _ 0 shm_init shm_init _ (sample_kernel 7 0x5000) (CGet 1 0 100) 6553601 _ _ _);
      [apply steps_refl| |reflexivity].
    split; [apply sample_ok; [reflexivity|by left|right; split; [lia|set_solver]|set_solver]|].
    apply sample_apart. by right.
  - split; [apply sample_ok; [reflexivity|by right|by left|]|apply sample_apart; by left].
    vm_compute. intros H. inversion H; subst. match goal with H : _ ∈ [] |- _ => inversion H end.
  - reflexivity.
Defined.

(** When the counter comes round to a segment that is still there, shmget makes a
    second one with its identifier. *)
Definition st_worn : shm_state :=
  mk_state [mk_shmem (ashv_shmid_from_counter 100 0) 0 7 4096 false 0] 0x7fff 100 100 true false ∅ {[7]} ENONE [].

Theorem identifier_reused :
  exists st', shmget 1 (sample_kernel 8 0) IPC_PRIVATE 100 st_worn = Ret (st', ashv_shmid_from_counter 100 0)
    /\ id <$> shmem st' = [ashv_shmid_from_counter 100 0; ashv_shmid_from_counter 100 0].
Proof. by eexists. Qed.

(** Removing an attached segment is deferred: IPC_RMID succeeds and leaves
    it attached at its address, and the next detach at that address unmaps it,
    closes its descriptor and removes exactly that segment. *)
Theorem rmid_deferred k st i s :
  shm_inv st -> syscall_supported st = false ->
  (ashv_pid_setup st = 0 \/ ashv_pid_setup st = getpid k) ->
  shmem st !! i = Some s -> addr s <> 0 ->
  exists st1 st2,
    shmctl k (id s) IPC_RMID false st = (st1, 0, None)
    /\ (forall hint, (shmat k (id s) hint st1).2 = addr s)
    /\ shmdt k (addr s) st1 = (st2, 0)
    /\ shmem st2 = delete i (shmem st)
    /\ fds st2 = fds st ∖ {[descriptor s]}
    /\ effects st2 = Closed (descriptor s) :: Unmapped (addr s) (size s) :: effects st.
Proof.
  intros Hinv He Hp Hs Ha.
  destruct (check_pid_fields k st Hp) as (Hp0 & E1 & E2 & Ee0 & He0 & _).
  set (st0 := ashv_check_pid k st) in *. rewrite He in He0.
  set (st1 := set_shmem (<[i := set_marked s]> (shmem st0)) st0).
  pose proof (lookup_lt_Some _ _ _ Hs) as Hlt.
  assert (shmem st1 !! i = Some (set_marked s)) as Hs1.
  { cbn. rewrite E1. by apply list_lookup_insert_eq. }
  assert (ashv_check_pid k st1 = st1) as Hchk by (by apply check_pid_done).
  pose proof (shmdt_spec k st1 i (set_marked s) He0 (or_intror Hp0)) as Hdt.
  destruct Hinv as [Hids Hds Hopen Haddr Hmarked]. rewrite Forall_lookup in Hopen.
  destruct (Hopen _ _ Hs) as [Hpos _].
  destruct (shmdt k (addr (set_marked s)) st1) as [st2 r] eqn:Edt.
  destruct Hdt as (-> & F1 & F2 & F3).
  { apply find_addr_unique; [|done]. intros j t Ht E. cbn in Ht. rewrite E1 in Ht.
    destruct (decide (j = i)) as [|Hne]; [done|]. rewrite list_lookup_insert_ne in Ht by done.
    cbn in E. eapply Haddr; [done..|congruence]. }
  cbn [markedForDeletion set_marked descriptor orb andb] in F1, F2, F3.
  rewrite (proj2 (Z.eqb_neq _ 0)) in F2, F3 by lia. cbn in F1, F2, F3.
  exists st1, st2. split_and!; try done.
  - unfold shmctl. rewrite He. fold st0.
    rewrite (find_local_index_unique _ i) by (rewrite ?E1; done). rewrite E1, Hs.
    rewrite (proj2 (Z.eqb_neq _ 0)) by done. cbn. unfold st1. by rewrite E1.
  - intros hint. unfold shmat. change (syscall_supported st1) with (syscall_supported st0).
    rewrite He0, Hchk. change (id s) with (id (set_marked s)).
    rewrite (find_local_index_unique _ i); [|cbn|done].
    + rewrite Hs1. cbn. by rewrite (proj2 (Z.eqb_neq _ 0)).
    + rewrite E1. by rewrite (fmap_insert_same id _ _ s).
  - by rewrite F1, E1, delete_insert_list.
  - by rewrite F2, E2.
  - by rewrite F3, Ee0.
Qed.

Lemma rmid_deferred_witness :
  shm_inv st_attached /\
  exists st1 st2,
    shmctl (sample_kernel 8 0) 6553601 IPC_RMID false st_attached = (st1, 0, None)
    /\ shmdt (sample_kernel 8 0) 0x5000 st1 = (st2, 0) /\ shmem st2 = [] /\ fds st2 = ∅.
Proof.
  assert (shm_inv st_attached) as Hinv.
  { eapply (inv_singleton _ (mk_shmem 6553601 0x5000 7 4096 false 0));
      [reflexivity|cbn; lia| |discriminate].
    apply (bool_decide_unpack _). vm_compute. reflexivity. }
  split; [exact Hinv|].
  destruct (rmid_deferred (sample_kernel 8 0) st_attached 0 (mk_shmem 6553601 0x5000 7 4096 false 0))
    as (st1 & st2 & H1 & _ & H2 & H3 & H4 & _); [exact Hinv|reflexivity|by right|reflexivity|done|].
  exists st1, st2. split_and!; [exact H1|exact H2|exact H3|].
  rewrite H4. vm_compute. reflexivity.
Defined.

(** Detaching a segment of the process that created it keeps the segment
    exactly when the 16-bit socket id of the process is below 0x8000: above,
    the identifier is negative, the socket id read back from it differs, and
    the segment is destroyed at its first detach although nobody removed it. *)
Theorem detach_own_segment k st i s socket_id c :
  shm_inv st -> syscall_supported st = false ->
  (ashv_pid_setup st = 0 \/ ashv_pid_setup st = getpid k) ->
  0 <= socket_id < 0x10000 -> 0 <= c < 0x8000 -> ashv_local_socket_id st = socket_id ->
  shmem st !! i = Some s -> id s = ashv_shmid_from_counter socket_id c ->
  addr s <> 0 -> markedForDeletion s = false ->
  let st' := (shmdt k (addr s) st).1 in
  if socket_id <? 0x8000
  then shmem st' = <[i := set_addr 0 s]> (shmem st) /\ fds st' = fds st
  else shmem st' = delete i (shmem st) /\ fds st' = fds st ∖ {[descriptor s]}.
Proof.
  intros Hinv He Hp Hsock Hc El Hs Eid Ha Hm.
  destruct Hinv as [_ _ Hopen Haddr _]. rewrite Forall_lookup in Hopen.
  destruct (Hopen _ _ Hs) as [Hpos _].
  pose proof (shmdt_spec k st i s He Hp) as H.
  destruct (shmdt k (addr s) st) as [st' r]. cbn [fst].
  destruct H as (_ & F1 & F2 & _).
  { apply find_addr_unique; [|done]. intros j t Ht E. eapply Haddr; [done..|congruence]. }
  rewrite Hm, Eid, El in F1, F2. rewrite (proj2 (Z.eqb_neq (descriptor s) 0)) in F2 by lia.
  rewrite F1, F2. unfold ashv_socket_id_from_shmid, ashv_shmid_from_counter.
  destruct (Z.ltb_spec socket_id 0x8000) as [Hlt|Hge].
  - assert (Z.quot (i32 (socket_id * 0x10000 + c)) 0x10000 = socket_id) as ->; [|by rewrite Z.eqb_refl].
    rewrite wrap_s_small by lia. rewrite Z.quot_div_nonneg by lia. divmod.
  - assert (i32 (socket_id * 0x10000 + c) = socket_id * 0x10000 + c - 2 ^ 32) as -> by divmod.
    assert (Z.quot (socket_id * 0x10000 + c - 2 ^ 32) 0x10000 <> socket_id) as Hne.
    { Z.quot_rem_to_equations. lia. }
    by rewrite (proj2 (Z.eqb_neq _ _) Hne).
Qed.

Definition st_owned (socket_id : Z) : shm_state :=
  mk_state [mk_shmem (ashv_shmid_from_counter socket_id 1) 0x5000 7 4096 false 0] 1 socket_id 100
    true false ∅ {[7]} ENONE [].

Lemma detach_own_segment_witness :
  shmem (shmdt (sample_kernel 8 0) 0x5000 (st_owned 0x7fff)).1
    = [mk_shmem (0x7fff0001) 0 7 4096 false 0]
  /\ shmem (shmdt (sample_kernel 8 0) 0x5000 (st_owned 0x9000)).1 = [].
Proof.
  assert (forall n, shm_inv (st_owned n)) as Hinv.
  { intros n. eapply inv_singleton; [reflexivity|cbn; lia|cbn; set_solver|discriminate]. }
  split.
  - refine (proj1 (detach_own_segment (sample_kernel 8 0) (st_owned 0x7fff) 0
      (mk_shmem 0x7fff0001 0x5000 7 4096 false 0) 0x7fff 1 (Hinv _) eq_refl (or_intror eq_refl)
      _ _ eq_refl eq_refl eq_refl _ eq_refl)); [lia|lia|done].
  - refine (proj1 (detach_own_segment (sample_kernel 8 0) (st_owned 0x9000) 0
      (mk_shmem (ashv_shmid_from_counter 0x9000 1) 0x5000 7 4096 false 0) 0x9000 1 (Hinv _) eq_refl
      (or_intror eq_refl) _ _ eq_refl eq_refl eq_refl _ eq_refl)); [lia|lia|done].
Defined.

Lemma find_or_read_index k target st st' i :
  find_or_read k target st = (st', Some i) -> is_Some (shmem st' !! i).
Proof.
  unfold find_or_read. destruct (ashv_find_local_index target (shmem st)) as [j|] eqn:E.
  - apply find_local_index_Some in E as (s & Hs & _). intros [= <- <-]. by rewrite Hs.
  - unfold ashv_read_remote_segment. destruct (remote k target) as [|rk rf rs]; [done|].
    case_bool; [done|]. intros [= <- <-]. cbn. rewrite lookup_app_r, Nat.sub_diag by done. by eexists.
Qed.

(** A round with a result: the identifier is of a segment in the table, or the
    link points to it. *)
Lemma round_total k ky shmid st :
  exists st' i r, key_round k ky shmid st = Ret (st', i, r) /\
    match r with
    | Some (Existing i) => i ∈ (id <$> shmem st')
    | Some (Owned i) => links st' !! ky = Some i
    | None => hopeless k ky st
    end.
Proof.
  assert (exists st' i r, key_round k ky shmid st = Ret (st', i, r) /\
    match r with
    | Some (Existing i) => i ∈ (id <$> shmem st')
    | Some (Owned i) => links st' !! ky = Some i
    | None => True
    end) as (st' & i & r & E & Hr).
  2: { exists st', i, r. split; [done|]. destruct r; [done|]. by apply round_without_result in E. }
  unfold key_round.
  assert (forall st1, exists st' i r, (let '(st0, shmid0, ok) := take_ownership k ky shmid st1 in
      Ret (st0, shmid0, if ok : bool then Some (Owned shmid0) else None)) = Ret (st', i, r) /\
      match r with Some (Existing i) => i ∈ (id <$> shmem st') | Some (Owned i) => links st' !! ky = Some i | None => True end) as Hown.
  { intros st1. destruct (take_ownership k ky shmid st1) as [[st' i] ok] eqn:E. exists st', i, (if ok then Some (Owned i) else None).
    split; [done|]. destruct ok; [|done]. revert E. unfold take_ownership.
    destruct (if shmid =? -1 then _ else _) as [st2 j]. destruct (_ && _); [|done]. intros [= <- <-]. apply lookup_insert_eq. }
  destruct (links st !! ky) as [target|]; [|apply Hown].
  destruct (if negb (target =? 0) then find_or_read k target st else (st, None)) as [st1 [idx|]] eqn:Ef; [|apply Hown].
  assert (is_Some (shmem st1 !! idx)) as [s Hs].
  { destruct (negb (target =? 0)); [by eapply find_or_read_index|done]. }
  rewrite Hs. eexists _, _, _. split; [reflexivity|]. by eapply list_elem_of_fmap_2, list_elem_of_lookup_2.
Qed.

(** C40: the loop that claims a key ends in its first round whenever links can be
    created, with a segment of the table or with the link pointing to the
    identifier it returns; when they cannot be created and nobody holds the
    key, because it has no link or one to a segment that is not there, it never
    ends. *)
Theorem key_loop_termination k ky shmid st :
  (symlink_ok k = true ->
     exists st' r, (forall n, key_loop (S n) k ky shmid st = Ret (st', r)) /\
       match r with
       | Existing i => i ∈ (id <$> shmem st')
       | Owned i => links st' !! ky = Some i
       end)
  /\ (symlink_ok k = false ->
      links st !! ky = None
      \/ (exists target, links st !! ky = Some target
           /\ (target = 0 \/ (target ∉ (id <$> shmem st)) /\ refused (remote k target) = true)) ->
      forall fuel, key_loop fuel k ky shmid st = Fault FuelExhausted).
Proof.
  split.
  - intros Hsym. destruct (round_total k ky shmid st) as (st' & i & r & E & Hr).
    destruct r as [r|]; [|destruct Hr; congruence]. exists st', r. split; [|done]. intros n. cbn [key_loop]. by rewrite E.
  - intros Hsym Hlink fuel. apply hopeless_loop. split; [done|].
    intros target E. destruct Hlink as [Hn|(t & E2 & Ht)]; [congruence|]. by simplify_eq.
Qed.

Definition no_links_kernel : kernel := mk_kernel 100 4096 3 (fun _ => true) true false 7 0
  (fun _ => 0) (fun _ => NoReply) (fun _ _ _ => 0) (fun _ _ => 0) (fun _ _ => 0)
  (fun _ => 0) (fun _ _ => 0).

Lemma key_loop_termination_witness :
  (exists st' r, key_loop 1 (sample_kernel 7 0) 5 (-1) shm_init = Ret (st', r)
                 /\ r = Owned 1 /\ links st' !! 5 = Some 1)
  /\ key_loop 9 no_links_kernel 5 (-1) shm_init = Fault FuelExhausted.
Proof.
  split.
  - destruct (proj1 (key_loop_termination (sample_kernel 7 0) 5 (-1) shm_init) eq_refl)
      as (st' & r & Hrun & Hr).
    specialize (Hrun 0%nat). exists st', r. split; [exact Hrun|].
    vm_compute in Hrun. injection Hrun as <- <-. split; [reflexivity|exact Hr].
  - apply (proj2 (key_loop_termination no_links_kernel 5 (-1) shm_init)); [reflexivity|by left].
Defined.

Lemma serve_spec st j s :
  shm_inv st -> shmem st !! j = Some s -> ashv_serve (Some (id s)) st = Some (key s, descriptor s).
Proof.
  intros [Hids _ _ _ _] Hs. unfold ashv_serve. cbn [mbind option_bind].
  rewrite (find_local_index_unique _ j) by done. cbn. by rewrite Hs.
Qed.

(** A segment of another process, served over that process's socket, is
    mapped with the size its descriptor tells, read as an int, by the first attach; detaching it leaves the table and
    the open descriptors as they were before. *)
Theorem remote_attach_detach k owner st j s rfd rsize hint :
  shm_inv owner -> shmem owner !! j = Some s ->
  remote k (id s) = match ashv_serve (Some (id s)) owner with
                    | Some (ky, _) => Reply ky rfd rsize
                    | None => NoReply
                    end ->
  shm_inv st -> syscall_supported st = false ->
  (ashv_pid_setup st = 0 \/ ashv_pid_setup st = getpid k) ->
  0 < rfd -> (rfd ∉ fds st) -> refused (Reply (key s) rfd rsize) = false ->
  (id s ∉ (id <$> shmem st)) -> ashv_socket_id_from_shmid (id s) <> ashv_local_socket_id st ->
  let n := u64 (i32 rsize) in
  let a := mmap k hint n rfd in
  a <> -1 -> a <> 0 -> (a ∉ (addr <$> shmem st)) ->
  exists st1 st2,
    shmat k (id s) hint st = (st1, a)
    /\ shmem st1 = shmem st ++ [mk_shmem (id s) a rfd n false (key s)]
    /\ shmdt k a st1 = (st2, 0)
    /\ shmem st2 = shmem st /\ fds st2 = fds st
    /\ effects st2 = Closed rfd :: Unmapped a n :: Mapped a n :: effects st.
Proof.
  intros Howner Hs Hr Hinv He Hp Hpos Hfd Hsz Hid Hsock n a Ha1 Ha0 Hanew.
  rewrite (serve_spec _ _ _ Howner Hs) in Hr.
  destruct (check_pid_fields k st Hp) as (Hp0 & E1 & E2 & Ee0 & He0 & El0 & _).
  set (st0 := ashv_check_pid k st) in *. rewrite He in He0.
  set (s1 := mk_shmem (id s) a rfd n false (key s)).
  set (st1 := log (Mapped a n) (set_shmem (shmem st0 ++ [s1]) (open_fd rfd st0))).
  assert (shmat k (id s) hint st = (st1, a)) as Hat.
  { unfold shmat. rewrite He. fold st0. rewrite E1, (proj2 (find_local_index_None _ _) Hid), El0.
    rewrite (proj2 (Z.eqb_neq _ _) Hsock). cbn [negb].
    unfold ashv_read_remote_segment. rewrite Hr.
    cbn [refused] in Hsz. rewrite Hsz.
    cbn [set_shmem open_fd set_fds shmem].
    rewrite lookup_app_r, Nat.sub_diag by done. cbn. fold n. fold a.
    rewrite (proj2 (Z.eqb_neq _ _) Ha1), (proj2 (Z.eqb_neq _ _) Ha0).
    by rewrite insert_app_r_alt, Nat.sub_diag by done. }
  pose proof (shmdt_spec k st1 (length (shmem st)) s1 He0 (or_intror Hp0)) as Hdt.
  destruct (shmdt k (addr s1) st1) as [st2 r] eqn:Edt.
  destruct Hdt as (-> & F1 & F2 & F3).
  { apply find_addr_unique; cbn; rewrite E1.
    - intros j2 t Ht E. apply lookup_app_Some in Ht as [Ht|[Hge Ht]].
      + exfalso. apply Hanew. rewrite <- E. by eapply list_elem_of_fmap_2, list_elem_of_lookup_2.
      + apply list_lookup_singleton_Some in Ht as [? _]. lia.
    - by rewrite lookup_app_r, Nat.sub_diag by done. }
  cbn in F1, F2, F3. rewrite El0, (proj2 (Z.eqb_neq _ _) Hsock) in F1, F2, F3.
  rewrite (proj2 (Z.eqb_neq rfd 0)) in F2, F3 by lia. cbn in F1, F2, F3.
  exists st1, st2. split_and!; [done| |done| | |].
  - cbn. by rewrite E1.
  - by rewrite F1, E1, delete_insert_app.
  - rewrite F2, E2. set_solver.
  - by rewrite F3, Ee0.
Qed.

Definition client_kernel : kernel := mk_kernel 101 4096 3 (fun _ => true) true true 9 0
  (fun _ => 0)
  (fun shmid => match ashv_serve (Some shmid) st_created with
                | Some (ky, _) => Reply ky 12 4096
                | None => NoReply
                end)
  (fun _ _ _ => 0x9000) (fun _ _ => 0) (fun _ _ => 0) (fun _ => 0) (fun _ _ => 0).

Lemma remote_attach_detach_witness :
  exists st1 st2, shmat client_kernel 6553601 0 shm_init = (st1, 0x9000)
    /\ shmdt client_kernel 0x9000 st1 = (st2, 0) /\ shmem st2 = [] /\ fds st2 = ∅.
Proof.
  destruct (remote_attach_detach client_kernel st_created shm_init 0
              (mk_shmem 6553601 0 7 4096 false 0) 12 4096 0)
    as (st1 & st2 & H1 & _ & H2 & H3 & H4 & _).
  - eapply inv_singleton; [reflexivity|cbn; lia| |discriminate].
    apply (bool_decide_unpack _). vm_compute. reflexivity.
  - reflexivity.
  - reflexivity.
  - split; cbn; try constructor. done.
  - reflexivity.
  - by left.
  - lia.
  - set_solver.
  - reflexivity.
  - set_solver.
  - vm_compute. discriminate.
  - vm_compute. discriminate.
  - vm_compute. discriminate.
  - set_solver.
  - exists st1, st2. split_and!; assumption.
Defined.

Lemma ROUND_UP_spec n p :
  0 < p -> 0 <= n -> n + p <= 2 ^ 64 -> n <= ROUND_UP n p < n + p /\ (p | ROUND_UP n p).
Proof.
  intros Hp Hn Hb. unfold ROUND_UP. rewrite (wrap_u_small 64 (n + p - 1)) by lia.
  pose proof (Z.div_mod (n + p - 1) p ltac:(lia)) as Hdiv.
  pose proof (Z.mod_pos_bound (n + p - 1) p ltac:(lia)).
  rewrite wrap_u_small by lia. split; [lia|]. apply Z.divide_factor_r.
Qed.

Lemma find_local_index_last l s :
  id s ∉ (id <$> l) -> ashv_find_local_index (id s) (l ++ [s]) = Some (length l).
Proof.
  intros Hid. unfold ashv_find_local_index. rewrite list_find_app_r.
  - cbn. by rewrite decide_True by done.
  - apply list_find_None, Forall_forall. intros t Hin E. apply Hid. rewrite <- E.
    by apply list_elem_of_fmap_2.
Qed.

(** *** Two processes and one key *)










(** A private segment is created under a fresh identifier, as long as the counter
    has not come round, with its size rounded up to whole pages, and IPC_STAT
    reports that size; nothing of the table changes when the region cannot be
    created. *)
Theorem shmget_private_stat fuel k sz st :
  call_ok k st -> ashv_listening_thread_id st = true ->
  ashv_shmid_from_counter (ashv_local_socket_id st) (Z.land (shmem_counter st + 1) 0x7fff) ∉ (id <$> shmem st) ->
  0 < getpagesize k -> 0 <= sz -> sz + getpagesize k <= 2 ^ 64 ->
  exists st' r, shmget fuel k IPC_PRIVATE sz st = Ret (st', r) /\
    if ashmem_create_region k (ROUND_UP sz (getpagesize k)) <? 0
    then r = -1 /\ shmem st' = shmem st /\ fds st' = fds st
    else (r ∉ (id <$> shmem st))
      /\ (exists n, shmctl k r IPC_STAT true st' = (st', 0, Some (mk_ds n 1 IPC_PRIVATE 438))
                    /\ sz <= n < sz + getpagesize k /\ (getpagesize k | n))
      /\ forall i s, shmem st !! i = Some s -> shmem st' !! i = Some s.
Proof.
  intros [He Hp _ _ _] Ht Hcnt Hpage Hsz Hmax.
  destruct (check_pid_fields k st Hp) as (Hp0 & E1 & E2 & _ & He0 & El0 & Ec0).
  assert (ashv_listening_thread_id (ashv_check_pid k st) = true) as Ht0 by (check_pid Hp; done).
  unfold shmget. rewrite He. unfold start_listening. rewrite Ht0. cbn [negb].
  set (st0 := ashv_check_pid k st) in *. rewrite He in He0.
  unfold create_segment. change (-1 =? -1) with true. cbv iota. unfold next_shmid.
  set (n := ROUND_UP sz (getpagesize k)).
  pose proof (ROUND_UP_spec sz (getpagesize k) Hpage Hsz Hmax) as [Hn Hdiv].
  set (r := ashv_shmid_from_counter _ _).
  assert (r ∉ (id <$> shmem st)) as Hr by (subst r; by rewrite Ec0, El0).
  destruct (ashmem_create_region k n <? 0); (eexists _, _; split; [reflexivity|]); cbn.
  - by rewrite E1, E2.
  - split; [done|]. split.
    + exists n. split; [|done]. unfold shmctl. cbn -[ashv_find_local_index].
      rewrite He0, check_pid_done by done. cbn -[ashv_find_local_index].
      rewrite E1, (find_local_index_last _ (mk_shmem r 0 (ashmem_create_region k n) n false IPC_PRIVATE))
        by done.
      by rewrite lookup_app_r, Nat.sub_diag by done.
    + intros i s Hs. rewrite E1. by apply lookup_app_l_Some.
Qed.

Lemma shmget_private_stat_witness :
  exists st' r, shmget 1 (sample_kernel 8 0) IPC_PRIVATE 5000 st_attached = Ret (st', r)
    /\ exists n, shmctl (sample_kernel 8 0) r IPC_STAT true st'
                   = (st', 0, Some (mk_ds n 1 IPC_PRIVATE 438)) /\ n = 8192.
Proof.
  assert (call_ok (sample_kernel 8 0) st_attached) as Hok.
  { apply sample_ok; [reflexivity|by right|right; split; [lia|]|].
    - apply (bool_decide_unpack _). vm_compute. reflexivity.
    - vm_compute. intros H. inversion H; subst. match goal with H : _ ∈ [] |- _ => inversion H end. }
  assert (ashv_shmid_from_counter (ashv_local_socket_id st_attached) (Z.land (shmem_counter st_attached + 1) 0x7fff)
    ∉ (id <$> shmem st_attached)) as Hnew by (apply (bool_decide_unpack _); vm_compute; reflexivity).
  destruct (shmget_private_stat 1 (sample_kernel 8 0) 5000 st_attached Hok eq_refl Hnew)
    as (st' & r & Hget & Hrest); [cbn; lia|lia|cbn; lia|].
  change (ashmem_create_region _ _ <? 0) with false in Hrest.
  destruct Hrest as (_ & (n & Hstat & Hn & q & Hq) & _).
  exists st', r. split; [exact Hget|]. exists n. split; [exact Hstat|].
  change (getpagesize (sample_kernel 8 0)) with 4096 in *. lia.
Defined.

(** A segment whose size cannot be read is not attached, and the descriptor
    received for it stays open although no segment refers to it. *)
Theorem remote_descriptor_leak k st shmid hint ky rfd rsize :
  shm_inv st -> syscall_supported st = false ->
  (ashv_pid_setup st = 0 \/ ashv_pid_setup st = getpid k) ->
  (shmid ∉ (id <$> shmem st)) -> ashv_socket_id_from_shmid shmid <> ashv_local_socket_id st ->
  remote k shmid = Reply ky rfd rsize -> refused (Reply ky rfd rsize) = true -> (rfd ∉ fds st) ->
  let '(st', r) := shmat k shmid hint st in
  r = -1 /\ errno st' = EINVAL /\ shmem st' = shmem st
  /\ rfd ∈ fds st' /\ (rfd ∉ (descriptor <$> shmem st')).
Proof.
  intros [_ _ Hopen _ _] He Hp Hid Hsock Hr Hsz Hfd. unfold shmat. rewrite He.
  destruct (check_pid_fields k st Hp) as (_ & E1 & E2 & _ & _ & El & _).
  rewrite E1, (proj2 (find_local_index_None _ _) Hid), El, (proj2 (Z.eqb_neq _ _) Hsock).
  cbn [negb]. unfold ashv_read_remote_segment. rewrite Hr.
  cbn [refused] in Hsz. rewrite Hsz.
  cbn. rewrite E1, E2. split_and!; [done..|set_solver|].
  intros (s & -> & Hs)%list_elem_of_fmap. rewrite Forall_forall in Hopen.
  by destruct (Hopen _ Hs).
Qed.

Lemma remote_descriptor_leak_witness :
  let k := mk_kernel 100 4096 3 (fun _ => true) true true 8 0 (fun _ => 0)
             (fun _ => Reply 0 12 (-1)) (fun _ _ _ => 0x9000) (fun _ _ => 0) (fun _ _ => 0)
             (fun _ => 0) (fun _ _ => 0) in
  (shmat k 0x30001 0 shm_init).2 = -1 /\ 12 ∈ fds (shmat k 0x30001 0 shm_init).1.
Proof.
  intros k.
  assert (shm_inv shm_init) as Hinv by (split; cbn; try constructor; done).
  pose proof (remote_descriptor_leak k shm_init 0x30001 0 0 12 (-1) Hinv eq_refl (or_introl eq_refl)
    ltac:(set_solver) ltac:(vm_compute; discriminate) eq_refl eq_refl
    ltac:(set_solver)) as H.
  destruct (shmat k 0x30001 0 shm_init) as [st' r]. cbn. tauto.
Defined.

(** Whatever /proc/self/status holds, the program is never found to run
    under proot: the test either says no or passes NULL to sscanf. *)
Theorem isProot_never status :
  isProot status = Ret false \/ isProot status = Fault NullDeref.
Proof. unfold isProot. repeat case_match; auto. Qed.
