(* ===== verification/Keymap.v ===== *)
(** * From a keysym to a key (InputXKB.c, first half)

    The lookups the server makes in the keyboard description before it injects
    a key: which keysym a key produces in a modifier state, which key carries
    which modifier action, and which key and modifier state produce a wanted
    keysym.  The X server's own data and macros ([XkbDescRec], the X keysyms,
    [XkbConvertCase]) are not part of the repository: the record [XkbDesc] has
    the fields the code reads, the class [XkbMacros] the macros it applies. *)
From S2P Require Import Prelude.

(** ** Data of the X server *)
Inductive oor_action : Type := XkbWrapIntoRange | XkbClampIntoRange | XkbRedirectIntoRange.

Class XkbMacros : Type := {
  XkbGroupForCoreState : Z -> Z;
  XkbOutOfRangeGroupAction : Z -> oor_action;
  XkbOutOfRangeGroupNumber : Z -> Z;
  XkbConvertCase : Z -> Z * Z;         (** lower and upper case *)
  XK : string -> Z;                    (** the keysym of a name *)
  NoSymbol : Z;
  ShiftMask : Z;
  LockMask : Z
}.

Record kt_entry : Type := mk_entry { active : bool; entry_mask : Z; level : Z }.
Record key_type : Type := mk_type {
  type_mask : Z;
  type_map : option (list kt_entry);   (** NULL when absent *)
  type_preserve : option (list Z)
}.

Inductive action_type : Type := XkbSA_SetMods | XkbSA_LockMods | XkbSA_Other.
Record xkb_action : Type := mk_action {
  act_type : action_type;
  act_use_modmap : bool;               (** [XkbSA_UseModMapMods] in the flags *)
  act_mask : Z
}.

Record XkbDesc : Type := mk_desc {
  min_key_code : Z;
  max_key_code : Z;
  XkbKeyNumGroups : Z -> Z;
  XkbKeyGroupInfo : Z -> Z;
  XkbKeyGroupsWidth : Z -> Z;
  XkbKeyKeyType : Z -> Z -> key_type;
  XkbKeySymsPtr : Z -> list Z;
  XkbKeyHasActions : Z -> bool;
  XkbKeyActionsPtr : Z -> list xkb_action;
  modmap : Z -> Z;
  key_names : option (Z -> list Z)     (** NULL when absent *)
}.

Definition XkbKeycodeInRange (d : XkbDesc) (key : Z) : bool :=
  (min_key_code d <=? key) && (key <=? max_key_code d).

(** The master keyboard: its description, its core state and the keys down. *)
Record keyboard : Type := mk_keyboard {
  xkb : XkbDesc;
  lorieGetKeyboardState : Z;
  key_is_down : Z -> bool
}.

Definition keycodes (d : XkbDesc) : list Z :=
  seqZ (min_key_code d) (max_key_code d - min_key_code d + 1).

(** The keys a real keyboard never sends. *)
Definition fakeKeys : list Z := [92; 203; 204; 205; 206; 207].

(** Element [i] of an array of the server. *)
Definition at_index {A} (l : list A) (i : Z) : outcome A :=
  match l !! Z.to_nat i with
  | Some x => if i <? 0 then Fault OutOfBounds else Ret x
  | None => Fault OutOfBounds
  end.

Section keymap.
Context `{!XkbMacros}.

(** Pairs of keysyms with one meaning. *)
Definition altKeysym : list (Z * Z) :=
  map (fun p => (XK p.1, XK p.2))
    [("Shift_L", "Shift_R"); ("Control_L", "Control_R"); ("Meta_L", "Meta_R");
     ("Alt_L", "Alt_R"); ("Super_L", "Super_R"); ("Hyper_L", "Hyper_R");
     ("KP_Space", "space"); ("KP_Tab", "Tab"); ("KP_Enter", "Return"); ("KP_F1", "F1");
     ("KP_F2", "F2"); ("KP_F3", "F3"); ("KP_F4", "F4"); ("KP_Home", "Home");
     ("KP_Left", "Left"); ("KP_Up", "Up"); ("KP_Right", "Right"); ("KP_Down", "Down");
     ("KP_Page_Up", "Page_Up"); ("KP_Page_Down", "Page_Down"); ("KP_End", "End");
     ("KP_Begin", "Begin"); ("KP_Insert", "Insert"); ("KP_Delete", "Delete");
     ("KP_Equal", "equal"); ("KP_Multiply", "asterisk"); ("KP_Add", "plus");
     ("KP_Separator", "comma"); ("KP_Subtract", "minus"); ("KP_Decimal", "period");
     ("KP_Divide", "slash"); ("KP_0", "0"); ("KP_1", "1"); ("KP_2", "2"); ("KP_3", "3");
     ("KP_4", "4"); ("KP_5", "5"); ("KP_6", "6"); ("KP_7", "7"); ("KP_8", "8");
     ("KP_9", "9"); ("ISO_Level3_Shift", "Mode_switch")]%string.

(** The alternatives of a keysym, in the order of the table. *)
Definition alternatives (keysym : Z) : list Z :=
  omap (fun p => if p.1 =? keysym then Some p.2
                 else if p.2 =? keysym then Some p.1 else None) altKeysym.

#[global] Arguments alternatives : simpl never.
#[global] Arguments altKeysym : simpl never.

(** ** The effective group and the column within it *)
Definition effective_group (d : XkbDesc) (key mods : Z) : Z :=
  let nKeyGroups := XkbKeyNumGroups d key in
  let effectiveGroup := XkbGroupForCoreState mods in
  if nKeyGroups <=? effectiveGroup then
    match XkbOutOfRangeGroupAction (XkbKeyGroupInfo d key) with
    | XkbWrapIntoRange => effectiveGroup `mod` nKeyGroups
    | XkbClampIntoRange => nKeyGroups - 1
    | XkbRedirectIntoRange =>
        let g := XkbOutOfRangeGroupNumber (XkbKeyGroupInfo d key) in
        if nKeyGroups <=? g then 0 else g
    end
  else effectiveGroup.

Definition unmapped (d : XkbDesc) (key : Z) : bool :=
  negb (XkbKeycodeInRange d key) || (XkbKeyNumGroups d key =? 0).

(** First active entry of the type that the modifiers select. *)
Definition find_entry (ty : key_type) (mods : Z) : option (nat * kt_entry) :=
  match type_map ty with
  | None => None
  | Some entries =>
      list_find (fun e => active e = true /\ Z.land mods (type_mask ty) = entry_mask e) entries
  end.

Definition key_column (d : XkbDesc) (key mods : Z) : Z :=
  let g := effective_group d key mods in
  g * XkbKeyGroupsWidth d key
  + match find_entry (XkbKeyKeyType d key g) mods with Some (_, e) => level e | None => 0 end.

(** The keysym, and the modifiers the key may consume. *)
Definition XkbTranslateKeyCode (d : XkbDesc) (key mods : Z) : outcome (bool * Z * Z) :=
  if unmapped d key then Ret (false, 0, NoSymbol)
  else
    let ty := XkbKeyKeyType d key (effective_group d key mods) in
    preserve ← match find_entry ty mods, type_preserve ty with
               | Some (i, _), Some p => at_index p (Z.of_nat i)
               | _, _ => Ret 0
               end;
    keysym ← at_index (XkbKeySymsPtr d key) (key_column d key mods);
    Ret (negb (keysym =? NoSymbol), Z.ldiff (type_mask ty) preserve, keysym).

Definition XkbKeyActionPtr (d : XkbDesc) (key mods : Z) : outcome (option xkb_action) :=
  if negb (XkbKeyHasActions d key) then Ret None
  else if unmapped d key then Ret None
  else a ← at_index (XkbKeyActionsPtr d key) (key_column d key mods); Ret (Some a).

Definition XkbKeyEffectiveGroup (d : XkbDesc) (key mods : Z) : Z :=
  if unmapped d key then 0 else effective_group d key mods.

(** ** Keysym to keycode *)

(** The loop over the keys, and the fallback behind it. *)
Fixpoint scan_keys (d : XkbDesc) (keysym state fallback : Z) (keys : list Z) : outcome Z :=
  match keys with
  | [] => Ret fallback
  | key :: keys =>
      '(_, consumed, ks) ← XkbTranslateKeyCode d key state;
      if ks =? NoSymbol then scan_keys d keysym state fallback keys
      else
        let state_out := Z.ldiff state consumed in
        let ks := if truth (Z.land state_out LockMask) then (XkbConvertCase ks).2 else ks in
        if negb (ks =? keysym) then scan_keys d keysym state fallback keys
        else if bool_decide (key ∈ fakeKeys)
        then scan_keys d keysym state (if fallback =? 0 then u8 key else fallback) keys
        else Ret (u8 key)
  end.

(** [lorieKeysymToKeycode] with a null [new_state]. *)
Definition keycode_in_state (d : XkbDesc) (keysym state : Z) : outcome Z :=
  scan_keys d keysym state 0 (keycodes d).

(** [(state & ~mask) | ((state & mask) ? 0 : mask)] *)
Definition toggle (state mask : Z) : Z :=
  Z.lor (Z.ldiff state mask) (if truth (Z.land state mask) then 0 else mask).

Definition toggle_both (state mask : Z) : Z :=
  Z.lor (Z.lor (Z.ldiff state (Z.lor ShiftMask mask))
           (if truth (Z.land state ShiftMask) then 0 else ShiftMask))
    (if truth (Z.land state mask) then 0 else mask).

Definition level3_key (kb : keyboard) (state : Z) : outcome Z :=
  keycode ← keycode_in_state (xkb kb) (XK "ISO_Level3_Shift") state;
  if keycode =? 0 then keycode_in_state (xkb kb) (XK "Mode_switch") state else Ret keycode.

Definition action_mask (d : XkbDesc) (key : Z) (act : xkb_action) : Z :=
  if act_use_modmap act then modmap d key else act_mask act.

Definition is_setmods (act : xkb_action) : bool :=
  match act_type act with XkbSA_SetMods => true | _ => false end.

Definition lorieGetLevelThreeMask (kb : keyboard) : outcome Z :=
  let state := Z.ldiff (lorieGetKeyboardState kb) 0xff in
  keycode ← level3_key kb state;
  if keycode =? 0 then Ret 0
  else
    act ← XkbKeyActionPtr (xkb kb) keycode state;
    match act with
    | None => Ret 0
    | Some act => if negb (is_setmods act) then Ret 0 else Ret (action_mask (xkb kb) keycode act)
    end.

(** The keycode and the state it needs, 0 when there is none. *)
Definition lorieKeysymToKeycode (kb : keyboard) (keysym state : Z) : outcome (Z * Z) :=
  let d := xkb kb in
  key ← keycode_in_state d keysym state;
  if negb (key =? 0) then Ret (key, state)
  else
    let s1 := toggle state ShiftMask in
    key ← keycode_in_state d keysym s1;
    if negb (key =? 0) then Ret (key, s1)
    else
      level_three_mask ← lorieGetLevelThreeMask kb;
      if level_three_mask =? 0 then Ret (0, s1)
      else
        let s2 := toggle state level_three_mask in
        key ← keycode_in_state d keysym s2;
        if negb (key =? 0) then Ret (key, s2)
        else
          let s3 := toggle_both state level_three_mask in
          key ← keycode_in_state d keysym s3;
          Ret (key, s3).

(** ** Modifier keys *)

(** Does [key] set a modifier of [mask] in [state]? [test] is how the caller
    compares the two masks. *)
Definition sets_modifier (d : XkbDesc) (test : Z -> bool) (state key : Z) : outcome bool :=
  act ← XkbKeyActionPtr d key state;
  match act with
  | None => Ret false
  | Some act => Ret (is_setmods act && test (action_mask d key act))
  end.

Fixpoint first_setter (d : XkbDesc) (test : Z -> bool) (state : Z) (keys : list Z) : outcome Z :=
  match keys with
  | [] => Ret 0
  | key :: keys =>
      b ← sets_modifier d test state key;
      if b : bool then Ret (u8 key) else first_setter d test state keys
  end.

(** [count >= maxKeys] gives up with an empty answer. *)
Fixpoint down_setters (kb : keyboard) (mask state : Z) (maxKeys : nat) (found keys : list Z)
  : outcome (list Z) :=
  match keys with
  | [] => Ret found
  | key :: keys =>
      if negb (key_is_down kb key) then down_setters kb mask state maxKeys found keys
      else
        b ← sets_modifier (xkb kb) (fun m => truth (Z.land m mask)) state key;
        if negb b then down_setters kb mask state maxKeys found keys
        else if (maxKeys <=? length found)%nat then Ret []
        else down_setters kb mask state maxKeys (found ++ [u8 key]) keys
  end.

Definition loriePressShift (kb : keyboard) : outcome Z :=
  let state := lorieGetKeyboardState kb in
  if truth (Z.land state ShiftMask) then Ret 0
  else first_setter (xkb kb) (fun m => Z.land m ShiftMask =? ShiftMask) state (keycodes (xkb kb)).

Definition lorieReleaseShift (kb : keyboard) (maxKeys : nat) : outcome (list Z) :=
  let state := lorieGetKeyboardState kb in
  if negb (truth (Z.land state ShiftMask)) then Ret []
  else down_setters kb ShiftMask state maxKeys [] (keycodes (xkb kb)).

Definition loriePressLevelThree (kb : keyboard) : outcome Z :=
  mask ← lorieGetLevelThreeMask kb;
  if mask =? 0 then Ret 0
  else
    let state := lorieGetKeyboardState kb in
    if truth (Z.land state mask) then Ret 0
    else
      keycode ← level3_key kb state;
      if keycode =? 0 then Ret 0
      else
        act ← XkbKeyActionPtr (xkb kb) keycode state;
        match act with
        | None => Ret 0
        | Some act => if negb (is_setmods act) then Ret 0 else Ret keycode
        end.

Definition lorieReleaseLevelThree (kb : keyboard) (maxKeys : nat) : outcome (list Z) :=
  mask ← lorieGetLevelThreeMask kb;
  if mask =? 0 then Ret []
  else
    let state := lorieGetKeyboardState kb in
    if negb (truth (Z.land state mask)) then Ret []
    else down_setters kb mask state maxKeys [] (keycodes (xkb kb)).

(** The mask comes from [modmap[keycode]], the key that is typed, and not from
    the NumLock key. *)
Definition lorieIsAffectedByNumLock (kb : keyboard) (keycode : Z) : outcome bool :=
  let state := Z.ldiff (lorieGetKeyboardState kb) 0xff in
  numlock_keycode ← keycode_in_state (xkb kb) (XK "Num_Lock") state;
  if numlock_keycode =? 0 then Ret false
  else
    act ← XkbKeyActionPtr (xkb kb) numlock_keycode state;
    match act with
    | None => Ret false
    | Some act =>
        match act_type act with
        | XkbSA_LockMods =>
            let numlock_mask := action_mask (xkb kb) keycode act in
            let ty := XkbKeyKeyType (xkb kb) keycode (XkbKeyEffectiveGroup (xkb kb) keycode state) in
            Ret (negb (Z.land (type_mask ty) numlock_mask =? 0))
        | _ => Ret false
        end
    end.

(** What a key produces in a state, with the upper-casing of Lock. *)
Definition produced (d : XkbDesc) (state key : Z) : outcome (option Z) :=
  '(_, consumed, ks) ← XkbTranslateKeyCode d key state;
  if ks =? NoSymbol then Ret None
  else Ret (Some (if truth (Z.land (Z.ldiff state consumed) LockMask)
                  then (XkbConvertCase ks).2 else ks)).

Definition yields (d : XkbDesc) (state keysym key : Z) : Prop :=
  produced d state key = Ret (Some keysym).
#[export] Instance yields_dec d state keysym key : Decision (yields d state keysym key).
Proof. unfold yields. apply _. Defined.

(** The description is consistent: every table is as long as the groups and the
    width of the key say. *)
Record keymap_wf (d : XkbDesc) : Prop := {
  wf_range : 1 <= min_key_code d /\ max_key_code d <= 255;
  wf_groups : forall key, 0 <= XkbKeyNumGroups d key;
  wf_width : forall key, XkbKeyNumGroups d key <> 0 -> 0 < XkbKeyGroupsWidth d key;
  wf_syms : forall key, XkbKeycodeInRange d key = true ->
    Z.of_nat (length (XkbKeySymsPtr d key)) = XkbKeyNumGroups d key * XkbKeyGroupsWidth d key;
  wf_actions : forall key, XkbKeycodeInRange d key = true -> XkbKeyHasActions d key = true ->
    Z.of_nat (length (XkbKeyActionsPtr d key)) = XkbKeyNumGroups d key * XkbKeyGroupsWidth d key;
  wf_levels : forall key g es e, type_map (XkbKeyKeyType d key g) = Some es -> e ∈ es ->
    0 <= level e < XkbKeyGroupsWidth d key;
  wf_preserve : forall key g es p, type_map (XkbKeyKeyType d key g) = Some es ->
    type_preserve (XkbKeyKeyType d key g) = Some p -> (length es <= length p)%nat
}.

(** Group numbers are unsigned. *)
Class XkbMacrosLaws : Prop := {
  group_for_core_state_nonneg : forall mods, 0 <= XkbGroupForCoreState mods;
  out_of_range_number_nonneg : forall info, 0 <= XkbOutOfRangeGroupNumber info
}.
Context `{!XkbMacrosLaws}.

(** ** Bounds *)
Lemma effective_group_range d key mods :
  keymap_wf d -> XkbKeyNumGroups d key <> 0 ->
  0 <= effective_group d key mods < XkbKeyNumGroups d key.
Proof.
  intros Hwf Hg. pose proof (wf_groups d Hwf key). unfold effective_group.
  pose proof (group_for_core_state_nonneg mods).
  pose proof (out_of_range_number_nonneg (XkbKeyGroupInfo d key)).
  destruct (Z.leb_spec (XkbKeyNumGroups d key) (XkbGroupForCoreState mods)); [|lia].
  destruct (XkbOutOfRangeGroupAction _); [|lia|].
  - apply Z.mod_pos_bound. lia.
  - case_bool; bool_arith; lia.
Qed.

Lemma find_entry_Some ty mods i e :
  find_entry ty mods = Some (i, e) -> exists es, type_map ty = Some es /\ es !! i = Some e.
Proof.
  unfold find_entry. destruct (type_map ty) as [es|]; [|done].
  intros (? & _ & _)%list_find_Some. eauto.
Qed.

Lemma key_column_range d key mods :
  keymap_wf d -> XkbKeyNumGroups d key <> 0 ->
  0 <= key_column d key mods < XkbKeyNumGroups d key * XkbKeyGroupsWidth d key.
Proof.
  intros Hwf Hg. pose proof (effective_group_range d key mods Hwf Hg).
  pose proof (wf_width d Hwf key Hg). unfold key_column.
  set (g := effective_group d key mods) in *.
  assert (0 <= match find_entry (XkbKeyKeyType d key g) mods with Some (_, e) => level e | None => 0 end
          < XkbKeyGroupsWidth d key).
  { destruct (find_entry _ _) as [[i e]|] eqn:E; [|lia].
    apply find_entry_Some in E as (es & Hes & Hi).
    eapply wf_levels; [done..|]. by eapply list_elem_of_lookup_2. }
  nia.
Qed.

Lemma at_index_ok {A} (l : list A) i :
  0 <= i < Z.of_nat (length l) -> exists x, at_index l i = Ret x.
Proof.
  intros Hi. unfold at_index. rewrite (proj2 (Z.ltb_ge i 0)) by lia.
  destruct (lookup_lt_is_Some_2 l (Z.to_nat i)) as [x ->]; [lia|eauto].
Qed.

Lemma unmapped_false d key :
  unmapped d key = false -> XkbKeycodeInRange d key = true /\ XkbKeyNumGroups d key <> 0.
Proof. unfold unmapped. intros. by bool_arith. Qed.

Lemma translate_ok d key mods :
  keymap_wf d -> exists r, XkbTranslateKeyCode d key mods = Ret r.
Proof.
  intros Hwf. unfold XkbTranslateKeyCode. destruct (unmapped d key) eqn:Eu; [eauto|].
  apply unmapped_false in Eu as [Hr Hg].
  set (ty := XkbKeyKeyType d key _).
  assert (exists p, match find_entry ty mods, type_preserve ty with
                    | Some (i, _), Some p => at_index p (Z.of_nat i)
                    | _, _ => Ret 0
                    end = Ret p) as [p ->].
  { destruct (find_entry ty mods) as [[i e]|] eqn:E; [|eauto].
    destruct (type_preserve ty) as [p|] eqn:Ep; [|eauto].
    apply find_entry_Some in E as (es & Hes & Hi). apply at_index_ok.
    pose proof (wf_preserve d Hwf _ _ _ _ Hes Ep). apply lookup_lt_Some in Hi. lia. }
  cbind. destruct (at_index_ok (XkbKeySymsPtr d key) (key_column d key mods)) as [x ->]; [|cbind; eauto].
  rewrite wf_syms by done. by apply key_column_range.
Qed.

Lemma action_ok d key mods : keymap_wf d -> exists r, XkbKeyActionPtr d key mods = Ret r.
Proof.
  intros Hwf. unfold XkbKeyActionPtr. destruct (XkbKeyHasActions d key) eqn:Ea; [|cbn; eauto].
  destruct (unmapped d key) eqn:Eu; [cbn; eauto|]. apply unmapped_false in Eu as [Hr Hg]. cbn [negb].
  destruct (at_index_ok (XkbKeyActionsPtr d key) (key_column d key mods)) as [x ->]; [|cbind; eauto].
  rewrite wf_actions by done. by apply key_column_range.
Qed.

(** ** The scan finds the first real key, or else the first fake one *)
Lemma produced_ok d state key : keymap_wf d -> exists o, produced d state key = Ret o.
Proof.
  intros Hwf. unfold produced. destruct (translate_ok d key state Hwf) as [[[? c] ks] ->].
  cbind. case_bool; eauto.
Qed.

Lemma scan_keys_cons d keysym state fb key keys :
  keymap_wf d -> 0 <= key < 256 ->
  scan_keys d keysym state fb (key :: keys) =
    if bool_decide (yields d state keysym key) then
      if bool_decide (key ∈ fakeKeys)
      then scan_keys d keysym state (if fb =? 0 then key else fb) keys
      else Ret key
    else scan_keys d keysym state fb keys.
Proof.
  intros Hwf Hk. cbn [scan_keys].
  destruct (translate_ok d key state Hwf) as [[[b c] ks] Et]. rewrite Et. cbind.
  assert (produced d state key = if ks =? NoSymbol then Ret None
          else Ret (Some (if truth (Z.land (Z.ldiff state c) LockMask)
                          then (XkbConvertCase ks).2 else ks))) as Hp.
  { unfold produced. by rewrite Et. }
  rewrite (wrap_u_small 8 key) by (simpl; lia).
  destruct (ks =? NoSymbol).
  - rewrite (bool_decide_eq_false_2 (yields _ _ _ _)); [done|]. unfold yields. by rewrite Hp.
  - destruct (Z.eqb_spec (if truth (Z.land (Z.ldiff state c) LockMask)
                          then (XkbConvertCase ks).2 else ks) keysym) as [E|E]; cbn [negb].
    + rewrite (bool_decide_eq_true_2 (yields _ _ _ _)); [done|]. unfold yields. by rewrite Hp, E.
    + rewrite (bool_decide_eq_false_2 (yields _ _ _ _)); [done|]. unfold yields. rewrite Hp. congruence.
Qed.

Lemma scan_keys_spec d keysym state keys fb :
  keymap_wf d -> Forall (fun k => 0 < k < 256) keys ->
  scan_keys d keysym state fb keys = Ret
    match list_find (fun k => yields d state keysym k /\ (k ∉ fakeKeys)) keys with
    | Some (_, k) => k
    | None => if fb =? 0 then
                match list_find (yields d state keysym) keys with Some (_, k) => k | None => 0 end
              else fb
    end.
Proof.
  intros Hwf Hk. revert fb. induction Hk as [|k keys Hk Hks IH]; intros fb.
  - cbn. by destruct (Z.eqb_spec fb 0) as [->|].
  - rewrite scan_keys_cons by (done || lia). cbn [list_find].
    destruct (decide (yields d state keysym k)) as [Hy|Hn].
    + rewrite bool_decide_eq_true_2 by done. destruct (decide (k ∈ fakeKeys)) as [Hf|Hf].
      * rewrite bool_decide_eq_true_2, decide_False by (done || tauto).
        rewrite IH. destruct (list_find _ keys) as [[i x]|]; [done|]. cbn.
        destruct (Z.eqb_spec fb 0) as [->|Hfb].
        -- by rewrite (proj2 (Z.eqb_neq k 0)) by lia.
        -- by rewrite (proj2 (Z.eqb_neq fb 0)).
      * by rewrite bool_decide_eq_false_2, decide_True.
    + rewrite bool_decide_eq_false_2, decide_False by (done || tauto).
      rewrite IH. destruct (list_find _ keys) as [[i x]|]; cbn; [done|].
      by destruct (list_find (yields d state keysym) keys) as [[? ?]|].
Qed.

(** [key] is the key to press for [keysym] in [state]: it produces the keysym,
    a fake key is taken only when no real key does, and there is no smaller one
    of the same kind. *)
Record best_key (d : XkbDesc) (state keysym key : Z) : Prop := {
  best_in : key ∈ keycodes d;
  best_yields : yields d state keysym key;
  best_real : key ∈ fakeKeys -> forall k, k ∈ keycodes d -> yields d state keysym k -> k ∈ fakeKeys;
  best_least : forall k, k ∈ keycodes d -> yields d state keysym k ->
    (k ∈ fakeKeys <-> key ∈ fakeKeys) -> key <= k
}.

Definition unreachable (d : XkbDesc) (state keysym : Z) : Prop :=
  forall key, key ∈ keycodes d -> ~ yields d state keysym key.

Lemma elem_of_keycodes d key : key ∈ keycodes d <-> min_key_code d <= key <= max_key_code d.
Proof. unfold keycodes. rewrite elem_of_seqZ. lia. Qed.

Lemma keycodes_bounds d key : keymap_wf d -> key ∈ keycodes d -> 0 < key < 256.
Proof. intros Hwf Hk%elem_of_keycodes. destruct (wf_range d Hwf). lia. Qed.

Lemma keycodes_find d (P : Z -> Prop) `{!forall x, Decision (P x)} i k :
  list_find P (keycodes d) = Some (i, k) ->
  k ∈ keycodes d /\ P k /\ forall k', k' ∈ keycodes d -> P k' -> k <= k'.
Proof.
  intros (Hi & HP & Hmin)%list_find_Some.
  split; [by eapply list_elem_of_lookup_2|]. split; [done|].
  intros k' [j Hj]%list_elem_of_lookup HP'.
  destruct (decide (k <= k')) as [|Hlt]; [done|]. exfalso. eapply Hmin; [exact Hj| |done].
  unfold keycodes in *. apply lookup_seqZ in Hi as [-> ?], Hj as [-> ?]. lia.
Qed.

Lemma keycode_in_state_spec d keysym state :
  keymap_wf d -> exists key, keycode_in_state d keysym state = Ret key
    /\ ((key = 0 /\ unreachable d state keysym) \/ best_key d state keysym key).
Proof.
  intros Hwf. unfold keycode_in_state. rewrite scan_keys_spec; [|done|].
  2: { apply Forall_forall. intros. by eapply keycodes_bounds. }
  eexists. split; [reflexivity|]. cbn.
  destruct (list_find _ (keycodes d)) as [[i k]|] eqn:E1.
  { apply keycodes_find in E1 as (Hk & [Hy Hf] & Hmin). right. split; [done..| |]; [tauto|].
    intros k' Hk' Hy' Hiff. apply Hmin; tauto. }
  assert (forall k, k ∈ keycodes d -> yields d state keysym k -> k ∈ fakeKeys) as Hfake.
  { intros k Hk Hy. apply list_find_None in E1. rewrite Forall_forall in E1.
    specialize (E1 k Hk). destruct (decide (k ∈ fakeKeys)); tauto. }
  destruct (list_find (yields d state keysym) (keycodes d)) as [[i k]|] eqn:E2.
  - apply keycodes_find in E2 as (Hk & Hy & Hmin). right. split; [done..| |]; auto.
  - left. split; [done|]. apply list_find_None in E2. rewrite Forall_forall in E2. done.
Qed.

(** ** The level-three mask and the modifier keys *)
Lemma level3_key_ok kb state : keymap_wf (xkb kb) -> exists key, level3_key kb state = Ret key.
Proof.
  intros Hwf. unfold level3_key.
  destruct (keycode_in_state_spec (xkb kb) (XK "ISO_Level3_Shift") state Hwf) as (k1 & -> & _).
  destruct (keycode_in_state_spec (xkb kb) (XK "Mode_switch") state Hwf) as (k2 & -> & _).
  cbind. case_bool; eauto.
Qed.

Lemma level3_mask_ok kb : keymap_wf (xkb kb) -> exists mask, lorieGetLevelThreeMask kb = Ret mask.
Proof.
  intros Hwf. unfold lorieGetLevelThreeMask.
  destruct (level3_key_ok kb (Z.ldiff (lorieGetKeyboardState kb) 0xff) Hwf) as [k ->]. cbind.
  case_bool; [eauto|]. destruct (action_ok (xkb kb) k (Z.ldiff (lorieGetKeyboardState kb) 0xff) Hwf)
    as [[act|] ->]; cbind; [|eauto]. case_bool; eauto.
Qed.

Definition setter (d : XkbDesc) (test : Z -> bool) (state key : Z) : bool :=
  bool_decide (sets_modifier d test state key = Ret true).

Lemma sets_modifier_ok d test state key :
  keymap_wf d -> sets_modifier d test state key = Ret (setter d test state key).
Proof.
  intros Hwf. unfold setter, sets_modifier.
  destruct (action_ok d key state Hwf) as [[act|] ->]; cbind; [|done].
  by destruct (is_setmods act && test (action_mask d key act)).
Qed.

Lemma first_setter_spec d test state keys :
  keymap_wf d -> Forall (fun k => 0 < k < 256) keys ->
  first_setter d test state keys
  = Ret (match list_find (fun k => setter d test state k = true) keys with
         | Some (_, k) => k
         | None => 0
         end).
Proof.
  intros Hwf Hks. induction Hks as [|k keys Hk Hks IH]; [done|]. cbn [first_setter list_find].
  rewrite sets_modifier_ok by done. cbind. rewrite wrap_u_small by (simpl; lia).
  destruct (setter d test state k); [by rewrite decide_True|].
  rewrite decide_False, IH by done. by destruct (list_find _ keys) as [[? ?]|].
Qed.

Definition down_setter (kb : keyboard) (mask state key : Z) : bool :=
  key_is_down kb key && setter (xkb kb) (fun m => truth (Z.land m mask)) state key.

Lemma down_setters_spec kb mask state n keys found :
  keymap_wf (xkb kb) -> Forall (fun k => 0 < k < 256) keys -> (length found <= n)%nat ->
  down_setters kb mask state n found keys
  = Ret (let l := found ++ filter (fun k => down_setter kb mask state k = true) keys in
         if (length l <=? n)%nat then l else []).
Proof.
  intros Hwf Hks. revert found. induction Hks as [|k keys Hk Hks IH]; intros found Hn.
  - cbn. rewrite app_nil_r. by rewrite (proj2 (Nat.leb_le _ _)).
  - cbn [down_setters]. rewrite filter_cons.
    destruct (key_is_down kb k) eqn:Hd; cbn [negb].
    2: { rewrite decide_False by (unfold down_setter; by rewrite Hd). by apply IH. }
    rewrite sets_modifier_ok by done. cbind.
    destruct (setter _ _ state k) eqn:Hs; cbn [negb].
    2: { rewrite decide_False by (unfold down_setter; by rewrite Hd, Hs). by apply IH. }
    rewrite decide_True by (unfold down_setter; by rewrite Hd, Hs).
    destruct (Nat.leb_spec n (length found)).
    + cbn. rewrite (proj2 (Nat.leb_gt _ _)); [done|]. rewrite length_app. cbn. lia.
    + rewrite wrap_u_small by (simpl; lia). rewrite IH by (rewrite length_app; cbn; lia).
      by rewrite <- app_assoc.
Qed.

Lemma keycodes_all_bounds d : keymap_wf d -> Forall (fun k => 0 < k < 256) (keycodes d).
Proof. intros. apply Forall_forall. intros. by eapply keycodes_bounds. Qed.

(** The keys to release for [mask]: all that are down and set it, or none when
    they do not fit. *)
Definition held_setters (kb : keyboard) (mask : Z) : list Z :=
  filter (fun k => down_setter kb mask (lorieGetKeyboardState kb) k = true) (keycodes (xkb kb)).

(** The states the lookup tries, in its order. *)
Definition candidate_states (state mask : Z) : list Z :=
  state :: toggle state ShiftMask ::
    (if mask =? 0 then [] else [toggle state mask; toggle_both state mask]).

(** ** No lookup faults *)
Lemma keycode_in_state_ok d keysym state :
  keymap_wf d -> exists key, keycode_in_state d keysym state = Ret key.
Proof. intros Hwf. destruct (keycode_in_state_spec d keysym state Hwf) as (k & -> & _). eauto. Qed.

Lemma lookup_ok kb keysym state :
  keymap_wf (xkb kb) -> exists r, lorieKeysymToKeycode kb keysym state = Ret r.
Proof.
  intros Hwf. unfold lorieKeysymToKeycode.
  pose proof (fun s => keycode_in_state_ok (xkb kb) keysym s Hwf) as Hs.
  destruct (level3_mask_ok kb Hwf) as [mask Hm].
  repeat match goal with
  | |- context [keycode_in_state _ _ ?s] => destruct (Hs s) as [? ->]; cbind
  | |- context [lorieGetLevelThreeMask _] => rewrite Hm; cbind
  | |- context [if ?b then _ else _] => destruct b
  end; eauto.
Qed.

Lemma press_shift_ok kb : keymap_wf (xkb kb) -> exists k, loriePressShift kb = Ret k.
Proof.
  intros Hwf. unfold loriePressShift. case_bool; [eauto|].
  rewrite first_setter_spec by auto using keycodes_all_bounds. eauto.
Qed.

Lemma release_shift_ok kb n : keymap_wf (xkb kb) -> exists l, lorieReleaseShift kb n = Ret l.
Proof.
  intros Hwf. unfold lorieReleaseShift. case_bool; [eauto|].
  rewrite down_setters_spec by (done || cbn; auto using keycodes_all_bounds with lia). eauto.
Qed.

Lemma press_level3_ok kb : keymap_wf (xkb kb) -> exists k, loriePressLevelThree kb = Ret k.
Proof.
  intros Hwf. unfold loriePressLevelThree. destruct (level3_mask_ok kb Hwf) as [mask ->]. cbind.
  do 2 (case_bool; [eauto|]).
  destruct (level3_key_ok kb (lorieGetKeyboardState kb) Hwf) as [k ->]. cbind. case_bool; [eauto|].
  destruct (action_ok (xkb kb) k (lorieGetKeyboardState kb) Hwf) as [[act|] ->]; cbind; [|eauto].
  case_bool; eauto.
Qed.

Lemma release_level3_ok kb n : keymap_wf (xkb kb) -> exists l, lorieReleaseLevelThree kb n = Ret l.
Proof.
  intros Hwf. unfold lorieReleaseLevelThree. destruct (level3_mask_ok kb Hwf) as [mask ->]. cbind.
  do 2 (case_bool; [eauto|]).
  rewrite down_setters_spec by (done || cbn; auto using keycodes_all_bounds with lia). eauto.
Qed.

Lemma numlock_ok kb keycode : keymap_wf (xkb kb) -> exists b, lorieIsAffectedByNumLock kb keycode = Ret b.
Proof.
  intros Hwf. unfold lorieIsAffectedByNumLock.
  set (state := Z.ldiff _ _).
  destruct (keycode_in_state_ok (xkb kb) (XK "Num_Lock") state Hwf) as [n ->]. cbind.
  case_bool; [eauto|]. destruct (action_ok (xkb kb) n state Hwf) as [[act|] ->]; cbind; [|eauto].
  destruct (act_type act); eauto.
Qed.

(** [x] is one of the elements written out in [H]. *)
Ltac in_list H :=
  repeat (apply elem_of_cons in H as [->|H]; [done|]); by apply not_elem_of_nil in H.

(** ** Properties *)

(** In a consistent keyboard description the two table walks never leave
    their tables, whatever group and level the modifiers select. *)
Theorem xkb_walks_in_bounds d key mods :
  keymap_wf d ->
  (exists r, XkbTranslateKeyCode d key mods = Ret r) /\
  (exists r, XkbKeyActionPtr d key mods = Ret r) /\
  (unmapped d key = false -> 0 <= XkbKeyEffectiveGroup d key mods < XkbKeyNumGroups d key).
Proof.
  intros Hwf. split; [by apply translate_ok|]. split; [by apply action_ok|].
  unfold XkbKeyEffectiveGroup. intros Hu. rewrite Hu.
  apply unmapped_false in Hu as [_ ?]. by apply effective_group_range.
Qed.

(** C9: the lookup of a keysym terminates in bounds and is exact: it returns the
    first state of [state], Shift toggled, level three toggled, both toggled in
    which some key produces the keysym, with the best key of that state (a real
    key before a fake one, then the smallest), and 0 only when no key produces
    it in any of them. *)
Theorem keysym_lookup_exact kb keysym state :
  keymap_wf (xkb kb) ->
  exists mask key new_state,
    lorieGetLevelThreeMask kb = Ret mask
    /\ lorieKeysymToKeycode kb keysym state = Ret (key, new_state)
    /\ ((key = 0 /\ forall s, s ∈ candidate_states state mask -> unreachable (xkb kb) s keysym)
        \/ exists before after,
             candidate_states state mask = before ++ new_state :: after
             /\ best_key (xkb kb) new_state keysym key
             /\ forall s, s ∈ before -> unreachable (xkb kb) s keysym).
Proof.
  intros Hwf. destruct (level3_mask_ok kb Hwf) as [mask Hmask].
  pose proof (fun s => keycode_in_state_spec (xkb kb) keysym s Hwf) as Hst.
  assert (forall s key, best_key (xkb kb) s keysym key -> key <> 0) as Hne.
  { intros s key [Hk _ _ _]. apply keycodes_bounds in Hk; [lia|done]. }
  unfold lorieKeysymToKeycode, candidate_states.
  set (s1 := toggle state ShiftMask).
  destruct (Hst state) as (k0 & -> & [[-> U0]|B0]); cbind.
  2: { rewrite (proj2 (Z.eqb_neq _ _) (Hne _ _ B0)). exists mask, k0, state.
       split_and!; [done..|]. right. exists []. eexists. split_and!; [done..|].
       by intros s Hs%not_elem_of_nil. }
  change (negb (0 =? 0)) with false. cbv iota.
  destruct (Hst s1) as (k1 & -> & [[-> U1]|B1]); cbind.
  2: { rewrite (proj2 (Z.eqb_neq _ _) (Hne _ _ B1)). exists mask, k1, s1.
       split_and!; [done..|]. right. exists [state]. eexists. split_and!; [done..|].
       by intros s ->%list_elem_of_singleton. }
  change (negb (0 =? 0)) with false. cbv iota. rewrite Hmask. cbind.
  destruct (Z.eqb_spec mask 0) as [->|Hm].
  { exists 0, 0, s1. split_and!; [done..|]. left. split; [done|].
    intros s Hs. in_list Hs. }
  destruct (Hst (toggle state mask)) as (k2 & -> & [[-> U2]|B2]); cbind.
  2: { rewrite (proj2 (Z.eqb_neq _ _) (Hne _ _ B2)). exists mask, k2, (toggle state mask).
       rewrite (proj2 (Z.eqb_neq _ _) Hm).
       split_and!; [done..|]. right. exists [state; s1]. eexists. split_and!; [done..|].
       intros s Hs. in_list Hs. }
  change (negb (0 =? 0)) with false. cbv iota.
  destruct (Hst (toggle_both state mask)) as (k3 & -> & R3); cbind.
  exists mask, k3, (toggle_both state mask). rewrite (proj2 (Z.eqb_neq _ _) Hm). split_and!; [done..|].
  destruct R3 as [[-> U3]|B3].
  - left. split; [done|]. intros s Hs. in_list Hs.
  - right. exists [state; s1; toggle state mask], []. split_and!; [done..|exact B3|].
    intros s Hs. in_list Hs.
Qed.

(** The modifier keys used to fake Shift: the key to press is the smallest
    one whose action sets Shift, and only when Shift is not active; the keys to
    release are exactly the held keys that set Shift when at most [n] are held,
    and none otherwise. *)
Theorem shift_keys_exact kb n :
  keymap_wf (xkb kb) ->
  let state := lorieGetKeyboardState kb in
  let shift_key := setter (xkb kb) (fun m => Z.land m ShiftMask =? ShiftMask) state in
  (exists key, loriePressShift kb = Ret key /\
     if truth (Z.land state ShiftMask) then key = 0
     else (key = 0 /\ forall k, k ∈ keycodes (xkb kb) -> shift_key k = false)
          \/ (key ∈ keycodes (xkb kb) /\ shift_key key = true
              /\ forall k, k ∈ keycodes (xkb kb) -> shift_key k = true -> key <= k))
  /\ lorieReleaseShift kb n =
       Ret (if truth (Z.land state ShiftMask) && (length (held_setters kb ShiftMask) <=? n)%nat
            then held_setters kb ShiftMask else []).
Proof.
  intros Hwf state shift_key. pose proof (keycodes_all_bounds _ Hwf) as Hb.
  unfold loriePressShift, lorieReleaseShift. fold state.
  destruct (truth (Z.land state ShiftMask)); cbn [negb].
  - split; [by exists 0|]. rewrite down_setters_spec by (done || cbn; lia). done.
  - split; [|done]. rewrite first_setter_spec by done. eexists. split; [reflexivity|].
    destruct (list_find _ (keycodes (xkb kb))) as [[i k]|] eqn:E.
    + apply keycodes_find in E as (? & ? & ?). by right.
    + left. split; [done|]. apply list_find_None in E. rewrite Forall_forall in E.
      intros k Hk. specialize (E k Hk). fold shift_key in E. by destruct (shift_key k).
Qed.

(** When the NumLock action takes its modifiers from the modifier map, a key
    that is not itself a modifier is never reported as affected by NumLock,
    whatever its type says: the map is read at the typed key. *)
Theorem numlock_reads_typed_key kb keycode n act :
  keymap_wf (xkb kb) ->
  keycode_in_state (xkb kb) (XK "Num_Lock") (Z.ldiff (lorieGetKeyboardState kb) 0xff) = Ret n ->
  XkbKeyActionPtr (xkb kb) n (Z.ldiff (lorieGetKeyboardState kb) 0xff) = Ret (Some act) ->
  act_use_modmap act = true -> modmap (xkb kb) keycode = 0 ->
  lorieIsAffectedByNumLock kb keycode = Ret false.
Proof.
  intros Hwf Hn Ha Hu Hm. unfold lorieIsAffectedByNumLock. rewrite Hn. cbind.
  case_bool; [done|]. rewrite Ha. cbind. destruct (act_type act); try done.
  unfold action_mask. by rewrite Hu, Hm, Z.land_0_r.
Qed.

End keymap.

(** ** A small keyboard *)
Definition sample_keysyms : list (string * Z) :=
  [("Shift_L", 0xffe1); ("Shift_R", 0xffe2); ("ISO_Level3_Shift", 0xfe03);
   ("Mode_switch", 0xff7e); ("Num_Lock", 0xff7f); ("Tab", 0xff09); ("KP_Tab", 0xff89);
   ("KP_7", 0xffb7); ("KP_Home", 0xff95); ("Home", 0xff50); ("7", 0x37)]%string.

#[export] Instance sample_macros : XkbMacros := {|
  XkbGroupForCoreState m := Z.land (Z.shiftr m 13) 3;
  XkbOutOfRangeGroupAction info :=
    if Z.testbit info 6 then XkbClampIntoRange
    else if Z.testbit info 7 then XkbRedirectIntoRange else XkbWrapIntoRange;
  XkbOutOfRangeGroupNumber info := Z.land (Z.shiftr info 4) 3;
  XkbConvertCase ks :=
    (if (65 <=? ks) && (ks <=? 90) then ks + 32 else ks,
     if (97 <=? ks) && (ks <=? 122) then ks - 32 else ks);
  XK name := match list_find (fun p => p.1 = name) sample_keysyms with
             | Some (_, p) => p.2
             | None => 0xffffff
             end;
  NoSymbol := 0; ShiftMask := 1; LockMask := 2
|}.

#[export] Instance sample_laws : XkbMacrosLaws.
Proof. split; intros; cbn; apply Z.land_nonneg; lia. Qed.

(** Shift selects the second level, the level-three modifier (0x80) the third. *)
Definition two_level (mask : Z) : key_type :=
  mk_type mask (Some [mk_entry true mask 1; mk_entry true 1 1; mk_entry true 16 1]) None.
Definition four_level : key_type :=
  mk_type 0x81 (Some [mk_entry true 1 1; mk_entry true 0x80 2; mk_entry true 0x81 3]) None.

(** Keycode, width, type, keysyms, actions, modifier map. *)
Definition sample_keys : list (Z * (Z * key_type * list Z * list xkb_action * Z)) :=
  [(10, (2, two_level 1, [97; 65], [], 0));
   (24, (4, four_level, [113; 81; 64; 0], [], 0));
   (50, (2, two_level 1, [0xffe1; 0], [mk_action XkbSA_SetMods true 0; mk_action XkbSA_SetMods true 0], 1));
   (62, (2, two_level 1, [0xffe2; 0], [mk_action XkbSA_SetMods true 0; mk_action XkbSA_SetMods true 0], 1));
   (77, (2, two_level 1, [0xff7f; 0], [mk_action XkbSA_LockMods true 0; mk_action XkbSA_LockMods true 0], 16));
   (79, (2, two_level 17, [0xff95; 0xffb7], [], 0));
   (92, (2, two_level 1, [0xfe03; 0], [mk_action XkbSA_SetMods true 0; mk_action XkbSA_SetMods true 0], 0x80));
   (108, (2, two_level 1, [0xfe03; 0], [mk_action XkbSA_SetMods true 0; mk_action XkbSA_SetMods true 0], 0x80))].

Definition sample_key (key : Z) : Z * key_type * list Z * list xkb_action * Z :=
  match list_find (fun p => p.1 = key) sample_keys with
  | Some (_, p) => p.2
  | None => (0, mk_type 0 None None, [], [], 0)
  end.

Definition sample_desc : XkbDesc := {|
  min_key_code := 8; max_key_code := 255;
  XkbKeyNumGroups key := if (sample_key key).1.1.1.1 =? 0 then 0 else 1;
  XkbKeyGroupInfo _ := 0;
  XkbKeyGroupsWidth key := (sample_key key).1.1.1.1;
  XkbKeyKeyType key _ := (sample_key key).1.1.1.2;
  XkbKeySymsPtr key := (sample_key key).1.1.2;
  XkbKeyHasActions key := negb (Nat.eqb (length (sample_key key).1.2) 0);
  XkbKeyActionsPtr key := (sample_key key).1.2;
  modmap key := (sample_key key).2;
  key_names := None
|}.

Lemma sample_key_cases (P : Z * key_type * list Z * list xkb_action * Z -> Prop) key :
  Forall (fun p => P p.2) sample_keys -> P (0, mk_type 0 None None, [], [], 0) -> P (sample_key key).
Proof.
  intros Hall Hnone. unfold sample_key.
  destruct (list_find _ sample_keys) as [[i p]|] eqn:E; [|done].
  apply list_find_Some in E as (Hp & _ & _). by apply (Forall_lookup_1 _ _ _ _ Hall Hp).
Qed.

Lemma sample_wf : keymap_wf sample_desc.
Proof.
  split; cbn.
  - lia.
  - intros key. case_bool; lia.
  - intros key. apply (sample_key_cases (fun k => (if k.1.1.1.1 =? 0 then 0 else 1) <> 0 -> 0 < k.1.1.1.1));
      [repeat constructor; cbn; lia|done].
  - intros key _. apply (sample_key_cases (fun k => Z.of_nat (length k.1.1.2)
      = (if k.1.1.1.1 =? 0 then 0 else 1) * k.1.1.1.1)); [repeat constructor|done].
  - intros key _. apply (sample_key_cases (fun k => negb (Nat.eqb (length k.1.2) 0) = true ->
      Z.of_nat (length k.1.2) = (if k.1.1.1.1 =? 0 then 0 else 1) * k.1.1.1.1));
      [repeat constructor; done|done].
  - intros key _ es e. apply (sample_key_cases (fun k => type_map k.1.1.1.2 = Some es -> e ∈ es ->
      0 <= level e < k.1.1.1.1)); [|done].
    repeat first [apply List.Forall_nil|apply List.Forall_cons]; cbn; intros [= <-] He;
      repeat (apply elem_of_cons in He as [->|He]; [cbn; lia|]); by apply not_elem_of_nil in He.
  - intros key _ es p. apply (sample_key_cases (fun k => type_map k.1.1.1.2 = Some es ->
      type_preserve k.1.1.1.2 = Some p -> (length es <= length p)%nat)); [repeat constructor; done|done].
Qed.

(** [held] are the keys down. *)
Definition sample_keyboard (state : Z) (held : list Z) : keyboard :=
  mk_keyboard sample_desc state (fun key => bool_decide (key ∈ held)).

Lemma xkb_walks_in_bounds_witness :
  (exists r, XkbTranslateKeyCode sample_desc 24 0x6081 = Ret r)
  /\ XkbTranslateKeyCode sample_desc 24 0x6080 = Ret (true, 0x81, 64).
Proof.
  split; [|vm_compute; reflexivity].
  exact (proj1 (xkb_walks_in_bounds sample_desc 24 0x6081 sample_wf)).
Defined.

Lemma keysym_lookup_exact_witness :
  (exists mask key new_state, lorieGetLevelThreeMask (sample_keyboard 1 []) = Ret mask
     /\ lorieKeysymToKeycode (sample_keyboard 1 []) 64 1 = Ret (key, new_state))
  /\ lorieKeysymToKeycode (sample_keyboard 1 []) 64 1 = Ret (24, 0x80)
  /\ lorieKeysymToKeycode (sample_keyboard 0 []) 0xfe03 0 = Ret (108, 0).
Proof.
  split; [|split; vm_compute; reflexivity].
  destruct (keysym_lookup_exact (sample_keyboard 1 []) 64 1 sample_wf)
    as (mask & key & ns & H1 & H2 & _).
  exists mask, key, ns. split; [exact H1|exact H2].
Defined.

Lemma shift_keys_exact_witness :
  lorieReleaseShift (sample_keyboard 1 [50; 62]) 8 = Ret [50; 62]
  /\ lorieReleaseShift (sample_keyboard 1 [50; 62]) 1 = Ret [].
Proof.
  split.
  - rewrite (proj2 (shift_keys_exact (sample_keyboard 1 [50; 62]) 8 sample_wf)).
    vm_compute. reflexivity.
  - rewrite (proj2 (shift_keys_exact (sample_keyboard 1 [50; 62]) 1 sample_wf)).
    vm_compute. reflexivity.
Defined.

Lemma numlock_reads_typed_key_witness :
  lorieIsAffectedByNumLock (sample_keyboard 0 []) 79 = Ret false.
Proof.
  exact (numlock_reads_typed_key (sample_keyboard 0 []) 79 77 (mk_action XkbSA_LockMods true 0)
    sample_wf eq_refl eq_refl eq_refl eq_refl).
Defined.
