(* ===== verification/KeyInject.v ===== *)
(** * Injecting a keysym (InputXKB.c, second half)

    [lorieKeysymKeyboardEvent] turns a keysym of the client into key events,
    faking Shift and level-three modifiers around the key, and remembers which
    key it pressed so that the release matches.  [inject_state] holds the
    globals of the file and the events sent so far; what the X server does with
    the events it has processed, and its reinitialisation of a key's types, are
    the fields of [input_server]. *)
From S2P Require Import Prelude Keymap.

Inductive key_event : Type :=
  | KeyPress (keycode : Z)
  | KeyRelease (keycode : Z)
  | ProcessInputEvents.

Record inject_state : Type := mk_inject {
  kbd : keyboard;
  pressedKeys : list Z;                (** indexed by keycode, 256 entries *)
  addedKeysyms : list (Z * Z);         (** keysym and keycode, last used first *)
  sent : list key_event                (** in the order they were queued *)
}.

Record input_server : Type := mk_server {
  mieqProcessInputEvents : keyboard -> list key_event -> keyboard;
  XkbChangeTypesOfKey : XkbDesc -> Z -> XkbDesc
}.

#[export] Instance key_event_eq_dec : EqDecision key_event.
Proof. solve_decision. Defined.

(** How a call ended; the C function says so in its log only. *)
Inductive inject_result : Type :=
  | Typed (keycode : Z)
  | Released (keycode : Z)
  | UnexpectedRelease
  | NoKey
  | NoShiftKey
  | NoLevelThreeKey.

(** ** State updates *)
Definition set_kbd kb st := mk_inject kb (pressedKeys st) (addedKeysyms st) (sent st).
Definition set_pressed p st := mk_inject (kbd st) p (addedKeysyms st) (sent st).
Definition set_added l st := mk_inject (kbd st) (pressedKeys st) l (sent st).
Definition QueueKeyboardEvents (evs : list key_event) st :=
  mk_inject (kbd st) (pressedKeys st) (addedKeysyms st) (sent st ++ evs).

Definition process_input (srv : input_server) (st : inject_state) : inject_state :=
  set_kbd (mieqProcessInputEvents srv (kbd st) (sent st)) (QueueKeyboardEvents [ProcessInputEvents] st).

(** ** The keysyms added to the map, least recently used last *)
Definition saveAddedKeysym (code sym : Z) (l : list (Z * Z)) : list (Z * Z) := (sym, code) :: l.

Definition vncOnKeyUsed (usedKeycode : Z) (l : list (Z * Z)) : list (Z * Z) :=
  match l with
  | [] => l
  | it :: _ =>
      if it.2 =? usedKeycode then l
      else match list_find (fun p => p.2 = usedKeycode) l with
           | Some (i, p) => p :: delete i l
           | None => l
           end
  end.

Definition still_ours (d : XkbDesc) (last : Z * Z) : outcome bool :=
  if negb (0 <? XkbKeyNumGroups d last.2) then Ret false
  else
    sym ← at_index (XkbKeySymsPtr d last.2) 0;
    if negb (sym =? last.1) then Ret false
    else match key_names d with
         | None => Ret true
         | Some names => c ← at_index (names last.2) 0; Ret (c =? 84)
         end.

(** The list is given from its last entry to its first. *)
Fixpoint reuse_loop (d : XkbDesc) (rev_list : list (Z * Z)) : outcome (Z * list (Z * Z)) :=
  match rev_list with
  | [] => Ret (0, [])
  | last :: rest =>
      ok ← still_ours d last;
      if (ok : bool) && negb (last.2 =? 0) then Ret (last.2, rev rest) else reuse_loop d rest
  end.

Definition getReusableKeycode (d : XkbDesc) (l : list (Z * Z)) : outcome (Z * list (Z * Z)) :=
  reuse_loop d (rev l).

(** From [max_key_code] down to [min_key_code]. *)
Definition find_unused_key (d : XkbDesc) : option Z :=
  snd <$> list_find (fun key => XkbKeyNumGroups d key = 0) (rev (keycodes d)).

Definition key_name (key : Z) : list Z :=
  [84; 48 + (key / 100) `mod` 10; 48 + (key / 10) `mod` 10; 48 + key `mod` 10].

Definition set_key_name (d : XkbDesc) (key : Z) : XkbDesc :=
  mk_desc (min_key_code d) (max_key_code d) (XkbKeyNumGroups d) (XkbKeyGroupInfo d)
    (XkbKeyGroupsWidth d) (XkbKeyKeyType d) (XkbKeySymsPtr d) (XkbKeyHasActions d)
    (XkbKeyActionsPtr d) (modmap d)
    (option_map (fun names k => if k =? key then key_name key else names k) (key_names d)).

Definition set_key_syms (d : XkbDesc) (key lower upper : Z) : outcome XkbDesc :=
  let syms := XkbKeySymsPtr d key in
  if (2 <=? length syms)%nat then
    Ret (mk_desc (min_key_code d) (max_key_code d) (XkbKeyNumGroups d) (XkbKeyGroupInfo d)
      (XkbKeyGroupsWidth d) (XkbKeyKeyType d)
      (fun k => if k =? key then <[0%nat := lower]> (<[1%nat := upper]> syms)
                else XkbKeySymsPtr d k)
      (XkbKeyHasActions d) (XkbKeyActionsPtr d) (modmap d) (key_names d))
  else Fault OutOfBounds.

Section inject.
Context {MAC : XkbMacros}.
Context (srv : input_server).

Definition lorieAddKeysym (keysym : Z) (st : inject_state) : outcome (inject_state * Z) :=
  let d := xkb (kbd st) in
  '(key, added) ← match find_unused_key d with
                  | Some key => Ret (key, addedKeysyms st)
                  | None => getReusableKeycode d (addedKeysyms st)
                  end;
  let st := set_added added st in
  if key =? 0 then Ret (st, 0)
  else
    let (lower, upper) := XkbConvertCase keysym in
    d ← set_key_syms (XkbChangeTypesOfKey srv (set_key_name d key) key) key lower upper;
    let kb := mk_keyboard d (lorieGetKeyboardState (kbd st)) (key_is_down (kbd st)) in
    Ret (set_added (saveAddedKeysym key lower added) (set_kbd kb st), u8 key).

(** ** Choosing the key *)

(** The first alternative keysym that [accept]s. *)
Fixpoint try_alternatives (kb : keyboard) (state : Z) (accept : Z -> Z -> outcome bool)
  (alts : list Z) : outcome (option (Z * Z)) :=
  match alts with
  | [] => Ret None
  | altsym :: alts =>
      '(keycode, new_state) ← lorieKeysymToKeycode kb altsym state;
      if keycode =? 0 then try_alternatives kb state accept alts
      else
        ok ← accept keycode new_state;
        if ok : bool then Ret (Some (keycode, new_state))
        else try_alternatives kb state accept alts
  end.

(** Key and state for the keysym, an equivalent keysym or a newly added key. *)
Definition choose_key (keysym state : Z) (st : inject_state)
  : outcome (inject_state * option (Z * Z)) :=
  '(keycode, new_state) ← lorieKeysymToKeycode (kbd st) keysym state;
  if negb (keycode =? 0) then Ret (st, Some (keycode, new_state))
  else
    alt ← try_alternatives (kbd st) state (fun _ _ => Ret true) (alternatives keysym);
    match alt with
    | Some r => Ret (st, Some r)
    | None =>
        '(st, keycode) ← lorieAddKeysym keysym st;
        if keycode =? 0 then Ret (st, None)
        else
          '(keycode, new_state) ← lorieKeysymToKeycode (kbd st) keysym state;
          if keycode =? 0 then Ret (st, None) else Ret (st, Some (keycode, new_state))
    end.

Definition shift_differs (s1 s2 : Z) : bool := negb (Z.land s1 ShiftMask =? Z.land s2 ShiftMask).

(** A keypad key is replaced by an alternative that needs no fake Shift. *)
Definition avoid_numpad_shift (kb : keyboard) (keysym state keycode new_state : Z)
  : outcome (Z * Z) :=
  affected ← if shift_differs state new_state
             then lorieIsAffectedByNumLock kb keycode else Ret false;
  if negb affected then Ret (keycode, new_state)
  else
    alt ← try_alternatives kb state
            (fun keycode2 new_state2 =>
               if shift_differs state new_state2
               then (b ← lorieIsAffectedByNumLock kb keycode2; Ret (negb b))
               else Ret true)
            (alternatives keysym);
    match alt with
    | Some r => Ret r
    | None => Ret (keycode, new_state)
    end.

(** ** Faking modifiers *)
Definition shift_keys : nat := 8.

(** The events to send before and after the key, [None] when the modifier
    cannot be faked; [press] and [release] are the searches of [Keymap]. *)
Definition fake_modifier (held wanted : bool) (press : outcome Z) (release : outcome (list Z))
  : outcome (option (list key_event * list key_event)) :=
  if negb held && wanted then
    key ← press;
    Ret (if key =? 0 then None else Some ([KeyPress key], [KeyRelease key]))
  else if held && negb wanted then
    keys ← release;
    Ret (if (length keys =? 0)%nat then None else Some (map KeyRelease keys, map KeyPress keys))
  else Ret (Some ([], [])).

(** Forget the keys other than [keycode] that hold [keysym], then record it. *)
Definition remember_pressed (keysym keycode : Z) (pressed : list Z) : outcome (list Z) :=
  if keycode <? 256 then
    Ret (<[Z.to_nat keycode := keysym]>
           (imap (fun i sym => if negb (Z.of_nat i =? keycode) && (sym =? keysym)
                               then NoSymbol else sym) pressed))
  else Fault OutOfBounds.

(** The fake modifiers, the key, the bookkeeping and the undoing. *)
Definition type_key (keysym keycode state new_state : Z) (st : inject_state)
  : outcome (inject_state * inject_result) :=
  let kb := kbd st in
  level_three_mask ← if negb (Z.ldiff new_state ShiftMask =? Z.ldiff state ShiftMask)
                     then lorieGetLevelThreeMask kb else Ret 0;
  let held mask := truth (Z.land state mask) in
  let wanted mask := truth (Z.land new_state mask) in
  shift ← fake_modifier (held ShiftMask) (wanted ShiftMask)
            (loriePressShift kb) (lorieReleaseShift kb shift_keys);
  match shift with
  | None => Ret (st, NoShiftKey)
  | Some (shift_before, shift_after) =>
      let st := QueueKeyboardEvents shift_before st in
      level3 ← fake_modifier (held level_three_mask) (wanted level_three_mask)
                 (loriePressLevelThree kb) (lorieReleaseLevelThree kb shift_keys);
      match level3 with
      | None => Ret (st, NoLevelThreeKey)
      | Some (level3_before, level3_after) =>
          let st := QueueKeyboardEvents (level3_before ++ [KeyPress keycode]) st in
          pressed ← remember_pressed keysym keycode (pressedKeys st);
          let st := set_pressed pressed (set_added (vncOnKeyUsed keycode (addedKeysyms st)) st) in
          Ret (process_input srv (QueueKeyboardEvents (level3_after ++ shift_after) st),
               Typed keycode)
      end
  end.

Definition press_keysym (keysym : Z) (st : inject_state) : outcome (inject_state * inject_result) :=
  let st := process_input srv st in
  let state := lorieGetKeyboardState (kbd st) in
  '(st, found) ← choose_key keysym state st;
  match found with
  | None => Ret (st, NoKey)
  | Some (keycode, new_state) =>
      '(keycode, new_state) ← avoid_numpad_shift (kbd st) keysym state keycode new_state;
      let new_state := if (keysym =? XK "Tab") && truth (Z.land state ShiftMask)
                       then Z.lor new_state ShiftMask else new_state in
      type_key keysym keycode state new_state st
  end.

Definition release_keysym (keysym : Z) (st : inject_state) : inject_state * inject_result :=
  match list_find (fun sym => sym = keysym) (pressedKeys st) with
  | None => (st, UnexpectedRelease)
  | Some (i, _) =>
      let st := set_pressed (<[i := NoSymbol]> (pressedKeys st)) st in
      (process_input srv (QueueKeyboardEvents [KeyRelease (Z.of_nat i)] st), Released (Z.of_nat i))
  end.

Definition lorieKeysymKeyboardEvent (keysym : Z) (down : bool) (st : inject_state)
  : outcome (inject_state * inject_result) :=
  if down then press_keysym keysym st else Ret (release_keysym keysym st).

(** ** Keycodes fit a byte *)
Definition keycodeP (k : Z) : Prop := 0 <= k < 256.

Lemma u8_keycode z : keycodeP (u8 z).
Proof. unfold keycodeP. pose proof (wrap_u_bound 8 z). simpl in *. lia. Qed.

Lemma scan_keys_byte d keysym state fb keys k :
  keycodeP fb -> scan_keys d keysym state fb keys = Ret k -> keycodeP k.
Proof.
  revert fb. induction keys as [|key keys IH]; intros fb Hfb H; [by simplify_eq/=|].
  cbn [scan_keys] in H. apply outcome_bind_Ret_inv in H as ([[b c] ks] & _ & H).
  repeat case_match; simplify_eq; eauto using u8_keycode.
Qed.

Lemma keycode_in_state_byte d keysym state k : keycode_in_state d keysym state = Ret k -> keycodeP k.
Proof. apply scan_keys_byte. unfold keycodeP. lia. Qed.

Lemma lookup_byte kb keysym state k s : lorieKeysymToKeycode kb keysym state = Ret (k, s) -> keycodeP k.
Proof.
  unfold lorieKeysymToKeycode. intros H.
  apply outcome_bind_Ret_inv in H as (k0 & K0 & H). apply keycode_in_state_byte in K0.
  case_match; [by simplify_eq|].
  apply outcome_bind_Ret_inv in H as (k1 & K1 & H). apply keycode_in_state_byte in K1.
  case_match; [by simplify_eq|].
  apply outcome_bind_Ret_inv in H as (mask & _ & H).
  case_match; [by simplify_eq|].
  apply outcome_bind_Ret_inv in H as (k2 & K2 & H). apply keycode_in_state_byte in K2.
  case_match; [by simplify_eq|].
  apply outcome_bind_Ret_inv in H as (k3 & K3 & H). apply keycode_in_state_byte in K3.
  by simplify_eq.
Qed.

Lemma try_alternatives_byte kb state accept alts k s :
  try_alternatives kb state accept alts = Ret (Some (k, s)) -> keycodeP k.
Proof.
  induction alts as [|a alts IH]; [done|]. cbn [try_alternatives]. intros H.
  apply outcome_bind_Ret_inv in H as ([k0 s0] & K0 & H). apply lookup_byte in K0.
  case_match; [by apply IH|]. apply outcome_bind_Ret_inv in H as (ok & _ & H).
  destruct ok; [by simplify_eq|by apply IH].
Qed.

Ltac solve_choice := simplify_eq; split_and!; congruence || (intros; by simplify_eq).

Lemma choose_key_spec keysym state st st' r :
  choose_key keysym state st = Ret (st', r) ->
  pressedKeys st' = pressedKeys st /\ sent st' = sent st
  /\ forall k s, r = Some (k, s) -> keycodeP k.
Proof.
  unfold choose_key. intros H.
  apply outcome_bind_Ret_inv in H as ([k0 s0] & K0 & H). apply lookup_byte in K0.
  case_match; [solve_choice|].
  apply outcome_bind_Ret_inv in H as (alt & Ha & H).
  destruct alt as [[k1 s1]|].
  { apply try_alternatives_byte in Ha. solve_choice. }
  apply outcome_bind_Ret_inv in H as ([st1 k1] & Hadd & H).
  assert (pressedKeys st1 = pressedKeys st /\ sent st1 = sent st) as [E1 E2].
  { unfold lorieAddKeysym in Hadd. apply outcome_bind_Ret_inv in Hadd as ([key added] & _ & Hadd).
    destruct (key =? 0); [by simplify_eq/=|]. destruct (XkbConvertCase keysym) as [lower upper].
    apply outcome_bind_Ret_inv in Hadd as (d & _ & Hadd). by simplify_eq/=. }
  case_match; [solve_choice|].
  apply outcome_bind_Ret_inv in H as ([k2 s2] & K2 & H). apply lookup_byte in K2.
  case_match; solve_choice.
Qed.

Lemma avoid_byte kb keysym state k s k' s' :
  keycodeP k -> avoid_numpad_shift kb keysym state k s = Ret (k', s') -> keycodeP k'.
Proof.
  unfold avoid_numpad_shift. generalize (alternatives keysym). intros alts Hk H.
  apply outcome_bind_Ret_inv in H as (b & _ & H). destruct b; cbn [negb] in H; [|congruence]. apply outcome_bind_Ret_inv in H as (alt & Ha & H).
  destruct alt as [[k1 s1]|]; [|congruence].
  apply try_alternatives_byte in Ha. congruence.
Qed.

(** ** Shape of the events of a call *)

(** Net number of presses of [k]. *)
Definition balance (k : Z) (evs : list key_event) : Z :=
  Z.of_nat (length (filter (fun e => e = KeyPress k) evs))
  - Z.of_nat (length (filter (fun e => e = KeyRelease k) evs)).
Lemma balance_app k l1 l2 : balance k (l1 ++ l2) = balance k l1 + balance k l2.
Proof. unfold balance. rewrite !filter_app, !length_app. lia. Qed.

Lemma balance_nil k : balance k [] = 0.
Proof. done. Qed.

Lemma balance_cons k e l :
  balance k (e :: l) = (if decide (e = KeyPress k) then 1 else 0)
                       - (if decide (e = KeyRelease k) then 1 else 0) + balance k l.
Proof.
  unfold balance. rewrite !filter_cons.
  repeat case_decide; cbn [length]; simplify_eq; lia.
Qed.

Lemma balance_release_press k keys : balance k (map KeyRelease keys) + balance k (map KeyPress keys) = 0.
Proof.
  induction keys as [|key keys IH]; [done|]. cbn [map]. rewrite !balance_cons.
  repeat case_decide; simplify_eq; lia.
Qed.

Lemma fake_modifier_balanced held wanted press release before after k :
  fake_modifier held wanted press release = Ret (Some (before, after)) ->
  balance k before + balance k after = 0.
Proof.
  unfold fake_modifier. destruct (negb held && wanted), (held && negb wanted); intros H.
  1, 2: apply outcome_bind_Ret_inv in H as (key & _ & H); case_match; simplify_eq;
    rewrite !balance_cons, balance_nil; repeat case_decide; simplify_eq; lia.
  - apply outcome_bind_Ret_inv in H as (keys & _ & H). case_match; simplify_eq.
    apply balance_release_press.
  - by simplify_eq.
Qed.

(** Every way [type_key] can end. *)
Lemma type_key_spec keysym keycode state new_state st st' r :
  type_key keysym keycode state new_state st = Ret (st', r) ->
  (r = NoShiftKey /\ st' = st)
  \/ exists shift_before shift_after,
      (forall k, balance k shift_before + balance k shift_after = 0) /\
      ((r = NoLevelThreeKey /\ st' = QueueKeyboardEvents shift_before st)
       \/ exists level3_before level3_after pressed,
           (forall k, balance k level3_before + balance k level3_after = 0)
           /\ r = Typed keycode
           /\ remember_pressed keysym keycode (pressedKeys st) = Ret pressed
           /\ pressedKeys st' = pressed
           /\ sent st' = sent st ++ shift_before ++ level3_before ++ [KeyPress keycode]
                          ++ level3_after ++ shift_after ++ [ProcessInputEvents]).
Proof.
  unfold type_key. intros H. apply outcome_bind_Ret_inv in H as (mask & _ & H).
  apply outcome_bind_Ret_inv in H as (shift & Hs & H).
  destruct shift as [[sb sa]|]; [|left; by simplify_eq].
  right. exists sb, sa. split; [intros; by eapply fake_modifier_balanced|].
  apply outcome_bind_Ret_inv in H as (level3 & Hl & H).
  destruct level3 as [[lb la]|]; [|left; by simplify_eq]. right.
  apply outcome_bind_Ret_inv in H as (pressed & Hp & H).
  exists lb, la, pressed. split; [intros; by eapply fake_modifier_balanced|].
  simplify_eq. cbn. split_and!; [done..|]. by rewrite <- !app_assoc.
Qed.

(** What is on its way for Shift: nothing, a Shift key pressed because none was
    held, or the held ones released. *)
Definition faked_shift (kb : keyboard) (evs : list key_event) : Prop :=
  let held := truth (Z.land (lorieGetKeyboardState kb) ShiftMask) in
  evs = []
  \/ (held = false /\ exists key, loriePressShift kb = Ret key /\ key <> 0 /\ evs = [KeyPress key])
  \/ (held = true /\ exists keys, lorieReleaseShift kb shift_keys = Ret keys /\ keys <> []
       /\ evs = map KeyRelease keys).

Lemma fake_modifier_faked kb wanted before after :
  fake_modifier (truth (Z.land (lorieGetKeyboardState kb) ShiftMask)) wanted
    (loriePressShift kb) (lorieReleaseShift kb shift_keys) = Ret (Some (before, after)) ->
  faked_shift kb before.
Proof.
  unfold fake_modifier, faked_shift. destruct (truth (Z.land _ ShiftMask)), wanted; cbn [negb andb].
  1, 4: intros [= <- <-]; by left.
  - intros H. apply outcome_bind_Ret_inv in H as (keys & Hk & H). right. right. split; [done|].
    exists keys. destruct keys as [|k keys]; cbn in H; [done|]. injection H as <- _. done.
  - intros H. apply outcome_bind_Ret_inv in H as (key & Hk & H). right. left. split; [done|].
    exists key. destruct (Z.eqb_spec key 0); [done|]. by injection H as <- _.
Qed.

(** When the level-three key is missing, what was faked for Shift is sent. *)
Lemma type_key_level3_missing keysym keycode new_state st st' :
  type_key keysym keycode (lorieGetKeyboardState (kbd st)) new_state st = Ret (st', NoLevelThreeKey) ->
  exists evs, st' = QueueKeyboardEvents evs st /\ faked_shift (kbd st) evs.
Proof.
  unfold type_key. intros H. apply outcome_bind_Ret_inv in H as (mask & _ & H).
  apply outcome_bind_Ret_inv in H as (shift & Hs & H). destruct shift as [[sb sa]|]; [|done].
  apply outcome_bind_Ret_inv in H as (level3 & _ & H). destruct level3 as [[lb la]|].
  { by apply outcome_bind_Ret_inv in H as (pressed & _ & [=]). }
  injection H as <-. exists sb. split; [done|]. by eapply fake_modifier_faked.
Qed.

Lemma choose_key_modifiers keysym state st st' r :
  choose_key keysym state st = Ret (st', r) ->
  lorieGetKeyboardState (kbd st') = lorieGetKeyboardState (kbd st).
Proof.
  unfold choose_key. intros H.
  apply outcome_bind_Ret_inv in H as ([k0 s0] & K0 & H). case_match; [by simplify_eq|].
  apply outcome_bind_Ret_inv in H as (alt & Ha & H). destruct alt as [[k1 s1]|]; [by simplify_eq|].
  apply outcome_bind_Ret_inv in H as ([st1 k1] & Hadd & H).
  assert (lorieGetKeyboardState (kbd st1) = lorieGetKeyboardState (kbd st)) as E.
  { unfold lorieAddKeysym in Hadd. apply outcome_bind_Ret_inv in Hadd as ([key added] & _ & Hadd).
    destruct (key =? 0); [by simplify_eq/=|]. destruct (XkbConvertCase keysym) as [lower upper].
    apply outcome_bind_Ret_inv in Hadd as (d & _ & Hadd). by simplify_eq/=. }
  case_match; [by simplify_eq|].
  apply outcome_bind_Ret_inv in H as ([k2 s2] & _ & H). case_match; by simplify_eq.
Qed.

(** What a press sends beyond the processing at its start. *)
Lemma press_spec keysym st st' r :
  press_keysym keysym st = Ret (st', r) ->
  let st0 := process_input srv st in
  (r = NoKey /\ sent st' = sent st0 /\ pressedKeys st' = pressedKeys st)
  \/ exists keycode state new_state st1,
       keycodeP keycode /\ pressedKeys st1 = pressedKeys st /\ sent st1 = sent st0
       /\ type_key keysym keycode state new_state st1 = Ret (st', r)
       /\ state = lorieGetKeyboardState (kbd st1).
Proof.
  intros H st0. unfold press_keysym in H. fold st0 in H.
  apply outcome_bind_Ret_inv in H as ([st1 found] & Hc & H).
  pose proof (choose_key_modifiers _ _ _ _ _ Hc) as Em.
  apply choose_key_spec in Hc as (E1 & E2 & Hk).
  destruct found as [[keycode new_state]|]; [|left; by simplify_eq]. right.
  apply outcome_bind_Ret_inv in H as ([keycode' new_state'] & Ha & H).
  apply avoid_byte in Ha; [|by eapply Hk]. by eexists _, _, _, st1.
Qed.

(** ** The record of the pressed keys *)

(** One entry per keycode, and no keysym recorded at two keys. *)
Record pressed_inv (pressed : list Z) : Prop := {
  pressed_length : length pressed = 256%nat;
  pressed_once : forall i j sym, sym <> NoSymbol ->
    pressed !! i = Some sym -> pressed !! j = Some sym -> i = j
}.

Lemma remember_lookup keysym keycode pressed pressed' i :
  keycodeP keycode -> length pressed = 256%nat ->
  remember_pressed keysym keycode pressed = Ret pressed' ->
  pressed' !! i = if decide (i = Z.to_nat keycode) then Some keysym
                  else (fun sym => if sym =? keysym then NoSymbol else sym) <$> pressed !! i.
Proof.
  intros Hk Hl H. unfold remember_pressed in H. unfold keycodeP in Hk.
  rewrite (proj2 (Z.ltb_lt _ _)) in H by lia. injection H as <-.
  destruct (decide (i = Z.to_nat keycode)) as [->|Hne].
  - apply list_lookup_insert_eq. rewrite length_imap. lia.
  - rewrite list_lookup_insert_ne, list_lookup_imap by done.
    rewrite (proj2 (Z.eqb_neq (Z.of_nat i) keycode)) by lia. done.
Qed.

Lemma remember_length keysym keycode pressed pressed' :
  remember_pressed keysym keycode pressed = Ret pressed' -> length pressed' = length pressed.
Proof.
  unfold remember_pressed. case_bool; [|done]. intros [= <-].
  by rewrite length_insert, length_imap.
Qed.

Lemma remember_inv keysym keycode pressed pressed' :
  keycodeP keycode -> pressed_inv pressed ->
  remember_pressed keysym keycode pressed = Ret pressed' -> pressed_inv pressed'.
Proof.
  intros Hk [Hl Honce] H. split; [by erewrite remember_length|].
  intros i j sym Hne Hi Hj. rewrite (remember_lookup _ _ _ _ i Hk Hl H) in Hi.
  rewrite (remember_lookup _ _ _ _ j Hk Hl H) in Hj.
  destruct (decide (i = _)), (decide (j = _)); subst; try done.
  - injection Hi as <-. apply fmap_Some in Hj as (s & Hs & E).
    destruct (Z.eqb_spec s keysym); congruence.
  - injection Hj as <-. apply fmap_Some in Hi as (s & Hs & E).
    destruct (Z.eqb_spec s keysym); congruence.
  - apply fmap_Some in Hi as (s & Hs & E), Hj as (t & Ht & E').
    destruct (Z.eqb_spec s keysym), (Z.eqb_spec t keysym); subst; try done. by eapply Honce.
Qed.

Lemma press_inv keysym st st' r :
  press_keysym keysym st = Ret (st', r) -> pressed_inv (pressedKeys st) ->
  pressed_inv (pressedKeys st').
Proof.
  intros H Hinv. apply press_spec in H as [(_ & _ & E)|(k & s & ns & st1 & Hk & E & _ & H & _)].
  { by rewrite E. }
  rewrite <- E in Hinv.
  apply type_key_spec in H as [[_ ->]|(sb & sa & _ & [[_ ->]|(lb & la & p & _ & _ & Hp & Ep & _)])];
    [done..|]. rewrite Ep. by eapply remember_inv.
Qed.

Lemma release_inv keysym st : pressed_inv (pressedKeys st) ->
  pressed_inv (pressedKeys (release_keysym keysym st).1).
Proof.
  intros [Hl Honce]. unfold release_keysym.
  destruct (list_find _ (pressedKeys st)) as [[i s]|] eqn:E; cbn; [|by split].
  apply list_find_Some in E as (Hi & _ & _). apply lookup_lt_Some in Hi.
  split; [by rewrite length_insert|]. intros j1 j2 sym Hne H1 H2.
  destruct (decide (j1 = i)) as [->|N1]; [rewrite list_lookup_insert_eq in H1 by done; congruence|].
  destruct (decide (j2 = i)) as [->|N2]; [rewrite list_lookup_insert_eq in H2 by done; congruence|].
  rewrite list_lookup_insert_ne in H1, H2 by done. by eapply Honce.
Qed.

(** ** The history of the calls *)

(** The calls made so far with how each ended, the latest first. *)
Inductive history : inject_state -> list (Z * inject_result) -> inject_state -> Prop :=
  | history_nil st : history st [] st
  | history_call st tr st1 st2 keysym down r :
      history st tr st1 -> lorieKeysymKeyboardEvent keysym down st1 = Ret (st2, r) ->
      history st ((keysym, r) :: tr) st2.

(** The key a keysym is held at: the one its last press typed, unless the keysym
    has been released since or another keysym has been typed with that key. *)
Fixpoint held_at (tr : list (Z * inject_result)) (sym : Z) : option Z :=
  match tr with
  | [] => None
  | (s, Typed k) :: tr =>
      if s =? sym then Some k
      else match held_at tr sym with
           | Some k' => if k' =? k then None else Some k'
           | None => None
           end
  | (s, Released _) :: tr => if s =? sym then None else held_at tr sym
  | _ :: tr => held_at tr sym
  end.

(** [pressedKeys] is what the history says. *)
Definition agrees (tr : list (Z * inject_result)) (pressed : list Z) : Prop :=
  forall sym, sym <> NoSymbol -> forall i, (pressed !! i = Some sym <-> held_at tr sym = Some (Z.of_nat i)).

Lemma agrees_press tr keysym st st' r :
  press_keysym keysym st = Ret (st', r) -> pressed_inv (pressedKeys st) ->
  agrees tr (pressedKeys st) -> agrees ((keysym, r) :: tr) (pressedKeys st').
Proof.
  intros H [Hl _] Hag sym Hne i. specialize (Hag sym Hne).
  apply press_spec in H as [(-> & _ & E)|(k & s & ns & st1 & Hk & E & _ & H & _)].
  { rewrite E. apply Hag. }
  apply type_key_spec in H as [[-> ->]|(sb & sa & _ & [[-> ->]|(lb & la & p & _ & -> & Hp & Ep & _)])];
    [cbn [held_at QueueKeyboardEvents pressedKeys]; rewrite E; apply Hag..|]. rewrite Ep.
  rewrite E in Hp. rewrite (remember_lookup _ _ _ _ i Hk Hl Hp). cbn [held_at]. unfold keycodeP in Hk.
  destruct (decide (i = Z.to_nat k)) as [->|Hi].
  - rewrite Z2Nat.id by lia. destruct (Z.eqb_spec keysym sym) as [->|N]; [done|].
    split; [congruence|]. destruct (held_at tr sym) as [k'|]; [|done]. destruct (Z.eqb_spec k' k); congruence.
  - destruct (Z.eqb_spec keysym sym) as [->|N].
    + split; [|intros [= E']; lia]. intros (t & _ & Et)%fmap_Some.
      destruct (Z.eqb_spec t sym); congruence.
    + transitivity (pressedKeys st !! i = Some sym).
      * rewrite fmap_Some. split; [|intros Ht; exists sym; by rewrite (proj2 (Z.eqb_neq sym keysym))].
        intros (t & Ht & Et). destruct (Z.eqb_spec t keysym); congruence.
      * rewrite Hag. destruct (held_at tr sym) as [k'|]; [|done].
        destruct (Z.eqb_spec k' k) as [->|]; [|done]. split; [|done]. intros [= E']. lia.
Qed.

Lemma agrees_release tr keysym st :
  pressed_inv (pressedKeys st) -> agrees tr (pressedKeys st) ->
  agrees ((keysym, (release_keysym keysym st).2) :: tr) (pressedKeys (release_keysym keysym st).1).
Proof.
  intros [_ Honce] Hag sym Hne i. pose proof (Hag sym Hne i) as Hs. unfold release_keysym.
  destruct (list_find _ (pressedKeys st)) as [[j s]|] eqn:E; cbn [fst snd]; [|done].
  apply list_find_Some in E as (Hj & -> & _). cbn [held_at process_input set_kbd pressedKeys].
  cbn [QueueKeyboardEvents set_pressed pressedKeys].
  pose proof (lookup_lt_Some _ _ _ Hj). destruct (decide (i = j)) as [->|Nij].
  - rewrite list_lookup_insert_eq by done. split; [congruence|].
    destruct (Z.eqb_spec keysym sym); [done|]. intros Ht%Hs. congruence.
  - rewrite list_lookup_insert_ne by done. destruct (Z.eqb_spec keysym sym) as [->|]; [|done].
    split; [|done]. intros Hi. by destruct Nij, (Honce i j sym).
Qed.

Lemma held_at_nonneg st0 tr st sym k :
  history st0 tr st -> held_at tr sym = Some k -> 0 <= k.
Proof.
  induction 1 as [|st tr st1 st2 keysym down r H IH Hr]; [done|].
  assert (forall k', r = Typed k' -> 0 <= k') as Htyped.
  { intros k' ->. destruct down; cbn in Hr.
    - apply press_spec in Hr as [(? & _)|(k2 & s & ns & st' & Hk & _ & _ & H' & _)]; [done|].
      apply type_key_spec in H' as [[? _]|(sb & sa & _ & [[? _]|(lb & la & p & _ & [= ->] & _)])];
        [done..|]. unfold keycodeP in Hk. lia.
    - unfold release_keysym in Hr. by destruct (list_find _ _) as [[]|]; simplify_eq. }
  destruct r as [k'|k'| | | |]; cbn [held_at]; try exact IH.
  - case_match; [intros [= <-]; eauto|]. destruct (held_at tr sym) as [k2|]; [|done].
    case_match; [done|]. intros [= <-]. by apply IH.
  - case_match; [done|]. exact IH.
Qed.

Lemma no_pressed i (sym : Z) : sym <> NoSymbol -> replicate 256 NoSymbol !! i = Some sym -> False.
Proof. intros Hne Hi%lookup_replicate_1. by destruct Hi. Qed.

Lemma no_pressed_inv : pressed_inv (replicate 256 NoSymbol).
Proof. split; [done|]. intros i j sym Hsym Hi. by destruct (no_pressed i sym). Qed.

Lemma history_agrees st0 tr st :
  history st0 tr st -> pressedKeys st0 = replicate 256 NoSymbol ->
  pressed_inv (pressedKeys st) /\ agrees tr (pressedKeys st).
Proof.
  intros H Hinit. induction H as [st|st tr st1 st2 keysym down r H IH Hr].
  - rewrite Hinit. split; [apply no_pressed_inv|].
    intros sym Hsym i. split; [|done]. intros Hi. by destruct (no_pressed i sym).
  - destruct (IH Hinit) as [Hinv Hag]. destruct down; cbn in Hr.
    + split; [by eapply press_inv|by eapply agrees_press].
    + injection Hr as E. rewrite <- (f_equal fst E : _ = st2), <- (f_equal snd E : _ = r).
      split; [by apply release_inv|by apply agrees_release].
Qed.

(** ** No call leaves the tables *)

Definition names_ok (d : XkbDesc) : Prop :=
  forall names key, key_names d = Some names -> (0 < length (names key))%nat.

Definition same_range (d d' : XkbDesc) : Prop :=
  min_key_code d' = min_key_code d /\ max_key_code d' = max_key_code d.

Record desc_ok (d : XkbDesc) : Prop := {
  desc_wf : keymap_wf d;
  desc_names : names_ok d
}.

(** What is relied on of the X server: processing input leaves a consistent map
    of the same keys, and giving a key one alphabetic group makes room for two
    keysyms. *)
Record server_ok : Prop := {
  process_ok : forall kb evs, desc_ok (xkb kb) ->
    desc_ok (xkb (mieqProcessInputEvents srv kb evs))
    /\ same_range (xkb kb) (xkb (mieqProcessInputEvents srv kb evs));
  change_types_ok : forall d key, desc_ok d -> XkbKeycodeInRange d key = true ->
    let d' := XkbChangeTypesOfKey srv d key in
    desc_ok d' /\ same_range d d' /\ (2 <= length (XkbKeySymsPtr d' key))%nat
}.

Record inject_wf (st : inject_state) : Prop := {
  inject_desc : desc_ok (xkb (kbd st));
  inject_added : Forall (fun p => XkbKeycodeInRange (xkb (kbd st)) p.2 = true) (addedKeysyms st)
}.

Context {LAWS : XkbMacrosLaws}.

Lemma still_ours_ok d p :
  desc_ok d -> XkbKeycodeInRange d p.2 = true -> exists b, still_ours d p = Ret b.
Proof.
  intros [Hwf Hn] Hr. unfold still_ours. destruct (Z.ltb_spec 0 (XkbKeyNumGroups d p.2)); [|by exists false].
  cbn [negb]. pose proof (wf_width d Hwf p.2 ltac:(lia)).
  destruct (at_index_ok (XkbKeySymsPtr d p.2) 0) as [sym ->].
  { rewrite wf_syms by done. lia. }
  cbind. case_bool; [by exists false|]. destruct (key_names d) as [names|] eqn:En; [|by exists true].
  destruct (at_index_ok (names p.2) 0) as [c ->]; [|by eexists].
  pose proof (Hn _ p.2 En). lia.
Qed.

(** The reused entry is the oldest usable one; the unusable ones behind it are
    dropped with it. *)
Lemma reuse_spec d l :
  desc_ok d -> Forall (fun p => XkbKeycodeInRange d p.2 = true) l ->
  exists k l', getReusableKeycode d l = Ret (k, l')
    /\ ((k = 0 /\ l' = [] /\ Forall (fun p => still_ours d p = Ret false) l)
        \/ exists sym dropped, l = l' ++ (sym, k) :: dropped /\ still_ours d (sym, k) = Ret true
             /\ Forall (fun p => still_ours d p = Ret false) dropped).
Proof.
  intros Hd. induction l as [|[sym k] l IH] using rev_ind; intros Hl.
  { exists 0, []. split; [done|]. left. split_and!; [done..|constructor]. }
  apply Forall_app in Hl as [Hl [Hr _]%Forall_cons]. cbn in Hr.
  unfold getReusableKeycode. rewrite rev_unit. cbn [reuse_loop].
  destruct (still_ours_ok d (sym, k) Hd Hr) as [b Hb]. rewrite Hb. cbind.
  assert (k <> 0) as Hk.
  { unfold XkbKeycodeInRange in Hr. bool_arith. destruct (wf_range d (desc_wf _ Hd)). lia. }
  cbn [snd]. rewrite (proj2 (Z.eqb_neq _ _) Hk). destruct b; cbn [andb negb].
  - exists k, l. rewrite rev_involutive. split; [done|]. right. exists sym, [].
    split_and!; [done..|constructor].
  - destruct (IH Hl) as (k' & l' & E & Hcase). exists k', l'. split; [exact E|].
    destruct Hcase as [(-> & -> & Hall)|(sym' & dropped & -> & Hs & Hall)].
    + left. split_and!; [done..|]. apply Forall_app. split; [done|]. by repeat constructor.
    + right. exists sym', (dropped ++ [(sym, k)]). rewrite <- app_assoc. split_and!; [done..|].
      apply Forall_app. split; [done|]. by repeat constructor.
Qed.

Lemma in_range_same d d' key :
  same_range d d' -> XkbKeycodeInRange d' key = XkbKeycodeInRange d key.
Proof. unfold same_range, XkbKeycodeInRange. by intros [-> ->]. Qed.

Lemma set_key_name_ok d key : desc_ok d -> desc_ok (set_key_name d key) /\ same_range d (set_key_name d key).
Proof.
  intros [[] Hn]. split; [|done]. split; [split; done|].
  intros names k E. cbn in E. destruct (key_names d) as [f|] eqn:Ef; [|done]. injection E as <-.
  case_bool; [cbn; lia|]. by apply Hn.
Qed.

Lemma set_key_syms_ok d key lower upper :
  desc_ok d -> (2 <= length (XkbKeySymsPtr d key))%nat ->
  exists d', set_key_syms d key lower upper = Ret d' /\ desc_ok d' /\ same_range d d'.
Proof.
  intros [[] Hn] Hlen. unfold set_key_syms. rewrite (proj2 (Nat.leb_le _ _)) by done.
  eexists. split; [reflexivity|]. split; [|done]. split; [split; try done|done].
  intros k Hk. cbn. rewrite <- wf_syms by done.
  destruct (Z.eqb_spec k key) as [->|]; [|done]. by rewrite !length_insert.
Qed.

Lemma add_keysym_ok keysym st :
  server_ok -> inject_wf st -> exists st' k, lorieAddKeysym keysym st = Ret (st', k) /\ inject_wf st'.
Proof.
  intros [_ Hsrv] [Hd Ha]. unfold lorieAddKeysym.
  assert (exists key added,
      match find_unused_key (xkb (kbd st)) with
      | Some key => Ret (key, addedKeysyms st)
      | None => getReusableKeycode (xkb (kbd st)) (addedKeysyms st)
      end = Ret (key, added)
      /\ (key = 0 \/ XkbKeycodeInRange (xkb (kbd st)) key = true)
      /\ Forall (fun p => XkbKeycodeInRange (xkb (kbd st)) p.2 = true) added)
    as (key & added & -> & Hkey & Hadded).
  { unfold find_unused_key. destruct (list_find _ _) as [[i key]|] eqn:E; cbn [fmap option_fmap option_map snd].
    - eexists _, _. split_and!; [done| |done]. right.
      apply list_find_Some in E as (Hi & _ & _). apply list_elem_of_lookup_2 in Hi.
      rewrite list_elem_of_In, <- in_rev, <- list_elem_of_In, elem_of_keycodes in Hi.
      unfold XkbKeycodeInRange. rewrite !(proj2 (Z.leb_le _ _)) by lia. done.
    - destruct (reuse_spec _ _ Hd Ha) as (k & l' & -> & [(-> & -> & _)|(sym & dr & El & _ & _)]).
      + eexists _, _. split_and!; [done|by left|constructor].
      + eexists _, _. split; [done|]. rewrite El in Ha.
        apply Forall_app in Ha as [? [? _]%Forall_cons]. split; [by right|done]. }
  cbind. destruct (Z.eqb_spec key 0) as [->|Hne].
  { eexists _, _. split; [done|]. by split. }
  destruct Hkey as [|Hkey]; [done|]. destruct (XkbConvertCase keysym) as [lower upper].
  destruct (set_key_name_ok (xkb (kbd st)) key Hd) as [Hd1 Hr1].
  destruct (Hsrv _ key Hd1) as (Hd2 & Hr2 & Hlen); [by rewrite (in_range_same _ _ _ Hr1)|].
  destruct (set_key_syms_ok _ key lower upper Hd2 Hlen) as (d' & -> & Hd3 & Hr3). cbind.
  eexists _, _. split; [reflexivity|]. split; [done|]. cbn.
  assert (forall k, XkbKeycodeInRange d' k = XkbKeycodeInRange (xkb (kbd st)) k) as Hrange.
  { intros k. by rewrite (in_range_same _ _ _ Hr3), (in_range_same _ _ _ Hr2), (in_range_same _ _ _ Hr1). }
  apply Forall_cons. cbn. rewrite Hrange. split; [done|].
  apply (Forall_impl _ _ _ Hadded). intros p. by rewrite Hrange.
Qed.

Lemma try_alternatives_ok kb state accept alts :
  keymap_wf (xkb kb) -> (forall k s, exists b, accept k s = Ret b) ->
  exists r, try_alternatives kb state accept alts = Ret r.
Proof.
  intros Hwf Hacc. induction alts as [|a alts [r IH]]; [by eexists|]. cbn [try_alternatives].
  destruct (lookup_ok kb a state Hwf) as [[k s] ->]. cbind. case_bool; [eauto|].
  destruct (Hacc k s) as [[] ->]; cbind; eauto.
Qed.

Lemma choose_key_ok keysym state st :
  server_ok -> inject_wf st ->
  exists st' r, choose_key keysym state st = Ret (st', r) /\ inject_wf st'.
Proof.
  intros Hsrv Hst. unfold choose_key. generalize (alternatives keysym). intros alts.
  destruct (lookup_ok (kbd st) keysym state) as [[k s] ->]; [apply Hst|]. cbind.
  case_bool; [by eexists _, _|].
  destruct (try_alternatives_ok (kbd st) state (fun _ _ => Ret true) alts) as [alt ->];
    [apply Hst|by eexists|]. cbind.
  destruct alt as [r|]; [by eexists _, _|].
  destruct (add_keysym_ok keysym st Hsrv Hst) as (st' & k' & -> & Hst'). cbind.
  case_bool; [by eexists _, _|].
  destruct (lookup_ok (kbd st') keysym state) as [[k2 s2] ->]; [apply Hst'|]. cbind.
  case_bool; by eexists _, _.
Qed.

Lemma avoid_ok kb keysym state k s :
  keymap_wf (xkb kb) -> exists r, avoid_numpad_shift kb keysym state k s = Ret r.
Proof.
  intros Hwf. unfold avoid_numpad_shift. generalize (alternatives keysym). intros alts.
  assert (exists b, (if shift_differs state s then lorieIsAffectedByNumLock kb k else Ret false) = Ret b)
    as [b ->] by (case_bool; eauto using numlock_ok). cbind.
  destruct b; cbn [negb]; [|eauto].
  destruct (try_alternatives_ok kb state (fun keycode2 new_state2 =>
      if shift_differs state new_state2
      then (b ← lorieIsAffectedByNumLock kb keycode2; Ret (negb b)) else Ret true) alts Hwf) as [alt ->].
  { intros k' s'. case_bool; [|eauto]. destruct (numlock_ok kb k' Hwf) as [b ->]. cbind. eauto. }
  cbind. destruct alt; eauto.
Qed.

Lemma fake_modifier_ok held wanted press release :
  (exists k, press = Ret k) -> (exists l, release = Ret l) ->
  exists r, fake_modifier held wanted press release = Ret r.
Proof. intros [k ->] [l ->]. unfold fake_modifier. cbind. repeat case_bool; eauto. Qed.

Lemma key_used_Forall P code l : Forall P l -> Forall P (vncOnKeyUsed code l).
Proof.
  intros HP. unfold vncOnKeyUsed. destruct l as [|it l]; [done|]. case_bool; [done|].
  destruct (list_find _ (it :: l)) as [[i p]|] eqn:Ef; [|done].
  apply list_find_Some in Ef as (Hp & _ & _). apply Forall_cons. split; [by eapply Forall_lookup_1|].
  by apply Forall_delete.
Qed.

Lemma process_input_wf st : server_ok -> inject_wf st -> inject_wf (process_input srv st).
Proof.
  intros [Hp _] [Hd Ha]. destruct (Hp (kbd st) (sent st) Hd) as [Hd' Hr]. split; [done|].
  apply (Forall_impl _ _ _ Ha). intros p. cbn. by rewrite (in_range_same _ _ _ Hr).
Qed.

Lemma type_key_ok keysym keycode state new_state st :
  server_ok -> inject_wf st -> keycodeP keycode ->
  exists st' r, type_key keysym keycode state new_state st = Ret (st', r) /\ inject_wf st'.
Proof.
  intros Hsrv Hst [_ Hk]. pose proof (desc_wf _ (inject_desc _ Hst)) as Hwf. unfold type_key.
  assert (exists mask, (if negb (Z.ldiff new_state ShiftMask =? Z.ldiff state ShiftMask)
            then lorieGetLevelThreeMask (kbd st) else Ret 0) = Ret mask) as [mask ->]
    by (case_bool; eauto using level3_mask_ok). cbind.
  destruct (fake_modifier_ok (truth (Z.land state ShiftMask)) (truth (Z.land new_state ShiftMask)) _ _
    (press_shift_ok _ Hwf) (release_shift_ok _ shift_keys Hwf)) as [shift ->].
  cbind. destruct shift as [[sb sa]|]; [|by eexists _, _].
  destruct (fake_modifier_ok (truth (Z.land state mask)) (truth (Z.land new_state mask)) _ _
    (press_level3_ok _ Hwf) (release_level3_ok _ shift_keys Hwf)) as [level3 ->].
  cbind. destruct level3 as [[lb la]|].
  2: { eexists _, _. split; [done|]. by destruct Hst. }
  unfold remember_pressed. rewrite (proj2 (Z.ltb_lt _ _)) by done. cbind.
  eexists _, _. split; [reflexivity|]. apply process_input_wf; [done|].
  destruct Hst. split; [done|]. by apply key_used_Forall.
Qed.

(** The release that follows a press. *)
Lemma release_after_press st st1 keysym k :
  pressed_inv (pressedKeys st) -> keysym <> NoSymbol ->
  lorieKeysymKeyboardEvent keysym true st = Ret (st1, Typed k) ->
  exists st2,
    lorieKeysymKeyboardEvent keysym false st1 = Ret (st2, Released k)
    /\ sent st2 = sent st1 ++ [KeyRelease k; ProcessInputEvents]
    /\ (keysym ∉ pressedKeys st2)
    /\ pressedKeys st2 = <[Z.to_nat k := NoSymbol]> (pressedKeys st1).
Proof.
  intros Hinv Hne Hpress.
  pose proof (press_inv _ _ _ _ Hpress Hinv) as [Hl1 Honce1].
  apply press_spec in Hpress as [(? & _)|(k' & s & ns & st' & Hk & E & _ & H & _)]; [done|].
  apply type_key_spec in H as [[? _]|(sb & sa & _ & [[? _]|(lb & la & p & _ & Er & Hp & Ep & _)])];
    [done..|]. injection Er as <-.
  destruct Hinv as [Hl _]. rewrite E in Hp.
  pose proof (remember_lookup _ _ _ _ (Z.to_nat k) Hk Hl Hp) as Hlk.
  rewrite decide_True in Hlk by done. rewrite <- Ep in Hlk.
  assert (list_find (fun sym => sym = keysym) (pressedKeys st1) = Some (Z.to_nat k, keysym)) as Hf.
  { apply list_find_Some. split_and!; [done..|]. intros j y Hj Hlt ->.
    pose proof (Honce1 _ _ _ Hne Hj Hlk). lia. }
  cbn [lorieKeysymKeyboardEvent]. unfold release_keysym. rewrite Hf.
  unfold keycodeP in Hk. rewrite Z2Nat.id by lia. eexists. split; [reflexivity|]. cbn. split; [|split; [|done]].
  - by rewrite <- app_assoc.
  - intros [j Hj]%list_elem_of_lookup. destruct (decide (j = Z.to_nat k)) as [->|N].
    + rewrite list_lookup_insert_eq in Hj by (rewrite Hl1; lia). congruence.
    + rewrite list_lookup_insert_ne in Hj by done. by pose proof (Honce1 _ _ _ Hne Hj Hlk).
Qed.

Lemma inject_ok st keysym down :
  server_ok -> inject_wf st ->
  exists st' r, lorieKeysymKeyboardEvent keysym down st = Ret (st', r) /\ inject_wf st'.
Proof.
  intros Hsrv Hst. destruct down; cbn [lorieKeysymKeyboardEvent].
  - unfold press_keysym. pose proof (process_input_wf st Hsrv Hst) as Hst0.
    set (st0 := process_input srv st) in *.
    destruct (choose_key_ok keysym (lorieGetKeyboardState (kbd st0)) st0 Hsrv Hst0)
      as (st1 & found & Hc & Hst1). rewrite Hc. cbind.
    apply choose_key_spec in Hc as (_ & _ & Hk).
    destruct found as [[k s]|]; [|by eexists _, _]. specialize (Hk k s eq_refl).
    destruct (avoid_ok (kbd st1) keysym (lorieGetKeyboardState (kbd st0)) k s) as [[k2 s2] Ha];
      [apply Hst1|]. rewrite Ha. cbind. apply type_key_ok; [done..|]. by eapply avoid_byte.
  - destruct (release_keysym keysym st) as [st' r] eqn:Er. exists st', r. split; [done|].
    unfold release_keysym in Er. destruct (list_find _ _) as [[i s]|]; [|by simplify_eq].
    injection Er as <- _. apply process_input_wf; [done|]. by destruct Hst.
Qed.

(** ** Properties *)

(** C1: a release always matches its press, whatever happened in between. Start
    with no key recorded and let any calls be made, presses and releases of any
    keysyms in any order, successful or not. Releasing a keysym then sends
    exactly the release of the key the keysym is held at: the one its last press
    typed. When the keysym has been released since, was never typed, or another
    keysym has been typed with its key in the meantime, the release is
    unexpected, sends nothing and changes nothing. *)
Theorem release_matches_press st0 tr st sym :
  pressedKeys st0 = replicate 256 NoSymbol -> history st0 tr st -> sym <> NoSymbol ->
  match held_at tr sym with
  | Some k => exists st', lorieKeysymKeyboardEvent sym false st = Ret (st', Released k)
                /\ sent st' = sent st ++ [KeyRelease k; ProcessInputEvents]
  | None => lorieKeysymKeyboardEvent sym false st = Ret (st, UnexpectedRelease)
  end.
Proof.
  intros Hinit Hh Hne. destruct (history_agrees _ _ _ Hh Hinit) as [[_ Honce] Hag].
  specialize (Hag sym Hne). cbn [lorieKeysymKeyboardEvent]. unfold release_keysym.
  destruct (list_find _ (pressedKeys st)) as [[i s]|] eqn:Ef.
  - apply list_find_Some in Ef as (Hi & -> & _). rewrite (proj1 (Hag i) Hi). eexists.
    split; [reflexivity|]. cbn. by rewrite <- app_assoc.
  - destruct (held_at tr sym) as [k|] eqn:Eh; [|done]. exfalso.
    pose proof (proj1 (list_find_None _ _) Ef) as Hnone.
    assert (exists i, k = Z.of_nat i) as [i ->].
    { exists (Z.to_nat k). rewrite Z2Nat.id; [done|]. clear -Eh Hh. by eapply held_at_nonneg. }
    pose proof (proj2 (Hag i) eq_refl) as Hi. rewrite Forall_lookup in Hnone. by apply (Hnone i sym).
Qed.

(** C8: faked modifiers are undone. When a press types a key, the events it
    sends are one net press of that key and nothing else; when no key or no
    Shift key is found it sends nothing. When no level-three key is found, what
    was faked for Shift stays: nothing if Shift was as wanted, else the press of
    the Shift key the map has, none having been held, or the releases of the
    held Shift keys; and no keysym is recorded. *)
Theorem fake_modifiers_balanced st st' keysym r :
  lorieKeysymKeyboardEvent keysym true st = Ret (st', r) ->
  exists evs, sent st' = sent st ++ ProcessInputEvents :: evs /\
    match r with
    | Typed k => forall k', balance k' evs = if k' =? k then 1 else 0
    | NoKey | NoShiftKey => evs = []
    | NoLevelThreeKey => faked_shift (kbd st') evs /\ pressedKeys st' = pressedKeys st
    | Released _ | UnexpectedRelease => False
    end.
Proof.
  intros Hpress. assert (sent (process_input srv st) = sent st ++ [ProcessInputEvents]) as E0 by done.
  apply press_spec in Hpress as [(-> & E & _)|(k & s & ns & st1 & _ & Ep & E & H & ->)].
  { exists []. by rewrite E, E0. }
  rewrite E0 in E. pose proof H as Hkey.
  apply type_key_spec in H
    as [[-> ->]|(sb & sa & Hb & [[-> ->]|(lb & la & p & Hlb & -> & _ & _ & Es)])].
  - exists []. by rewrite E.
  - apply type_key_level3_missing in Hkey as (evs & -> & Hf). exists evs. cbn.
    rewrite E, <- app_assoc. by split.
  - rewrite E, <- app_assoc in Es. eexists. split; [exact Es|]. intros k'.
    specialize (Hb k'). specialize (Hlb k'). rewrite !balance_app, !balance_cons, balance_nil.
    destruct (Z.eqb_spec k' k) as [->|]; repeat case_decide; simplify_eq; lia.
Qed.

(** C16: injecting a keysym always comes to an end without reading or writing
    outside the keyboard description or [pressedKeys], and leaves a state for
    which the same holds, whatever keysyms are pressed and released. *)
Theorem inject_total st keysym down :
  server_ok -> inject_wf st ->
  exists st' r, lorieKeysymKeyboardEvent keysym down st = Ret (st', r) /\ inject_wf st'.
Proof. apply inject_ok. Qed.

(** A keysym that is on no key gets the highest unused key or, when every key
    is in use, the key of the least recently used keysym that is still in the
    map; entries changed by somebody else are dropped on the way, and nothing
    is added only when none is left. *)
Theorem add_keysym_reuse keysym st :
  server_ok -> inject_wf st ->
  let d := xkb (kbd st) in
  exists st' key, lorieAddKeysym keysym st = Ret (st', key) /\
    match find_unused_key d with
    | Some k => key = u8 k /\ addedKeysyms st' = ((XkbConvertCase keysym).1, k) :: addedKeysyms st
    | None =>
        (key = 0 /\ addedKeysyms st' = [] /\ Forall (fun p => still_ours d p = Ret false) (addedKeysyms st))
        \/ exists kept sym k dropped,
             addedKeysyms st = kept ++ (sym, k) :: dropped /\ still_ours d (sym, k) = Ret true
             /\ Forall (fun p => still_ours d p = Ret false) dropped
             /\ key = u8 k /\ addedKeysyms st' = ((XkbConvertCase keysym).1, k) :: kept
    end.
Proof.
  intros Hsrv Hst d. destruct (add_keysym_ok keysym st Hsrv Hst) as (st' & key & Hadd & _).
  exists st', key. split; [done|]. unfold lorieAddKeysym in Hadd. fold d in Hadd.
  destruct (XkbConvertCase keysym) as [lower upper]. cbn [fst].
  destruct (find_unused_key d) as [k|] eqn:Ef; cbn [mbind outcome_bind] in Hadd.
  - assert (k <> 0) as Hk.
    { unfold find_unused_key in Ef. destruct (list_find _ _) as [[i k']|] eqn:E; [|done].
      injection Ef as <-. apply list_find_Some in E as (Hi & _ & _).
      apply list_elem_of_lookup_2 in Hi. rewrite list_elem_of_In, <- in_rev, <- list_elem_of_In in Hi.
      apply keycodes_bounds in Hi; [lia|apply Hst]. }
    rewrite (proj2 (Z.eqb_neq _ _) Hk) in Hadd.
    apply outcome_bind_Ret_inv in Hadd as (d' & _ & Hadd). by simplify_eq.
  - destruct (reuse_spec d (addedKeysyms st)) as (k & l' & E & Hcase); [apply Hst..|].
    rewrite E in Hadd. cbn [mbind outcome_bind] in Hadd.
    destruct Hcase as [(-> & -> & Hall)|(sym & dropped & El & Hs & Hall)].
    + left. injection Hadd as <- <-. done.
    + right. assert (k <> 0) as Hk.
      { destruct Hst as [Hd Ha]. rewrite El in Ha. apply Forall_app in Ha as [_ [Hr _]%Forall_cons].
        unfold XkbKeycodeInRange in Hr. cbn in Hr. bool_arith.
        destruct (wf_range _ (desc_wf _ Hd)). lia. }
      rewrite (proj2 (Z.eqb_neq _ _) Hk) in Hadd.
      apply outcome_bind_Ret_inv in Hadd as (d' & _ & Hadd). simplify_eq.
      by exists l', sym, k, dropped.
Qed.

(** Using an added key makes it the most recently used one and changes
    nothing else: the list keeps its entries, the others in their order. *)
Theorem key_used_moves_to_front l i sym code :
  l !! i = Some (sym, code) -> (forall j p, (j < i)%nat -> l !! j = Some p -> p.2 <> code) ->
  vncOnKeyUsed code l = (sym, code) :: delete i l /\ vncOnKeyUsed code l ≡ₚ l.
Proof.
  intros Hi Hfirst.
  assert (vncOnKeyUsed code l = (sym, code) :: delete i l) as E.
  { unfold vncOnKeyUsed. destruct l as [|it l]; [done|].
    destruct (Z.eqb_spec it.2 code) as [Ec|Ec].
    - destruct i as [|i]; [by injection Hi as ->|]. exfalso. apply (Hfirst 0%nat it); [lia|done|done].
    - assert (list_find (fun p => p.2 = code) (it :: l) = Some (i, (sym, code))) as ->; [|done].
      apply list_find_Some. split_and!; [done..|]. intros j y Hj Hlt. by apply (Hfirst j). }
  split; [done|]. rewrite E. symmetry. by apply delete_Permutation.
Qed.
End inject.

(** ** A server that keeps the modifiers as they are *)
Definition sample_change (d : XkbDesc) (key : Z) : XkbDesc :=
  mk_desc (min_key_code d) (max_key_code d)
    (fun k => if k =? key then 1 else XkbKeyNumGroups d k) (XkbKeyGroupInfo d)
    (fun k => if k =? key then 2 else XkbKeyGroupsWidth d k)
    (fun k g => if k =? key then two_level 1 else XkbKeyKeyType d k g)
    (fun k => if k =? key then [0; 0] else XkbKeySymsPtr d k)
    (fun k => if k =? key then false else XkbKeyHasActions d k)
    (XkbKeyActionsPtr d) (modmap d) (key_names d).

Definition sample_server : input_server := mk_server (fun kb _ => kb) sample_change.

Lemma sample_server_ok : server_ok sample_server.
Proof.
  split; [by intros|]. intros d key [[Hr Hg Hw Hs Ha Hl Hp] Hn] _. cbn. rewrite Z.eqb_refl.
  split; [|split; [done|cbn; lia]]. split; [|done]. split; cbn; [done|..].
  - intros k. case_bool; [lia|done].
  - intros k. case_bool; [lia|apply Hw].
  - intros k Hk. case_bool; [done|by apply Hs].
  - intros k Hk. case_bool; [done|by apply Ha].
  - intros k g es e. case_bool; [|apply Hl]. intros [= <-] He.
    repeat (apply elem_of_cons in He as [->|He]; [cbn; lia|]). by apply not_elem_of_nil in He.
  - intros k g es p. case_bool; [done|apply Hp].
Qed.

Definition sample_state (state : Z) (held : list Z) : inject_state :=
  mk_inject (sample_keyboard state held) (replicate 256 0) [] [].

Lemma sample_state_wf state held : inject_wf (sample_state state held).
Proof. split; [|constructor]. split; [apply sample_wf|]. by intros names key [=]. Qed.

(** The state a call leaves. *)
Definition after (r : outcome (inject_state * inject_result)) : inject_state :=
  match r with Ret (st, _) => st | Fault _ => sample_state 0 [] end.

Definition typed_A : inject_state :=
  after (lorieKeysymKeyboardEvent sample_server 65 true (sample_state 0 [])).

(** A, then the unshifted a on the same key, then the release of A. *)
Definition typed_a : inject_state := after (lorieKeysymKeyboardEvent sample_server 97 true typed_A).

Lemma release_matches_press_witness :
  lorieKeysymKeyboardEvent sample_server 65 false typed_a = Ret (typed_a, UnexpectedRelease)
  /\ exists st2, lorieKeysymKeyboardEvent sample_server 97 false typed_a = Ret (st2, Released 10)
       /\ sent st2 = sent typed_a ++ [KeyRelease 10; ProcessInputEvents].
Proof.
  assert (history sample_server (sample_state 0 []) [(97, Typed 10); (65, Typed 10)] typed_a) as Hh.
  { eapply (history_call _ _ _ typed_A _ 97 true); [|vm_compute; reflexivity].
    eapply (history_call _ _ _ _ _ 65 true); [apply history_nil|vm_compute; reflexivity]. }
  split.
  - exact (release_matches_press sample_server (sample_state 0 []) _ typed_a 65 eq_refl Hh ltac:(done)).
  - exact (release_matches_press sample_server (sample_state 0 []) _ typed_a 97 eq_refl Hh ltac:(done)).
Defined.

Lemma fake_modifiers_balanced_witness :
  exists evs, sent typed_A = ProcessInputEvents :: evs
    /\ forall k, balance k evs = if k =? 10 then 1 else 0.
Proof.
  assert (lorieKeysymKeyboardEvent sample_server 65 true (sample_state 0 []) = Ret (typed_A, Typed 10))
    as H by (vm_compute; reflexivity).
  destruct (fake_modifiers_balanced sample_server (sample_state 0 []) typed_A 65 (Typed 10) H)
    as (evs & H1 & H2).
  exists evs. split; [exact H1|exact H2].
Defined.

Lemma key_used_moves_to_front_witness :
  vncOnKeyUsed 9 [(1, 8); (2, 9); (3, 10)] = [(2, 9); (1, 8); (3, 10)].
Proof.
  refine (proj1 (key_used_moves_to_front [(1, 8); (2, 9); (3, 10)] 1 2 9 eq_refl _)).
  intros [|j] p Hj; [|lia]. by intros [= <-].
Defined.

Lemma inject_total_witness :
  (exists st' r, lorieKeysymKeyboardEvent sample_server 0x1234 true (sample_state 0 []) = Ret (st', r)
     /\ inject_wf st')
  /\ match lorieKeysymKeyboardEvent sample_server 0x1234 true (sample_state 0 []) with
     | Ret (st', r) => r = Typed 255 /\ addedKeysyms st' = [(0x1234, 255)]
     | Fault _ => False
     end.
Proof.
  split; [|vm_compute; split; reflexivity].
  exact (inject_total sample_server (sample_state 0 []) 0x1234 true sample_server_ok
           (sample_state_wf 0 [])).
Defined.

Lemma add_keysym_reuse_witness :
  exists st' key, lorieAddKeysym sample_server 0x1234 (sample_state 0 []) = Ret (st', key)
    /\ key = 255 /\ addedKeysyms st' = [(0x1234, 255)].
Proof.
  destruct (add_keysym_reuse sample_server 0x1234 (sample_state 0 []) sample_server_ok
              (sample_state_wf 0 [])) as (st' & key & H & Hcase).
  exists st', key. split; [exact H|].
  assert (find_unused_key (xkb (kbd (sample_state 0 []))) = Some 255) as E by (vm_compute; reflexivity).
  rewrite E in Hcase. exact Hcase.
Defined.

(** A keysym that needs Shift pressed while level three is locked (active
    with no key held) leaves Shift down: the temporary press has been sent when
    the level-three keys are found missing, nothing is recorded, and the
    client's release of the keysym is ignored. *)
Theorem locked_level3_leaves_shift :
  exists st, lorieKeysymKeyboardEvent sample_server 81 true (sample_state 0x80 [])
             = Ret (st, NoLevelThreeKey)
    /\ sent st = [ProcessInputEvents; KeyPress 50]
    /\ pressedKeys st = replicate 256 0
    /\ lorieKeysymKeyboardEvent sample_server 81 false st = Ret (st, UnexpectedRelease).
Proof. eexists. split; [vm_compute; reflexivity|]. split_and!; vm_compute; reflexivity. Qed.
