(* ===== verification/Clipboard.v ===== *)
(** * Clipboard protocol (clipboard.c, lines 184-578)

    The X side of the clipboard: a selection request that arrives before the
    data of the Android side is queued and answered when the data comes; a
    selection taken by an X client is fetched and sent to the Android side.
    Requests to the X server's own functions are the fields of the class [Dix];
    what the code sends is recorded in [out], most recent first. *)
From S2P Require Import Prelude TextConv.

(** ** Data *)
Inductive rc : Type := Success | BadMatch | BadAlloc | BadAtom | BadWindow | BadAccess.
#[export] Instance rc_eq_dec : EqDecision rc.
Proof. solve_decision. Defined.

Inductive access : Type :=
  | DixReadAccess | DixGetAttrAccess | DixSetAttrAccess | DixCreateAccess.

(** A [Selection] of the server; clients and windows are their identifiers. *)
Record selection : Type := mk_selection {
  sel_atom : Z;
  sel_client : Z;
  sel_window : Z;
  lastTimeChanged : Z
}.

Record data_target : Type := mk_target {
  dt_client : Z;
  dt_selection : Z;
  dt_target : Z;
  dt_property : Z;
  dt_requestor : Z;
  dt_time : Z
}.

Record property : Type := mk_property {
  prop_type : Z;
  prop_format : Z;
  prop_size : nat;
  prop_data : list Z     (** from the start of the data to the end of its block *)
}.

Inductive prop_value : Type :=
  | PropAtoms (l : list Z)
  | PropTime (t : Z)
  | PropBytes (type : Z) (l : list Z).

Inductive clip_effect : Type :=
  | SelectionNotify (client time requestor sel target property : Z)
  | SelectionRequest (client owner time requestor sel target property : Z)
  | SelectionClear (client time window sel : Z)
  | PropertyChanged (window prop : Z) (value : prop_value)
  | RequestClipboard
  | SendClipboardData (text : list Z)
  | SelectionCallbacks (sel : Z)
  | OrigConvertSelection (client : Z)
  | OrigSendEvent (client : Z).

Record clip_state : Type := mk_clip {
  clipboardEnabled : bool;
  cachedData : option (list Z);
  lorieDataTargetHead : list data_target;
  CurrentSelections : list selection;
  out : list clip_effect
}.

Definition set_enabled b st := mk_clip b (cachedData st) (lorieDataTargetHead st) (CurrentSelections st) (out st).
Definition set_cached d st := mk_clip (clipboardEnabled st) d (lorieDataTargetHead st) (CurrentSelections st) (out st).
Definition set_targets l st := mk_clip (clipboardEnabled st) (cachedData st) l (CurrentSelections st) (out st).
Definition set_selections l st := mk_clip (clipboardEnabled st) (cachedData st) (lorieDataTargetHead st) l (out st).
Definition emit e st :=
  mk_clip (clipboardEnabled st) (cachedData st) (lorieDataTargetHead st) (CurrentSelections st) (e :: out st).

(** ** The server *)
Class Dix : Type := {
  (** index in the list of selections, or the error *)
  dixLookupSelection : list selection -> Z -> Z -> access -> rc + nat;
  dixLookupWindow : Z -> Z -> rc;
  dixChangeWindowProperty : Z -> Z -> prop_value -> rc;
  dixLookupProperty : Z -> option property;     (** of the root window *)
  XaceHookSelectionAccess : Z -> rc;
  (** is there memory: for a request that waits, for a converted text, for a
      selection ([calloc], [strdup], [dixAllocateObjectWithPrivates]) *)
  calloc_target : data_target -> bool;
  strdup_text : list Z -> bool;
  alloc_selection : Z -> bool;
  ValidAtom : Z -> bool;
  serverClient : Z;
  root_window : Z;
  currentTime : Z;
  xaTIMESTAMP : Z; xaTEXT : Z; xaCLIPBOARD : Z; xaTARGETS : Z; xaSTRING : Z; xaUTF8_STRING : Z;
  XA_ATOM : Z; XA_STRING : Z
}.

(** [None] as a property atom. *)
Definition no_property : Z := 0.

Section clipboard.
Context {DIX : Dix}.

Definition lorieEnableClipboardSync (enable : bool) (st : clip_state) : clip_state := set_enabled enable st.

(** ** Receiving: from X to Android *)
Definition lorieSelectionRequest (sel target : Z) (st : clip_state) : clip_state :=
  if clipboardEnabled st then
    match dixLookupSelection (CurrentSelections st) sel serverClient DixGetAttrAccess with
    | inr i =>
        match CurrentSelections st !! i with
        | Some s => emit (SelectionRequest (sel_client s) (sel_window s) currentTime root_window
                            sel target target) st
        | None => st
        end
    | inl _ => st
    end
  else st.

Definition lorieHasAtom (atom : Z) (l : list Z) (size : nat) : bool :=
  existsb (Z.eqb atom) (take size l).

(** The C string in the buffer is what is sent. *)
Definition lorieSendClipboardData (buf : list Z) (st : clip_state) : outcome clip_state :=
  s ← cstring buf; Ret (emit (SendClipboardData s) st).

Definition lorieHandleSelection (target : Z) (st : clip_state) : outcome clip_state :=
  if negb (target =? xaTARGETS) && negb (target =? xaSTRING) && negb (target =? xaUTF8_STRING)
  then Ret st
  else match dixLookupProperty target with
  | None => Ret st
  | Some prop =>
      let size := prop_size prop in
      if (target =? xaTARGETS) && (prop_type prop =? XA_ATOM) && (prop_format prop =? 32) then
        if lorieHasAtom xaUTF8_STRING (prop_data prop) size
        then Ret (lorieSelectionRequest xaCLIPBOARD xaUTF8_STRING st)
        else if lorieHasAtom xaSTRING (prop_data prop) size
        then Ret (lorieSelectionRequest xaCLIPBOARD xaSTRING st)
        else Ret st
      else if (target =? xaSTRING) && (prop_type prop =? xaSTRING) && (prop_format prop =? 8) then
        filtered ← lorieConvertLF (prop_data prop) (zeros (size + 1)) size;
        utf8 ← lorieLatin1ToUTF8 (zeros ((size + 1) * 2)) 0 filtered;
        lorieSendClipboardData utf8 st
      else if (target =? xaUTF8_STRING) && (prop_type prop =? xaUTF8_STRING)
              && (prop_format prop =? 8) then
        ok ← lorieCheckUTF8 (prop_data prop) (Z.of_nat size);
        if negb ok then Ret st
        else
          filtered ← lorieConvertLF (prop_data prop) (zeros (size + 1)) size;
          lorieSendClipboardData filtered st
      else Ret st
  end.

(** The event of a SendEvent request, as far as the handler looks at it. *)
Record send_event : Type := mk_event {
  ev_is_notify : bool;
  ev_requestor : Z;
  ev_selection : Z;
  ev_target : Z;
  ev_property : Z
}.

Definition lorieProcSendEvent (client : Z) (e : send_event) (st : clip_state) : outcome clip_state :=
  st ← (if clipboardEnabled st && (ev_requestor e =? root_window) && ev_is_notify e
           && (ev_selection e =? xaCLIPBOARD) && (ev_target e =? ev_property e)
        then lorieHandleSelection (ev_target e) st else Ret st);
  Ret (emit (OrigSendEvent client) st).

(** [kind] is whether the callback reports a new owner. *)
Definition lorieSelectionCallback (sel : Z) (set_owner : bool) (st : clip_state) : clip_state :=
  if clipboardEnabled st && (sel =? xaCLIPBOARD) && set_owner
  then lorieSelectionRequest xaCLIPBOARD xaTARGETS st else st.

(** ** Sending: from Android to X *)
Definition notify (ldt : data_target) (property : Z) : clip_effect :=
  SelectionNotify (dt_client ldt) (dt_time ldt) (dt_requestor ldt) (dt_selection ldt)
    (dt_target ldt) property.

Definition change_property (ldt : data_target) (value : prop_value) (st : clip_state)
  : clip_state * rc :=
  let realProperty := if negb (dt_property ldt =? no_property) then dt_property ldt else dt_target ldt in
  match dixChangeWindowProperty (dt_requestor ldt) realProperty value with
  | Success => (emit (PropertyChanged (dt_requestor ldt) realProperty value) st, Success)
  | e => (st, e)
  end.

(** [None] when the request has been queued, otherwise the value to publish or
    the error. *)
Definition selection_value (ldt : data_target) (s : selection) (data : option (list Z))
  : outcome (option (rc + prop_value)) :=
  let target := dt_target ldt in
  if target =? xaTARGETS then
    Ret (Some (inr (PropAtoms [xaTARGETS; xaTIMESTAMP; xaSTRING; xaTEXT; xaUTF8_STRING])))
  else if target =? xaTIMESTAMP then Ret (Some (inr (PropTime (lastTimeChanged s))))
  else match data with
  | None =>
      if negb (target =? xaSTRING) && negb (target =? xaTEXT) && negb (target =? xaUTF8_STRING)
      then Ret (Some (inl BadMatch))
      else if negb (calloc_target ldt) then Ret (Some (inl BadAlloc)) else Ret None
  | Some data =>
      if (target =? xaSTRING) || (target =? xaTEXT) then
        latin1 ← lorieUtf8ToLatin1 data;
        if negb (strdup_text latin1) then Ret (Some (inl BadAlloc))
        else Ret (Some (inr (PropBytes XA_STRING latin1)))
      else if target =? xaUTF8_STRING then
        text ← cstring data; Ret (Some (inr (PropBytes xaUTF8_STRING text)))
      else Ret (Some (inl BadMatch))
  end.

Definition lorieConvertSelection (ldt : data_target) (data : option (list Z)) (st : clip_state)
  : outcome (clip_state * rc) :=
  match dixLookupSelection (CurrentSelections st) (dt_selection ldt) (dt_client ldt) DixGetAttrAccess with
  | inl e => Ret (st, e)
  | inr i =>
      match dixLookupWindow (dt_requestor ldt) (dt_client ldt) with
      | Success =>
          match CurrentSelections st !! i with
          | None => Fault OutOfBounds
          | Some s =>
              v ← selection_value ldt s data;
              match v with
              | None =>
                  Ret (emit RequestClipboard (set_targets (ldt :: lorieDataTargetHead st) st), Success)
              | Some (inl e) => Ret (st, e)
              | Some (inr value) =>
                  match change_property ldt value st with
                  | (st, Success) => Ret (emit (notify ldt (dt_property ldt)) st, Success)
                  | (st, e) => Ret (st, e)
                  end
              end
          end
      | e => Ret (st, e)
      end
  end.

Definition lorieProcConvertSelection (ldt : data_target) (st : clip_state)
  : outcome (clip_state * rc) :=
  match dixLookupWindow (dt_requestor ldt) (dt_client ldt) with
  | Success =>
      let paramsOkay := ValidAtom (dt_selection ldt) && ValidAtom (dt_target ldt)
                        && ((dt_property ldt =? no_property) || ValidAtom (dt_property ldt)) in
      if negb paramsOkay then Ret (st, BadAtom)
      else
        let orig := Ret (emit (OrigConvertSelection (dt_client ldt)) st, Success) in
        match dixLookupSelection (CurrentSelections st) (dt_selection ldt) (dt_client ldt) DixReadAccess with
        | inl _ => orig
        | inr i =>
            match CurrentSelections st !! i with
            | None => Fault OutOfBounds
            | Some s =>
                if (sel_client s =? serverClient) && (sel_window s =? root_window) then
                  '(st, r) ← lorieConvertSelection ldt (cachedData st) st;
                  Ret (if bool_decide (r = Success) then st else emit (notify ldt no_property) st,
                       Success)
                else orig
            end
        end
  | e => Ret (st, e)
  end.

Definition lorieOwnSelection (sel : Z) (st : clip_state) : clip_state * rc :=
  let own i st :=
    match CurrentSelections st !! i with
    | None => (st, BadMatch)
    | Some s =>
        let s := mk_selection (sel_atom s) serverClient root_window currentTime in
        let st := set_selections (<[i := s]> (CurrentSelections st)) st in
        (lorieSelectionCallback (sel_atom s) true (emit (SelectionCallbacks sel) st), Success)
    end in
  match dixLookupSelection (CurrentSelections st) sel serverClient DixSetAttrAccess with
  | inr i =>
      match CurrentSelections st !! i with
      | None => (st, BadMatch)
      | Some s =>
          let st := if negb (sel_client s =? 0) && negb (sel_client s =? serverClient)
                    then emit (SelectionClear (sel_client s) currentTime (sel_window s) (sel_atom s)) st
                    else st in
          own i st
      end
  | inl BadMatch =>
      if negb (alloc_selection sel) then (st, BadAlloc)
      else
        match XaceHookSelectionAccess sel with
        | Success =>
            own 0%nat (set_selections (mk_selection sel 0 0 0 :: CurrentSelections st) st)
        | e => (st, e)
        end
  | inl e => (st, e)
  end.

Definition lorieHandleClipboardAnnounce (st : clip_state) : clip_state :=
  fst (lorieOwnSelection xaCLIPBOARD (set_cached None st)).

(** [while (lorieDataTargetHead != NULL)]: what is removed at the end of a
    round is the head at that time. *)
Fixpoint answer_targets (fuel : nat) (data : option (list Z)) (st : clip_state) : outcome clip_state :=
  match lorieDataTargetHead st with
  | [] => Ret st
  | ldt :: _ =>
      match fuel with
      | O => Fault FuelExhausted
      | S fuel' =>
          '(st, r) ← lorieConvertSelection ldt data st;
          let st := if bool_decide (r = Success) then st else
                      match lorieDataTargetHead st with
                      | head :: _ => emit (notify head no_property) st
                      | [] => st
                      end in
          answer_targets fuel' data (set_targets (tail (lorieDataTargetHead st)) st)
      end
  end.

Definition lorieHandleClipboardData (fuel : nat) (data : option (list Z)) (st : clip_state)
  : outcome clip_state :=
  answer_targets fuel data (set_cached data st).

(** Documented behaviour of the lookup: the first selection of that name, if
    the client has access to it. *)
Class DixLaws : Type := {
  sel_access : Z -> Z -> access -> bool;
  dixLookupSelection_spec : forall l sel client mode,
    dixLookupSelection l sel client mode
    = match list_find (fun s => sel_atom s = sel) l with
      | Some (i, _) => if sel_access sel client mode then inr i else inl BadAccess
      | None => inl BadMatch
      end
}.
Context {LAWS : DixLaws}.

Lemma lookup_valid l sel client mode i :
  dixLookupSelection l sel client mode = inr i ->
  exists s, l !! i = Some s /\ sel_atom s = sel
    /\ list_find (fun s => sel_atom s = sel) l = Some (i, s).
Proof.
  rewrite dixLookupSelection_spec. destruct (list_find _ l) as [[j s]|] eqn:E; [|done].
  pose proof E as (? & ? & _)%list_find_Some. case_bool; [|done]. intros [= <-]. eauto.
Qed.

(** ** The conversions on the buffers this file passes *)
Lemma utf8_encode_all_byteP cps : Forall scalar cps -> Forall byteP (utf8_encode_all cps).
Proof. intros H. apply (Forall_impl _ _ _ (utf8_encode_all_bytes _ H)). unfold byteP. lia. Qed.

Lemma check_utf8_encoded cps x rest :
  Forall scalar cps ->
  lorieCheckUTF8 (utf8_encode_all cps ++ x :: rest) (Z.of_nat (length (utf8_encode_all cps))) = Ret true.
Proof. intros H. apply (shape_accepted _ x rest (encoded_shape cps H) (utf8_encode_all_byteP cps H) 0). lia. Qed.

Lemma check_utf8_unterminated cps :
  Forall scalar cps ->
  lorieCheckUTF8 (utf8_encode_all cps) (Z.of_nat (length (utf8_encode_all cps))) = Fault OutOfBounds.
Proof. intros H. by apply (shape_read_past_end _ (encoded_shape cps H) (utf8_encode_all_byteP cps H) 0). Qed.

Lemma convert_lf_loop_prefix n text rest i j dst :
  (i + n <= length text)%nat ->
  lorieConvertLF_loop n (text ++ rest) i j dst = lorieConvertLF_loop n text i j dst.
Proof.
  revert i j dst. induction n as [|n IH]; intros i j dst Hle; [done|]. cbn [lorieConvertLF_loop].
  unfold rd. rewrite lookup_app_l by lia. destruct (text !! i) as [c|]; cbind; [|done].
  case_bool; [apply IH; lia|]. destruct (wr dst j c); cbind; [apply IH; lia|done].
Qed.

Lemma convert_lf_prefix text rest :
  lorieConvertLF (text ++ rest) (zeros (length text + 1)) (length text)
  = Ret (filter (fun c => c <> 13) text
           ++ zeros (S (length text - length (filter (fun c => c <> 13) text)))).
Proof.
  unfold lorieConvertLF. rewrite convert_lf_loop_prefix by lia.
  pose proof (length_filter (fun c => c <> 13%Z) text) as Hle.
  pose proof (lorieConvertLF_loop_spec (length text) text 0 0 [] (length text + 1)) as Hspec.
  cbn [app] in Hspec. rewrite drop_0 in Hspec. rewrite Hspec by (simpl; lia). do 3 f_equal. lia.
Qed.

(** ** What a conversion leaves alone *)

(** The events a call adds, oldest first. *)
Definition adds (st st' : clip_state) (evs : list clip_effect) : Prop :=
  out st' = rev evs ++ out st.

Lemma adds_trans st1 st2 st3 e1 e2 : adds st1 st2 e1 -> adds st2 st3 e2 -> adds st1 st3 (e1 ++ e2).
Proof. unfold adds. intros H1 H2. by rewrite H2, H1, rev_app_distr, app_assoc. Qed.

Definition is_notify (e : clip_effect) : bool :=
  match e with SelectionNotify _ _ _ _ _ _ => true | _ => false end.
Definition notifies (evs : list clip_effect) : list clip_effect :=
  filter (fun e => is_notify e = true) evs.

Lemma change_property_spec ldt value st st' r :
  change_property ldt value st = (st', r) ->
  cachedData st' = cachedData st /\ lorieDataTargetHead st' = lorieDataTargetHead st
  /\ CurrentSelections st' = CurrentSelections st
  /\ exists evs, adds st st' evs /\ notifies evs = [].
Proof.
  unfold change_property. intros H.
  destruct (dixChangeWindowProperty _ _ value); simplify_eq;
    (split_and!; [done..|]); try (by exists []).
  by eexists [_].
Qed.

(** Text the Android side may send: UTF-8 with its terminator. *)
Definition clip_text (data : list Z) : Prop :=
  exists cps rest, data = utf8_encode_all cps ++ 0 :: rest /\ Forall scalar cps
    /\ Z.of_nat (length (utf8_encode_all cps)) <= 4294967295.

Lemma cstring_encoded cps rest :
  Forall scalar cps -> cstring (utf8_encode_all cps ++ 0 :: rest) = Ret (utf8_encode_all cps).
Proof.
  intros Hcps. apply cstring_app. apply (Forall_impl _ _ _ (utf8_encode_all_bytes _ Hcps)). lia.
Qed.

Lemma selection_value_ok ldt s data :
  (forall d, data = Some d -> clip_text d) -> exists v, selection_value ldt s data = Ret v.
Proof.
  intros Hd. unfold selection_value. do 2 (case_bool; [eauto|]).
  destruct data as [d|]; [|repeat case_bool; eauto].
  destruct (Hd d eq_refl) as (cps & rest & -> & Hcps & Hlen).
  rewrite utf8ToLatin1_of_encoding, cstring_encoded by done. cbind. repeat case_bool; eauto.
Qed.

Lemma selection_value_cases ldt s data v :
  selection_value ldt s data = Ret v ->
  match v with
  | None => data = None
  | Some (inl e) => e <> Success
  | Some (inr _) => True
  end.
Proof.
  unfold selection_value. destruct (_ =? _); [by intros [= <-]|]. destruct (_ =? _); [by intros [= <-]|].
  destruct data as [d|].
  - destruct (_ || _).
    { intros (l & _ & H)%outcome_bind_Ret_inv. destruct (strdup_text l); by injection H as <-. }
    destruct (_ =? _); [intros (l & _ & H)%outcome_bind_Ret_inv; by injection H as <-|by intros [= <-]].
  - destruct (_ && _); [by intros [= <-]|]. destruct (calloc_target ldt); by intros [= <-].
Qed.

(** A conversion either queues the request, with nothing sent, or leaves the
    queue alone and reports success after exactly one notification, or reports
    an error and sends none. *)
Lemma convert_spec ldt data st :
  (forall d, data = Some d -> clip_text d) ->
  exists st' r, lorieConvertSelection ldt data st = Ret (st', r)
    /\ cachedData st' = cachedData st /\ CurrentSelections st' = CurrentSelections st
    /\ exists evs, adds st st' evs /\
       ((data = None /\ r = Success /\ lorieDataTargetHead st' = ldt :: lorieDataTargetHead st
         /\ evs = [RequestClipboard])
        \/ (lorieDataTargetHead st' = lorieDataTargetHead st
            /\ notifies evs = if decide (r = Success) then [notify ldt (dt_property ldt)] else [])).
Proof.
  intros Hd. unfold lorieConvertSelection.
  destruct (dixLookupSelection _ _ _ _) as [e|i] eqn:El.
  { exists st, e. split_and!; [done..|]. exists []. split; [done|]. right. split; [done|].
    rewrite decide_False; [done|]. intros ->. rewrite dixLookupSelection_spec in El.
    by repeat case_match. }
  destruct (lookup_valid _ _ _ _ _ El) as (s & Hs & _ & _).
  destruct (dixLookupWindow _ _); 
    try (eexists _, _; split_and!; [done..|]; exists []; split; [done|]; by right).
  rewrite Hs. destruct (selection_value_ok ldt s data Hd) as [v Hv]. rewrite Hv. cbind.
  destruct v as [[e|value]|].
  - exists st, e. split_and!; [done..|]. exists []. split; [done|]. right. split; [done|].
    rewrite decide_False; [done|]. exact (selection_value_cases _ _ _ _ Hv).
  - destruct (change_property ldt value st) as [st1 r] eqn:Ec.
    pose proof (change_property_spec _ _ _ _ _ Ec) as (E1 & E2 & E3 & evs & Ha & Hn).
    destruct r; (eexists _, _; split_and!; [reflexivity|done..|]).
    2-6: by exists evs; split; [done|]; right.
    exists (evs ++ [notify ldt (dt_property ldt)]). split.
    { eapply adds_trans; [done|]. by unfold adds. }
    right. split; [done|]. unfold notifies in *. by rewrite filter_app, Hn.
  - eexists _, _. split_and!; [reflexivity|done..|]. exists [RequestClipboard]. split; [done|].
    left. split_and!; try done. exact (selection_value_cases _ _ _ _ Hv).
Qed.

(** The notification [e] answers the request [ldt]. *)
Definition answers (ldt : data_target) (e : clip_effect) : Prop :=
  e = notify ldt (dt_property ldt) \/ e = notify ldt no_property.

Lemma answer_targets_spec data st fuel :
  clip_text data -> (length (lorieDataTargetHead st) <= fuel)%nat ->
  exists st' evs, answer_targets fuel (Some data) st = Ret st' /\ adds st st' evs
    /\ lorieDataTargetHead st' = [] /\ cachedData st' = cachedData st
    /\ Forall2 answers (lorieDataTargetHead st) (notifies evs).
Proof.
  intros Hd. revert st. induction fuel as [|fuel IH]; intros st Hfuel.
  { destruct (lorieDataTargetHead st) eqn:Et; [|cbn in Hfuel; lia].
    exists st, []. cbn. rewrite Et. split_and!; done. }
  destruct (lorieDataTargetHead st) as [|ldt tgts] eqn:Et.
  { exists st, []. cbn. rewrite Et. split_and!; done. }
  cbn [answer_targets]. rewrite Et.
  destruct (convert_spec ldt (Some data) st) as (st1 & r & -> & Ec & _ & evs & Ha & Hcase);
    [by intros ? [= <-]|]. cbind.
  destruct Hcase as [(? & _)|[Et1 Hn]]; [done|]. rewrite Et in Et1.
  set (st2 := if bool_decide (r = Success) then st1 else _).
  assert (exists e2, adds st1 st2 e2 /\ lorieDataTargetHead st2 = ldt :: tgts
    /\ cachedData st2 = cachedData st1 /\ exists e, answers ldt e /\ notifies (evs ++ e2) = [e])
    as (e2 & Ha2 & Et2 & Ec2 & e & He & Hn2).
  { subst st2. unfold notifies. destruct (decide (r = Success)) as [Hr|Hr].
    - rewrite bool_decide_eq_true_2 by done. exists []. split_and!; [done..|].
      rewrite app_nil_r. exists (notify ldt (dt_property ldt)). split; [by left|done].
    - rewrite bool_decide_eq_false_2, Et1 by done.
      exists [notify ldt no_property]. split_and!; [done..|].
      exists (notify ldt no_property). split; [by right|]. rewrite filter_app.
      unfold notifies in Hn. by rewrite Hn. }
  rewrite Et2. cbn [tail].
  destruct (IH (set_targets tgts st2)) as (st' & evs' & -> & Ha' & Et' & Ec' & Hall);
    [cbn in *; lia|].
  exists st', ((evs ++ e2) ++ evs'). split_and!; [done| |done| |].
  - eapply adds_trans; [by eapply adds_trans|]. exact Ha'.
  - rewrite Ec'. cbn. by rewrite Ec2, Ec.
  - unfold notifies in *. rewrite filter_app, Hn2. by constructor.
Qed.

(** Taking the CLIPBOARD selection. *)
Lemma list_find_insert_first (l : list selection) sel i s s' :
  list_find (fun s => sel_atom s = sel) l = Some (i, s) -> sel_atom s' = sel ->
  list_find (fun s => sel_atom s = sel) (<[i := s']> l) = Some (i, s').
Proof.
  intros (Hi & Hs & Hfirst)%list_find_Some Hs'. apply lookup_lt_Some in Hi as Hlt.
  apply list_find_Some. split; [by apply list_lookup_insert_eq|]. split; [done|].
  intros j y Hj Hlt'. rewrite list_lookup_insert_ne in Hj by lia. by eapply Hfirst.
Qed.

Lemma callback_fields sel b st :
  let st' := lorieSelectionCallback sel b st in
  cachedData st' = cachedData st /\ lorieDataTargetHead st' = lorieDataTargetHead st
  /\ CurrentSelections st' = CurrentSelections st.
Proof.
  unfold lorieSelectionCallback, lorieSelectionRequest. cbn.
  destruct (clipboardEnabled st && _ && b); [|done]. destruct (clipboardEnabled st); [|done].
  destruct (dixLookupSelection _ _ _ _) as [e|i]; [done|]. by destruct (CurrentSelections st !! i).
Qed.

Lemma own_clipboard st :
  sel_access xaCLIPBOARD serverClient DixSetAttrAccess = true ->
  XaceHookSelectionAccess xaCLIPBOARD = Success -> alloc_selection xaCLIPBOARD = true ->
  let st1 := lorieHandleClipboardAnnounce st in
  cachedData st1 = None /\ lorieDataTargetHead st1 = lorieDataTargetHead st
  /\ exists i s, CurrentSelections st1 !! i = Some s /\ sel_client s = serverClient
       /\ sel_window s = root_window
       /\ list_find (fun s => sel_atom s = xaCLIPBOARD) (CurrentSelections st1) = Some (i, s).
Proof.
  intros Hacc Hx Hm. unfold lorieHandleClipboardAnnounce, lorieOwnSelection.
  rewrite dixLookupSelection_spec. cbn [set_cached CurrentSelections].
  destruct (list_find _ (CurrentSelections st)) as [[i s]|] eqn:Ef.
  - rewrite Hacc. pose proof Ef as (Hi & Hs & _)%list_find_Some.
    assert (i < length (CurrentSelections st))%nat as Hlt by (by eapply lookup_lt_Some).
    rewrite Hi. set (st0 := if negb (sel_client s =? 0) && _ then _ else _).
    assert (cachedData st0 = None /\ lorieDataTargetHead st0 = lorieDataTargetHead st
      /\ CurrentSelections st0 = CurrentSelections st) as (E1 & E2 & E3)
      by (subst st0; case_bool; done).
    rewrite E3, Hi. cbn [fst]. edestruct callback_fields as (F1 & F2 & F3).
    rewrite F1, F2, F3. cbn. rewrite E1, E2. split_and!; [done..|]. eexists i, _.
    split; [by apply list_lookup_insert_eq|]. cbn. split_and!; [done..|].
    by apply (list_find_insert_first _ _ _ s).
  - rewrite Hm, Hx. cbn [negb set_selections CurrentSelections lookup list_lookup fst].
    edestruct callback_fields as (F1 & F2 & F3). rewrite F1, F2, F3. cbn.
    split_and!; [done..|]. exists 0%nat. eexists. split; [done|]. split_and!; [done..|].
    by rewrite decide_True.
Qed.

(** ** Properties *)

(** C25: when the Android side delivers its text, every queued request is answered
    exactly once and in the order of the queue, with its property or with none
    when it cannot be served; the queue is empty afterwards and the text is
    kept for later requests. One round per queued request is enough. *)
Theorem clipboard_data_answers_all data st fuel :
  clip_text data -> (length (lorieDataTargetHead st) <= fuel)%nat ->
  exists st' evs,
    lorieHandleClipboardData fuel (Some data) st = Ret st' /\ adds st st' evs
    /\ lorieDataTargetHead st' = [] /\ cachedData st' = Some data
    /\ Forall2 answers (lorieDataTargetHead st) (notifies evs).
Proof.
  intros Hd Hfuel. destruct (answer_targets_spec data (set_cached (Some data) st) fuel Hd Hfuel)
    as (st' & evs & H1 & H2 & H3 & H4 & H5). by exists st', evs.
Qed.

(** A request for a selection the server owns always succeeds, and is either
    queued, asking Android for its text and sending nothing, which happens only
    when no text is known, or answered with exactly one notification. *)
Theorem owned_request_queued_or_answered ldt st i s :
  (forall d, cachedData st = Some d -> clip_text d) ->
  dixLookupWindow (dt_requestor ldt) (dt_client ldt) = Success ->
  ValidAtom (dt_selection ldt) = true -> ValidAtom (dt_target ldt) = true ->
  dt_property ldt = no_property \/ ValidAtom (dt_property ldt) = true ->
  dixLookupSelection (CurrentSelections st) (dt_selection ldt) (dt_client ldt) DixReadAccess = inr i ->
  CurrentSelections st !! i = Some s -> sel_client s = serverClient -> sel_window s = root_window ->
  exists st' evs, lorieProcConvertSelection ldt st = Ret (st', Success) /\ adds st st' evs
    /\ ((cachedData st = None /\ lorieDataTargetHead st' = ldt :: lorieDataTargetHead st
          /\ evs = [RequestClipboard])
        \/ (lorieDataTargetHead st' = lorieDataTargetHead st
            /\ exists e, answers ldt e /\ notifies evs = [e])).
Proof.
  intros Hd Hw Hv1 Hv2 Hv3 Hl Hs Hc Hr. unfold lorieProcConvertSelection.
  rewrite Hw, Hv1, Hv2, Hl, Hs, Hc, Hr, !Z.eqb_refl.
  assert ((dt_property ldt =? no_property) || ValidAtom (dt_property ldt) = true)%bool as ->.
  { destruct Hv3 as [-> | ->]; [done|apply orb_true_r]. }
  cbn [andb negb].
  destruct (convert_spec ldt (cachedData st) st Hd) as (st1 & r & -> & _ & _ & evs & Ha & Hcase).
  cbind. destruct Hcase as [(Hnone & -> & Et & ->)|[Et Hn]].
  - eexists _, _. split; [reflexivity|]. split; [done|]. by left.
  - destruct (decide (r = Success)) as [Hrs|Hrs].
    + rewrite bool_decide_eq_true_2 by done. eexists _, _. split; [reflexivity|]. split; [done|].
      right. split; [done|]. exists (notify ldt (dt_property ldt)). split; [by left|done].
    + rewrite bool_decide_eq_false_2 by done. eexists _, (evs ++ [notify ldt no_property]).
      split; [reflexivity|]. split; [by eapply adds_trans|]. right. split; [done|].
      exists (notify ldt no_property). split; [by right|].
      unfold notifies in *. by rewrite filter_app, Hn.
Qed.

(** An announcement drops the old text, takes the selection and keeps the
    queue; a later request for text that may look up selection and window is
    queued, as memory allows, instead of being answered from the old text. *)
Theorem announce_invalidates_cache ldt st :
  sel_access xaCLIPBOARD serverClient DixSetAttrAccess = true ->
  XaceHookSelectionAccess xaCLIPBOARD = Success -> alloc_selection xaCLIPBOARD = true -> calloc_target ldt = true ->
  sel_access xaCLIPBOARD (dt_client ldt) DixReadAccess = true ->
  sel_access xaCLIPBOARD (dt_client ldt) DixGetAttrAccess = true ->
  dixLookupWindow (dt_requestor ldt) (dt_client ldt) = Success ->
  ValidAtom xaCLIPBOARD = true -> ValidAtom xaUTF8_STRING = true -> dt_property ldt = no_property ->
  dt_selection ldt = xaCLIPBOARD -> dt_target ldt = xaUTF8_STRING ->
  xaUTF8_STRING <> xaTARGETS -> xaUTF8_STRING <> xaTIMESTAMP ->
  let st1 := lorieHandleClipboardAnnounce st in
  cachedData st1 = None /\ lorieDataTargetHead st1 = lorieDataTargetHead st
  /\ exists st2, lorieProcConvertSelection ldt st1 = Ret (st2, Success)
      /\ lorieDataTargetHead st2 = ldt :: lorieDataTargetHead st /\ out st2 = RequestClipboard :: out st1.
Proof.
  intros Hacc Hx Hm1 Hm2 Hread Hget Hwin Hva Hvu Hprop Hsel Htgt Hn1 Hn2 st1.
  assert (cachedData st1 = None /\ lorieDataTargetHead st1 = lorieDataTargetHead st
    /\ exists i s, CurrentSelections st1 !! i = Some s /\ sel_client s = serverClient
         /\ sel_window s = root_window
         /\ list_find (fun s => sel_atom s = xaCLIPBOARD) (CurrentSelections st1) = Some (i, s))
    as (Hc & Ht & i & s & Hs & Hcl & Hwd & Hf).
  { apply own_clipboard; done. }
  split; [done|]. split; [done|]. unfold lorieProcConvertSelection.
  rewrite Hwin, Hsel, Htgt, Hva, Hvu, Hprop, Z.eqb_refl. cbn [andb orb negb].
  rewrite dixLookupSelection_spec, Hf, Hread, Hs, Hcl, Hwd, !Z.eqb_refl. cbn [andb].
  unfold lorieConvertSelection. rewrite Hsel, dixLookupSelection_spec, Hf, Hget, Hwin, Hs, Hc.
  unfold selection_value. rewrite Htgt, (proj2 (Z.eqb_neq _ _) Hn1), (proj2 (Z.eqb_neq _ _) Hn2).
  rewrite Z.eqb_refl, andb_false_r, Hm2. cbind. eexists. split; [reflexivity|]. cbn. by rewrite Ht.
Qed.

(** Text an X client puts on the clipboard reaches Android without its
    carriage returns: UTF-8 as it is, when a byte that can be read, whatever it
    is, follows the property's bytes, and Latin-1 re-encoded as UTF-8; the buffers
    the code allocates suffice. When the block ends with the bytes of a UTF-8 text,
    the check reads behind it. *)
Theorem clipboard_text_received target prop text x rest st :
  xaSTRING <> xaTARGETS -> xaUTF8_STRING <> xaTARGETS -> xaUTF8_STRING <> xaSTRING ->
  dixLookupProperty target = Some prop -> prop_type prop = target -> prop_format prop = 8 ->
  prop_size prop = length text ->
  (target = xaUTF8_STRING -> (exists cps, Forall scalar cps /\ text = utf8_encode_all cps) ->
   (prop_data prop = text ++ x :: rest ->
    lorieHandleSelection target st = Ret (emit (SendClipboardData (filter (fun c => c <> 13) text)) st))
   /\ (prop_data prop = text -> lorieHandleSelection target st = Fault OutOfBounds))
  /\ (target = xaSTRING -> prop_data prop = text -> Forall (fun c => 0 < c < 256) text ->
      lorieHandleSelection target st
      = Ret (emit (SendClipboardData (utf8_encode_all (filter (fun c => c <> 13) text))) st)).
Proof.
  intros N1 N2 N3 Hp Hty Hf Hsz. split.
  - intros -> (cps & Hcps & ->). unfold lorieHandleSelection.
    rewrite Hp, Hty, Hf, Hsz, !Z.eqb_refl.
    rewrite (proj2 (Z.eqb_neq _ _) N2), (proj2 (Z.eqb_neq _ _) N3). cbn [negb andb].
    split; intros ->; [|by rewrite check_utf8_unterminated].
    rewrite check_utf8_encoded by done. cbind. cbn [negb].
    rewrite convert_lf_prefix. cbind.
    unfold lorieSendClipboardData. rewrite zeros_S, cstring_app; [done|].
    apply Forall_filter_in, (Forall_impl _ _ _ (utf8_encode_all_bytes _ Hcps)). lia.
  - intros -> Hdata Hbytes. unfold lorieHandleSelection.
    rewrite Hp, Hty, Hf, Hsz, Hdata, !Z.eqb_refl.
    rewrite (proj2 (Z.eqb_neq _ _) N1). cbn [negb andb].
    rewrite <- (app_nil_r text) at 1. rewrite convert_lf_prefix. cbind.
    assert (Forall (fun c => 0 < c < 256) (filter (fun c => c <> 13) text)) as Hfb
      by (by apply Forall_filter_in).
    pose proof (latin1_encoding_length _ Hfb) as Hlen.
    pose proof (length_filter (fun c => c <> 13) text) as Hfl.
    rewrite zeros_S.
    pose proof (lorieLatin1ToUTF8_spec (filter (fun c => c <> 13) text)
      (zeros (length text - length (filter (fun c => c <> 13) text))) []
      ((length text + 1) * 2) Hfb ltac:(lia)) as Hspec.
    cbn [app length] in Hspec. rewrite Hspec. cbind.
    destruct ((length text + 1) * 2 - length (utf8_encode_all (filter (fun c => c <> 13%Z) text)))%nat
      as [|n] eqn:En; [lia|].
    unfold lorieSendClipboardData. rewrite zeros_S, cstring_app; [done|].
    apply (Forall_impl _ _ _ (utf8_encode_all_bytes (filter (fun c => c <> 13) text)
      ltac:(apply (Forall_impl _ _ _ Hfb); unfold scalar; lia))). lia.
Qed.

(** A list of the offered formats leads to a request for UTF-8 if it is
    offered, for Latin-1 if only that is, and for nothing otherwise. *)
Theorem targets_prefer_utf8 prop st i s :
  dixLookupProperty xaTARGETS = Some prop -> prop_type prop = XA_ATOM -> prop_format prop = 32 ->
  prop_size prop = length (prop_data prop) -> clipboardEnabled st = true ->
  list_find (fun s => sel_atom s = xaCLIPBOARD) (CurrentSelections st) = Some (i, s) ->
  sel_access xaCLIPBOARD serverClient DixGetAttrAccess = true ->
  let request target :=
    emit (SelectionRequest (sel_client s) (sel_window s) currentTime root_window xaCLIPBOARD
            target target) st in
  lorieHandleSelection xaTARGETS st
  = Ret (if decide (xaUTF8_STRING ∈ prop_data prop) then request xaUTF8_STRING
         else if decide (xaSTRING ∈ prop_data prop) then request xaSTRING else st).
Proof.
  intros Hp Hty Hf Hsz Hen Hfind Hacc request. unfold lorieHandleSelection.
  rewrite Z.eqb_refl, Hp, Hty, Hf, Hsz, Z.eqb_refl. cbn [negb andb].
  assert (forall a l, lorieHasAtom a l (length l) = bool_decide (a ∈ l)) as Hhas.
  { intros a l. unfold lorieHasAtom. rewrite firstn_all. apply eq_true_iff_eq.
    rewrite existsb_exists, bool_decide_eq_true, list_elem_of_In. split.
    - by intros (x & Hx & ->%Z.eqb_eq).
    - intros Ha. exists a. split; [done|apply Z.eqb_refl]. }
  assert (forall t, lorieSelectionRequest xaCLIPBOARD t st = request t) as Hreq.
  { intros t. unfold lorieSelectionRequest.
    pose proof Hfind as (Hs & _ & _)%list_find_Some.
    by rewrite Hen, dixLookupSelection_spec, Hfind, Hacc, Hs. }
  rewrite !Hhas, !Hreq. unfold bool_decide. by repeat case_decide.
Qed.

End clipboard.

(** ** A small server: window 7 is gone, window 8 takes no properties *)
Definition sample_dix (props : Z -> option property) : Dix := {|
  dixLookupSelection l sel _ _ :=
    match list_find (fun s => sel_atom s = sel) l with Some (i, _) => inr i | None => inl BadMatch end;
  dixLookupWindow w _ := if w =? 7 then BadWindow else Success;
  dixChangeWindowProperty w _ _ := if w =? 8 then BadAlloc else Success;
  dixLookupProperty := props;
  XaceHookSelectionAccess _ := Success;
  calloc_target ldt := negb (dt_requestor ldt =? 6); strdup_text _ := true; alloc_selection _ := true;
  ValidAtom a := 0 <? a;
  serverClient := 1; root_window := 2; currentTime := 1000;
  xaTIMESTAMP := 101; xaTEXT := 102; xaCLIPBOARD := 103; xaTARGETS := 104; xaSTRING := 31;
  xaUTF8_STRING := 105; XA_ATOM := 4; XA_STRING := 31
|}.

#[export] Instance sample_dix_laws props : @DixLaws (sample_dix props).
Proof.
  refine {| sel_access := fun _ _ _ => true |}. intros. cbn. by destruct (list_find _ l) as [[? ?]|].
Defined.

Definition no_props : Z -> option property := fun _ => None.
Definition utf8_request (requestor : Z) : data_target := mk_target 5 103 105 0 requestor 77.
Definition latin1_request : data_target := mk_target 6 103 31 200 9 78.

(** The text "hé". *)
Definition sample_text : list Z := utf8_encode_all [104; 233] ++ 0 :: [].
Lemma sample_text_ok : clip_text sample_text.
Proof.
  exists [104; 233], []. split; [reflexivity|]. split; [repeat constructor; unfold scalar; lia|].
  vm_compute. discriminate.
Qed.

Definition waiting : clip_state :=
  mk_clip true None [utf8_request 8; latin1_request] [mk_selection 103 1 2 500] [].

Lemma clipboard_data_answers_all_witness :
  exists st' evs,
    @lorieHandleClipboardData (sample_dix no_props) 2 (Some sample_text) waiting = Ret st'
    /\ lorieDataTargetHead st' = []
    /\ Forall2 answers [utf8_request 8; latin1_request] (notifies evs)
    /\ out st' = [SelectionNotify 6 78 9 103 31 200; PropertyChanged 9 200 (PropBytes 31 [104; 233]);
                  SelectionNotify 5 77 8 103 105 0].
Proof.
  destruct (@clipboard_data_answers_all (sample_dix no_props) _ sample_text waiting 2
              sample_text_ok (Nat.le_refl 2)) as (st' & evs & H1 & H2 & H3 & H4 & H5).
  exists st', evs. split; [exact H1|]. split; [exact H3|]. split; [exact H5|].
  vm_compute in H1. injection H1 as <-. reflexivity.
Defined.

Lemma owned_request_queued_or_answered_witness :
  exists st' evs,
    @lorieProcConvertSelection (sample_dix no_props) (utf8_request 9) waiting = Ret (st', Success)
    /\ adds waiting st' evs
    /\ (lorieDataTargetHead st' = utf8_request 9 :: lorieDataTargetHead waiting
        \/ lorieDataTargetHead st' = lorieDataTargetHead waiting).
Proof.
  destruct (@owned_request_queued_or_answered (sample_dix no_props) _ (utf8_request 9) waiting 0
              (mk_selection 103 1 2 500)) as (st' & evs & H1 & H2 & H3);
    try reflexivity; [discriminate|by left|].
  exists st', evs. split; [exact H1|]. split; [exact H2|]. tauto.
Defined.

Lemma announce_invalidates_cache_witness :
  let st := mk_clip true (Some sample_text) [] [mk_selection 103 9 3 500] [] in
  let st1 := @lorieHandleClipboardAnnounce (sample_dix no_props) st in
  cachedData st1 = None
  /\ exists st2, @lorieProcConvertSelection (sample_dix no_props) (utf8_request 9) st1
                 = Ret (st2, Success)
     /\ lorieDataTargetHead st2 = [utf8_request 9].
Proof.
  intros st st1.
  destruct (@announce_invalidates_cache (sample_dix no_props) _ (utf8_request 9) st)
    as (H1 & _ & st2 & H2 & H3 & _); try reflexivity; [discriminate|discriminate|].
  split; [exact H1|]. exists st2. split; [exact H2|exact H3].
Defined.

Lemma clipboard_text_received_witness :
  let prop := mk_property 105 8 4 ([97; 13; 10; 98] ++ 0 :: []) in
  @lorieHandleSelection (sample_dix (fun _ => Some prop)) 105 waiting
  = Ret (emit (SendClipboardData [97; 10; 98]) waiting).
Proof.
  intros prop.
  refine (proj1 (proj1 (@clipboard_text_received (sample_dix (fun _ => Some prop)) 105 prop
    [97; 13; 10; 98] 0 [] waiting _ _ _ eq_refl eq_refl eq_refl eq_refl) eq_refl _) eq_refl);
    [discriminate..|].
  exists [97; 13; 10; 98]. split; [repeat constructor; unfold scalar; lia|reflexivity].
Defined.

Lemma targets_prefer_utf8_witness :
  let prop := mk_property 4 32 2 [31; 105] in
  @lorieHandleSelection (sample_dix (fun _ => Some prop)) 104 waiting
  = Ret (emit (SelectionRequest 1 2 1000 2 103 105 105) waiting).
Proof.
  intros prop.
  refine (eq_trans (@targets_prefer_utf8 (sample_dix (fun _ => Some prop)) _ prop waiting 0
    (mk_selection 103 1 2 500) eq_refl eq_refl eq_refl eq_refl eq_refl eq_refl eq_refl) _).
  vm_compute. reflexivity.
Defined.

(** ** Setting up *)

(** An entry of the table of request handlers. *)
Inductive request_handler : Type := DixProc (request : Z) | ProcConvertSelection | ProcSendEvent.

Record hooks : Type := mk_hooks {
  clipboard_atoms : list (string * Z);
  origProcConvertSelection : option request_handler;     (** [None] is NULL *)
  origProcSendEvent : option request_handler;
  ProcVector : Z -> request_handler;
  selection_callbacks : nat
}.

Definition X_ConvertSelection : Z := 24.
Definition X_SendEvent : Z := 25.
Definition set_proc (n : Z) (p : request_handler) (v : Z -> request_handler) : Z -> request_handler := fun i => if i =? n then p else v i.

Definition atom_names : list string := ["TIMESTAMP"; "TEXT"; "CLIPBOARD"; "TARGETS"; "STRING"; "UTF8_STRING"]%string.

Section init.
(** The atom of a name, and whether a callback can be added. *)
Context (MakeAtom : string -> Z) (AddCallback : bool).

Definition lorieInitClipboard (h : hooks) : outcome hooks :=
  let '(oc, v) :=
    match origProcConvertSelection h with
    | Some p => (Some p, ProcVector h)
    | None => (Some (ProcVector h X_ConvertSelection), set_proc X_ConvertSelection ProcConvertSelection (ProcVector h))
    end in
  let '(os, v) :=
    match origProcSendEvent h with
    | Some p => (Some p, v)
    | None => (Some (v X_SendEvent), set_proc X_SendEvent ProcSendEvent v)
    end in
  if AddCallback then Ret (mk_hooks ((fun n => (n, MakeAtom n)) <$> atom_names) oc os v (S (selection_callbacks h)))
  else Fault FatalExit.
End init.

(** The X server drops its callbacks when it starts again, and keeps the table. *)
Definition next_generation (h : hooks) : hooks :=
  mk_hooks (clipboard_atoms h) (origProcConvertSelection h) (origProcSendEvent h) (ProcVector h) 0.

(** One more generation of the server for each element. *)
Fixpoint generations (atoms : list (string -> Z)) (h : hooks) : outcome hooks :=
  match atoms with
  | [] => Ret h
  | a :: atoms => h ← lorieInitClipboard a true (next_generation h); generations atoms h
  end.

Definition no_hooks (v : Z -> request_handler) : hooks := mk_hooks [] None None v 0.

(** However often the server starts again, the two requests come to this file
    once, the handlers it falls back to are those of the X server and not its
    own, and there is one callback. *)
Lemma clipboard_hooked_once atoms v :
  atoms <> [] -> v X_SendEvent = DixProc X_SendEvent -> v X_ConvertSelection = DixProc X_ConvertSelection ->
  exists h, generations atoms (no_hooks v) = Ret h
    /\ origProcConvertSelection h = Some (DixProc X_ConvertSelection)
    /\ origProcSendEvent h = Some (DixProc X_SendEvent)
    /\ (forall n, ProcVector h n = if n =? X_ConvertSelection then ProcConvertSelection
                                   else if n =? X_SendEvent then ProcSendEvent else v n)
    /\ selection_callbacks h = 1%nat.
Proof.
  intros Hne Hs Hc. destruct atoms as [|a atoms]; [done|]. cbn [generations no_hooks]. unfold lorieInitClipboard at 1. cbn.
  rewrite Hc, Hs. set (h1 := mk_hooks _ _ _ _ _).
  assert (origProcConvertSelection h1 = Some (DixProc X_ConvertSelection) /\ origProcSendEvent h1 = Some (DixProc X_SendEvent)
    /\ (forall n, ProcVector h1 n = if n =? X_ConvertSelection then ProcConvertSelection
                                   else if n =? X_SendEvent then ProcSendEvent else v n)
    /\ selection_callbacks h1 = 1%nat) as Hh.
  { split_and!; try done. intros n. cbn. unfold set_proc.
    destruct (Z.eqb_spec n X_SendEvent) as [->|]; [done|]. by destruct (n =? X_ConvertSelection). }
  clearbody h1. clear Hne a. revert h1 Hh. induction atoms as [|a atoms IH]; intros h1 (H1 & H2 & H3 & H4).
  - by exists h1.
  - cbn [generations]. unfold lorieInitClipboard at 1. cbn. rewrite H1, H2. cbn. apply IH. by split_and!.
Qed.
