(* ===== verification/Buffer.v ===== *)
(** * Shareable pixel buffers (buffer.c, buffer.h)

    A buffer owns memory, a file descriptor with its mapping, or an
    AHardwareBuffer, depending on its type.  [held] is the list of what the
    process holds; giving back something that is not held is a fault, so a
    double close or a double free shows.  The results of the system calls and
    of the AHardwareBuffer functions are the record [platform]. *)
From S2P Require Import Prelude.

(** ** Data *)
Definition LORIEBUFFER_UNKNOWN : Z := 0.
Definition LORIEBUFFER_REGULAR : Z := 1.
Definition LORIEBUFFER_FD : Z := 2.
Definition LORIEBUFFER_AHARDWAREBUFFER : Z := 3.

Definition AHARDWAREBUFFER_FORMAT_B8G8R8A8_UNORM : Z := 5.

Record LorieBuffer_Desc : Type := mk_desc {
  width : Z; height : Z; stride : Z;
  format : Z; type : Z;
  desc_id : Z;
  ahb : Z;                 (** [buffer], 0 is NULL *)
  data : Z                 (** 0 is NULL *)
}.

Record LorieBuffer : Type := mk_buffer {
  refcount : Z;
  desc : LorieBuffer_Desc;
  locked : bool;
  lockedData : Z;
  fd : Z;
  size : Z;
  offset : Z;
  texture : Z;             (** [id] *)
  image : Z
}.

(** Memory of pixels or of a table by its address, the structure of a buffer by
    the number the allocator writes into it, and the private part of a pixmap,
    any of which is as good as another. *)
Inductive resource : Type :=
  | RMem (p : Z)
  | RFd (fd : Z)
  | RMap (p size fd offset : Z)
  | RAhb (h : Z)
  | RStruct (id : Z)
  | RPriv.
#[export] Instance resource_eq_dec : EqDecision resource.
Proof. solve_decision. Defined.

(** What [AHardwareBuffer_describe] reports. *)
Record ahb_desc : Type := mk_ahb_desc { ahb_width : Z; ahb_height : Z; ahb_stride : Z; ahb_format : Z }.

Record platform : Type := mk_platform {
  page_size : Z;
  AHARDWAREBUFFER_FORMAT_R8G8B8X8_UNORM : Z;
  ASharedMemory_create : Z -> Z;
  memfd_create : Z;
  open_ashmem : Z;
  ashmem_ioctl : Z -> Z * Z;              (** results of SET_NAME and SET_SIZE *)
  dup : Z -> Z;
  malloc : Z;                             (** the next block, 0 when out of memory *)
  calloc_buffer : bool;                   (** is there memory for the struct itself? *)
  calloc_priv : bool;                     (** and for the private part of a pixmap? *)
  mmap : Z -> Z -> Z -> Z;                (** size, descriptor and offset; -1 is MAP_FAILED *)
  AHardwareBuffer_allocate : Z -> Z -> Z -> Z;   (** width, height, format; 0 on failure *)
  AHardwareBuffer_describe : Z -> ahb_desc;
  AHardwareBuffer_lock : Z -> Z * Z;      (** result and address *)
  AHardwareBuffer_unlock : Z -> Z
}.

(** ** Holding and giving back *)
Definition give_back (rs : list resource) (held : list resource) : outcome (list resource) :=
  foldr (fun r acc => h ← acc; remove_one r h) (Ret held) rs.

(** ** Sizes *)
Definition alignToPage (p : platform) (n : Z) : Z :=
  Z.land (u64 (n + page_size p - 1)) (u64 (Z.lnot (page_size p - 1))).

(** [a * b * sizeof(uint32_t)] with [a] and [b] of type [int]. *)
Definition pixel_bytes (a b : Z) : Z := u64 (i32 (a * b) * 4).

Definition known_format (p : platform) (fmt : Z) : bool :=
  (fmt =? AHARDWAREBUFFER_FORMAT_B8G8R8A8_UNORM) || (fmt =? AHARDWAREBUFFER_FORMAT_R8G8B8X8_UNORM p).

Definition acceptable (p : platform) (fmt w h : Z) : bool :=
  known_format p fmt && (0 <? w) && (0 <? h).

(** [if (fd) return fd]: only a zero result goes on to the next method. *)
Definition LorieBuffer_createRegion (p : platform) (n : Z) (held : list resource)
  : Z * list resource :=
  let opened fd := (fd, if fd <? 0 then held else RFd fd :: held) in
  let shm := ASharedMemory_create p n in
  if negb (shm =? 0) then opened shm
  else
    let held := RFd shm :: held in
    let mem := memfd_create p in
    if negb (mem =? 0) then (mem, if mem <? 0 then held else RFd mem :: held)
    else
      let held := RFd mem :: held in
      let dev := open_ashmem p in
      if dev <? 0 then (dev, held)
      else if (ashmem_ioctl p dev).1 <? 0 then ((ashmem_ioctl p dev).1, held)
      else if (ashmem_ioctl p dev).2 <? 0 then ((ashmem_ioctl p dev).2, held)
      else (dev, RFd dev :: held).

(** What holds the pixels of a buffer, and all that a buffer owns. *)
Definition contents (b : LorieBuffer) : list resource :=
  if type (desc b) =? LORIEBUFFER_REGULAR then [RMem (data (desc b))]
  else if type (desc b) =? LORIEBUFFER_FD
  then [RMap (data (desc b)) (size b) (fd b) (offset b); RFd (fd b)]
  else if type (desc b) =? LORIEBUFFER_AHARDWAREBUFFER then [RAhb (ahb (desc b))]
  else [].
Definition owned (b : LorieBuffer) : list resource := RStruct (desc_id (desc b)) :: contents b.

Definition set_data p d := mk_desc (width d) (height d) (stride d) (format d) (type d) (desc_id d) (ahb d) p.
Definition set_desc d b := mk_buffer (refcount b) d (locked b) (lockedData b) (fd b) (size b)
  (offset b) (texture b) (image b).

(** [id] is the value of the counter; the type of [format] and [type] is
    unsigned 8 bit in the description and signed in the arguments. *)
Definition allocate (p : platform) (id w strd h fmt ty buf gfd sz off : Z) (takeFd : bool)
  (held : list resource) : outcome (option LorieBuffer * list resource) :=
  let bfd := if takeFd then gfd else dup p gfd in
  let held := if takeFd || (bfd <? 0) then held else RFd bfd :: held in
  let b := mk_buffer 0 (mk_desc w h strd (u8 fmt) (u8 ty) id buf 0) false 0 bfd sz off 0 0 in
  if negb (ty =? LORIEBUFFER_AHARDWAREBUFFER) && negb (acceptable p fmt w h) then Ret (None, held)
  else
    let b := mk_buffer 1 (desc b) false 0 bfd sz off 0 0 in
    let finish b held :=
      if calloc_buffer p then Ret (Some b, RStruct id :: held)
      else held ← give_back (contents b) held; Ret (None, held) in
    if ty =? LORIEBUFFER_REGULAR then
      if malloc p =? 0 then Ret (None, held)
      else finish (set_desc (set_data (malloc p) (desc b)) b) (RMem (malloc p) :: held)
    else if ty =? LORIEBUFFER_FD then
      if bfd <? 0 then Ret (None, held)
      else
        let a := mmap p sz bfd off in
        if (a =? 0) || (a =? -1) then held ← remove_one (RFd bfd) held; Ret (None, held)
        else finish (set_desc (set_data a (desc b)) b) (RMap a sz bfd off :: held)
    else if ty =? LORIEBUFFER_AHARDWAREBUFFER then
      if buf =? 0 then Ret (None, held)
      else
        let d := AHardwareBuffer_describe p buf in
        finish (set_desc (mk_desc (ahb_width d) (ahb_height d) (ahb_stride d) (u8 (ahb_format d))
                            (u8 ty) id buf 0) b) held
    else Ret (None, held).

Definition LorieBuffer_allocate (p : platform) (id w h fmt ty : Z) (held : list resource)
  : outcome (option LorieBuffer * list resource) :=
  if ty =? LORIEBUFFER_FD then
    let n := alignToPage p (pixel_bytes w h) in
    let (rfd, held) := LorieBuffer_createRegion p n held in
    if rfd <? 0 then Ret (None, held) else allocate p id w w h fmt ty 0 rfd n 0 true held
  else if ty =? LORIEBUFFER_AHARDWAREBUFFER then
    let buf := AHardwareBuffer_allocate p w h fmt in
    allocate p id w w h fmt ty buf (-1) 0 0 true (if buf =? 0 then held else RAhb buf :: held)
  else allocate p id w w h fmt ty 0 (-1) 0 0 true held.

Definition LorieBuffer_wrapFileDescriptor (p : platform) (id w strd h fmt gfd off : Z)
  (held : list resource) : outcome (option LorieBuffer * list resource) :=
  allocate p id w strd h fmt LORIEBUFFER_FD 0 gfd (pixel_bytes strd h) off false held.

Definition LorieBuffer_wrapAHardwareBuffer (p : platform) (id buf : Z) (held : list resource)
  : outcome (option LorieBuffer * list resource) :=
  allocate p id 0 0 0 0 LORIEBUFFER_AHARDWAREBUFFER buf (-1) 0 0 false held.

Definition __LorieBuffer_free (b : LorieBuffer) (held : list resource) : outcome (list resource) :=
  held ← give_back (contents b) held;
  remove_one (RStruct (desc_id (desc b))) held.

(** ** Reference counting: the result says whether the buffer is still there *)
Definition LorieBuffer_acquire (b : LorieBuffer) : LorieBuffer :=
  mk_buffer (i16 (refcount b + 1)) (desc b) (locked b) (lockedData b) (fd b) (size b) (offset b)
    (texture b) (image b).

Definition LorieBuffer_release (b : LorieBuffer) (held : list resource)
  : outcome (option LorieBuffer * list resource) :=
  let b' := mk_buffer (i16 (refcount b - 1)) (desc b) (locked b) (lockedData b) (fd b) (size b)
              (offset b) (texture b) (image b) in
  if refcount b =? 1 then h ← __LorieBuffer_free b' held; Ret (None, h)
  else Ret (Some b', held).

(** ** Conversion of a regular buffer *)

(** [pixman_blt] of 32-bit pixels: source, destination, their strides, size. *)
Record blit : Type := mk_blit {
  blt_src : Z; blt_dst : Z; blt_src_stride : Z; blt_dst_stride : Z; blt_width : Z; blt_height : Z
}.

(** The third component is the copy that was made. *)
Definition LorieBuffer_convert (p : platform) (b : LorieBuffer) (ty fmt : Z) (held : list resource)
  : outcome (LorieBuffer * list resource * option blit) :=
  let d := desc b in
  let unchanged held := Ret (b, held, None) in
  if negb (type d =? LORIEBUFFER_REGULAR)
     || (negb (ty =? LORIEBUFFER_FD) && negb (ty =? LORIEBUFFER_AHARDWAREBUFFER))
     || negb (known_format p fmt)
  then unchanged held
  else if ty =? LORIEBUFFER_FD then
    let n := alignToPage p (pixel_bytes (stride d) (height d)) in
    let (rfd, held) := LorieBuffer_createRegion p n held in
    if rfd <? 0 then unchanged held
    else
      let a := mmap p n rfd 0 in
      if (a =? 0) || (a =? -1) then held ← remove_one (RFd rfd) held; unchanged held
      else
        held ← remove_one (RMem (data d)) (RMap a n rfd 0 :: held);
        Ret (mk_buffer (refcount b)
               (mk_desc (width d) (height d) (stride d) (u8 fmt) (u8 ty) (desc_id d) (ahb d) a)
               false 0 rfd n 0 (texture b) (image b), held,
             Some (mk_blit (data d) a (stride d) (stride d) (width d) (height d)))
  else
    let buf := AHardwareBuffer_allocate p (width d) (height d) fmt in
    if buf =? 0 then unchanged held
    else
      let ad := AHardwareBuffer_describe p buf in
      let copied := if (AHardwareBuffer_lock p buf).1 =? 0
                    then Some (mk_blit (data d) (AHardwareBuffer_lock p buf).2 (stride d)
                                 (ahb_stride ad) (width d) (height d))
                    else None in
      held ← remove_one (RMem (data d)) (RAhb buf :: held);
      Ret (mk_buffer (refcount b)
             (mk_desc (width d) (height d) (ahb_stride ad) (u8 fmt) (u8 ty) (desc_id d) buf 0)
             false 0 (fd b) (size b) (offset b) (texture b) (image b), held, copied).

(** ** Locking *)
Inductive lock_error : Type := LOK | ENODEV | EEXIST | ENOENT | AHB_ERROR (e : Z).

Definition set_lock (l : bool) (a : Z) (b : LorieBuffer) : LorieBuffer :=
  mk_buffer (refcount b) (desc b) l a (fd b) (size b) (offset b) (texture b) (image b).

Definition ahb_result (e : Z) : lock_error := if e =? 0 then LOK else AHB_ERROR e.

(** The new buffer, the address given out and the result. *)
Definition LorieBuffer_lock (p : platform) (b : option LorieBuffer)
  : option LorieBuffer * option Z * lock_error :=
  match b with
  | None => (None, None, ENODEV)
  | Some b =>
      if locked b then (Some b, Some (lockedData b), EEXIST)
      else
        let ty := type (desc b) in
        let '(a, r) :=
          if (ty =? LORIEBUFFER_REGULAR) || (ty =? LORIEBUFFER_FD) then (data (desc b), LOK)
          else if ty =? LORIEBUFFER_AHARDWAREBUFFER
          then ((AHardwareBuffer_lock p (ahb (desc b))).2,
                ahb_result (AHardwareBuffer_lock p (ahb (desc b))).1)
          else (lockedData b, LOK) in
        (Some (set_lock true a b), Some a, r)
  end.

Definition LorieBuffer_unlock (p : platform) (b : option LorieBuffer)
  : option LorieBuffer * lock_error :=
  match b with
  | None => (None, ENODEV)
  | Some b =>
      if negb (locked b) then (Some b, ENOENT)
      else
        (Some (set_lock false 0 b),
         if type (desc b) =? LORIEBUFFER_AHARDWAREBUFFER
         then ahb_result (AHardwareBuffer_unlock p (ahb (desc b))) else LOK)
  end.

(** ** Passing a buffer to another process *)

(** The bytes of the structure, and the descriptor or handle behind them. *)
Record message : Type := mk_message { msg_struct : LorieBuffer; msg_fd : option Z; msg_ahb : option Z }.

Definition LorieBuffer_sendHandleToUnixSocket (b : LorieBuffer) : message :=
  mk_message b
    (if type (desc b) =? LORIEBUFFER_FD then Some (fd b) else None)
    (if type (desc b) =? LORIEBUFFER_AHARDWAREBUFFER then Some (ahb (desc b)) else None).

(** What becomes of the caller's variable: it points to the new buffer, is NULL,
    or keeps its value. *)
Inductive received : Type := Stored (b : LorieBuffer) | Cleared | Untouched.

(** [transfer] numbers a sent descriptor or handle in the receiving process;
    -1 or 0 is a failure.  [read] overwrites the whole structure, the fields
    that were reset before it included.  When there is no memory for the
    structure, the code sets its parameter to NULL and not the variable it
    points to. *)
Definition LorieBuffer_recvHandleFromUnixSocket (p : platform) (transfer : Z -> Z) (m : message)
  (held : list resource) : outcome (received * list resource) :=
  let s := msg_struct m in
  let d := desc s in
  let finish b held :=
    if calloc_buffer p then Ret (Stored b, RStruct (desc_id (desc b)) :: held)
    else
      held ← (if 0 <=? fd b then remove_one (RFd (fd b)) held else Ret held);
      held ← (if negb (ahb (desc b) =? 0) then remove_one (RAhb (ahb (desc b))) held else Ret held);
      Ret (Untouched, held) in
  let with_fd f := mk_buffer (refcount s) d (locked s) (lockedData s) f (size s) (offset s) (texture s) 0 in
  if type d =? LORIEBUFFER_FD then
    let rfd := match msg_fd m with Some f => transfer f | None => -1 end in
    if rfd =? -1 then Ret (Cleared, held)
    else
      let n := pixel_bytes (stride d) (height d) in
      let a := mmap p n rfd 0 in
      if (a =? 0) || (a =? -1) then Ret (Cleared, held)
      else finish (set_desc (set_data a d) (with_fd rfd)) (RMap a n rfd 0 :: RFd rfd :: held)
  else if type d =? LORIEBUFFER_AHARDWAREBUFFER then
    let h := match msg_ahb m with Some h => transfer h | None => 0 end in
    finish (set_desc (mk_desc (width d) (height d) (stride d) (format d) (type d) (desc_id d) h (data d))
              (with_fd (fd s))) (if h =? 0 then held else RAhb h :: held)
  else finish (with_fd (fd s)) held.

(** ** Description *)
Definition none_desc : LorieBuffer_Desc := mk_desc 0 0 0 0 0 0 0 0.
Definition LorieBuffer_description (b : option LorieBuffer) : LorieBuffer_Desc :=
  match b with Some b => desc b | None => none_desc end.
Definition LorieBuffer_getWidth b := width (LorieBuffer_description b).
Definition LorieBuffer_getHeight b := height (LorieBuffer_description b).
Definition LorieBuffer_isRgba b :=
  negb (format (LorieBuffer_description b) =? AHARDWAREBUFFER_FORMAT_B8G8R8A8_UNORM).

(** ** Lemmas on what is held *)
Lemma give_back_contents b held : give_back (contents b) (contents b ++ held) = Ret held.
Proof.
  unfold contents, give_back.
  repeat case_bool; cbn [foldr app mbind outcome_bind]; [apply remove_one_head| |apply remove_one_head|done].
  rewrite remove_one_skip, remove_one_head by done. cbind. apply remove_one_head.
Qed.

Lemma give_back_under r rs held held' :
  r ∉ rs -> give_back rs held = Ret held' -> give_back rs (r :: held) = Ret (r :: held').
Proof.
  revert held'. induction rs as [|x rs IH]; intros held' Hr; cbn; [by intros [= ->]|].
  apply not_elem_of_cons in Hr as [Hx Hr]. fold (give_back rs (r :: held)) (give_back rs held).
  destruct (give_back rs held) as [h|] eqn:E; cbind; [|done]. rewrite (IH h Hr eq_refl). cbind.
  intros E2. by rewrite remove_one_skip, E2 by done.
Qed.

Lemma struct_not_contents id b : RStruct id ∉ contents b.
Proof. unfold contents. repeat case_bool; rewrite ?elem_of_cons, elem_of_nil; naive_solver. Qed.

Lemma free_is_give_back b held : __LorieBuffer_free b held = give_back (owned b) held.
Proof. reflexivity. Qed.

(** A buffer that has just been built gives back exactly what it took. *)
Lemma free_owned b held : __LorieBuffer_free b (owned b ++ held) = Ret held.
Proof.
  unfold __LorieBuffer_free, owned. cbn [app].
  rewrite (give_back_under _ _ _ held); [|apply struct_not_contents|apply give_back_contents].
  cbind. apply remove_one_head.
Qed.

Lemma createRegion_spec p n held r held' :
  ASharedMemory_create p n <> 0 -> LorieBuffer_createRegion p n held = (r, held') ->
  r = ASharedMemory_create p n /\ held' = if r <? 0 then held else RFd r :: held.
Proof.
  unfold LorieBuffer_createRegion. intros Hne. rewrite (proj2 (Z.eqb_neq _ _) Hne).
  by intros [= <- <-].
Qed.

(** [allocate], once the descriptor is known; the AHardwareBuffer handed in is
    already held, and stays held when the buffer is refused. *)
Lemma allocate_spec p id w strd h fmt ty buf bfd sz off held :
  (ty = LORIEBUFFER_FD -> 0 <= bfd) ->
  let taken := (if ty =? LORIEBUFFER_FD then [RFd bfd] else [])
               ++ (if ty =? LORIEBUFFER_AHARDWAREBUFFER
                   then (if buf =? 0 then [] else [RAhb buf]) else []) in
  exists r held', allocate p id w strd h fmt ty buf bfd sz off true (taken ++ held) = Ret (r, held')
    /\ match r with
       | Some b => held' = owned b ++ held /\ refcount b = 1 /\ locked b = false
           /\ (ty = LORIEBUFFER_AHARDWAREBUFFER \/ (width (desc b) = w /\ height (desc b) = h))
       | None => held' = (if (ty =? LORIEBUFFER_FD) && negb (acceptable p fmt w h)
                          then [RFd bfd] else []) ++ held
       end.
Proof.
  intros Hfd taken. subst taken. unfold allocate. cbn [orb].
  destruct (Z.eqb_spec ty LORIEBUFFER_REGULAR) as [->|N1].
  { cbn [Z.eqb LORIEBUFFER_REGULAR LORIEBUFFER_FD LORIEBUFFER_AHARDWAREBUFFER Pos.eqb andb negb app].
    destruct (acceptable p fmt w h); cbn [negb]; [|by eexists _, _].
    destruct (malloc p =? 0); [by eexists _, _|]. destruct (calloc_buffer p).
    - eexists _, _. split; [reflexivity|]. cbn. split_and!; [done..|by right].
    - set (b := set_desc _ _). change (RMem (malloc p) :: held) with (contents b ++ held).
      rewrite give_back_contents. by eexists _, _. }
  destruct (Z.eqb_spec ty LORIEBUFFER_FD) as [->|N2].
  { cbn [Z.eqb LORIEBUFFER_REGULAR LORIEBUFFER_FD LORIEBUFFER_AHARDWAREBUFFER Pos.eqb andb negb app].
    specialize (Hfd eq_refl). destruct (acceptable p fmt w h); cbn [negb]; [|by eexists _, _].
    rewrite (proj2 (Z.ltb_ge _ _)) by done.
    destruct (_ || _); [rewrite remove_one_head; by eexists _, _|]. destruct (calloc_buffer p).
    - eexists _, _. split; [reflexivity|]. cbn. split_and!; [done..|by right].
    - set (b := set_desc _ _).
      change (RMap (mmap p sz bfd off) sz bfd off :: RFd bfd :: held) with (contents b ++ held).
      rewrite give_back_contents. by eexists _, _. }
  destruct (Z.eqb_spec ty LORIEBUFFER_AHARDWAREBUFFER) as [->|N3].
  { cbn [Z.eqb LORIEBUFFER_REGULAR LORIEBUFFER_FD LORIEBUFFER_AHARDWAREBUFFER Pos.eqb andb negb app].
    destruct (Z.eqb_spec buf 0); [by eexists _, _|]. destruct (calloc_buffer p).
    - eexists _, _. split; [reflexivity|]. cbn. split_and!; [done..|by left].
    - set (b := set_desc _ _). change (RAhb buf :: held) with (contents b ++ held).
      rewrite give_back_contents. by eexists _, _. }
  cbn [negb andb app]. destruct (acceptable p fmt w h); by eexists _, _.
Qed.

(** ** Sizes *)
Lemma align_down x k : 0 <= k < 64 -> 0 <= x < 2 ^ 64 ->
  Z.land x (u64 (Z.lnot (2 ^ k - 1))) = x / 2 ^ k * 2 ^ k.
Proof.
  intros Hk Hx. rewrite <- Z.shiftr_div_pow2, <- Z.shiftl_mul_pow2, <- Z.ldiff_ones_r by lia.
  rewrite Z.ones_equiv. replace (Z.pred (2 ^ k)) with (2 ^ k - 1) by lia.
  unfold wrap_u. rewrite <- Z.land_ones by lia.
  apply Z.bits_inj'. intros i Hi. rewrite Z.ldiff_spec, !Z.land_spec, Z.lnot_spec by done.
  rewrite Z.testbit_ones_nonneg by lia. destruct (Z.ltb_spec i 64).
  - by rewrite andb_true_r.
  - rewrite <- (Z.mod_small x (2 ^ 64)) by done. by rewrite Z.mod_pow2_bits_high by lia.
Qed.

Lemma alignToPage_spec p n k :
  page_size p = 2 ^ k -> 0 <= k < 32 -> 0 <= n -> n + 2 ^ k <= 2 ^ 64 ->
  n <= alignToPage p n < n + 2 ^ k /\ (2 ^ k | alignToPage p n).
Proof.
  intros Hp Hk Hn Hb. unfold alignToPage. rewrite Hp.
  assert (0 < 2 ^ k) by (apply Z.pow_pos_nonneg; lia).
  rewrite (wrap_u_small 64 (n + 2 ^ k - 1)) by lia. rewrite align_down by lia.
  pose proof (Z.div_mod (n + 2 ^ k - 1) (2 ^ k) ltac:(lia)).
  pose proof (Z.mod_pos_bound (n + 2 ^ k - 1) (2 ^ k) ltac:(lia)).
  split; [lia|apply Z.divide_factor_r].
Qed.

Lemma pixel_bytes_exact a b : 0 <= a -> 0 <= b -> a * b < 2 ^ 31 -> pixel_bytes a b = a * b * 4.
Proof.
  intros Ha Hb Hab. unfold pixel_bytes. rewrite wrap_s_small by (simpl; nia).
  apply wrap_u_small. nia.
Qed.

(** ** Allocation and release balance *)
Lemma allocate_balanced p id w h fmt ty held :
  (forall n, ASharedMemory_create p n <> 0) ->
  exists r held', LorieBuffer_allocate p id w h fmt ty held = Ret (r, held') /\
    match r with
    | Some b => refcount b = 1 /\ locked b = false /\ held' = owned b ++ held
                /\ LorieBuffer_release b held' = Ret (None, held)
    | None =>
        held' = held \/
        (ty = LORIEBUFFER_FD /\ acceptable p fmt w h = false /\
         exists region, 0 < region /\ held' = RFd region :: held)
    end.
Proof.
  intros Hshm.
  assert (forall b, refcount b = 1 -> LorieBuffer_release b (owned b ++ held) = Ret (None, held)) as Hrel.
  { intros b Hb. unfold LorieBuffer_release. rewrite Hb. cbn [Z.eqb Pos.eqb].
    match goal with |- context [__LorieBuffer_free ?b'] => change (__LorieBuffer_free b') with (__LorieBuffer_free b) end.
    by rewrite free_owned. }
  unfold LorieBuffer_allocate. destruct (Z.eqb_spec ty LORIEBUFFER_FD) as [->|N].
  - destruct (LorieBuffer_createRegion _ _ _) as [rfd held1] eqn:Er.
    apply createRegion_spec in Er as [Erfd ->]; [|done].
    assert (rfd <> 0) by (rewrite Erfd; apply Hshm).
    destruct (Z.ltb_spec rfd 0); [by eexists _, _; split; [done|left]|].
    destruct (allocate_spec p id w w h fmt LORIEBUFFER_FD 0 rfd
      (alignToPage p (pixel_bytes w h)) 0 held) as (r & held' & E & Hr); [done|].
    cbn [Z.eqb LORIEBUFFER_FD LORIEBUFFER_AHARDWAREBUFFER Pos.eqb app] in E. rewrite E.
    exists r, held'. split; [done|]. destruct r as [b|].
    + destruct Hr as (-> & Hr1 & Hl & _). split_and!; auto.
    + cbn in Hr. destruct (acceptable p fmt w h); cbn in Hr; [by left|right].
      split_and!; [done..|]. exists rfd. split; [lia|done].
  - destruct (Z.eqb_spec ty LORIEBUFFER_AHARDWAREBUFFER) as [->|N2].
    + set (buf := AHardwareBuffer_allocate _ _ _ _).
      destruct (allocate_spec p id w w h fmt LORIEBUFFER_AHARDWAREBUFFER buf (-1) 0 0 held)
        as (r & held' & E & Hr); [done|].
      cbn [Z.eqb LORIEBUFFER_FD LORIEBUFFER_AHARDWAREBUFFER Pos.eqb app] in E.
      replace (if buf =? 0 then held else RAhb buf :: held)
        with ((if buf =? 0 then [] else [RAhb buf]) ++ held) by (by destruct (buf =? 0)).
      rewrite E. exists r, held'. split; [done|]. destruct r as [b|]; [|by left].
      destruct Hr as (-> & Hr1 & Hl & _). split_and!; auto.
    + destruct (allocate_spec p id w w h fmt ty 0 (-1) 0 0 held) as (r & held' & E & Hr); [done|].
      rewrite (proj2 (Z.eqb_neq _ _) N), (proj2 (Z.eqb_neq _ _) N2) in E. cbn [app] in E. rewrite E.
      exists r, held'. split; [done|]. destruct r as [b|].
      * destruct Hr as (-> & Hr1 & Hl & _). split_and!; auto.
      * rewrite (proj2 (Z.eqb_neq _ _) N) in Hr. by left.
Qed.

(** The pixels of a buffer that has just been allocated are somewhere. *)
Lemma allocate_mapped p id w h fmt ty held b held' :
  LorieBuffer_allocate p id w h fmt ty held = Ret (Some b, held') ->
  type (desc b) = LORIEBUFFER_AHARDWAREBUFFER
  \/ (type (desc b) = LORIEBUFFER_REGULAR \/ type (desc b) = LORIEBUFFER_FD) /\ data (desc b) <> 0.
Proof.
  intros E. assert (forall bf gfd n o t h0, allocate p id w w h fmt ty bf gfd n o t h0 = Ret (Some b, held') ->
    type (desc b) = LORIEBUFFER_AHARDWAREBUFFER
    \/ (type (desc b) = LORIEBUFFER_REGULAR \/ type (desc b) = LORIEBUFFER_FD) /\ data (desc b) <> 0) as Ha.
  { clear. intros bf gfd n o t h0. unfold allocate. destruct (negb _ && _); [done|].
    destruct (Z.eqb_spec ty LORIEBUFFER_REGULAR) as [->|_].
    { destruct (Z.eqb_spec (malloc p) 0) as [|N]; [done|]. destruct (calloc_buffer p).
      - intros [= <- <-]. right. by split; [left|].
      - by destruct (give_back _ _). }
    destruct (Z.eqb_spec ty LORIEBUFFER_FD) as [->|_].
    { destruct (_ <? 0); [done|]. destruct (Z.eqb_spec (mmap p n (if t then gfd else dup p gfd) o) 0) as [|N]; cbn [orb].
      { by destruct (remove_one _ _). }
      destruct (_ =? -1); [by destruct (remove_one _ _)|]. destruct (calloc_buffer p).
      - intros [= <- <-]. right. by split; [right|].
      - by destruct (give_back _ _). }
    destruct (Z.eqb_spec ty LORIEBUFFER_AHARDWAREBUFFER) as [->|_]; [|done].
    destruct (bf =? 0); [done|]. destruct (calloc_buffer p); [intros [= <- <-]; by left|by destruct (give_back _ _)]. }
  revert E. unfold LorieBuffer_allocate. repeat case_bool.
  1: destruct (LorieBuffer_createRegion _ _ _) as [rfd h0]; destruct (rfd <? 0); [done|].
  all: apply Ha.
Qed.

(** ** Properties *)

(** C26: the allocator and the destructor match. An allocated buffer starts
    unlocked with one reference, and freeing it gives back exactly what its
    allocation took; nothing is ever given back twice. A refused allocation
    leaves nothing behind, with one exception: the region created for a shared
    buffer whose size or format is not acceptable stays open. *)
Theorem allocate_owns p id w h fmt ty held :
  (forall n, ASharedMemory_create p n <> 0) ->
  exists r held', LorieBuffer_allocate p id w h fmt ty held = Ret (r, held') /\
    match r with
    | Some b => refcount b = 1 /\ locked b = false /\ held' = owned b ++ held
                /\ LorieBuffer_release b held' = Ret (None, held)
    | None =>
        held' = held \/
        (ty = LORIEBUFFER_FD /\ acceptable p fmt w h = false /\
         exists region, 0 < region /\ held' = RFd region :: held)
    end.
Proof. apply allocate_balanced. Qed.

(** The shared region of a buffer holds all its pixels and is a whole number
    of pages, as long as the pixel count fits an int; when it does not, the
    32-bit product wraps and the region can be too small. *)
Theorem region_holds_pixels p w h k :
  page_size p = 2 ^ k -> 0 <= k < 32 -> 0 < w -> 0 < h ->
  (w * h < 2 ^ 31 ->
    4 * w * h <= alignToPage p (pixel_bytes w h) < 4 * w * h + 2 ^ k
    /\ (2 ^ k | alignToPage p (pixel_bytes w h)))
  /\ (w * h = 2 ^ 32 -> alignToPage p (pixel_bytes w h) = 0).
Proof.
  intros Hp Hk Hw Hh. split.
  - intros Hwh. rewrite pixel_bytes_exact by lia. replace (4 * w * h) with (w * h * 4) by lia.
    assert (2 ^ k <= 2 ^ 32) by (apply Z.pow_le_mono_r; lia).
    apply alignToPage_spec; nia || lia.
  - intros E. unfold pixel_bytes. rewrite E. change (u64 (i32 (2 ^ 32) * 4)) with 0.
    unfold alignToPage. rewrite Hp. assert (0 < 2 ^ k) by (apply Z.pow_pos_nonneg; lia).
    assert (2 ^ k <= 2 ^ 32) by (apply Z.pow_le_mono_r; lia).
    rewrite (wrap_u_small 64 (0 + 2 ^ k - 1)), align_down by lia.
    rewrite Z.div_small by lia. done.
Qed.

(** Converting a regular buffer keeps its identity, size and references,
    gives it the new type and format unlocked, frees the old pixels and owns
    the new storage; it copies the whole picture except when an AHardwareBuffer
    cannot be locked. When nothing can be allocated the buffer is untouched. *)
Theorem convert_owns p b ty fmt held :
  (forall n, ASharedMemory_create p n <> 0) -> 0 <= fmt < 128 ->
  type (desc b) = LORIEBUFFER_REGULAR ->
  exists b' held' blt, LorieBuffer_convert p b ty fmt (owned b ++ held) = Ret (b', held', blt) /\
    ((b' = b /\ held' = owned b ++ held /\ blt = None)
     \/ (type (desc b') = ty /\ format (desc b') = fmt /\ held' ≡ₚ owned b' ++ held
         /\ width (desc b') = width (desc b) /\ height (desc b') = height (desc b)
         /\ desc_id (desc b') = desc_id (desc b) /\ refcount b' = refcount b /\ locked b' = false
         /\ match blt with
            | Some c => blt_src c = data (desc b) /\ blt_src_stride c = stride (desc b)
                        /\ blt_dst_stride c = stride (desc b')
                        /\ blt_width c = width (desc b) /\ blt_height c = height (desc b)
            | None => ty = LORIEBUFFER_AHARDWAREBUFFER /\ (AHardwareBuffer_lock p (ahb (desc b'))).1 <> 0
            end)).
Proof.
  intros Hshm Hfmt Hty. assert (owned b = [RStruct (desc_id (desc b)); RMem (data (desc b))]) as Ho
    by (unfold owned, contents; by rewrite Hty).
  rewrite Ho. cbn [app]. unfold LorieBuffer_convert. rewrite Hty. cbn [negb Z.eqb Pos.eqb LORIEBUFFER_REGULAR orb].
  assert (u8 fmt = fmt) as Ef by (apply wrap_u_small; lia).
  destruct (known_format p fmt); cbn [negb]; [|rewrite orb_true_r; by eexists _, _, _; split; [|left]].
  destruct (Z.eqb_spec ty LORIEBUFFER_FD) as [->|N]; cbn [negb andb orb].
  - set (n := alignToPage _ _).
    destruct (LorieBuffer_createRegion _ _ _) as [rfd held1] eqn:Er.
    apply createRegion_spec in Er as [_ ->]; [|done].
    destruct (Z.ltb_spec rfd 0); [by eexists _, _, _; split; [|left]|].
    destruct (_ || _); [rewrite remove_one_head; by eexists _, _, _; split; [|left]|].
    rewrite !remove_one_skip, remove_one_head by done. cbind.
    eexists _, _, _. split; [reflexivity|]. right. cbn. rewrite Ef. split_and!; try done.
    change (RStruct (desc_id (desc b)) :: ?l) with ([RStruct (desc_id (desc b))] ++ l). solve_Permutation.
  - destruct (Z.eqb_spec ty LORIEBUFFER_AHARDWAREBUFFER) as [->|N2]; cbn [negb andb orb];
      [|by eexists _, _, _; split; [|left]].
    set (buf := AHardwareBuffer_allocate _ _ _ _).
    destruct (buf =? 0); [by eexists _, _, _; split; [|left]|].
    rewrite !remove_one_skip, remove_one_head by done. cbind.
    eexists _, _, _. split; [reflexivity|]. right. cbn. rewrite Ef.
    split_and!; try done; [apply Permutation_swap|]. destruct (Z.eqb_spec (AHardwareBuffer_lock p buf).1 0); done.
Qed.

(** Locking and unlocking alternate. On an unlocked buffer with memory of its
    own, a lock gives out the pixels, further locks give out the same address
    with EEXIST, an unlock succeeds and further unlocks answer ENOENT. A lock
    an AHardwareBuffer refuses is reported but leaves the buffer marked locked. *)
Theorem lock_alternates p b :
  locked b = false ->
  match LorieBuffer_lock p (Some b) with
  | (Some b1, Some a, r) =>
      LorieBuffer_lock p (Some b1) = (Some b1, Some a, EEXIST)
      /\ LorieBuffer_unlock p (Some b) = (Some b, ENOENT)
      /\ (exists b2 r2, LorieBuffer_unlock p (Some b1) = (Some b2, r2)
            /\ LorieBuffer_unlock p (Some b2) = (Some b2, ENOENT)
            /\ desc b2 = desc b /\ refcount b2 = refcount b
            /\ (type (desc b) <> LORIEBUFFER_AHARDWAREBUFFER -> r2 = LOK))
      /\ (type (desc b) = LORIEBUFFER_REGULAR \/ type (desc b) = LORIEBUFFER_FD ->
          a = data (desc b) /\ r = LOK)
      /\ (type (desc b) = LORIEBUFFER_AHARDWAREBUFFER ->
          r = ahb_result (AHardwareBuffer_lock p (ahb (desc b))).1 /\ locked b1 = true)
  | _ => False
  end.
Proof.
  intros Hl. unfold LorieBuffer_lock. rewrite Hl. set (ar := if _ || _ then _ else _).
  destruct ar as [a r] eqn:Ear. cbn. rewrite Hl. cbn. split_and!; [done..| | |].
  - eexists _, _. split_and!; [reflexivity|done..|]. intros N. by rewrite (proj2 (Z.eqb_neq _ _) N).
  - subst ar. intros [E|E]; rewrite E in Ear; cbn in Ear; by injection Ear as <- <-.
  - subst ar. intros E. rewrite E in Ear. cbn in Ear. by injection Ear as <- <-.
Qed.

(** A shared buffer sent to another process arrives with its size, stride,
    format and identifier and owns its copy of the descriptor; but the reference
    count and the lock are the sender's, although the code resets them, and the
    pixels are mapped from offset 0 whatever the sender's offset is. *)
Theorem received_buffer p transfer b held :
  type (desc b) = LORIEBUFFER_FD -> transfer (fd b) <> -1 ->
  let n := pixel_bytes (stride (desc b)) (height (desc b)) in
  let a := mmap p n (transfer (fd b)) 0 in
  a <> 0 -> a <> -1 -> calloc_buffer p = true ->
  exists b',
    LorieBuffer_recvHandleFromUnixSocket p transfer (LorieBuffer_sendHandleToUnixSocket b) held
    = Ret (Stored b', RStruct (desc_id (desc b)) :: RMap a n (transfer (fd b)) 0 :: RFd (transfer (fd b)) :: held)
    /\ width (desc b') = width (desc b) /\ height (desc b') = height (desc b)
    /\ stride (desc b') = stride (desc b) /\ format (desc b') = format (desc b)
    /\ desc_id (desc b') = desc_id (desc b) /\ fd b' = transfer (fd b) /\ data (desc b') = a
    /\ refcount b' = refcount b /\ locked b' = locked b /\ offset b' = offset b.
Proof.
  intros Hty Hf n a Ha0 Ha1 Hc. unfold LorieBuffer_recvHandleFromUnixSocket, LorieBuffer_sendHandleToUnixSocket.
  cbn [msg_struct msg_fd]. rewrite Hty, Hc. cbn [Z.eqb Pos.eqb LORIEBUFFER_FD].
  rewrite (proj2 (Z.eqb_neq _ _) Hf). fold n a.
  rewrite (proj2 (Z.eqb_neq _ _) Ha0), (proj2 (Z.eqb_neq _ _) Ha1). cbn [orb].
  eexists. split; [reflexivity|]. done.
Qed.

(** ** A concrete platform *)
Definition sample_platform : platform := mk_platform 4096 2 (fun _ => 11) 12 13 (fun _ => (0, 0))
  (fun fd => fd + 20) 0x10000 true true (fun _ _ _ => 0x20000) (fun _ _ _ => 0x77)
  (fun _ => mk_ahb_desc 64 32 64 5) (fun _ => (0, 0x30000)) (fun _ => 0).

Lemma sample_shm n : ASharedMemory_create sample_platform n <> 0.
Proof. discriminate. Qed.

Lemma allocate_owns_witness :
  exists r held', LorieBuffer_allocate sample_platform 1 64 32 5 LORIEBUFFER_FD [] = Ret (r, held')
    /\ held' = [RStruct 1; RMap 0x20000 8192 11 0; RFd 11]
    /\ exists r2 held2, LorieBuffer_allocate sample_platform 1 0 32 5 LORIEBUFFER_FD [] = Ret (r2, held2)
       /\ held2 = [RFd 11].
Proof.
  destruct (allocate_owns sample_platform 1 64 32 5 LORIEBUFFER_FD [] sample_shm) as (r & held' & E & _).
  destruct (allocate_owns sample_platform 1 0 32 5 LORIEBUFFER_FD [] sample_shm) as (r2 & held2 & E2 & _).
  exists r, held'. split; [exact E|]. split; [vm_compute in E; injection E as <- <-; reflexivity|].
  exists r2, held2. split; [exact E2|]. vm_compute in E2. injection E2 as <- <-. reflexivity.
Defined.

Lemma region_holds_pixels_witness :
  4 * 64 * 33 <= alignToPage sample_platform (pixel_bytes 64 33) < 4 * 64 * 33 + 4096
  /\ alignToPage sample_platform (pixel_bytes 65536 65536) = 0.
Proof.
  split.
  - apply (region_holds_pixels sample_platform 64 33 12); reflexivity || lia.
  - apply (region_holds_pixels sample_platform 65536 65536 12); reflexivity || lia.
Defined.

Definition sample_regular : LorieBuffer :=
  mk_buffer 1 (mk_desc 64 32 64 2 1 9 0 0x10000) false 0 (-1) 0 0 0 0.

Lemma convert_owns_witness :
  exists b' held' blt,
    LorieBuffer_convert sample_platform sample_regular LORIEBUFFER_FD 5 [RStruct 9; RMem 0x10000]
    = Ret (b', held', blt) /\ held' = [RMap 0x20000 8192 11 0; RFd 11; RStruct 9].
Proof.
  destruct (convert_owns sample_platform sample_regular LORIEBUFFER_FD 5 [] sample_shm)
    as (b' & held' & blt & E & _); [lia|reflexivity|].
  exists b', held', blt. split; [exact E|]. vm_compute in E. injection E as <- <- <-. reflexivity.
Defined.

Lemma lock_alternates_witness :
  LorieBuffer_lock sample_platform (Some (set_lock true 0x10000 sample_regular))
  = (Some (set_lock true 0x10000 sample_regular), Some 0x10000, EEXIST).
Proof. exact (proj1 (lock_alternates sample_platform sample_regular eq_refl)). Defined.

Lemma received_buffer_witness :
  let b := mk_buffer 3 (mk_desc 64 32 64 5 2 9 0 0x40000) true 0x40000 5 8192 4096 0 0 in
  exists b', LorieBuffer_recvHandleFromUnixSocket sample_platform (fun fd => fd + 100)
               (LorieBuffer_sendHandleToUnixSocket b) []
             = Ret (Stored b', [RStruct 9; RMap 0x20000 8192 105 0; RFd 105])
    /\ refcount b' = 3 /\ locked b' = true /\ offset b' = 4096.
Proof.
  intros b.
  destruct (received_buffer sample_platform (fun fd => fd + 100) b [])
    as (b' & E & _ & _ & _ & _ & _ & _ & _ & H1 & H2 & H3); try reflexivity; try discriminate.
  exists b'. split; [exact E|]. split; [exact H1|]. split; [exact H2|exact H3].
Defined.
