(* ===== verification/GlBuffers.v ===== *)
(** * The renderer's buffer lists (renderer.c 441-479 and 822-840, buffer.c 254-264 and 397-458)

    The app keeps the buffers of the X server in three lists: received but not
    yet known to GL, attached to GL, and waiting to be destroyed.  A buffer has
    one link, so it is in one list at a time.  [store] is the heap of buffers
    by address, the lists, what the process holds for them and the GL objects
    that exist.  Reading a buffer that has been freed is a fault. *)
From S2P Require Import Prelude Buffer.

(** ** Data *)
Inductive globj : Type := GlTexture (id : Z) | GlImage (i : Z).
#[export] Instance globj_eq_dec : EqDecision globj.
Proof. solve_decision. Defined.

(** Which of the three lists of renderer.c. *)
Inductive blist : Type := AddedBuffers | Buffers | RemovedBuffers.

Record store : Type := mk_store {
  heap : gmap Z LorieBuffer;
  addedBuffers : list Z;
  buffers : list Z;
  removedBuffers : list Z;
  held : list resource;
  gl : list globj
}.

Definition get_list (w : blist) (s : store) : list Z :=
  match w with
  | AddedBuffers => addedBuffers s | Buffers => buffers s | RemovedBuffers => removedBuffers s
  end.

Definition all_lists (s : store) : list Z := addedBuffers s ++ buffers s ++ removedBuffers s.

(** The calling thread: only the renderer thread has a current GL context. *)
Inductive thread : Type := GuiThread | RendererThread.

(** Results of the GL and EGL calls that create objects; 0 is a failure. *)
Record gl_platform : Type := mk_gl {
  glGenTextures : list globj -> Z;
  eglCreateImageKHR : Z -> Z
}.

(** ** Operations on the lists *)
Definition xorg_list_del (q : Z) (l : list Z) : list Z := filter (fun p => p <> q) l.

Definition LorieBuffer_removeFromList (p : Z) (s : store) : store :=
  mk_store (heap s) (xorg_list_del p (addedBuffers s)) (xorg_list_del p (buffers s))
    (xorg_list_del p (removedBuffers s)) (held s) (gl s).

Definition LorieBuffer_addToList (p : Z) (w : blist) (s : store) : store :=
  let s := LorieBuffer_removeFromList p s in
  match w with
  | AddedBuffers => mk_store (heap s) (p :: addedBuffers s) (buffers s) (removedBuffers s) (held s) (gl s)
  | Buffers => mk_store (heap s) (addedBuffers s) (p :: buffers s) (removedBuffers s) (held s) (gl s)
  | RemovedBuffers => mk_store (heap s) (addedBuffers s) (buffers s) (p :: removedBuffers s) (held s) (gl s)
  end.

Definition LorieBufferList_first (w : blist) (s : store) : option Z := head (get_list w s).

Definition deref (p : Z) (s : store) : outcome LorieBuffer :=
  match heap s !! p with Some b => Ret b | None => Fault NullDeref end.

Fixpoint find_in (l : list Z) (bid : Z) (s : store) : outcome (option Z) :=
  match l with
  | [] => Ret None
  | p :: l =>
      b ← deref p s;
      if desc_id (desc b) =? bid then Ret (Some p) else find_in l bid s
  end.

Definition LorieBufferList_findById (w : blist) (bid : Z) (s : store) : outcome (option Z) :=
  find_in (get_list w s) bid s.

(** ** GL objects *)
Definition gl_owned (b : LorieBuffer) : list globj :=
  (if texture b =? 0 then [] else [GlTexture (texture b)])
  ++ (if image b =? 0 then [] else [GlImage (image b)]).

Fixpoint gl_delete (o : globj) (l : list globj) : list globj :=
  match l with
  | [] => []
  | o' :: l => if decide (o = o') then l else o' :: gl_delete o l
  end.

Definition set_gl (t i : Z) (b : LorieBuffer) : LorieBuffer :=
  mk_buffer (refcount b) (desc b) (locked b) (lockedData b) (fd b) (size b) (offset b) t i.

(** Only called on the renderer thread.  A texture the buffer had before is
    not deleted. *)
Definition LorieBuffer_attachToGL (g : gl_platform) (p : Z) (s : store) : outcome store :=
  b ← deref p s;
  let create := (image b =? 0) && negb (ahb (desc b) =? 0) in
  let i := if create then eglCreateImageKHR g (ahb (desc b)) else image b in
  let l := if create && negb (i =? 0) then GlImage i :: gl s else gl s in
  let t := glGenTextures g l in
  Ret (mk_store (<[p := set_gl t i b]> (heap s)) (addedBuffers s) (buffers s) (removedBuffers s)
         (held s) (if t =? 0 then l else GlTexture t :: l)).

(** [LorieBuffer_release] with the part of [__LorieBuffer_free] that concerns
    the lists and GL: without a current context GL objects are not deleted. *)
Definition release (th : thread) (p : Z) (s : store) : outcome store :=
  b ← deref p s;
  '(r, h) ← LorieBuffer_release b (held s);
  match r with
  | Some b => Ret (mk_store (<[p := b]> (heap s)) (addedBuffers s) (buffers s) (removedBuffers s) h (gl s))
  | None =>
      let s := LorieBuffer_removeFromList p s in
      Ret (mk_store (delete p (heap s)) (addedBuffers s) (buffers s) (removedBuffers s) h
             match th with
             | RendererThread => foldr gl_delete (gl s) (gl_owned b)
             | GuiThread => gl s
             end)
  end.

(** ** The loops *)

(** [while ((buf = LorieBufferList_first(w))) LorieBuffer_release(buf);] *)
Fixpoint release_all (fuel : nat) (th : thread) (w : blist) (s : store) : outcome store :=
  match LorieBufferList_first w s, fuel with
  | None, _ => Ret s
  | Some p, O => Fault FuelExhausted
  | Some p, S fuel => s ← release th p s; release_all fuel th w s
  end.

(** The loop runs once per reference. *)
Definition refs_of (p : Z) (h : gmap Z LorieBuffer) : nat :=
  match h !! p with Some b => Z.to_nat (refcount b) | None => 0 end.
Definition references (w : blist) (s : store) : nat :=
  foldr (fun p n => (refs_of p (heap s) + n)%nat) 0%nat (get_list w s).

Fixpoint move_to_removed (fuel : nat) (s : store) : outcome store :=
  match LorieBufferList_first Buffers s, fuel with
  | None, _ => Ret s
  | Some p, O => Fault FuelExhausted
  | Some p, S fuel =>
      move_to_removed fuel (LorieBuffer_addToList p RemovedBuffers (LorieBuffer_removeFromList p s))
  end.

(** Attach and move one buffer after the other. *)
Fixpoint attach_loop (fuel : nat) (g : gl_platform) (s : store) : outcome store :=
  match LorieBufferList_first AddedBuffers s, fuel with
  | None, _ => Ret s
  | Some p, O => Fault FuelExhausted
  | Some p, S fuel =>
      s ← LorieBuffer_attachToGL g p s;
      attach_loop fuel g (LorieBuffer_addToList p Buffers s)
  end.
Definition attach_all (g : gl_platform) (s : store) : outcome store :=
  attach_loop (length (addedBuffers s)) g s.

Definition release_removed (s : store) : outcome store :=
  release_all (references RemovedBuffers s) RendererThread RemovedBuffers s.

(** ** The functions of the GUI thread *)
Definition rendererAddBuffer (p : Z) (s : store) : store := LorieBuffer_addToList p AddedBuffers s.

Definition rendererRemoveBuffer (bid : Z) (s : store) : outcome store :=
  buf ← LorieBufferList_findById AddedBuffers bid s;
  match buf with
  | Some p => release GuiThread p s
  | None =>
      buf ← LorieBufferList_findById Buffers bid s;
      match buf with
      | Some p => Ret (LorieBuffer_addToList p RemovedBuffers (LorieBuffer_removeFromList p s))
      | None => Ret s
      end
  end.

Definition rendererRemoveAllBuffers (s : store) : outcome store :=
  s ← release_all (references AddedBuffers s) GuiThread AddedBuffers s;
  move_to_removed (length (buffers s)) s.

(** ** What the buffers of a heap own *)
Section per_buffer.
Context {A : Type} (f : LorieBuffer -> list A).

Definition per_buffer (h : gmap Z LorieBuffer) : list A := map_to_list h ≫= fun pb => f pb.2.

Lemma per_buffer_delete h p b : h !! p = Some b -> per_buffer h ≡ₚ f b ++ per_buffer (delete p h).
Proof. intros Hp. unfold per_buffer. by rewrite <- (map_to_list_delete h p b Hp). Qed.

Lemma per_buffer_fresh h p b : h !! p = None -> per_buffer (<[p := b]> h) ≡ₚ f b ++ per_buffer h.
Proof. intros Hp. unfold per_buffer. by rewrite (map_to_list_insert h p b Hp). Qed.

Lemma per_buffer_insert h p b b' :
  h !! p = Some b -> per_buffer (<[p := b']> h) ≡ₚ f b' ++ per_buffer (delete p h).
Proof.
  intros Hp. rewrite <- insert_delete_eq. apply per_buffer_fresh, lookup_delete_eq.
Qed.

Lemma per_buffer_same h p b b' :
  h !! p = Some b -> f b' = f b -> per_buffer (<[p := b']> h) ≡ₚ per_buffer h.
Proof. intros Hp Hf. rewrite (per_buffer_insert _ _ _ _ Hp), Hf. by rewrite <- per_buffer_delete. Qed.
End per_buffer.

(** ** Giving back what is held, up to order *)
Lemma give_back_perm rs l rest :
  l ≡ₚ rs ++ rest -> exists l', give_back rs l = Ret l' /\ l' ≡ₚ rest.
Proof.
  revert rest. induction rs as [|r rs IH]; intros rest Hl; [by exists l|].
  destruct (IH (r :: rest)) as (l1 & E1 & H1); [rewrite Hl; cbn; by rewrite Permutation_middle|].
  unfold give_back in *. cbn [foldr]. rewrite E1. cbind.
  destruct (remove_one_perm r l1) as (l2 & E2 & H2); [rewrite H1; set_solver|].
  exists l2. split; [done|]. rewrite H2 in H1. by apply Permutation_cons_inv in H1.
Qed.

Lemma gl_delete_perm o l l' : l ≡ₚ o :: l' -> gl_delete o l ≡ₚ l'.
Proof.
  revert l'. induction l as [|o' l IH]; intros l' Hl; [by apply Permutation_nil in Hl|]. cbn.
  destruct (decide (o = o')) as [<-|N]; [by apply Permutation_cons_inv in Hl|].
  assert (o' ∈ l') as [k1 [k2 ->]]%list_elem_of_split by (assert (o' ∈ o :: l') by (rewrite <- Hl; set_solver); set_solver).
  rewrite <- Permutation_middle. apply Permutation_cons; [done|]. apply IH.
  rewrite <- Permutation_middle, Permutation_swap in Hl. by apply Permutation_cons_inv in Hl.
Qed.

Lemma gl_delete_all os l rest : l ≡ₚ os ++ rest -> foldr gl_delete l os ≡ₚ rest.
Proof.
  revert rest. induction os as [|o os IH]; intros rest Hl; [done|]. cbn.
  apply gl_delete_perm, IH. rewrite Hl. cbn. by rewrite Permutation_middle.
Qed.

(** ** Well-formed stores *)

(** [rest] is what the process holds besides its buffers. *)
Record store_ok (rest : list resource) (s : store) : Prop := {
  so_nodup : NoDup (all_lists s);
  so_heap : forall p, p ∈ all_lists s <-> is_Some (heap s !! p);
  so_refs : forall p b, heap s !! p = Some b -> 1 <= refcount b < 2 ^ 15;
  so_added : forall p b, p ∈ addedBuffers s -> heap s !! p = Some b -> texture b = 0 /\ image b = 0;
  so_held : held s ≡ₚ per_buffer owned (heap s) ++ rest;
  so_gl : gl s ≡ₚ per_buffer gl_owned (heap s)
}.

Lemma elem_del q p l : q ∈ xorg_list_del p l <-> q ∈ l /\ q <> p.
Proof. unfold xorg_list_del. rewrite list_elem_of_filter. tauto. Qed.

Lemma del_notin p l : p ∉ l -> xorg_list_del p l = l.
Proof.
  unfold xorg_list_del. induction l as [|q l IH]; [done|]. intros Hp.
  rewrite filter_cons_True, IH by set_solver. done.
Qed.

Lemma all_del p s : all_lists (LorieBuffer_removeFromList p s) = xorg_list_del p (all_lists s).
Proof. unfold all_lists, xorg_list_del. cbn. by rewrite !filter_app. Qed.

Lemma all_add p w s : all_lists (LorieBuffer_addToList p w s) ≡ₚ p :: xorg_list_del p (all_lists s).
Proof.
  rewrite <- all_del. destruct w; unfold LorieBuffer_addToList, all_lists; cbn; [done| |].
  - by rewrite <- Permutation_middle.
  - by rewrite !app_assoc, <- Permutation_middle.
Qed.

Lemma heap_add p w s : heap (LorieBuffer_addToList p w s) = heap s.
Proof. by destruct w. Qed.
Lemma held_add p w s : held (LorieBuffer_addToList p w s) = held s.
Proof. by destruct w. Qed.
Lemma gl_add p w s : gl (LorieBuffer_addToList p w s) = gl s.
Proof. by destruct w. Qed.

(** Only the named list and the lists the buffer leaves change. *)
Lemma add_frees p w w' s q :
  q ∈ get_list w' (LorieBuffer_addToList p w s) -> (q = p /\ w' = w) \/ (q ∈ get_list w' s /\ q <> p).
Proof. destruct w, w'; cbn; rewrite ?elem_of_cons, ?elem_del; tauto. Qed.

Lemma store_ok_add rest p w s :
  store_ok rest s -> p ∈ all_lists s -> w <> AddedBuffers ->
  store_ok rest (LorieBuffer_addToList p w s).
Proof.
  intros [Hnd Hh Hr Ha Ho Hg] Hp Hw. constructor; rewrite ?heap_add, ?held_add, ?gl_add; try done.
  - rewrite all_add. apply NoDup_cons. split; [rewrite elem_del; tauto|by apply NoDup_filter].
  - intros q. rewrite all_add, elem_of_cons, elem_del, <- Hh.
    destruct (decide (q = p)) as [->|]; tauto.
  - intros q b Hq. apply Ha. destruct (add_frees p w AddedBuffers s q Hq) as [[? ?]|[? ?]]; [done|set_solver].
Qed.

Lemma gl_owned_none b : texture b = 0 -> image b = 0 -> gl_owned b = [].
Proof. intros Ht Hi. unfold gl_owned. by rewrite Ht, Hi. Qed.

(** A received buffer joins the list of buffers GL does not know yet. *)
Lemma store_ok_receive rest p b s :
  store_ok rest s -> heap s !! p = None -> 1 <= refcount b < 2 ^ 15 -> texture b = 0 -> image b = 0 ->
  store_ok rest (rendererAddBuffer p
    (mk_store (<[p := b]> (heap s)) (addedBuffers s) (buffers s) (removedBuffers s)
       (owned b ++ held s) (gl s))).
Proof.
  intros [Hnd Hh Hr Ha Ho Hg] Hp Hb Ht Hi.
  assert (p ∉ all_lists s) as Hn by (rewrite Hh, Hp; intros [? ?]; done).
  constructor; unfold rendererAddBuffer; rewrite ?heap_add, ?held_add, ?gl_add; cbn [heap held gl].
  - rewrite all_add. apply NoDup_cons. split; [rewrite elem_del; tauto|by apply NoDup_filter].
  - intros q. rewrite all_add, elem_of_cons, elem_del. change (all_lists _) with (all_lists s) at 1.
    destruct (decide (q = p)) as [->|Hqp]; [rewrite lookup_insert_eq; set_solver|].
    rewrite lookup_insert_ne by done. rewrite <- Hh. unfold all_lists. cbn. tauto.
  - intros q b' Hq. apply lookup_insert_Some in Hq as [[<- <-]|[_ Hq]]; [done|by eapply Hr].
  - intros q b' Hq Hb'. apply lookup_insert_Some in Hb' as [[<- <-]|[Hqp Hb']]; [done|].
    eapply Ha; [|exact Hb']. apply (add_frees p AddedBuffers AddedBuffers) in Hq as [[? ?]|[Hq ?]]; [done|exact Hq].
  - rewrite per_buffer_fresh, Ho by done. by rewrite app_assoc.
  - by rewrite per_buffer_fresh, gl_owned_none, Hg by done.
Qed.

Lemma store_ok_attach rest g p s :
  store_ok rest s -> p ∈ addedBuffers s ->
  exists s', LorieBuffer_attachToGL g p s = Ret s'
    /\ store_ok rest (LorieBuffer_addToList p Buffers s')
    /\ addedBuffers s' = addedBuffers s /\ buffers s' = buffers s /\ removedBuffers s' = removedBuffers s
    /\ dom (heap s') = dom (heap s).
Proof.
  intros [Hnd Hh Hr Ha Ho Hg] Hp.
  assert (p ∈ all_lists s) as Hpa by (unfold all_lists; set_solver).
  destruct (proj1 (Hh p) Hpa) as [b Hb]. destruct (Ha p b Hp Hb) as [Ht Hi].
  unfold LorieBuffer_attachToGL, deref. rewrite Hb. cbind. eexists. split; [reflexivity|].
  split; [|split_and!; try done; cbn; by rewrite dom_insert_lookup_L by done].
  constructor; rewrite ?heap_add, ?held_add, ?gl_add; cbn [heap held gl].
  - rewrite all_add. apply NoDup_cons. split; [rewrite elem_del; tauto|by apply NoDup_filter].
  - intros q. rewrite all_add, elem_of_cons, elem_del, lookup_insert_is_Some, <- Hh.
    unfold all_lists in *. cbn. destruct (decide (q = p)) as [->|]; [tauto|].
    split; [intros [?|[? _]]; [done|by right]|intros [?|[? ?]]; [by subst|by right]].
  - intros q b' Hq. apply lookup_insert_Some in Hq as [[<- <-]|[_ Hq]]; [exact (Hr p b Hb)|by eapply Hr].
  - intros q b' Hq Hb'. apply (add_frees p Buffers AddedBuffers) in Hq as [[_ ?]|[Hq Hqp]]; [done|].
    rewrite lookup_insert_ne in Hb' by done. by eapply Ha.
  - by rewrite (per_buffer_same owned _ _ b).
  - rewrite (per_buffer_insert _ _ _ b) by done. rewrite (per_buffer_delete gl_owned _ p b) in Hg by done.
    rewrite gl_owned_none in Hg by done. cbn [app] in Hg.
    unfold gl_owned at 1, set_gl. cbn [texture image]. rewrite <- Hg, Hi. cbn [Z.eqb andb].
    destruct (ahb (desc b) =? 0); cbn [negb andb].
    1: destruct (glGenTextures _ _ =? 0); cbn; done.
    destruct (eglCreateImageKHR g (ahb (desc b)) =? 0); cbn [negb].
    all: destruct (glGenTextures _ _ =? 0); cbn; done.
Qed.

(** ** Releasing *)
Definition last_reference (p : Z) (s : store) : bool :=
  match heap s !! p with Some b => refcount b =? 1 | None => false end.

(** A release takes one reference; the last one frees the buffer, which leaves
    its list.  The GUI thread may only release what GL does not know. *)
Lemma store_ok_release rest th p s :
  store_ok rest s -> p ∈ all_lists s -> (th = GuiThread -> p ∈ addedBuffers s) ->
  exists s', release th p s = Ret s' /\ store_ok rest s'
    /\ (forall w, get_list w s' = if last_reference p s then xorg_list_del p (get_list w s) else get_list w s)
    /\ (forall q, refs_of q (heap s') = if decide (q = p) then pred (refs_of q (heap s)) else refs_of q (heap s))
    /\ (1 <= refs_of p (heap s))%nat.
Proof.
  intros [Hnd Hh Hr Ha Ho Hg] Hp Hth. destruct (proj1 (Hh p) Hp) as [b Hb].
  pose proof (Hr p b Hb) as Hrb.
  unfold release, deref, last_reference, LorieBuffer_release. rewrite Hb. cbind.
  destruct (Z.eqb_spec (refcount b) 1) as [E|N].
  - rewrite free_is_give_back. match goal with |- context [owned ?b'] => change (owned b') with (owned b) end.
    destruct (give_back_perm (owned b) (held s) (per_buffer owned (delete p (heap s)) ++ rest))
      as (h & -> & Hh'); [by rewrite Ho, (per_buffer_delete owned _ p b), <- app_assoc|]. cbind.
    eexists. split; [reflexivity|]. split_and!.
    + constructor; cbn [heap held gl].
      * unfold LorieBuffer_removeFromList. cbn. change (NoDup (all_lists (LorieBuffer_removeFromList p s))).
        rewrite all_del. by apply NoDup_filter.
      * intros q. change (all_lists _) with (all_lists (LorieBuffer_removeFromList p s)).
        rewrite all_del, elem_del, Hh, lookup_delete_is_Some. naive_solver.
      * intros q b' [Hq Hb']%lookup_delete_Some. by eapply Hr.
      * intros q b'. cbn. rewrite elem_del. intros [Hq Hqp] [_ Hb']%lookup_delete_Some. by eapply Ha.
      * done.
      * destruct th.
        -- destruct (Ha p b (Hth eq_refl) Hb) as [Ht Hi]. cbn.
           by rewrite Hg, (per_buffer_delete gl_owned _ p b), gl_owned_none by done.
        -- apply gl_delete_all. by rewrite Hg, <- per_buffer_delete.
    + intros w. by destruct w.
    + intros q. unfold refs_of. cbn. destruct (decide (q = p)) as [->|].
      * rewrite lookup_delete_eq, Hb, E. done.
      * by rewrite lookup_delete_ne by done.
    + unfold refs_of. rewrite Hb. lia.
  - cbind. eexists. split; [reflexivity|].
    assert (i16 (refcount b - 1) = refcount b - 1) as Ei by (apply wrap_s_small; simpl; lia). split_and!.
    + constructor; cbn [heap held gl]; try done.
      * intros q. unfold all_lists in *. cbn. rewrite Hh, lookup_insert_is_Some.
        destruct (decide (q = p)) as [->|]; [split; [by left|done]|]. split; [by right|intros [?|[]]; [by subst|done]].
      * intros q b' Hq. apply lookup_insert_Some in Hq as [[<- <-]|[_ Hq]]; [cbn; lia|by eapply Hr].
      * intros q b' Hq Hb'. apply lookup_insert_Some in Hb' as [[<- <-]|[_ Hb']].
        -- cbn. by apply (Ha p).
        -- by eapply Ha.
      * by rewrite (per_buffer_same owned _ _ b).
      * by rewrite (per_buffer_same gl_owned _ _ b).
    + intros w. by destruct w.
    + intros q. unfold refs_of. cbn. destruct (decide (q = p)) as [->|].
      * rewrite lookup_insert_eq, Hb. cbn. rewrite Ei. lia.
      * by rewrite lookup_insert_ne by done.
    + unfold refs_of. rewrite Hb. lia.
Qed.

Lemma references_ext l h h' :
  (forall q, q ∈ l -> refs_of q h = refs_of q h') ->
  foldr (fun p n => (refs_of p h + n)%nat) 0%nat l = foldr (fun p n => (refs_of p h' + n)%nat) 0%nat l.
Proof.
  induction l as [|q l IH]; [done|]. intros H. cbn. rewrite H, IH by set_solver. done.
Qed.

Lemma nodup_list rest w s : store_ok rest s -> NoDup (get_list w s).
Proof. intros [Hnd _ _ _ _ _]. unfold all_lists in Hnd. rewrite !NoDup_app in Hnd. destruct w; cbn; tauto. Qed.

Lemma list_in_all w s p : p ∈ get_list w s -> p ∈ all_lists s.
Proof. unfold all_lists. destruct w; cbn; set_solver. Qed.

(** Lists are disjoint. *)
Lemma list_disjoint rest w w' s p :
  store_ok rest s -> p ∈ get_list w s -> p ∈ get_list w' s -> w = w'.
Proof.
  intros [Hnd _ _ _ _ _]. unfold all_lists in Hnd. rewrite !NoDup_app in Hnd.
  destruct Hnd as (_ & H1 & _ & H2 & _). specialize (H1 p). specialize (H2 p).
  rewrite elem_of_app in H1. destruct w, w'; cbn; tauto.
Qed.

(** The loop empties its list, in as many turns as there are references, and
    leaves the other lists alone. *)
Lemma release_all_ok rest th w fuel s :
  store_ok rest s -> (th = GuiThread -> w = AddedBuffers) -> (references w s <= fuel)%nat ->
  exists s', release_all fuel th w s = Ret s' /\ store_ok rest s' /\ get_list w s' = []
    /\ (forall w', w' <> w -> get_list w' s' = get_list w' s).
Proof.
  intros Hs Hth. revert s Hs. induction fuel as [|fuel IH]; intros s Hs Hf.
  all: cbn [release_all]; unfold LorieBufferList_first; destruct (get_list w s) as [|p l] eqn:El; cbn [head];
    [by exists s|].
  all: assert (p ∈ get_list w s) as Hp by (rewrite El; set_solver).
  all: destruct (store_ok_release rest th p s Hs (list_in_all w s p Hp)) as (s1 & E1 & Hs1 & Hl & Hrf & Hpos).
  1,3: intros Eth; rewrite (Hth Eth) in Hp; exact Hp.
  all: unfold references in Hf; rewrite El in Hf; cbn in Hf.
  1: lia.
  rewrite E1. cbind. destruct (IH s1 Hs1) as (s2 & E2 & Hs2 & Hw & Ho).
  - unfold references. rewrite Hl, El.
    pose proof (nodup_list rest w s Hs) as Hnd. rewrite El in Hnd. apply NoDup_cons in Hnd as [Hnp _].
    rewrite (references_ext l (heap s) (heap s1)) in Hf.
    2:{ intros q Hq. rewrite Hrf, decide_False; [done|]. by intros ->. }
    assert (xorg_list_del p (p :: l) = l) as -> by (unfold xorg_list_del; rewrite filter_cons_False by naive_solver; by apply del_notin).
    specialize (Hrf p). rewrite decide_True in Hrf by done. destruct (last_reference p s); cbn; lia.
  - exists s2. split_and!; [done..|]. intros w' Hw'. rewrite Ho, Hl by done.
    destruct (last_reference p s); [|done]. apply del_notin. intros Hin.
    by apply Hw', (list_disjoint rest w' w s p).
Qed.

(** ** Moving between the lists *)
Lemma add_after_del p w s : LorieBuffer_addToList p w (LorieBuffer_removeFromList p s) = LorieBuffer_addToList p w s.
Proof.
  assert (forall l, xorg_list_del p (xorg_list_del p l) = xorg_list_del p l) as H
    by (intros l; apply del_notin; rewrite elem_del; tauto).
  destruct w; unfold LorieBuffer_addToList, LorieBuffer_removeFromList; cbn [heap addedBuffers buffers removedBuffers held gl]; by rewrite !H.
Qed.

Lemma move_to_removed_ok rest fuel s :
  store_ok rest s -> (length (buffers s) <= fuel)%nat ->
  exists s', move_to_removed fuel s = Ret s' /\ store_ok rest s' /\ buffers s' = []
    /\ addedBuffers s' = addedBuffers s
    /\ (forall p, p ∈ buffers s ++ removedBuffers s -> p ∈ removedBuffers s').
Proof.
  revert s. induction fuel as [|fuel IH]; intros s Hs Hf.
  all: cbn [move_to_removed]; unfold LorieBufferList_first; cbn [get_list];
    destruct (buffers s) as [|p l] eqn:El; cbn [head]; [by exists s|].
  1: cbn in Hf; lia.
  rewrite add_after_del. assert (p ∈ get_list Buffers s) as Hp by (cbn; rewrite El; set_solver).
  destruct (IH (LorieBuffer_addToList p RemovedBuffers s)) as (s' & E & Hs' & Hb & Ha & Hin).
  - apply store_ok_add; [done|by apply (list_in_all Buffers)|done].
  - cbn. rewrite El. unfold xorg_list_del. rewrite filter_cons_False by naive_solver.
    pose proof (length_filter (fun q => q <> p) l). cbn in Hf. lia.
  - exists s'. split_and!; [done..| |].
    + rewrite Ha. cbn. apply del_notin. intros Hin'. by pose proof (list_disjoint rest Buffers AddedBuffers s p Hs Hp Hin').
    + intros q Hq. apply Hin. cbn. rewrite El. unfold xorg_list_del. rewrite filter_cons_False by naive_solver.
      rewrite elem_of_app, elem_of_cons, !list_elem_of_filter. destruct (decide (q = p)); set_solver.
Qed.

Lemma attach_loop_ok rest g fuel s :
  store_ok rest s -> (length (addedBuffers s) <= fuel)%nat ->
  exists s', attach_loop fuel g s = Ret s' /\ store_ok rest s' /\ addedBuffers s' = []
    /\ removedBuffers s' = removedBuffers s
    /\ (forall p, p ∈ addedBuffers s ++ buffers s -> p ∈ buffers s').
Proof.
  revert s. induction fuel as [|fuel IH]; intros s Hs Hf.
  all: cbn [attach_loop]; unfold LorieBufferList_first; cbn [get_list];
    destruct (addedBuffers s) as [|p l] eqn:El; cbn [head]; [by exists s|].
  1: cbn in Hf; lia.
  assert (p ∈ get_list AddedBuffers s) as Hp by (cbn; rewrite El; set_solver).
  destruct (store_ok_attach rest g p s Hs Hp) as (s1 & -> & Hs1 & Ea & Eb & Er & _). cbind.
  destruct (IH (LorieBuffer_addToList p Buffers s1) Hs1) as (s' & E & Hs' & Hb & Ha & Hin).
  - cbn. rewrite Ea, El. unfold xorg_list_del. rewrite filter_cons_False by naive_solver.
    pose proof (length_filter (fun q => q <> p) l). cbn in Hf. lia.
  - exists s'. split_and!; [done..| |].
    + rewrite Ha. cbn. rewrite Er. apply del_notin. intros Hin'.
      by pose proof (list_disjoint rest AddedBuffers RemovedBuffers s p Hs Hp Hin').
    + intros q Hq. apply Hin. cbn. rewrite Ea, Eb, El. unfold xorg_list_del. rewrite filter_cons_False by naive_solver.
      rewrite elem_of_app, elem_of_cons, !list_elem_of_filter. destruct (decide (q = p)); set_solver.
Qed.

(** ** Looking up *)
Lemma find_in_ok l bid s :
  (forall p, p ∈ l -> is_Some (heap s !! p)) ->
  exists r, find_in l bid s = Ret r /\
    match r with
    | Some p => p ∈ l /\ exists b, heap s !! p = Some b /\ desc_id (desc b) = bid
    | None => forall p b, p ∈ l -> heap s !! p = Some b -> desc_id (desc b) <> bid
    end.
Proof.
  induction l as [|p l IH]; intros Hl; [by exists None; split; [|set_solver]|].
  cbn. unfold deref. destruct (Hl p) as [b Hb]; [set_solver|]. rewrite Hb. cbind.
  destruct (Z.eqb_spec (desc_id (desc b)) bid).
  - exists (Some p). split; [done|]. split; [set_solver|by exists b].
  - destruct IH as (r & E & Hr); [set_solver|]. exists r. split; [done|]. destruct r as [q|].
    + destruct Hr. split; [set_solver|done].
    + intros q b' [->|Hq]%elem_of_cons Hb'; [congruence|by eapply Hr].
Qed.

Lemma findById_ok rest w bid s :
  store_ok rest s ->
  exists r, LorieBufferList_findById w bid s = Ret r /\
    match r with
    | Some p => p ∈ get_list w s /\ exists b, heap s !! p = Some b /\ desc_id (desc b) = bid
    | None => forall p b, p ∈ get_list w s -> heap s !! p = Some b -> desc_id (desc b) <> bid
    end.
Proof. intros Hs. apply find_in_ok. intros p Hp. apply (so_heap rest s Hs). by eapply list_in_all. Qed.

(** What GL knows, and the redraw may be using. *)
Definition attached (s : store) : list Z := buffers s ++ removedBuffers s.

Lemma rendererRemoveBuffer_ok rest bid s :
  store_ok rest s ->
  exists s', rendererRemoveBuffer bid s = Ret s' /\ store_ok rest s'
    /\ (forall p, p ∈ attached s -> p ∈ attached s').
Proof.
  intros Hs. unfold rendererRemoveBuffer.
  destruct (findById_ok rest AddedBuffers bid s Hs) as (r & -> & Hr). cbind. destruct r as [p|].
  - destruct Hr as [Hp _].
    destruct (store_ok_release rest GuiThread p s Hs) as (s' & -> & Hs' & Hl & _); [by eapply list_in_all|done|].
    exists s'. split_and!; [done..|]. intros q Hq. unfold attached.
    change (buffers s') with (get_list Buffers s'). change (removedBuffers s') with (get_list RemovedBuffers s').
    rewrite !Hl. destruct (last_reference p s); [|exact Hq]. rewrite !del_notin; [exact Hq| |].
    + intros Hin. by pose proof (list_disjoint rest _ AddedBuffers s p Hs Hin Hp).
    + intros Hin. by pose proof (list_disjoint rest _ AddedBuffers s p Hs Hin Hp).
  - destruct (findById_ok rest Buffers bid s Hs) as (r & -> & Hr'). cbind. destruct r as [p|]; [|by exists s].
    destruct Hr' as [Hp _]. rewrite add_after_del. eexists. split; [reflexivity|]. split.
    + apply store_ok_add; [done|by eapply list_in_all|done].
    + intros q. unfold attached. cbn. rewrite !elem_of_app, elem_of_cons, !elem_del.
      destruct (decide (q = p)); tauto.
Qed.

Lemma rendererRemoveAllBuffers_ok rest s :
  store_ok rest s ->
  exists s', rendererRemoveAllBuffers s = Ret s' /\ store_ok rest s'
    /\ addedBuffers s' = [] /\ buffers s' = []
    /\ (forall p, p ∈ attached s -> p ∈ attached s').
Proof.
  intros Hs. unfold rendererRemoveAllBuffers.
  destruct (release_all_ok rest GuiThread AddedBuffers (references AddedBuffers s) s Hs)
    as (s1 & -> & Hs1 & Ha & Ho); [done..|]. cbind.
  destruct (move_to_removed_ok rest (length (buffers s)) s1 Hs1) as (s2 & E & Hs2 & Hb & Ha2 & Hin).
  { pose proof (Ho Buffers ltac:(done)) as Eb. cbn in Eb. by rewrite Eb. }
  exists s2. split_and!; [|done|by rewrite Ha2|done|].
  - pose proof (Ho Buffers ltac:(done)) as Eb. cbn in Eb. by rewrite Eb in *.
  - intros p Hp. unfold attached. apply elem_of_app. right. apply Hin.
    pose proof (Ho Buffers ltac:(done)) as Eb. pose proof (Ho RemovedBuffers ltac:(done)) as Er.
    cbn in Eb, Er. by rewrite Eb, Er.
Qed.
