(* ===== verification/Cursor.v ===== *)
(** * Cursor image and test pattern (InitOutput.c, lines 203-221 and 322-379)

    The cursor is published in a shared block with room for 512 x 512 pixels
    that the renderer reads.  [BitmapBytePad], the scan line length of a bitmap,
    is the X server's; it is an argument. *)
From S2P Require Import Prelude.

(** ** Data *)
Record cursor_bits : Type := mk_bits {
  argb : option (list Z);
  source : list Z;
  mask : list Z;
  bits_width : Z; bits_height : Z;
  bits_xhot : Z; bits_yhot : Z
}.

Record cursor : Type := mk_cursor {
  bits : cursor_bits;
  foreRed : Z; foreGreen : Z; foreBlue : Z;
  backRed : Z; backGreen : Z; backBlue : Z
}.

(** The [cursor] member of [struct lorie_shared_server_state]. *)
Record shared_cursor : Type := mk_shared {
  cur_x : Z; cur_y : Z; cur_xhot : Z; cur_yhot : Z;
  cur_width : Z; cur_height : Z;
  cur_bits : list Z;
  cur_updated : bool; cur_moved : bool
}.

(** Pixels of the shared block. *)
Definition cursor_room : nat := 512 * 512.

(** ** Conversion *)
Definition swap_rb (p : Z) : Z :=
  Z.lor (Z.lor (Z.lor (Z.land p 0xff000000) (Z.shiftr (Z.land p 0x00ff0000) 16)) (Z.land p 0x0000ff00))
    (Z.shiftl (Z.land p 0x000000ff) 16).

Definition core_colour (red green blue : Z) : Z :=
  Z.lor (Z.lor (Z.shiftl (Z.land blue 0xff00) 8) (Z.land green 0xff00)) (Z.shiftr red 8).

Section convert.
Variable BitmapBytePad : Z -> Z.

Definition bitmap_bit (l : list Z) (strd x y : Z) : outcome bool :=
  b ← rd l (Z.to_nat (y * strd + x / 8));
  Ret (truth (Z.land b (Z.shiftl 1 (Z.land x 7)))).

Definition bitmap_pixel (c : cursor) (strd x y : Z) : outcome Z :=
  let fg := core_colour (foreRed c) (foreGreen c) (foreBlue c) in
  let bg := core_colour (backRed c) (backGreen c) (backBlue c) in
  s ← bitmap_bit (source (bits c)) strd x y;
  m ← bitmap_bit (mask (bits c)) strd x y;
  Ret (if m : bool then Z.lor (if s : bool then fg else bg) 0xff000000 else 0).

(** [n] pixels from index [i] on; [pixel] is the one at an index. *)
Fixpoint write_pixels (n : nat) (i : nat) (pixel : nat -> outcome Z) (dst : list Z)
  : outcome (list Z) :=
  match n with
  | O => Ret dst
  | S n' =>
      p ← pixel i;
      dst ← wr dst i p;
      write_pixels n' (S i) pixel dst
  end.

Definition lorieConvertCursor (c : cursor) (dst : list Z) : outcome (list Z) :=
  let b := bits c in
  let n := Z.to_nat (bits_width b * bits_height b) in
  match argb b with
  | Some px => write_pixels n 0 (fun i => p ← rd px i; Ret (swap_rb p)) dst
  | None =>
      let strd := BitmapBytePad (bits_width b) in
      write_pixels n 0
        (fun i => bitmap_pixel c strd (Z.of_nat i `mod` bits_width b) (Z.of_nat i / bits_width b)) dst
  end.

Definition lorieMoveCursor (x y : Z) (s : shared_cursor) : shared_cursor :=
  mk_shared (u32 x) (u32 y) (cur_xhot s) (cur_yhot s) (cur_width s) (cur_height s) (cur_bits s)
    (cur_updated s) true.

(** The hot spot and the size come from the bits taken before an oversized
    cursor is replaced by the default one. *)
Definition lorieSetCursor (rootCursor : cursor) (pCurs : option cursor) (x0 y0 : Z)
  (s : shared_cursor) : outcome shared_cursor :=
  let old_bits := bits <$> pCurs in
  let pCurs :=
    match pCurs with
    | Some c => if (512 <=? bits_width (bits c)) || (512 <=? bits_height (bits c))
                then Some rootCursor else Some c
    | None => None
    end in
  s ← match pCurs, old_bits with
      | Some c, Some b =>
          px ← lorieConvertCursor c (cur_bits s);
          Ret (mk_shared (cur_x s) (cur_y s) (bits_xhot b) (bits_yhot b) (bits_width b) (bits_height b)
                 px (cur_updated s) (cur_moved s))
      | _, _ => Ret (mk_shared (cur_x s) (cur_y s) 0 0 0 0 (cur_bits s) (cur_updated s) (cur_moved s))
      end;
  Ret (lorieMoveCursor x0 y0
         (mk_shared (cur_x s) (cur_y s) (cur_xhot s) (cur_yhot s) (cur_width s) (cur_height s)
            (cur_bits s) true (cur_moved s))).
End convert.

(** ** The test pattern *)

(** The indices [drawSquare] writes, column by column. *)
Definition square_indices (x y l strd : Z) : list Z :=
  i ← seqZ 0 l; j ← seqZ 0 l; [(j + y) * strd + x + i].

Definition drawSquare (x y l color strd : Z) (pixels : list Z) : outcome (list Z) :=
  foldl (fun acc i => px ← acc; if i <? 0 then Fault OutOfBounds else wr px (Z.to_nat i) color)
    (Ret pixels) (square_indices x y l strd).

(** [w] and [h] are positive, so the C divisions are [/]. *)
Definition drawSquares (w h strd : Z) (pixels : list Z) : outcome (list Z) :=
  let l := Z.min w h / 4 in
  let x := (w - l) / 2 in
  let y := (h - l) / 2 in
  px ← drawSquare (x - l / 3) (y - l / 3) l 0x00ff0000 strd pixels;
  px ← drawSquare x y l 0x0000ff00 strd px;
  drawSquare (x + l / 3) (y + l / 3) l 0x000000ff strd px.

(** ** Lemmas *)
Lemma write_pixels_spec n i pixel f dst :
  (forall j, (i <= j < i + n)%nat -> pixel j = Ret (f j)) -> (i + n <= length dst)%nat ->
  write_pixels n i pixel dst = Ret (take i dst ++ map f (seq i n) ++ drop (i + n) dst).
Proof.
  revert i dst. induction n as [|n IH]; intros i dst Hp Hl.
  { cbn. by rewrite Nat.add_0_r, take_drop. }
  cbn [write_pixels]. rewrite Hp by lia. cbind. unfold wr. rewrite decide_True by lia. cbind.
  rewrite IH; [|intros; apply Hp; lia|rewrite length_insert; lia].
  f_equal. rewrite drop_insert_lt by lia. cbn [seq map].
  assert (take (S i) (<[i := f i]> dst) = take i dst ++ [f i]) as ->.
  { erewrite take_S_r by (apply list_lookup_insert_eq; lia). by rewrite take_insert_ge by lia. }
  rewrite <- app_assoc. cbn [app]. do 3 f_equal. by rewrite Nat.add_succ_r.
Qed.

Lemma write_pixels_length n i pixel dst dst' :
  write_pixels n i pixel dst = Ret dst' -> length dst' = length dst.
Proof.
  revert i dst. induction n as [|n IH]; intros i dst H; [by injection H as <-|].
  cbn [write_pixels] in H. apply outcome_bind_Ret_inv in H as (p & _ & H).
  apply outcome_bind_Ret_inv in H as (d & Hw & H). apply IH in H. rewrite H.
  unfold wr in Hw. case_decide; [|done]. injection Hw as <-. apply length_insert.
Qed.

(** Bit [i] of a pixel with its red and blue bytes exchanged. *)
Lemma byte_mask k i : 0 <= k -> 0 <= i ->
  Z.testbit (Z.shiftl (Z.ones 8) k) i = (k <=? i) && (i <? k + 8).
Proof.
  intros Hk Hi. rewrite Z.shiftl_spec by done.
  destruct (Z.leb_spec k i); cbn [andb].
  - rewrite Z.testbit_ones_nonneg by lia. apply eq_true_iff_eq. rewrite !Z.ltb_lt. lia.
  - by rewrite Z.testbit_neg_r by lia.
Qed.

Lemma swap_rb_bit p i : 0 <= i ->
  Z.testbit (swap_rb p) i
  = if i <? 8 then Z.testbit p (i + 16)
    else if (16 <=? i) && (i <? 24) then Z.testbit p (i - 16)
    else (i <? 32) && Z.testbit p i.
Proof.
  intros Hi. unfold swap_rb.
  change 0xff000000 with (Z.shiftl (Z.ones 8) 24). change 0x00ff0000 with (Z.shiftl (Z.ones 8) 16).
  change 0x0000ff00 with (Z.shiftl (Z.ones 8) 8). change 0x000000ff with (Z.shiftl (Z.ones 8) 0).
  rewrite !Z.lor_spec, Z.shiftr_spec, Z.shiftl_spec by lia. rewrite !Z.land_spec.
  rewrite !byte_mask by lia.
  destruct (Z.ltb_spec i 16) as [H16|H16].
  - rewrite (Z.testbit_neg_r p (i - 16)) by lia.
    destruct (Z.ltb_spec i 8); decide_tests; rewrite ?andb_false_r, ?andb_true_r, ?orb_false_r; done.
  - rewrite byte_mask by lia.
    destruct (Z.ltb_spec i 24), (Z.ltb_spec i 32); decide_tests;
      rewrite ?andb_false_r, ?andb_true_r, ?orb_false_r; done || lia.
Qed.

Lemma swap_rb_involutive p : 0 <= p < 2 ^ 32 -> swap_rb (swap_rb p) = p.
Proof.
  intros Hp. apply Z.bits_inj'. intros i Hi. rewrite swap_rb_bit by done.
  destruct (Z.ltb_spec i 8).
  { rewrite swap_rb_bit by lia. decide_tests. f_equal. lia. }
  destruct (Z.leb_spec 16 i), (Z.ltb_spec i 24); cbn [andb];
    try (rewrite swap_rb_bit by lia; decide_tests; done || (f_equal; lia)).
  rewrite swap_rb_bit by lia. decide_tests.
  destruct (Z.ltb_spec i 32); [done|]. cbn [andb].
  rewrite <- (Z.mod_small p (2 ^ 32)) by done. by rewrite Z.mod_pow2_bits_high by lia.
Qed.

(** Byte [n] of a pixel, the lowest being byte 0. *)
Definition pixel_byte (n p : Z) : Z := (p / 256 ^ n) mod 256.

Lemma pixel_byte_bit n p i : 0 <= n -> 0 <= i ->
  Z.testbit (pixel_byte n p) i = (i <? 8) && Z.testbit p (i + 8 * n).
Proof.
  intros Hn Hi. unfold pixel_byte. change 256 with (2 ^ 8). rewrite <- Z.pow_mul_r, <- Z.shiftr_div_pow2 by lia.
  destruct (Z.ltb_spec i 8); cbn [andb].
  - by rewrite Z.mod_pow2_bits_low, Z.shiftr_spec by lia.
  - by rewrite Z.mod_pow2_bits_high by lia.
Qed.

Lemma swap_rb_bytes p :
  0 <= p < 2 ^ 32 ->
  0 <= swap_rb p < 2 ^ 32
  /\ pixel_byte 0 (swap_rb p) = pixel_byte 2 p /\ pixel_byte 1 (swap_rb p) = pixel_byte 1 p
  /\ pixel_byte 2 (swap_rb p) = pixel_byte 0 p /\ pixel_byte 3 (swap_rb p) = pixel_byte 3 p.
Proof.
  intros Hp. split.
  - rewrite <- (Z.mod_small p (2 ^ 32)) by done.
    assert (swap_rb (p mod 2 ^ 32) = swap_rb (p mod 2 ^ 32) mod 2 ^ 32) as ->; [|apply Z.mod_pos_bound; lia].
    apply Z.bits_inj'. intros i Hi. destruct (Z.ltb_spec i 32).
    + by rewrite (Z.mod_pow2_bits_low (swap_rb _)) by lia.
    + rewrite (Z.mod_pow2_bits_high (swap_rb _)) by lia. rewrite swap_rb_bit by done. by decide_tests.
  - split_and!; apply Z.bits_inj'; intros i Hi; rewrite !pixel_byte_bit, swap_rb_bit by lia;
      destruct (Z.ltb_spec i 8); cbn [andb]; try done; decide_tests; f_equal; lia.
Qed.

Lemma land_high_byte x : 0 <= x < 65536 -> Z.land x 0xff00 = Z.shiftl (x / 256) 8.
Proof.
  intros Hx. apply Z.bits_inj'. intros i Hi. change 0xff00 with (Z.shiftl (Z.ones 8) 8).
  rewrite Z.land_spec, byte_mask, Z.shiftl_spec by lia. change 256 with (2 ^ 8). rewrite <- Z.shiftr_div_pow2 by lia.
  destruct (Z.leb_spec 8 i); [|by rewrite (Z.testbit_neg_r _ (i - 8)), andb_false_r by lia].
  rewrite Z.shiftr_spec, Z.sub_add by lia. cbn [andb]. destruct (Z.ltb_spec i (8 + 8)); [apply andb_true_r|].
  rewrite <- (Z.mod_small x (2 ^ 16)) by lia. by rewrite Z.mod_pow2_bits_high by lia.
Qed.

Lemma core_colour_bytes r g b :
  0 <= r < 65536 -> 0 <= g < 65536 -> 0 <= b < 65536 ->
  core_colour r g b = b / 256 * 65536 + g / 256 * 256 + r / 256.
Proof.
  intros Hr Hg Hb. unfold core_colour. rewrite !land_high_byte by done.
  assert (forall x, 0 <= x < 65536 -> 0 <= x / 256 < 2 ^ 8) as Hbyte by (intros; Z.div_mod_to_equations; lia).
  rewrite <- Z.shiftl_lor, (lor_shiftl_add (b / 256)) by (lia || by apply Hbyte).
  rewrite Z.shiftr_div_pow2, lor_shiftl_add by (lia || by apply Hbyte). change (2 ^ 8) with 256. lia.
Qed.

(** The indices of a square that lies inside the picture are inside it. *)
Lemma square_in_picture x y l strd w h :
  0 <= x -> 0 <= y -> x + l <= w -> y + l <= h -> 0 <= l -> w <= strd ->
  Forall (fun i => 0 <= i < strd * h) (square_indices x y l strd).
Proof.
  intros. apply Forall_forall. intros k Hk. unfold square_indices in Hk.
  apply list_elem_of_bind in Hk as (i & Hk & Hi%elem_of_seqZ).
  apply list_elem_of_bind in Hk as (j & ->%list_elem_of_singleton & Hj%elem_of_seqZ). nia.
Qed.

Lemma drawSquare_ok x y l color strd pixels :
  Forall (fun i => 0 <= i < Z.of_nat (length pixels)) (square_indices x y l strd) ->
  exists px, drawSquare x y l color strd pixels = Ret px /\ length px = length pixels
    /\ forall i, (i < length pixels)%nat -> px !! i = if decide (Z.of_nat i ∈ square_indices x y l strd)
                                                   then Some color else pixels !! i.
Proof.
  unfold drawSquare. generalize (square_indices x y l strd). intros idx.
  induction idx as [|k idx IH] using rev_ind; intros Hidx.
  { exists pixels. split_and!; [done..|]. intros i _. rewrite decide_False; [done|]. apply not_elem_of_nil. }
  apply Forall_app in Hidx as [Hidx [Hk _]%Forall_cons].
  destruct (IH Hidx) as (px & E & Hl & Hpx). rewrite foldl_app, E. cbn [foldl]. cbind.
  rewrite (proj2 (Z.ltb_ge _ _)) by lia. unfold wr. rewrite decide_True by lia.
  eexists. split; [reflexivity|]. split; [by rewrite length_insert|]. intros i Hi.
  destruct (decide (i = Z.to_nat k)) as [->|N].
  - rewrite list_lookup_insert_eq by lia. rewrite decide_True; [done|].
    apply elem_of_app. right. apply list_elem_of_singleton. lia.
  - rewrite list_lookup_insert_ne, Hpx by done. destruct (decide (Z.of_nat i ∈ idx)) as [Hin|Hin].
    + rewrite decide_True; [done|]. apply elem_of_app. by left.
    + rewrite decide_False; [done|]. rewrite elem_of_app, list_elem_of_singleton. intros [?|?]; [done|lia].
Qed.

(** A cursor whose tables are as large as its size says. *)
Record cursor_ok (BitmapBytePad : Z -> Z) (c : cursor) : Prop := {
  ok_size : 0 <= bits_width (bits c) /\ 0 <= bits_height (bits c);
  ok_argb : forall px, argb (bits c) = Some px ->
    Z.of_nat (length px) = bits_width (bits c) * bits_height (bits c);
  ok_pad : bits_width (bits c) <= 8 * BitmapBytePad (bits_width (bits c));
  ok_source : argb (bits c) = None ->
    BitmapBytePad (bits_width (bits c)) * bits_height (bits c) <= Z.of_nat (length (source (bits c)));
  ok_mask : argb (bits c) = None ->
    BitmapBytePad (bits_width (bits c)) * bits_height (bits c) <= Z.of_nat (length (mask (bits c)))
}.

(** The published pixel [i] of a cursor. *)
Definition bit_at (l : list Z) (strd x y : Z) : bool :=
  truth (Z.land (nth (Z.to_nat (y * strd + x / 8)) l 0) (Z.shiftl 1 (Z.land x 7))).

Definition cursor_pixel (BitmapBytePad : Z -> Z) (c : cursor) (i : nat) : Z :=
  let b := bits c in
  match argb b with
  | Some px => swap_rb (nth i px 0)
  | None =>
      let strd := BitmapBytePad (bits_width b) in
      let x := Z.of_nat i `mod` bits_width b in
      let y := Z.of_nat i / bits_width b in
      if bit_at (mask b) strd x y
      then Z.lor (if bit_at (source b) strd x y
                  then core_colour (foreRed c) (foreGreen c) (foreBlue c)
                  else core_colour (backRed c) (backGreen c) (backBlue c)) 0xff000000
      else 0
  end.

Lemma rd_nth l i : (i < length l)%nat -> rd l i = Ret (nth i l 0).
Proof.
  intros Hi. unfold rd. destruct (lookup_lt_is_Some_2 l i Hi) as [b Hb]. rewrite Hb.
  f_equal. symmetry. apply nth_lookup_Some. done.
Qed.

Lemma bitmap_bit_ok l strd x y :
  0 <= y * strd + x / 8 < Z.of_nat (length l) -> bitmap_bit l strd x y = Ret (bit_at l strd x y).
Proof. intros H. unfold bitmap_bit. rewrite rd_nth by lia. done. Qed.

Lemma convert_cursor_spec pad c dst :
  cursor_ok pad c -> bits_width (bits c) * bits_height (bits c) <= Z.of_nat (length dst) ->
  let n := Z.to_nat (bits_width (bits c) * bits_height (bits c)) in
  lorieConvertCursor pad c dst = Ret (map (cursor_pixel pad c) (seq 0 n) ++ drop n dst).
Proof.
  intros [[Hw Hh] Hargb Hpad Hsrc Hmask] Hroom n. unfold lorieConvertCursor. fold n.
  unfold cursor_pixel. destruct (argb (bits c)) as [px|] eqn:Ea.
  - rewrite (write_pixels_spec _ _ _ (fun i => swap_rb (nth i px 0))); [done| |lia].
    intros j Hj. rewrite rd_nth; [done|]. specialize (Hargb px eq_refl). lia.
  - specialize (Hsrc eq_refl). specialize (Hmask eq_refl).
    rewrite (write_pixels_spec _ _ _ (cursor_pixel pad c)); [| |lia].
    { unfold cursor_pixel. by rewrite Ea. }
    intros j Hj. unfold bitmap_pixel, cursor_pixel. rewrite Ea.
    set (w := bits_width (bits c)) in *. set (h := bits_height (bits c)) in *.
    assert (0 < w) as Hw0 by nia.
    pose proof (Z.mod_pos_bound (Z.of_nat j) w Hw0).
    assert (0 <= Z.of_nat j / w < h) by (split; [apply Z.div_pos; lia|apply Z.div_lt_upper_bound; nia]).
    assert (0 <= (Z.of_nat j `mod` w) / 8 < pad w)
      by (split; [apply Z.div_pos; lia|apply Z.div_lt_upper_bound; lia]).
    rewrite !bitmap_bit_ok by nia. cbind. by destruct (bit_at (mask (bits c)) _ _ _).
Qed.

(** ** Properties *)

(** The pixel of a bitmap cursor whose colours are 16-bit values. *)
Definition core_pixel (BitmapBytePad : Z -> Z) (c : cursor) (x y : Z) : Z :=
  let bit l := Z.testbit (nth (Z.to_nat (y * BitmapBytePad (bits_width (bits c)) + x / 8)) l 0) (x mod 8) in
  if bit (mask (bits c)) then
    if bit (source (bits c)) then 255 * 2 ^ 24 + foreBlue c / 256 * 2 ^ 16 + foreGreen c / 256 * 2 ^ 8 + foreRed c / 256
    else 255 * 2 ^ 24 + backBlue c / 256 * 2 ^ 16 + backGreen c / 256 * 2 ^ 8 + backRed c / 256
  else 0.

Definition colours_16bit (c : cursor) : Prop :=
  Forall (fun z => 0 <= z < 65536) [foreRed c; foreGreen c; foreBlue c; backRed c; backGreen c; backBlue c].

Lemma bit_at_testbit l strd x y :
  bit_at l strd x y = Z.testbit (nth (Z.to_nat (y * strd + x / 8)) l 0) (x mod 8).
Proof.
  unfold bit_at. set (b := nth _ l 0). change 7 with (Z.ones 3). rewrite Z.land_ones by lia. change (2 ^ 3) with 8.
  pose proof (Z.mod_pos_bound x 8 ltac:(lia)) as Hx. set (k := x mod 8) in *.
  rewrite Z.shiftl_1_l. destruct (Z.testbit b k) eqn:E.
  - apply truth_true. intros H. apply (f_equal (fun z => Z.testbit z k)) in H.
    rewrite Z.land_spec, E, Z.pow2_bits_true, Z.bits_0 in H by lia. done.
  - apply truth_false, Z.bits_inj'. intros i Hi. rewrite Z.land_spec, Z.bits_0, Z.pow2_bits_eqb by lia.
    destruct (Z.eqb_spec k i) as [<-|]; [by rewrite E|apply andb_false_r].
Qed.

Lemma cursor_pixel_core pad c x y :
  argb (bits c) = None -> colours_16bit c -> 0 <= x < bits_width (bits c) -> 0 <= y ->
  cursor_pixel pad c (Z.to_nat (y * bits_width (bits c) + x)) = core_pixel pad c x y.
Proof.
  intros Ha Hc Hx Hy. unfold colours_16bit in Hc. rewrite !Forall_cons in Hc. destruct_and! Hc.
  unfold cursor_pixel, core_pixel. rewrite Ha, Z2Nat.id by nia.
  assert ((y * bits_width (bits c) + x) mod bits_width (bits c) = x) as ->
    by (rewrite Z.add_comm, Z.mod_add by lia; by apply Z.mod_small).
  assert ((y * bits_width (bits c) + x) / bits_width (bits c) = y) as ->
    by (rewrite Z.add_comm, Z.div_add by lia; rewrite Z.div_small by lia; lia).
  rewrite !bit_at_testbit. destruct (Z.testbit _ _); [|done].
  assert (forall r g b, 0 <= r < 65536 -> 0 <= g < 65536 -> 0 <= b < 65536 ->
    Z.lor (core_colour r g b) 0xff000000 = 255 * 2 ^ 24 + b / 256 * 2 ^ 16 + g / 256 * 2 ^ 8 + r / 256) as Hcol.
  { intros r g b Hr Hg Hb. rewrite core_colour_bytes, Z.lor_comm by done. change 0xff000000 with (Z.shiftl 255 24).
    rewrite lor_shiftl_add; [lia|lia|]. Z.div_mod_to_equations. lia. }
  by destruct (Z.testbit _ _); apply Hcol.
Qed.

(** C30: a cursor smaller than 512 x 512 is published whole: the shared block
    gets its hot spot, its size and position, and one pixel per position. A pixel
    of an image keeps its alpha and green bytes and has the red one, byte 2 of what the X
    client gave, lowest, and the blue one, byte 0, as byte 2. A
    bitmap is drawn, where its mask has a bit, opaque and with the high bytes of
    the two colours' red, green and blue in the bytes 0, 1 and 2, the first colour where
    the source has a bit; elsewhere it is transparent. Nothing is
    written outside the block or read outside the cursor, the rest of the block is
    kept, and the renderer is told to update. *)
Theorem cursor_published pad root c x0 y0 s :
  cursor_ok pad c -> bits_width (bits c) < 512 -> bits_height (bits c) < 512 ->
  length (cur_bits s) = cursor_room -> 0 <= x0 < 2 ^ 32 -> 0 <= y0 < 2 ^ 32 ->
  let n := Z.to_nat (bits_width (bits c) * bits_height (bits c)) in
  exists s', lorieSetCursor pad root (Some c) x0 y0 s = Ret s'
    /\ cur_x s' = x0 /\ cur_y s' = y0
    /\ cur_xhot s' = bits_xhot (bits c) /\ cur_yhot s' = bits_yhot (bits c)
    /\ cur_width s' = bits_width (bits c) /\ cur_height s' = bits_height (bits c)
    /\ cur_updated s' = true /\ cur_moved s' = true
    /\ length (cur_bits s') = cursor_room
    /\ (forall i, (n <= i)%nat -> cur_bits s' !! i = cur_bits s !! i)
    /\ (forall px i p, argb (bits c) = Some px -> px !! i = Some p -> 0 <= p < 2 ^ 32 ->
          exists q, cur_bits s' !! i = Some q /\ 0 <= q < 2 ^ 32
            /\ pixel_byte 0 q = pixel_byte 2 p /\ pixel_byte 1 q = pixel_byte 1 p
            /\ pixel_byte 2 q = pixel_byte 0 p /\ pixel_byte 3 q = pixel_byte 3 p)
    /\ (argb (bits c) = None -> colours_16bit c ->
          forall x y, 0 <= x < bits_width (bits c) -> 0 <= y < bits_height (bits c) ->
            cur_bits s' !! Z.to_nat (y * bits_width (bits c) + x) = Some (core_pixel pad c x y)).
Proof.
  intros Hok Hw Hh Hroom Hx Hy n. unfold lorieSetCursor. cbn [fmap option_fmap option_map].
  rewrite (proj2 (Z.leb_gt _ _) Hw), (proj2 (Z.leb_gt _ _) Hh). cbn [orb].
  pose proof (ok_size _ _ Hok) as [Hw0 Hh0]. assert (n <= cursor_room)%nat as Hn by (unfold cursor_room; nia).
  rewrite convert_cursor_spec; [|done|rewrite Hroom; unfold cursor_room; nia]. cbind. fold n.
  eexists. split; [reflexivity|]. cbn [lorieMoveCursor cur_x cur_y cur_xhot cur_yhot cur_width cur_height cur_updated cur_moved cur_bits].
  rewrite !wrap_u_small by done.
  assert (forall i, (i < n)%nat -> (map (cursor_pixel pad c) (seq 0 n) ++ drop n (cur_bits s)) !! i = Some (cursor_pixel pad c i)) as Hpx.
  { intros i Hi. rewrite lookup_app_l by (by rewrite length_map, length_seq).
    change (map (cursor_pixel pad c) (seq 0 n)) with (cursor_pixel pad c <$> seq 0 n).
    by rewrite list_lookup_fmap, lookup_seq_lt by done. }
  split_and!; try done.
  - rewrite length_app, length_map, length_seq, length_drop. lia.
  - intros i Hi. rewrite lookup_app_r by (by rewrite length_map, length_seq).
    rewrite length_map, length_seq, lookup_drop. f_equal. lia.
  - intros px i p Ha Hi Hp. apply lookup_lt_Some in Hi as Hlt. pose proof (ok_argb _ _ Hok px Ha).
    exists (swap_rb p). rewrite Hpx by lia. split; [|by apply swap_rb_bytes].
    unfold cursor_pixel. by rewrite Ha, (nth_lookup_Some _ _ _ p).
  - intros Ha Hc x y Hx' Hy'. rewrite Hpx by nia. by rewrite cursor_pixel_core by (done || lia).
Qed.

(** For a cursor of 512 or more pixels in a direction, the pixels of the
    default cursor are published under the size of the oversized one, so the
    block claims to hold a picture it does not hold, larger than its room when
    both sizes are that large. *)
Theorem oversized_cursor_size pad root c x0 y0 s :
  cursor_ok pad root -> bits_width (bits root) * bits_height (bits root) <= Z.of_nat cursor_room ->
  512 < bits_width (bits c) -> 512 <= bits_height (bits c) -> length (cur_bits s) = cursor_room ->
  exists s', lorieSetCursor pad root (Some c) x0 y0 s = Ret s'
    /\ cur_width s' = bits_width (bits c) /\ cur_height s' = bits_height (bits c)
    /\ Z.of_nat (length (cur_bits s')) < cur_width s' * cur_height s'
    /\ take (Z.to_nat (bits_width (bits root) * bits_height (bits root))) (cur_bits s')
       = map (cursor_pixel pad root) (seq 0 (Z.to_nat (bits_width (bits root) * bits_height (bits root)))).
Proof.
  intros Hok Hfit Hw Hh Hroom. unfold lorieSetCursor. cbn [fmap option_fmap option_map].
  rewrite (proj2 (Z.leb_le 512 (bits_width (bits c)))) by lia. cbn [orb].
  rewrite convert_cursor_spec by (done || lia). cbind.
  eexists. split; [reflexivity|]. cbn. split_and!; [done..| |].
  - rewrite length_app, length_map, length_seq, length_drop, Hroom.
    unfold cursor_room in *. nia.
  - rewrite take_app_le by (rewrite length_map, length_seq; done).
    by rewrite take_ge by (rewrite length_map, length_seq; done).
Qed.

(** The three squares of the test pattern lie inside the root window for
    every positive size: no pixel is written outside its buffer. *)
Theorem test_pattern_in_bounds w h strd pixels :
  0 < w -> 0 < h -> w <= strd -> Z.of_nat (length pixels) = strd * h ->
  exists px, drawSquares w h strd pixels = Ret px /\ length px = length pixels.
Proof.
  intros Hw Hh Hs Hl. unfold drawSquares. set (l := Z.min w h / 4). set (x := (w - l) / 2).
  set (y := (h - l) / 2).
  assert (0 <= l /\ l / 3 <= x /\ l / 3 <= y /\ x + l + l / 3 <= w /\ y + l + l / 3 <= h /\ 0 <= l / 3)
    as (? & ? & ? & ? & ? & ?) by (subst l x y; Z.div_mod_to_equations; lia).
  assert (forall x y color px, length px = length pixels -> 0 <= x -> 0 <= y -> x + l <= w -> y + l <= h ->
    exists px', drawSquare x y l color strd px = Ret px' /\ length px' = length pixels) as Hd.
  { intros x' y' color px Hpx ? ? ? ?. destruct (drawSquare_ok x' y' l color strd px) as (px' & E & Hl' & _).
    - rewrite Hpx, Hl. by eapply (square_in_picture _ _ _ _ w h).
    - exists px'. split; [done|]. congruence. }
  destruct (Hd (x - l / 3) (y - l / 3) 0x00ff0000 pixels) as (p1 & E1 & L1); [done|lia..|].
  destruct (Hd x y 0x0000ff00 p1) as (p2 & E2 & L2); [done|lia..|].
  destruct (Hd (x + l / 3) (y + l / 3) 0x000000ff p2) as (p3 & E3 & L3); [done|lia..|].
  rewrite E1. cbind. rewrite E2. cbind. by exists p3.
Qed.

(** ** Witnesses *)
Definition byte_pad (w : Z) : Z := (w + 31) / 32 * 4.
Definition blank_shared : shared_cursor := mk_shared 0 0 0 0 0 0 (zeros cursor_room) false false.
Definition arrow : cursor :=
  mk_cursor (mk_bits None [1; 0; 0; 0; 3; 0; 0; 0] [3; 0; 0; 0; 3; 0; 0; 0] 2 2 0 0)
    0xffff 0 0 0 0 0xffff.
Definition argb_dot : cursor := mk_cursor (mk_bits (Some [0xff112233]) [] [] 1 1 0 0) 0 0 0 0 0 0.
Definition huge : cursor := mk_cursor (mk_bits (Some []) [] [] 600 600 5 6) 0 0 0 0 0 0.

Lemma arrow_ok : cursor_ok byte_pad arrow.
Proof. split; try done; cbn; lia. Qed.

Lemma argb_dot_ok : cursor_ok byte_pad argb_dot.
Proof. split; try done; cbn; try lia. by intros px [= <-]. Qed.

Lemma cursor_published_witness :
  (exists s' q, lorieSetCursor byte_pad arrow (Some argb_dot) 10 20 blank_shared = Ret s'
     /\ cur_x s' = 10 /\ cur_bits s' !! 0%nat = Some q /\ pixel_byte 0 q = 0x11)
  /\ exists s', lorieSetCursor byte_pad arrow (Some arrow) 10 20 blank_shared = Ret s'
     /\ cur_bits s' !! 0%nat = Some 0xff0000ff /\ cur_bits s' !! 1%nat = Some 0xffff0000.
Proof.
  split.
  - destruct (cursor_published byte_pad arrow argb_dot 10 20 blank_shared argb_dot_ok)
      as (s' & E & H1 & _ & _ & _ & _ & _ & _ & _ & _ & _ & H2 & _); [cbn; lia|cbn; lia|apply length_zeros|lia|lia|].
    destruct (H2 [0xff112233] 0%nat 0xff112233 eq_refl eq_refl ltac:(lia)) as (q & Hq & _ & Hb & _).
    exists s', q. split; [exact E|]. split; [exact H1|]. split; [exact Hq|exact Hb].
  - destruct (cursor_published byte_pad arrow arrow 10 20 blank_shared arrow_ok)
      as (s' & E & _ & _ & _ & _ & _ & _ & _ & _ & _ & _ & _ & H2); [cbn; lia|cbn; lia|apply length_zeros|lia|lia|].
    assert (colours_16bit arrow) as Hc by (repeat constructor; cbn; lia).
    exists s'. split; [exact E|]. split.
    + exact (H2 eq_refl Hc 0 0 ltac:(cbn; lia) ltac:(cbn; lia)).
    + exact (H2 eq_refl Hc 1 0 ltac:(cbn; lia) ltac:(cbn; lia)).
Defined.

Lemma oversized_cursor_size_witness :
  exists s', lorieSetCursor byte_pad arrow (Some huge) 0 0 blank_shared = Ret s'
    /\ cur_width s' = 600 /\ Z.of_nat (length (cur_bits s')) < cur_width s' * cur_height s'.
Proof.
  destruct (oversized_cursor_size byte_pad arrow huge 0 0 blank_shared arrow_ok)
    as (s' & E & H1 & _ & H2 & _); [vm_compute; discriminate|cbn; lia|cbn; lia|apply length_zeros|].
  exists s'. split; [exact E|]. split; [exact H1|exact H2].
Defined.

Lemma test_pattern_in_bounds_witness :
  exists px, drawSquares 12 8 12 (zeros 96) = Ret px /\ length px = 96%nat.
Proof. exact (test_pattern_in_bounds 12 8 12 (zeros 96) ltac:(lia) ltac:(lia) ltac:(lia) eq_refl). Defined.
