(* ===== verification/Viewport.v ===== *)
(** * Geometry of a drawn frame (renderer.c 163-187, 530-557, 630-696, 895-943)

    Single-precision arithmetic is that of [SpecFloat] with the parameters of
    binary32, one rounding per operation (no contraction into fused
    multiply-adds).  A conversion to [int] that C leaves undefined saturates, as
    the conversion instructions of the supported processors do. *)
From Stdlib Require Import SpecFloat.
From S2P Require Import Prelude Cursor.

(** ** binary32 *)
Definition float : Type := spec_float.
Definition fadd : float -> float -> float := SFadd 24 128.
Definition fsub : float -> float -> float := SFsub 24 128.
Definition fmul : float -> float -> float := SFmul 24 128.
Definition fdiv : float -> float -> float := SFdiv 24 128.
Definition of_int (z : Z) : float := binary_normalize 24 128 z 0 false.
Definition f0 : float := S754_zero false.
Definition half : float := S754_finite false 8388608 (-24).
(** 0.05f *)
Definition edge_band : float := S754_finite false 13421773 (-28).

Definition fminf (a b : float) : float :=
  match a, b with
  | S754_nan, _ => b
  | _, S754_nan => a
  | _, _ => if SFltb a b then a else b
  end.

Definition clamp_int (z : Z) : Z := Z.max (- 2 ^ 31) (Z.min (2 ^ 31 - 1) z).

(** [(int) f]: truncation. *)
Definition to_int (f : float) : Z :=
  match f with
  | S754_zero _ | S754_nan => 0
  | S754_infinity s => if s then - 2 ^ 31 else 2 ^ 31 - 1
  | S754_finite s mant e =>
      let a := if 0 <=? e then Z.pos mant * 2 ^ e else Z.pos mant / 2 ^ (- e) in
      clamp_int (if s then - a else a)
  end.

Arguments fadd : simpl never.
Arguments fsub : simpl never.
Arguments fmul : simpl never.
Arguments fdiv : simpl never.
Arguments of_int : simpl never.

(** ** Data *)
Record rect : Type := mk_rect { rx : Z; ry : Z; rw : Z; rh : Z }.
Record frect : Type := mk_frect { left : float; top : float; fwidth : float; fheight : float }.

Record viewport : Type := mk_viewport {
  view : rect;                        (** [viewportX] to [viewportH] *)
  expectedW : Z; expectedH : Z;
  zoomPercent : Z;
  zoomSourceLeft : float; zoomSourceTop : float;
  reported : rect; reportedSource : frect
}.

Definition minus1 : float := of_int (-1).
Definition no_rect : rect := mk_rect (-1) (-1) (-1) (-1).
Definition no_frect : frect := mk_frect minus1 minus1 minus1 minus1.

(** The initial values of renderer.c. *)
Definition viewport_init : viewport :=
  mk_viewport (mk_rect 0 0 0 0) 0 0 100 f0 f0 no_rect no_frect.

(** ** Settings made by the GUI thread *)
Definition rendererSetViewport (x y w h ew eh : Z) (v : viewport) : viewport :=
  mk_viewport (mk_rect x y w h) ew eh (zoomPercent v) (zoomSourceLeft v) (zoomSourceTop v)
    no_rect no_frect.

Definition rendererSetZoom (percent : Z) (v : viewport) : viewport :=
  let z := if percent <? 100 then 100 else if 400 <? percent then 400 else percent in
  mk_viewport (view v) (expectedW v) (expectedH v) z
    (if z =? 100 then f0 else zoomSourceLeft v) (if z =? 100 then f0 else zoomSourceTop v)
    no_rect no_frect.

Definition set_expected (w h : Z) (v : viewport) : viewport :=
  mk_viewport (view v) w h (zoomPercent v) (zoomSourceLeft v) (zoomSourceTop v) (reported v)
    (reportedSource v).

Definition set_zoom_source (l t : float) (v : viewport) : viewport :=
  mk_viewport (view v) (expectedW v) (expectedH v) (zoomPercent v) l t (reported v) (reportedSource v).

(** ** Where the frame is drawn *)

(** The factor one axis can grow by: the zoom, but no further than the surface. *)
Definition destination_scale (requested centre surface extent : float) : float :=
  let s := fminf requested (fdiv (fmul (of_int 2) (fminf centre (fsub surface centre))) extent) in
  if SFltb s (of_int 1) then of_int 1 else s.

Definition axis_centre (pos extent : Z) : float :=
  fadd (of_int pos) (fdiv (of_int extent) (of_int 2)).

Definition requested_scale (v : viewport) : float := fdiv (of_int (zoomPercent v)) (of_int 100).

(** The rectangle drawn to and the scales. *)
Definition destination (surfaceW surfaceH : Z) (v : viewport) : rect * float * float :=
  let r := view v in
  if (100 <? zoomPercent v) && (0 <? rw r) && (0 <? rh r) then
    let cx := axis_centre (rx r) (rw r) in
    let cy := axis_centre (ry r) (rh r) in
    let sx := destination_scale (requested_scale v) cx (of_int surfaceW) (of_int (rw r)) in
    let sy := destination_scale (requested_scale v) cy (of_int surfaceH) (of_int (rh r)) in
    let w := to_int (fadd (fmul (of_int (rw r)) sx) half) in
    let h := to_int (fadd (fmul (of_int (rh r)) sy) half) in
    (mk_rect (to_int (fadd (fsub cx (fdiv (of_int w) (of_int 2))) half))
       (to_int (fadd (fsub cy (fdiv (of_int h) (of_int 2))) half)) w h, sx, sy)
  else (r, of_int 1, of_int 1).

(** One axis of the zoomed source: follow the cursor out of the central 90%,
    then stay inside the screen. *)
Definition pan (c src extent : float) : float :=
  let edge := fmul extent edge_band in
  if SFltb c (fadd src edge) then fsub c edge
  else if SFltb (fsub (fadd src extent) edge) c then fadd (fsub c extent) edge
  else src.

Definition clamp_source (src extent expected : float) : float :=
  if SFltb src f0 then f0
  else if SFltb expected (fadd src extent) then fsub expected extent
  else src.

(** The part of the screen that is shown, its logical size, and the settings
    with the new position. *)
Definition source_region (dw dh : Z) (sx sy : float) (c : shared_cursor) (v : viewport)
  : frect * frect * viewport :=
  if 100 <? zoomPercent v then
    let w := fdiv (fmul (of_int (expectedW v)) sx) (requested_scale v) in
    let h := fdiv (fmul (of_int (expectedH v)) sy) (requested_scale v) in
    let l := clamp_source (pan (of_int (cur_x c)) (zoomSourceLeft v) w) w (of_int (expectedW v)) in
    let t := clamp_source (pan (of_int (cur_y c)) (zoomSourceTop v) h) h (of_int (expectedH v)) in
    (mk_frect l t w h, mk_frect l t w h, set_zoom_source l t v)
  else
    (mk_frect f0 f0 (of_int dw) (of_int dh), mk_frect f0 f0 (of_int (expectedW v)) (of_int (expectedH v)),
     set_zoom_source f0 f0 v).

(** ** Reporting to Java *)
Definition rect_eqb (a b : rect) : bool :=
  (rx a =? rx b) && (ry a =? ry b) && (rw a =? rw b) && (rh a =? rh b).
Definition frect_eqb (a b : frect) : bool :=
  SFeqb (left a) (left b) && SFeqb (top a) (top b) && SFeqb (fwidth a) (fwidth b)
  && SFeqb (fheight a) (fheight b).

(** [ready]: are the JNI references there?  [throws]: does the Java method
    throw?  The first component says whether it was called. *)
Definition reportRendererViewport (ready throws : bool) (d : rect) (s : frect) (v : viewport)
  : bool * viewport :=
  if negb ready then (false, v)
  else if rect_eqb (reported v) d && frect_eqb (reportedSource v) s then (false, v)
  else if throws then (true, v)
  else (true, mk_viewport (view v) (expectedW v) (expectedH v) (zoomPercent v) (zoomSourceLeft v)
                (zoomSourceTop v) d s).

(** ** Quads *)

(** Corners in device coordinates and in texture coordinates. *)
Record quad : Type := mk_quad {
  x0 : float; y0 : float; x1 : float; y1 : float;
  u0 : float; v0 : float; u1 : float; v1 : float;
  flip : bool
}.

Definition drawRegion (q : quad) : list float * bool :=
  ([x0 q; SFopp (y0 q); u0 q; v0 q;
    x1 q; SFopp (y0 q); u1 q; v0 q;
    x0 q; SFopp (y1 q); u0 q; v1 q;
    x1 q; SFopp (y1 q); u1 q; v1 q], flip q).

(** The root window, cut to the source region; a shared buffer has [stride]
    texels per line. *)
Definition root_quad (dw dh strd : Z) (shared_fd rgba : bool) (s : frect) : quad :=
  let xfactor := if shared_fd then fdiv (of_int dw) (of_int strd) else of_int 1 in
  mk_quad (of_int (-1)) (of_int (-1)) (of_int 1) (of_int 1)
    (fmul (fdiv (left s) (of_int dw)) xfactor) (fdiv (top s) (of_int dh))
    (fmul (fdiv (fadd (left s) (fwidth s)) (of_int dw)) xfactor)
    (fdiv (fadd (top s) (fheight s)) (of_int dh)) rgba.

Definition cursor_axis (pos src hot extent : float) : float :=
  fsub (fdiv (fmul (of_int 2) (fsub (fsub pos src) hot)) extent) (of_int 1).

(** Nothing is drawn for an empty cursor. *)
Definition drawCursor (c : shared_cursor) (s : frect) : option quad :=
  if (cur_width c =? 0) || (cur_height c =? 0) then None
  else
    let x := cursor_axis (of_int (cur_x c)) (left s) (of_int (cur_xhot c)) (fwidth s) in
    let y := cursor_axis (of_int (cur_y c)) (top s) (of_int (cur_yhot c)) (fheight s) in
    let w := fdiv (fmul (of_int 2) (of_int (cur_width c))) (fwidth s) in
    let h := fdiv (fmul (of_int 2) (of_int (cur_height c))) (fheight s) in
    Some (mk_quad x y (fadd x w) (fadd y h) f0 f0 (of_int 1) (of_int 1) false).

(** A frame: where it goes, what it shows, and the quads drawn. *)
Record frame : Type := mk_frame {
  frame_dest : rect;
  frame_gl_y : Z;          (** the bottom edge, as GL counts *)
  frame_source : frect;
  frame_root : quad;
  frame_cursor : option quad;
  frame_reported : bool
}.

Definition lay_out (surfaceW surfaceH dw dh strd : Z) (shared_fd rgba ready throws : bool)
  (c : shared_cursor) (v : viewport) : frame * viewport :=
  let '(d, sx, sy) := destination surfaceW surfaceH v in
  let '(s, logical, v) := source_region dw dh sx sy c v in
  let (called, v) := reportRendererViewport ready throws d logical v in
  (mk_frame d (i32 (surfaceH - ry d - rh d)) s (root_quad dw dh strd shared_fd rgba s)
     (drawCursor c s) called, v).

Example zoom_example :
  let v := rendererSetZoom 200 (rendererSetViewport 0 0 800 600 800 600 viewport_init) in
  let c := mk_shared 700 300 0 0 0 0 [] false false in
  let f := (lay_out 800 600 800 600 800 false false true false c v).1 in
  frame_dest f = mk_rect 0 0 800 600
  /\ to_int (left (frame_source f)) = 320 /\ to_int (fwidth (frame_source f)) = 400.
Proof. vm_compute. auto. Qed.

(** ** Properties *)

(** Does the cursor stay clear of the edge bands of the shown part? *)
Definition in_central_band (c src extent : float) : bool :=
  let edge := fmul extent edge_band in
  negb (SFltb c (fadd src edge)) && negb (SFltb (fsub (fadd src extent) edge) c).

(** Does the shown part lie on the screen? *)
Definition on_screen (src extent expected : float) : bool :=
  negb (SFltb src f0) && negb (SFltb expected (fadd src extent)).

Lemma pan_stable c src extent expected :
  in_central_band c src extent = true -> on_screen src extent expected = true ->
  clamp_source (pan c src extent) extent expected = src.
Proof.
  unfold in_central_band, on_screen, clamp_source, pan. intros Hc Hs.
  apply andb_true_iff in Hc as [Hc1%negb_true_iff Hc2%negb_true_iff].
  apply andb_true_iff in Hs as [Hs1%negb_true_iff Hs2%negb_true_iff].
  by rewrite Hc1, Hc2, Hs1, Hs2.
Qed.

Lemma clamp_source_cases src extent expected :
  let l := clamp_source src extent expected in
  l = f0 \/ l = fsub expected extent \/ on_screen l extent expected = true.
Proof.
  unfold clamp_source, on_screen. cbn. destruct (SFltb src f0) eqn:E1; [by left|].
  destruct (SFltb expected (fadd src extent)) eqn:E2; [by right; left|].
  right. right. by rewrite E1, E2.
Qed.

Lemma rect_eqb_refl r : rect_eqb r r = true.
Proof. unfold rect_eqb. by rewrite !Z.eqb_refl. Qed.

(** A report changes nothing but what was reported. *)
Lemma report_keeps ready throws d s v called v1 :
  reportRendererViewport ready throws d s v = (called, v1) ->
  view v1 = view v /\ expectedW v1 = expectedW v /\ expectedH v1 = expectedH v
  /\ zoomPercent v1 = zoomPercent v /\ zoomSourceLeft v1 = zoomSourceLeft v
  /\ zoomSourceTop v1 = zoomSourceTop v.
Proof.
  unfold reportRendererViewport. destruct (negb ready); [by intros [= _ <-]|].
  destruct (_ && _); [by intros [= _ <-]|]. destruct throws; by intros [= _ <-].
Qed.

(** What was reported matches what was last laid out. *)
Lemma report_twice ready throws d s v v1 called :
  reportRendererViewport ready false d s v = (called, v1) -> frect_eqb s s = true ->
  (reportRendererViewport ready throws d s v1).1 = false.
Proof.
  unfold reportRendererViewport. intros E Hs. destruct ready; cbn [negb] in *; [|done].
  destruct (rect_eqb (reported v) d && frect_eqb (reportedSource v) s) eqn:Ea; injection E as <- <-.
  - by rewrite Ea.
  - cbn. by rewrite rect_eqb_refl, Hs.
Qed.

(** What a frame shows. Without zoom the whole buffer goes to the viewport,
    the zoom position is reset, and drawing again does not report the layout
    to Java again. With zoom, each coordinate of the shown part is at the
    screen's edge or lies on the screen, is kept for the next frame, and does
    not move as long as the cursor stays out of the bands at the edges. *)
Theorem viewport_layout surfaceW surfaceH dw dh strd shared_fd rgba ready c v :
  let '(f, v') := lay_out surfaceW surfaceH dw dh strd shared_fd rgba ready false c v in
  (zoomPercent v <= 100 ->
     frame_dest f = view v /\ frame_source f = mk_frect f0 f0 (of_int dw) (of_int dh)
     /\ zoomSourceLeft v' = f0 /\ zoomSourceTop v' = f0
     /\ let screen := mk_frect f0 f0 (of_int (expectedW v)) (of_int (expectedH v)) in
        (frect_eqb screen screen = true ->
         frame_reported (lay_out surfaceW surfaceH dw dh strd shared_fd rgba ready false c v').1 = false))
  /\ (100 < zoomPercent v ->
     let s := frame_source f in
     left s = zoomSourceLeft v' /\ top s = zoomSourceTop v'
     /\ (left s = f0 \/ left s = fsub (of_int (expectedW v)) (fwidth s)
         \/ on_screen (left s) (fwidth s) (of_int (expectedW v)) = true)
     /\ (top s = f0 \/ top s = fsub (of_int (expectedH v)) (fheight s)
         \/ on_screen (top s) (fheight s) (of_int (expectedH v)) = true)
     /\ (in_central_band (of_int (cur_x c)) (zoomSourceLeft v) (fwidth s) = true ->
         on_screen (zoomSourceLeft v) (fwidth s) (of_int (expectedW v)) = true ->
         left s = zoomSourceLeft v)
     /\ (in_central_band (of_int (cur_y c)) (zoomSourceTop v) (fheight s) = true ->
         on_screen (zoomSourceTop v) (fheight s) (of_int (expectedH v)) = true ->
         top s = zoomSourceTop v)).
Proof.
  destruct (Z.leb_spec (zoomPercent v) 100) as [Hz|Hz].
  - assert ((100 <? zoomPercent v) = false) as Hz' by (apply Z.ltb_ge; lia).
    unfold lay_out at 1, destination, source_region. rewrite Hz'. cbn [andb]. cbv beta iota.
    destruct (reportRendererViewport _ _ _ _ _) as [called v1] eqn:E.
    destruct (report_keeps _ _ _ _ _ _ _ E) as (E1 & E2 & E3 & E4 & E5 & E6).
    cbn [set_zoom_source view expectedW expectedH zoomPercent zoomSourceLeft zoomSourceTop] in *.
    split; [intros _|lia]. split_and!; try done. intros Hs.
    unfold lay_out, destination, source_region. rewrite E4, Hz', E1, E2, E3. cbn [andb].
    assert (set_zoom_source f0 f0 v1 = v1) as -> by (unfold set_zoom_source; rewrite <- E5 at 1; rewrite <- E6; by destruct v1).
    pose proof (report_twice ready false _ _ _ _ _ E Hs) as Ht.
    destruct (reportRendererViewport ready false _ _ v1) as [called' v2]. exact Ht.
  - assert ((100 <? zoomPercent v) = true) as Hz' by (apply Z.ltb_lt; lia).
    unfold lay_out. destruct (destination surfaceW surfaceH v) as [[d sx] sy].
    unfold source_region. rewrite Hz'.
    destruct (reportRendererViewport _ _ _ _ _) as [called v1] eqn:E.
    destruct (report_keeps _ _ _ _ _ _ _ E) as (_ & _ & _ & _ & E5 & E6).
    split; [lia|intros _]. cbn [frame_source left top fwidth fheight]. rewrite E5, E6.
    split_and!; try done; try (by apply clamp_source_cases); by apply pan_stable.
Qed.

Lemma viewport_layout_witness :
  let c := mk_shared 200 300 0 0 0 0 [] false false in
  let v := rendererSetZoom 200 (rendererSetViewport 0 0 800 600 800 600 viewport_init) in
  let f := (lay_out 800 600 800 600 800 false false true false c v).1 in
  left (frame_source f) = f0 /\ on_screen (left (frame_source f)) (fwidth (frame_source f)) (of_int 800) = true.
Proof.
  intros c v f.
  pose proof (viewport_layout 800 600 800 600 800 false false true c v) as H.
  subst f. destruct (lay_out 800 600 800 600 800 false false true false c v) as [f v'] eqn:E.
  destruct H as [_ H]. destruct (H eq_refl) as (_ & _ & _ & _ & Hl & _).
  vm_compute in E. injection E as <- _. cbn [fst frame_source left] in *.
  split; [apply Hl; reflexivity|reflexivity].
Defined.
