(* ===== verification/Renderer.v ===== *)
(** * The renderer (renderer.c)

    The GUI thread hands the renderer thread a shared server state, a window
    and buffers; the renderer thread attaches the buffers to GL, draws the root
    window and destroys what was removed.  [run] gives the effect of one
    [action], [enabled] says when it can happen: what needs [stateLock] cannot
    happen while the renderer thread holds it, and a GUI thread that waits for
    the renderer does nothing else.  The renderer thread is cut at the points
    where it takes or gives back [stateLock] or [bufferLock].

    This is the widest system: a thread that waits may go on at any time,
    signalled or not, and the call to the proxy thread, in which a state is taken
    over, returns at once.  What is shown of every state here holds in the systems
    that wait for signals: [Display] and [Relay] add those of the server and of
    the proxy, with its wait, and [Handover] those between the GUI thread and
    the renderer thread. *)
From S2P Require Import Prelude Buffer Cursor GlBuffers Viewport.

(** ** Data *)
Record server_state : Type := mk_server {
  rootWindowTextureID : Z;
  drawRequested : bool; surfaceAvailable : bool; waitForNextFrame : bool;
  renderedFrames : Z;
  cursor : shared_cursor
}.

(** A pointer to a shared state is its address, 0 is NULL; [mapped] holds the
    ones that are mapped. *)
Record shared_states : Type := mk_states {
  mapped : gmap Z server_state;
  state : Z; pendingState : Z; stateChanged : bool
}.

(** [window_refs] are the references to windows this file holds, one entry each. *)
Record windows : Type := mk_windows {
  win : Z; sfc : Z; pendingWin : Z; windowChanged : bool;
  window_refs : list Z
}.

(** Where the renderer thread is: about to test whether it must wait; waiting;
    about to take over changes; about to attach buffers; about to look for
    the root window; drawing the buffer at an address; about to destroy. *)
Inductive renderer_pc : Type := PTest | PWait | PChanges | PAttach | PFind | PDraw (p : Z) | PRelease.
#[export] Instance renderer_pc_eq_dec : EqDecision renderer_pc.
Proof. solve_decision. Defined.

Inductive gui_pc : Type := GReady | GWaitState | GWaitWindow.
#[export] Instance gui_pc_eq_dec : EqDecision gui_pc.
Proof. solve_decision. Defined.

Record renderer : Type := mk_renderer {
  bufs : store;
  wins : windows;
  shared : shared_states;
  vp : viewport;
  pc : renderer_pc;
  gui : gui_pc;
  waitingForBuffers : bool;
  lastRequestedBufferId : Z;
  cursor_texture : list Z;           (** what was last uploaded *)
  frames : list (Z * frame)          (** drawn, most recent first, with the buffer's id *)
}.

(** What EGL, the window system and JNI answer. *)
Record platform : Type := mk_platform {
  gl_calls : gl_platform;
  defaultWin : Z; defaultSfc : Z;
  eglCreateWindowSurface : Z -> Z;            (** 0 is EGL_NO_SURFACE *)
  eglMakeCurrent : Z -> bool;
  eglDestroySurface : Z -> bool;
  ANativeWindow_getWidth : Z -> Z;
  ANativeWindow_getHeight : Z -> Z;
  jni_ready : bool; jni_throws : bool
}.

(** ** Setters *)
Definition with_bufs b r := mk_renderer b (wins r) (shared r) (vp r) (pc r) (gui r)
  (waitingForBuffers r) (lastRequestedBufferId r) (cursor_texture r) (frames r).
Definition with_wins w r := mk_renderer (bufs r) w (shared r) (vp r) (pc r) (gui r)
  (waitingForBuffers r) (lastRequestedBufferId r) (cursor_texture r) (frames r).
Definition with_shared s r := mk_renderer (bufs r) (wins r) s (vp r) (pc r) (gui r)
  (waitingForBuffers r) (lastRequestedBufferId r) (cursor_texture r) (frames r).
Definition with_vp v r := mk_renderer (bufs r) (wins r) (shared r) v (pc r) (gui r)
  (waitingForBuffers r) (lastRequestedBufferId r) (cursor_texture r) (frames r).
Definition with_pc p r := mk_renderer (bufs r) (wins r) (shared r) (vp r) p (gui r)
  (waitingForBuffers r) (lastRequestedBufferId r) (cursor_texture r) (frames r).
Definition with_gui g r := mk_renderer (bufs r) (wins r) (shared r) (vp r) (pc r) g
  (waitingForBuffers r) (lastRequestedBufferId r) (cursor_texture r) (frames r).
Definition with_waiting b r := mk_renderer (bufs r) (wins r) (shared r) (vp r) (pc r) (gui r)
  b (lastRequestedBufferId r) (cursor_texture r) (frames r).
Definition with_last i r := mk_renderer (bufs r) (wins r) (shared r) (vp r) (pc r) (gui r)
  (waitingForBuffers r) i (cursor_texture r) (frames r).

(** ** Access through [state] *)
Definition deref_state (r : renderer) : outcome server_state :=
  match mapped (shared r) !! state (shared r) with Some s => Ret s | None => Fault NullDeref end.

Definition store_at (p : Z) (s : server_state) (r : renderer) : renderer :=
  with_shared (mk_states (<[p := s]> (mapped (shared r))) (state (shared r))
                 (pendingState (shared r)) (stateChanged (shared r))) r.

(** [if (state) f] *)
Definition when_state (f : server_state -> server_state) (r : renderer) : outcome renderer :=
  if state (shared r) =? 0 then Ret r
  else s ← deref_state r; Ret (store_at (state (shared r)) (f s) r).

Definition set_drawRequested d s := mk_server (rootWindowTextureID s) d (surfaceAvailable s)
  (waitForNextFrame s) (renderedFrames s) (cursor s).
Definition set_surfaceAvailable a s := mk_server (rootWindowTextureID s) (drawRequested s) a
  (waitForNextFrame s) (renderedFrames s) (cursor s).
Definition set_cursor_flags (updated moved : bool) (c : shared_cursor) : shared_cursor :=
  mk_shared (cur_x c) (cur_y c) (cur_xhot c) (cur_yhot c) (cur_width c) (cur_height c)
    (cur_bits c) updated moved.

(** ** The GUI thread *)
Definition rendererSetSharedState (newState : Z) (r : renderer) : renderer :=
  with_gui GWaitState
    (with_shared (mk_states (mapped (shared r)) (state (shared r)) newState true) r).

Definition release_window (w : Z) (ws : windows) : outcome windows :=
  match list_find (fun q => q = w) (window_refs ws) with
  | Some (i, _) => Ret (mk_windows (win ws) (sfc ws) (pendingWin ws) (windowChanged ws)
                          (delete i (window_refs ws)))
  | None => Fault NullDeref
  end.

(** [ANativeWindow_fromSurface] returns a window with a reference for the
    caller; [newWin] is its result, 0 when there is no surface. *)
Definition rendererSetWindow (newWin : Z) (r : renderer) : outcome renderer :=
  let ws := wins r in
  let ws := mk_windows (win ws) (sfc ws) (pendingWin ws) (windowChanged ws)
              (if newWin =? 0 then window_refs ws else newWin :: newWin :: window_refs ws) in
  if negb (newWin =? 0) && (pendingWin ws =? newWin) then
    ws ← release_window newWin ws; Ret (with_wins ws r)
  else
    ws ← (if pendingWin ws =? 0 then Ret ws else release_window (pendingWin ws) ws);
    Ret (with_gui GWaitWindow
           (with_vp (set_expected 0 0 (vp r))
              (with_wins (mk_windows (win ws) (sfc ws) newWin true (window_refs ws)) r))).

Definition setViewport (x y w h ew eh : Z) (r : renderer) : outcome renderer :=
  when_state (set_drawRequested true) (with_vp (rendererSetViewport x y w h ew eh (vp r)) r).

Definition setZoom (percent : Z) (r : renderer) : outcome renderer :=
  when_state (set_drawRequested true) (with_vp (rendererSetZoom percent (vp r)) r).

(** ** The renderer thread *)
Section renderer_thread.
Context (e : platform).

(** An EGL error ends the function early. *)
Definition releaseWinAndSurface (ws : windows) : outcome windows :=
  let has := negb (sfc ws =? 0) && negb (sfc ws =? defaultSfc e) in
  if has && (negb (eglMakeCurrent e (defaultSfc e)) || negb (eglDestroySurface e (sfc ws)))
  then Ret ws
  else
    let ws := if has then mk_windows (win ws) (defaultSfc e) (pendingWin ws) (windowChanged ws)
                            (window_refs ws) else ws in
    if negb (win ws =? 0) && negb (win ws =? defaultWin e) then
      ws' ← release_window (win ws) ws;
      Ret (mk_windows (defaultWin e) (sfc ws') (pendingWin ws') (windowChanged ws') (window_refs ws'))
    else Ret ws.

(** The same for [pendingWin] without a surface. *)
Definition releasePendingWin (ws : windows) : outcome windows :=
  if negb (pendingWin ws =? 0) && negb (pendingWin ws =? defaultWin e) then
    ws ← release_window (pendingWin ws) ws;
    Ret (mk_windows (win ws) (sfc ws) (defaultWin e) (windowChanged ws) (window_refs ws))
  else Ret ws.

Definition new_surface (available : bool) (s : server_state) : server_state :=
  mk_server (rootWindowTextureID s) available available (waitForNextFrame s) (renderedFrames s)
    (set_cursor_flags available (cur_moved (cursor s)) (cursor s)).

Definition rendererRefreshContext (r : renderer) : outcome renderer :=
  let pending := pendingWin (wins r) in
  let invalid := negb (pending =? 0)
    && ((ANativeWindow_getWidth e pending <=? 0) || (ANativeWindow_getHeight e pending <=? 0)) in
  ws ← releaseWinAndSurface (wins r);
  ws ← (if invalid then releasePendingWin ws else Ret ws);
  let ws := mk_windows (pendingWin ws) (sfc ws) 0 false (window_refs ws) in
  if win ws =? 0 then
    when_state (set_surfaceAvailable false)
      (with_wins (mk_windows (defaultWin e) (sfc ws) 0 false (window_refs ws)) r)
  else
    let surface := eglCreateWindowSurface e (win ws) in
    let r := with_wins (mk_windows (win ws) surface 0 false (window_refs ws)) r in
    if surface =? 0 then Ret r
    else if negb (eglMakeCurrent e surface) then when_state (set_surfaceAvailable false) r
    else when_state (new_surface (negb (win ws =? defaultWin e))) r.

(** The result says whether to wait. *)
Definition rendererShouldWait (r : renderer) : outcome (bool * renderer) :=
  let buffersChanged := negb (bool_decide (addedBuffers (bufs r) = []))
                        || negb (bool_decide (removedBuffers (bufs r) = [])) in
  if stateChanged (shared r) || windowChanged (wins r) || buffersChanged then Ret (false, r)
  else if state (shared r) =? 0 then Ret (true, r)
  else
    s ← deref_state r;
    let r := if lastRequestedBufferId r =? rootWindowTextureID s then r else with_waiting false r in
    let r := with_last (rootWindowTextureID s) r in
    if negb (surfaceAvailable s) || waitForNextFrame s || waitingForBuffers r then Ret (true, r)
    else Ret (negb (drawRequested s || cur_moved (cursor s) || cur_updated (cursor s)), r).

(** [if (stateChanged) ...]: the old state is unmapped. *)
Definition take_state (r : renderer) : outcome renderer :=
  if stateChanged (shared r) then
    let sh := shared r in
    let old := if negb (state sh =? 0) && negb (pendingState sh =? state sh) then state sh else 0 in
    let r := with_waiting false
               (with_shared (mk_states (mapped sh) (pendingState sh) 0 false) r) in
    r ← when_state (set_surfaceAvailable (negb (win (wins r) =? defaultWin e))) r;
    Ret (if old =? 0 then r
         else with_shared (mk_states (delete old (mapped (shared r))) (state (shared r))
                             (pendingState (shared r)) (stateChanged (shared r))) r)
  else Ret r.

Definition take_changes (r : renderer) : outcome renderer :=
  r ← take_state r;
  if windowChanged (wins r) then rendererRefreshContext r else Ret r.

Definition attach_pending (r : renderer) : outcome renderer :=
  b ← attach_all (gl_calls e) (bufs r);
  Ret (with_bufs b (if bool_decide (addedBuffers (bufs r) = []) then r else with_waiting false r)).

(** The buffer to draw: the root window's, even when it has just been removed. *)
Definition root_buffer (s : server_state) (b : store) : outcome (option Z) :=
  buf ← LorieBufferList_findById Buffers (rootWindowTextureID s) b;
  match buf with
  | Some p => Ret (Some p)
  | None => LorieBufferList_findById RemovedBuffers (rootWindowTextureID s) b
  end.

Definition wants_frame (s : server_state) : bool :=
  surfaceAvailable s && negb (waitForNextFrame s)
  && (drawRequested s || cur_moved (cursor s) || cur_updated (cursor s)).

(** The test before the redraw, and the first part of [rendererRedrawLocked]. *)
Definition find_root (r : renderer) : outcome renderer :=
  if state (shared r) =? 0 then Ret (with_pc PRelease r)
  else
    s ← deref_state r;
    if wants_frame s then
      buf ← root_buffer s (bufs r);
      match buf with
      | Some p => Ret (with_pc (PDraw p) r)
      | None => Ret (with_pc PRelease (with_waiting true r))
      end
    else Ret (with_pc PRelease r).

Definition expected_size (v : viewport) (d : LorieBuffer_Desc) : bool :=
  negb (expectedW v =? 0) && negb (expectedH v =? 0) && (height d =? expectedH v)
  && ((width d =? expectedW v - Z.rem (expectedW v) 8) || (width d =? expectedW v)).

(** [glTexImage2D] reads [width * height] pixels of the shared block. *)
Definition upload_cursor (c : shared_cursor) : outcome (list Z) :=
  let n := Z.to_nat (cur_width c * cur_height c) in
  if decide (n <= length (cur_bits c))%nat then Ret (take n (cur_bits c)) else Fault OutOfBounds.

(** The rest of [rendererRedrawLocked], with the buffer at [p]. *)
Definition draw_root (p : Z) (r : renderer) : outcome renderer :=
  b ← deref p (bufs r);
  s ← deref_state r;
  let d := desc b in
  if negb (expected_size (vp r) d) then Ret (with_pc PRelease r)
  else
    tex ← (if cur_updated (cursor s) then upload_cursor (cursor s) else Ret (cursor_texture r));
    let (f, v) := lay_out (ANativeWindow_getWidth e (win (wins r)))
                    (ANativeWindow_getHeight e (win (wins r))) (width d) (height d) (stride d)
                    (type d =? LORIEBUFFER_FD) (LorieBuffer_isRgba (Some b))
                    (jni_ready e) (jni_throws e) (cursor s) (vp r) in
    let s' := mk_server (rootWindowTextureID s) false (surfaceAvailable s) true
                (i32 (renderedFrames s + 1)) (set_cursor_flags false false (cursor s)) in
    let r := store_at (state (shared r)) s' r in
    Ret (mk_renderer (bufs r) (wins r) (shared r) v PRelease (gui r) (waitingForBuffers r)
           (lastRequestedBufferId r) tex ((desc_id d, f) :: frames r)).

Definition destroy_removed (r : renderer) : outcome renderer :=
  b ← release_removed (bufs r); Ret (with_pc PTest (with_bufs b r)).

(** One step of [rendererThread]. *)
Definition rendererThread (r : renderer) : outcome renderer :=
  match pc r with
  | PTest => '(wait, r) ← rendererShouldWait r; Ret (with_pc (if wait : bool then PWait else PChanges) r)
  | PWait => Ret (with_pc PTest r)
  | PChanges => r ← take_changes r; Ret (with_pc PAttach r)
  | PAttach => r ← attach_pending r; Ret (with_pc PFind r)
  | PFind => find_root r
  | PDraw p => draw_root p r
  | PRelease => destroy_removed r
  end.
End renderer_thread.

(** ** Steps *)
Inductive action : Type :=
  | AddBuffer (p : Z) (b : LorieBuffer)       (** a received buffer, at a new address *)
  | RemoveBuffer (bid : Z)
  | RemoveAllBuffers
  | SetSharedState (p : Z) (s : server_state) (** a new mapping, or NULL *)
  | SetWindow (w : Z)
  | GuiResumes                                (** what the GUI thread waits for has happened *)
  | SetViewport (x y w h ew eh : Z)
  | SetZoom (percent : Z)
  | ServerWrites (p : Z) (s : server_state)   (** the X server writes to a shared state *)
  | RendererStep.

Definition stateLock_free (r : renderer) : bool :=
  match pc r with PWait | PFind | PDraw _ | PRelease => true | PTest | PChanges | PAttach => false end.

Definition gui_ready (r : renderer) : bool := bool_decide (gui r = GReady).

(** The pixels of the cursor fit in the shared block (see [Cursor]). *)
Definition cursor_fits (s : server_state) : bool :=
  (Z.to_nat (cur_width (cursor s) * cur_height (cursor s)) <=? length (cur_bits (cursor s)))%nat.

Definition enabled (e : platform) (a : action) (r : renderer) : bool :=
  match a with
  | AddBuffer p b => gui_ready r && bool_decide (heap (bufs r) !! p = None)
      && (1 <=? refcount b) && (refcount b <? 2 ^ 15) && (texture b =? 0) && (image b =? 0)
  | RemoveBuffer _ | RemoveAllBuffers => gui_ready r
  | SetSharedState p s => gui_ready r && stateLock_free r
      && bool_decide (mapped (shared r) !! p = None) && cursor_fits s
  | SetWindow w => gui_ready r && stateLock_free r && negb (w =? defaultWin e)
  | GuiResumes => stateLock_free r &&
      match gui r with
      | GReady => false
      | GWaitState => negb (stateChanged (shared r))
      | GWaitWindow => negb (windowChanged (wins r))
      end
  | SetViewport _ _ _ _ _ _ | SetZoom _ => gui_ready r && stateLock_free r
  | ServerWrites p s => bool_decide (is_Some (mapped (shared r) !! p)) && cursor_fits s
  | RendererStep => true
  end.

Definition run (e : platform) (a : action) (r : renderer) : outcome renderer :=
  match a with
  | AddBuffer p b =>
      let s := bufs r in
      Ret (with_bufs (rendererAddBuffer p
             (mk_store (<[p := b]> (heap s)) (addedBuffers s) (buffers s) (removedBuffers s)
                (owned b ++ held s) (gl s))) r)
  | RemoveBuffer bid => b ← rendererRemoveBuffer bid (bufs r); Ret (with_bufs b r)
  | RemoveAllBuffers => b ← rendererRemoveAllBuffers (bufs r); Ret (with_bufs b r)
  | SetSharedState p s =>
      let r := if p =? 0 then r else store_at p s r in Ret (rendererSetSharedState p r)
  | SetWindow w => rendererSetWindow w r
  | GuiResumes => Ret (with_gui GReady r)
  | SetViewport x y w h ew eh => setViewport x y w h ew eh r
  | SetZoom percent => setZoom percent r
  | ServerWrites p s => Ret (store_at p s r)
  | RendererStep => rendererThread e r
  end.

(** The renderer thread after its initialisation; [rest] is what the process
    holds besides buffers. *)
Definition renderer_init (e : platform) (rest : list resource) : renderer :=
  mk_renderer (mk_store ∅ [] [] [] rest []) (mk_windows (defaultWin e) (defaultSfc e) 0 false [])
    (mk_states ∅ 0 0 false) viewport_init PTest GReady false 0 [] [].

Inductive reachable (e : platform) (rest : list resource) : renderer -> Prop :=
  | reachable_init : reachable e rest (renderer_init e rest)
  | reachable_step r a r' :
      reachable e rest r -> enabled e a r = true -> run e a r = Ret r' -> reachable e rest r'.

(** ** The invariant *)
Definition window_needed (e : platform) (w : Z) : list Z :=
  if negb (w =? 0) && negb (w =? defaultWin e) then [w] else [].
Definition windows_needed (e : platform) (ws : windows) : list Z :=
  window_needed e (win ws) ++ window_needed e (pendingWin ws).

Record states_ok (sh : shared_states) : Prop := {
  sk_mapped : forall p, is_Some (mapped sh !! p) <-> p <> 0 /\ (p = state sh \/ p = pendingState sh);
  sk_fits : forall p s, mapped sh !! p = Some s -> cursor_fits s = true;
  sk_pending : pendingState sh <> 0 -> stateChanged sh = true /\ pendingState sh <> state sh
}.

Record renderer_ok (e : platform) (rest : list resource) (r : renderer) : Prop := {
  rk_bufs : store_ok rest (bufs r);
  rk_states : states_ok (shared r);
  rk_windows : windows_needed e (wins r) ⊆+ window_refs (wins r);
  rk_pendingWin : pendingWin (wins r) <> 0 -> windowChanged (wins r) = true;
  rk_gui_state : stateChanged (shared r) = true -> gui r = GWaitState;
  rk_gui_window : windowChanged (wins r) = true -> gui r = GWaitWindow;
  rk_draw : forall p, pc r = PDraw p -> p ∈ attached (bufs r) /\ state (shared r) <> 0
}.

Lemma state_mapped r : states_ok (shared r) -> state (shared r) <> 0 ->
  exists s, mapped (shared r) !! state (shared r) = Some s /\ deref_state r = Ret s.
Proof.
  intros Hs H0. destruct (proj2 (sk_mapped _ Hs (state (shared r)))) as [s E]; [tauto|].
  exists s. unfold deref_state. by rewrite E.
Qed.

Lemma states_ok_store p s r :
  states_ok (shared r) -> is_Some (mapped (shared r) !! p) -> cursor_fits s = true ->
  states_ok (shared (store_at p s r)).
Proof.
  intros [Hm Hf Hp] Hs Hc. constructor; cbn; [|
    intros q s' [[<- <-]|[_ ?]]%lookup_insert_Some; [done|by eapply Hf]|done].
  intros q. rewrite lookup_insert_is_Some, <- Hm.
  destruct (decide (p = q)) as [<-|]; naive_solver.
Qed.

(** What [when_state] writes keeps the cursor. *)
Lemma when_state_ok f r :
  states_ok (shared r) -> (forall s, cursor_fits s = true -> cursor_fits (f s) = true) ->
  exists r', when_state f r = Ret r' /\ states_ok (shared r')
    /\ r' = with_shared (shared r') r /\ state (shared r') = state (shared r)
    /\ pendingState (shared r') = pendingState (shared r) /\ stateChanged (shared r') = stateChanged (shared r).
Proof.
  intros Hs Hf. unfold when_state. destruct (Z.eqb_spec (state (shared r)) 0) as [E|E].
  - exists r. split_and!; try done. by destruct r.
  - destruct (state_mapped r Hs E) as (s & Es & ->). cbind. eexists. split; [reflexivity|].
    split_and!; try done. apply states_ok_store; [done|by rewrite Es|]. apply Hf. by eapply (sk_fits _ Hs).
Qed.

(** ** References to windows *)
Lemma release_window_ok w ws l :
  w :: l ⊆+ window_refs ws ->
  exists refs, release_window w ws = Ret (mk_windows (win ws) (sfc ws) (pendingWin ws) (windowChanged ws) refs)
    /\ l ⊆+ refs /\ window_refs ws ≡ₚ w :: refs.
Proof.
  intros Hl. unfold release_window.
  assert (w ∈ window_refs ws) as Hw by (eapply elem_of_submseteq; [|exact Hl]; set_solver).
  destruct (list_find_elem_of (fun q => q = w) (window_refs ws) w Hw eq_refl) as [[i q] E]. rewrite E.
  apply list_find_Some in E as (Ei & -> & _).
  assert (window_refs ws ≡ₚ w :: delete i (window_refs ws)) as Hp by (by apply delete_Permutation).
  eexists. split_and!; [reflexivity| |done].
  apply submseteq_cons_l in Hl as (k & Hk & Hl). assert (w :: k ≡ₚ w :: delete i (window_refs ws)) as Hk' by (etransitivity; [symmetry; exact Hk|exact Hp]).
  apply Permutation_cons_inv in Hk'. by rewrite <- Hk'.
Qed.

Lemma releaseWinAndSurface_ok e ws :
  windows_needed e ws ⊆+ window_refs ws ->
  exists ws', releaseWinAndSurface e ws = Ret ws' /\ pendingWin ws' = pendingWin ws
    /\ window_needed e (pendingWin ws') ⊆+ window_refs ws'.
Proof.
  intros Hn. unfold releaseWinAndSurface.
  set (has := negb (sfc ws =? 0) && negb (sfc ws =? defaultSfc e)). cbv zeta.
  assert (window_needed e (pendingWin ws) ⊆+ window_refs ws) as Hp.
  { etransitivity; [|exact Hn]. apply submseteq_inserts_l. done. }
  destruct (has && _); [by exists ws|].
  set (ws1 := if has then _ else ws).
  assert (win ws1 = win ws /\ pendingWin ws1 = pendingWin ws /\ window_refs ws1 = window_refs ws)
    as (Ew & Ep & Er) by (subst ws1; by destruct has).
  rewrite Ew. unfold windows_needed in Hn. unfold window_needed at 1 in Hn.
  destruct (negb (win ws =? 0) && negb (win ws =? defaultWin e)).
  - rewrite <- Er in Hn. destruct (release_window_ok _ _ _ Hn) as (refs & -> & Hrefs & _). cbind.
    eexists. split; [reflexivity|]. cbn. by rewrite Ep.
  - exists ws1. by rewrite Ep, Er.
Qed.

Lemma releasePendingWin_ok e ws :
  window_needed e (pendingWin ws) ⊆+ window_refs ws ->
  exists ws', releasePendingWin e ws = Ret ws' /\ window_needed e (pendingWin ws') ⊆+ window_refs ws'.
Proof.
  intros Hn. unfold releasePendingWin. unfold window_needed in Hn at 1.
  destruct (negb _ && negb _) eqn:E.
  - destruct (release_window_ok _ _ _ Hn) as (refs & -> & Hrefs & _). cbind.
    eexists. split; [reflexivity|]. cbn. unfold window_needed. rewrite Z.eqb_refl, andb_false_r. done.
  - exists ws. split; [done|]. unfold window_needed. by rewrite E.
Qed.

(** ** The steps of the renderer thread *)
Lemma cursor_fits_flags u m s i d a w n :
  cursor_fits s = true -> cursor_fits (mk_server i d a w n (set_cursor_flags u m (cursor s))) = true.
Proof. done. Qed.

(** [f] changes what [r] has of the shared states and the windows only. *)
Definition same_rest (r r' : renderer) : Prop :=
  bufs r' = bufs r /\ vp r' = vp r /\ pc r' = pc r /\ gui r' = gui r /\ frames r' = frames r
  /\ waitingForBuffers r' = waitingForBuffers r.

Lemma refresh_ok e r :
  states_ok (shared r) -> windows_needed e (wins r) ⊆+ window_refs (wins r) ->
  exists r', rendererRefreshContext e r = Ret r' /\ states_ok (shared r') /\ same_rest r r'
    /\ windows_needed e (wins r') ⊆+ window_refs (wins r')
    /\ pendingWin (wins r') = 0 /\ windowChanged (wins r') = false
    /\ state (shared r') = state (shared r) /\ pendingState (shared r') = pendingState (shared r)
    /\ stateChanged (shared r') = stateChanged (shared r).
Proof.
  intros Hs Hn. unfold rendererRefreshContext.
  destruct (releaseWinAndSurface_ok e (wins r) Hn) as (ws1 & -> & Hp1 & Hn1). cbind.
  set (invalid := _ && _).
  assert (exists ws2, (if invalid then releasePendingWin e ws1 else Ret ws1) = Ret ws2
            /\ window_needed e (pendingWin ws2) ⊆+ window_refs ws2) as (ws2 & -> & Hn2).
  { destruct invalid; [by apply releasePendingWin_ok|by exists ws1]. }
  cbind. cbn [win sfc pendingWin window_refs].
  assert (forall f w s, (forall s, cursor_fits s = true -> cursor_fits (f s) = true) ->
    window_needed e w ⊆+ window_refs ws2 ->
    let r1 := with_wins (mk_windows w s 0 false (window_refs ws2)) r in
    exists r', when_state f r1 = Ret r' /\ states_ok (shared r') /\ same_rest r r'
      /\ windows_needed e (wins r') ⊆+ window_refs (wins r')
      /\ pendingWin (wins r') = 0 /\ windowChanged (wins r') = false
      /\ state (shared r') = state (shared r) /\ pendingState (shared r') = pendingState (shared r)
      /\ stateChanged (shared r') = stateChanged (shared r)) as Hwhen.
  { intros f w s Hf Hw r1. destruct (when_state_ok f r1 Hs Hf) as (r' & -> & Hs' & E & Es & Ep & Ec).
    exists r'. split; [done|]. split; [done|]. rewrite E.
    split_and!; try done. cbn. unfold windows_needed. cbn. by rewrite app_nil_r. }
  destruct (Z.eqb_spec (pendingWin ws2) 0).
  - apply Hwhen; [done|]. unfold window_needed. rewrite Z.eqb_refl, andb_false_r. apply submseteq_nil_l.
  - destruct (eglCreateWindowSurface e (pendingWin ws2) =? 0).
    + eexists. split; [reflexivity|]. split; [done|]. split_and!; try done.
      cbn. unfold windows_needed. cbn. by rewrite app_nil_r.
    + destruct (negb (eglMakeCurrent e _)); by apply Hwhen.
Qed.

(** Taking over the new state unmaps the old one and nothing else. *)
Definition old_state (sh : shared_states) : Z :=
  if negb (state sh =? 0) && negb (pendingState sh =? state sh) then state sh else 0.

Lemma unmap_ok sh m :
  states_ok sh -> (forall p, is_Some (m !! p) <-> is_Some (mapped sh !! p)) ->
  (forall p s, m !! p = Some s -> cursor_fits s = true) ->
  states_ok (mk_states (if old_state sh =? 0 then m else delete (old_state sh) m) (pendingState sh) 0 false).
Proof.
  intros [Hm _ Hp] Hd Hf. unfold old_state.
  destruct (Z.eqb_spec (state sh) 0) as [E|E]; cbn [negb andb Z.eqb].
  - constructor; cbn; [|done|done]. intros p. rewrite Hd, Hm. naive_solver.
  - destruct (Z.eqb_spec (pendingState sh) (state sh)) as [E'|E']; cbn [negb andb Z.eqb].
    + constructor; cbn; [|done|done]. intros p. rewrite Hd, Hm, E'. naive_solver.
    + rewrite (proj2 (Z.eqb_neq _ _) E). constructor; cbn; [|intros p s [_ ?]%lookup_delete_Some; by eapply Hf|done].
      intros p. rewrite lookup_delete_is_Some, Hd, Hm. naive_solver.
Qed.

Lemma take_state_ok e r :
  states_ok (shared r) ->
  exists r', take_state e r = Ret r' /\ states_ok (shared r') /\ stateChanged (shared r') = false
    /\ pendingState (shared r') = 0
    /\ state (shared r') = (if stateChanged (shared r) then pendingState (shared r) else state (shared r))
    /\ bufs r' = bufs r /\ wins r' = wins r /\ pc r' = pc r /\ gui r' = gui r.
Proof.
  intros Hs. unfold take_state. destruct (stateChanged (shared r)) eqn:Ec.
  2:{ exists r. destruct (Z.eq_dec (pendingState (shared r)) 0); [done|].
      destruct (sk_pending _ Hs); [done|congruence]. }
  fold (old_state (shared r)). unfold when_state, deref_state.
  cbn [state pendingState shared with_shared with_waiting mapped].
  destruct (Z.eqb_spec (pendingState (shared r)) 0) as [E|E]; cbind.
  - eexists. split; [reflexivity|].
    pose proof (unmap_ok (shared r) (mapped (shared r)) Hs ltac:(done) (sk_fits _ Hs)) as Hok.
    destruct (old_state (shared r) =? 0); split_and!; done.
  - destruct (proj2 (sk_mapped _ Hs (pendingState (shared r)))) as [s Es]; [tauto|]. rewrite Es. cbind.
    eexists. split; [reflexivity|].
    assert (cursor_fits s = true) as Hfs by (by eapply (sk_fits _ Hs)).
    set (s' := set_surfaceAvailable _ s).
    pose proof (unmap_ok (shared r) (<[pendingState (shared r) := s']> (mapped (shared r))) Hs) as Hok.
    destruct (old_state (shared r) =? 0); split_and!; try done; apply Hok.
    1,3: intros p; rewrite lookup_insert_is_Some; destruct (decide (pendingState (shared r) = p)) as [<-|];
      [rewrite Es|]; naive_solver.
    all: intros p q [[<- <-]|[_ ?]]%lookup_insert_Some; [exact Hfs|by eapply (sk_fits _ Hs)].
Qed.

Lemma take_changes_ok e r :
  states_ok (shared r) -> windows_needed e (wins r) ⊆+ window_refs (wins r) ->
  (pendingWin (wins r) <> 0 -> windowChanged (wins r) = true) ->
  exists r', take_changes e r = Ret r' /\ states_ok (shared r')
    /\ windows_needed e (wins r') ⊆+ window_refs (wins r')
    /\ pendingWin (wins r') = 0 /\ windowChanged (wins r') = false
    /\ stateChanged (shared r') = false /\ bufs r' = bufs r.
Proof.
  intros Hs Hn Hpw. unfold take_changes.
  destruct (take_state_ok e r Hs) as (r1 & -> & Hs1 & Hc & Hp & Hst & Hb & Hw & _). cbind.
  rewrite Hw. destruct (windowChanged (wins r)) eqn:Ew.
  - destruct (refresh_ok e r1 Hs1) as (r2 & E & Hs2 & (Hb2 & _) & Hn2 & Hp2 & Hw2 & _ & _ & Hc2); [by rewrite Hw|].
    exists r2. split_and!; congruence || done.
  - exists r1. rewrite Hw. split_and!; try done.
    destruct (Z.eq_dec (pendingWin (wins r)) 0); [done|]. by specialize (Hpw ltac:(done)).
Qed.

Lemma should_wait_ok r :
  states_ok (shared r) ->
  exists w r', rendererShouldWait r = Ret (w, r') /\ same_rest (with_waiting (waitingForBuffers r') r) r'
    /\ wins r' = wins r /\ shared r' = shared r.
Proof.
  intros Hs. unfold rendererShouldWait.
  assert (forall w : bool, exists (w' : bool) r', Ret (w, r) = Ret (w', r') /\
    same_rest (with_waiting (waitingForBuffers r') r) r' /\ wins r' = wins r /\ shared r' = shared r) as Hsame
    by (intros w; exists w, r; by split_and!).
  destruct (_ || _); [apply Hsame|]. destruct (Z.eqb_spec (state (shared r)) 0) as [E|E]; [apply Hsame|].
  destruct (state_mapped r Hs E) as (s & Es & ->). cbind.
  destruct (lastRequestedBufferId r =? rootWindowTextureID s);
    destruct (_ || _ || _); eexists _, _; by split_and!.
Qed.

Lemma root_buffer_ok rest s b :
  store_ok rest b ->
  exists o, root_buffer s b = Ret o /\
    match o with
    | Some p => p ∈ attached b /\ exists x, heap b !! p = Some x /\ desc_id (desc x) = rootWindowTextureID s
    | None => forall p x, p ∈ attached b -> heap b !! p = Some x -> desc_id (desc x) <> rootWindowTextureID s
    end.
Proof.
  intros Hb. unfold root_buffer, attached.
  destruct (findById_ok rest Buffers (rootWindowTextureID s) b Hb) as (o & -> & Ho). cbind.
  destruct o as [p|]; [exists (Some p); split; [done|]; cbn in Ho; destruct Ho; split; [set_solver|done]|].
  destruct (findById_ok rest RemovedBuffers (rootWindowTextureID s) b Hb) as (o & -> & Ho').
  exists o. split; [done|]. destruct o as [p|]; cbn in Ho'.
  - destruct Ho'. split; [set_solver|done].
  - intros p x [Hp|Hp]%elem_of_app; [by apply Ho|by apply Ho'].
Qed.

Lemma find_root_ok e rest r :
  renderer_ok e rest r -> pc r = PFind -> exists r', find_root r = Ret r' /\ renderer_ok e rest r'.
Proof.
  intros [Hb Hs Hw Hpw Hgs Hgw Hd] Hpc. unfold find_root.
  destruct (Z.eqb_spec (state (shared r)) 0) as [E|E]; [by eexists; split; [reflexivity|constructor]|].
  destruct (state_mapped r Hs E) as (s & Es & ->). cbind.
  destruct (wants_frame s); [|by eexists; split; [reflexivity|constructor]].
  destruct (root_buffer_ok rest s (bufs r) Hb) as (o & -> & Ho). cbind.
  destruct o as [p|]; eexists; (split; [reflexivity|]); constructor; try done.
  cbn. intros q [= ->]. split; [tauto|done].
Qed.

Lemma upload_ok s : cursor_fits s = true -> exists t, upload_cursor (cursor s) = Ret t
  /\ t = take (Z.to_nat (cur_width (cursor s) * cur_height (cursor s))) (cur_bits (cursor s)).
Proof.
  unfold cursor_fits, upload_cursor. intros H%Nat.leb_le. rewrite decide_True by done. by eexists.
Qed.

Lemma draw_root_ok e rest p r :
  renderer_ok e rest r -> pc r = PDraw p -> exists r', draw_root e p r = Ret r' /\ renderer_ok e rest r'.
Proof.
  intros [Hb Hs Hw Hpw Hgs Hgw Hd] Hpc. destruct (Hd p Hpc) as [Hp E].
  assert (p ∈ all_lists (bufs r)) as Hpa by (unfold all_lists, attached in *; set_solver).
  destruct (proj1 (so_heap rest _ Hb p) Hpa) as [b Hbp].
  unfold draw_root, deref. rewrite Hbp. cbind.
  destruct (state_mapped r Hs E) as (s & Es & ->). cbind.
  destruct (negb (expected_size _ _)); [by eexists; split; [reflexivity|constructor]|].
  assert (exists t, (if cur_updated (cursor s) then upload_cursor (cursor s) else Ret (cursor_texture r)) = Ret t)
    as (t & ->).
  { destruct (cur_updated (cursor s)); [|by eexists].
    destruct (upload_ok s) as (t & -> & _); [by eapply (sk_fits _ Hs)|by eexists]. }
  cbind. destruct (lay_out _ _ _ _ _ _ _ _ _ _ _) as [f v]. eexists. split; [reflexivity|].
  constructor; cbn [bufs wins shared pc gui]; try done.
  apply states_ok_store; [done|by rewrite Es|]. by apply (sk_fits _ Hs _ _ Es).
Qed.

Lemma rendererThread_ok e rest r :
  renderer_ok e rest r -> exists r', rendererThread e r = Ret r' /\ renderer_ok e rest r'.
Proof.
  intros Hr. pose proof Hr as [Hb Hs Hw Hpw Hgs Hgw Hd]. unfold rendererThread.
  destruct (pc r) eqn:Epc.
  - destruct (should_wait_ok r Hs) as (w & r' & -> & (Eb & _ & _ & Eg & _) & Ew & Es). cbind.
    eexists. split; [reflexivity|]. cbn in Eb, Eg.
    constructor; cbn [bufs wins shared pc gui with_pc]; rewrite ?Eb, ?Ew, ?Es, ?Eg; try done. by destruct w.
  - eexists. split; [reflexivity|]. by constructor.
  - destruct (take_changes_ok e r Hs Hw Hpw) as (r' & -> & Hs' & Hw' & Hp' & Hc' & Hsc' & Eb). cbind.
    eexists. split; [reflexivity|].
    constructor; cbn [bufs wins shared pc gui with_pc]; rewrite ?Eb; try done; intros; congruence.
  - unfold attach_pending, attach_all.
    destruct (attach_loop_ok rest (gl_calls e) _ (bufs r) Hb (Nat.le_refl _)) as (b & -> & Hb' & _). cbind.
    eexists. split; [reflexivity|]. by destruct (bool_decide _); constructor.
  - by apply find_root_ok.
  - by apply draw_root_ok.
  - unfold destroy_removed, release_removed.
    destruct (release_all_ok rest RendererThread RemovedBuffers _ (bufs r) Hb ltac:(done) (Nat.le_refl _))
      as (b & -> & Hb' & _). cbind. eexists. split; [reflexivity|]. by constructor.
Qed.

(** ** The steps of the GUI thread *)
Lemma when_state_draw_ok e rest r r1 :
  renderer_ok e rest r -> r1 = with_vp (vp r1) r ->
  exists r', when_state (set_drawRequested true) r1 = Ret r' /\ renderer_ok e rest r'.
Proof.
  intros [Hb Hs Hw Hpw Hgs Hgw Hd] E1. assert (states_ok (shared r1)) as Hs1 by by rewrite E1.
  destruct (when_state_ok (set_drawRequested true) r1 Hs1) as (r' & -> & Hs' & E & Est & Ep & Ec); [done|].
  exists r'. split; [done|].
  assert (bufs r' = bufs r /\ wins r' = wins r /\ pc r' = pc r /\ gui r' = gui r
          /\ state (shared r1) = state (shared r) /\ stateChanged (shared r1) = stateChanged (shared r))
    as (Eb & Ew & Epc & Eg & Es1 & Ec1) by (rewrite E, E1; done).
  constructor; rewrite ?Eb, ?Ew, ?Epc, ?Eg, ?Est, ?Ec, ?Es1, ?Ec1; done.
Qed.

Lemma set_window_ok e rest w r :
  renderer_ok e rest r -> gui r = GReady -> w <> defaultWin e ->
  exists r', rendererSetWindow w r = Ret r' /\ renderer_ok e rest r'.
Proof.
  intros [Hb Hs Hw Hpw Hgs Hgw Hd] Hg Hwd. unfold rendererSetWindow.
  assert (windowChanged (wins r) = false) as Ec
    by (destruct (windowChanged (wins r)); [specialize (Hgw eq_refl); congruence|done]).
  assert (pendingWin (wins r) = 0) as Ep.
  { destruct (Z.eq_dec (pendingWin (wins r)) 0); [done|]. specialize (Hpw ltac:(done)). congruence. }
  cbn [pendingWin]. rewrite Ep. replace (negb (w =? 0) && (0 =? w)) with false
    by (symmetry; rewrite (Z.eqb_sym 0 w); by destruct (w =? 0)).
  cbn [Z.eqb]. cbind. eexists. split; [reflexivity|]. constructor; cbn; try done.
  - unfold windows_needed in *. cbn. rewrite Ep in Hw. unfold window_needed at 2 in Hw. cbn in Hw.
    rewrite app_nil_r in Hw. unfold window_needed at 2. destruct (Z.eqb_spec w 0) as [->|]; cbn.
    + by rewrite app_nil_r.
    + rewrite (proj2 (Z.eqb_neq _ _) Hwd). cbn. rewrite Permutation_app_comm. cbn.
      by apply submseteq_skip, submseteq_cons.
  - intros Hc. specialize (Hgs Hc). congruence.
Qed.

Lemma set_shared_state_ok e rest p s r :
  renderer_ok e rest r -> gui r = GReady -> mapped (shared r) !! p = None -> cursor_fits s = true ->
  exists r', run e (SetSharedState p s) r = Ret r' /\ renderer_ok e rest r'.
Proof.
  intros [Hb Hs Hw Hpw Hgs Hgw Hd] Hg Hm Hf. eexists. split; [reflexivity|].
  assert (stateChanged (shared r) = false) as Ec
    by (destruct (stateChanged (shared r)); [specialize (Hgs eq_refl); congruence|done]).
  assert (pendingState (shared r) = 0) as Ep.
  { destruct (Z.eq_dec (pendingState (shared r)) 0); [done|].
    destruct (sk_pending _ Hs); [done|congruence]. }
  assert (p <> state (shared r) \/ p = 0) as Hps.
  { destruct (Z.eq_dec p 0); [by right|left]. intros ->.
    destruct (proj2 (sk_mapped _ Hs (state (shared r)))) as [? ?]; [tauto|congruence]. }
  destruct (Z.eqb_spec p 0) as [->|Hp0].
  - constructor; cbn; try done; [|intros Hc; specialize (Hgw Hc); congruence].
    destruct Hs as [Hsm Hsf Hsp]. constructor; cbn; [|done|done]. intros q. rewrite Hsm, Ep. done.
  - constructor; cbn; try done; [|intros Hc; specialize (Hgw Hc); congruence].
    destruct Hs as [Hsm Hsf Hsp]. constructor; cbn; [| |naive_solver].
    + intros q. rewrite lookup_insert_is_Some, Hsm, Ep. destruct (decide (p = q)); naive_solver.
    + intros q s' [[<- <-]|[_ ?]]%lookup_insert_Some; [done|by eapply Hsf].
Qed.

(** No action faults, and all keep the invariant. *)
Lemma renderer_ok_step e rest a r :
  renderer_ok e rest r -> enabled e a r = true -> exists r', run e a r = Ret r' /\ renderer_ok e rest r'.
Proof.
  intros Hr Hen. pose proof Hr as [Hb Hs Hw Hpw Hgs Hgw Hd].
  destruct a; cbn [run enabled] in *; unfold gui_ready in Hen; rewrite ?andb_true_iff, ?bool_decide_eq_true in Hen.
  - eexists. split; [reflexivity|]. destruct Hen as (((((? & ?) & ?) & ?) & ?) & ?). bool_arith.
    constructor; cbn [bufs wins shared pc gui with_bufs]; try done.
    + by apply store_ok_receive.
    + intros q Hq. destruct (Hd q Hq) as [Hin ?]. split; [|done]. unfold attached in *.
      change (q ∈ xorg_list_del p (buffers (bufs r)) ++ xorg_list_del p (removedBuffers (bufs r))).
      rewrite !elem_of_app, !elem_del. rewrite elem_of_app in Hin. assert (q <> p); [|tauto]. intros ->.
      assert (p ∈ all_lists (bufs r)) as Hpa by (unfold all_lists; set_solver).
      apply (so_heap rest _ Hb) in Hpa as [? ?]. congruence.
  - destruct (rendererRemoveBuffer_ok rest bid (bufs r) Hb) as (b & -> & Hb' & Hin). cbind.
    eexists. split; [reflexivity|]. constructor; try done. cbn. intros p Hp. destruct (Hd p Hp). auto.
  - destruct (rendererRemoveAllBuffers_ok rest (bufs r) Hb) as (b & -> & Hb' & _ & _ & Hin). cbind.
    eexists. split; [reflexivity|]. constructor; try done. cbn. intros p Hp. destruct (Hd p Hp). auto.
  - destruct Hen as [[[Hg _] Hm] Hf].
    by eapply set_shared_state_ok.
  - destruct Hen as [[Hg _] Hwd%negb_true_iff]. apply Z.eqb_neq in Hwd.
    by apply set_window_ok.
  - eexists. split; [reflexivity|]. destruct Hen as [_ Hen]. constructor; try done; cbn; intros Hc.
    + specialize (Hgs Hc). rewrite Hgs, Hc in Hen. done.
    + specialize (Hgw Hc). rewrite Hgw, Hc in Hen. done.
  - by eapply when_state_draw_ok.
  - by eapply when_state_draw_ok.
  - destruct Hen as [Hm Hf]. eexists. split; [reflexivity|].
    constructor; cbn [bufs wins pc gui with_shared store_at]; try done. by apply states_ok_store.
  - by apply rendererThread_ok.
Qed.

Lemma reachable_ok e rest r : reachable e rest r -> renderer_ok e rest r.
Proof.
  induction 1 as [|r a r' _ IH Hen Hrun].
  - constructor; cbn; try done.
    + constructor; cbn; try done; [constructor|].
      intros p. rewrite lookup_empty. split; [by intros ?%elem_of_nil|by intros []].
    + constructor; cbn; [|done|done]. intros p. rewrite lookup_empty. split; [by intros []|naive_solver].
    + unfold windows_needed, window_needed. cbn. rewrite Z.eqb_refl, andb_false_r. done.
  - destruct (renderer_ok_step e rest a r IH Hen) as (r1 & E & Hr1). congruence.
Qed.

(** ** The handshake with the GUI thread *)
Definition changed (r : renderer) : bool := stateChanged (shared r) || windowChanged (wins r).

(** How many steps of the renderer thread until the GUI thread can go on. *)
Definition rank (r : renderer) : nat :=
  if changed r then
    match pc r with
    | PChanges => 2 | PTest => 3 | PWait | PRelease => 4 | PDraw _ => 5 | PFind => 6 | PAttach => 7
    end
  else match pc r with PAttach => 1 | PChanges => 2 | PTest => 3 | _ => 0 end.

Fixpoint renderer_runs (n : nat) (e : platform) (r : renderer) : outcome renderer :=
  match n with
  | O => Ret r
  | S n => r ← rendererThread e r; renderer_runs n e r
  end.

Definition frame_of_step (r r' : renderer) : Prop :=
  gui r' = gui r /\ stateChanged (shared r') = stateChanged (shared r)
  /\ windowChanged (wins r') = windowChanged (wins r).

Lemma when_state_frame f r r' : when_state f r = Ret r' -> frame_of_step r r' /\ pc r' = pc r.
Proof.
  unfold when_state. destruct (_ =? 0); [by intros [= <-]|]. unfold deref_state.
  destruct (_ !! _); cbind; [|done]. by intros [= <-].
Qed.

(** All steps but the one that takes over changes leave the flags alone. *)
Lemma step_frame e r r' :
  rendererThread e r = Ret r' -> pc r <> PChanges ->
  frame_of_step r r' /\ (changed r = true -> (rank r' < rank r)%nat).
Proof.
  intros Hrun Hpc. unfold rendererThread in Hrun.
  assert (forall r1 q, frame_of_step r (with_pc q r1) ->
    changed (with_pc q r1) = changed r) as Hch by (intros r1 q (_ & E1 & E2); unfold changed; by rewrite E1, E2).
  destruct (pc r) eqn:Epc; try done.
  - apply outcome_bind_Ret_inv in Hrun as ([w r1] & Hw & [= <-]).
    unfold rendererShouldWait in Hw. fold (changed r) in Hw.
    destruct (changed r) eqn:Ec; cbn [orb] in Hw.
    + injection Hw as <- <-. split; [done|]. intros _. unfold rank. rewrite Hch, Ec, Epc by done. cbn. lia.
    + split; [|done]. destruct (_ || _); [by injection Hw as <- <-|].
      destruct (_ =? 0); [by injection Hw as <- <-|].
      apply outcome_bind_Ret_inv in Hw as (s & _ & Hw). destruct (_ =? _), (_ || _ || _); by injection Hw as <- <-.
  - injection Hrun as <-. split; [done|]. intros Ec. unfold rank. rewrite Hch, Ec, Epc by done. cbn. lia.
  - apply outcome_bind_Ret_inv in Hrun as (r1 & Ha & [= <-]).
    unfold attach_pending in Ha. apply outcome_bind_Ret_inv in Ha as (b & _ & [= <-]).
    assert (frame_of_step r (with_pc PFind (with_bufs b (if bool_decide (addedBuffers (bufs r) = [])
              then r else with_waiting false r)))) as Hf by (by destruct (bool_decide _)).
    split; [done|]. intros Ec. unfold rank. rewrite Hch, Ec, Epc by done. cbn. lia.
  - unfold find_root in Hrun.
    assert (exists r1 q, r' = with_pc q r1 /\ frame_of_step r r' /\ (q = PRelease \/ exists p, q = PDraw p))
      as (r1 & q & -> & Hf & Hq).
    { destruct (_ =? 0); [injection Hrun as <-; by exists r, PRelease; split_and!; [..|left]|].
      apply outcome_bind_Ret_inv in Hrun as (s & _ & Hrun).
      destruct (wants_frame s); [|injection Hrun as <-; by exists r, PRelease; split_and!; [..|left]].
      apply outcome_bind_Ret_inv in Hrun as ([p|] & _ & [= <-]).
      - exists r, (PDraw p). split_and!; try done. right. by exists p.
      - by exists (with_waiting true r), PRelease; split_and!; [..|left]. }
    split; [done|]. intros Ec. unfold rank. rewrite Hch, Ec, Epc by done. destruct Hq as [->|[p ->]]; cbn; lia.
  - unfold draw_root in Hrun. apply outcome_bind_Ret_inv in Hrun as (b & _ & Hrun).
    apply outcome_bind_Ret_inv in Hrun as (s & _ & Hrun).
    assert (frame_of_step r r' /\ pc r' = PRelease) as [(Eg & E1 & E2) Ep].
    { destruct (negb _); [by injection Hrun as <-|]. apply outcome_bind_Ret_inv in Hrun as (t & _ & Hrun).
      destruct (lay_out _ _ _ _ _ _ _ _ _ _ _). by injection Hrun as <-. }
    split; [done|]. intros Ec. unfold rank, changed in *. rewrite E1, E2, Ec, Ep, Epc. lia.
  - unfold destroy_removed in Hrun. apply outcome_bind_Ret_inv in Hrun as (b & _ & [= <-]).
    split; [done|]. intros Ec. unfold rank. rewrite Hch, Ec, Epc by done. cbn. lia.
Qed.

Lemma gui_waits_once e rest r :
  renderer_ok e rest r -> gui r <> GReady -> rank r = 0%nat -> enabled e GuiResumes r = true.
Proof.
  intros [_ _ _ _ Hgs Hgw _] Hg Hr. cbn. unfold rank in Hr.
  destruct (changed r) eqn:Ec; [by destruct (pc r)|].
  unfold changed in Ec. apply orb_false_iff in Ec as [-> ->].
  unfold stateLock_free. by destruct (gui r), (pc r).
Qed.

(** The step that takes over changes clears both flags. *)
Lemma take_changes_frame e rest r :
  renderer_ok e rest r -> pc r = PChanges ->
  exists r', rendererThread e r = Ret r' /\ renderer_ok e rest r' /\ gui r' = gui r /\ rank r' = 1%nat.
Proof.
  intros Hr Epc. destruct (rendererThread_ok e rest r Hr) as (r' & E & Hr').
  exists r'. split_and!; try done.
  - unfold rendererThread in E. rewrite Epc in E. apply outcome_bind_Ret_inv in E as (r1 & Ht & [= <-]).
    unfold take_changes in Ht. apply outcome_bind_Ret_inv in Ht as (r2 & Ht & Hw). cbn.
    destruct (take_state_ok e r (rk_states _ _ _ Hr)) as (r3 & E3 & Hs3 & _ & _ & _ & _ & Ew & _ & Eg).
    assert (r2 = r3) as -> by congruence. destruct (windowChanged (wins r3)); [|congruence].
    destruct (refresh_ok e r3 Hs3) as (r4 & E4 & _ & (_ & _ & _ & Eg4 & _) & _);
      [rewrite Ew; apply (rk_windows _ _ _ Hr)|congruence].
  - unfold rendererThread in E. rewrite Epc in E.
    destruct (take_changes_ok e r (rk_states _ _ _ Hr) (rk_windows _ _ _ Hr) (rk_pendingWin _ _ _ Hr))
      as (r1 & E1 & _ & _ & _ & Hw1 & Hs1 & _). rewrite E1 in E. cbn in E. injection E as <-.
    unfold rank, changed. cbn. by rewrite Hw1, Hs1.
Qed.

Lemma rank_step e rest r :
  renderer_ok e rest r -> rank r <> 0%nat ->
  exists r', rendererThread e r = Ret r' /\ renderer_ok e rest r' /\ gui r' = gui r /\ (rank r' < rank r)%nat.
Proof.
  intros Hr Hn. destruct (decide (pc r = PChanges)) as [Epc|Epc].
  - destruct (take_changes_frame e rest r Hr Epc) as (r' & E & Hr' & Hg & Hk).
    exists r'. split_and!; try done. rewrite Hk. unfold rank. rewrite Epc. destruct (changed r); lia.
  - destruct (rendererThread_ok e rest r Hr) as (r' & E & Hr').
    destruct (step_frame e r r' E Epc) as [(Hg & Hsc & Hwc) Hlt]. exists r'. split_and!; try done.
    destruct (changed r) eqn:Ec; [by apply Hlt|].
    unfold rank in *. unfold changed in *. rewrite Hsc, Hwc, Ec in *.
    unfold rendererThread in E. destruct (pc r) eqn:Ep; try lia; try done.
    + apply outcome_bind_Ret_inv in E as ([w r1] & _ & [= <-]). cbn. destruct w; lia.
    + apply outcome_bind_Ret_inv in E as (r1 & _ & [= <-]). cbn. lia.
Qed.

(** ** Properties *)

(** C21: no interleaving of the GUI thread, the X server and the renderer thread
    goes wrong. In every reachable state each possible action ends without
    using a buffer that was freed, a shared state that was unmapped, a window
    reference that was given back or a pixel outside the shared cursor; the
    process holds what its buffers own and what it held before; the GL objects
    that exist are those of its buffers, so none is lost on a thread without a
    GL context; and the mapped shared states are the current and the pending
    one. *)
Theorem renderer_safe e rest r :
  reachable e rest r ->
  (forall a, enabled e a r = true -> exists r', run e a r = Ret r')
  /\ held (bufs r) ≡ₚ per_buffer owned (heap (bufs r)) ++ rest
  /\ gl (bufs r) ≡ₚ per_buffer gl_owned (heap (bufs r))
  /\ (forall p, p ∈ all_lists (bufs r) <-> is_Some (heap (bufs r) !! p)) /\ NoDup (all_lists (bufs r))
  /\ (forall p, is_Some (mapped (shared r) !! p)
        <-> p <> 0 /\ (p = state (shared r) \/ p = pendingState (shared r))).
Proof.
  intros Hr%reachable_ok. pose proof Hr as [[Hnd Hh _ _ Ho Hg] [Hm _ _] _ _ _ _ _].
  split_and!; try done. intros a Ha. destruct (renderer_ok_step e rest a r Hr Ha) as (r' & E & _). by exists r'.
Qed.

(** C23: one turn of the drawing code. A frame is drawn only when one is wanted,
    and then of the buffer whose identifier is the root window's, removed or
    not, if it has the expected size: the request, the cursor's flags and the
    frame counter are updated, the server is told to wait, and a new cursor
    picture is uploaded whole. A missing buffer makes the renderer wait for
    buffers; one of another size changes nothing and leaves the request. *)
Theorem frame_drawn e rest r s :
  reachable e rest r -> pc r = PFind -> state (shared r) <> 0 ->
  mapped (shared r) !! state (shared r) = Some s ->
  exists r1, rendererThread e r = Ret r1 /\
    if wants_frame s then
      (r1 = with_pc PRelease (with_waiting true r)
       /\ forall p b, p ∈ attached (bufs r) -> heap (bufs r) !! p = Some b ->
            desc_id (desc b) <> rootWindowTextureID s)
      \/ exists p b, r1 = with_pc (PDraw p) r /\ p ∈ attached (bufs r)
           /\ heap (bufs r) !! p = Some b /\ desc_id (desc b) = rootWindowTextureID s
           /\ exists r2, rendererThread e r1 = Ret r2 /\ pc r2 = PRelease /\ bufs r2 = bufs r
              /\ if expected_size (vp r) (desc b) then
                   (exists f, frames r2 = (rootWindowTextureID s, f) :: frames r)
                   /\ mapped (shared r2) !! state (shared r2) =
                        Some (mk_server (rootWindowTextureID s) false (surfaceAvailable s) true
                                (i32 (renderedFrames s + 1)) (set_cursor_flags false false (cursor s)))
                   /\ cursor_texture r2 =
                        (if cur_updated (cursor s)
                         then take (Z.to_nat (cur_width (cursor s) * cur_height (cursor s))) (cur_bits (cursor s))
                         else cursor_texture r)
                 else r2 = with_pc PRelease r
    else r1 = with_pc PRelease r.
Proof.
  intros Hr%reachable_ok Hpc H0 Hs. pose proof Hr as [Hb Hst _ _ _ _ _].
  assert (deref_state r = Ret s) as Hds by (unfold deref_state; by rewrite Hs).
  unfold rendererThread at 1. rewrite Hpc. unfold find_root. rewrite (proj2 (Z.eqb_neq _ _) H0), Hds. cbind.
  destruct (wants_frame s); [|by eexists].
  destruct (root_buffer_ok rest s (bufs r) Hb) as (o & -> & Ho). cbind.
  destruct o as [p|]; eexists; (split; [reflexivity|]); [right|by left].
  destruct Ho as (Hp & b & Hbp & Hid). exists p, b. split_and!; try done.
  unfold rendererThread. cbn [pc with_pc]. unfold draw_root, deref. cbn [bufs with_pc]. rewrite Hbp. cbind.
  change (deref_state (with_pc (PDraw p) r)) with (deref_state r). rewrite Hds. cbind. cbn [vp with_pc cursor_texture].
  destruct (expected_size (vp r) (desc b)); cbn [negb]; [|by eexists].
  assert ((if cur_updated (cursor s) then upload_cursor (cursor s) else Ret (cursor_texture r)) =
          Ret (if cur_updated (cursor s)
               then take (Z.to_nat (cur_width (cursor s) * cur_height (cursor s))) (cur_bits (cursor s))
               else cursor_texture r)) as ->.
  { destruct (cur_updated (cursor s)); [|done]. by destruct (upload_ok s) as (t & -> & ->); [eapply (sk_fits _ Hst)|]. }
  cbind. destruct (lay_out _ _ _ _ _ _ _ _ _ _ _) as [f v]. eexists. split_and!; try reflexivity.
  - exists f. cbn. by rewrite Hid.
  - cbn. by rewrite lookup_insert_eq.
Qed.

(** A redraw that finds a buffer of another size leaves everything as it is, and
    the renderer thread does not wait. *)
Lemma wrong_size_run e r s p b :
  pc r = PTest -> changed r = false -> addedBuffers (bufs r) = [] -> removedBuffers (bufs r) = [] ->
  waitingForBuffers r = false -> state (shared r) <> 0 ->
  mapped (shared r) !! state (shared r) = Some s -> lastRequestedBufferId r = rootWindowTextureID s ->
  wants_frame s = true -> root_buffer s (bufs r) = Ret (Some p) -> heap (bufs r) !! p = Some b ->
  expected_size (vp r) (desc b) = false ->
  Forall (fun kq => exists r', renderer_runs kq.1 e r = Ret r' /\ pc r' = kq.2)
    [(1, PChanges); (2, PAttach); (3, PFind); (4, PDraw p); (5, PRelease)]%nat
  /\ renderer_runs 6 e r = Ret r.
Proof.
  destruct r as [bu ws sh v q g wb lst ct fr]. cbn [pc bufs wins shared vp waitingForBuffers lastRequestedBufferId].
  unfold changed. cbn [shared wins]. intros -> Hc Ha Hrm -> H0 Hs -> Hw Hroot Hb Hsize.
  unfold wants_frame in Hw. apply andb_true_iff in Hw as [[Hav Hwn%negb_true_iff]%andb_true_iff Hreq].
  set (at_ q := mk_renderer bu ws sh v q g false (rootWindowTextureID s) ct fr).
  assert (rendererThread e (at_ PTest) = Ret (at_ PChanges)) as E1.
  { unfold rendererThread, rendererShouldWait, deref_state. cbn. rewrite Hc, Ha, Hrm. cbn.
    rewrite (proj2 (Z.eqb_neq _ _) H0), Hs. cbn. by rewrite Z.eqb_refl, Hav, Hwn, Hreq. }
  apply orb_false_iff in Hc as [Hc1 Hc2].
  assert (rendererThread e (at_ PChanges) = Ret (at_ PAttach)) as E2.
  { unfold rendererThread, take_changes, take_state. cbn. rewrite Hc1. cbn. by rewrite Hc2. }
  assert (rendererThread e (at_ PAttach) = Ret (at_ PFind)) as E3.
  { unfold rendererThread, attach_pending, attach_all. cbn. rewrite Ha. cbn.
    unfold LorieBufferList_first. cbn. by rewrite Ha. }
  assert (rendererThread e (at_ PFind) = Ret (at_ (PDraw p))) as E4.
  { unfold rendererThread, find_root, deref_state, wants_frame. cbn -[root_buffer].
    rewrite (proj2 (Z.eqb_neq _ _) H0), Hs. cbind. rewrite Hav, Hwn, Hreq. cbn -[root_buffer]. by rewrite Hroot. }
  assert (rendererThread e (at_ (PDraw p)) = Ret (at_ PRelease)) as E5.
  { unfold rendererThread, draw_root, deref, deref_state. cbn. rewrite Hb, Hs. cbind. by rewrite Hsize. }
  assert (rendererThread e (at_ PRelease) = Ret (at_ PTest)) as E6.
  { unfold rendererThread, destroy_removed, release_removed, references. cbn. rewrite Hrm. cbn.
    unfold LorieBufferList_first. cbn. by rewrite Hrm. }
  change (mk_renderer bu ws sh v PTest g false (rootWindowTextureID s) ct fr) with (at_ PTest).
  rewrite !Forall_cons, Forall_nil. split_and!; try done; [eexists; split..|].
  all: cbn [renderer_runs fst snd]; rewrite ?E1; cbind; rewrite ?E2; cbind; rewrite ?E3; cbind;
    rewrite ?E4; cbind; rewrite ?E5; cbind; rewrite ?E6; reflexivity.
Qed.

(** While the root window's buffer does not have the size the activity
    expects, and a frame is wanted, the renderer thread spins: six steps bring
    it back to the very same state, and it waits for nothing in between. *)
Theorem wrong_size_spins e r s p b :
  pc r = PTest -> changed r = false -> addedBuffers (bufs r) = [] -> removedBuffers (bufs r) = [] ->
  waitingForBuffers r = false -> state (shared r) <> 0 ->
  mapped (shared r) !! state (shared r) = Some s -> lastRequestedBufferId r = rootWindowTextureID s ->
  wants_frame s = true -> root_buffer s (bufs r) = Ret (Some p) -> heap (bufs r) !! p = Some b ->
  expected_size (vp r) (desc b) = false ->
  renderer_runs 6 e r = Ret r
  /\ forall k r', (k <= 6)%nat -> renderer_runs k e r = Ret r' -> pc r' <> PWait.
Proof.
  intros Hpc Hc Ha Hrm Hwt H0 Hs Hl Hw Hroot Hb Hsize.
  destruct (wrong_size_run e r s p b Hpc Hc Ha Hrm Hwt H0 Hs Hl Hw Hroot Hb Hsize) as [Hk H6].
  split; [exact H6|]. intros k r' Hle E Epc.
  assert (k = 0 \/ k = 6 \/ k ∈ [1; 2; 3; 4; 5])%nat as [->|[->|Hin]]
    by (rewrite !elem_of_cons; lia); [cbn in E; congruence|congruence|].
  rewrite Forall_forall in Hk.
  assert (exists q, (k, q) ∈ [(1, PChanges); (2, PAttach); (3, PFind); (4, PDraw p); (5, PRelease)]%nat /\ q <> PWait)
    as (q & Hq & Hne).
  { rewrite !elem_of_cons in Hin. destruct Hin as [->|[->|[->|[->|[->|[]%elem_of_nil]]]]];
      eexists; (split; [repeat constructor|done]). }
  destruct (Hk _ Hq) as (r1 & E1 & Ep1). cbn in E1, Ep1. congruence.
Qed.

Lemma release_head w ws refs :
  window_refs ws = w :: refs ->
  release_window w ws = Ret (mk_windows (win ws) (sfc ws) (pendingWin ws) (windowChanged ws) refs).
Proof. intros E. unfold release_window. rewrite E. cbn. rewrite decide_True by done. done. Qed.

(** A surface comes and goes. When EGL does what it is asked, a new window is
    shown, with a frame requested, and when it is taken away the default window
    is back and the server knows; but one of the two references taken on the
    window is never given back. A window that is invalid by the time the
    renderer looks at it ends with no surface when a second surface on the
    default window is refused, and then the server is not told: it still
    believes there is a surface if there was one before. *)
Theorem window_changes e r w s :
  w <> 0 -> w <> defaultWin e -> defaultWin e <> 0 ->
  wins r = mk_windows (defaultWin e) (defaultSfc e) 0 false (window_refs (wins r)) ->
  state (shared r) <> 0 -> mapped (shared r) !! state (shared r) = Some s ->
  (forall x, eglMakeCurrent e x = true) -> (forall x, eglDestroySurface e x = true) ->
  (0 < ANativeWindow_getWidth e w -> 0 < ANativeWindow_getHeight e w ->
     eglCreateWindowSurface e w <> 0 -> eglCreateWindowSurface e w <> defaultSfc e ->
     exists r1 r2 r3 r4,
       rendererSetWindow w r = Ret r1 /\ rendererRefreshContext e r1 = Ret r2
       /\ win (wins r2) = w /\ sfc (wins r2) = eglCreateWindowSurface e w
       /\ mapped (shared r2) !! state (shared r) = Some (new_surface true s)
       /\ rendererSetWindow 0 r2 = Ret r3 /\ rendererRefreshContext e r3 = Ret r4
       /\ wins r4 = mk_windows (defaultWin e) (defaultSfc e) 0 false (w :: window_refs (wins r))
       /\ mapped (shared r4) !! state (shared r)
          = Some (set_surfaceAvailable false (new_surface true s)))
  /\ (ANativeWindow_getWidth e w <= 0 -> eglCreateWindowSurface e (defaultWin e) = 0 ->
     exists r1 r2,
       rendererSetWindow w r = Ret r1 /\ rendererRefreshContext e r1 = Ret r2
       /\ win (wins r2) = defaultWin e /\ sfc (wins r2) = 0 /\ shared r2 = shared r).
Proof.
  intros Hw0 Hwd Hd0 Hwins Hst Hs Hmk Hds.
  apply Z.eqb_neq in Hw0, Hwd, Hd0, Hst.
  assert (rendererSetWindow w r = Ret (with_gui GWaitWindow (with_vp (set_expected 0 0 (vp r))
    (with_wins (mk_windows (defaultWin e) (defaultSfc e) w true (w :: w :: window_refs (wins r))) r)))) as E1.
  { unfold rendererSetWindow. rewrite Hwins, Hw0. cbn [pendingWin]. by rewrite (Z.eqb_sym 0 w), Hw0. }
  split.
  - intros Hwi%Z.leb_gt Hhe%Z.leb_gt Hsf Hsd. apply Z.eqb_neq in Hsf, Hsd.
    eexists _, _, _, _. split_and!; [exact E1|..].
    + unfold rendererRefreshContext, releaseWinAndSurface. cbn. rewrite Z.eqb_refl, andb_false_r. cbn.
      rewrite Z.eqb_refl, andb_false_r. cbn. rewrite Hwi, Hhe, Hw0. cbn. rewrite Hw0, Hsf, Hmk. cbn.
      rewrite Hwd. unfold when_state, deref_state. cbn. rewrite Hst, Hs. reflexivity.
    + reflexivity.
    + reflexivity.
    + cbn. by rewrite lookup_insert_eq.
    + reflexivity.
    + unfold rendererRefreshContext, releaseWinAndSurface. cbn. rewrite Hsf, Hsd, Hmk, Hds. cbn.
      rewrite Hw0, Hwd. cbn. rewrite (release_head w _ (w :: window_refs (wins r))) by done. cbn.
      unfold when_state, deref_state. cbn. rewrite Hst, lookup_insert_eq. reflexivity.
    + reflexivity.
    + cbn. by rewrite lookup_insert_eq.
  - intros Hwi%Z.leb_le Hsf. eexists _, _. split_and!; [exact E1|..].
    + unfold rendererRefreshContext, releaseWinAndSurface, releasePendingWin. cbn.
      rewrite Z.eqb_refl, andb_false_r. cbn. rewrite Z.eqb_refl, andb_false_r. cbn. rewrite Hwi, Hw0. cbn.
      rewrite Hwd. cbn. rewrite (release_head w _ (w :: window_refs (wins r))) by done. cbn.
      rewrite Hd0, Hsf. reflexivity.
    + reflexivity.
    + reflexivity.
    + reflexivity.
Qed.

(** ** A concrete run *)
Definition sample_platform : platform :=
  mk_platform (mk_gl (fun l => 1 + Z.of_nat (length l)) (fun h => h + 100)) 1 2
    (fun w => if w =? 1 then 0 else w + 10) (fun _ => true) (fun _ => true)
    (fun w => if w =? 66 then 0 else 800) (fun _ => 600) true false.

Definition sample_buffer : LorieBuffer :=
  mk_buffer 2 (mk_desc 800 600 800 5 2 9 0 0x20000) false 0 11 1921024 0 0 0.
Definition sample_state : server_state :=
  mk_server 9 true false false 0 (mk_shared 0 0 0 0 1 1 [7] true false).

Definition sample_actions : list action :=
  [RendererStep; SetSharedState 500 sample_state; RendererStep; RendererStep; RendererStep; RendererStep;
   GuiResumes; SetWindow 40] ++ repeat RendererStep 5 ++
  [GuiResumes; AddBuffer 700 sample_buffer; SetViewport 0 0 800 600 800 600].

Fixpoint run_all (e : platform) (l : list action) (r : renderer) : outcome renderer :=
  match l with
  | [] => Ret r
  | a :: l => if enabled e a r then r ← run e a r; run_all e l r else Fault FatalExit
  end.

Lemma run_all_reachable e rest l r r' :
  reachable e rest r -> run_all e l r = Ret r' -> reachable e rest r'.
Proof.
  revert r. induction l as [|a l IH]; cbn; intros r Hr E; [by injection E as <-|].
  destruct (enabled e a r) eqn:Ea; [|done]. apply outcome_bind_Ret_inv in E as (r1 & E1 & E).
  eapply IH; [|exact E]. by eapply reachable_step.
Qed.

Definition after (l : list action) : renderer :=
  match run_all sample_platform l (renderer_init sample_platform []) with
  | Ret r => r | Fault _ => renderer_init sample_platform []
  end.
Definition ran (l : list action) : bool :=
  match run_all sample_platform l (renderer_init sample_platform []) with
  | Ret r => true | Fault _ => false
  end.

Lemma after_reachable l : ran l = true -> reachable sample_platform [] (after l).
Proof.
  unfold ran, after. destruct (run_all _ _ _) eqn:E; [|done]. intros _.
  eapply run_all_reachable; [apply reachable_init|exact E].
Qed.

(** The X server removes the buffer while it is drawn. *)
Definition drawing : list action := sample_actions ++ repeat RendererStep 6 ++ [RemoveBuffer 9].

Lemma renderer_safe_witness :
  ran drawing = true /\ pc (after drawing) = PDraw 700
  /\ removedBuffers (bufs (after drawing)) = [700]
  /\ exists r', run sample_platform RendererStep (after drawing) = Ret r' /\ pc r' = PRelease.
Proof.
  split; [reflexivity|]. split; [reflexivity|]. split; [reflexivity|].
  destruct (proj1 (renderer_safe sample_platform [] (after drawing) (after_reachable drawing eq_refl))
    RendererStep eq_refl) as [r' E].
  exists r'. split; [exact E|]. vm_compute in E. injection E as <-. reflexivity.
Defined.

Definition finding : list action := sample_actions ++ repeat RendererStep 5.
Definition state_at (r : renderer) : server_state :=
  match mapped (shared r) !! state (shared r) with Some s => s | None => sample_state end.

Lemma frame_drawn_witness :
  wants_frame (state_at (after finding)) = true
  /\ exists r1, rendererThread sample_platform (after finding) = Ret r1 /\ pc r1 = PDraw 700
       /\ exists r2, rendererThread sample_platform r1 = Ret r2 /\ cursor_texture r2 = [7].
Proof.
  split; [reflexivity|].
  assert (state (shared (after finding)) <> 0) as H0 by (vm_compute; discriminate).
  destruct (frame_drawn sample_platform [] (after finding) (state_at (after finding))
    (after_reachable finding eq_refl) eq_refl H0 eq_refl) as (r1 & E & H).
  exists r1. split; [exact E|].
  assert (pc r1 = PDraw 700) as Epc by (vm_compute in E; injection E as <-; reflexivity).
  split; [exact Epc|].
  change (wants_frame (state_at (after finding))) with true in H. cbv iota in H.
  destruct H as [[-> _]|(p & b & -> & _ & _ & _ & r2 & E2 & _ & _ & _)]; [discriminate|].
  exists r2. split; [exact E2|]. cbn [pc with_pc] in Epc. injection Epc as ->.
  vm_compute in E2. injection E2 as <-. reflexivity.
Defined.

Definition mismatched : list action :=
  sample_actions ++ [SetViewport 0 0 640 480 640 480] ++ repeat RendererStep 14.
Definition drawn_buffer : LorieBuffer :=
  match heap (bufs (after mismatched)) !! 700 with Some b => b | None => sample_buffer end.

Lemma wrong_size_spins_witness :
  ran mismatched = true /\ renderer_runs 6 sample_platform (after mismatched) = Ret (after mismatched).
Proof.
  split; [reflexivity|].
  apply (wrong_size_spins sample_platform (after mismatched) (state_at (after mismatched)) 700 drawn_buffer);
    first [reflexivity|vm_compute; discriminate].
Defined.

Definition idle_renderer : renderer := after (take 7 sample_actions).

Lemma window_changes_witness :
  exists r1 r2 r3 r4,
    rendererSetWindow 40 idle_renderer = Ret r1 /\ rendererRefreshContext sample_platform r1 = Ret r2
    /\ win (wins r2) = 40 /\ rendererSetWindow 0 r2 = Ret r3
    /\ rendererRefreshContext sample_platform r3 = Ret r4 /\ window_refs (wins r4) = [40].
Proof.
  destruct (window_changes sample_platform idle_renderer 40 (state_at idle_renderer)) as [H _];
    try reflexivity; try (vm_compute; discriminate).
  destruct H as (r1 & r2 & r3 & r4 & E1 & E2 & Hw & _ & _ & E3 & E4 & Hr & _);
    try (vm_compute; congruence); try discriminate.
  exists r1, r2, r3, r4. split; [exact E1|]. split; [exact E2|]. split; [exact Hw|].
  split; [exact E3|]. split; [exact E4|]. rewrite Hr. reflexivity.
Defined.
