(* ===== verification/AppBuffers.v ===== *)
(** * The buffers the app keeps, seen from outside

    [live] is what the three lists of [GlBuffers] mean to the rest of the
    program: the identifiers of the buffers that were received and not removed,
    wherever the renderer has put them.  The abstract specification is a list of
    identifiers with three operations; the theorems here say that every
    function of renderer.c that touches the lists performs one of them, and
    that the renderer thread performs none. *)
From S2P Require Import Prelude Buffer Cursor GlBuffers Viewport Renderer.

(** ** The specification *)
Inductive announcement : Type := Announce (id : Z) | Forget (id : Z) | ForgetAll.

Definition view (l : list Z) (a : announcement) : list Z :=
  match a with
  | Announce i => i :: l
  | Forget i => filter (fun j => j <> i) l
  | ForgetAll => []
  end.

(** What an action of [Renderer] announces. *)
Definition announces (a : action) : option announcement :=
  match a with
  | AddBuffer _ b => Some (Announce (desc_id (desc b)))
  | RemoveBuffer i => Some (Forget i)
  | RemoveAllBuffers => Some ForgetAll
  | _ => None
  end.

#[export] Instance view_proper : Proper ((≡ₚ) ==> eq ==> (≡ₚ)) view.
Proof. intros l l' Hl a _ <-. destruct a; cbn; [by rewrite Hl|by rewrite Hl|done]. Qed.

(** ** The implementation *)
Definition ident (h : gmap Z LorieBuffer) (p : Z) : option Z := (fun b => desc_id (desc b)) <$> h !! p.
Definition live (s : store) : list Z := omap (ident (heap s)) (addedBuffers s ++ buffers s).

(** The app has one reference to each buffer. *)
Definition single (s : store) : Prop := forall p b, heap s !! p = Some b -> refcount b = 1.

(** ** Lemmas *)
Lemma omap_ident_ext h h' (l : list Z) : (forall p, p ∈ l -> h' !! p = h !! p) -> omap (ident h') l = omap (ident h) l.
Proof.
  induction l as [|p l IH]; intros H; [done|]. cbn.
  assert (ident h' p = ident h p) as -> by (unfold ident; by rewrite H by set_solver).
  by rewrite IH by set_solver.
Qed.

Lemma omap_ident_cons h q (l : list Z) :
  omap (ident h) (q :: l) = match ident h q with Some i => i :: omap (ident h) l | None => omap (ident h) l end.
Proof. done. Qed.

(** Changing a buffer without its identifier changes nothing. *)
Lemma omap_ident_same h p b b' (l : list Z) :
  h !! p = Some b -> desc_id (desc b') = desc_id (desc b) -> omap (ident (<[p := b']> h)) l = omap (ident h) l.
Proof.
  intros Hp Hb. induction l as [|q l IH]; [done|]. cbn. rewrite IH.
  assert (ident (<[p := b']> h) q = ident h q) as ->; [|done]. unfold ident.
  destruct (decide (p = q)) as [<-|]; [by rewrite lookup_insert_eq, Hp; cbn; rewrite Hb|].
  by rewrite lookup_insert_ne by done.
Qed.

Lemma omap_del h p b (l : list Z) :
  NoDup (omap (ident h) l) -> p ∈ l -> h !! p = Some b ->
  omap (ident h) (xorg_list_del p l) = filter (fun j => j <> desc_id (desc b)) (omap (ident h) l).
Proof.
  intros Hnd Hp Hb. unfold xorg_list_del. induction l as [|q l IH]; [set_solver|].
  assert (forall l' : list Z, (forall q, q ∈ l' -> ident h q <> Some (desc_id (desc b))) ->
            filter (fun j => j <> desc_id (desc b)) (omap (ident h) l') = omap (ident h) l') as Hsame.
  { clear. induction l' as [|q l' IH]; intros H; [done|]. cbn.
    pose proof (H q ltac:(set_solver)). destruct (ident h q) eqn:E; [|apply IH; set_solver].
    rewrite filter_cons_True by congruence. rewrite IH by set_solver. done. }
  assert (Hhead : ident h p = Some (desc_id (desc b))) by (unfold ident; by rewrite Hb).
  assert (Hmem : forall x (l' : list Z), ident h x = Some (desc_id (desc b)) -> x ∈ l' -> desc_id (desc b) ∈ omap (ident h) l')
    by (intros; apply list_elem_of_omap; eauto).
  rewrite omap_ident_cons in Hnd |- *. destruct (decide (q = p)) as [->|Hqp].
  - rewrite filter_cons_False by naive_solver. rewrite Hhead in Hnd |- *. apply NoDup_cons in Hnd as [Hn _].
    rewrite filter_cons_False by naive_solver. rewrite Hsame.
    + fold (xorg_list_del p l). rewrite del_notin; [done|]. intros Hin. by apply Hn, (Hmem p).
    + intros q Hq E. by apply Hn, (Hmem q).
  - rewrite filter_cons_True, omap_ident_cons by done. apply elem_of_cons in Hp as [->|Hp]; [done|].
    destruct (ident h q) as [i|] eqn:E; [|by apply IH].
    apply NoDup_cons in Hnd as [Hn Hnd]. rewrite filter_cons_True; [by rewrite IH|].
    intros ->. by apply Hn, (Hmem p).
Qed.

Lemma live_receive rest p b s :
  store_ok rest s -> heap s !! p = None ->
  live (rendererAddBuffer p (mk_store (<[p := b]> (heap s)) (addedBuffers s) (buffers s)
          (removedBuffers s) (owned b ++ held s) (gl s))) = desc_id (desc b) :: live s.
Proof.
  intros Hs Hp. assert (p ∉ all_lists s) as Hn by (rewrite (so_heap rest s Hs), Hp; intros [? ?]; done).
  unfold live, rendererAddBuffer, LorieBuffer_addToList, LorieBuffer_removeFromList.
  cbn [heap addedBuffers buffers app]. rewrite !del_notin by (unfold all_lists in Hn; set_solver).
  rewrite omap_ident_cons, (omap_ident_ext (heap s)).
  - unfold ident at 1. by rewrite lookup_insert_eq.
  - intros q Hq. rewrite lookup_insert_ne; [done|]. intros ->. apply Hn. unfold all_lists. set_solver.
Qed.

Lemma live_add_buffers p s :
  NoDup (all_lists s) -> p ∈ addedBuffers s -> live (LorieBuffer_addToList p Buffers s) ≡ₚ live s.
Proof.
  intros Hnd Hp. unfold live, LorieBuffer_addToList, LorieBuffer_removeFromList.
  cbn [heap addedBuffers buffers]. apply omap_Permutation.
  unfold all_lists in Hnd. rewrite app_assoc, NoDup_app, NoDup_app in Hnd. destruct Hnd as [(Ha & Hd & _) _].
  rewrite (del_notin p (buffers s)) by (by apply Hd). rewrite <- Permutation_middle.
  destruct (proj1 (elem_of_Permutation _ _) Hp) as [l Hl].
  assert (xorg_list_del p (addedBuffers s) ≡ₚ l) as ->; [|by rewrite Hl].
  unfold xorg_list_del. rewrite Hl in Ha |- *. apply NoDup_cons in Ha as [Hn _].
  rewrite filter_cons_False by naive_solver. fold (xorg_list_del p l). by rewrite del_notin.
Qed.

Lemma attach_loop_live rest g fuel s s' :
  store_ok rest s -> single s -> attach_loop fuel g s = Ret s' -> live s' ≡ₚ live s /\ single s'.
Proof.
  revert s. induction fuel as [|fuel IH]; intros s Hs H1; cbn [attach_loop];
    unfold LorieBufferList_first; cbn [get_list]; destruct (addedBuffers s) as [|p l] eqn:El; cbn [head];
    try (intros [= <-]; done).
  assert (p ∈ addedBuffers s) as Hp by (rewrite El; set_solver).
  destruct (store_ok_attach rest g p s Hs Hp) as (s1 & E1 & Hs1 & Ea & Eb & Er & _). rewrite E1. cbind.
  intros E. unfold LorieBuffer_attachToGL, deref in E1.
  destruct (heap s !! p) as [b|] eqn:Hb; [|done]. cbn in E1. injection E1 as <-.
  match type of E with attach_loop _ _ (LorieBuffer_addToList p Buffers ?s1) = _ => set (s2 := s1) in * end.
  assert (single s2) as H2.
  { intros q b'. subst s2. cbn. intros [[_ <-]|[_ Hq]]%lookup_insert_Some; [by apply (H1 p b)|by eapply H1]. }
  apply IH in E as [Hl Hx]; [|done|intros q b'; rewrite heap_add; apply H2]. split; [|done]. rewrite Hl.
  assert (live s2 = live s) as <- by (unfold live; cbn [s2 heap addedBuffers buffers]; by apply (omap_ident_same _ p b)).
  apply live_add_buffers; [|done]. subst s2. exact (so_nodup rest s Hs).
Qed.

(** A release of the one reference takes the buffer out of its list and the heap. *)
Lemma release_single rest th p s s' :
  store_ok rest s -> single s -> p ∈ all_lists s -> release th p s = Ret s' ->
  heap s' = delete p (heap s) /\ single s'
  /\ forall w, get_list w s' = xorg_list_del p (get_list w s).
Proof.
  intros Hs H1 Hp. unfold release, deref, LorieBuffer_release.
  destruct (proj1 (so_heap rest s Hs p) Hp) as [b Hb]. rewrite Hb. cbind. rewrite (H1 p b Hb). cbn [Z.eqb Pos.eqb].
  destruct (__LorieBuffer_free _ _) as [h|]; cbind; [|done]. intros [= <-]. cbn. split_and!; [done| |by intros []].
  intros q b' Hq. cbn [heap] in Hq. apply lookup_delete_Some in Hq as [_ Hq]. by eapply H1.
Qed.

Lemma live_without p s s' :
  p ∉ addedBuffers s ++ buffers s -> heap s' = delete p (heap s) ->
  (forall w, get_list w s' = xorg_list_del p (get_list w s)) -> live s' = live s.
Proof.
  intros Hp Hh Hl. unfold live. assert (addedBuffers s' = xorg_list_del p (addedBuffers s)) as Ha by exact (Hl AddedBuffers).
  assert (buffers s' = xorg_list_del p (buffers s)) as Hb by exact (Hl Buffers). rewrite Ha, Hb, !del_notin, Hh by set_solver. apply omap_ident_ext.
  intros q Hq. apply lookup_delete_ne. by intros ->.
Qed.

Lemma release_removed_live rest fuel s s' :
  store_ok rest s -> single s -> release_all fuel RendererThread RemovedBuffers s = Ret s' ->
  live s' = live s /\ single s'.
Proof.
  revert s. induction fuel as [|fuel IH]; intros s Hs H1; cbn [release_all];
    unfold LorieBufferList_first; cbn [get_list]; destruct (removedBuffers s) as [|p l] eqn:El; cbn [head];
    try (intros [= <-]; done).
  assert (p ∈ get_list RemovedBuffers s) as Hp by (cbn; rewrite El; set_solver).
  destruct (store_ok_release rest RendererThread p s Hs (list_in_all _ s p Hp)) as (s1 & E1 & Hs1 & _); [done|].
  rewrite E1. cbind. intros E.
  destruct (release_single rest _ p s s1 Hs H1 (list_in_all _ s p Hp) E1) as (Hh & H2 & Hl).
  destruct (IH s1 Hs1 H2 E) as [-> ?]. split; [|done]. apply (live_without p); [|done|done].
  intros [Ha|Hb]%elem_of_app.
  - by pose proof (list_disjoint rest AddedBuffers RemovedBuffers s p Hs Ha Hp).
  - by pose proof (list_disjoint rest Buffers RemovedBuffers s p Hs Hb Hp).
Qed.

Lemma release_all_single rest th w fuel s s' :
  store_ok rest s -> single s -> (th = GuiThread -> w = AddedBuffers) ->
  release_all fuel th w s = Ret s' -> single s'.
Proof.
  revert s. induction fuel as [|fuel IH]; intros s Hs H1 Hth; cbn [release_all];
    unfold LorieBufferList_first; destruct (get_list w s) as [|p l] eqn:El; cbn [head];
    try (intros [= <-]; done).
  assert (p ∈ get_list w s) as Hp by (rewrite El; set_solver).
  destruct (store_ok_release rest th p s Hs (list_in_all w s p Hp)) as (s1 & E1 & Hs1 & _).
  { intros Eth. rewrite (Hth Eth) in Hp. exact Hp. }
  rewrite E1. cbind. apply IH; [done| |done]. by destruct (release_single rest th p s s1 Hs H1 (list_in_all w s p Hp) E1) as (_ & ? & _).
Qed.

Lemma move_to_removed_heap fuel s s' : move_to_removed fuel s = Ret s' -> heap s' = heap s.
Proof.
  revert s. induction fuel as [|fuel IH]; intros s; cbn [move_to_removed];
    destruct (LorieBufferList_first Buffers s) as [p|]; try (by intros [= <-]).
  intros E%IH. rewrite E. by rewrite heap_add.
Qed.

Lemma removeAll_live rest s s' :
  store_ok rest s -> single s -> rendererRemoveAllBuffers s = Ret s' -> live s' = [] /\ single s'.
Proof.
  intros Hs H1 E. destruct (rendererRemoveAllBuffers_ok rest s Hs) as (s2 & E2 & _ & Ha & Hb & _).
  assert (s2 = s') as -> by congruence. split; [unfold live; by rewrite Ha, Hb|].
  unfold rendererRemoveAllBuffers in E.
  destruct (release_all _ _ _ s) as [s1|] eqn:E1; cbn in E; [|done].
  intros p b. rewrite (move_to_removed_heap _ _ _ E). revert p b. by eapply release_all_single.
Qed.

Lemma live_lookup s p b : p ∈ addedBuffers s ++ buffers s -> heap s !! p = Some b -> desc_id (desc b) ∈ live s.
Proof. intros Hp Hb. unfold live. apply list_elem_of_omap. exists p. unfold ident. by rewrite Hb. Qed.

Lemma removeBuffer_live rest bid s s' :
  store_ok rest s -> single s -> NoDup (live s) -> rendererRemoveBuffer bid s = Ret s' ->
  live s' = filter (fun j => j <> bid) (live s) /\ single s'.
Proof.
  intros Hs H1 Hnd. unfold rendererRemoveBuffer.
  destruct (findById_ok rest AddedBuffers bid s Hs) as (o & -> & Ho). cbind. destruct o as [p|].
  - destruct Ho as (Hp & b & Hb & <-). cbn in Hp. intros E.
    destruct (release_single rest _ p s s' Hs H1 (list_in_all AddedBuffers s p Hp) E) as (Hh & H2 & Hl).
    split; [|done]. assert (addedBuffers s' = xorg_list_del p (addedBuffers s)) as Ha by exact (Hl AddedBuffers).
    assert (buffers s' = xorg_list_del p (buffers s)) as Hbs by exact (Hl Buffers).
    unfold live. rewrite Ha, Hbs. unfold xorg_list_del. rewrite <- filter_app. fold (xorg_list_del p (addedBuffers s ++ buffers s)).
    rewrite <- (omap_del (heap s) p b) by (done || set_solver). rewrite Hh. apply omap_ident_ext.
    intros q [_ Hq]%elem_del. by apply lookup_delete_ne.
  - destruct (findById_ok rest Buffers bid s Hs) as (o & -> & Ho'). cbind. destruct o as [p|].
    + destruct Ho' as (Hp & b & Hb & <-). cbn in Hp. rewrite add_after_del.
      set (s2 := LorieBuffer_addToList p RemovedBuffers s). intros E. assert (s' = s2) as -> by congruence. subst s2. clear E.
      split; [|intros q b' Hq; rewrite heap_add in Hq; by eapply H1].
      unfold live. rewrite heap_add. unfold LorieBuffer_addToList, LorieBuffer_removeFromList. cbn [addedBuffers buffers].
      unfold xorg_list_del. rewrite <- filter_app. fold (xorg_list_del p (addedBuffers s ++ buffers s)).
      rewrite (omap_del (heap s) p b) by (done || set_solver). done.
    + intros [= <-]. split; [|done]. symmetry. apply filter_all, Forall_forall. intros j Hj.
      apply list_elem_of_omap in Hj as (p & Hp & Hj). unfold ident in Hj.
      destruct (heap s !! p) as [b|] eqn:Hb; [|done]. injection Hj as <-.
      apply elem_of_app in Hp as [Hp|Hp]; [by apply (Ho p)|by apply (Ho' p)].
Qed.

(** ** Steps of the renderer *)
Lemma when_state_bufs f r r' : when_state f r = Ret r' -> bufs r' = bufs r.
Proof.
  unfold when_state. destruct (_ =? 0); [by intros [= <-]|].
  destruct (deref_state r); cbn; [by intros [= <-]|done].
Qed.

Lemma set_window_bufs w r r' : rendererSetWindow w r = Ret r' -> bufs r' = bufs r.
Proof.
  unfold rendererSetWindow. destruct (_ && _).
  - bind_case. by intros [= <-].
  - bind_case. by intros [= <-].
Qed.

Lemma find_root_bufs r r' : find_root r = Ret r' -> bufs r' = bufs r.
Proof.
  unfold find_root. destruct (_ =? 0); [by intros [= <-]|]. bind_case.
  case_bool; [|by intros [= <-]]. bind_case. case_match; by intros [= <-].
Qed.

Lemma draw_root_bufs e p r r' : draw_root e p r = Ret r' -> bufs r' = bufs r.
Proof.
  unfold draw_root. bind_case. bind_case.
  destruct (expected_size _ _); cbn [negb]; [|by intros [= <-]].
  bind_case. destruct (lay_out _ _ _ _ _ _ _ _ _ _ _); by intros [= <-].
Qed.

Lemma rendererThread_live e rest r r' :
  renderer_ok e rest r -> single (bufs r) -> rendererThread e r = Ret r' ->
  live (bufs r') ≡ₚ live (bufs r) /\ single (bufs r').
Proof.
  intros Hr H1. pose proof Hr as [Hb Hs Hw Hpw _ _ _]. unfold rendererThread. destruct (pc r) as [| | | | |p|].
  - destruct (should_wait_ok r Hs) as (w & r1 & -> & (E & _) & _). cbn. intros [= <-]. cbn in E |- *. by rewrite E.
  - by intros [= <-].
  - destruct (take_changes_ok e r Hs Hw Hpw) as (r1 & -> & _ & _ & _ & _ & _ & E). cbn. intros [= <-]. cbn. by rewrite E.
  - unfold attach_pending, attach_all. destruct (attach_loop _ _ _) as [b|] eqn:E; cbn; [|done]. intros [= <-].
    apply (attach_loop_live rest) in E as [? ?]; [|done|done]. by destruct (bool_decide _).
  - intros E. by rewrite (find_root_bufs _ _ E).
  - intros E. by rewrite (draw_root_bufs _ _ _ _ E).
  - unfold destroy_removed, release_removed. destruct (release_all _ _ _ _) as [b|] eqn:E; cbn; [|done]. intros [= <-].
    apply (release_removed_live rest) in E as [Hl ?]; [|done|done]. cbn. by rewrite Hl.
Qed.

(** The refinement step: every action does to [live] what it announces. *)
Lemma run_live e rest a r r' :
  renderer_ok e rest r -> single (bufs r) -> NoDup (live (bufs r)) ->
  enabled e a r = true -> (forall p b, a = AddBuffer p b -> refcount b = 1) -> run e a r = Ret r' ->
  live (bufs r') ≡ₚ from_option (view (live (bufs r))) (live (bufs r)) (announces a) /\ single (bufs r').
Proof.
  intros Hr H1 Hnd Hen Hone. pose proof (rk_bufs _ _ _ Hr) as Hb.
  destruct a; cbn [run announces from_option]; intros E.
  - injection E as <-. cbn [enabled] in Hen. rewrite !andb_true_iff, bool_decide_eq_true in Hen.
    cbn [bufs with_bufs]. rewrite (live_receive rest) by (done || apply Hen). split; [done|].
    intros q b' Hq. unfold rendererAddBuffer in Hq. rewrite heap_add in Hq. cbn [heap] in Hq.
    apply lookup_insert_Some in Hq as [[_ <-]|[_ Hq]]; [by eapply Hone|by eapply H1].
  - destruct (rendererRemoveBuffer bid (bufs r)) as [b|] eqn:Eb; cbn in E; [|done]. injection E as <-.
    destruct (removeBuffer_live rest bid (bufs r) b Hb H1 Hnd Eb) as [Hl ?]. cbn. by rewrite Hl.
  - destruct (rendererRemoveAllBuffers (bufs r)) as [b|] eqn:Eb; cbn in E; [|done]. injection E as <-.
    destruct (removeAll_live rest (bufs r) b Hb H1 Eb) as [Hl ?]. cbn. by rewrite Hl.
  - injection E as <-. by destruct (p =? 0).
  - by rewrite (set_window_bufs _ _ _ E).
  - by injection E as <-.
  - unfold setViewport in E. by rewrite (when_state_bufs _ _ _ E).
  - unfold setZoom in E. by rewrite (when_state_bufs _ _ _ E).
  - by injection E as <-.
  - by apply (rendererThread_live e rest).
Qed.
