(* ===== verification/Events.v ===== *)
(** * The messages between the processes (lorie.h 95-160, activity.c 242-351)

    A [lorieEvent] is a union of 24 bytes (on a 64-bit system) whose first byte
    is its type.  The fields of type [float] are kept as their bits here.  What
    a struct does not use is zero, as the designated initialisers of the
    senders leave it. *)
From S2P Require Import Prelude.

(** ** Data *)
Inductive lorieEvent : Type :=
  | SharedServerState
  | AddBufferEvent
  | RemoveBufferEvent (id : Z)
  | ScreenSize (width height framerate name_size : Z)
  | Touch (type id x y : Z)
  | Mouse (x y detail down relative : Z)
  | Key (key state : Z)
  | Stylus (x y pressure tilt_x tilt_y orientation buttons eraser mouse : Z)
  | StylusEnable (enable : Z)
  | Unicode (code : Z)
  | ClipboardEnable (enable : Z)
  | ClipboardAnnounce
  | ClipboardRequest
  | ClipboardSend (count : Z)
  | WindowFocusChanged
  | UnknownEvent (t : Z).

#[export] Instance lorieEvent_eq_dec : EqDecision lorieEvent.
Proof. solve_decision. Defined.

Definition sizeof_lorieEvent : nat := 24.

(** ** Little-endian fields *)
Fixpoint le (n : nat) (z : Z) : list Z :=
  match n with
  | O => []
  | S n => z `mod` 256 :: le n (z / 256)
  end.

Fixpoint from_le (l : list Z) : Z :=
  match l with
  | [] => 0
  | b :: l => b + 256 * from_le l
  end.

(** The unsigned field of [n] bytes at an offset. *)
Definition field (off n : nat) (l : list Z) : Z := from_le (take n (drop off l)).

(** ** The union *)
Definition pad (l : list Z) : list Z := l ++ zeros (sizeof_lorieEvent - length l).

Definition event_type (e : lorieEvent) : Z :=
  match e with
  | SharedServerState => 1 | AddBufferEvent => 2 | RemoveBufferEvent _ => 3
  | ScreenSize _ _ _ _ => 4 | Touch _ _ _ _ => 5 | Mouse _ _ _ _ _ => 6 | Key _ _ => 7
  | Stylus _ _ _ _ _ _ _ _ _ => 8 | StylusEnable _ => 9 | Unicode _ => 10
  | ClipboardEnable _ => 11 | ClipboardAnnounce => 12 | ClipboardRequest => 13
  | ClipboardSend _ => 14 | WindowFocusChanged => 15 | UnknownEvent t => t
  end.

Definition encode (e : lorieEvent) : list Z :=
  let t := le 1 (event_type e) in
  pad (match e with
  | RemoveBufferEvent i => t ++ zeros 7 ++ le 8 i
  | ScreenSize w h f n => t ++ zeros 1 ++ le 2 w ++ le 2 h ++ le 2 f ++ le 8 n
  | Touch ty i x y => t ++ zeros 1 ++ le 2 ty ++ le 2 i ++ le 2 x ++ le 2 y
  | Mouse x y d dn r => t ++ zeros 3 ++ le 4 x ++ le 4 y ++ le 1 d ++ le 1 dn ++ le 1 r
  | Key k s => t ++ zeros 1 ++ le 2 k ++ le 1 s
  | Stylus x y p tx ty o b er mo =>
      t ++ zeros 3 ++ le 4 x ++ le 4 y ++ le 2 p ++ le 1 tx ++ le 1 ty ++ le 2 o ++ le 1 b ++ le 1 er ++ le 1 mo
  | StylusEnable e => t ++ le 1 e
  | Unicode c => t ++ zeros 3 ++ le 4 c
  | ClipboardEnable e => t ++ le 1 e
  | ClipboardSend n => t ++ zeros 3 ++ le 4 n
  | SharedServerState | AddBufferEvent | ClipboardAnnounce | ClipboardRequest | WindowFocusChanged
  | UnknownEvent _ => t
  end).

Definition decode (l : list Z) : lorieEvent :=
  let t := field 0 1 l in
  if t =? 1 then SharedServerState
  else if t =? 2 then AddBufferEvent
  else if t =? 3 then RemoveBufferEvent (field 8 8 l)
  else if t =? 4 then ScreenSize (field 2 2 l) (field 4 2 l) (field 6 2 l) (field 8 8 l)
  else if t =? 5 then Touch (field 2 2 l) (field 4 2 l) (field 6 2 l) (field 8 2 l)
  else if t =? 6 then Mouse (field 4 4 l) (field 8 4 l) (field 12 1 l) (field 13 1 l) (field 14 1 l)
  else if t =? 7 then Key (field 2 2 l) (field 4 1 l)
  else if t =? 8 then
    Stylus (field 4 4 l) (field 8 4 l) (field 12 2 l) (i8 (field 14 1 l)) (i8 (field 15 1 l))
      (i16 (field 16 2 l)) (field 18 1 l) (field 19 1 l) (field 20 1 l)
  else if t =? 9 then StylusEnable (field 1 1 l)
  else if t =? 10 then Unicode (field 4 4 l)
  else if t =? 11 then ClipboardEnable (field 1 1 l)
  else if t =? 12 then ClipboardAnnounce
  else if t =? 13 then ClipboardRequest
  else if t =? 14 then ClipboardSend (field 4 4 l)
  else if t =? 15 then WindowFocusChanged
  else UnknownEvent t.

(** Every field holds a value of its type: [in_range].  What the types are is
    said again, in the words of lorie.h, by [event_structs] below. *)
Definition fits (w z : Z) : Prop := 0 <= z < 2 ^ w.
Definition fits_s (w z : Z) : Prop := - 2 ^ (w - 1) <= z < 2 ^ (w - 1).

Definition in_range (e : lorieEvent) : Prop :=
  match e with
  | RemoveBufferEvent i => fits 64 i
  | ScreenSize w h f n => fits 16 w /\ fits 16 h /\ fits 16 f /\ fits 64 n
  | Touch ty i x y => fits 16 ty /\ fits 16 i /\ fits 16 x /\ fits 16 y
  | Mouse x y d dn r => fits 32 x /\ fits 32 y /\ fits 8 d /\ fits 8 dn /\ fits 8 r
  | Key k s => fits 16 k /\ fits 8 s
  | Stylus x y p tx ty o b er mo =>
      fits 32 x /\ fits 32 y /\ fits 16 p /\ fits_s 8 tx /\ fits_s 8 ty /\ fits_s 16 o
      /\ fits 8 b /\ fits 8 er /\ fits 8 mo
  | StylusEnable e | ClipboardEnable e => fits 8 e
  | Unicode c | ClipboardSend c => fits 32 c
  | UnknownEvent t => fits 8 t /\ (t = 0 \/ 15 < t)
  | _ => True
  end.

(** ** The declaration in lorie.h, and what a C compiler makes of it *)

(** The enumeration, in its order. *)
Definition eventType : list string := ([
  "EVENT_UNKNOWN"; "EVENT_SHARED_SERVER_STATE"; "EVENT_ADD_BUFFER"; "EVENT_REMOVE_BUFFER"; "EVENT_SCREEN_SIZE";
  "EVENT_TOUCH"; "EVENT_MOUSE"; "EVENT_KEY"; "EVENT_STYLUS"; "EVENT_STYLUS_ENABLE"; "EVENT_UNICODE";
  "EVENT_CLIPBOARD_ENABLE"; "EVENT_CLIPBOARD_ANNOUNCE"; "EVENT_CLIPBOARD_REQUEST"; "EVENT_CLIPBOARD_SEND";
  "EVENT_WINDOW_FOCUS_CHANGED"
])%string.

(** The types of the members, with their sizes on a 64-bit system (LP64). *)
Inductive ctype : Type := uint8_t | uint16_t | uint32_t | int8_t | int16_t | unsigned_long | size_t | float | char_ptr.

Definition c_size (t : ctype) : nat :=
  match t with
  | uint8_t | int8_t => 1 | uint16_t | int16_t => 2 | uint32_t | float => 4 | unsigned_long | size_t | char_ptr => 8
  end.
Definition c_signed (t : ctype) : bool := match t with int8_t | int16_t => true | _ => false end.
Definition c_fits (t : ctype) (z : Z) : Prop :=
  (if c_signed t then fits_s else fits) (8 * Z.of_nat (c_size t)) z.

(** The members of the union, in the order of the declaration. *)
Definition event_structs : list (string * list (string * ctype)) := ([
  ("type", [("type", uint8_t)]);
  ("screenSize", [("t", uint8_t); ("width", uint16_t); ("height", uint16_t); ("framerate", uint16_t);
                  ("name_size", size_t); ("name", char_ptr)]);
  ("removeBuffer", [("t", uint8_t); ("id", unsigned_long)]);
  ("touch", [("t", uint8_t); ("type", uint16_t); ("id", uint16_t); ("x", uint16_t); ("y", uint16_t)]);
  ("mouse", [("t", uint8_t); ("x", float); ("y", float); ("detail", uint8_t); ("down", uint8_t); ("relative", uint8_t)]);
  ("key", [("t", uint8_t); ("key", uint16_t); ("state", uint8_t)]);
  ("stylus", [("t", uint8_t); ("x", float); ("y", float); ("pressure", uint16_t); ("tilt_x", int8_t); ("tilt_y", int8_t);
              ("orientation", int16_t); ("buttons", uint8_t); ("eraser", uint8_t); ("mouse", uint8_t)]);
  ("stylusEnable", [("t", uint8_t); ("enable", uint8_t)]);
  ("unicode", [("t", uint8_t); ("code", uint32_t)]);
  ("clipboardEnable", [("t", uint8_t); ("enable", uint8_t)]);
  ("clipboardSend", [("t", uint8_t); ("count", uint32_t)])
])%string.

(** A member is at the next multiple of its size, which is its alignment, and a
    struct ends at a multiple of its largest alignment. *)
Definition align_up (off a : nat) : nat := ((off + a - 1) / a * a)%nat.

Fixpoint c_layout (off : nat) (l : list ctype) : list (nat * ctype) :=
  match l with
  | [] => []
  | t :: l => let o := align_up off (c_size t) in (o, t) :: c_layout (o + c_size t) l
  end.

Definition c_alignof (l : list ctype) : nat := foldr (fun t => max (c_size t)) 1%nat l.
Definition c_sizeof (l : list ctype) : nat :=
  align_up (match last (c_layout 0 l) with Some (o, t) => o + c_size t | None => 0 end) (c_alignof l).

Definition union_sizeof (structs : list (list ctype)) : nat :=
  align_up (foldr (fun l => max (c_sizeof l)) 0%nat structs) (foldr (fun l => max (c_alignof l)) 1%nat structs).

(** The value a member has in memory. *)
Definition c_read (m : nat * ctype) (l : list Z) : Z :=
  let z := from_le (take (c_size m.2) (drop m.1 l)) in
  if c_signed m.2 then wrap_s (8 * Z.of_nat (c_size m.2)) z else z.

(** The name of an event's type, the struct it is sent in, and the values of its
    members; the pointer to the screen's name is not set. *)
Definition event_members (e : lorieEvent) : string * string * list Z :=
  match e with
  | SharedServerState => ("EVENT_SHARED_SERVER_STATE", "type", [])
  | AddBufferEvent => ("EVENT_ADD_BUFFER", "type", [])
  | RemoveBufferEvent i => ("EVENT_REMOVE_BUFFER", "removeBuffer", [i])
  | ScreenSize w h f n => ("EVENT_SCREEN_SIZE", "screenSize", [w; h; f; n; 0])
  | Touch ty i x y => ("EVENT_TOUCH", "touch", [ty; i; x; y])
  | Mouse x y d dn r => ("EVENT_MOUSE", "mouse", [x; y; d; dn; r])
  | Key k s => ("EVENT_KEY", "key", [k; s])
  | Stylus x y p tx ty o b er mo => ("EVENT_STYLUS", "stylus", [x; y; p; tx; ty; o; b; er; mo])
  | StylusEnable e => ("EVENT_STYLUS_ENABLE", "stylusEnable", [e])
  | Unicode c => ("EVENT_UNICODE", "unicode", [c])
  | ClipboardEnable e => ("EVENT_CLIPBOARD_ENABLE", "clipboardEnable", [e])
  | ClipboardAnnounce => ("EVENT_CLIPBOARD_ANNOUNCE", "type", [])
  | ClipboardRequest => ("EVENT_CLIPBOARD_REQUEST", "type", [])
  | ClipboardSend n => ("EVENT_CLIPBOARD_SEND", "clipboardSend", [n])
  | WindowFocusChanged => ("EVENT_WINDOW_FOCUS_CHANGED", "type", [])
  | UnknownEvent _ => ("EVENT_UNKNOWN", "type", [])
  end%string.

Definition lookup_struct (name : string) : list ctype :=
  match list_find (fun d => d.1 = name) event_structs with Some (_, d) => d.2.*2 | None => [] end.

(** What the activity and the server say of an event in C: a value for each
    member of its struct, that begins with the type. *)
Definition c_members (e : lorieEvent) : list ((nat * ctype) * Z) :=
  let '(_, struct, values) := event_members e in
  zip (c_layout 0 (lookup_struct struct)) (event_type e :: values).

(** ** What the activity sends *)

(** A message is an event and the bytes that follow it. *)
Definition message : Type := (lorieEvent * list Z)%type.
Definition wire (m : message) : list Z := encode m.1 ++ m.2.

Section activity.
(** [connected] is [conn_fd != -1]; a JNI array or string that is NULL is [None]. *)
Context (connected : bool).

Definition send (l : list message) : list message := if connected then l else [].

Definition setClipboardSyncEnabled (enable : Z) : list message :=
  send [(ClipboardEnable (u8 enable), [])].
Definition sendClipboardAnnounce : list message := send [(ClipboardAnnounce, [])].
Definition sendClipboardEvent (text : option (list Z)) : list message :=
  match text with
  | Some s => send [(ClipboardSend (u32 (Z.of_nat (length s))), s)]
  | None => []
  end.
Definition sendWindowChange (width height framerate : Z) (jname : option (list Z)) : list message :=
  let name := if (width <=? 0) || (height <=? 0) then [] else default [] jname in
  send [(ScreenSize (u16 width) (u16 height) (u16 framerate) (Z.of_nat (length name)), name)].
Definition sendMouseEvent (x y which_button button_down relative : Z) : list message :=
  send [(Mouse x y (u8 which_button) (u8 button_down) (u8 relative), [])].
Definition sendTouchEvent (action id x y : Z) : list message :=
  if action =? -1 then [] else send [(Touch (u16 action) (u16 id) (u16 x) (u16 y), [])].
Definition sendStylusEvent (x y pressure tilt_x tilt_y orientation buttons eraser mouse : Z)
  : list message :=
  send [(Stylus x y (u16 pressure) (i8 tilt_x) (i8 tilt_y) (i16 orientation) (u8 buttons) (u8 eraser)
           (u8 mouse), [])].
Definition requestStylusEnabled (enabled : Z) : list message := send [(StylusEnable (u8 enabled), [])].
(** [table] is [android_to_linux_keycode]. *)
Definition sendKeyEvent (table : Z -> Z) (scan_code key_code key_down : Z) : list message :=
  let code := if scan_code =? 0 then table key_code else scan_code in
  send [(Key (u16 (code + 8)) (u8 key_down), [])].
End activity.

(** ** Lemmas on the fields *)
Lemma length_le n z : length (le n z) = n.
Proof. revert z. induction n as [|n IH]; intros z; [done|]. cbn. by rewrite IH. Qed.

Lemma from_le_le n z : from_le (le n z) = z `mod` 256 ^ Z.of_nat n.
Proof.
  revert z. induction n as [|n IH]; intros z; [by rewrite Z.mod_1_r|]. cbn [le from_le].
  rewrite IH. rewrite Nat2Z.inj_succ, Z.pow_succ_r by lia.
  rewrite (Z.rem_mul_r z 256) by (pose proof (Z.pow_pos_nonneg 256 (Z.of_nat n)); lia). lia.
Qed.

Lemma from_le_fits n w z : w = 8 * Z.of_nat n -> fits w z -> from_le (le n z) = z.
Proof.
  intros -> Hz. rewrite from_le_le. apply Z.mod_small. unfold fits in Hz.
  change 256 with (2 ^ 8). by rewrite <- Z.pow_mul_r by lia.
Qed.

Lemma wrap_s_from_le n w z : w = 8 * Z.of_nat n -> 0 < w -> fits_s w z -> wrap_s w (from_le (le n z)) = z.
Proof.
  intros Hw H0 Hz. rewrite from_le_le. change 256 with (2 ^ 8). rewrite <- Z.pow_mul_r, <- Hw by lia.
  unfold wrap_s. rewrite Zplus_mod_idemp_l. by apply wrap_s_small.
Qed.

Lemma length_encode e : length (encode e) = sizeof_lorieEvent.
Proof. by destruct e. Qed.

Lemma encode_type e : in_range e -> field 0 1 (encode e) = event_type e.
Proof.
  intros He. assert (field 0 1 (encode e) = from_le (le 1 (event_type e))) as -> by by destruct e.
  apply (from_le_fits 1 8); [done|]. destruct e; try (by split); apply He.
Qed.

Lemma encode_decode e :
  in_range e -> length (encode e) = sizeof_lorieEvent /\ decode (encode e) = e.
Proof.
  intros He. split; [apply length_encode|]. unfold decode. rewrite encode_type by done.
  destruct e; cbn [event_type Z.eqb Pos.eqb in_range] in *; try done.
  all: try (repeat match goal with H : _ /\ _ |- _ => destruct H end; f_equal;
    first [by apply (from_le_fits 1 8)|by apply (from_le_fits 2 16)|by apply (from_le_fits 4 32)
          |by apply (from_le_fits 8 64)|by apply (wrap_s_from_le 1 8)|by apply (wrap_s_from_le 2 16)]).
  decide_tests. repeat case_bool; bool_arith; done || lia.
Qed.

(** The layout of the struct at hand. *)
Ltac evaluate_members :=
  unfold c_members; cbn [event_members event_type];
  match goal with
  | |- context [c_layout ?o ?l] => let r := eval vm_compute in (c_layout o l) in change (c_layout o l) with r
  end; cbn [zip zip_with].

(** Each byte of a member is where the compiler puts it. *)
Lemma encode_members e :
  in_range e -> Forall (fun m => c_read m.1 (encode e) = m.2) (c_members e).
Proof.
  intros He. destruct e; cbn [in_range] in He;
    repeat match goal with H : _ /\ _ |- _ => destruct H end;
    evaluate_members;
    repeat (apply Forall_cons; split); try apply Forall_nil; try exact I; cbn [fst snd];
    first [reflexivity|by apply (from_le_fits 1 8)|by apply (from_le_fits 2 16)|by apply (from_le_fits 4 32)
          |by apply (from_le_fits 8 64)|by apply (wrap_s_from_le 1 8)|by apply (wrap_s_from_le 2 16)].
Qed.

Lemma in_range_members e :
  in_range e <-> Forall (fun m => c_fits m.1.2 m.2) (c_members e)
                 /\ match e with UnknownEvent t => t = 0 \/ 15 < t | _ => True end.
Proof.
  destruct e; cbn [in_range];
    evaluate_members;
    rewrite ?Forall_cons, ?Forall_nil; cbn [fst snd];
    change (c_fits uint8_t) with (fits 8); change (c_fits uint16_t) with (fits 16); change (c_fits uint32_t) with (fits 32);
    change (c_fits float) with (fits 32); change (c_fits size_t) with (fits 64); change (c_fits unsigned_long) with (fits 64);
    change (c_fits char_ptr) with (fits 64); change (c_fits int8_t) with (fits_s 8); change (c_fits int16_t) with (fits_s 16);
    intuition (first [done|unfold fits; cbn; lia]).
Qed.

(** C31: the events on the wire are those that lorie.h declares. The union has the
    24 bytes that are read and written; every event begins with the number that the
    enumeration gives its name; the struct it is sent in has a value for each member,
    and an event can be sent as it is exactly when these values fit the declared
    types. Then each member is found, with its width and sign, where the
    rules of C put it, and the reader gets the same event back. *)
Theorem event_roundtrip e :
  let '(name, struct, values) := event_members e in
  union_sizeof ((fun d => d.2.*2) <$> event_structs) = sizeof_lorieEvent
  /\ (match e with UnknownEvent _ => True | _ => eventType !! Z.to_nat (event_type e) = Some name end)
  /\ length (lookup_struct struct) = S (length values)
  /\ (in_range e <-> Forall (fun m => c_fits m.1.2 m.2) (c_members e)
                     /\ match e with UnknownEvent t => t = 0 \/ Z.of_nat (length eventType) <= t | _ => True end)
  /\ (in_range e -> length (encode e) = sizeof_lorieEvent
        /\ Forall (fun m => c_read m.1 (encode e) = m.2) (c_members e)
        /\ decode (encode e) = e).
Proof.
  pose proof (encode_members e) as Hm. pose proof (encode_decode e) as Hd. pose proof (in_range_members e) as Hr.
  destruct (event_members e) as [[name struct] values] eqn:E. split; [reflexivity|].
  split; [destruct e; try exact I; injection E as <- <- <-; reflexivity|].
  split; [destruct e; injection E as <- <- <-; reflexivity|].
  split; [|intros He; split; [by apply Hd|split; [by apply Hm|by apply Hd]]].
  rewrite Hr. destruct e; try reflexivity. cbn [length eventType]. split; intros [? [?|?]]; split; tauto || (right; lia).
Qed.

Lemma event_roundtrip_witness :
  let e := Stylus 0x42c80000 0 700 (-30) 12 (-400) 5 0 1 in
  decode (encode e) = e /\ c_read (16%nat, int16_t) (encode e) = -400
  /\ c_layout 0 (lookup_struct "screenSize")
     = [(0, uint8_t); (2, uint16_t); (4, uint16_t); (6, uint16_t); (8, size_t); (16, char_ptr)]%nat.
Proof.
  destruct (event_roundtrip (Stylus 0x42c80000 0 700 (-30) 12 (-400) 5 0 1)) as (_ & _ & _ & _ & H).
  destruct H as (_ & Hm & Hd); [cbn; unfold fits, fits_s; cbn; lia|].
  split; [exact Hd|]. split; [|reflexivity].
  exact (proj1 (Forall_lookup _ _) Hm 6%nat ((16%nat, int16_t), -400) eq_refl).
Defined.
