(* ===== verification/Server.v ===== *)
(** * The server's side of the connection (cmdentrypoint.c 207-491)

    The input thread reads events from the socket of the activity and turns
    them into input events and work for the X server's thread; the server
    announces its buffers to the activity.  [effects] is what was handed to the
    X server, most recent first; [outgoing] what was written, with the
    descriptor it was written to.  A socket is the list of bytes that wait in
    it; a read takes what is there, up to the size asked for. *)
From Stdlib Require Import SpecFloat.
From S2P Require Import Prelude Buffer Events.

(** ** binary64, and binary32 values in it *)
Definition double : Type := spec_float.
Definition dmul : double -> double -> double := SFmul 53 1024.
Definition ddiv : double -> double -> double := SFdiv 53 1024.
Definition of_int (z : Z) : double := binary_normalize 53 1024 z 0 false.

(** The value of a float, given its bits. *)
Definition float_of_bits (z : Z) : spec_float :=
  let s := Z.testbit z 31 in
  let ex := Z.land (Z.shiftr z 23) 255 in
  let m := Z.land z (2 ^ 23 - 1) in
  if ex =? 255 then if m =? 0 then S754_infinity s else S754_nan
  else if ex =? 0 then match m with Z.pos p => S754_finite s p (-149) | _ => S754_zero s end
  else match m + 2 ^ 23 with Z.pos p => S754_finite s p (ex - 150) | _ => S754_zero s end.

Definition float_of_int (z : Z) : spec_float := binary_normalize 24 128 z 0 false.

(** [(double) f] *)
Definition to_double (f : spec_float) : double :=
  match f with
  | S754_finite s m e => binary_normalize 53 1024 (if s then Z.neg m else Z.pos m) e s
  | _ => f
  end.

(** The macros [min(f, n)], [max(f, 0)] and [max(0, f)] on a float. *)
Definition min_int (f : spec_float) (n : Z) : spec_float :=
  if SFltb f (float_of_int n) then f else float_of_int n.
Definition max_zero (f : spec_float) : spec_float :=
  if SFltb (S754_zero false) f then f else S754_zero false.
Definition zero_max (f : spec_float) : spec_float :=
  if SFltb f (S754_zero false) then S754_zero false else f.

(** [if (f)] *)
Definition float_truth (f : spec_float) : bool :=
  match f with S754_zero _ => false | _ => true end.

(** ** Data *)
Inductive device : Type := LorieMouse | LoriePen | LorieEraser.
Inductive pointer_kind : Type := MotionNotify | ButtonPress | ButtonRelease.
#[export] Instance device_eq_dec : EqDecision device.
Proof. solve_decision. Defined.
#[export] Instance pointer_kind_eq_dec : EqDecision pointer_kind.
Proof. solve_decision. Defined.

Abbreviation valuators := (gmap Z double).

Inductive effect : Type :=
  | SendConfigureNotify (width height framerate name_size : Z) (name : option (list Z))
  | HandleTouch (type id x y : Z)
  | HandleClipboardAnnounce
  | HandleClipboardData (data : list Z)
  | SetStylusEnabled (enable : Z)
  | QueuePointerEvents (d : device) (k : pointer_kind) (button flags : Z) (mask : option valuators)
  | QueueKeyboardEvents (press : bool) (key : Z)
  | KeysymKeyboardEvent (keysym : Z) (down : bool)
  | EnableClipboardSync (enable : bool)
  | RedrawAll.                       (** [drawRequested] and [cursor.updated] *)

(** What follows an event on the socket. *)
Inductive tail : Type := NoTail | TailBytes (l : list Z) | TailFd (fd : Z) | TailBuffer (m : Buffer.message).

Record server : Type := mk_server {
  conn_fd : Z;
  input_fds : list Z;                (** registered with the input thread *)
  inboxes : gmap Z (list Z);
  mask : valuators;                  (** the local variable of one callback *)
  buttons_prev : Z;
  registeredBuffers : list Z;        (** identifiers *)
  effects : list effect;
  outgoing : list (Z * (lorieEvent * tail))
}.

(** The screen, the tablet devices that exist, and the X server's constants. *)
Record input_env : Type := mk_input_env {
  screen_width : Z; screen_height : Z;
  has_pen : bool; has_eraser : bool;
  ucs2keysym : Z -> Z;
  POINTER_RELATIVE : Z; POINTER_ABSOLUTE : Z; POINTER_ACCELERATE : Z;
  POINTER_SCREEN : Z; POINTER_NORAW : Z; POINTER_DESKTOP : Z
}.

Definition with_inbox fd l s := mk_server (conn_fd s) (input_fds s) (<[fd := l]> (inboxes s)) (mask s)
  (buttons_prev s) (registeredBuffers s) (effects s) (outgoing s).
Definition with_mask m s := mk_server (conn_fd s) (input_fds s) (inboxes s) m
  (buttons_prev s) (registeredBuffers s) (effects s) (outgoing s).
Definition with_buttons b s := mk_server (conn_fd s) (input_fds s) (inboxes s) (mask s)
  b (registeredBuffers s) (effects s) (outgoing s).
Definition with_registered l s := mk_server (conn_fd s) (input_fds s) (inboxes s) (mask s)
  (buttons_prev s) l (effects s) (outgoing s).
Definition with_conn c fds s := mk_server c fds (inboxes s) (mask s)
  (buttons_prev s) (registeredBuffers s) (effects s) (outgoing s).
Definition emit (e : effect) s := mk_server (conn_fd s) (input_fds s) (inboxes s) (mask s)
  (buttons_prev s) (registeredBuffers s) (e :: effects s) (outgoing s).
Definition write_msg (e : lorieEvent) (t : tail) s := mk_server (conn_fd s) (input_fds s) (inboxes s) (mask s)
  (buttons_prev s) (registeredBuffers s) (effects s) ((conn_fd s, (e, t)) :: outgoing s).

(** What was written has been read. *)
Definition flushed s := mk_server (conn_fd s) (input_fds s) (inboxes s) (mask s)
  (buttons_prev s) (registeredBuffers s) (effects s) [].

Definition inbox (fd : Z) (s : server) : list Z := default [] (inboxes s !! fd).

(** [read(fd, buf, n)] into a zeroed buffer of at least [n] bytes. *)
Definition read (fd : Z) (n : nat) (s : server) : list Z * server :=
  (take n (inbox fd s), with_inbox fd (drop n (inbox fd s)) s).
Definition fill (n : nat) (l : list Z) : list Z := l ++ zeros (n - length l).

(** ** Reading events *)
Section events.
Context (env : input_env).

Definition set_valuators (l : list (Z * double)) (m : valuators) : valuators :=
  foldl (fun m kv => <[kv.1 := kv.2]> m) m l.

(** The loop over the three buttons. *)
Definition stylus_button (d : device) (released pressed : Z) (i : Z) (s : server) : server :=
  let s := if Z.testbit released i
           then emit (QueuePointerEvents d ButtonRelease (i + 1) (POINTER_RELATIVE env) None) s else s in
  if Z.testbit pressed i
  then emit (QueuePointerEvents d ButtonPress (i + 1) (POINTER_RELATIVE env) None) s else s.

Definition handle_stylus (x y pressure tilt_x tilt_y orientation buttons eraser mouse : Z) (s : server)
  : server :=
  let d := if truth mouse then LorieMouse else if truth eraser then LorieEraser else LoriePen in
  let exists_ := match d with LorieMouse => true | LoriePen => has_pen env | LorieEraser => has_eraser env end in
  if negb exists_ then s
  else
    let m := set_valuators
      ([(0, to_double (max_zero (min_int (float_of_bits x) (screen_width env))));
        (1, to_double (max_zero (min_int (float_of_bits y) (screen_height env))))]
       ++ (if decide (d = LorieMouse) then []
           else [(2, of_int pressure); (3, of_int tilt_x); (4, of_int tilt_y); (5, of_int orientation)]))
      (mask s) in
    let flags := Z.lor (Z.lor (POINTER_ABSOLUTE env) (POINTER_DESKTOP env))
                   (if decide (d = LorieMouse) then POINTER_NORAW env else 0) in
    let s := emit (QueuePointerEvents d MotionNotify 0 flags (Some m)) (with_mask m s) in
    let diff := Z.lxor (buttons_prev s) buttons in
    let released := Z.land diff (u32 (Z.lnot buttons)) in
    let pressed := Z.land diff buttons in
    with_buttons buttons
      (stylus_button d released pressed 2 (stylus_button d released pressed 1
        (stylus_button d released pressed 0 s))).

Definition scroll (axis : Z) (f : spec_float) (s : server) : server :=
  if float_truth f then
    let m := {[axis := ddiv (to_double f) (of_int 120)]} in
    emit (QueuePointerEvents LorieMouse MotionNotify 0 (POINTER_RELATIVE env) (Some m)) (with_mask m s)
  else s.

Definition handle_mouse (x y detail down relative : Z) (s : server) : server :=
  let fx := float_of_bits x in
  let fy := float_of_bits y in
  if detail =? 0 then
    let flags := if truth relative then Z.lor (POINTER_RELATIVE env) (POINTER_ACCELERATE env)
                 else Z.lor (Z.lor (POINTER_ABSOLUTE env) (POINTER_SCREEN env)) (POINTER_NORAW env) in
    let fx := if truth relative then fx else zero_max (min_int fx (screen_width env)) in
    let fy := if truth relative then fy else zero_max (min_int fy (screen_height env)) in
    let m := set_valuators [(0, to_double fx); (1, to_double fy)] (mask s) in
    emit (QueuePointerEvents LorieMouse MotionNotify 0 flags (Some m)) (with_mask m s)
  else if (detail =? 1) || (detail =? 2) || (detail =? 3) then
    emit (QueuePointerEvents LorieMouse (if truth down then ButtonPress else ButtonRelease) detail
            (POINTER_RELATIVE env) None) s
  else if detail =? 4 then scroll 3 fy (scroll 2 fx s)
  else s.

(** The body of the [switch]; payloads of a clipboard message are read from
    [conn_fd]. *)
Definition handle_event (fd : Z) (e : lorieEvent) (s : server) : outcome server :=
  match e with
  | ScreenSize w h f n =>
      if 2 ^ 64 <=? 24 + n + 1 then Fault OutOfBounds
      else if n =? 0 then Ret (emit (SendConfigureNotify w h f n None) s)
      else
        let (name, s) := read fd (Z.to_nat n) s in
        Ret (emit (SendConfigureNotify w h f n (Some (fill (Z.to_nat (n + 1)) name))) s)
  | Touch ty i x y => Ret (emit (HandleTouch ty i x y) s)
  | Stylus x y p tx ty o b er mo => Ret (handle_stylus x y p tx ty o b er mo s)
  | StylusEnable en => Ret (emit (SetStylusEnabled en) s)
  | Mouse x y d dn r => Ret (handle_mouse x y d dn r s)
  | Key k st => Ret (emit (QueueKeyboardEvents (truth st) k) s)
  | Unicode c =>
      let ks := ucs2keysym env c in
      Ret (emit (KeysymKeyboardEvent ks false) (emit (KeysymKeyboardEvent ks true) s))
  | ClipboardEnable en => Ret (emit (EnableClipboardSync (truth en)) s)
  | ClipboardAnnounce => Ret (emit HandleClipboardAnnounce s)
  | ClipboardSend n =>
      if 2 ^ 32 <=? n + 1 then Fault OutOfBounds
      else
        let (data, s) := read (conn_fd s) (Z.to_nat n) s in
        Ret (emit (HandleClipboardData (fill (Z.to_nat (n + 1)) data)) s)
  | SharedServerState | AddBufferEvent | RemoveBufferEvent _ | ClipboardRequest | WindowFocusChanged
  | UnknownEvent _ => Ret s
  end.

(** From the label [again] on; each turn takes 24 bytes. *)
Fixpoint event_loop (fuel : nat) (fd : Z) (s : server) : outcome server :=
  let (got, s) := read fd sizeof_lorieEvent s in
  s ← (if (length got =? sizeof_lorieEvent)%nat then handle_event fd (decode got) s else Ret s);
  if (sizeof_lorieEvent <? length (inbox fd s))%nat then
    match fuel with
    | O => Fault FuelExhausted
    | S fuel => event_loop fuel fd s
    end
  else Ret s.

Definition handleLorieEvents (fd : Z) (error : bool) (s : server) : outcome server :=
  let s := with_mask ∅ s in
  if error then
    let s := with_conn (-1) (filter (fun q => q <> fd) (input_fds s)) s in
    Ret (with_registered [] (emit (EnableClipboardSync false) s))
  else event_loop (length (inbox fd s)) fd s.
End events.

(** ** Writing to the activity *)
Definition connected (s : server) : bool := negb (conn_fd s =? -1).

Definition lorieSendSharedServerState (memfd : Z) (s : server) : server :=
  if connected s then write_msg SharedServerState (TailFd memfd) s else s.

Definition lorieRegisterBuffer (b : LorieBuffer) (s : server) : server :=
  if negb (connected s) || bool_decide (desc_id (desc b) ∈ registeredBuffers s) then s
  else with_registered (desc_id (desc b) :: registeredBuffers s)
         (write_msg AddBufferEvent (TailBuffer (LorieBuffer_sendHandleToUnixSocket b)) s).

Definition lorieUnregisterBuffer (b : LorieBuffer) (s : server) : server :=
  let i := desc_id (desc b) in
  if negb (bool_decide (i ∈ registeredBuffers s)) then s
  else if connected s then
    with_registered (filter (fun j => j <> i) (registeredBuffers s))
      (write_msg (RemoveBufferEvent i) NoTail s)
  else s.

Definition DDXNotifyFocusChanged (s : server) : server :=
  if connected s then write_msg WindowFocusChanged NoTail s else s.

Definition lorieRequestClipboard (s : server) : server :=
  if connected s then write_msg ClipboardRequest NoTail s else s.

(** [data] is the C string, without its NUL. *)
Definition lorieSendClipboardData (data : option (list Z)) (s : server) : server :=
  match data with
  | Some d =>
      if connected s
      then write_msg (ClipboardSend (u32 (Z.of_nat (length d)))) (TailBytes d) s else s
  | None => s
  end.

(** ** Connections *)

(** [stateFd] and the buffer of the screen pixmap, when it has one. *)
Definition lorieActivityConnected (stateFd : Z) (root : option LorieBuffer) (s : server) : server :=
  let s := lorieSendSharedServerState stateFd (emit RedrawAll s) in
  match root with Some b => lorieRegisterBuffer b s | None => s end.

Definition addFd (stateFd : Z) (root : option LorieBuffer) (fd : Z) (s : server) : server :=
  lorieActivityConnected stateFd root (with_conn fd (fd :: input_fds s) s).

(** The app asks for a connection: [client] is what [socketpair] leaves in the array.
    One end is for the app, the other waits for the X server's thread to call
    [addFd]; the server is woken. *)
Definition getXConnection (client : Z * Z) (queue : list Z) : Z * list Z := (client.1, queue ++ [client.2]).
Definition run_queue (stateFd : Z) (root : option LorieBuffer) (queue : list Z) (s : server) : server :=
  foldl (fun s fd => addFd stateFd root fd s) s queue.

(** ** Touch events, on the X server's thread *)

(** What the X server knows of a touch point. *)
Record touch_point : Type := mk_touch { touch_active : bool; touch_x : option double; touch_y : option double }.

Record touch_env : Type := mk_touch_env {
  XI_TouchBegin : Z; XI_TouchUpdate : Z; XI_TouchEnd : Z;
  TouchFindByDDXID : Z -> option touch_point
}.

Definition is_active (t : option touch_point) : bool :=
  match t with Some t => touch_active t | None => false end.

Definition same_place (t : option touch_point) (x y : double) : bool :=
  match t with
  | Some (mk_touch _ (Some ox) (Some oy)) => SFeqb ox x && SFeqb oy y
  | _ => false
  end.

(** The touch event queued, if any: type, identifier and the two valuators. *)
Definition handleTouchEvent (env : input_env) (t : touch_env) (type id x y : Z)
  : option (Z * Z * double * double) :=
  let dx := to_double (max_zero (min_int (float_of_int x) (screen_width env))) in
  let dy := to_double (max_zero (min_int (float_of_int y) (screen_height env))) in
  let touch := TouchFindByDDXID t id in
  if is_active touch && (type =? XI_TouchUpdate t) && same_place touch dx dy then None
  else
    let type := if (type =? XI_TouchUpdate t) && negb (is_active touch) then XI_TouchBegin t else type in
    if (type =? XI_TouchEnd t) && negb (is_active touch) then None
    else Some (type, id,
               ddiv (dmul dx (of_int 0xFFFF)) (to_double (float_of_int (screen_width env))),
               ddiv (dmul dy (of_int 0xFFFF)) (to_double (float_of_int (screen_height env)))).

(** ** Messages on the stream *)
Definition message_ok (m : Events.message) : Prop :=
  in_range m.1 /\
  match m.1 with
  | ScreenSize _ _ _ n => n + 25 < 2 ^ 64 /\ Z.of_nat (length m.2) = n
  | ClipboardSend n => n + 1 < 2 ^ 32 /\ Z.of_nat (length m.2) = n
  | _ => m.2 = []
  end.

(** What a message does, apart from leaving the socket. *)
Definition deliver (env : input_env) (fd : Z) (s : server) (m : Events.message) : server :=
  match m.1 with
  | ScreenSize w h f n =>
      emit (SendConfigureNotify w h f n (if n =? 0 then None else Some (m.2 ++ [0]))) s
  | ClipboardSend n => emit (HandleClipboardData (m.2 ++ [0])) s
  | e => match handle_event env fd e s with Ret s => s | Fault _ => s end
  end.

Definition stream (l : list Events.message) : list Z := concat (wire <$> l).

Lemma emit_inbox e fd l s : emit e (with_inbox fd l s) = with_inbox fd l (emit e s).
Proof. done. Qed.
Lemma mask_inbox m fd l s : with_mask m (with_inbox fd l s) = with_inbox fd l (with_mask m s).
Proof. done. Qed.
Lemma buttons_inbox b fd l s : with_buttons b (with_inbox fd l s) = with_inbox fd l (with_buttons b s).
Proof. done. Qed.

Lemma stylus_button_inbox env d r p i fd l s :
  stylus_button env d r p i (with_inbox fd l s) = with_inbox fd l (stylus_button env d r p i s).
Proof. unfold stylus_button. by destruct (Z.testbit r i), (Z.testbit p i). Qed.

Lemma stylus_button_conn env d r p i s : conn_fd (stylus_button env d r p i s) = conn_fd s.
Proof. unfold stylus_button. by destruct (Z.testbit r i), (Z.testbit p i). Qed.

Lemma handle_stylus_inbox env x y p tx ty o b er mo fd l s :
  handle_stylus env x y p tx ty o b er mo (with_inbox fd l s)
  = with_inbox fd l (handle_stylus env x y p tx ty o b er mo s).
Proof.
  unfold handle_stylus. change (mask (with_inbox fd l s)) with (mask s).
  set (d := if truth mo then _ else _). destruct (negb _); [done|].
  cbv zeta. set (m := set_valuators _ _). set (fl := Z.lor _ _).
  rewrite mask_inbox, emit_inbox, !stylus_button_inbox, buttons_inbox. done.
Qed.

Lemma scroll_inbox env ax f fd l s : scroll env ax f (with_inbox fd l s) = with_inbox fd l (scroll env ax f s).
Proof. unfold scroll. by destruct (float_truth f). Qed.

Lemma handle_mouse_inbox env x y d dn r fd l s :
  handle_mouse env x y d dn r (with_inbox fd l s) = with_inbox fd l (handle_mouse env x y d dn r s).
Proof.
  unfold handle_mouse. change (mask (with_inbox fd l s)) with (mask s). cbv zeta.
  destruct (d =? 0); [by rewrite mask_inbox, emit_inbox|].
  destruct (_ || _); [done|]. destruct (d =? 4); [by rewrite !scroll_inbox|done].
Qed.

Lemma handle_stylus_conn env x y p tx ty o b er mo s :
  conn_fd (handle_stylus env x y p tx ty o b er mo s) = conn_fd s.
Proof.
  unfold handle_stylus. destruct (negb _); [done|]. cbv zeta. cbn [with_buttons conn_fd].
  by rewrite !stylus_button_conn.
Qed.

Lemma handle_mouse_conn env x y d dn r s : conn_fd (handle_mouse env x y d dn r s) = conn_fd s.
Proof.
  unfold handle_mouse, scroll. cbv zeta. destruct (d =? 0); [done|]. destruct (_ || _); [done|].
  destruct (d =? 4); [|done]. by destruct (float_truth _), (float_truth _).
Qed.

Lemma deliver_inbox env fd m s l :
  deliver env fd (with_inbox fd l s) m = with_inbox fd l (deliver env fd s m).
Proof.
  unfold deliver. destruct m.1; try reflexivity; cbn [handle_event].
  - apply handle_mouse_inbox.
  - apply handle_stylus_inbox.
Qed.

Lemma deliver_conn env fd m s : conn_fd (deliver env fd s m) = conn_fd s.
Proof.
  unfold deliver. destruct m.1; try reflexivity; cbn [handle_event].
  - apply handle_mouse_conn.
  - apply handle_stylus_conn.
Qed.

Lemma with_inbox_twice fd l l' s : with_inbox fd l (with_inbox fd l' s) = with_inbox fd l s.
Proof. unfold with_inbox. cbn. by rewrite insert_insert_eq. Qed.

Lemma inbox_with fd l s : inbox fd (with_inbox fd l s) = l.
Proof. unfold inbox. cbn. by rewrite lookup_insert_eq. Qed.

Lemma fill_exact n l : length l = n -> fill n l = l.
Proof. intros <-. unfold fill. by rewrite Nat.sub_diag, app_nil_r. Qed.
Lemma fill_nul n l : length l = n -> fill (n + 1) l = l ++ [0].
Proof. intros <-. unfold fill. by replace (length l + 1 - length l)%nat with 1%nat by lia. Qed.

(** Handling an event takes exactly its payload from the socket. *)
Lemma handle_event_ok env fd m rest s :
  message_ok m -> conn_fd s = fd ->
  handle_event env fd m.1 (with_inbox fd (m.2 ++ rest) s) = Ret (with_inbox fd rest (deliver env fd s m)).
Proof.
  destruct m as [e p]. unfold message_ok. cbn [fst snd]. intros [He Hp] Hfd.
  destruct e; try (subst p; reflexivity).
  - destruct Hp as [Hn Hl]. cbn [handle_event deliver fst snd]. destruct He as (_ & _ & _ & He).
    unfold fits in He. decide_tests. unfold deliver. cbn [fst snd].
    destruct (Z.eqb_spec name_size 0) as [E|E].
    + destruct p; [done|cbn in Hl; lia].
    + unfold read. rewrite inbox_with. rewrite take_app_length', drop_app_length' by lia.
      rewrite with_inbox_twice. rewrite Z2Nat.inj_add, fill_nul by (simpl; lia). done.
  - subst p. cbn [handle_event]. by rewrite handle_mouse_inbox.
  - subst p. cbn [handle_event]. by rewrite handle_stylus_inbox.
  - destruct Hp as [Hn Hl]. cbn [handle_event]. unfold fits in He. cbn in He. decide_tests.
    unfold read. cbn [conn_fd with_inbox]. rewrite Hfd, inbox_with.
    rewrite take_app_length', drop_app_length' by lia.
    rewrite with_inbox_twice. rewrite Z2Nat.inj_add, fill_nul by (simpl; lia). done.
Qed.

Lemma stream_cons m l : stream (m :: l) = encode m.1 ++ (m.2 ++ stream l).
Proof. unfold stream. cbn [fmap list_fmap concat]. unfold wire at 1. by rewrite <- app_assoc. Qed.

(** At most one event's worth of bytes is at most one event. *)
Lemma stream_short l :
  (length (stream l) <= sizeof_lorieEvent)%nat -> l = [] \/ exists m, l = [m] /\ m.2 = [].
Proof.
  destruct l as [|m [|m2 l]]; [by left| |]; unfold stream; cbn [fmap list_fmap concat]; unfold wire;
    rewrite !length_app, !length_encode; unfold sizeof_lorieEvent; intros Hl; [right|lia].
  exists m. split; [done|]. apply nil_length_inv. cbn in Hl. lia.
Qed.

(** The loop takes whole messages until at most one event is left. *)
Lemma event_loop_ok env fd msgs fuel s :
  Forall message_ok msgs -> msgs <> [] -> conn_fd s = fd -> (length msgs <= S fuel)%nat ->
  exists done_ rest, msgs = done_ ++ rest /\ done_ <> []
    /\ (rest = [] \/ exists m, rest = [m] /\ m.2 = [])
    /\ event_loop env fuel fd (with_inbox fd (stream msgs) s)
       = Ret (with_inbox fd (stream rest) (foldl (deliver env fd) s done_)).
Proof.
  revert msgs s. induction fuel as [|fuel IH]; intros msgs s Hok Hne Hfd Hlen.
  all: destruct msgs as [|m msgs]; [done|]; apply Forall_cons in Hok as [Hm Hok].
  all: rewrite stream_cons; cbn [event_loop]; unfold read at 1; rewrite inbox_with, with_inbox_twice.
  all: rewrite take_app_length', drop_app_length' by (by rewrite length_encode).
  all: rewrite length_encode, Nat.eqb_refl.
  all: rewrite (proj2 (encode_decode m.1 (proj1 Hm))).
  all: rewrite handle_event_ok by done; cbind; rewrite inbox_with.
  all: destruct (Nat.ltb_spec sizeof_lorieEvent (length (stream msgs))) as [Hlt|Hle].
  - destruct msgs; cbn in Hlen, Hlt; lia.
  - destruct (stream_short msgs Hle) as [->|(m' & -> & Hp)].
    + exists [m], []. split_and!; [done..|by left|done].
    + exists [m], [m']. split_and!; [done..|right; by exists m'|done].
  - destruct (IH msgs (deliver env fd s m) Hok) as (d & rest & -> & Hd & Hr & E).
    + intros ->. cbn in Hlt. lia.
    + by rewrite deliver_conn.
    + cbn in Hlen. lia.
    + exists (m :: d), rest. split_and!; [done..|]. exact E.
  - destruct (stream_short msgs Hle) as [->|(m' & -> & Hp)].
    + exists [m], []. split_and!; [done..|by left|done].
    + exists [m], [m']. split_and!; [done..|right; by exists m'|done].
Qed.

Lemma length_stream_le l : (sizeof_lorieEvent * length l <= length (stream l))%nat.
Proof.
  induction l as [|m l IH]; [done|]. unfold stream in *. cbn [fmap list_fmap concat].
  unfold wire at 1. rewrite !length_app, length_encode. cbn [length]. unfold sizeof_lorieEvent in *. lia.
Qed.


(** ** What the activity sends is well formed *)
Inductive activity_call : Type :=
  | CallClipboardSync (enable : Z)
  | CallClipboardAnnounce
  | CallClipboard (text : option (list Z))
  | CallWindowChange (w h f : Z) (name : option (list Z))
  | CallMouse (x y button down relative : Z)
  | CallTouch (action id x y : Z)
  | CallStylus (x y p tx ty o b er mo : Z)
  | CallStylusEnabled (enabled : Z)
  | CallKey (table : Z -> Z) (scan_code key_code down : Z).

Definition activity_send (c : activity_call) : list Events.message :=
  match c with
  | CallClipboardSync e => setClipboardSyncEnabled true e
  | CallClipboardAnnounce => sendClipboardAnnounce true
  | CallClipboard t => sendClipboardEvent true t
  | CallWindowChange w h f n => sendWindowChange true w h f n
  | CallMouse x y b d r => sendMouseEvent true x y b d r
  | CallTouch a i x y => sendTouchEvent true a i x y
  | CallStylus x y p tx ty o b er mo => sendStylusEvent true x y p tx ty o b er mo
  | CallStylusEnabled e => requestStylusEnabled true e
  | CallKey t sc kc d => sendKeyEvent true t sc kc d
  end.

(** Floats are 32 bits, and Java arrays and strings are no longer than an int
    can say. *)
Definition call_ok (c : activity_call) : Prop :=
  match c with
  | CallClipboard (Some t) => Z.of_nat (length t) < 2 ^ 31
  | CallWindowChange _ _ _ (Some n) => Z.of_nat (length n) < 2 ^ 32
  | CallMouse x y _ _ _ => fits 32 x /\ fits 32 y
  | CallStylus x y _ _ _ _ _ _ _ => fits 32 x /\ fits 32 y
  | _ => True
  end.

Lemma activity_sends_ok c : call_ok c -> Forall message_ok (activity_send c).
Proof.
  assert (forall w z, 0 < w -> fits w (wrap_u w z)) as Hu by (intros; apply wrap_u_bound; lia).
  assert (forall w z, 0 < w -> fits_s w (wrap_s w z)) as Hs by (intros; by apply wrap_s_bound).
  assert (forall e p, in_range e -> (match e with
      | ScreenSize _ _ _ n => n + 25 < 2 ^ 64 /\ Z.of_nat (length p) = n
      | ClipboardSend n => n + 1 < 2 ^ 32 /\ Z.of_nat (length p) = n
      | _ => p = [] end) -> Forall message_ok (send true [(e, p)])) as Hone
    by (intros e p He Hp; apply Forall_singleton; split; [exact He|exact Hp]).
  destruct c; cbn [call_ok activity_send]; intros Hc.
  1,2,5,7,8,9: apply Hone; [cbn [in_range]; split_and?; try (by apply Hu); try (by apply Hs); done || apply Hc|done].
  - destruct text as [t|]; [|constructor].
    assert (u32 (Z.of_nat (length t)) = Z.of_nat (length t)) as E by (apply wrap_u_small; simpl in *; lia).
    apply Hone; [by apply Hu|]. rewrite E. simpl in *. lia.
  - apply Hone.
    all: set (n := if _ || _ then _ else _).
    all: assert (Z.of_nat (length n) < 2 ^ 32) as Hn
      by (subst n; destruct (_ || _); [simpl; lia|]; destruct name; [exact Hc|simpl; lia]).
    + cbn [in_range]. split_and!; try (by apply Hu). unfold fits. simpl in *. lia.
    + simpl in *. lia.
  - cbn [activity_send]. unfold sendTouchEvent. destruct (_ =? _); [constructor|].
    apply Hone; [cbn [in_range]; split_and!; by apply Hu|done].
Qed.

Lemma handle_stream env fd msgs s :
  Forall message_ok msgs -> msgs <> [] -> conn_fd s = fd -> inboxes s !! fd = Some (stream msgs) ->
  exists done_ rest, msgs = done_ ++ rest /\ done_ <> []
    /\ (rest = [] \/ exists m, rest = [m] /\ m.2 = [])
    /\ handleLorieEvents env fd false s
       = Ret (with_inbox fd (stream rest) (foldl (deliver env fd) (with_mask ∅ s) done_)).
Proof.
  intros Hok Hne Hfd Hin.
  assert (with_mask ∅ s = with_inbox fd (stream msgs) (with_mask ∅ s)) as Hs.
  { unfold with_inbox. cbn. rewrite insert_id by done. by destruct s. }
  unfold handleLorieEvents.
  destruct (event_loop_ok env fd msgs (length (inbox fd (with_mask ∅ s))) (with_mask ∅ s) Hok Hne Hfd)
    as (d & rest & E1 & E2 & E3 & E4).
  { unfold inbox. cbn. rewrite Hin. cbn. pose proof (length_stream_le msgs). unfold sizeof_lorieEvent in *. lia. }
  exists d, rest. split_and!; [done..|]. rewrite <- E4. f_equal. exact Hs.
Qed.

(** The input thread calls as long as something can be read. *)
Fixpoint read_all (n : nat) (env : input_env) (fd : Z) (s : server) : outcome server :=
  match n with
  | O => Ret s
  | S n =>
      if (length (inbox fd s) =? 0)%nat then Ret s
      else s ← handleLorieEvents env fd false s; read_all n env fd s
  end.

(** What the calls do, one list of messages each. *)
Definition call_delivers (env : input_env) (fd : Z) (s : server) (l : list Events.message) : server :=
  foldl (deliver env fd) (with_mask ∅ s) l.

Lemma call_delivers_inbox env fd l q s :
  call_delivers env fd (with_inbox fd q s) l = with_inbox fd q (call_delivers env fd s l).
Proof.
  unfold call_delivers. rewrite mask_inbox. generalize (with_mask ∅ s). clear s.
  induction l as [|m l IH]; intros s; [done|]. cbn. by rewrite deliver_inbox, IH.
Qed.

Lemma call_delivers_conn env fd s l : conn_fd (call_delivers env fd s l) = conn_fd s.
Proof.
  unfold call_delivers. change (conn_fd s) with (conn_fd (with_mask ∅ s)). generalize (with_mask ∅ s). clear s.
  induction l as [|m l IH]; intros s; [done|]. cbn. by rewrite IH, deliver_conn.
Qed.

(** Two calls empty the socket. *)
Lemma read_all_ok env fd msgs s :
  Forall message_ok msgs -> conn_fd s = fd -> inboxes s !! fd = Some (stream msgs) ->
  exists turns, concat turns = msgs /\ Forall (fun l => l <> []) turns
    /\ read_all 2 env fd s = Ret (with_inbox fd [] (foldl (call_delivers env fd) s turns)).
Proof.
  intros Hok Hfd Hin.
  assert (forall s l, inboxes s !! fd = Some (stream l) -> l <> [] -> (length (inbox fd s) =? 0)%nat = false) as Hne.
  { intros s0 l Hl Hn. apply Nat.eqb_neq. unfold inbox. rewrite Hl. cbn. pose proof (length_stream_le l).
    destruct l; [done|cbn [length] in *; unfold sizeof_lorieEvent in *; lia]. }
  destruct msgs as [|m0 msgs0] eqn:Em; [|rewrite <- Em in *].
  { exists []. split; [done|]. split; [constructor|]. cbn [read_all foldl]. unfold inbox. rewrite Hin. cbn.
    unfold with_inbox. rewrite insert_id by done. by destruct s. }
  assert (msgs <> []) as Hn by by rewrite Em.
  destruct (handle_stream env fd msgs s Hok Hn Hfd Hin) as (d & rest & E & Hd & Hrest & Eh).
  fold (call_delivers env fd s d) in Eh.
  cbn [read_all]. rewrite (Hne s msgs Hin Hn), Eh. cbind. rewrite inbox_with.
  destruct (decide (rest = [])) as [->|Hr].
  - exists [d]. split; [cbn; by rewrite app_nil_r in *|]. split; [by constructor|done].
  - assert (Forall message_ok rest) as Hok2 by (rewrite E in Hok; by apply Forall_app in Hok as [_ ?]).
    set (s1 := with_inbox fd (stream rest) (call_delivers env fd s d)).
    assert (inboxes s1 !! fd = Some (stream rest)) as Hin1 by (cbn; by rewrite lookup_insert_eq).
    destruct (handle_stream env fd rest s1 Hok2 Hr) as (d2 & rest2 & E2 & Hd2 & _ & Eh2);
      [cbn; by rewrite call_delivers_conn|done|].
    assert (rest2 = []) as ->.
    { destruct Hrest as [->|(m & -> & _)]; [done|]. destruct d2 as [|? [|]]; [done| |done].
      by injection E2 as _ <-. }
    fold (call_delivers env fd s1 d2) in Eh2. rewrite app_nil_r in E2. subst d2.
    pose proof (Hne s1 rest Hin1 Hr) as Hl1. unfold s1 in Hl1. rewrite inbox_with in Hl1. rewrite Hl1, Eh2.
    cbind. exists [d; rest]. split; [cbn; by rewrite app_nil_r|]. split; [by repeat constructor|]. f_equal. cbn [foldl stream fmap list_fmap concat].
    unfold s1. by rewrite call_delivers_inbox, with_inbox_twice.
Qed.

Lemma read_one env fd m s :
  message_ok m -> conn_fd s = fd -> inboxes s !! fd = Some (stream [m]) ->
  read_all 2 env fd s = Ret (with_inbox fd [] (deliver env fd (with_mask ∅ s) m)).
Proof.
  intros Hm Hfd Hin.
  destruct (read_all_ok env fd [m] s) as (turns & Et & Hne & ->); [by constructor|done..|].
  assert (turns = [[m]]) as ->; [|done].
  destruct turns as [|l turns]; [done|]. apply Forall_cons in Hne as [Hl Hne].
  destruct l as [|x l]; [done|]. cbn in Et. injection Et as -> Et. apply app_eq_nil in Et as [-> Et].
  destruct turns as [|l2 turns]; [done|]. apply Forall_cons in Hne as [Hl2 _].
  cbn in Et. by apply app_eq_nil in Et as [-> _].
Qed.

(** ** Properties *)

(** C24: the server reads back what the activity wrote. Whatever sequence of
    messages waits in the socket, one call reads whole messages in their order,
    each with its payload, never gets out of step, and stops with the socket
    empty or with exactly one event in it, which the next call reads. *)
Theorem stream_processed env fd msgs s :
  Forall message_ok msgs -> msgs <> [] -> conn_fd s = fd -> inboxes s !! fd = Some (stream msgs) ->
  exists done_ rest, msgs = done_ ++ rest /\ done_ <> []
    /\ (rest = [] \/ exists m, rest = [m] /\ m.2 = [])
    /\ handleLorieEvents env fd false s
       = Ret (with_inbox fd (stream rest) (foldl (deliver env fd) (with_mask ∅ s) done_)).
Proof. apply handle_stream. Qed.

(** *** Stylus buttons *)

(** The buttons a device holds after the events queued so far. *)
Fixpoint held_buttons (d : device) (l : list effect) : gset Z :=
  match l with
  | [] => ∅
  | QueuePointerEvents d' k b _ _ :: l =>
      if decide (d' = d) then
        match k with
        | ButtonPress => {[b]} ∪ held_buttons d l
        | ButtonRelease => held_buttons d l ∖ {[b]}
        | MotionNotify => held_buttons d l
        end
      else held_buttons d l
  | _ :: l => held_buttons d l
  end.

Lemma held_stylus_button env d d' r p i s :
  held_buttons d (effects (stylus_button env d' r p i s))
  = if decide (d' = d) then
      (if Z.testbit p i then {[i + 1]} else ∅)
      ∪ (held_buttons d (effects s) ∖ (if Z.testbit r i then {[i + 1]} else ∅))
    else held_buttons d (effects s).
Proof.
  unfold stylus_button. destruct (Z.testbit r i), (Z.testbit p i); cbn;
    destruct (decide (d' = d)); try done; set_solver.
Qed.

Lemma in_held_button env d r p i j s :
  i + 1 ∈ held_buttons d (effects (stylus_button env d r p j s))
  <-> (i = j /\ Z.testbit p j = true)
      \/ (i + 1 ∈ held_buttons d (effects s) /\ (i <> j \/ Z.testbit r j = false)).
Proof.
  rewrite held_stylus_button, decide_True, elem_of_union, elem_of_difference by done.
  assert (forall c : bool, i + 1 ∈ (if c then {[j + 1]} else ∅ : gset Z) <-> i = j /\ c = true) as H.
  { intros []; rewrite ?elem_of_singleton, ?elem_of_empty; [|naive_solver]. split; [intros; split; [lia|done]|intros [-> _]; done]. }
  rewrite !H. destruct (Z.testbit r j), (decide (i = j)); naive_solver.
Qed.

(** What the two masks of a button event select. *)
Lemma changed_bits prev b i :
  0 <= i < 32 ->
  Z.testbit (Z.land (Z.lxor prev b) (u32 (Z.lnot b))) i = (Z.testbit prev i && negb (Z.testbit b i))%bool
  /\ Z.testbit (Z.land (Z.lxor prev b) b) i = (negb (Z.testbit prev i) && Z.testbit b i)%bool.
Proof.
  intros Hi. rewrite !Z.land_spec, Z.lxor_spec. unfold wrap_u.
  rewrite Z.mod_pow2_bits_low, Z.lnot_spec by lia. by destruct (Z.testbit prev i), (Z.testbit b i).
Qed.

(** Stylus buttons. After an event of a device whose held buttons are those
    of the previous event, it holds exactly the buttons of the event, of the
    three there are. The previous buttons are shared by all devices, though: an
    event of another device changes them but nothing the first one holds, so
    a button that is let go after the pen was turned round stays pressed. *)
Theorem stylus_buttons env x y p tx ty o b er mo s :
  let d := if truth mo then LorieMouse else if truth er then LorieEraser else LoriePen in
  (d = LoriePen -> has_pen env = true) -> (d = LorieEraser -> has_eraser env = true) ->
  let s' := handle_stylus env x y p tx ty o b er mo s in
  buttons_prev s' = b
  /\ ((forall i, 0 <= i < 3 -> i + 1 ∈ held_buttons d (effects s) <-> Z.testbit (buttons_prev s) i = true) ->
      forall i, 0 <= i < 3 -> i + 1 ∈ held_buttons d (effects s') <-> Z.testbit b i = true)
  /\ (forall d', d' <> d -> held_buttons d' (effects s') = held_buttons d' (effects s)).
Proof.
  intros d Hpen Her s'. subst s'. unfold handle_stylus. fold d.
  replace (negb _) with false by (destruct d; symmetry; [done|by rewrite Hpen|by rewrite Her]).
  cbv zeta. set (m := set_valuators _ _). set (fl := Z.lor _ _).
  set (s1 := emit _ _).
  assert (forall d', held_buttons d' (effects s1) = held_buttons d' (effects s)) as Hs1.
  { intros d'. subst s1. cbn. by destruct (decide (d = d')). }
  change (buttons_prev s1) with (buttons_prev s).
  set (rel := Z.land _ (u32 _)). set (prs := Z.land _ b). split_and!; [done| |].
  - intros Hheld i Hi. cbn [with_buttons effects].
    rewrite !in_held_button, Hs1, (Hheld i Hi).
    assert (i = 0 \/ i = 1 \/ i = 2) as Hcase by lia.
    destruct (changed_bits (buttons_prev s) b i) as [R P]; [lia|]. fold rel prs in R, P.
    destruct Hcase as [->|[->| ->]]; rewrite R, P;
      destruct (Z.testbit (buttons_prev s) _), (Z.testbit b _); cbn [andb negb]; intuition (discriminate || lia).
  - intros d' Hd'. cbn [with_buttons effects]. by rewrite !held_stylus_button, !decide_False, Hs1 by done.
Qed.

(** *** Valuators left over from an earlier event *)

(** The valuators of a pointer motion. The first event of a call carries its
    two coordinates and nothing else; but the mask is not emptied between the
    events of one call, so a motion that is read together with a vertical
    scroll before it carries the amount of that scroll again. *)
Theorem stale_valuators env mx my dn r s :
  (exists flags m, effects (handle_mouse env mx my 0 dn r (with_mask ∅ s))
     = QueuePointerEvents LorieMouse MotionNotify 0 flags (Some m) :: effects s
     /\ dom m = {[0; 1]})
  /\ (forall x y dn' r', float_truth (float_of_bits y) = true ->
      exists flags m l,
        effects (handle_mouse env mx my 0 dn r (handle_mouse env x y 4 dn' r' (with_mask ∅ s)))
        = QueuePointerEvents LorieMouse MotionNotify 0 flags (Some m) :: l
        /\ m !! 3 = Some (ddiv (to_double (float_of_bits y)) (of_int 120))).
Proof.
  split.
  - unfold handle_mouse. cbv zeta. cbn [Z.eqb]. eexists _, _. split; [reflexivity|].
    cbn [set_valuators foldl fst snd mask with_mask]. rewrite !dom_insert_L, dom_empty_L. set_solver.
  - intros x y dn' r' Hy. unfold handle_mouse at 2. cbn [Z.eqb Pos.eqb orb].
    unfold scroll at 1. rewrite Hy. unfold handle_mouse. cbv zeta. cbn [Z.eqb].
    eexists _, _, _. split; [reflexivity|].
    cbn [set_valuators foldl fst snd mask with_mask emit].
    by rewrite !lookup_insert_ne, lookup_singleton_eq by done.
Qed.

(** *** Buffers known to the activity *)

(** The identifiers the reader of [fd] knows after what was written to it. *)
Fixpoint known (fd : Z) (l : list (Z * (lorieEvent * tail))) : list Z :=
  match l with
  | [] => []
  | (f, (e, t)) :: l =>
      if f =? fd then
        match e, t with
        | AddBufferEvent, TailBuffer m => desc_id (desc (msg_struct m)) :: known fd l
        | RemoveBufferEvent i, _ => filter (fun j => j <> i) (known fd l)
        | _, _ => known fd l
        end
      else known fd l
  end.

Inductive conn_op : Type :=
  | Register (b : LorieBuffer) | Unregister (b : LorieBuffer)
  | SendState (memfd : Z) | FocusChanged | RequestClipboard | SendClipboard (d : option (list Z)).

Definition conn_run (o : conn_op) (s : server) : server :=
  match o with
  | Register b => lorieRegisterBuffer b s
  | Unregister b => lorieUnregisterBuffer b s
  | SendState m => lorieSendSharedServerState m s
  | FocusChanged => DDXNotifyFocusChanged s
  | RequestClipboard => lorieRequestClipboard s
  | SendClipboard d => lorieSendClipboardData d s
  end.

Definition announced_ok (s : server) : Prop :=
  registeredBuffers s = known (conn_fd s) (outgoing s) /\ NoDup (registeredBuffers s).

Lemma announced_step o s :
  announced_ok s -> announced_ok (conn_run o s) /\ conn_fd (conn_run o s) = conn_fd s.
Proof.
  intros [Hk Hnd]. unfold announced_ok. destruct o; cbn [conn_run].
  - unfold lorieRegisterBuffer. destruct (connected s); cbn [negb orb]; [|done].
    case_bool_decide as Hin; [done|]. cbn. rewrite Z.eqb_refl. cbn. split; [|done].
    split; [by rewrite Hk|by apply NoDup_cons].
  - unfold lorieUnregisterBuffer. destruct (negb _); [done|]. destruct (connected s); [|done].
    cbn. rewrite Z.eqb_refl. split; [|done]. split; [by rewrite Hk|by apply NoDup_filter].
  - unfold lorieSendSharedServerState. destruct (connected s); [|done]. cbn. by rewrite Z.eqb_refl.
  - unfold DDXNotifyFocusChanged. destruct (connected s); [|done]. cbn. by rewrite Z.eqb_refl.
  - unfold lorieRequestClipboard. destruct (connected s); [|done]. cbn. by rewrite Z.eqb_refl.
  - unfold lorieSendClipboardData. destruct d; [|done]. destruct (connected s); [|done]. cbn. by rewrite Z.eqb_refl.
Qed.

(** The list of registered buffers is the activity's view. From a fresh
    connection on, whatever the server sends, the activity knows exactly the
    registered buffers, none is announced while it is known, and the activity
    is told of each removal; when the connection ends the list is empty. *)
Theorem buffers_announced env stateFd root fd s ops :
  conn_fd s = -1 -> registeredBuffers s = [] -> known fd (outgoing s) = [] ->
  let s' := foldl (fun s o => conn_run o s) (addFd stateFd root fd s) ops in
  registeredBuffers s' = known (conn_fd s') (outgoing s') /\ NoDup (registeredBuffers s')
  /\ conn_fd s' = fd
  /\ exists s'', handleLorieEvents env fd true s' = Ret s'' /\ registeredBuffers s'' = [] /\ conn_fd s'' = -1.
Proof.
  intros Hc Hr Hk. cbv zeta.
  set (s0 := emit RedrawAll (with_conn fd (fd :: input_fds s) s)).
  assert (announced_ok s0 /\ conn_fd s0 = fd) as [H0 E0].
  { split; [|done]. unfold announced_ok. cbn. rewrite Hr, Hk. split; [done|constructor]. }
  assert (exists l, addFd stateFd root fd s = foldl (fun s o => conn_run o s) s0 l) as (l & ->).
  { destruct root as [b|]; [by exists [SendState stateFd; Register b]|by exists [SendState stateFd]]. }
  rewrite <- foldl_app. generalize (l ++ ops). intros all.
  assert (forall l s0, announced_ok s0 -> announced_ok (foldl (fun s o => conn_run o s) s0 l)
            /\ conn_fd (foldl (fun s o => conn_run o s) s0 l) = conn_fd s0) as Hall.
  { clear. induction l as [|o l IH]; intros s0 H0; [done|]. cbn [foldl].
    destruct (announced_step o s0 H0) as [H1 E1]. destruct (IH _ H1) as [H2 E2]. split; congruence || done. }
  destruct (Hall all s0 H0) as [[H1 H2] H3]. split_and!; [done..|congruence|].
  eexists. split; [reflexivity|]. done.
Qed.

Lemma addFd_run stateFd b fd s :
  fd <> -1 ->
  addFd stateFd (Some b) fd s =
  let s1 := write_msg SharedServerState (TailFd stateFd) (emit RedrawAll (with_conn fd (fd :: input_fds s) s)) in
  if bool_decide (desc_id (desc b) ∈ registeredBuffers s) then s1
  else with_registered (desc_id (desc b) :: registeredBuffers s)
         (write_msg AddBufferEvent (TailBuffer (LorieBuffer_sendHandleToUnixSocket b)) s1).
Proof.
  intros H%Z.eqb_neq.
  unfold addFd, lorieActivityConnected, lorieSendSharedServerState, lorieRegisterBuffer, connected.
  cbn. rewrite H. cbn. by rewrite H.
Qed.

(** A second connection, asked for before the first one has ended. The screen's buffer
    is not announced to the new activity, since it is still registered for the
    old one, and when the old socket reports its end the new connection is
    forgotten, although the input thread goes on reading it. *)
Theorem second_connection env stateFd b java1 java2 fd1 fd2 s :
  registeredBuffers s = [] -> known fd2 (outgoing s) = [] -> fd1 <> fd2 -> fd1 <> -1 -> fd2 <> -1 ->
  let s2 := run_queue stateFd (Some b) (getXConnection (java2, fd2) (getXConnection (java1, fd1) []).2).2 s in
  conn_fd s2 = fd2 /\ registeredBuffers s2 = [desc_id (desc b)] /\ known fd2 (outgoing s2) = []
  /\ exists s3, handleLorieEvents env fd1 true s2 = Ret s3
       /\ conn_fd s3 = -1 /\ registeredBuffers s3 = [] /\ fd2 ∈ input_fds s3.
Proof.
  intros Hr Hk Hne H1 H2. cbn [run_queue getXConnection foldl fst snd app]. rewrite (addFd_run _ _ fd1), Hr by done. rewrite bool_decide_eq_false_2 by apply not_elem_of_nil.
  cbv zeta. rewrite addFd_run by done. cbn [registeredBuffers with_registered].
  rewrite bool_decide_eq_true_2 by apply list_elem_of_here.
  cbn [conn_fd registeredBuffers outgoing known write_msg emit with_conn with_registered].
  rewrite Z.eqb_refl, (proj2 (Z.eqb_neq _ _) Hne). split_and!; [done..|].
  unfold handleLorieEvents. eexists. split; [reflexivity|]. split_and!; [done..|].
  cbn [input_fds with_registered emit with_conn with_mask write_msg]. rewrite list_elem_of_filter.
  split; [done|apply list_elem_of_here].
Qed.

(** ** A concrete connection *)
Definition sample_env : input_env := mk_input_env 1920 1080 true true (fun u => u) 2 4 8 64 16 32.
Definition sample_messages : list Events.message :=
  [(ScreenSize 1920 1080 60 4, [77; 97; 105; 110]); (ClipboardSend 2, [104; 105]); (Key 38 1, []); (Key 38 0, [])].
Definition sample_server : server :=
  mk_server 7 [7] {[7 := stream sample_messages]} ∅ 0 [] [] [].
Definition offline : server := mk_server (-1) [] ∅ ∅ 0 [] [] [].

Lemma sample_messages_ok : Forall message_ok sample_messages.
Proof. repeat constructor; cbn; unfold fits; cbn; lia. Qed.

Lemma stream_processed_witness :
  exists done_ rest, sample_messages = done_ ++ rest
    /\ handleLorieEvents sample_env 7 false sample_server
       = Ret (with_inbox 7 (stream rest) (foldl (deliver sample_env 7) (with_mask ∅ sample_server) done_)).
Proof.
  destruct (stream_processed sample_env 7 sample_messages sample_server sample_messages_ok) as (d & rest & E & _ & _ & H);
    [discriminate|reflexivity|reflexivity|].
  exists d, rest. split; [exact E|exact H].
Defined.

Example sample_effects :
  match handleLorieEvents sample_env 7 false sample_server with
  | Ret s => effects s = [QueueKeyboardEvents true 38; HandleClipboardData [104; 105; 0];
                          SendConfigureNotify 1920 1080 60 4 (Some [77; 97; 105; 110; 0])]
             /\ length (inbox 7 s) = 24%nat
  | Fault _ => False
  end.
Proof. vm_compute. split; reflexivity. Qed.

Lemma stylus_buttons_witness :
  buttons_prev (handle_stylus sample_env 0 0 100 0 0 0 1 0 0 sample_server) = 1
  /\ held_buttons LoriePen (effects (handle_stylus sample_env 0 0 100 0 0 0 0 1 0
       (handle_stylus sample_env 0 0 100 0 0 0 1 0 0 sample_server)))
     = held_buttons LoriePen (effects (handle_stylus sample_env 0 0 100 0 0 0 1 0 0 sample_server)).
Proof.
  split.
  - apply (stylus_buttons sample_env 0 0 100 0 0 0 1 0 0 sample_server); reflexivity.
  - apply (stylus_buttons sample_env 0 0 100 0 0 0 0 1 0
      (handle_stylus sample_env 0 0 100 0 0 0 1 0 0 sample_server)); [reflexivity|reflexivity|discriminate].
Defined.

Lemma stale_valuators_witness :
  exists flags m l,
    effects (handle_mouse sample_env 0 0 0 0 0 (handle_mouse sample_env 0 0x42f00000 4 0 0 (with_mask ∅ sample_server)))
    = QueuePointerEvents LorieMouse MotionNotify 0 flags (Some m) :: l
    /\ m !! 3 = Some (ddiv (to_double (float_of_bits 0x42f00000)) (of_int 120)).
Proof. apply (stale_valuators sample_env 0 0 0 0 sample_server). reflexivity. Defined.

Definition root_buffer : LorieBuffer :=
  mk_buffer 1 (mk_desc 64 32 64 5 2 9 0 0x20000) false 0 11 8192 0 0 0.

Lemma buffers_announced_witness :
  let s := foldl (fun s o => conn_run o s) (addFd 3 (Some root_buffer) 7 offline)
             [FocusChanged; Unregister root_buffer; Register root_buffer] in
  registeredBuffers s = [9] /\ known 7 (outgoing s) = [9].
Proof.
  split; [reflexivity|].
  destruct (buffers_announced sample_env 3 (Some root_buffer) 7 offline
    [FocusChanged; Unregister root_buffer; Register root_buffer] eq_refl eq_refl eq_refl) as (H & _ & Hc & _).
  exact (eq_sym H).
Defined.

Lemma second_connection_witness :
  let s2 := addFd 3 (Some root_buffer) 8 (addFd 3 (Some root_buffer) 7 offline) in
  known 8 (outgoing s2) = []
  /\ exists s3, handleLorieEvents sample_env 7 true s2 = Ret s3 /\ conn_fd s3 = -1 /\ 8 ∈ input_fds s3.
Proof.
  destruct (second_connection sample_env 3 root_buffer 17 18 7 8 offline) as (_ & _ & Hk & s3 & E & Hc & _ & Hi);
    [reflexivity|reflexivity|discriminate|discriminate|discriminate|].
  split; [exact Hk|]. exists s3. split; [exact E|]. split; [exact Hc|exact Hi].
Defined.
