(* ===== verification/Wire.v ===== *)
(** * The socket between the processes (buffer.c 26-41, 332-395 and 461-526)

    A Unix socket carries bytes, and a byte can carry a descriptor.  Here are
    the two functions that pass a descriptor, the bytes of [struct LorieBuffer]
    on a 64-bit system, and what the server's messages look like to the reader.
    A descriptor has its number in the sender until [recvmsg] takes it. *)
From S2P Require Import Prelude Buffer Events Server.

(** ** Cells of the socket *)
Inductive cell : Type := Byte (b : Z) | ByteWithFd (b fd : Z).
#[export] Instance cell_eq_dec : EqDecision cell.
Proof. solve_decision. Defined.

Definition byte_of (c : cell) : Z := match c with Byte b | ByteWithFd b _ => b end.

(** [read]: descriptors that come with the bytes are lost. *)
Definition read_bytes (n : nat) (s : list cell) : list Z * list cell := (byte_of <$> take n s, drop n s).

(** [sendmsg] refuses a descriptor that is not open, and sends nothing then. *)
Definition ancil_send_fd (fd : Z) : list cell := if fd <? 0 then [] else [ByteWithFd 33 fd].

(** [transfer] numbers the descriptor in the receiver; -1 when there is none. *)
Definition ancil_recv_fd (transfer : Z -> Z) (s : list cell) : Z * list cell :=
  match s with
  | [] => (-1, [])
  | Byte _ :: s => (-1, s)
  | ByteWithFd _ fd :: s => (transfer fd, s)
  end.

(** ** The bytes of a [LorieBuffer] *)
Definition sizeof_LorieBuffer : nat := 120.

(** [link] is the field of that name: two pointers. *)
Definition struct_bytes (link : list Z) (b : LorieBuffer) : list Z :=
  let d := desc b in
  le 2 (refcount b) ++ zeros 6
  ++ le 4 (width d) ++ le 4 (height d) ++ le 4 (stride d) ++ le 1 (format d) ++ le 1 (type d) ++ zeros 2
  ++ le 8 (desc_id d) ++ le 8 (ahb d) ++ le 8 (data d)
  ++ le 1 (if locked b then 1 else 0) ++ zeros 7 ++ le 8 (lockedData b)
  ++ le 4 (fd b) ++ zeros 4 ++ le 8 (size b) ++ le 8 (offset b)
  ++ le 4 (texture b) ++ zeros 4 ++ le 8 (image b) ++ link.

Definition struct_of (l : list Z) : LorieBuffer :=
  mk_buffer (i16 (field 0 2 l))
    (mk_desc (i32 (field 8 4 l)) (i32 (field 12 4 l)) (i32 (field 16 4 l)) (field 20 1 l) (field 21 1 l)
       (field 24 8 l) (field 32 8 l) (field 40 8 l))
    (truth (field 48 1 l)) (field 56 8 l) (i32 (field 64 4 l)) (field 72 8 l) (wrap_s 64 (field 80 8 l))
    (field 88 4 l) (field 96 8 l).

Record struct_fits (b : LorieBuffer) : Prop := {
  sf_refcount : fits_s 16 (refcount b);
  sf_size : fits_s 32 (width (desc b)) /\ fits_s 32 (height (desc b)) /\ fits_s 32 (stride (desc b));
  sf_kind : fits 8 (format (desc b)) /\ fits 8 (type (desc b));
  sf_id : fits 64 (desc_id (desc b));
  sf_pointers : fits 64 (ahb (desc b)) /\ fits 64 (data (desc b)) /\ fits 64 (lockedData b);
  sf_region : fits_s 32 (fd b) /\ fits 64 (size b) /\ fits_s 64 (offset b);
  sf_gl : fits 32 (texture b) /\ fits 64 (image b)
}.

(** ** Messages of the server as its reader sees them *)
Section wire.
(** The [link] of a buffer, and what [AHardwareBuffer_sendHandleToUnixSocket]
    writes for a handle. *)
Context (link : LorieBuffer -> list Z) (send_handle : Z -> list cell).

Definition wire_buffer (m : Buffer.message) : list cell :=
  (Byte <$> struct_bytes (link (msg_struct m)) (msg_struct m))
  ++ match msg_fd m with Some fd => ancil_send_fd fd | None => [] end
  ++ match msg_ahb m with Some h => send_handle h | None => [] end.

Definition wire_tail (t : tail) : list cell :=
  match t with
  | NoTail => []
  | TailBytes l => Byte <$> l
  | TailFd fd => ancil_send_fd fd
  | TailBuffer m => wire_buffer m
  end.

Definition wire_message (m : lorieEvent * tail) : list cell := (Byte <$> encode m.1) ++ wire_tail m.2.

(** What was written to [fd], in its order: [outgoing] is most recent first. *)
Definition written (fd : Z) (l : list (Z * (lorieEvent * tail))) : list (lorieEvent * tail) :=
  omap (fun fm => if fm.1 =? fd then Some fm.2 else None) (rev l).

Definition wire_out (l : list (lorieEvent * tail)) : list cell := concat (wire_message <$> l).
End wire.

(** ** Lemmas *)
Lemma length_struct_bytes link b : length link = 16%nat -> length (struct_bytes link b) = sizeof_LorieBuffer.
Proof. intros Hl. unfold struct_bytes. by rewrite !length_app, !length_le, !length_zeros, Hl. Qed.

Lemma read_bytes_app n l s : length l = n -> read_bytes n ((Byte <$> l) ++ s) = (l, s).
Proof.
  intros Hl. unfold read_bytes. rewrite take_app_length', drop_app_length' by (by rewrite length_fmap).
  f_equal. rewrite <- list_fmap_compose. apply list_fmap_id.
Qed.

Lemma length_wire_message link sh m : (sizeof_lorieEvent <= length (wire_message link sh m))%nat.
Proof. unfold wire_message. rewrite length_app, length_fmap, length_encode. lia. Qed.

(** A buffer's structure is read back as it was written: every
    field of the 120 bytes is found at its place with its width and sign. *)
Theorem struct_roundtrip link b :
  length link = 16%nat -> struct_fits b ->
  length (struct_bytes link b) = sizeof_LorieBuffer /\ struct_of (struct_bytes link b) = b.
Proof.
  intros Hl [Hr (Hw & Hh & Hs) (Hf & Ht) Hi (Ha & Hd & Hld) (Hfd & Hsz & Ho) (Htx & Him)].
  split; [by apply length_struct_bytes|].
  destruct b as [rc [w h st fo ty id ah da] lo ld f sz o tx im]. unfold struct_of. cbn in *.
  f_equal; [|f_equal| | | | | | |].
  all: try first [by apply (from_le_fits 1 8)|by apply (from_le_fits 4 32)|by apply (from_le_fits 8 64)
            |by apply (wrap_s_from_le 2 16)|by apply (wrap_s_from_le 4 32)|by apply (wrap_s_from_le 8 64)].
  by destruct lo.
Qed.
