(* ===== verification/ShmSocket.v ===== *)
(** * Shared memory between processes: the sockets of shm/shmem.c

    [Shm] leaves what a peer answers to its [kernel].  Here the answer is
    computed: the names the sockets are bound to, the bytes of an exchange, the
    serving thread of the owner and the reading side of the client.  Then the
    processes run together: a call that has to read a remote segment waits for
    the answer with the mutex of its process held, and the serving thread of a
    process needs that mutex; a request for a key whose link cannot be made goes
    round its loop with the mutex held, too, a round being one event.  Each process
    has one calling thread: another one would wait for the mutex. *)
From Stdlib Require Import Ascii String.
From S2P Require Import Prelude Buffer Events Server Wire Shm.

(** ** Names *)
Definition hex_digit (d : Z) : Z := if d <? 10 then 48 + d else 87 + d.

(** The [n] lowest hexadecimal digits of [z], the highest first. *)
Fixpoint hex (n : nat) (z : Z) : list Z :=
  match n with
  | O => []
  | S n' => hex n' (z / 16) ++ [hex_digit (z mod 16)]
  end.

(** [sprintf] of "/dev/shm/%08x" of an [int]: it has eight digits at most. *)
Definition socket_name (socket_id : Z) : list Z :=
  ((fun c => Z.of_nat (nat_of_ascii c)) <$> list_ascii_of_string "/dev/shm/") ++ hex 8 (u32 socket_id).

(** ** One exchange *)

(** What goes on the socket, and the result: the byte '!' with the descriptor. *)
Definition ancil_send_fd (fd : Z) : list cell * Z :=
  if fd <? 0 then ([], -1) else ([ByteWithFd 33 fd], 0).

(** [transfer] numbers the descriptor in the receiver; -1 stays in the buffer
    when no descriptor comes. *)
Definition ancil_recv_fd (transfer : Z -> Z) (s : list cell) : Z :=
  match s with
  | ByteWithFd _ fd :: _ => transfer fd
  | _ => -1
  end.

(** One turn of the serving thread: what it received, what it sends before it
    closes the connection. *)
Definition ashv_thread_turn (received : list cell) (st : shm_state) : list cell :=
  if negb (length received =? 4)%nat then []
  else match ashv_serve (Some (i32 (from_le (read_bytes 4 received).1))) st with
  | None => []
  | Some (ky, fd) => (Byte <$> le 4 ky) ++ (ancil_send_fd fd).1
  end.

(** The rest of [ashv_read_remote_segment] up to the size of the region, which
    [ioctl] tells for the descriptor received. *)
Definition read_answer (transfer ashmem_get_size_region : Z -> Z) (answer : list cell) : remote_reply :=
  if (length answer <? 4)%nat then NoReply
  else
    let '(ky, rest) := read_bytes 4 answer in
    let fd := ancil_recv_fd transfer rest in
    if fd <? 0 then NoReply else Reply (i32 (from_le ky)) fd (ashmem_get_size_region fd).

(** The process whose socket has the name. *)
Definition listens_at (name : list Z) (st : shm_state) : Prop :=
  ashv_listening_thread_id st = true /\ socket_name (ashv_local_socket_id st) = name.
#[export] Instance listens_at_dec name st : Decision (listens_at name st).
Proof. unfold listens_at. apply _. Defined.

Definition connect (net : list shm_state) (shmid : Z) : option nat :=
  fst <$> list_find (listens_at (socket_name (ashv_socket_id_from_shmid shmid))) net.

(** The whole exchange with the process that answers at once. *)
Definition exchange (net : list shm_state) (transfer ashmem_get_size_region : Z -> Z) (shmid : Z) : remote_reply :=
  match connect net shmid with
  | None => NoReply
  | Some r =>
      match net !! r with
      | None => NoReply
      | Some st => read_answer transfer ashmem_get_size_region (ashv_thread_turn (Byte <$> le 4 shmid) st)
      end
  end.

(** ** Processes that run together *)

(** [own] is the identifier a keyed request would use, -1 as long as it has none. *)
Inductive call_state : Type :=
  | Idle
  | Reading (k : kernel) (c : shm_call) (own shmid : Z)     (** in [read], the mutex held *)
  | Answered (k : kernel) (c : shm_call) (own shmid : Z) (reply : remote_reply)
  | Looping (k : kernel) (c : shm_call) (own : Z).          (** before another round, the mutex held *)

Record process : Type := mk_process {
  table : shm_state;
  caller : call_state;
  backlog : list (nat * Z);            (** connections to accept: client and identifier sent *)
  serving : option (nat * Z);          (** received, the serving thread waits for the mutex *)
  results : list Z                     (** of the calls, most recent first *)
}.
Record processes : Type := mk_processes { procs : list process; tmp : gmap Z Z }.

Inductive event : Type :=
  | Call (p : nat) (k : kernel) (c : shm_call)
  | Accept (p : nat)
  | Serve (p : nat) (newfd rsize : Z)  (** the number of the descriptor in the client, its size *)
  | Return (p : nat)
  | Round (p : nat).                   (** of the loop of a keyed request, after the first *)

Definition idle (q : process) : bool := match caller q with Idle => true | _ => false end.
Definition set_caller c q := mk_process (table q) c (backlog q) (serving q) (results q).
Definition set_backlog l q := mk_process (table q) (caller q) l (serving q) (results q).
Definition set_serving r q := mk_process (table q) (caller q) (backlog q) r (results q).
Definition set_table st q := mk_process st (caller q) (backlog q) (serving q) (results q).
Definition returned st r q := mk_process st Idle (backlog q) (serving q) (r :: results q).

(** What a call does before it takes the mutex, and whether it takes it. *)
Definition before_mutex (k : kernel) (c : shm_call) (st : shm_state) : shm_state * bool :=
  if syscall_supported st then (st, false)
  else match c with
  | CGet _ _ _ => start_listening k (ashv_check_pid k st)
  | _ => (ashv_check_pid k st, true)
  end.

(** What it does with the mutex, up to the end of a round of the loop of a keyed
    request: what it returns, or the identifier it goes on with. *)
Definition locked_part (k : kernel) (c : shm_call) (own : Z) (st : shm_state) : outcome (shm_state * (Z + Z)) :=
  match c with
  | CGet _ ky sz =>
      if ky =? IPC_PRIVATE then let '(st, r) := create_segment k ky (-1) sz st in Ret (st, inl r)
      else
        '(st, own, r) ← key_round k ky own st;
        Ret match r with
            | Some (Existing shmid) => (st, inl shmid)
            | Some (Owned shmid) => let '(st, r) := create_segment k ky shmid sz st in (st, inl r)
            | None => (st, inr own)
            end
  | _ => '(st, r) ← run_call k c st; Ret (st, inl r)
  end.

(** The remote segment a call reads, if it does. *)
Definition wanted (c : shm_call) (st : shm_state) : option Z :=
  match c with
  | CGet _ ky _ =>
      if ky =? IPC_PRIVATE then None
      else match links st !! ky with
      | None => None
      | Some target =>
          if target =? 0 then None
          else match ashv_find_local_index target (shmem st) with Some _ => None | None => Some target end
      end
  | CAt shmid _ =>
      match ashv_find_local_index shmid (shmem st) with
      | Some _ => None
      | None => if ashv_socket_id_from_shmid shmid =? ashv_local_socket_id st then None else Some shmid
      end
  | _ => None
  end.

Definition answering (shmid : Z) (reply : remote_reply) (k : kernel) : kernel :=
  mk_kernel (getpid k) (getpagesize k) (socket_fd k) (bind_ok k) (listen_ok k) (symlink_ok k)
    (ashmem_open k) (ashmem_set_name k) (ashmem_set_size k)
    (fun i => if i =? shmid then reply else NoReply)
    (mmap k) (sys_shmget k) (sys_shmat k) (sys_shmdt k) (sys_shmctl k).

(** The rest of a call, or of a round.  A keyed request has read its link before
    it read the segment; the link is removed and made again only when that failed
    and links can be made. *)
Definition complete (p : nat) (k : kernel) (c : shm_call) (own : Z) (answer : option (Z * remote_reply))
  (sys : processes) : option processes :=
  q ← procs sys !! p;
  let '(k', seen, kept) :=
    match answer with
    | None => (k, tmp sys, false)
    | Some (shmid, reply) =>
        (answering shmid reply k,
         match c with CGet _ ky _ => <[ky := shmid]> (tmp sys) | _ => tmp sys end,
         negb (refused reply) || negb (symlink_ok k))
    end in
  match locked_part k' c own (set_links seen (table q)) with
  | Fault _ => None
  | Ret (st, r) =>
      Some (mk_processes
        (<[p := match r with
                | inl r => returned st r q
                | inr own => set_caller (Looping k c own) (set_table st q)
                end]> (procs sys))
        (if kept : bool then tmp sys else links st))
  end.

(** A round from its beginning: it waits for an answer, or needs none. *)
Definition attempt (p : nat) (k : kernel) (c : shm_call) (own : Z) (sys : processes) : option processes :=
  q ← procs sys !! p;
  match wanted c (set_links (tmp sys) (table q)) with
  | None => complete p k c own None sys
  | Some shmid =>
      match connect (table <$> procs sys) shmid with
      | None => complete p k c own (Some (shmid, NoReply)) sys
      | Some r =>
          let l := <[p := set_caller (Reading k c own shmid) q]> (procs sys) in
          Some (mk_processes (alter (fun s => set_backlog (backlog s ++ [(p, shmid)]) s) r l) (tmp sys))
      end
  end.

Definition call (p : nat) (k : kernel) (c : shm_call) (sys : processes) : option processes :=
  q ← procs sys !! p;
  if negb (idle q) then None
  else
    let '(st, takes) := before_mutex k c (table q) in
    if takes : bool then attempt p k c (-1) (mk_processes (<[p := set_table st q]> (procs sys)) (tmp sys))
    else match run_call k c (table q) with
    | Fault _ => None
    | Ret (st, r) => Some (mk_processes (<[p := returned st r q]> (procs sys)) (tmp sys))
    end.

Definition deliver (shmid : Z) (reply : remote_reply) (q : process) : process :=
  match caller q with
  | Reading k c own i => if i =? shmid then set_caller (Answered k c own i reply) q else q
  | _ => q
  end.

Definition step (e : event) (sys : processes) : option processes :=
  match e with
  | Call p k c => call p k c sys
  | Accept p =>
      q ← procs sys !! p;
      match serving q, backlog q with
      | None, r :: rest => Some (mk_processes (<[p := set_serving (Some r) (set_backlog rest q)]> (procs sys)) (tmp sys))
      | _, _ => None
      end
  | Serve p newfd rsize =>
      q ← procs sys !! p;
      match serving q with
      | Some (client, shmid) =>
          if idle q then
            let reply := read_answer (fun _ => newfd) (fun _ => rsize)
                           (ashv_thread_turn (Byte <$> le 4 shmid) (table q)) in
            Some (mk_processes (alter (deliver shmid reply) client (<[p := set_serving None q]> (procs sys))) (tmp sys))
          else None
      | None => None
      end
  | Return p =>
      q ← procs sys !! p;
      match caller q with
      | Answered k c own shmid reply => complete p k c own (Some (shmid, reply)) sys
      | _ => None
      end
  | Round p =>
      q ← procs sys !! p;
      match caller q with
      | Looping k c own => attempt p k c own sys
      | _ => None
      end
  end.

Fixpoint run_events (es : list event) (sys : processes) : option processes :=
  match es with
  | [] => Some sys
  | e :: es => sys1 ← step e sys; run_events es sys1
  end.

(** Turns of the threads, as opposed to new calls and to further rounds of a loop. *)
Definition internal (e : event) : Prop := match e with Call _ _ _ | Round _ => False | _ => True end.
Definition settled (sys : processes) : Prop := forall e, internal e -> step e sys = None.
Definition busy (sys : processes) (p : nat) : Prop :=
  exists q, procs sys !! p = Some q /\ caller q <> Idle.
Definition carries (q : process) (r : nat * Z) : Prop := r ∈ backlog q \/ serving q = Some r.
Definition waits_for (sys : processes) (p r : nat) : Prop :=
  exists q k c own shmid s, procs sys !! p = Some q /\ caller q = Reading k c own shmid
    /\ procs sys !! r = Some s /\ carries s (p, shmid).
Definition fresh (sys : processes) : Prop :=
  Forall (fun q => caller q = Idle /\ backlog q = [] /\ serving q = None) (procs sys).

(** A process goes round the loop for a key. *)
Definition loops_for (sys : processes) (p : nat) (ky : Z) : Prop :=
  exists q k fuel sz own, procs sys !! p = Some q /\ caller q = Looping k (CGet fuel ky sz) own
    /\ ky <> IPC_PRIVATE /\ symlink_ok k = false.

(** It loops, or a process that has a request of it leads to one that does. *)
Inductive leads_to_loop (sys : processes) (p : nat) : Prop :=
  | leads_itself ky : loops_for sys p ky -> leads_to_loop sys p
  | leads_on r s shmid :
      procs sys !! r = Some s -> carries s (p, shmid) -> leads_to_loop sys r -> leads_to_loop sys p.

(** What the threads have left to do. *)
Definition work (q : process) : nat :=
  3 * length (backlog q) + (match serving q with Some _ => 2 | None => 0 end)
  + match caller q with Answered _ _ _ _ _ => 1 | _ => 0 end.
Definition weight (sys : processes) : nat := sum_list_with work (procs sys).

(** ** Names and bytes *)
Lemma hex_digit_inj a b : 0 <= a < 16 -> 0 <= b < 16 -> hex_digit a = hex_digit b -> a = b.
Proof. unfold hex_digit. destruct (Z.ltb_spec a 10), (Z.ltb_spec b 10); lia. Qed.

Lemma hex_inj n a b : hex n a = hex n b -> a `mod` 16 ^ Z.of_nat n = b `mod` 16 ^ Z.of_nat n.
Proof.
  revert a b. induction n as [|n IH]; intros a b; cbn [hex]; [by rewrite !Z.mod_1_r|].
  intros [H1%IH H2]%app_inj_tail. apply hex_digit_inj in H2; [|apply Z.mod_pos_bound; lia..].
  rewrite Nat2Z.inj_succ, Z.pow_succ_r by lia. pose proof (Z.pow_pos_nonneg 16 (Z.of_nat n)).
  rewrite !Z.rem_mul_r by lia. by rewrite H1, H2.
Qed.

Lemma socket_name_inj a b : socket_name a = socket_name b -> u32 a = u32 b.
Proof.
  unfold socket_name. intros H%app_inv_head%hex_inj. revert H. change (16 ^ Z.of_nat 8) with (2 ^ 32).
  unfold wrap_u. by rewrite !Z.mod_mod by lia.
Qed.

Lemma send_recv_fd fd transfer :
  ancil_recv_fd transfer (ancil_send_fd fd).1 = if fd <? 0 then -1 else transfer fd.
Proof. unfold ancil_send_fd. by destruct (fd <? 0). Qed.

(** The turn of the owner and the reading side agree on the bytes. *)
Lemma read_turn st shmid ky fd transfer size_of :
  fits_s 32 shmid -> fits_s 32 ky -> 0 <= fd -> 0 <= transfer fd ->
  ashv_serve (Some shmid) st = Some (ky, fd) ->
  read_answer transfer size_of (ashv_thread_turn (Byte <$> le 4 shmid) st) = Reply ky (transfer fd) (size_of (transfer fd)).
Proof.
  intros Hs Hk Hfd Ht Hserve. unfold ashv_thread_turn.
  rewrite length_fmap, length_le. cbn [Nat.eqb negb].
  rewrite <- (app_nil_r (Byte <$> le 4 shmid)), read_bytes_app by apply length_le. cbn [fst].
  rewrite (wrap_s_from_le 4 32), Hserve by (done || lia). unfold read_answer.
  rewrite length_app, length_fmap, length_le. cbn [Nat.ltb Nat.leb Nat.add].
  rewrite read_bytes_app by apply length_le. rewrite send_recv_fd.
  rewrite (proj2 (Z.ltb_ge fd 0)), (proj2 (Z.ltb_ge (transfer fd) 0)) by lia.
  by rewrite (wrap_s_from_le 4 32) by (done || lia).
Qed.

(** A segment the owner does not have gets no answer. *)
Lemma read_turn_none st shmid transfer size_of :
  fits_s 32 shmid -> shmid ∉ (id <$> shmem st) ->
  read_answer transfer size_of (ashv_thread_turn (Byte <$> le 4 shmid) st) = NoReply.
Proof.
  intros Hs Hn. unfold ashv_thread_turn.
  rewrite length_fmap, length_le. cbn [Nat.eqb negb].
  rewrite <- (app_nil_r (Byte <$> le 4 shmid)), read_bytes_app by apply length_le. cbn [fst].
  rewrite (wrap_s_from_le 4 32) by (done || lia). unfold ashv_serve. cbn [mbind option_bind].
  by rewrite (proj2 (find_local_index_None _ _) Hn).
Qed.

Lemma shmid_fits sid c : fits_s 32 (ashv_shmid_from_counter sid c).
Proof. unfold fits_s, ashv_shmid_from_counter. apply wrap_s_bound. lia. Qed.

Lemma socket_id_read_back sid c :
  0 <= sid < 0x10000 -> 0 <= c < 0x8000 ->
  let back := ashv_socket_id_from_shmid (ashv_shmid_from_counter sid c) in
  if sid <? 0x8000 then back = sid else - 0x8000 <= back <= 0.
Proof.
  intros Hs Hc. cbn. unfold ashv_socket_id_from_shmid, ashv_shmid_from_counter.
  destruct (Z.ltb_spec sid 0x8000).
  - rewrite wrap_s_small by lia. rewrite Z.quot_div_nonneg by lia. divmod.
  - assert (i32 (sid * 0x10000 + c) = sid * 0x10000 + c - 2 ^ 32) as -> by divmod.
    Z.quot_rem_to_equations. lia.
Qed.

(** Every serving process has a socket id of its own, of 16 bits. *)
Definition sockets_ok (net : list shm_state) : Prop :=
  forall i st, net !! i = Some st -> ashv_listening_thread_id st = true ->
    0 <= ashv_local_socket_id st < 0x10000
    /\ forall j st', net !! j = Some st' -> ashv_listening_thread_id st' = true ->
         ashv_local_socket_id st' = ashv_local_socket_id st -> j = i.

Lemma connect_Some net shmid i :
  sockets_ok net -> connect net shmid = Some i ->
  exists st, net !! i = Some st /\ ashv_listening_thread_id st = true
    /\ ashv_local_socket_id st = u32 (ashv_socket_id_from_shmid shmid).
Proof.
  intros Hok. unfold connect. destruct (list_find _ net) as [[j st]|] eqn:E; [|done].
  apply list_find_Some in E as (Hj & [Hl Hn] & _). intros [= <-]. exists st. split_and!; try done.
  destruct (Hok _ _ Hj Hl) as [Hb _]. apply socket_name_inj in Hn. rewrite <- Hn.
  unfold wrap_u. rewrite Z.mod_small; lia.
Qed.

Lemma connect_owner net i st shmid :
  sockets_ok net -> net !! i = Some st -> ashv_listening_thread_id st = true ->
  ashv_socket_id_from_shmid shmid = ashv_local_socket_id st -> connect net shmid = Some i.
Proof.
  intros Hok Hi Hl E. destruct (Hok _ _ Hi Hl) as [Hb Huniq].
  destruct (connect net shmid) as [j|] eqn:Ej.
  - apply connect_Some in Ej as (st' & Hj & Hl' & E'); [|done]. f_equal.
    eapply Huniq; [done..|]. rewrite E', E. unfold wrap_u. rewrite Z.mod_small; lia.
  - unfold connect in Ej. destruct (list_find _ net) as [[? ?]|] eqn:F; [done|].
    apply list_find_None in F. rewrite Forall_lookup in F. exfalso. apply (F _ _ Hi). split; [done|]. by rewrite E.
Qed.

(** What the exchange for a segment of process [i] gives. *)
Lemma exchange_owner net i ow s c transfer size_of :
  sockets_ok net -> net !! i = Some ow -> ashv_listening_thread_id ow = true -> shm_inv ow ->
  s ∈ shmem ow -> id s = ashv_shmid_from_counter (ashv_local_socket_id ow) c -> 0 <= c < 0x8000 ->
  fits_s 32 (key s) -> 0 <= transfer (descriptor s) ->
  (forall j st, net !! j = Some st -> ashv_local_socket_id st = 0 -> j <> i -> id s ∉ (id <$> shmem st)) ->
  exchange net transfer size_of (id s)
  = if ashv_local_socket_id ow <? 0x8000
    then Reply (key s) (transfer (descriptor s)) (size_of (transfer (descriptor s))) else NoReply.
Proof.
  intros Hok Hi Hl Hinv [j Hs]%list_elem_of_lookup Eid Hc Hk Ht Hzero. destruct (Hok _ _ Hi Hl) as [Hb _].
  pose proof (socket_id_read_back _ c Hb Hc) as Hback. cbn in Hback. rewrite <- Eid in Hback.
  pose proof (shmid_fits (ashv_local_socket_id ow) c) as Hf. rewrite <- Eid in Hf.
  unfold exchange. destruct (ashv_local_socket_id ow <? 0x8000) eqn:E; bool_arith.
  - rewrite (connect_owner _ _ _ _ Hok Hi Hl Hback), Hi. apply read_turn; try done.
    + destruct Hinv as [_ _ Ho _ _]. rewrite Forall_lookup in Ho. destruct (Ho _ _ Hs). lia.
    + by eapply serve_spec.
  - destruct (connect net (id s)) as [r|] eqn:Er; [|done].
    apply connect_Some in Er as (st & Hr & Hl' & E'); [|done]. rewrite Hr.
    destruct (Hok _ _ Hr Hl') as [Hb' _]. apply read_turn_none; [done|].
    assert (ashv_local_socket_id st = 0) as E0 by (unfold wrap_u in *; Z.div_mod_to_equations; lia).
    apply (Hzero _ _ Hr E0). intros ->. simplify_eq. lia.
Qed.

Lemma shmat_no_reply k shmid hint st :
  syscall_supported st = false -> shmem (ashv_check_pid k st) = shmem st -> shmid ∉ (id <$> shmem st) ->
  remote k shmid = NoReply ->
  shmat k shmid hint st = (set_errno EINVAL (ashv_check_pid k st), -1).
Proof.
  intros He El Hid Hr. unfold shmat. rewrite He, El, (proj2 (find_local_index_None _ _) Hid).
  unfold ashv_read_remote_segment. rewrite Hr. by destruct (negb _).
Qed.

(** ** Properties of the exchange *)

(** C20: a process attaches a segment of another process over its socket. The
    name it connects to, the identifier it sends, the key and the descriptor it
    receives are those of the segment, which is mapped with the size of its
    region, read as an int, if that is not 0 or -1 and the 16-bit socket id of the owner is below 0x8000; above, the
    identifier is negative, the signed division leads to another name, and the
    segment cannot be attached at all: EINVAL, the table as before. *)
Theorem attach_over_socket net i ow s c transfer size_of k hint st :
  sockets_ok net -> net !! i = Some ow -> ashv_listening_thread_id ow = true -> shm_inv ow ->
  s ∈ shmem ow -> id s = ashv_shmid_from_counter (ashv_local_socket_id ow) c -> 0 <= c < 0x8000 ->
  fits_s 32 (key s) -> 0 < size s ->
  (forall j st', net !! j = Some st' -> ashv_local_socket_id st' = 0 -> j <> i -> id s ∉ (id <$> shmem st')) ->
  remote k = exchange net transfer size_of ->
  shm_inv st -> syscall_supported st = false -> (ashv_pid_setup st = 0 \/ ashv_pid_setup st = getpid k) ->
  (id s ∉ (id <$> shmem st)) -> ashv_local_socket_id st <> ashv_local_socket_id ow ->
  let fd := transfer (descriptor s) in
  0 < fd -> (fd ∉ fds st) -> size_of fd = size s ->
  let n := i32 (size s) in
  let a := mmap k hint (u64 n) fd in
  a <> -1 -> a <> 0 -> (a ∉ (addr <$> shmem st)) ->
  (size s < 2 ^ 31 -> u64 n = size s /\ negb ((n =? 0) || (n =? -1)) = true)
  /\ exists st',
    if (ashv_local_socket_id ow <? 0x8000) && negb ((n =? 0) || (n =? -1))
    then shmat k (id s) hint st = (st', a) /\ shmem st' = shmem st ++ [mk_shmem (id s) a fd (u64 n) false (key s)]
    else shmat k (id s) hint st = (st', -1) /\ shmem st' = shmem st /\ errno st' = EINVAL.
Proof.
  intros Hok Hi Hl Hinv Hin Eid Hc Hk Hsz Hzero Hr Hst He Hp Hid Hne fd Hfd Hnew Hsize n a Ha1 Ha0 Ha.
  split.
  { intros Hlt. assert (n = size s) as -> by (apply wrap_s_small; simpl; lia).
    split; [apply wrap_u_small; lia|]. apply negb_true_iff, orb_false_iff. split; apply Z.eqb_neq; lia. }
  pose proof (exchange_owner net i ow s c transfer size_of) as Hx.
  rewrite <- Hr in Hx. fold fd in Hx. rewrite Hsize in Hx. specialize (Hx Hok Hi Hl Hinv Hin Eid Hc Hk).
  specialize (Hx ltac:(lia) Hzero). destruct (Hok _ _ Hi Hl) as [Hb _].
  pose proof (socket_id_read_back _ c Hb Hc) as Hback. cbn in Hback. rewrite <- Eid in Hback.
  destruct (check_pid_fields k st Hp) as (_ & El & _ & _ & _ & Esid & _).
  destruct (ashv_local_socket_id ow <? 0x8000) eqn:Esock; cbn [andb].
  - destruct (negb ((n =? 0) || (n =? -1))) eqn:Er; [apply negb_true_iff in Er|apply negb_false_iff in Er].
    + apply list_elem_of_lookup in Hin as [j Hs].
      destruct (remote_attach_detach k ow st j s fd (size s) hint) as (st1 & _ & E1 & E2 & _); try done; [|congruence|by exists st1].
      by rewrite (serve_spec _ _ _ Hinv Hs).
    + unfold shmat. rewrite He, El, (proj2 (find_local_index_None _ _) Hid), Esid.
      rewrite (proj2 (Z.eqb_neq _ _)) by congruence. cbn [negb].
      destruct (read_refused k (id s) (ashv_check_pid k st)) as (st' & -> & E1 & _); [by rewrite Hx|].
      eexists. split; [reflexivity|]. split; [by cbn; congruence|done].
  - eexists. rewrite shmat_no_reply by done. by split_and!.
Qed.

Definition owner_of (socket_id : Z) : shm_state :=
  mk_state [mk_shmem (ashv_shmid_from_counter socket_id 1) 0 7 4096 false 42] 1 socket_id 100 true false ∅ {[7]} ENONE [].
Definition attaching_kernel (socket_id : Z) : kernel := mk_kernel 101 4096 3 (fun _ => true) true true 9 0 (fun _ => 0)
  (exchange [owner_of socket_id] (fun _ => 12) (fun _ => 4096))
  (fun _ _ _ => 0x9000) (fun _ _ => 0) (fun _ _ => 0) (fun _ => 0) (fun _ _ => 0).

Lemma sockets_ok_one st : 0 <= ashv_local_socket_id st < 0x10000 -> sockets_ok [st].
Proof.
  intros Hb i st' [-> <-]%list_lookup_singleton_Some Hl. split; [done|].
  by intros j st' [-> <-]%list_lookup_singleton_Some.
Qed.

Lemma attach_over_socket_witness :
  (shmat (attaching_kernel 0x7fff) 0x7fff0001 0 shm_init).2 = 0x9000
  /\ (shmat (attaching_kernel 0x8001) (-0x7ffeffff) 0 shm_init).2 = -1.
Proof.
  assert (forall n, 0 < n < 0x10000 -> exists st', if (n <? 0x8000) && true
    then shmat (attaching_kernel n) (ashv_shmid_from_counter n 1) 0 shm_init = (st', 0x9000)
         /\ shmem st' = shmem shm_init ++ [mk_shmem (ashv_shmid_from_counter n 1) 0x9000 12 4096 false 42]
    else shmat (attaching_kernel n) (ashv_shmid_from_counter n 1) 0 shm_init = (st', -1)
         /\ shmem st' = shmem shm_init /\ errno st' = EINVAL) as H.
  { intros n Hn. set (s := mk_shmem (ashv_shmid_from_counter n 1) 0 7 4096 false 42).
    refine (proj2 (attach_over_socket [owner_of n] 0 (owner_of n) s 1 (fun _ => 12) (fun _ => 4096)
      (attaching_kernel n) 0 shm_init (sockets_ok_one _ _) eq_refl eq_refl _ _ eq_refl _ _ _ _ eq_refl
      _ eq_refl (or_introl eq_refl) _ _ _ _ eq_refl _ _ _)).
    - cbn. lia.
    - apply (inv_singleton _ s); cbn; [done|lia|set_solver|done].
    - constructor.
    - lia.
    - unfold fits_s. cbn. lia.
    - cbn. lia.
    - intros j st' [-> <-]%list_lookup_singleton_Some. done.
    - split; cbn; try constructor. done.
    - apply not_elem_of_nil.
    - cbn. lia.
    - lia.
    - apply not_elem_of_empty.
    - cbn. lia.
    - cbn. lia.
    - apply not_elem_of_nil. }
  split.
  - destruct (H 0x7fff ltac:(lia)) as [st' [Hs _]].
    change 0x7fff0001 with (ashv_shmid_from_counter 0x7fff 1). by rewrite Hs.
  - destruct (H 0x8001 ltac:(lia)) as [st' [Hs _]].
    change (-0x7ffeffff) with (ashv_shmid_from_counter 0x8001 1). by rewrite Hs.
Defined.

(** ** What a turn changes *)

(** The rounds of a call that holds the mutex are the loop of [shmget]. *)
Fixpoint rounds (fuel : nat) (k : kernel) (c : shm_call) (own : Z) (st : shm_state) : outcome (shm_state * Z) :=
  match fuel with
  | O => Fault FuelExhausted
  | S fuel =>
      '(st, r) ← locked_part k c own st;
      match r with
      | inl r => Ret (st, r)
      | inr own => rounds fuel k c own st
      end
  end.

Lemma rounds_keyed fuel n k ky sz own st :
  ky <> IPC_PRIVATE ->
  rounds fuel k (CGet n ky sz) own st =
  ('(st, r) ← key_loop fuel k ky own st;
   match r with Existing shmid => Ret (st, shmid) | Owned shmid => Ret (create_segment k ky shmid sz st) end).
Proof.
  intros Hk. revert own st. induction fuel as [|fuel IH]; intros own st; [done|]. cbn [rounds key_loop locked_part].
  rewrite (proj2 (Z.eqb_neq _ _) Hk). destruct (key_round k ky own st) as [[[st1 own1] [[i|i]|]]|]; cbind; [done| |by apply IH|done].
  by destruct (create_segment k ky i sz st1).
Qed.

Lemma rounds_of_shmget fuel n k ky sz st :
  syscall_supported st = false ->
  shmget (S fuel) k ky sz st =
  let '(st1, takes) := before_mutex k (CGet n ky sz) st in
  if takes : bool then rounds (S fuel) k (CGet n ky sz) (-1) st1 else Ret (st1, -1).
Proof.
  intros He. unfold shmget, before_mutex. rewrite He.
  destruct (start_listening k (ashv_check_pid k st)) as [st1 []]; cbn [negb]; [|done].
  destruct (Z.eqb_spec ky IPC_PRIVATE) as [->|Hk]; cbn [negb]; [|by rewrite rounds_keyed].
  cbn [rounds locked_part]. rewrite Z.eqb_refl. by destruct (create_segment k IPC_PRIVATE (-1) sz st1).
Qed.

Lemma locked_total k c own st :
  exists st' r, locked_part k c own st = Ret (st', r)
    /\ forall own', r = inr own' -> exists n ky sz, c = CGet n ky sz /\ ky <> IPC_PRIVATE /\ symlink_ok k = false.
Proof.
  destruct c as [n ky sz|shmid a|a|shmid cmd buf]; cbn [locked_part run_call]; cbind.
  - destruct (Z.eqb_spec ky IPC_PRIVATE) as [->|Hk].
    { destruct (create_segment k IPC_PRIVATE (-1) sz st). by eexists _, _. }
    destruct (round_total k ky own st) as (st1 & own1 & r & -> & Hr). cbind. destruct r as [[i|i]|].
    + by eexists _, _.
    + destruct (create_segment k ky i sz st1). by eexists _, _.
    + eexists _, _. split; [reflexivity|]. intros _ _. destruct Hr as [Hs _]. by exists n, ky, sz.
  - destruct (shmat k shmid a st). by eexists _, _.
  - destruct (shmdt k a st). by eexists _, _.
  - destruct (fst (shmctl k shmid cmd buf st)). by eexists _, _.
Qed.

(** Where the caller of a process that has taken a turn stands, or what its round
    left to the loop. *)
Definition settled_round (q q' : process) : Prop :=
  (exists st r, q' = returned st r q)
  \/ exists st k own n ky sz, q' = set_caller (Looping k (CGet n ky sz) own) (set_table st q)
       /\ ky <> IPC_PRIVATE /\ symlink_ok k = false.

Lemma complete_procs p k c own answer sys q :
  procs sys !! p = Some q ->
  exists q' m, complete p k c own answer sys = Some (mk_processes (<[p := q']> (procs sys)) m) /\ settled_round q q'.
Proof.
  intros Hq. unfold complete. rewrite Hq. cbn [mbind option_bind].
  assert (forall k' seen kept, symlink_ok k' = symlink_ok k -> exists q' m,
    match locked_part k' c own (set_links seen (table q)) with
    | Fault _ => None
    | Ret (st, r) => Some (mk_processes (<[p := match r with
        | inl r => returned st r q | inr own => set_caller (Looping k c own) (set_table st q) end]> (procs sys))
        (if kept : bool then tmp sys else links st))
    end = Some (mk_processes (<[p := q']> (procs sys)) m) /\ settled_round q q') as H.
  { intros k' seen kept Hsym. destruct (locked_total k' c own (set_links seen (table q))) as (st & r & -> & Hr).
    eexists _, _. split; [reflexivity|]. destruct r as [r|own']; [left; by eexists _, _|right].
    destruct (Hr own' eq_refl) as (n & ky & sz & -> & Hk & Hs). exists st, k, own', n, ky, sz. by rewrite <- Hsym. }
  destruct answer as [[i reply]|]; [by apply H|by apply (H k (tmp sys) false)].
Qed.

(** The turns by what they do to the processes; [p] is the one whose turn it is. *)
Inductive change (sys sys' : processes) (p : nat) (q : process) : Prop :=
  | change_ended q' :
      (forall k c own i, caller q <> Reading k c own i) -> settled_round q q' ->
      procs sys' = <[p := q']> (procs sys) -> change sys sys' p q
  | change_reading st k c own i r s :
      (forall k c own i, caller q <> Reading k c own i) ->
      <[p := set_caller (Reading k c own i) (set_table st q)]> (procs sys) !! r = Some s ->
      procs sys' = <[r := set_backlog (backlog s ++ [(p, i)]) s]>
                     (<[p := set_caller (Reading k c own i) (set_table st q)]> (procs sys)) ->
      change sys sys' p q
  | change_accepted x rest :
      serving q = None -> backlog q = x :: rest ->
      procs sys' = <[p := set_serving (Some x) (set_backlog rest q)]> (procs sys) -> change sys sys' p q
  | change_served client i reply :
      caller q = Idle -> serving q = Some (client, i) ->
      procs sys' = alter (deliver i reply) client (<[p := set_serving None q]> (procs sys)) -> change sys sys' p q.

Lemma alter_found {A} (f : A -> A) (l : list A) (i : nat) x : l !! i = Some x -> alter f i l = <[i := f x]> l.
Proof. revert i. induction l as [|y l IH]; intros [|i] H; simplify_eq/=; [done|]. f_equal. by apply IH. Qed.

Lemma connect_lookup l shmid r : connect (table <$> l) shmid = Some r -> is_Some (l !! r).
Proof.
  unfold connect. destruct (list_find _ _) as [[j st]|] eqn:E; [|done]. intros [= <-].
  apply list_find_Some in E as (Hj & _). rewrite list_lookup_fmap in Hj. by destruct (l !! j).
Qed.

Lemma insert_is_Some {A} (l : list A) (i : nat) x (r : nat) : is_Some (l !! r) -> is_Some (<[i := x]> l !! r).
Proof. rewrite !lookup_lt_is_Some. by rewrite length_insert. Qed.

Lemma attempt_change p k c own sys q st sys' :
  procs sys !! p = Some q -> (forall k c own i, caller q <> Reading k c own i) ->
  attempt p k c own (mk_processes (<[p := set_table st q]> (procs sys)) (tmp sys)) = Some sys' -> change sys sys' p q.
Proof.
  intros Hq Hnr. unfold attempt. cbn [procs tmp]. rewrite list_lookup_insert_eq by (by eapply lookup_lt_Some).
  cbn [mbind option_bind table set_table].
  assert (forall answer, complete p k c own answer (mk_processes (<[p := set_table st q]> (procs sys)) (tmp sys)) = Some sys' ->
    change sys sys' p q) as Hend.
  { intros answer. destruct (complete_procs p k c own answer (mk_processes (<[p := set_table st q]> (procs sys)) (tmp sys)) (set_table st q))
      as (q' & m & -> & Hq'); [cbn; apply list_lookup_insert_eq; by eapply lookup_lt_Some|].
    intros [= <-]. eapply (change_ended _ _ _ _ q'); [done| |cbn; by rewrite list_insert_insert_eq].
    destruct Hq' as [(st' & r & ->)|(st' & k' & own' & n & ky & sz & -> & ?)]; [by left; exists st', r|right].
    by exists st', k', own', n, ky, sz. }
  destruct (wanted c _) as [i|]; [|apply Hend].
  destruct (connect _ i) as [r|] eqn:Er; [|apply Hend]. clear Hend. apply connect_lookup in Er as Hr.
  rewrite list_insert_insert_eq.
  assert (is_Some (<[p := set_caller (Reading k c own i) (set_table st q)]> (procs sys) !! r)) as [s Hs].
  { apply insert_is_Some. revert Hr. rewrite !lookup_lt_is_Some. by rewrite length_insert. }
  intros [= <-]. eapply (change_reading _ _ _ _ st k c own i r s); [done..|].
  cbn. by rewrite (alter_found _ _ _ _ Hs).
Qed.

Lemma same_table q : set_table (table q) q = q.
Proof. by destruct q. Qed.

Lemma attempt_again p k c own sys q sys' :
  procs sys !! p = Some q -> (forall k c own i, caller q <> Reading k c own i) ->
  attempt p k c own sys = Some sys' -> change sys sys' p q.
Proof.
  intros Hq Hnr Hrun. apply (attempt_change p k c own sys q (table q) sys' Hq Hnr).
  rewrite same_table, list_insert_id by done. by destruct sys.
Qed.

Lemma idle_not_reading q k c own i : idle q = true -> caller q <> Reading k c own i.
Proof. unfold idle. by destruct (caller q). Qed.

Definition actor (e : event) : nat :=
  match e with Call p _ _ | Accept p | Serve p _ _ | Return p | Round p => p end.

Lemma turn_change e sys sys' :
  step e sys = Some sys' -> exists q, procs sys !! actor e = Some q /\ change sys sys' (actor e) q.
Proof.
  destruct e as [p k c|p|p newfd rsize|p|p]; cbn [step actor]; unfold call;
    (destruct (procs sys !! p) as [q|] eqn:Hq; cbn [mbind option_bind]; [|done]); intros Hrun; exists q; (split; [done|]); revert Hrun.
  - destruct (idle q) eqn:Ei; cbn [negb]; [|done]. pose proof (idle_not_reading q) as Hnr.
    destruct (before_mutex k c (table q)) as [st []]; [by apply attempt_change; auto|].
    destruct (run_call k c (table q)) as [[st' r]|]; [|done]. intros [= <-].
    eapply (change_ended _ _ _ _ (returned st' r q)); [auto|left; by eexists _, _|done].
  - destruct (serving q) eqn:Es; [done|]. destruct (backlog q) as [|x rest] eqn:Eb; [done|].
    intros [= <-]. by eapply (change_accepted _ _ _ _ x rest).
  - destruct (serving q) as [[client i]|] eqn:Es; [|done]. destruct (idle q) eqn:Ei; [|done].
    intros [= <-]. eapply (change_served _ _ _ _ client i); try done. unfold idle in Ei. by destruct (caller q).
  - destruct (caller q) as [| |k c own i reply|] eqn:Ec; [done..| |done].
    destruct (complete_procs p k c own (Some (i, reply)) sys q Hq) as (q' & m & -> & Hq'). intros [= <-].
    apply (change_ended _ _ _ _ q'); [by rewrite Ec|done|done].
  - destruct (caller q) as [| | |k c own] eqn:Ec; [done..|]. apply attempt_again; [done|by rewrite Ec].
Qed.

(** ** The invariant *)

(** Every reader's request is with a process, except possibly [x]. *)
Definition carried_but (x : option (nat * Z)) (l : list process) : Prop :=
  forall p q k c own i, l !! p = Some q -> caller q = Reading k c own i -> x <> Some (p, i) ->
    exists r s, l !! r = Some s /\ carries s (p, i).

(** Only requests for a key whose link cannot be made loop. *)
Definition loop_ok (q : process) : Prop :=
  match caller q with
  | Looping k c _ => exists n ky sz, c = CGet n ky sz /\ ky <> IPC_PRIVATE /\ symlink_ok k = false
  | _ => True
  end.

Record sys_ok (sys : processes) : Prop := {
  ok_loops : Forall loop_ok (procs sys);
  ok_carried : carried_but None (procs sys)
}.

Lemma lookup_insert_keep {A} (l : list A) (p : nat) q q' (r : nat) s :
  l !! p = Some q -> l !! r = Some s ->
  exists s', <[p := q']> l !! r = Some s' /\ (s' = s \/ s' = q' /\ s = q).
Proof.
  intros Hp Hr. destruct (decide (p = r)) as [<-|Hne].
  - exists q'. rewrite list_lookup_insert_eq by (by eapply lookup_lt_Some). split; [done|right; split; congruence].
  - exists s. rewrite list_lookup_insert_ne by done. auto.
Qed.

(** Replacing a process that carries no less, [x] apart. *)
Lemma carried_insert x l p q q' :
  carried_but None l -> l !! p = Some q ->
  (forall k c own i, caller q' = Reading k c own i -> caller q = Reading k c own i \/ x = Some (p, i)) ->
  (forall y, carries q y -> x <> Some y -> carries q' y) ->
  carried_but x (<[p := q']> l).
Proof.
  intros Hl Hq Hr Hc p2 q2 k c own i Hq2 Er Hx.
  assert (exists q0, l !! p2 = Some q0 /\ caller q0 = Reading k c own i) as (q0 & Hq0 & Er0).
  { apply list_lookup_insert_Some in Hq2 as [(<- & -> & _)|(_ & Hq2)]; [|by eauto].
    destruct (Hr _ _ _ _ Er); [by eauto|done]. }
  destruct (Hl p2 q0 k c own i Hq0 Er0) as (r & s & Hs & Hcar); [done|].
  destruct (lookup_insert_keep l p q q' r s Hq Hs) as (s' & Hs' & [->|[-> ->]]); exists r; [by eauto|].
  exists q'. auto.
Qed.

Lemma deliver_carries i reply q x : carries (deliver i reply q) x <-> carries q x.
Proof. unfold deliver. destruct (caller q); [done| |done|done]. by case_bool. Qed.

Lemma deliver_caller i reply q :
  caller (deliver i reply q) = caller q
  \/ exists k c own, caller q = Reading k c own i /\ caller (deliver i reply q) = Answered k c own i reply.
Proof.
  unfold deliver. destruct (caller q) as [|k c own j| |] eqn:E; [by left| |by left|by left].
  destruct (Z.eqb_spec j i) as [->|]; [right; by eauto|by left].
Qed.

Lemma deliver_loops i reply q : loop_ok q -> loop_ok (deliver i reply q).
Proof. unfold loop_ok. destruct (deliver_caller i reply q) as [->|(k & c & own & E & ->)]; [done|]. by rewrite E. Qed.

Lemma alter_spec {A} (f : A -> A) (l : list A) (i : nat) :
  l !! i = None /\ alter f i l = l \/ exists x, l !! i = Some x /\ alter f i l = <[i := f x]> l.
Proof.
  destruct (l !! i) as [x|] eqn:E; [right; exists x; split; [done|by apply alter_found]|left]. split; [done|].
  revert i E. induction l as [|y l IH]; intros [|i] E; simplify_eq/=; [done..|]. f_equal. by apply IH.
Qed.

Lemma carried_add l p i r s :
  carried_but (Some (p, i)) l -> l !! r = Some s ->
  carried_but None (<[r := set_backlog (backlog s ++ [(p, i)]) s]> l).
Proof.
  intros Hl Hs p2 q2 k2 c2 own2 i2 Hq2 Er _.
  assert (exists q0, l !! p2 = Some q0 /\ caller q0 = Reading k2 c2 own2 i2) as (q0 & Hq0 & Er0).
  { apply list_lookup_insert_Some in Hq2 as [(<- & <- & _)|(_ & Hq2)]; by eauto. }
  destruct (decide ((p2, i2) = (p, i))) as [->|Hne].
  - exists r, (set_backlog (backlog s ++ [(p, i)]) s). split; [|left; cbn; set_solver].
    apply list_lookup_insert_eq. by eapply lookup_lt_Some.
  - destruct (Hl _ _ _ _ _ _ Hq0 Er0) as (r2 & s2 & Hs2 & Hcar); [congruence|].
    destruct (lookup_insert_keep l r s (set_backlog (backlog s ++ [(p, i)]) s) r2 s2 Hs Hs2)
      as (s' & Hs' & [->|[-> ->]]); exists r2; [by eauto|].
    eexists. split; [exact Hs'|]. destruct Hcar; [left; cbn; set_solver|by right].
Qed.

Lemma carried_delivered l client i reply :
  carried_but (Some (client, i)) l -> carried_but None (alter (deliver i reply) client l).
Proof.
  intros Hl. destruct (alter_spec (deliver i reply) l client) as [[Hn ->]|(s & Hs & ->)];
    intros p2 q2 k2 c2 own2 i2 Hq2 Er _.
  - apply (Hl p2 q2 k2 c2 own2 i2 Hq2 Er). congruence.
  - assert (exists q0, l !! p2 = Some q0 /\ caller q0 = Reading k2 c2 own2 i2 /\ (p2, i2) <> (client, i))
      as (q0 & Hq0 & Er0 & Hne).
    { apply list_lookup_insert_Some in Hq2 as [(<- & <- & _)|(Hne & Hq2)]; [|exists q2; split_and!; congruence].
      unfold deliver in Er. destruct (caller s) as [|k c own j| |] eqn:Ec; [congruence| |congruence|congruence].
      destruct (Z.eqb_spec j i); [done|]. exists s. rewrite Ec in *. split_and!; congruence. }
    destruct (Hl _ _ _ _ _ _ Hq0 Er0) as (r2 & s2 & Hs2 & Hcar); [congruence|].
    destruct (lookup_insert_keep l client s (deliver i reply s) r2 s2 Hs Hs2)
      as (s' & Hs' & [->|[-> ->]]); exists r2; [by eauto|].
    eexists. split; [done|]. by apply deliver_carries.
Qed.

Lemma settled_round_facts q q' :
  settled_round q q' -> loop_ok q' /\ (forall k c own i, caller q' <> Reading k c own i) /\ (forall x, carries q' x <-> carries q x).
Proof.
  intros [(st & r & ->)|(st & k & own & n & ky & sz & -> & Hk & Hs)]; [done|]. split_and!; [by exists n, ky, sz|done|done].
Qed.

Lemma change_ok sys sys' p q : procs sys !! p = Some q -> change sys sys' p q -> sys_ok sys -> sys_ok sys'.
Proof.
  intros Hq Hch [Hr Hc]. pose proof Hr as Hr'. rewrite Forall_lookup in Hr'.
  destruct Hch as [q' Hnr Hq' E|st k c own i r s Hnr Hs E|x rest Es Eb E|client i reply Hi Es E]; split; rewrite E.
  - apply Forall_insert; [done|]. by destruct (settled_round_facts q q' Hq').
  - destruct (settled_round_facts q q' Hq') as (_ & Hn & Hcar). apply (carried_insert None _ p q); try done.
    + intros k c own i Ec. by destruct (Hn k c own i).
    + intros y Hy _. by apply Hcar.
  - assert (Forall loop_ok (<[p := set_caller (Reading k c own i) (set_table st q)]> (procs sys))) as Hr2
      by by apply Forall_insert.
    apply Forall_insert; [done|]. by apply (Forall_lookup_1 _ _ _ _ Hr2 Hs).
  - apply carried_add; [|done]. apply (carried_insert _ _ p q); try done.
    intros k2 c2 own2 i2 [= _ _ _ <-]. by right.
  - apply Forall_insert; [done|]. by apply (Hr' p q).
  - apply (carried_insert None _ p q); try done; [by left|].
    intros y [Hy|Hy] _; [|congruence]. rewrite Eb in Hy. apply elem_of_cons in Hy as [->|Hy]; [by right|by left].
  - assert (Forall loop_ok (<[p := set_serving None q]> (procs sys))) as Hr2
      by (apply Forall_insert; [done|by apply (Hr' p q)]).
    destruct (alter_spec (deliver i reply) (<[p := set_serving None q]> (procs sys)) client)
      as [[_ ->]|(s & Hs & ->)]; [done|].
    apply Forall_insert; [done|]. apply deliver_loops, (Forall_lookup_1 _ _ _ _ Hr2 Hs).
  - apply carried_delivered, (carried_insert _ _ p q); try done; [by left|].
    intros y [Hy|Hy] Hne; [by left|congruence].
Qed.

Lemma run_ok es sys sys' : run_events es sys = Some sys' -> sys_ok sys -> sys_ok sys'.
Proof.
  revert sys. induction es as [|e es IH]; cbn [run_events]; intros sys Hrun Hok; [by simplify_eq|].
  destruct (step e sys) as [sys1|] eqn:E; [|done]. cbn in Hrun. apply (IH sys1 Hrun).
  apply turn_change in E as (q & Hq & Hch). by eapply change_ok.
Qed.

Lemma fresh_ok sys : fresh sys -> sys_ok sys.
Proof.
  unfold fresh. intros Hf. split.
  - apply (Forall_impl _ _ _ Hf). intros q (E & _). unfold loop_ok. by rewrite E.
  - rewrite Forall_lookup in Hf. intros p q k c own i Hq E _. destruct (Hf _ _ Hq) as (E' & _). congruence.
Qed.

(** ** The threads come to rest *)
Lemma sum_insert {A} (f : A -> nat) (l : list A) (i : nat) x y :
  l !! i = Some x -> (sum_list_with f (<[i := y]> l) + f x = sum_list_with f l + f y)%nat.
Proof. revert i. induction l as [|z l IH]; intros [|i] H; simplify_eq/=; [lia|]. apply IH in H. lia. Qed.

Lemma work_delivered i reply q : (work (deliver i reply q) <= S (work q))%nat.
Proof.
  unfold work, deliver. destruct (caller q) as [|k c own j| |] eqn:E; [rewrite E; lia| |rewrite E; lia|rewrite E; lia].
  destruct (j =? i); cbn; rewrite ?E; lia.
Qed.

Lemma work_accepted q x rest :
  serving q = None -> backlog q = x :: rest -> (S (work (set_serving (Some x) (set_backlog rest q))) = work q)%nat.
Proof. unfold work. intros -> ->. cbn. lia. Qed.

Lemma work_served q r : serving q = Some r -> (work (set_serving None q) + 2 = work q)%nat.
Proof. unfold work. intros ->. cbn. lia. Qed.

Lemma work_returned q q' k c own i reply :
  caller q = Answered k c own i reply -> settled_round q q' -> (S (work q') = work q)%nat.
Proof.
  intros E [(st & r & ->)|(st & k' & own' & n & ky & sz & -> & _)]; unfold work; rewrite E; cbn; lia.
Qed.

Lemma turn_work e sys sys' : internal e -> step e sys = Some sys' -> (weight sys' < weight sys)%nat.
Proof.
  destruct e as [|p|p newfd rsize|p|]; [done| | | |done]; intros _; cbn [step];
    (destruct (procs sys !! p) as [q|] eqn:Hq; cbn [mbind option_bind]; [|done]); unfold weight.
  - destruct (serving q) eqn:Es; [done|]. destruct (backlog q) as [|x rest] eqn:Eb; [done|]. intros [= <-]. cbn [procs].
    pose proof (sum_insert work _ _ _ (set_serving (Some x) (set_backlog rest q)) Hq).
    pose proof (work_accepted q x rest Es Eb). lia.
  - destruct (serving q) as [[client i]|] eqn:Es; [|done]. destruct (idle q); [|done]. intros [= <-]. cbn [procs].
    set (reply := read_answer _ _ _).
    pose proof (sum_insert work _ _ _ (set_serving None q) Hq). pose proof (work_served q _ Es).
    destruct (alter_spec (deliver i reply) (<[p := set_serving None q]> (procs sys)) client) as [[_ ->]|(s & Hs & ->)]; [lia|].
    pose proof (sum_insert work _ _ _ (deliver i reply s) Hs). pose proof (work_delivered i reply s). lia.
  - destruct (caller q) as [| |k c own i reply|] eqn:Ec; [done..| |done].
    destruct (complete_procs p k c own (Some (i, reply)) sys q Hq) as (q' & m & -> & Hq'). intros [= <-]. cbn [procs].
    pose proof (sum_insert work _ _ _ q' Hq). pose proof (work_returned q q' _ _ _ _ _ Ec Hq'). lia.
Qed.

Lemma run_work es sys sys' : Forall internal es -> run_events es sys = Some sys' -> (length es + weight sys' <= weight sys)%nat.
Proof.
  intros Hi. revert sys. induction Hi as [|e es He _ IH]; cbn [run_events length]; intros sys Hrun; [by simplify_eq|].
  destruct (step e sys) as [sys1|] eqn:E; [|done]. cbn in Hrun. apply IH in Hrun. apply turn_work in E; [lia|done].
Qed.

(** ** Waiting in a circle *)

(** All members of [W] read, and only members have their requests. *)
Definition closed (W : nat -> Prop) (l : list process) : Prop :=
  forall p, W p ->
    (exists q k c own i, l !! p = Some q /\ caller q = Reading k c own i)
    /\ forall r s i, l !! r = Some s -> carries s (p, i) -> W r.

Lemma closed_not_reading W l p q :
  closed W l -> l !! p = Some q -> (forall k c own i, caller q <> Reading k c own i) -> ~ W p.
Proof. intros Hl Hq Hn Hp. destruct (Hl p Hp) as [(q2 & k & c & own & i & Hq2 & E) _]. simplify_eq. by apply (Hn k c own i). Qed.

Lemma closed_insert W l p q q' :
  closed W l -> l !! p = Some q -> (W p -> caller q' = caller q) ->
  (forall p2 i, W p2 -> carries q' (p2, i) -> carries q (p2, i) \/ W p) ->
  closed W (<[p := q']> l).
Proof.
  intros Hl Hq Hp Hc p2 H2. destruct (Hl p2 H2) as [(q2 & k & c & own & i & Hq2 & E) Hcar]. split.
  - destruct (lookup_insert_keep l p q q' p2 q2 Hq Hq2) as (s & Hs & Hcase). exists s, k, c, own, i. split; [done|].
    destruct (decide (p = p2)) as [->|Hne].
    + rewrite list_lookup_insert_eq in Hs by (by eapply lookup_lt_Some). simplify_eq. by rewrite Hp.
    + rewrite list_lookup_insert_ne in Hs by done. congruence.
  - intros r s j Hs Hj. apply list_lookup_insert_Some in Hs as [(<- & <- & _)|(_ & Hs)]; [|by eapply Hcar].
    destruct (Hc _ _ H2 Hj); [by eapply (Hcar p q j)|done].
Qed.

Lemma change_closed W sys sys' p q :
  procs sys !! p = Some q -> change sys sys' p q -> closed W (procs sys) -> closed W (procs sys').
Proof.
  intros Hq [q' Hnr Hq' E|st k c own i r s Hnr Hs E|x rest Es Eb E|client i reply Hi Es E] Hl; rewrite E; clear E.
  - assert (~ W p) as Hp by (by apply (closed_not_reading _ _ _ q Hl)).
    destruct (settled_round_facts q q' Hq') as (_ & _ & Hcar).
    apply (closed_insert W _ p q); try done. intros p2 j _ Hj. left. by apply Hcar.
  - assert (~ W p) as Hp by (by apply (closed_not_reading _ _ _ q Hl)).
    apply (closed_insert W _ r s); try done.
    + apply (closed_insert W _ p q); try done. by left.
    + intros p2 j H2 [Hj|Hj]; [|left; by right]. cbn in Hj. apply elem_of_app in Hj as [Hj|Hj]; [left; by left|].
      apply list_elem_of_singleton in Hj. congruence.
  - apply (closed_insert W _ p q); try done. intros p2 j _ [Hj|Hj]; left; left; rewrite Eb; cbn in Hj; [by right|].
    injection Hj as ->. by left.
  - assert (~ W p) as Hp by (apply (closed_not_reading _ _ _ q Hl Hq); by rewrite Hi).
    assert (closed W (<[p := set_serving None q]> (procs sys))) as Hl2.
    { apply (closed_insert W _ p q); try done. intros p2 j _ [Hj|Hj]; [left; by left|done]. }
    destruct (alter_spec (deliver i reply) (<[p := set_serving None q]> (procs sys)) client) as [[_ ->]|(s & Hs & ->)]; [done|].
    apply (closed_insert W _ client s); try done.
    + intros Hc. destruct (Hl client Hc) as [_ Hcar]. destruct Hp. eapply (Hcar p q i); [done|by right].
    + intros p2 j _ Hj. left. by apply deliver_carries in Hj.
Qed.

Lemma run_closed W es sys sys' : run_events es sys = Some sys' -> closed W (procs sys) -> closed W (procs sys').
Proof.
  revert sys. induction es as [|e es IH]; cbn [run_events]; intros sys Hrun Hl; [by simplify_eq|].
  destruct (step e sys) as [sys1|] eqn:E; [|done]. cbn in Hrun. apply (IH sys1 Hrun).
  apply turn_change in E as (q & Hq & Hch). by eapply change_closed.
Qed.

(** When no thread can move, a process that holds a request is itself in a call. *)
Lemma settled_carrier sys r s x : settled sys -> procs sys !! r = Some s -> carries s x -> caller s <> Idle.
Proof.
  intros Hset Hs Hx Hidle. destruct (serving s) as [[client i]|] eqn:Es.
  - specialize (Hset (Serve r 0 0) I). cbn in Hset. rewrite Hs in Hset. cbn in Hset. rewrite Es in Hset.
    unfold idle in Hset. by rewrite Hidle in Hset.
  - destruct Hx as [Hx|Hx]; [|congruence]. specialize (Hset (Accept r) I). cbn in Hset. rewrite Hs in Hset.
    cbn in Hset. rewrite Es in Hset. destruct (backlog s); [by apply elem_of_nil in Hx|done].
Qed.

Lemma settled_busy sys p :
  sys_ok sys -> settled sys -> busy sys p ->
  (exists ky, loops_for sys p ky) \/ exists q k c own i, procs sys !! p = Some q /\ caller q = Reading k c own i.
Proof.
  intros [Hr _] Hset (q & Hq & Hn). rewrite Forall_lookup in Hr. specialize (Hr _ _ Hq). unfold loop_ok in Hr.
  destruct (caller q) as [|k c own i|k c own i reply|k c own] eqn:E; [done|right; by exists q, k, c, own, i| |left].
  - specialize (Hset (Return p) I). cbn in Hset. rewrite Hq in Hset. cbn in Hset. rewrite E in Hset.
    destruct (complete_procs p k c own (Some (i, reply)) sys q Hq) as (? & ? & Ec & _). congruence.
  - destruct Hr as (n & ky & sz & -> & Hk & Hs). by exists ky, q, k, n, sz, own.
Qed.

Lemma settled_closed sys :
  sys_ok sys -> settled sys -> closed (fun p => busy sys p /\ ~ leads_to_loop sys p) (procs sys).
Proof.
  intros Hok Hset p [Hb Hl].
  destruct (settled_busy sys p Hok Hset Hb) as [[ky Hky]|Hread]; [by destruct Hl; eapply leads_itself|].
  split; [done|]. intros r s j Hs Hj. split; [exists s; split; [done|by eapply settled_carrier]|].
  intros Hr. apply Hl. by eapply leads_on.
Qed.

(** A loop goes on through every turn as long as its key has no link. *)
Lemma other_turn sys sys' p q p2 q2 :
  procs sys !! p = Some q -> change sys sys' p q -> procs sys !! p2 = Some q2 -> p2 <> p ->
  (forall k c own i, caller q2 <> Reading k c own i) ->
  exists q3, procs sys' !! p2 = Some q3 /\ caller q3 = caller q2.
Proof.
  intros Hq Hch Hq2 Hne Hnr.
  destruct Hch as [q' _ _ E|st k c own i r s _ Hs E|x rest _ _ E|client i reply _ _ E]; rewrite E; clear E.
  - exists q2. by rewrite list_lookup_insert_ne.
  - rewrite <- (list_lookup_insert_ne _ _ _ (set_caller (Reading k c own i) (set_table st q)) (not_eq_sym Hne)) in Hq2.
    destruct (lookup_insert_keep _ r s (set_backlog (backlog s ++ [(p, i)]) s) p2 q2 Hs Hq2) as (s' & -> & [->|[-> ->]]); by eexists.
  - exists q2. by rewrite list_lookup_insert_ne.
  - rewrite <- (list_lookup_insert_ne _ _ _ (set_serving None q) (not_eq_sym Hne)) in Hq2.
    destruct (alter_spec (deliver i reply) (<[p := set_serving None q]> (procs sys)) client) as [[_ ->]|(s & Hs & ->)]; [by exists q2|].
    destruct (lookup_insert_keep _ client s (deliver i reply s) p2 q2 Hs Hq2) as (s' & -> & [->|[-> ->]]); [by exists q2|].
    exists (deliver i reply s). split; [done|]. destruct (deliver_caller i reply s) as [|(k & c & own & E & _)]; [done|].
    by destruct (Hnr k c own i).
Qed.

Lemma loop_goes_on e sys sys' p ky :
  loops_for sys p ky -> tmp sys !! ky = None -> step e sys = Some sys' -> loops_for sys' p ky.
Proof.
  intros (q & k & n & sz & own & Hq & Ec & Hk & Hs) Hlink Hstep.
  destruct (decide (p = actor e)) as [->|Hne].
  2: { destruct (turn_change e sys sys' Hstep) as (q1 & Hq1 & Hch).
       destruct (other_turn sys sys' (actor e) q1 p q Hq1 Hch Hq Hne) as (q3 & Hq3 & E3); [by rewrite Ec|].
       exists q3, k, n, sz, own. by rewrite E3. }
  destruct e as [p k1 c1|p|p newfd rsize|p|p]; cbn [step actor] in *; unfold call in *;
    rewrite Hq in Hstep; cbn [mbind option_bind] in Hstep.
  - unfold idle in Hstep. by rewrite Ec in Hstep.
  - destruct (serving q); [done|]. destruct (backlog q) as [|x rest]; [done|]. injection Hstep as <-.
    eexists _, k, n, sz, own. split; [cbn; apply list_lookup_insert_eq; by eapply lookup_lt_Some|]. by cbn.
  - unfold idle in Hstep. rewrite Ec in Hstep. by destruct (serving q) as [[]|].
  - by rewrite Ec in Hstep.
  - rewrite Ec in Hstep. unfold attempt in Hstep. rewrite Hq in Hstep. cbn [mbind option_bind wanted links set_links] in Hstep.
    rewrite (proj2 (Z.eqb_neq _ _) Hk), Hlink in Hstep. unfold complete in Hstep. rewrite Hq in Hstep.
    cbn [mbind option_bind locked_part] in Hstep. rewrite (proj2 (Z.eqb_neq _ _) Hk) in Hstep.
    destruct (hopeless_round k ky own (set_links (tmp sys) (table q))) as (st & own' & E & _);
      [split; [done|]; cbn; congruence|].
    rewrite E in Hstep. cbn in Hstep. injection Hstep as <-.
    eexists _, k, n, sz, own'. split; [cbn; apply list_lookup_insert_eq; by eapply lookup_lt_Some|]. by cbn.
Qed.

(** C19: remote segments and the mutexes of the processes. Between new calls and
    further rounds for keys that cannot be claimed, the threads of a system of
    processes that call shmget, shmat, shmdt and shmctl come to rest after a
    bounded number of turns. Then every call has returned, but those of processes
    that go round the loop for a key, since its link cannot be made, and of
    processes that wait, their mutex held, for a process still in a call. Those
    that wait for one another in circles, or lead to no loop, never return,
    whatever else is called; and a loop goes on, the mutex held, through every
    turn of any process, as long as its key has no link. *)
Theorem calls_return_or_wait_in_circles sys0 es0 sys :
  fresh sys0 -> run_events es0 sys0 = Some sys ->
  (forall es sys', Forall internal es -> run_events es sys = Some sys' -> (length es + weight sys' <= weight sys)%nat)
  /\ (settled sys -> forall p, busy sys p ->
        (exists ky, loops_for sys p ky) \/ exists r, busy sys r /\ waits_for sys p r)
  /\ (settled sys -> forall p, busy sys p -> ~ leads_to_loop sys p ->
        forall es sys', run_events es sys = Some sys' -> busy sys' p)
  /\ (forall p ky, loops_for sys p ky -> tmp sys !! ky = None ->
        forall e sys', step e sys = Some sys' -> loops_for sys' p ky).
Proof.
  intros Hf Hrun. pose proof (run_ok _ _ _ Hrun (fresh_ok _ Hf)) as Hok. split_and!.
  - intros; by apply run_work.
  - intros Hset p Hb. destruct (settled_busy sys p Hok Hset Hb) as [|(q & k & c & own & i & Hq & E)]; [by left|right].
    destruct Hok as [_ Hc]. destruct (Hc p q k c own i Hq E) as (r & s & Hs & Hcar); [done|].
    exists r. split; [exists s; split; [done|by eapply settled_carrier]|]. by exists q, k, c, own, i, s.
  - intros Hset p Hb Hl es sys' Hrun'. pose proof (settled_closed sys Hok Hset) as Hcl.
    apply (run_closed _ es _ sys' Hrun') in Hcl.
    destruct (Hcl p (conj Hb Hl)) as [(q & k & c & own & i & Hq & E) _]. exists q. split; [done|]. by rewrite E.
  - intros p ky Hp Hlink e sys' Hstep. by eapply loop_goes_on.
Qed.

(** A process makes a segment for a key, removes it, and asks for the key again:
    it connects to its own socket and waits for its own serving thread.  Another
    cannot make links: it loops. *)
Definition alone : processes := mk_processes [mk_process shm_init Idle [] None []] ∅.
Definition same_key_again : list event :=
  [Call 0 (sample_kernel 7 0) (CGet 1 42 100);
   Call 0 (sample_kernel 8 0) (CCtl 6553601 IPC_RMID false);
   Call 0 (sample_kernel 8 0) (CGet 1 42 100); Accept 0].
Definition alone_again : processes := match run_events same_key_again alone with Some sys => sys | None => alone end.
Definition looping : processes :=
  match run_events [Call 0 no_links_kernel (CGet 1 42 100); Round 0] alone with Some sys => sys | None => alone end.

Lemma calls_return_or_wait_in_circles_witness :
  busy alone_again 0 /\ waits_for alone_again 0 0
  /\ (forall es sys', run_events es alone_again = Some sys' -> busy sys' 0)
  /\ (forall e sys', step e looping = Some sys' -> loops_for sys' 0 42).
Proof.
  destruct (calls_return_or_wait_in_circles alone same_key_again alone_again) as (_ & Hwait & Hever & _).
  - by repeat constructor.
  - vm_compute. reflexivity.
  - assert (settled alone_again) as Hset.
    { intros [|[|p]|[|p] newfd rsize|[|p]|] Hi; [destruct Hi|vm_compute; reflexivity..|destruct Hi]. }
    assert (busy alone_again 0) as Hb by (eexists; split; [vm_compute; reflexivity|done]).
    assert (forall p, ~ leads_to_loop alone_again p) as Hno.
    { intros p H. induction H as [p ky (q & k & n & sz & own & Hq & Ec & _)|]; [|done].
      destruct p as [|p]; vm_compute in Hq; [injection Hq as <-; discriminate Ec|discriminate Hq]. }
    split; [exact Hb|]. split; [|split].
    + destruct (Hwait Hset 0%nat Hb) as [[ky Hky]|([|r] & (q & Hq & _) & Hw)].
      * destruct (Hno 0%nat). exact (leads_itself _ _ ky Hky).
      * exact Hw.
      * vm_compute in Hq. discriminate.
    + intros es sys' Hrun. exact (Hever Hset 0%nat Hb (Hno 0%nat) es sys' Hrun).
    + refine (proj2 (proj2 (proj2 (calls_return_or_wait_in_circles alone [Call 0 no_links_kernel (CGet 1 42 100); Round 0]
        looping _ _))) 0%nat 42 _ _); [by repeat constructor|vm_compute; reflexivity| |vm_compute; reflexivity].
      eexists _, _, _, _, _. split; [vm_compute; reflexivity|]. split; [reflexivity|]. split; [discriminate|reflexivity].
Defined.
