(* ===== verification/Activity.v ===== *)
(** * The activity's side of the connection (activity.c)

    The GUI thread of the app reads the server's messages from the socket and
    hands buffers and the shared state to the renderer.  [calls] is what it
    calls, in order: functions of renderer.c, as actions of [Renderer], methods
    of the Java object, and [close].  What belongs to a message has arrived when
    the message is read; a read of an empty socket returns nothing.  Setting up
    a view, which ends an earlier connection, is here too. *)
From S2P Require Import Prelude TextConv Buffer Cursor GlBuffers Viewport Renderer AppBuffers Events Server Wire.

(** ** Data *)
Inductive app_call : Type :=
  | Render (a : action)
  | AddAgain (p : Z)                  (** [rendererAddBuffer] of a buffer received earlier *)
  | Close (fd : Z)
  | SetClipboardText (text : list Z)
  | JavaRequestClipboard
  | ResetIme
  | ClientConnectedStateChanged.

Record app_state : Type := mk_app {
  app_conn : Z;                       (** [conn_fd] *)
  looper : list Z;                    (** descriptors with [xcallback] *)
  app_inbox : list cell;
  last_buffer : Z;                    (** the static variable [buffer] *)
  allocated : nat;                    (** how often [calloc] returned a buffer *)
  leaked : list resource;
  calls : list app_call
}.

Record app_env : Type := mk_app_env {
  stack_room : Z;                     (** bytes left on the stack of the thread *)
  transfer : Z -> Z;                  (** a descriptor's number in this process *)
  recv_handle : list cell -> Z * list cell;  (** [AHardwareBuffer_recvHandleFromUnixSocket] *)
  buffer_calls : Buffer.platform;
  calloc_at : nat -> Z;               (** address of the n-th buffer *)
  mmap_state : Z -> Z;                (** of a descriptor; 0 or -1 is a failure *)
  contents : Z -> server_state;       (** what the mapping shows *)
  has_instance : bool                 (** is there a MainActivity? *)
}.

(** ** Setters *)
Definition with_app_conn c s := mk_app c (looper s) (app_inbox s) (last_buffer s) (allocated s) (leaked s) (calls s).
Definition with_looper l s := mk_app (app_conn s) l (app_inbox s) (last_buffer s) (allocated s) (leaked s) (calls s).
Definition with_app_inbox i s := mk_app (app_conn s) (looper s) i (last_buffer s) (allocated s) (leaked s) (calls s).
Definition with_last_buffer p n s := mk_app (app_conn s) (looper s) (app_inbox s) p n (leaked s) (calls s).
Definition with_leaked l s := mk_app (app_conn s) (looper s) (app_inbox s) (last_buffer s) (allocated s) l (calls s).
Definition call (c : app_call) s := mk_app (app_conn s) (looper s) (app_inbox s) (last_buffer s) (allocated s)
  (leaked s) (calls s ++ [c]).

(** [rendererSetSharedState(NULL)] *)
Definition no_state : server_state := Renderer.mk_server 0 false false false 0 (mk_shared 0 0 0 0 0 0 [] false false).

(** ** Reading messages *)
Section callback.
Context (env : app_env).

(** The local variable [buffer] of [LorieBuffer_recvHandleFromUnixSocket]
    before the read. *)
Definition reset_buffer : LorieBuffer := mk_buffer 1 none_desc false 0 (-1) 0 0 0 0.

Definition read_buffer (s : list cell) : Buffer.message * list cell :=
  let (got, s) := read_bytes sizeof_LorieBuffer s in
  let b := struct_of (got ++ drop (length got) (struct_bytes (zeros 16) reset_buffer)) in
  if type (desc b) =? LORIEBUFFER_FD then
    let (f, s) := ancil_recv_fd (transfer env) s in (Buffer.mk_message b (Some f) None, s)
  else if type (desc b) =? LORIEBUFFER_AHARDWAREBUFFER then
    let (h, s) := recv_handle env s in (Buffer.mk_message b None (Some h), s)
  else (Buffer.mk_message b None None, s).

Definition handle_add_buffer (s : app_state) : outcome app_state :=
  let (m, rest) := read_buffer (app_inbox s) in
  let s := with_app_inbox rest s in
  '(r, taken) ← LorieBuffer_recvHandleFromUnixSocket (buffer_calls env) (fun h => h) m [];
  Ret match r with
  | Stored b =>
      let p := calloc_at env (allocated s) in
      call (Render (AddBuffer p b)) (with_last_buffer p (S (allocated s)) s)
  | Cleared => with_last_buffer 0 (allocated s) (with_leaked (taken ++ leaked s) s)
  | Untouched =>
      let s := with_leaked (taken ++ leaked s) s in
      if last_buffer s =? 0 then s else call (AddAgain (last_buffer s)) s
  end.

Definition handle_shared_state (s : app_state) : app_state :=
  let (f, rest) := ancil_recv_fd (transfer env) (app_inbox s) in
  let s := with_app_inbox rest s in
  if f <? 0 then s
  else
    let a := mmap_state env f in
    call (Close f)
      (call (Render (if (a =? 0) || (a =? -1) then SetSharedState 0 no_state
                     else SetSharedState a (contents env f))) s).

(** The text is an array of [count + 1] bytes on the stack, which the read may
    fill to the last. *)
Definition handle_clipboard (count : Z) (s : app_state) : outcome app_state :=
  if count =? 0 then Ret s
  else if (u32 (count + 1) =? 0) || (stack_room env <? count + 1) then Fault OutOfBounds
  else
    let (got, rest) := read_bytes (Z.to_nat (count + 1)) (app_inbox s) in
    text ← cstring (<[Z.to_nat count := 0]> (fill (Z.to_nat (count + 1)) got));
    Ret (call (SetClipboardText text) (with_app_inbox rest s)).

Definition handle_app_event (e : lorieEvent) (s : app_state) : outcome app_state :=
  match e with
  | ClipboardSend count => handle_clipboard count s
  | ClipboardRequest => Ret (call JavaRequestClipboard s)
  | SharedServerState => Ret (handle_shared_state s)
  | AddBufferEvent => handle_add_buffer s
  | RemoveBufferEvent i => Ret (call (Render (RemoveBuffer i)) s)
  | WindowFocusChanged => Ret (call ResetIme s)
  | _ => Ret s
  end.

(** From the label [again] on. *)
Fixpoint app_loop (fuel : nat) (s : app_state) : outcome app_state :=
  let (got, rest) := read_bytes sizeof_lorieEvent (app_inbox s) in
  let s := with_app_inbox rest s in
  s ← (if (length got =? sizeof_lorieEvent)%nat then handle_app_event (decode got) s else Ret s);
  if (sizeof_lorieEvent <? length (app_inbox s))%nat then
    match fuel with
    | O => Fault FuelExhausted
    | S fuel => app_loop fuel s
    end
  else Ret s.

(** Forget the server's state and buffers. *)
Definition drop_server (s : app_state) : app_state :=
  call (Render RemoveAllBuffers) (call (Render (SetSharedState 0 no_state)) s).

Definition xcallback (fd : Z) (hangup : bool) (s : app_state) : outcome app_state :=
  if hangup then
    let s := if has_instance env then call ClientConnectedStateChanged s else s in
    let s := with_looper (filter (fun q => q <> fd) (looper s)) s in
    Ret (drop_server (with_app_conn (-1) (call (Close (app_conn s)) s)))
  else if app_conn s =? -1 then Ret s
  else app_loop (length (app_inbox s)) s.
End callback.

Definition connect_ (fd : Z) (s : app_state) : app_state :=
  let s := if app_conn s =? -1 then s
           else drop_server (call (Close (app_conn s))
                  (with_looper (filter (fun q => q <> app_conn s) (looper s)) s)) in
  let s := with_app_inbox [] (with_app_conn fd s) in
  if fd =? -1 then s else with_looper (fd :: looper s) s.

(** Java's classes and methods the app looks up the first time; a method with its
    class, its signature and whether it is static. *)
Inductive java_name : Type :=
  | JavaClass (name : string)
  | JavaMethod (cls name signature : string) (is_static : bool).

Definition java_names : list java_name := ([
  JavaClass "java/nio/charset/Charset";
  JavaMethod "java/nio/charset/Charset" "forName" "(Ljava/lang/String;)Ljava/nio/charset/Charset;" true;
  JavaMethod "java/nio/charset/Charset" "decode" "(Ljava/nio/ByteBuffer;)Ljava/nio/CharBuffer;" false;
  JavaClass "java/nio/CharBuffer";
  JavaMethod "java/nio/CharBuffer" "toString" "()Ljava/lang/String;" false;
  JavaClass "com/termux/x11/MainActivity";
  JavaMethod "com/termux/x11/MainActivity" "getInstance" "()Lcom/termux/x11/MainActivity;" true;
  JavaMethod "com/termux/x11/MainActivity" "clientConnectedStateChanged" "()V" false;
  JavaMethod "com/termux/x11/LorieView" "resetIme" "()V" false
])%string.

(** [known] is whether the names have been looked up before; the virtual machine
    ends the process for a name that does not exist.  The renderer is started
    by [GpuInit]. *)
Definition nativeInit (known : bool) (exists_ : java_name -> bool) (s : app_state) : outcome app_state :=
  if known || forallb exists_ java_names then Ret (connect_ (-1) s) else Fault FatalExit.

(** [connected] *)
Definition app_connected (s : app_state) : bool := negb (app_conn s =? -1).

(** ** What the calls mean for the buffers of the app *)
Definition call_view (l : list Z) (c : app_call) : list Z :=
  match c with Render a => from_option (view l) l (announces a) | _ => l end.

(** Every buffer that is added is new, and the app's only reference. *)
Fixpoint calls_ok (l : list Z) (cs : list app_call) : Prop :=
  match cs with
  | [] => True
  | c :: cs =>
      match c with
      | Render (AddBuffer _ b) => refcount b = 1 /\ desc_id (desc b) ∉ l
      | AddAgain _ => False
      | _ => True
      end /\ calls_ok (call_view l c) cs
  end.

(** The renderer while the GUI thread makes these calls, in their order: its own
    steps, the X server's and the end of a wait come in between. *)
Inductive performs (e : Renderer.platform) : list app_call -> renderer -> renderer -> Prop :=
  | performs_done r : performs e [] r r
  | performs_between a cs r r1 r2 :
      announces a = None -> enabled e a r = true -> run e a r = Ret r1 ->
      performs e cs r1 r2 -> performs e cs r r2
  | performs_call a cs r r1 r2 :
      enabled e a r = true -> run e a r = Ret r1 -> performs e cs r1 r2 -> performs e (Render a :: cs) r r2
  | performs_java c cs r r2 :
      match c with Render _ | AddAgain _ => False | _ => True end ->
      performs e cs r r2 -> performs e (c :: cs) r r2.

Lemma view_NoDup l a :
  NoDup l -> match a with Announce i => i ∉ l | _ => True end -> NoDup (view l a).
Proof. destruct a; cbn; intros Hl Hi; [by apply NoDup_cons|by apply NoDup_filter|constructor]. Qed.

Lemma calls_ok_perm l l' cs : l ≡ₚ l' -> calls_ok l cs -> calls_ok l' cs.
Proof.
  revert l l'. induction cs as [|c cs IH]; intros l l' Hl; [done|]. cbn. intros [Hc Hcs]. split.
  - destruct c as [[]| | | | | |]; try done. by rewrite <- Hl.
  - eapply IH; [|exact Hcs]. destruct c as [a| | | | | |]; try done. cbn.
    destruct (announces a); cbn; [by rewrite Hl|done].
Qed.

Lemma calls_view_perm l l' cs : l ≡ₚ l' -> foldl call_view l cs ≡ₚ foldl call_view l' cs.
Proof.
  revert l l'. induction cs as [|c cs IH]; intros l l' Hl; [done|]. cbn. apply IH.
  destruct c as [a| | | | | |]; try done. cbn. destruct (announces a); cbn; [by rewrite Hl|done].
Qed.

(** Whatever happens in between, the app's buffers are what the calls say. *)
Lemma performs_live e rest cs r r' :
  performs e cs r r' -> renderer_ok e rest r -> single (bufs r) -> NoDup (live (bufs r)) ->
  calls_ok (live (bufs r)) cs ->
  live (bufs r') ≡ₚ foldl call_view (live (bufs r)) cs /\ renderer_ok e rest r' /\ single (bufs r').
Proof.
  induction 1 as [r|a cs r r1 r2 Ha Hen Hrun _ IH|a cs r r1 r2 Hen Hrun _ IH|c cs r r2 Hc _ IH];
    intros Hr H1 Hnd Hok; [done| | |].
  - destruct (renderer_ok_step e rest a r Hr Hen) as (r1' & E & Hr1). assert (r1' = r1) as -> by congruence.
    destruct (run_live e rest a r r1 Hr H1 Hnd Hen) as [Hl H2]; [by intros ? ? ->|done|].
    rewrite Ha in Hl. cbn in Hl. destruct IH as (IH & ?); [done..|by rewrite Hl|by eapply calls_ok_perm|].
    split; [|done]. rewrite IH. by apply calls_view_perm.
  - destruct (renderer_ok_step e rest a r Hr Hen) as (r1' & E & Hr1). assert (r1' = r1) as -> by congruence.
    cbn in Hok. destruct Hok as [Ha Hok].
    destruct (run_live e rest a r r1 Hr H1 Hnd Hen) as [Hl H2]; [intros p b ->; apply Ha|done|].
    destruct IH as (IH & ?); [done..| |by eapply calls_ok_perm; [symmetry; exact Hl|]|].
    + rewrite Hl. destruct (announces a) as [an|] eqn:Ea; cbn; [|done]. apply view_NoDup; [done|].
      destruct a; cbn in Ea; try done; injection Ea as <-; [apply Ha|done..].
    + split; [|done]. rewrite IH. cbn. by apply calls_view_perm.
  - cbn in Hok. destruct Hok as [_ Hok].
    assert (call_view (live (bufs r)) c = live (bufs r)) as E by (by destruct c).
    rewrite E in Hok. destruct (IH Hr H1 Hnd Hok) as (Hl & ?). split; [|done]. cbn. by rewrite E.
Qed.

(** ** A clipboard text *)
Lemma cell_bytes (l : list Z) : byte_of <$> (Byte <$> l) = l.
Proof. rewrite <- list_fmap_compose. apply list_fmap_id. Qed.

(** The text is delivered whole, with whatever byte follows it in the socket. *)
Lemma handle_clipboard_ok env text more s :
  text <> [] -> Forall (fun b => b <> 0) text -> Z.of_nat (length text) + 1 < 2 ^ 32 ->
  Z.of_nat (length text) + 1 <= stack_room env ->
  handle_clipboard env (Z.of_nat (length text)) (with_app_inbox ((Byte <$> text) ++ more) s)
  = Ret (call (SetClipboardText text) (with_app_inbox (drop 1 more) s)).
Proof.
  intros Hne Hz Hl Hst. assert (length text <> 0%nat) by (by destruct text).
  unfold handle_clipboard. rewrite wrap_u_small by lia. decide_tests. unfold read_bytes.
  cbn [app_inbox with_app_inbox].
  rewrite Z2Nat.inj_add, Nat2Z.id by lia. change (Z.to_nat 1) with 1%nat.
  rewrite drop_app, drop_ge, take_app, take_ge, length_fmap by (rewrite length_fmap; lia).
  replace (length text + 1 - length text)%nat with 1%nat by lia.
  rewrite fmap_app, cell_bytes. cbn [app].
  assert (exists x, fill (length text + 1) (text ++ (byte_of <$> take 1 more)) = text ++ [x]) as [x ->].
  { destruct more as [|c more]; unfold fill; cbn [take fmap list_fmap]; rewrite ?app_nil_r, ?length_app.
    - exists 0. replace (_ - _)%nat with 1%nat by lia. done.
    - exists (byte_of c). replace (_ - _)%nat with 0%nat by (cbn; lia). cbn. by rewrite app_nil_r. }
  rewrite insert_app_r_alt, Nat.sub_diag by lia. cbn [insert list_insert].
  rewrite cstring_app by done. reflexivity.
Qed.

(** ** The stream *)

(** One message changes what its reader knows like this; compare [known]. *)
Definition know (l : list Z) (m : lorieEvent * tail) : list Z :=
  match m with
  | (AddBufferEvent, TailBuffer b) => desc_id (desc (msg_struct b)) :: l
  | (RemoveBufferEvent i, _) => filter (fun j => j <> i) l
  | _ => l
  end.

Lemma known_written fd l : known fd l = foldl know [] (written fd l).
Proof.
  unfold written. induction l as [|[f [ev t]] l IH]; [done|]. cbn [known rev]. rewrite omap_app, foldl_app, <- IH.
  cbn. destruct (f =? fd); [|done]. cbn. by destruct ev, t.
Qed.

Section stream.
Context (env : app_env) (link : LorieBuffer -> list Z) (send_handle : Z -> list cell).
Hypothesis link_size : forall b, length (link b) = 16%nat.
Hypothesis handle_received : forall h rest, exists h', recv_handle env (send_handle h ++ rest) = (h', rest).
Hypothesis memory : calloc_buffer (buffer_calls env) = true.

(** A buffer that can be shared: it fits its struct, the sender has one reference
    and no GL object, and it can be mapped here. *)
Record shareable (b : LorieBuffer) : Prop := {
  sh_fits : struct_fits b;
  sh_single : refcount b = 1;
  sh_texture : texture b = 0;
  sh_type : type (desc b) = LORIEBUFFER_FD \/ type (desc b) = LORIEBUFFER_AHARDWAREBUFFER;
  sh_fd : type (desc b) = LORIEBUFFER_FD ->
    0 <= fd b /\ transfer env (fd b) <> -1
    /\ let a := mmap (buffer_calls env) (pixel_bytes (stride (desc b)) (height (desc b))) (transfer env (fd b)) 0 in
       a <> 0 /\ a <> -1
}.

(** The messages the server sends, a clipboard text excepted. *)
Inductive framed : lorieEvent * tail -> Prop :=
  | framed_state f : 0 <= f -> framed (SharedServerState, TailFd f)
  | framed_add b : shareable b -> framed (AddBufferEvent, TailBuffer (LorieBuffer_sendHandleToUnixSocket b))
  | framed_remove i : fits 64 i -> framed (RemoveBufferEvent i, NoTail)
  | framed_request : framed (ClipboardRequest, NoTail)
  | framed_focus : framed (WindowFocusChanged, NoTail).

(** A C string that fits the reader's stack. *)
Definition text_ok (text : list Z) : Prop :=
  Forall (fun b => b <> 0) text /\ Z.of_nat (length text) + 1 < 2 ^ 32 /\ Z.of_nat (length text) + 1 <= stack_room env.

(** Nothing comes behind a clipboard text. *)
Inductive well_framed : list (lorieEvent * tail) -> Prop :=
  | well_framed_nil : well_framed []
  | well_framed_cons m ms : framed m -> well_framed ms -> well_framed (m :: ms)
  | well_framed_text text : text_ok text -> well_framed [(ClipboardSend (Z.of_nat (length text)), TailBytes text)].

Lemma framed_in_range m : framed m -> in_range m.1.
Proof. by destruct 1. Qed.

Lemma well_framed_in_range m ms : well_framed (m :: ms) -> in_range m.1.
Proof.
  inversion 1 as [|? ? Hm|text [_ Ht]]; subst; [by apply framed_in_range|]. cbn. unfold fits. lia.
Qed.

Lemma well_framed_drop d ms : well_framed (d ++ ms) -> well_framed ms.
Proof.
  induction d as [|m d IH]; [done|]. cbn. inversion 1 as [|? ? _ H'|text]; subst; [by apply IH|].
  destruct d, ms; try done. constructor.
Qed.

Lemma framed_well_framed ms ending :
  Forall framed ms -> (ending = [] \/ exists text, text_ok text /\ ending = [(ClipboardSend (Z.of_nat (length text)), TailBytes text)]) ->
  well_framed (ms ++ ending).
Proof.
  intros Hms He. induction Hms as [|m ms Hm _ IH]; [destruct He as [->|(text & Ht & ->)]; by constructor|].
  cbn. by constructor.
Qed.

(** The buffer is found in the stream and stored. *)
Lemma add_buffer_ok b rest s :
  shareable b ->
  exists b' s', handle_add_buffer env (with_app_inbox (wire_buffer link send_handle (LorieBuffer_sendHandleToUnixSocket b) ++ rest) s)
    = Ret s' /\ app_inbox s' = rest /\ app_conn s' = app_conn s
    /\ calls s' = calls s ++ [Render (AddBuffer (calloc_at env (allocated s)) b')]
    /\ desc_id (desc b') = desc_id (desc b) /\ refcount b' = 1 /\ texture b' = 0 /\ image b' = 0.
Proof.
  intros [Hf H1 Ht Hty Hfd]. unfold handle_add_buffer, read_buffer, wire_buffer.
  cbn [app_inbox with_app_inbox msg_struct msg_fd msg_ahb LorieBuffer_sendHandleToUnixSocket].
  rewrite <- !app_assoc, read_bytes_app by (by apply length_struct_bytes).
  rewrite length_struct_bytes, drop_ge, app_nil_r by (done || by rewrite length_struct_bytes).
  rewrite (proj2 (struct_roundtrip (link b) b (link_size b) Hf)).
  destruct Hty as [Hty|Hty]; rewrite Hty; cbn [Z.eqb Pos.eqb LORIEBUFFER_FD LORIEBUFFER_AHARDWAREBUFFER app].
  - destruct (Hfd Hty) as (Hf0 & Htr & Ha0 & Ha1). unfold ancil_send_fd. decide_tests. cbn [app ancil_recv_fd].
    unfold LorieBuffer_recvHandleFromUnixSocket. cbn [msg_struct msg_fd]. rewrite Hty. cbn [Z.eqb Pos.eqb LORIEBUFFER_FD].
    decide_tests. rewrite memory. cbind. eexists _, _. split; [reflexivity|]. by split_and!.
  - destruct (handle_received (ahb (desc b)) rest) as (h & ->).
    unfold LorieBuffer_recvHandleFromUnixSocket. cbn [msg_struct msg_fd msg_ahb]. rewrite Hty.
    cbn [Z.eqb Pos.eqb LORIEBUFFER_FD LORIEBUFFER_AHARDWAREBUFFER]. rewrite memory. cbind.
    eexists _, _. split; [reflexivity|]. by split_and!.
Qed.

(** One message leaves the socket, and its calls do to the app's buffers what it says. *)
Lemma framed_event_ok m rest s l :
  framed m ->
  match m with (AddBufferEvent, TailBuffer b) => desc_id (desc (msg_struct b)) ∉ l | _ => True end ->
  exists s' cs, handle_app_event env m.1 (with_app_inbox (wire_tail link send_handle m.2 ++ rest) s) = Ret s'
    /\ app_inbox s' = rest /\ app_conn s' = app_conn s /\ calls s' = calls s ++ cs
    /\ calls_ok l cs /\ foldl call_view l cs = know l m.
Proof.
  destruct 1 as [f Hf|b Hb|i Hi| |]; cbn [fst snd handle_app_event wire_tail]; intros Hl.
  2:{ destruct (add_buffer_ok b rest s Hb) as (b' & s' & E & Hi & Hc & Hcs & Hid & Hr & _).
      eexists s', _. split; [exact E|]. split; [done|]. split; [done|]. split; [exact Hcs|].
      cbn. rewrite Hid. by split_and!. }
  1:{ unfold handle_shared_state, ancil_send_fd. decide_tests. cbn [app_inbox with_app_inbox ancil_recv_fd app].
      destruct (transfer env f <? 0).
      - eexists _, []. split; [reflexivity|]. by rewrite app_nil_r.
      - eexists _, [_; _]. split; [reflexivity|]. cbn. rewrite <- app_assoc. split_and!; try done.
        + by destruct (_ || _).
        + by destruct (_ || _). }
  all: eexists _, [_]; (split; [reflexivity|]); by split_and!.
Qed.

(** So does a clipboard text at the end of the stream. *)
Lemma text_event_ok text s l :
  text_ok text ->
  exists s' cs, handle_app_event env (ClipboardSend (Z.of_nat (length text))) (with_app_inbox ((Byte <$> text) ++ []) s) = Ret s'
    /\ app_inbox s' = [] /\ app_conn s' = app_conn s /\ calls s' = calls s ++ cs
    /\ calls_ok l cs /\ foldl call_view l cs = l.
Proof.
  intros (Hz & Hl & Hst). cbn [handle_app_event]. destruct text as [|c text].
  - exists (with_app_inbox [] s), []. cbn. rewrite app_nil_r. split_and!; done.
  - rewrite handle_clipboard_ok by done. eexists _, [SetClipboardText (c :: text)]. split; [reflexivity|].
    cbn [drop app_inbox call with_app_inbox app_conn calls]. split_and!; try reflexivity. cbn. done.
Qed.

(** The identifiers that are announced are new at that point. *)
Fixpoint fresh_from (l : list Z) (ms : list (lorieEvent * tail)) : Prop :=
  match ms with
  | [] => True
  | m :: ms =>
      match m with (AddBufferEvent, TailBuffer b) => desc_id (desc (msg_struct b)) ∉ l | _ => True end
      /\ fresh_from (know l m) ms
  end.

Lemma calls_ok_app l cs cs' :
  calls_ok l (cs ++ cs') <-> calls_ok l cs /\ calls_ok (foldl call_view l cs) cs'.
Proof. revert l. induction cs as [|c cs IH]; intros l; cbn; [tauto|]. rewrite IH. tauto. Qed.

Lemma wire_out_cons m ms : wire_out link send_handle (m :: ms)
  = (Byte <$> encode m.1) ++ (wire_tail link send_handle m.2 ++ wire_out link send_handle ms).
Proof. unfold wire_out. cbn [fmap list_fmap concat]. unfold wire_message at 1. by rewrite <- app_assoc. Qed.

Lemma app_event_ok m ms s l :
  well_framed (m :: ms) ->
  match m with (AddBufferEvent, TailBuffer b) => desc_id (desc (msg_struct b)) ∉ l | _ => True end ->
  exists s' cs, handle_app_event env m.1 (with_app_inbox (wire_tail link send_handle m.2 ++ wire_out link send_handle ms) s) = Ret s'
    /\ app_inbox s' = wire_out link send_handle ms /\ app_conn s' = app_conn s /\ calls s' = calls s ++ cs
    /\ calls_ok l cs /\ foldl call_view l cs = know l m.
Proof.
  inversion 1 as [|? ? Hm _|text Ht]; subst; [by apply framed_event_ok|]. intros _. by apply text_event_ok.
Qed.

(** What is at most as long as an event is at most one event. *)
Lemma wire_short ms :
  (length (wire_out link send_handle ms) <= sizeof_lorieEvent)%nat -> ms = [] \/ exists m, ms = [m].
Proof.
  destruct ms as [|m [|m2 ms]]; [by left|right; by exists m|]. unfold wire_out. cbn [fmap list_fmap concat].
  rewrite !length_app. pose proof (length_wire_message link send_handle m).
  pose proof (length_wire_message link send_handle m2). unfold sizeof_lorieEvent in *. lia.
Qed.

Lemma app_loop_ok ms fuel s l :
  well_framed ms -> fresh_from l ms -> ms <> [] -> (length ms <= S fuel)%nat ->
  app_inbox s = wire_out link send_handle ms ->
  exists d rest s' cs, ms = d ++ rest /\ d <> [] /\ (length rest <= 1)%nat
    /\ app_loop env fuel s = Ret s' /\ app_inbox s' = wire_out link send_handle rest
    /\ app_conn s' = app_conn s /\ calls s' = calls s ++ cs
    /\ calls_ok l cs /\ foldl call_view l cs = foldl know l d /\ fresh_from (foldl know l d) rest.
Proof.
  revert ms s l. induction fuel as [|fuel IH]; intros ms s l Hok Hfr Hne Hlen Hin.
  all: destruct ms as [|m ms]; [done|]; pose proof (well_framed_drop [m] ms Hok) as Hok1; destruct Hfr as [Hf Hfr].
  all: rewrite wire_out_cons in Hin; cbn [app_loop]; rewrite Hin, read_bytes_app by apply length_encode.
  all: rewrite length_encode, Nat.eqb_refl, (proj2 (encode_decode m.1 (well_framed_in_range m ms Hok))).
  all: destruct (app_event_ok m ms s l Hok Hf) as (s1 & c1 & -> & Hi & Hc & Hcs & Hcok & Hv).
  all: cbind; rewrite Hi; destruct (Nat.ltb_spec sizeof_lorieEvent (length (wire_out link send_handle ms))) as [Hlt|Hle].
  2,4: exists [m], ms, s1, c1; split_and!; try done; destruct (wire_short ms Hle) as [->|(m' & ->)]; cbn; lia.
  - assert (ms = []) as -> by (destruct ms; [done|cbn in Hlen; lia]). by apply Nat.nlt_0_r in Hlt.
  - destruct (IH ms s1 (know l m)) as (d & rest & s' & cs & -> & Hd & Hr & E & Hi' & Hc' & Hcs' & Hok' & Hv' & Hfr');
      [done|done| |cbn in Hlen; lia|done|].
    { intros ->. by apply Nat.nlt_0_r in Hlt. }
    exists (m :: d), rest, s', (c1 ++ cs). rewrite E, Hcs', Hcs, Hc', Hc, app_assoc, calls_ok_app, foldl_app, Hv.
    by split_and!.
Qed.

(** Two calls of the callback read everything. *)
Lemma xcallback_drains ms l fd s :
  well_framed ms -> fresh_from l ms -> app_conn s = fd -> fd <> -1 ->
  app_inbox s = wire_out link send_handle ms ->
  exists s1 s2 cs, xcallback env fd false s = Ret s1 /\ xcallback env fd false s1 = Ret s2
    /\ app_inbox s2 = [] /\ app_conn s2 = fd /\ calls s2 = calls s ++ cs
    /\ calls_ok l cs /\ foldl call_view l cs = foldl know l ms.
Proof.
  intros Hok Hfr Hfd Hne Hin.
  assert (forall s, app_conn s = fd -> xcallback env fd false s = app_loop env (length (app_inbox s)) s) as Hx
    by (intros s' Hs'; unfold xcallback; by rewrite (proj2 (Z.eqb_neq _ _)) by congruence).
  assert (forall s, app_inbox s = [] -> app_conn s = fd -> xcallback env fd false s = Ret s) as Hidle.
  { intros s' Hi Hf. rewrite Hx, Hi by done. cbn. rewrite Hi. cbn. unfold with_app_inbox. destruct s'; cbn in Hi |- *; by subst. }
  assert (forall k, (length k <= length (wire_out link send_handle k))%nat) as Hlen.
  { induction k as [|m k IHk]; [done|]. unfold wire_out in *. cbn [fmap list_fmap concat length].
    rewrite length_app. pose proof (length_wire_message link send_handle m). unfold sizeof_lorieEvent in *. lia. }
  destruct ms as [|m ms].
  { exists s, s, []. rewrite Hidle, app_nil_r by done. by split_and!. }
  destruct (app_loop_ok (m :: ms) (length (app_inbox s)) s l Hok Hfr) as
    (d & rest & s1 & cs & Es & Hd & Hr & E & Hi & Hc & Hcs & Hcok & Hv & Hfr1); [done| |done|].
  { rewrite Hin. pose proof (Hlen (m :: ms)). lia. }
  rewrite Hx, E, Es by done. rewrite Es in Hok. apply well_framed_drop in Hok as Hokr.
  destruct rest as [|m1 rest].
  { exists s1, s1, cs. rewrite Hidle, app_nil_r by (exact Hi || congruence). split_and!; done || congruence. }
  destruct (app_loop_ok (m1 :: rest) (length (app_inbox s1)) s1 (foldl know l d) Hokr Hfr1) as
    (d2 & rest2 & s2 & cs2 & Es2 & Hd2 & Hr2 & E2 & Hi2 & Hc2 & Hcs2 & Hcok2 & Hv2 & _); [done| |done|].
  { rewrite Hi. pose proof (Hlen (m1 :: rest)). lia. }
  assert (rest2 = []) as ->.
  { destruct d2; [done|]. destruct rest; [|cbn in Hr; lia]. injection Es2 as _ E3. by destruct d2, rest2. }
  exists s1, s2, (cs ++ cs2). rewrite Hx, E2, Hcs2, Hcs, <- app_assoc by congruence.
  rewrite calls_ok_app, foldl_app, Hv, Hv2, Es2, app_nil_r, foldl_app.
  split_and!; done || congruence.
Qed.
End stream.

(** ** The two processes together *)
Section both.
Context (env : app_env) (link : LorieBuffer -> list Z) (send_handle : Z -> list cell).
Hypothesis link_size : forall b, length (link b) = 16%nat.
Hypothesis handle_received : forall h rest, exists h', recv_handle env (send_handle h ++ rest) = (h', rest).
Hypothesis memory : calloc_buffer (buffer_calls env) = true.

(** What the server sends when it is asked to; for a clipboard text see [conv_sends_text]. *)
Definition op_framed (o : conn_op) : Prop :=
  match o with
  | Register b => shareable env b
  | Unregister b => fits 64 (desc_id (desc b))
  | SendState f => 0 <= f
  | SendClipboard d => d = None
  | FocusChanged | RequestClipboard => True
  end.

(** What was written to [fd], for a reader who knows [l] already. *)
Record sends_ok (l : list Z) (fd : Z) (s : Server.server) : Prop := {
  so_conn : Server.conn_fd s = fd;
  so_framed : Forall (framed env) (written fd (outgoing s));
  so_fresh : fresh_from l (written fd (outgoing s));
  so_view : registeredBuffers s = foldl know l (written fd (outgoing s))
}.

Lemma fresh_from_app l ms m :
  fresh_from l (ms ++ [m]) <-> fresh_from l ms
    /\ match m with (AddBufferEvent, TailBuffer b) => desc_id (desc (msg_struct b)) ∉ foldl know l ms | _ => True end.
Proof. revert l. induction ms as [|m' ms IH]; intros l; cbn; [tauto|]. rewrite IH. tauto. Qed.

Lemma written_cons fd m l : written fd ((fd, m) :: l) = written fd l ++ [m].
Proof. unfold written. cbn [rev]. rewrite omap_app. cbn. by rewrite Z.eqb_refl. Qed.

(** One more message keeps it, if it can be sent and is registered. *)
Lemma sends_ok_message k fd s m l :
  sends_ok k fd s -> framed env m ->
  match m with (AddBufferEvent, TailBuffer b) => desc_id (desc (msg_struct b)) ∉ registeredBuffers s | _ => True end ->
  l = know (registeredBuffers s) m ->
  sends_ok k fd (with_registered l (write_msg m.1 m.2 s)).
Proof.
  destruct m as [e t]. intros [Hc Hf Hfr Hv] Hm Hnew ->. constructor; cbn [outgoing Server.conn_fd registeredBuffers write_msg with_registered fst snd].
  - done.
  - rewrite Hc, written_cons. apply Forall_app. by split; [|apply Forall_singleton].
  - rewrite Hc, written_cons, fresh_from_app, <- Hv. done.
  - rewrite Hc, written_cons, foldl_app, <- Hv. done.
Qed.

Lemma sends_ok_step k fd o s : op_framed o -> sends_ok k fd s -> sends_ok k fd (conn_run o s).
Proof.
  intros Ho Hs. pose proof Hs as [Hc Hf Hfr Hv].
  assert (forall m, framed env m -> (forall b, m.2 <> TailBuffer b) -> know (registeredBuffers s) m = registeredBuffers s ->
            sends_ok k fd (write_msg m.1 m.2 s)) as Hsend.
  { intros m Hm Hb Hk. destruct (sends_ok_message k fd s m (registeredBuffers s) Hs Hm) as [A B C D]; [|done|by constructor].
    destruct m as [[] []]; try done. by destruct (Hb m). }
  destruct o; cbn [conn_run op_framed] in *.
  - unfold lorieRegisterBuffer. destruct (connected s); cbn [negb orb]; [|done]. case_bool_decide as Hin; [done|].
    apply (sends_ok_message k fd s (AddBufferEvent, TailBuffer (LorieBuffer_sendHandleToUnixSocket b))); [done|by constructor|done|done].
  - unfold lorieUnregisterBuffer. destruct (negb _); [done|]. destruct (connected s); [|done].
    apply (sends_ok_message k fd s (RemoveBufferEvent (desc_id (desc b)), NoTail)); [done|by constructor|done|done].
  - unfold lorieSendSharedServerState. destruct (connected s); [|done].
    apply (Hsend (SharedServerState, TailFd memfd)); [by constructor|done|done].
  - unfold DDXNotifyFocusChanged. destruct (connected s); [|done].
    apply (Hsend (WindowFocusChanged, NoTail)); [by constructor|done|done].
  - unfold lorieRequestClipboard. destruct (connected s); [|done].
    apply (Hsend (ClipboardRequest, NoTail)); [by constructor|done|done].
  - subst d. done.
Qed.

Lemma sends_ok_run k fd l s :
  Forall op_framed l -> sends_ok k fd s -> sends_ok k fd (foldl (fun s o => conn_run o s) s l).
Proof.
  revert s. induction l as [|o l IH]; intros s Hall Hs; [done|]. apply Forall_cons in Hall as [Ho Hall]. cbn.
  apply IH; [done|]. by apply sends_ok_step.
Qed.

(** The last thing that is written may be a clipboard text. *)
Lemma closing_text l fd s d :
  sends_ok l fd s -> match d with Some t => text_ok env t | None => True end -> fd <> -1 ->
  let s' := lorieSendClipboardData d s in
  registeredBuffers s' = registeredBuffers s /\ Server.conn_fd s' = fd
  /\ exists ending, written fd (outgoing s') = written fd (outgoing s) ++ ending /\ foldl know (registeredBuffers s) ending = registeredBuffers s
       /\ (forall k, fresh_from k ending)
       /\ (ending = [] \/ exists text, text_ok env text /\ ending = [(ClipboardSend (Z.of_nat (length text)), TailBytes text)]).
Proof.
  intros [Hc _ _ _] Hd Hfd. destruct d as [text|]; cbn.
  - assert (connected s = true) as -> by (unfold connected; by rewrite Hc, (proj2 (Z.eqb_neq _ _) Hfd)).
    cbn. rewrite Hc. split; [done|]. split; [done|]. exists [(ClipboardSend (Z.of_nat (length text)), TailBytes text)].
    destruct Hd as (Hz & Hl & Hst). rewrite wrap_u_small by lia. split_and!; [apply (written_cons fd (_, _))|done..|].
    right. by exists text.
  - split; [done|]. split; [done|]. exists []. rewrite app_nil_r. split_and!; [done..|by left].
Qed.

Lemma fresh_from_ending l ms ending :
  fresh_from l ms -> (forall k, fresh_from k ending) -> fresh_from l (ms ++ ending).
Proof. intros Hms He. revert l Hms. induction ms as [|m ms IH]; intros l; cbn; [done|]. intros [? ?]. split; [done|by apply IH]. Qed.

(** The app takes over what it did not know. *)
Lemma app_follows l fd s0 d a :
  let s := lorieSendClipboardData d s0 in
  sends_ok l fd s0 -> match d with Some t => text_ok env t | None => True end -> fd <> -1 ->
  app_conn a <> -1 -> app_inbox a = wire_out link send_handle (written fd (outgoing s)) ->
  exists a1 a2 cs, xcallback env (app_conn a) false a = Ret a1 /\ xcallback env (app_conn a) false a1 = Ret a2
    /\ app_inbox a2 = [] /\ app_conn a2 = app_conn a /\ calls a2 = calls a ++ cs
    /\ forall e rest r r', renderer_ok e rest r -> single (bufs r) -> NoDup l -> live (bufs r) ≡ₚ l -> performs e cs r r' ->
         live (bufs r') ≡ₚ registeredBuffers s /\ renderer_ok e rest r' /\ single (bufs r').
Proof.
  intros s Hs Hd Hfd Ha Hin. destruct (closing_text l fd s0 d Hs Hd Hfd) as (Er & _ & ending & Ew & Ek & Ef & Ee).
  fold s in Er, Ew. destruct Hs as [_ Hf Hfr Hv]. rewrite Ew in Hin.
  destruct (xcallback_drains env link send_handle link_size handle_received memory (written fd (outgoing s0) ++ ending) l (app_conn a) a
    (framed_well_framed env _ _ Hf Ee) (fresh_from_ending _ _ _ Hfr Ef) eq_refl Ha Hin) as (a1 & a2 & cs & E1 & E2 & Hi & Hc & Hcs & Hok & Hk).
  exists a1, a2, cs. split_and!; [done..|]. intros e rest r r' Hrk H1 Hnd Hl Hp.
  destruct (performs_live e rest cs r r' Hp Hrk H1) as (Hlive & ?); [by rewrite Hl|by eapply calls_ok_perm|].
  split; [|done]. by rewrite Hlive, (calls_view_perm _ l cs Hl), Hk, foldl_app, <- Hv, Ek, Er.
Qed.

(** *** A connection from its beginning *)

(** What the server has written is in the app's socket. *)
Definition arrives (fd : Z) (s : Server.server) (a : app_state) : app_state :=
  with_app_inbox (app_inbox a ++ wire_out link send_handle (written fd (outgoing s))) a.

(** The connection is opened while the app has no buffers; then the server sends
    what it will, and from time to time the activity reads its socket, in two
    calls of its callback, and the renderer carries out the calls this makes, with
    any interleaving of the renderer thread, the X server and the GUI thread.
    [open]: no clipboard text waits to be read; nothing is written behind
    one. *)
Inductive conversation (e : Renderer.platform) (rest : list resource) (fd : Z) : bool -> Server.server -> app_state -> renderer -> Prop :=
  | conv_opened stateFd root s a r :
      0 <= stateFd -> registeredBuffers s = [] -> written fd (outgoing s) = [] ->
      (forall b, root = Some b -> shareable env b) -> app_conn a <> -1 -> app_inbox a = [] ->
      renderer_ok e rest r -> single (bufs r) -> live (bufs r) = [] ->
      conversation e rest fd true (addFd stateFd root fd s) a r
  | conv_sends o s a r :
      conversation e rest fd true s a r -> op_framed o -> conversation e rest fd true (conn_run o s) a r
  | conv_sends_text text s a r :
      conversation e rest fd true s a r -> text_ok env text ->
      conversation e rest fd false (lorieSendClipboardData (Some text) s) a r
  | conv_reads open s a r a1 a2 cs r' :
      conversation e rest fd open s a r ->
      xcallback env (app_conn a) false (arrives fd s a) = Ret a1 -> xcallback env (app_conn a) false a1 = Ret a2 ->
      calls a2 = calls a ++ cs -> performs e cs r r' ->
      conversation e rest fd true (flushed s) a2 r'.

(** The app is a number of messages behind the server. *)
Definition behind (e : Renderer.platform) (rest : list resource) (fd : Z) (open : bool) (s : Server.server) (a : app_state) (r : renderer) : Prop :=
  exists l s0 d, s = lorieSendClipboardData d s0 /\ sends_ok l fd s0 /\ (if open then d = None else True)
    /\ match d with Some t => text_ok env t | None => True end
    /\ app_conn a <> -1 /\ app_inbox a = [] /\ renderer_ok e rest r /\ single (bufs r) /\ NoDup l /\ live (bufs r) ≡ₚ l
    /\ NoDup (registeredBuffers s).

Lemma behind_reads e rest fd open s a r :
  fd <> -1 -> behind e rest fd open s a r ->
  exists a1 a2 cs, xcallback env (app_conn a) false (arrives fd s a) = Ret a1 /\ xcallback env (app_conn a) false a1 = Ret a2
    /\ calls a2 = calls a ++ cs /\ app_inbox a2 = []
    /\ forall r', performs e cs r r' -> live (bufs r') ≡ₚ registeredBuffers s /\ behind e rest fd true (flushed s) a2 r'.
Proof.
  intros Hfd (l & s0 & d & -> & Hs & _ & Hd & Ha & Hi & Hrk & H1 & Hnd & Hl & Hnd2).
  destruct (app_follows l fd s0 d (arrives fd (lorieSendClipboardData d s0) a) Hs Hd Hfd) as (a1 & a2 & cs & E1 & E2 & Hi2 & Ha2 & Hcs & Hp);
    [done|by unfold arrives; cbn; rewrite Hi|].
  exists a1, a2, cs. split_and!; [done..|]. intros r' Hperf.
  destruct (Hp e rest r r' Hrk H1 Hnd Hl Hperf) as (Hl' & Hrk' & H1'). split; [done|].
  destruct (closing_text l fd s0 d Hs Hd Hfd) as (_ & Hc & _).
  eexists (registeredBuffers (lorieSendClipboardData d s0)), (flushed (lorieSendClipboardData d s0)), None. split; [done|].
  split; [by constructor|]. split_and!; try done. by rewrite Ha2.
Qed.

Lemma sends_ok_NoDup l fd s : sends_ok l fd s -> NoDup l -> NoDup (registeredBuffers s).
Proof.
  intros [_ _ Hf ->]. revert l Hf. induction (written fd (outgoing s)) as [|m ms IH]; intros l; [done|]. cbn.
  intros [Hm Hf] Hnd. apply IH; [done|]. destruct m as [[] []]; cbn;
    first [done|by apply NoDup_filter|by apply NoDup_cons].
Qed.

Lemma conversation_behind e rest fd open s a r :
  fd <> -1 -> conversation e rest fd open s a r -> behind e rest fd open s a r.
Proof.
  intros Hfd. induction 1 as [stateFd root s a r Hst Hr Hw Hroot Ha Hi Hrk H1 Hl|o s a r _ IH Ho|text s a r _ IH Ht
    |open s a r a1 a2 cs r' _ IH E1 E2 Hcs Hp].
  - set (s0 := emit RedrawAll (with_conn fd (fd :: input_fds s) s)).
    assert (sends_ok [] fd s0) as H0 by (constructor; change (outgoing s0) with (outgoing s); rewrite ?Hw; done || constructor).
    assert (exists l, addFd stateFd root fd s = foldl (fun s o => conn_run o s) s0 l /\ Forall op_framed l) as (l & El & Hlf).
    { destruct root as [b|]; [exists [SendState stateFd; Register b]|exists [SendState stateFd]];
        (split; [done|]); rewrite ?Forall_cons, Forall_nil; cbn [op_framed]; auto. }
    assert (sends_ok [] fd (addFd stateFd root fd s)) as Hs by (rewrite El; by apply sends_ok_run).
    exists [], (addFd stateFd root fd s), None. split_and!; try done; [constructor|by rewrite Hl|].
    by eapply sends_ok_NoDup; [|constructor].
  - destruct IH as (l & s0 & d & -> & Hs & -> & _ & Ha & Hi & Hrk & H1 & Hnd & Hl & _).
    assert (sends_ok l fd (conn_run o s0)) as Hs' by by apply sends_ok_step.
    exists l, (conn_run o s0), None. split_and!; try done. by eapply sends_ok_NoDup.
  - destruct IH as (l & s0 & d & -> & Hs & -> & _ & Ha & Hi & Hrk & H1 & Hnd & Hl & Hnd2).
    exists l, s0, (Some text). split_and!; try done.
    destruct (closing_text l fd s0 (Some text) Hs Ht Hfd) as (Er & _). cbn [lorieSendClipboardData] in Er |- *.
    rewrite Er. exact Hnd2.
  - destruct (behind_reads e rest fd open s a r Hfd IH) as (b1 & b2 & cs' & F1 & F2 & Hcs' & _ & Hb).
    rewrite E1 in F1. injection F1 as <-. rewrite E2 in F2. injection F2 as <-.
    rewrite Hcs in Hcs'. apply app_inv_head in Hcs' as <-. by apply Hb.
Qed.

(** C2: the app shows the server's buffers. Let the app's connection be opened and
    let the server announce, withdraw and send what it will, clipboard texts
    included, while the activity reads its socket whenever it likes, but before
    anything is written behind a clipboard text. At any time, when the activity
    has read the socket to the end, which takes two calls of its
    callback, and the renderer has carried out the calls this made, with any
    interleaving of the renderer thread, the X server and the GUI thread, then
    the buffers the app keeps are those the server has registered, each once,
    wherever the renderer has put them. What happens when something is written
    behind a text is [clipboard_steals_byte]. *)
Theorem app_refines_server e rest fd open s a r :
  fd <> -1 -> conversation e rest fd open s a r ->
  NoDup (registeredBuffers s)
  /\ exists a1 a2 cs, xcallback env (app_conn a) false (arrives fd s a) = Ret a1 /\ xcallback env (app_conn a) false a1 = Ret a2
       /\ calls a2 = calls a ++ cs /\ app_inbox a2 = []
       /\ forall r', performs e cs r r' -> live (bufs r') ≡ₚ registeredBuffers s.
Proof.
  intros Hfd Hc. apply conversation_behind in Hc; [|done]. split; [by destruct Hc as (l & s0 & d & _ & Hc); apply Hc|].
  destruct (behind_reads e rest fd open s a r Hfd Hc) as (a1 & a2 & cs & E1 & E2 & Hcs & Hi & Hp).
  exists a1, a2, cs. split_and!; [done..|]. intros r' Hperf. by apply Hp.
Qed.
End both.

(** ** Behind a clipboard text *)
Lemma app_loop_short env fuel s :
  (length (app_inbox s) < sizeof_lorieEvent)%nat -> app_loop env fuel s = Ret (with_app_inbox [] s).
Proof.
  intros Hl. destruct fuel; cbn [app_loop]; unfold read_bytes;
    rewrite length_fmap, length_take, (proj2 (Nat.eqb_neq _ _)) by lia;
    cbind; by rewrite drop_ge by lia.
Qed.

Lemma app_loop_clipboard env fuel text more s :
  text <> [] -> Forall (fun b => b <> 0) text -> Z.of_nat (length text) + 1 < 2 ^ 32 ->
  Z.of_nat (length text) + 1 <= stack_room env -> (length more <= S sizeof_lorieEvent)%nat ->
  app_inbox s = (Byte <$> encode (ClipboardSend (Z.of_nat (length text)))) ++ (Byte <$> text) ++ more ->
  app_loop env fuel s = Ret (call (SetClipboardText text) (with_app_inbox (drop 1 more) s)).
Proof.
  intros Hne Hz Hl Hst Hm Hi.
  assert (in_range (ClipboardSend (Z.of_nat (length text)))) as Hr by (cbn; unfold fits; lia).
  destruct (encode_decode (ClipboardSend (Z.of_nat (length text))) Hr) as [He Hd].
  assert ((sizeof_lorieEvent <? length (drop 1 more))%nat = false) as Hlt
    by (apply Nat.ltb_ge; rewrite length_drop; lia).
  destruct fuel; cbn [app_loop]; rewrite Hi, read_bytes_app, He, Nat.eqb_refl, Hd by done;
    cbn [handle_app_event]; rewrite handle_clipboard_ok by done; cbind;
    cbn [app_inbox call with_app_inbox]; rewrite Hlt; done.
Qed.

(** C38: a clipboard text from the server. By itself it reaches the Java side as it
    was sent. But the activity reads one byte more than the server wrote: when
    a message is already behind the text in the socket, its first byte goes
    with the text, and a message of one event, whatever it is, is lost. *)
Theorem clipboard_steals_byte env fd text s m :
  text <> [] -> Forall (fun b => b <> 0) text -> Z.of_nat (length text) + 1 < 2 ^ 32 ->
  Z.of_nat (length text) + 1 <= stack_room env -> app_conn s = fd -> fd <> -1 ->
  let clip := (Byte <$> encode (ClipboardSend (Z.of_nat (length text)))) ++ (Byte <$> text) in
  xcallback env fd false (with_app_inbox clip s) = Ret (call (SetClipboardText text) (with_app_inbox [] s))
  /\ exists s1, xcallback env fd false (with_app_inbox (clip ++ (Byte <$> encode m)) s) = Ret s1
       /\ xcallback env fd false s1 = Ret (call (SetClipboardText text) (with_app_inbox [] s)).
Proof.
  intros Hne Hz Hl Hst Hfd Hc clip. unfold xcallback. cbn [app_conn with_app_inbox].
  rewrite (proj2 (Z.eqb_neq (app_conn s) (-1))) by congruence. subst clip. split.
  - by rewrite (app_loop_clipboard _ _ text []) by (rewrite ?app_nil_r; done || (cbn; lia)).
  - rewrite <- app_assoc. erewrite (app_loop_clipboard env _ text (Byte <$> encode m)) by
      (done || (rewrite length_fmap, length_encode; lia)).
    eexists. split; [reflexivity|]. cbn [app_conn call with_app_inbox].
    rewrite (proj2 (Z.eqb_neq (app_conn s) (-1))) by congruence.
    rewrite app_loop_short by (cbn [app_inbox call with_app_inbox]; rewrite length_drop, length_fmap, length_encode; unfold sizeof_lorieEvent; lia).
    done.
Qed.

(** The end of a connection. Whether the server hangs up or the app connects
    anew, the descriptor is closed and no longer watched, and when the renderer
    has carried out the calls, the app keeps no buffer of the old
    server. *)
Theorem disconnect_forgets env e rest fd s r :
  let ended s' := exists cs, calls s' = calls s ++ cs /\ Close (app_conn s) ∈ cs
                    /\ forall r', performs e cs r r' -> live (bufs r') = [] in
  app_conn s <> -1 -> renderer_ok e rest r -> single (bufs r) -> NoDup (live (bufs r)) ->
  (exists s', xcallback env fd true s = Ret s' /\ app_conn s' = -1 /\ (fd ∉ looper s') /\ ended s')
  /\ app_conn (connect_ fd s) = fd /\ ((fd ∈ looper (connect_ fd s)) <-> (fd <> -1 \/ fd ∈ looper s))
  /\ ended (connect_ fd s).
Proof.
  intros ended Hc Hr H1 Hnd.
  assert (forall s' pre, calls s' = calls s ++ pre ++ [Render (SetSharedState 0 no_state); Render RemoveAllBuffers] ->
            calls_ok (live (bufs r)) pre -> foldl call_view (live (bufs r)) pre = live (bufs r) ->
            Close (app_conn s) ∈ pre -> ended s') as Hgone.
  { intros s' pre E Hok Hv Hin. exists (pre ++ [Render (SetSharedState 0 no_state); Render RemoveAllBuffers]).
    split; [done|]. split; [set_solver|]. intros r' Hp.
    destruct (performs_live e rest _ r r' Hp Hr H1 Hnd) as (Hl & _); [apply calls_ok_app; by split|].
    rewrite foldl_app in Hl. cbn in Hl. by apply Permutation_nil_r. }
  split.
  - unfold xcallback. eexists. split; [reflexivity|]. split; [done|].
    split; [cbn; rewrite list_elem_of_filter; naive_solver|]. destruct (has_instance env).
    + apply (Hgone _ [ClientConnectedStateChanged; Close (app_conn s)]); try done; [|set_solver].
      cbn. by rewrite <- !app_assoc.
    + apply (Hgone _ [Close (app_conn s)]); try done; [|set_solver]. cbn. by rewrite <- !app_assoc.
  - unfold connect_. rewrite (proj2 (Z.eqb_neq _ _) Hc). split; [by destruct (fd =? -1)|]. split.
    + destruct (Z.eqb_spec fd (-1)) as [->|Hf]; cbn; [|set_solver].
      rewrite list_elem_of_filter. naive_solver.
    + apply (Hgone _ [Close (app_conn s)]); try done; [|set_solver].
      destruct (fd =? -1); cbn; by rewrite <- !app_assoc.
Qed.

(** A view that is set up is not connected: the connection of an earlier view, if
    there is one, is ended, and nothing else is done. *)
Theorem native_init_disconnects known exists_ s :
  known = true \/ forallb exists_ java_names = true ->
  exists s', nativeInit known exists_ s = Ret s' /\ app_conn s' = -1
    /\ calls s' = calls s ++ (if app_connected s
                              then [Close (app_conn s); Render (SetSharedState 0 no_state); Render RemoveAllBuffers] else [])
    /\ (app_connected s = true -> app_conn s ∉ looper s').
Proof.
  intros H. unfold nativeInit. assert (known || forallb exists_ java_names = true)%bool as -> by
    (destruct H as [-> | ->]; [done|apply orb_true_r]).
  eexists. split; [reflexivity|]. unfold connect_, app_connected.
  destruct (Z.eqb_spec (app_conn s) (-1)); cbn; [by rewrite app_nil_r|]. rewrite <- !app_assoc. split_and!; try done.
  intros _. rewrite list_elem_of_filter. naive_solver.
Qed.

(** A buffer that arrives when there is no memory for it. The callback then adds
    the previous buffer again, since the variable that holds it was not
    reset; if the renderer has freed that one, its next turn uses it after it
    was freed. *)
Theorem failed_alloc_adds_freed env link send_handle b rest s st g :
  (forall b, length (link b) = 16%nat) ->
  shareable env b ->
  type (desc b) = LORIEBUFFER_FD -> ahb (desc b) = 0 -> 0 <= transfer env (fd b) ->
  calloc_buffer (buffer_calls env) = false -> last_buffer s <> 0 -> heap st !! last_buffer s = None ->
  exists s', handle_add_buffer env
      (with_app_inbox (wire_buffer link send_handle (LorieBuffer_sendHandleToUnixSocket b) ++ rest) s) = Ret s'
    /\ calls s' = calls s ++ [AddAgain (last_buffer s)] /\ app_inbox s' = rest
    /\ (exists m, leaked s' = m :: leaked s)
    /\ attach_all g (rendererAddBuffer (last_buffer s) st) = Fault NullDeref.
Proof.
  intros Hlink [Hf H1 Ht _ Hfd] Hty Hahb Htr Hm Hlast Hheap.
  destruct (Hfd Hty) as (Hf0 & Htr1 & Ha0 & Ha1).
  unfold handle_add_buffer, read_buffer, wire_buffer.
  cbn [app_inbox with_app_inbox msg_struct msg_fd msg_ahb LorieBuffer_sendHandleToUnixSocket].
  rewrite <- !app_assoc, read_bytes_app by (by apply length_struct_bytes).
  rewrite length_struct_bytes, drop_ge, app_nil_r by (done || by rewrite length_struct_bytes).
  rewrite (proj2 (struct_roundtrip (link b) b (Hlink b) Hf)), Hty. cbn [Z.eqb Pos.eqb LORIEBUFFER_FD LORIEBUFFER_AHARDWAREBUFFER].
  unfold ancil_send_fd. decide_tests. cbn [app ancil_recv_fd].
  unfold LorieBuffer_recvHandleFromUnixSocket. cbn [msg_struct msg_fd]. rewrite Hty. cbn [Z.eqb Pos.eqb LORIEBUFFER_FD].
  decide_tests. rewrite Hm. unfold set_desc, set_data. cbn [Buffer.fd desc ahb].
  rewrite remove_one_skip, remove_one_head by done. cbind.
  eexists. split; [reflexivity|]. cbn [last_buffer with_leaked with_app_inbox]. rewrite (proj2 (Z.eqb_neq _ _) Hlast).
  split; [done|]. split; [done|]. split; [by eexists|].
  unfold attach_all, rendererAddBuffer, LorieBuffer_addToList, LorieBuffer_removeFromList.
  cbn [addedBuffers length attach_loop LorieBufferList_first get_list head].
  unfold LorieBuffer_attachToGL, deref. cbn [heap]. rewrite Hheap. done.
Qed.

(** ** Two concrete processes *)
Definition app_memory (calloc : bool) : Buffer.platform :=
  Buffer.mk_platform 4096 2 (fun _ => 11) 12 13 (fun _ => (0, 0)) (fun fd => fd) 0x30000 calloc true
    (fun _ fd _ => 0x100000 + fd) (fun _ _ _ => 0) (fun _ => mk_ahb_desc 0 0 0 0) (fun _ => (0, 0)) (fun _ => 0).

Definition sample_app_env (calloc : bool) : app_env :=
  mk_app_env 8388608 (fun fd => fd + 20) (fun s => match s with c :: s => (byte_of c, s) | [] => (0, []) end)
    (app_memory calloc) (fun n => 700 + Z.of_nat n) (fun fd => 5000 + fd) (fun _ => sample_state) true.
Definition sample_link (b : LorieBuffer) : list Z := zeros 16.
Definition sample_handle (h : Z) : list cell := [Byte (u8 h)].

Lemma sample_handle_received calloc h rest :
  exists h', recv_handle (sample_app_env calloc) (sample_handle h ++ rest) = (h', rest).
Proof. by eexists. Qed.

Lemma root_shareable calloc : shareable (sample_app_env calloc) root_buffer.
Proof.
  constructor; [|done|done|by left|intros _; cbn; lia].
  constructor; cbn; unfold fits, fits_s; cbn; lia.
Qed.

(** The server announces its root buffer, withdraws it and announces it again. *)
Definition sample_ops : list conn_op := [FocusChanged; Unregister root_buffer; RequestClipboard; Register root_buffer].
Definition sample_sent : Server.server :=
  foldl (fun s o => conn_run o s) (addFd 3 (Some root_buffer) 7 offline) sample_ops.
Definition sample_app (l : list cell) : app_state := mk_app 9 [9] l 0 0 [] [].

(** A schedule: the next call, or something else in between. *)
Fixpoint play (e : Renderer.platform) (l : list (option action)) (cs : list app_call) (r : renderer) : option renderer :=
  match l, cs with
  | [], [] => Some r
  | Some a :: l, _ =>
      match announces a, enabled e a r, run e a r with
      | None, true, Ret r => play e l cs r
      | _, _, _ => None
      end
  | None :: l, Render a :: cs =>
      match enabled e a r, run e a r with true, Ret r => play e l cs r | _, _ => None end
  | None :: l, AddAgain _ :: _ => None
  | None :: l, _ :: cs => play e l cs r
  | _, _ => None
  end.

Lemma play_performs e l cs r r' : play e l cs r = Some r' -> performs e cs r r'.
Proof.
  revert cs r. induction l as [|[a|] l IH]; intros cs r; cbn [play].
  - destruct cs; [|done]. intros [= <-]. constructor.
  - destruct (announces a) eqn:Ea, (enabled e a r) eqn:Een, (run e a r) eqn:Er; try done.
    intros E. eapply performs_between; [done..|]. by apply IH.
  - destruct cs as [|[a| | | | | |] cs]; try done; try (intros E; apply performs_java; [done|]; by apply IH).
    destruct (enabled e a r) eqn:Een, (run e a r) eqn:Er; try done.
    intros E. eapply performs_call; [done..|]. by apply IH.
Qed.

(** The renderer thread attaches the first copy before it is withdrawn. *)
Definition sample_schedule : list (option action) :=
  [Some RendererStep; None; Some RendererStep; Some RendererStep; Some RendererStep; Some RendererStep; Some GuiResumes]
  ++ [None; None; None] ++ replicate 7 (Some RendererStep) ++ [None; None; None; None] ++ replicate 2 (Some RendererStep).

Definition sample_renderer : renderer := renderer_init sample_platform [].
Definition sample_reader : app_state :=
  sample_app (wire_out sample_link sample_handle (written 7 (outgoing (lorieSendClipboardData (Some [104; 105]) sample_sent)))).

Definition sample_run : option (app_state * app_state * renderer) :=
  match xcallback (sample_app_env true) 9 false sample_reader with
  | Ret a1 =>
      match xcallback (sample_app_env true) 9 false a1 with
      | Ret a2 => (fun r => (a1, a2, r)) <$> play sample_platform sample_schedule (calls a2) sample_renderer
      | Fault _ => None
      end
  | Fault _ => None
  end.

Lemma sample_run_inv a1 a2 r' :
  sample_run = Some (a1, a2, r') ->
  xcallback (sample_app_env true) 9 false sample_reader = Ret a1
  /\ xcallback (sample_app_env true) 9 false a1 = Ret a2 /\ performs sample_platform (calls a2) sample_renderer r'.
Proof.
  unfold sample_run. destruct (xcallback _ _ _ sample_reader) as [x|]; [|done].
  destruct (xcallback _ _ _ x) as [y|] eqn:E; [|done].
  destruct (play _ _ _ _) as [z|] eqn:Ep; [|done]. intros [= <- <- <-]. split; [done|]. split; [done|]. by eapply play_performs.
Qed.

Lemma sample_run_removed :
  match sample_run with
  | Some (_, a, r) => removedBuffers (bufs r) = [700] /\ SetClipboardText [104; 105] ∈ calls a
  | None => False
  end.
Proof. vm_compute. split; [reflexivity|]. apply list_elem_of_In. cbn. repeat (first [left; reflexivity|right]). Qed.

Lemma sample_renderer_ok : renderer_ok sample_platform [] sample_renderer /\ single (bufs sample_renderer).
Proof. split; [apply reachable_ok, reachable_init|]. intros p b Hp. cbn in Hp. by rewrite lookup_empty in Hp. Qed.

Lemma sample_ops_framed : Forall (op_framed (sample_app_env true)) sample_ops.
Proof.
  pose proof (root_shareable true). unfold sample_ops. rewrite !Forall_cons, Forall_nil.
  split_and!; try done; cbn; unfold fits; cbn; lia.
Qed.

(** After the buffers the server sends a text, and the app reads all of it. *)
Lemma sample_conversation :
  conversation (sample_app_env true) sample_link sample_handle sample_platform [] 7 false
    (lorieSendClipboardData (Some [104; 105]) sample_sent) (sample_app []) sample_renderer.
Proof.
  pose proof sample_ops_framed as Hops. unfold sample_ops in Hops. rewrite !Forall_cons in Hops.
  destruct Hops as (H1 & H2 & H3 & H4 & _).
  apply conv_sends_text; [|split_and!; [repeat constructor; discriminate|cbn; lia|cbn; lia]].
  unfold sample_sent, sample_ops. cbn [foldl].
  apply conv_sends; [|exact H4]. apply conv_sends; [|exact H3]. apply conv_sends; [|exact H2]. apply conv_sends; [|exact H1].
  apply conv_opened; first [done|intros b [= <-]; apply root_shareable|apply sample_renderer_ok].
Qed.

Lemma app_refines_server_witness :
  exists a1 a2 r', xcallback (sample_app_env true) 9 false sample_reader = Ret a1
    /\ xcallback (sample_app_env true) 9 false a1 = Ret a2
    /\ performs sample_platform (calls a2) sample_renderer r'
    /\ removedBuffers (bufs r') = [700] /\ SetClipboardText [104; 105] ∈ calls a2 /\ live (bufs r') ≡ₚ [9].
Proof.
  pose proof sample_run_removed as Hrm. destruct sample_run as [[[a1 a2] r']|] eqn:E; [|destruct Hrm].
  apply sample_run_inv in E as (E1 & E2 & Hp). exists a1, a2, r'. destruct Hrm as [Hrm Htext].
  split; [exact E1|]. split; [exact E2|]. split; [exact Hp|]. split; [exact Hrm|]. split; [exact Htext|].
  destruct (app_refines_server (sample_app_env true) sample_link sample_handle (fun _ => eq_refl)
      (sample_handle_received true) eq_refl sample_platform [] 7 false _ _ _ ltac:(discriminate) sample_conversation)
    as (_ & x & y & cs & Ex & Ey & Hcs & _ & Hl).
  change (xcallback (sample_app_env true) 9 false sample_reader = Ret x) in Ex. rewrite E1 in Ex. injection Ex as <-.
  change (app_conn (sample_app [])) with 9 in Ey.
  rewrite E2 in Ey. injection Ey as <-. rewrite Hcs in Hp. exact (Hl r' Hp).
Defined.

Lemma clipboard_steals_byte_witness :
  exists s1, xcallback (sample_app_env true) 9 false
      (sample_app ((Byte <$> encode (ClipboardSend 2)) ++ (Byte <$> [104; 105]) ++ (Byte <$> encode (RemoveBufferEvent 9)))) = Ret s1
    /\ xcallback (sample_app_env true) 9 false s1 = Ret (mk_app 9 [9] [] 0 0 [] [SetClipboardText [104; 105]]).
Proof.
  refine (proj2 (clipboard_steals_byte (sample_app_env true) 9 [104; 105] (sample_app []) (RemoveBufferEvent 9) _ _ _ _ _ _)).
  1: discriminate.
  1: repeat constructor; discriminate.
  1,2: cbn; lia.
  1: reflexivity.
  discriminate.
Defined.

Lemma native_init_disconnects_witness :
  exists s', nativeInit false (fun _ => true) (sample_app []) = Ret s'
    /\ calls s' = [Close 9; Render (SetSharedState 0 no_state); Render RemoveAllBuffers].
Proof.
  destruct (native_init_disconnects false (fun _ => true) (sample_app [])) as (s' & E & _ & Hc & _); [right; reflexivity|].
  exists s'. split; [exact E|exact Hc].
Defined.

(** The renderer with one buffer on display. *)
Definition sample_showing : renderer :=
  with_bufs (mk_store {[700 := root_buffer]} [] [700] [] (owned root_buffer) []) sample_renderer.

Lemma sample_showing_ok : renderer_ok sample_platform [] sample_showing /\ single (bufs sample_showing).
Proof.
  split.
  - destruct sample_renderer_ok as [[_ H2 H3 H4 H5 H6 _] _]. constructor; try done. constructor; cbn.
    + repeat constructor; set_solver.
    + intros p. rewrite list_elem_of_singleton. destruct (decide (p = 700)) as [->|Hp].
      * rewrite lookup_singleton_eq. split; by eexists.
      * rewrite lookup_singleton_ne by done. split; [done|intros [? ?]; done].
    + intros p b [<- <-]%lookup_singleton_Some. cbn. lia.
    + set_solver.
    + unfold per_buffer. by rewrite map_to_list_singleton, !app_nil_r.
    + unfold per_buffer. by rewrite map_to_list_singleton.
  - intros p b Hp. cbn in Hp. by apply lookup_singleton_Some in Hp as [_ <-].
Qed.

Lemma disconnect_forgets_witness :
  live (bufs sample_showing) = [9]
  /\ exists s' cs, xcallback (sample_app_env true) 9 true (sample_app []) = Ret s' /\ calls s' = cs
       /\ Close 9 ∈ cs /\ forall r', performs sample_platform cs sample_showing r' -> live (bufs r') = [].
Proof.
  split; [reflexivity|].
  destruct (disconnect_forgets (sample_app_env true) sample_platform [] 9 (sample_app []) sample_showing)
    as ((s' & E & _ & _ & cs & Hcs & Hin & Hl) & _);
    [discriminate|apply sample_showing_ok|apply sample_showing_ok|repeat constructor; set_solver|].
  exists s', cs. split; [exact E|]. split; [exact Hcs|]. split; [exact Hin|exact Hl].
Defined.

Lemma failed_alloc_adds_freed_witness :
  exists s', handle_add_buffer (sample_app_env false)
      (with_app_inbox (wire_buffer sample_link sample_handle (LorieBuffer_sendHandleToUnixSocket root_buffer) ++ [])
         (with_last_buffer 650 1 (sample_app []))) = Ret s'
    /\ calls s' = [AddAgain 650]
    /\ attach_all (gl_calls sample_platform) (rendererAddBuffer 650 (bufs sample_showing)) = Fault NullDeref.
Proof.
  destruct (failed_alloc_adds_freed (sample_app_env false) sample_link sample_handle root_buffer []
    (with_last_buffer 650 1 (sample_app [])) (bufs sample_showing) (gl_calls sample_platform))
    as (s' & E & Hc & _ & _ & H);
    [reflexivity|apply root_shareable|reflexivity|reflexivity|cbn; lia|reflexivity|discriminate|reflexivity|].
  exists s'. split; [exact E|]. split; [exact Hc|exact H].
Defined.
