(* ===== verification/ClipSync.v ===== *)
(** * The clipboard, from one system to the other

    Both processes at work on a selection: the X side ([Clipboard]) and the
    socket ([Server], [Wire]) in the server, and the app's callback
    ([Activity]).  What Java does between a request for its text and the text
    itself is not modelled: the text is an argument. *)
From S2P Require Import Prelude TextConv Clipboard Buffer Events Server Wire Activity.

Record sync : Type := mk_sync { clip : clip_state; srv : server; app : app_state }.

Section sync.
Context {DIX : Dix}.
Context (link : LorieBuffer -> list Z) (send_handle : Z -> list cell) (env : input_env) (aenv : app_env).

(** ** The server's calls *)

(** What clipboard.c asks of cmdentrypoint.c. *)
Definition perform_clip (s : server) (e : clip_effect) : server :=
  match e with
  | Clipboard.RequestClipboard => lorieRequestClipboard s
  | SendClipboardData t => Server.lorieSendClipboardData (Some t) s
  | _ => s
  end.

(** The effects of a call, oldest first. *)
Definition new_effects (st st' : clip_state) : list clip_effect :=
  rev (take (length (out st') - length (out st)) (out st')).

Definition on_clip (f : clip_state -> outcome clip_state) (y : sync) : outcome sync :=
  st ← f (clip y);
  Ret (mk_sync st (foldl perform_clip (srv y) (new_effects (clip y) st)) (app y)).

(** A request to convert a selection, and one to send an event. *)
Definition x_converts (ldt : data_target) : sync -> outcome sync :=
  on_clip (fun st => '(st, _) ← lorieProcConvertSelection ldt st; Ret st).
Definition x_sends_event (client : Z) (e : send_event) : sync -> outcome sync :=
  on_clip (lorieProcSendEvent client e).

(** The procedures queued by the input thread. *)
Definition work_proc (y : sync) (e : effect) : outcome sync :=
  match e with
  | HandleClipboardAnnounce => on_clip (fun st => Ret (lorieHandleClipboardAnnounce st)) y
  | HandleClipboardData d =>
      on_clip (fun st => lorieHandleClipboardData (length (lorieDataTargetHead st)) (Some d) st) y
  | EnableClipboardSync b => on_clip (fun st => Ret (lorieEnableClipboardSync b st)) y
  | _ => Ret y
  end.

Fixpoint work (l : list effect) (y : sync) : outcome sync :=
  match l with [] => Ret y | e :: l => y ← work_proc y e; work l y end.

(** ** The socket *)

(** What the server has written reaches the app, which reads it. *)
Definition app_reads (fd : Z) (y : sync) : outcome sync :=
  let s := srv y in
  let bytes := wire_out link send_handle (written (conn_fd s) (outgoing s)) in
  a ← xcallback aenv fd false (with_app_inbox (app_inbox (app y) ++ bytes) (app y));
  Ret (mk_sync (clip y) (flushed s) a).

(** What the app writes reaches the server, which reads it and does the work. *)
Definition server_reads (l : list Events.message) (y : sync) : outcome sync :=
  let fd := conn_fd (srv y) in
  s ← read_all 2 env fd (with_inbox fd (inbox fd (srv y) ++ stream l) (srv y));
  work (rev (take (length (effects s) - length (effects (srv y))) (effects s))) (mk_sync (clip y) s (app y)).

(** ** Lemmas *)
Lemma new_effects_adds st st' evs : adds st st' evs -> new_effects st st' = evs.
Proof.
  intros E. unfold new_effects. rewrite E, length_app, length_rev.
  replace (length evs + length (out st) - length (out st))%nat with (length (rev evs)) by (rewrite length_rev; lia).
  by rewrite take_app_length, rev_involutive.
Qed.

Lemma on_clip_adds f y st' evs :
  f (clip y) = Ret st' -> adds (clip y) st' evs ->
  on_clip f y = Ret (mk_sync st' (foldl perform_clip (srv y) evs) (app y)).
Proof. intros E Ha. unfold on_clip. rewrite E. cbind. by rewrite (new_effects_adds _ _ evs). Qed.

(** Nothing of the answers goes to the app. *)
Definition is_local (e : clip_effect) : bool :=
  match e with Clipboard.RequestClipboard | SendClipboardData _ => false | _ => true end.

Lemma perform_local s l : forallb is_local l = true -> foldl perform_clip s l = s.
Proof. revert s. induction l as [|e l IH]; intros s; [done|]. cbn. intros [He Hl]%andb_true_iff.
  rewrite IH by done. by destruct e. Qed.


Record idle_link (fd : Z) (y : sync) : Prop := {
  lk_conn : conn_fd (srv y) = fd;
  lk_open : fd <> -1;
  lk_inbox : inbox fd (srv y) = [];
  lk_outgoing : outgoing (srv y) = [];
  lk_app : app_conn (app y) <> -1;
  lk_app_inbox : app_inbox (app y) = []
}.

Lemma server_reads_one fd m e y :
  idle_link fd y -> message_ok m ->
  effects (deliver env fd (with_mask ∅ (srv y)) m) = e :: effects (srv y) ->
  server_reads [m] y
  = work_proc (mk_sync (clip y) (with_inbox fd [] (deliver env fd (with_mask ∅ (srv y)) m)) (app y)) e.
Proof.
  intros [Hfd _ Hin _ _ _] Hm He. unfold server_reads. rewrite Hfd, Hin. cbn [app].
  rewrite (read_one env fd m) by (done || (cbn; by rewrite lookup_insert_eq)). cbind.
  rewrite mask_inbox, deliver_inbox, with_inbox_twice. cbn [effects with_inbox].
  rewrite He. cbn [length]. rewrite Nat.sub_succ_l, Nat.sub_diag by lia. change (rev (take 1 (e :: effects (srv y)))) with [e]. cbn [work].
  by destruct (work_proc _ e).
Qed.

Lemma app_reads_request fd y :
  app_conn (app y) <> -1 -> app_inbox (app y) = [] -> conn_fd (srv y) = fd ->
  outgoing (srv y) = [(fd, (ClipboardRequest, NoTail))] ->
  exists y', app_reads fd y = Ret y' /\ clip y' = clip y /\ conn_fd (srv y') = fd
    /\ inboxes (srv y') = inboxes (srv y) /\ outgoing (srv y') = []
    /\ app y' = call JavaRequestClipboard (app y).
Proof.
  intros Hc Hi Hfd Ho. unfold app_reads. rewrite Hfd, Ho, Hi. cbn [written rev List.app omap list_omap fst snd].
  rewrite Z.eqb_refl. unfold wire_out, wire_message. cbn [fmap list_fmap concat fst snd wire_tail List.app].
  rewrite !app_nil_r. unfold xcallback. cbn [app_conn with_app_inbox]. rewrite (proj2 (Z.eqb_neq _ _) Hc).
  assert (in_range ClipboardRequest) as Hr by done. destruct (encode_decode ClipboardRequest Hr) as [He Hd].
  set (s := with_app_inbox (Byte <$> encode ClipboardRequest) (app y)).
  assert (forall fuel, app_loop aenv fuel s = Ret (call JavaRequestClipboard (app y))) as ->.
  2:{ cbind. eexists. by split_and!. }
  intros fuel. assert (read_bytes sizeof_lorieEvent (app_inbox s) = (encode ClipboardRequest, [])) as Hrd.
  { cbn [s app_inbox with_app_inbox]. rewrite <- (app_nil_r (Byte <$> encode ClipboardRequest)). by rewrite read_bytes_app. }
  assert (with_app_inbox [] s = app y) as Es by (unfold s, with_app_inbox; rewrite <- Hi; by destruct (app y)).
  destruct fuel; cbn [app_loop]; rewrite Hrd, Es, He, Nat.eqb_refl, Hd; cbn [handle_app_event]; cbind;
    cbn [app_inbox call]; by rewrite Hi.
Qed.
Context {LAWS : DixLaws}.

(** *** What the steps do to the selection *)
Definition adds_local (st st' : clip_state) : Prop := exists evs, adds st st' evs /\ forallb is_local evs = true.

Lemma adds_local_refl st st' : out st' = out st -> adds_local st st'.
Proof. intros E. exists []. by unfold adds; rewrite E. Qed.

Lemma adds_local_emit st st' e : is_local e = true -> adds_local st st' -> adds_local st (Clipboard.emit e st').
Proof.
  intros He (evs & Ha & Hl). exists (evs ++ [e]). unfold adds in *. cbn. rewrite Ha, rev_app_distr.
  split; [done|]. rewrite forallb_app, Hl. cbn. by rewrite He.
Qed.

Lemma adds_local_out st st1 st2 : out st2 = out st1 -> adds_local st st1 -> adds_local st st2.
Proof. intros E (evs & Ha & Hl). exists evs. split; [|done]. unfold adds in *. by rewrite E. Qed.

Lemma callback_local sel b st st' : adds_local st st' -> adds_local st (lorieSelectionCallback sel b st').
Proof.
  intros H. unfold lorieSelectionCallback, lorieSelectionRequest.
  destruct (clipboardEnabled st' && _ && b); [|done]. destruct (clipboardEnabled st'); [|done].
  destruct (dixLookupSelection _ _ _ _) as [e|i]; [done|].
  destruct (CurrentSelections st' !! i); [|done]. by apply adds_local_emit.
Qed.

Lemma announce_local st : adds_local st (lorieHandleClipboardAnnounce st).
Proof.
  unfold lorieHandleClipboardAnnounce, lorieOwnSelection.
  assert (adds_local st (set_cached None st)) as H0 by by apply adds_local_refl.
  assert (forall i st1, adds_local st st1 -> adds_local st
    (match CurrentSelections st1 !! i with
     | None => (st1, BadMatch)
     | Some s =>
         let s := mk_selection (sel_atom s) serverClient root_window currentTime in
         let st2 := set_selections (<[i := s]> (CurrentSelections st1)) st1 in
         (lorieSelectionCallback (sel_atom s) true (Clipboard.emit (SelectionCallbacks xaCLIPBOARD) st2), Success)
     end).1) as Hown.
  { intros i st1 H1. destruct (CurrentSelections st1 !! i); [|done]. cbn [fst].
    apply callback_local, adds_local_emit; [done|]. by eapply adds_local_out; [|exact H1]. }
  destruct (dixLookupSelection _ _ _ _) as [[]|i]; cbn [fst]; try exact H0.
  - destruct (alloc_selection xaCLIPBOARD); cbn [negb fst]; [|exact H0].
    destruct (XaceHookSelectionAccess xaCLIPBOARD); cbn [fst]; try exact H0.
    apply (Hown 0%nat). by eapply adds_local_out; [|exact H0].
  - destruct (CurrentSelections (set_cached None st) !! i) as [s|]; [|exact H0].
    apply Hown. case_match; [by apply adds_local_emit|exact H0].
Qed.

(** A request for text while the server owns the selection and knows no text. *)
Lemma text_requested ldt st i s :
  dixLookupWindow (dt_requestor ldt) (dt_client ldt) = Success ->
  ValidAtom (dt_selection ldt) = true -> ValidAtom (dt_target ldt) = true ->
  dt_property ldt = no_property \/ ValidAtom (dt_property ldt) = true ->
  dt_target ldt <> xaTARGETS -> dt_target ldt <> xaTIMESTAMP ->
  dt_target ldt ∈ [xaSTRING; xaTEXT; xaUTF8_STRING] ->
  list_find (fun s => sel_atom s = dt_selection ldt) (CurrentSelections st) = Some (i, s) ->
  sel_access (dt_selection ldt) (dt_client ldt) DixReadAccess = true ->
  sel_access (dt_selection ldt) (dt_client ldt) DixGetAttrAccess = true ->
  sel_client s = serverClient -> sel_window s = root_window -> cachedData st = None -> calloc_target ldt = true ->
  lorieProcConvertSelection ldt st
  = Ret (Clipboard.emit Clipboard.RequestClipboard (set_targets (ldt :: lorieDataTargetHead st) st), Success).
Proof.
  intros Hw Hv1 Hv2 Hv3 Hn1 Hn2 Ht Hf Hr Hg Hc Hwd Hd Hm. pose proof Hf as (Hs & _ & _)%list_find_Some.
  unfold lorieProcConvertSelection. rewrite Hw, Hv1, Hv2. cbn [andb].
  assert ((dt_property ldt =? no_property) || ValidAtom (dt_property ldt) = true)%bool as ->.
  { destruct Hv3 as [-> | ->]; [done|apply orb_true_r]. }
  cbn [negb]. rewrite dixLookupSelection_spec, Hf, Hr, Hs, Hc, Hwd, !Z.eqb_refl. cbn [andb].
  unfold lorieConvertSelection. rewrite dixLookupSelection_spec, Hf, Hg, Hw, Hs, Hd.
  unfold selection_value. rewrite (proj2 (Z.eqb_neq _ _) Hn1), (proj2 (Z.eqb_neq _ _) Hn2).
  assert (negb (dt_target ldt =? xaSTRING) && negb (dt_target ldt =? xaTEXT)
          && negb (dt_target ldt =? xaUTF8_STRING) = false)%bool as ->; [|by rewrite Hm].
  rewrite !elem_of_cons, elem_of_nil in Ht.
  destruct Ht as [-> |[-> |[-> |[]]]]; rewrite Z.eqb_refl; cbn; by rewrite ?andb_false_r.
Qed.

(** What a request for text is answered with. *)
Definition reply (ldt : data_target) (cps : list Z) : prop_value :=
  if dt_target ldt =? xaUTF8_STRING then PropBytes xaUTF8_STRING (utf8_encode_all cps)
  else PropBytes XA_STRING (map (fun cp => if cp <? 256 then cp else 63) cps).
Definition real_property (ldt : data_target) : Z :=
  if negb (dt_property ldt =? no_property) then dt_property ldt else dt_target ldt.

Lemma text_value ldt s cps :
  (forall text, strdup_text text = true) ->
  Forall scalar cps -> Z.of_nat (length (utf8_encode_all cps)) <= 4294967295 ->
  dt_target ldt <> xaTARGETS -> dt_target ldt <> xaTIMESTAMP ->
  dt_target ldt ∈ [xaSTRING; xaTEXT; xaUTF8_STRING] -> xaUTF8_STRING <> xaSTRING -> xaUTF8_STRING <> xaTEXT ->
  selection_value ldt s (Some (utf8_encode_all cps ++ [0])) = Ret (Some (inr (reply ldt cps))).
Proof.
  intros Hm Hc Hl Hn1 Hn2 Ht N1 N2. unfold selection_value, reply.
  rewrite (proj2 (Z.eqb_neq _ _) Hn1), (proj2 (Z.eqb_neq _ _) Hn2).
  rewrite utf8_to_latin1_text, cstring_encoded by done. cbind. rewrite Hm. cbn [negb].
  rewrite !elem_of_cons, elem_of_nil in Ht. destruct Ht as [-> |[-> |[-> |[]]]]; rewrite !Z.eqb_refl; cbn [orb].
  - by rewrite (proj2 (Z.eqb_neq xaSTRING xaUTF8_STRING)) by done.
  - rewrite orb_true_r. by rewrite (proj2 (Z.eqb_neq xaTEXT xaUTF8_STRING)) by done.
  - by rewrite (proj2 (Z.eqb_neq _ _) N1), (proj2 (Z.eqb_neq _ _) N2).
Qed.

Lemma text_delivered ldt q cps st i s :
  (forall text, strdup_text text = true) ->
  Forall scalar cps -> Z.of_nat (length (utf8_encode_all cps)) <= 4294967295 ->
  dt_target ldt <> xaTARGETS -> dt_target ldt <> xaTIMESTAMP ->
  dt_target ldt ∈ [xaSTRING; xaTEXT; xaUTF8_STRING] -> xaUTF8_STRING <> xaSTRING -> xaUTF8_STRING <> xaTEXT ->
  lorieDataTargetHead st = ldt :: q ->
  list_find (fun s => sel_atom s = dt_selection ldt) (CurrentSelections st) = Some (i, s) ->
  sel_access (dt_selection ldt) (dt_client ldt) DixGetAttrAccess = true ->
  dixLookupWindow (dt_requestor ldt) (dt_client ldt) = Success ->
  dixChangeWindowProperty (dt_requestor ldt) (real_property ldt) (reply ldt cps) = Success ->
  exists st' evs,
    lorieHandleClipboardData (length (lorieDataTargetHead st)) (Some (utf8_encode_all cps ++ [0])) st = Ret st'
    /\ adds st st' (PropertyChanged (dt_requestor ldt) (real_property ldt) (reply ldt cps)
                     :: notify ldt (dt_property ldt) :: evs)
    /\ lorieDataTargetHead st' = [] /\ cachedData st' = Some (utf8_encode_all cps ++ [0])
    /\ Forall2 answers q (notifies evs).
Proof.
  intros Hm Hc Hl Hn1 Hn2 Ht N1 N2 Hq Hf Hg Hw Hch. pose proof Hf as (Hs & _ & _)%list_find_Some.
  unfold lorieHandleClipboardData. rewrite Hq. cbn [length answer_targets set_cached lorieDataTargetHead]. rewrite Hq.
  unfold lorieConvertSelection at 1. cbn [set_cached CurrentSelections]. rewrite dixLookupSelection_spec, Hf, Hg, Hw, Hs.
  rewrite text_value by done. cbind. unfold change_property. fold (real_property ldt). rewrite Hch. cbind.
  rewrite bool_decide_eq_true_2 by done. cbn [Clipboard.emit lorieDataTargetHead set_targets tl]. rewrite ?Hq. cbn [tl].
  match goal with |- context [answer_targets _ _ ?x] => set (st1 := x) end.
  destruct (answer_targets_spec (utf8_encode_all cps ++ [0]) st1 (length q)) as (st' & evs & E & Ha & Hh & Hcd & Hall).
  { exists cps, []. done. }
  { unfold st1. cbn. rewrite ?Hq. cbn. lia. }
  rewrite E. exists st', evs. split_and!; try done.
  - unfold adds in *. rewrite Ha. cbn. by rewrite <- !app_assoc.
  - cbn in Hall. by rewrite Hq in Hall.
Qed.

(** With a text at hand nothing is asked of the app. *)
Lemma convert_local ldt d st st' r :
  lorieConvertSelection ldt (Some d) st = Ret (st', r) -> adds_local st st'.
Proof.
  assert (adds_local st st) as H0 by by apply adds_local_refl.
  unfold lorieConvertSelection. destruct (dixLookupSelection _ _ _ _); [by intros [= <- _]|].
  destruct (dixLookupWindow _ _); try by intros [= <- _].
  destruct (CurrentSelections st !! _) as [s|]; [|done]. intros (v & Hv & H)%outcome_bind_Ret_inv.
  apply selection_value_cases in Hv.
  destruct v as [[e|value]|]; [by injection H as <- _| |done].
  unfold change_property in H. destruct (dixChangeWindowProperty _ _ _); injection H as <- _; try done.
  by do 2 (apply adds_local_emit; [done|]).
Qed.

Lemma answer_local fuel d st0 st st' :
  adds_local st0 st -> answer_targets fuel (Some d) st = Ret st' -> adds_local st0 st'.
Proof.
  revert st. induction fuel as [|fuel IH]; intros st H0; cbn [answer_targets];
    destruct (lorieDataTargetHead st) as [|ldt q]; try done; try by intros [= <-].
  intros ([st1 r] & Ec & E)%outcome_bind_Ret_inv. apply IH in E; [done|].
  eapply adds_local_out; [done|]. apply convert_local in Ec as (e2 & Ha2 & Hl2).
  assert (adds_local st0 st1) as H1.
  { destruct H0 as (e1 & Ha1 & Hl1). exists (e1 ++ e2). split; [by eapply adds_trans|]. by rewrite forallb_app, Hl1. }
  destruct (bool_decide _); [done|]. destruct (lorieDataTargetHead st1); [done|]. by apply adds_local_emit.
Qed.

Lemma on_clip_local f y st' :
  f (clip y) = Ret st' -> adds_local (clip y) st' -> on_clip f y = Ret (mk_sync st' (srv y) (app y)).
Proof. intros E (evs & Ha & Hl). by rewrite (on_clip_adds f y st' evs), perform_local. Qed.

(** ** From Android to X *)

(** The X server lets its own client take the clipboard and the asking one
    read it, memory is not exhausted, and the request is one for text. *)
Record may_paste (ldt : data_target) : Prop := {
  mp_own : sel_access xaCLIPBOARD serverClient DixSetAttrAccess = true;
  mp_hook : XaceHookSelectionAccess xaCLIPBOARD = Success;
  mp_memory : alloc_selection xaCLIPBOARD = true /\ calloc_target ldt = true /\ forall text, strdup_text text = true;
  mp_read : sel_access (dt_selection ldt) (dt_client ldt) DixReadAccess = true;
  mp_get : sel_access (dt_selection ldt) (dt_client ldt) DixGetAttrAccess = true;
  mp_window : dixLookupWindow (dt_requestor ldt) (dt_client ldt) = Success;
  mp_atoms : ValidAtom (dt_selection ldt) = true /\ ValidAtom (dt_target ldt) = true;
  mp_property : dt_property ldt = no_property \/ ValidAtom (dt_property ldt) = true;
  mp_change : forall v, dixChangeWindowProperty (dt_requestor ldt) (real_property ldt) v = Success;
  mp_selection : dt_selection ldt = xaCLIPBOARD;
  mp_text : dt_target ldt ∈ [xaSTRING; xaTEXT; xaUTF8_STRING];
  mp_distinct : dt_target ldt <> xaTARGETS /\ dt_target ldt <> xaTIMESTAMP
                /\ xaUTF8_STRING <> xaSTRING /\ xaUTF8_STRING <> xaTEXT
}.

(** Nothing is under way between the processes. *)
Lemma server_reads_clip fd m e f y st' :
  idle_link fd y -> message_ok m ->
  (forall s, effects (deliver env fd s m) = e :: effects s /\ outgoing (deliver env fd s m) = outgoing s) ->
  (forall y, work_proc y e = on_clip f y) -> f (clip y) = Ret st' -> adds_local (clip y) st' ->
  exists y', server_reads [m] y = Ret y' /\ idle_link fd y' /\ clip y' = st' /\ app y' = app y.
Proof.
  intros Hy Hm He Hw Hf Hl. pose proof Hy as [Hfd Hop Hin Hout Ha Hai].
  rewrite (server_reads_one fd m e) by (done || exact (proj1 (He (with_mask ∅ (srv y))))). rewrite Hw.
  rewrite (on_clip_local f _ st') by done. cbn. eexists. split; [done|]. split; [|done].
  constructor; try done; cbn.
  - by rewrite deliver_conn.
  - by apply inbox_with.
  - by rewrite (proj2 (He _)).
Qed.

(** C11: text copied on Android reaches the X client that asks for it. On an
    idle connection the app announces new text: the X server takes the clipboard
    and forgets the old text. An X client that then asks for text is made to wait
    and the app is asked for its text; when the app sends it, the client's
    property is set to that text - converted to Latin-1 unless UTF-8 was asked
    for - and it is notified; whoever waited before is answered too, nobody
    waits any more, the text is kept, and the connection is idle again. What the
    X server has to permit, and that memory lasts, is [may_paste]. *)
Theorem paste_from_android fd ldt cps y :
  idle_link fd y -> may_paste ldt -> Forall scalar cps -> Z.of_nat (length (utf8_encode_all cps)) < 2 ^ 31 ->
  exists y1 y2 y3 y4 evs,
    server_reads (sendClipboardAnnounce true) y = Ret y1 /\ cachedData (clip y1) = None
    /\ x_converts ldt y1 = Ret y2 /\ lorieDataTargetHead (clip y2) = ldt :: lorieDataTargetHead (clip y)
    /\ app_reads fd y2 = Ret y3 /\ app y3 = call JavaRequestClipboard (app y)
    /\ server_reads (sendClipboardEvent true (Some (utf8_encode_all cps))) y3 = Ret y4
    /\ adds (clip y3) (clip y4) (PropertyChanged (dt_requestor ldt) (real_property ldt) (reply ldt cps)
                                 :: notify ldt (dt_property ldt) :: evs)
    /\ Forall2 answers (lorieDataTargetHead (clip y)) (notifies evs)
    /\ lorieDataTargetHead (clip y4) = [] /\ cachedData (clip y4) = Some (utf8_encode_all cps ++ [0])
    /\ idle_link fd y4 /\ app y4 = app y3.
Proof.
  intros Hy Hp Hc Hl. destruct (mp_distinct _ Hp) as (N1 & N2 & N3 & N4). destruct (mp_atoms _ Hp) as [V1 V2].
  destruct (server_reads_clip fd (ClipboardAnnounce, []) HandleClipboardAnnounce
              (fun st => Ret (lorieHandleClipboardAnnounce st)) y (lorieHandleClipboardAnnounce (clip y)))
    as (y1 & E1 & I1 & C1 & A1); [done..|apply announce_local|].
  destruct (mp_memory _ Hp) as (M1 & M2 & M3). destruct (own_clipboard (clip y) (mp_own _ Hp) (mp_hook _ Hp) M1) as (Hd & Hq & i & s & _ & Hs1 & Hs2 & Hf).
  rewrite <- C1, <- (mp_selection _ Hp) in Hf. rewrite <- C1 in Hd, Hq.
  pose proof (text_requested ldt (clip y1) i s (mp_window _ Hp) V1 V2 (mp_property _ Hp) N1 N2 (mp_text _ Hp) Hf
                (mp_read _ Hp) (mp_get _ Hp) Hs1 Hs2 Hd M2) as Hreq.
  set (st2 := Clipboard.emit _ _) in Hreq.
  set (y2 := mk_sync st2 (lorieRequestClipboard (srv y1)) (app y1)).
  assert (x_converts ldt y1 = Ret y2) as E2.
  { unfold x_converts. by erewrite (on_clip_adds _ _ st2 [Clipboard.RequestClipboard]) by (rewrite ?Hreq; done). }
  destruct I1 as [Hfd Hop Hin Hout Ha Hai].
  assert (lorieRequestClipboard (srv y1) = write_msg ClipboardRequest NoTail (srv y1)) as Hw.
  { unfold lorieRequestClipboard, connected. by rewrite Hfd, (proj2 (Z.eqb_neq _ _) Hop). }
  destruct (app_reads_request fd y2) as (y3 & E3 & C3 & Hfd3 & Hin3 & Hout3 & A3); try done;
    try (cbn; by rewrite Hw; cbn; rewrite ?Hfd, ?Hout).
  assert (idle_link fd y3) as I3.
  { constructor; try done; try (by rewrite A3). unfold inbox. rewrite Hin3. cbn. by rewrite Hw. }
  destruct (text_delivered ldt (lorieDataTargetHead (clip y)) cps (clip y3) i s) as (st4 & evs & E4 & Ha4 & Q4 & D4 & F4);
    try done; try (apply Hp); try (by rewrite C3); try lia.
  { rewrite C3. cbn. by rewrite Hq. }
  set (n := length (utf8_encode_all cps)) in *.
  destruct (server_reads_clip fd (ClipboardSend (Z.of_nat n), utf8_encode_all cps)
              (HandleClipboardData (utf8_encode_all cps ++ [0]))
              (fun st => lorieHandleClipboardData (length (lorieDataTargetHead st)) (Some (utf8_encode_all cps ++ [0])) st)
              y3 st4) as (y4 & E5 & I4 & C4 & A4); try done.
  { split; cbn; [unfold fits|split]; lia. }
  { by eapply answer_local, E4; apply adds_local_refl. }
  exists y1, y2, y3, y4, evs. rewrite C4. split_and!; try done; try (by rewrite A3, <- A1).
  - cbn. by rewrite Hq.
  - unfold sendClipboardEvent. fold n. by rewrite wrap_u_small by lia.
Qed.

(** ** From X to Android *)
Definition no_cr (l : list Z) : list Z := filter (fun c => c <> 13) l.

Lemma no_cr_utf8 cps : Forall scalar cps -> no_cr (utf8_encode_all cps) = utf8_encode_all (no_cr cps).
Proof.
  unfold no_cr. induction 1 as [|c cps Hc _ IH]; [done|]. rewrite utf8_encode_all_cons, filter_app, IH.
  destruct (decide (c = 13)) as [->|Hn]; [done|].
  rewrite (filter_cons_True _ c) by done. rewrite utf8_encode_all_cons. f_equal. apply filter_all.
  unfold scalar, utf8_encode in *. repeat case_bool; repeat constructor; bool_arith; try done; divmod.
Qed.

(** The property [prop] of type [target] holds the text [cps], as UTF-8 or as
    Latin-1. *)
Definition holds_text (target : Z) (prop : property) (cps : list Z) : Prop :=
  (target = xaUTF8_STRING /\ Forall scalar cps /\ prop_size prop = length (utf8_encode_all cps)
     /\ exists behind, prop_data prop = utf8_encode_all cps ++ behind)
  \/ (target = xaSTRING /\ Forall (fun c => 0 < c < 256) cps /\ prop_size prop = length cps /\ prop_data prop = cps).

(** A UTF-8 text that nothing readable follows: its block ends with its last byte. *)
Definition block_ends (target : Z) (prop : property) : bool :=
  (target =? xaUTF8_STRING) && (length (prop_data prop) =? prop_size prop)%nat.

Lemma holds_text_scalar target prop cps : holds_text target prop cps -> Forall scalar cps.
Proof. intros [(_ & H & _)|(_ & H & _)]; [done|]. eapply Forall_impl; [exact H|]. unfold scalar. intros. lia. Qed.

Lemma text_received target prop cps st :
  xaSTRING <> xaTARGETS -> xaUTF8_STRING <> xaTARGETS -> xaUTF8_STRING <> xaSTRING ->
  dixLookupProperty target = Some prop -> prop_type prop = target -> prop_format prop = 8 ->
  holds_text target prop cps ->
  lorieHandleSelection target st
  = if block_ends target prop then Fault OutOfBounds
    else Ret (Clipboard.emit (SendClipboardData (utf8_encode_all (no_cr cps))) st).
Proof.
  unfold block_ends. intros N1 N2 N3 Hp Ht Hf [(-> & Hc & Hs & behind & Hd)|(-> & Hc & Hs & Hd)].
  - rewrite Z.eqb_refl, Hs, Hd, length_app. cbn [andb]. destruct behind as [|x rest].
    + rewrite (proj2 (Nat.eqb_eq _ _)) by (cbn; lia).
      destruct (clipboard_text_received xaUTF8_STRING prop (utf8_encode_all cps) 0 [] st) as [H _]; try done.
      apply H; [done|by eauto|]. by rewrite Hd, app_nil_r.
    + rewrite (proj2 (Nat.eqb_neq _ _)) by (cbn; lia).
      destruct (clipboard_text_received xaUTF8_STRING prop (utf8_encode_all cps) x rest st) as [H _]; try done.
      rewrite (proj1 (H eq_refl ltac:(eauto)) Hd). by rewrite <- no_cr_utf8.
  - rewrite (proj2 (Z.eqb_neq _ _)) by done. cbn [andb].
    destruct (clipboard_text_received xaSTRING prop cps 0 [] st) as [_ H]; try done. by rewrite H.
Qed.

(** The app reads a text that nothing follows. *)
Lemma app_reads_text fd text y :
  Forall (fun b => b <> 0) text -> Z.of_nat (length text) + 1 < 2 ^ 32 -> Z.of_nat (length text) + 1 <= stack_room aenv ->
  app_conn (app y) <> -1 -> app_inbox (app y) = [] -> conn_fd (srv y) = fd ->
  outgoing (srv y) = [(fd, (ClipboardSend (u32 (Z.of_nat (length text))), TailBytes text))] ->
  exists y', app_reads fd y = Ret y' /\ clip y' = clip y /\ conn_fd (srv y') = fd
    /\ inboxes (srv y') = inboxes (srv y) /\ outgoing (srv y') = []
    /\ app y' = if decide (text = []) then app y else call (SetClipboardText text) (app y).
Proof.
  intros Hz Hl Hst Hc Hi Hfd Ho. unfold app_reads. rewrite Hfd, Ho, Hi. cbn [written rev List.app omap list_omap fst snd].
  rewrite Z.eqb_refl. unfold wire_out, wire_message. cbn [fmap list_fmap concat fst snd wire_tail List.app].
  rewrite wrap_u_small by lia. unfold xcallback. cbn [app_conn with_app_inbox]. rewrite (proj2 (Z.eqb_neq _ _) Hc).
  set (s := with_app_inbox _ (app y)).
  assert (with_app_inbox [] s = app y) as Es by (unfold s, with_app_inbox; rewrite <- Hi; by destruct (app y)).
  assert (forall fuel, app_loop aenv fuel s
            = Ret (if decide (text = []) then app y else call (SetClipboardText text) (app y))) as ->.
  2:{ cbind. eexists. by split_and!. }
  intros fuel. case_decide as Ht.
  - subst text. assert (in_range (ClipboardSend 0)) as Hr by (cbn; unfold fits; lia).
    destruct (encode_decode _ Hr) as [He Hd].
    assert (read_bytes sizeof_lorieEvent (app_inbox s) = (encode (ClipboardSend 0), [])) as Hrd.
    { cbn [s app_inbox with_app_inbox fmap list_fmap]. rewrite app_nil_r. by rewrite read_bytes_app. }
    destruct fuel; cbn [app_loop]; rewrite Hrd, Es, He, Nat.eqb_refl, Hd; cbn [handle_app_event handle_clipboard Z.eqb];
      cbind; by rewrite Hi.
  - rewrite (app_loop_clipboard aenv fuel text [] s) by (done || (cbn; lia) || (cbn; by rewrite !app_nil_r)).
    change (drop 1 []) with (@nil cell). by rewrite Es.
Qed.

(** The client [client] tells that it has converted the clipboard. *)
Definition converted (target : Z) : send_event := mk_event true root_window xaCLIPBOARD target target.

Definition request_of (s : selection) (target : Z) : clip_effect :=
  SelectionRequest (sel_client s) (sel_window s) currentTime root_window xaCLIPBOARD target target.

Lemma selection_request sel target st i s :
  clipboardEnabled st = true -> sel_access sel serverClient DixGetAttrAccess = true ->
  list_find (fun s => sel_atom s = sel) (CurrentSelections st) = Some (i, s) ->
  lorieSelectionRequest sel target st
  = Clipboard.emit (SelectionRequest (sel_client s) (sel_window s) currentTime root_window sel target target) st.
Proof.
  intros He Ha Hf. unfold lorieSelectionRequest. rewrite He, dixLookupSelection_spec, Hf, Ha.
  by apply list_find_Some in Hf as (-> & _).
Qed.

Lemma send_event_handled client target st :
  clipboardEnabled st = true ->
  lorieProcSendEvent client (converted target) st
  = st ← lorieHandleSelection target st; Ret (Clipboard.emit (OrigSendEvent client) st).
Proof. intros He. unfold lorieProcSendEvent, converted. cbn. by rewrite He, !Z.eqb_refl. Qed.

(** The X server knows who has the clipboard and what is offered: [offered] is the
    answer about formats and [prop] the text in the format that is preferred. *)
Record may_copy (i : nat) (s : selection) (offered prop : property) (cps : list Z) (st : clip_state) : Prop := {
  mc_enabled : clipboardEnabled st = true;
  mc_owner : list_find (fun s => sel_atom s = xaCLIPBOARD) (CurrentSelections st) = Some (i, s);
  mc_access : sel_access xaCLIPBOARD serverClient DixGetAttrAccess = true;
  mc_distinct : xaSTRING <> xaTARGETS /\ xaUTF8_STRING <> xaTARGETS /\ xaUTF8_STRING <> xaSTRING;
  mc_targets : dixLookupProperty xaTARGETS = Some offered /\ prop_type offered = XA_ATOM
               /\ prop_format offered = 32 /\ prop_size offered = length (prop_data offered);
  mc_text : forall target, target = (if decide (xaUTF8_STRING ∈ prop_data offered) then xaUTF8_STRING else xaSTRING) ->
    target ∈ prop_data offered /\ dixLookupProperty target = Some prop /\ prop_type prop = target
    /\ prop_format prop = 8 /\ holds_text target prop cps
}.

(** C12: text copied in X reaches Android. When an X client takes the clipboard, on an
    idle connection with the synchronisation on, it is asked for its formats;
    its answer makes the server ask for UTF-8 if it has that and for Latin-1
    otherwise; and its text, in whichever of the two, is sent to the app, which
    puts its characters, without carriage returns, on Android's clipboard as
    UTF-8, unless none are left. A byte that can be read, whatever it is, has to follow
    a UTF-8 text in the memory of the property: the check of the text looks at
    it, and when the block ends with the text, it reads out of bounds. *)
Theorem copy_to_android fd client i s offered prop cps y :
  idle_link fd y -> may_copy i s offered prop cps (clip y) ->
  let target := if decide (xaUTF8_STRING ∈ prop_data offered) then xaUTF8_STRING else xaSTRING in
  let text := utf8_encode_all (no_cr cps) in
  Z.of_nat (length text) + 1 < 2 ^ 32 -> Z.of_nat (length text) + 1 <= stack_room aenv ->
  exists y1 y2,
    on_clip (fun st => Ret (lorieSelectionCallback xaCLIPBOARD true st)) y = Ret y1
    /\ adds (clip y) (clip y1) [request_of s xaTARGETS]
    /\ x_sends_event client (converted xaTARGETS) y1 = Ret y2
    /\ adds (clip y1) (clip y2) [request_of s target; OrigSendEvent client]
    /\ if block_ends target prop then x_sends_event client (converted target) y2 = Fault OutOfBounds
       else exists y3 y4, x_sends_event client (converted target) y2 = Ret y3
         /\ adds (clip y2) (clip y3) [SendClipboardData text; OrigSendEvent client]
         /\ app_reads fd y3 = Ret y4 /\ idle_link fd y4
         /\ app y4 = (if decide (text = []) then app y else call (SetClipboardText text) (app y)).
Proof.
  intros [Hfd Hop Hin Hout Hc Hi] [Hen Hf Ha (N1 & N2 & N3) (P1 & P2 & P3 & P4) Ht] target text Hl Hst.
  destruct (Ht target eq_refl) as (T1 & T2 & T3 & T4 & T5). pose proof (holds_text_scalar _ _ _ T5) as Hs.
  set (st1 := Clipboard.emit (request_of s xaTARGETS) (clip y)).
  set (st2 := Clipboard.emit (OrigSendEvent client) (Clipboard.emit (request_of s target) st1)).
  set (st3 := Clipboard.emit (OrigSendEvent client) (Clipboard.emit (SendClipboardData text) st2)).
  assert (lorieSelectionCallback xaCLIPBOARD true (clip y) = st1) as E1.
  { unfold lorieSelectionCallback. rewrite Hen, Z.eqb_refl. cbn [andb]. by apply (selection_request _ _ _ i). }
  assert (lorieProcSendEvent client (converted xaTARGETS) st1 = Ret st2) as E2.
  { rewrite send_event_handled by done. rewrite (targets_prefer_utf8 offered st1 i s) by done. cbind.
    unfold st2, target. by repeat case_decide. }
  exists (mk_sync st1 (srv y) (app y)), (mk_sync st2 (srv y) (app y)). split.
  { by rewrite (on_clip_adds _ y st1 [request_of s xaTARGETS]) by (rewrite ?E1; done). }
  split; [done|]. split.
  { unfold x_sends_event. by rewrite (on_clip_adds _ _ st2 [request_of s target; OrigSendEvent client]) by done. }
  split; [done|]. pose proof (text_received target prop cps st2 N1 N2 N3 T2 T3 T4 T5) as Hrec.
  destruct (block_ends target prop).
  { unfold x_sends_event, on_clip. cbn [clip]. by rewrite send_event_handled, Hrec by done. }
  assert (lorieProcSendEvent client (converted target) st2 = Ret st3) as E3 by by rewrite send_event_handled, Hrec by done.
  set (m := (ClipboardSend (u32 (Z.of_nat (length text))), TailBytes text)).
  set (y3 := mk_sync st3 (write_msg m.1 m.2 (srv y)) (app y)).
  destruct (app_reads_text fd text y3) as (y4 & E4 & C4 & Hfd4 & Hin4 & Hout4 & A4); try done.
  { eapply Forall_impl; [apply utf8_encode_all_bytes|cbn; intros; lia]. unfold no_cr. by apply Forall_filter_in. }
  { cbn. by rewrite Hfd, Hout. }
  exists y3, y4. split_and!; try done.
  - unfold x_sends_event. rewrite (on_clip_adds _ _ st3 [SendClipboardData text; OrigSendEvent client]) by done.
    unfold y3. cbn. unfold connected. by rewrite Hfd, (proj2 (Z.eqb_neq _ _) Hop).
  - constructor; try done; try (rewrite A4; by case_decide). unfold inbox. by rewrite Hin4.
Qed.
End sync.

(** ** A concrete clipboard *)
Definition sample_pair (c : clip_state) : sync :=
  mk_sync c (mk_server 7 [7] ∅ ∅ 0 [] [] []) (sample_app []).

Lemma sample_pair_idle c : idle_link 7 (sample_pair c).
Proof. by constructor. Qed.

(** X has another owner; the client that waits wants Latin-1. *)
Definition foreign_owner : clip_state := mk_clip true None [latin1_request] [mk_selection 103 9 3 500] [].

Lemma sample_may_paste : @may_paste (sample_dix no_props) _ (utf8_request 10).
Proof. constructor; try done; [by left|set_solver]. Qed.

Lemma paste_from_android_witness :
  exists y3 y4, @server_reads (sample_dix no_props) Server.sample_env
                  (sendClipboardEvent true (Some (utf8_encode_all [104; 233]))) y3 = Ret y4
    /\ calls (app y3) = [JavaRequestClipboard]
    /\ exists evs, out (clip y4) = rev (PropertyChanged 10 105 (PropBytes 105 [104; 195; 169])
                                         :: SelectionNotify 5 77 10 103 105 0 :: evs) ++ out (clip y3)
         /\ Forall2 answers [latin1_request] (notifies evs).
Proof.
  destruct (@paste_from_android (sample_dix no_props) sample_link sample_handle Server.sample_env (sample_app_env true)
              _ 7 (utf8_request 10) [104; 233] (sample_pair foreign_owner) (sample_pair_idle _) sample_may_paste)
    as (y1 & y2 & y3 & y4 & evs & _ & _ & _ & _ & _ & Ha & E & Hadds & Hall & _).
  - repeat constructor; unfold scalar; lia.
  - cbn; lia.
  - exists y3, y4. split; [exact E|]. split; [rewrite Ha; reflexivity|]. exists evs. split; [exact Hadds|exact Hall].
Defined.

(** An owner that offers Latin-1 and UTF-8. *)
Definition crlf_text : list Z := [97; 13; 10; 233].
Definition formats : property := mk_property 4 32 3 [104; 31; 105].
Definition text_property : property := mk_property 105 8 5 (utf8_encode_all crlf_text ++ [77]).
Definition offering (target : Z) : option property :=
  if target =? 104 then Some formats else if target =? 105 then Some text_property else None.

Lemma sample_may_copy : @may_copy (sample_dix offering) _ 0 (mk_selection 103 9 3 500) formats text_property crlf_text
                          foreign_owner.
Proof.
  constructor; try done. intros target ->. rewrite decide_True by (cbn; set_solver). split_and!; try done; [cbn; set_solver|].
  left. split_and!; try done; [|by exists [77]]. repeat constructor; unfold scalar; lia.
Qed.

Lemma copy_to_android_witness :
  exists y3 y4, @app_reads sample_link sample_handle (sample_app_env true) 7 y3 = Ret y4
    /\ outgoing (srv y4) = [] /\ calls (app y4) = [SetClipboardText [97; 10; 195; 169]].
Proof.
  destruct (@copy_to_android (sample_dix offering) sample_link sample_handle (sample_app_env true)
              _ 7 9 0 (mk_selection 103 9 3 500) formats text_property crlf_text (sample_pair foreign_owner)
              (sample_pair_idle _) sample_may_copy)
    as (y1 & y2 & _ & _ & _ & _ & H).
  - vm_compute. reflexivity.
  - vm_compute. discriminate.
  - destruct H as (y3 & y4 & _ & _ & E & Hi & Ha). exists y3, y4. split; [exact E|]. split; [exact (lk_outgoing _ _ Hi)|]. rewrite Ha. vm_compute. reflexivity.
Defined.
