(* ===== verification/TextInput.v ===== *)
(** * Typed text (activity.c 344-378)

    The app gets text as an array of UTF-8 bytes, which no NUL ends, and sends
    one event per character.  [mbrtowc] is the C library's, in the UTF-8
    locale, where MB_CUR_MAX is 4: so it never runs out of its bytes in the
    middle of a character, and may read up to three bytes after a lead byte. *)
From S2P Require Import Prelude TextConv Events Server.

Definition MB_CUR_MAX : nat := 4.

(** ** The C library's decoder *)
Definition mb_len (b : Z) : nat :=
  if b <? 0x80 then 1
  else if b <? 0xc0 then 0
  else if b <? 0xe0 then 2
  else if b <? 0xf0 then 3
  else if b <? 0xf8 then 4
  else 0.

Definition mb_lead (b : Z) : Z :=
  match mb_len b with 2%nat => b - 0xc0 | 3%nat => b - 0xe0 | 4%nat => b - 0xf0 | _ => b end.

(** The bytes after the lead; stops at the first that does not continue. *)
Fixpoint mb_rest (k : nat) (src : list Z) (wc : Z) : outcome (option Z) :=
  match k with
  | O => Ret (Some wc)
  | S k =>
      match src with
      | [] => Fault OutOfBounds
      | b :: src => if continuation b then mb_rest k src (wc * 64 + (b - 0x80)) else Ret None
      end
  end.

(** [None] is -1: no character, a character in more bytes than it needs, or a
    surrogate; a NUL has length 0. *)
Definition mbrtowc (src : list Z) : outcome (option (Z * nat)) :=
  b ← rd src 0;
  let len := mb_len b in
  if b =? 0 then Ret (Some (0, 0%nat))
  else if (len =? 0)%nat then Ret None
  else
    wc ← mb_rest (len - 1) (drop 1 src) (mb_lead b);
    Ret match wc with
        | Some c =>
            if (c <? 0x110000) && negb ((0xd800 <=? c) && (c <? 0xe000)) && (length (utf8_encode c) =? len)%nat
            then Some (c, len) else None
        | None => None
        end.

(** ** Sending *)

(** The loop from [p] on; [src] is what is left of the array.  At its end the
    loop stops before it reads [*p] again. *)
Fixpoint text_loop (fuel : nat) (src : list Z) : outcome (list Events.message) :=
  b ← rd src 0;
  if b =? 0 then Ret []
  else
    r ← mbrtowc src;
    match r with
    | None => Ret []
    | Some (wc, len) =>
        if (len =? 0)%nat then Ret []
        else if (length src <=? len)%nat then Ret [(Unicode (u32 wc), [])]
        else
          match fuel with
          | O => Fault FuelExhausted
          | S fuel => l ← text_loop fuel (drop len src); Ret ((Unicode (u32 wc), []) :: l)
          end
    end.

(** The result says also whether the array was given back to Java. *)
Definition sendTextEvent (connected : bool) (text : option (list Z)) : outcome (list Events.message * bool) :=
  match text with
  | Some str =>
      if negb connected then Ret ([], true)
      else if (length str =? 0)%nat then Ret ([], false)
      else l ← text_loop (length str) str; Ret (l, true)
  | None => Ret ([], true)
  end.

(** ** Lemmas *)
Lemma mb_rest_S k x rest wc :
  0 <= x < 64 -> mb_rest (S k) (0x80 + x :: rest) wc = mb_rest k rest (wc * 64 + x).
Proof. intros Hx. cbn [mb_rest]. rewrite continuation_of by done. do 2 f_equal. lia. Qed.

Lemma mbrtowc_encode cp rest :
  scalar cp -> mbrtowc (utf8_encode cp ++ rest) = Ret (Some (cp, length (utf8_encode cp))).
Proof.
  intros Hs. assert (forall n, length (utf8_encode cp) = n ->
    (if (cp <? 0x110000) && negb ((0xd800 <=? cp) && (cp <? 0xe000)) && (length (utf8_encode cp) =? n)%nat
     then Some (cp, n) else None) = Some (cp, length (utf8_encode cp))) as Hval.
  { intros n <-. rewrite Nat.eqb_refl. unfold scalar in Hs. repeat case_bool; bool_arith; done || lia. }
  assert (exists lead tl, utf8_encode cp = lead :: tl /\ lead <> 0 /\ mb_len lead = length (utf8_encode cp)
    /\ mb_rest (length (utf8_encode cp) - 1) (tl ++ rest) (mb_lead lead) = Ret (Some cp)) as (b & tl & E & Hb & Hl & Hr).
  { unfold scalar, utf8_encode, mb_lead, mb_len in *.
    repeat case_bool; bool_arith; cbn [length Nat.sub app]; eexists _, _; (split; [reflexivity|]); cbn [app];
      (split; [divmod|]); (split; [repeat (case_bool; bool_arith); done || divmod|]);
      repeat (case_bool; bool_arith; try divmod); rewrite ?mb_rest_S by divmod; cbn [mb_rest]; do 2 f_equal; divmod. }
  pose proof (utf8_encode_nonempty cp) as Hn. remember (length (utf8_encode cp)) as n eqn:En.
  specialize (Hval n eq_refl). unfold mbrtowc, rd. rewrite E. cbn [app lookup list_lookup drop]. cbind.
  rewrite (proj2 (Z.eqb_neq _ _) Hb), Hl, (proj2 (Nat.eqb_neq _ _)) by lia. rewrite drop_0, Hr. cbind. by rewrite <- En, Hval.
Qed.

Lemma text_loop_ok cps fuel :
  Forall scalar cps -> cps <> [] -> (length cps <= S fuel)%nat ->
  text_loop fuel (utf8_encode_all cps) = Ret ((fun c => (Unicode c, [])) <$> cps).
Proof.
  revert cps. induction fuel as [|fuel IH]; intros cps Hs Hne Hl;
    (destruct cps as [|c cps]; [done|]); apply Forall_cons in Hs as [Hc Hs]; cbn [length] in Hl.
  all: cbn [text_loop]; rewrite utf8_encode_all_cons.
  all: destruct (utf8_head c (utf8_encode_all cps) Hc) as (b & -> & E); cbind; rewrite E.
  all: rewrite mbrtowc_encode by done; cbind; pose proof (utf8_encode_nonempty c).
  all: rewrite (proj2 (Nat.eqb_neq _ _)) by lia; rewrite length_app.
  all: assert (u32 c = c) as -> by (apply wrap_u_small; unfold scalar in Hc; lia).
  - assert (cps = []) as -> by (destruct cps; [done|cbn in Hl; lia]).
    rewrite (proj2 (Nat.leb_le _ _)) by (cbn; lia). done.
  - destruct cps as [|c2 cps]; [rewrite (proj2 (Nat.leb_le _ _)) by (cbn; lia); done|].
    rewrite (proj2 (Nat.leb_gt _ _)).
    2:{ rewrite utf8_encode_all_cons, length_app. pose proof (utf8_encode_nonempty c2). lia. }
    rewrite drop_app_length. rewrite (IH (c2 :: cps)) by (done || (cbn in Hl |- *; lia)). done.
Qed.

Definition unicode_messages (cps : list Z) : list Events.message := (fun c => (Unicode c, [])) <$> cps.

Lemma sendTextEvent_ok cps :
  Forall scalar cps -> cps <> [] -> sendTextEvent true (Some (utf8_encode_all cps)) = Ret (unicode_messages cps, true).
Proof.
  intros Hs Hne. unfold sendTextEvent. cbn [negb]. pose proof (utf8_encode_all_length cps).
  rewrite (proj2 (Nat.eqb_neq _ _)) by (destruct cps; [done|cbn in *; lia]).
  by rewrite text_loop_ok by (done || lia).
Qed.

Lemma unicode_messages_ok cps : Forall scalar cps -> Forall message_ok (unicode_messages cps).
Proof.
  intros Hs. apply Forall_fmap. eapply Forall_impl; [exact Hs|]. intros c Hc. split; [|done].
  cbn. unfold fits, scalar in *. lia.
Qed.

(** Press and release of each character's keysym. *)
Definition key_effects (env : input_env) (cps : list Z) : list effect :=
  cps ≫= fun c => [KeysymKeyboardEvent (ucs2keysym env c) true; KeysymKeyboardEvent (ucs2keysym env c) false].

Lemma unicode_effects env fd cps s :
  effects (foldl (deliver env fd) s (unicode_messages cps)) = rev (key_effects env cps) ++ effects s.
Proof.
  revert s. induction cps as [|c cps IH]; intros s; [done|]. cbn [unicode_messages fmap list_fmap foldl].
  unfold unicode_messages in IH. rewrite IH. cbn. by rewrite <- !app_assoc.
Qed.

(** ** Properties *)

(** Typed text reaches the X server. Text of any characters but NUL is sent as
    one event for each of them, in order, and the server presses and releases
    the key of each character's keysym. *)
Theorem text_roundtrip cps env fd s :
  Forall scalar cps -> cps <> [] ->
  exists l, sendTextEvent true (Some (utf8_encode_all cps)) = Ret (l, true)
    /\ l = ((fun c => (Unicode c, [])) <$> cps) /\ Forall message_ok l
    /\ effects (foldl (deliver env fd) s l)
       = rev (cps ≫= fun c => [KeysymKeyboardEvent (ucs2keysym env c) true; KeysymKeyboardEvent (ucs2keysym env c) false])
         ++ effects s.
Proof.
  intros Hs Hne. exists (unicode_messages cps).
  split_and!; [by apply sendTextEvent_ok|done|by apply unicode_messages_ok|apply unicode_effects].
Qed.

(** Text that ends in the middle of a character makes the decoder read after
    the end of the array; empty text is never given back to Java. *)
Theorem text_overread cps b :
  Forall scalar cps -> 0xc0 <= b < 0xf8 ->
  sendTextEvent true (Some (utf8_encode_all cps ++ [b])) = Fault OutOfBounds
  /\ sendTextEvent true (Some []) = Ret ([], false).
Proof.
  intros Hs Hb. split; [|done]. unfold sendTextEvent. cbn [negb].
  rewrite length_app, Nat.add_1_r, (proj2 (Nat.eqb_neq _ _)) by lia.
  assert (forall fuel, (length cps <= fuel)%nat -> text_loop fuel (utf8_encode_all cps ++ [b]) = Fault OutOfBounds) as H.
  2:{ rewrite H; [done|]. pose proof (utf8_encode_all_length cps). lia. }
  induction cps as [|c cps IH]; intros fuel Hf.
  - assert (mbrtowc [b] = Fault OutOfBounds) as E.
    { unfold mbrtowc, rd. cbn [lookup list_lookup]. cbind. rewrite (proj2 (Z.eqb_neq _ _)) by lia.
      assert (mb_len b = 2 \/ mb_len b = 3 \/ mb_len b = 4)%nat as Hm
        by (unfold mb_len; repeat (case_bool; bool_arith); first [lia|auto]).
      destruct Hm as [->|[->| ->]]; done. }
    change (utf8_encode_all [] ++ [b]) with [b].
    destruct fuel; cbn [text_loop]; unfold rd at 1; cbn [lookup list_lookup]; cbind;
      rewrite (proj2 (Z.eqb_neq _ _)), E by lia; done.
  - apply Forall_cons in Hs as [Hc Hs]. destruct fuel as [|fuel]; [cbn in Hf; lia|].
    cbn [text_loop]. rewrite utf8_encode_all_cons, <- app_assoc.
    destruct (utf8_head c (utf8_encode_all cps ++ [b]) Hc) as (b0 & -> & E). cbind. rewrite E.
    rewrite mbrtowc_encode by done. cbind. pose proof (utf8_encode_nonempty c).
    rewrite (proj2 (Nat.eqb_neq _ _)) by lia. rewrite (proj2 (Nat.leb_gt _ _)) by (rewrite !length_app; cbn; lia).
    rewrite drop_app_length, IH by (done || (cbn in Hf; lia)). done.
Qed.

(** ** A concrete text *)
Lemma text_roundtrip_witness :
  sendTextEvent true (Some (utf8_encode_all [104; 0xe9; 0x20ac; 0x1f600]))
  = Ret ([(Unicode 104, []); (Unicode 0xe9, []); (Unicode 0x20ac, []); (Unicode 0x1f600, [])], true).
Proof.
  destruct (text_roundtrip [104; 0xe9; 0x20ac; 0x1f600] sample_env 7 sample_server) as (l & E & -> & _);
    [repeat constructor; unfold scalar; lia|discriminate|exact E].
Defined.

Lemma text_overread_witness : sendTextEvent true (Some [104; 0xe2]) = Fault OutOfBounds.
Proof. refine (proj1 (text_overread [104] 0xe2 _ _)); [repeat constructor; unfold scalar; lia|lia]. Defined.
