(* ===== verification/Typing.v ===== *)
(** * Typing, from the app to the keys

    Text typed on Android, in one piece: the bytes the app is given
    ([TextInput]), the events on the socket ([Events]), the server's callbacks
    ([Server]) and the injection of keysyms ([KeyInject]), on the keyboard of
    the X server. *)
From S2P Require Import Prelude TextConv Keymap KeyInject Events Server TextInput.

Section typing.
Context {MAC : XkbMacros} (srv : input_server).

(** What the server's callbacks do to the keyboard, oldest first. *)
Fixpoint perform_keys (l : list effect) (st : inject_state) : outcome inject_state :=
  match l with
  | [] => Ret st
  | KeysymKeyboardEvent keysym down :: l =>
      '(st, _) ← lorieKeysymKeyboardEvent srv keysym down st; perform_keys l st
  | _ :: l => perform_keys l st
  end.

(** Each keysym is pressed and released; the results of the presses. *)
Fixpoint type_keysyms (l : list Z) (st : inject_state) : outcome (inject_state * list inject_result) :=
  match l with
  | [] => Ret (st, [])
  | keysym :: l =>
      '(st, r) ← lorieKeysymKeyboardEvent srv keysym true st;
      '(st, _) ← lorieKeysymKeyboardEvent srv keysym false st;
      '(st, rs) ← type_keysyms l st;
      Ret (st, r :: rs)
  end.

Lemma perform_keys_app l1 l2 st st1 :
  perform_keys l1 st = Ret st1 -> perform_keys (l1 ++ l2) st = perform_keys l2 st1.
Proof.
  revert st. induction l1 as [|x l1 IH]; intros st; cbn; [by intros [= ->]|].
  destruct x; try apply IH. intros ([st2 r] & -> & E)%outcome_bind_Ret_inv. cbind. by apply IH.
Qed.

Lemma perform_type env cps st st' rs :
  type_keysyms (ucs2keysym env <$> cps) st = Ret (st', rs) -> perform_keys (key_effects env cps) st = Ret st'.
Proof.
  revert st rs. induction cps as [|c cps IH]; intros st rs; [by intros [= -> _]|].
  cbn [fmap list_fmap type_keysyms].
  intros ([st1 r1] & E1 & H)%outcome_bind_Ret_inv. apply outcome_bind_Ret_inv in H as ([st2 r2] & E2 & H).
  apply outcome_bind_Ret_inv in H as ([st3 rs'] & E3 & H). injection H as <- <-.
  change (key_effects env (c :: cps)) with
    (KeysymKeyboardEvent (ucs2keysym env c) true :: KeysymKeyboardEvent (ucs2keysym env c) false :: key_effects env cps).
  cbn [perform_keys]. rewrite E1. cbind. rewrite E2. cbind. by eapply IH.
Qed.

(** ** One character *)

(** The keys pressed, in order. *)
Definition presses (evs : list key_event) : list Z :=
  omap (fun e => match e with KeyPress k => Some k | _ => None end) evs.
Definition typed (rs : list inject_result) : list Z :=
  omap (fun r => match r with Typed k => Some k | _ => None end) rs.

Lemma presses_app l1 l2 : presses (l1 ++ l2) = presses l1 ++ presses l2.
Proof. apply omap_app. Qed.

Context {LAWS : XkbMacrosLaws}.

Definition no_key_down (st : inject_state) : Prop := pressedKeys st = replicate 256 NoSymbol.

Lemma remember_forget keysym k pressed' :
  keycodeP k -> remember_pressed keysym k (replicate 256 NoSymbol) = Ret pressed' ->
  <[Z.to_nat k := NoSymbol]> pressed' = replicate 256 NoSymbol.
Proof.
  intros Hk H. pose proof (remember_length _ _ _ _ H) as Hl. rewrite length_replicate in Hl.
  apply list_eq. intros i. destruct (decide (i = Z.to_nat k)) as [->|Hne].
  - unfold keycodeP in Hk. rewrite list_lookup_insert_eq by lia. symmetry. apply lookup_replicate_2. lia.
  - rewrite list_lookup_insert_ne by done. rewrite (remember_lookup keysym k (replicate 256 NoSymbol) pressed' i Hk eq_refl H).
    rewrite decide_False by done. destruct (replicate 256 NoSymbol !! i) as [x|] eqn:E; [|done].
    apply lookup_replicate_1 in E as [-> _]. cbn. by destruct (NoSymbol =? keysym).
Qed.

Lemma type_char keysym st :
  server_ok srv -> inject_wf st -> no_key_down st -> keysym <> NoSymbol ->
  exists st1 r st2 r2 evs, lorieKeysymKeyboardEvent srv keysym true st = Ret (st1, r)
    /\ lorieKeysymKeyboardEvent srv keysym false st1 = Ret (st2, r2)
    /\ inject_wf st2 /\ no_key_down st2 /\ sent st2 = sent st ++ evs
    /\ typed [r] `sublist_of` presses evs
    /\ (r <> NoLevelThreeKey -> forall k, balance k evs = 0).
Proof.
  intros Hsrv Hwf Hnk Hne.
  destruct (inject_ok srv st keysym true Hsrv Hwf) as (st1 & r & E1 & Hwf1).
  destruct (inject_ok srv st1 keysym false Hsrv Hwf1) as (st2 & r2 & E2 & Hwf2).
  exists st1, r, st2, r2. pose proof E1 as Hp. cbn [lorieKeysymKeyboardEvent] in Hp.
  assert (forall st1', pressedKeys st1' = pressedKeys st ->
            lorieKeysymKeyboardEvent srv keysym false st1' = Ret (st1', UnexpectedRelease)) as Hun.
  { intros st1' E. cbn. unfold release_keysym. rewrite E, Hnk.
    destruct (list_find _ _) as [[i s]|] eqn:Ef; [|done].
    apply list_find_Some in Ef as (Hi & -> & _). by apply lookup_replicate_1 in Hi as [? _]. }
  apply press_spec in Hp as [(-> & Es & Ep)|(k & s & ns & st' & Hk & Ep & Es & H & _)].
  { rewrite Hun in E2 by done. injection E2 as <- <-. exists [ProcessInputEvents].
    split_and!; try done; [by apply Hun|unfold no_key_down; by rewrite Ep]. }
  apply type_key_spec in H
    as [[-> ->]|(sb & sa & Hb & [[-> ->]|(lb & la & p & Hlb & -> & Hpr & Epr & Esent)])].
  - rewrite Hun in E2 by done. injection E2 as <- <-. exists [ProcessInputEvents].
    split_and!; try done; [by apply Hun|unfold no_key_down; by rewrite Ep].
  - rewrite Hun in E2 by done. injection E2 as <- <-. exists (ProcessInputEvents :: sb).
    split_and!; try done; [by apply Hun|unfold no_key_down; cbn; by rewrite Ep| |].
    + cbn. rewrite Es. cbn. by rewrite <- app_assoc.
    + cbn. apply sublist_nil_l.
  - destruct (release_after_press srv st st1 keysym k) as (st2' & E2' & Es2 & _ & Ep2);
      [rewrite Hnk; apply no_pressed_inv|done|done|].
    assert (st2' = st2) as -> by congruence.
    eexists. split_and!; try done.
    + unfold no_key_down. rewrite Ep2, Epr. eapply remember_forget; [done|]. by rewrite <- Hnk, <- Ep.
    + rewrite Es2, Esent, Es. cbn [sent process_input set_kbd KeyInject.QueueKeyboardEvents]. rewrite <- !app_assoc. reflexivity.
    + cbn [typed omap list_omap]. rewrite !presses_app. cbn [presses omap list_omap app].
      repeat apply sublist_inserts_l. apply sublist_skip, sublist_nil_l.
    + intros _ k'. specialize (Hb k'). specialize (Hlb k').
      rewrite !balance_app, !balance_cons, !balance_nil in *. 
      repeat case_decide; simplify_eq; lia.
Qed.

(** ** A whole text *)
Lemma type_text keysyms st :
  server_ok srv -> inject_wf st -> no_key_down st -> Forall (fun k => k <> NoSymbol) keysyms ->
  exists st' rs evs, type_keysyms keysyms st = Ret (st', rs) /\ length rs = length keysyms
    /\ inject_wf st' /\ no_key_down st' /\ sent st' = sent st ++ evs
    /\ typed rs `sublist_of` presses evs
    /\ (NoLevelThreeKey ∉ rs -> forall k, balance k evs = 0).
Proof.
  intros Hsrv Hwf Hnk Hk. revert st Hwf Hnk. induction Hk as [|keysym keysyms Hne Hk IH]; intros st Hwf Hnk.
  { exists st, [], []. split_and!; try done. by rewrite app_nil_r. }
  destruct (type_char keysym st Hsrv Hwf Hnk Hne)
    as (st1 & r & st2 & r2 & e1 & E1 & E2 & Hwf2 & Hnk2 & Es1 & Hsub1 & Hb1).
  destruct (IH st2 Hwf2 Hnk2) as (st3 & rs & e2 & E3 & Hl & Hwf3 & Hnk3 & Es2 & Hsub2 & Hb2).
  exists st3, (r :: rs), (e1 ++ e2). cbn [type_keysyms]. rewrite E1. cbind. rewrite E2. cbind. rewrite E3. cbind.
  split_and!; try done.
  - cbn. by rewrite Hl.
  - by rewrite Es2, Es1, <- app_assoc.
  - rewrite presses_app. change (r :: rs) with ([r] ++ rs). unfold typed in *. rewrite omap_app.
    by apply sublist_app.
  - intros Hn%not_elem_of_cons k. destruct Hn as [Hr Hrs]. rewrite balance_app, Hb1, Hb2 by done. done.
Qed.

Lemma unicode_turns env fd turns cps s :
  concat turns = unicode_messages cps ->
  effects (foldl (call_delivers env fd) s turns) = rev (key_effects env cps) ++ effects s.
Proof.
  revert cps s. induction turns as [|l turns IH]; intros cps s; cbn [concat foldl].
  - intros E. by destruct cps.
  - intros E. symmetry in E. apply fmap_app_inv in E as (c1 & c2 & El & Et & ->).
    rewrite (IH c2) by by symmetry. subst l. unfold call_delivers. fold (unicode_messages c1).
    rewrite unicode_effects. unfold key_effects. by rewrite bind_app, rev_app_distr, <- app_assoc.
Qed.

(** C10: text typed on Android is typed in X. Text of any characters but NUL, on an
    idle connection, is read by the server in two calls, in bounds and to the
    last byte; for each character, in order, its keysym is pressed and
    released; the keyboard's tables are never left; the keys that the presses
    chose are pressed in the order of the text; afterwards no keysym is recorded
    as held, and, unless a level-three key was missing, every key that was
    pressed, modifiers included, has been released. *)
Theorem text_typed env fd cps s st :
  Forall scalar cps -> cps <> [] -> conn_fd s = fd -> inbox fd s = [] ->
  (forall c, scalar c -> ucs2keysym env c <> NoSymbol) ->
  server_ok srv -> inject_wf st -> no_key_down st ->
  exists msgs s', sendTextEvent true (Some (utf8_encode_all cps)) = Ret (msgs, true)
    /\ read_all 2 env fd (with_inbox fd (stream msgs) s) = Ret s'
    /\ inbox fd s' = []
    /\ exists new st' rs evs,
         effects s' = rev new ++ effects s /\ perform_keys new st = Ret st'
         /\ type_keysyms (ucs2keysym env <$> cps) st = Ret (st', rs) /\ length rs = length cps
         /\ inject_wf st' /\ no_key_down st' /\ sent st' = sent st ++ evs
         /\ typed rs `sublist_of` presses evs
         /\ (NoLevelThreeKey ∉ rs -> forall k, balance k evs = 0).
Proof.
  intros Hs Hne Hfd Hin Hks Hsrv Hwf Hnk.
  exists (unicode_messages cps).
  destruct (read_all_ok env fd (unicode_messages cps) (with_inbox fd (stream (unicode_messages cps)) s))
    as (turns & Et & _ & Er); [by apply unicode_messages_ok|done|cbn; by rewrite lookup_insert_eq|].
  eexists. split; [by apply sendTextEvent_ok|]. split; [exact Er|]. split; [apply inbox_with|].
  destruct (type_text (ucs2keysym env <$> cps) st) as (st' & rs & evs & Ety & Hl & H); try done.
  { apply Forall_fmap. eapply Forall_impl; [exact Hs|]. intros c Hc. by apply Hks. }
  exists (key_effects env cps), st', rs, evs. rewrite length_fmap in Hl.
  split; [|split; [by eapply perform_type|by split_and!; try apply H]].
  cbn [effects with_inbox]. by rewrite (unicode_turns env fd turns cps).
Qed.
End typing.

(** ** A concrete text *)
Definition idle_server : server := with_inbox 7 [] (with_conn 7 [7] Server.sample_server).

Lemma text_typed_witness :
  exists msgs s', sendTextEvent true (Some (utf8_encode_all [65; 97])) = Ret (msgs, true)
    /\ read_all 2 Server.sample_env 7 (with_inbox 7 (stream msgs) idle_server) = Ret s'
    /\ exists new st', effects s' = rev new ++ effects idle_server
         /\ perform_keys KeyInject.sample_server new (sample_state 0 []) = Ret st'
         /\ forall k, balance k (sent st') = 0.
Proof.
  destruct (text_typed KeyInject.sample_server Server.sample_env 7 [65; 97] idle_server (sample_state 0 []))
    as (msgs & s' & E1 & E2 & _ & new & st' & rs & evs & E3 & E4 & E5 & _ & _ & _ & E6 & _ & E7).
  - repeat constructor; unfold scalar; lia.
  - discriminate.
  - reflexivity.
  - reflexivity.
  - intros c Hc. cbn. unfold scalar, NoSymbol in *. lia.
  - apply sample_server_ok.
  - apply sample_state_wf.
  - reflexivity.
  - exists msgs, s'. split; [exact E1|]. split; [exact E2|]. exists new, st'. split; [exact E3|].
    split; [exact E4|]. rewrite E6. apply E7. vm_compute in E5. injection E5 as _ <-.
    intros H. repeat (apply elem_of_cons in H as [H|H]; [discriminate|]). by apply not_elem_of_nil in H.
Defined.
