(* ===== verification/Keycodes.v ===== *)
(** * Android key codes (lorie.h 217-360, activity.c 333-342)

    The table that turns a key code of Android into one of Linux: its
    designated initialisers, in the order of the source, with the names of
    linux/input-event-codes.h.  [KEY] gives their values. *)
From S2P Require Import Prelude Events Server.
Open Scope string_scope.

Definition table_size : Z := 304.
Definition android_to_linux_keycode : list (Z * string) :=
  [(4, "KEY_ESC"); (7, "KEY_0"); (8, "KEY_1"); (9, "KEY_2"); (10, "KEY_3"); (11, "KEY_4"); (12, "KEY_5");
   (13, "KEY_6"); (14, "KEY_7"); (15, "KEY_8"); (16, "KEY_9"); (17, "KEY_KPASTERISK"); (19, "KEY_UP");
   (20, "KEY_DOWN"); (21, "KEY_LEFT"); (22, "KEY_RIGHT"); (23, "KEY_ENTER"); (24, "KEY_VOLUMEUP");
   (25, "KEY_VOLUMEDOWN"); (26, "KEY_POWER"); (27, "KEY_CAMERA"); (28, "KEY_CLEAR"); (29, "KEY_A");
   (30, "KEY_B"); (31, "KEY_C"); (32, "KEY_D"); (33, "KEY_E"); (34, "KEY_F"); (35, "KEY_G"); (36, "KEY_H");
   (37, "KEY_I"); (38, "KEY_J"); (39, "KEY_K"); (40, "KEY_L"); (41, "KEY_M"); (42, "KEY_N"); (43, "KEY_O");
   (44, "KEY_P"); (45, "KEY_Q"); (46, "KEY_R"); (47, "KEY_S"); (48, "KEY_T"); (49, "KEY_U"); (50, "KEY_V");
   (51, "KEY_W"); (52, "KEY_X"); (53, "KEY_Y"); (54, "KEY_Z"); (55, "KEY_COMMA"); (56, "KEY_DOT");
   (57, "KEY_LEFTALT"); (58, "KEY_RIGHTALT"); (59, "KEY_LEFTSHIFT"); (60, "KEY_RIGHTSHIFT");
   (61, "KEY_TAB"); (62, "KEY_SPACE"); (64, "KEY_WWW"); (65, "KEY_MAIL"); (66, "KEY_ENTER");
   (67, "KEY_BACKSPACE"); (68, "KEY_GRAVE"); (69, "KEY_MINUS"); (70, "KEY_EQUAL"); (71, "KEY_LEFTBRACE");
   (72, "KEY_RIGHTBRACE"); (73, "KEY_BACKSLASH"); (74, "KEY_SEMICOLON"); (75, "KEY_APOSTROPHE");
   (76, "KEY_SLASH"); (81, "KEY_KPPLUS"); (82, "KEY_CONTEXT_MENU"); (84, "KEY_SEARCH");
   (85, "KEY_PLAYPAUSE"); (86, "KEY_STOP_RECORD"); (87, "KEY_NEXTSONG"); (88, "KEY_PREVIOUSSONG");
   (89, "KEY_REWIND"); (90, "KEY_FASTFORWARD"); (91, "KEY_MUTE"); (92, "KEY_PAGEUP"); (93, "KEY_PAGEDOWN");
   (111, "KEY_ESC"); (112, "KEY_DELETE"); (113, "KEY_LEFTCTRL"); (114, "KEY_RIGHTCTRL");
   (115, "KEY_CAPSLOCK"); (116, "KEY_SCROLLLOCK"); (117, "KEY_LEFTMETA"); (118, "KEY_RIGHTMETA");
   (120, "KEY_PRINT"); (121, "KEY_BREAK"); (122, "KEY_HOME"); (123, "KEY_END"); (124, "KEY_INSERT");
   (125, "KEY_FORWARD"); (126, "KEY_PLAYCD"); (127, "KEY_PAUSECD"); (128, "KEY_CLOSECD");
   (129, "KEY_EJECTCD"); (130, "KEY_RECORD"); (131, "KEY_F1"); (132, "KEY_F2"); (133, "KEY_F3");
   (134, "KEY_F4"); (135, "KEY_F5"); (136, "KEY_F6"); (137, "KEY_F7"); (138, "KEY_F8"); (139, "KEY_F9");
   (140, "KEY_F10"); (141, "KEY_F11"); (142, "KEY_F12"); (143, "KEY_NUMLOCK"); (144, "KEY_KP0");
   (145, "KEY_KP1"); (146, "KEY_KP2"); (147, "KEY_KP3"); (148, "KEY_KP4"); (149, "KEY_KP5");
   (150, "KEY_KP6"); (151, "KEY_KP7"); (152, "KEY_KP8"); (153, "KEY_KP9"); (154, "KEY_KPSLASH");
   (155, "KEY_KPASTERISK"); (156, "KEY_KPMINUS"); (157, "KEY_KPPLUS"); (158, "KEY_KPDOT");
   (159, "KEY_KPCOMMA"); (160, "KEY_KPENTER"); (161, "KEY_KPEQUAL"); (162, "KEY_KPLEFTPAREN");
   (163, "KEY_KPRIGHTPAREN"); (164, "KEY_MUTE"); (165, "KEY_INFO"); (166, "KEY_CHANNELUP");
   (167, "KEY_CHANNELDOWN"); (168, "KEY_ZOOMIN"); (169, "KEY_ZOOMOUT"); (170, "KEY_TV");
   (208, "KEY_CALENDAR"); (210, "KEY_CALC")].

Close Scope string_scope.

(** ** Reading the table *)
Section keys.
Context (KEY : string -> Z).

(** An element is what its last initialiser says, 0 without one. *)
Definition initialised (l : list (Z * string)) (k : Z) : Z :=
  foldl (fun v e => if e.1 =? k then KEY e.2 else v) 0 l.

Definition keycode (k : Z) : outcome Z :=
  if (0 <=? k) && (k <? table_size) then Ret (initialised android_to_linux_keycode k) else Fault OutOfBounds.

(** The JNI function; the table is read only without a scan code. *)
Definition send_key (connected : bool) (scan_code key_code key_down : Z) : outcome (list Events.message) :=
  if connected then
    code ← (if scan_code =? 0 then keycode key_code else Ret scan_code);
    Ret [(Key (u16 (code + 8)) (u8 key_down), [])]
  else Ret [].

(** ** Lemmas *)
Lemma initialised_ne l k v :
  Forall (fun e => e.1 <> k) l -> foldl (fun v e => if e.1 =? k then KEY e.2 else v) v l = v.
Proof.
  revert v. induction l as [|e l IH]; intros v Hl; [done|]. apply Forall_cons in Hl as [He Hl]. cbn.
  rewrite (proj2 (Z.eqb_neq _ _) He). by apply IH.
Qed.

Lemma initialised_in l k n : NoDup (l.*1) -> (k, n) ∈ l -> initialised l k = KEY n.
Proof.
  unfold initialised. generalize 0 as v. induction l as [|e l IH]; intros v Hnd Hin; [set_solver|].
  cbn in Hnd. apply NoDup_cons in Hnd as [Hn Hnd]. cbn. apply elem_of_cons in Hin as [<-|Hin].
  - cbn. rewrite Z.eqb_refl. apply initialised_ne, Forall_forall. intros e He E. apply Hn.
    apply list_elem_of_fmap. exists e. by rewrite E.
  - rewrite (proj2 (Z.eqb_neq e.1 k)); [by apply IH|]. intros <-. apply Hn. apply list_elem_of_fmap. by exists (e.1, n).
Qed.

(** Decided on the table itself. *)
Lemma table_in_bounds :
  NoDup (android_to_linux_keycode.*1) /\ Forall (fun e => 0 <= e.1 < table_size) android_to_linux_keycode.
Proof. split; [apply (bool_decide_unpack _); by vm_compute|]. apply Forall_forall. intros e He.
  assert (forallb (fun e => (0 <=? e.1) && (e.1 <? table_size)) android_to_linux_keycode = true) as H by reflexivity.
  rewrite forallb_forall in H. specialize (H e (proj1 (list_elem_of_In _ _) He)). bool_arith. lia.
Qed.

(** ** Properties *)

(** C37: a key of the app. With a scan code the key sent is the scan code plus 8, and
    the table is not read. Otherwise a key code that the table lists is sent as
    its Linux code plus 8, each of its lines counts, none overrides another, and
    all lie inside the array; a key code it does not list is sent as
    key 8; a key code of 304 or more, or a negative one, is read outside the
    array. *)
Theorem key_codes scan_code key_code down :
  (scan_code <> 0 -> send_key true scan_code key_code down = Ret [(Key (u16 (scan_code + 8)) (u8 down), [])])
  /\ (forall n, (key_code, n) ∈ android_to_linux_keycode ->
        send_key true 0 key_code down = Ret [(Key (u16 (KEY n + 8)) (u8 down), [])])
  /\ (0 <= key_code < table_size -> key_code ∉ android_to_linux_keycode.*1 ->
        send_key true 0 key_code down = Ret [(Key 8 (u8 down), [])])
  /\ (key_code < 0 \/ table_size <= key_code -> send_key true 0 key_code down = Fault OutOfBounds).
Proof.
  unfold send_key, keycode. split_and!.
  - intros H. by rewrite (proj2 (Z.eqb_neq _ _) H).
  - intros n Hn. destruct table_in_bounds as [Hnd Hb]. rewrite Forall_forall in Hb. specialize (Hb _ Hn). cbn in Hb.
    decide_tests. by rewrite (initialised_in _ _ n Hnd Hn).
  - intros Hk Hn. decide_tests. unfold initialised. rewrite initialised_ne; [done|].
    apply Forall_forall. intros e He E. apply Hn, list_elem_of_fmap. exists e. by rewrite E.
  - intros Hk. replace ((0 <=? key_code) && (key_code <? table_size)) with false; [done|].
    symmetry. apply andb_false_iff. rewrite Z.leb_gt, Z.ltb_ge. lia.
Qed.

(** What arrives at the server: the key with its new state. *)
Lemma key_delivered env fd s scan_code key_code down l :
  send_key true scan_code key_code down = Ret l ->
  exists k, l = [(Key k (u8 down), [])] /\ foldl (deliver env fd) s l = emit (QueueKeyboardEvents (truth (u8 down)) k) s.
Proof.
  unfold send_key. destruct (if scan_code =? 0 then _ else _) as [c|]; cbn; [|done]. intros [= <-]. by eexists.
Qed.
End keys.

(** ** A concrete keyboard *)
Definition sample_KEY (n : string) : Z := if bool_decide (n = "KEY_A"%string) then 30 else 1.

Lemma key_codes_witness :
  send_key sample_KEY true 0 29 1 = Ret [(Key 38 1, [])] /\ send_key sample_KEY true 0 304 1 = Fault OutOfBounds.
Proof.
  split.
  - apply (proj1 (proj2 (key_codes sample_KEY 0 29 1)) "KEY_A"%string).
    apply (bool_decide_unpack _). vm_compute. exact I.
  - apply (proj2 (proj2 (proj2 (key_codes sample_KEY 0 304 1)))). right. vm_compute. discriminate.
Defined.
