(* ===== verification/Devices.v ===== *)
(** * Input devices (InitInput.c)

    The device procedures declare buttons and axes to the X server, whose
    functions can fail; [lorieSetStylusEnabled] adds and removes the pen and the
    eraser.  A call of the X server that initialises a device is an
    [init_call]; a call that manages devices a [dix_call].  The second half
    relates the events [Server] queues to the axes and buttons declared here. *)
From S2P Require Import Prelude Events Server.
#[local] Open Scope string_scope.
#[local] Open Scope list_scope.
#[local] Open Scope Z_scope.

(** ** What a device declares *)
Inductive axis_mode : Type := Relative | Absolute.

(** Labels are the names of known properties, without their prefix. *)
Inductive init_call : Type :=
  | InitKeyboardDeviceStruct
  | InitButtonClassDeviceStruct (n : Z) (labels : list (option string)) (map : list (option Z))
  | InitValuatorClassDeviceStruct (n : Z) (labels : list string) (mode : axis_mode)
  | InitValuatorAxisStruct (axis : Z) (label : string) (limits : option (Z * Z)) (res min_res max_res : Z) (mode : axis_mode)
  | SetScrollValuator (axis : Z) (horizontal preferred : bool)
  | InitTouchClassDeviceStruct (points axes : Z)
  | InitPtrFeedbackClassDeviceStruct
  | InitPointerAccelerationScheme.

Inductive request : Type := DEVICE_INIT | DEVICE_ON | DEVICE_OFF | DEVICE_CLOSE | DEVICE_OTHER.
Inductive status : Type := Success | BadValue | BadMatch.

(** [device->public.on] and the calls made for the device. *)
Record device_state : Type := mk_device { on : bool; declared : list init_call }.

(** ** The procedures *)
Section procs.
Context (accepts : init_call -> bool).

(** [f1 && f2 && ...]: the calls up to the first that fails, which has no effect. *)
Fixpoint init_all (l : list init_call) (d : device_state) : bool * device_state :=
  match l with
  | [] => (true, d)
  | c :: l => if accepts c then init_all l (mk_device (on d) (declared d ++ [c])) else (false, d)
  end.

(** [map[i] = i] from 1 to [n]; element 0 is [zero]. *)
Definition button_map (zero : option Z) (n : nat) : list (option Z) :=
  zero :: ((fun i => Some (Z.of_nat i)) <$> seq 1 n).

Definition lorieInitPointerButtons : list init_call :=
  [InitButtonClassDeviceStruct 10
     [Some "LEFT"; Some "MIDDLE"; Some "RIGHT"; Some "WHEEL_UP"; Some "WHEEL_DOWN"; Some "HWHEEL_LEFT";
      Some "HWHEEL_RIGHT"; None; None; None] (button_map None 10)].

Definition mouse_calls : list init_call :=
  lorieInitPointerButtons ++
  [InitValuatorClassDeviceStruct 4 ["REL_X"; "REL_Y"; "REL_HWHEEL"; "REL_WHEEL"] Relative;
   InitValuatorAxisStruct 0 "REL_X" None 0 0 0 Relative;
   InitValuatorAxisStruct 1 "REL_Y" None 0 0 0 Relative;
   InitValuatorAxisStruct 2 "REL_HWHEEL" None 0 0 0 Relative;
   InitValuatorAxisStruct 3 "REL_WHEEL" None 0 0 0 Relative;
   SetScrollValuator 2 true false;
   SetScrollValuator 3 false true;
   InitPtrFeedbackClassDeviceStruct;
   InitPointerAccelerationScheme].

(** [map[0] = 1] after [map] was zeroed. *)
Definition touch_calls : list init_call :=
  [InitValuatorClassDeviceStruct 2 ["ABS_MT_POSITION_X"; "ABS_MT_POSITION_Y"] Absolute;
   InitButtonClassDeviceStruct 1 [Some "LEFT"] [Some 1; Some 0];
   InitTouchClassDeviceStruct 20 2;
   InitValuatorAxisStruct 0 "ABS_MT_POSITION_X" (Some (0, 0xFFFF)) 10000 0 10000 Absolute;
   InitValuatorAxisStruct 1 "ABS_MT_POSITION_Y" (Some (0, 0xFFFF)) 10000 0 10000 Absolute].

Definition stylus_calls : list init_call :=
  [InitValuatorClassDeviceStruct 6
     ["ABS_X"; "ABS_Y"; "ABS_PRESSURE"; "ABS_TILT_X"; "ABS_TILT_Y"; "ABS_WHEEL"] Absolute;
   InitValuatorAxisStruct 0 "ABS_X" (Some (0, 0x3FFFF)) 10000 0 10000 Absolute;
   InitValuatorAxisStruct 1 "ABS_Y" (Some (0, 0x3FFFF)) 10000 0 10000 Absolute;
   InitValuatorAxisStruct 2 "ABS_PRESSURE" (Some (0, 0xFFFF)) 1 0 1 Absolute;
   InitValuatorAxisStruct 3 "ABS_TILT_X" (Some (-64, 63)) 57 0 57 Absolute;
   InitValuatorAxisStruct 4 "ABS_TILT_Y" (Some (-64, 63)) 57 0 57 Absolute;
   InitValuatorAxisStruct 5 "ABS_WHEEL" (Some (-900, 899)) 1 0 1 Absolute;
   InitPtrFeedbackClassDeviceStruct;
   InitButtonClassDeviceStruct 3 [None; None; None] (button_map (Some 0) 3)].

(** The common shape of the three pointer procedures. *)
Definition pointer_proc (calls : list init_call) (what : request) (d : device_state) : status * device_state :=
  match what with
  | DEVICE_INIT =>
      let (ok, d) := init_all calls (mk_device false (declared d)) in
      (if ok then Success else BadValue, d)
  | DEVICE_ON => (Success, mk_device true (declared d))
  | DEVICE_OFF | DEVICE_CLOSE => (Success, mk_device false (declared d))
  | DEVICE_OTHER => (BadMatch, d)
  end.

Definition lorieMouseProc : request -> device_state -> status * device_state := pointer_proc mouse_calls.
Definition lorieTouchProc : request -> device_state -> status * device_state := pointer_proc touch_calls.
Definition lorieStylusProc : request -> device_state -> status * device_state := pointer_proc stylus_calls.

(** The keyboard's result is ignored, and closing it leaves it on. *)
Definition lorieKeybdProc (what : request) (d : device_state) : status * device_state :=
  match what with
  | DEVICE_INIT => (Success, (init_all [InitKeyboardDeviceStruct] d).2)
  | DEVICE_ON => (Success, mk_device true (declared d))
  | DEVICE_OFF => (Success, mk_device false (declared d))
  | DEVICE_CLOSE => (Success, d)
  | DEVICE_OTHER => (BadMatch, d)
  end.
End procs.

(** ** Adding and removing devices *)
Inductive proc : Type := MouseProc | TouchProc | KeybdProc | StylusProc.
Inductive master : Type := MasterPointer | MasterKeyboard.

Inductive dix_call : Type :=
  | AddInputDevice (h : Z) (p : proc)
  | AssignTypeAndName (h : Z) (type name : string)
  | ActivateDevice (h : Z)
  | EnableDevice (h : Z)
  | AttachDevice (h : Z) (m : master)
  | RemoveDevice (h : Z)
  | MieqInit.

(** The five global pointers, 0 is NULL; [added] counts the devices ever added. *)
Record inputs : Type := mk_inputs {
  lorieMouse : Z; lorieTouch : Z; lorieKeyboard : Z; loriePen : Z; lorieEraser : Z;
  added : nat;
  dix_calls : list dix_call
}.

Definition dix (c : dix_call) (s : inputs) : inputs :=
  mk_inputs (lorieMouse s) (lorieTouch s) (lorieKeyboard s) (loriePen s) (lorieEraser s) (added s) (dix_calls s ++ [c]).
Definition with_tablet pen eraser s :=
  mk_inputs (lorieMouse s) (lorieTouch s) (lorieKeyboard s) pen eraser (added s) (dix_calls s).

Section inputs.
(** The device the n-th [AddInputDevice] returns; 0 when there is no memory. *)
Context (new_device : nat -> Z).

Definition addInputDevice (p : proc) (s : inputs) : Z * inputs :=
  let h := new_device (added s) in
  (h, mk_inputs (lorieMouse s) (lorieTouch s) (lorieKeyboard s) (loriePen s) (lorieEraser s) (S (added s))
        (if h =? 0 then dix_calls s else dix_calls s ++ [AddInputDevice h p])).

(** What follows an [AddInputDevice] whose result is not tested. *)
Definition set_up (h : Z) (type name : string) (s : inputs) : outcome inputs :=
  if h =? 0 then Fault NullDeref
  else Ret (dix (AttachDevice h MasterPointer) (dix (EnableDevice h) (dix (ActivateDevice h)
              (dix (AssignTypeAndName h type name) s)))).

Definition lorieSetStylusEnabled (enabled : bool) (s : inputs) : outcome inputs :=
  if enabled then
    s ← (if loriePen s =? 0 then
           let (h, s) := addInputDevice StylusProc s in
           s ← set_up h "TERMUX-X11 PEN" "Lorie pen" s; Ret (with_tablet h (lorieEraser s) s)
         else Ret s);
    if lorieEraser s =? 0 then
      let (h, s) := addInputDevice StylusProc s in
      s ← set_up h "TERMUX-X11 ERASER" "Lorie eraser" s; Ret (with_tablet (loriePen s) h s)
    else Ret s
  else
    let s := if loriePen s =? 0 then s else with_tablet 0 (lorieEraser s) (dix (RemoveDevice (loriePen s)) s) in
    Ret (if lorieEraser s =? 0 then s else with_tablet (loriePen s) 0 (dix (RemoveDevice (lorieEraser s)) s)).

Definition InitInput (s : inputs) : outcome inputs :=
  let (m, s) := addInputDevice MouseProc s in
  let (t, s) := addInputDevice TouchProc s in
  let (k, s) := addInputDevice KeybdProc s in
  let s := mk_inputs m t k (loriePen s) (lorieEraser s) (added s) (dix_calls s) in
  if (m =? 0) || (t =? 0) || (k =? 0) then Fault NullDeref
  else
    let s := foldl (fun s c => dix c s) s
      [AssignTypeAndName m "MOUSE" "Lorie mouse"; AssignTypeAndName t "TOUCHSCREEN" "Lorie touch";
       AssignTypeAndName k "KEYBOARD" "Lorie keyboard"; ActivateDevice m; ActivateDevice t; ActivateDevice k;
       EnableDevice m; EnableDevice t; EnableDevice k; AttachDevice m MasterPointer; AttachDevice t MasterPointer;
       AttachDevice k MasterKeyboard] in
    s ← (if negb (loriePen s =? 0) && negb (lorieEraser s =? 0)
         then lorieSetStylusEnabled true (with_tablet 0 0 s) else Ret s);
    Ret (dix MieqInit s).
End inputs.

(** The devices a sequence of calls leaves in the X server. *)
Definition present_step (l : list Z) (c : dix_call) : list Z :=
  match c with
  | AddInputDevice h _ => h :: l
  | RemoveDevice h => filter (fun q => q <> h) l
  | _ => l
  end.
Definition present (l : list dix_call) : list Z := foldl present_step [] l.

(** ** What the procedures achieve *)
Definition declared_axes (l : list init_call) : list Z :=
  omap (fun c => match c with InitValuatorAxisStruct a _ _ _ _ _ _ => Some a | _ => None end) l.
Definition declared_buttons (l : list init_call) : Z :=
  foldr (fun c n => match c with InitButtonClassDeviceStruct k _ _ => k | _ => n end) 0 l.

Lemma init_all_ok accepts l d :
  Forall (fun c => accepts c = true) l -> init_all accepts l d = (true, mk_device (on d) (declared d ++ l)).
Proof.
  revert d. induction l as [|c l IH]; intros d Hl; [by rewrite app_nil_r; destruct d|].
  apply Forall_cons in Hl as [Hc Hl]. cbn. rewrite Hc, IH by done. cbn. by rewrite <- app_assoc.
Qed.

Lemma init_all_fails accepts l d c :
  c ∈ l -> accepts c = false ->
  exists done_ bad rest, l = done_ ++ bad :: rest /\ accepts bad = false
    /\ init_all accepts l d = (false, mk_device (on d) (declared d ++ done_)).
Proof.
  revert d. induction l as [|c' l IH]; intros d Hin Hc; [set_solver|]. cbn.
  destruct (accepts c') eqn:E.
  - apply elem_of_cons in Hin as [->|Hin]; [congruence|].
    destruct (IH (mk_device (on d) (declared d ++ [c'])) Hin Hc) as (dn & bad & rest & -> & Hb & ->).
    exists (c' :: dn), bad, rest. cbn. by rewrite <- app_assoc.
  - exists [], c', l. rewrite app_nil_r. by destruct d.
Qed.

(** Starting a pointer device. When the X server accepts every call, the mouse
    gets four axes and ten buttons, the touch screen two axes and the stylus
    six and three buttons, each axis declared once, and buttons of mouse and
    stylus keep their numbers; the device is off until it is turned on. When a
    call is refused, the result is BadValue and nothing after it is declared.
    But the one button of the touch screen is mapped to 0, which is no button. *)
Theorem device_init accepts calls d :
  calls = mouse_calls \/ calls = touch_calls \/ calls = stylus_calls ->
  declared d = [] ->
  ((forall c, c ∈ calls -> accepts c = true) ->
     pointer_proc accepts calls DEVICE_INIT d = (Success, mk_device false calls)
     /\ (pointer_proc accepts calls DEVICE_ON (mk_device false calls)).2 = mk_device true calls)
  /\ (forall c, c ∈ calls -> accepts c = false ->
        exists l bad rest, calls = l ++ bad :: rest /\ accepts bad = false
          /\ pointer_proc accepts calls DEVICE_INIT d = (BadValue, mk_device false l))
  /\ declared_axes mouse_calls = [0; 1; 2; 3] /\ declared_buttons mouse_calls = 10
  /\ declared_axes touch_calls = [0; 1] /\ declared_axes stylus_calls = [0; 1; 2; 3; 4; 5]
  /\ declared_buttons stylus_calls = 3
  /\ (forall i : nat, (1 <= i <= 10)%nat -> button_map None 10 !! i = Some (Some (Z.of_nat i)))
  /\ exists labels, InitButtonClassDeviceStruct 1 labels [Some 1; Some 0] ∈ touch_calls.
Proof.
  intros _ Hd. split_and!; try reflexivity.
  - intros Hall. unfold pointer_proc. rewrite init_all_ok by (apply Forall_forall; exact Hall).
    cbn. rewrite Hd. done.
  - intros c Hin Hc. unfold pointer_proc.
    destruct (init_all_fails accepts calls (mk_device false (declared d)) c Hin Hc) as (l & bad & rest & E & Hb & ->).
    exists l, bad, rest. cbn. rewrite Hd. done.
  - intros i Hi. unfold button_map. destruct i as [|i]; [lia|].
    change (((fun j => Some (Z.of_nat j)) <$> seq 1 10) !! i = Some (Some (Z.of_nat (S i)))). rewrite list_lookup_fmap, lookup_seq_lt by lia. done.
  - eexists. unfold touch_calls. apply list_elem_of_further, list_elem_of_here.
Qed.

(** ** The pen and the eraser *)
Section tablet.
Context (new_device : nat -> Z).
Hypothesis new_nonzero : forall n, new_device n <> 0.
Hypothesis new_fresh : forall n k, new_device n = new_device k -> n = k.

(** Both tablet devices exist or none, and the X server has just these and [base]. *)
Record tablet_ok (base : list Z) (s : inputs) : Prop := {
  tk_both : loriePen s = 0 <-> lorieEraser s = 0;
  tk_present : present (dix_calls s) ≡ₚ (if loriePen s =? 0 then [] else [lorieEraser s; loriePen s]) ++ base;
  tk_distinct : NoDup (present (dix_calls s));
  tk_old : forall h, h ∈ present (dix_calls s) -> exists n, (n < added s)%nat /\ h = new_device n
}.

Lemma present_app l l' : present (l ++ l') = foldl present_step (present l) l'.
Proof. apply foldl_app. Qed.

Lemma present_set_up h t n s s' :
  set_up h t n s = Ret s' -> present (dix_calls s') = present (dix_calls s)
    /\ loriePen s' = loriePen s /\ lorieEraser s' = lorieEraser s /\ added s' = added s /\ h <> 0.
Proof.
  unfold set_up. destruct (Z.eqb_spec h 0); [done|]. intros [= <-]. cbn. rewrite !present_app. cbn. done.
Qed.

Lemma fresh_device s base : tablet_ok base s -> new_device (added s) ∉ present (dix_calls s).
Proof. intros Hs Hin. destruct (tk_old base s Hs _ Hin) as (n & Hn & E). apply new_fresh in E. lia. Qed.

Lemma enable_ok base s :
  tablet_ok base s -> exists s', lorieSetStylusEnabled new_device true s = Ret s' /\ tablet_ok base s' /\ loriePen s' <> 0
    /\ (loriePen s <> 0 -> s' = s).
Proof.
  intros Hs. pose proof Hs as [Hb Hp Hn Ho]. unfold lorieSetStylusEnabled.
  destruct (Z.eqb_spec (loriePen s) 0) as [E|E].
  2:{ cbind. rewrite (proj2 (Z.eqb_neq _ _)) by tauto. by exists s. }
  assert (lorieEraser s = 0) as Ee by tauto. cbn in Hp.
  unfold addInputDevice. cbv zeta. rewrite (proj2 (Z.eqb_neq _ _) (new_nonzero (added s))).
  unfold set_up. rewrite ?(proj2 (Z.eqb_neq _ _) (new_nonzero (added s))). cbn. rewrite Ee. cbn.
  rewrite !(proj2 (Z.eqb_neq _ _) (new_nonzero (S (added s)))). cbn.
  eexists. split; [reflexivity|]. pose proof (new_nonzero (added s)) as Hz. pose proof (new_nonzero (S (added s))) as Hz2.
  pose proof (fresh_device s base Hs) as Hf.
  assert (new_device (S (added s)) ∉ present (dix_calls s)) as Hf2.
  { intros Hin. destruct (Ho _ Hin) as (n & Hlt & Eq). apply new_fresh in Eq. lia. }
  split; [|done].
  match goal with |- tablet_ok _ ?s' =>
    assert (present (dix_calls s') = new_device (S (added s)) :: new_device (added s) :: present (dix_calls s)) as Epres
      by (cbn [dix_calls with_tablet dix]; rewrite !present_app; reflexivity)
  end.
  constructor; rewrite ?Epres; cbn [loriePen lorieEraser added with_tablet dix].
  - tauto.
  - rewrite (proj2 (Z.eqb_neq _ _) Hz). cbn [app]. by rewrite Hp.
  - rewrite !NoDup_cons. split_and!; [|done|done].
    rewrite elem_of_cons. intros [Eq%new_fresh|?]; [lia|done].
  - intros h. rewrite !elem_of_cons. intros [->|[->|Hin]].
    + exists (S (added s)). split; [lia|done].
    + exists (added s). split; [lia|done].
    + destruct (Ho _ Hin) as (n & ? & ?). exists n. split; [lia|done].
Qed.

Lemma disable_ok base s :
  tablet_ok base s -> exists s', lorieSetStylusEnabled new_device false s = Ret s' /\ tablet_ok base s' /\ loriePen s' = 0
    /\ present (dix_calls s') ≡ₚ base.
Proof.
  intros Hs. pose proof Hs as [Hb Hp Hn Ho]. unfold lorieSetStylusEnabled.
  destruct (Z.eqb_spec (loriePen s) 0) as [E|E].
  - rewrite (proj2 (Z.eqb_eq _ _)) by tauto. exists s. split_and!; [done..|]. by rewrite Hp.
  - cbn [with_tablet lorieEraser loriePen dix dix_calls]. rewrite (proj2 (Z.eqb_neq (lorieEraser s) 0)) by tauto.
    eexists. split; [reflexivity|].
    assert (present ((dix_calls s ++ [RemoveDevice (loriePen s)]) ++ [RemoveDevice (lorieEraser s)]) ≡ₚ base) as Hbase.
    { rewrite !present_app. cbn. cbn in Hp. rewrite Hp in Hn |- *. apply NoDup_cons in Hn as [Hn1 Hn].
      apply NoDup_cons in Hn as [Hn2 Hn]. rewrite elem_of_cons in Hn1.
      rewrite filter_cons_True by naive_solver. rewrite filter_cons_False by naive_solver.
      rewrite filter_cons_False by naive_solver.
      assert (forall h, h ∉ base -> filter (fun q => q <> h) base = base) as Hid.
      { clear. induction base as [|x l IH]; intros h Hh; [done|]. rewrite filter_cons_True, IH by set_solver. done. }
      rewrite Hid, Hid by tauto. done. }
    split; [|done]. constructor; cbn [loriePen lorieEraser dix_calls added with_tablet dix]; [done| | |].
    + by rewrite Hbase.
    + rewrite Hbase. rewrite Hp in Hn. by apply NoDup_app in Hn as (_ & _ & ?).
    + intros h Hh. rewrite Hbase in Hh. apply Ho. rewrite Hp. set_solver.
Qed.

(** The stylus switch. However often the pen is switched on and off, the X server
    has a pen and an eraser exactly when the last request was to have them,
    one of each, next to the devices it had before, and asking again for what is
    already there changes nothing. *)
Theorem stylus_switch base s bs :
  tablet_ok base s ->
  exists s', foldl (fun r b => s ← r; lorieSetStylusEnabled new_device b s) (Ret s) bs = Ret s' /\ tablet_ok base s'
    /\ (loriePen s' <> 0 <-> default (negb (loriePen s =? 0)) (last bs) = true)
    /\ (present (dix_calls s') ≡ₚ if default (negb (loriePen s =? 0)) (last bs) then lorieEraser s' :: loriePen s' :: base else base)
    /\ (forall b, last bs = Some b -> exists s'', lorieSetStylusEnabled new_device b s' = Ret s'' /\ s'' = s').
Proof.
  intros Hs. induction bs as [|b bs IH] using rev_ind.
  - exists s. cbn. split_and!; [done..| | |done].
    + rewrite negb_true_iff, Z.eqb_neq. done.
    + rewrite (tk_present base s Hs). by destruct (loriePen s =? 0).
  - destruct IH as (s1 & E1 & Hs1 & _). rewrite foldl_app, E1. cbn [foldl]. cbind. rewrite last_snoc. cbn [default from_option].
    destruct b.
    + destruct (enable_ok base s1 Hs1) as (s2 & -> & Hs2 & Hpen & _). exists s2. split_and!; [done..| |].
      * rewrite (tk_present base s2 Hs2). by rewrite (proj2 (Z.eqb_neq _ _) Hpen).
      * intros b [= <-]. destruct (enable_ok base s2 Hs2) as (s3 & E3 & _ & _ & Hid). exists s3. split; [done|]. by apply Hid.
    + destruct (disable_ok base s1 Hs1) as (s2 & -> & Hs2 & Hpen & Hbase). exists s2. split_and!; [done..| |done|].
      * by rewrite Hpen.
      * intros b [= <-]. exists s2. split; [|done]. unfold lorieSetStylusEnabled.
        rewrite Hpen. cbn. by rewrite (proj1 (tk_both base s2 Hs2) Hpen).
Qed.
End tablet.

(** ** The events of the server against the declarations *)
Definition calls_of (d : device) : list init_call :=
  match d with LorieMouse => mouse_calls | LoriePen | LorieEraser => stylus_calls end.

(** An event names buttons its device has, moves axes it has, and a button event
    moves none. *)
Definition typed (e : effect) : Prop :=
  match e with
  | QueuePointerEvents d k b _ m =>
      match k with
      | MotionNotify => b = 0 /\ forall a, a ∈ dom (default ∅ m) -> a ∈ declared_axes (calls_of d)
      | ButtonPress | ButtonRelease => m = None /\ 1 <= b <= declared_buttons (calls_of d)
      end
  | _ => True
  end.

(** Does an event move a tablet device, or the mouse? *)
Definition moves_tablet (e : lorieEvent) : bool :=
  match e with Stylus _ _ _ _ _ _ _ _ mo => negb (truth mo) | _ => false end.
Definition moves_mouse (e : lorieEvent) : bool :=
  match e with
  | Stylus _ _ _ _ _ _ _ _ mo => truth mo
  | Mouse _ _ detail _ _ => detail =? 0
  | _ => false
  end.

(** No motion of the mouse comes after one of a tablet device. *)
Fixpoint orderly (tablet : bool) (l : list Events.message) : bool :=
  match l with
  | [] => true
  | m :: l => negb (tablet && moves_mouse m.1) && orderly (tablet || moves_tablet m.1) l
  end.

Definition mask_within (l : list Z) (s : server) : Prop := forall a, a ∈ dom (mask s) -> a ∈ l.

Lemma mask_set l m : dom (set_valuators l m) = list_to_set l.*1 ∪ dom m.
Proof.
  unfold set_valuators. revert m. induction l as [|[k v] l IH]; intros m; cbn [foldl fmap list_fmap list_to_set fst snd]; [set_solver|].
  rewrite IH, dom_insert_L. set_solver.
Qed.

Lemma typed_stylus_button env d r p i s :
  0 <= i < declared_buttons (calls_of d) -> Forall typed (effects s) ->
  Forall typed (effects (stylus_button env d r p i s)) /\ mask (stylus_button env d r p i s) = mask s.
Proof.
  intros Hi Hs. unfold stylus_button.
  destruct (Z.testbit r i), (Z.testbit p i); cbn [effects emit mask]; (split; [|done]); rewrite ?Forall_cons;
    split_and?; try done; cbn [typed]; (split; [done|lia]).
Qed.

Lemma typed_stylus env x y p tx ty o b er mo s n :
  Forall typed (effects s) -> mask_within (if truth mo then [0; 1; 2; 3] else [0; 1; 2; 3; 4; 5]) s ->
  n = handle_stylus env x y p tx ty o b er mo s ->
  Forall typed (effects n) /\ mask_within (if truth mo then [0; 1; 2; 3] else [0; 1; 2; 3; 4; 5]) n.
Proof.
  intros Hs Hm ->. unfold handle_stylus. set (d := if truth mo then _ else _).
  destruct (negb _); [done|]. cbv zeta. set (m := set_valuators _ _). set (fl := Z.lor _ _).
  assert (forall a, a ∈ dom m -> a ∈ if truth mo then [0; 1; 2; 3] else [0; 1; 2; 3; 4; 5]) as Hdom.
  { intros a. subst m. rewrite mask_set, elem_of_union. intros [Ha|Ha]; [|by apply Hm].
    rewrite elem_of_list_to_set in Ha. subst d. destruct (truth mo), (truth er); cbn in Ha |- *; set_solver. }
  assert (declared_axes (calls_of d) = if truth mo then [0; 1; 2; 3] else [0; 1; 2; 3; 4; 5]) as Hax
    by (subst d; by destruct (truth mo), (truth er)).
  assert (3 <= declared_buttons (calls_of d)) as Hbt by (subst d; destruct (truth mo), (truth er); cbn; lia).
  set (s1 := emit _ (with_mask m s)).
  assert (Forall typed (effects s1)) as H1.
  { subst s1. cbn [effects emit with_mask]. rewrite Forall_cons. split; [|done]. split; [done|]. by rewrite Hax. }
  destruct (typed_stylus_button env d (Z.land (Z.lxor (buttons_prev s1) b) (u32 (Z.lnot b))) (Z.land (Z.lxor (buttons_prev s1) b) b) 0 s1)
    as [H2 M2]; [lia|done|].
  match goal with |- context [stylus_button env d ?r ?p 1 ?s2] =>
    destruct (typed_stylus_button env d r p 1 s2) as [H3 M3]; [lia|exact H2|] end.
  match goal with |- context [stylus_button env d ?r ?p 2 ?s3] =>
    destruct (typed_stylus_button env d r p 2 s3) as [H4 M4]; [lia|exact H3|] end.
  split; [exact H4|]. unfold mask_within. cbn [with_buttons mask]. rewrite M4, M3, M2. exact Hdom.
Qed.

Definition axes (tablet : bool) : list Z := if tablet then [0; 1; 2; 3; 4; 5] else [0; 1; 2; 3].

Lemma typed_scroll env ax f tablet s :
  ax = 2 \/ ax = 3 -> Forall typed (effects s) -> mask_within (axes tablet) s ->
  Forall typed (effects (scroll env ax f s)) /\ mask_within (axes tablet) (scroll env ax f s).
Proof.
  intros Hax Hs Hm. unfold scroll. destruct (float_truth f); [|done].
  assert (forall a, a ∈ dom ({[ax := ddiv (to_double f) (of_int 120)]} : valuators) -> a = ax) as Hd
    by (intros a; rewrite dom_singleton_L; set_solver).
  cbn [effects emit with_mask mask]. rewrite Forall_cons. split.
  - split; [|done]. split; [done|]. intros a ->%Hd. cbn. destruct Hax as [->| ->]; set_solver.
  - intros a Ha. cbn [mask emit with_mask] in Ha. apply Hd in Ha as ->. destruct tablet, Hax as [->| ->]; cbn; set_solver.
Qed.

Lemma typed_mouse env x y detail dn r tablet s :
  (tablet && (detail =? 0) = false)%bool -> Forall typed (effects s) -> mask_within (axes tablet) s ->
  Forall typed (effects (handle_mouse env x y detail dn r s)) /\ mask_within (axes tablet) (handle_mouse env x y detail dn r s).
Proof.
  intros Ht Hs Hm. unfold handle_mouse. destruct (detail =? 0) eqn:E0.
  - rewrite andb_true_r in Ht. subst tablet. cbv zeta. set (m := set_valuators _ _).
    assert (forall a, a ∈ dom m -> a ∈ axes false) as Hdom.
    { intros a. subst m. rewrite mask_set, elem_of_union. intros [Ha|Ha]; [|by apply Hm].
      rewrite elem_of_list_to_set in Ha. cbn in Ha |- *. set_solver. }
    cbn [effects emit with_mask]. rewrite Forall_cons. by split_and!.
  - destruct (_ || _ || _) eqn:E1.
    + cbn [effects emit]. rewrite Forall_cons. split; [|done]. split; [|done].
      destruct (truth dn); cbn; (split; [done|]); rewrite !orb_true_iff, !Z.eqb_eq in E1; lia.
    + destruct (detail =? 4); [|done]. cbv zeta.
      destruct (typed_scroll env 2 (float_of_bits x) tablet s) as [H2 M2]; [by left|done..|].
      apply typed_scroll; [by right|done..].
Qed.

Lemma deliver_typed env fd tablet m s :
  (tablet && moves_mouse m.1 = false)%bool -> Forall typed (effects s) -> mask_within (axes tablet) s ->
  Forall typed (effects (deliver env fd s m)) /\ mask_within (axes (tablet || moves_tablet m.1)) (deliver env fd s m).
Proof.
  destruct m as [e p]. unfold deliver. cbn [fst snd]. intros Ht Hs Hm.
  destruct e; cbn [handle_event moves_tablet moves_mouse] in *; rewrite ?orb_false_r.
  all: try (cbn [effects emit mask mask_within]; rewrite ?Forall_cons; by split_and!).
  - by apply typed_mouse.
  - destruct (truth mouse) eqn:Emo; cbn [negb]; rewrite ?orb_false_r, ?orb_true_r.
    + rewrite andb_true_r in Ht. subst tablet. cbn [axes].
      destruct (typed_stylus env x y pressure tilt_x tilt_y orientation buttons eraser mouse s _ Hs ltac:(by rewrite Emo) eq_refl) as [H1 H2].
      rewrite Emo in H2. done.
    + assert (mask_within [0; 1; 2; 3; 4; 5] s) as Hm6.
      { intros a Ha. specialize (Hm a Ha). destruct tablet; [done|]. cbn in Hm. set_solver. }
      destruct (typed_stylus env x y pressure tilt_x tilt_y orientation buttons eraser mouse s _ Hs ltac:(by rewrite Emo) eq_refl) as [H1 H2].
      rewrite Emo in H2. done.
Qed.

Lemma typed_run env fd l tablet s :
  orderly tablet l = true -> Forall typed (effects s) -> mask_within (axes tablet) s ->
  Forall typed (effects (foldl (deliver env fd) s l)).
Proof.
  revert tablet s. induction l as [|m l IH]; intros tablet s Ho Hs Hm; [done|]. cbn [orderly] in Ho.
  apply andb_true_iff in Ho as [Hm1%negb_true_iff Ho]. cbn [foldl].
  destruct (deliver_typed env fd tablet m s Hm1 Hs Hm) as [H1 H2]. by eapply IH.
Qed.

(** C13: the server's input events are well typed. Whatever messages one call of the
    handler reads, as long as no motion of the mouse comes after one of the pen
    or the eraser, every event it queues names buttons its device declared and
    moves axes it declared. In the other order the mouse is moved along axes
    it does not have. *)
Theorem events_well_typed env fd l s :
  Forall typed (effects s) ->
  (orderly false l = true -> Forall typed (effects (foldl (deliver env fd) (with_mask ∅ s) l)))
  /\ (has_pen env = true -> forall x y p tx ty o b mx my dn r,
      ~ Forall typed (effects (foldl (deliver env fd) (with_mask ∅ s)
          [(Stylus x y p tx ty o b 0 0, []); (Mouse mx my 0 dn r, [])]))).
Proof.
  intros Hs. split.
  - intros Ho. apply (typed_run env fd l false); [done|done|]. intros a Ha. cbn in Ha. by rewrite dom_empty_L, elem_of_empty in Ha.
  - intros Hpen x y p tx ty o b mx my dn r H. cbn [foldl] in H.
    unfold deliver at 1 in H. cbn [fst handle_event] in H. unfold handle_mouse in H. cbn [Z.eqb] in H. cbv zeta in H.
    cbn [effects emit with_mask] in H. rewrite Forall_cons in H. destruct H as [H _]. cbn [typed] in H. destruct H as [_ H].
    assert (5 ∈ dom (mask (deliver env fd (with_mask ∅ s) (Stylus x y p tx ty o b 0 0, [])))) as H5.
    { unfold deliver. cbn [fst handle_event]. unfold handle_stylus. change (truth 0) with false. cbv iota. rewrite Hpen.
      cbn [negb]. cbv zeta. cbn [with_buttons mask].
      assert (forall d r p i s, mask (stylus_button env d r p i s) = mask s) as Hmk
        by (intros; unfold stylus_button; by destruct (Z.testbit _ _), (Z.testbit _ _)).
      rewrite !Hmk. cbn [emit mask with_mask]. rewrite mask_set. rewrite decide_False by done.
      rewrite elem_of_union, elem_of_list_to_set. left. cbn. set_solver. }
    specialize (H 5). cbn [default from_option id] in H. rewrite mask_set, elem_of_union in H. specialize (H (or_intror H5)).
    cbn in H. set_solver.
Qed.

(** ** Starting and resetting the server *)

(** Start-up and reset. On a fresh server the mouse, the touch screen and the
    keyboard are added; after a reset, which forgets all devices, the pen and
    the eraser are added again if both existed. *)
Theorem init_input new_device s :
  (forall n, new_device n <> 0) -> (forall n k, new_device n = new_device k -> n = k) -> dix_calls s = [] ->
  exists s', InitInput new_device s = Ret s'
    /\ NoDup (present (dix_calls s'))
    /\ (loriePen s = 0 \/ lorieEraser s = 0 ->
        present (dix_calls s') = [lorieKeyboard s'; lorieTouch s'; lorieMouse s'])
    /\ (loriePen s <> 0 -> lorieEraser s <> 0 ->
        present (dix_calls s') = [lorieEraser s'; loriePen s'; lorieKeyboard s'; lorieTouch s'; lorieMouse s']).
Proof.
  intros Hnz Hinj Hd. unfold InitInput, addInputDevice. cbn [added lorieMouse lorieTouch lorieKeyboard loriePen lorieEraser dix_calls].
  assert (forall n, (new_device n =? 0) = false) as Hz by (intros n; by apply Z.eqb_neq).
  assert (forall n k, n <> k -> new_device n <> new_device k) as Hne by (intros n k Hnk E; by apply Hnk, Hinj).
  rewrite !Hz, Hd. cbn [orb app foldl].
  destruct (negb (loriePen s =? 0) && negb (lorieEraser s =? 0)) eqn:E.
  - unfold lorieSetStylusEnabled, addInputDevice, set_up. cbn. rewrite !Hz, E. cbn. rewrite ?Hz. cbn.
    eexists. split; [reflexivity|]. cbn. bool_arith.
    split; [|split; [intros [?|?]; done|done]].
    rewrite !NoDup_cons, !elem_of_cons, !elem_of_nil. pose proof (@NoDup_nil_2 Z) as Hnil.
    split_and!; try done; intros Hx; repeat (destruct Hx as [Hx|Hx]); try done; apply Hinj in Hx; lia.
  - cbn. rewrite E. cbn. eexists. split; [reflexivity|]. cbn. split; [|split; [done|]].
    + rewrite !NoDup_cons, !elem_of_cons, !elem_of_nil. pose proof (@NoDup_nil_2 Z) as Hnil.
      split_and!; try done; intros Hx; repeat (destruct Hx as [Hx|Hx]); try done; apply Hinj in Hx; lia.
    + intros Hp He. apply Z.eqb_neq in Hp, He. by rewrite Hp, He in E.
Qed.

(** ** A concrete server *)
Definition sample_new (n : nat) : Z := 1 + Z.of_nat n.
Definition no_inputs : inputs := mk_inputs 0 0 0 0 0 0 [].

Lemma device_init_witness :
  pointer_proc (fun _ => true) stylus_calls DEVICE_INIT (mk_device true []) = (Success, mk_device false stylus_calls)
  /\ pointer_proc (fun c => match c with SetScrollValuator _ _ _ => false | _ => true end) mouse_calls DEVICE_INIT (mk_device true [])
     = (BadValue, mk_device false (take 6 mouse_calls)).
Proof.
  split; [|reflexivity].
  refine (proj1 (proj1 (device_init (fun _ => true) stylus_calls (mk_device true []) _ _) _)); [by right; right|reflexivity|reflexivity].
Defined.

Definition started : inputs :=
  match InitInput sample_new no_inputs with Ret s => s | Fault _ => no_inputs end.

Lemma sample_new_nonzero n : sample_new n <> 0.
Proof. unfold sample_new. lia. Qed.
Lemma sample_new_fresh n k : sample_new n = sample_new k -> n = k.
Proof. unfold sample_new. lia. Qed.

Lemma init_input_witness :
  exists s', InitInput sample_new no_inputs = Ret s' /\ NoDup (present (dix_calls s')).
Proof.
  destruct (init_input sample_new no_inputs sample_new_nonzero sample_new_fresh eq_refl) as (s' & E & H & _).
  exists s'. split; [exact E|exact H].
Defined.

Lemma started_ok : tablet_ok sample_new [3; 2; 1] started.
Proof.
  constructor; [done|done| |].
  - change (present (dix_calls started)) with [3; 2; 1]. rewrite !NoDup_cons, !elem_of_cons, !elem_of_nil.
    pose proof (@NoDup_nil_2 Z). split_and!; try done; lia.
  - change (present (dix_calls started)) with [3; 2; 1]. change (added started) with 3%nat. intros h.
    rewrite !elem_of_cons, elem_of_nil. unfold sample_new.
    intros [->|[->|[->|[]]]]; [exists 2%nat|exists 1%nat|exists 0%nat]; lia.
Qed.

Lemma stylus_switch_witness :
  exists s', foldl (fun r b => s ← r; lorieSetStylusEnabled sample_new b s) (Ret started) [true; true; false; true] = Ret s'
    /\ present (dix_calls s') ≡ₚ [lorieEraser s'; loriePen s'; 3; 2; 1].
Proof.
  destruct (stylus_switch sample_new sample_new_nonzero sample_new_fresh [3; 2; 1] started [true; true; false; true] started_ok)
    as (s' & E & _ & _ & H & _).
  exists s'. split; [exact E|exact H].
Defined.

Lemma events_well_typed_witness :
  Forall typed (effects (foldl (deliver sample_env 7) (with_mask ∅ offline)
     [(Mouse 0 0 0 0 1, []); (Mouse 0 0x42f00000 4 0 0, []); (Stylus 0 0 700 3 4 90 1 0 0, []); (Mouse 0 0 1 1 0, [])])).
Proof.
  apply (proj1 (events_well_typed sample_env 7 [(Mouse 0 0 0 0 1, []); (Mouse 0 0x42f00000 4 0 0, []);
    (Stylus 0 0 700 3 4 90 1 0 0, []); (Mouse 0 0 1 1 0, [])] offline (Forall_nil_2 _))). reflexivity.
Defined.
