(* ===== verification/Mutex.v ===== *)
(** * The mutex between the processes (lorie.h 50-90, cmdentrypoint.c 428-435)

    Android has no robust mutexes.  A thread that waits longer than 33 ms for a
    process-shared mutex gives it a new value when the other process has gone.
    Each process has one thread that uses the mutex: the X server's and the
    renderer's.  The functions are cut at every access to the shared memory:
    [lockingPid] is written after the mutex is taken and before it is given
    back. *)
From S2P Require Import Prelude.

(** ** The deadline *)
Record timespec : Type := mk_timespec { tv_sec : Z; tv_nsec : Z }.

Definition deadline (now : timespec) : timespec :=
  let n := tv_nsec now + 33 * 1000000 in
  if 1000000000 <=? n then mk_timespec (tv_sec now + Z.quot n 1000000000) (Z.rem n 1000000000)
  else mk_timespec (tv_sec now) n.

Definition total (t : timespec) : Z := tv_sec t * 1000000000 + tv_nsec t.

(** [pthread_mutex_timedlock] compares with CLOCK_REALTIME. *)
Definition passed (realtime : timespec) (d : timespec) : bool := total d <=? total realtime.

(** ** The two processes *)
Inductive side : Type := XServer | App.
#[export] Instance side_eq_dec : EqDecision side.
Proof. solve_decision. Defined.

Definition other (t : side) : side := match t with XServer => App | App => XServer end.

(** [Ready]: outside the two functions; [Waiting]: in [pthread_mutex_timedlock];
    [Got]: it has returned; [Releasing]: before [pthread_mutex_unlock]. *)
Inductive lock_pc : Type := Ready | Waiting | Got | Releasing.
#[export] Instance lock_pc_eq_dec : EqDecision lock_pc.
Proof. solve_decision. Defined.

(** How often the thread has the lock, by its own account. *)
Record thread : Type := mk_thread { at_pc : lock_pc; holds : nat; alive : bool }.

Record mutex_state : Type := mk_mutex {
  owner : option side;                (** of the pthread mutex *)
  depth : nat;                        (** it is recursive *)
  lockingPid : Z;
  server_thread : thread; app_thread : thread;
  hung_up : bool                      (** the socket between them has ended *)
}.

Definition thread_of (t : side) (s : mutex_state) : thread :=
  match t with XServer => server_thread s | App => app_thread s end.

Definition with_thread (t : side) (x : thread) (s : mutex_state) : mutex_state :=
  match t with
  | XServer => mk_mutex (owner s) (depth s) (lockingPid s) x (app_thread s) (hung_up s)
  | App => mk_mutex (owner s) (depth s) (lockingPid s) (server_thread s) x (hung_up s)
  end.
Definition with_mutex o d (s : mutex_state) : mutex_state :=
  mk_mutex o d (lockingPid s) (server_thread s) (app_thread s) (hung_up s).
Definition with_pid p (s : mutex_state) : mutex_state :=
  mk_mutex (owner s) (depth s) p (server_thread s) (app_thread s) (hung_up s).
Definition with_hung_up (s : mutex_state) : mutex_state :=
  mk_mutex (owner s) (depth s) (lockingPid s) (server_thread s) (app_thread s) true.

(** ** Steps *)
Section steps.
Context (getpid : side -> Z).

(** [lorieConnectionAlive]: the kernel ends the socket of a process that dies. *)
Definition lorieConnectionAlive (t : side) (s : mutex_state) : bool :=
  negb (hung_up s) && alive (thread_of (other t) s).

(** What the thread does where it is. [Waiting] covers the loop: the mutex is taken
    when it is free or already its own, and otherwise the wait times out. *)
Definition lock_step (t : side) (s : mutex_state) : mutex_state :=
  let x := thread_of t s in
  match at_pc x with
  | Ready => s
  | Waiting =>
      if bool_decide (owner s = None \/ owner s = Some t) then
        with_thread t (mk_thread Got (holds x) true) (with_mutex (Some t) (S (depth s)) s)
      else if (lockingPid s =? getpid t) || lorieConnectionAlive t s then s
      else with_mutex None 0 s
  | Got => with_thread t (mk_thread Ready (S (holds x)) true) (with_pid (getpid t) s)
  | Releasing =>
      let s := with_thread t (mk_thread Ready (pred (holds x)) true) s in
      if bool_decide (owner s = Some t)
      then with_mutex (if (depth s =? 1)%nat then None else owner s) (pred (depth s)) s else s
  end.

Inductive mutex_action : Type :=
  | CallLock (t : side)
  | CallUnlock (t : side)
  | Step (t : side)
  | Dies (t : side)
  | HangUp.

Definition is_ready (t : side) (s : mutex_state) : bool :=
  alive (thread_of t s) && bool_decide (at_pc (thread_of t s) = Ready).

(** A thread unlocks what it has locked. *)
Definition possible (a : mutex_action) (s : mutex_state) : bool :=
  match a with
  | CallLock t => is_ready t s
  | CallUnlock t => is_ready t s && (0 <? holds (thread_of t s))%nat
  | Step t => alive (thread_of t s)
  | Dies t => alive (thread_of t s)
  | HangUp => true
  end.

Definition take_action (a : mutex_action) (s : mutex_state) : mutex_state :=
  match a with
  | CallLock t => with_thread t (mk_thread Waiting (holds (thread_of t s)) true) s
  | CallUnlock t => with_pid 0 (with_thread t (mk_thread Releasing (holds (thread_of t s)) true) s)
  | Step t => lock_step t s
  | Dies t => with_thread t (mk_thread (at_pc (thread_of t s)) (holds (thread_of t s)) false) s
  | HangUp => with_hung_up s
  end.

Definition mutex_init : mutex_state := mk_mutex None 0 0 (mk_thread Ready 0 true) (mk_thread Ready 0 true) false.

(** [by_death] says that the connection ends only when a process does. *)
Inductive mutex_reachable (by_death : bool) : mutex_state -> Prop :=
  | mutex_start : mutex_reachable by_death mutex_init
  | mutex_next a s :
      mutex_reachable by_death s -> possible a s = true -> (by_death = true -> a <> HangUp) ->
      mutex_reachable by_death (take_action a s).

(** The thread has the lock: [lorie_mutex_lock] has taken it for it. *)
Definition inside (t : side) (s : mutex_state) : Prop :=
  let x := thread_of t s in
  alive x = true /\ (holds x <> 0%nat \/ at_pc x = Got).

(** ** The invariant *)
Hypothesis pid_nonzero : forall t, getpid t <> 0.
Hypothesis pid_distinct : getpid XServer <> getpid App.

Definition taken (x : thread) : nat :=
  (holds x + match at_pc x with Got => 1 | _ => 0 end)%nat.

Record lock_ok (s : mutex_state) : Prop := {
  lk_owner : forall t, taken (thread_of t s) <> 0%nat -> alive (thread_of t s) = true ->
    owner s = Some t /\ depth s = taken (thread_of t s);
  lk_free : owner s = None -> depth s = 0%nat;
  lk_held : forall t, owner s = Some t -> alive (thread_of t s) = true -> taken (thread_of t s) <> 0%nat;
  lk_pid : forall t, alive (thread_of t s) = true -> lockingPid s = getpid t -> owner s = Some t;
  lk_releasing : forall t, at_pc (thread_of t s) = Releasing ->
    holds (thread_of t s) <> 0%nat /\ lockingPid s <> getpid t;
  lk_connected : hung_up s = false
}.

Lemma pid_other t : getpid t <> getpid (other t).
Proof. destruct t; cbn; congruence. Qed.

Lemma thread_with t u x s : thread_of u (with_thread t x s) = if decide (u = t) then x else thread_of u s.
Proof. by destruct t, u. Qed.
Lemma owner_with t x s : owner (with_thread t x s) = owner s.
Proof. by destruct t. Qed.
Lemma depth_with t x s : depth (with_thread t x s) = depth s.
Proof. by destruct t. Qed.
Lemma pid_with t x s : lockingPid (with_thread t x s) = lockingPid s.
Proof. by destruct t. Qed.
Lemma hung_with t x s : hung_up (with_thread t x s) = hung_up s.
Proof. by destruct t. Qed.
Lemma thread_with_mutex o d u s : thread_of u (with_mutex o d s) = thread_of u s.
Proof. by destruct u. Qed.
Lemma thread_with_pid p u s : thread_of u (with_pid p s) = thread_of u s.
Proof. by destruct u. Qed.

Lemma not_self t u : u <> t -> u = other t.
Proof. by destruct t, u. Qed.

(** The steps that leave the mutex alone. *)
Lemma lock_ok_thread t pc pid s :
  lock_ok s -> alive (thread_of t s) = true ->
  taken (mk_thread pc (holds (thread_of t s)) true) = taken (thread_of t s) ->
  (pc = Releasing -> holds (thread_of t s) <> 0%nat /\ pid <> getpid t) ->
  pid = lockingPid s \/ pid = 0 ->
  lock_ok (with_pid pid (with_thread t (mk_thread pc (holds (thread_of t s)) true) s)).
Proof.
  intros [Ho Hf Hh Hp Hr Hc] Ha Ht Hrel Hpid.
  constructor; cbn [with_pid owner depth lockingPid hung_up]; rewrite ?owner_with, ?depth_with, ?hung_with; try done;
    intros u; rewrite thread_with_pid, thread_with; destruct (decide (u = t)) as [->|Hu]; cbn [alive at_pc holds]; rewrite ?Ht; auto.
  - intros _ E. destruct Hpid as [->| ->]; [auto|by destruct (pid_nonzero t)].
  - intros Ha' E. destruct Hpid as [->| ->]; [auto|by destruct (pid_nonzero u)].
  - intros E. destruct (Hr u E) as [? ?]. split; [done|]. destruct Hpid as [->| ->]; [done|]. intros E2. by destruct (pid_nonzero u).
Qed.

Lemma lock_ok_waiting t s :
  lock_ok s -> alive (thread_of t s) = true -> at_pc (thread_of t s) = Waiting -> lock_ok (lock_step t s).
Proof.
  intros Hs Ha Hpc. pose proof Hs as [Ho Hf Hh Hp Hr Hc]. unfold lock_step. rewrite Hpc.
  assert (taken (thread_of t s) = holds (thread_of t s)) as Ht by (unfold taken; rewrite Hpc; cbn; lia).
  case_bool_decide as Hown.
  - assert (depth s = holds (thread_of t s)) as Hd.
    { destruct Hown as [E|E].
      - rewrite (Hf E). destruct (decide (holds (thread_of t s) = 0%nat)); [done|]. destruct (Ho t); congruence.
      - destruct (Ho t); [by apply Hh|done|]. congruence. }
    constructor; rewrite ?owner_with, ?depth_with, ?pid_with, ?hung_with; cbn [with_mutex owner depth lockingPid hung_up];
      try done; intros u; rewrite ?thread_with, ?thread_with_mutex; (destruct (decide (u = t)) as [->|Hu]); cbn [alive at_pc holds]; try done.
    + intros _ _. split; [done|]. rewrite Hd. unfold taken. cbn. lia.
    + intros Hu1 Hu2. destruct (Ho u Hu1 Hu2) as [E _]. destruct Hown; congruence.
    + intros _ _. unfold taken. cbn. lia.
    + congruence.
    + intros Hu1 Hu2. specialize (Hp u Hu1 Hu2). destruct Hown; congruence.
    + auto.
  - destruct (_ || _) eqn:E; [done|]. apply orb_false_iff in E as [E1 E2]. apply Z.eqb_neq in E1.
    unfold lorieConnectionAlive in E2. rewrite Hc in E2. cbn in E2.
    assert (forall u, alive (thread_of u s) = true -> u = t) as Halive.
    { intros u Hu. destruct (decide (u = t)) as [|Hn]; [done|]. rewrite (not_self t u Hn) in Hu. congruence. }
    constructor; cbn [with_mutex owner depth lockingPid hung_up]; try done; intros u; rewrite ?thread_with_mutex; try done.
    + intros Hu1 Hu2. rewrite (Halive u Hu2) in Hu1. destruct (Ho t Hu1 Ha) as [E _]. destruct Hown. by right.
    + intros Hu2 E. by rewrite (Halive u Hu2) in E.
Qed.

Lemma lock_ok_got t s :
  lock_ok s -> alive (thread_of t s) = true -> at_pc (thread_of t s) = Got -> lock_ok (lock_step t s).
Proof.
  intros Hs Ha Hpc. pose proof Hs as [Ho Hf Hh Hp Hr Hc]. unfold lock_step. rewrite Hpc.
  assert (taken (thread_of t s) = S (holds (thread_of t s))) as Ht by (unfold taken; rewrite Hpc; cbn; lia).
  destruct (Ho t) as [Eo Ed]; [lia|done|].
  constructor; rewrite ?owner_with, ?depth_with, ?pid_with, ?hung_with; cbn [with_pid owner depth lockingPid hung_up]; try done;
    intros u; rewrite ?thread_with, ?thread_with_pid; (destruct (decide (u = t)) as [->|Hu]); cbn [alive at_pc holds]; try done.
  - intros _ _. split; [done|]. rewrite Ed, Ht. unfold taken. cbn. lia.
  - auto.
  - auto.
  - intros _ E. rewrite (not_self t u Hu) in E. by destruct (pid_other t).
  - intros E. split; [by apply Hr|]. rewrite (not_self t u Hu). apply pid_other.
Qed.

Lemma lock_ok_releasing t s :
  lock_ok s -> alive (thread_of t s) = true -> at_pc (thread_of t s) = Releasing -> lock_ok (lock_step t s).
Proof.
  intros Hs Ha Hpc. pose proof Hs as [Ho Hf Hh Hp Hr Hc]. unfold lock_step. rewrite Hpc.
  destruct (Hr t Hpc) as [Hn Hpid].
  assert (taken (thread_of t s) = holds (thread_of t s)) as Ht by (unfold taken; rewrite Hpc; cbn; lia).
  destruct (Ho t) as [Eo Ed]; [lia|done|]. rewrite owner_with, bool_decide_eq_true_2, depth_with by done.
  assert (forall k, taken (mk_thread Ready k true) = k) as Htr by (intros k; unfold taken; cbn; lia).
  constructor; cbn [with_mutex owner depth lockingPid hung_up]; rewrite ?owner_with, ?pid_with, ?hung_with; try done.
  1,3,4,5: intros u; rewrite thread_with_mutex, thread_with; destruct (decide (u = t)) as [->|Hu]; cbn [alive at_pc holds]; rewrite ?Htr.
  - intros H1 _. rewrite Ed, Ht. destruct (Nat.eqb_spec (holds (thread_of t s)) 1); [lia|]. split; [done|lia].
  - intros H1 H2. destruct (Ho u H1 H2). congruence.
  - rewrite Ed, Ht. destruct (Nat.eqb_spec (holds (thread_of t s)) 1); [done|]. intros _ _. lia.
  - destruct (depth s =? 1)%nat; [done|]. congruence.
  - done.
  - intros H1 H2. specialize (Hp u H1 H2). congruence.
  - done.
  - auto.
  - rewrite Ed, Ht. destruct (Nat.eqb_spec (holds (thread_of t s)) 1) as [->|]; [done|]. congruence.
Qed.

Lemma lock_ok_step a s : lock_ok s -> possible a s = true -> a <> HangUp -> lock_ok (take_action a s).
Proof.
  intros Hs Hen Ha. pose proof Hs as [Ho Hf Hh Hp Hr Hc].
  destruct a as [t|t|t|t|]; cbn [possible take_action] in *; [| | | |done].
  - unfold is_ready in Hen. apply andb_true_iff in Hen as [Hal Hpc%bool_decide_eq_true].
    replace (with_thread t _ s) with (with_pid (lockingPid s) (with_thread t (mk_thread Waiting (holds (thread_of t s)) true) s))
      by (by destruct t, s).
    apply lock_ok_thread; [done|done| |done|by left]. unfold taken. rewrite Hpc. cbn. lia.
  - unfold is_ready in Hen. rewrite !andb_true_iff, Nat.ltb_lt, bool_decide_eq_true in Hen. destruct Hen as [[Hal Hpc] Hn].
    apply lock_ok_thread; [done|done| | |by right].
    + unfold taken. rewrite Hpc. cbn. lia.
    + intros _. split; [lia|]. intros E. by destruct (pid_nonzero t).
  - destruct (at_pc (thread_of t s)) eqn:Hpc.
    + unfold lock_step. by rewrite Hpc.
    + by apply lock_ok_waiting.
    + by apply lock_ok_got.
    + by apply lock_ok_releasing.
  - constructor; rewrite ?owner_with, ?depth_with, ?pid_with, ?hung_with; try done; intros u; rewrite thread_with;
      destruct (decide (u = t)) as [->|]; cbn [alive at_pc holds]; auto; done.
Qed.

Lemma lock_ok_reachable s : mutex_reachable true s -> lock_ok s.
Proof.
  induction 1 as [|a s _ IH Hen Ha]; [|apply lock_ok_step; auto].
  constructor; try done; intros []; cbn; try done; intros _ E;
    [by destruct (pid_nonzero XServer)|by destruct (pid_nonzero App)].
Qed.

(** ** Properties *)

(** C3: the lock excludes. As long as the connection between the processes ends only
    when one of them dies, the two threads are never inside together,
    whatever they do, whichever of them dies and however often the mutex is
    given a new value; and its owner and depth are what the thread inside
    thinks. *)
Theorem mutual_exclusion s :
  mutex_reachable true s ->
  ~ (inside XServer s /\ inside App s)
  /\ forall t, inside t s -> owner s = Some t /\ depth s = taken (thread_of t s).
Proof.
  intros Hs%lock_ok_reachable. pose proof Hs as [Ho _ _ _ _ _].
  assert (forall t, inside t s -> owner s = Some t /\ depth s = taken (thread_of t s)) as H.
  { intros t [Ha Hin]. apply Ho; [|done]. unfold taken. destruct Hin as [Hin|Hin]; [lia|]. rewrite Hin. cbn. lia. }
  split; [|exact H]. intros [H1 H2]. destruct (H _ H1), (H _ H2). congruence.
Qed.


End steps.

(** Runs of actions, as long as they are possible. *)
Fixpoint play_mutex (getpid : side -> Z) (l : list mutex_action) (s : mutex_state) : option mutex_state :=
  match l with
  | [] => Some s
  | a :: l => if possible a s then play_mutex getpid l (take_action getpid a s) else None
  end.

Lemma play_reachable getpid b l s s' :
  mutex_reachable getpid b s -> (b = true -> HangUp ∉ l) -> play_mutex getpid l s = Some s' ->
  mutex_reachable getpid b s'.
Proof.
  revert s. induction l as [|a l IH]; cbn; intros s Hs Hl E; [by injection E as <-|].
  destruct (possible a s) eqn:Ea; [|done]. eapply IH; [|set_solver|exact E].
  apply mutex_next; [done|done|]. intros Hb ->. apply (Hl Hb). set_solver.
Qed.

(** A connection that ends while both processes live. The thread that waits then
    takes the lock away from the other, and both are inside. *)
Theorem lock_broken_on_hangup getpid :
  getpid XServer <> getpid App ->
  exists s, mutex_reachable getpid false s /\ inside XServer s /\ inside App s /\ owner s = Some App.
Proof.
  intros Hne.
  destruct (play_mutex getpid [CallLock XServer; Step XServer; Step XServer; HangUp; CallLock App; Step App; Step App; Step App] mutex_init)
    as [s|] eqn:E.
  - exists s. split; [eapply play_reachable; [apply mutex_start|done|exact E]|].
    cbn in E. rewrite (proj2 (Z.eqb_neq _ _) Hne) in E. cbn in E. injection E as <-.
    unfold inside. cbn. split_and!; auto.
  - cbn in E. by rewrite (proj2 (Z.eqb_neq _ _) Hne) in E.
Qed.

(** The patience of a waiting thread. The deadline is a valid time 33 ms after the
    time it is computed from; but that time comes from another clock than the
    one the wait compares it with, and when that clock is 33 ms ahead or more
    the deadline has passed before the wait begins. *)
Theorem deadline_33ms now realtime :
  0 <= tv_nsec now < 1000000000 ->
  0 <= tv_nsec (deadline now) < 1000000000 /\ total (deadline now) = total now + 33000000
  /\ (passed realtime (deadline now) = true <-> total now + 33000000 <= total realtime).
Proof.
  intros Hn. assert (total (deadline now) = total now + 33000000 /\ 0 <= tv_nsec (deadline now) < 1000000000) as [Ht Hr].
  { unfold deadline, total. destruct (Z.leb_spec 1000000000 (tv_nsec now + 33 * 1000000)); cbn [tv_sec tv_nsec].
    - rewrite Z.quot_div_nonneg, Z.rem_mod_nonneg by lia. Z.div_mod_to_equations. lia.
    - lia. }
  split_and!; [lia..|]. unfold passed. rewrite Z.leb_le. lia.
Qed.

(** ** A concrete history *)
Definition sample_pid (t : side) : Z := match t with XServer => 100 | App => 200 end.
Lemma sample_pid_nonzero t : sample_pid t <> 0.
Proof. by destruct t. Qed.

(** The app dies inside, with the server waiting. *)
Definition sample_history : list mutex_action :=
  [CallLock App; Step App; Step App; CallLock App; Step App; CallLock XServer; Step XServer; Dies App].
Definition sample_mutex : mutex_state := default mutex_init (play_mutex sample_pid sample_history mutex_init).

Lemma sample_mutex_reachable : mutex_reachable sample_pid true sample_mutex.
Proof.
  unfold sample_mutex. destruct (play_mutex _ _ _) as [s|] eqn:E; [|constructor].
  eapply play_reachable; [apply mutex_start| |exact E]. intros _. unfold sample_history. set_solver.
Qed.

Lemma mutual_exclusion_witness : owner sample_mutex = Some App /\ ~ (inside XServer sample_mutex /\ inside App sample_mutex).
Proof.
  split; [reflexivity|].
  exact (proj1 (mutual_exclusion sample_pid sample_pid_nonzero ltac:(discriminate) sample_mutex sample_mutex_reachable)).
Defined.


Lemma lock_broken_on_hangup_witness :
  exists s, mutex_reachable sample_pid false s /\ inside XServer s /\ inside App s /\ owner s = Some App.
Proof. apply (lock_broken_on_hangup sample_pid). discriminate. Defined.

Lemma deadline_33ms_witness :
  deadline (mk_timespec 7 990000000) = mk_timespec 8 23000000
  /\ passed (mk_timespec 1700000000 0) (deadline (mk_timespec 7 990000000)) = true.
Proof.
  split; [reflexivity|].
  apply (deadline_33ms (mk_timespec 7 990000000) (mk_timespec 1700000000 0)); cbn; unfold total; cbn; lia.
Defined.
