(* ===== verification/Sync.v ===== *)
(** * Fences and the condition variable proxy (xshmfence.c, renderer.c 938-978)

    A fence comes from an X client in one of two implementations, told apart
    by the size of its memory.  The proxy thread waits for the server's
    condition variable in place of the renderer thread, which cannot wait for
    two at once. *)
From S2P Require Import Prelude.

(** ** Fences *)
Module Fence.

(** One of the two implementations, of which the code knows the functions only. *)
Class Impl (world handle : Type) := mk_impl {
  trigger : handle -> world -> Z * world;
  await : handle -> world -> Z * world;
  query : handle -> world -> Z * world;
  reset : handle -> world -> world;
  map_shm : Z -> world -> option handle * world;
  unmap_shm : handle -> world -> world
}.
Arguments mk_impl {world handle} _ _ _ _ _ _.

Section fence.
Context {world handle : Type} (futex pthread : Impl world handle).

Record xshmfence : Type := mk_fence { is_futex : bool; real : handle }.

Definition impl (f : xshmfence) : Impl world handle := if is_futex f then futex else pthread.

Definition xshmfence_trigger (f : xshmfence) : world -> Z * world := trigger (Impl := impl f) (real f).
Definition xshmfence_await (f : xshmfence) : world -> Z * world := await (Impl := impl f) (real f).
Definition xshmfence_query (f : xshmfence) : world -> Z * world := query (Impl := impl f) (real f).
Definition xshmfence_reset (f : xshmfence) : world -> world := reset (Impl := impl f) (real f).
Definition xshmfence_alloc_shm : Z := -1.

(** [blocks] counts the structures allocated; [st_size] is 0 when fstat fails. *)
Definition xshmfence_map_shm (memory : bool) (st_size : Z) (fd : Z) (s : world * nat) : option xshmfence * (world * nat) :=
  let (w, blocks) := s in
  if negb memory then (None, s)
  else
    let fx := st_size =? 4 in
    let (h, w) := map_shm (Impl := if fx then futex else pthread) fd w in
    match h with
    | Some h => (Some (mk_fence fx h), (w, S blocks))
    | None => (None, (w, blocks))
    end.

Definition xshmfence_unmap_shm (f : xshmfence) (s : world * nat) : world * nat :=
  (unmap_shm (Impl := impl f) (real f) s.1, pred s.2).

(** A fence that was mapped is used by the functions of the
    implementation that mapped it, and by no other; mapping and unmapping it
    leaves the structures as they were, and a fence that cannot be mapped
    leaves none. *)
Theorem fence_dispatch memory size fd w blocks f s :
  xshmfence_map_shm memory size fd (w, blocks) = (f, s) ->
  let i := if size =? 4 then futex else pthread in
  match f with
  | Some f =>
      memory = true /\ map_shm (Impl := i) fd w = (Some (real f), s.1)
      /\ s.2 = S blocks /\ (xshmfence_unmap_shm f s).2 = blocks
      /\ xshmfence_trigger f = trigger (Impl := i) (real f) /\ xshmfence_await f = await (Impl := i) (real f)
      /\ xshmfence_query f = query (Impl := i) (real f) /\ xshmfence_reset f = reset (Impl := i) (real f)
      /\ (xshmfence_unmap_shm f s).1 = unmap_shm (Impl := i) (real f) s.1
  | None => s.2 = blocks /\ (memory = false \/ (map_shm (Impl := i) fd w).1 = None)
  end.
Proof.
  unfold xshmfence_map_shm. destruct memory; cbn [negb]; [|intros [= <- <-]; by split; [|left]].
  destruct (map_shm (Impl := if size =? 4 then futex else pthread) fd w) as [[h|] w'] eqn:E; intros [= <- <-]; cbn.
  - split_and!; try done; unfold xshmfence_trigger, xshmfence_await, xshmfence_query, xshmfence_reset, impl; done.
  - split; [done|by right].
Qed.
End fence.
End Fence.

(** ** The proxy *)
Module Proxy.

(** Condition variables are numbered; [def] is the proxy's own. *)
Definition def : Z := 0.

(** [Starting]: the thread has not locked [proxy.lock] yet; [WaitsOn c]: in
    [pthread_cond_wait]; [Woken]: it has to lock the mutex again. *)
Inductive proxy_pc : Type := Starting | WaitsOn (c : Z) | Woken.
(** The renderer thread: not in the function, waiting for [stateCond], woken. *)
Inductive caller_pc : Type := Away | Listening | CallerWoken.

Record proxy : Type := mk_proxy {
  current : Z;
  pending : option Z;
  relocked : bool;
  thread : proxy_pc;
  caller : caller_pc;
  signals : nat                      (** of [stateCond] *)
}.

(** Before [pthread_create]. *)
Definition pthreadCondVarProxyInit : proxy := mk_proxy def None false Starting Away 0.

Definition wake (c : Z) (t : proxy_pc) : proxy_pc :=
  match t with WaitsOn c' => if c' =? c then Woken else t | _ => t end.

(** From one wait of the thread to the next; it has [proxy.lock] meanwhile. *)
Definition pthreadCondVarProxyThread (s : proxy) : proxy :=
  match thread s with
  | Starting => mk_proxy (current s) (pending s) (relocked s) (WaitsOn (current s)) (caller s) (signals s)
  | WaitsOn _ => s
  | Woken =>
      let cur := default (current s) (pending s) in
      mk_proxy cur None true (WaitsOn cur) (match caller s with Listening => CallerWoken | c => c end) (S (signals s))
  end.

(** The function, up to its first wait; NULL is [None]. *)
Definition pthreadCondVarProxyListenOtherCondVar (var : option Z) (s : proxy) : proxy :=
  mk_proxy (current s) (Some (default def var)) false (wake (current s) (thread s)) Listening (signals s).

(** The test of its loop. *)
Definition listen_again (s : proxy) : proxy :=
  mk_proxy (current s) (pending s) (relocked s) (thread s) (if relocked s then Away else Listening) (signals s).

Inductive step : proxy -> proxy -> Prop :=
  | step_thread s : step s (pthreadCondVarProxyThread s)
  | step_remote c s :
      step s (mk_proxy (current s) (pending s) (relocked s) (wake c (thread s)) (caller s) (signals s))
  | step_listen var s : caller s = Away -> step s (pthreadCondVarProxyListenOtherCondVar var s)
  | step_stateCond s : caller s = Listening ->
      step s (mk_proxy (current s) (pending s) (relocked s) (thread s) CallerWoken (signals s))
  | step_caller s : caller s = CallerWoken -> step s (listen_again s).

Inductive reachable : proxy -> Prop :=
  | reach_init : reachable pthreadCondVarProxyInit
  | reach_step s s' : reachable s -> step s s' -> reachable s'.

(** The thread waits for the variable it was told to, unless it is about to hear
    of another one; and the caller goes on only when it was heard. *)
Record proxy_ok (s : proxy) : Prop := {
  px_waits : forall c, thread s = WaitsOn c -> c = current s;
  px_away : caller s = Away -> pending s = None;
  px_relocked : caller s <> Away -> relocked s = true -> pending s = None
}.

Lemma wake_waits c t d : wake c t = WaitsOn d -> t = WaitsOn d.
Proof. unfold wake. destruct t as [|e|]; try done. by destruct (e =? c). Qed.

Lemma proxy_ok_reachable s : reachable s -> proxy_ok s.
Proof.
  induction 1 as [|s s' _ [H1 H2 H3] Hst]; [by constructor|].
  destruct Hst as [s|c s|var s Hc|s Hc|s Hc].
  - unfold pthreadCondVarProxyThread. destruct (thread s) as [|c|] eqn:Et.
    + constructor; cbn; [congruence|done|done].
    + constructor; rewrite ?Et; done.
    + constructor; cbn; [congruence|done|done].
  - constructor; cbn; eauto using wake_waits.
  - constructor; cbn; try done. eauto using wake_waits.
  - constructor; cbn; [done|done|]. intros _ Hr. apply H3; [by rewrite Hc|done].
  - constructor; cbn; [done| |]; destruct (relocked s) eqn:Er; try done.
    intros _. apply H3; [by rewrite Hc|done].
Qed.

(** Changing the variable the proxy listens to. When the renderer thread comes
    back from the function, the proxy thread waits, or will wait, for the new
    variable and for no other; and it does come back: after its call, the
    proxy's turn and one of its own, if the proxy thread had started. If it had
    not, the wake-up is lost: as long as nobody signals the old variable, the
    renderer thread waits. *)
Theorem proxy_switch s var :
  reachable s -> caller s = Away ->
  let s1 := pthreadCondVarProxyListenOtherCondVar var s in
  (thread s <> Starting ->
     let s2 := listen_again (pthreadCondVarProxyThread s1) in
     caller s2 = Away /\ current s2 = default def var /\ thread s2 = WaitsOn (default def var) /\ pending s2 = None)
  /\ (thread s = Starting ->
        let s2 := pthreadCondVarProxyThread s1 in
        pthreadCondVarProxyThread s2 = s2 /\ caller s2 = Listening /\ caller (listen_again s2) = Listening
        /\ thread s2 = WaitsOn (current s)).
Proof.
  intros Hs Hc s1. destruct (proxy_ok_reachable s Hs) as [H1 _ _]. split.
  - intros Hst. assert (thread s1 = Woken) as Hw.
    { subst s1. cbn. unfold wake. destruct (thread s) as [|c|]; [done| |done]. by rewrite (H1 c eq_refl), Z.eqb_refl. }
    unfold pthreadCondVarProxyThread. rewrite Hw. done.
  - intros Hst. assert (thread s1 = Starting) as Hw by (subst s1; cbn; by rewrite Hst).
    unfold pthreadCondVarProxyThread. rewrite Hw. cbn. done.
Qed.

(** Whatever happens, the caller that comes back was heard. *)
Theorem proxy_heard s s' :
  reachable s -> caller s = CallerWoken -> step s s' -> caller s' = Away -> pending s' = None.
Proof.
  intros Hs Hc Hst Ha. apply (px_away s'); [|done]. apply proxy_ok_reachable. by eapply reach_step.
Qed.

Definition running : proxy := pthreadCondVarProxyThread pthreadCondVarProxyInit.

Lemma proxy_switch_witness :
  current (listen_again (pthreadCondVarProxyThread (pthreadCondVarProxyListenOtherCondVar (Some 5) running))) = 5
  /\ caller (listen_again (pthreadCondVarProxyThread (pthreadCondVarProxyListenOtherCondVar (Some 5) pthreadCondVarProxyInit))) = Listening.
Proof.
  assert (reachable running) as Hr by (eapply reach_step; [apply reach_init|apply step_thread]).
  split.
  - refine (proj1 (proj2 (proj1 (proxy_switch running (Some 5) Hr eq_refl) _))). discriminate.
  - exact (proj1 (proj2 (proj2 (proj2 (proxy_switch pthreadCondVarProxyInit (Some 5) reach_init eq_refl) eq_refl)))).
Defined.
End Proxy.
