(* ===== verification/Present.v ===== *)
(** * Frames, pixmaps and screen configuration (InitOutput.c)

    The screen of the X server: the queue of vertical blanks that clients wait
    for, the redraw that runs once per frame, the pixmaps with their buffers,
    page flips and reconfiguration.  [present_state] is the vblank queue with a
    record of what left it; pixmaps use the buffers of [Buffer]. *)
From S2P Require Import Prelude Buffer.

(** ** Vertical blanks *)
Record vblank : Type := mk_vblank { vb_id : Z; vb_msc : Z }.
#[export] Instance vblank_eq_dec : EqDecision vblank.
Proof. solve_decision. Defined.

(** [performed] are the vblanks notified so far with the frame they were
    notified at, [aborted] those aborted; most recent first. *)
Record present_state : Type := mk_present {
  vblank_queue : list vblank;          (** from the head of the list *)
  current_msc : Z;
  performed : list (vblank * Z);
  aborted : list vblank
}.

Definition loriePresentGetUstMsc (now : Z) (p : present_state) : Z * Z := (now, current_msc p).

Definition loriePresentQueueVblank (event_id msc : Z) (p : present_state) : present_state :=
  mk_present (mk_vblank event_id msc :: vblank_queue p) (current_msc p) (performed p) (aborted p).

Definition loriePresentAbortVblank (event_id : Z) (p : present_state) : present_state :=
  match list_find (fun v => vb_id v = event_id) (vblank_queue p) with
  | Some (i, v) => mk_present (delete i (vblank_queue p)) (current_msc p) (performed p) (v :: aborted p)
  | None => p
  end.

(** One pass over the list, notifying and unlinking what is due. *)
Fixpoint perform_loop (msc : Z) (queue : list vblank) (done_ : list (vblank * Z))
  : list vblank * list (vblank * Z) :=
  match queue with
  | [] => ([], done_)
  | v :: queue =>
      if vb_msc v <=? msc then perform_loop msc queue ((v, msc) :: done_)
      else let (q, d) := perform_loop msc queue done_ in (v :: q, d)
  end.

Definition loriePerformVblanks (p : present_state) : present_state :=
  let (q, d) := perform_loop (current_msc p) (vblank_queue p) (performed p) in
  mk_present q (current_msc p) d (aborted p).

(** [pvfb->current_msc++; loriePerformVblanks();] *)
Definition next_frame (p : present_state) : present_state :=
  loriePerformVblanks (mk_present (vblank_queue p) (u64 (current_msc p + 1)) (performed p) (aborted p)).

Definition loriePresentAfterFlip (target_msc : Z) (p : present_state) : present_state :=
  mk_present (vblank_queue p) (Z.min (u64 (current_msc p + 1)) target_msc) (performed p) (aborted p).

(** ** Pixmaps *)
Record LoriePixmapPriv : Type := mk_priv {
  buffer : option LorieBuffer;
  flipped : bool; wasLocked : bool; imported : bool;
  locked_ptr : Z;                      (** [locked], 0 is NULL *)
  mem : Z
}.

Definition set_buffer b v := mk_priv b (flipped v) (wasLocked v) (imported v) (locked_ptr v) (mem v).
Definition set_locked a v := mk_priv (buffer v) (flipped v) (wasLocked v) (imported v) a (mem v).
Definition set_wasLocked w v := mk_priv (buffer v) (flipped v) w (imported v) (locked_ptr v) (mem v).

(** [LorieBuffer_lock(priv->buffer, &priv->locked)]. *)
Definition priv_lock (p : platform) (v : LoriePixmapPriv) : LoriePixmapPriv * lock_error :=
  match LorieBuffer_lock p (buffer v) with
  | (b, Some a, r) => (set_locked a (set_buffer b v), r)
  | (b, None, r) => (set_buffer b v, r)
  end.
Definition priv_unlock (p : platform) (v : LoriePixmapPriv) : LoriePixmapPriv :=
  set_buffer (fst (LorieBuffer_unlock p (buffer v))) v.

Definition is_ok (r : lock_error) : bool := match r with LOK => true | _ => false end.

Definition is_locked (b : option LorieBuffer) : bool := match b with Some b => locked b | None => false end.

(** What a pixmap publishes or takes back. *)
Inductive registration : Type := Registered (id : Z) | Unregistered (id : Z).

(** [backed]: was the pixmap asked for with
    CREATE_PIXMAP_USAGE_LORIEBUFFER_BACKED?  The result is the private part, the
    pitch and what the process holds. *)
Definition lorieCreatePixmap (p : platform) (legacyDrawing : bool) (id w h : Z) (backed : bool)
  (held : list resource) : outcome (option LoriePixmapPriv * Z * list resource) :=
  if negb (calloc_priv p) then Ret (None, 0, held)
  else
    let held := RPriv :: held in
    let priv := mk_priv None false false false 0 0 in
    if (w =? 0) || (h =? 0) then Ret (Some priv, 0, held)
    else
      let ty := if negb backed then LORIEBUFFER_REGULAR
                else if legacyDrawing then LORIEBUFFER_FD else LORIEBUFFER_AHARDWAREBUFFER in
      '(b, held) ← LorieBuffer_allocate p id w h (AHARDWAREBUFFER_FORMAT_R8G8B8X8_UNORM p) ty held;
      let pitch := stride (LorieBuffer_description b) * 4 in
      let (priv, _) := priv_lock p (set_buffer b priv) in
      match buffer priv with
      | None => held ← remove_one RPriv held; Ret (None, pitch, held)
      | Some _ => Ret (Some priv, pitch, held)
      end.

(** The buffer as it is when its reference is given up, what is told to the app
    and what the process holds. *)
Definition lorieExaDestroyPixmap (p : platform) (v : LoriePixmapPriv) (held : list resource)
  : outcome (option LorieBuffer * list registration * list resource) :=
  '(dropped, regs, held) ←
    match buffer v with
    | None => Ret (None, [], held)
    | Some b =>
        let v := if negb (locked_ptr v =? 0) then priv_unlock p v else v in
        let b := default b (buffer v) in
        '(_, held) ← LorieBuffer_release b held;
        Ret (Some b, [Unregistered (desc_id (desc b))], held)
    end;
  held ← remove_one RPriv held;
  Ret (dropped, regs, held).

Definition lorieModifyPixmapHeader (pixels : Z) (v : LoriePixmapPriv) : LoriePixmapPriv * bool :=
  (if negb (pixels =? 0)
   then mk_priv (buffer v) (flipped v) (wasLocked v) (imported v) (locked_ptr v) pixels else v, false).

(** [dest_root]: is the root pixmap being written to?  Then the lock shared with
    the renderer is taken, [depth] times so far.  The pointer is the fourth
    component. *)
Definition loriePrepareAccess (p : platform) (dest_root : bool) (v : LoriePixmapPriv) (depth : Z)
  : LoriePixmapPriv * Z * bool * Z :=
  let depth := if dest_root then depth + 1 else depth in
  if (locked_ptr v =? 0) && (mem v =? 0) then
    let (v, r) := priv_lock p v in
    if negb (is_ok r) then (v, depth, false, 0)
    else (set_wasLocked false v, depth, true,
          if negb (locked_ptr v =? 0) then locked_ptr v else mem v)
  else (set_wasLocked true v, depth, true, if negb (locked_ptr v =? 0) then locked_ptr v else mem v).

Definition lorieFinishAccess (p : platform) (dest_root : bool) (v : LoriePixmapPriv) (depth : Z)
  : LoriePixmapPriv * Z :=
  let depth := if dest_root then depth - 1 else depth in
  if negb (wasLocked v) then (set_wasLocked false (set_locked 0 (priv_unlock p v)), depth)
  else (v, depth).

(** ** Redraw *)

(** The flags shared with the renderer. *)
Record shared_flags : Type := mk_flags {
  drawRequested : bool; surfaceAvailable : bool; waitForNextFrame : bool;
  cursor_moved : bool; cursor_updated : bool;
  rootWindowTextureID : Z
}.

Record screen_state : Type := mk_screen {
  present : present_state;
  flags : shared_flags;
  root : option LoriePixmapPriv;
  damaged : bool;
  signals : nat                        (** wake-ups sent to the renderer *)
}.

Definition lorieRedraw (p : platform) (lorieConnectionAlive : bool) (s : screen_state)
  : outcome screen_state :=
  let pr := next_frame (present s) in
  let f := flags s in
  let f := mk_flags (drawRequested f) (surfaceAvailable f) false (cursor_moved f) (cursor_updated f)
             (rootWindowTextureID f) in
  if negb lorieConnectionAlive || negb (surfaceAvailable f)
  then Ret (mk_screen pr f (root s) (damaged s) (signals s))
  else match root s with
  | None => Ret (mk_screen pr f (root s) (damaged s) (signals s))
  | Some priv =>
      '(priv, damage, draw) ←
        (if damaged s && bool_decide (is_Some (buffer priv)) then
           if negb (locked_ptr priv =? 0) then
             let (priv, status) := priv_lock p (priv_unlock p priv) in
             if is_ok status then Ret (priv, false, true) else Fault FatalExit
           else Ret (priv, false, true)
         else Ret (priv, damaged s, drawRequested f));
      if draw || cursor_moved f || cursor_updated f then
        let f := mk_flags draw (surfaceAvailable f) (waitForNextFrame f) (cursor_moved f)
                   (cursor_updated f) (desc_id (LorieBuffer_description (buffer priv))) in
        Ret (mk_screen pr f (Some priv) damage (S (signals s)))
      else
        Ret (mk_screen pr
               (mk_flags draw (surfaceAvailable f) (waitForNextFrame f) (cursor_moved f)
                  (cursor_updated f) (rootWindowTextureID f))
               (Some priv) damage (signals s))
  end.

(** ** Page flips *)

(** [forceFlip] is whether TERMUX_X11_FORCE_FLIP is "1".  The result says
    whether the flip is accepted, and what was registered. *)
Definition loriePresentFlip (p : platform) (legacyDrawing : bool) (root_width : Z)
  (pix_width pix_height : Z) (forceFlip : bool) (v : LoriePixmapPriv) (held : list resource)
  : outcome (bool * LoriePixmapPriv * list resource * list registration) :=
  match buffer v with
  | None => Ret (false, v, held, [])
  | Some b =>
      if negb (mem v =? 0) || negb (root_width =? pix_width) || negb (root_width =? pix_height)
      then Ret (false, v, held, [])
      else if (type (desc b) =? LORIEBUFFER_FD) && imported v && negb forceFlip
      then Ret (false, v, held, [])
      else
        '(v, held) ←
          (if type (desc b) =? LORIEBUFFER_REGULAR then
             let ty := if legacyDrawing then LORIEBUFFER_FD else LORIEBUFFER_AHARDWAREBUFFER in
             '(b, held, _) ← LorieBuffer_convert p b ty (AHARDWAREBUFFER_FORMAT_R8G8B8X8_UNORM p) held;
             let v := set_buffer (Some b) v in
             if negb (type (desc b) =? LORIEBUFFER_REGULAR)
             then Ret (fst (priv_lock p v), held) else Ret (v, held)
           else Ret (v, held));
        let d := LorieBuffer_description (buffer v) in
        if negb (type d =? LORIEBUFFER_FD) && negb (type d =? LORIEBUFFER_AHARDWAREBUFFER)
        then Ret (false, v, held, [])
        else Ret (true, v, held, [Registered (desc_id d)])
  end.

(** ** Changing the size, the frame rate and the name *)
Record root_config : Type := mk_root {
  pScreen_width : Z; pScreen_height : Z;
  root_name : list Z;                  (** 1024 bytes *)
  output_name : list Z;
  framerate : Z;
  vblank_interval : Z
}.

(** [strncpy(dst, src, n)] into zeroed [dst]. *)
Fixpoint strncpy (n : nat) (src : list Z) (dst : list Z) : outcome (list Z) :=
  match n with
  | O => Ret dst
  | S n' =>
      match src, dst with
      | c :: src', d :: dst' =>
          if c =? 0 then Ret dst else r ← strncpy n' src' dst'; Ret (c :: r)
      | _, _ => Fault OutOfBounds
      end
  end.

(** [cvt] is the mode the generator makes, [mm] the size in millimetres of a
    pixel count; [None] when there is no output.  The second component is the
    call of RRScreenSizeSet. *)
Definition lorieConfigureNotify (cvt : Z -> Z -> Z -> Z * Z) (mm : Z -> Z) (has_output : bool)
  (w h rate name_size : Z) (name : option (list Z)) (c : root_config)
  : outcome (root_config * option (Z * Z * Z * Z)) :=
  let rate := if negb (rate =? 0) then rate else 30 in
  c ← match has_output, name with
      | true, Some name =>
          let n := Z.to_nat (if name_size <? 1024 then name_size else 1024) in
          rn ← strncpy n name (zeros 1024);
          on ← strncpy n name (zeros 1024);
          Ret (mk_root (pScreen_width c) (pScreen_height c) rn (<[1023%nat := 0]> on) (framerate c)
                 (vblank_interval c))
      | _, _ => Ret c
      end;
  if has_output && negb (w =? 0) && negb (h =? 0)
     && (negb (pScreen_width c =? w) || negb (pScreen_height c =? h) || negb (framerate c =? rate))
  then
    let (mw, mh) := cvt w h rate in
    Ret (mk_root mw mh (root_name c) (output_name c) rate (1000000 / rate),
         Some (mw, mh, mm mw, mm mw))
  else Ret (c, None).

(** ** DRI3 pixmaps *)
Record dri3_constants : Type := mk_dri3 { DRM_FORMAT_MOD_INVALID : Z; DRM_FORMAT_MOD_LINEAR : Z;
  DRM_FORMAT_ARGB8888 : Z; DRM_FORMAT_XRGB8888 : Z; FORMAT_R8G8B8A8 : Z }.
Definition AHARDWAREBUFFER_SOCKET_FD : Z := 1255.
Definition AHARDWAREBUFFER_FLIPPED_SOCKET_FD : Z := 1256.
Definition RAW_MMAPPABLE_FD : Z := 1274.

(** [peer] is the AHardwareBuffer received from the client, [None] when the
    descriptor is not a socket or the exchange fails.  The pixmap is created
    empty and destroyed again on a failure.  The result is the private part and
    the size of the pixmap. *)
Definition loriePixmapFromFds (p : platform) (k : dri3_constants) (legacyDrawing : bool)
  (id num_fds fd0 w h stride0 offset0 modifier : Z) (peer : option Z) (held : list resource)
  : outcome (option (LoriePixmapPriv * Z * Z) * list resource) :=
  let raw := (modifier =? RAW_MMAPPABLE_FD) || (modifier =? DRM_FORMAT_MOD_INVALID k)
             || (modifier =? DRM_FORMAT_MOD_LINEAR k) in
  let socket := (modifier =? AHARDWAREBUFFER_SOCKET_FD)
                || (modifier =? AHARDWAREBUFFER_FLIPPED_SOCKET_FD) in
  if 1 <? num_fds then Ret (None, held)
  else if negb raw && negb socket then Ret (None, held)
  else
    '(priv, _, held) ← lorieCreatePixmap p legacyDrawing id 0 0 false held;
    match priv with
    | None => Ret (None, held)
    | Some priv =>
        let fail held := '(_, _, held) ← lorieExaDestroyPixmap p priv held; Ret (None, held) in
        if raw then
          '(b, held) ← LorieBuffer_wrapFileDescriptor p id w (stride0 / 4) h
                         AHARDWAREBUFFER_FORMAT_B8G8R8A8_UNORM fd0 offset0 held;
          match b with
          | None => fail held
          | Some b => Ret (Some (mk_priv (Some b) false false true 0 0, w, h), held)
          end
        else
          match peer with
          | None => fail held
          | Some buf =>
              let held := RAhb buf :: held in
              let d := AHardwareBuffer_describe p buf in
              if negb (ahb_format d =? AHARDWAREBUFFER_FORMAT_R8G8B8X8_UNORM p)
                 && negb (ahb_format d =? FORMAT_R8G8B8A8 k)
                 && negb (ahb_format d =? AHARDWAREBUFFER_FORMAT_B8G8R8A8_UNORM)
              then fail held
              else
                '(b, held) ← LorieBuffer_wrapAHardwareBuffer p id buf held;
                match b with
                | None => fail held
                | Some b => Ret (Some (mk_priv (Some b) (modifier =? AHARDWAREBUFFER_FLIPPED_SOCKET_FD)
                                         false true 0 0, ahb_width d, ahb_height d), held)
                end
          end
    end.

Definition lorieGetModifiers (k : dri3_constants) (fmt : Z) : list Z :=
  if negb (fmt =? DRM_FORMAT_ARGB8888 k) && negb (fmt =? DRM_FORMAT_XRGB8888 k) then []
  else [DRM_FORMAT_MOD_LINEAR k].

Definition lorieGetFormats (k : dri3_constants) : list Z := [DRM_FORMAT_ARGB8888 k].

(** ** Lemmas on the vblank queue *)
Definition due (msc : Z) (v : vblank) : Prop := vb_msc v <= msc.
#[export] Instance due_dec msc v : Decision (due msc v).
Proof. unfold due. apply _. Defined.

Lemma perform_loop_spec msc queue d :
  perform_loop msc queue d
  = (filter (fun v => ~ due msc v) queue, rev (map (fun v => (v, msc)) (filter (due msc) queue)) ++ d).
Proof.
  revert d. induction queue as [|v queue IH]; intros d; [done|]. cbn [perform_loop].
  rewrite !filter_cons, IH. destruct (decide (due msc v)) as [Hd|Hd]; unfold due in Hd.
  - rewrite (proj2 (Z.leb_le _ _)), decide_False by (done || tauto).
    f_equal. cbn. by rewrite <- app_assoc.
  - rewrite (proj2 (Z.leb_gt _ _)), IH by lia. by rewrite decide_True.
Qed.

Lemma perform_vblanks_spec p :
  loriePerformVblanks p
  = mk_present (filter (fun v => ~ due (current_msc p) v) (vblank_queue p)) (current_msc p)
      (rev (map (fun v => (v, current_msc p)) (filter (due (current_msc p)) (vblank_queue p)))
         ++ performed p) (aborted p).
Proof. unfold loriePerformVblanks. by rewrite perform_loop_spec. Qed.

Lemma filter_partition {A} (P : A -> Prop) `{!forall x, Decision (P x)} (l : list A) :
  filter (fun x => ~ P x) l ++ filter P l ≡ₚ l.
Proof.
  induction l as [|x l IH]; [done|]. rewrite !filter_cons.
  destruct (decide (P x)).
  - rewrite decide_False by tauto. rewrite <- Permutation_middle. by rewrite IH.
  - rewrite decide_True by tauto. cbn. by rewrite IH.
Qed.

(** What the client side and the frame clock do to the queue. *)
Inductive present_op : Type :=
  | QueueVblank (event_id msc : Z)
  | AbortVblank (event_id : Z)
  | NextFrame
  | AfterFlip (target_msc : Z).

Definition run_op (op : present_op) (p : present_state) : present_state :=
  match op with
  | QueueVblank e m => loriePresentQueueVblank e m p
  | AbortVblank e => loriePresentAbortVblank e p
  | NextFrame => next_frame p
  | AfterFlip t => loriePresentAfterFlip t p
  end.

Definition run_ops (ops : list present_op) (p : present_state) : present_state :=
  foldl (fun p op => run_op op p) p ops.

Definition queued (ops : list present_op) : list vblank :=
  omap (fun op => match op with QueueVblank e m => Some (mk_vblank e m) | _ => None end) ops.

(** Everything that entered the queue, wherever it is now. *)
Definition accounted (p : present_state) : list vblank :=
  vblank_queue p ++ map fst (performed p) ++ aborted p.

Lemma next_frame_spec p :
  let msc := u64 (current_msc p + 1) in
  next_frame p
  = mk_present (filter (fun v => ~ due msc v) (vblank_queue p)) msc
      (rev (map (fun v => (v, msc)) (filter (due msc) (vblank_queue p))) ++ performed p) (aborted p).
Proof. cbn zeta. unfold next_frame. by rewrite perform_vblanks_spec. Qed.

Lemma run_op_accounted op p : accounted (run_op op p) ≡ₚ queued [op] ++ accounted p.
Proof.
  destruct op as [e m|e| |t]; cbn [run_op queued omap list_omap app]; unfold accounted; [done| | |done].
  - unfold loriePresentAbortVblank. destruct (list_find _ _) as [[i v]|] eqn:E; [|done]. cbn.
    apply list_find_Some in E as (Hi & _ & _).
    etrans; [|apply Permutation_app_tail; symmetry; apply (delete_Permutation _ _ _ Hi)].
    cbn. rewrite <- !Permutation_middle. done.
  - rewrite next_frame_spec. cbn. rewrite map_app, map_rev, map_map. cbn. rewrite map_id.
    set (msc := u64 (current_msc p + 1)).
    rewrite <- (Permutation_rev (filter (due msc) (vblank_queue p))).
    rewrite <- (app_assoc (filter (due msc) _)), app_assoc.
    apply Permutation_app_tail, filter_partition.
Qed.

Lemma run_ops_snoc ops op p : run_ops (ops ++ [op]) p = run_op op (run_ops ops p).
Proof. unfold run_ops. by rewrite foldl_app. Qed.

(** The due vblanks leave the queue, and each is notified at a frame it is due. *)
Record notified_ok (p : present_state) : Prop := {
  notified_due : Forall (fun x => due x.2 x.1) (performed p)
}.

Lemma run_op_notified op p : notified_ok p -> notified_ok (run_op op p).
Proof.
  intros [H]. destruct op as [e m|e| |t]; cbn [run_op]; [by split| | |by split].
  - unfold loriePresentAbortVblank. destruct (list_find _ _) as [[i v]|]; by split.
  - rewrite next_frame_spec. split. cbn. apply Forall_app. split; [|done].
    apply Forall_rev, Forall_map, Forall_forall. by intros v [Hv _]%list_elem_of_filter.
Qed.

(** ** Properties *)

(** C27: no vertical blank is lost or notified twice. Whatever is queued and
    aborted between frames, every queued vblank is afterwards in exactly one
    place, still waiting, notified or aborted; it is notified only at a frame it
    has reached; and right after a frame nothing that is due is waiting. *)
Theorem vblank_accounting ops p0 :
  vblank_queue p0 = [] -> performed p0 = [] -> aborted p0 = [] ->
  let p := run_ops ops p0 in
  accounted p ≡ₚ queued ops
  /\ Forall (fun x => vb_msc x.1 <= x.2) (performed p)
  /\ (last ops = Some NextFrame -> Forall (fun v => current_msc p < vb_msc v) (vblank_queue p)).
Proof.
  intros Hq Hp Ha p. subst p.
  assert (accounted (run_ops ops p0) ≡ₚ queued ops /\ notified_ok (run_ops ops p0)) as [Hacc [Hnot]].
  { induction ops as [|op ops IH] using rev_ind.
    - unfold accounted. cbn. rewrite Hq, Hp, Ha. split; [done|]. split. by rewrite Hp.
    - destruct IH as [IH1 IH2]. rewrite run_ops_snoc. split; [|by apply run_op_notified].
      rewrite run_op_accounted, IH1. unfold queued. rewrite omap_app. apply Permutation_app_comm. }
  split; [done|]. split; [exact Hnot|]. intros Hlast.
  destruct ops as [|op ops _] using rev_ind; [done|]. rewrite last_snoc in Hlast. injection Hlast as ->.
  rewrite run_ops_snoc. cbn [run_op]. rewrite next_frame_spec. cbn.
  apply Forall_forall. intros v [Hv _]%list_elem_of_filter. unfold due in Hv. lia.
Qed.

(** C28: a waiting vblank is notified after as many frames as it is ahead, unless
    it is aborted: with no flip in between, [n] frames bring the counter to its
    target and the vblank into the notified ones. *)
Theorem vblank_delivered v n p :
  v ∈ vblank_queue p -> 0 <= current_msc p -> current_msc p < vb_msc v ->
  vb_msc v = current_msc p + Z.of_nat n -> vb_msc v < 2 ^ 64 ->
  let p' := run_ops (replicate n NextFrame) p in
  (v, vb_msc v) ∈ performed p' /\ (v ∉ vblank_queue p') /\ current_msc p' = vb_msc v.
Proof.
  intros Hv Hc Hlt Hn Hmax. revert p Hv Hc Hlt Hn. induction n as [|n IH]; intros p Hv Hc Hlt Hn; [lia|].
  cbn [replicate run_ops foldl]. change (foldl _ ?a ?l) with (run_ops l a). cbn [run_op].
  assert (u64 (current_msc p + 1) = current_msc p + 1) as Hu by (apply wrap_u_small; lia).
  destruct n as [|n].
  - cbn [replicate run_ops foldl]. rewrite next_frame_spec, Hu. cbn.
    assert (due (current_msc p + 1) v) as Hdue by (unfold due; lia).
    split_and!; [|rewrite list_elem_of_filter; tauto|lia].
    apply elem_of_app. left. apply list_elem_of_In, in_rev. rewrite rev_involutive.
    apply in_map_iff. exists v. split; [f_equal; lia|].
    apply list_elem_of_In, list_elem_of_filter. done.
  - apply IH; rewrite next_frame_spec, Hu; cbn; [|lia..].
    apply list_elem_of_filter. unfold due. split; [lia|done].
Qed.

(** ** Pixmaps and their buffers *)

(** A pixmap between accesses: the pointer and the lock agree. *)
Definition priv_ok (v : LoriePixmapPriv) : Prop :=
  is_locked (buffer v) = negb (locked_ptr v =? 0).

Lemma release_set_lock l a b held :
  LorieBuffer_release (set_lock l a b) held =
  match LorieBuffer_release b held with
  | Ret (None, h) => Ret (None, h)
  | Ret (Some b', h) => Ret (Some (set_lock l a b'), h)
  | Fault f => Fault f
  end.
Proof.
  unfold LorieBuffer_release. cbn [set_lock refcount]. destruct (refcount b =? 1); [|done].
  unfold __LorieBuffer_free, contents. cbn.
  destruct (give_back _ held) as [h|]; cbn; [by destruct (remove_one _ h)|done].
Qed.

Lemma priv_unlock_dropped p b v :
  buffer v = Some b -> default b (buffer (priv_unlock p v)) = if locked b then set_lock false 0 b else b.
Proof. intros E. unfold priv_unlock, LorieBuffer_unlock. rewrite E. by destruct (locked b). Qed.

(** C29: creating and destroying a pixmap balance. A pixmap takes its private
    part and, unless its size is empty, a buffer with all that holds its pixels,
    locked, so that the pixels can be written. Destroying it unlocks the buffer,
    which is always possible unless the lock of an AHardwareBuffer gave no
    address, unregisters it and gives back everything the creation took: the
    pixels, the buffer's structure and the private part. A failed creation keeps
    nothing. *)
Theorem pixmap_lifecycle p legacy id w h backed held :
  (forall n, ASharedMemory_create p n <> 0) -> 0 <= w -> 0 <= h ->
  exists r pitch held', lorieCreatePixmap p legacy id w h backed held = Ret (r, pitch, held') /\
    match r with
    | Some v => exists dropped regs, lorieExaDestroyPixmap p v held' = Ret (dropped, regs, held)
        /\ match buffer v with
           | Some b => 0 < w /\ 0 < h /\ locked b = true /\ pitch = stride (desc b) * 4
                       /\ held' = owned b ++ RPriv :: held
                       /\ (locked_ptr v = 0 -> type (desc b) = LORIEBUFFER_AHARDWAREBUFFER
                             /\ (AHardwareBuffer_lock p (ahb (desc b))).2 = 0)
                       /\ dropped = Some (if locked_ptr v =? 0 then b else set_lock false 0 b)
                       /\ regs = [Unregistered (desc_id (desc b))]
           | None => (w = 0 \/ h = 0) /\ held' = RPriv :: held /\ dropped = None /\ regs = []
           end
    | None => held' = held
    end.
Proof.
  intros Hshm Hw Hh. unfold lorieCreatePixmap.
  destruct (calloc_priv p); cbn [negb]; [|by eexists _, _, _].
  destruct ((w =? 0) || (h =? 0)) eqn:Ez.
  { eexists _, _, _. split; [reflexivity|]. exists None, []. split; [reflexivity|].
    split_and!; try done. apply orb_true_iff in Ez. lia. }
  apply orb_false_iff in Ez as [Nw Nh].
  set (ty := if negb backed then LORIEBUFFER_REGULAR else _).
  destruct (allocate_balanced p id w h (AHARDWAREBUFFER_FORMAT_R8G8B8X8_UNORM p) ty (RPriv :: held) Hshm)
    as (r & held' & E & Hr). rewrite E. cbind.
  destruct r as [b|].
  - destruct Hr as (Hrc & Hl & -> & Hrel). apply allocate_mapped in E.
    unfold priv_lock. cbn [buffer set_buffer]. unfold LorieBuffer_lock. rewrite Hl.
    destruct (if _ || _ then _ else _) as [a e] eqn:Ea. cbn [buffer set_locked set_buffer].
    eexists _, _, _. split; [reflexivity|]. unfold lorieExaDestroyPixmap.
    cbn [buffer set_locked set_buffer locked_ptr].
    exists (Some (if a =? 0 then set_lock true a b else set_lock false 0 b)), [Unregistered (desc_id (desc b))]. split.
    + set (v := set_locked a _).
      assert (default (set_lock true a b) (buffer (if negb (a =? 0) then priv_unlock p v else v))
              = if a =? 0 then set_lock true a b else set_lock false 0 b) as ->
        by (destruct (a =? 0); [done|apply (priv_unlock_dropped p (set_lock true a b) v eq_refl)]).
      destruct (a =? 0); rewrite release_set_lock, Hrel; cbind; by rewrite remove_one_head.
    + split_and!; try done; [lia|lia|].
      intros ->. cbn [desc set_lock].
      destruct E as [E|[[E|E] E0]]; rewrite E in Ea; cbn in Ea; by simplify_eq.
  - unfold priv_lock. cbn. destruct Hr as [->|(-> & Hacc & _)].
    + rewrite remove_one_head. cbind. by eexists _, _, _.
    + exfalso. revert Hacc. unfold acceptable, known_format. rewrite Z.eqb_refl, orb_true_r.
      rewrite !(proj2 (Z.ltb_lt _ _)) by lia. done.
Qed.

(** An access that is granted is undone by its end: the lock shared with the
    renderer is held as often as before, and the buffer is locked again exactly
    if it was locked. A refused access, which has no end, leaves the shared lock
    taken once more when it was to the root window. *)
Theorem access_undone p dest_root v depth b :
  priv_ok v -> buffer v = Some b ->
  match loriePrepareAccess p dest_root v depth with
  | (v1, depth1, true, ptr) =>
      let (v2, depth2) := lorieFinishAccess p dest_root v1 depth1 in
      depth2 = depth /\ is_locked (buffer v2) = is_locked (buffer v) /\ locked_ptr v2 = locked_ptr v
      /\ mem v2 = mem v /\ depth1 = (if dest_root then depth + 1 else depth)
      /\ (is_locked (buffer v) = false -> mem v = 0 -> is_locked (buffer v1) = true)
  | (v1, depth1, false, _) =>
      is_locked (buffer v) = false /\ depth1 = if dest_root then depth + 1 else depth
  end.
Proof.
  intros Hok Hb. unfold priv_ok in Hok. unfold loriePrepareAccess.
  destruct (Z.eqb_spec (locked_ptr v) 0) as [El|Nl]; cbn [andb negb] in *.
  2: { unfold lorieFinishAccess. cbn. split_and!; try done; try congruence; destruct dest_root; lia. }
  rewrite Hb in Hok. cbn in Hok.
  destruct (Z.eqb_spec (mem v) 0) as [Em|Nm].
  - unfold priv_lock. rewrite Hb. unfold LorieBuffer_lock. rewrite Hok.
    destruct (if _ || _ then _ else _) as [a e] eqn:Ear. destruct (is_ok e); cbn [negb].
    + unfold lorieFinishAccess. cbn. rewrite Hok. split_and!; try done.
      destruct dest_root; lia.
    + done.
  - unfold lorieFinishAccess. cbn. rewrite Hb. cbn. split_and!; try done; destruct dest_root; lia.
Qed.

(** A page flip is accepted only for a pixmap with a shareable buffer of its
    own whose width and height are both the width of the root window: its height
    is compared with the width, so a root window that is not square never
    flips. An accepted flip registers exactly the pixmap's buffer. *)
Theorem flip_needs_square p legacy root_w root_h pix_w pix_h force v held r v' held' regs :
  loriePresentFlip p legacy root_w pix_w pix_h force v held = Ret (r, v', held', regs) ->
  (r = true ->
    pix_w = root_w /\ pix_h = root_w /\ mem v = 0
    /\ exists b, buffer v' = Some b /\ regs = [Registered (desc_id (desc b))]
         /\ (type (desc b) = LORIEBUFFER_FD \/ type (desc b) = LORIEBUFFER_AHARDWAREBUFFER))
  /\ (r = false -> regs = [])
  /\ (pix_w = root_w -> pix_h = root_h -> root_w <> root_h -> r = false /\ v' = v /\ held' = held).
Proof.
  unfold loriePresentFlip. intros Hf. destruct (buffer v) as [b|] eqn:Eb; [|by simplify_eq].
  destruct (negb (mem v =? 0) || _ || _) eqn:Eguard.
  { by injection Hf as <- <- <- <-. }
  assert (mem v = 0 /\ root_w = pix_w /\ root_w = pix_h) as (Em & Ew & Eh).
  { apply orb_false_iff in Eguard as [[E1 E2]%orb_false_iff E3].
    rewrite !negb_false_iff, !Z.eqb_eq in *. done. }
  split_and!; [| |intros; lia].
  all: destruct (_ && imported v && negb force); [by injection Hf as <- <- <- <-|].
  all: apply outcome_bind_Ret_inv in Hf as ([v1 held1] & Hc & Hf).
  all: cbv beta iota zeta in Hf.
  all: destruct (negb (type _ =? LORIEBUFFER_FD) && _) eqn:Ety; injection Hf as <- <- <- <-; try done.
  intros _. split_and!; [done..|].
  assert (exists b1, buffer v1 = Some b1) as [b1 Eb1].
  { destruct (type (desc b) =? LORIEBUFFER_REGULAR); [|injection Hc as <- <-; eauto].
    apply outcome_bind_Ret_inv in Hc as ([[b1 h1] blt] & _ & Hc).
    destruct (negb (type (desc b1) =? LORIEBUFFER_REGULAR)); injection Hc as <- <-; [|cbn; eauto].
    unfold priv_lock, LorieBuffer_lock. cbn. destruct (locked b1); [cbn; eauto|].
    destruct (if _ || _ then _ else _) as [a e]. cbn. eauto. }
  exists b1. rewrite Eb1 in *. cbn in *. split_and!; [done..|].
  apply andb_false_iff in Ety as [Ety|Ety]; apply negb_false_iff, Z.eqb_eq in Ety; auto.
Qed.

(** Can the root buffer be locked again? *)
Definition relockable (p : platform) (b : LorieBuffer) : Prop :=
  type (desc b) = LORIEBUFFER_REGULAR \/ type (desc b) = LORIEBUFFER_FD
  \/ (type (desc b) = LORIEBUFFER_AHARDWAREBUFFER /\ (AHardwareBuffer_lock p (ahb (desc b))).1 = 0).

Lemma relock_ok p v b :
  buffer v = Some b -> relockable p b ->
  exists v', priv_lock p (priv_unlock p v) = (v', LOK)
    /\ desc_id (LorieBuffer_description (buffer v')) = desc_id (desc b) /\ is_locked (buffer v') = true.
Proof.
  intros Hb Hr. unfold priv_unlock, priv_lock, LorieBuffer_unlock. rewrite Hb.
  assert (exists b1, (if negb (locked b) then (Some b, ENOENT)
      else (Some (set_lock false 0 b),
            if type (desc b) =? LORIEBUFFER_AHARDWAREBUFFER
            then ahb_result (AHardwareBuffer_unlock p (ahb (desc b))) else LOK)).1 = Some b1
    /\ locked b1 = false /\ desc b1 = desc b) as (b1 & E & Hl & Hd).
  { destruct (locked b) eqn:El; cbn; eauto. }
  cbn [buffer set_buffer]. rewrite E. unfold LorieBuffer_lock. rewrite Hl, Hd.
  destruct Hr as [Ht|[Ht|[Ht Hok]]]; rewrite Ht; cbn;
    (eexists; split; [f_equal; by rewrite ?Hok|cbn; by rewrite Hd]).
Qed.

(** Every frame advances the frame counter, notifies the vblanks that are due
    and releases the renderer's wait; when the activity is connected and has a
    surface, pending damage becomes exactly one request to draw, and the
    renderer is woken exactly when there is something to show, with the root
    window's buffer named; otherwise damage is kept for later. *)
Theorem redraw_publishes p alive s :
  (forall v b, root s = Some v -> buffer v = Some b -> relockable p b) ->
  exists s', lorieRedraw p alive s = Ret s'
    /\ present s' = next_frame (present s) /\ waitForNextFrame (flags s') = false
    /\ surfaceAvailable (flags s') = surfaceAvailable (flags s)
    /\ match root s with
       | Some v =>
           if alive && surfaceAvailable (flags s) then
             let fresh := damaged s && bool_decide (is_Some (buffer v)) in
             let show := drawRequested (flags s') || cursor_moved (flags s) || cursor_updated (flags s) in
             damaged s' = (damaged s && negb fresh)
             /\ drawRequested (flags s') = (if fresh then true else drawRequested (flags s))
             /\ signals s' = (if show then S (signals s) else signals s)
             /\ (show = true ->
                 rootWindowTextureID (flags s') = desc_id (LorieBuffer_description (buffer v)))
           else damaged s' = damaged s /\ signals s' = signals s
                /\ drawRequested (flags s') = drawRequested (flags s)
       | None => damaged s' = damaged s /\ signals s' = signals s
       end.
Proof.
  intros Hr. unfold lorieRedraw. cbn [surfaceAvailable].
  destruct (root s) as [v|].
  2: { destruct (negb alive || negb (surfaceAvailable (flags s))); eexists; split_and!; done. }
  destruct alive, (surfaceAvailable (flags s)) eqn:Esurf; cbn [negb orb andb];
    try (eexists; split_and!; cbn; done).
  destruct (damaged s) eqn:Edam, (bool_decide (is_Some (buffer v))) eqn:Ebuf; cbn [andb negb].
  2-4: cbind; cbn; destruct (drawRequested (flags s) || cursor_moved (flags s) || cursor_updated (flags s)) eqn:Es;
    (eexists; split; [reflexivity|]; cbn; rewrite Es; split_and!; done).
  apply bool_decide_eq_true in Ebuf as [b Hb].
  destruct (locked_ptr v =? 0); cbn [negb].
  - cbind. cbn. eexists. split; [reflexivity|]. cbn. split_and!; done.
  - destruct (relock_ok p v b Hb (Hr v b eq_refl Hb)) as (v' & E & Hid & _). rewrite E. cbn [is_ok].
    cbind. cbn. eexists. split; [reflexivity|]. cbn. rewrite Hb. split_and!; done.
Qed.

Lemma strncpy_full src rest dst :
  Forall (fun c => c <> 0) src -> length src = length dst ->
  strncpy (length src) (src ++ rest) dst = Ret src.
Proof.
  intros Hs. revert dst. induction Hs as [|c src Hc Hs IH]; intros [|d dst] Hl; try done.
  cbn. rewrite (proj2 (Z.eqb_neq _ _) Hc). rewrite IH by (cbn in Hl; lia). done.
Qed.

(** A change of the window is applied as the generated mode says, with the
    frame interval of the requested rate, 30 frames when none is given, but the
    screen's physical height is computed from its width; and a name of 1024
    bytes or more is stored without the terminator that the copy for the X
    clients gets. *)
Theorem configure_notify cvt mm w h rate name rest c :
  w <> 0 -> h <> 0 -> pScreen_width c <> w \/ pScreen_height c <> h ->
  Forall (fun b => b <> 0) name -> length name = 1024%nat ->
  let r := if rate =? 0 then 30 else rate in
  exists c', lorieConfigureNotify cvt mm true w h rate (1024 + Z.of_nat (length rest))
               (Some (name ++ rest)) c
             = Ret (c', Some ((cvt w h r).1, (cvt w h r).2, mm (cvt w h r).1, mm (cvt w h r).1))
    /\ pScreen_width c' = (cvt w h r).1 /\ pScreen_height c' = (cvt w h r).2
    /\ framerate c' = r /\ vblank_interval c' = 1000000 / r
    /\ root_name c' = name /\ (0 ∉ root_name c')
    /\ output_name c' = take 1023 name ++ [0].
Proof.
  intros Hw Hh Hne Hname Hlen r. unfold lorieConfigureNotify.
  assert ((if negb (rate =? 0) then rate else 30) = r) as -> by (subst r; by destruct (rate =? 0)).
  assert (Z.to_nat (if 1024 + Z.of_nat (length rest) <? 1024 then 1024 + Z.of_nat (length rest) else 1024)
          = length name) as ->.
  { destruct (Z.ltb_spec (1024 + Z.of_nat (length rest)) 1024); lia. }
  rewrite strncpy_full by (done || by rewrite length_zeros). cbind.
  rewrite (proj2 (Z.eqb_neq _ _) Hw), (proj2 (Z.eqb_neq _ _) Hh).
  assert (negb (pScreen_width c =? w) || negb (pScreen_height c =? h) = true)%bool as Hne'.
  { destruct Hne as [E|E]; rewrite (proj2 (Z.eqb_neq _ _) E); [done|apply orb_true_r]. }
  cbn [pScreen_width pScreen_height framerate root_name output_name negb andb]. rewrite Hne'. cbn [orb].
  destruct (cvt w h r) as [mw mh]. eexists. split; [reflexivity|]. cbn [fst snd]. split_and!; try done.
  - cbn. intros Hin. rewrite Forall_forall in Hname. by apply (Hname 0).
  - cbn [output_name]. destruct name as [|x xs _] using rev_ind; [done|].
    rewrite length_app in Hlen. cbn [length] in Hlen.
    rewrite insert_app_r_alt by lia. replace (1023 - length xs)%nat with 0%nat by lia.
    by rewrite take_app_length' by lia.
Qed.

(** ** Witnesses *)
Definition idle : present_state := mk_present [] 5 [] [].

Lemma vblank_accounting_witness :
  let p := run_ops [QueueVblank 1 6; QueueVblank 2 9; NextFrame; AbortVblank 2; NextFrame] idle in
  accounted p ≡ₚ [mk_vblank 1 6; mk_vblank 2 9] /\ performed p = [(mk_vblank 1 6, 6)].
Proof.
  split; [|vm_compute; reflexivity].
  exact (proj1 (vblank_accounting [QueueVblank 1 6; QueueVblank 2 9; NextFrame; AbortVblank 2; NextFrame]
    idle eq_refl eq_refl eq_refl)).
Defined.

Lemma vblank_delivered_witness :
  (mk_vblank 1 8, 8) ∈ performed (run_ops (replicate 3 NextFrame) (mk_present [mk_vblank 1 8] 5 [] [])).
Proof.
  refine (proj1 (vblank_delivered (mk_vblank 1 8) 3 (mk_present [mk_vblank 1 8] 5 [] []) _ _ _ eq_refl _));
    cbn; lia || (apply elem_of_cons; by left).
Defined.

Definition sample_fd_buffer : LorieBuffer := mk_buffer 1 (mk_desc 64 64 64 2 2 9 0 0x20000) false 0 11 16384 0 0 0.
Definition sample_priv : LoriePixmapPriv := mk_priv (Some sample_fd_buffer) false false false 0 0.

Lemma pixmap_lifecycle_witness :
  exists r pitch held', lorieCreatePixmap sample_platform true 3 64 32 true [] = Ret (r, pitch, held')
    /\ pitch = 256
    /\ exists dropped regs, lorieExaDestroyPixmap sample_platform (default sample_priv r) held' = Ret (dropped, regs, [])
       /\ locked (default sample_fd_buffer dropped) = false /\ regs = [Unregistered 3].
Proof.
  destruct (pixmap_lifecycle sample_platform true 3 64 32 true [] sample_shm ltac:(lia) ltac:(lia))
    as (r & pitch & held' & E & H).
  exists r, pitch, held'. split; [exact E|]. vm_compute in E. injection E as <- <- <-.
  destruct H as (dropped & regs & Ed & H). split; [reflexivity|]. exists dropped, regs. split; [exact Ed|].
  destruct H as (_ & _ & _ & _ & _ & _ & -> & ->). done.
Defined.

Lemma access_undone_witness :
  match loriePrepareAccess sample_platform true sample_priv 0 with
  | (v1, depth1, true, ptr) => depth1 = 1 /\ (lorieFinishAccess sample_platform true v1 depth1).2 = 0
  | _ => False
  end.
Proof.
  pose proof (access_undone sample_platform true sample_priv 0 sample_fd_buffer eq_refl eq_refl) as H.
  vm_compute in H. vm_compute. split; [reflexivity|exact (proj1 H)].
Defined.

Lemma flip_needs_square_witness :
  loriePresentFlip sample_platform true 64 64 48 false sample_priv []
  = Ret (false, sample_priv, [], []) /\ (64 = 64 -> 48 = 48 -> 64 <> 48 -> false = false /\ sample_priv = sample_priv /\ @nil resource = []).
Proof.
  assert (loriePresentFlip sample_platform true 64 64 48 false sample_priv []
          = Ret (false, sample_priv, [], [])) as E by reflexivity.
  split; [exact E|].
  exact (proj2 (proj2 (flip_needs_square sample_platform true 64 48 64 48 false sample_priv [] false
           sample_priv [] [] E))).
Defined.

Lemma redraw_publishes_witness :
  exists s', lorieRedraw sample_platform true
      (mk_screen idle (mk_flags false true true false false 0) (Some sample_priv) true 0) = Ret s'
    /\ signals s' = 1%nat /\ rootWindowTextureID (flags s') = 9 /\ damaged s' = false.
Proof.
  destruct (redraw_publishes sample_platform true
    (mk_screen idle (mk_flags false true true false false 0) (Some sample_priv) true 0))
    as (s' & E & _).
  { intros v b [= <-] [= <-]. right. by left. }
  exists s'. split; [exact E|]. vm_compute in E. by injection E as <-.
Defined.

Lemma configure_notify_witness :
  exists c', lorieConfigureNotify (fun w h _ => (w, h)) (fun px => px / 4) true 800 600 0 1030
      (Some (replicate 1024 65 ++ replicate 6 66)) (mk_root 640 480 [] [] 30 0)
    = Ret (c', Some (800, 600, 200, 200)).
Proof.
  destruct (configure_notify (fun w h _ => (w, h)) (fun px => px / 4) 800 600 0 (replicate 1024 65)
    (replicate 6 66) (mk_root 640 480 [] [] 30 0)) as (c' & E & _); [lia|lia|left; cbn; lia| |reflexivity|].
  - apply Forall_replicate. lia.
  - exists c'. exact E.
Defined.
