(* ===== verification/GpuInit.v ===== *)
(** * Setting up EGL and GL (renderer.c 33-119, 189-427 and 844-896)

    Four things: logging the errors of EGL and of GL, compiling the two shader programs, the test the X server makes
    before it uses hardware buffers, and starting the renderer thread.  What
    EGL, GL and Android answer is a parameter; an object of theirs is a number,
    0 is none. *)
From S2P Require Import Prelude Buffer GlBuffers Viewport Renderer.
#[local] Open Scope string_scope.
#[local] Open Scope list_scope.
#[local] Open Scope Z_scope.

(** ** Errors of EGL *)

(** A [case] of the [switch]: its label, the text it assigns, and whether it ends
    with [break]. *)
Record egl_case : Type := mk_case { label : Z; desc_text : option string; breaks : bool }.

Definition EGL_SUCCESS : Z := 0x3000.
Definition E (code : Z) (text : string) : egl_case := mk_case code (Some text) true.

Definition egl_cases : list egl_case := [
  mk_case EGL_SUCCESS None false;
  E 0x3001 "EGL not initialized or failed to initialize";
  E 0x3002 "Resource inaccessible";
  E 0x3003 "Cannot allocate resources";
  E 0x3004 "Unrecognized attribute or attribute value";
  E 0x3006 "Invalid EGL context";
  E 0x3005 "Invalid EGL frame buffer configuration";
  E 0x3007 "Current surface is no longer valid";
  E 0x3008 "Invalid EGL display";
  E 0x300d "Invalid surface";
  E 0x3009 "Inconsistent arguments";
  E 0x300c "Invalid argument";
  E 0x300a "Invalid native pixmap";
  E 0x300b "Invalid native window";
  E 0x300e "Context lost"
].

Inductive egl_text : Type := Text (s : string) | UnknownError (err : Z).

(** From a [case] on, until a [break]; behind the last one is [default]. *)
Fixpoint from_case (err : Z) (l : list egl_case) : option egl_text :=
  match l with
  | [] => Some (UnknownError err)
  | c :: l => if breaks c then Text <$> desc_text c else from_case err l
  end.

Fixpoint egl_switch (err : Z) (l : list egl_case) : option egl_text :=
  match l with
  | [] => Some (UnknownError err)
  | c :: l' => if label c =? err then from_case err l else egl_switch err l'
  end.

(** What is logged of the error [eglGetError] gives; the result is always 0. *)
Definition printEglError (err : Z) : option egl_text * Z := (egl_switch err egl_cases, 0).

(** Something is logged for every error, with the text of its label; but for
    EGL_SUCCESS, which is not an error, the text of the next label is logged. *)
Lemma egl_error_texts err :
  exists t, printEglError err = (Some t, 0)
    /\ (t = UnknownError err <-> err ∉ (label <$> egl_cases))
    /\ (forall c, c ∈ egl_cases -> label c = err -> err <> EGL_SUCCESS -> desc_text c = match t with Text s => Some s | _ => None end)
    /\ (err = EGL_SUCCESS -> t = Text "EGL not initialized or failed to initialize").
Proof.
  unfold printEglError, egl_cases. cbn [egl_switch label E].
  repeat match goal with
  | |- context [if ?a =? err then _ else _] => destruct (Z.eqb_spec a err) as [<-|?]
  end; cbn; eexists; split_and!; try done.
  all: try (split; [done|intros Hn; exfalso; apply Hn; set_solver]).
  all: try (split; [intros _|done]; set_solver).
  all: intros c Hc; repeat (apply elem_of_cons in Hc as [->|Hc]; [cbn; try done; congruence|]); by apply elem_of_nil in Hc.
Qed.

(** ** Errors of GL *)

(** The errors the code has a name for, from GL_INVALID_ENUM to GL_CONTEXT_LOST_KHR. *)
Definition named_errors : list Z := [0x500; 0x501; 0x502; 0x503; 0x504; 0x505; 0x506; 0x507].

(** [glGetError] returns the errors of the list, one a call, and then 0.  The
    error that is logged, and those that are left. *)
Fixpoint checkGlError (errors : list Z) : option Z * list Z :=
  match errors with
  | [] => (None, [])
  | e :: errors =>
      if e =? 0 then (None, errors)
      else if bool_decide (e ∈ named_errors) then (Some e, errors)
      else checkGlError errors
  end.

(** A check logs the first error that has a name, drops those without one before
    it and leaves the others for the next check; so as many checks as there are
    named errors log them all, in order. *)
Theorem errors_logged errors :
  Forall (fun e => e <> 0) errors ->
  (fix checks n errors := match n with
     | O => []
     | S n => let '(e, rest) := checkGlError errors in e :: checks n rest
     end) (length (filter (fun e => e ∈ named_errors) errors)) errors
  = Some <$> filter (fun e => e ∈ named_errors) errors.
Proof.
  assert (forall errors, Forall (fun e => e <> 0) errors ->
    match filter (fun e => e ∈ named_errors) errors with
    | [] => True
    | e :: l => exists rest, checkGlError errors = (Some e, rest) /\ filter (fun e => e ∈ named_errors) rest = l
                 /\ Forall (fun e => e <> 0) rest
    end) as H.
  { clear errors. induction 1 as [|e errors He Hr IH]; [done|]. rewrite filter_cons. cbn [checkGlError].
    rewrite (proj2 (Z.eqb_neq _ _) He). case_decide as Hn.
    - exists errors. by rewrite bool_decide_eq_true_2.
    - destruct (filter _ errors) as [|e' l]; [done|]. destruct IH as (rest & E & Hl & Ha). exists rest.
      by rewrite bool_decide_eq_false_2. }
  remember (filter (fun e => e ∈ named_errors) errors) as l eqn:El. revert errors El.
  induction l as [|e l IH]; intros errors El Hall; [done|]. pose proof (H errors Hall) as He. rewrite <- El in He.
  destruct He as (rest & E & Hl & Ha). cbn. rewrite E. f_equal. by apply IH.
Qed.

Lemma errors_logged_witness :
  checkGlError [0x8000; 0x502; 0x505] = (Some 0x502, [0x505])
  /\ length (filter (fun e => e ∈ named_errors) [0x8000; 0x502; 0x505]) = 2%nat.
Proof.
  split; [reflexivity|].
  assert (Forall (fun e => e <> 0) [0x8000; 0x502; 0x505]) as H by (repeat constructor; lia).
  pose proof (errors_logged _ H). reflexivity.
Defined.

(** ** Shader programs *)
Module Programs.

Inductive shader_type : Type := GL_VERTEX_SHADER | GL_FRAGMENT_SHADER.

(** A source is its lines. *)
Definition vertexShaderSrc : list string :=
  ["attribute vec4 position;"; "attribute vec2 texCoords;varying vec2 outTexCoords;"; "void main(void) {";
   "   outTexCoords = texCoords;"; "   gl_Position = position;"; "}"].
Definition FRAGMENT_SHADER (texture : string) : list string :=
  ["precision mediump float;"; "varying vec2 outTexCoords;"; "uniform sampler2D texture;"; "void main(void) {";
   ("   gl_FragColor = texture2D(texture, outTexCoords)" ++ texture ++ ";")%string; "}"].
Definition fragmentShaderSrc : list string := FRAGMENT_SHADER "".
Definition fragmentShaderBgraSrc : list string := FRAGMENT_SHADER ".bgra".

(** The objects of the GL context; [created] counts the calls that make one. *)
Record gl_objects : Type := mk_objects { created : nat; shaders : list Z; programs : list Z }.

Record compiler : Type := mk_compiler {
  new_object : nat -> Z;
  compiles : shader_type -> list string -> bool;
  links : list string -> list string -> bool
}.

Section compile.
Context (gl : compiler).

Definition loadShader (ty : shader_type) (src : list string) (s : gl_objects) : Z * gl_objects :=
  let shader := new_object gl (created s) in
  let s := mk_objects (S (created s)) (shaders s) (programs s) in
  if shader =? 0 then (0, s)
  else if compiles gl ty src then (shader, mk_objects (created s) (shader :: shaders s) (programs s))
  else (0, s).

Definition createProgram (vertex fragment : list string) (s : gl_objects) : Z * gl_objects :=
  let (vertexShader, s) := loadShader GL_VERTEX_SHADER vertex s in
  let (pixelShader, s) := loadShader GL_FRAGMENT_SHADER fragment s in
  if (pixelShader =? 0) || (vertexShader =? 0) then (0, s)
  else
    let program := new_object gl (created s) in
    let s := mk_objects (S (created s)) (shaders s) (programs s) in
    if program =? 0 then (0, s)
    else if links gl vertex fragment then (program, mk_objects (created s) (shaders s) (program :: programs s))
    else (0, s).

(** Does a shader made by the n-th call compile? *)
Definition shader_ok (n : nat) (ty : shader_type) (src : list string) : bool :=
  negb (new_object gl n =? 0) && compiles gl ty src.

Lemma load_shader_spec ty src s :
  loadShader ty src s =
    (if shader_ok (created s) ty src then new_object gl (created s) else 0,
     mk_objects (S (created s)) (if shader_ok (created s) ty src then new_object gl (created s) :: shaders s else shaders s) (programs s)).
Proof.
  unfold loadShader, shader_ok. destruct (new_object gl (created s) =? 0); [done|]. by destruct (compiles gl ty src).
Qed.

(** A program is made exactly when both shaders compile and it
    links. The shaders that compiled are never deleted, so that a program that
    could not be made leaves up to two behind. *)
Theorem create_program vertex fragment s :
  let n := created s in
  let v := shader_ok n GL_VERTEX_SHADER vertex in
  let f := shader_ok (S n) GL_FRAGMENT_SHADER fragment in
  let p := new_object gl (S (S n)) in
  let ok := (v && f && negb (p =? 0) && links gl vertex fragment)%bool in
  let (id, s') := createProgram vertex fragment s in
  id = (if ok then p else 0) /\ (id <> 0 <-> ok = true)
  /\ programs s' = (if ok then [p] else []) ++ programs s
  /\ shaders s' = (if f then [new_object gl (S n)] else []) ++ (if v then [new_object gl n] else []) ++ shaders s.
Proof.
  cbv zeta. unfold createProgram. rewrite load_shader_spec. rewrite load_shader_spec. cbn [created].
  destruct (shader_ok (created s) GL_VERTEX_SHADER vertex) eqn:Ev,
    (shader_ok (S (created s)) GL_FRAGMENT_SHADER fragment) eqn:Ef; cbn [shaders programs andb].
  2-4: rewrite ?Z.eqb_refl, ?orb_true_r; by split_and!.
  unfold shader_ok in Ev, Ef. bool_arith. decide_tests. destruct (Z.eqb_spec (new_object gl (S (S (created s)))) 0); [by split_and!|].
  by destruct (links gl vertex fragment).
Qed.
End compile.
End Programs.

(** ** Can this device draw from hardware buffers? *)
Module Capabilities.

(** What EGL, GL and Android answer. *)
Record gpu_test : Type := mk_gpu_test {
  display : Z; initialize : bool;
  allocate : Z * Z;                   (** status and buffer *)
  lock_status : Z;
  client_buffer : Z; image_khr : Z;
  choose_config : bool; context : Z; pbuffer : Z; make_current : bool;
  pixel : Z                           (** what is read back of 0xAABBCCDD *)
}.

(** The calls the test makes, with their results; those of GL that make a texture and
    a framebuffer, which go with their context, are left out. *)
Inductive gpu_call : Type :=
  | eglGetDisplay (d : Z)
  | eglInitialize (ok : bool)
  | AHardwareBuffer_allocate (status buffer : Z)
  | AHardwareBuffer_lock (buffer status : Z)
  | AHardwareBuffer_unlock (buffer : Z)
  | eglGetNativeClientBufferANDROID (buffer client : Z)
  | eglCreateImageKHR (client img : Z)
  | eglChooseConfig (ok : bool)
  | eglCreateContext (c : Z)
  | eglCreatePbufferSurface (sfc : Z)
  | eglMakeCurrent (sfc c : Z) (ok : bool)
  | glEGLImageTargetTexture2DOES (img : Z)
  | glReadPixels (p : Z)
  | eglDestroyContext (c : Z)
  | eglDestroyImageKHR (img : Z)
  | eglDestroySurface (sfc : Z)
  | AHardwareBuffer_release (buffer : Z).

(** The display and the flag it leaves, and the calls. *)
Record test_result : Type := mk_result { egl_display : Z; legacyDrawing : Z; calls : list gpu_call }.

(** [shown] is the display the process has already; the flag is only ever set. *)
Definition rendererTestCapabilities (e : gpu_test) (shown legacy : Z) : test_result :=
  let d := if shown =? 0 then display e else shown in
  let log := if shown =? 0 then [eglGetDisplay (display e)] else [] in
  if d =? 0 then mk_result d legacy log
  else
    let log := log ++ [eglInitialize (initialize e)] in
    if negb (initialize e) then mk_result d legacy log
    else
      let (status, new) := allocate e in
      let log := log ++ [AHardwareBuffer_allocate status new] in
      if negb (status =? 0) || (new =? 0) then mk_result d 1 log
      else
        let log := log ++ [AHardwareBuffer_lock new (lock_status e)] in
        if negb (lock_status e =? 0) then mk_result d 1 (log ++ [AHardwareBuffer_release new])
        else
          let log := log ++ [AHardwareBuffer_unlock new; eglGetNativeClientBufferANDROID new (client_buffer e)] in
          if client_buffer e =? 0 then mk_result d 1 (log ++ [AHardwareBuffer_release new])
          else
            let img := image_khr e in
            let log := log ++ [eglCreateImageKHR (client_buffer e) img] in
            if img =? 0 then mk_result d 1 (log ++ [AHardwareBuffer_release new])
            else
              let log := log ++ [eglChooseConfig (choose_config e)] in
              if negb (choose_config e) then mk_result d legacy log
              else
                let testctx := context e in
                let log := log ++ [eglCreateContext testctx] in
                if testctx =? 0 then mk_result d legacy log
                else
                  let checksfc := pbuffer e in
                  let log := log ++ [eglCreatePbufferSurface checksfc; eglMakeCurrent checksfc testctx (make_current e)] in
                  if negb (make_current e) then mk_result d legacy log
                  else
                    let log := log ++ [glEGLImageTargetTexture2DOES img; glReadPixels (pixel e)] in
                    let legacy := if negb (pixel e =? 0xAABBCCDD) && negb (pixel e =? 0xFFBBCCDD) then 1 else legacy in
                    mk_result d legacy
                      (log ++ [eglMakeCurrent 0 0 true; eglDestroyContext testctx; eglDestroyImageKHR img;
                               eglDestroySurface checksfc; AHardwareBuffer_release new]).

(** *** What the calls take and give back *)
Inductive gpu_object : Type := HardwareBuffer (h : Z) | Image (i : Z) | Context (c : Z) | PbufferSurface (s : Z).

#[export] Instance gpu_object_eq_dec : EqDecision gpu_object.
Proof. solve_decision. Defined.

(** A call that fails takes nothing; the object number 0 is none. *)
Definition takes (c : gpu_call) : option gpu_object :=
  match c with
  | AHardwareBuffer_allocate status h => if (status =? 0) && negb (h =? 0) then Some (HardwareBuffer h) else None
  | eglCreateImageKHR _ i => if i =? 0 then None else Some (Image i)
  | eglCreateContext c => if c =? 0 then None else Some (Context c)
  | eglCreatePbufferSurface s => if s =? 0 then None else Some (PbufferSurface s)
  | _ => None
  end.

Definition gives_back (c : gpu_call) : option gpu_object :=
  match c with
  | AHardwareBuffer_release h => Some (HardwareBuffer h)
  | eglDestroyImageKHR i => Some (Image i)
  | eglDestroyContext c => Some (Context c)
  | eglDestroySurface s => if s =? 0 then None else Some (PbufferSurface s)
  | _ => None
  end.

(** What is held after the calls; giving back what is not held is a fault. *)
Fixpoint holds (held : list gpu_object) (l : list gpu_call) : outcome (list gpu_object) :=
  match l with
  | [] => Ret held
  | c :: l =>
      match takes c, gives_back c with
      | Some o, _ => holds (o :: held) l
      | None, Some o => held ← remove_one o held; holds held l
      | None, None => holds held l
      end
  end.

Definition taken (l : list gpu_call) : list gpu_object := omap takes l.

Ltac run_ledger :=
  cbn [app holds takes gives_back taken omap list_omap]; decide_tests; cbn [andb negb];
  repeat first [rewrite remove_one_head|rewrite remove_one_skip by done|progress cbind].

(** C36: the test of the device. Two things decide its result. Without a display
    that can be initialised nothing is tested and nothing changes. When the
    buffer cannot be allocated, locked or made an image, the flag for legacy drawing is
    set; so it is when the image can be drawn from but the picture comes back
    wrong; in every other case the flag keeps its value, though nothing
    was tested when EGL gives no configuration, context or current surface.
    Nothing is given back that is not held; and at the end nothing is held, except in
    these last three cases: there all that was taken stays. *)
Theorem capability_test e shown legacy :
  let r := rendererTestCapabilities e shown legacy in
  let usable := negb (egl_display r =? 0) && initialize e in
  let drawable := (fst (allocate e) =? 0) && negb (snd (allocate e) =? 0) && (lock_status e =? 0)
                  && negb (client_buffer e =? 0) && negb (image_khr e =? 0) in
  let current := choose_config e && negb (context e =? 0) && make_current e in
  let right := (pixel e =? 0xAABBCCDD) || (pixel e =? 0xFFBBCCDD) in
  egl_display r = (if shown =? 0 then display e else shown)
  /\ legacyDrawing r = (if usable && (negb drawable || (current && negb right)) then 1 else legacy)
  /\ exists held, holds [] (calls r) = Ret held
       /\ if usable && drawable && negb current then held ≡ₚ taken (calls r) /\ Image (image_khr e) ∈ held
          else held = [].
Proof.
  cbv zeta. unfold rendererTestCapabilities. destruct (allocate e) as [status new] eqn:Ea. cbn [fst snd].
  set (d := if shown =? 0 then display e else shown).
  set (log := if shown =? 0 then [eglGetDisplay (display e)] else []).
  assert (forall held l, holds held (log ++ l) = holds held l) as Hlog by (intros; unfold log; by destruct (shown =? 0)).
  assert (forall l, taken (log ++ l) = taken l) as Htaken by (intros; unfold log; by destruct (shown =? 0)).
  assert (holds [] log = Ret []) as Hnil by (rewrite <- (app_nil_r log); apply Hlog).
  destruct (Z.eqb_spec d 0) as [Ed|Ed].
  { cbn [egl_display legacyDrawing calls]. rewrite (proj2 (Z.eqb_eq d 0) Ed). cbn [negb andb]. split_and!; [done..|by exists []]. }
  destruct (initialize e); cbn [negb].
  2: { cbn [egl_display legacyDrawing calls]. rewrite !andb_false_r, Hlog. cbn [andb]. split_and!; [done..|by exists []]. }
  destruct (Z.eqb_spec status 0), (Z.eqb_spec new 0); cbn [negb andb orb].
  2: destruct (Z.eqb_spec (lock_status e) 0); cbn [negb andb orb].
  2: destruct (Z.eqb_spec (client_buffer e) 0); cbn [negb andb orb].
  3: destruct (Z.eqb_spec (image_khr e) 0); cbn [negb andb orb].
  4: destruct (choose_config e); cbn [negb andb orb].
  4: destruct (Z.eqb_spec (context e) 0); cbn [negb andb orb].
  5: destruct (make_current e); cbn [negb andb orb].
  5: destruct (pixel e =? 0xAABBCCDD), (pixel e =? 0xFFBBCCDD); cbn [negb andb orb].
  all: cbn [egl_display legacyDrawing calls]; rewrite (proj2 (Z.eqb_neq _ _) Ed), <- ?app_assoc; cbn [negb andb orb].
  all: split; [done|]; split; [done|]; rewrite Hlog, ?Htaken.
  all: destruct (Z.eqb_spec (pbuffer e) 0); run_ledger.
  all: eexists; split; [reflexivity|]; try done.
  all: split; [|set_solver].
  all: match goal with |- ?l ≡ₚ _ => exact (Permutation_rev l) end.
Qed.

End Capabilities.

(** ** Starting the renderer thread *)
Module StartUp.
Import Programs.

(** The globals it sets. *)
Record gpu : Type := mk_gpu {
  egl_display : Z; ctx : Z; alpha : Z;
  defaultWin : Z; win : Z; window_refs : list Z;
  defaultSfc : Z; sfc : Z;
  g_texture_program : Z; g_texture_program_bgra : Z;
  gv_pos : Z; gv_coords : Z; gv_pos_bgra : Z; gv_coords_bgra : Z;
  cursor_id : Z;
  objects : gl_objects;
  readers : list Z;                   (** the AImageReaders that exist *)
  lists_ready : bool;                 (** the three lists of buffers *)
  waiting : nat;                      (** threads created that have not run *)
  running : nat                       (** threads in [rendererThread] *)
}.

Definition gpu_off : gpu :=
  mk_gpu 0 0 0 0 0 [] 0 0 0 0 0 0 0 0 0 (mk_objects 0 [] []) [] false 0 0.

Record egl : Type := mk_egl {
  attaches : bool;
  get_display : Z; initializes : bool;
  config : Z -> bool;                 (** with this many bits of alpha *)
  create_context : Z;
  new_reader : option Z; listens : bool; reader_window : option Z;
  create_surface : Z -> Z;
  gl : compiler;
  attrib_location : Z -> string -> Z;
  gen_texture : Z
}.

Section start.
Context (e : egl).

Definition with_display d s := mk_gpu d (ctx s) (alpha s) (defaultWin s) (win s) (window_refs s) (defaultSfc s) (sfc s)
  (g_texture_program s) (g_texture_program_bgra s) (gv_pos s) (gv_coords s) (gv_pos_bgra s) (gv_coords_bgra s) (cursor_id s)
  (objects s) (readers s) true (waiting s) (running s).
Definition with_context c a s := mk_gpu (egl_display s) c a (defaultWin s) (win s) (window_refs s) (defaultSfc s) (sfc s)
  (g_texture_program s) (g_texture_program_bgra s) (gv_pos s) (gv_coords s) (gv_pos_bgra s) (gv_coords_bgra s) (cursor_id s)
  (objects s) (readers s) (lists_ready s) (waiting s) (running s).
Definition with_threads w r s := mk_gpu (egl_display s) (ctx s) (alpha s) (defaultWin s) (win s) (window_refs s) (defaultSfc s) (sfc s)
  (g_texture_program s) (g_texture_program_bgra s) (gv_pos s) (gv_coords s) (gv_pos_bgra s) (gv_coords_bgra s) (cursor_id s)
  (objects s) (readers s) (lists_ready s) w r.

(** From the window on: nothing can stop the thread any more. *)
Definition start_drawing (w reader : Z) (s : gpu) : gpu :=
  let surface := create_surface e w in
  let (p, o) := createProgram (gl e) vertexShaderSrc fragmentShaderSrc (objects s) in
  let (q, o) := createProgram (gl e) vertexShaderSrc fragmentShaderBgraSrc o in
  mk_gpu (egl_display s) (ctx s) (alpha s) w w (w :: window_refs s) surface surface p q
    (u32 (attrib_location e p "position")) (u32 (attrib_location e p "texCoords"))
    (u32 (attrib_location e q "position")) (u32 (attrib_location e q "texCoords"))
    (gen_texture e) o (reader :: readers s) (lists_ready s) (waiting s) (S (running s)).

(** The result is the one of the C function; the thread that starts to draw never returns. *)
Definition rendererInitThread (s : gpu) : option Z * gpu :=
  let s := with_threads (pred (waiting s)) (running s) s in
  if negb (attaches e) then (Some 0, s)
  else
    let s := with_display (get_display e) s in
    if get_display e =? 0 then (Some 0, s)
    else if negb (initializes e) then (Some 0, s)
    else
      let a := if config e (alpha s) then alpha s else 8 in
      let s := with_context (ctx s) a s in
      if negb (config e a) then (Some 0, s)
      else
        let s := with_context (create_context e) a s in
        if create_context e =? 0 then (Some 0, s)
        else
          match new_reader e with
          | None => (Some 1, s)
          | Some reader =>
              if negb (listens e) then (Some 1, s)
              else match reader_window e with
                   | None => (Some 1, s)
                   | Some w => (None, start_drawing w reader s)
                   end
          end.

(** The locks and the proxy of [Sync] are made anew by each call that gets that far. *)
Definition rendererInit (s : gpu) : gpu :=
  if ctx s =? 0 then with_threads (S (waiting s)) (running s) s else s.

(** Everything the thread needs. *)
Definition can_start (s : gpu) : bool :=
  attaches e && negb (get_display e =? 0) && initializes e && (config e (alpha s) || config e 8)
  && negb (create_context e =? 0) && bool_decide (is_Some (new_reader e)) && listens e && bool_decide (is_Some (reader_window e)).

(** Starting the renderer. The thread starts to draw exactly when every call it
    depends on succeeds, and then it has a current window with a reference and
    a surface. If it fails after the context was made, no later call of
    [rendererInit] starts it again; if it fails before, the next one does. Two
    calls before the first thread has its context start two. *)
Theorem renderer_start s :
  let (r, s') := rendererInitThread s in
  (r = None <-> can_start s = true)
  /\ (r = None -> running s' = S (running s) /\ win s' = defaultWin s' /\ win s' ∈ window_refs s' /\ sfc s' = defaultSfc s'
        /\ sfc s' = create_surface e (win s') /\ ctx s' <> 0 /\ lists_ready s' = true)
  /\ (r <> None -> running s' = running s /\ window_refs s' = window_refs s /\ readers s' = readers s)
  /\ (r = Some 1 -> ctx s' <> 0 /\ forall n, Nat.iter n rendererInit s' = s')
  /\ (r = Some 0 -> ctx s = 0 -> ctx s' = 0 /\ waiting (rendererInit s') = S (waiting s'))
  /\ (ctx s = 0 -> waiting (rendererInit (rendererInit s)) = S (S (waiting s))).
Proof.
  assert (ctx s = 0 -> waiting (rendererInit (rendererInit s)) = S (S (waiting s))) as H2.
  { intros Hc. unfold rendererInit. rewrite Hc. cbn. by rewrite Hc. }
  assert (forall s', ctx s' <> 0 -> forall n, Nat.iter n rendererInit s' = s') as Hstuck.
  { intros s' Hc n. induction n as [|n IH]; [done|]. rewrite Nat.iter_succ, IH. unfold rendererInit. by rewrite (proj2 (Z.eqb_neq _ _) Hc). }
  assert (forall s', ctx s' = 0 -> waiting (rendererInit s') = S (waiting s')) as Hagain.
  { intros s' Hc. unfold rendererInit. by rewrite Hc. }
  unfold rendererInitThread, can_start. cbv zeta. cbn [alpha with_threads with_display ctx].
  destruct (attaches e); cbn [negb andb]; [|split_and!; done || auto].
  destruct (Z.eqb_spec (get_display e) 0); cbn [negb andb]; [split_and!; done || auto|].
  destruct (initializes e); cbn [negb andb]; [|split_and!; done || auto].
  replace (config e (if config e (alpha s) then alpha s else 8)) with (config e (alpha s) || config e 8)%bool
    by (destruct (config e (alpha s)) eqn:E; by rewrite ?E).
  destruct (config e (alpha s) || config e 8); cbn [negb andb]; [|split_and!; done || auto].
  destruct (Z.eqb_spec (create_context e) 0); cbn [negb andb]; [split_and!; done || auto|].
  destruct (new_reader e) as [rd|]; [rewrite bool_decide_eq_true_2 by done|rewrite bool_decide_eq_false_2 by (by intros [? ?])];
    cbn [andb]; [|split_and!; done || auto].
  destruct (listens e); cbn [negb andb]; [|split_and!; done || auto].
  destruct (reader_window e) as [w|]; [rewrite bool_decide_eq_true_2 by done|rewrite bool_decide_eq_false_2 by (by intros [? ?])];
    [|split_and!; done || auto].
  unfold start_drawing. destruct (createProgram _ _ _ _) as [p o]. destruct (createProgram _ _ _ o) as [q o']. cbn.
  split_and!; try done. intros _. split_and!; try done. set_solver.
Qed.
End start.

(** What other threads do while there is no renderer thread. *)
Inductive without_renderer (e : platform) : renderer -> renderer -> Prop :=
  | wr_done r : without_renderer e r r
  | wr_step a r r1 r2 :
      a <> RendererStep -> enabled e a r = true -> run e a r = Ret r1 -> without_renderer e r1 r2 -> without_renderer e r r2.

(** An app whose renderer thread has not started. The GUI thread that changes the
    window, or the shared state, waits; and whatever the others do, it never
    goes on. *)
Theorem gui_blocked_without_renderer e a r r1 r2 :
  match a with SetWindow _ | SetSharedState _ _ => True | _ => False end ->
  enabled e a r = true -> run e a r = Ret r1 -> gui r1 <> GReady ->
  without_renderer e r1 r2 -> gui r2 <> GReady /\ enabled e GuiResumes r2 = false.
Proof.
  intros Ha Hen Hrun Hg Hw.
  assert (match gui r1 with GReady => False | GWaitState => stateChanged (shared r1) = true
          | GWaitWindow => windowChanged (wins r1) = true end) as H1.
  { destruct a; try done; cbn [enabled run] in Hen, Hrun.
    - injection Hrun as <-. by destruct (p =? 0).
    - assert (gui r = GReady) as Hr by (unfold gui_ready in Hen; destruct (gui r); done || by rewrite bool_decide_eq_false_2 in Hen).
      revert Hrun Hg. unfold rendererSetWindow. cbv zeta. cbn [pendingWin].
      clear Hen. case_bool; [bind_case; intros [= <-]; cbn; by rewrite Hr|].
      destruct (if _ =? 0 then _ else _) as [ws|]; cbn [mbind outcome_bind]; [|done]. by intros [= <-]. }
  clear Ha Hen Hrun Hg.
  induction Hw as [r1|a' r1 r1' r2 Ha Hen Hrun _ IH].
  - split; [by intros E; rewrite E in H1|]. cbn. destruct (gui r1); [done| |]; rewrite H1; by rewrite andb_false_r.
  - apply IH. destruct a'; cbn [enabled] in Hen; try done; unfold gui_ready in Hen;
      try (destruct (gui r1); [done| |]; by rewrite bool_decide_eq_false_2 in Hen).
    + destruct (gui r1); [done| |]; rewrite H1, andb_false_r in Hen; done.
    + cbn in Hrun. by injection Hrun as <-.
Qed.
End StartUp.

(** ** A thread that could not start *)
Definition no_reader : StartUp.egl :=
  StartUp.mk_egl true 1 true (fun a => a =? 8) 2 None true (Some 3) (fun _ => 4)
    (Programs.mk_compiler (fun n => 10 + Z.of_nat n) (fun _ _ => true) (fun _ _ => true)) (fun _ _ => 0) 5.

(** Nobody has [stateLock]. *)
Definition unlocked : renderer := with_pc PWait (renderer_init sample_platform []).

Lemma gui_blocked_without_renderer_witness :
  StartUp.rendererInitThread no_reader (StartUp.rendererInit StartUp.gpu_off)
    = (Some 1, StartUp.mk_gpu 1 2 8 0 0 [] 0 0 0 0 0 0 0 0 0 (Programs.mk_objects 0 [] []) [] true 0 0)
  /\ exists r1 r2, run sample_platform (SetSharedState 0 (mk_server 0 false false false 0 (Cursor.mk_shared 0 0 0 0 0 0 [] false false)))
        unlocked = Ret r1
     /\ StartUp.without_renderer sample_platform r1 r2 /\ gui r2 <> GReady.
Proof.
  split; [vm_compute; reflexivity|]. eexists. eexists. split; [reflexivity|]. split; [apply StartUp.wr_done|].
  refine (proj1 (StartUp.gui_blocked_without_renderer sample_platform
    (SetSharedState 0 (mk_server 0 false false false 0 (Cursor.mk_shared 0 0 0 0 0 0 [] false false)))
    unlocked _ _ I _ eq_refl _ (StartUp.wr_done _ _))).
  - vm_compute. reflexivity.
  - discriminate.
Defined.
