(* ===== verification/Startup.v ===== *)
(** * Starting the server and finding it (cmdentrypoint.c 43-209 and 498-573,
    InitOutput.c 158-201, 223-237 and 262-294, activity.c 73-105)

    How the server's process gets its environment from the one it is started
    with, what its arguments say, the program it starts when it is ready, the
    thread that waits for it, and the TCP port on which the app asks for a
    connection. *)
From S2P Require Import Prelude.
From Stdlib Require Import Ascii String.
From stdpp Require Import pretty.
Open Scope string_scope.
Open Scope list_scope.
Open Scope Z_scope.

(** ** The environment *)
Abbreviation environment := (gmap string string).

Definition set_if (b : bool) (v x : string) (e : environment) : environment := if b then <[v := x]> e else e.

(** [snprintf] into [n] bytes. *)
Definition snprintf (n : nat) (s : string) : string := substring 0 (n - 1) s.

(** What is left when the bytes that satisfy [p] are dropped, but never the last. *)
Fixpoint drop_but_one (p : ascii -> bool) (l : list ascii) : list ascii :=
  match l with
  | [] => []
  | c :: l' => match l' with [] => l | _ => if p c then drop_but_one p l' else l end
  end.

Definition slash (c : ascii) : bool := Ascii.eqb c "/".

(** The C library's; from the last byte to the first. *)
Definition dirname (path : string) : string :=
  match drop_but_one (fun c => negb (slash c)) (drop_but_one slash (rev (list_ascii_of_string path))) with
  | [] => "."
  | [c] => if slash c then "/" else "."
  | _ :: l => string_of_list_ascii (rev (drop_but_one slash l))
  end.

(** [sscanf] with [%d], for a number without sign. *)
Fixpoint scan_digits (l : list ascii) (n : Z) : Z :=
  match l with
  | c :: l => let d := Z.of_nat (nat_of_ascii c) - 48 in
              if (0 <=? d) && (d <=? 9) then scan_digits l (10 * n + d) else n
  | [] => n
  end.
Fixpoint scan_int (l : list ascii) : Z :=
  match l with
  | c :: l' => if Ascii.eqb c " " || Ascii.eqb c "009" then scan_int l' else scan_digits l 0
  | [] => 0
  end.

(** The lines are those [fgets] returns; [None]: the file cannot be read. *)
Definition detectTracer (lines : option (list string)) : bool :=
  match lines with
  | None => true
  | Some l =>
      match List.find (String.prefix "TracerPid:") l with
      | Some line => negb (scan_int (drop 10 (list_ascii_of_string line)) =? 0)
      | None => false
      end
  end.

Definition libtermux_exec : string := "/data/data/com.termux/files/usr/lib/libtermux-exec.so".
Definition termux_tmp : string := "/data/data/com.termux/files/usr/tmp".

Section start.
(** [access] from the directory the process was started in, or the one it changed to. *)
Context (accessible : option string -> string -> bool).

Definition choose_preload (tracer : bool) (e : environment) : environment :=
  set_if (accessible None libtermux_exec && negb tracer && bool_decide (e !! "XSTARTUP_LD_PRELOAD" = None))
    "LD_PRELOAD" libtermux_exec e.

Definition choose_tmpdir (e : environment) : environment :=
  let e := if bool_decide (default "" (e !! "TMPDIR") = "/data/local/tmp") then delete "TMPDIR" e else e in
  match e !! "TMPDIR" with
  | Some _ => e
  | None => if accessible None "/tmp" then <["TMPDIR" := "/tmp"]> e
            else set_if (accessible None termux_tmp) "TMPDIR" termux_tmp e
  end.

Definition font_path (cwd : option string) (root_dir : string) : option string :=
  match List.find (fun p => accessible cwd (snprintf 1024 (root_dir ++ p)))
          ["/etc/X11/fonts"; "/usr/share/fonts/X11"; "/share/fonts"] with
  | Some p =>
      let d := snprintf 1024 (root_dir ++ p) in
      Some (snprintf 4096 (d ++ "/misc," ++ d ++ "/TTF," ++ d ++ "/OTF," ++ d ++ "/Type1," ++ d ++ "/100dpi," ++ d ++ "/75dpi"))
  | None => None
  end%string.

(** The first [if], and then the second with its [else if]s. *)
Definition choose_xkb (cwd : option string) (tmp : string) (e : environment) : environment :=
  let acc := accessible cwd in
  let e :=
    match e !! "XKB_CONFIG_ROOT" with
    | Some _ => e
    | None => let p := snprintf 1024 (dirname tmp ++ "/usr/share/X11/xkb")%string in set_if (acc p) "XKB_CONFIG_ROOT" p e
    end in
  match e !! "XKB_CONFIG_ROOT" with
  | Some _ => e
  | None =>
      if acc "/usr/share/xkeyboard-config-2" then <["XKB_CONFIG_ROOT" := "/usr/share/xkeyboard-config-2"]> e
      else if acc "/usr/share/X11/xkb" then <["XKB_CONFIG_ROOT" := "/usr/share/X11/xkb"]> e
      else if acc "/data/data/com.termux/files/usr/share/xkeyboard-config-2"
      then <["XKB_CONFIG_ROOT" := "/data/data/com.termux/files/usr/share/xkeyboard-config-2"]> e
      else set_if (acc "/data/data/com.termux/files/usr/share/X11/xkb")
             "XKB_CONFIG_ROOT" "/data/data/com.termux/files/usr/share/X11/xkb" e
  end.

Record started : Type := mk_started {
  argv : list string;
  environ : environment;
  xtrans_unix_path_x11 : string; xtrans_unix_dir_x11 : string;
  defaultFontPath : option string;    (** [None]: as it was *)
  XkbBaseDirectory : string
}.

(** [None] is JNI_FALSE: no server. *)
Definition start (args : list string) (status : option (list string)) (cwd_ok : bool) (e : environment) : option started :=
  let e := choose_tmpdir (choose_preload (detectTracer status) e) in
  match e !! "TMPDIR" with
  | None => None
  | Some tmp =>
      let cwd := if cwd_ok then None else Some tmp in
      let e := choose_xkb cwd tmp e in
      match e !! "XKB_CONFIG_ROOT" with
      | None => None
      | Some xkb =>
          if accessible cwd xkb
          then Some (mk_started ("Xlorie" :: args) e (tmp ++ "/.X11-unix/X") (tmp ++ "/.X11-unix/") (font_path cwd (dirname tmp)) xkb)
          else None
      end
  end.

(** *** What is chosen *)

(** The directory for sockets, and the places where keyboard data is looked for. *)
Definition tmpdir_of (e : environment) : option string :=
  match e !! "TMPDIR" with
  | Some t => if bool_decide (t = "/data/local/tmp") then List.find (accessible None) ["/tmp"; termux_tmp] else Some t
  | None => List.find (accessible None) ["/tmp"; termux_tmp]
  end.

Definition xkb_places (tmp : string) : list string :=
  [snprintf 1024 (dirname tmp ++ "/usr/share/X11/xkb"); "/usr/share/xkeyboard-config-2"; "/usr/share/X11/xkb";
   "/data/data/com.termux/files/usr/share/xkeyboard-config-2"; "/data/data/com.termux/files/usr/share/X11/xkb"]%string.

Definition xkb_of (cwd : option string) (tmp : string) (e : environment) : option string :=
  match e !! "XKB_CONFIG_ROOT" with
  | Some x => if accessible cwd x then Some x else None
  | None => List.find (accessible cwd) (xkb_places tmp)
  end.

Lemma set_if_lookup_ne b v x w e : v <> w -> set_if b v x e !! w = e !! w.
Proof. intros H. unfold set_if. destruct b; [by apply lookup_insert_ne|done]. Qed.

Lemma preload_other tracer e w : w <> "LD_PRELOAD" -> choose_preload tracer e !! w = e !! w.
Proof. intros H. by apply set_if_lookup_ne. Qed.

Lemma choose_tmpdir_spec e :
  choose_tmpdir e !! "TMPDIR" = tmpdir_of e /\ forall w, w <> "TMPDIR" -> choose_tmpdir e !! w = e !! w.
Proof.
  unfold choose_tmpdir, tmpdir_of. cbn [List.find].
  assert (forall e' : environment, e' !! "TMPDIR" = None ->
    let e2 := if accessible None "/tmp" then <["TMPDIR" := "/tmp"]> e' else set_if (accessible None termux_tmp) "TMPDIR" termux_tmp e' in
    e2 !! "TMPDIR" = (if accessible None "/tmp" then Some "/tmp" else if accessible None termux_tmp then Some termux_tmp else None)
    /\ forall w, w <> "TMPDIR" -> e2 !! w = e' !! w) as H.
  { intros e' He. unfold set_if. destruct (accessible None "/tmp"), (accessible None termux_tmp); cbv zeta;
      (split; [by rewrite ?lookup_insert_eq|intros w Hw; by rewrite ?lookup_insert_ne by done]). }
  destruct (e !! "TMPDIR") as [t|] eqn:Et; cbn [default from_option id].
  - case_bool_decide as Hb; cbn zeta.
    + rewrite lookup_delete_eq. destruct (H (delete "TMPDIR" e) (lookup_delete_eq _ _)) as [H1 H2].
      split; [exact H1|]. intros w Hw. rewrite H2 by done. by apply lookup_delete_ne.
    + by rewrite Et.
  - rewrite bool_decide_eq_false_2 by done. cbv zeta. rewrite Et. by apply H.
Qed.

Lemma choose_xkb_spec cwd tmp e :
  choose_xkb cwd tmp e !! "XKB_CONFIG_ROOT"
    = match e !! "XKB_CONFIG_ROOT" with Some x => Some x | None => List.find (accessible cwd) (xkb_places tmp) end
  /\ forall w, w <> "XKB_CONFIG_ROOT" -> choose_xkb cwd tmp e !! w = e !! w.
Proof.
  unfold choose_xkb, xkb_places. cbv zeta. destruct (e !! "XKB_CONFIG_ROOT") as [x|] eqn:Ex; [by rewrite Ex|].
  cbn [List.find]. unfold set_if. set (p := snprintf 1024 _). destruct (accessible cwd p) eqn:Ep.
  - rewrite lookup_insert_eq. cbv iota. rewrite lookup_insert_eq. split; [done|]. intros w Hw. by apply lookup_insert_ne.
  - rewrite Ex. repeat case_bool; (split; [by rewrite ?lookup_insert_eq|intros w Hw; by rewrite ?lookup_insert_ne by done]).
Qed.

(** C39: the environment of the server. It starts exactly when there is a directory for
    its sockets and an accessible one with keyboard data. The TMPDIR and the
    XKB_CONFIG_ROOT of the user are kept, but for the TMPDIR that adb sets,
    /data/local/tmp, which is dropped even when it is the user's; otherwise
    the first accessible place of each list is taken. LD_PRELOAD becomes
    Termux's library, over what the user set, when that library is there, no
    tracer is attached and the command started later has none of its own, and is kept
    otherwise. No other variable changes. *)
Theorem start_environment args status (cwd_ok : bool) e :
  let cwd (t : string) : option string := if cwd_ok then None else Some t in
  (forall s, start args status cwd_ok e = Some s ->
     exists t x, tmpdir_of e = Some t /\ xkb_of (cwd t) t e = Some x
       /\ environ s !! "TMPDIR" = Some t /\ t <> "/data/local/tmp"
       /\ environ s !! "XKB_CONFIG_ROOT" = Some x /\ XkbBaseDirectory s = x /\ accessible (cwd t) x = true
       /\ xtrans_unix_path_x11 s = (xtrans_unix_dir_x11 s ++ "X")%string
       /\ xtrans_unix_dir_x11 s = (t ++ "/.X11-unix/")%string
       /\ (forall w, w <> "TMPDIR" -> w <> "XKB_CONFIG_ROOT" -> w <> "LD_PRELOAD" -> environ s !! w = e !! w)
       /\ environ s !! "LD_PRELOAD"
          = (if accessible None libtermux_exec && negb (detectTracer status) && bool_decide (e !! "XSTARTUP_LD_PRELOAD" = None)
             then Some libtermux_exec else e !! "LD_PRELOAD"))
  /\ (start args status cwd_ok e = None <->
        tmpdir_of e = None \/ exists t, tmpdir_of e = Some t /\ xkb_of (cwd t) t e = None).
Proof.
  intros cwd. unfold start. set (e1 := choose_preload _ e).
  assert (tmpdir_of e1 = tmpdir_of e) as Etmp by (unfold tmpdir_of, e1; by rewrite preload_other).
  destruct (choose_tmpdir_spec e1) as [Ht Hto]. rewrite Ht, Etmp.
  destruct (tmpdir_of e) as [t|] eqn:Et; [|split; [done|split; [by left|done]]].
  change (if cwd_ok then None else Some t) with (cwd t).
  destruct (choose_xkb_spec (cwd t) t (choose_tmpdir e1)) as [Hx Hxo].
  assert (choose_tmpdir e1 !! "XKB_CONFIG_ROOT" = e !! "XKB_CONFIG_ROOT") as Exk
    by (rewrite Hto by done; unfold e1; by rewrite preload_other).
  rewrite Exk in Hx.
  assert (forall x, choose_xkb (cwd t) t (choose_tmpdir e1) !! "XKB_CONFIG_ROOT" = Some x ->
    xkb_of (cwd t) t e = if accessible (cwd t) x then Some x else None) as Hof.
  { intros x E. rewrite Hx in E. unfold xkb_of. destruct (e !! "XKB_CONFIG_ROOT"); [by injection E as ->|].
    rewrite E. apply List.find_some in E as [_ ->]. done. }
  destruct (choose_xkb _ _ _ !! "XKB_CONFIG_ROOT") as [x|] eqn:Ex.
  2:{ split; [done|]. split; [|done]. intros _. right. exists t. split; [done|]. unfold xkb_of.
      destruct (e !! "XKB_CONFIG_ROOT"); [done|]. by rewrite Hx. }
  destruct (accessible (cwd t) x) eqn:Ea.
  - split; [|split; [done|]]. 2:{ intros [?|(t' & [= <-] & Hn)]; [done|]. rewrite (Hof x eq_refl), Ea in Hn. done. }
    intros s [= <-]. cbn [environ XkbBaseDirectory xtrans_unix_path_x11 xtrans_unix_dir_x11]. exists t, x.
    split_and!; try done.
    + by rewrite (Hof x eq_refl), Ea.
    + rewrite Hxo by done. by rewrite Ht, Etmp.
    + unfold tmpdir_of in Et. intros ->. destruct (e !! "TMPDIR"); [case_bool_decide; [|congruence]|];
        apply List.find_some in Et as [Hin _]; cbn in Hin; by destruct Hin as [Hin|[Hin|[]]].
    + clear. induction t as [|c t IH]; [done|]. exact (f_equal (String c) IH).
    + intros w H1 H2 H3. rewrite Hxo, Hto by done. by apply preload_other.
    + rewrite Hxo, Hto by done. unfold e1, choose_preload, set_if. case_bool; [by rewrite lookup_insert_eq|done].
  - split; [done|]. split; [|done]. intros _. right. exists t. split; [done|]. by rewrite (Hof x eq_refl), Ea.
Qed.
End start.

(** ** Arguments *)
Record options : Type := mk_options {
  xstartup : option string;
  legacyDrawing : bool; dri3 : bool; sysv_forced : bool;
  NoListenAll : bool;
  squares_queued : nat
}.
Definition no_options : options := mk_options None false true false false 0.

(** [CHECK_FOR_REQUIRED_ARGUMENTS] ends the server. *)
Definition ddxProcessArgument (argv : list string) (i : nat) (o : options) : outcome (nat * options) :=
  match argv !! i with
  | None => Fault OutOfBounds
  | Some a =>
      if bool_decide (a = "-xstartup") then
        match argv !! S i with
        | None => Fault FatalExit
        | Some c => Ret (2%nat, mk_options (Some c) (legacyDrawing o) (dri3 o) (sysv_forced o) (NoListenAll o) (squares_queued o))
        end
      else if bool_decide (a = "-legacy-drawing") then
        Ret (1%nat, mk_options (xstartup o) true (dri3 o) (sysv_forced o) (NoListenAll o) (squares_queued o))
      else if bool_decide (a = "-force-bgra") then Ret (1%nat, o)
      else if bool_decide (a = "-disable-dri3") then
        Ret (1%nat, mk_options (xstartup o) (legacyDrawing o) false (sysv_forced o) (NoListenAll o) (squares_queued o))
      else if bool_decide (a = "-force-sysvshm") then
        Ret (1%nat, mk_options (xstartup o) (legacyDrawing o) (dri3 o) true (NoListenAll o) (squares_queued o))
      else if bool_decide (a = "-check-drawing") then
        Ret (1%nat, mk_options (xstartup o) (legacyDrawing o) (dri3 o) (sysv_forced o) true (S (squares_queued o)))
      else Ret (0%nat, o)
  end.

(** *** What it does with an argument *)
Definition known_arguments : list string :=
  ["-xstartup"; "-legacy-drawing"; "-force-bgra"; "-disable-dri3"; "-force-sysvshm"; "-check-drawing"].

(** An argument of the server is taken with its value, one of the X
    server left to it; -force-bgra is taken and has no effect; -xstartup as the
    last one ends the server. *)
Theorem process_argument argv i o a :
  argv !! i = Some a ->
  match ddxProcessArgument argv i o with
  | Ret (n, o') => (n = 0%nat <-> a ∉ known_arguments) /\ (n = 0%nat -> o' = o) /\ (i + n <= List.length argv)%nat
      /\ (a = "-force-bgra" -> n = 1%nat /\ o' = o)
      /\ (n = 2%nat <-> a = "-xstartup") /\ (n = 2%nat -> xstartup o' = argv !! S i)
  | Fault f => f = FatalExit /\ a = "-xstartup" /\ List.length argv = S i
  end.
Proof.
  intros Ha. unfold ddxProcessArgument, known_arguments. rewrite Ha. pose proof (lookup_lt_Some _ _ _ Ha) as Hi.
  case_bool_decide as E1; [subst a|].
  - destruct (argv !! S i) as [c|] eqn:Ec.
    + apply lookup_lt_Some in Ec as Hc. cbn. split_and!; try done; [|lia]. split; [done|]. set_solver.
    + apply lookup_ge_None in Ec. split_and!; [done..|lia].
  - do 5 (case_bool_decide; [subst a; split_and!; try done; [|lia]; split; [done|]; set_solver|]).
    split_and!; try done; [|lia]. split; [|done]. intros _. set_solver.
Qed.

(** ** The command started with the server *)

(** Which command, if any; an empty argument overrides the variable. *)
Definition ddxReady (o : options) (e : environment) : option string :=
  if NoListenAll o then None
  else
    let x := match xstartup o with Some c => Some c | None => e !! "TERMUX_X11_XSTARTUP" end in
    if bool_decide (x = Some "") then None else x.

Definition ddxReady_xstartup (o : options) (e : environment) : option string :=
  if NoListenAll o || bool_decide (is_Some (xstartup o)) then xstartup o else e !! "TERMUX_X11_XSTARTUP".

Definition INHERIT_VAR (v : string) (e : environment) : environment :=
  let x := default "" (e !! ("XSTARTUP_" ++ v)%string) in
  delete ("XSTARTUP_" ++ v)%string (set_if (negb (bool_decide (x = ""))) v x e).

Definition inherited : list string := ["CLASSPATH"; "LD_LIBRARY_PATH"; "LD_PRELOAD"].

(** In the child; [DISPLAY] is an array of 16 bytes. *)
Definition child_environment (display : string) (e : environment) : outcome environment :=
  if (16 <=? 1 + String.length display)%nat then Fault OutOfBounds
  else Ret (foldl (fun e v => INHERIT_VAR v e) (<["DISPLAY" := (":" ++ display)%string]> e) inherited).

(** The command the child executes: only the first generation of the server has one. *)
Definition ddxReadyThread (serverGeneration : Z) (command : option string) : option string :=
  if serverGeneration =? 1 then command else None.

Definition xstartup_var (v : string) : string := ("XSTARTUP_" ++ v)%string.

Lemma inherit_spec v e w :
  v <> xstartup_var v ->
  INHERIT_VAR v e !! w =
    (if bool_decide (w = xstartup_var v) then None
     else if bool_decide (w = v) && negb (bool_decide (default "" (e !! xstartup_var v) = "")) then e !! xstartup_var v
     else e !! w).
Proof.
  intros Hv. unfold INHERIT_VAR, set_if. fold (xstartup_var v).
  destruct (decide (w = xstartup_var v)) as [->|Hw]; [by rewrite lookup_delete_eq, bool_decide_eq_true_2|].
  rewrite lookup_delete_ne, (bool_decide_eq_false_2 _ Hw) by done.
  destruct (e !! xstartup_var v) as [x|]; cbn [default from_option id].
  - destruct (bool_decide (x = "")); cbn [negb]; [by rewrite andb_false_r|]. rewrite andb_true_r.
    case_bool_decide as Hwv; [subst w; by rewrite lookup_insert_eq|by rewrite lookup_insert_ne].
  - rewrite bool_decide_eq_true_2 by done. by rewrite andb_false_r.
Qed.

Lemma xstartup_var_inj v w : xstartup_var v = xstartup_var w -> v = w.
Proof. unfold xstartup_var. intros E. cbn in E. injection E as E. exact E. Qed.

Lemma inherit_all vs e w :
  NoDup vs -> (forall v v', v ∈ vs -> v' ∈ vs -> v <> xstartup_var v') ->
  foldl (fun e v => INHERIT_VAR v e) e vs !! w =
    (if bool_decide (w ∈ xstartup_var <$> vs) then None
     else if bool_decide (w ∈ vs) && negb (bool_decide (default "" (e !! xstartup_var w) = "")) then e !! xstartup_var w
     else e !! w).
Proof.
  revert e. induction vs as [|v vs IH]; intros e Hnd Hx; [done|]. apply NoDup_cons in Hnd as [Hv Hnd]. cbn [foldl fmap list_fmap].
  assert (v <> xstartup_var v) as Hvv by (apply Hx; by left).
  rewrite IH; [|done|intros; apply Hx; by right]. rewrite (inherit_spec v e w Hvv).
  destruct (decide (w ∈ xstartup_var <$> vs)) as [Hin|Hin].
  { rewrite !(bool_decide_eq_true_2 (w ∈ _)); [done|by right|done]. }
  rewrite (bool_decide_eq_false_2 (w ∈ xstartup_var <$> vs)) by done.
  destruct (decide (w = xstartup_var v)) as [->|Hw].
  { rewrite (bool_decide_eq_false_2 (xstartup_var v ∈ vs)), (bool_decide_eq_true_2 (xstartup_var v = xstartup_var v)) by
      (done || (intros H; by apply (Hx (xstartup_var v) v); [by right|by left|])).
    by rewrite (bool_decide_eq_true_2 (xstartup_var v ∈ xstartup_var v :: _)) by left. }
  rewrite (bool_decide_eq_false_2 (w ∈ xstartup_var v :: _)) by (by rewrite not_elem_of_cons).
  rewrite (bool_decide_eq_false_2 _ Hw).
  destruct (decide (w = v)) as [->|Hwv].
  { rewrite (bool_decide_eq_false_2 (v ∈ vs)), (bool_decide_eq_true_2 (v = v)), (bool_decide_eq_true_2 (v ∈ v :: vs)) by (done || left).
    done. }
  rewrite (bool_decide_eq_false_2 (w = v)) by done. cbn [andb].
  destruct (decide (w ∈ vs)) as [Hi|Hi].
  - rewrite (bool_decide_eq_true_2 (w ∈ vs)), (bool_decide_eq_true_2 (w ∈ v :: vs)) by (done || by right). cbn [andb].
    assert (INHERIT_VAR v e !! xstartup_var w = e !! xstartup_var w) as ->; [|done].
    rewrite inherit_spec by done. rewrite bool_decide_eq_false_2 by (by intros E%xstartup_var_inj).
    rewrite (bool_decide_eq_false_2 (xstartup_var w = v)); [done|]. intros E. by apply (Hx v w); [left|right|].
  - by rewrite (bool_decide_eq_false_2 (w ∈ vs)), (bool_decide_eq_false_2 (w ∈ v :: vs)) by (done || by rewrite not_elem_of_cons).
Qed.

(** The environment of the command started with the server. The three variables
    that the X server needs differently are given to it from their copies,
    unless these are empty, and no copy is left; DISPLAY names the server; all
    other variables are as they were. A display number of fifteen or more
    characters overruns the array it is printed to. *)
Theorem xstartup_child display e :
  match child_environment display e with
  | Ret e' =>
      (String.length display < 15)%nat /\ e' !! "DISPLAY" = Some (":" ++ display)%string
      /\ (forall v, v ∈ inherited ->
            e' !! xstartup_var v = None
            /\ e' !! v = (if bool_decide (default "" (e !! xstartup_var v) = "") then e !! v else e !! xstartup_var v))
      /\ (forall w, w <> "DISPLAY" -> w ∉ inherited -> w ∉ (xstartup_var <$> inherited) -> e' !! w = e !! w)
  | Fault f => f = OutOfBounds /\ (15 <= String.length display)%nat
  end.
Proof.
  unfold child_environment. destruct (Nat.leb_spec 16 (1 + String.length display)) as [Hl|Hl]; [split; [done|lia]|].
  split; [lia|].
  assert (forall w, foldl (fun e v => INHERIT_VAR v e) (<["DISPLAY" := (":" ++ display)%string]> e) inherited !! w =
    if bool_decide (w = "DISPLAY") then Some (":" ++ display)%string
    else if bool_decide (w ∈ xstartup_var <$> inherited) then None
    else if bool_decide (w ∈ inherited) && negb (bool_decide (default "" (e !! xstartup_var w) = ""))
    then e !! xstartup_var w else e !! w) as H.
  { intros w. rewrite inherit_all.
    - rewrite (lookup_insert_ne _ "DISPLAY" (xstartup_var w)) by done.
      destruct (decide (w = "DISPLAY")) as [->|Hd]; [by rewrite lookup_insert_eq|].
      by rewrite lookup_insert_ne, (bool_decide_eq_false_2 _ Hd).
    - by apply (bool_decide_unpack _).
    - intros v v'. unfold inherited. rewrite !elem_of_cons, elem_of_nil. intros [->|[->|[->|[]]]] _; discriminate. }
  split_and!.
  - rewrite H. by rewrite bool_decide_eq_true_2.
  - intros v Hv. rewrite !H. split.
    + rewrite bool_decide_eq_false_2 by done. rewrite bool_decide_eq_true_2; [done|]. apply list_elem_of_fmap. eauto.
    + rewrite (bool_decide_eq_true_2 (v ∈ inherited)) by done.
      assert (v <> "DISPLAY" /\ v ∉ xstartup_var <$> inherited) as [H1 H2].
      { unfold inherited in *. cbn [fmap list_fmap]. rewrite !elem_of_cons, elem_of_nil in *. unfold xstartup_var. naive_solver. }
      rewrite bool_decide_eq_false_2, bool_decide_eq_false_2 by done. by case_bool_decide.
  - intros w H1 H2 H3. rewrite H. by rewrite !bool_decide_eq_false_2 by done.
Qed.

(** ** Asking for a connection *)
Definition PORT : Z := 7892.
(** With the NUL at its end. *)
Definition MAGIC : list Z := ((fun c => Z.of_nat (nat_of_ascii c)) <$> list_ascii_of_string "0xDEADBEEF") ++ [0].

(** What one turn of the server's loop meets: [accept] fails, or there is a client
    and [read] returns these bytes, [None] for an error. *)
Inductive visitor : Type := AcceptFails | Client (got : option (list Z)).

Definition greets (got : list Z) : bool :=
  (0 <? List.length got)%nat
  && bool_decide (take (List.length got `min` List.length MAGIC) got = take (List.length got `min` List.length MAGIC) MAGIC).

(** How often Java is told to send its broadcast, and how many sockets were closed. *)
Definition serve (s : nat * nat) (v : visitor) : nat * nat :=
  match v with
  | AcceptFails => s
  | Client got => ((if from_option greets false got then S s.1 else s.1), S s.2)
  end.

(** [None]: the function returned before its loop, which never ends. *)
Definition listenForConnections (socket : Z) (binds listens : bool) (l : list visitor) : option (nat * nat) :=
  if socket =? 0 then None
  else if negb binds then None
  else if negb listens then None
  else Some (foldl serve (0%nat, 0%nat) l).

(** The app's calls: [connect] succeeds at once, fails, or goes on. *)
Inductive connecting : Type := Connected | ConnectFails | InProgress.

Record attempt : Type := mk_attempt {
  socket : Z; nonblocking : bool; connect : connecting;
  poll : Z; getsockopt_ok : bool; so_error : Z;
  writes : Z                          (** bytes written, or -1 *)
}.

(** The result, what was sent, and the sockets it leaves open. *)
Definition requestConnection (a : attempt) : bool * list Z * list Z :=
  let fails := (false, [], []) in
  if socket a <? 0 then fails
  else if negb (nonblocking a) then fails
  else match connect a with
       | Connected | ConnectFails => fails
       | InProgress =>
           if poll a <=? 0 then fails
           else if negb (getsockopt_ok a) then fails
           else if negb (so_error a =? 0) then fails
           else if writes a <? 0 then fails
           else (true, take (Z.to_nat (writes a)) MAGIC, [])
       end.

(** *** The two sides together *)
Lemma greets_spec got :
  greets got = true <-> got <> [] /\ (got `prefix_of` MAGIC \/ MAGIC `prefix_of` got).
Proof.
  unfold greets. rewrite andb_true_iff, Nat.ltb_lt, bool_decide_eq_true. split.
  - intros [Hl He]. split; [by destruct got; [cbn in Hl; lia|]|].
    destruct (Nat.le_ge_cases (List.length got) (List.length MAGIC)) as [H|H].
    + left. rewrite Nat.min_l, take_ge in He by lia. rewrite He. apply prefix_take.
    + right. rewrite Nat.min_r in He by lia. rewrite (take_ge MAGIC) in He by lia. rewrite <- He. apply prefix_take.
  - intros [Hne H]. split; [destruct got; [done|cbn; lia]|].
    destruct H as [[l ->]|[l ->]]; rewrite length_app, ?Nat.min_l, ?Nat.min_r by lia;
      rewrite ?take_app_length, ?(take_ge got), ?(take_ge MAGIC) by lia; done.
Qed.

(** The app asks for a connection. Its request is true exactly when its
    connection was still being made, was made within the time, and the write
    did not fail; no socket stays open; and the server that reads what was
    written, however little, broadcasts once for it, whoever came before. A
    connection that is made at once counts as a failure, and nothing is sent.
    The server takes any beginning of the text, and the text with anything
    behind it. *)
Theorem rendezvous a before after :
  let '(sent, bytes, open) := requestConnection a in
  open = []
  /\ (sent = true <-> 0 <= socket a /\ nonblocking a = true /\ connect a = InProgress /\ 0 < poll a
        /\ getsockopt_ok a = true /\ so_error a = 0 /\ 0 <= writes a)
  /\ (sent = false -> bytes = []) /\ (connect a = Connected -> sent = false)
  /\ (sent = true -> 0 < writes a -> forall got, got `prefix_of` bytes -> got <> [] ->
        forall n closed, listenForConnections 3 true true (before ++ after) = Some (n, closed) ->
          listenForConnections 3 true true (before ++ Client (Some got) :: after) = Some (S n, S closed)).
Proof.
  assert (forall got, greets got = true -> forall n closed, listenForConnections 3 true true (before ++ after) = Some (n, closed) ->
    listenForConnections 3 true true (before ++ Client (Some got) :: after) = Some (S n, S closed)) as H.
  { intros got Hg n closed. unfold listenForConnections. cbn [Z.eqb negb]. intros [= E]. f_equal. revert E.
    rewrite !foldl_app. cbn [foldl]. set (s := foldl serve (0%nat, 0%nat) before). cbn [serve from_option]. rewrite Hg.
    clearbody s. revert s. induction after as [|v l IH]; intros s; cbn [foldl].
    - intros ->. done.
    - intros E. specialize (IH _ E). rewrite <- IH. f_equal. destruct v as [|o]; [done|].
      cbn. by destruct (from_option greets false o). }
  unfold requestConnection.
  assert (forall P : Prop, ~ P -> false = true <-> P) as Hno by (intros P HP; by split).
  destruct (Z.ltb_spec (socket a) 0); [split_and!; try done; apply Hno; lia|].
  destruct (nonblocking a); cbn [negb]; [|split_and!; try done; apply Hno; naive_solver].
  destruct (connect a); [split_and!; try done; apply Hno; naive_solver..|].
  destruct (Z.leb_spec (poll a) 0); [split_and!; try done; apply Hno; lia|].
  destruct (getsockopt_ok a); cbn [negb]; [|split_and!; try done; apply Hno; naive_solver].
  destruct (Z.eqb_spec (so_error a) 0); cbn [negb]; [|split_and!; try done; apply Hno; naive_solver].
  destruct (Z.ltb_spec (writes a) 0); [split_and!; try done; apply Hno; lia|].
  split_and!; try done. intros _ Hw got Hp Hne. apply H, greets_spec. split; [done|]. left.
  etrans; [exact Hp|apply prefix_take].
Qed.

(** ** The log *)

(** [len], a [size_t], is never negative; [reads] are the results of [read]. *)
Fixpoint logcatThread (fuel : nat) (reads : nat -> Z) (i : nat) : outcome unit :=
  let len := u64 (reads i) in
  if 0 <=? len then
    if 4096 <? len then Fault OutOfBounds
    else match fuel with O => Fault FuelExhausted | S fuel => logcatThread fuel reads (S i) end
  else Ret tt.

(** The loop never ends: after an error it writes beyond its buffer,
    and at the end of the file it goes on. *)
Theorem logcat_never_ends fuel reads i :
  (forall j, -1 <= reads j <= 4096) ->
  (exists j, (i <= j <= i + fuel)%nat /\ reads j = -1) /\ logcatThread fuel reads i = Fault OutOfBounds
  \/ (forall j, (i <= j <= i + fuel)%nat -> reads j <> -1) /\ logcatThread fuel reads i = Fault FuelExhausted.
Proof.
  intros Hr. revert i. induction fuel as [|fuel IH]; intros i; cbn [logcatThread];
    pose proof (wrap_u_bound 64 (reads i)) as Hb; pose proof (Hr i) as Hi.
  all: rewrite (proj2 (Z.leb_le _ _)) by lia.
  all: destruct (decide (reads i = -1)) as [E|E];
    [rewrite E; left; split; [exists i; split; [lia|done]|reflexivity]
    |rewrite wrap_u_small by lia; rewrite (proj2 (Z.ltb_ge _ _)) by lia].
  - right. split; [|done]. intros j Hj. by replace j with i by lia.
  - destruct (IH (S i)) as [[(j & Hj & Ej) ->]|[Hn ->]].
    + left. split; [|done]. exists j. split; [lia|done].
    + right. split; [|done]. intros j Hj. destruct (decide (j = i)) as [->|]; [done|]. apply Hn. lia.
Qed.

(** What the app logs of its output: [buf] is the line's buffer, [len] its size,
    which [getline] has set to what it has allocated. *)
Definition stderr_line (buf : list Z) (len : nat) : outcome (list Z) :=
  text ← cstring buf;
  last ← rd buf (len - 1);
  Ret (text ++ (if last =? 10 then [] else [10])).

(** The byte that is looked at is the last of the buffer, not of the line: a line
    that ends with a newline gets a second one, and one without gets none
    when an earlier line left a newline in the buffer's last byte. *)
Theorem log_lines_doubled line stale :
  Forall (fun b => b <> 0) line ->
  (last (0 :: stale) <> Some 10 ->
   stderr_line (line ++ [10] ++ 0 :: stale) (List.length (line ++ [10] ++ 0 :: stale)) = Ret (line ++ [10; 10]))
  /\ (last (0 :: stale) = Some 10 ->
      stderr_line (line ++ 0 :: stale) (List.length (line ++ 0 :: stale)) = Ret line).
Proof.
  intros Hl. assert (forall pre, rd (pre ++ 0 :: stale) (List.length (pre ++ 0 :: stale) - 1) = Ret (default 0 (last (0 :: stale)))) as Hrd.
  { intros pre. unfold rd. rewrite length_app. cbn [List.length].
    replace (List.length pre + S (List.length stale) - 1)%nat with (List.length pre + List.length stale)%nat by lia.
    rewrite lookup_app_r by lia. replace (List.length pre + List.length stale - List.length pre)%nat with (List.length stale) by lia.
    rewrite last_lookup. cbn [List.length Nat.pred].
    destruct (lookup_lt_is_Some_2 (0 :: stale) (List.length stale)) as [x ->]; [cbn; lia|done]. }
  assert (is_Some (last (0 :: stale))) as [x Hx] by (apply last_is_Some; done).
  split; intros H; unfold stderr_line.
  - rewrite (app_assoc line [10]), cstring_app by (apply Forall_app; split; [done|by repeat constructor]). cbind.
    rewrite Hrd, Hx. cbind. cbn [default from_option id]. rewrite (proj2 (Z.eqb_neq x 10)) by congruence.
    by rewrite <- app_assoc.
  - rewrite cstring_app by done. cbind. rewrite Hrd, H. cbind. cbn. by rewrite app_nil_r.
Qed.

Lemma log_lines_doubled_witness : stderr_line [104; 105; 10; 0; 0; 0; 0; 0] 8 = Ret [104; 105; 10; 10].
Proof. refine (proj1 (log_lines_doubled [104; 105] [0; 0; 0; 0] _) _); [by repeat constructor|discriminate]. Defined.

(** *** The children that print the log *)
Inductive child_step : Type :=
  | SetDeathSignal (sig : Z)
  | Dup2 (fd target : Z)
  | Execute (file : string) (args : list string)
  | JavaFatalError.

Definition SIGTERM : Z := 15.

(** [start], asked for the log of its process. *)
Definition logcat_child (getppid : Z) : list child_step :=
  [SetDeathSignal SIGTERM; Execute "logcat" ["logcat"; "--pid"; pretty getppid]].

(** The processes that run the rest of [start], the child last: [execlp] returns
    when it cannot execute the program. *)
Definition starting (debug : option string) (fork : option Z) (executes : bool) : list (option Z) :=
  match debug, fork with
  | Some _, Some child => None :: (if executes then [] else [Some child])
  | _, _ => [None]
  end.

(** One server is started, unless the log is asked for and the program that
    prints it cannot be executed: then the child becomes a second one. *)
Lemma one_server debug fork executes :
  starting debug fork executes = [None] <-> debug = None \/ fork = None \/ executes = true.
Proof. destruct debug, fork, executes; cbn; naive_solver. Qed.

(** The app's end of the pipe whose other end a [logcatThread] reads, when the
    server is asked for its log. *)
Definition getLogcatOutput (debug : option string) (pipe : Z * Z) : option (Z * Z) :=
  if bool_decide (debug = Some "1") then Some pipe else None.

(** The child of the app: [fork] is -1, 0 in the child or the child's number. *)
Definition startLogcat (fork fd getppid : Z) : list child_step :=
  if fork =? 0 then
    [Dup2 fd 1; Dup2 fd 2; SetDeathSignal SIGTERM;
     Execute "/system/bin/logcat" ["logcat"; ("--pid=" ++ pretty getppid)%string]; JavaFatalError]
  else [].

(** *** The arguments *)

(** [strcpy] to the place [i] of [dst]. *)
Fixpoint strcpy (dst : list Z) (i : nat) (src : list Z) : outcome (list Z) :=
  match src with
  | [] => Fault OutOfBounds
  | b :: src => dst ← wr dst i b; if b =? 0 then Ret dst else strcpy dst (S i) src
  end.

(** The copy of a string of Java: [calloc] of its length and one byte more. *)
Definition copy_argument (pjc : list Z) : outcome (list Z) :=
  s ← cstring pjc; strcpy (zeros (S (List.length s))) 0 pjc.

Lemma strcpy_fill p s rest :
  Forall (fun b => b <> 0) s -> strcpy (p ++ zeros (S (List.length s))) (List.length p) (s ++ 0 :: rest) = Ret (p ++ s ++ [0]).
Proof.
  intros Hs. revert p. induction Hs as [|b s Hb _ IH]; intros p; cbn [strcpy List.app].
  - rewrite wr_fill. cbn. by rewrite app_nil_r.
  - cbn [List.length]. rewrite (wr_fill p (S (List.length s)) b). cbind. rewrite (proj2 (Z.eqb_neq _ _) Hb).
    replace (S (List.length p)) with (List.length (p ++ [b])) by (rewrite length_app; cbn; lia).
    rewrite IH. by rewrite <- app_assoc.
Qed.

(** The copy has the bytes of the string and its end, and nothing is written
    outside of it. *)
Lemma argument_copied s rest :
  Forall (fun b => b <> 0) s -> copy_argument (s ++ 0 :: rest) = Ret (s ++ [0]).
Proof. intros Hs. unfold copy_argument. rewrite cstring_app by done. cbind. exact (strcpy_fill [] s rest Hs). Qed.

(** ** The threads of the process *)

(** The CPUs the process keeps to: what the mask, a local variable that is not
    cleared, already holds, and the second half of all. [CPU_SET] ignores what
    does not fit in the mask. *)
Definition affinity (mask : Z -> bool) (num_cpus cpu : Z) : bool :=
  mask cpu || ((Z.quot num_cpus 2 <=? cpu) && (cpu <? num_cpus) && (0 <=? cpu) && (cpu <? 1024)).

(** With a cleared mask the process has a CPU to run on whenever one is known,
    and each is one there is. *)
Theorem affinity_cleared num_cpus :
  num_cpus <= 1024 ->
  ((exists cpu, affinity (fun _ => false) num_cpus cpu = true) <-> 0 < num_cpus)
  /\ forall cpu, affinity (fun _ => false) num_cpus cpu = true -> 0 <= cpu < num_cpus.
Proof.
  intros Hn. assert (forall cpu, affinity (fun _ => false) num_cpus cpu = true <->
    Z.quot num_cpus 2 <= cpu /\ cpu < num_cpus /\ 0 <= cpu /\ cpu < 1024) as H.
  { intros cpu. unfold affinity. cbn [orb]. rewrite !andb_true_iff, !Z.leb_le, !Z.ltb_lt. tauto. }
  split; [|intros cpu; rewrite H; lia]. split; [intros [cpu Hc]; rewrite H in Hc; lia|].
  intros Hp. exists (num_cpus - 1). rewrite H. Z.quot_rem_to_equations. lia.
Qed.

(** The status of a child, as <sys/wait.h> reads it. *)
Definition WTERMSIG (s : Z) : Z := Z.land s 0x7f.
Definition WEXITSTATUS (s : Z) : Z := Z.shiftr (Z.land s 0xff00) 8.
Definition WIFEXITED (s : Z) : bool := WTERMSIG s =? 0.
Definition WIFSTOPPED (s : Z) : bool := Z.land s 0xff =? 0x7f.
Definition WIFSIGNALED (s : Z) : bool := 2 <=? WTERMSIG (s + 1).
Definition WIFCONTINUED (s : Z) : bool := s =? 0xffff.

(** What the thread prints, and its calls of [GiveUp], which tells the X server to
    end and returns. *)
Inductive wait_log : Type :=
  | Perror | GiveUp (signal : Z) | Exited (status : Z) | Killed (signal : Z) | Stopped (signal : Z) | Continued.
Definition SIGINT : Z := 2.
Definition SIGKILL : Z := 9.

Definition status_log (s : Z) : list wait_log :=
  if WIFEXITED s then [Exited (WEXITSTATUS s)]
  else if WIFSIGNALED s then [Killed (WTERMSIG s)]
  else if WIFSTOPPED s then [Stopped (WEXITSTATUS s)]
  else if WIFCONTINUED s then [Continued]
  else [].

Definition child_ended (s : Z) : bool := WIFEXITED s || WIFSIGNALED s.

(** [results] are the answers of [waitpid], [None] is -1, which leaves the
    variable [status] as it is; it has no value at first. *)
Fixpoint wait_command (fuel : nat) (results : nat -> option Z) (i : nat) (status : Z) : outcome (list wait_log) :=
  let failed := match results i with None => [Perror; GiveUp SIGKILL] | Some _ => [] end in
  let status := default status (results i) in
  let log := failed ++ status_log status in
  if child_ended status then Ret (log ++ [GiveUp SIGINT])
  else match fuel with
       | O => Fault FuelExhausted
       | S fuel => l ← wait_command fuel results (S i) status; Ret (log ++ l)
       end.

(** The thread reports what happens to the command until it has ended, and then,
    once, tells the server to end; as many rounds as answers are enough. But
    when [waitpid] keeps failing, what the variable held decides: the thread
    ends at once on a value that looks like an end, and otherwise never. *)
Theorem command_waited_for results before last garbage fuel :
  (forall i s, before !! i = Some s -> results i = Some s /\ child_ended s = false) ->
  results (List.length before) = Some last -> child_ended last = true -> (List.length before <= fuel)%nat ->
  wait_command fuel results 0 garbage = Ret ((before ≫= status_log) ++ status_log last ++ [GiveUp SIGINT])
  /\ (child_ended garbage = true ->
       wait_command fuel (fun _ => None) 0 garbage = Ret ([Perror; GiveUp SIGKILL] ++ status_log garbage ++ [GiveUp SIGINT]))
  /\ (child_ended garbage = false -> forall fuel, wait_command fuel (fun _ => None) 0 garbage = Fault FuelExhausted).
Proof.
  intros Hb Hl Hend Hfuel. split; [|split].
  - assert (forall l k g f, (forall i s, l !! i = Some s -> results (k + i)%nat = Some s /\ child_ended s = false) ->
      results (k + List.length l)%nat = Some last -> (List.length l <= f)%nat ->
      wait_command f results k g = Ret ((l ≫= status_log) ++ status_log last ++ [GiveUp SIGINT])) as H.
    2:{ by apply H. }
    clear -Hend. induction l as [|s l IH]; intros k g f Hl He Hf.
    + rewrite Nat.add_0_r in He. destruct f; cbn [wait_command]; rewrite He; cbn [from_option id app]; by rewrite Hend.
    + destruct f as [|f]; [cbn in Hf; lia|]. destruct (Hl 0%nat s eq_refl) as [E Es]. rewrite Nat.add_0_r in E.
      cbn [wait_command]. rewrite E. cbn [from_option id app]. rewrite Es. rewrite (IH (S k) s f).
      * cbind. cbn [app]. by rewrite bind_cons, <- app_assoc.
      * intros i s' Hi. destruct (Hl (S i) s' Hi) as [E2 Es2]. split; [|done]. rewrite <- E2. f_equal. lia.
      * rewrite <- He. f_equal. cbn. lia.
      * cbn in Hf. lia.
  - intros Hg. destruct fuel; cbn [wait_command from_option]; by rewrite Hg, <- app_assoc.
  - intros Hg f. generalize 0%nat. induction f as [|f IH]; intros k; cbn [wait_command from_option]; rewrite Hg; [done|].
    by rewrite IH.
Qed.

(** A command that stops, goes on and exits with 3. *)
Lemma command_waited_for_witness :
  wait_command 2 (fun i => [0x137f; 0xffff; 0x300] !! i) 0 0x80 = Ret [Stopped 19; Continued; Exited 3; GiveUp SIGINT]
  /\ forall fuel, wait_command fuel (fun _ => None) 0 0x137f = Fault FuelExhausted.
Proof.
  split.
  - refine (proj1 (command_waited_for (fun i => [0x137f; 0xffff; 0x300] !! i) [0x137f; 0xffff] 0x300 0x80 2 _ eq_refl eq_refl _));
      [|cbn; lia].
    intros [|[|[|i]]] s H; cbn in H; try discriminate; injection H as <-; by split.
  - apply (command_waited_for (fun i => [0x300] !! i) [] 0x300 0x137f 0); done.
Defined.

(** ** A concrete device *)
Definition termux_files (cwd : option string) (p : string) : bool :=
  bool_decide (p ∈ ["/data/data/com.termux/files/usr/tmp"; "/data/data/com.termux/files/usr/share/X11/xkb"; libtermux_exec]).

Lemma start_environment_example :
  start termux_files [":0"] (Some ["Name:	app"; "TracerPid:	0"]) true {["TMPDIR" := "/data/local/tmp"; "HOME" := "/"]}
  = Some (mk_started ["Xlorie"; ":0"]
      {["TMPDIR" := termux_tmp; "HOME" := "/"; "LD_PRELOAD" := libtermux_exec;
        "XKB_CONFIG_ROOT" := "/data/data/com.termux/files/usr/share/X11/xkb"]}
      (termux_tmp ++ "/.X11-unix/X") (termux_tmp ++ "/.X11-unix/") None "/data/data/com.termux/files/usr/share/X11/xkb").
Proof. vm_compute. reflexivity. Qed.

Lemma dirname_examples :
  dirname "/data/data/com.termux/files/usr/tmp" = "/data/data/com.termux/files/usr" /\ dirname "/tmp/" = "/" /\ dirname "tmp" = "."
  /\ dirname "//a//b//" = "//a" /\ dirname "" = ".".
Proof. by vm_compute. Qed.
