(* ===== verification/Natives.v ===== *)
(** * Native methods (activity.c 380-410, cmdentrypoint.c, LorieView.java 907-941,
    CmdEntryPoint.java 170-174)

    Java calls C in two ways: the methods of the app's view are registered from a
    table when the library is loaded, those of the server's entry point are
    found by the names of the functions.  Here are Java's declarations, the
    table, and the parameters of the C functions, after the two that every
    native method has. *)
From S2P Require Import Prelude.
#[local] Open Scope string_scope.
#[local] Open Scope list_scope.
#[local] Open Scope Z_scope.

(** ** Data *)
Inductive java_type : Type :=
  | JVoid | JBoolean | JInt | JFloat | JBytes | JStrings | JObject (cls : string).
Inductive c_type : Type := Cvoid | Cjboolean | Cjint | Cjfloat | Creference.
#[export] Instance java_type_eq_dec : EqDecision java_type.
Proof. solve_decision. Defined.
#[export] Instance c_type_eq_dec : EqDecision c_type.
Proof. solve_decision. Defined.

Record declaration : Type := mk_decl { decl_name : string; params : list java_type; result : java_type }.
Record JNINativeMethod : Type := mk_native { name : string; signature : string; fnPtr : string }.
Record prototype : Type := mk_proto { c_name : string; c_params : list c_type; c_result : c_type }.

Definition String_ : java_type := JObject "java/lang/String".
Definition ParcelFileDescriptor : java_type := JObject "android/os/ParcelFileDescriptor".

(** LorieView's native methods. *)
Definition view_natives : list declaration := [
  mk_decl "nativeInit" [] JVoid;
  mk_decl "surfaceChanged" [JObject "android/view/Surface"] JVoid;
  mk_decl "setFiltering" [JInt] JVoid;
  mk_decl "connect" [JInt] JVoid;
  mk_decl "connected" [] JBoolean;
  mk_decl "startLogcat" [JInt] JVoid;
  mk_decl "setClipboardSyncEnabled" [JBoolean; JBoolean] JVoid;
  mk_decl "sendClipboardAnnounce" [] JVoid;
  mk_decl "sendClipboardEvent" [JBytes] JVoid;
  mk_decl "sendWindowChange" [JInt; JInt; JInt; String_] JVoid;
  mk_decl "setViewport" [JInt; JInt; JInt; JInt; JInt; JInt] JVoid;
  mk_decl "setRendererZoom" [JInt] JVoid;
  mk_decl "sendMouseEvent" [JFloat; JFloat; JInt; JBoolean; JBoolean] JVoid;
  mk_decl "sendTouchEvent" [JInt; JInt; JInt; JInt] JVoid;
  mk_decl "sendStylusEvent" [JFloat; JFloat; JInt; JInt; JInt; JInt; JInt; JBoolean; JBoolean] JVoid;
  mk_decl "requestStylusEnabled" [JBoolean] JVoid;
  mk_decl "sendKeyEvent" [JInt; JInt; JBoolean; JInt] JBoolean;
  mk_decl "sendTextEvent" [JBytes] JVoid;
  mk_decl "requestConnection" [] JBoolean
].

(** CmdEntryPoint's. *)
Definition entry_natives : list declaration := [
  mk_decl "start" [JStrings] JBoolean;
  mk_decl "getXConnection" [] ParcelFileDescriptor;
  mk_decl "getLogcatOutput" [] ParcelFileDescriptor;
  mk_decl "connected" [] JBoolean;
  mk_decl "listenForConnections" [] JVoid
].

(** The table of [JNI_OnLoad]. *)
Definition methods : list JNINativeMethod := [
  mk_native "nativeInit" "()V" "nativeInit";
  mk_native "surfaceChanged" "(Landroid/view/Surface;)V" "rendererSetWindow";
  mk_native "setViewport" "(IIIIII)V" "rendererSetViewport";
  mk_native "setRendererZoom" "(I)V" "rendererSetZoom";
  mk_native "setFiltering" "(I)V" "rendererSetFiltering";
  mk_native "connect" "(I)V" "connect_";
  mk_native "connected" "()Z" "connected";
  mk_native "startLogcat" "(I)V" "startLogcat";
  mk_native "setClipboardSyncEnabled" "(ZZ)V" "setClipboardSyncEnabled";
  mk_native "sendClipboardAnnounce" "()V" "sendClipboardAnnounce";
  mk_native "sendClipboardEvent" "([B)V" "sendClipboardEvent";
  mk_native "sendWindowChange" "(IIILjava/lang/String;)V" "sendWindowChange";
  mk_native "sendMouseEvent" "(FFIZZ)V" "sendMouseEvent";
  mk_native "sendTouchEvent" "(IIII)V" "sendTouchEvent";
  mk_native "sendStylusEvent" "(FFIIIIIZZ)V" "sendStylusEvent";
  mk_native "requestStylusEnabled" "(Z)V" "requestStylusEnabled";
  mk_native "sendKeyEvent" "(IIZI)Z" "sendKeyEvent";
  mk_native "sendTextEvent" "([B)V" "sendTextEvent";
  mk_native "requestConnection" "()Z" "requestConnection"
].

(** The functions of activity.c and renderer.c the table names. *)
Definition functions : list prototype := [
  mk_proto "nativeInit" [] Cvoid;
  mk_proto "rendererSetWindow" [Creference] Cvoid;
  mk_proto "rendererSetViewport" [Cjint; Cjint; Cjint; Cjint; Cjint; Cjint] Cvoid;
  mk_proto "rendererSetZoom" [Cjint] Cvoid;
  mk_proto "rendererSetFiltering" [Cjint] Cvoid;
  mk_proto "connect_" [Cjint] Cvoid;
  mk_proto "connected" [] Cjboolean;
  mk_proto "startLogcat" [Cjint] Cvoid;
  mk_proto "setClipboardSyncEnabled" [Cjboolean; Cjboolean] Cvoid;
  mk_proto "sendClipboardAnnounce" [] Cvoid;
  mk_proto "sendClipboardEvent" [Creference] Cvoid;
  mk_proto "sendWindowChange" [Cjint; Cjint; Cjint; Creference] Cvoid;
  mk_proto "sendMouseEvent" [Cjfloat; Cjfloat; Cjint; Cjboolean; Cjboolean] Cvoid;
  mk_proto "sendTouchEvent" [Cjint; Cjint; Cjint; Cjint] Cvoid;
  mk_proto "sendStylusEvent" [Cjfloat; Cjfloat; Cjint; Cjint; Cjint; Cjint; Cjint; Cjboolean; Cjboolean] Cvoid;
  mk_proto "requestStylusEnabled" [Cjboolean] Cvoid;
  mk_proto "sendKeyEvent" [Cjint; Cjint; Cjboolean] Cjboolean;
  mk_proto "sendTextEvent" [Creference] Cvoid;
  mk_proto "requestConnection" [] Cjboolean
].

(** The functions of cmdentrypoint.c that Java finds by name. *)
Definition exported : list prototype := [
  mk_proto "Java_com_termux_x11_CmdEntryPoint_start" [Creference] Cjboolean;
  mk_proto "Java_com_termux_x11_CmdEntryPoint_getXConnection" [] Creference;
  mk_proto "Java_com_termux_x11_CmdEntryPoint_getLogcatOutput" [] Creference;
  mk_proto "Java_com_termux_x11_CmdEntryPoint_connected" [] Cjboolean;
  mk_proto "Java_com_termux_x11_CmdEntryPoint_listenForConnections" [] Cvoid
].

(** ** What Java expects of a native method *)
Definition type_signature (t : java_type) : string :=
  match t with
  | JVoid => "V" | JBoolean => "Z" | JInt => "I" | JFloat => "F" | JBytes => "[B"
  | JStrings => "[Ljava/lang/String;"
  | JObject c => "L" +:+ c +:+ ";"
  end.

Definition method_signature (d : declaration) : string :=
  "(" +:+ foldr (fun t s => type_signature t +:+ s) "" (params d) +:+ ")" +:+ type_signature (result d).

Definition passed_as (t : java_type) : c_type :=
  match t with
  | JVoid => Cvoid | JBoolean => Cjboolean | JInt => Cjint | JFloat => Cjfloat
  | JBytes | JStrings | JObject _ => Creference
  end.

(** The function takes the arguments it is given, or the first of them. *)
Definition accepts (f : prototype) (d : declaration) : Prop :=
  c_params f `prefix_of` (passed_as <$> params d) /\ c_result f = passed_as (result d).
#[export] Instance accepts_dec f d : Decision (accepts f d).
Proof. unfold accepts. apply _. Defined.

(** [RegisterNatives] finds a method for each entry of the table, or fails at the
    first that has none. *)
Definition declared (class : list declaration) (m : JNINativeMethod) : bool :=
  existsb (fun d => String.eqb (decl_name d) (name m) && String.eqb (method_signature d) (signature m)) class.
Definition RegisterNatives (class : list declaration) (l : list JNINativeMethod) : bool := forallb (declared class) l.

(** The result of RegisterNatives is not looked at. *)
Definition JNI_VERSION_1_6 : Z := 0x00010006.
Definition JNI_OnLoad (class : list declaration) : Z * bool := (JNI_VERSION_1_6, RegisterNatives class methods).

(** ** Properties *)

(** Java and C agree on every native method. The whole table is registered; each
    native method of the view has exactly one entry, by its name and the
    signature of its declaration, and the entry's function takes what Java
    passes and returns what Java expects; each native method of the entry point
    has a function of the name Java looks for that does, too; and there are no
    others. *)
Theorem natives_agree :
  JNI_OnLoad view_natives = (JNI_VERSION_1_6, true)
  /\ NoDup (name <$> methods) /\ NoDup (c_name <$> functions) /\ length methods = length view_natives
  /\ Forall (fun d => Exists (fun m => name m = decl_name d /\ signature m = method_signature d
        /\ Exists (fun f => c_name f = fnPtr m /\ accepts f d) functions) methods) view_natives
  /\ Forall (fun d => Exists (fun f => c_name f = "Java_com_termux_x11_CmdEntryPoint_" +:+ decl_name d /\ accepts f d)
       exported) entry_natives
  /\ length exported = length entry_natives.
Proof.
  split; [vm_compute; reflexivity|]. split; [by apply (bool_decide_unpack _); vm_compute|].
  split; [by apply (bool_decide_unpack _); vm_compute|]. split; [done|].
  split; [by apply (bool_decide_unpack _); vm_compute|]. split; [by apply (bool_decide_unpack _); vm_compute|done].
Qed.

(** An entry that no declaration matches makes the registration fail, and the
    library is loaded all the same. *)
Theorem registration_unchecked class m :
  m ∈ methods -> declared class m = false -> JNI_OnLoad class = (JNI_VERSION_1_6, false).
Proof.
  intros Hm Hd. unfold JNI_OnLoad, RegisterNatives. f_equal. apply not_true_iff_false. rewrite forallb_forall.
  intros H. rewrite (H m) in Hd; [done|]. by apply list_elem_of_In.
Qed.

Lemma registration_unchecked_witness : JNI_OnLoad [] = (JNI_VERSION_1_6, false).
Proof. apply (registration_unchecked [] (mk_native "nativeInit" "()V" "nativeInit")); [left|reflexivity]. Defined.
