(* ===== verification/Screen.v ===== *)
(** * The screen (InitOutput.c 108-134, 296-320, 448-669 and 701-728)

    The server state shared with the app, the root window's pixmap, the hooks
    of the screen, and what happens when the size changes.  The windows are a
    tree, [window_pixmap] says which pixmap each of them shows; the pixmaps
    have the private parts of [Present], and the buffers announced to the app
    are those of [Server].  Walking the tree is the X server's. *)
From stdpp Require Import pretty.
From S2P Require Import Prelude Buffer GlBuffers Events Server Present.

(** ** The shared state *)
Record vendor : Type := mk_vendor { stateFd : Z; state_at : Z; locks_ready : bool }.
Definition no_vendor : vendor := mk_vendor (-1) 0 false.

(** [region] and [address] are the results of [LorieBuffer_createRegion] and
    [mmap], which fails with -1. *)
Definition OsVendorInit (region address : Z) (v : vendor) : outcome vendor :=
  if negb (stateFd v =? -1) then Ret v
  else if region =? -1 then Fault FatalExit
  else if address =? 0 then Fault FatalExit
  else if address =? -1 then Fault OutOfBounds
  else Ret (mk_vendor region address true).

(** ** Modes *)
Record libxcvt_mode_info : Type := mk_info {
  hdisplay : Z; vdisplay : Z; dot_clock : Z;
  hsync_start : Z; hsync_end : Z; htotal : Z;
  vsync_start : Z; vsync_end : Z; vtotal : Z; mode_flags : Z
}.

Record xRRModeInfo : Type := mk_mode {
  mode_name : string; nameLength : Z;
  mode_width : Z; mode_height : Z; dotClock : Z;
  hSyncStart : Z; hSyncEnd : Z; hTotal : Z;
  vSyncStart : Z; vSyncEnd : Z; vTotal : Z; modeFlags : Z
}.

(** The mode asked of [RRModeGet]. *)
Definition lorieCvt (gen : Z -> Z -> Z -> libxcvt_mode_info) (width height framerate : Z) : xRRModeInfo :=
  let i := gen width height framerate in
  let name := (pretty (hdisplay i) +:+ "x" +:+ pretty (vdisplay i))%string in
  mk_mode name (Z.of_nat (String.length name)) (u16 (hdisplay i)) (u16 (vdisplay i)) (u32 (dot_clock i * 1000))
    (u16 (hsync_start i)) (u16 (hsync_end i)) (u16 (htotal i)) (u16 (vsync_start i)) (u16 (vsync_end i)) (u16 (vtotal i))
    (u32 (mode_flags i)).

(** ** Windows and pixmaps *)
Inductive window : Type := Window (id : Z) (children : list window).
Definition win_id (w : window) : Z := match w with Window i _ => i end.

(** Induction that reaches the children. *)
Fixpoint window_ind' (P : window -> Prop) (H : forall i cs, Forall P cs -> P (Window i cs)) (w : window) : P w :=
  match w with
  | Window i cs =>
      H i cs ((fix go l := match l return Forall P l with [] => Forall_nil_2 P | c :: l => Forall_cons_2 P c l (window_ind' P H c) (go l) end) cs)
  end.

Inductive walk : Type := WT_WALKCHILDREN | WT_DONTWALKCHILDREN.

(** The X server's [TraverseTree]: a window before its children, which are left
    out when the visitor says so. *)
Class Traversal : Type := TraverseTree : forall S : Type, (Z -> S -> walk * S) -> window -> S -> S.
Class TraversalLaws `{Traversal} : Prop :=
  traverse_window : forall S (visit : Z -> S -> walk * S) i cs s,
    TraverseTree S visit (Window i cs) s =
      match visit i s with
      | (WT_WALKCHILDREN, s) => foldl (fun s c => TraverseTree S visit c s) s cs
      | (WT_DONTWALKCHILDREN, s) => s
      end.

Record pixmap : Type := mk_pixmap { pix_size : Z * Z; refcnt : Z; priv : LoriePixmapPriv }.

Record screen : Type := mk_scr {
  queue : present_state;
  pscreen_size : Z * Z; root_drawable : Z * Z; config_size : Z * Z;   (** pScreen, its root, pvfb->root *)
  mm_size : Z * Z;
  tree : window;                      (** the root window *)
  window_pixmap : gmap Z Z;
  pixmaps : gmap Z pixmap;
  devPrivate : Z;                     (** the screen's pixmap, 0 is NULL *)
  damage : option Z;                  (** where it is registered *)
  conn : server;
  res : list resource;
  cursor_moved : bool
}.

Definition with_queue q s := mk_scr q (pscreen_size s) (root_drawable s) (config_size s) (mm_size s) (tree s) (window_pixmap s)
  (pixmaps s) (devPrivate s) (damage s) (conn s) (res s) (cursor_moved s).
Definition with_sizes sz mm s := mk_scr (queue s) sz sz sz mm (tree s) (window_pixmap s)
  (pixmaps s) (devPrivate s) (damage s) (conn s) (res s) (cursor_moved s).
Definition with_pixmaps m r s := mk_scr (queue s) (pscreen_size s) (root_drawable s) (config_size s) (mm_size s) (tree s) (window_pixmap s)
  m (devPrivate s) (damage s) (conn s) r (cursor_moved s).
Definition with_windows w m s := mk_scr (queue s) (pscreen_size s) (root_drawable s) (config_size s) (mm_size s) (tree s) w
  m (devPrivate s) (damage s) (conn s) (res s) (cursor_moved s).
Definition with_dev d s := mk_scr (queue s) (pscreen_size s) (root_drawable s) (config_size s) (mm_size s) (tree s) (window_pixmap s)
  (pixmaps s) d (damage s) (conn s) (res s) (cursor_moved s).
Definition with_damage d s := mk_scr (queue s) (pscreen_size s) (root_drawable s) (config_size s) (mm_size s) (tree s) (window_pixmap s)
  (pixmaps s) (devPrivate s) d (conn s) (res s) (cursor_moved s).
Definition with_conn c s := mk_scr (queue s) (pscreen_size s) (root_drawable s) (config_size s) (mm_size s) (tree s) (window_pixmap s)
  (pixmaps s) (devPrivate s) (damage s) c (res s) (cursor_moved s).
Definition with_cursor_moved s := mk_scr (queue s) (pscreen_size s) (root_drawable s) (config_size s) (mm_size s) (tree s) (window_pixmap s)
  (pixmaps s) (devPrivate s) (damage s) (conn s) (res s) true.

Definition buffer_of (q : Z) (m : gmap Z pixmap) : option LorieBuffer := x ← m !! q; Present.buffer (priv x).

Section screen.
Context (p : platform) (legacyDrawing : bool).

(** The lock of a pixmap's private part is given up, or taken. *)
Definition unlock_pixmap (x : pixmap) : pixmap :=
  if bool_decide (is_Some (Present.buffer (priv x))) && negb (locked_ptr (priv x) =? 0)
  then mk_pixmap (pix_size x) (refcnt x) (set_wasLocked false (set_locked 0 (priv_unlock p (priv x)))) else x.
Definition lock_pixmap (x : pixmap) : pixmap :=
  if bool_decide (is_Some (Present.buffer (priv x))) && (locked_ptr (priv x) =? 0)
  then mk_pixmap (pix_size x) (refcnt x) (set_wasLocked false (fst (priv_lock p (priv x)))) else x.

(** With the hook it is wrapped around, which sets the pixmap. *)
Definition lorieSetWindowPixmap (w newPixmap : Z) (s : screen) : screen :=
  let m := pixmaps s in
  let m := if w =? win_id (tree s) then
             let m := match window_pixmap s !! w with Some old => alter unlock_pixmap old m | None => m end in
             alter lock_pixmap newPixmap m
           else m in
  with_windows (<[w := newPixmap]> (window_pixmap s)) m s.

Definition lorieSetPixmapVisitWindow (data : Z) (w : Z) (s : screen) : walk * screen :=
  if bool_decide (window_pixmap s !! w = Some data)
  then (WT_WALKCHILDREN, lorieSetWindowPixmap w (devPrivate s) s) else (WT_DONTWALKCHILDREN, s).

(** The X server's CreatePixmap with our hook, at a new address. *)
Definition CreatePixmap (q bid w h : Z) (s : screen) : outcome (option screen) :=
  '(v, _, r) ← lorieCreatePixmap p legacyDrawing bid w h true (res s);
  Ret match v with
      | Some v => Some (with_pixmaps (<[q := mk_pixmap (w, h) 1 v]> (pixmaps s)) r s)
      | None => None
      end.

(** And its DestroyPixmap, which calls ours for the last reference. *)
Definition DestroyPixmap (q : Z) (s : screen) : outcome screen :=
  match pixmaps s !! q with
  | None => Fault NullDeref
  | Some x =>
      if 1 <? refcnt x then Ret (with_pixmaps (<[q := mk_pixmap (pix_size x) (refcnt x - 1) (priv x)]> (pixmaps s)) (res s) s)
      else
        let s := match Present.buffer (priv x) with Some b => with_conn (lorieUnregisterBuffer b (conn s)) s | None => s end in
        '(_, _, r) ← lorieExaDestroyPixmap p (priv x) (res s);
        Ret (with_pixmaps (delete q (pixmaps s)) r s)
  end.

Definition register_screen_pixmap (s : screen) : screen :=
  match buffer_of (devPrivate s) (pixmaps s) with Some b => with_conn (lorieRegisterBuffer b (conn s)) s | None => s end.

(** [q] is the address of the new pixmap, [bid] the number of its buffer; the copy of
    the old picture is the X server's. *)
Definition lorieRRScreenSetSize `{Traversal} (restore : screen -> screen) (mm : Z -> Z) (damage_ok : bool)
  (q bid width height : Z) (s : screen) : outcome screen :=
  let s := restore (with_queue (loriePerformVblanks (queue s)) s) in
  let s := with_sizes (width, height) (mm width, mm height) s in
  let oldPixmap := devPrivate s in
  c ← CreatePixmap q bid width height s;
  match c with
  | None => if damage_ok then Fault NullDeref else Fault FatalExit
  | Some s =>
      let s := with_damage None (with_dev q s) in
      if negb damage_ok then Fault FatalExit
      else
        let s := with_damage (Some q) s in
        s ← (if oldPixmap =? 0 then Ret s
             else DestroyPixmap oldPixmap (TraverseTree screen (lorieSetPixmapVisitWindow oldPixmap) (tree s) s));
        Ret (with_cursor_moved (register_screen_pixmap s))
  end.

Definition lorieCreateScreenResources (damage_ok : bool) (q bid : Z) (s : screen) : outcome screen :=
  c ← CreatePixmap q bid (fst (pscreen_size s)) (snd (pscreen_size s)) s;
  match c with
  | None => if damage_ok then Fault NullDeref else Fault FatalExit
  | Some s =>
      let s := with_dev q s in
      if negb damage_ok then Fault FatalExit
      else Ret (register_screen_pixmap (with_damage (Some q) s))
  end.

(** The windows are gone when the screen is closed. *)
Definition lorieCloseScreen (s : screen) : outcome screen :=
  s ← DestroyPixmap (devPrivate s) s; Ret (with_dev 0 s).
End screen.

(** ** Making the screen *)

(** RandR's requests: a CRTC and a mode are there or not, [notify] is what
    [RRCrtcNotify] answers; and the rotations there are. *)
Definition lorieRRCrtcSet (crtc mode notify : bool) : bool := if crtc && mode then notify else false.
Definition RR_Rotate_0 : Z := 1.
Definition lorieRRGetInfo : Z * bool := (RR_Rotate_0, true).

(** Every five seconds: what is logged, the counter of frames, and when to call again. *)
Definition lorieFramecounter (renderedFrames : Z) : option Z * Z * Z :=
  ((if truth renderedFrames then Some renderedFrames else None), 0, 5000).

(** What is called to make it, in the order of the calls; all are the X server's,
    but for [RandR]. *)
Inductive randr_call : Type :=
  | ScreenInit | SizeRange (min max : Z) | Mode (m : xRRModeInfo) | CrtcCreate | GammaSetSize (n : Z) | OutputCreate (name : list Z)
  | SetClones | SetModes | SetCrtcs | SetConnection | CrtcNotify.

Inductive screen_call : Type :=
  | SetVisualTypesAndMasks | SetPixmapDepths | FbScreenInit (w h : Z) | Dri3ScreenInit | FbPictureInit | ExaDriverInit
  | RandR (c : randr_call) | PointerInitialize | CreateDefColormap | PresentScreenInit.

(** [a && b && ...]: whether all succeed, and the calls that were made. *)
Fixpoint chain {A} (ok : A -> bool) (l : list A) : bool * list A :=
  match l with
  | [] => (true, [])
  | c :: l => if ok c then let (r, done_) := chain ok l in (r, c :: done_) else (false, [c])
  end.

Definition lorieRandRInit (gen : Z -> Z -> Z -> libxcvt_mode_info) (w h : Z) (c : root_config) : list randr_call :=
  [ScreenInit; SizeRange 1 32767; Mode (lorieCvt gen w h (framerate c)); CrtcCreate; GammaSetSize 256; OutputCreate (root_name c);
   SetClones; SetModes; SetCrtcs; SetConnection; CrtcNotify].

Definition screen_calls (gen : Z -> Z -> Z -> libxcvt_mode_info) (w h : Z) (c : root_config) (use_dri3 : bool) : list screen_call :=
  [SetVisualTypesAndMasks; SetPixmapDepths; FbScreenInit w h] ++ (if use_dri3 then [Dri3ScreenInit] else [])
  ++ [FbPictureInit; ExaDriverInit] ++ (RandR <$> lorieRandRInit gen w h c) ++ [PointerInitialize; CreateDefColormap; PresentScreenInit].

(** [RRScreenSetSizeRange] has no result. *)
Definition succeeds (ok : screen_call -> bool) (c : screen_call) : bool :=
  match c with RandR (SizeRange _ _) => true | _ => ok c end.

(** A function pointer of the screen: the X server's, or the one of this file. *)
Inductive hook : Type := XServer | Lorie.

(** The screen in the life of the process; [frames_queued] are the redraws that wait
    for the server, [event_count] the counter of the eventfd. *)
Record life : Type := mk_life {
  pScreenPtr : bool;
  event_fd : Z; watched : list Z;
  interval : Z;
  CloseScreen : hook; saved_CloseScreen : hook;
  SetWindowPixmap : hook; saved_SetWindowPixmap : hook;
  event_count : Z; frames_queued : nat
}.

Definition with_hooks c sc w sw l := mk_life (pScreenPtr l) (event_fd l) (watched l) (interval l) c sc w sw (event_count l) (frames_queued l).

(** [eventfd] is the result of the call that makes one, the first time; the screen
    comes with the X server's hooks. *)
Definition lorieScreenInit (gen : Z -> Z -> Z -> libxcvt_mode_info) (eventfd w h : Z) (c : root_config) (use_dri3 : bool)
  (ok : screen_call -> bool) (l : life) : outcome (bool * list screen_call * life) :=
  let fd := if event_fd l =? -1 then eventfd else event_fd l in
  if framerate c =? 0 then Fault FatalExit
  else
    let l := mk_life true fd (fd :: watched l) (Z.quot 1000000 (framerate c)) XServer (saved_CloseScreen l) XServer
               (saved_SetWindowPixmap l) (event_count l) (frames_queued l) in
    let (r, calls) := chain (succeeds ok) (screen_calls gen w h c use_dri3) in
    Ret (r, calls, if r then with_hooks Lorie (CloseScreen l) Lorie (SetWindowPixmap l) l else l).

(** What [lorieSetWindowPixmap] and [lorieCloseScreen] do to the hooks. *)
Definition rehook (l : life) : life := with_hooks (CloseScreen l) (saved_CloseScreen l) Lorie (saved_SetWindowPixmap l) l.
Definition unhook (l : life) : life :=
  let l := with_hooks (saved_CloseScreen l) (saved_CloseScreen l) (SetWindowPixmap l) (saved_SetWindowPixmap l) l in
  mk_life false (event_fd l) (watched l) (interval l) (CloseScreen l) (saved_CloseScreen l) (SetWindowPixmap l)
    (saved_SetWindowPixmap l) (event_count l) (frames_queued l).

Definition lorieWakeServer (l : life) : life :=
  mk_life (pScreenPtr l) (event_fd l) (watched l) (interval l) (CloseScreen l) (saved_CloseScreen l) (SetWindowPixmap l)
    (saved_SetWindowPixmap l) (event_count l + 1) (frames_queued l).
Definition lorieWorkingQueueCallback (l : life) : life :=
  mk_life (pScreenPtr l) (event_fd l) (watched l) (interval l) (CloseScreen l) (saved_CloseScreen l) (SetWindowPixmap l)
    (saved_SetWindowPixmap l) 0 (frames_queued l).

(** It also asks to be called again at the next frame. *)
Definition lorieChoreographerFrameCallback (l : life) : life :=
  if pScreenPtr l then
    lorieWakeServer (mk_life true (event_fd l) (watched l) (interval l) (CloseScreen l) (saved_CloseScreen l) (SetWindowPixmap l)
      (saved_SetWindowPixmap l) (event_count l) (S (frames_queued l)))
  else l.

(** The depths and the bits per pixel of the pixmap formats, and the resolution. *)
Definition depths : list Z := [1; 4; 8; 15; 16; 24; 32].
Definition bpp : list Z := [1; 8; 8; 16; 16; 32; 32].
Definition formats : list (Z * Z) := zip depths bpp.

(** [add] is [AddScreen] with [lorieScreenInit]: the number of the screen, or -1. *)
Definition InitOutput (monitorResolution : Z) (test : Z -> Z) (legacy : Z) (add : life -> outcome (Z * life)) (l : life)
  : outcome (Z * list (Z * Z) * Z * life) :=
  '(n, l) ← add l;
  if n =? -1 then Fault FatalExit
  else Ret (if monitorResolution =? 0 then 96 else monitorResolution, formats, test legacy, l).

Lemma chain_spec {A} (ok : A -> bool) l :
  let (r, calls) := chain ok l in
  r = forallb ok l /\ calls `prefix_of` l /\ (r = true -> calls = l)
  /\ (r = false -> exists c, last calls = Some c /\ ok c = false /\ forallb ok (removelast calls) = true).
Proof.
  induction l as [|c l IH]; cbn; [done|]. destruct (ok c) eqn:Ec; cbn.
  - destruct (chain ok l) as [r calls]. destruct IH as (-> & Hp & Ht & Hf). split_and!; [done|by apply prefix_cons| |].
    + intros E. by rewrite Ht.
    + intros E. destruct (Hf E) as (d & Hl & Hd & Hi). exists d. destruct calls as [|x calls]; [done|].
      split_and!; [done..|]. cbn [removelast forallb]. by rewrite Ec.
  - split_and!; [done|by exists l|done|]. intros _. by exists c.
Qed.

(** ** Which windows change *)
Fixpoint ids (w : window) : list Z := match w with Window i cs => i :: flat_map ids cs end.

(** The windows that show the old pixmap, down to the first that does not. *)
Fixpoint reached (old : Z) (wp : gmap Z Z) (w : window) : list Z :=
  match w with
  | Window i cs => if bool_decide (wp !! i = Some old) then i :: flat_map (reached old wp) cs else []
  end.

(** Below a window with a pixmap of its own nobody shows the old one. *)
Fixpoint coherent (old : Z) (wp : gmap Z Z) (w : window) : Prop :=
  match w with
  | Window i cs =>
      (wp !! i <> Some old -> forall j, j ∈ flat_map ids cs -> wp !! j <> Some old)
      /\ fold_right (fun c P => coherent old wp c /\ P) True cs
  end.

Lemma elem_of_flat_map {A B} (f : A -> list B) l y : y ∈ flat_map f l <-> exists x, x ∈ l /\ y ∈ f x.
Proof. rewrite list_elem_of_In, in_flat_map. by setoid_rewrite list_elem_of_In. Qed.

Lemma reached_ids old wp w j : j ∈ reached old wp w -> j ∈ ids w.
Proof.
  induction w as [i cs IH] using window_ind'. cbn [reached ids]. case_bool_decide; [|set_solver].
  rewrite !elem_of_cons, !elem_of_flat_map. intros [->|(c & Hc & Hj)]; [by left|right].
  exists c. split; [done|]. rewrite Forall_forall in IH. by apply IH.
Qed.

Lemma reached_ext old wp wp' w : (forall j, j ∈ ids w -> wp !! j = wp' !! j) -> reached old wp w = reached old wp' w.
Proof.
  induction w as [i cs IH] using window_ind'. cbn [reached ids]. intros Hext. rewrite (Hext i) by by left.
  case_bool_decide; [|done]. f_equal. rewrite Forall_forall in IH. clear H.
  assert (forall j, j ∈ flat_map ids cs -> wp !! j = wp' !! j) as H by (intros; apply Hext; by right). clear Hext.
  induction cs as [|c cs IHc]; [done|]. cbn in H |- *. setoid_rewrite elem_of_app in H.
  rewrite (IH c), IHc; auto; intros; [apply IH; [by right|done]|by left].
Qed.

Lemma reached_ext_list old wp wp' cs :
  (forall j, j ∈ flat_map ids cs -> wp !! j = wp' !! j) -> flat_map (reached old wp) cs = flat_map (reached old wp') cs.
Proof.
  induction cs as [|c cs IH]; [done|]. cbn. setoid_rewrite elem_of_app. intros H. rewrite (reached_ext old wp wp'), IH; auto.
Qed.

Lemma reached_all old wp w j : coherent old wp w -> j ∈ ids w -> wp !! j = Some old -> j ∈ reached old wp w.
Proof.
  induction w as [i cs IH] using window_ind'. cbn [reached ids coherent]. intros [Hi Hcs] Hj Ho.
  case_bool_decide as Hb.
  - apply elem_of_cons in Hj as [->|Hj]; [by left|]. right. apply elem_of_flat_map in Hj as (c & Hc & Hj).
    apply elem_of_flat_map. exists c. split; [done|]. rewrite Forall_forall in IH. apply IH; try done.
    clear -Hc Hcs. induction cs as [|d cs IHc]; [set_solver|]. cbn in Hcs. apply elem_of_cons in Hc as [->|Hc]; [apply Hcs|apply IHc; tauto].
  - apply elem_of_cons in Hj as [->|Hj]; [done|]. by destruct (Hi Hb j Hj).
Qed.

Lemma reached_shows old wp w j : j ∈ reached old wp w -> wp !! j = Some old.
Proof.
  induction w as [i cs IH] using window_ind'. cbn [reached]. case_bool_decide as Hb; [|by intros ?%not_elem_of_nil].
  rewrite elem_of_cons, elem_of_flat_map. intros [->|(c & Hc & Hj)]; [done|]. rewrite Forall_forall in IH. by apply (IH c).
Qed.

(** In a coherent tree the walk reaches exactly the windows that show the old pixmap. *)
Lemma reached_spec old wp w j : coherent old wp w -> j ∈ ids w -> (j ∈ reached old wp w <-> wp !! j = Some old).
Proof. intros Hco Hj. split; [apply reached_shows|by apply reached_all]. Qed.

Lemma NoDup_flat_map_cons (c : window) cs :
  NoDup (flat_map ids (c :: cs)) -> NoDup (ids c) /\ NoDup (flat_map ids cs) /\ forall j, j ∈ ids c -> j ∉ flat_map ids cs.
Proof. cbn. intros H%NoDup_app. naive_solver. Qed.

Section walk.
Context (p : platform) `{!Traversal, !TraversalLaws}.

(** What a walk does below the root window. *)
Definition walked (old : Z) (s s' : screen) (r : list Z) : Prop :=
  exists W, s' = with_windows W (pixmaps s) s
    /\ forall j, W !! j = if bool_decide (j ∈ r) then Some (devPrivate s) else window_pixmap s !! j.

(** The window itself is set first, and the walk goes on from there. *)
Lemma walked_node old i cs dev (wp W : gmap Z Z) :
  i ∉ flat_map ids cs ->
  (forall j, W !! j = if bool_decide (j ∈ flat_map (reached old (<[i := dev]> wp)) cs) then Some dev else <[i := dev]> wp !! j) ->
  forall j, W !! j = if bool_decide (j ∈ i :: flat_map (reached old wp) cs) then Some dev else wp !! j.
Proof.
  intros Hi HW j. rewrite HW, (reached_ext_list old (<[i := dev]> wp) wp) by (intros k Hk; apply lookup_insert_ne; naive_solver).
  destruct (decide (j = i)) as [->|Hj].
  - rewrite lookup_insert_eq, (bool_decide_eq_true_2 (i ∈ i :: _)) by by left. by case_bool_decide.
  - rewrite lookup_insert_ne by done. repeat case_bool_decide; rewrite ?elem_of_cons in *; tauto.
Qed.

Definition walks (old : Z) (w : window) : Prop :=
  forall s, NoDup (ids w) -> win_id (tree s) ∉ ids w ->
    walked old s (TraverseTree screen (lorieSetPixmapVisitWindow p old) w s) (reached old (window_pixmap s) w).

Lemma walk_list old cs s :
  Forall (walks old) cs -> NoDup (flat_map ids cs) -> win_id (tree s) ∉ flat_map ids cs ->
  walked old s (foldl (fun s c => TraverseTree screen (lorieSetPixmapVisitWindow p old) c s) s cs)
    (flat_map (reached old (window_pixmap s)) cs).
Proof.
  revert s. induction cs as [|c cs IHc]; intros s IH Hnd Hr.
  - exists (window_pixmap s). split; [by destruct s|]. intros j. by rewrite bool_decide_eq_false_2 by set_solver.
  - apply NoDup_flat_map_cons in Hnd as (H1 & H2 & H3). apply Forall_cons in IH as [IH1 IH2].
    cbn [flat_map] in Hr. rewrite elem_of_app in Hr. cbn [foldl flat_map].
    destruct (IH1 s H1) as (W & -> & HW); [tauto|].
    destruct (IHc (with_windows W (pixmaps s) s) IH2 H2) as (W2 & -> & HW2); [cbn; tauto|].
    exists W2. split; [done|]. intros j. rewrite HW2. cbn [window_pixmap with_windows devPrivate].
    rewrite HW, (reached_ext_list old W (window_pixmap s)).
    + repeat case_bool_decide; rewrite ?elem_of_app in *; tauto.
    + intros k Hk. rewrite HW, bool_decide_eq_false_2; [done|]. intros Hx%reached_ids. by apply (H3 k Hx).
Qed.

Lemma walk_children old w : walks old w.
Proof.
  induction w as [i cs IH] using window_ind'. intros s Hnd Hroot. rewrite traverse_window.
  unfold lorieSetPixmapVisitWindow at 1. cbn [reached ids] in *. case_bool_decide as Hi.
  2: { exists (window_pixmap s). split; [by destruct s|]. intros j. by rewrite bool_decide_eq_false_2 by set_solver. }
  assert (lorieSetWindowPixmap p i (devPrivate s) s = with_windows (<[i := devPrivate s]> (window_pixmap s)) (pixmaps s) s) as ->.
  { unfold lorieSetWindowPixmap. by rewrite (proj2 (Z.eqb_neq i _)) by set_solver. }
  apply NoDup_cons in Hnd as [Hicn Hnd]. apply not_elem_of_cons in Hroot as [Hri Hroot].
  destruct (walk_list old cs (with_windows (<[i := devPrivate s]> (window_pixmap s)) (pixmaps s) s) IH Hnd Hroot) as (W & -> & HW).
  exists W. split; [done|]. by apply walked_node.
Qed.

(** From the root window: its pixmaps' locks change hands. *)
Lemma walk_root old s :
  NoDup (ids (tree s)) -> window_pixmap s !! win_id (tree s) = Some old ->
  exists W, TraverseTree screen (lorieSetPixmapVisitWindow p old) (tree s) s
      = with_windows W (alter (lock_pixmap p) (devPrivate s) (alter (unlock_pixmap p) old (pixmaps s))) s
    /\ forall j, W !! j = if bool_decide (j ∈ reached old (window_pixmap s) (tree s)) then Some (devPrivate s) else window_pixmap s !! j.
Proof.
  destruct (tree s) as [r cs] eqn:Et. cbn [win_id ids reached]. intros Hnd Hold. rewrite traverse_window.
  unfold lorieSetPixmapVisitWindow at 1. rewrite !bool_decide_eq_true_2 by done.
  apply NoDup_cons in Hnd as [Hr Hnd]. set (m := alter _ _ _).
  assert (lorieSetWindowPixmap p r (devPrivate s) s = with_windows (<[r := devPrivate s]> (window_pixmap s)) m s) as ->.
  { unfold lorieSetWindowPixmap. by rewrite Et, Z.eqb_refl, Hold. }
  destruct (walk_list old cs (with_windows (<[r := devPrivate s]> (window_pixmap s)) m s)) as (W & -> & HW);
    [apply Forall_forall; intros; apply walk_children|done|cbn; by rewrite Et|].
  exists W. split; [done|]. by apply walked_node.
Qed.
End walk.

(** ** Properties of the start *)

(** The shared state is made once: a later call keeps it. A failed
    [mmap] is not noticed, and the first lock is made at address -1. *)
Theorem vendor_init region address v :
  (stateFd v <> -1 -> OsVendorInit region address v = Ret v)
  /\ (stateFd v = -1 -> forall v', OsVendorInit region address v = Ret v' ->
        stateFd v' = region /\ state_at v' = address /\ address <> 0 /\ address <> -1
        /\ forall r2 a2, OsVendorInit r2 a2 v' = Ret v')
  /\ (stateFd v = -1 -> region <> -1 -> OsVendorInit region (-1) v = Fault OutOfBounds).
Proof.
  unfold OsVendorInit. split_and!.
  - intros H. by rewrite (proj2 (Z.eqb_neq _ _) H).
  - intros -> v'. cbn. destruct (Z.eqb_spec region (-1)); [done|]. destruct (Z.eqb_spec address 0); [done|].
    destruct (Z.eqb_spec address (-1)); [done|]. intros [= <-]. cbn. split_and!; try done.
    intros. by rewrite (proj2 (Z.eqb_neq _ _)).
  - intros -> H. cbn. by rewrite (proj2 (Z.eqb_neq _ _) H).
Qed.

(** ** Creating and destroying the screen's pixmap *)
Lemma unregister_connected b c : connected (lorieUnregisterBuffer b c) = connected c.
Proof. unfold lorieUnregisterBuffer. destruct (negb _); [done|]. by destruct (connected c) eqn:E. Qed.

(** The new buffer replaces the old one in the table and on the wire. *)
Definition replaced_buffer (b b' : LorieBuffer) (c c' : server) : Prop :=
  let kept := filter (fun j => j <> desc_id (desc b)) (registeredBuffers c) in
  let removed := if bool_decide (desc_id (desc b) ∈ registeredBuffers c)
                 then [(Server.conn_fd c, (RemoveBufferEvent (desc_id (desc b)), NoTail))] else [] in
  if bool_decide (desc_id (desc b') ∈ kept) then registeredBuffers c' = kept /\ outgoing c' = removed ++ outgoing c
  else registeredBuffers c' = desc_id (desc b') :: kept
       /\ outgoing c' = (Server.conn_fd c, (AddBufferEvent, TailBuffer (LorieBuffer_sendHandleToUnixSocket b'))) :: removed ++ outgoing c.

Lemma replaced_after b b' c :
  connected c = true -> replaced_buffer b b' c (lorieRegisterBuffer b' (lorieUnregisterBuffer b c)).
Proof.
  intros Hc. unfold replaced_buffer, lorieRegisterBuffer. rewrite unregister_connected, Hc. cbn [negb orb].
  unfold lorieUnregisterBuffer. rewrite Hc. destruct (decide (desc_id (desc b) ∈ registeredBuffers c)) as [Hi|Hi].
  - rewrite !(bool_decide_eq_true_2 (desc_id (desc b) ∈ _)) by done. cbn. by destruct (bool_decide _).
  - rewrite !(bool_decide_eq_false_2 (desc_id (desc b) ∈ _)) by done. cbn [negb].
    assert (filter (fun j => j <> desc_id (desc b)) (registeredBuffers c) = registeredBuffers c) as ->
      by (apply filter_all, Forall_forall; naive_solver).
    cbn. by destruct (bool_decide _).
Qed.

Section pixmaps.
Context (p : platform) (legacy : bool).
Hypothesis shm : forall n, ASharedMemory_create p n <> 0.

Lemma unlock_same v b :
  Present.buffer v = Some b ->
  exists b', Present.buffer (priv_unlock p v) = Some b' /\ desc b' = desc b /\ refcount b' = refcount b /\ owned b' = owned b.
Proof.
  intros Hb. unfold priv_unlock. rewrite Hb. unfold LorieBuffer_unlock. cbn.
  destruct (locked b); cbn; eexists; by split_and!.
Qed.

Lemma create_ok q bid w h s :
  0 < w -> 0 < h ->
  exists r, CreatePixmap p legacy q bid w h s = Ret r /\
    match r with
    | None => True
    | Some s' => exists v b, s' = with_pixmaps (<[q := mk_pixmap (w, h) 1 v]> (pixmaps s)) (owned b ++ RPriv :: res s) s
        /\ Present.buffer v = Some b /\ locked b = true /\ refcount b = 1
    end.
Proof.
  intros Hw Hh. unfold CreatePixmap, lorieCreatePixmap. rewrite (proj2 (Z.eqb_neq w 0)), (proj2 (Z.eqb_neq h 0)) by lia. cbn [orb].
  destruct (calloc_priv p); cbn [negb]; [|cbind; by exists None].
  set (ty := if legacy then _ else _).
  destruct (allocate_balanced p bid w h (AHARDWAREBUFFER_FORMAT_R8G8B8X8_UNORM p) ty (RPriv :: res s) shm) as (r & held' & -> & Hr). cbind.
  destruct r as [b|].
  - destruct Hr as (Hrc & Hl & -> & _). unfold priv_lock. cbn [Present.buffer set_buffer].
    unfold LorieBuffer_lock. rewrite Hl. destruct (if _ || _ then _ else _) as [a e]. cbn [Present.buffer set_locked set_buffer]. cbind.
    eexists. split; [reflexivity|]. eexists _, (set_lock true a b). by split_and!.
  - unfold priv_lock. cbn. destruct Hr as [->|(-> & Hacc & _)].
    + rewrite remove_one_head. cbind. by exists None.
    + exfalso. revert Hacc. unfold acceptable, known_format. rewrite Z.eqb_refl, orb_true_r.
      rewrite !(proj2 (Z.ltb_lt _ _)) by lia. done.
Qed.

Lemma destroy_ok q x b rest s :
  pixmaps s !! q = Some x -> refcnt x = 1 -> Present.buffer (priv x) = Some b -> refcount b = 1 -> res s ≡ₚ RPriv :: owned b ++ rest ->
  exists r, DestroyPixmap p q s = Ret (with_pixmaps (delete q (pixmaps s)) r (with_conn (lorieUnregisterBuffer b (conn s)) s)) /\ r ≡ₚ rest.
Proof.
  intros Hx Hrc Hb H1 Hres. unfold DestroyPixmap. rewrite Hx, Hrc, Hb. cbn [Z.ltb Z.compare Pos.compare Pos.compare_cont].
  unfold lorieExaDestroyPixmap. rewrite Hb.
  assert (exists b2, default b (Present.buffer (if negb (locked_ptr (priv x) =? 0) then priv_unlock p (priv x) else priv x)) = b2
    /\ refcount b2 = 1 /\ owned b2 = owned b) as (b2 & -> & Hr2 & Ho2).
  { destruct (unlock_same (priv x) b Hb) as (b1 & Hb1 & Hd1 & Hr1 & Ho1).
    destruct (negb _); rewrite ?Hb1, ?Hb; cbn; eexists; split_and!; done || congruence. }
  unfold LorieBuffer_release. rewrite Hr2, free_is_give_back. cbn [Z.eqb Pos.eqb].
  destruct (give_back_perm (owned b) (res s) (RPriv :: rest)) as (r & Hg & Hperm);
    [by rewrite Hres, Permutation_middle|].
  match goal with |- context [owned ?b'] => change (owned b') with (owned b2) end.
  cbn [res with_conn]. rewrite Ho2, Hg. cbind.
  destruct (remove_one_perm RPriv r) as (r' & -> & Hperm'); [rewrite Hperm; by left|]. cbind.
  exists r'. split; [done|]. apply (Permutation_cons_inv (a := RPriv)). by rewrite <- Hperm', Hperm.
Qed.

Lemma lock_pixmap_same x b :
  Present.buffer (priv x) = Some b -> locked b = true ->
  exists b', Present.buffer (priv (lock_pixmap p x)) = Some b' /\ locked b' = true /\ desc b' = desc b /\ owned b' = owned b.
Proof.
  intros Hb Hl. unfold lock_pixmap. destruct (_ && _); [|by exists b].
  cbn [priv]. unfold priv_lock, LorieBuffer_lock. rewrite Hb, Hl. cbn. by exists b.
Qed.

Lemma unlock_pixmap_same x b :
  Present.buffer (priv x) = Some b ->
  exists b', Present.buffer (priv (unlock_pixmap p x)) = Some b' /\ desc b' = desc b /\ refcount b' = refcount b /\ owned b' = owned b
    /\ refcnt (unlock_pixmap p x) = refcnt x.
Proof.
  intros Hb. unfold unlock_pixmap. destruct (_ && _); [|by exists b].
  destruct (unlock_same (priv x) b Hb) as (b' & E & ?). exists b'. by split_and!; try apply H.
Qed.
End pixmaps.

(** ** Changing the size *)

(** The root window shows the screen's pixmap [old], whose buffer is its own. *)
Record showing (old : Z) (b : LorieBuffer) (rest : list resource) (s : screen) : Prop := {
  sh_dev : devPrivate s = old /\ old <> 0;
  sh_pixmap : exists x, pixmaps s !! old = Some x /\ refcnt x = 1 /\ Present.buffer (priv x) = Some b;
  sh_single : refcount b = 1;
  sh_res : res s ≡ₚ RPriv :: owned b ++ rest;
  sh_ids : NoDup (ids (tree s));
  sh_root : window_pixmap s !! win_id (tree s) = Some old;
  sh_coherent : coherent old (window_pixmap s) (tree s)
}.

Section resize.
Context (p : platform) (legacy : bool) `{!Traversal, !TraversalLaws}.
Hypothesis shm : forall n, ASharedMemory_create p n <> 0.

Lemma resize_run restore mm q bid w h s old b rest :
  let s1 := restore (with_queue (loriePerformVblanks (queue s)) s) in
  0 < w -> 0 < h -> showing old b rest s1 -> pixmaps s1 !! q = None ->
  match lorieRRScreenSetSize p legacy restore mm true q bid w h s with
  | Ret s' =>
      exists b', buffer_of q (pixmaps s') = Some b' /\ locked b' = true /\ res s' ≡ₚ RPriv :: owned b' ++ rest
        /\ pixmaps s' !! old = None /\ devPrivate s' = q /\ damage s' = Some q
        /\ (forall j, window_pixmap s' !! j = if bool_decide (j ∈ reached old (window_pixmap s1) (tree s1)) then Some q else window_pixmap s1 !! j)
        /\ (forall j, j ∈ ids (tree s1) -> window_pixmap s' !! j <> Some old)
        /\ pscreen_size s' = (w, h) /\ root_drawable s' = (w, h) /\ config_size s' = (w, h) /\ mm_size s' = (mm w, mm h)
        /\ conn s' = lorieRegisterBuffer b' (lorieUnregisterBuffer b (conn s1))
        /\ cursor_moved s' = true
  | Fault f => f = NullDeref /\ CreatePixmap p legacy q bid w h (with_sizes (w, h) (mm w, mm h) s1) = Ret None
  end.
Proof.
  cbv zeta. set (s1 := restore _). intros Hw Hh [[Hdev Hold] (x & Hx & Hrc & Hb) H1 Hres Hids Hroot Hco] Hq.
  assert (old <> q) as Hne by congruence.
  unfold lorieRRScreenSetSize. fold s1. cbv zeta. cbn [devPrivate with_sizes]. rewrite Hdev.
  destruct (create_ok p legacy shm q bid w h (with_sizes (w, h) (mm w, mm h) s1) Hw Hh) as (r & E & Hr). rewrite E. cbind.
  destruct r as [s2|]; [|done]. destruct Hr as (v & b' & -> & Hb' & Hl' & _). cbn [negb]. rewrite (proj2 (Z.eqb_neq _ _) Hold).
  set (s3 := with_damage _ _).
  destruct (walk_root p old s3 Hids Hroot) as (W & -> & HW).
  destruct (unlock_pixmap_same p x b Hb) as (b1 & Hb1 & Hd1 & Hr1 & Ho1 & Hrc1).
  destruct (lock_pixmap_same p (mk_pixmap (w, h) 1 v) b' Hb' Hl') as (b2 & Hb2 & Hl2 & Hd2 & Ho2).
  destruct (destroy_ok p old (unlock_pixmap p x) b1 (RPriv :: owned b' ++ rest)
    (with_windows W (alter (lock_pixmap p) (devPrivate s3) (alter (unlock_pixmap p) old (pixmaps s3))) s3))
    as (r & Ed & Hperm).
  { cbn. rewrite lookup_alter_ne, lookup_alter_eq, lookup_insert_ne, Hx by done. done. }
  { congruence. }
  { done. }
  { congruence. }
  { change (owned b' ++ RPriv :: res s1 ≡ₚ RPriv :: owned b1 ++ RPriv :: owned b' ++ rest). rewrite Hres, Ho1. solve_Permutation. }
  rewrite Ed. cbind. exists b2.
  assert (buffer_of q (delete old (alter (lock_pixmap p) q (alter (unlock_pixmap p) old (<[q := mk_pixmap (w, h) 1 v]> (pixmaps s1))))) = Some b2) as Hbo.
  { unfold buffer_of. rewrite lookup_delete_ne, lookup_alter_eq, lookup_alter_ne, lookup_insert_eq by done. exact Hb2. }
  unfold register_screen_pixmap, s3. cbn [devPrivate with_pixmaps with_conn with_windows pixmaps with_damage with_dev with_sizes].
  rewrite Hbo. split_and!; try done.
  - change (r ≡ₚ RPriv :: owned b2 ++ rest). by rewrite Hperm, Ho2.
  - cbn. by rewrite lookup_delete_eq.
  - intros j Hj. cbn. rewrite HW. case_bool_decide as Hin; [cbn; congruence|]. intros Ho. by apply Hin, reached_all.
  - cbn. f_equal. unfold lorieUnregisterBuffer. by rewrite Hd1.
Qed.

(** C15: the screen gets another size. Every window that showed the old picture,
    and no other, shows the new one; the old pixmap is gone and what it held
    given back; the new one has a locked buffer; a connected app is sent the
    removal of the old buffer, if it knew it, and then the new buffer with its
    handle, unless it has it, and nothing else, and the table of the registered
    buffers changes accordingly; the sizes agree and damage is watched on the new
    pixmap. When the pixmap cannot be made, the server crashes. *)
Theorem resized restore mm q bid w h s old b rest :
  let s1 := restore (with_queue (loriePerformVblanks (queue s)) s) in
  0 < w -> 0 < h -> showing old b rest s1 -> pixmaps s1 !! q = None ->
  match lorieRRScreenSetSize p legacy restore mm true q bid w h s with
  | Ret s' =>
      exists b', buffer_of q (pixmaps s') = Some b' /\ locked b' = true /\ res s' ≡ₚ RPriv :: owned b' ++ rest
        /\ pixmaps s' !! old = None /\ devPrivate s' = q /\ damage s' = Some q
        /\ (forall j, window_pixmap s' !! j = if bool_decide (j ∈ reached old (window_pixmap s1) (tree s1)) then Some q else window_pixmap s1 !! j)
        /\ (forall j, j ∈ ids (tree s1) -> window_pixmap s' !! j <> Some old)
        /\ pscreen_size s' = (w, h) /\ root_drawable s' = (w, h) /\ config_size s' = (w, h) /\ mm_size s' = (mm w, mm h)
        /\ (connected (conn s1) = true -> replaced_buffer b b' (conn s1) (conn s'))
        /\ cursor_moved s' = true
  | Fault f => f = NullDeref /\ CreatePixmap p legacy q bid w h (with_sizes (w, h) (mm w, mm h) s1) = Ret None
  end.
Proof.
  cbv zeta. intros Hw Hh Hs Hq. pose proof (resize_run restore mm q bid w h s old b rest Hw Hh Hs Hq) as Hrun.
  destruct (lorieRRScreenSetSize _ _ _ _ _ _ _ _ _ _); [|done].
  destruct Hrun as (b' & Hrun). exists b'. destruct_and! Hrun; split_and!; try done.
  intros Hc. match goal with E : conn _ = _ |- _ => rewrite E end. by apply replaced_after.
Qed.

(** A client that waits for a frame still to come waits on: only
    the vblanks that are due are notified before the screen changes. *)
Theorem resize_keeps_waiting s v :
  v ∈ vblank_queue (queue s) -> current_msc (queue s) < vb_msc v -> v ∈ vblank_queue (loriePerformVblanks (queue s)).
Proof.
  intros Hv Hm. rewrite perform_vblanks_spec. cbn. apply list_elem_of_filter. split; [unfold due; lia|done].
Qed.

(** The screen is made and closed: its pixmap is announced, and what
    it held is given back. *)
Theorem screen_closed q bid s :
  0 < fst (pscreen_size s) -> 0 < snd (pscreen_size s) -> pixmaps s !! q = None -> q <> 0 ->
  match lorieCreateScreenResources p legacy true q bid s with
  | Ret s' =>
      devPrivate s' = q /\ damage s' = Some q
      /\ exists b s'', buffer_of q (pixmaps s') = Some b /\ (connected (conn s) = true -> desc_id (desc b) ∈ registeredBuffers (conn s'))
           /\ lorieCloseScreen p s' = Ret s'' /\ devPrivate s'' = 0 /\ res s'' ≡ₚ res s /\ pixmaps s'' = pixmaps s
           /\ (connected (conn s) = true -> desc_id (desc b) ∉ registeredBuffers (conn s''))
  | Fault f => f = NullDeref
  end.
Proof.
  intros Hw Hh Hq Hq0. unfold lorieCreateScreenResources.
  destruct (create_ok p legacy shm q bid _ _ s Hw Hh) as (r & -> & Hr). cbind.
  destruct r as [s2|]; [|done]. destruct Hr as (v & b & -> & Hb & Hl & H1). cbn [negb].
  unfold register_screen_pixmap. cbn [devPrivate with_damage with_dev pixmaps with_pixmaps].
  assert (buffer_of q (<[q := mk_pixmap (fst (pscreen_size s), snd (pscreen_size s)) 1 v]> (pixmaps s)) = Some b) as Hbo
    by (unfold buffer_of; by rewrite lookup_insert_eq).
  rewrite Hbo. split; [done|]. split; [done|]. exists b.
  set (s3 := with_conn _ _).
  destruct (destroy_ok p q (mk_pixmap (fst (pscreen_size s), snd (pscreen_size s)) 1 v) b (res s) s3) as (r & Ed & Hperm);
    [by cbn; rewrite lookup_insert_eq|done..|by change (owned b ++ RPriv :: res s ≡ₚ RPriv :: owned b ++ res s); rewrite Permutation_middle|].
  unfold lorieCloseScreen. change (devPrivate s3) with q. rewrite Ed. cbind. eexists.
  assert (connected (lorieRegisterBuffer b (conn s)) = connected (conn s)) as Hcn.
  { unfold lorieRegisterBuffer. by destruct (_ || _). }
  split_and!; try done.
  - intros Hc. cbn. unfold lorieRegisterBuffer. rewrite Hc. cbn [negb orb]. case_bool_decide as Hi; [done|]. cbn. by left.
  - cbn. by rewrite delete_insert_id.
  - intros Hc. cbn. unfold lorieUnregisterBuffer at 1. case_bool_decide as Hi; cbn [negb]; [|done].
    rewrite Hcn, Hc. cbn. rewrite list_elem_of_filter. naive_solver.
Qed.
End resize.

(** ** The life of the screen *)

(** Making the screen. The calls are made in order up to the first that fails,
    and the hooks are set only when none does; then each frame queues a
    redraw and wakes the server, until the screen is closed, which gives back
    the X server's CloseScreen hook. A server that is reset keeps its
    eventfd. *)
Theorem screen_started gen fd w h c dri3 ok l :
  framerate c <> 0 ->
  exists r calls l', lorieScreenInit gen fd w h c dri3 ok l = Ret (r, calls, l')
    /\ (r = false -> (exists k, last calls = Some k /\ ok k = false) /\ CloseScreen l' = XServer /\ SetWindowPixmap l' = XServer)
    /\ (r = true -> (forall k, k ∈ calls -> (forall a b, k <> RandR (SizeRange a b)) -> ok k = true)
          /\ rehook l' = l'
          /\ event_count (lorieChoreographerFrameCallback l') = event_count l + 1
          /\ frames_queued (lorieChoreographerFrameCallback l') = S (frames_queued l)
          /\ CloseScreen (unhook l') = XServer /\ lorieChoreographerFrameCallback (unhook l') = unhook l')
    /\ pScreenPtr l' = true
    /\ forall fd2, exists r2 calls2 l2, lorieScreenInit gen fd2 w h c dri3 ok (unhook l') = Ret (r2, calls2, l2)
         /\ (fd <> -1 -> event_fd l2 = event_fd l') /\ r2 = r /\ calls2 = calls.
Proof.
  intros Hf. unfold lorieScreenInit. rewrite (proj2 (Z.eqb_neq _ _) Hf).
  pose proof (chain_spec (succeeds ok) (screen_calls gen w h c dri3)) as Hc.
  destruct (chain (succeeds ok) (screen_calls gen w h c dri3)) as [r calls]. destruct Hc as (Hr & _ & Hall & Hfail).
  eexists _, _, _. split; [reflexivity|]. split_and!.
  - intros ->. destruct (Hfail eq_refl) as (k & Hk & Ek & _). split; [|done]. exists k. split; [done|].
    unfold succeeds in Ek. by destruct k as [| | | | | |[]| | |].
  - intros ->. split_and!; try done. intros k Hk Hs. rewrite (Hall eq_refl) in Hk. symmetry in Hr. rewrite forallb_forall in Hr.
    specialize (Hr k (proj1 (list_elem_of_In _ _) Hk)). unfold succeeds in Hr.
    destruct k as [| | | | | |[]| | |]; try done. by destruct (Hs min max).
  - by destruct r.
  - intros fd2. eexists _, _, _. split; [reflexivity|]. split; [|done].
    intros Hfd. destruct r; cbn; (destruct (Z.eqb_spec (event_fd l) (-1)) as [E|E]; [by rewrite (proj2 (Z.eqb_neq _ _) Hfd)|by rewrite (proj2 (Z.eqb_neq _ _) E)]).
Qed.

(** ** A concrete screen *)
#[global] Instance traverse : Traversal :=
  fun S visit => fix walk (w : window) (s : S) : S :=
    match w with
    | Window i cs =>
        match visit i s with
        | (WT_WALKCHILDREN, s) =>
            (fix children (cs : list window) (s : S) : S :=
               match cs with [] => s | c :: cs => children cs (walk c s) end) cs s
        | (WT_DONTWALKCHILDREN, s) => s
        end
    end.

#[global] Instance traverse_laws : TraversalLaws.
Proof.
  intros S visit i cs s. cbn. destruct (visit i s) as [[] s']; [|done].
  revert s'. induction cs as [|c cs IH]; intros s'; [done|]. apply IH.
Qed.

(** Window 4 is redirected to a pixmap of its own. *)
Definition sample_windows : window := Window 1 [Window 2 [Window 3 []]; Window 4 [Window 5 []]].
Definition sample_screen : screen :=
  mk_scr idle (64, 64) (64, 64) (64, 64) (17, 17) sample_windows {[1 := 100; 2 := 100; 3 := 100; 4 := 200; 5 := 200]}
    {[100 := mk_pixmap (64, 64) 1 sample_priv]} 100 (Some 100) (mk_server 7 [7] ∅ ∅ 0 [9] [] []) (RPriv :: owned sample_fd_buffer) false.

Lemma sample_showing : showing 100 sample_fd_buffer [] sample_screen.
Proof.
  constructor; try done.
  - eexists. split; [reflexivity|]. done.
  - change (NoDup [1; 2; 3; 4; 5]). rewrite !NoDup_cons, !elem_of_cons, !elem_of_nil. pose proof (@NoDup_nil_2 Z).
    split_and!; try done; lia.
  - cbn. split_and!; try done; intros _ j; cbn; rewrite ?elem_of_cons, ?elem_of_nil; naive_solver.
Qed.

Definition sample_resized : outcome screen :=
  lorieRRScreenSetSize sample_platform true (fun s => s) (fun n => n) true 300 10 128 32 sample_screen.

Lemma resized_witness :
  exists s' b', sample_resized = Ret s' /\ window_pixmap s' !! 3 = Some 300 /\ window_pixmap s' !! 4 = Some 200
    /\ pixmaps s' !! 100 = None /\ registeredBuffers (conn s') = [10]
    /\ outgoing (conn s') = [(7, (AddBufferEvent, TailBuffer (LorieBuffer_sendHandleToUnixSocket b'))); (7, (RemoveBufferEvent 9, NoTail))].
Proof.
  pose proof (resized sample_platform true sample_shm (fun s => s) (fun n => n) 300 10 128 32 sample_screen 100 sample_fd_buffer []
    ltac:(lia) ltac:(lia) sample_showing eq_refl) as H.
  unfold sample_resized. cbv zeta in H.
  destruct (lorieRRScreenSetSize _ _ _ _ _ _ _ _ _ _) as [s'|] eqn:E; [|vm_compute in E; discriminate E].
  destruct H as (b' & Hb & _ & _ & Hp & _ & _ & Hw & _ & _ & _ & _ & _ & Hc & _).
  exists s', b'. split; [reflexivity|]. split; [exact (Hw 3)|]. split; [exact (Hw 4)|]. split; [exact Hp|].
  specialize (Hc eq_refl).
  assert (desc_id (desc b') = 10) as Hi.
  { clear -E Hb. vm_compute in E. injection E as <-. vm_compute in Hb. injection Hb as <-. reflexivity. }
  unfold replaced_buffer in Hc. rewrite Hi in Hc. exact Hc.
Defined.

Lemma screen_started_witness :
  exists calls l', lorieScreenInit (fun w h _ => mk_info w h 0 0 0 0 0 0 0 0) 5 1280 1024 (mk_root 0 0 [] [] 30 0) true (fun _ => true)
      (mk_life false (-1) [] 0 XServer XServer XServer XServer 0 0) = Ret (true, calls, l')
    /\ event_count (lorieChoreographerFrameCallback l') = 1.
Proof.
  destruct (screen_started (fun w h _ => mk_info w h 0 0 0 0 0 0 0 0) 5 1280 1024 (mk_root 0 0 [] [] 30 0) true (fun _ => true)
      (mk_life false (-1) [] 0 XServer XServer XServer XServer 0 0) ltac:(discriminate)) as (r & calls & l' & E & _ & H & _).
  assert (r = true) as -> by (vm_compute in E; by injection E).
  exists calls, l'. split; [exact E|]. exact (proj1 (proj2 (proj2 (H eq_refl)))).
Defined.
