(* ===== verification/FbConfigs.v ===== *)
(** * The GL framebuffer configurations (fbconfigs.h)

    The table [configs] that the GLX screen of the server points to, row by row
    in the order of the initialisers, whose fields fbconfigs.h names in its
    opening comment.  [next] is the index of the row that [&configs[i]] names.
    The table is cut where its pixel formats change. *)
From S2P Require Import Prelude.

Record __GLXconfig : Type := mk_config {
  next : option nat; duplicatedForComp : bool; doubleBufferMode : Z; stereoMode : Z;
  redBits : Z; greenBits : Z; blueBits : Z; alphaBits : Z; redMask : Z; greenMask : Z;
  blueMask : Z; alphaMask : Z; rgbBits : Z; indexBits : Z; accumRedBits : Z; accumGreenBits : Z;
  accumBlueBits : Z; accumAlphaBits : Z; depthBits : Z; stencilBits : Z; numAuxBuffers : Z;
  level : Z; visualID : Z; visualType : Z; visualRating : Z; transparentPixel : Z;
  transparentRed : Z; transparentGreen : Z; transparentBlue : Z; transparentAlpha : Z;
  transparentIndex : Z; sampleBuffers : Z; samples : Z; drawableType : Z; renderType : Z;
  fbconfigID : Z; maxPbufferWidth : Z; maxPbufferHeight : Z; maxPbufferPixels : Z;
  optimalPbufferWidth : Z; optimalPbufferHeight : Z; visualSelectGroup : Z; swapMethod : Z;
  bindToTextureRgb : Z; bindToTextureRgba : Z; bindToMipmapTexture : Z;
  bindToTextureTargets : Z; yInverted : Z; sRGBCapable : Z
}.

Definition configs_0 : list __GLXconfig := [
  mk_config (Some 1%nat) false 0x0 0x0 0xA 0xA 0xA 0x2 0x3FF00000 0xFFC00 0x3FF 0xC0000000 0x20 0x0 0x0 0x0 0x0 0x0 0x0 0x0 0x0 0x0 0x0 0x8002 0x8000 0x8000 0xFFFFFFFF 0xFFFFFFFF 0xFFFFFFFF 0xFFFFFFFF 0x0 0x0 0x0 0x7 0x1 0x0 0x0 0x0 0x0 0x0 0x0 0x0 0x8063 0x1 0x1 0x0 0x7 0x1 0x0;
  mk_config (Some 2%nat) false 0x0 0x0 0xA 0xA 0xA 0x2 0x3FF00000 0xFFC00 0x3FF 0xC0000000 0x20 0x0 0x10 0x10 0x10 0x10 0x0 0x0 0x0 0x0 0x0 0x8002 0x8001 0x8000 0xFFFFFFFF 0xFFFFFFFF 0xFFFFFFFF 0xFFFFFFFF 0x0 0x0 0x0 0x7 0x1 0x0 0x0 0x0 0x0 0x0 0x0 0x0 0x8063 0x1 0x1 0x0 0x7 0x1 0x0;
  mk_config (Some 3%nat) false 0x1 0x0 0xA 0xA 0xA 0x2 0x3FF00000 0xFFC00 0x3FF 0xC0000000 0x20 0x0 0x0 0x0 0x0 0x0 0x0 0x0 0x0 0x0 0x0 0x8002 0x8000 0x8000 0xFFFFFFFF 0xFFFFFFFF 0xFFFFFFFF 0xFFFFFFFF 0x0 0x0 0x0 0x7 0x1 0x0 0x0 0x0 0x0 0x0 0x0 0x0 0x8063 0x1 0x1 0x0 0x7 0x1 0x0;
  mk_config (Some 4%nat) false 0x1 0x0 0xA 0xA 0xA 0x2 0x3FF00000 0xFFC00 0x3FF 0xC0000000 0x20 0x0 0x10 0x10 0x10 0x10 0x0 0x0 0x0 0x0 0x0 0x8002 0x8001 0x8000 0xFFFFFFFF 0xFFFFFFFF 0xFFFFFFFF 0xFFFFFFFF 0x0 0x0 0x0 0x7 0x1 0x0 0x0 0x0 0x0 0x0 0x0 0x0 0x8063 0x1 0x1 0x0 0x7 0x1 0x0;
  mk_config (Some 5%nat) false 0x1 0x0 0xA 0xA 0xA 0x2 0x3FF00000 0xFFC00 0x3FF 0xC0000000 0x20 0x0 0x0 0x0 0x0 0x0 0x0 0x0 0x0 0x0 0x0 0x8002 0x8000 0x8000 0xFFFFFFFF 0xFFFFFFFF 0xFFFFFFFF 0xFFFFFFFF 0x0 0x0 0x0 0x7 0x1 0x0 0x0 0x0 0x0 0x0 0x0 0x0 0x8062 0x1 0x1 0x0 0x7 0x1 0x0;
  mk_config (Some 6%nat) false 0x1 0x0 0xA 0xA 0xA 0x2 0x3FF00000 0xFFC00 0x3FF 0xC0000000 0x20 0x0 0x10 0x10 0x10 0x10 0x0 0x0 0x0 0x0 0x0 0x8002 0x8001 0x8000 0xFFFFFFFF 0xFFFFFFFF 0xFFFFFFFF 0xFFFFFFFF 0x0 0x0 0x0 0x7 0x1 0x0 0x0 0x0 0x0 0x0 0x0 0x0 0x8062 0x1 0x1 0x0 0x7 0x1 0x0;
  mk_config (Some 7%nat) false 0x0 0x0 0xA 0xA 0xA 0x2 0x3FF00000 0xFFC00 0x3FF 0xC0000000 0x20 0x0 0x0 0x0 0x0 0x0 0x10 0x0 0x0 0x0 0x0 0x8002 0x8000 0x8000 0xFFFFFFFF 0xFFFFFFFF 0xFFFFFFFF 0xFFFFFFFF 0x0 0x0 0x0 0x7 0x1 0x0 0x0 0x0 0x0 0x0 0x0 0x0 0x8063 0x1 0x1 0x0 0x7 0x1 0x0;
  mk_config (Some 8%nat) false 0x0 0x0 0xA 0xA 0xA 0x2 0x3FF00000 0xFFC00 0x3FF 0xC0000000 0x20 0x0 0x10 0x10 0x10 0x10 0x10 0x0 0x0 0x0 0x0 0x8002 0x8001 0x8000 0xFFFFFFFF 0xFFFFFFFF 0xFFFFFFFF 0xFFFFFFFF 0x0 0x0 0x0 0x7 0x1 0x0 0x0 0x0 0x0 0x0 0x0 0x0 0x8063 0x1 0x1 0x0 0x7 0x1 0x0;
  mk_config (Some 9%nat) false 0x1 0x0 0xA 0xA 0xA 0x2 0x3FF00000 0xFFC00 0x3FF 0xC0000000 0x20 0x0 0x0 0x0 0x0 0x0 0x10 0x0 0x0 0x0 0x0 0x8002 0x8000 0x8000 0xFFFFFFFF 0xFFFFFFFF 0xFFFFFFFF 0xFFFFFFFF 0x0 0x0 0x0 0x7 0x1 0x0 0x0 0x0 0x0 0x0 0x0 0x0 0x8063 0x1 0x1 0x0 0x7 0x1 0x0;
  mk_config (Some 10%nat) false 0x1 0x0 0xA 0xA 0xA 0x2 0x3FF00000 0xFFC00 0x3FF 0xC0000000 0x20 0x0 0x10 0x10 0x10 0x10 0x10 0x0 0x0 0x0 0x0 0x8002 0x8001 0x8000 0xFFFFFFFF 0xFFFFFFFF 0xFFFFFFFF 0xFFFFFFFF 0x0 0x0 0x0 0x7 0x1 0x0 0x0 0x0 0x0 0x0 0x0 0x0 0x8063 0x1 0x1 0x0 0x7 0x1 0x0;
  mk_config (Some 11%nat) false 0x1 0x0 0xA 0xA 0xA 0x2 0x3FF00000 0xFFC00 0x3FF 0xC0000000 0x20 0x0 0x0 0x0 0x0 0x0 0x10 0x0 0x0 0x0 0x0 0x8002 0x8000 0x8000 0xFFFFFFFF 0xFFFFFFFF 0xFFFFFFFF 0xFFFFFFFF 0x0 0x0 0x0 0x7 0x1 0x0 0x0 0x0 0x0 0x0 0x0 0x0 0x8062 0x1 0x1 0x0 0x7 0x1 0x0;
  mk_config (Some 12%nat) false 0x1 0x0 0xA 0xA 0xA 0x2 0x3FF00000 0xFFC00 0x3FF 0xC0000000 0x20 0x0 0x10 0x10 0x10 0x10 0x10 0x0 0x0 0x0 0x0 0x8002 0x8001 0x8000 0xFFFFFFFF 0xFFFFFFFF 0xFFFFFFFF 0xFFFFFFFF 0x0 0x0 0x0 0x7 0x1 0x0 0x0 0x0 0x0 0x0 0x0 0x0 0x8062 0x1 0x1 0x0 0x7 0x1 0x0;
  mk_config (Some 13%nat) false 0x0 0x0 0xA 0xA 0xA 0x2 0x3FF00000 0xFFC00 0x3FF 0xC0000000 0x20 0x0 0x0 0x0 0x0 0x0 0x18 0x0 0x0 0x0 0x0 0x8002 0x8000 0x8000 0xFFFFFFFF 0xFFFFFFFF 0xFFFFFFFF 0xFFFFFFFF 0x0 0x0 0x0 0x7 0x1 0x0 0x0 0x0 0x0 0x0 0x0 0x0 0x8063 0x1 0x1 0x0 0x7 0x1 0x0;
  mk_config (Some 14%nat) false 0x0 0x0 0xA 0xA 0xA 0x2 0x3FF00000 0xFFC00 0x3FF 0xC0000000 0x20 0x0 0x10 0x10 0x10 0x10 0x18 0x0 0x0 0x0 0x0 0x8002 0x8001 0x8000 0xFFFFFFFF 0xFFFFFFFF 0xFFFFFFFF 0xFFFFFFFF 0x0 0x0 0x0 0x7 0x1 0x0 0x0 0x0 0x0 0x0 0x0 0x0 0x8063 0x1 0x1 0x0 0x7 0x1 0x0;
  mk_config (Some 15%nat) false 0x1 0x0 0xA 0xA 0xA 0x2 0x3FF00000 0xFFC00 0x3FF 0xC0000000 0x20 0x0 0x0 0x0 0x0 0x0 0x18 0x0 0x0 0x0 0x0 0x8002 0x8000 0x8000 0xFFFFFFFF 0xFFFFFFFF 0xFFFFFFFF 0xFFFFFFFF 0x0 0x0 0x0 0x7 0x1 0x0 0x0 0x0 0x0 0x0 0x0 0x0 0x8063 0x1 0x1 0x0 0x7 0x1 0x0;
  mk_config (Some 16%nat) false 0x1 0x0 0xA 0xA 0xA 0x2 0x3FF00000 0xFFC00 0x3FF 0xC0000000 0x20 0x0 0x10 0x10 0x10 0x10 0x18 0x0 0x0 0x0 0x0 0x8002 0x8001 0x8000 0xFFFFFFFF 0xFFFFFFFF 0xFFFFFFFF 0xFFFFFFFF 0x0 0x0 0x0 0x7 0x1 0x0 0x0 0x0 0x0 0x0 0x0 0x0 0x8063 0x1 0x1 0x0 0x7 0x1 0x0;
  mk_config (Some 17%nat) false 0x1 0x0 0xA 0xA 0xA 0x2 0x3FF00000 0xFFC00 0x3FF 0xC0000000 0x20 0x0 0x0 0x0 0x0 0x0 0x18 0x0 0x0 0x0 0x0 0x8002 0x8000 0x8000 0xFFFFFFFF 0xFFFFFFFF 0xFFFFFFFF 0xFFFFFFFF 0x0 0x0 0x0 0x7 0x1 0x0 0x0 0x0 0x0 0x0 0x0 0x0 0x8062 0x1 0x1 0x0 0x7 0x1 0x0;
  mk_config (Some 18%nat) false 0x1 0x0 0xA 0xA 0xA 0x2 0x3FF00000 0xFFC00 0x3FF 0xC0000000 0x20 0x0 0x10 0x10 0x10 0x10 0x18 0x0 0x0 0x0 0x0 0x8002 0x8001 0x8000 0xFFFFFFFF 0xFFFFFFFF 0xFFFFFFFF 0xFFFFFFFF 0x0 0x0 0x0 0x7 0x1 0x0 0x0 0x0 0x0 0x0 0x0 0x0 0x8062 0x1 0x1 0x0 0x7 0x1 0x0;
  mk_config (Some 19%nat) false 0x0 0x0 0xA 0xA 0xA 0x2 0x3FF00000 0xFFC00 0x3FF 0xC0000000 0x20 0x0 0x0 0x0 0x0 0x0 0x18 0x8 0x0 0x0 0x0 0x8002 0x8000 0x8000 0xFFFFFFFF 0xFFFFFFFF 0xFFFFFFFF 0xFFFFFFFF 0x0 0x0 0x0 0x7 0x1 0x0 0x0 0x0 0x0 0x0 0x0 0x0 0x8063 0x1 0x1 0x0 0x7 0x1 0x0;
  mk_config (Some 20%nat) false 0x0 0x0 0xA 0xA 0xA 0x2 0x3FF00000 0xFFC00 0x3FF 0xC0000000 0x20 0x0 0x10 0x10 0x10 0x10 0x18 0x8 0x0 0x0 0x0 0x8002 0x8001 0x8000 0xFFFFFFFF 0xFFFFFFFF 0xFFFFFFFF 0xFFFFFFFF 0x0 0x0 0x0 0x7 0x1 0x0 0x0 0x0 0x0 0x0 0x0 0x0 0x8063 0x1 0x1 0x0 0x7 0x1 0x0;
  mk_config (Some 21%nat) false 0x1 0x0 0xA 0xA 0xA 0x2 0x3FF00000 0xFFC00 0x3FF 0xC0000000 0x20 0x0 0x0 0x0 0x0 0x0 0x18 0x8 0x0 0x0 0x0 0x8002 0x8000 0x8000 0xFFFFFFFF 0xFFFFFFFF 0xFFFFFFFF 0xFFFFFFFF 0x0 0x0 0x0 0x7 0x1 0x0 0x0 0x0 0x0 0x0 0x0 0x0 0x8063 0x1 0x1 0x0 0x7 0x1 0x0;
  mk_config (Some 22%nat) false 0x1 0x0 0xA 0xA 0xA 0x2 0x3FF00000 0xFFC00 0x3FF 0xC0000000 0x20 0x0 0x10 0x10 0x10 0x10 0x18 0x8 0x0 0x0 0x0 0x8002 0x8001 0x8000 0xFFFFFFFF 0xFFFFFFFF 0xFFFFFFFF 0xFFFFFFFF 0x0 0x0 0x0 0x7 0x1 0x0 0x0 0x0 0x0 0x0 0x0 0x0 0x8063 0x1 0x1 0x0 0x7 0x1 0x0;
  mk_config (Some 23%nat) false 0x1 0x0 0xA 0xA 0xA 0x2 0x3FF00000 0xFFC00 0x3FF 0xC0000000 0x20 0x0 0x0 0x0 0x0 0x0 0x18 0x8 0x0 0x0 0x0 0x8002 0x8000 0x8000 0xFFFFFFFF 0xFFFFFFFF 0xFFFFFFFF 0xFFFFFFFF 0x0 0x0 0x0 0x7 0x1 0x0 0x0 0x0 0x0 0x0 0x0 0x0 0x8062 0x1 0x1 0x0 0x7 0x1 0x0;
  mk_config (Some 24%nat) false 0x1 0x0 0xA 0xA 0xA 0x2 0x3FF00000 0xFFC00 0x3FF 0xC0000000 0x20 0x0 0x10 0x10 0x10 0x10 0x18 0x8 0x0 0x0 0x0 0x8002 0x8001 0x8000 0xFFFFFFFF 0xFFFFFFFF 0xFFFFFFFF 0xFFFFFFFF 0x0 0x0 0x0 0x7 0x1 0x0 0x0 0x0 0x0 0x0 0x0 0x0 0x8062 0x1 0x1 0x0 0x7 0x1 0x0;
  mk_config (Some 25%nat) false 0x0 0x0 0xA 0xA 0xA 0x2 0x3FF00000 0xFFC00 0x3FF 0xC0000000 0x20 0x0 0x0 0x0 0x0 0x0 0x20 0x0 0x0 0x0 0x0 0x8002 0x8000 0x8000 0xFFFFFFFF 0xFFFFFFFF 0xFFFFFFFF 0xFFFFFFFF 0x0 0x0 0x0 0x7 0x1 0x0 0x0 0x0 0x0 0x0 0x0 0x0 0x8063 0x1 0x1 0x0 0x7 0x1 0x0;
  mk_config (Some 26%nat) false 0x0 0x0 0xA 0xA 0xA 0x2 0x3FF00000 0xFFC00 0x3FF 0xC0000000 0x20 0x0 0x10 0x10 0x10 0x10 0x20 0x0 0x0 0x0 0x0 0x8002 0x8001 0x8000 0xFFFFFFFF 0xFFFFFFFF 0xFFFFFFFF 0xFFFFFFFF 0x0 0x0 0x0 0x7 0x1 0x0 0x0 0x0 0x0 0x0 0x0 0x0 0x8063 0x1 0x1 0x0 0x7 0x1 0x0;
  mk_config (Some 27%nat) false 0x1 0x0 0xA 0xA 0xA 0x2 0x3FF00000 0xFFC00 0x3FF 0xC0000000 0x20 0x0 0x0 0x0 0x0 0x0 0x20 0x0 0x0 0x0 0x0 0x8002 0x8000 0x8000 0xFFFFFFFF 0xFFFFFFFF 0xFFFFFFFF 0xFFFFFFFF 0x0 0x0 0x0 0x7 0x1 0x0 0x0 0x0 0x0 0x0 0x0 0x0 0x8063 0x1 0x1 0x0 0x7 0x1 0x0;
  mk_config (Some 28%nat) false 0x1 0x0 0xA 0xA 0xA 0x2 0x3FF00000 0xFFC00 0x3FF 0xC0000000 0x20 0x0 0x10 0x10 0x10 0x10 0x20 0x0 0x0 0x0 0x0 0x8002 0x8001 0x8000 0xFFFFFFFF 0xFFFFFFFF 0xFFFFFFFF 0xFFFFFFFF 0x0 0x0 0x0 0x7 0x1 0x0 0x0 0x0 0x0 0x0 0x0 0x0 0x8063 0x1 0x1 0x0 0x7 0x1 0x0;
  mk_config (Some 29%nat) false 0x1 0x0 0xA 0xA 0xA 0x2 0x3FF00000 0xFFC00 0x3FF 0xC0000000 0x20 0x0 0x0 0x0 0x0 0x0 0x20 0x0 0x0 0x0 0x0 0x8002 0x8000 0x8000 0xFFFFFFFF 0xFFFFFFFF 0xFFFFFFFF 0xFFFFFFFF 0x0 0x0 0x0 0x7 0x1 0x0 0x0 0x0 0x0 0x0 0x0 0x0 0x8062 0x1 0x1 0x0 0x7 0x1 0x0;
  mk_config (Some 30%nat) false 0x1 0x0 0xA 0xA 0xA 0x2 0x3FF00000 0xFFC00 0x3FF 0xC0000000 0x20 0x0 0x10 0x10 0x10 0x10 0x20 0x0 0x0 0x0 0x0 0x8002 0x8001 0x8000 0xFFFFFFFF 0xFFFFFFFF 0xFFFFFFFF 0xFFFFFFFF 0x0 0x0 0x0 0x7 0x1 0x0 0x0 0x0 0x0 0x0 0x0 0x0 0x8062 0x1 0x1 0x0 0x7 0x1 0x0;
  mk_config (Some 31%nat) false 0x0 0x0 0xA 0xA 0xA 0x2 0x3FF00000 0xFFC00 0x3FF 0xC0000000 0x20 0x0 0x0 0x0 0x0 0x0 0x0 0x0 0x0 0x0 0x0 0x8002 0x8000 0x8000 0xFFFFFFFF 0xFFFFFFFF 0xFFFFFFFF 0xFFFFFFFF 0x0 0x1 0x4 0x7 0x1 0x0 0x0 0x0 0x0 0x0 0x0 0x0 0x8063 0x1 0x1 0x0 0x7 0x1 0x0;
  mk_config (Some 32%nat) false 0x1 0x0 0xA 0xA 0xA 0x2 0x3FF00000 0xFFC00 0x3FF 0xC0000000 0x20 0x0 0x0 0x0 0x0 0x0 0x0 0x0 0x0 0x0 0x0 0x8002 0x8000 0x8000 0xFFFFFFFF 0xFFFFFFFF 0xFFFFFFFF 0xFFFFFFFF 0x0 0x1 0x4 0x7 0x1 0x0 0x0 0x0 0x0 0x0 0x0 0x0 0x8063 0x1 0x1 0x0 0x7 0x1 0x0;
  mk_config (Some 33%nat) false 0x1 0x0 0xA 0xA 0xA 0x2 0x3FF00000 0xFFC00 0x3FF 0xC0000000 0x20 0x0 0x0 0x0 0x0 0x0 0x0 0x0 0x0 0x0 0x0 0x8002 0x8000 0x8000 0xFFFFFFFF 0xFFFFFFFF 0xFFFFFFFF 0xFFFFFFFF 0x0 0x1 0x4 0x7 0x1 0x0 0x0 0x0 0x0 0x0 0x0 0x0 0x8062 0x1 0x1 0x0 0x7 0x1 0x0;
  mk_config (Some 34%nat) false 0x0 0x0 0xA 0xA 0xA 0x2 0x3FF00000 0xFFC00 0x3FF 0xC0000000 0x20 0x0 0x0 0x0 0x0 0x0 0x10 0x0 0x0 0x0 0x0 0x8002 0x8000 0x8000 0xFFFFFFFF 0xFFFFFFFF 0xFFFFFFFF 0xFFFFFFFF 0x0 0x1 0x4 0x7 0x1 0x0 0x0 0x0 0x0 0x0 0x0 0x0 0x8063 0x1 0x1 0x0 0x7 0x1 0x0;
  mk_config (Some 35%nat) false 0x1 0x0 0xA 0xA 0xA 0x2 0x3FF00000 0xFFC00 0x3FF 0xC0000000 0x20 0x0 0x0 0x0 0x0 0x0 0x10 0x0 0x0 0x0 0x0 0x8002 0x8000 0x8000 0xFFFFFFFF 0xFFFFFFFF 0xFFFFFFFF 0xFFFFFFFF 0x0 0x1 0x4 0x7 0x1 0x0 0x0 0x0 0x0 0x0 0x0 0x0 0x8063 0x1 0x1 0x0 0x7 0x1 0x0;
  mk_config (Some 36%nat) false 0x1 0x0 0xA 0xA 0xA 0x2 0x3FF00000 0xFFC00 0x3FF 0xC0000000 0x20 0x0 0x0 0x0 0x0 0x0 0x10 0x0 0x0 0x0 0x0 0x8002 0x8000 0x8000 0xFFFFFFFF 0xFFFFFFFF 0xFFFFFFFF 0xFFFFFFFF 0x0 0x1 0x4 0x7 0x1 0x0 0x0 0x0 0x0 0x0 0x0 0x0 0x8062 0x1 0x1 0x0 0x7 0x1 0x0;
  mk_config (Some 37%nat) false 0x0 0x0 0xA 0xA 0xA 0x2 0x3FF00000 0xFFC00 0x3FF 0xC0000000 0x20 0x0 0x0 0x0 0x0 0x0 0x18 0x0 0x0 0x0 0x0 0x8002 0x8000 0x8000 0xFFFFFFFF 0xFFFFFFFF 0xFFFFFFFF 0xFFFFFFFF 0x0 0x1 0x4 0x7 0x1 0x0 0x0 0x0 0x0 0x0 0x0 0x0 0x8063 0x1 0x1 0x0 0x7 0x1 0x0;
  mk_config (Some 38%nat) false 0x1 0x0 0xA 0xA 0xA 0x2 0x3FF00000 0xFFC00 0x3FF 0xC0000000 0x20 0x0 0x0 0x0 0x0 0x0 0x18 0x0 0x0 0x0 0x0 0x8002 0x8000 0x8000 0xFFFFFFFF 0xFFFFFFFF 0xFFFFFFFF 0xFFFFFFFF 0x0 0x1 0x4 0x7 0x1 0x0 0x0 0x0 0x0 0x0 0x0 0x0 0x8063 0x1 0x1 0x0 0x7 0x1 0x0;
  mk_config (Some 39%nat) false 0x1 0x0 0xA 0xA 0xA 0x2 0x3FF00000 0xFFC00 0x3FF 0xC0000000 0x20 0x0 0x0 0x0 0x0 0x0 0x18 0x0 0x0 0x0 0x0 0x8002 0x8000 0x8000 0xFFFFFFFF 0xFFFFFFFF 0xFFFFFFFF 0xFFFFFFFF 0x0 0x1 0x4 0x7 0x1 0x0 0x0 0x0 0x0 0x0 0x0 0x0 0x8062 0x1 0x1 0x0 0x7 0x1 0x0;
  mk_config (Some 40%nat) false 0x0 0x0 0xA 0xA 0xA 0x2 0x3FF00000 0xFFC00 0x3FF 0xC0000000 0x20 0x0 0x0 0x0 0x0 0x0 0x18 0x8 0x0 0x0 0x0 0x8002 0x8000 0x8000 0xFFFFFFFF 0xFFFFFFFF 0xFFFFFFFF 0xFFFFFFFF 0x0 0x1 0x4 0x7 0x1 0x0 0x0 0x0 0x0 0x0 0x0 0x0 0x8063 0x1 0x1 0x0 0x7 0x1 0x0;
  mk_config (Some 41%nat) false 0x1 0x0 0xA 0xA 0xA 0x2 0x3FF00000 0xFFC00 0x3FF 0xC0000000 0x20 0x0 0x0 0x0 0x0 0x0 0x18 0x8 0x0 0x0 0x0 0x8002 0x8000 0x8000 0xFFFFFFFF 0xFFFFFFFF 0xFFFFFFFF 0xFFFFFFFF 0x0 0x1 0x4 0x7 0x1 0x0 0x0 0x0 0x0 0x0 0x0 0x0 0x8063 0x1 0x1 0x0 0x7 0x1 0x0;
  mk_config (Some 42%nat) false 0x1 0x0 0xA 0xA 0xA 0x2 0x3FF00000 0xFFC00 0x3FF 0xC0000000 0x20 0x0 0x0 0x0 0x0 0x0 0x18 0x8 0x0 0x0 0x0 0x8002 0x8000 0x8000 0xFFFFFFFF 0xFFFFFFFF 0xFFFFFFFF 0xFFFFFFFF 0x0 0x1 0x4 0x7 0x1 0x0 0x0 0x0 0x0 0x0 0x0 0x0 0x8062 0x1 0x1 0x0 0x7 0x1 0x0;
  mk_config (Some 43%nat) false 0x0 0x0 0xA 0xA 0xA 0x2 0x3FF00000 0xFFC00 0x3FF 0xC0000000 0x20 0x0 0x0 0x0 0x0 0x0 0x20 0x0 0x0 0x0 0x0 0x8002 0x8000 0x8000 0xFFFFFFFF 0xFFFFFFFF 0xFFFFFFFF 0xFFFFFFFF 0x0 0x1 0x4 0x7 0x1 0x0 0x0 0x0 0x0 0x0 0x0 0x0 0x8063 0x1 0x1 0x0 0x7 0x1 0x0;
  mk_config (Some 44%nat) false 0x1 0x0 0xA 0xA 0xA 0x2 0x3FF00000 0xFFC00 0x3FF 0xC0000000 0x20 0x0 0x0 0x0 0x0 0x0 0x20 0x0 0x0 0x0 0x0 0x8002 0x8000 0x8000 0xFFFFFFFF 0xFFFFFFFF 0xFFFFFFFF 0xFFFFFFFF 0x0 0x1 0x4 0x7 0x1 0x0 0x0 0x0 0x0 0x0 0x0 0x0 0x8063 0x1 0x1 0x0 0x7 0x1 0x0;
  mk_config (Some 45%nat) false 0x1 0x0 0xA 0xA 0xA 0x2 0x3FF00000 0xFFC00 0x3FF 0xC0000000 0x20 0x0 0x0 0x0 0x0 0x0 0x20 0x0 0x0 0x0 0x0 0x8002 0x8000 0x8000 0xFFFFFFFF 0xFFFFFFFF 0xFFFFFFFF 0xFFFFFFFF 0x0 0x1 0x4 0x7 0x1 0x0 0x0 0x0 0x0 0x0 0x0 0x0 0x8062 0x1 0x1 0x0 0x7 0x1 0x0;
  mk_config (Some 46%nat) false 0x0 0x0 0xA 0xA 0xA 0x0 0x3FF00000 0xFFC00 0x3FF 0x0 0x1E 0x0 0x0 0x0 0x0 0x0 0x0 0x0 0x0 0x0 0x0 0x8002 0x8000 0x8000 0xFFFFFFFF 0xFFFFFFFF 0xFFFFFFFF 0xFFFFFFFF 0x0 0x0 0x0 0x1 0x1 0x0 0x0 0x0 0x0 0x0 0x0 0x0 0x8063 0x1 0x1 0x0 0x7 0x1 0x0;
  mk_config (Some 47%nat) false 0x0 0x0 0xA 0xA 0xA 0x0 0x3FF00000 0xFFC00 0x3FF 0x0 0x1E 0x0 0x10 0x10 0x10 0x10 0x0 0x0 0x0 0x0 0x0 0x8002 0x8001 0x8000 0xFFFFFFFF 0xFFFFFFFF 0xFFFFFFFF 0xFFFFFFFF 0x0 0x0 0x0 0x1 0x1 0x0 0x0 0x0 0x0 0x0 0x0 0x0 0x8063 0x1 0x1 0x0 0x7 0x1 0x0;
  mk_config (Some 48%nat) false 0x1 0x0 0xA 0xA 0xA 0x0 0x3FF00000 0xFFC00 0x3FF 0x0 0x1E 0x0 0x0 0x0 0x0 0x0 0x0 0x0 0x0 0x0 0x0 0x8002 0x8000 0x8000 0xFFFFFFFF 0xFFFFFFFF 0xFFFFFFFF 0xFFFFFFFF 0x0 0x0 0x0 0x1 0x1 0x0 0x0 0x0 0x0 0x0 0x0 0x0 0x8063 0x1 0x1 0x0 0x7 0x1 0x0;
  mk_config (Some 49%nat) false 0x1 0x0 0xA 0xA 0xA 0x0 0x3FF00000 0xFFC00 0x3FF 0x0 0x1E 0x0 0x10 0x10 0x10 0x10 0x0 0x0 0x0 0x0 0x0 0x8002 0x8001 0x8000 0xFFFFFFFF 0xFFFFFFFF 0xFFFFFFFF 0xFFFFFFFF 0x0 0x0 0x0 0x1 0x1 0x0 0x0 0x0 0x0 0x0 0x0 0x0 0x8063 0x1 0x1 0x0 0x7 0x1 0x0;
  mk_config (Some 50%nat) false 0x1 0x0 0xA 0xA 0xA 0x0 0x3FF00000 0xFFC00 0x3FF 0x0 0x1E 0x0 0x0 0x0 0x0 0x0 0x0 0x0 0x0 0x0 0x0 0x8002 0x8000 0x8000 0xFFFFFFFF 0xFFFFFFFF 0xFFFFFFFF 0xFFFFFFFF 0x0 0x0 0x0 0x1 0x1 0x0 0x0 0x0 0x0 0x0 0x0 0x0 0x8062 0x1 0x1 0x0 0x7 0x1 0x0;
  mk_config (Some 51%nat) false 0x1 0x0 0xA 0xA 0xA 0x0 0x3FF00000 0xFFC00 0x3FF 0x0 0x1E 0x0 0x10 0x10 0x10 0x10 0x0 0x0 0x0 0x0 0x0 0x8002 0x8001 0x8000 0xFFFFFFFF 0xFFFFFFFF 0xFFFFFFFF 0xFFFFFFFF 0x0 0x0 0x0 0x1 0x1 0x0 0x0 0x0 0x0 0x0 0x0 0x0 0x8062 0x1 0x1 0x0 0x7 0x1 0x0;
  mk_config (Some 52%nat) false 0x0 0x0 0xA 0xA 0xA 0x0 0x3FF00000 0xFFC00 0x3FF 0x0 0x1E 0x0 0x0 0x0 0x0 0x0 0x10 0x0 0x0 0x0 0x0 0x8002 0x8000 0x8000 0xFFFFFFFF 0xFFFFFFFF 0xFFFFFFFF 0xFFFFFFFF 0x0 0x0 0x0 0x1 0x1 0x0 0x0 0x0 0x0 0x0 0x0 0x0 0x8063 0x1 0x1 0x0 0x7 0x1 0x0;
  mk_config (Some 53%nat) false 0x0 0x0 0xA 0xA 0xA 0x0 0x3FF00000 0xFFC00 0x3FF 0x0 0x1E 0x0 0x10 0x10 0x10 0x10 0x10 0x0 0x0 0x0 0x0 0x8002 0x8001 0x8000 0xFFFFFFFF 0xFFFFFFFF 0xFFFFFFFF 0xFFFFFFFF 0x0 0x0 0x0 0x1 0x1 0x0 0x0 0x0 0x0 0x0 0x0 0x0 0x8063 0x1 0x1 0x0 0x7 0x1 0x0;
  mk_config (Some 54%nat) false 0x1 0x0 0xA 0xA 0xA 0x0 0x3FF00000 0xFFC00 0x3FF 0x0 0x1E 0x0 0x0 0x0 0x0 0x0 0x10 0x0 0x0 0x0 0x0 0x8002 0x8000 0x8000 0xFFFFFFFF 0xFFFFFFFF 0xFFFFFFFF 0xFFFFFFFF 0x0 0x0 0x0 0x1 0x1 0x0 0x0 0x0 0x0 0x0 0x0 0x0 0x8063 0x1 0x1 0x0 0x7 0x1 0x0;
  mk_config (Some 55%nat) false 0x1 0x0 0xA 0xA 0xA 0x0 0x3FF00000 0xFFC00 0x3FF 0x0 0x1E 0x0 0x10 0x10 0x10 0x10 0x10 0x0 0x0 0x0 0x0 0x8002 0x8001 0x8000 0xFFFFFFFF 0xFFFFFFFF 0xFFFFFFFF 0xFFFFFFFF 0x0 0x0 0x0 0x1 0x1 0x0 0x0 0x0 0x0 0x0 0x0 0x0 0x8063 0x1 0x1 0x0 0x7 0x1 0x0;
  mk_config (Some 56%nat) false 0x1 0x0 0xA 0xA 0xA 0x0 0x3FF00000 0xFFC00 0x3FF 0x0 0x1E 0x0 0x0 0x0 0x0 0x0 0x10 0x0 0x0 0x0 0x0 0x8002 0x8000 0x8000 0xFFFFFFFF 0xFFFFFFFF 0xFFFFFFFF 0xFFFFFFFF 0x0 0x0 0x0 0x1 0x1 0x0 0x0 0x0 0x0 0x0 0x0 0x0 0x8062 0x1 0x1 0x0 0x7 0x1 0x0;
  mk_config (Some 57%nat) false 0x1 0x0 0xA 0xA 0xA 0x0 0x3FF00000 0xFFC00 0x3FF 0x0 0x1E 0x0 0x10 0x10 0x10 0x10 0x10 0x0 0x0 0x0 0x0 0x8002 0x8001 0x8000 0xFFFFFFFF 0xFFFFFFFF 0xFFFFFFFF 0xFFFFFFFF 0x0 0x0 0x0 0x1 0x1 0x0 0x0 0x0 0x0 0x0 0x0 0x0 0x8062 0x1 0x1 0x0 0x7 0x1 0x0;
  mk_config (Some 58%nat) false 0x0 0x0 0xA 0xA 0xA 0x0 0x3FF00000 0xFFC00 0x3FF 0x0 0x1E 0x0 0x0 0x0 0x0 0x0 0x18 0x0 0x0 0x0 0x0 0x8002 0x8000 0x8000 0xFFFFFFFF 0xFFFFFFFF 0xFFFFFFFF 0xFFFFFFFF 0x0 0x0 0x0 0x1 0x1 0x0 0x0 0x0 0x0 0x0 0x0 0x0 0x8063 0x1 0x1 0x0 0x7 0x1 0x0;
  mk_config (Some 59%nat) false 0x0 0x0 0xA 0xA 0xA 0x0 0x3FF00000 0xFFC00 0x3FF 0x0 0x1E 0x0 0x10 0x10 0x10 0x10 0x18 0x0 0x0 0x0 0x0 0x8002 0x8001 0x8000 0xFFFFFFFF 0xFFFFFFFF 0xFFFFFFFF 0xFFFFFFFF 0x0 0x0 0x0 0x1 0x1 0x0 0x0 0x0 0x0 0x0 0x0 0x0 0x8063 0x1 0x1 0x0 0x7 0x1 0x0;
  mk_config (Some 60%nat) false 0x1 0x0 0xA 0xA 0xA 0x0 0x3FF00000 0xFFC00 0x3FF 0x0 0x1E 0x0 0x0 0x0 0x0 0x0 0x18 0x0 0x0 0x0 0x0 0x8002 0x8000 0x8000 0xFFFFFFFF 0xFFFFFFFF 0xFFFFFFFF 0xFFFFFFFF 0x0 0x0 0x0 0x1 0x1 0x0 0x0 0x0 0x0 0x0 0x0 0x0 0x8063 0x1 0x1 0x0 0x7 0x1 0x0;
  mk_config (Some 61%nat) false 0x1 0x0 0xA 0xA 0xA 0x0 0x3FF00000 0xFFC00 0x3FF 0x0 0x1E 0x0 0x10 0x10 0x10 0x10 0x18 0x0 0x0 0x0 0x0 0x8002 0x8001 0x8000 0xFFFFFFFF 0xFFFFFFFF 0xFFFFFFFF 0xFFFFFFFF 0x0 0x0 0x0 0x1 0x1 0x0 0x0 0x0 0x0 0x0 0x0 0x0 0x8063 0x1 0x1 0x0 0x7 0x1 0x0;
  mk_config (Some 62%nat) false 0x1 0x0 0xA 0xA 0xA 0x0 0x3FF00000 0xFFC00 0x3FF 0x0 0x1E 0x0 0x0 0x0 0x0 0x0 0x18 0x0 0x0 0x0 0x0 0x8002 0x8000 0x8000 0xFFFFFFFF 0xFFFFFFFF 0xFFFFFFFF 0xFFFFFFFF 0x0 0x0 0x0 0x1 0x1 0x0 0x0 0x0 0x0 0x0 0x0 0x0 0x8062 0x1 0x1 0x0 0x7 0x1 0x0;
  mk_config (Some 63%nat) false 0x1 0x0 0xA 0xA 0xA 0x0 0x3FF00000 0xFFC00 0x3FF 0x0 0x1E 0x0 0x10 0x10 0x10 0x10 0x18 0x0 0x0 0x0 0x0 0x8002 0x8001 0x8000 0xFFFFFFFF 0xFFFFFFFF 0xFFFFFFFF 0xFFFFFFFF 0x0 0x0 0x0 0x1 0x1 0x0 0x0 0x0 0x0 0x0 0x0 0x0 0x8062 0x1 0x1 0x0 0x7 0x1 0x0;
  mk_config (Some 64%nat) false 0x0 0x0 0xA 0xA 0xA 0x0 0x3FF00000 0xFFC00 0x3FF 0x0 0x1E 0x0 0x0 0x0 0x0 0x0 0x18 0x8 0x0 0x0 0x0 0x8002 0x8000 0x8000 0xFFFFFFFF 0xFFFFFFFF 0xFFFFFFFF 0xFFFFFFFF 0x0 0x0 0x0 0x1 0x1 0x0 0x0 0x0 0x0 0x0 0x0 0x0 0x8063 0x1 0x1 0x0 0x7 0x1 0x0;
  mk_config (Some 65%nat) false 0x0 0x0 0xA 0xA 0xA 0x0 0x3FF00000 0xFFC00 0x3FF 0x0 0x1E 0x0 0x10 0x10 0x10 0x10 0x18 0x8 0x0 0x0 0x0 0x8002 0x8001 0x8000 0xFFFFFFFF 0xFFFFFFFF 0xFFFFFFFF 0xFFFFFFFF 0x0 0x0 0x0 0x1 0x1 0x0 0x0 0x0 0x0 0x0 0x0 0x0 0x8063 0x1 0x1 0x0 0x7 0x1 0x0;
  mk_config (Some 66%nat) false 0x1 0x0 0xA 0xA 0xA 0x0 0x3FF00000 0xFFC00 0x3FF 0x0 0x1E 0x0 0x0 0x0 0x0 0x0 0x18 0x8 0x0 0x0 0x0 0x8002 0x8000 0x8000 0xFFFFFFFF 0xFFFFFFFF 0xFFFFFFFF 0xFFFFFFFF 0x0 0x0 0x0 0x1 0x1 0x0 0x0 0x0 0x0 0x0 0x0 0x0 0x8063 0x1 0x1 0x0 0x7 0x1 0x0;
  mk_config (Some 67%nat) false 0x1 0x0 0xA 0xA 0xA 0x0 0x3FF00000 0xFFC00 0x3FF 0x0 0x1E 0x0 0x10 0x10 0x10 0x10 0x18 0x8 0x0 0x0 0x0 0x8002 0x8001 0x8000 0xFFFFFFFF 0xFFFFFFFF 0xFFFFFFFF 0xFFFFFFFF 0x0 0x0 0x0 0x1 0x1 0x0 0x0 0x0 0x0 0x0 0x0 0x0 0x8063 0x1 0x1 0x0 0x7 0x1 0x0;
  mk_config (Some 68%nat) false 0x1 0x0 0xA 0xA 0xA 0x0 0x3FF00000 0xFFC00 0x3FF 0x0 0x1E 0x0 0x0 0x0 0x0 0x0 0x18 0x8 0x0 0x0 0x0 0x8002 0x8000 0x8000 0xFFFFFFFF 0xFFFFFFFF 0xFFFFFFFF 0xFFFFFFFF 0x0 0x0 0x0 0x1 0x1 0x0 0x0 0x0 0x0 0x0 0x0 0x0 0x8062 0x1 0x1 0x0 0x7 0x1 0x0;
  mk_config (Some 69%nat) false 0x1 0x0 0xA 0xA 0xA 0x0 0x3FF00000 0xFFC00 0x3FF 0x0 0x1E 0x0 0x10 0x10 0x10 0x10 0x18 0x8 0x0 0x0 0x0 0x8002 0x8001 0x8000 0xFFFFFFFF 0xFFFFFFFF 0xFFFFFFFF 0xFFFFFFFF 0x0 0x0 0x0 0x1 0x1 0x0 0x0 0x0 0x0 0x0 0x0 0x0 0x8062 0x1 0x1 0x0 0x7 0x1 0x0;
  mk_config (Some 70%nat) false 0x0 0x0 0xA 0xA 0xA 0x0 0x3FF00000 0xFFC00 0x3FF 0x0 0x1E 0x0 0x0 0x0 0x0 0x0 0x20 0x0 0x0 0x0 0x0 0x8002 0x8000 0x8000 0xFFFFFFFF 0xFFFFFFFF 0xFFFFFFFF 0xFFFFFFFF 0x0 0x0 0x0 0x1 0x1 0x0 0x0 0x0 0x0 0x0 0x0 0x0 0x8063 0x1 0x1 0x0 0x7 0x1 0x0;
  mk_config (Some 71%nat) false 0x0 0x0 0xA 0xA 0xA 0x0 0x3FF00000 0xFFC00 0x3FF 0x0 0x1E 0x0 0x10 0x10 0x10 0x10 0x20 0x0 0x0 0x0 0x0 0x8002 0x8001 0x8000 0xFFFFFFFF 0xFFFFFFFF 0xFFFFFFFF 0xFFFFFFFF 0x0 0x0 0x0 0x1 0x1 0x0 0x0 0x0 0x0 0x0 0x0 0x0 0x8063 0x1 0x1 0x0 0x7 0x1 0x0;
  mk_config (Some 72%nat) false 0x1 0x0 0xA 0xA 0xA 0x0 0x3FF00000 0xFFC00 0x3FF 0x0 0x1E 0x0 0x0 0x0 0x0 0x0 0x20 0x0 0x0 0x0 0x0 0x8002 0x8000 0x8000 0xFFFFFFFF 0xFFFFFFFF 0xFFFFFFFF 0xFFFFFFFF 0x0 0x0 0x0 0x1 0x1 0x0 0x0 0x0 0x0 0x0 0x0 0x0 0x8063 0x1 0x1 0x0 0x7 0x1 0x0;
  mk_config (Some 73%nat) false 0x1 0x0 0xA 0xA 0xA 0x0 0x3FF00000 0xFFC00 0x3FF 0x0 0x1E 0x0 0x10 0x10 0x10 0x10 0x20 0x0 0x0 0x0 0x0 0x8002 0x8001 0x8000 0xFFFFFFFF 0xFFFFFFFF 0xFFFFFFFF 0xFFFFFFFF 0x0 0x0 0x0 0x1 0x1 0x0 0x0 0x0 0x0 0x0 0x0 0x0 0x8063 0x1 0x1 0x0 0x7 0x1 0x0;
  mk_config (Some 74%nat) false 0x1 0x0 0xA 0xA 0xA 0x0 0x3FF00000 0xFFC00 0x3FF 0x0 0x1E 0x0 0x0 0x0 0x0 0x0 0x20 0x0 0x0 0x0 0x0 0x8002 0x8000 0x8000 0xFFFFFFFF 0xFFFFFFFF 0xFFFFFFFF 0xFFFFFFFF 0x0 0x0 0x0 0x1 0x1 0x0 0x0 0x0 0x0 0x0 0x0 0x0 0x8062 0x1 0x1 0x0 0x7 0x1 0x0;
  mk_config (Some 75%nat) false 0x1 0x0 0xA 0xA 0xA 0x0 0x3FF00000 0xFFC00 0x3FF 0x0 0x1E 0x0 0x10 0x10 0x10 0x10 0x20 0x0 0x0 0x0 0x0 0x8002 0x8001 0x8000 0xFFFFFFFF 0xFFFFFFFF 0xFFFFFFFF 0xFFFFFFFF 0x0 0x0 0x0 0x1 0x1 0x0 0x0 0x0 0x0 0x0 0x0 0x0 0x8062 0x1 0x1 0x0 0x7 0x1 0x0;
  mk_config (Some 76%nat) false 0x0 0x0 0xA 0xA 0xA 0x0 0x3FF00000 0xFFC00 0x3FF 0x0 0x1E 0x0 0x0 0x0 0x0 0x0 0x0 0x0 0x0 0x0 0x0 0x8002 0x8000 0x8000 0xFFFFFFFF 0xFFFFFFFF 0xFFFFFFFF 0xFFFFFFFF 0x0 0x1 0x4 0x1 0x1 0x0 0x0 0x0 0x0 0x0 0x0 0x0 0x8063 0x1 0x1 0x0 0x7 0x1 0x0;
  mk_config (Some 77%nat) false 0x1 0x0 0xA 0xA 0xA 0x0 0x3FF00000 0xFFC00 0x3FF 0x0 0x1E 0x0 0x0 0x0 0x0 0x0 0x0 0x0 0x0 0x0 0x0 0x8002 0x8000 0x8000 0xFFFFFFFF 0xFFFFFFFF 0xFFFFFFFF 0xFFFFFFFF 0x0 0x1 0x4 0x1 0x1 0x0 0x0 0x0 0x0 0x0 0x0 0x0 0x8063 0x1 0x1 0x0 0x7 0x1 0x0;
  mk_config (Some 78%nat) false 0x1 0x0 0xA 0xA 0xA 0x0 0x3FF00000 0xFFC00 0x3FF 0x0 0x1E 0x0 0x0 0x0 0x0 0x0 0x0 0x0 0x0 0x0 0x0 0x8002 0x8000 0x8000 0xFFFFFFFF 0xFFFFFFFF 0xFFFFFFFF 0xFFFFFFFF 0x0 0x1 0x4 0x1 0x1 0x0 0x0 0x0 0x0 0x0 0x0 0x0 0x8062 0x1 0x1 0x0 0x7 0x1 0x0;
  mk_config (Some 79%nat) false 0x0 0x0 0xA 0xA 0xA 0x0 0x3FF00000 0xFFC00 0x3FF 0x0 0x1E 0x0 0x0 0x0 0x0 0x0 0x10 0x0 0x0 0x0 0x0 0x8002 0x8000 0x8000 0xFFFFFFFF 0xFFFFFFFF 0xFFFFFFFF 0xFFFFFFFF 0x0 0x1 0x4 0x1 0x1 0x0 0x0 0x0 0x0 0x0 0x0 0x0 0x8063 0x1 0x1 0x0 0x7 0x1 0x0;
  mk_config (Some 80%nat) false 0x1 0x0 0xA 0xA 0xA 0x0 0x3FF00000 0xFFC00 0x3FF 0x0 0x1E 0x0 0x0 0x0 0x0 0x0 0x10 0x0 0x0 0x0 0x0 0x8002 0x8000 0x8000 0xFFFFFFFF 0xFFFFFFFF 0xFFFFFFFF 0xFFFFFFFF 0x0 0x1 0x4 0x1 0x1 0x0 0x0 0x0 0x0 0x0 0x0 0x0 0x8063 0x1 0x1 0x0 0x7 0x1 0x0;
  mk_config (Some 81%nat) false 0x1 0x0 0xA 0xA 0xA 0x0 0x3FF00000 0xFFC00 0x3FF 0x0 0x1E 0x0 0x0 0x0 0x0 0x0 0x10 0x0 0x0 0x0 0x0 0x8002 0x8000 0x8000 0xFFFFFFFF 0xFFFFFFFF 0xFFFFFFFF 0xFFFFFFFF 0x0 0x1 0x4 0x1 0x1 0x0 0x0 0x0 0x0 0x0 0x0 0x0 0x8062 0x1 0x1 0x0 0x7 0x1 0x0;
  mk_config (Some 82%nat) false 0x0 0x0 0xA 0xA 0xA 0x0 0x3FF00000 0xFFC00 0x3FF 0x0 0x1E 0x0 0x0 0x0 0x0 0x0 0x18 0x0 0x0 0x0 0x0 0x8002 0x8000 0x8000 0xFFFFFFFF 0xFFFFFFFF 0xFFFFFFFF 0xFFFFFFFF 0x0 0x1 0x4 0x1 0x1 0x0 0x0 0x0 0x0 0x0 0x0 0x0 0x8063 0x1 0x1 0x0 0x7 0x1 0x0;
  mk_config (Some 83%nat) false 0x1 0x0 0xA 0xA 0xA 0x0 0x3FF00000 0xFFC00 0x3FF 0x0 0x1E 0x0 0x0 0x0 0x0 0x0 0x18 0x0 0x0 0x0 0x0 0x8002 0x8000 0x8000 0xFFFFFFFF 0xFFFFFFFF 0xFFFFFFFF 0xFFFFFFFF 0x0 0x1 0x4 0x1 0x1 0x0 0x0 0x0 0x0 0x0 0x0 0x0 0x8063 0x1 0x1 0x0 0x7 0x1 0x0;
  mk_config (Some 84%nat) false 0x1 0x0 0xA 0xA 0xA 0x0 0x3FF00000 0xFFC00 0x3FF 0x0 0x1E 0x0 0x0 0x0 0x0 0x0 0x18 0x0 0x0 0x0 0x0 0x8002 0x8000 0x8000 0xFFFFFFFF 0xFFFFFFFF 0xFFFFFFFF 0xFFFFFFFF 0x0 0x1 0x4 0x1 0x1 0x0 0x0 0x0 0x0 0x0 0x0 0x0 0x8062 0x1 0x1 0x0 0x7 0x1 0x0;
  mk_config (Some 85%nat) false 0x0 0x0 0xA 0xA 0xA 0x0 0x3FF00000 0xFFC00 0x3FF 0x0 0x1E 0x0 0x0 0x0 0x0 0x0 0x18 0x8 0x0 0x0 0x0 0x8002 0x8000 0x8000 0xFFFFFFFF 0xFFFFFFFF 0xFFFFFFFF 0xFFFFFFFF 0x0 0x1 0x4 0x1 0x1 0x0 0x0 0x0 0x0 0x0 0x0 0x0 0x8063 0x1 0x1 0x0 0x7 0x1 0x0;
  mk_config (Some 86%nat) false 0x1 0x0 0xA 0xA 0xA 0x0 0x3FF00000 0xFFC00 0x3FF 0x0 0x1E 0x0 0x0 0x0 0x0 0x0 0x18 0x8 0x0 0x0 0x0 0x8002 0x8000 0x8000 0xFFFFFFFF 0xFFFFFFFF 0xFFFFFFFF 0xFFFFFFFF 0x0 0x1 0x4 0x1 0x1 0x0 0x0 0x0 0x0 0x0 0x0 0x0 0x8063 0x1 0x1 0x0 0x7 0x1 0x0;
  mk_config (Some 87%nat) false 0x1 0x0 0xA 0xA 0xA 0x0 0x3FF00000 0xFFC00 0x3FF 0x0 0x1E 0x0 0x0 0x0 0x0 0x0 0x18 0x8 0x0 0x0 0x0 0x8002 0x8000 0x8000 0xFFFFFFFF 0xFFFFFFFF 0xFFFFFFFF 0xFFFFFFFF 0x0 0x1 0x4 0x1 0x1 0x0 0x0 0x0 0x0 0x0 0x0 0x0 0x8062 0x1 0x1 0x0 0x7 0x1 0x0;
  mk_config (Some 88%nat) false 0x0 0x0 0xA 0xA 0xA 0x0 0x3FF00000 0xFFC00 0x3FF 0x0 0x1E 0x0 0x0 0x0 0x0 0x0 0x20 0x0 0x0 0x0 0x0 0x8002 0x8000 0x8000 0xFFFFFFFF 0xFFFFFFFF 0xFFFFFFFF 0xFFFFFFFF 0x0 0x1 0x4 0x1 0x1 0x0 0x0 0x0 0x0 0x0 0x0 0x0 0x8063 0x1 0x1 0x0 0x7 0x1 0x0;
  mk_config (Some 89%nat) false 0x1 0x0 0xA 0xA 0xA 0x0 0x3FF00000 0xFFC00 0x3FF 0x0 0x1E 0x0 0x0 0x0 0x0 0x0 0x20 0x0 0x0 0x0 0x0 0x8002 0x8000 0x8000 0xFFFFFFFF 0xFFFFFFFF 0xFFFFFFFF 0xFFFFFFFF 0x0 0x1 0x4 0x1 0x1 0x0 0x0 0x0 0x0 0x0 0x0 0x0 0x8063 0x1 0x1 0x0 0x7 0x1 0x0;
  mk_config (Some 90%nat) false 0x1 0x0 0xA 0xA 0xA 0x0 0x3FF00000 0xFFC00 0x3FF 0x0 0x1E 0x0 0x0 0x0 0x0 0x0 0x20 0x0 0x0 0x0 0x0 0x8002 0x8000 0x8000 0xFFFFFFFF 0xFFFFFFFF 0xFFFFFFFF 0xFFFFFFFF 0x0 0x1 0x4 0x1 0x1 0x0 0x0 0x0 0x0 0x0 0x0 0x0 0x8062 0x1 0x1 0x0 0x7 0x1 0x0;
  mk_config (Some 91%nat) false 0x0 0x0 0xA 0xA 0xA 0x2 0x3FF 0xFFC00 0x3FF00000 0xC0000000 0x20 0x0 0x0 0x0 0x0 0x0 0x0 0x0 0x0 0x0 0x0 0x8002 0x8000 0x8000 0xFFFFFFFF 0xFFFFFFFF 0xFFFFFFFF 0xFFFFFFFF 0x0 0x0 0x0 0x7 0x1 0x0 0x0 0x0 0x0 0x0 0x0 0x0 0x8063 0x1 0x1 0x0 0x7 0x1 0x0;
  mk_config (Some 92%nat) false 0x0 0x0 0xA 0xA 0xA 0x2 0x3FF 0xFFC00 0x3FF00000 0xC0000000 0x20 0x0 0x10 0x10 0x10 0x10 0x0 0x0 0x0 0x0 0x0 0x8002 0x8001 0x8000 0xFFFFFFFF 0xFFFFFFFF 0xFFFFFFFF 0xFFFFFFFF 0x0 0x0 0x0 0x7 0x1 0x0 0x0 0x0 0x0 0x0 0x0 0x0 0x8063 0x1 0x1 0x0 0x7 0x1 0x0;
  mk_config (Some 93%nat) false 0x1 0x0 0xA 0xA 0xA 0x2 0x3FF 0xFFC00 0x3FF00000 0xC0000000 0x20 0x0 0x0 0x0 0x0 0x0 0x0 0x0 0x0 0x0 0x0 0x8002 0x8000 0x8000 0xFFFFFFFF 0xFFFFFFFF 0xFFFFFFFF 0xFFFFFFFF 0x0 0x0 0x0 0x7 0x1 0x0 0x0 0x0 0x0 0x0 0x0 0x0 0x8063 0x1 0x1 0x0 0x7 0x1 0x0;
  mk_config (Some 94%nat) false 0x1 0x0 0xA 0xA 0xA 0x2 0x3FF 0xFFC00 0x3FF00000 0xC0000000 0x20 0x0 0x10 0x10 0x10 0x10 0x0 0x0 0x0 0x0 0x0 0x8002 0x8001 0x8000 0xFFFFFFFF 0xFFFFFFFF 0xFFFFFFFF 0xFFFFFFFF 0x0 0x0 0x0 0x7 0x1 0x0 0x0 0x0 0x0 0x0 0x0 0x0 0x8063 0x1 0x1 0x0 0x7 0x1 0x0;
  mk_config (Some 95%nat) false 0x1 0x0 0xA 0xA 0xA 0x2 0x3FF 0xFFC00 0x3FF00000 0xC0000000 0x20 0x0 0x0 0x0 0x0 0x0 0x0 0x0 0x0 0x0 0x0 0x8002 0x8000 0x8000 0xFFFFFFFF 0xFFFFFFFF 0xFFFFFFFF 0xFFFFFFFF 0x0 0x0 0x0 0x7 0x1 0x0 0x0 0x0 0x0 0x0 0x0 0x0 0x8062 0x1 0x1 0x0 0x7 0x1 0x0;
  mk_config (Some 96%nat) false 0x1 0x0 0xA 0xA 0xA 0x2 0x3FF 0xFFC00 0x3FF00000 0xC0000000 0x20 0x0 0x10 0x10 0x10 0x10 0x0 0x0 0x0 0x0 0x0 0x8002 0x8001 0x8000 0xFFFFFFFF 0xFFFFFFFF 0xFFFFFFFF 0xFFFFFFFF 0x0 0x0 0x0 0x7 0x1 0x0 0x0 0x0 0x0 0x0 0x0 0x0 0x8062 0x1 0x1 0x0 0x7 0x1 0x0;
  mk_config (Some 97%nat) false 0x0 0x0 0xA 0xA 0xA 0x2 0x3FF 0xFFC00 0x3FF00000 0xC0000000 0x20 0x0 0x0 0x0 0x0 0x0 0x10 0x0 0x0 0x0 0x0 0x8002 0x8000 0x8000 0xFFFFFFFF 0xFFFFFFFF 0xFFFFFFFF 0xFFFFFFFF 0x0 0x0 0x0 0x7 0x1 0x0 0x0 0x0 0x0 0x0 0x0 0x0 0x8063 0x1 0x1 0x0 0x7 0x1 0x0;
  mk_config (Some 98%nat) false 0x0 0x0 0xA 0xA 0xA 0x2 0x3FF 0xFFC00 0x3FF00000 0xC0000000 0x20 0x0 0x10 0x10 0x10 0x10 0x10 0x0 0x0 0x0 0x0 0x8002 0x8001 0x8000 0xFFFFFFFF 0xFFFFFFFF 0xFFFFFFFF 0xFFFFFFFF 0x0 0x0 0x0 0x7 0x1 0x0 0x0 0x0 0x0 0x0 0x0 0x0 0x8063 0x1 0x1 0x0 0x7 0x1 0x0;
  mk_config (Some 99%nat) false 0x1 0x0 0xA 0xA 0xA 0x2 0x3FF 0xFFC00 0x3FF00000 0xC0000000 0x20 0x0 0x0 0x0 0x0 0x0 0x10 0x0 0x0 0x0 0x0 0x8002 0x8000 0x8000 0xFFFFFFFF 0xFFFFFFFF 0xFFFFFFFF 0xFFFFFFFF 0x0 0x0 0x0 0x7 0x1 0x0 0x0 0x0 0x0 0x0 0x0 0x0 0x8063 0x1 0x1 0x0 0x7 0x1 0x0;
  mk_config (Some 100%nat) false 0x1 0x0 0xA 0xA 0xA 0x2 0x3FF 0xFFC00 0x3FF00000 0xC0000000 0x20 0x0 0x10 0x10 0x10 0x10 0x10 0x0 0x0 0x0 0x0 0x8002 0x8001 0x8000 0xFFFFFFFF 0xFFFFFFFF 0xFFFFFFFF 0xFFFFFFFF 0x0 0x0 0x0 0x7 0x1 0x0 0x0 0x0 0x0 0x0 0x0 0x0 0x8063 0x1 0x1 0x0 0x7 0x1 0x0;
  mk_config (Some 101%nat) false 0x1 0x0 0xA 0xA 0xA 0x2 0x3FF 0xFFC00 0x3FF00000 0xC0000000 0x20 0x0 0x0 0x0 0x0 0x0 0x10 0x0 0x0 0x0 0x0 0x8002 0x8000 0x8000 0xFFFFFFFF 0xFFFFFFFF 0xFFFFFFFF 0xFFFFFFFF 0x0 0x0 0x0 0x7 0x1 0x0 0x0 0x0 0x0 0x0 0x0 0x0 0x8062 0x1 0x1 0x0 0x7 0x1 0x0;
  mk_config (Some 102%nat) false 0x1 0x0 0xA 0xA 0xA 0x2 0x3FF 0xFFC00 0x3FF00000 0xC0000000 0x20 0x0 0x10 0x10 0x10 0x10 0x10 0x0 0x0 0x0 0x0 0x8002 0x8001 0x8000 0xFFFFFFFF 0xFFFFFFFF 0xFFFFFFFF 0xFFFFFFFF 0x0 0x0 0x0 0x7 0x1 0x0 0x0 0x0 0x0 0x0 0x0 0x0 0x8062 0x1 0x1 0x0 0x7 0x1 0x0;
  mk_config (Some 103%nat) false 0x0 0x0 0xA 0xA 0xA 0x2 0x3FF 0xFFC00 0x3FF00000 0xC0000000 0x20 0x0 0x0 0x0 0x0 0x0 0x18 0x0 0x0 0x0 0x0 0x8002 0x8000 0x8000 0xFFFFFFFF 0xFFFFFFFF 0xFFFFFFFF 0xFFFFFFFF 0x0 0x0 0x0 0x7 0x1 0x0 0x0 0x0 0x0 0x0 0x0 0x0 0x8063 0x1 0x1 0x0 0x7 0x1 0x0;
  mk_config (Some 104%nat) false 0x0 0x0 0xA 0xA 0xA 0x2 0x3FF 0xFFC00 0x3FF00000 0xC0000000 0x20 0x0 0x10 0x10 0x10 0x10 0x18 0x0 0x0 0x0 0x0 0x8002 0x8001 0x8000 0xFFFFFFFF 0xFFFFFFFF 0xFFFFFFFF 0xFFFFFFFF 0x0 0x0 0x0 0x7 0x1 0x0 0x0 0x0 0x0 0x0 0x0 0x0 0x8063 0x1 0x1 0x0 0x7 0x1 0x0;
  mk_config (Some 105%nat) false 0x1 0x0 0xA 0xA 0xA 0x2 0x3FF 0xFFC00 0x3FF00000 0xC0000000 0x20 0x0 0x0 0x0 0x0 0x0 0x18 0x0 0x0 0x0 0x0 0x8002 0x8000 0x8000 0xFFFFFFFF 0xFFFFFFFF 0xFFFFFFFF 0xFFFFFFFF 0x0 0x0 0x0 0x7 0x1 0x0 0x0 0x0 0x0 0x0 0x0 0x0 0x8063 0x1 0x1 0x0 0x7 0x1 0x0;
  mk_config (Some 106%nat) false 0x1 0x0 0xA 0xA 0xA 0x2 0x3FF 0xFFC00 0x3FF00000 0xC0000000 0x20 0x0 0x10 0x10 0x10 0x10 0x18 0x0 0x0 0x0 0x0 0x8002 0x8001 0x8000 0xFFFFFFFF 0xFFFFFFFF 0xFFFFFFFF 0xFFFFFFFF 0x0 0x0 0x0 0x7 0x1 0x0 0x0 0x0 0x0 0x0 0x0 0x0 0x8063 0x1 0x1 0x0 0x7 0x1 0x0;
  mk_config (Some 107%nat) false 0x1 0x0 0xA 0xA 0xA 0x2 0x3FF 0xFFC00 0x3FF00000 0xC0000000 0x20 0x0 0x0 0x0 0x0 0x0 0x18 0x0 0x0 0x0 0x0 0x8002 0x8000 0x8000 0xFFFFFFFF 0xFFFFFFFF 0xFFFFFFFF 0xFFFFFFFF 0x0 0x0 0x0 0x7 0x1 0x0 0x0 0x0 0x0 0x0 0x0 0x0 0x8062 0x1 0x1 0x0 0x7 0x1 0x0;
  mk_config (Some 108%nat) false 0x1 0x0 0xA 0xA 0xA 0x2 0x3FF 0xFFC00 0x3FF00000 0xC0000000 0x20 0x0 0x10 0x10 0x10 0x10 0x18 0x0 0x0 0x0 0x0 0x8002 0x8001 0x8000 0xFFFFFFFF 0xFFFFFFFF 0xFFFFFFFF 0xFFFFFFFF 0x0 0x0 0x0 0x7 0x1 0x0 0x0 0x0 0x0 0x0 0x0 0x0 0x8062 0x1 0x1 0x0 0x7 0x1 0x0;
  mk_config (Some 109%nat) false 0x0 0x0 0xA 0xA 0xA 0x2 0x3FF 0xFFC00 0x3FF00000 0xC0000000 0x20 0x0 0x0 0x0 0x0 0x0 0x18 0x8 0x0 0x0 0x0 0x8002 0x8000 0x8000 0xFFFFFFFF 0xFFFFFFFF 0xFFFFFFFF 0xFFFFFFFF 0x0 0x0 0x0 0x7 0x1 0x0 0x0 0x0 0x0 0x0 0x0 0x0 0x8063 0x1 0x1 0x0 0x7 0x1 0x0;
  mk_config (Some 110%nat) false 0x0 0x0 0xA 0xA 0xA 0x2 0x3FF 0xFFC00 0x3FF00000 0xC0000000 0x20 0x0 0x10 0x10 0x10 0x10 0x18 0x8 0x0 0x0 0x0 0x8002 0x8001 0x8000 0xFFFFFFFF 0xFFFFFFFF 0xFFFFFFFF 0xFFFFFFFF 0x0 0x0 0x0 0x7 0x1 0x0 0x0 0x0 0x0 0x0 0x0 0x0 0x8063 0x1 0x1 0x0 0x7 0x1 0x0;
  mk_config (Some 111%nat) false 0x1 0x0 0xA 0xA 0xA 0x2 0x3FF 0xFFC00 0x3FF00000 0xC0000000 0x20 0x0 0x0 0x0 0x0 0x0 0x18 0x8 0x0 0x0 0x0 0x8002 0x8000 0x8000 0xFFFFFFFF 0xFFFFFFFF 0xFFFFFFFF 0xFFFFFFFF 0x0 0x0 0x0 0x7 0x1 0x0 0x0 0x0 0x0 0x0 0x0 0x0 0x8063 0x1 0x1 0x0 0x7 0x1 0x0;
  mk_config (Some 112%nat) false 0x1 0x0 0xA 0xA 0xA 0x2 0x3FF 0xFFC00 0x3FF00000 0xC0000000 0x20 0x0 0x10 0x10 0x10 0x10 0x18 0x8 0x0 0x0 0x0 0x8002 0x8001 0x8000 0xFFFFFFFF 0xFFFFFFFF 0xFFFFFFFF 0xFFFFFFFF 0x0 0x0 0x0 0x7 0x1 0x0 0x0 0x0 0x0 0x0 0x0 0x0 0x8063 0x1 0x1 0x0 0x7 0x1 0x0;
  mk_config (Some 113%nat) false 0x1 0x0 0xA 0xA 0xA 0x2 0x3FF 0xFFC00 0x3FF00000 0xC0000000 0x20 0x0 0x0 0x0 0x0 0x0 0x18 0x8 0x0 0x0 0x0 0x8002 0x8000 0x8000 0xFFFFFFFF 0xFFFFFFFF 0xFFFFFFFF 0xFFFFFFFF 0x0 0x0 0x0 0x7 0x1 0x0 0x0 0x0 0x0 0x0 0x0 0x0 0x8062 0x1 0x1 0x0 0x7 0x1 0x0;
  mk_config (Some 114%nat) false 0x1 0x0 0xA 0xA 0xA 0x2 0x3FF 0xFFC00 0x3FF00000 0xC0000000 0x20 0x0 0x10 0x10 0x10 0x10 0x18 0x8 0x0 0x0 0x0 0x8002 0x8001 0x8000 0xFFFFFFFF 0xFFFFFFFF 0xFFFFFFFF 0xFFFFFFFF 0x0 0x0 0x0 0x7 0x1 0x0 0x0 0x0 0x0 0x0 0x0 0x0 0x8062 0x1 0x1 0x0 0x7 0x1 0x0;
  mk_config (Some 115%nat) false 0x0 0x0 0xA 0xA 0xA 0x2 0x3FF 0xFFC00 0x3FF00000 0xC0000000 0x20 0x0 0x0 0x0 0x0 0x0 0x20 0x0 0x0 0x0 0x0 0x8002 0x8000 0x8000 0xFFFFFFFF 0xFFFFFFFF 0xFFFFFFFF 0xFFFFFFFF 0x0 0x0 0x0 0x7 0x1 0x0 0x0 0x0 0x0 0x0 0x0 0x0 0x8063 0x1 0x1 0x0 0x7 0x1 0x0;
  mk_config (Some 116%nat) false 0x0 0x0 0xA 0xA 0xA 0x2 0x3FF 0xFFC00 0x3FF00000 0xC0000000 0x20 0x0 0x10 0x10 0x10 0x10 0x20 0x0 0x0 0x0 0x0 0x8002 0x8001 0x8000 0xFFFFFFFF 0xFFFFFFFF 0xFFFFFFFF 0xFFFFFFFF 0x0 0x0 0x0 0x7 0x1 0x0 0x0 0x0 0x0 0x0 0x0 0x0 0x8063 0x1 0x1 0x0 0x7 0x1 0x0;
  mk_config (Some 117%nat) false 0x1 0x0 0xA 0xA 0xA 0x2 0x3FF 0xFFC00 0x3FF00000 0xC0000000 0x20 0x0 0x0 0x0 0x0 0x0 0x20 0x0 0x0 0x0 0x0 0x8002 0x8000 0x8000 0xFFFFFFFF 0xFFFFFFFF 0xFFFFFFFF 0xFFFFFFFF 0x0 0x0 0x0 0x7 0x1 0x0 0x0 0x0 0x0 0x0 0x0 0x0 0x8063 0x1 0x1 0x0 0x7 0x1 0x0;
  mk_config (Some 118%nat) false 0x1 0x0 0xA 0xA 0xA 0x2 0x3FF 0xFFC00 0x3FF00000 0xC0000000 0x20 0x0 0x10 0x10 0x10 0x10 0x20 0x0 0x0 0x0 0x0 0x8002 0x8001 0x8000 0xFFFFFFFF 0xFFFFFFFF 0xFFFFFFFF 0xFFFFFFFF 0x0 0x0 0x0 0x7 0x1 0x0 0x0 0x0 0x0 0x0 0x0 0x0 0x8063 0x1 0x1 0x0 0x7 0x1 0x0;
  mk_config (Some 119%nat) false 0x1 0x0 0xA 0xA 0xA 0x2 0x3FF 0xFFC00 0x3FF00000 0xC0000000 0x20 0x0 0x0 0x0 0x0 0x0 0x20 0x0 0x0 0x0 0x0 0x8002 0x8000 0x8000 0xFFFFFFFF 0xFFFFFFFF 0xFFFFFFFF 0xFFFFFFFF 0x0 0x0 0x0 0x7 0x1 0x0 0x0 0x0 0x0 0x0 0x0 0x0 0x8062 0x1 0x1 0x0 0x7 0x1 0x0;
  mk_config (Some 120%nat) false 0x1 0x0 0xA 0xA 0xA 0x2 0x3FF 0xFFC00 0x3FF00000 0xC0000000 0x20 0x0 0x10 0x10 0x10 0x10 0x20 0x0 0x0 0x0 0x0 0x8002 0x8001 0x8000 0xFFFFFFFF 0xFFFFFFFF 0xFFFFFFFF 0xFFFFFFFF 0x0 0x0 0x0 0x7 0x1 0x0 0x0 0x0 0x0 0x0 0x0 0x0 0x8062 0x1 0x1 0x0 0x7 0x1 0x0;
  mk_config (Some 121%nat) false 0x0 0x0 0xA 0xA 0xA 0x2 0x3FF 0xFFC00 0x3FF00000 0xC0000000 0x20 0x0 0x0 0x0 0x0 0x0 0x0 0x0 0x0 0x0 0x0 0x8002 0x8000 0x8000 0xFFFFFFFF 0xFFFFFFFF 0xFFFFFFFF 0xFFFFFFFF 0x0 0x1 0x4 0x7 0x1 0x0 0x0 0x0 0x0 0x0 0x0 0x0 0x8063 0x1 0x1 0x0 0x7 0x1 0x0;
  mk_config (Some 122%nat) false 0x1 0x0 0xA 0xA 0xA 0x2 0x3FF 0xFFC00 0x3FF00000 0xC0000000 0x20 0x0 0x0 0x0 0x0 0x0 0x0 0x0 0x0 0x0 0x0 0x8002 0x8000 0x8000 0xFFFFFFFF 0xFFFFFFFF 0xFFFFFFFF 0xFFFFFFFF 0x0 0x1 0x4 0x7 0x1 0x0 0x0 0x0 0x0 0x0 0x0 0x0 0x8063 0x1 0x1 0x0 0x7 0x1 0x0;
  mk_config (Some 123%nat) false 0x1 0x0 0xA 0xA 0xA 0x2 0x3FF 0xFFC00 0x3FF00000 0xC0000000 0x20 0x0 0x0 0x0 0x0 0x0 0x0 0x0 0x0 0x0 0x0 0x8002 0x8000 0x8000 0xFFFFFFFF 0xFFFFFFFF 0xFFFFFFFF 0xFFFFFFFF 0x0 0x1 0x4 0x7 0x1 0x0 0x0 0x0 0x0 0x0 0x0 0x0 0x8062 0x1 0x1 0x0 0x7 0x1 0x0;
  mk_config (Some 124%nat) false 0x0 0x0 0xA 0xA 0xA 0x2 0x3FF 0xFFC00 0x3FF00000 0xC0000000 0x20 0x0 0x0 0x0 0x0 0x0 0x10 0x0 0x0 0x0 0x0 0x8002 0x8000 0x8000 0xFFFFFFFF 0xFFFFFFFF 0xFFFFFFFF 0xFFFFFFFF 0x0 0x1 0x4 0x7 0x1 0x0 0x0 0x0 0x0 0x0 0x0 0x0 0x8063 0x1 0x1 0x0 0x7 0x1 0x0;
  mk_config (Some 125%nat) false 0x1 0x0 0xA 0xA 0xA 0x2 0x3FF 0xFFC00 0x3FF00000 0xC0000000 0x20 0x0 0x0 0x0 0x0 0x0 0x10 0x0 0x0 0x0 0x0 0x8002 0x8000 0x8000 0xFFFFFFFF 0xFFFFFFFF 0xFFFFFFFF 0xFFFFFFFF 0x0 0x1 0x4 0x7 0x1 0x0 0x0 0x0 0x0 0x0 0x0 0x0 0x8063 0x1 0x1 0x0 0x7 0x1 0x0;
  mk_config (Some 126%nat) false 0x1 0x0 0xA 0xA 0xA 0x2 0x3FF 0xFFC00 0x3FF00000 0xC0000000 0x20 0x0 0x0 0x0 0x0 0x0 0x10 0x0 0x0 0x0 0x0 0x8002 0x8000 0x8000 0xFFFFFFFF 0xFFFFFFFF 0xFFFFFFFF 0xFFFFFFFF 0x0 0x1 0x4 0x7 0x1 0x0 0x0 0x0 0x0 0x0 0x0 0x0 0x8062 0x1 0x1 0x0 0x7 0x1 0x0;
  mk_config (Some 127%nat) false 0x0 0x0 0xA 0xA 0xA 0x2 0x3FF 0xFFC00 0x3FF00000 0xC0000000 0x20 0x0 0x0 0x0 0x0 0x0 0x18 0x0 0x0 0x0 0x0 0x8002 0x8000 0x8000 0xFFFFFFFF 0xFFFFFFFF 0xFFFFFFFF 0xFFFFFFFF 0x0 0x1 0x4 0x7 0x1 0x0 0x0 0x0 0x0 0x0 0x0 0x0 0x8063 0x1 0x1 0x0 0x7 0x1 0x0;
  mk_config (Some 128%nat) false 0x1 0x0 0xA 0xA 0xA 0x2 0x3FF 0xFFC00 0x3FF00000 0xC0000000 0x20 0x0 0x0 0x0 0x0 0x0 0x18 0x0 0x0 0x0 0x0 0x8002 0x8000 0x8000 0xFFFFFFFF 0xFFFFFFFF 0xFFFFFFFF 0xFFFFFFFF 0x0 0x1 0x4 0x7 0x1 0x0 0x0 0x0 0x0 0x0 0x0 0x0 0x8063 0x1 0x1 0x0 0x7 0x1 0x0;
  mk_config (Some 129%nat) false 0x1 0x0 0xA 0xA 0xA 0x2 0x3FF 0xFFC00 0x3FF00000 0xC0000000 0x20 0x0 0x0 0x0 0x0 0x0 0x18 0x0 0x0 0x0 0x0 0x8002 0x8000 0x8000 0xFFFFFFFF 0xFFFFFFFF 0xFFFFFFFF 0xFFFFFFFF 0x0 0x1 0x4 0x7 0x1 0x0 0x0 0x0 0x0 0x0 0x0 0x0 0x8062 0x1 0x1 0x0 0x7 0x1 0x0;
  mk_config (Some 130%nat) false 0x0 0x0 0xA 0xA 0xA 0x2 0x3FF 0xFFC00 0x3FF00000 0xC0000000 0x20 0x0 0x0 0x0 0x0 0x0 0x18 0x8 0x0 0x0 0x0 0x8002 0x8000 0x8000 0xFFFFFFFF 0xFFFFFFFF 0xFFFFFFFF 0xFFFFFFFF 0x0 0x1 0x4 0x7 0x1 0x0 0x0 0x0 0x0 0x0 0x0 0x0 0x8063 0x1 0x1 0x0 0x7 0x1 0x0;
  mk_config (Some 131%nat) false 0x1 0x0 0xA 0xA 0xA 0x2 0x3FF 0xFFC00 0x3FF00000 0xC0000000 0x20 0x0 0x0 0x0 0x0 0x0 0x18 0x8 0x0 0x0 0x0 0x8002 0x8000 0x8000 0xFFFFFFFF 0xFFFFFFFF 0xFFFFFFFF 0xFFFFFFFF 0x0 0x1 0x4 0x7 0x1 0x0 0x0 0x0 0x0 0x0 0x0 0x0 0x8063 0x1 0x1 0x0 0x7 0x1 0x0;
  mk_config (Some 132%nat) false 0x1 0x0 0xA 0xA 0xA 0x2 0x3FF 0xFFC00 0x3FF00000 0xC0000000 0x20 0x0 0x0 0x0 0x0 0x0 0x18 0x8 0x0 0x0 0x0 0x8002 0x8000 0x8000 0xFFFFFFFF 0xFFFFFFFF 0xFFFFFFFF 0xFFFFFFFF 0x0 0x1 0x4 0x7 0x1 0x0 0x0 0x0 0x0 0x0 0x0 0x0 0x8062 0x1 0x1 0x0 0x7 0x1 0x0;
  mk_config (Some 133%nat) false 0x0 0x0 0xA 0xA 0xA 0x2 0x3FF 0xFFC00 0x3FF00000 0xC0000000 0x20 0x0 0x0 0x0 0x0 0x0 0x20 0x0 0x0 0x0 0x0 0x8002 0x8000 0x8000 0xFFFFFFFF 0xFFFFFFFF 0xFFFFFFFF 0xFFFFFFFF 0x0 0x1 0x4 0x7 0x1 0x0 0x0 0x0 0x0 0x0 0x0 0x0 0x8063 0x1 0x1 0x0 0x7 0x1 0x0;
  mk_config (Some 134%nat) false 0x1 0x0 0xA 0xA 0xA 0x2 0x3FF 0xFFC00 0x3FF00000 0xC0000000 0x20 0x0 0x0 0x0 0x0 0x0 0x20 0x0 0x0 0x0 0x0 0x8002 0x8000 0x8000 0xFFFFFFFF 0xFFFFFFFF 0xFFFFFFFF 0xFFFFFFFF 0x0 0x1 0x4 0x7 0x1 0x0 0x0 0x0 0x0 0x0 0x0 0x0 0x8063 0x1 0x1 0x0 0x7 0x1 0x0;
  mk_config (Some 135%nat) false 0x1 0x0 0xA 0xA 0xA 0x2 0x3FF 0xFFC00 0x3FF00000 0xC0000000 0x20 0x0 0x0 0x0 0x0 0x0 0x20 0x0 0x0 0x0 0x0 0x8002 0x8000 0x8000 0xFFFFFFFF 0xFFFFFFFF 0xFFFFFFFF 0xFFFFFFFF 0x0 0x1 0x4 0x7 0x1 0x0 0x0 0x0 0x0 0x0 0x0 0x0 0x8062 0x1 0x1 0x0 0x7 0x1 0x0
].

Definition configs_1 : list __GLXconfig := [
  mk_config (Some 136%nat) false 0x0 0x0 0xA 0xA 0xA 0x0 0x3FF 0xFFC00 0x3FF00000 0x0 0x1E 0x0 0x0 0x0 0x0 0x0 0x0 0x0 0x0 0x0 0x0 0x8002 0x8000 0x8000 0xFFFFFFFF 0xFFFFFFFF 0xFFFFFFFF 0xFFFFFFFF 0x0 0x0 0x0 0x1 0x1 0x0 0x0 0x0 0x0 0x0 0x0 0x0 0x8063 0x1 0x1 0x0 0x7 0x1 0x0;
  mk_config (Some 137%nat) false 0x0 0x0 0xA 0xA 0xA 0x0 0x3FF 0xFFC00 0x3FF00000 0x0 0x1E 0x0 0x10 0x10 0x10 0x10 0x0 0x0 0x0 0x0 0x0 0x8002 0x8001 0x8000 0xFFFFFFFF 0xFFFFFFFF 0xFFFFFFFF 0xFFFFFFFF 0x0 0x0 0x0 0x1 0x1 0x0 0x0 0x0 0x0 0x0 0x0 0x0 0x8063 0x1 0x1 0x0 0x7 0x1 0x0;
  mk_config (Some 138%nat) false 0x1 0x0 0xA 0xA 0xA 0x0 0x3FF 0xFFC00 0x3FF00000 0x0 0x1E 0x0 0x0 0x0 0x0 0x0 0x0 0x0 0x0 0x0 0x0 0x8002 0x8000 0x8000 0xFFFFFFFF 0xFFFFFFFF 0xFFFFFFFF 0xFFFFFFFF 0x0 0x0 0x0 0x1 0x1 0x0 0x0 0x0 0x0 0x0 0x0 0x0 0x8063 0x1 0x1 0x0 0x7 0x1 0x0;
  mk_config (Some 139%nat) false 0x1 0x0 0xA 0xA 0xA 0x0 0x3FF 0xFFC00 0x3FF00000 0x0 0x1E 0x0 0x10 0x10 0x10 0x10 0x0 0x0 0x0 0x0 0x0 0x8002 0x8001 0x8000 0xFFFFFFFF 0xFFFFFFFF 0xFFFFFFFF 0xFFFFFFFF 0x0 0x0 0x0 0x1 0x1 0x0 0x0 0x0 0x0 0x0 0x0 0x0 0x8063 0x1 0x1 0x0 0x7 0x1 0x0;
  mk_config (Some 140%nat) false 0x1 0x0 0xA 0xA 0xA 0x0 0x3FF 0xFFC00 0x3FF00000 0x0 0x1E 0x0 0x0 0x0 0x0 0x0 0x0 0x0 0x0 0x0 0x0 0x8002 0x8000 0x8000 0xFFFFFFFF 0xFFFFFFFF 0xFFFFFFFF 0xFFFFFFFF 0x0 0x0 0x0 0x1 0x1 0x0 0x0 0x0 0x0 0x0 0x0 0x0 0x8062 0x1 0x1 0x0 0x7 0x1 0x0;
  mk_config (Some 141%nat) false 0x1 0x0 0xA 0xA 0xA 0x0 0x3FF 0xFFC00 0x3FF00000 0x0 0x1E 0x0 0x10 0x10 0x10 0x10 0x0 0x0 0x0 0x0 0x0 0x8002 0x8001 0x8000 0xFFFFFFFF 0xFFFFFFFF 0xFFFFFFFF 0xFFFFFFFF 0x0 0x0 0x0 0x1 0x1 0x0 0x0 0x0 0x0 0x0 0x0 0x0 0x8062 0x1 0x1 0x0 0x7 0x1 0x0;
  mk_config (Some 142%nat) false 0x0 0x0 0xA 0xA 0xA 0x0 0x3FF 0xFFC00 0x3FF00000 0x0 0x1E 0x0 0x0 0x0 0x0 0x0 0x10 0x0 0x0 0x0 0x0 0x8002 0x8000 0x8000 0xFFFFFFFF 0xFFFFFFFF 0xFFFFFFFF 0xFFFFFFFF 0x0 0x0 0x0 0x1 0x1 0x0 0x0 0x0 0x0 0x0 0x0 0x0 0x8063 0x1 0x1 0x0 0x7 0x1 0x0;
  mk_config (Some 143%nat) false 0x0 0x0 0xA 0xA 0xA 0x0 0x3FF 0xFFC00 0x3FF00000 0x0 0x1E 0x0 0x10 0x10 0x10 0x10 0x10 0x0 0x0 0x0 0x0 0x8002 0x8001 0x8000 0xFFFFFFFF 0xFFFFFFFF 0xFFFFFFFF 0xFFFFFFFF 0x0 0x0 0x0 0x1 0x1 0x0 0x0 0x0 0x0 0x0 0x0 0x0 0x8063 0x1 0x1 0x0 0x7 0x1 0x0;
  mk_config (Some 144%nat) false 0x1 0x0 0xA 0xA 0xA 0x0 0x3FF 0xFFC00 0x3FF00000 0x0 0x1E 0x0 0x0 0x0 0x0 0x0 0x10 0x0 0x0 0x0 0x0 0x8002 0x8000 0x8000 0xFFFFFFFF 0xFFFFFFFF 0xFFFFFFFF 0xFFFFFFFF 0x0 0x0 0x0 0x1 0x1 0x0 0x0 0x0 0x0 0x0 0x0 0x0 0x8063 0x1 0x1 0x0 0x7 0x1 0x0;
  mk_config (Some 145%nat) false 0x1 0x0 0xA 0xA 0xA 0x0 0x3FF 0xFFC00 0x3FF00000 0x0 0x1E 0x0 0x10 0x10 0x10 0x10 0x10 0x0 0x0 0x0 0x0 0x8002 0x8001 0x8000 0xFFFFFFFF 0xFFFFFFFF 0xFFFFFFFF 0xFFFFFFFF 0x0 0x0 0x0 0x1 0x1 0x0 0x0 0x0 0x0 0x0 0x0 0x0 0x8063 0x1 0x1 0x0 0x7 0x1 0x0;
  mk_config (Some 146%nat) false 0x1 0x0 0xA 0xA 0xA 0x0 0x3FF 0xFFC00 0x3FF00000 0x0 0x1E 0x0 0x0 0x0 0x0 0x0 0x10 0x0 0x0 0x0 0x0 0x8002 0x8000 0x8000 0xFFFFFFFF 0xFFFFFFFF 0xFFFFFFFF 0xFFFFFFFF 0x0 0x0 0x0 0x1 0x1 0x0 0x0 0x0 0x0 0x0 0x0 0x0 0x8062 0x1 0x1 0x0 0x7 0x1 0x0;
  mk_config (Some 147%nat) false 0x1 0x0 0xA 0xA 0xA 0x0 0x3FF 0xFFC00 0x3FF00000 0x0 0x1E 0x0 0x10 0x10 0x10 0x10 0x10 0x0 0x0 0x0 0x0 0x8002 0x8001 0x8000 0xFFFFFFFF 0xFFFFFFFF 0xFFFFFFFF 0xFFFFFFFF 0x0 0x0 0x0 0x1 0x1 0x0 0x0 0x0 0x0 0x0 0x0 0x0 0x8062 0x1 0x1 0x0 0x7 0x1 0x0;
  mk_config (Some 148%nat) false 0x0 0x0 0xA 0xA 0xA 0x0 0x3FF 0xFFC00 0x3FF00000 0x0 0x1E 0x0 0x0 0x0 0x0 0x0 0x18 0x0 0x0 0x0 0x0 0x8002 0x8000 0x8000 0xFFFFFFFF 0xFFFFFFFF 0xFFFFFFFF 0xFFFFFFFF 0x0 0x0 0x0 0x1 0x1 0x0 0x0 0x0 0x0 0x0 0x0 0x0 0x8063 0x1 0x1 0x0 0x7 0x1 0x0;
  mk_config (Some 149%nat) false 0x0 0x0 0xA 0xA 0xA 0x0 0x3FF 0xFFC00 0x3FF00000 0x0 0x1E 0x0 0x10 0x10 0x10 0x10 0x18 0x0 0x0 0x0 0x0 0x8002 0x8001 0x8000 0xFFFFFFFF 0xFFFFFFFF 0xFFFFFFFF 0xFFFFFFFF 0x0 0x0 0x0 0x1 0x1 0x0 0x0 0x0 0x0 0x0 0x0 0x0 0x8063 0x1 0x1 0x0 0x7 0x1 0x0;
  mk_config (Some 150%nat) false 0x1 0x0 0xA 0xA 0xA 0x0 0x3FF 0xFFC00 0x3FF00000 0x0 0x1E 0x0 0x0 0x0 0x0 0x0 0x18 0x0 0x0 0x0 0x0 0x8002 0x8000 0x8000 0xFFFFFFFF 0xFFFFFFFF 0xFFFFFFFF 0xFFFFFFFF 0x0 0x0 0x0 0x1 0x1 0x0 0x0 0x0 0x0 0x0 0x0 0x0 0x8063 0x1 0x1 0x0 0x7 0x1 0x0;
  mk_config (Some 151%nat) false 0x1 0x0 0xA 0xA 0xA 0x0 0x3FF 0xFFC00 0x3FF00000 0x0 0x1E 0x0 0x10 0x10 0x10 0x10 0x18 0x0 0x0 0x0 0x0 0x8002 0x8001 0x8000 0xFFFFFFFF 0xFFFFFFFF 0xFFFFFFFF 0xFFFFFFFF 0x0 0x0 0x0 0x1 0x1 0x0 0x0 0x0 0x0 0x0 0x0 0x0 0x8063 0x1 0x1 0x0 0x7 0x1 0x0;
  mk_config (Some 152%nat) false 0x1 0x0 0xA 0xA 0xA 0x0 0x3FF 0xFFC00 0x3FF00000 0x0 0x1E 0x0 0x0 0x0 0x0 0x0 0x18 0x0 0x0 0x0 0x0 0x8002 0x8000 0x8000 0xFFFFFFFF 0xFFFFFFFF 0xFFFFFFFF 0xFFFFFFFF 0x0 0x0 0x0 0x1 0x1 0x0 0x0 0x0 0x0 0x0 0x0 0x0 0x8062 0x1 0x1 0x0 0x7 0x1 0x0;
  mk_config (Some 153%nat) false 0x1 0x0 0xA 0xA 0xA 0x0 0x3FF 0xFFC00 0x3FF00000 0x0 0x1E 0x0 0x10 0x10 0x10 0x10 0x18 0x0 0x0 0x0 0x0 0x8002 0x8001 0x8000 0xFFFFFFFF 0xFFFFFFFF 0xFFFFFFFF 0xFFFFFFFF 0x0 0x0 0x0 0x1 0x1 0x0 0x0 0x0 0x0 0x0 0x0 0x0 0x8062 0x1 0x1 0x0 0x7 0x1 0x0;
  mk_config (Some 154%nat) false 0x0 0x0 0xA 0xA 0xA 0x0 0x3FF 0xFFC00 0x3FF00000 0x0 0x1E 0x0 0x0 0x0 0x0 0x0 0x18 0x8 0x0 0x0 0x0 0x8002 0x8000 0x8000 0xFFFFFFFF 0xFFFFFFFF 0xFFFFFFFF 0xFFFFFFFF 0x0 0x0 0x0 0x1 0x1 0x0 0x0 0x0 0x0 0x0 0x0 0x0 0x8063 0x1 0x1 0x0 0x7 0x1 0x0;
  mk_config (Some 155%nat) false 0x0 0x0 0xA 0xA 0xA 0x0 0x3FF 0xFFC00 0x3FF00000 0x0 0x1E 0x0 0x10 0x10 0x10 0x10 0x18 0x8 0x0 0x0 0x0 0x8002 0x8001 0x8000 0xFFFFFFFF 0xFFFFFFFF 0xFFFFFFFF 0xFFFFFFFF 0x0 0x0 0x0 0x1 0x1 0x0 0x0 0x0 0x0 0x0 0x0 0x0 0x8063 0x1 0x1 0x0 0x7 0x1 0x0;
  mk_config (Some 156%nat) false 0x1 0x0 0xA 0xA 0xA 0x0 0x3FF 0xFFC00 0x3FF00000 0x0 0x1E 0x0 0x0 0x0 0x0 0x0 0x18 0x8 0x0 0x0 0x0 0x8002 0x8000 0x8000 0xFFFFFFFF 0xFFFFFFFF 0xFFFFFFFF 0xFFFFFFFF 0x0 0x0 0x0 0x1 0x1 0x0 0x0 0x0 0x0 0x0 0x0 0x0 0x8063 0x1 0x1 0x0 0x7 0x1 0x0;
  mk_config (Some 157%nat) false 0x1 0x0 0xA 0xA 0xA 0x0 0x3FF 0xFFC00 0x3FF00000 0x0 0x1E 0x0 0x10 0x10 0x10 0x10 0x18 0x8 0x0 0x0 0x0 0x8002 0x8001 0x8000 0xFFFFFFFF 0xFFFFFFFF 0xFFFFFFFF 0xFFFFFFFF 0x0 0x0 0x0 0x1 0x1 0x0 0x0 0x0 0x0 0x0 0x0 0x0 0x8063 0x1 0x1 0x0 0x7 0x1 0x0;
  mk_config (Some 158%nat) false 0x1 0x0 0xA 0xA 0xA 0x0 0x3FF 0xFFC00 0x3FF00000 0x0 0x1E 0x0 0x0 0x0 0x0 0x0 0x18 0x8 0x0 0x0 0x0 0x8002 0x8000 0x8000 0xFFFFFFFF 0xFFFFFFFF 0xFFFFFFFF 0xFFFFFFFF 0x0 0x0 0x0 0x1 0x1 0x0 0x0 0x0 0x0 0x0 0x0 0x0 0x8062 0x1 0x1 0x0 0x7 0x1 0x0;
  mk_config (Some 159%nat) false 0x1 0x0 0xA 0xA 0xA 0x0 0x3FF 0xFFC00 0x3FF00000 0x0 0x1E 0x0 0x10 0x10 0x10 0x10 0x18 0x8 0x0 0x0 0x0 0x8002 0x8001 0x8000 0xFFFFFFFF 0xFFFFFFFF 0xFFFFFFFF 0xFFFFFFFF 0x0 0x0 0x0 0x1 0x1 0x0 0x0 0x0 0x0 0x0 0x0 0x0 0x8062 0x1 0x1 0x0 0x7 0x1 0x0;
  mk_config (Some 160%nat) false 0x0 0x0 0xA 0xA 0xA 0x0 0x3FF 0xFFC00 0x3FF00000 0x0 0x1E 0x0 0x0 0x0 0x0 0x0 0x20 0x0 0x0 0x0 0x0 0x8002 0x8000 0x8000 0xFFFFFFFF 0xFFFFFFFF 0xFFFFFFFF 0xFFFFFFFF 0x0 0x0 0x0 0x1 0x1 0x0 0x0 0x0 0x0 0x0 0x0 0x0 0x8063 0x1 0x1 0x0 0x7 0x1 0x0;
  mk_config (Some 161%nat) false 0x0 0x0 0xA 0xA 0xA 0x0 0x3FF 0xFFC00 0x3FF00000 0x0 0x1E 0x0 0x10 0x10 0x10 0x10 0x20 0x0 0x0 0x0 0x0 0x8002 0x8001 0x8000 0xFFFFFFFF 0xFFFFFFFF 0xFFFFFFFF 0xFFFFFFFF 0x0 0x0 0x0 0x1 0x1 0x0 0x0 0x0 0x0 0x0 0x0 0x0 0x8063 0x1 0x1 0x0 0x7 0x1 0x0;
  mk_config (Some 162%nat) false 0x1 0x0 0xA 0xA 0xA 0x0 0x3FF 0xFFC00 0x3FF00000 0x0 0x1E 0x0 0x0 0x0 0x0 0x0 0x20 0x0 0x0 0x0 0x0 0x8002 0x8000 0x8000 0xFFFFFFFF 0xFFFFFFFF 0xFFFFFFFF 0xFFFFFFFF 0x0 0x0 0x0 0x1 0x1 0x0 0x0 0x0 0x0 0x0 0x0 0x0 0x8063 0x1 0x1 0x0 0x7 0x1 0x0;
  mk_config (Some 163%nat) false 0x1 0x0 0xA 0xA 0xA 0x0 0x3FF 0xFFC00 0x3FF00000 0x0 0x1E 0x0 0x10 0x10 0x10 0x10 0x20 0x0 0x0 0x0 0x0 0x8002 0x8001 0x8000 0xFFFFFFFF 0xFFFFFFFF 0xFFFFFFFF 0xFFFFFFFF 0x0 0x0 0x0 0x1 0x1 0x0 0x0 0x0 0x0 0x0 0x0 0x0 0x8063 0x1 0x1 0x0 0x7 0x1 0x0;
  mk_config (Some 164%nat) false 0x1 0x0 0xA 0xA 0xA 0x0 0x3FF 0xFFC00 0x3FF00000 0x0 0x1E 0x0 0x0 0x0 0x0 0x0 0x20 0x0 0x0 0x0 0x0 0x8002 0x8000 0x8000 0xFFFFFFFF 0xFFFFFFFF 0xFFFFFFFF 0xFFFFFFFF 0x0 0x0 0x0 0x1 0x1 0x0 0x0 0x0 0x0 0x0 0x0 0x0 0x8062 0x1 0x1 0x0 0x7 0x1 0x0;
  mk_config (Some 165%nat) false 0x1 0x0 0xA 0xA 0xA 0x0 0x3FF 0xFFC00 0x3FF00000 0x0 0x1E 0x0 0x10 0x10 0x10 0x10 0x20 0x0 0x0 0x0 0x0 0x8002 0x8001 0x8000 0xFFFFFFFF 0xFFFFFFFF 0xFFFFFFFF 0xFFFFFFFF 0x0 0x0 0x0 0x1 0x1 0x0 0x0 0x0 0x0 0x0 0x0 0x0 0x8062 0x1 0x1 0x0 0x7 0x1 0x0;
  mk_config (Some 166%nat) false 0x0 0x0 0xA 0xA 0xA 0x0 0x3FF 0xFFC00 0x3FF00000 0x0 0x1E 0x0 0x0 0x0 0x0 0x0 0x0 0x0 0x0 0x0 0x0 0x8002 0x8000 0x8000 0xFFFFFFFF 0xFFFFFFFF 0xFFFFFFFF 0xFFFFFFFF 0x0 0x1 0x4 0x1 0x1 0x0 0x0 0x0 0x0 0x0 0x0 0x0 0x8063 0x1 0x1 0x0 0x7 0x1 0x0;
  mk_config (Some 167%nat) false 0x1 0x0 0xA 0xA 0xA 0x0 0x3FF 0xFFC00 0x3FF00000 0x0 0x1E 0x0 0x0 0x0 0x0 0x0 0x0 0x0 0x0 0x0 0x0 0x8002 0x8000 0x8000 0xFFFFFFFF 0xFFFFFFFF 0xFFFFFFFF 0xFFFFFFFF 0x0 0x1 0x4 0x1 0x1 0x0 0x0 0x0 0x0 0x0 0x0 0x0 0x8063 0x1 0x1 0x0 0x7 0x1 0x0;
  mk_config (Some 168%nat) false 0x1 0x0 0xA 0xA 0xA 0x0 0x3FF 0xFFC00 0x3FF00000 0x0 0x1E 0x0 0x0 0x0 0x0 0x0 0x0 0x0 0x0 0x0 0x0 0x8002 0x8000 0x8000 0xFFFFFFFF 0xFFFFFFFF 0xFFFFFFFF 0xFFFFFFFF 0x0 0x1 0x4 0x1 0x1 0x0 0x0 0x0 0x0 0x0 0x0 0x0 0x8062 0x1 0x1 0x0 0x7 0x1 0x0;
  mk_config (Some 169%nat) false 0x0 0x0 0xA 0xA 0xA 0x0 0x3FF 0xFFC00 0x3FF00000 0x0 0x1E 0x0 0x0 0x0 0x0 0x0 0x10 0x0 0x0 0x0 0x0 0x8002 0x8000 0x8000 0xFFFFFFFF 0xFFFFFFFF 0xFFFFFFFF 0xFFFFFFFF 0x0 0x1 0x4 0x1 0x1 0x0 0x0 0x0 0x0 0x0 0x0 0x0 0x8063 0x1 0x1 0x0 0x7 0x1 0x0;
  mk_config (Some 170%nat) false 0x1 0x0 0xA 0xA 0xA 0x0 0x3FF 0xFFC00 0x3FF00000 0x0 0x1E 0x0 0x0 0x0 0x0 0x0 0x10 0x0 0x0 0x0 0x0 0x8002 0x8000 0x8000 0xFFFFFFFF 0xFFFFFFFF 0xFFFFFFFF 0xFFFFFFFF 0x0 0x1 0x4 0x1 0x1 0x0 0x0 0x0 0x0 0x0 0x0 0x0 0x8063 0x1 0x1 0x0 0x7 0x1 0x0;
  mk_config (Some 171%nat) false 0x1 0x0 0xA 0xA 0xA 0x0 0x3FF 0xFFC00 0x3FF00000 0x0 0x1E 0x0 0x0 0x0 0x0 0x0 0x10 0x0 0x0 0x0 0x0 0x8002 0x8000 0x8000 0xFFFFFFFF 0xFFFFFFFF 0xFFFFFFFF 0xFFFFFFFF 0x0 0x1 0x4 0x1 0x1 0x0 0x0 0x0 0x0 0x0 0x0 0x0 0x8062 0x1 0x1 0x0 0x7 0x1 0x0;
  mk_config (Some 172%nat) false 0x0 0x0 0xA 0xA 0xA 0x0 0x3FF 0xFFC00 0x3FF00000 0x0 0x1E 0x0 0x0 0x0 0x0 0x0 0x18 0x0 0x0 0x0 0x0 0x8002 0x8000 0x8000 0xFFFFFFFF 0xFFFFFFFF 0xFFFFFFFF 0xFFFFFFFF 0x0 0x1 0x4 0x1 0x1 0x0 0x0 0x0 0x0 0x0 0x0 0x0 0x8063 0x1 0x1 0x0 0x7 0x1 0x0;
  mk_config (Some 173%nat) false 0x1 0x0 0xA 0xA 0xA 0x0 0x3FF 0xFFC00 0x3FF00000 0x0 0x1E 0x0 0x0 0x0 0x0 0x0 0x18 0x0 0x0 0x0 0x0 0x8002 0x8000 0x8000 0xFFFFFFFF 0xFFFFFFFF 0xFFFFFFFF 0xFFFFFFFF 0x0 0x1 0x4 0x1 0x1 0x0 0x0 0x0 0x0 0x0 0x0 0x0 0x8063 0x1 0x1 0x0 0x7 0x1 0x0;
  mk_config (Some 174%nat) false 0x1 0x0 0xA 0xA 0xA 0x0 0x3FF 0xFFC00 0x3FF00000 0x0 0x1E 0x0 0x0 0x0 0x0 0x0 0x18 0x0 0x0 0x0 0x0 0x8002 0x8000 0x8000 0xFFFFFFFF 0xFFFFFFFF 0xFFFFFFFF 0xFFFFFFFF 0x0 0x1 0x4 0x1 0x1 0x0 0x0 0x0 0x0 0x0 0x0 0x0 0x8062 0x1 0x1 0x0 0x7 0x1 0x0;
  mk_config (Some 175%nat) false 0x0 0x0 0xA 0xA 0xA 0x0 0x3FF 0xFFC00 0x3FF00000 0x0 0x1E 0x0 0x0 0x0 0x0 0x0 0x18 0x8 0x0 0x0 0x0 0x8002 0x8000 0x8000 0xFFFFFFFF 0xFFFFFFFF 0xFFFFFFFF 0xFFFFFFFF 0x0 0x1 0x4 0x1 0x1 0x0 0x0 0x0 0x0 0x0 0x0 0x0 0x8063 0x1 0x1 0x0 0x7 0x1 0x0;
  mk_config (Some 176%nat) false 0x1 0x0 0xA 0xA 0xA 0x0 0x3FF 0xFFC00 0x3FF00000 0x0 0x1E 0x0 0x0 0x0 0x0 0x0 0x18 0x8 0x0 0x0 0x0 0x8002 0x8000 0x8000 0xFFFFFFFF 0xFFFFFFFF 0xFFFFFFFF 0xFFFFFFFF 0x0 0x1 0x4 0x1 0x1 0x0 0x0 0x0 0x0 0x0 0x0 0x0 0x8063 0x1 0x1 0x0 0x7 0x1 0x0;
  mk_config (Some 177%nat) false 0x1 0x0 0xA 0xA 0xA 0x0 0x3FF 0xFFC00 0x3FF00000 0x0 0x1E 0x0 0x0 0x0 0x0 0x0 0x18 0x8 0x0 0x0 0x0 0x8002 0x8000 0x8000 0xFFFFFFFF 0xFFFFFFFF 0xFFFFFFFF 0xFFFFFFFF 0x0 0x1 0x4 0x1 0x1 0x0 0x0 0x0 0x0 0x0 0x0 0x0 0x8062 0x1 0x1 0x0 0x7 0x1 0x0;
  mk_config (Some 178%nat) false 0x0 0x0 0xA 0xA 0xA 0x0 0x3FF 0xFFC00 0x3FF00000 0x0 0x1E 0x0 0x0 0x0 0x0 0x0 0x20 0x0 0x0 0x0 0x0 0x8002 0x8000 0x8000 0xFFFFFFFF 0xFFFFFFFF 0xFFFFFFFF 0xFFFFFFFF 0x0 0x1 0x4 0x1 0x1 0x0 0x0 0x0 0x0 0x0 0x0 0x0 0x8063 0x1 0x1 0x0 0x7 0x1 0x0;
  mk_config (Some 179%nat) false 0x1 0x0 0xA 0xA 0xA 0x0 0x3FF 0xFFC00 0x3FF00000 0x0 0x1E 0x0 0x0 0x0 0x0 0x0 0x20 0x0 0x0 0x0 0x0 0x8002 0x8000 0x8000 0xFFFFFFFF 0xFFFFFFFF 0xFFFFFFFF 0xFFFFFFFF 0x0 0x1 0x4 0x1 0x1 0x0 0x0 0x0 0x0 0x0 0x0 0x0 0x8063 0x1 0x1 0x0 0x7 0x1 0x0;
  mk_config (Some 180%nat) false 0x1 0x0 0xA 0xA 0xA 0x0 0x3FF 0xFFC00 0x3FF00000 0x0 0x1E 0x0 0x0 0x0 0x0 0x0 0x20 0x0 0x0 0x0 0x0 0x8002 0x8000 0x8000 0xFFFFFFFF 0xFFFFFFFF 0xFFFFFFFF 0xFFFFFFFF 0x0 0x1 0x4 0x1 0x1 0x0 0x0 0x0 0x0 0x0 0x0 0x0 0x8062 0x1 0x1 0x0 0x7 0x1 0x0;
  mk_config (Some 181%nat) false 0x0 0x0 0x8 0x8 0x8 0x8 0xFF0000 0xFF00 0xFF 0xFF000000 0x20 0x0 0x0 0x0 0x0 0x0 0x0 0x0 0x0 0x0 0x0 0x8002 0x8000 0x8000 0xFFFFFFFF 0xFFFFFFFF 0xFFFFFFFF 0xFFFFFFFF 0x0 0x0 0x0 0x7 0x1 0x0 0x0 0x0 0x0 0x0 0x0 0x0 0x8063 0x1 0x1 0x0 0x7 0x1 0x0;
  mk_config (Some 182%nat) false 0x0 0x0 0x8 0x8 0x8 0x8 0xFF0000 0xFF00 0xFF 0xFF000000 0x20 0x0 0x10 0x10 0x10 0x10 0x0 0x0 0x0 0x0 0x0 0x8002 0x8001 0x8000 0xFFFFFFFF 0xFFFFFFFF 0xFFFFFFFF 0xFFFFFFFF 0x0 0x0 0x0 0x7 0x1 0x0 0x0 0x0 0x0 0x0 0x0 0x0 0x8063 0x1 0x1 0x0 0x7 0x1 0x0;
  mk_config (Some 183%nat) false 0x1 0x0 0x8 0x8 0x8 0x8 0xFF0000 0xFF00 0xFF 0xFF000000 0x20 0x0 0x0 0x0 0x0 0x0 0x0 0x0 0x0 0x0 0x0 0x8002 0x8000 0x8000 0xFFFFFFFF 0xFFFFFFFF 0xFFFFFFFF 0xFFFFFFFF 0x0 0x0 0x0 0x7 0x1 0x0 0x0 0x0 0x0 0x0 0x0 0x0 0x8063 0x1 0x1 0x0 0x7 0x1 0x0;
  mk_config (Some 184%nat) false 0x1 0x0 0x8 0x8 0x8 0x8 0xFF0000 0xFF00 0xFF 0xFF000000 0x20 0x0 0x10 0x10 0x10 0x10 0x0 0x0 0x0 0x0 0x0 0x8002 0x8001 0x8000 0xFFFFFFFF 0xFFFFFFFF 0xFFFFFFFF 0xFFFFFFFF 0x0 0x0 0x0 0x7 0x1 0x0 0x0 0x0 0x0 0x0 0x0 0x0 0x8063 0x1 0x1 0x0 0x7 0x1 0x0;
  mk_config (Some 185%nat) false 0x1 0x0 0x8 0x8 0x8 0x8 0xFF0000 0xFF00 0xFF 0xFF000000 0x20 0x0 0x0 0x0 0x0 0x0 0x0 0x0 0x0 0x0 0x0 0x8002 0x8000 0x8000 0xFFFFFFFF 0xFFFFFFFF 0xFFFFFFFF 0xFFFFFFFF 0x0 0x0 0x0 0x7 0x1 0x0 0x0 0x0 0x0 0x0 0x0 0x0 0x8062 0x1 0x1 0x0 0x7 0x1 0x0;
  mk_config (Some 186%nat) false 0x1 0x0 0x8 0x8 0x8 0x8 0xFF0000 0xFF00 0xFF 0xFF000000 0x20 0x0 0x10 0x10 0x10 0x10 0x0 0x0 0x0 0x0 0x0 0x8002 0x8001 0x8000 0xFFFFFFFF 0xFFFFFFFF 0xFFFFFFFF 0xFFFFFFFF 0x0 0x0 0x0 0x7 0x1 0x0 0x0 0x0 0x0 0x0 0x0 0x0 0x8062 0x1 0x1 0x0 0x7 0x1 0x0;
  mk_config (Some 187%nat) false 0x0 0x0 0x8 0x8 0x8 0x8 0xFF0000 0xFF00 0xFF 0xFF000000 0x20 0x0 0x0 0x0 0x0 0x0 0x10 0x0 0x0 0x0 0x0 0x8002 0x8000 0x8000 0xFFFFFFFF 0xFFFFFFFF 0xFFFFFFFF 0xFFFFFFFF 0x0 0x0 0x0 0x7 0x1 0x0 0x0 0x0 0x0 0x0 0x0 0x0 0x8063 0x1 0x1 0x0 0x7 0x1 0x0;
  mk_config (Some 188%nat) false 0x0 0x0 0x8 0x8 0x8 0x8 0xFF0000 0xFF00 0xFF 0xFF000000 0x20 0x0 0x10 0x10 0x10 0x10 0x10 0x0 0x0 0x0 0x0 0x8002 0x8001 0x8000 0xFFFFFFFF 0xFFFFFFFF 0xFFFFFFFF 0xFFFFFFFF 0x0 0x0 0x0 0x7 0x1 0x0 0x0 0x0 0x0 0x0 0x0 0x0 0x8063 0x1 0x1 0x0 0x7 0x1 0x0;
  mk_config (Some 189%nat) false 0x1 0x0 0x8 0x8 0x8 0x8 0xFF0000 0xFF00 0xFF 0xFF000000 0x20 0x0 0x0 0x0 0x0 0x0 0x10 0x0 0x0 0x0 0x0 0x8002 0x8000 0x8000 0xFFFFFFFF 0xFFFFFFFF 0xFFFFFFFF 0xFFFFFFFF 0x0 0x0 0x0 0x7 0x1 0x0 0x0 0x0 0x0 0x0 0x0 0x0 0x8063 0x1 0x1 0x0 0x7 0x1 0x0;
  mk_config (Some 190%nat) false 0x1 0x0 0x8 0x8 0x8 0x8 0xFF0000 0xFF00 0xFF 0xFF000000 0x20 0x0 0x10 0x10 0x10 0x10 0x10 0x0 0x0 0x0 0x0 0x8002 0x8001 0x8000 0xFFFFFFFF 0xFFFFFFFF 0xFFFFFFFF 0xFFFFFFFF 0x0 0x0 0x0 0x7 0x1 0x0 0x0 0x0 0x0 0x0 0x0 0x0 0x8063 0x1 0x1 0x0 0x7 0x1 0x0;
  mk_config (Some 191%nat) false 0x1 0x0 0x8 0x8 0x8 0x8 0xFF0000 0xFF00 0xFF 0xFF000000 0x20 0x0 0x0 0x0 0x0 0x0 0x10 0x0 0x0 0x0 0x0 0x8002 0x8000 0x8000 0xFFFFFFFF 0xFFFFFFFF 0xFFFFFFFF 0xFFFFFFFF 0x0 0x0 0x0 0x7 0x1 0x0 0x0 0x0 0x0 0x0 0x0 0x0 0x8062 0x1 0x1 0x0 0x7 0x1 0x0;
  mk_config (Some 192%nat) false 0x1 0x0 0x8 0x8 0x8 0x8 0xFF0000 0xFF00 0xFF 0xFF000000 0x20 0x0 0x10 0x10 0x10 0x10 0x10 0x0 0x0 0x0 0x0 0x8002 0x8001 0x8000 0xFFFFFFFF 0xFFFFFFFF 0xFFFFFFFF 0xFFFFFFFF 0x0 0x0 0x0 0x7 0x1 0x0 0x0 0x0 0x0 0x0 0x0 0x0 0x8062 0x1 0x1 0x0 0x7 0x1 0x0;
  mk_config (Some 193%nat) false 0x0 0x0 0x8 0x8 0x8 0x8 0xFF0000 0xFF00 0xFF 0xFF000000 0x20 0x0 0x0 0x0 0x0 0x0 0x18 0x0 0x0 0x0 0x0 0x8002 0x8000 0x8000 0xFFFFFFFF 0xFFFFFFFF 0xFFFFFFFF 0xFFFFFFFF 0x0 0x0 0x0 0x7 0x1 0x0 0x0 0x0 0x0 0x0 0x0 0x0 0x8063 0x1 0x1 0x0 0x7 0x1 0x0;
  mk_config (Some 194%nat) false 0x0 0x0 0x8 0x8 0x8 0x8 0xFF0000 0xFF00 0xFF 0xFF000000 0x20 0x0 0x10 0x10 0x10 0x10 0x18 0x0 0x0 0x0 0x0 0x8002 0x8001 0x8000 0xFFFFFFFF 0xFFFFFFFF 0xFFFFFFFF 0xFFFFFFFF 0x0 0x0 0x0 0x7 0x1 0x0 0x0 0x0 0x0 0x0 0x0 0x0 0x8063 0x1 0x1 0x0 0x7 0x1 0x0;
  mk_config (Some 195%nat) false 0x1 0x0 0x8 0x8 0x8 0x8 0xFF0000 0xFF00 0xFF 0xFF000000 0x20 0x0 0x0 0x0 0x0 0x0 0x18 0x0 0x0 0x0 0x0 0x8002 0x8000 0x8000 0xFFFFFFFF 0xFFFFFFFF 0xFFFFFFFF 0xFFFFFFFF 0x0 0x0 0x0 0x7 0x1 0x0 0x0 0x0 0x0 0x0 0x0 0x0 0x8063 0x1 0x1 0x0 0x7 0x1 0x0;
  mk_config (Some 196%nat) false 0x1 0x0 0x8 0x8 0x8 0x8 0xFF0000 0xFF00 0xFF 0xFF000000 0x20 0x0 0x10 0x10 0x10 0x10 0x18 0x0 0x0 0x0 0x0 0x8002 0x8001 0x8000 0xFFFFFFFF 0xFFFFFFFF 0xFFFFFFFF 0xFFFFFFFF 0x0 0x0 0x0 0x7 0x1 0x0 0x0 0x0 0x0 0x0 0x0 0x0 0x8063 0x1 0x1 0x0 0x7 0x1 0x0;
  mk_config (Some 197%nat) false 0x1 0x0 0x8 0x8 0x8 0x8 0xFF0000 0xFF00 0xFF 0xFF000000 0x20 0x0 0x0 0x0 0x0 0x0 0x18 0x0 0x0 0x0 0x0 0x8002 0x8000 0x8000 0xFFFFFFFF 0xFFFFFFFF 0xFFFFFFFF 0xFFFFFFFF 0x0 0x0 0x0 0x7 0x1 0x0 0x0 0x0 0x0 0x0 0x0 0x0 0x8062 0x1 0x1 0x0 0x7 0x1 0x0;
  mk_config (Some 198%nat) false 0x1 0x0 0x8 0x8 0x8 0x8 0xFF0000 0xFF00 0xFF 0xFF000000 0x20 0x0 0x10 0x10 0x10 0x10 0x18 0x0 0x0 0x0 0x0 0x8002 0x8001 0x8000 0xFFFFFFFF 0xFFFFFFFF 0xFFFFFFFF 0xFFFFFFFF 0x0 0x0 0x0 0x7 0x1 0x0 0x0 0x0 0x0 0x0 0x0 0x0 0x8062 0x1 0x1 0x0 0x7 0x1 0x0;
  mk_config (Some 199%nat) false 0x0 0x0 0x8 0x8 0x8 0x8 0xFF0000 0xFF00 0xFF 0xFF000000 0x20 0x0 0x0 0x0 0x0 0x0 0x18 0x8 0x0 0x0 0x0 0x8002 0x8000 0x8000 0xFFFFFFFF 0xFFFFFFFF 0xFFFFFFFF 0xFFFFFFFF 0x0 0x0 0x0 0x7 0x1 0x0 0x0 0x0 0x0 0x0 0x0 0x0 0x8063 0x1 0x1 0x0 0x7 0x1 0x0;
  mk_config (Some 200%nat) false 0x0 0x0 0x8 0x8 0x8 0x8 0xFF0000 0xFF00 0xFF 0xFF000000 0x20 0x0 0x10 0x10 0x10 0x10 0x18 0x8 0x0 0x0 0x0 0x8002 0x8001 0x8000 0xFFFFFFFF 0xFFFFFFFF 0xFFFFFFFF 0xFFFFFFFF 0x0 0x0 0x0 0x7 0x1 0x0 0x0 0x0 0x0 0x0 0x0 0x0 0x8063 0x1 0x1 0x0 0x7 0x1 0x0;
  mk_config (Some 201%nat) false 0x1 0x0 0x8 0x8 0x8 0x8 0xFF0000 0xFF00 0xFF 0xFF000000 0x20 0x0 0x0 0x0 0x0 0x0 0x18 0x8 0x0 0x0 0x0 0x8002 0x8000 0x8000 0xFFFFFFFF 0xFFFFFFFF 0xFFFFFFFF 0xFFFFFFFF 0x0 0x0 0x0 0x7 0x1 0x0 0x0 0x0 0x0 0x0 0x0 0x0 0x8063 0x1 0x1 0x0 0x7 0x1 0x0;
  mk_config (Some 202%nat) false 0x1 0x0 0x8 0x8 0x8 0x8 0xFF0000 0xFF00 0xFF 0xFF000000 0x20 0x0 0x10 0x10 0x10 0x10 0x18 0x8 0x0 0x0 0x0 0x8002 0x8001 0x8000 0xFFFFFFFF 0xFFFFFFFF 0xFFFFFFFF 0xFFFFFFFF 0x0 0x0 0x0 0x7 0x1 0x0 0x0 0x0 0x0 0x0 0x0 0x0 0x8063 0x1 0x1 0x0 0x7 0x1 0x0;
  mk_config (Some 203%nat) false 0x1 0x0 0x8 0x8 0x8 0x8 0xFF0000 0xFF00 0xFF 0xFF000000 0x20 0x0 0x0 0x0 0x0 0x0 0x18 0x8 0x0 0x0 0x0 0x8002 0x8000 0x8000 0xFFFFFFFF 0xFFFFFFFF 0xFFFFFFFF 0xFFFFFFFF 0x0 0x0 0x0 0x7 0x1 0x0 0x0 0x0 0x0 0x0 0x0 0x0 0x8062 0x1 0x1 0x0 0x7 0x1 0x0;
  mk_config (Some 204%nat) false 0x1 0x0 0x8 0x8 0x8 0x8 0xFF0000 0xFF00 0xFF 0xFF000000 0x20 0x0 0x10 0x10 0x10 0x10 0x18 0x8 0x0 0x0 0x0 0x8002 0x8001 0x8000 0xFFFFFFFF 0xFFFFFFFF 0xFFFFFFFF 0xFFFFFFFF 0x0 0x0 0x0 0x7 0x1 0x0 0x0 0x0 0x0 0x0 0x0 0x0 0x8062 0x1 0x1 0x0 0x7 0x1 0x0;
  mk_config (Some 205%nat) false 0x0 0x0 0x8 0x8 0x8 0x8 0xFF0000 0xFF00 0xFF 0xFF000000 0x20 0x0 0x0 0x0 0x0 0x0 0x20 0x0 0x0 0x0 0x0 0x8002 0x8000 0x8000 0xFFFFFFFF 0xFFFFFFFF 0xFFFFFFFF 0xFFFFFFFF 0x0 0x0 0x0 0x7 0x1 0x0 0x0 0x0 0x0 0x0 0x0 0x0 0x8063 0x1 0x1 0x0 0x7 0x1 0x0;
  mk_config (Some 206%nat) false 0x0 0x0 0x8 0x8 0x8 0x8 0xFF0000 0xFF00 0xFF 0xFF000000 0x20 0x0 0x10 0x10 0x10 0x10 0x20 0x0 0x0 0x0 0x0 0x8002 0x8001 0x8000 0xFFFFFFFF 0xFFFFFFFF 0xFFFFFFFF 0xFFFFFFFF 0x0 0x0 0x0 0x7 0x1 0x0 0x0 0x0 0x0 0x0 0x0 0x0 0x8063 0x1 0x1 0x0 0x7 0x1 0x0;
  mk_config (Some 207%nat) false 0x1 0x0 0x8 0x8 0x8 0x8 0xFF0000 0xFF00 0xFF 0xFF000000 0x20 0x0 0x0 0x0 0x0 0x0 0x20 0x0 0x0 0x0 0x0 0x8002 0x8000 0x8000 0xFFFFFFFF 0xFFFFFFFF 0xFFFFFFFF 0xFFFFFFFF 0x0 0x0 0x0 0x7 0x1 0x0 0x0 0x0 0x0 0x0 0x0 0x0 0x8063 0x1 0x1 0x0 0x7 0x1 0x0;
  mk_config (Some 208%nat) false 0x1 0x0 0x8 0x8 0x8 0x8 0xFF0000 0xFF00 0xFF 0xFF000000 0x20 0x0 0x10 0x10 0x10 0x10 0x20 0x0 0x0 0x0 0x0 0x8002 0x8001 0x8000 0xFFFFFFFF 0xFFFFFFFF 0xFFFFFFFF 0xFFFFFFFF 0x0 0x0 0x0 0x7 0x1 0x0 0x0 0x0 0x0 0x0 0x0 0x0 0x8063 0x1 0x1 0x0 0x7 0x1 0x0;
  mk_config (Some 209%nat) false 0x1 0x0 0x8 0x8 0x8 0x8 0xFF0000 0xFF00 0xFF 0xFF000000 0x20 0x0 0x0 0x0 0x0 0x0 0x20 0x0 0x0 0x0 0x0 0x8002 0x8000 0x8000 0xFFFFFFFF 0xFFFFFFFF 0xFFFFFFFF 0xFFFFFFFF 0x0 0x0 0x0 0x7 0x1 0x0 0x0 0x0 0x0 0x0 0x0 0x0 0x8062 0x1 0x1 0x0 0x7 0x1 0x0;
  mk_config (Some 210%nat) false 0x1 0x0 0x8 0x8 0x8 0x8 0xFF0000 0xFF00 0xFF 0xFF000000 0x20 0x0 0x10 0x10 0x10 0x10 0x20 0x0 0x0 0x0 0x0 0x8002 0x8001 0x8000 0xFFFFFFFF 0xFFFFFFFF 0xFFFFFFFF 0xFFFFFFFF 0x0 0x0 0x0 0x7 0x1 0x0 0x0 0x0 0x0 0x0 0x0 0x0 0x8062 0x1 0x1 0x0 0x7 0x1 0x0;
  mk_config (Some 211%nat) false 0x0 0x0 0x8 0x8 0x8 0x8 0xFF0000 0xFF00 0xFF 0xFF000000 0x20 0x0 0x0 0x0 0x0 0x0 0x0 0x0 0x0 0x0 0x0 0x8002 0x8000 0x8000 0xFFFFFFFF 0xFFFFFFFF 0xFFFFFFFF 0xFFFFFFFF 0x0 0x1 0x4 0x7 0x1 0x0 0x0 0x0 0x0 0x0 0x0 0x0 0x8063 0x1 0x1 0x0 0x7 0x1 0x0;
  mk_config (Some 212%nat) false 0x1 0x0 0x8 0x8 0x8 0x8 0xFF0000 0xFF00 0xFF 0xFF000000 0x20 0x0 0x0 0x0 0x0 0x0 0x0 0x0 0x0 0x0 0x0 0x8002 0x8000 0x8000 0xFFFFFFFF 0xFFFFFFFF 0xFFFFFFFF 0xFFFFFFFF 0x0 0x1 0x4 0x7 0x1 0x0 0x0 0x0 0x0 0x0 0x0 0x0 0x8063 0x1 0x1 0x0 0x7 0x1 0x0;
  mk_config (Some 213%nat) false 0x1 0x0 0x8 0x8 0x8 0x8 0xFF0000 0xFF00 0xFF 0xFF000000 0x20 0x0 0x0 0x0 0x0 0x0 0x0 0x0 0x0 0x0 0x0 0x8002 0x8000 0x8000 0xFFFFFFFF 0xFFFFFFFF 0xFFFFFFFF 0xFFFFFFFF 0x0 0x1 0x4 0x7 0x1 0x0 0x0 0x0 0x0 0x0 0x0 0x0 0x8062 0x1 0x1 0x0 0x7 0x1 0x0;
  mk_config (Some 214%nat) false 0x0 0x0 0x8 0x8 0x8 0x8 0xFF0000 0xFF00 0xFF 0xFF000000 0x20 0x0 0x0 0x0 0x0 0x0 0x10 0x0 0x0 0x0 0x0 0x8002 0x8000 0x8000 0xFFFFFFFF 0xFFFFFFFF 0xFFFFFFFF 0xFFFFFFFF 0x0 0x1 0x4 0x7 0x1 0x0 0x0 0x0 0x0 0x0 0x0 0x0 0x8063 0x1 0x1 0x0 0x7 0x1 0x0;
  mk_config (Some 215%nat) false 0x1 0x0 0x8 0x8 0x8 0x8 0xFF0000 0xFF00 0xFF 0xFF000000 0x20 0x0 0x0 0x0 0x0 0x0 0x10 0x0 0x0 0x0 0x0 0x8002 0x8000 0x8000 0xFFFFFFFF 0xFFFFFFFF 0xFFFFFFFF 0xFFFFFFFF 0x0 0x1 0x4 0x7 0x1 0x0 0x0 0x0 0x0 0x0 0x0 0x0 0x8063 0x1 0x1 0x0 0x7 0x1 0x0;
  mk_config (Some 216%nat) false 0x1 0x0 0x8 0x8 0x8 0x8 0xFF0000 0xFF00 0xFF 0xFF000000 0x20 0x0 0x0 0x0 0x0 0x0 0x10 0x0 0x0 0x0 0x0 0x8002 0x8000 0x8000 0xFFFFFFFF 0xFFFFFFFF 0xFFFFFFFF 0xFFFFFFFF 0x0 0x1 0x4 0x7 0x1 0x0 0x0 0x0 0x0 0x0 0x0 0x0 0x8062 0x1 0x1 0x0 0x7 0x1 0x0;
  mk_config (Some 217%nat) false 0x0 0x0 0x8 0x8 0x8 0x8 0xFF0000 0xFF00 0xFF 0xFF000000 0x20 0x0 0x0 0x0 0x0 0x0 0x18 0x0 0x0 0x0 0x0 0x8002 0x8000 0x8000 0xFFFFFFFF 0xFFFFFFFF 0xFFFFFFFF 0xFFFFFFFF 0x0 0x1 0x4 0x7 0x1 0x0 0x0 0x0 0x0 0x0 0x0 0x0 0x8063 0x1 0x1 0x0 0x7 0x1 0x0;
  mk_config (Some 218%nat) false 0x1 0x0 0x8 0x8 0x8 0x8 0xFF0000 0xFF00 0xFF 0xFF000000 0x20 0x0 0x0 0x0 0x0 0x0 0x18 0x0 0x0 0x0 0x0 0x8002 0x8000 0x8000 0xFFFFFFFF 0xFFFFFFFF 0xFFFFFFFF 0xFFFFFFFF 0x0 0x1 0x4 0x7 0x1 0x0 0x0 0x0 0x0 0x0 0x0 0x0 0x8063 0x1 0x1 0x0 0x7 0x1 0x0;
  mk_config (Some 219%nat) false 0x1 0x0 0x8 0x8 0x8 0x8 0xFF0000 0xFF00 0xFF 0xFF000000 0x20 0x0 0x0 0x0 0x0 0x0 0x18 0x0 0x0 0x0 0x0 0x8002 0x8000 0x8000 0xFFFFFFFF 0xFFFFFFFF 0xFFFFFFFF 0xFFFFFFFF 0x0 0x1 0x4 0x7 0x1 0x0 0x0 0x0 0x0 0x0 0x0 0x0 0x8062 0x1 0x1 0x0 0x7 0x1 0x0;
  mk_config (Some 220%nat) false 0x0 0x0 0x8 0x8 0x8 0x8 0xFF0000 0xFF00 0xFF 0xFF000000 0x20 0x0 0x0 0x0 0x0 0x0 0x18 0x8 0x0 0x0 0x0 0x8002 0x8000 0x8000 0xFFFFFFFF 0xFFFFFFFF 0xFFFFFFFF 0xFFFFFFFF 0x0 0x1 0x4 0x7 0x1 0x0 0x0 0x0 0x0 0x0 0x0 0x0 0x8063 0x1 0x1 0x0 0x7 0x1 0x0;
  mk_config (Some 221%nat) false 0x1 0x0 0x8 0x8 0x8 0x8 0xFF0000 0xFF00 0xFF 0xFF000000 0x20 0x0 0x0 0x0 0x0 0x0 0x18 0x8 0x0 0x0 0x0 0x8002 0x8000 0x8000 0xFFFFFFFF 0xFFFFFFFF 0xFFFFFFFF 0xFFFFFFFF 0x0 0x1 0x4 0x7 0x1 0x0 0x0 0x0 0x0 0x0 0x0 0x0 0x8063 0x1 0x1 0x0 0x7 0x1 0x0;
  mk_config (Some 222%nat) false 0x1 0x0 0x8 0x8 0x8 0x8 0xFF0000 0xFF00 0xFF 0xFF000000 0x20 0x0 0x0 0x0 0x0 0x0 0x18 0x8 0x0 0x0 0x0 0x8002 0x8000 0x8000 0xFFFFFFFF 0xFFFFFFFF 0xFFFFFFFF 0xFFFFFFFF 0x0 0x1 0x4 0x7 0x1 0x0 0x0 0x0 0x0 0x0 0x0 0x0 0x8062 0x1 0x1 0x0 0x7 0x1 0x0;
  mk_config (Some 223%nat) false 0x0 0x0 0x8 0x8 0x8 0x8 0xFF0000 0xFF00 0xFF 0xFF000000 0x20 0x0 0x0 0x0 0x0 0x0 0x20 0x0 0x0 0x0 0x0 0x8002 0x8000 0x8000 0xFFFFFFFF 0xFFFFFFFF 0xFFFFFFFF 0xFFFFFFFF 0x0 0x1 0x4 0x7 0x1 0x0 0x0 0x0 0x0 0x0 0x0 0x0 0x8063 0x1 0x1 0x0 0x7 0x1 0x0;
  mk_config (Some 224%nat) false 0x1 0x0 0x8 0x8 0x8 0x8 0xFF0000 0xFF00 0xFF 0xFF000000 0x20 0x0 0x0 0x0 0x0 0x0 0x20 0x0 0x0 0x0 0x0 0x8002 0x8000 0x8000 0xFFFFFFFF 0xFFFFFFFF 0xFFFFFFFF 0xFFFFFFFF 0x0 0x1 0x4 0x7 0x1 0x0 0x0 0x0 0x0 0x0 0x0 0x0 0x8063 0x1 0x1 0x0 0x7 0x1 0x0;
  mk_config (Some 225%nat) false 0x1 0x0 0x8 0x8 0x8 0x8 0xFF0000 0xFF00 0xFF 0xFF000000 0x20 0x0 0x0 0x0 0x0 0x0 0x20 0x0 0x0 0x0 0x0 0x8002 0x8000 0x8000 0xFFFFFFFF 0xFFFFFFFF 0xFFFFFFFF 0xFFFFFFFF 0x0 0x1 0x4 0x7 0x1 0x0 0x0 0x0 0x0 0x0 0x0 0x0 0x8062 0x1 0x1 0x0 0x7 0x1 0x0;
  mk_config (Some 226%nat) false 0x0 0x0 0x8 0x8 0x8 0x0 0xFF0000 0xFF00 0xFF 0x0 0x18 0x0 0x0 0x0 0x0 0x0 0x0 0x0 0x0 0x0 0x0 0x8002 0x8000 0x8000 0xFFFFFFFF 0xFFFFFFFF 0xFFFFFFFF 0xFFFFFFFF 0x0 0x0 0x0 0x7 0x1 0x0 0x0 0x0 0x0 0x0 0x0 0x0 0x8063 0x1 0x1 0x0 0x7 0x1 0x0;
  mk_config (Some 227%nat) false 0x0 0x0 0x8 0x8 0x8 0x0 0xFF0000 0xFF00 0xFF 0x0 0x18 0x0 0x10 0x10 0x10 0x10 0x0 0x0 0x0 0x0 0x0 0x8002 0x8001 0x8000 0xFFFFFFFF 0xFFFFFFFF 0xFFFFFFFF 0xFFFFFFFF 0x0 0x0 0x0 0x7 0x1 0x0 0x0 0x0 0x0 0x0 0x0 0x0 0x8063 0x1 0x1 0x0 0x7 0x1 0x0;
  mk_config (Some 228%nat) false 0x1 0x0 0x8 0x8 0x8 0x0 0xFF0000 0xFF00 0xFF 0x0 0x18 0x0 0x0 0x0 0x0 0x0 0x0 0x0 0x0 0x0 0x0 0x8002 0x8000 0x8000 0xFFFFFFFF 0xFFFFFFFF 0xFFFFFFFF 0xFFFFFFFF 0x0 0x0 0x0 0x7 0x1 0x0 0x0 0x0 0x0 0x0 0x0 0x0 0x8063 0x1 0x1 0x0 0x7 0x1 0x0;
  mk_config (Some 229%nat) false 0x1 0x0 0x8 0x8 0x8 0x0 0xFF0000 0xFF00 0xFF 0x0 0x18 0x0 0x10 0x10 0x10 0x10 0x0 0x0 0x0 0x0 0x0 0x8002 0x8001 0x8000 0xFFFFFFFF 0xFFFFFFFF 0xFFFFFFFF 0xFFFFFFFF 0x0 0x0 0x0 0x7 0x1 0x0 0x0 0x0 0x0 0x0 0x0 0x0 0x8063 0x1 0x1 0x0 0x7 0x1 0x0;
  mk_config (Some 230%nat) false 0x1 0x0 0x8 0x8 0x8 0x0 0xFF0000 0xFF00 0xFF 0x0 0x18 0x0 0x0 0x0 0x0 0x0 0x0 0x0 0x0 0x0 0x0 0x8002 0x8000 0x8000 0xFFFFFFFF 0xFFFFFFFF 0xFFFFFFFF 0xFFFFFFFF 0x0 0x0 0x0 0x7 0x1 0x0 0x0 0x0 0x0 0x0 0x0 0x0 0x8062 0x1 0x1 0x0 0x7 0x1 0x0;
  mk_config (Some 231%nat) false 0x1 0x0 0x8 0x8 0x8 0x0 0xFF0000 0xFF00 0xFF 0x0 0x18 0x0 0x10 0x10 0x10 0x10 0x0 0x0 0x0 0x0 0x0 0x8002 0x8001 0x8000 0xFFFFFFFF 0xFFFFFFFF 0xFFFFFFFF 0xFFFFFFFF 0x0 0x0 0x0 0x7 0x1 0x0 0x0 0x0 0x0 0x0 0x0 0x0 0x8062 0x1 0x1 0x0 0x7 0x1 0x0;
  mk_config (Some 232%nat) false 0x0 0x0 0x8 0x8 0x8 0x0 0xFF0000 0xFF00 0xFF 0x0 0x18 0x0 0x0 0x0 0x0 0x0 0x10 0x0 0x0 0x0 0x0 0x8002 0x8000 0x8000 0xFFFFFFFF 0xFFFFFFFF 0xFFFFFFFF 0xFFFFFFFF 0x0 0x0 0x0 0x7 0x1 0x0 0x0 0x0 0x0 0x0 0x0 0x0 0x8063 0x1 0x1 0x0 0x7 0x1 0x0;
  mk_config (Some 233%nat) false 0x0 0x0 0x8 0x8 0x8 0x0 0xFF0000 0xFF00 0xFF 0x0 0x18 0x0 0x10 0x10 0x10 0x10 0x10 0x0 0x0 0x0 0x0 0x8002 0x8001 0x8000 0xFFFFFFFF 0xFFFFFFFF 0xFFFFFFFF 0xFFFFFFFF 0x0 0x0 0x0 0x7 0x1 0x0 0x0 0x0 0x0 0x0 0x0 0x0 0x8063 0x1 0x1 0x0 0x7 0x1 0x0;
  mk_config (Some 234%nat) false 0x1 0x0 0x8 0x8 0x8 0x0 0xFF0000 0xFF00 0xFF 0x0 0x18 0x0 0x0 0x0 0x0 0x0 0x10 0x0 0x0 0x0 0x0 0x8002 0x8000 0x8000 0xFFFFFFFF 0xFFFFFFFF 0xFFFFFFFF 0xFFFFFFFF 0x0 0x0 0x0 0x7 0x1 0x0 0x0 0x0 0x0 0x0 0x0 0x0 0x8063 0x1 0x1 0x0 0x7 0x1 0x0;
  mk_config (Some 235%nat) false 0x1 0x0 0x8 0x8 0x8 0x0 0xFF0000 0xFF00 0xFF 0x0 0x18 0x0 0x10 0x10 0x10 0x10 0x10 0x0 0x0 0x0 0x0 0x8002 0x8001 0x8000 0xFFFFFFFF 0xFFFFFFFF 0xFFFFFFFF 0xFFFFFFFF 0x0 0x0 0x0 0x7 0x1 0x0 0x0 0x0 0x0 0x0 0x0 0x0 0x8063 0x1 0x1 0x0 0x7 0x1 0x0;
  mk_config (Some 236%nat) false 0x1 0x0 0x8 0x8 0x8 0x0 0xFF0000 0xFF00 0xFF 0x0 0x18 0x0 0x0 0x0 0x0 0x0 0x10 0x0 0x0 0x0 0x0 0x8002 0x8000 0x8000 0xFFFFFFFF 0xFFFFFFFF 0xFFFFFFFF 0xFFFFFFFF 0x0 0x0 0x0 0x7 0x1 0x0 0x0 0x0 0x0 0x0 0x0 0x0 0x8062 0x1 0x1 0x0 0x7 0x1 0x0;
  mk_config (Some 237%nat) false 0x1 0x0 0x8 0x8 0x8 0x0 0xFF0000 0xFF00 0xFF 0x0 0x18 0x0 0x10 0x10 0x10 0x10 0x10 0x0 0x0 0x0 0x0 0x8002 0x8001 0x8000 0xFFFFFFFF 0xFFFFFFFF 0xFFFFFFFF 0xFFFFFFFF 0x0 0x0 0x0 0x7 0x1 0x0 0x0 0x0 0x0 0x0 0x0 0x0 0x8062 0x1 0x1 0x0 0x7 0x1 0x0;
  mk_config (Some 238%nat) false 0x0 0x0 0x8 0x8 0x8 0x0 0xFF0000 0xFF00 0xFF 0x0 0x18 0x0 0x0 0x0 0x0 0x0 0x18 0x0 0x0 0x0 0x0 0x8002 0x8000 0x8000 0xFFFFFFFF 0xFFFFFFFF 0xFFFFFFFF 0xFFFFFFFF 0x0 0x0 0x0 0x7 0x1 0x0 0x0 0x0 0x0 0x0 0x0 0x0 0x8063 0x1 0x1 0x0 0x7 0x1 0x0;
  mk_config (Some 239%nat) false 0x0 0x0 0x8 0x8 0x8 0x0 0xFF0000 0xFF00 0xFF 0x0 0x18 0x0 0x10 0x10 0x10 0x10 0x18 0x0 0x0 0x0 0x0 0x8002 0x8001 0x8000 0xFFFFFFFF 0xFFFFFFFF 0xFFFFFFFF 0xFFFFFFFF 0x0 0x0 0x0 0x7 0x1 0x0 0x0 0x0 0x0 0x0 0x0 0x0 0x8063 0x1 0x1 0x0 0x7 0x1 0x0;
  mk_config (Some 240%nat) false 0x1 0x0 0x8 0x8 0x8 0x0 0xFF0000 0xFF00 0xFF 0x0 0x18 0x0 0x0 0x0 0x0 0x0 0x18 0x0 0x0 0x0 0x0 0x8002 0x8000 0x8000 0xFFFFFFFF 0xFFFFFFFF 0xFFFFFFFF 0xFFFFFFFF 0x0 0x0 0x0 0x7 0x1 0x0 0x0 0x0 0x0 0x0 0x0 0x0 0x8063 0x1 0x1 0x0 0x7 0x1 0x0;
  mk_config (Some 241%nat) false 0x1 0x0 0x8 0x8 0x8 0x0 0xFF0000 0xFF00 0xFF 0x0 0x18 0x0 0x10 0x10 0x10 0x10 0x18 0x0 0x0 0x0 0x0 0x8002 0x8001 0x8000 0xFFFFFFFF 0xFFFFFFFF 0xFFFFFFFF 0xFFFFFFFF 0x0 0x0 0x0 0x7 0x1 0x0 0x0 0x0 0x0 0x0 0x0 0x0 0x8063 0x1 0x1 0x0 0x7 0x1 0x0;
  mk_config (Some 242%nat) false 0x1 0x0 0x8 0x8 0x8 0x0 0xFF0000 0xFF00 0xFF 0x0 0x18 0x0 0x0 0x0 0x0 0x0 0x18 0x0 0x0 0x0 0x0 0x8002 0x8000 0x8000 0xFFFFFFFF 0xFFFFFFFF 0xFFFFFFFF 0xFFFFFFFF 0x0 0x0 0x0 0x7 0x1 0x0 0x0 0x0 0x0 0x0 0x0 0x0 0x8062 0x1 0x1 0x0 0x7 0x1 0x0;
  mk_config (Some 243%nat) false 0x1 0x0 0x8 0x8 0x8 0x0 0xFF0000 0xFF00 0xFF 0x0 0x18 0x0 0x10 0x10 0x10 0x10 0x18 0x0 0x0 0x0 0x0 0x8002 0x8001 0x8000 0xFFFFFFFF 0xFFFFFFFF 0xFFFFFFFF 0xFFFFFFFF 0x0 0x0 0x0 0x7 0x1 0x0 0x0 0x0 0x0 0x0 0x0 0x0 0x8062 0x1 0x1 0x0 0x7 0x1 0x0;
  mk_config (Some 244%nat) false 0x0 0x0 0x8 0x8 0x8 0x0 0xFF0000 0xFF00 0xFF 0x0 0x18 0x0 0x0 0x0 0x0 0x0 0x18 0x8 0x0 0x0 0x0 0x8002 0x8000 0x8000 0xFFFFFFFF 0xFFFFFFFF 0xFFFFFFFF 0xFFFFFFFF 0x0 0x0 0x0 0x7 0x1 0x0 0x0 0x0 0x0 0x0 0x0 0x0 0x8063 0x1 0x1 0x0 0x7 0x1 0x0;
  mk_config (Some 245%nat) false 0x0 0x0 0x8 0x8 0x8 0x0 0xFF0000 0xFF00 0xFF 0x0 0x18 0x0 0x10 0x10 0x10 0x10 0x18 0x8 0x0 0x0 0x0 0x8002 0x8001 0x8000 0xFFFFFFFF 0xFFFFFFFF 0xFFFFFFFF 0xFFFFFFFF 0x0 0x0 0x0 0x7 0x1 0x0 0x0 0x0 0x0 0x0 0x0 0x0 0x8063 0x1 0x1 0x0 0x7 0x1 0x0;
  mk_config (Some 246%nat) false 0x1 0x0 0x8 0x8 0x8 0x0 0xFF0000 0xFF00 0xFF 0x0 0x18 0x0 0x0 0x0 0x0 0x0 0x18 0x8 0x0 0x0 0x0 0x8002 0x8000 0x8000 0xFFFFFFFF 0xFFFFFFFF 0xFFFFFFFF 0xFFFFFFFF 0x0 0x0 0x0 0x7 0x1 0x0 0x0 0x0 0x0 0x0 0x0 0x0 0x8063 0x1 0x1 0x0 0x7 0x1 0x0;
  mk_config (Some 247%nat) false 0x1 0x0 0x8 0x8 0x8 0x0 0xFF0000 0xFF00 0xFF 0x0 0x18 0x0 0x10 0x10 0x10 0x10 0x18 0x8 0x0 0x0 0x0 0x8002 0x8001 0x8000 0xFFFFFFFF 0xFFFFFFFF 0xFFFFFFFF 0xFFFFFFFF 0x0 0x0 0x0 0x7 0x1 0x0 0x0 0x0 0x0 0x0 0x0 0x0 0x8063 0x1 0x1 0x0 0x7 0x1 0x0;
  mk_config (Some 248%nat) false 0x1 0x0 0x8 0x8 0x8 0x0 0xFF0000 0xFF00 0xFF 0x0 0x18 0x0 0x0 0x0 0x0 0x0 0x18 0x8 0x0 0x0 0x0 0x8002 0x8000 0x8000 0xFFFFFFFF 0xFFFFFFFF 0xFFFFFFFF 0xFFFFFFFF 0x0 0x0 0x0 0x7 0x1 0x0 0x0 0x0 0x0 0x0 0x0 0x0 0x8062 0x1 0x1 0x0 0x7 0x1 0x0;
  mk_config (Some 249%nat) false 0x1 0x0 0x8 0x8 0x8 0x0 0xFF0000 0xFF00 0xFF 0x0 0x18 0x0 0x10 0x10 0x10 0x10 0x18 0x8 0x0 0x0 0x0 0x8002 0x8001 0x8000 0xFFFFFFFF 0xFFFFFFFF 0xFFFFFFFF 0xFFFFFFFF 0x0 0x0 0x0 0x7 0x1 0x0 0x0 0x0 0x0 0x0 0x0 0x0 0x8062 0x1 0x1 0x0 0x7 0x1 0x0;
  mk_config (Some 250%nat) false 0x0 0x0 0x8 0x8 0x8 0x0 0xFF0000 0xFF00 0xFF 0x0 0x18 0x0 0x0 0x0 0x0 0x0 0x20 0x0 0x0 0x0 0x0 0x8002 0x8000 0x8000 0xFFFFFFFF 0xFFFFFFFF 0xFFFFFFFF 0xFFFFFFFF 0x0 0x0 0x0 0x7 0x1 0x0 0x0 0x0 0x0 0x0 0x0 0x0 0x8063 0x1 0x1 0x0 0x7 0x1 0x0;
  mk_config (Some 251%nat) false 0x0 0x0 0x8 0x8 0x8 0x0 0xFF0000 0xFF00 0xFF 0x0 0x18 0x0 0x10 0x10 0x10 0x10 0x20 0x0 0x0 0x0 0x0 0x8002 0x8001 0x8000 0xFFFFFFFF 0xFFFFFFFF 0xFFFFFFFF 0xFFFFFFFF 0x0 0x0 0x0 0x7 0x1 0x0 0x0 0x0 0x0 0x0 0x0 0x0 0x8063 0x1 0x1 0x0 0x7 0x1 0x0;
  mk_config (Some 252%nat) false 0x1 0x0 0x8 0x8 0x8 0x0 0xFF0000 0xFF00 0xFF 0x0 0x18 0x0 0x0 0x0 0x0 0x0 0x20 0x0 0x0 0x0 0x0 0x8002 0x8000 0x8000 0xFFFFFFFF 0xFFFFFFFF 0xFFFFFFFF 0xFFFFFFFF 0x0 0x0 0x0 0x7 0x1 0x0 0x0 0x0 0x0 0x0 0x0 0x0 0x8063 0x1 0x1 0x0 0x7 0x1 0x0;
  mk_config (Some 253%nat) false 0x1 0x0 0x8 0x8 0x8 0x0 0xFF0000 0xFF00 0xFF 0x0 0x18 0x0 0x10 0x10 0x10 0x10 0x20 0x0 0x0 0x0 0x0 0x8002 0x8001 0x8000 0xFFFFFFFF 0xFFFFFFFF 0xFFFFFFFF 0xFFFFFFFF 0x0 0x0 0x0 0x7 0x1 0x0 0x0 0x0 0x0 0x0 0x0 0x0 0x8063 0x1 0x1 0x0 0x7 0x1 0x0;
  mk_config (Some 254%nat) false 0x1 0x0 0x8 0x8 0x8 0x0 0xFF0000 0xFF00 0xFF 0x0 0x18 0x0 0x0 0x0 0x0 0x0 0x20 0x0 0x0 0x0 0x0 0x8002 0x8000 0x8000 0xFFFFFFFF 0xFFFFFFFF 0xFFFFFFFF 0xFFFFFFFF 0x0 0x0 0x0 0x7 0x1 0x0 0x0 0x0 0x0 0x0 0x0 0x0 0x8062 0x1 0x1 0x0 0x7 0x1 0x0;
  mk_config (Some 255%nat) false 0x1 0x0 0x8 0x8 0x8 0x0 0xFF0000 0xFF00 0xFF 0x0 0x18 0x0 0x10 0x10 0x10 0x10 0x20 0x0 0x0 0x0 0x0 0x8002 0x8001 0x8000 0xFFFFFFFF 0xFFFFFFFF 0xFFFFFFFF 0xFFFFFFFF 0x0 0x0 0x0 0x7 0x1 0x0 0x0 0x0 0x0 0x0 0x0 0x0 0x8062 0x1 0x1 0x0 0x7 0x1 0x0;
  mk_config (Some 256%nat) false 0x0 0x0 0x8 0x8 0x8 0x0 0xFF0000 0xFF00 0xFF 0x0 0x18 0x0 0x0 0x0 0x0 0x0 0x0 0x0 0x0 0x0 0x0 0x8002 0x8000 0x8000 0xFFFFFFFF 0xFFFFFFFF 0xFFFFFFFF 0xFFFFFFFF 0x0 0x1 0x4 0x7 0x1 0x0 0x0 0x0 0x0 0x0 0x0 0x0 0x8063 0x1 0x1 0x0 0x7 0x1 0x0;
  mk_config (Some 257%nat) false 0x1 0x0 0x8 0x8 0x8 0x0 0xFF0000 0xFF00 0xFF 0x0 0x18 0x0 0x0 0x0 0x0 0x0 0x0 0x0 0x0 0x0 0x0 0x8002 0x8000 0x8000 0xFFFFFFFF 0xFFFFFFFF 0xFFFFFFFF 0xFFFFFFFF 0x0 0x1 0x4 0x7 0x1 0x0 0x0 0x0 0x0 0x0 0x0 0x0 0x8063 0x1 0x1 0x0 0x7 0x1 0x0;
  mk_config (Some 258%nat) false 0x1 0x0 0x8 0x8 0x8 0x0 0xFF0000 0xFF00 0xFF 0x0 0x18 0x0 0x0 0x0 0x0 0x0 0x0 0x0 0x0 0x0 0x0 0x8002 0x8000 0x8000 0xFFFFFFFF 0xFFFFFFFF 0xFFFFFFFF 0xFFFFFFFF 0x0 0x1 0x4 0x7 0x1 0x0 0x0 0x0 0x0 0x0 0x0 0x0 0x8062 0x1 0x1 0x0 0x7 0x1 0x0;
  mk_config (Some 259%nat) false 0x0 0x0 0x8 0x8 0x8 0x0 0xFF0000 0xFF00 0xFF 0x0 0x18 0x0 0x0 0x0 0x0 0x0 0x10 0x0 0x0 0x0 0x0 0x8002 0x8000 0x8000 0xFFFFFFFF 0xFFFFFFFF 0xFFFFFFFF 0xFFFFFFFF 0x0 0x1 0x4 0x7 0x1 0x0 0x0 0x0 0x0 0x0 0x0 0x0 0x8063 0x1 0x1 0x0 0x7 0x1 0x0;
  mk_config (Some 260%nat) false 0x1 0x0 0x8 0x8 0x8 0x0 0xFF0000 0xFF00 0xFF 0x0 0x18 0x0 0x0 0x0 0x0 0x0 0x10 0x0 0x0 0x0 0x0 0x8002 0x8000 0x8000 0xFFFFFFFF 0xFFFFFFFF 0xFFFFFFFF 0xFFFFFFFF 0x0 0x1 0x4 0x7 0x1 0x0 0x0 0x0 0x0 0x0 0x0 0x0 0x8063 0x1 0x1 0x0 0x7 0x1 0x0;
  mk_config (Some 261%nat) false 0x1 0x0 0x8 0x8 0x8 0x0 0xFF0000 0xFF00 0xFF 0x0 0x18 0x0 0x0 0x0 0x0 0x0 0x10 0x0 0x0 0x0 0x0 0x8002 0x8000 0x8000 0xFFFFFFFF 0xFFFFFFFF 0xFFFFFFFF 0xFFFFFFFF 0x0 0x1 0x4 0x7 0x1 0x0 0x0 0x0 0x0 0x0 0x0 0x0 0x8062 0x1 0x1 0x0 0x7 0x1 0x0;
  mk_config (Some 262%nat) false 0x0 0x0 0x8 0x8 0x8 0x0 0xFF0000 0xFF00 0xFF 0x0 0x18 0x0 0x0 0x0 0x0 0x0 0x18 0x0 0x0 0x0 0x0 0x8002 0x8000 0x8000 0xFFFFFFFF 0xFFFFFFFF 0xFFFFFFFF 0xFFFFFFFF 0x0 0x1 0x4 0x7 0x1 0x0 0x0 0x0 0x0 0x0 0x0 0x0 0x8063 0x1 0x1 0x0 0x7 0x1 0x0;
  mk_config (Some 263%nat) false 0x1 0x0 0x8 0x8 0x8 0x0 0xFF0000 0xFF00 0xFF 0x0 0x18 0x0 0x0 0x0 0x0 0x0 0x18 0x0 0x0 0x0 0x0 0x8002 0x8000 0x8000 0xFFFFFFFF 0xFFFFFFFF 0xFFFFFFFF 0xFFFFFFFF 0x0 0x1 0x4 0x7 0x1 0x0 0x0 0x0 0x0 0x0 0x0 0x0 0x8063 0x1 0x1 0x0 0x7 0x1 0x0;
  mk_config (Some 264%nat) false 0x1 0x0 0x8 0x8 0x8 0x0 0xFF0000 0xFF00 0xFF 0x0 0x18 0x0 0x0 0x0 0x0 0x0 0x18 0x0 0x0 0x0 0x0 0x8002 0x8000 0x8000 0xFFFFFFFF 0xFFFFFFFF 0xFFFFFFFF 0xFFFFFFFF 0x0 0x1 0x4 0x7 0x1 0x0 0x0 0x0 0x0 0x0 0x0 0x0 0x8062 0x1 0x1 0x0 0x7 0x1 0x0;
  mk_config (Some 265%nat) false 0x0 0x0 0x8 0x8 0x8 0x0 0xFF0000 0xFF00 0xFF 0x0 0x18 0x0 0x0 0x0 0x0 0x0 0x18 0x8 0x0 0x0 0x0 0x8002 0x8000 0x8000 0xFFFFFFFF 0xFFFFFFFF 0xFFFFFFFF 0xFFFFFFFF 0x0 0x1 0x4 0x7 0x1 0x0 0x0 0x0 0x0 0x0 0x0 0x0 0x8063 0x1 0x1 0x0 0x7 0x1 0x0;
  mk_config (Some 266%nat) false 0x1 0x0 0x8 0x8 0x8 0x0 0xFF0000 0xFF00 0xFF 0x0 0x18 0x0 0x0 0x0 0x0 0x0 0x18 0x8 0x0 0x0 0x0 0x8002 0x8000 0x8000 0xFFFFFFFF 0xFFFFFFFF 0xFFFFFFFF 0xFFFFFFFF 0x0 0x1 0x4 0x7 0x1 0x0 0x0 0x0 0x0 0x0 0x0 0x0 0x8063 0x1 0x1 0x0 0x7 0x1 0x0;
  mk_config (Some 267%nat) false 0x1 0x0 0x8 0x8 0x8 0x0 0xFF0000 0xFF00 0xFF 0x0 0x18 0x0 0x0 0x0 0x0 0x0 0x18 0x8 0x0 0x0 0x0 0x8002 0x8000 0x8000 0xFFFFFFFF 0xFFFFFFFF 0xFFFFFFFF 0xFFFFFFFF 0x0 0x1 0x4 0x7 0x1 0x0 0x0 0x0 0x0 0x0 0x0 0x0 0x8062 0x1 0x1 0x0 0x7 0x1 0x0;
  mk_config (Some 268%nat) false 0x0 0x0 0x8 0x8 0x8 0x0 0xFF0000 0xFF00 0xFF 0x0 0x18 0x0 0x0 0x0 0x0 0x0 0x20 0x0 0x0 0x0 0x0 0x8002 0x8000 0x8000 0xFFFFFFFF 0xFFFFFFFF 0xFFFFFFFF 0xFFFFFFFF 0x0 0x1 0x4 0x7 0x1 0x0 0x0 0x0 0x0 0x0 0x0 0x0 0x8063 0x1 0x1 0x0 0x7 0x1 0x0;
  mk_config (Some 269%nat) false 0x1 0x0 0x8 0x8 0x8 0x0 0xFF0000 0xFF00 0xFF 0x0 0x18 0x0 0x0 0x0 0x0 0x0 0x20 0x0 0x0 0x0 0x0 0x8002 0x8000 0x8000 0xFFFFFFFF 0xFFFFFFFF 0xFFFFFFFF 0xFFFFFFFF 0x0 0x1 0x4 0x7 0x1 0x0 0x0 0x0 0x0 0x0 0x0 0x0 0x8063 0x1 0x1 0x0 0x7 0x1 0x0;
  mk_config (Some 270%nat) false 0x1 0x0 0x8 0x8 0x8 0x0 0xFF0000 0xFF00 0xFF 0x0 0x18 0x0 0x0 0x0 0x0 0x0 0x20 0x0 0x0 0x0 0x0 0x8002 0x8000 0x8000 0xFFFFFFFF 0xFFFFFFFF 0xFFFFFFFF 0xFFFFFFFF 0x0 0x1 0x4 0x7 0x1 0x0 0x0 0x0 0x0 0x0 0x0 0x0 0x8062 0x1 0x1 0x0 0x7 0x1 0x0
].

Definition configs_2 : list __GLXconfig := [
  mk_config (Some 271%nat) false 0x0 0x0 0x8 0x8 0x8 0x8 0xFF0000 0xFF00 0xFF 0xFF000000 0x20 0x0 0x0 0x0 0x0 0x0 0x0 0x0 0x0 0x0 0x0 0x8002 0x8000 0x8000 0xFFFFFFFF 0xFFFFFFFF 0xFFFFFFFF 0xFFFFFFFF 0x0 0x0 0x0 0x7 0x1 0x0 0x0 0x0 0x0 0x0 0x0 0x0 0x8063 0x1 0x1 0x0 0x7 0x1 0x1;
  mk_config (Some 272%nat) false 0x0 0x0 0x8 0x8 0x8 0x8 0xFF0000 0xFF00 0xFF 0xFF000000 0x20 0x0 0x10 0x10 0x10 0x10 0x0 0x0 0x0 0x0 0x0 0x8002 0x8001 0x8000 0xFFFFFFFF 0xFFFFFFFF 0xFFFFFFFF 0xFFFFFFFF 0x0 0x0 0x0 0x7 0x1 0x0 0x0 0x0 0x0 0x0 0x0 0x0 0x8063 0x1 0x1 0x0 0x7 0x1 0x1;
  mk_config (Some 273%nat) false 0x1 0x0 0x8 0x8 0x8 0x8 0xFF0000 0xFF00 0xFF 0xFF000000 0x20 0x0 0x0 0x0 0x0 0x0 0x0 0x0 0x0 0x0 0x0 0x8002 0x8000 0x8000 0xFFFFFFFF 0xFFFFFFFF 0xFFFFFFFF 0xFFFFFFFF 0x0 0x0 0x0 0x7 0x1 0x0 0x0 0x0 0x0 0x0 0x0 0x0 0x8063 0x1 0x1 0x0 0x7 0x1 0x1;
  mk_config (Some 274%nat) false 0x1 0x0 0x8 0x8 0x8 0x8 0xFF0000 0xFF00 0xFF 0xFF000000 0x20 0x0 0x10 0x10 0x10 0x10 0x0 0x0 0x0 0x0 0x0 0x8002 0x8001 0x8000 0xFFFFFFFF 0xFFFFFFFF 0xFFFFFFFF 0xFFFFFFFF 0x0 0x0 0x0 0x7 0x1 0x0 0x0 0x0 0x0 0x0 0x0 0x0 0x8063 0x1 0x1 0x0 0x7 0x1 0x1;
  mk_config (Some 275%nat) false 0x1 0x0 0x8 0x8 0x8 0x8 0xFF0000 0xFF00 0xFF 0xFF000000 0x20 0x0 0x0 0x0 0x0 0x0 0x0 0x0 0x0 0x0 0x0 0x8002 0x8000 0x8000 0xFFFFFFFF 0xFFFFFFFF 0xFFFFFFFF 0xFFFFFFFF 0x0 0x0 0x0 0x7 0x1 0x0 0x0 0x0 0x0 0x0 0x0 0x0 0x8062 0x1 0x1 0x0 0x7 0x1 0x1;
  mk_config (Some 276%nat) false 0x1 0x0 0x8 0x8 0x8 0x8 0xFF0000 0xFF00 0xFF 0xFF000000 0x20 0x0 0x10 0x10 0x10 0x10 0x0 0x0 0x0 0x0 0x0 0x8002 0x8001 0x8000 0xFFFFFFFF 0xFFFFFFFF 0xFFFFFFFF 0xFFFFFFFF 0x0 0x0 0x0 0x7 0x1 0x0 0x0 0x0 0x0 0x0 0x0 0x0 0x8062 0x1 0x1 0x0 0x7 0x1 0x1;
  mk_config (Some 277%nat) false 0x0 0x0 0x8 0x8 0x8 0x8 0xFF0000 0xFF00 0xFF 0xFF000000 0x20 0x0 0x0 0x0 0x0 0x0 0x10 0x0 0x0 0x0 0x0 0x8002 0x8000 0x8000 0xFFFFFFFF 0xFFFFFFFF 0xFFFFFFFF 0xFFFFFFFF 0x0 0x0 0x0 0x7 0x1 0x0 0x0 0x0 0x0 0x0 0x0 0x0 0x8063 0x1 0x1 0x0 0x7 0x1 0x1;
  mk_config (Some 278%nat) false 0x0 0x0 0x8 0x8 0x8 0x8 0xFF0000 0xFF00 0xFF 0xFF000000 0x20 0x0 0x10 0x10 0x10 0x10 0x10 0x0 0x0 0x0 0x0 0x8002 0x8001 0x8000 0xFFFFFFFF 0xFFFFFFFF 0xFFFFFFFF 0xFFFFFFFF 0x0 0x0 0x0 0x7 0x1 0x0 0x0 0x0 0x0 0x0 0x0 0x0 0x8063 0x1 0x1 0x0 0x7 0x1 0x1;
  mk_config (Some 279%nat) false 0x1 0x0 0x8 0x8 0x8 0x8 0xFF0000 0xFF00 0xFF 0xFF000000 0x20 0x0 0x0 0x0 0x0 0x0 0x10 0x0 0x0 0x0 0x0 0x8002 0x8000 0x8000 0xFFFFFFFF 0xFFFFFFFF 0xFFFFFFFF 0xFFFFFFFF 0x0 0x0 0x0 0x7 0x1 0x0 0x0 0x0 0x0 0x0 0x0 0x0 0x8063 0x1 0x1 0x0 0x7 0x1 0x1;
  mk_config (Some 280%nat) false 0x1 0x0 0x8 0x8 0x8 0x8 0xFF0000 0xFF00 0xFF 0xFF000000 0x20 0x0 0x10 0x10 0x10 0x10 0x10 0x0 0x0 0x0 0x0 0x8002 0x8001 0x8000 0xFFFFFFFF 0xFFFFFFFF 0xFFFFFFFF 0xFFFFFFFF 0x0 0x0 0x0 0x7 0x1 0x0 0x0 0x0 0x0 0x0 0x0 0x0 0x8063 0x1 0x1 0x0 0x7 0x1 0x1;
  mk_config (Some 281%nat) false 0x1 0x0 0x8 0x8 0x8 0x8 0xFF0000 0xFF00 0xFF 0xFF000000 0x20 0x0 0x0 0x0 0x0 0x0 0x10 0x0 0x0 0x0 0x0 0x8002 0x8000 0x8000 0xFFFFFFFF 0xFFFFFFFF 0xFFFFFFFF 0xFFFFFFFF 0x0 0x0 0x0 0x7 0x1 0x0 0x0 0x0 0x0 0x0 0x0 0x0 0x8062 0x1 0x1 0x0 0x7 0x1 0x1;
  mk_config (Some 282%nat) false 0x1 0x0 0x8 0x8 0x8 0x8 0xFF0000 0xFF00 0xFF 0xFF000000 0x20 0x0 0x10 0x10 0x10 0x10 0x10 0x0 0x0 0x0 0x0 0x8002 0x8001 0x8000 0xFFFFFFFF 0xFFFFFFFF 0xFFFFFFFF 0xFFFFFFFF 0x0 0x0 0x0 0x7 0x1 0x0 0x0 0x0 0x0 0x0 0x0 0x0 0x8062 0x1 0x1 0x0 0x7 0x1 0x1;
  mk_config (Some 283%nat) false 0x0 0x0 0x8 0x8 0x8 0x8 0xFF0000 0xFF00 0xFF 0xFF000000 0x20 0x0 0x0 0x0 0x0 0x0 0x18 0x0 0x0 0x0 0x0 0x8002 0x8000 0x8000 0xFFFFFFFF 0xFFFFFFFF 0xFFFFFFFF 0xFFFFFFFF 0x0 0x0 0x0 0x7 0x1 0x0 0x0 0x0 0x0 0x0 0x0 0x0 0x8063 0x1 0x1 0x0 0x7 0x1 0x1;
  mk_config (Some 284%nat) false 0x0 0x0 0x8 0x8 0x8 0x8 0xFF0000 0xFF00 0xFF 0xFF000000 0x20 0x0 0x10 0x10 0x10 0x10 0x18 0x0 0x0 0x0 0x0 0x8002 0x8001 0x8000 0xFFFFFFFF 0xFFFFFFFF 0xFFFFFFFF 0xFFFFFFFF 0x0 0x0 0x0 0x7 0x1 0x0 0x0 0x0 0x0 0x0 0x0 0x0 0x8063 0x1 0x1 0x0 0x7 0x1 0x1;
  mk_config (Some 285%nat) false 0x1 0x0 0x8 0x8 0x8 0x8 0xFF0000 0xFF00 0xFF 0xFF000000 0x20 0x0 0x0 0x0 0x0 0x0 0x18 0x0 0x0 0x0 0x0 0x8002 0x8000 0x8000 0xFFFFFFFF 0xFFFFFFFF 0xFFFFFFFF 0xFFFFFFFF 0x0 0x0 0x0 0x7 0x1 0x0 0x0 0x0 0x0 0x0 0x0 0x0 0x8063 0x1 0x1 0x0 0x7 0x1 0x1;
  mk_config (Some 286%nat) false 0x1 0x0 0x8 0x8 0x8 0x8 0xFF0000 0xFF00 0xFF 0xFF000000 0x20 0x0 0x10 0x10 0x10 0x10 0x18 0x0 0x0 0x0 0x0 0x8002 0x8001 0x8000 0xFFFFFFFF 0xFFFFFFFF 0xFFFFFFFF 0xFFFFFFFF 0x0 0x0 0x0 0x7 0x1 0x0 0x0 0x0 0x0 0x0 0x0 0x0 0x8063 0x1 0x1 0x0 0x7 0x1 0x1;
  mk_config (Some 287%nat) false 0x1 0x0 0x8 0x8 0x8 0x8 0xFF0000 0xFF00 0xFF 0xFF000000 0x20 0x0 0x0 0x0 0x0 0x0 0x18 0x0 0x0 0x0 0x0 0x8002 0x8000 0x8000 0xFFFFFFFF 0xFFFFFFFF 0xFFFFFFFF 0xFFFFFFFF 0x0 0x0 0x0 0x7 0x1 0x0 0x0 0x0 0x0 0x0 0x0 0x0 0x8062 0x1 0x1 0x0 0x7 0x1 0x1;
  mk_config (Some 288%nat) false 0x1 0x0 0x8 0x8 0x8 0x8 0xFF0000 0xFF00 0xFF 0xFF000000 0x20 0x0 0x10 0x10 0x10 0x10 0x18 0x0 0x0 0x0 0x0 0x8002 0x8001 0x8000 0xFFFFFFFF 0xFFFFFFFF 0xFFFFFFFF 0xFFFFFFFF 0x0 0x0 0x0 0x7 0x1 0x0 0x0 0x0 0x0 0x0 0x0 0x0 0x8062 0x1 0x1 0x0 0x7 0x1 0x1;
  mk_config (Some 289%nat) false 0x0 0x0 0x8 0x8 0x8 0x8 0xFF0000 0xFF00 0xFF 0xFF000000 0x20 0x0 0x0 0x0 0x0 0x0 0x18 0x8 0x0 0x0 0x0 0x8002 0x8000 0x8000 0xFFFFFFFF 0xFFFFFFFF 0xFFFFFFFF 0xFFFFFFFF 0x0 0x0 0x0 0x7 0x1 0x0 0x0 0x0 0x0 0x0 0x0 0x0 0x8063 0x1 0x1 0x0 0x7 0x1 0x1;
  mk_config (Some 290%nat) false 0x0 0x0 0x8 0x8 0x8 0x8 0xFF0000 0xFF00 0xFF 0xFF000000 0x20 0x0 0x10 0x10 0x10 0x10 0x18 0x8 0x0 0x0 0x0 0x8002 0x8001 0x8000 0xFFFFFFFF 0xFFFFFFFF 0xFFFFFFFF 0xFFFFFFFF 0x0 0x0 0x0 0x7 0x1 0x0 0x0 0x0 0x0 0x0 0x0 0x0 0x8063 0x1 0x1 0x0 0x7 0x1 0x1;
  mk_config (Some 291%nat) false 0x1 0x0 0x8 0x8 0x8 0x8 0xFF0000 0xFF00 0xFF 0xFF000000 0x20 0x0 0x0 0x0 0x0 0x0 0x18 0x8 0x0 0x0 0x0 0x8002 0x8000 0x8000 0xFFFFFFFF 0xFFFFFFFF 0xFFFFFFFF 0xFFFFFFFF 0x0 0x0 0x0 0x7 0x1 0x0 0x0 0x0 0x0 0x0 0x0 0x0 0x8063 0x1 0x1 0x0 0x7 0x1 0x1;
  mk_config (Some 292%nat) false 0x1 0x0 0x8 0x8 0x8 0x8 0xFF0000 0xFF00 0xFF 0xFF000000 0x20 0x0 0x10 0x10 0x10 0x10 0x18 0x8 0x0 0x0 0x0 0x8002 0x8001 0x8000 0xFFFFFFFF 0xFFFFFFFF 0xFFFFFFFF 0xFFFFFFFF 0x0 0x0 0x0 0x7 0x1 0x0 0x0 0x0 0x0 0x0 0x0 0x0 0x8063 0x1 0x1 0x0 0x7 0x1 0x1;
  mk_config (Some 293%nat) false 0x1 0x0 0x8 0x8 0x8 0x8 0xFF0000 0xFF00 0xFF 0xFF000000 0x20 0x0 0x0 0x0 0x0 0x0 0x18 0x8 0x0 0x0 0x0 0x8002 0x8000 0x8000 0xFFFFFFFF 0xFFFFFFFF 0xFFFFFFFF 0xFFFFFFFF 0x0 0x0 0x0 0x7 0x1 0x0 0x0 0x0 0x0 0x0 0x0 0x0 0x8062 0x1 0x1 0x0 0x7 0x1 0x1;
  mk_config (Some 294%nat) false 0x1 0x0 0x8 0x8 0x8 0x8 0xFF0000 0xFF00 0xFF 0xFF000000 0x20 0x0 0x10 0x10 0x10 0x10 0x18 0x8 0x0 0x0 0x0 0x8002 0x8001 0x8000 0xFFFFFFFF 0xFFFFFFFF 0xFFFFFFFF 0xFFFFFFFF 0x0 0x0 0x0 0x7 0x1 0x0 0x0 0x0 0x0 0x0 0x0 0x0 0x8062 0x1 0x1 0x0 0x7 0x1 0x1;
  mk_config (Some 295%nat) false 0x0 0x0 0x8 0x8 0x8 0x8 0xFF0000 0xFF00 0xFF 0xFF000000 0x20 0x0 0x0 0x0 0x0 0x0 0x20 0x0 0x0 0x0 0x0 0x8002 0x8000 0x8000 0xFFFFFFFF 0xFFFFFFFF 0xFFFFFFFF 0xFFFFFFFF 0x0 0x0 0x0 0x7 0x1 0x0 0x0 0x0 0x0 0x0 0x0 0x0 0x8063 0x1 0x1 0x0 0x7 0x1 0x1;
  mk_config (Some 296%nat) false 0x0 0x0 0x8 0x8 0x8 0x8 0xFF0000 0xFF00 0xFF 0xFF000000 0x20 0x0 0x10 0x10 0x10 0x10 0x20 0x0 0x0 0x0 0x0 0x8002 0x8001 0x8000 0xFFFFFFFF 0xFFFFFFFF 0xFFFFFFFF 0xFFFFFFFF 0x0 0x0 0x0 0x7 0x1 0x0 0x0 0x0 0x0 0x0 0x0 0x0 0x8063 0x1 0x1 0x0 0x7 0x1 0x1;
  mk_config (Some 297%nat) false 0x1 0x0 0x8 0x8 0x8 0x8 0xFF0000 0xFF00 0xFF 0xFF000000 0x20 0x0 0x0 0x0 0x0 0x0 0x20 0x0 0x0 0x0 0x0 0x8002 0x8000 0x8000 0xFFFFFFFF 0xFFFFFFFF 0xFFFFFFFF 0xFFFFFFFF 0x0 0x0 0x0 0x7 0x1 0x0 0x0 0x0 0x0 0x0 0x0 0x0 0x8063 0x1 0x1 0x0 0x7 0x1 0x1;
  mk_config (Some 298%nat) false 0x1 0x0 0x8 0x8 0x8 0x8 0xFF0000 0xFF00 0xFF 0xFF000000 0x20 0x0 0x10 0x10 0x10 0x10 0x20 0x0 0x0 0x0 0x0 0x8002 0x8001 0x8000 0xFFFFFFFF 0xFFFFFFFF 0xFFFFFFFF 0xFFFFFFFF 0x0 0x0 0x0 0x7 0x1 0x0 0x0 0x0 0x0 0x0 0x0 0x0 0x8063 0x1 0x1 0x0 0x7 0x1 0x1;
  mk_config (Some 299%nat) false 0x1 0x0 0x8 0x8 0x8 0x8 0xFF0000 0xFF00 0xFF 0xFF000000 0x20 0x0 0x0 0x0 0x0 0x0 0x20 0x0 0x0 0x0 0x0 0x8002 0x8000 0x8000 0xFFFFFFFF 0xFFFFFFFF 0xFFFFFFFF 0xFFFFFFFF 0x0 0x0 0x0 0x7 0x1 0x0 0x0 0x0 0x0 0x0 0x0 0x0 0x8062 0x1 0x1 0x0 0x7 0x1 0x1;
  mk_config (Some 300%nat) false 0x1 0x0 0x8 0x8 0x8 0x8 0xFF0000 0xFF00 0xFF 0xFF000000 0x20 0x0 0x10 0x10 0x10 0x10 0x20 0x0 0x0 0x0 0x0 0x8002 0x8001 0x8000 0xFFFFFFFF 0xFFFFFFFF 0xFFFFFFFF 0xFFFFFFFF 0x0 0x0 0x0 0x7 0x1 0x0 0x0 0x0 0x0 0x0 0x0 0x0 0x8062 0x1 0x1 0x0 0x7 0x1 0x1;
  mk_config (Some 301%nat) false 0x0 0x0 0x8 0x8 0x8 0x8 0xFF0000 0xFF00 0xFF 0xFF000000 0x20 0x0 0x0 0x0 0x0 0x0 0x0 0x0 0x0 0x0 0x0 0x8002 0x8000 0x8000 0xFFFFFFFF 0xFFFFFFFF 0xFFFFFFFF 0xFFFFFFFF 0x0 0x1 0x4 0x7 0x1 0x0 0x0 0x0 0x0 0x0 0x0 0x0 0x8063 0x1 0x1 0x0 0x7 0x1 0x1;
  mk_config (Some 302%nat) false 0x1 0x0 0x8 0x8 0x8 0x8 0xFF0000 0xFF00 0xFF 0xFF000000 0x20 0x0 0x0 0x0 0x0 0x0 0x0 0x0 0x0 0x0 0x0 0x8002 0x8000 0x8000 0xFFFFFFFF 0xFFFFFFFF 0xFFFFFFFF 0xFFFFFFFF 0x0 0x1 0x4 0x7 0x1 0x0 0x0 0x0 0x0 0x0 0x0 0x0 0x8063 0x1 0x1 0x0 0x7 0x1 0x1;
  mk_config (Some 303%nat) false 0x1 0x0 0x8 0x8 0x8 0x8 0xFF0000 0xFF00 0xFF 0xFF000000 0x20 0x0 0x0 0x0 0x0 0x0 0x0 0x0 0x0 0x0 0x0 0x8002 0x8000 0x8000 0xFFFFFFFF 0xFFFFFFFF 0xFFFFFFFF 0xFFFFFFFF 0x0 0x1 0x4 0x7 0x1 0x0 0x0 0x0 0x0 0x0 0x0 0x0 0x8062 0x1 0x1 0x0 0x7 0x1 0x1;
  mk_config (Some 304%nat) false 0x0 0x0 0x8 0x8 0x8 0x8 0xFF0000 0xFF00 0xFF 0xFF000000 0x20 0x0 0x0 0x0 0x0 0x0 0x10 0x0 0x0 0x0 0x0 0x8002 0x8000 0x8000 0xFFFFFFFF 0xFFFFFFFF 0xFFFFFFFF 0xFFFFFFFF 0x0 0x1 0x4 0x7 0x1 0x0 0x0 0x0 0x0 0x0 0x0 0x0 0x8063 0x1 0x1 0x0 0x7 0x1 0x1;
  mk_config (Some 305%nat) false 0x1 0x0 0x8 0x8 0x8 0x8 0xFF0000 0xFF00 0xFF 0xFF000000 0x20 0x0 0x0 0x0 0x0 0x0 0x10 0x0 0x0 0x0 0x0 0x8002 0x8000 0x8000 0xFFFFFFFF 0xFFFFFFFF 0xFFFFFFFF 0xFFFFFFFF 0x0 0x1 0x4 0x7 0x1 0x0 0x0 0x0 0x0 0x0 0x0 0x0 0x8063 0x1 0x1 0x0 0x7 0x1 0x1;
  mk_config (Some 306%nat) false 0x1 0x0 0x8 0x8 0x8 0x8 0xFF0000 0xFF00 0xFF 0xFF000000 0x20 0x0 0x0 0x0 0x0 0x0 0x10 0x0 0x0 0x0 0x0 0x8002 0x8000 0x8000 0xFFFFFFFF 0xFFFFFFFF 0xFFFFFFFF 0xFFFFFFFF 0x0 0x1 0x4 0x7 0x1 0x0 0x0 0x0 0x0 0x0 0x0 0x0 0x8062 0x1 0x1 0x0 0x7 0x1 0x1;
  mk_config (Some 307%nat) false 0x0 0x0 0x8 0x8 0x8 0x8 0xFF0000 0xFF00 0xFF 0xFF000000 0x20 0x0 0x0 0x0 0x0 0x0 0x18 0x0 0x0 0x0 0x0 0x8002 0x8000 0x8000 0xFFFFFFFF 0xFFFFFFFF 0xFFFFFFFF 0xFFFFFFFF 0x0 0x1 0x4 0x7 0x1 0x0 0x0 0x0 0x0 0x0 0x0 0x0 0x8063 0x1 0x1 0x0 0x7 0x1 0x1;
  mk_config (Some 308%nat) false 0x1 0x0 0x8 0x8 0x8 0x8 0xFF0000 0xFF00 0xFF 0xFF000000 0x20 0x0 0x0 0x0 0x0 0x0 0x18 0x0 0x0 0x0 0x0 0x8002 0x8000 0x8000 0xFFFFFFFF 0xFFFFFFFF 0xFFFFFFFF 0xFFFFFFFF 0x0 0x1 0x4 0x7 0x1 0x0 0x0 0x0 0x0 0x0 0x0 0x0 0x8063 0x1 0x1 0x0 0x7 0x1 0x1;
  mk_config (Some 309%nat) false 0x1 0x0 0x8 0x8 0x8 0x8 0xFF0000 0xFF00 0xFF 0xFF000000 0x20 0x0 0x0 0x0 0x0 0x0 0x18 0x0 0x0 0x0 0x0 0x8002 0x8000 0x8000 0xFFFFFFFF 0xFFFFFFFF 0xFFFFFFFF 0xFFFFFFFF 0x0 0x1 0x4 0x7 0x1 0x0 0x0 0x0 0x0 0x0 0x0 0x0 0x8062 0x1 0x1 0x0 0x7 0x1 0x1;
  mk_config (Some 310%nat) false 0x0 0x0 0x8 0x8 0x8 0x8 0xFF0000 0xFF00 0xFF 0xFF000000 0x20 0x0 0x0 0x0 0x0 0x0 0x18 0x8 0x0 0x0 0x0 0x8002 0x8000 0x8000 0xFFFFFFFF 0xFFFFFFFF 0xFFFFFFFF 0xFFFFFFFF 0x0 0x1 0x4 0x7 0x1 0x0 0x0 0x0 0x0 0x0 0x0 0x0 0x8063 0x1 0x1 0x0 0x7 0x1 0x1;
  mk_config (Some 311%nat) false 0x1 0x0 0x8 0x8 0x8 0x8 0xFF0000 0xFF00 0xFF 0xFF000000 0x20 0x0 0x0 0x0 0x0 0x0 0x18 0x8 0x0 0x0 0x0 0x8002 0x8000 0x8000 0xFFFFFFFF 0xFFFFFFFF 0xFFFFFFFF 0xFFFFFFFF 0x0 0x1 0x4 0x7 0x1 0x0 0x0 0x0 0x0 0x0 0x0 0x0 0x8063 0x1 0x1 0x0 0x7 0x1 0x1;
  mk_config (Some 312%nat) false 0x1 0x0 0x8 0x8 0x8 0x8 0xFF0000 0xFF00 0xFF 0xFF000000 0x20 0x0 0x0 0x0 0x0 0x0 0x18 0x8 0x0 0x0 0x0 0x8002 0x8000 0x8000 0xFFFFFFFF 0xFFFFFFFF 0xFFFFFFFF 0xFFFFFFFF 0x0 0x1 0x4 0x7 0x1 0x0 0x0 0x0 0x0 0x0 0x0 0x0 0x8062 0x1 0x1 0x0 0x7 0x1 0x1;
  mk_config (Some 313%nat) false 0x0 0x0 0x8 0x8 0x8 0x8 0xFF0000 0xFF00 0xFF 0xFF000000 0x20 0x0 0x0 0x0 0x0 0x0 0x20 0x0 0x0 0x0 0x0 0x8002 0x8000 0x8000 0xFFFFFFFF 0xFFFFFFFF 0xFFFFFFFF 0xFFFFFFFF 0x0 0x1 0x4 0x7 0x1 0x0 0x0 0x0 0x0 0x0 0x0 0x0 0x8063 0x1 0x1 0x0 0x7 0x1 0x1;
  mk_config (Some 314%nat) false 0x1 0x0 0x8 0x8 0x8 0x8 0xFF0000 0xFF00 0xFF 0xFF000000 0x20 0x0 0x0 0x0 0x0 0x0 0x20 0x0 0x0 0x0 0x0 0x8002 0x8000 0x8000 0xFFFFFFFF 0xFFFFFFFF 0xFFFFFFFF 0xFFFFFFFF 0x0 0x1 0x4 0x7 0x1 0x0 0x0 0x0 0x0 0x0 0x0 0x0 0x8063 0x1 0x1 0x0 0x7 0x1 0x1;
  mk_config (Some 315%nat) false 0x1 0x0 0x8 0x8 0x8 0x8 0xFF0000 0xFF00 0xFF 0xFF000000 0x20 0x0 0x0 0x0 0x0 0x0 0x20 0x0 0x0 0x0 0x0 0x8002 0x8000 0x8000 0xFFFFFFFF 0xFFFFFFFF 0xFFFFFFFF 0xFFFFFFFF 0x0 0x1 0x4 0x7 0x1 0x0 0x0 0x0 0x0 0x0 0x0 0x0 0x8062 0x1 0x1 0x0 0x7 0x1 0x1;
  mk_config (Some 316%nat) false 0x0 0x0 0x8 0x8 0x8 0x0 0xFF0000 0xFF00 0xFF 0x0 0x18 0x0 0x0 0x0 0x0 0x0 0x0 0x0 0x0 0x0 0x0 0x8002 0x8000 0x8000 0xFFFFFFFF 0xFFFFFFFF 0xFFFFFFFF 0xFFFFFFFF 0x0 0x0 0x0 0x7 0x1 0x0 0x0 0x0 0x0 0x0 0x0 0x0 0x8063 0x1 0x1 0x0 0x7 0x1 0x1;
  mk_config (Some 317%nat) false 0x0 0x0 0x8 0x8 0x8 0x0 0xFF0000 0xFF00 0xFF 0x0 0x18 0x0 0x10 0x10 0x10 0x10 0x0 0x0 0x0 0x0 0x0 0x8002 0x8001 0x8000 0xFFFFFFFF 0xFFFFFFFF 0xFFFFFFFF 0xFFFFFFFF 0x0 0x0 0x0 0x7 0x1 0x0 0x0 0x0 0x0 0x0 0x0 0x0 0x8063 0x1 0x1 0x0 0x7 0x1 0x1;
  mk_config (Some 318%nat) false 0x1 0x0 0x8 0x8 0x8 0x0 0xFF0000 0xFF00 0xFF 0x0 0x18 0x0 0x0 0x0 0x0 0x0 0x0 0x0 0x0 0x0 0x0 0x8002 0x8000 0x8000 0xFFFFFFFF 0xFFFFFFFF 0xFFFFFFFF 0xFFFFFFFF 0x0 0x0 0x0 0x7 0x1 0x0 0x0 0x0 0x0 0x0 0x0 0x0 0x8063 0x1 0x1 0x0 0x7 0x1 0x1;
  mk_config (Some 319%nat) false 0x1 0x0 0x8 0x8 0x8 0x0 0xFF0000 0xFF00 0xFF 0x0 0x18 0x0 0x10 0x10 0x10 0x10 0x0 0x0 0x0 0x0 0x0 0x8002 0x8001 0x8000 0xFFFFFFFF 0xFFFFFFFF 0xFFFFFFFF 0xFFFFFFFF 0x0 0x0 0x0 0x7 0x1 0x0 0x0 0x0 0x0 0x0 0x0 0x0 0x8063 0x1 0x1 0x0 0x7 0x1 0x1;
  mk_config (Some 320%nat) false 0x1 0x0 0x8 0x8 0x8 0x0 0xFF0000 0xFF00 0xFF 0x0 0x18 0x0 0x0 0x0 0x0 0x0 0x0 0x0 0x0 0x0 0x0 0x8002 0x8000 0x8000 0xFFFFFFFF 0xFFFFFFFF 0xFFFFFFFF 0xFFFFFFFF 0x0 0x0 0x0 0x7 0x1 0x0 0x0 0x0 0x0 0x0 0x0 0x0 0x8062 0x1 0x1 0x0 0x7 0x1 0x1;
  mk_config (Some 321%nat) false 0x1 0x0 0x8 0x8 0x8 0x0 0xFF0000 0xFF00 0xFF 0x0 0x18 0x0 0x10 0x10 0x10 0x10 0x0 0x0 0x0 0x0 0x0 0x8002 0x8001 0x8000 0xFFFFFFFF 0xFFFFFFFF 0xFFFFFFFF 0xFFFFFFFF 0x0 0x0 0x0 0x7 0x1 0x0 0x0 0x0 0x0 0x0 0x0 0x0 0x8062 0x1 0x1 0x0 0x7 0x1 0x1;
  mk_config (Some 322%nat) false 0x0 0x0 0x8 0x8 0x8 0x0 0xFF0000 0xFF00 0xFF 0x0 0x18 0x0 0x0 0x0 0x0 0x0 0x10 0x0 0x0 0x0 0x0 0x8002 0x8000 0x8000 0xFFFFFFFF 0xFFFFFFFF 0xFFFFFFFF 0xFFFFFFFF 0x0 0x0 0x0 0x7 0x1 0x0 0x0 0x0 0x0 0x0 0x0 0x0 0x8063 0x1 0x1 0x0 0x7 0x1 0x1;
  mk_config (Some 323%nat) false 0x0 0x0 0x8 0x8 0x8 0x0 0xFF0000 0xFF00 0xFF 0x0 0x18 0x0 0x10 0x10 0x10 0x10 0x10 0x0 0x0 0x0 0x0 0x8002 0x8001 0x8000 0xFFFFFFFF 0xFFFFFFFF 0xFFFFFFFF 0xFFFFFFFF 0x0 0x0 0x0 0x7 0x1 0x0 0x0 0x0 0x0 0x0 0x0 0x0 0x8063 0x1 0x1 0x0 0x7 0x1 0x1;
  mk_config (Some 324%nat) false 0x1 0x0 0x8 0x8 0x8 0x0 0xFF0000 0xFF00 0xFF 0x0 0x18 0x0 0x0 0x0 0x0 0x0 0x10 0x0 0x0 0x0 0x0 0x8002 0x8000 0x8000 0xFFFFFFFF 0xFFFFFFFF 0xFFFFFFFF 0xFFFFFFFF 0x0 0x0 0x0 0x7 0x1 0x0 0x0 0x0 0x0 0x0 0x0 0x0 0x8063 0x1 0x1 0x0 0x7 0x1 0x1;
  mk_config (Some 325%nat) false 0x1 0x0 0x8 0x8 0x8 0x0 0xFF0000 0xFF00 0xFF 0x0 0x18 0x0 0x10 0x10 0x10 0x10 0x10 0x0 0x0 0x0 0x0 0x8002 0x8001 0x8000 0xFFFFFFFF 0xFFFFFFFF 0xFFFFFFFF 0xFFFFFFFF 0x0 0x0 0x0 0x7 0x1 0x0 0x0 0x0 0x0 0x0 0x0 0x0 0x8063 0x1 0x1 0x0 0x7 0x1 0x1;
  mk_config (Some 326%nat) false 0x1 0x0 0x8 0x8 0x8 0x0 0xFF0000 0xFF00 0xFF 0x0 0x18 0x0 0x0 0x0 0x0 0x0 0x10 0x0 0x0 0x0 0x0 0x8002 0x8000 0x8000 0xFFFFFFFF 0xFFFFFFFF 0xFFFFFFFF 0xFFFFFFFF 0x0 0x0 0x0 0x7 0x1 0x0 0x0 0x0 0x0 0x0 0x0 0x0 0x8062 0x1 0x1 0x0 0x7 0x1 0x1;
  mk_config (Some 327%nat) false 0x1 0x0 0x8 0x8 0x8 0x0 0xFF0000 0xFF00 0xFF 0x0 0x18 0x0 0x10 0x10 0x10 0x10 0x10 0x0 0x0 0x0 0x0 0x8002 0x8001 0x8000 0xFFFFFFFF 0xFFFFFFFF 0xFFFFFFFF 0xFFFFFFFF 0x0 0x0 0x0 0x7 0x1 0x0 0x0 0x0 0x0 0x0 0x0 0x0 0x8062 0x1 0x1 0x0 0x7 0x1 0x1;
  mk_config (Some 328%nat) false 0x0 0x0 0x8 0x8 0x8 0x0 0xFF0000 0xFF00 0xFF 0x0 0x18 0x0 0x0 0x0 0x0 0x0 0x18 0x0 0x0 0x0 0x0 0x8002 0x8000 0x8000 0xFFFFFFFF 0xFFFFFFFF 0xFFFFFFFF 0xFFFFFFFF 0x0 0x0 0x0 0x7 0x1 0x0 0x0 0x0 0x0 0x0 0x0 0x0 0x8063 0x1 0x1 0x0 0x7 0x1 0x1;
  mk_config (Some 329%nat) false 0x0 0x0 0x8 0x8 0x8 0x0 0xFF0000 0xFF00 0xFF 0x0 0x18 0x0 0x10 0x10 0x10 0x10 0x18 0x0 0x0 0x0 0x0 0x8002 0x8001 0x8000 0xFFFFFFFF 0xFFFFFFFF 0xFFFFFFFF 0xFFFFFFFF 0x0 0x0 0x0 0x7 0x1 0x0 0x0 0x0 0x0 0x0 0x0 0x0 0x8063 0x1 0x1 0x0 0x7 0x1 0x1;
  mk_config (Some 330%nat) false 0x1 0x0 0x8 0x8 0x8 0x0 0xFF0000 0xFF00 0xFF 0x0 0x18 0x0 0x0 0x0 0x0 0x0 0x18 0x0 0x0 0x0 0x0 0x8002 0x8000 0x8000 0xFFFFFFFF 0xFFFFFFFF 0xFFFFFFFF 0xFFFFFFFF 0x0 0x0 0x0 0x7 0x1 0x0 0x0 0x0 0x0 0x0 0x0 0x0 0x8063 0x1 0x1 0x0 0x7 0x1 0x1;
  mk_config (Some 331%nat) false 0x1 0x0 0x8 0x8 0x8 0x0 0xFF0000 0xFF00 0xFF 0x0 0x18 0x0 0x10 0x10 0x10 0x10 0x18 0x0 0x0 0x0 0x0 0x8002 0x8001 0x8000 0xFFFFFFFF 0xFFFFFFFF 0xFFFFFFFF 0xFFFFFFFF 0x0 0x0 0x0 0x7 0x1 0x0 0x0 0x0 0x0 0x0 0x0 0x0 0x8063 0x1 0x1 0x0 0x7 0x1 0x1;
  mk_config (Some 332%nat) false 0x1 0x0 0x8 0x8 0x8 0x0 0xFF0000 0xFF00 0xFF 0x0 0x18 0x0 0x0 0x0 0x0 0x0 0x18 0x0 0x0 0x0 0x0 0x8002 0x8000 0x8000 0xFFFFFFFF 0xFFFFFFFF 0xFFFFFFFF 0xFFFFFFFF 0x0 0x0 0x0 0x7 0x1 0x0 0x0 0x0 0x0 0x0 0x0 0x0 0x8062 0x1 0x1 0x0 0x7 0x1 0x1;
  mk_config (Some 333%nat) false 0x1 0x0 0x8 0x8 0x8 0x0 0xFF0000 0xFF00 0xFF 0x0 0x18 0x0 0x10 0x10 0x10 0x10 0x18 0x0 0x0 0x0 0x0 0x8002 0x8001 0x8000 0xFFFFFFFF 0xFFFFFFFF 0xFFFFFFFF 0xFFFFFFFF 0x0 0x0 0x0 0x7 0x1 0x0 0x0 0x0 0x0 0x0 0x0 0x0 0x8062 0x1 0x1 0x0 0x7 0x1 0x1;
  mk_config (Some 334%nat) false 0x0 0x0 0x8 0x8 0x8 0x0 0xFF0000 0xFF00 0xFF 0x0 0x18 0x0 0x0 0x0 0x0 0x0 0x18 0x8 0x0 0x0 0x0 0x8002 0x8000 0x8000 0xFFFFFFFF 0xFFFFFFFF 0xFFFFFFFF 0xFFFFFFFF 0x0 0x0 0x0 0x7 0x1 0x0 0x0 0x0 0x0 0x0 0x0 0x0 0x8063 0x1 0x1 0x0 0x7 0x1 0x1;
  mk_config (Some 335%nat) false 0x0 0x0 0x8 0x8 0x8 0x0 0xFF0000 0xFF00 0xFF 0x0 0x18 0x0 0x10 0x10 0x10 0x10 0x18 0x8 0x0 0x0 0x0 0x8002 0x8001 0x8000 0xFFFFFFFF 0xFFFFFFFF 0xFFFFFFFF 0xFFFFFFFF 0x0 0x0 0x0 0x7 0x1 0x0 0x0 0x0 0x0 0x0 0x0 0x0 0x8063 0x1 0x1 0x0 0x7 0x1 0x1;
  mk_config (Some 336%nat) false 0x1 0x0 0x8 0x8 0x8 0x0 0xFF0000 0xFF00 0xFF 0x0 0x18 0x0 0x0 0x0 0x0 0x0 0x18 0x8 0x0 0x0 0x0 0x8002 0x8000 0x8000 0xFFFFFFFF 0xFFFFFFFF 0xFFFFFFFF 0xFFFFFFFF 0x0 0x0 0x0 0x7 0x1 0x0 0x0 0x0 0x0 0x0 0x0 0x0 0x8063 0x1 0x1 0x0 0x7 0x1 0x1;
  mk_config (Some 337%nat) false 0x1 0x0 0x8 0x8 0x8 0x0 0xFF0000 0xFF00 0xFF 0x0 0x18 0x0 0x10 0x10 0x10 0x10 0x18 0x8 0x0 0x0 0x0 0x8002 0x8001 0x8000 0xFFFFFFFF 0xFFFFFFFF 0xFFFFFFFF 0xFFFFFFFF 0x0 0x0 0x0 0x7 0x1 0x0 0x0 0x0 0x0 0x0 0x0 0x0 0x8063 0x1 0x1 0x0 0x7 0x1 0x1;
  mk_config (Some 338%nat) false 0x1 0x0 0x8 0x8 0x8 0x0 0xFF0000 0xFF00 0xFF 0x0 0x18 0x0 0x0 0x0 0x0 0x0 0x18 0x8 0x0 0x0 0x0 0x8002 0x8000 0x8000 0xFFFFFFFF 0xFFFFFFFF 0xFFFFFFFF 0xFFFFFFFF 0x0 0x0 0x0 0x7 0x1 0x0 0x0 0x0 0x0 0x0 0x0 0x0 0x8062 0x1 0x1 0x0 0x7 0x1 0x1;
  mk_config (Some 339%nat) false 0x1 0x0 0x8 0x8 0x8 0x0 0xFF0000 0xFF00 0xFF 0x0 0x18 0x0 0x10 0x10 0x10 0x10 0x18 0x8 0x0 0x0 0x0 0x8002 0x8001 0x8000 0xFFFFFFFF 0xFFFFFFFF 0xFFFFFFFF 0xFFFFFFFF 0x0 0x0 0x0 0x7 0x1 0x0 0x0 0x0 0x0 0x0 0x0 0x0 0x8062 0x1 0x1 0x0 0x7 0x1 0x1;
  mk_config (Some 340%nat) false 0x0 0x0 0x8 0x8 0x8 0x0 0xFF0000 0xFF00 0xFF 0x0 0x18 0x0 0x0 0x0 0x0 0x0 0x20 0x0 0x0 0x0 0x0 0x8002 0x8000 0x8000 0xFFFFFFFF 0xFFFFFFFF 0xFFFFFFFF 0xFFFFFFFF 0x0 0x0 0x0 0x7 0x1 0x0 0x0 0x0 0x0 0x0 0x0 0x0 0x8063 0x1 0x1 0x0 0x7 0x1 0x1;
  mk_config (Some 341%nat) false 0x0 0x0 0x8 0x8 0x8 0x0 0xFF0000 0xFF00 0xFF 0x0 0x18 0x0 0x10 0x10 0x10 0x10 0x20 0x0 0x0 0x0 0x0 0x8002 0x8001 0x8000 0xFFFFFFFF 0xFFFFFFFF 0xFFFFFFFF 0xFFFFFFFF 0x0 0x0 0x0 0x7 0x1 0x0 0x0 0x0 0x0 0x0 0x0 0x0 0x8063 0x1 0x1 0x0 0x7 0x1 0x1;
  mk_config (Some 342%nat) false 0x1 0x0 0x8 0x8 0x8 0x0 0xFF0000 0xFF00 0xFF 0x0 0x18 0x0 0x0 0x0 0x0 0x0 0x20 0x0 0x0 0x0 0x0 0x8002 0x8000 0x8000 0xFFFFFFFF 0xFFFFFFFF 0xFFFFFFFF 0xFFFFFFFF 0x0 0x0 0x0 0x7 0x1 0x0 0x0 0x0 0x0 0x0 0x0 0x0 0x8063 0x1 0x1 0x0 0x7 0x1 0x1;
  mk_config (Some 343%nat) false 0x1 0x0 0x8 0x8 0x8 0x0 0xFF0000 0xFF00 0xFF 0x0 0x18 0x0 0x10 0x10 0x10 0x10 0x20 0x0 0x0 0x0 0x0 0x8002 0x8001 0x8000 0xFFFFFFFF 0xFFFFFFFF 0xFFFFFFFF 0xFFFFFFFF 0x0 0x0 0x0 0x7 0x1 0x0 0x0 0x0 0x0 0x0 0x0 0x0 0x8063 0x1 0x1 0x0 0x7 0x1 0x1;
  mk_config (Some 344%nat) false 0x1 0x0 0x8 0x8 0x8 0x0 0xFF0000 0xFF00 0xFF 0x0 0x18 0x0 0x0 0x0 0x0 0x0 0x20 0x0 0x0 0x0 0x0 0x8002 0x8000 0x8000 0xFFFFFFFF 0xFFFFFFFF 0xFFFFFFFF 0xFFFFFFFF 0x0 0x0 0x0 0x7 0x1 0x0 0x0 0x0 0x0 0x0 0x0 0x0 0x8062 0x1 0x1 0x0 0x7 0x1 0x1;
  mk_config (Some 345%nat) false 0x1 0x0 0x8 0x8 0x8 0x0 0xFF0000 0xFF00 0xFF 0x0 0x18 0x0 0x10 0x10 0x10 0x10 0x20 0x0 0x0 0x0 0x0 0x8002 0x8001 0x8000 0xFFFFFFFF 0xFFFFFFFF 0xFFFFFFFF 0xFFFFFFFF 0x0 0x0 0x0 0x7 0x1 0x0 0x0 0x0 0x0 0x0 0x0 0x0 0x8062 0x1 0x1 0x0 0x7 0x1 0x1;
  mk_config (Some 346%nat) false 0x0 0x0 0x8 0x8 0x8 0x0 0xFF0000 0xFF00 0xFF 0x0 0x18 0x0 0x0 0x0 0x0 0x0 0x0 0x0 0x0 0x0 0x0 0x8002 0x8000 0x8000 0xFFFFFFFF 0xFFFFFFFF 0xFFFFFFFF 0xFFFFFFFF 0x0 0x1 0x4 0x7 0x1 0x0 0x0 0x0 0x0 0x0 0x0 0x0 0x8063 0x1 0x1 0x0 0x7 0x1 0x1;
  mk_config (Some 347%nat) false 0x1 0x0 0x8 0x8 0x8 0x0 0xFF0000 0xFF00 0xFF 0x0 0x18 0x0 0x0 0x0 0x0 0x0 0x0 0x0 0x0 0x0 0x0 0x8002 0x8000 0x8000 0xFFFFFFFF 0xFFFFFFFF 0xFFFFFFFF 0xFFFFFFFF 0x0 0x1 0x4 0x7 0x1 0x0 0x0 0x0 0x0 0x0 0x0 0x0 0x8063 0x1 0x1 0x0 0x7 0x1 0x1;
  mk_config (Some 348%nat) false 0x1 0x0 0x8 0x8 0x8 0x0 0xFF0000 0xFF00 0xFF 0x0 0x18 0x0 0x0 0x0 0x0 0x0 0x0 0x0 0x0 0x0 0x0 0x8002 0x8000 0x8000 0xFFFFFFFF 0xFFFFFFFF 0xFFFFFFFF 0xFFFFFFFF 0x0 0x1 0x4 0x7 0x1 0x0 0x0 0x0 0x0 0x0 0x0 0x0 0x8062 0x1 0x1 0x0 0x7 0x1 0x1;
  mk_config (Some 349%nat) false 0x0 0x0 0x8 0x8 0x8 0x0 0xFF0000 0xFF00 0xFF 0x0 0x18 0x0 0x0 0x0 0x0 0x0 0x10 0x0 0x0 0x0 0x0 0x8002 0x8000 0x8000 0xFFFFFFFF 0xFFFFFFFF 0xFFFFFFFF 0xFFFFFFFF 0x0 0x1 0x4 0x7 0x1 0x0 0x0 0x0 0x0 0x0 0x0 0x0 0x8063 0x1 0x1 0x0 0x7 0x1 0x1;
  mk_config (Some 350%nat) false 0x1 0x0 0x8 0x8 0x8 0x0 0xFF0000 0xFF00 0xFF 0x0 0x18 0x0 0x0 0x0 0x0 0x0 0x10 0x0 0x0 0x0 0x0 0x8002 0x8000 0x8000 0xFFFFFFFF 0xFFFFFFFF 0xFFFFFFFF 0xFFFFFFFF 0x0 0x1 0x4 0x7 0x1 0x0 0x0 0x0 0x0 0x0 0x0 0x0 0x8063 0x1 0x1 0x0 0x7 0x1 0x1;
  mk_config (Some 351%nat) false 0x1 0x0 0x8 0x8 0x8 0x0 0xFF0000 0xFF00 0xFF 0x0 0x18 0x0 0x0 0x0 0x0 0x0 0x10 0x0 0x0 0x0 0x0 0x8002 0x8000 0x8000 0xFFFFFFFF 0xFFFFFFFF 0xFFFFFFFF 0xFFFFFFFF 0x0 0x1 0x4 0x7 0x1 0x0 0x0 0x0 0x0 0x0 0x0 0x0 0x8062 0x1 0x1 0x0 0x7 0x1 0x1;
  mk_config (Some 352%nat) false 0x0 0x0 0x8 0x8 0x8 0x0 0xFF0000 0xFF00 0xFF 0x0 0x18 0x0 0x0 0x0 0x0 0x0 0x18 0x0 0x0 0x0 0x0 0x8002 0x8000 0x8000 0xFFFFFFFF 0xFFFFFFFF 0xFFFFFFFF 0xFFFFFFFF 0x0 0x1 0x4 0x7 0x1 0x0 0x0 0x0 0x0 0x0 0x0 0x0 0x8063 0x1 0x1 0x0 0x7 0x1 0x1;
  mk_config (Some 353%nat) false 0x1 0x0 0x8 0x8 0x8 0x0 0xFF0000 0xFF00 0xFF 0x0 0x18 0x0 0x0 0x0 0x0 0x0 0x18 0x0 0x0 0x0 0x0 0x8002 0x8000 0x8000 0xFFFFFFFF 0xFFFFFFFF 0xFFFFFFFF 0xFFFFFFFF 0x0 0x1 0x4 0x7 0x1 0x0 0x0 0x0 0x0 0x0 0x0 0x0 0x8063 0x1 0x1 0x0 0x7 0x1 0x1;
  mk_config (Some 354%nat) false 0x1 0x0 0x8 0x8 0x8 0x0 0xFF0000 0xFF00 0xFF 0x0 0x18 0x0 0x0 0x0 0x0 0x0 0x18 0x0 0x0 0x0 0x0 0x8002 0x8000 0x8000 0xFFFFFFFF 0xFFFFFFFF 0xFFFFFFFF 0xFFFFFFFF 0x0 0x1 0x4 0x7 0x1 0x0 0x0 0x0 0x0 0x0 0x0 0x0 0x8062 0x1 0x1 0x0 0x7 0x1 0x1;
  mk_config (Some 355%nat) false 0x0 0x0 0x8 0x8 0x8 0x0 0xFF0000 0xFF00 0xFF 0x0 0x18 0x0 0x0 0x0 0x0 0x0 0x18 0x8 0x0 0x0 0x0 0x8002 0x8000 0x8000 0xFFFFFFFF 0xFFFFFFFF 0xFFFFFFFF 0xFFFFFFFF 0x0 0x1 0x4 0x7 0x1 0x0 0x0 0x0 0x0 0x0 0x0 0x0 0x8063 0x1 0x1 0x0 0x7 0x1 0x1;
  mk_config (Some 356%nat) false 0x1 0x0 0x8 0x8 0x8 0x0 0xFF0000 0xFF00 0xFF 0x0 0x18 0x0 0x0 0x0 0x0 0x0 0x18 0x8 0x0 0x0 0x0 0x8002 0x8000 0x8000 0xFFFFFFFF 0xFFFFFFFF 0xFFFFFFFF 0xFFFFFFFF 0x0 0x1 0x4 0x7 0x1 0x0 0x0 0x0 0x0 0x0 0x0 0x0 0x8063 0x1 0x1 0x0 0x7 0x1 0x1;
  mk_config (Some 357%nat) false 0x1 0x0 0x8 0x8 0x8 0x0 0xFF0000 0xFF00 0xFF 0x0 0x18 0x0 0x0 0x0 0x0 0x0 0x18 0x8 0x0 0x0 0x0 0x8002 0x8000 0x8000 0xFFFFFFFF 0xFFFFFFFF 0xFFFFFFFF 0xFFFFFFFF 0x0 0x1 0x4 0x7 0x1 0x0 0x0 0x0 0x0 0x0 0x0 0x0 0x8062 0x1 0x1 0x0 0x7 0x1 0x1;
  mk_config (Some 358%nat) false 0x0 0x0 0x8 0x8 0x8 0x0 0xFF0000 0xFF00 0xFF 0x0 0x18 0x0 0x0 0x0 0x0 0x0 0x20 0x0 0x0 0x0 0x0 0x8002 0x8000 0x8000 0xFFFFFFFF 0xFFFFFFFF 0xFFFFFFFF 0xFFFFFFFF 0x0 0x1 0x4 0x7 0x1 0x0 0x0 0x0 0x0 0x0 0x0 0x0 0x8063 0x1 0x1 0x0 0x7 0x1 0x1;
  mk_config (Some 359%nat) false 0x1 0x0 0x8 0x8 0x8 0x0 0xFF0000 0xFF00 0xFF 0x0 0x18 0x0 0x0 0x0 0x0 0x0 0x20 0x0 0x0 0x0 0x0 0x8002 0x8000 0x8000 0xFFFFFFFF 0xFFFFFFFF 0xFFFFFFFF 0xFFFFFFFF 0x0 0x1 0x4 0x7 0x1 0x0 0x0 0x0 0x0 0x0 0x0 0x0 0x8063 0x1 0x1 0x0 0x7 0x1 0x1;
  mk_config (Some 360%nat) false 0x1 0x0 0x8 0x8 0x8 0x0 0xFF0000 0xFF00 0xFF 0x0 0x18 0x0 0x0 0x0 0x0 0x0 0x20 0x0 0x0 0x0 0x0 0x8002 0x8000 0x8000 0xFFFFFFFF 0xFFFFFFFF 0xFFFFFFFF 0xFFFFFFFF 0x0 0x1 0x4 0x7 0x1 0x0 0x0 0x0 0x0 0x0 0x0 0x0 0x8062 0x1 0x1 0x0 0x7 0x1 0x1;
  mk_config (Some 361%nat) false 0x0 0x0 0x5 0x6 0x5 0x0 0xF800 0x7E0 0x1F 0x0 0x10 0x0 0x0 0x0 0x0 0x0 0x0 0x0 0x0 0x0 0x0 0x8002 0x8000 0x8000 0xFFFFFFFF 0xFFFFFFFF 0xFFFFFFFF 0xFFFFFFFF 0x0 0x0 0x0 0x7 0x1 0x0 0x0 0x0 0x0 0x0 0x0 0x0 0x8063 0x1 0x1 0x0 0x7 0x1 0x0;
  mk_config (Some 362%nat) false 0x0 0x0 0x5 0x6 0x5 0x0 0xF800 0x7E0 0x1F 0x0 0x10 0x0 0x10 0x10 0x10 0x10 0x0 0x0 0x0 0x0 0x0 0x8002 0x8001 0x8000 0xFFFFFFFF 0xFFFFFFFF 0xFFFFFFFF 0xFFFFFFFF 0x0 0x0 0x0 0x7 0x1 0x0 0x0 0x0 0x0 0x0 0x0 0x0 0x8063 0x1 0x1 0x0 0x7 0x1 0x0;
  mk_config (Some 363%nat) false 0x1 0x0 0x5 0x6 0x5 0x0 0xF800 0x7E0 0x1F 0x0 0x10 0x0 0x0 0x0 0x0 0x0 0x0 0x0 0x0 0x0 0x0 0x8002 0x8000 0x8000 0xFFFFFFFF 0xFFFFFFFF 0xFFFFFFFF 0xFFFFFFFF 0x0 0x0 0x0 0x7 0x1 0x0 0x0 0x0 0x0 0x0 0x0 0x0 0x8063 0x1 0x1 0x0 0x7 0x1 0x0;
  mk_config (Some 364%nat) false 0x1 0x0 0x5 0x6 0x5 0x0 0xF800 0x7E0 0x1F 0x0 0x10 0x0 0x10 0x10 0x10 0x10 0x0 0x0 0x0 0x0 0x0 0x8002 0x8001 0x8000 0xFFFFFFFF 0xFFFFFFFF 0xFFFFFFFF 0xFFFFFFFF 0x0 0x0 0x0 0x7 0x1 0x0 0x0 0x0 0x0 0x0 0x0 0x0 0x8063 0x1 0x1 0x0 0x7 0x1 0x0;
  mk_config (Some 365%nat) false 0x1 0x0 0x5 0x6 0x5 0x0 0xF800 0x7E0 0x1F 0x0 0x10 0x0 0x0 0x0 0x0 0x0 0x0 0x0 0x0 0x0 0x0 0x8002 0x8000 0x8000 0xFFFFFFFF 0xFFFFFFFF 0xFFFFFFFF 0xFFFFFFFF 0x0 0x0 0x0 0x7 0x1 0x0 0x0 0x0 0x0 0x0 0x0 0x0 0x8062 0x1 0x1 0x0 0x7 0x1 0x0;
  mk_config (Some 366%nat) false 0x1 0x0 0x5 0x6 0x5 0x0 0xF800 0x7E0 0x1F 0x0 0x10 0x0 0x10 0x10 0x10 0x10 0x0 0x0 0x0 0x0 0x0 0x8002 0x8001 0x8000 0xFFFFFFFF 0xFFFFFFFF 0xFFFFFFFF 0xFFFFFFFF 0x0 0x0 0x0 0x7 0x1 0x0 0x0 0x0 0x0 0x0 0x0 0x0 0x8062 0x1 0x1 0x0 0x7 0x1 0x0;
  mk_config (Some 367%nat) false 0x0 0x0 0x5 0x6 0x5 0x0 0xF800 0x7E0 0x1F 0x0 0x10 0x0 0x0 0x0 0x0 0x0 0x10 0x0 0x0 0x0 0x0 0x8002 0x8000 0x8000 0xFFFFFFFF 0xFFFFFFFF 0xFFFFFFFF 0xFFFFFFFF 0x0 0x0 0x0 0x7 0x1 0x0 0x0 0x0 0x0 0x0 0x0 0x0 0x8063 0x1 0x1 0x0 0x7 0x1 0x0;
  mk_config (Some 368%nat) false 0x0 0x0 0x5 0x6 0x5 0x0 0xF800 0x7E0 0x1F 0x0 0x10 0x0 0x10 0x10 0x10 0x10 0x10 0x0 0x0 0x0 0x0 0x8002 0x8001 0x8000 0xFFFFFFFF 0xFFFFFFFF 0xFFFFFFFF 0xFFFFFFFF 0x0 0x0 0x0 0x7 0x1 0x0 0x0 0x0 0x0 0x0 0x0 0x0 0x8063 0x1 0x1 0x0 0x7 0x1 0x0;
  mk_config (Some 369%nat) false 0x1 0x0 0x5 0x6 0x5 0x0 0xF800 0x7E0 0x1F 0x0 0x10 0x0 0x0 0x0 0x0 0x0 0x10 0x0 0x0 0x0 0x0 0x8002 0x8000 0x8000 0xFFFFFFFF 0xFFFFFFFF 0xFFFFFFFF 0xFFFFFFFF 0x0 0x0 0x0 0x7 0x1 0x0 0x0 0x0 0x0 0x0 0x0 0x0 0x8063 0x1 0x1 0x0 0x7 0x1 0x0;
  mk_config (Some 370%nat) false 0x1 0x0 0x5 0x6 0x5 0x0 0xF800 0x7E0 0x1F 0x0 0x10 0x0 0x10 0x10 0x10 0x10 0x10 0x0 0x0 0x0 0x0 0x8002 0x8001 0x8000 0xFFFFFFFF 0xFFFFFFFF 0xFFFFFFFF 0xFFFFFFFF 0x0 0x0 0x0 0x7 0x1 0x0 0x0 0x0 0x0 0x0 0x0 0x0 0x8063 0x1 0x1 0x0 0x7 0x1 0x0;
  mk_config (Some 371%nat) false 0x1 0x0 0x5 0x6 0x5 0x0 0xF800 0x7E0 0x1F 0x0 0x10 0x0 0x0 0x0 0x0 0x0 0x10 0x0 0x0 0x0 0x0 0x8002 0x8000 0x8000 0xFFFFFFFF 0xFFFFFFFF 0xFFFFFFFF 0xFFFFFFFF 0x0 0x0 0x0 0x7 0x1 0x0 0x0 0x0 0x0 0x0 0x0 0x0 0x8062 0x1 0x1 0x0 0x7 0x1 0x0;
  mk_config (Some 372%nat) false 0x1 0x0 0x5 0x6 0x5 0x0 0xF800 0x7E0 0x1F 0x0 0x10 0x0 0x10 0x10 0x10 0x10 0x10 0x0 0x0 0x0 0x0 0x8002 0x8001 0x8000 0xFFFFFFFF 0xFFFFFFFF 0xFFFFFFFF 0xFFFFFFFF 0x0 0x0 0x0 0x7 0x1 0x0 0x0 0x0 0x0 0x0 0x0 0x0 0x8062 0x1 0x1 0x0 0x7 0x1 0x0;
  mk_config (Some 373%nat) false 0x0 0x0 0x5 0x6 0x5 0x0 0xF800 0x7E0 0x1F 0x0 0x10 0x0 0x0 0x0 0x0 0x0 0x18 0x0 0x0 0x0 0x0 0x8002 0x8000 0x8000 0xFFFFFFFF 0xFFFFFFFF 0xFFFFFFFF 0xFFFFFFFF 0x0 0x0 0x0 0x7 0x1 0x0 0x0 0x0 0x0 0x0 0x0 0x0 0x8063 0x1 0x1 0x0 0x7 0x1 0x0;
  mk_config (Some 374%nat) false 0x0 0x0 0x5 0x6 0x5 0x0 0xF800 0x7E0 0x1F 0x0 0x10 0x0 0x10 0x10 0x10 0x10 0x18 0x0 0x0 0x0 0x0 0x8002 0x8001 0x8000 0xFFFFFFFF 0xFFFFFFFF 0xFFFFFFFF 0xFFFFFFFF 0x0 0x0 0x0 0x7 0x1 0x0 0x0 0x0 0x0 0x0 0x0 0x0 0x8063 0x1 0x1 0x0 0x7 0x1 0x0;
  mk_config (Some 375%nat) false 0x1 0x0 0x5 0x6 0x5 0x0 0xF800 0x7E0 0x1F 0x0 0x10 0x0 0x0 0x0 0x0 0x0 0x18 0x0 0x0 0x0 0x0 0x8002 0x8000 0x8000 0xFFFFFFFF 0xFFFFFFFF 0xFFFFFFFF 0xFFFFFFFF 0x0 0x0 0x0 0x7 0x1 0x0 0x0 0x0 0x0 0x0 0x0 0x0 0x8063 0x1 0x1 0x0 0x7 0x1 0x0;
  mk_config (Some 376%nat) false 0x1 0x0 0x5 0x6 0x5 0x0 0xF800 0x7E0 0x1F 0x0 0x10 0x0 0x10 0x10 0x10 0x10 0x18 0x0 0x0 0x0 0x0 0x8002 0x8001 0x8000 0xFFFFFFFF 0xFFFFFFFF 0xFFFFFFFF 0xFFFFFFFF 0x0 0x0 0x0 0x7 0x1 0x0 0x0 0x0 0x0 0x0 0x0 0x0 0x8063 0x1 0x1 0x0 0x7 0x1 0x0;
  mk_config (Some 377%nat) false 0x1 0x0 0x5 0x6 0x5 0x0 0xF800 0x7E0 0x1F 0x0 0x10 0x0 0x0 0x0 0x0 0x0 0x18 0x0 0x0 0x0 0x0 0x8002 0x8000 0x8000 0xFFFFFFFF 0xFFFFFFFF 0xFFFFFFFF 0xFFFFFFFF 0x0 0x0 0x0 0x7 0x1 0x0 0x0 0x0 0x0 0x0 0x0 0x0 0x8062 0x1 0x1 0x0 0x7 0x1 0x0;
  mk_config (Some 378%nat) false 0x1 0x0 0x5 0x6 0x5 0x0 0xF800 0x7E0 0x1F 0x0 0x10 0x0 0x10 0x10 0x10 0x10 0x18 0x0 0x0 0x0 0x0 0x8002 0x8001 0x8000 0xFFFFFFFF 0xFFFFFFFF 0xFFFFFFFF 0xFFFFFFFF 0x0 0x0 0x0 0x7 0x1 0x0 0x0 0x0 0x0 0x0 0x0 0x0 0x8062 0x1 0x1 0x0 0x7 0x1 0x0;
  mk_config (Some 379%nat) false 0x0 0x0 0x5 0x6 0x5 0x0 0xF800 0x7E0 0x1F 0x0 0x10 0x0 0x0 0x0 0x0 0x0 0x18 0x8 0x0 0x0 0x0 0x8002 0x8000 0x8000 0xFFFFFFFF 0xFFFFFFFF 0xFFFFFFFF 0xFFFFFFFF 0x0 0x0 0x0 0x7 0x1 0x0 0x0 0x0 0x0 0x0 0x0 0x0 0x8063 0x1 0x1 0x0 0x7 0x1 0x0;
  mk_config (Some 380%nat) false 0x0 0x0 0x5 0x6 0x5 0x0 0xF800 0x7E0 0x1F 0x0 0x10 0x0 0x10 0x10 0x10 0x10 0x18 0x8 0x0 0x0 0x0 0x8002 0x8001 0x8000 0xFFFFFFFF 0xFFFFFFFF 0xFFFFFFFF 0xFFFFFFFF 0x0 0x0 0x0 0x7 0x1 0x0 0x0 0x0 0x0 0x0 0x0 0x0 0x8063 0x1 0x1 0x0 0x7 0x1 0x0;
  mk_config (Some 381%nat) false 0x1 0x0 0x5 0x6 0x5 0x0 0xF800 0x7E0 0x1F 0x0 0x10 0x0 0x0 0x0 0x0 0x0 0x18 0x8 0x0 0x0 0x0 0x8002 0x8000 0x8000 0xFFFFFFFF 0xFFFFFFFF 0xFFFFFFFF 0xFFFFFFFF 0x0 0x0 0x0 0x7 0x1 0x0 0x0 0x0 0x0 0x0 0x0 0x0 0x8063 0x1 0x1 0x0 0x7 0x1 0x0;
  mk_config (Some 382%nat) false 0x1 0x0 0x5 0x6 0x5 0x0 0xF800 0x7E0 0x1F 0x0 0x10 0x0 0x10 0x10 0x10 0x10 0x18 0x8 0x0 0x0 0x0 0x8002 0x8001 0x8000 0xFFFFFFFF 0xFFFFFFFF 0xFFFFFFFF 0xFFFFFFFF 0x0 0x0 0x0 0x7 0x1 0x0 0x0 0x0 0x0 0x0 0x0 0x0 0x8063 0x1 0x1 0x0 0x7 0x1 0x0;
  mk_config (Some 383%nat) false 0x1 0x0 0x5 0x6 0x5 0x0 0xF800 0x7E0 0x1F 0x0 0x10 0x0 0x0 0x0 0x0 0x0 0x18 0x8 0x0 0x0 0x0 0x8002 0x8000 0x8000 0xFFFFFFFF 0xFFFFFFFF 0xFFFFFFFF 0xFFFFFFFF 0x0 0x0 0x0 0x7 0x1 0x0 0x0 0x0 0x0 0x0 0x0 0x0 0x8062 0x1 0x1 0x0 0x7 0x1 0x0;
  mk_config (Some 384%nat) false 0x1 0x0 0x5 0x6 0x5 0x0 0xF800 0x7E0 0x1F 0x0 0x10 0x0 0x10 0x10 0x10 0x10 0x18 0x8 0x0 0x0 0x0 0x8002 0x8001 0x8000 0xFFFFFFFF 0xFFFFFFFF 0xFFFFFFFF 0xFFFFFFFF 0x0 0x0 0x0 0x7 0x1 0x0 0x0 0x0 0x0 0x0 0x0 0x0 0x8062 0x1 0x1 0x0 0x7 0x1 0x0;
  mk_config (Some 385%nat) false 0x0 0x0 0x5 0x6 0x5 0x0 0xF800 0x7E0 0x1F 0x0 0x10 0x0 0x0 0x0 0x0 0x0 0x20 0x0 0x0 0x0 0x0 0x8002 0x8000 0x8000 0xFFFFFFFF 0xFFFFFFFF 0xFFFFFFFF 0xFFFFFFFF 0x0 0x0 0x0 0x7 0x1 0x0 0x0 0x0 0x0 0x0 0x0 0x0 0x8063 0x1 0x1 0x0 0x7 0x1 0x0;
  mk_config (Some 386%nat) false 0x0 0x0 0x5 0x6 0x5 0x0 0xF800 0x7E0 0x1F 0x0 0x10 0x0 0x10 0x10 0x10 0x10 0x20 0x0 0x0 0x0 0x0 0x8002 0x8001 0x8000 0xFFFFFFFF 0xFFFFFFFF 0xFFFFFFFF 0xFFFFFFFF 0x0 0x0 0x0 0x7 0x1 0x0 0x0 0x0 0x0 0x0 0x0 0x0 0x8063 0x1 0x1 0x0 0x7 0x1 0x0;
  mk_config (Some 387%nat) false 0x1 0x0 0x5 0x6 0x5 0x0 0xF800 0x7E0 0x1F 0x0 0x10 0x0 0x0 0x0 0x0 0x0 0x20 0x0 0x0 0x0 0x0 0x8002 0x8000 0x8000 0xFFFFFFFF 0xFFFFFFFF 0xFFFFFFFF 0xFFFFFFFF 0x0 0x0 0x0 0x7 0x1 0x0 0x0 0x0 0x0 0x0 0x0 0x0 0x8063 0x1 0x1 0x0 0x7 0x1 0x0;
  mk_config (Some 388%nat) false 0x1 0x0 0x5 0x6 0x5 0x0 0xF800 0x7E0 0x1F 0x0 0x10 0x0 0x10 0x10 0x10 0x10 0x20 0x0 0x0 0x0 0x0 0x8002 0x8001 0x8000 0xFFFFFFFF 0xFFFFFFFF 0xFFFFFFFF 0xFFFFFFFF 0x0 0x0 0x0 0x7 0x1 0x0 0x0 0x0 0x0 0x0 0x0 0x0 0x8063 0x1 0x1 0x0 0x7 0x1 0x0;
  mk_config (Some 389%nat) false 0x1 0x0 0x5 0x6 0x5 0x0 0xF800 0x7E0 0x1F 0x0 0x10 0x0 0x0 0x0 0x0 0x0 0x20 0x0 0x0 0x0 0x0 0x8002 0x8000 0x8000 0xFFFFFFFF 0xFFFFFFFF 0xFFFFFFFF 0xFFFFFFFF 0x0 0x0 0x0 0x7 0x1 0x0 0x0 0x0 0x0 0x0 0x0 0x0 0x8062 0x1 0x1 0x0 0x7 0x1 0x0;
  mk_config (Some 390%nat) false 0x1 0x0 0x5 0x6 0x5 0x0 0xF800 0x7E0 0x1F 0x0 0x10 0x0 0x10 0x10 0x10 0x10 0x20 0x0 0x0 0x0 0x0 0x8002 0x8001 0x8000 0xFFFFFFFF 0xFFFFFFFF 0xFFFFFFFF 0xFFFFFFFF 0x0 0x0 0x0 0x7 0x1 0x0 0x0 0x0 0x0 0x0 0x0 0x0 0x8062 0x1 0x1 0x0 0x7 0x1 0x0;
  mk_config (Some 391%nat) false 0x0 0x0 0x5 0x6 0x5 0x0 0xF800 0x7E0 0x1F 0x0 0x10 0x0 0x0 0x0 0x0 0x0 0x0 0x0 0x0 0x0 0x0 0x8002 0x8000 0x8000 0xFFFFFFFF 0xFFFFFFFF 0xFFFFFFFF 0xFFFFFFFF 0x0 0x1 0x4 0x7 0x1 0x0 0x0 0x0 0x0 0x0 0x0 0x0 0x8063 0x1 0x1 0x0 0x7 0x1 0x0;
  mk_config (Some 392%nat) false 0x1 0x0 0x5 0x6 0x5 0x0 0xF800 0x7E0 0x1F 0x0 0x10 0x0 0x0 0x0 0x0 0x0 0x0 0x0 0x0 0x0 0x0 0x8002 0x8000 0x8000 0xFFFFFFFF 0xFFFFFFFF 0xFFFFFFFF 0xFFFFFFFF 0x0 0x1 0x4 0x7 0x1 0x0 0x0 0x0 0x0 0x0 0x0 0x0 0x8063 0x1 0x1 0x0 0x7 0x1 0x0;
  mk_config (Some 393%nat) false 0x1 0x0 0x5 0x6 0x5 0x0 0xF800 0x7E0 0x1F 0x0 0x10 0x0 0x0 0x0 0x0 0x0 0x0 0x0 0x0 0x0 0x0 0x8002 0x8000 0x8000 0xFFFFFFFF 0xFFFFFFFF 0xFFFFFFFF 0xFFFFFFFF 0x0 0x1 0x4 0x7 0x1 0x0 0x0 0x0 0x0 0x0 0x0 0x0 0x8062 0x1 0x1 0x0 0x7 0x1 0x0;
  mk_config (Some 394%nat) false 0x0 0x0 0x5 0x6 0x5 0x0 0xF800 0x7E0 0x1F 0x0 0x10 0x0 0x0 0x0 0x0 0x0 0x10 0x0 0x0 0x0 0x0 0x8002 0x8000 0x8000 0xFFFFFFFF 0xFFFFFFFF 0xFFFFFFFF 0xFFFFFFFF 0x0 0x1 0x4 0x7 0x1 0x0 0x0 0x0 0x0 0x0 0x0 0x0 0x8063 0x1 0x1 0x0 0x7 0x1 0x0;
  mk_config (Some 395%nat) false 0x1 0x0 0x5 0x6 0x5 0x0 0xF800 0x7E0 0x1F 0x0 0x10 0x0 0x0 0x0 0x0 0x0 0x10 0x0 0x0 0x0 0x0 0x8002 0x8000 0x8000 0xFFFFFFFF 0xFFFFFFFF 0xFFFFFFFF 0xFFFFFFFF 0x0 0x1 0x4 0x7 0x1 0x0 0x0 0x0 0x0 0x0 0x0 0x0 0x8063 0x1 0x1 0x0 0x7 0x1 0x0;
  mk_config (Some 396%nat) false 0x1 0x0 0x5 0x6 0x5 0x0 0xF800 0x7E0 0x1F 0x0 0x10 0x0 0x0 0x0 0x0 0x0 0x10 0x0 0x0 0x0 0x0 0x8002 0x8000 0x8000 0xFFFFFFFF 0xFFFFFFFF 0xFFFFFFFF 0xFFFFFFFF 0x0 0x1 0x4 0x7 0x1 0x0 0x0 0x0 0x0 0x0 0x0 0x0 0x8062 0x1 0x1 0x0 0x7 0x1 0x0;
  mk_config (Some 397%nat) false 0x0 0x0 0x5 0x6 0x5 0x0 0xF800 0x7E0 0x1F 0x0 0x10 0x0 0x0 0x0 0x0 0x0 0x18 0x0 0x0 0x0 0x0 0x8002 0x8000 0x8000 0xFFFFFFFF 0xFFFFFFFF 0xFFFFFFFF 0xFFFFFFFF 0x0 0x1 0x4 0x7 0x1 0x0 0x0 0x0 0x0 0x0 0x0 0x0 0x8063 0x1 0x1 0x0 0x7 0x1 0x0;
  mk_config (Some 398%nat) false 0x1 0x0 0x5 0x6 0x5 0x0 0xF800 0x7E0 0x1F 0x0 0x10 0x0 0x0 0x0 0x0 0x0 0x18 0x0 0x0 0x0 0x0 0x8002 0x8000 0x8000 0xFFFFFFFF 0xFFFFFFFF 0xFFFFFFFF 0xFFFFFFFF 0x0 0x1 0x4 0x7 0x1 0x0 0x0 0x0 0x0 0x0 0x0 0x0 0x8063 0x1 0x1 0x0 0x7 0x1 0x0;
  mk_config (Some 399%nat) false 0x1 0x0 0x5 0x6 0x5 0x0 0xF800 0x7E0 0x1F 0x0 0x10 0x0 0x0 0x0 0x0 0x0 0x18 0x0 0x0 0x0 0x0 0x8002 0x8000 0x8000 0xFFFFFFFF 0xFFFFFFFF 0xFFFFFFFF 0xFFFFFFFF 0x0 0x1 0x4 0x7 0x1 0x0 0x0 0x0 0x0 0x0 0x0 0x0 0x8062 0x1 0x1 0x0 0x7 0x1 0x0;
  mk_config (Some 400%nat) false 0x0 0x0 0x5 0x6 0x5 0x0 0xF800 0x7E0 0x1F 0x0 0x10 0x0 0x0 0x0 0x0 0x0 0x18 0x8 0x0 0x0 0x0 0x8002 0x8000 0x8000 0xFFFFFFFF 0xFFFFFFFF 0xFFFFFFFF 0xFFFFFFFF 0x0 0x1 0x4 0x7 0x1 0x0 0x0 0x0 0x0 0x0 0x0 0x0 0x8063 0x1 0x1 0x0 0x7 0x1 0x0;
  mk_config (Some 401%nat) false 0x1 0x0 0x5 0x6 0x5 0x0 0xF800 0x7E0 0x1F 0x0 0x10 0x0 0x0 0x0 0x0 0x0 0x18 0x8 0x0 0x0 0x0 0x8002 0x8000 0x8000 0xFFFFFFFF 0xFFFFFFFF 0xFFFFFFFF 0xFFFFFFFF 0x0 0x1 0x4 0x7 0x1 0x0 0x0 0x0 0x0 0x0 0x0 0x0 0x8063 0x1 0x1 0x0 0x7 0x1 0x0;
  mk_config (Some 402%nat) false 0x1 0x0 0x5 0x6 0x5 0x0 0xF800 0x7E0 0x1F 0x0 0x10 0x0 0x0 0x0 0x0 0x0 0x18 0x8 0x0 0x0 0x0 0x8002 0x8000 0x8000 0xFFFFFFFF 0xFFFFFFFF 0xFFFFFFFF 0xFFFFFFFF 0x0 0x1 0x4 0x7 0x1 0x0 0x0 0x0 0x0 0x0 0x0 0x0 0x8062 0x1 0x1 0x0 0x7 0x1 0x0;
  mk_config (Some 403%nat) false 0x0 0x0 0x5 0x6 0x5 0x0 0xF800 0x7E0 0x1F 0x0 0x10 0x0 0x0 0x0 0x0 0x0 0x20 0x0 0x0 0x0 0x0 0x8002 0x8000 0x8000 0xFFFFFFFF 0xFFFFFFFF 0xFFFFFFFF 0xFFFFFFFF 0x0 0x1 0x4 0x7 0x1 0x0 0x0 0x0 0x0 0x0 0x0 0x0 0x8063 0x1 0x1 0x0 0x7 0x1 0x0;
  mk_config (Some 404%nat) false 0x1 0x0 0x5 0x6 0x5 0x0 0xF800 0x7E0 0x1F 0x0 0x10 0x0 0x0 0x0 0x0 0x0 0x20 0x0 0x0 0x0 0x0 0x8002 0x8000 0x8000 0xFFFFFFFF 0xFFFFFFFF 0xFFFFFFFF 0xFFFFFFFF 0x0 0x1 0x4 0x7 0x1 0x0 0x0 0x0 0x0 0x0 0x0 0x0 0x8063 0x1 0x1 0x0 0x7 0x1 0x0;
  mk_config (Some 405%nat) false 0x1 0x0 0x5 0x6 0x5 0x0 0xF800 0x7E0 0x1F 0x0 0x10 0x0 0x0 0x0 0x0 0x0 0x20 0x0 0x0 0x0 0x0 0x8002 0x8000 0x8000 0xFFFFFFFF 0xFFFFFFFF 0xFFFFFFFF 0xFFFFFFFF 0x0 0x1 0x4 0x7 0x1 0x0 0x0 0x0 0x0 0x0 0x0 0x0 0x8062 0x1 0x1 0x0 0x7 0x1 0x0
].

Definition configs_3 : list __GLXconfig := [
  mk_config (Some 406%nat) false 0x0 0x0 0xA 0xA 0xA 0x2 0x3FF00000 0xFFC00 0x3FF 0xC0000000 0x20 0x0 0x0 0x0 0x0 0x0 0x0 0x0 0x0 0x0 0x0 0x8003 0x8000 0x8000 0xFFFFFFFF 0xFFFFFFFF 0xFFFFFFFF 0xFFFFFFFF 0x0 0x0 0x0 0x7 0x1 0x0 0x0 0x0 0x0 0x0 0x0 0x0 0x8063 0x1 0x1 0x0 0x7 0x1 0x0;
  mk_config (Some 407%nat) false 0x0 0x0 0xA 0xA 0xA 0x2 0x3FF00000 0xFFC00 0x3FF 0xC0000000 0x20 0x0 0x10 0x10 0x10 0x10 0x0 0x0 0x0 0x0 0x0 0x8003 0x8001 0x8000 0xFFFFFFFF 0xFFFFFFFF 0xFFFFFFFF 0xFFFFFFFF 0x0 0x0 0x0 0x7 0x1 0x0 0x0 0x0 0x0 0x0 0x0 0x0 0x8063 0x1 0x1 0x0 0x7 0x1 0x0;
  mk_config (Some 408%nat) false 0x1 0x0 0xA 0xA 0xA 0x2 0x3FF00000 0xFFC00 0x3FF 0xC0000000 0x20 0x0 0x0 0x0 0x0 0x0 0x0 0x0 0x0 0x0 0x0 0x8003 0x8000 0x8000 0xFFFFFFFF 0xFFFFFFFF 0xFFFFFFFF 0xFFFFFFFF 0x0 0x0 0x0 0x7 0x1 0x0 0x0 0x0 0x0 0x0 0x0 0x0 0x8063 0x1 0x1 0x0 0x7 0x1 0x0;
  mk_config (Some 409%nat) false 0x1 0x0 0xA 0xA 0xA 0x2 0x3FF00000 0xFFC00 0x3FF 0xC0000000 0x20 0x0 0x10 0x10 0x10 0x10 0x0 0x0 0x0 0x0 0x0 0x8003 0x8001 0x8000 0xFFFFFFFF 0xFFFFFFFF 0xFFFFFFFF 0xFFFFFFFF 0x0 0x0 0x0 0x7 0x1 0x0 0x0 0x0 0x0 0x0 0x0 0x0 0x8063 0x1 0x1 0x0 0x7 0x1 0x0;
  mk_config (Some 410%nat) false 0x1 0x0 0xA 0xA 0xA 0x2 0x3FF00000 0xFFC00 0x3FF 0xC0000000 0x20 0x0 0x0 0x0 0x0 0x0 0x0 0x0 0x0 0x0 0x0 0x8003 0x8000 0x8000 0xFFFFFFFF 0xFFFFFFFF 0xFFFFFFFF 0xFFFFFFFF 0x0 0x0 0x0 0x7 0x1 0x0 0x0 0x0 0x0 0x0 0x0 0x0 0x8062 0x1 0x1 0x0 0x7 0x1 0x0;
  mk_config (Some 411%nat) false 0x1 0x0 0xA 0xA 0xA 0x2 0x3FF00000 0xFFC00 0x3FF 0xC0000000 0x20 0x0 0x10 0x10 0x10 0x10 0x0 0x0 0x0 0x0 0x0 0x8003 0x8001 0x8000 0xFFFFFFFF 0xFFFFFFFF 0xFFFFFFFF 0xFFFFFFFF 0x0 0x0 0x0 0x7 0x1 0x0 0x0 0x0 0x0 0x0 0x0 0x0 0x8062 0x1 0x1 0x0 0x7 0x1 0x0;
  mk_config (Some 412%nat) false 0x0 0x0 0xA 0xA 0xA 0x2 0x3FF00000 0xFFC00 0x3FF 0xC0000000 0x20 0x0 0x0 0x0 0x0 0x0 0x10 0x0 0x0 0x0 0x0 0x8003 0x8000 0x8000 0xFFFFFFFF 0xFFFFFFFF 0xFFFFFFFF 0xFFFFFFFF 0x0 0x0 0x0 0x7 0x1 0x0 0x0 0x0 0x0 0x0 0x0 0x0 0x8063 0x1 0x1 0x0 0x7 0x1 0x0;
  mk_config (Some 413%nat) false 0x0 0x0 0xA 0xA 0xA 0x2 0x3FF00000 0xFFC00 0x3FF 0xC0000000 0x20 0x0 0x10 0x10 0x10 0x10 0x10 0x0 0x0 0x0 0x0 0x8003 0x8001 0x8000 0xFFFFFFFF 0xFFFFFFFF 0xFFFFFFFF 0xFFFFFFFF 0x0 0x0 0x0 0x7 0x1 0x0 0x0 0x0 0x0 0x0 0x0 0x0 0x8063 0x1 0x1 0x0 0x7 0x1 0x0;
  mk_config (Some 414%nat) false 0x1 0x0 0xA 0xA 0xA 0x2 0x3FF00000 0xFFC00 0x3FF 0xC0000000 0x20 0x0 0x0 0x0 0x0 0x0 0x10 0x0 0x0 0x0 0x0 0x8003 0x8000 0x8000 0xFFFFFFFF 0xFFFFFFFF 0xFFFFFFFF 0xFFFFFFFF 0x0 0x0 0x0 0x7 0x1 0x0 0x0 0x0 0x0 0x0 0x0 0x0 0x8063 0x1 0x1 0x0 0x7 0x1 0x0;
  mk_config (Some 415%nat) false 0x1 0x0 0xA 0xA 0xA 0x2 0x3FF00000 0xFFC00 0x3FF 0xC0000000 0x20 0x0 0x10 0x10 0x10 0x10 0x10 0x0 0x0 0x0 0x0 0x8003 0x8001 0x8000 0xFFFFFFFF 0xFFFFFFFF 0xFFFFFFFF 0xFFFFFFFF 0x0 0x0 0x0 0x7 0x1 0x0 0x0 0x0 0x0 0x0 0x0 0x0 0x8063 0x1 0x1 0x0 0x7 0x1 0x0;
  mk_config (Some 416%nat) false 0x1 0x0 0xA 0xA 0xA 0x2 0x3FF00000 0xFFC00 0x3FF 0xC0000000 0x20 0x0 0x0 0x0 0x0 0x0 0x10 0x0 0x0 0x0 0x0 0x8003 0x8000 0x8000 0xFFFFFFFF 0xFFFFFFFF 0xFFFFFFFF 0xFFFFFFFF 0x0 0x0 0x0 0x7 0x1 0x0 0x0 0x0 0x0 0x0 0x0 0x0 0x8062 0x1 0x1 0x0 0x7 0x1 0x0;
  mk_config (Some 417%nat) false 0x1 0x0 0xA 0xA 0xA 0x2 0x3FF00000 0xFFC00 0x3FF 0xC0000000 0x20 0x0 0x10 0x10 0x10 0x10 0x10 0x0 0x0 0x0 0x0 0x8003 0x8001 0x8000 0xFFFFFFFF 0xFFFFFFFF 0xFFFFFFFF 0xFFFFFFFF 0x0 0x0 0x0 0x7 0x1 0x0 0x0 0x0 0x0 0x0 0x0 0x0 0x8062 0x1 0x1 0x0 0x7 0x1 0x0;
  mk_config (Some 418%nat) false 0x0 0x0 0xA 0xA 0xA 0x2 0x3FF00000 0xFFC00 0x3FF 0xC0000000 0x20 0x0 0x0 0x0 0x0 0x0 0x18 0x0 0x0 0x0 0x0 0x8003 0x8000 0x8000 0xFFFFFFFF 0xFFFFFFFF 0xFFFFFFFF 0xFFFFFFFF 0x0 0x0 0x0 0x7 0x1 0x0 0x0 0x0 0x0 0x0 0x0 0x0 0x8063 0x1 0x1 0x0 0x7 0x1 0x0;
  mk_config (Some 419%nat) false 0x0 0x0 0xA 0xA 0xA 0x2 0x3FF00000 0xFFC00 0x3FF 0xC0000000 0x20 0x0 0x10 0x10 0x10 0x10 0x18 0x0 0x0 0x0 0x0 0x8003 0x8001 0x8000 0xFFFFFFFF 0xFFFFFFFF 0xFFFFFFFF 0xFFFFFFFF 0x0 0x0 0x0 0x7 0x1 0x0 0x0 0x0 0x0 0x0 0x0 0x0 0x8063 0x1 0x1 0x0 0x7 0x1 0x0;
  mk_config (Some 420%nat) false 0x1 0x0 0xA 0xA 0xA 0x2 0x3FF00000 0xFFC00 0x3FF 0xC0000000 0x20 0x0 0x0 0x0 0x0 0x0 0x18 0x0 0x0 0x0 0x0 0x8003 0x8000 0x8000 0xFFFFFFFF 0xFFFFFFFF 0xFFFFFFFF 0xFFFFFFFF 0x0 0x0 0x0 0x7 0x1 0x0 0x0 0x0 0x0 0x0 0x0 0x0 0x8063 0x1 0x1 0x0 0x7 0x1 0x0;
  mk_config (Some 421%nat) false 0x1 0x0 0xA 0xA 0xA 0x2 0x3FF00000 0xFFC00 0x3FF 0xC0000000 0x20 0x0 0x10 0x10 0x10 0x10 0x18 0x0 0x0 0x0 0x0 0x8003 0x8001 0x8000 0xFFFFFFFF 0xFFFFFFFF 0xFFFFFFFF 0xFFFFFFFF 0x0 0x0 0x0 0x7 0x1 0x0 0x0 0x0 0x0 0x0 0x0 0x0 0x8063 0x1 0x1 0x0 0x7 0x1 0x0;
  mk_config (Some 422%nat) false 0x1 0x0 0xA 0xA 0xA 0x2 0x3FF00000 0xFFC00 0x3FF 0xC0000000 0x20 0x0 0x0 0x0 0x0 0x0 0x18 0x0 0x0 0x0 0x0 0x8003 0x8000 0x8000 0xFFFFFFFF 0xFFFFFFFF 0xFFFFFFFF 0xFFFFFFFF 0x0 0x0 0x0 0x7 0x1 0x0 0x0 0x0 0x0 0x0 0x0 0x0 0x8062 0x1 0x1 0x0 0x7 0x1 0x0;
  mk_config (Some 423%nat) false 0x1 0x0 0xA 0xA 0xA 0x2 0x3FF00000 0xFFC00 0x3FF 0xC0000000 0x20 0x0 0x10 0x10 0x10 0x10 0x18 0x0 0x0 0x0 0x0 0x8003 0x8001 0x8000 0xFFFFFFFF 0xFFFFFFFF 0xFFFFFFFF 0xFFFFFFFF 0x0 0x0 0x0 0x7 0x1 0x0 0x0 0x0 0x0 0x0 0x0 0x0 0x8062 0x1 0x1 0x0 0x7 0x1 0x0;
  mk_config (Some 424%nat) false 0x0 0x0 0xA 0xA 0xA 0x2 0x3FF00000 0xFFC00 0x3FF 0xC0000000 0x20 0x0 0x0 0x0 0x0 0x0 0x18 0x8 0x0 0x0 0x0 0x8003 0x8000 0x8000 0xFFFFFFFF 0xFFFFFFFF 0xFFFFFFFF 0xFFFFFFFF 0x0 0x0 0x0 0x7 0x1 0x0 0x0 0x0 0x0 0x0 0x0 0x0 0x8063 0x1 0x1 0x0 0x7 0x1 0x0;
  mk_config (Some 425%nat) false 0x0 0x0 0xA 0xA 0xA 0x2 0x3FF00000 0xFFC00 0x3FF 0xC0000000 0x20 0x0 0x10 0x10 0x10 0x10 0x18 0x8 0x0 0x0 0x0 0x8003 0x8001 0x8000 0xFFFFFFFF 0xFFFFFFFF 0xFFFFFFFF 0xFFFFFFFF 0x0 0x0 0x0 0x7 0x1 0x0 0x0 0x0 0x0 0x0 0x0 0x0 0x8063 0x1 0x1 0x0 0x7 0x1 0x0;
  mk_config (Some 426%nat) false 0x1 0x0 0xA 0xA 0xA 0x2 0x3FF00000 0xFFC00 0x3FF 0xC0000000 0x20 0x0 0x0 0x0 0x0 0x0 0x18 0x8 0x0 0x0 0x0 0x8003 0x8000 0x8000 0xFFFFFFFF 0xFFFFFFFF 0xFFFFFFFF 0xFFFFFFFF 0x0 0x0 0x0 0x7 0x1 0x0 0x0 0x0 0x0 0x0 0x0 0x0 0x8063 0x1 0x1 0x0 0x7 0x1 0x0;
  mk_config (Some 427%nat) false 0x1 0x0 0xA 0xA 0xA 0x2 0x3FF00000 0xFFC00 0x3FF 0xC0000000 0x20 0x0 0x10 0x10 0x10 0x10 0x18 0x8 0x0 0x0 0x0 0x8003 0x8001 0x8000 0xFFFFFFFF 0xFFFFFFFF 0xFFFFFFFF 0xFFFFFFFF 0x0 0x0 0x0 0x7 0x1 0x0 0x0 0x0 0x0 0x0 0x0 0x0 0x8063 0x1 0x1 0x0 0x7 0x1 0x0;
  mk_config (Some 428%nat) false 0x1 0x0 0xA 0xA 0xA 0x2 0x3FF00000 0xFFC00 0x3FF 0xC0000000 0x20 0x0 0x0 0x0 0x0 0x0 0x18 0x8 0x0 0x0 0x0 0x8003 0x8000 0x8000 0xFFFFFFFF 0xFFFFFFFF 0xFFFFFFFF 0xFFFFFFFF 0x0 0x0 0x0 0x7 0x1 0x0 0x0 0x0 0x0 0x0 0x0 0x0 0x8062 0x1 0x1 0x0 0x7 0x1 0x0;
  mk_config (Some 429%nat) false 0x1 0x0 0xA 0xA 0xA 0x2 0x3FF00000 0xFFC00 0x3FF 0xC0000000 0x20 0x0 0x10 0x10 0x10 0x10 0x18 0x8 0x0 0x0 0x0 0x8003 0x8001 0x8000 0xFFFFFFFF 0xFFFFFFFF 0xFFFFFFFF 0xFFFFFFFF 0x0 0x0 0x0 0x7 0x1 0x0 0x0 0x0 0x0 0x0 0x0 0x0 0x8062 0x1 0x1 0x0 0x7 0x1 0x0;
  mk_config (Some 430%nat) false 0x0 0x0 0xA 0xA 0xA 0x2 0x3FF00000 0xFFC00 0x3FF 0xC0000000 0x20 0x0 0x0 0x0 0x0 0x0 0x20 0x0 0x0 0x0 0x0 0x8003 0x8000 0x8000 0xFFFFFFFF 0xFFFFFFFF 0xFFFFFFFF 0xFFFFFFFF 0x0 0x0 0x0 0x7 0x1 0x0 0x0 0x0 0x0 0x0 0x0 0x0 0x8063 0x1 0x1 0x0 0x7 0x1 0x0;
  mk_config (Some 431%nat) false 0x0 0x0 0xA 0xA 0xA 0x2 0x3FF00000 0xFFC00 0x3FF 0xC0000000 0x20 0x0 0x10 0x10 0x10 0x10 0x20 0x0 0x0 0x0 0x0 0x8003 0x8001 0x8000 0xFFFFFFFF 0xFFFFFFFF 0xFFFFFFFF 0xFFFFFFFF 0x0 0x0 0x0 0x7 0x1 0x0 0x0 0x0 0x0 0x0 0x0 0x0 0x8063 0x1 0x1 0x0 0x7 0x1 0x0;
  mk_config (Some 432%nat) false 0x1 0x0 0xA 0xA 0xA 0x2 0x3FF00000 0xFFC00 0x3FF 0xC0000000 0x20 0x0 0x0 0x0 0x0 0x0 0x20 0x0 0x0 0x0 0x0 0x8003 0x8000 0x8000 0xFFFFFFFF 0xFFFFFFFF 0xFFFFFFFF 0xFFFFFFFF 0x0 0x0 0x0 0x7 0x1 0x0 0x0 0x0 0x0 0x0 0x0 0x0 0x8063 0x1 0x1 0x0 0x7 0x1 0x0;
  mk_config (Some 433%nat) false 0x1 0x0 0xA 0xA 0xA 0x2 0x3FF00000 0xFFC00 0x3FF 0xC0000000 0x20 0x0 0x10 0x10 0x10 0x10 0x20 0x0 0x0 0x0 0x0 0x8003 0x8001 0x8000 0xFFFFFFFF 0xFFFFFFFF 0xFFFFFFFF 0xFFFFFFFF 0x0 0x0 0x0 0x7 0x1 0x0 0x0 0x0 0x0 0x0 0x0 0x0 0x8063 0x1 0x1 0x0 0x7 0x1 0x0;
  mk_config (Some 434%nat) false 0x1 0x0 0xA 0xA 0xA 0x2 0x3FF00000 0xFFC00 0x3FF 0xC0000000 0x20 0x0 0x0 0x0 0x0 0x0 0x20 0x0 0x0 0x0 0x0 0x8003 0x8000 0x8000 0xFFFFFFFF 0xFFFFFFFF 0xFFFFFFFF 0xFFFFFFFF 0x0 0x0 0x0 0x7 0x1 0x0 0x0 0x0 0x0 0x0 0x0 0x0 0x8062 0x1 0x1 0x0 0x7 0x1 0x0;
  mk_config (Some 435%nat) false 0x1 0x0 0xA 0xA 0xA 0x2 0x3FF00000 0xFFC00 0x3FF 0xC0000000 0x20 0x0 0x10 0x10 0x10 0x10 0x20 0x0 0x0 0x0 0x0 0x8003 0x8001 0x8000 0xFFFFFFFF 0xFFFFFFFF 0xFFFFFFFF 0xFFFFFFFF 0x0 0x0 0x0 0x7 0x1 0x0 0x0 0x0 0x0 0x0 0x0 0x0 0x8062 0x1 0x1 0x0 0x7 0x1 0x0;
  mk_config (Some 436%nat) false 0x0 0x0 0xA 0xA 0xA 0x2 0x3FF00000 0xFFC00 0x3FF 0xC0000000 0x20 0x0 0x0 0x0 0x0 0x0 0x0 0x0 0x0 0x0 0x0 0x8003 0x8000 0x8000 0xFFFFFFFF 0xFFFFFFFF 0xFFFFFFFF 0xFFFFFFFF 0x0 0x1 0x4 0x7 0x1 0x0 0x0 0x0 0x0 0x0 0x0 0x0 0x8063 0x1 0x1 0x0 0x7 0x1 0x0;
  mk_config (Some 437%nat) false 0x1 0x0 0xA 0xA 0xA 0x2 0x3FF00000 0xFFC00 0x3FF 0xC0000000 0x20 0x0 0x0 0x0 0x0 0x0 0x0 0x0 0x0 0x0 0x0 0x8003 0x8000 0x8000 0xFFFFFFFF 0xFFFFFFFF 0xFFFFFFFF 0xFFFFFFFF 0x0 0x1 0x4 0x7 0x1 0x0 0x0 0x0 0x0 0x0 0x0 0x0 0x8063 0x1 0x1 0x0 0x7 0x1 0x0;
  mk_config (Some 438%nat) false 0x1 0x0 0xA 0xA 0xA 0x2 0x3FF00000 0xFFC00 0x3FF 0xC0000000 0x20 0x0 0x0 0x0 0x0 0x0 0x0 0x0 0x0 0x0 0x0 0x8003 0x8000 0x8000 0xFFFFFFFF 0xFFFFFFFF 0xFFFFFFFF 0xFFFFFFFF 0x0 0x1 0x4 0x7 0x1 0x0 0x0 0x0 0x0 0x0 0x0 0x0 0x8062 0x1 0x1 0x0 0x7 0x1 0x0;
  mk_config (Some 439%nat) false 0x0 0x0 0xA 0xA 0xA 0x2 0x3FF00000 0xFFC00 0x3FF 0xC0000000 0x20 0x0 0x0 0x0 0x0 0x0 0x10 0x0 0x0 0x0 0x0 0x8003 0x8000 0x8000 0xFFFFFFFF 0xFFFFFFFF 0xFFFFFFFF 0xFFFFFFFF 0x0 0x1 0x4 0x7 0x1 0x0 0x0 0x0 0x0 0x0 0x0 0x0 0x8063 0x1 0x1 0x0 0x7 0x1 0x0;
  mk_config (Some 440%nat) false 0x1 0x0 0xA 0xA 0xA 0x2 0x3FF00000 0xFFC00 0x3FF 0xC0000000 0x20 0x0 0x0 0x0 0x0 0x0 0x10 0x0 0x0 0x0 0x0 0x8003 0x8000 0x8000 0xFFFFFFFF 0xFFFFFFFF 0xFFFFFFFF 0xFFFFFFFF 0x0 0x1 0x4 0x7 0x1 0x0 0x0 0x0 0x0 0x0 0x0 0x0 0x8063 0x1 0x1 0x0 0x7 0x1 0x0;
  mk_config (Some 441%nat) false 0x1 0x0 0xA 0xA 0xA 0x2 0x3FF00000 0xFFC00 0x3FF 0xC0000000 0x20 0x0 0x0 0x0 0x0 0x0 0x10 0x0 0x0 0x0 0x0 0x8003 0x8000 0x8000 0xFFFFFFFF 0xFFFFFFFF 0xFFFFFFFF 0xFFFFFFFF 0x0 0x1 0x4 0x7 0x1 0x0 0x0 0x0 0x0 0x0 0x0 0x0 0x8062 0x1 0x1 0x0 0x7 0x1 0x0;
  mk_config (Some 442%nat) false 0x0 0x0 0xA 0xA 0xA 0x2 0x3FF00000 0xFFC00 0x3FF 0xC0000000 0x20 0x0 0x0 0x0 0x0 0x0 0x18 0x0 0x0 0x0 0x0 0x8003 0x8000 0x8000 0xFFFFFFFF 0xFFFFFFFF 0xFFFFFFFF 0xFFFFFFFF 0x0 0x1 0x4 0x7 0x1 0x0 0x0 0x0 0x0 0x0 0x0 0x0 0x8063 0x1 0x1 0x0 0x7 0x1 0x0;
  mk_config (Some 443%nat) false 0x1 0x0 0xA 0xA 0xA 0x2 0x3FF00000 0xFFC00 0x3FF 0xC0000000 0x20 0x0 0x0 0x0 0x0 0x0 0x18 0x0 0x0 0x0 0x0 0x8003 0x8000 0x8000 0xFFFFFFFF 0xFFFFFFFF 0xFFFFFFFF 0xFFFFFFFF 0x0 0x1 0x4 0x7 0x1 0x0 0x0 0x0 0x0 0x0 0x0 0x0 0x8063 0x1 0x1 0x0 0x7 0x1 0x0;
  mk_config (Some 444%nat) false 0x1 0x0 0xA 0xA 0xA 0x2 0x3FF00000 0xFFC00 0x3FF 0xC0000000 0x20 0x0 0x0 0x0 0x0 0x0 0x18 0x0 0x0 0x0 0x0 0x8003 0x8000 0x8000 0xFFFFFFFF 0xFFFFFFFF 0xFFFFFFFF 0xFFFFFFFF 0x0 0x1 0x4 0x7 0x1 0x0 0x0 0x0 0x0 0x0 0x0 0x0 0x8062 0x1 0x1 0x0 0x7 0x1 0x0;
  mk_config (Some 445%nat) false 0x0 0x0 0xA 0xA 0xA 0x2 0x3FF00000 0xFFC00 0x3FF 0xC0000000 0x20 0x0 0x0 0x0 0x0 0x0 0x18 0x8 0x0 0x0 0x0 0x8003 0x8000 0x8000 0xFFFFFFFF 0xFFFFFFFF 0xFFFFFFFF 0xFFFFFFFF 0x0 0x1 0x4 0x7 0x1 0x0 0x0 0x0 0x0 0x0 0x0 0x0 0x8063 0x1 0x1 0x0 0x7 0x1 0x0;
  mk_config (Some 446%nat) false 0x1 0x0 0xA 0xA 0xA 0x2 0x3FF00000 0xFFC00 0x3FF 0xC0000000 0x20 0x0 0x0 0x0 0x0 0x0 0x18 0x8 0x0 0x0 0x0 0x8003 0x8000 0x8000 0xFFFFFFFF 0xFFFFFFFF 0xFFFFFFFF 0xFFFFFFFF 0x0 0x1 0x4 0x7 0x1 0x0 0x0 0x0 0x0 0x0 0x0 0x0 0x8063 0x1 0x1 0x0 0x7 0x1 0x0;
  mk_config (Some 447%nat) false 0x1 0x0 0xA 0xA 0xA 0x2 0x3FF00000 0xFFC00 0x3FF 0xC0000000 0x20 0x0 0x0 0x0 0x0 0x0 0x18 0x8 0x0 0x0 0x0 0x8003 0x8000 0x8000 0xFFFFFFFF 0xFFFFFFFF 0xFFFFFFFF 0xFFFFFFFF 0x0 0x1 0x4 0x7 0x1 0x0 0x0 0x0 0x0 0x0 0x0 0x0 0x8062 0x1 0x1 0x0 0x7 0x1 0x0;
  mk_config (Some 448%nat) false 0x0 0x0 0xA 0xA 0xA 0x2 0x3FF00000 0xFFC00 0x3FF 0xC0000000 0x20 0x0 0x0 0x0 0x0 0x0 0x20 0x0 0x0 0x0 0x0 0x8003 0x8000 0x8000 0xFFFFFFFF 0xFFFFFFFF 0xFFFFFFFF 0xFFFFFFFF 0x0 0x1 0x4 0x7 0x1 0x0 0x0 0x0 0x0 0x0 0x0 0x0 0x8063 0x1 0x1 0x0 0x7 0x1 0x0;
  mk_config (Some 449%nat) false 0x1 0x0 0xA 0xA 0xA 0x2 0x3FF00000 0xFFC00 0x3FF 0xC0000000 0x20 0x0 0x0 0x0 0x0 0x0 0x20 0x0 0x0 0x0 0x0 0x8003 0x8000 0x8000 0xFFFFFFFF 0xFFFFFFFF 0xFFFFFFFF 0xFFFFFFFF 0x0 0x1 0x4 0x7 0x1 0x0 0x0 0x0 0x0 0x0 0x0 0x0 0x8063 0x1 0x1 0x0 0x7 0x1 0x0;
  mk_config (Some 450%nat) false 0x1 0x0 0xA 0xA 0xA 0x2 0x3FF00000 0xFFC00 0x3FF 0xC0000000 0x20 0x0 0x0 0x0 0x0 0x0 0x20 0x0 0x0 0x0 0x0 0x8003 0x8000 0x8000 0xFFFFFFFF 0xFFFFFFFF 0xFFFFFFFF 0xFFFFFFFF 0x0 0x1 0x4 0x7 0x1 0x0 0x0 0x0 0x0 0x0 0x0 0x0 0x8062 0x1 0x1 0x0 0x7 0x1 0x0;
  mk_config (Some 451%nat) false 0x0 0x0 0xA 0xA 0xA 0x0 0x3FF00000 0xFFC00 0x3FF 0x0 0x1E 0x0 0x0 0x0 0x0 0x0 0x0 0x0 0x0 0x0 0x0 0x8003 0x8000 0x8000 0xFFFFFFFF 0xFFFFFFFF 0xFFFFFFFF 0xFFFFFFFF 0x0 0x0 0x0 0x1 0x1 0x0 0x0 0x0 0x0 0x0 0x0 0x0 0x8063 0x1 0x1 0x0 0x7 0x1 0x0;
  mk_config (Some 452%nat) false 0x0 0x0 0xA 0xA 0xA 0x0 0x3FF00000 0xFFC00 0x3FF 0x0 0x1E 0x0 0x10 0x10 0x10 0x10 0x0 0x0 0x0 0x0 0x0 0x8003 0x8001 0x8000 0xFFFFFFFF 0xFFFFFFFF 0xFFFFFFFF 0xFFFFFFFF 0x0 0x0 0x0 0x1 0x1 0x0 0x0 0x0 0x0 0x0 0x0 0x0 0x8063 0x1 0x1 0x0 0x7 0x1 0x0;
  mk_config (Some 453%nat) false 0x1 0x0 0xA 0xA 0xA 0x0 0x3FF00000 0xFFC00 0x3FF 0x0 0x1E 0x0 0x0 0x0 0x0 0x0 0x0 0x0 0x0 0x0 0x0 0x8003 0x8000 0x8000 0xFFFFFFFF 0xFFFFFFFF 0xFFFFFFFF 0xFFFFFFFF 0x0 0x0 0x0 0x1 0x1 0x0 0x0 0x0 0x0 0x0 0x0 0x0 0x8063 0x1 0x1 0x0 0x7 0x1 0x0;
  mk_config (Some 454%nat) false 0x1 0x0 0xA 0xA 0xA 0x0 0x3FF00000 0xFFC00 0x3FF 0x0 0x1E 0x0 0x10 0x10 0x10 0x10 0x0 0x0 0x0 0x0 0x0 0x8003 0x8001 0x8000 0xFFFFFFFF 0xFFFFFFFF 0xFFFFFFFF 0xFFFFFFFF 0x0 0x0 0x0 0x1 0x1 0x0 0x0 0x0 0x0 0x0 0x0 0x0 0x8063 0x1 0x1 0x0 0x7 0x1 0x0;
  mk_config (Some 455%nat) false 0x1 0x0 0xA 0xA 0xA 0x0 0x3FF00000 0xFFC00 0x3FF 0x0 0x1E 0x0 0x0 0x0 0x0 0x0 0x0 0x0 0x0 0x0 0x0 0x8003 0x8000 0x8000 0xFFFFFFFF 0xFFFFFFFF 0xFFFFFFFF 0xFFFFFFFF 0x0 0x0 0x0 0x1 0x1 0x0 0x0 0x0 0x0 0x0 0x0 0x0 0x8062 0x1 0x1 0x0 0x7 0x1 0x0;
  mk_config (Some 456%nat) false 0x1 0x0 0xA 0xA 0xA 0x0 0x3FF00000 0xFFC00 0x3FF 0x0 0x1E 0x0 0x10 0x10 0x10 0x10 0x0 0x0 0x0 0x0 0x0 0x8003 0x8001 0x8000 0xFFFFFFFF 0xFFFFFFFF 0xFFFFFFFF 0xFFFFFFFF 0x0 0x0 0x0 0x1 0x1 0x0 0x0 0x0 0x0 0x0 0x0 0x0 0x8062 0x1 0x1 0x0 0x7 0x1 0x0;
  mk_config (Some 457%nat) false 0x0 0x0 0xA 0xA 0xA 0x0 0x3FF00000 0xFFC00 0x3FF 0x0 0x1E 0x0 0x0 0x0 0x0 0x0 0x10 0x0 0x0 0x0 0x0 0x8003 0x8000 0x8000 0xFFFFFFFF 0xFFFFFFFF 0xFFFFFFFF 0xFFFFFFFF 0x0 0x0 0x0 0x1 0x1 0x0 0x0 0x0 0x0 0x0 0x0 0x0 0x8063 0x1 0x1 0x0 0x7 0x1 0x0;
  mk_config (Some 458%nat) false 0x0 0x0 0xA 0xA 0xA 0x0 0x3FF00000 0xFFC00 0x3FF 0x0 0x1E 0x0 0x10 0x10 0x10 0x10 0x10 0x0 0x0 0x0 0x0 0x8003 0x8001 0x8000 0xFFFFFFFF 0xFFFFFFFF 0xFFFFFFFF 0xFFFFFFFF 0x0 0x0 0x0 0x1 0x1 0x0 0x0 0x0 0x0 0x0 0x0 0x0 0x8063 0x1 0x1 0x0 0x7 0x1 0x0;
  mk_config (Some 459%nat) false 0x1 0x0 0xA 0xA 0xA 0x0 0x3FF00000 0xFFC00 0x3FF 0x0 0x1E 0x0 0x0 0x0 0x0 0x0 0x10 0x0 0x0 0x0 0x0 0x8003 0x8000 0x8000 0xFFFFFFFF 0xFFFFFFFF 0xFFFFFFFF 0xFFFFFFFF 0x0 0x0 0x0 0x1 0x1 0x0 0x0 0x0 0x0 0x0 0x0 0x0 0x8063 0x1 0x1 0x0 0x7 0x1 0x0;
  mk_config (Some 460%nat) false 0x1 0x0 0xA 0xA 0xA 0x0 0x3FF00000 0xFFC00 0x3FF 0x0 0x1E 0x0 0x10 0x10 0x10 0x10 0x10 0x0 0x0 0x0 0x0 0x8003 0x8001 0x8000 0xFFFFFFFF 0xFFFFFFFF 0xFFFFFFFF 0xFFFFFFFF 0x0 0x0 0x0 0x1 0x1 0x0 0x0 0x0 0x0 0x0 0x0 0x0 0x8063 0x1 0x1 0x0 0x7 0x1 0x0;
  mk_config (Some 461%nat) false 0x1 0x0 0xA 0xA 0xA 0x0 0x3FF00000 0xFFC00 0x3FF 0x0 0x1E 0x0 0x0 0x0 0x0 0x0 0x10 0x0 0x0 0x0 0x0 0x8003 0x8000 0x8000 0xFFFFFFFF 0xFFFFFFFF 0xFFFFFFFF 0xFFFFFFFF 0x0 0x0 0x0 0x1 0x1 0x0 0x0 0x0 0x0 0x0 0x0 0x0 0x8062 0x1 0x1 0x0 0x7 0x1 0x0;
  mk_config (Some 462%nat) false 0x1 0x0 0xA 0xA 0xA 0x0 0x3FF00000 0xFFC00 0x3FF 0x0 0x1E 0x0 0x10 0x10 0x10 0x10 0x10 0x0 0x0 0x0 0x0 0x8003 0x8001 0x8000 0xFFFFFFFF 0xFFFFFFFF 0xFFFFFFFF 0xFFFFFFFF 0x0 0x0 0x0 0x1 0x1 0x0 0x0 0x0 0x0 0x0 0x0 0x0 0x8062 0x1 0x1 0x0 0x7 0x1 0x0;
  mk_config (Some 463%nat) false 0x0 0x0 0xA 0xA 0xA 0x0 0x3FF00000 0xFFC00 0x3FF 0x0 0x1E 0x0 0x0 0x0 0x0 0x0 0x18 0x0 0x0 0x0 0x0 0x8003 0x8000 0x8000 0xFFFFFFFF 0xFFFFFFFF 0xFFFFFFFF 0xFFFFFFFF 0x0 0x0 0x0 0x1 0x1 0x0 0x0 0x0 0x0 0x0 0x0 0x0 0x8063 0x1 0x1 0x0 0x7 0x1 0x0;
  mk_config (Some 464%nat) false 0x0 0x0 0xA 0xA 0xA 0x0 0x3FF00000 0xFFC00 0x3FF 0x0 0x1E 0x0 0x10 0x10 0x10 0x10 0x18 0x0 0x0 0x0 0x0 0x8003 0x8001 0x8000 0xFFFFFFFF 0xFFFFFFFF 0xFFFFFFFF 0xFFFFFFFF 0x0 0x0 0x0 0x1 0x1 0x0 0x0 0x0 0x0 0x0 0x0 0x0 0x8063 0x1 0x1 0x0 0x7 0x1 0x0;
  mk_config (Some 465%nat) false 0x1 0x0 0xA 0xA 0xA 0x0 0x3FF00000 0xFFC00 0x3FF 0x0 0x1E 0x0 0x0 0x0 0x0 0x0 0x18 0x0 0x0 0x0 0x0 0x8003 0x8000 0x8000 0xFFFFFFFF 0xFFFFFFFF 0xFFFFFFFF 0xFFFFFFFF 0x0 0x0 0x0 0x1 0x1 0x0 0x0 0x0 0x0 0x0 0x0 0x0 0x8063 0x1 0x1 0x0 0x7 0x1 0x0;
  mk_config (Some 466%nat) false 0x1 0x0 0xA 0xA 0xA 0x0 0x3FF00000 0xFFC00 0x3FF 0x0 0x1E 0x0 0x10 0x10 0x10 0x10 0x18 0x0 0x0 0x0 0x0 0x8003 0x8001 0x8000 0xFFFFFFFF 0xFFFFFFFF 0xFFFFFFFF 0xFFFFFFFF 0x0 0x0 0x0 0x1 0x1 0x0 0x0 0x0 0x0 0x0 0x0 0x0 0x8063 0x1 0x1 0x0 0x7 0x1 0x0;
  mk_config (Some 467%nat) false 0x1 0x0 0xA 0xA 0xA 0x0 0x3FF00000 0xFFC00 0x3FF 0x0 0x1E 0x0 0x0 0x0 0x0 0x0 0x18 0x0 0x0 0x0 0x0 0x8003 0x8000 0x8000 0xFFFFFFFF 0xFFFFFFFF 0xFFFFFFFF 0xFFFFFFFF 0x0 0x0 0x0 0x1 0x1 0x0 0x0 0x0 0x0 0x0 0x0 0x0 0x8062 0x1 0x1 0x0 0x7 0x1 0x0;
  mk_config (Some 468%nat) false 0x1 0x0 0xA 0xA 0xA 0x0 0x3FF00000 0xFFC00 0x3FF 0x0 0x1E 0x0 0x10 0x10 0x10 0x10 0x18 0x0 0x0 0x0 0x0 0x8003 0x8001 0x8000 0xFFFFFFFF 0xFFFFFFFF 0xFFFFFFFF 0xFFFFFFFF 0x0 0x0 0x0 0x1 0x1 0x0 0x0 0x0 0x0 0x0 0x0 0x0 0x8062 0x1 0x1 0x0 0x7 0x1 0x0;
  mk_config (Some 469%nat) false 0x0 0x0 0xA 0xA 0xA 0x0 0x3FF00000 0xFFC00 0x3FF 0x0 0x1E 0x0 0x0 0x0 0x0 0x0 0x18 0x8 0x0 0x0 0x0 0x8003 0x8000 0x8000 0xFFFFFFFF 0xFFFFFFFF 0xFFFFFFFF 0xFFFFFFFF 0x0 0x0 0x0 0x1 0x1 0x0 0x0 0x0 0x0 0x0 0x0 0x0 0x8063 0x1 0x1 0x0 0x7 0x1 0x0;
  mk_config (Some 470%nat) false 0x0 0x0 0xA 0xA 0xA 0x0 0x3FF00000 0xFFC00 0x3FF 0x0 0x1E 0x0 0x10 0x10 0x10 0x10 0x18 0x8 0x0 0x0 0x0 0x8003 0x8001 0x8000 0xFFFFFFFF 0xFFFFFFFF 0xFFFFFFFF 0xFFFFFFFF 0x0 0x0 0x0 0x1 0x1 0x0 0x0 0x0 0x0 0x0 0x0 0x0 0x8063 0x1 0x1 0x0 0x7 0x1 0x0;
  mk_config (Some 471%nat) false 0x1 0x0 0xA 0xA 0xA 0x0 0x3FF00000 0xFFC00 0x3FF 0x0 0x1E 0x0 0x0 0x0 0x0 0x0 0x18 0x8 0x0 0x0 0x0 0x8003 0x8000 0x8000 0xFFFFFFFF 0xFFFFFFFF 0xFFFFFFFF 0xFFFFFFFF 0x0 0x0 0x0 0x1 0x1 0x0 0x0 0x0 0x0 0x0 0x0 0x0 0x8063 0x1 0x1 0x0 0x7 0x1 0x0;
  mk_config (Some 472%nat) false 0x1 0x0 0xA 0xA 0xA 0x0 0x3FF00000 0xFFC00 0x3FF 0x0 0x1E 0x0 0x10 0x10 0x10 0x10 0x18 0x8 0x0 0x0 0x0 0x8003 0x8001 0x8000 0xFFFFFFFF 0xFFFFFFFF 0xFFFFFFFF 0xFFFFFFFF 0x0 0x0 0x0 0x1 0x1 0x0 0x0 0x0 0x0 0x0 0x0 0x0 0x8063 0x1 0x1 0x0 0x7 0x1 0x0;
  mk_config (Some 473%nat) false 0x1 0x0 0xA 0xA 0xA 0x0 0x3FF00000 0xFFC00 0x3FF 0x0 0x1E 0x0 0x0 0x0 0x0 0x0 0x18 0x8 0x0 0x0 0x0 0x8003 0x8000 0x8000 0xFFFFFFFF 0xFFFFFFFF 0xFFFFFFFF 0xFFFFFFFF 0x0 0x0 0x0 0x1 0x1 0x0 0x0 0x0 0x0 0x0 0x0 0x0 0x8062 0x1 0x1 0x0 0x7 0x1 0x0;
  mk_config (Some 474%nat) false 0x1 0x0 0xA 0xA 0xA 0x0 0x3FF00000 0xFFC00 0x3FF 0x0 0x1E 0x0 0x10 0x10 0x10 0x10 0x18 0x8 0x0 0x0 0x0 0x8003 0x8001 0x8000 0xFFFFFFFF 0xFFFFFFFF 0xFFFFFFFF 0xFFFFFFFF 0x0 0x0 0x0 0x1 0x1 0x0 0x0 0x0 0x0 0x0 0x0 0x0 0x8062 0x1 0x1 0x0 0x7 0x1 0x0;
  mk_config (Some 475%nat) false 0x0 0x0 0xA 0xA 0xA 0x0 0x3FF00000 0xFFC00 0x3FF 0x0 0x1E 0x0 0x0 0x0 0x0 0x0 0x20 0x0 0x0 0x0 0x0 0x8003 0x8000 0x8000 0xFFFFFFFF 0xFFFFFFFF 0xFFFFFFFF 0xFFFFFFFF 0x0 0x0 0x0 0x1 0x1 0x0 0x0 0x0 0x0 0x0 0x0 0x0 0x8063 0x1 0x1 0x0 0x7 0x1 0x0;
  mk_config (Some 476%nat) false 0x0 0x0 0xA 0xA 0xA 0x0 0x3FF00000 0xFFC00 0x3FF 0x0 0x1E 0x0 0x10 0x10 0x10 0x10 0x20 0x0 0x0 0x0 0x0 0x8003 0x8001 0x8000 0xFFFFFFFF 0xFFFFFFFF 0xFFFFFFFF 0xFFFFFFFF 0x0 0x0 0x0 0x1 0x1 0x0 0x0 0x0 0x0 0x0 0x0 0x0 0x8063 0x1 0x1 0x0 0x7 0x1 0x0;
  mk_config (Some 477%nat) false 0x1 0x0 0xA 0xA 0xA 0x0 0x3FF00000 0xFFC00 0x3FF 0x0 0x1E 0x0 0x0 0x0 0x0 0x0 0x20 0x0 0x0 0x0 0x0 0x8003 0x8000 0x8000 0xFFFFFFFF 0xFFFFFFFF 0xFFFFFFFF 0xFFFFFFFF 0x0 0x0 0x0 0x1 0x1 0x0 0x0 0x0 0x0 0x0 0x0 0x0 0x8063 0x1 0x1 0x0 0x7 0x1 0x0;
  mk_config (Some 478%nat) false 0x1 0x0 0xA 0xA 0xA 0x0 0x3FF00000 0xFFC00 0x3FF 0x0 0x1E 0x0 0x10 0x10 0x10 0x10 0x20 0x0 0x0 0x0 0x0 0x8003 0x8001 0x8000 0xFFFFFFFF 0xFFFFFFFF 0xFFFFFFFF 0xFFFFFFFF 0x0 0x0 0x0 0x1 0x1 0x0 0x0 0x0 0x0 0x0 0x0 0x0 0x8063 0x1 0x1 0x0 0x7 0x1 0x0;
  mk_config (Some 479%nat) false 0x1 0x0 0xA 0xA 0xA 0x0 0x3FF00000 0xFFC00 0x3FF 0x0 0x1E 0x0 0x0 0x0 0x0 0x0 0x20 0x0 0x0 0x0 0x0 0x8003 0x8000 0x8000 0xFFFFFFFF 0xFFFFFFFF 0xFFFFFFFF 0xFFFFFFFF 0x0 0x0 0x0 0x1 0x1 0x0 0x0 0x0 0x0 0x0 0x0 0x0 0x8062 0x1 0x1 0x0 0x7 0x1 0x0;
  mk_config (Some 480%nat) false 0x1 0x0 0xA 0xA 0xA 0x0 0x3FF00000 0xFFC00 0x3FF 0x0 0x1E 0x0 0x10 0x10 0x10 0x10 0x20 0x0 0x0 0x0 0x0 0x8003 0x8001 0x8000 0xFFFFFFFF 0xFFFFFFFF 0xFFFFFFFF 0xFFFFFFFF 0x0 0x0 0x0 0x1 0x1 0x0 0x0 0x0 0x0 0x0 0x0 0x0 0x8062 0x1 0x1 0x0 0x7 0x1 0x0;
  mk_config (Some 481%nat) false 0x0 0x0 0xA 0xA 0xA 0x0 0x3FF00000 0xFFC00 0x3FF 0x0 0x1E 0x0 0x0 0x0 0x0 0x0 0x0 0x0 0x0 0x0 0x0 0x8003 0x8000 0x8000 0xFFFFFFFF 0xFFFFFFFF 0xFFFFFFFF 0xFFFFFFFF 0x0 0x1 0x4 0x1 0x1 0x0 0x0 0x0 0x0 0x0 0x0 0x0 0x8063 0x1 0x1 0x0 0x7 0x1 0x0;
  mk_config (Some 482%nat) false 0x1 0x0 0xA 0xA 0xA 0x0 0x3FF00000 0xFFC00 0x3FF 0x0 0x1E 0x0 0x0 0x0 0x0 0x0 0x0 0x0 0x0 0x0 0x0 0x8003 0x8000 0x8000 0xFFFFFFFF 0xFFFFFFFF 0xFFFFFFFF 0xFFFFFFFF 0x0 0x1 0x4 0x1 0x1 0x0 0x0 0x0 0x0 0x0 0x0 0x0 0x8063 0x1 0x1 0x0 0x7 0x1 0x0;
  mk_config (Some 483%nat) false 0x1 0x0 0xA 0xA 0xA 0x0 0x3FF00000 0xFFC00 0x3FF 0x0 0x1E 0x0 0x0 0x0 0x0 0x0 0x0 0x0 0x0 0x0 0x0 0x8003 0x8000 0x8000 0xFFFFFFFF 0xFFFFFFFF 0xFFFFFFFF 0xFFFFFFFF 0x0 0x1 0x4 0x1 0x1 0x0 0x0 0x0 0x0 0x0 0x0 0x0 0x8062 0x1 0x1 0x0 0x7 0x1 0x0;
  mk_config (Some 484%nat) false 0x0 0x0 0xA 0xA 0xA 0x0 0x3FF00000 0xFFC00 0x3FF 0x0 0x1E 0x0 0x0 0x0 0x0 0x0 0x10 0x0 0x0 0x0 0x0 0x8003 0x8000 0x8000 0xFFFFFFFF 0xFFFFFFFF 0xFFFFFFFF 0xFFFFFFFF 0x0 0x1 0x4 0x1 0x1 0x0 0x0 0x0 0x0 0x0 0x0 0x0 0x8063 0x1 0x1 0x0 0x7 0x1 0x0;
  mk_config (Some 485%nat) false 0x1 0x0 0xA 0xA 0xA 0x0 0x3FF00000 0xFFC00 0x3FF 0x0 0x1E 0x0 0x0 0x0 0x0 0x0 0x10 0x0 0x0 0x0 0x0 0x8003 0x8000 0x8000 0xFFFFFFFF 0xFFFFFFFF 0xFFFFFFFF 0xFFFFFFFF 0x0 0x1 0x4 0x1 0x1 0x0 0x0 0x0 0x0 0x0 0x0 0x0 0x8063 0x1 0x1 0x0 0x7 0x1 0x0;
  mk_config (Some 486%nat) false 0x1 0x0 0xA 0xA 0xA 0x0 0x3FF00000 0xFFC00 0x3FF 0x0 0x1E 0x0 0x0 0x0 0x0 0x0 0x10 0x0 0x0 0x0 0x0 0x8003 0x8000 0x8000 0xFFFFFFFF 0xFFFFFFFF 0xFFFFFFFF 0xFFFFFFFF 0x0 0x1 0x4 0x1 0x1 0x0 0x0 0x0 0x0 0x0 0x0 0x0 0x8062 0x1 0x1 0x0 0x7 0x1 0x0;
  mk_config (Some 487%nat) false 0x0 0x0 0xA 0xA 0xA 0x0 0x3FF00000 0xFFC00 0x3FF 0x0 0x1E 0x0 0x0 0x0 0x0 0x0 0x18 0x0 0x0 0x0 0x0 0x8003 0x8000 0x8000 0xFFFFFFFF 0xFFFFFFFF 0xFFFFFFFF 0xFFFFFFFF 0x0 0x1 0x4 0x1 0x1 0x0 0x0 0x0 0x0 0x0 0x0 0x0 0x8063 0x1 0x1 0x0 0x7 0x1 0x0;
  mk_config (Some 488%nat) false 0x1 0x0 0xA 0xA 0xA 0x0 0x3FF00000 0xFFC00 0x3FF 0x0 0x1E 0x0 0x0 0x0 0x0 0x0 0x18 0x0 0x0 0x0 0x0 0x8003 0x8000 0x8000 0xFFFFFFFF 0xFFFFFFFF 0xFFFFFFFF 0xFFFFFFFF 0x0 0x1 0x4 0x1 0x1 0x0 0x0 0x0 0x0 0x0 0x0 0x0 0x8063 0x1 0x1 0x0 0x7 0x1 0x0;
  mk_config (Some 489%nat) false 0x1 0x0 0xA 0xA 0xA 0x0 0x3FF00000 0xFFC00 0x3FF 0x0 0x1E 0x0 0x0 0x0 0x0 0x0 0x18 0x0 0x0 0x0 0x0 0x8003 0x8000 0x8000 0xFFFFFFFF 0xFFFFFFFF 0xFFFFFFFF 0xFFFFFFFF 0x0 0x1 0x4 0x1 0x1 0x0 0x0 0x0 0x0 0x0 0x0 0x0 0x8062 0x1 0x1 0x0 0x7 0x1 0x0;
  mk_config (Some 490%nat) false 0x0 0x0 0xA 0xA 0xA 0x0 0x3FF00000 0xFFC00 0x3FF 0x0 0x1E 0x0 0x0 0x0 0x0 0x0 0x18 0x8 0x0 0x0 0x0 0x8003 0x8000 0x8000 0xFFFFFFFF 0xFFFFFFFF 0xFFFFFFFF 0xFFFFFFFF 0x0 0x1 0x4 0x1 0x1 0x0 0x0 0x0 0x0 0x0 0x0 0x0 0x8063 0x1 0x1 0x0 0x7 0x1 0x0;
  mk_config (Some 491%nat) false 0x1 0x0 0xA 0xA 0xA 0x0 0x3FF00000 0xFFC00 0x3FF 0x0 0x1E 0x0 0x0 0x0 0x0 0x0 0x18 0x8 0x0 0x0 0x0 0x8003 0x8000 0x8000 0xFFFFFFFF 0xFFFFFFFF 0xFFFFFFFF 0xFFFFFFFF 0x0 0x1 0x4 0x1 0x1 0x0 0x0 0x0 0x0 0x0 0x0 0x0 0x8063 0x1 0x1 0x0 0x7 0x1 0x0;
  mk_config (Some 492%nat) false 0x1 0x0 0xA 0xA 0xA 0x0 0x3FF00000 0xFFC00 0x3FF 0x0 0x1E 0x0 0x0 0x0 0x0 0x0 0x18 0x8 0x0 0x0 0x0 0x8003 0x8000 0x8000 0xFFFFFFFF 0xFFFFFFFF 0xFFFFFFFF 0xFFFFFFFF 0x0 0x1 0x4 0x1 0x1 0x0 0x0 0x0 0x0 0x0 0x0 0x0 0x8062 0x1 0x1 0x0 0x7 0x1 0x0;
  mk_config (Some 493%nat) false 0x0 0x0 0xA 0xA 0xA 0x0 0x3FF00000 0xFFC00 0x3FF 0x0 0x1E 0x0 0x0 0x0 0x0 0x0 0x20 0x0 0x0 0x0 0x0 0x8003 0x8000 0x8000 0xFFFFFFFF 0xFFFFFFFF 0xFFFFFFFF 0xFFFFFFFF 0x0 0x1 0x4 0x1 0x1 0x0 0x0 0x0 0x0 0x0 0x0 0x0 0x8063 0x1 0x1 0x0 0x7 0x1 0x0;
  mk_config (Some 494%nat) false 0x1 0x0 0xA 0xA 0xA 0x0 0x3FF00000 0xFFC00 0x3FF 0x0 0x1E 0x0 0x0 0x0 0x0 0x0 0x20 0x0 0x0 0x0 0x0 0x8003 0x8000 0x8000 0xFFFFFFFF 0xFFFFFFFF 0xFFFFFFFF 0xFFFFFFFF 0x0 0x1 0x4 0x1 0x1 0x0 0x0 0x0 0x0 0x0 0x0 0x0 0x8063 0x1 0x1 0x0 0x7 0x1 0x0;
  mk_config (Some 495%nat) false 0x1 0x0 0xA 0xA 0xA 0x0 0x3FF00000 0xFFC00 0x3FF 0x0 0x1E 0x0 0x0 0x0 0x0 0x0 0x20 0x0 0x0 0x0 0x0 0x8003 0x8000 0x8000 0xFFFFFFFF 0xFFFFFFFF 0xFFFFFFFF 0xFFFFFFFF 0x0 0x1 0x4 0x1 0x1 0x0 0x0 0x0 0x0 0x0 0x0 0x0 0x8062 0x1 0x1 0x0 0x7 0x1 0x0;
  mk_config (Some 496%nat) false 0x0 0x0 0xA 0xA 0xA 0x2 0x3FF 0xFFC00 0x3FF00000 0xC0000000 0x20 0x0 0x0 0x0 0x0 0x0 0x0 0x0 0x0 0x0 0x0 0x8003 0x8000 0x8000 0xFFFFFFFF 0xFFFFFFFF 0xFFFFFFFF 0xFFFFFFFF 0x0 0x0 0x0 0x7 0x1 0x0 0x0 0x0 0x0 0x0 0x0 0x0 0x8063 0x1 0x1 0x0 0x7 0x1 0x0;
  mk_config (Some 497%nat) false 0x0 0x0 0xA 0xA 0xA 0x2 0x3FF 0xFFC00 0x3FF00000 0xC0000000 0x20 0x0 0x10 0x10 0x10 0x10 0x0 0x0 0x0 0x0 0x0 0x8003 0x8001 0x8000 0xFFFFFFFF 0xFFFFFFFF 0xFFFFFFFF 0xFFFFFFFF 0x0 0x0 0x0 0x7 0x1 0x0 0x0 0x0 0x0 0x0 0x0 0x0 0x8063 0x1 0x1 0x0 0x7 0x1 0x0;
  mk_config (Some 498%nat) false 0x1 0x0 0xA 0xA 0xA 0x2 0x3FF 0xFFC00 0x3FF00000 0xC0000000 0x20 0x0 0x0 0x0 0x0 0x0 0x0 0x0 0x0 0x0 0x0 0x8003 0x8000 0x8000 0xFFFFFFFF 0xFFFFFFFF 0xFFFFFFFF 0xFFFFFFFF 0x0 0x0 0x0 0x7 0x1 0x0 0x0 0x0 0x0 0x0 0x0 0x0 0x8063 0x1 0x1 0x0 0x7 0x1 0x0;
  mk_config (Some 499%nat) false 0x1 0x0 0xA 0xA 0xA 0x2 0x3FF 0xFFC00 0x3FF00000 0xC0000000 0x20 0x0 0x10 0x10 0x10 0x10 0x0 0x0 0x0 0x0 0x0 0x8003 0x8001 0x8000 0xFFFFFFFF 0xFFFFFFFF 0xFFFFFFFF 0xFFFFFFFF 0x0 0x0 0x0 0x7 0x1 0x0 0x0 0x0 0x0 0x0 0x0 0x0 0x8063 0x1 0x1 0x0 0x7 0x1 0x0;
  mk_config (Some 500%nat) false 0x1 0x0 0xA 0xA 0xA 0x2 0x3FF 0xFFC00 0x3FF00000 0xC0000000 0x20 0x0 0x0 0x0 0x0 0x0 0x0 0x0 0x0 0x0 0x0 0x8003 0x8000 0x8000 0xFFFFFFFF 0xFFFFFFFF 0xFFFFFFFF 0xFFFFFFFF 0x0 0x0 0x0 0x7 0x1 0x0 0x0 0x0 0x0 0x0 0x0 0x0 0x8062 0x1 0x1 0x0 0x7 0x1 0x0;
  mk_config (Some 501%nat) false 0x1 0x0 0xA 0xA 0xA 0x2 0x3FF 0xFFC00 0x3FF00000 0xC0000000 0x20 0x0 0x10 0x10 0x10 0x10 0x0 0x0 0x0 0x0 0x0 0x8003 0x8001 0x8000 0xFFFFFFFF 0xFFFFFFFF 0xFFFFFFFF 0xFFFFFFFF 0x0 0x0 0x0 0x7 0x1 0x0 0x0 0x0 0x0 0x0 0x0 0x0 0x8062 0x1 0x1 0x0 0x7 0x1 0x0;
  mk_config (Some 502%nat) false 0x0 0x0 0xA 0xA 0xA 0x2 0x3FF 0xFFC00 0x3FF00000 0xC0000000 0x20 0x0 0x0 0x0 0x0 0x0 0x10 0x0 0x0 0x0 0x0 0x8003 0x8000 0x8000 0xFFFFFFFF 0xFFFFFFFF 0xFFFFFFFF 0xFFFFFFFF 0x0 0x0 0x0 0x7 0x1 0x0 0x0 0x0 0x0 0x0 0x0 0x0 0x8063 0x1 0x1 0x0 0x7 0x1 0x0;
  mk_config (Some 503%nat) false 0x0 0x0 0xA 0xA 0xA 0x2 0x3FF 0xFFC00 0x3FF00000 0xC0000000 0x20 0x0 0x10 0x10 0x10 0x10 0x10 0x0 0x0 0x0 0x0 0x8003 0x8001 0x8000 0xFFFFFFFF 0xFFFFFFFF 0xFFFFFFFF 0xFFFFFFFF 0x0 0x0 0x0 0x7 0x1 0x0 0x0 0x0 0x0 0x0 0x0 0x0 0x8063 0x1 0x1 0x0 0x7 0x1 0x0;
  mk_config (Some 504%nat) false 0x1 0x0 0xA 0xA 0xA 0x2 0x3FF 0xFFC00 0x3FF00000 0xC0000000 0x20 0x0 0x0 0x0 0x0 0x0 0x10 0x0 0x0 0x0 0x0 0x8003 0x8000 0x8000 0xFFFFFFFF 0xFFFFFFFF 0xFFFFFFFF 0xFFFFFFFF 0x0 0x0 0x0 0x7 0x1 0x0 0x0 0x0 0x0 0x0 0x0 0x0 0x8063 0x1 0x1 0x0 0x7 0x1 0x0;
  mk_config (Some 505%nat) false 0x1 0x0 0xA 0xA 0xA 0x2 0x3FF 0xFFC00 0x3FF00000 0xC0000000 0x20 0x0 0x10 0x10 0x10 0x10 0x10 0x0 0x0 0x0 0x0 0x8003 0x8001 0x8000 0xFFFFFFFF 0xFFFFFFFF 0xFFFFFFFF 0xFFFFFFFF 0x0 0x0 0x0 0x7 0x1 0x0 0x0 0x0 0x0 0x0 0x0 0x0 0x8063 0x1 0x1 0x0 0x7 0x1 0x0;
  mk_config (Some 506%nat) false 0x1 0x0 0xA 0xA 0xA 0x2 0x3FF 0xFFC00 0x3FF00000 0xC0000000 0x20 0x0 0x0 0x0 0x0 0x0 0x10 0x0 0x0 0x0 0x0 0x8003 0x8000 0x8000 0xFFFFFFFF 0xFFFFFFFF 0xFFFFFFFF 0xFFFFFFFF 0x0 0x0 0x0 0x7 0x1 0x0 0x0 0x0 0x0 0x0 0x0 0x0 0x8062 0x1 0x1 0x0 0x7 0x1 0x0;
  mk_config (Some 507%nat) false 0x1 0x0 0xA 0xA 0xA 0x2 0x3FF 0xFFC00 0x3FF00000 0xC0000000 0x20 0x0 0x10 0x10 0x10 0x10 0x10 0x0 0x0 0x0 0x0 0x8003 0x8001 0x8000 0xFFFFFFFF 0xFFFFFFFF 0xFFFFFFFF 0xFFFFFFFF 0x0 0x0 0x0 0x7 0x1 0x0 0x0 0x0 0x0 0x0 0x0 0x0 0x8062 0x1 0x1 0x0 0x7 0x1 0x0;
  mk_config (Some 508%nat) false 0x0 0x0 0xA 0xA 0xA 0x2 0x3FF 0xFFC00 0x3FF00000 0xC0000000 0x20 0x0 0x0 0x0 0x0 0x0 0x18 0x0 0x0 0x0 0x0 0x8003 0x8000 0x8000 0xFFFFFFFF 0xFFFFFFFF 0xFFFFFFFF 0xFFFFFFFF 0x0 0x0 0x0 0x7 0x1 0x0 0x0 0x0 0x0 0x0 0x0 0x0 0x8063 0x1 0x1 0x0 0x7 0x1 0x0;
  mk_config (Some 509%nat) false 0x0 0x0 0xA 0xA 0xA 0x2 0x3FF 0xFFC00 0x3FF00000 0xC0000000 0x20 0x0 0x10 0x10 0x10 0x10 0x18 0x0 0x0 0x0 0x0 0x8003 0x8001 0x8000 0xFFFFFFFF 0xFFFFFFFF 0xFFFFFFFF 0xFFFFFFFF 0x0 0x0 0x0 0x7 0x1 0x0 0x0 0x0 0x0 0x0 0x0 0x0 0x8063 0x1 0x1 0x0 0x7 0x1 0x0;
  mk_config (Some 510%nat) false 0x1 0x0 0xA 0xA 0xA 0x2 0x3FF 0xFFC00 0x3FF00000 0xC0000000 0x20 0x0 0x0 0x0 0x0 0x0 0x18 0x0 0x0 0x0 0x0 0x8003 0x8000 0x8000 0xFFFFFFFF 0xFFFFFFFF 0xFFFFFFFF 0xFFFFFFFF 0x0 0x0 0x0 0x7 0x1 0x0 0x0 0x0 0x0 0x0 0x0 0x0 0x8063 0x1 0x1 0x0 0x7 0x1 0x0;
  mk_config (Some 511%nat) false 0x1 0x0 0xA 0xA 0xA 0x2 0x3FF 0xFFC00 0x3FF00000 0xC0000000 0x20 0x0 0x10 0x10 0x10 0x10 0x18 0x0 0x0 0x0 0x0 0x8003 0x8001 0x8000 0xFFFFFFFF 0xFFFFFFFF 0xFFFFFFFF 0xFFFFFFFF 0x0 0x0 0x0 0x7 0x1 0x0 0x0 0x0 0x0 0x0 0x0 0x0 0x8063 0x1 0x1 0x0 0x7 0x1 0x0;
  mk_config (Some 512%nat) false 0x1 0x0 0xA 0xA 0xA 0x2 0x3FF 0xFFC00 0x3FF00000 0xC0000000 0x20 0x0 0x0 0x0 0x0 0x0 0x18 0x0 0x0 0x0 0x0 0x8003 0x8000 0x8000 0xFFFFFFFF 0xFFFFFFFF 0xFFFFFFFF 0xFFFFFFFF 0x0 0x0 0x0 0x7 0x1 0x0 0x0 0x0 0x0 0x0 0x0 0x0 0x8062 0x1 0x1 0x0 0x7 0x1 0x0;
  mk_config (Some 513%nat) false 0x1 0x0 0xA 0xA 0xA 0x2 0x3FF 0xFFC00 0x3FF00000 0xC0000000 0x20 0x0 0x10 0x10 0x10 0x10 0x18 0x0 0x0 0x0 0x0 0x8003 0x8001 0x8000 0xFFFFFFFF 0xFFFFFFFF 0xFFFFFFFF 0xFFFFFFFF 0x0 0x0 0x0 0x7 0x1 0x0 0x0 0x0 0x0 0x0 0x0 0x0 0x8062 0x1 0x1 0x0 0x7 0x1 0x0;
  mk_config (Some 514%nat) false 0x0 0x0 0xA 0xA 0xA 0x2 0x3FF 0xFFC00 0x3FF00000 0xC0000000 0x20 0x0 0x0 0x0 0x0 0x0 0x18 0x8 0x0 0x0 0x0 0x8003 0x8000 0x8000 0xFFFFFFFF 0xFFFFFFFF 0xFFFFFFFF 0xFFFFFFFF 0x0 0x0 0x0 0x7 0x1 0x0 0x0 0x0 0x0 0x0 0x0 0x0 0x8063 0x1 0x1 0x0 0x7 0x1 0x0;
  mk_config (Some 515%nat) false 0x0 0x0 0xA 0xA 0xA 0x2 0x3FF 0xFFC00 0x3FF00000 0xC0000000 0x20 0x0 0x10 0x10 0x10 0x10 0x18 0x8 0x0 0x0 0x0 0x8003 0x8001 0x8000 0xFFFFFFFF 0xFFFFFFFF 0xFFFFFFFF 0xFFFFFFFF 0x0 0x0 0x0 0x7 0x1 0x0 0x0 0x0 0x0 0x0 0x0 0x0 0x8063 0x1 0x1 0x0 0x7 0x1 0x0;
  mk_config (Some 516%nat) false 0x1 0x0 0xA 0xA 0xA 0x2 0x3FF 0xFFC00 0x3FF00000 0xC0000000 0x20 0x0 0x0 0x0 0x0 0x0 0x18 0x8 0x0 0x0 0x0 0x8003 0x8000 0x8000 0xFFFFFFFF 0xFFFFFFFF 0xFFFFFFFF 0xFFFFFFFF 0x0 0x0 0x0 0x7 0x1 0x0 0x0 0x0 0x0 0x0 0x0 0x0 0x8063 0x1 0x1 0x0 0x7 0x1 0x0;
  mk_config (Some 517%nat) false 0x1 0x0 0xA 0xA 0xA 0x2 0x3FF 0xFFC00 0x3FF00000 0xC0000000 0x20 0x0 0x10 0x10 0x10 0x10 0x18 0x8 0x0 0x0 0x0 0x8003 0x8001 0x8000 0xFFFFFFFF 0xFFFFFFFF 0xFFFFFFFF 0xFFFFFFFF 0x0 0x0 0x0 0x7 0x1 0x0 0x0 0x0 0x0 0x0 0x0 0x0 0x8063 0x1 0x1 0x0 0x7 0x1 0x0;
  mk_config (Some 518%nat) false 0x1 0x0 0xA 0xA 0xA 0x2 0x3FF 0xFFC00 0x3FF00000 0xC0000000 0x20 0x0 0x0 0x0 0x0 0x0 0x18 0x8 0x0 0x0 0x0 0x8003 0x8000 0x8000 0xFFFFFFFF 0xFFFFFFFF 0xFFFFFFFF 0xFFFFFFFF 0x0 0x0 0x0 0x7 0x1 0x0 0x0 0x0 0x0 0x0 0x0 0x0 0x8062 0x1 0x1 0x0 0x7 0x1 0x0;
  mk_config (Some 519%nat) false 0x1 0x0 0xA 0xA 0xA 0x2 0x3FF 0xFFC00 0x3FF00000 0xC0000000 0x20 0x0 0x10 0x10 0x10 0x10 0x18 0x8 0x0 0x0 0x0 0x8003 0x8001 0x8000 0xFFFFFFFF 0xFFFFFFFF 0xFFFFFFFF 0xFFFFFFFF 0x0 0x0 0x0 0x7 0x1 0x0 0x0 0x0 0x0 0x0 0x0 0x0 0x8062 0x1 0x1 0x0 0x7 0x1 0x0;
  mk_config (Some 520%nat) false 0x0 0x0 0xA 0xA 0xA 0x2 0x3FF 0xFFC00 0x3FF00000 0xC0000000 0x20 0x0 0x0 0x0 0x0 0x0 0x20 0x0 0x0 0x0 0x0 0x8003 0x8000 0x8000 0xFFFFFFFF 0xFFFFFFFF 0xFFFFFFFF 0xFFFFFFFF 0x0 0x0 0x0 0x7 0x1 0x0 0x0 0x0 0x0 0x0 0x0 0x0 0x8063 0x1 0x1 0x0 0x7 0x1 0x0;
  mk_config (Some 521%nat) false 0x0 0x0 0xA 0xA 0xA 0x2 0x3FF 0xFFC00 0x3FF00000 0xC0000000 0x20 0x0 0x10 0x10 0x10 0x10 0x20 0x0 0x0 0x0 0x0 0x8003 0x8001 0x8000 0xFFFFFFFF 0xFFFFFFFF 0xFFFFFFFF 0xFFFFFFFF 0x0 0x0 0x0 0x7 0x1 0x0 0x0 0x0 0x0 0x0 0x0 0x0 0x8063 0x1 0x1 0x0 0x7 0x1 0x0;
  mk_config (Some 522%nat) false 0x1 0x0 0xA 0xA 0xA 0x2 0x3FF 0xFFC00 0x3FF00000 0xC0000000 0x20 0x0 0x0 0x0 0x0 0x0 0x20 0x0 0x0 0x0 0x0 0x8003 0x8000 0x8000 0xFFFFFFFF 0xFFFFFFFF 0xFFFFFFFF 0xFFFFFFFF 0x0 0x0 0x0 0x7 0x1 0x0 0x0 0x0 0x0 0x0 0x0 0x0 0x8063 0x1 0x1 0x0 0x7 0x1 0x0;
  mk_config (Some 523%nat) false 0x1 0x0 0xA 0xA 0xA 0x2 0x3FF 0xFFC00 0x3FF00000 0xC0000000 0x20 0x0 0x10 0x10 0x10 0x10 0x20 0x0 0x0 0x0 0x0 0x8003 0x8001 0x8000 0xFFFFFFFF 0xFFFFFFFF 0xFFFFFFFF 0xFFFFFFFF 0x0 0x0 0x0 0x7 0x1 0x0 0x0 0x0 0x0 0x0 0x0 0x0 0x8063 0x1 0x1 0x0 0x7 0x1 0x0;
  mk_config (Some 524%nat) false 0x1 0x0 0xA 0xA 0xA 0x2 0x3FF 0xFFC00 0x3FF00000 0xC0000000 0x20 0x0 0x0 0x0 0x0 0x0 0x20 0x0 0x0 0x0 0x0 0x8003 0x8000 0x8000 0xFFFFFFFF 0xFFFFFFFF 0xFFFFFFFF 0xFFFFFFFF 0x0 0x0 0x0 0x7 0x1 0x0 0x0 0x0 0x0 0x0 0x0 0x0 0x8062 0x1 0x1 0x0 0x7 0x1 0x0;
  mk_config (Some 525%nat) false 0x1 0x0 0xA 0xA 0xA 0x2 0x3FF 0xFFC00 0x3FF00000 0xC0000000 0x20 0x0 0x10 0x10 0x10 0x10 0x20 0x0 0x0 0x0 0x0 0x8003 0x8001 0x8000 0xFFFFFFFF 0xFFFFFFFF 0xFFFFFFFF 0xFFFFFFFF 0x0 0x0 0x0 0x7 0x1 0x0 0x0 0x0 0x0 0x0 0x0 0x0 0x8062 0x1 0x1 0x0 0x7 0x1 0x0;
  mk_config (Some 526%nat) false 0x0 0x0 0xA 0xA 0xA 0x2 0x3FF 0xFFC00 0x3FF00000 0xC0000000 0x20 0x0 0x0 0x0 0x0 0x0 0x0 0x0 0x0 0x0 0x0 0x8003 0x8000 0x8000 0xFFFFFFFF 0xFFFFFFFF 0xFFFFFFFF 0xFFFFFFFF 0x0 0x1 0x4 0x7 0x1 0x0 0x0 0x0 0x0 0x0 0x0 0x0 0x8063 0x1 0x1 0x0 0x7 0x1 0x0;
  mk_config (Some 527%nat) false 0x1 0x0 0xA 0xA 0xA 0x2 0x3FF 0xFFC00 0x3FF00000 0xC0000000 0x20 0x0 0x0 0x0 0x0 0x0 0x0 0x0 0x0 0x0 0x0 0x8003 0x8000 0x8000 0xFFFFFFFF 0xFFFFFFFF 0xFFFFFFFF 0xFFFFFFFF 0x0 0x1 0x4 0x7 0x1 0x0 0x0 0x0 0x0 0x0 0x0 0x0 0x8063 0x1 0x1 0x0 0x7 0x1 0x0;
  mk_config (Some 528%nat) false 0x1 0x0 0xA 0xA 0xA 0x2 0x3FF 0xFFC00 0x3FF00000 0xC0000000 0x20 0x0 0x0 0x0 0x0 0x0 0x0 0x0 0x0 0x0 0x0 0x8003 0x8000 0x8000 0xFFFFFFFF 0xFFFFFFFF 0xFFFFFFFF 0xFFFFFFFF 0x0 0x1 0x4 0x7 0x1 0x0 0x0 0x0 0x0 0x0 0x0 0x0 0x8062 0x1 0x1 0x0 0x7 0x1 0x0;
  mk_config (Some 529%nat) false 0x0 0x0 0xA 0xA 0xA 0x2 0x3FF 0xFFC00 0x3FF00000 0xC0000000 0x20 0x0 0x0 0x0 0x0 0x0 0x10 0x0 0x0 0x0 0x0 0x8003 0x8000 0x8000 0xFFFFFFFF 0xFFFFFFFF 0xFFFFFFFF 0xFFFFFFFF 0x0 0x1 0x4 0x7 0x1 0x0 0x0 0x0 0x0 0x0 0x0 0x0 0x8063 0x1 0x1 0x0 0x7 0x1 0x0;
  mk_config (Some 530%nat) false 0x1 0x0 0xA 0xA 0xA 0x2 0x3FF 0xFFC00 0x3FF00000 0xC0000000 0x20 0x0 0x0 0x0 0x0 0x0 0x10 0x0 0x0 0x0 0x0 0x8003 0x8000 0x8000 0xFFFFFFFF 0xFFFFFFFF 0xFFFFFFFF 0xFFFFFFFF 0x0 0x1 0x4 0x7 0x1 0x0 0x0 0x0 0x0 0x0 0x0 0x0 0x8063 0x1 0x1 0x0 0x7 0x1 0x0;
  mk_config (Some 531%nat) false 0x1 0x0 0xA 0xA 0xA 0x2 0x3FF 0xFFC00 0x3FF00000 0xC0000000 0x20 0x0 0x0 0x0 0x0 0x0 0x10 0x0 0x0 0x0 0x0 0x8003 0x8000 0x8000 0xFFFFFFFF 0xFFFFFFFF 0xFFFFFFFF 0xFFFFFFFF 0x0 0x1 0x4 0x7 0x1 0x0 0x0 0x0 0x0 0x0 0x0 0x0 0x8062 0x1 0x1 0x0 0x7 0x1 0x0;
  mk_config (Some 532%nat) false 0x0 0x0 0xA 0xA 0xA 0x2 0x3FF 0xFFC00 0x3FF00000 0xC0000000 0x20 0x0 0x0 0x0 0x0 0x0 0x18 0x0 0x0 0x0 0x0 0x8003 0x8000 0x8000 0xFFFFFFFF 0xFFFFFFFF 0xFFFFFFFF 0xFFFFFFFF 0x0 0x1 0x4 0x7 0x1 0x0 0x0 0x0 0x0 0x0 0x0 0x0 0x8063 0x1 0x1 0x0 0x7 0x1 0x0;
  mk_config (Some 533%nat) false 0x1 0x0 0xA 0xA 0xA 0x2 0x3FF 0xFFC00 0x3FF00000 0xC0000000 0x20 0x0 0x0 0x0 0x0 0x0 0x18 0x0 0x0 0x0 0x0 0x8003 0x8000 0x8000 0xFFFFFFFF 0xFFFFFFFF 0xFFFFFFFF 0xFFFFFFFF 0x0 0x1 0x4 0x7 0x1 0x0 0x0 0x0 0x0 0x0 0x0 0x0 0x8063 0x1 0x1 0x0 0x7 0x1 0x0;
  mk_config (Some 534%nat) false 0x1 0x0 0xA 0xA 0xA 0x2 0x3FF 0xFFC00 0x3FF00000 0xC0000000 0x20 0x0 0x0 0x0 0x0 0x0 0x18 0x0 0x0 0x0 0x0 0x8003 0x8000 0x8000 0xFFFFFFFF 0xFFFFFFFF 0xFFFFFFFF 0xFFFFFFFF 0x0 0x1 0x4 0x7 0x1 0x0 0x0 0x0 0x0 0x0 0x0 0x0 0x8062 0x1 0x1 0x0 0x7 0x1 0x0;
  mk_config (Some 535%nat) false 0x0 0x0 0xA 0xA 0xA 0x2 0x3FF 0xFFC00 0x3FF00000 0xC0000000 0x20 0x0 0x0 0x0 0x0 0x0 0x18 0x8 0x0 0x0 0x0 0x8003 0x8000 0x8000 0xFFFFFFFF 0xFFFFFFFF 0xFFFFFFFF 0xFFFFFFFF 0x0 0x1 0x4 0x7 0x1 0x0 0x0 0x0 0x0 0x0 0x0 0x0 0x8063 0x1 0x1 0x0 0x7 0x1 0x0;
  mk_config (Some 536%nat) false 0x1 0x0 0xA 0xA 0xA 0x2 0x3FF 0xFFC00 0x3FF00000 0xC0000000 0x20 0x0 0x0 0x0 0x0 0x0 0x18 0x8 0x0 0x0 0x0 0x8003 0x8000 0x8000 0xFFFFFFFF 0xFFFFFFFF 0xFFFFFFFF 0xFFFFFFFF 0x0 0x1 0x4 0x7 0x1 0x0 0x0 0x0 0x0 0x0 0x0 0x0 0x8063 0x1 0x1 0x0 0x7 0x1 0x0;
  mk_config (Some 537%nat) false 0x1 0x0 0xA 0xA 0xA 0x2 0x3FF 0xFFC00 0x3FF00000 0xC0000000 0x20 0x0 0x0 0x0 0x0 0x0 0x18 0x8 0x0 0x0 0x0 0x8003 0x8000 0x8000 0xFFFFFFFF 0xFFFFFFFF 0xFFFFFFFF 0xFFFFFFFF 0x0 0x1 0x4 0x7 0x1 0x0 0x0 0x0 0x0 0x0 0x0 0x0 0x8062 0x1 0x1 0x0 0x7 0x1 0x0;
  mk_config (Some 538%nat) false 0x0 0x0 0xA 0xA 0xA 0x2 0x3FF 0xFFC00 0x3FF00000 0xC0000000 0x20 0x0 0x0 0x0 0x0 0x0 0x20 0x0 0x0 0x0 0x0 0x8003 0x8000 0x8000 0xFFFFFFFF 0xFFFFFFFF 0xFFFFFFFF 0xFFFFFFFF 0x0 0x1 0x4 0x7 0x1 0x0 0x0 0x0 0x0 0x0 0x0 0x0 0x8063 0x1 0x1 0x0 0x7 0x1 0x0;
  mk_config (Some 539%nat) false 0x1 0x0 0xA 0xA 0xA 0x2 0x3FF 0xFFC00 0x3FF00000 0xC0000000 0x20 0x0 0x0 0x0 0x0 0x0 0x20 0x0 0x0 0x0 0x0 0x8003 0x8000 0x8000 0xFFFFFFFF 0xFFFFFFFF 0xFFFFFFFF 0xFFFFFFFF 0x0 0x1 0x4 0x7 0x1 0x0 0x0 0x0 0x0 0x0 0x0 0x0 0x8063 0x1 0x1 0x0 0x7 0x1 0x0;
  mk_config (Some 540%nat) false 0x1 0x0 0xA 0xA 0xA 0x2 0x3FF 0xFFC00 0x3FF00000 0xC0000000 0x20 0x0 0x0 0x0 0x0 0x0 0x20 0x0 0x0 0x0 0x0 0x8003 0x8000 0x8000 0xFFFFFFFF 0xFFFFFFFF 0xFFFFFFFF 0xFFFFFFFF 0x0 0x1 0x4 0x7 0x1 0x0 0x0 0x0 0x0 0x0 0x0 0x0 0x8062 0x1 0x1 0x0 0x7 0x1 0x0
].

Definition configs_4 : list __GLXconfig := [
  mk_config (Some 541%nat) false 0x0 0x0 0xA 0xA 0xA 0x0 0x3FF 0xFFC00 0x3FF00000 0x0 0x1E 0x0 0x0 0x0 0x0 0x0 0x0 0x0 0x0 0x0 0x0 0x8003 0x8000 0x8000 0xFFFFFFFF 0xFFFFFFFF 0xFFFFFFFF 0xFFFFFFFF 0x0 0x0 0x0 0x1 0x1 0x0 0x0 0x0 0x0 0x0 0x0 0x0 0x8063 0x1 0x1 0x0 0x7 0x1 0x0;
  mk_config (Some 542%nat) false 0x0 0x0 0xA 0xA 0xA 0x0 0x3FF 0xFFC00 0x3FF00000 0x0 0x1E 0x0 0x10 0x10 0x10 0x10 0x0 0x0 0x0 0x0 0x0 0x8003 0x8001 0x8000 0xFFFFFFFF 0xFFFFFFFF 0xFFFFFFFF 0xFFFFFFFF 0x0 0x0 0x0 0x1 0x1 0x0 0x0 0x0 0x0 0x0 0x0 0x0 0x8063 0x1 0x1 0x0 0x7 0x1 0x0;
  mk_config (Some 543%nat) false 0x1 0x0 0xA 0xA 0xA 0x0 0x3FF 0xFFC00 0x3FF00000 0x0 0x1E 0x0 0x0 0x0 0x0 0x0 0x0 0x0 0x0 0x0 0x0 0x8003 0x8000 0x8000 0xFFFFFFFF 0xFFFFFFFF 0xFFFFFFFF 0xFFFFFFFF 0x0 0x0 0x0 0x1 0x1 0x0 0x0 0x0 0x0 0x0 0x0 0x0 0x8063 0x1 0x1 0x0 0x7 0x1 0x0;
  mk_config (Some 544%nat) false 0x1 0x0 0xA 0xA 0xA 0x0 0x3FF 0xFFC00 0x3FF00000 0x0 0x1E 0x0 0x10 0x10 0x10 0x10 0x0 0x0 0x0 0x0 0x0 0x8003 0x8001 0x8000 0xFFFFFFFF 0xFFFFFFFF 0xFFFFFFFF 0xFFFFFFFF 0x0 0x0 0x0 0x1 0x1 0x0 0x0 0x0 0x0 0x0 0x0 0x0 0x8063 0x1 0x1 0x0 0x7 0x1 0x0;
  mk_config (Some 545%nat) false 0x1 0x0 0xA 0xA 0xA 0x0 0x3FF 0xFFC00 0x3FF00000 0x0 0x1E 0x0 0x0 0x0 0x0 0x0 0x0 0x0 0x0 0x0 0x0 0x8003 0x8000 0x8000 0xFFFFFFFF 0xFFFFFFFF 0xFFFFFFFF 0xFFFFFFFF 0x0 0x0 0x0 0x1 0x1 0x0 0x0 0x0 0x0 0x0 0x0 0x0 0x8062 0x1 0x1 0x0 0x7 0x1 0x0;
  mk_config (Some 546%nat) false 0x1 0x0 0xA 0xA 0xA 0x0 0x3FF 0xFFC00 0x3FF00000 0x0 0x1E 0x0 0x10 0x10 0x10 0x10 0x0 0x0 0x0 0x0 0x0 0x8003 0x8001 0x8000 0xFFFFFFFF 0xFFFFFFFF 0xFFFFFFFF 0xFFFFFFFF 0x0 0x0 0x0 0x1 0x1 0x0 0x0 0x0 0x0 0x0 0x0 0x0 0x8062 0x1 0x1 0x0 0x7 0x1 0x0;
  mk_config (Some 547%nat) false 0x0 0x0 0xA 0xA 0xA 0x0 0x3FF 0xFFC00 0x3FF00000 0x0 0x1E 0x0 0x0 0x0 0x0 0x0 0x10 0x0 0x0 0x0 0x0 0x8003 0x8000 0x8000 0xFFFFFFFF 0xFFFFFFFF 0xFFFFFFFF 0xFFFFFFFF 0x0 0x0 0x0 0x1 0x1 0x0 0x0 0x0 0x0 0x0 0x0 0x0 0x8063 0x1 0x1 0x0 0x7 0x1 0x0;
  mk_config (Some 548%nat) false 0x0 0x0 0xA 0xA 0xA 0x0 0x3FF 0xFFC00 0x3FF00000 0x0 0x1E 0x0 0x10 0x10 0x10 0x10 0x10 0x0 0x0 0x0 0x0 0x8003 0x8001 0x8000 0xFFFFFFFF 0xFFFFFFFF 0xFFFFFFFF 0xFFFFFFFF 0x0 0x0 0x0 0x1 0x1 0x0 0x0 0x0 0x0 0x0 0x0 0x0 0x8063 0x1 0x1 0x0 0x7 0x1 0x0;
  mk_config (Some 549%nat) false 0x1 0x0 0xA 0xA 0xA 0x0 0x3FF 0xFFC00 0x3FF00000 0x0 0x1E 0x0 0x0 0x0 0x0 0x0 0x10 0x0 0x0 0x0 0x0 0x8003 0x8000 0x8000 0xFFFFFFFF 0xFFFFFFFF 0xFFFFFFFF 0xFFFFFFFF 0x0 0x0 0x0 0x1 0x1 0x0 0x0 0x0 0x0 0x0 0x0 0x0 0x8063 0x1 0x1 0x0 0x7 0x1 0x0;
  mk_config (Some 550%nat) false 0x1 0x0 0xA 0xA 0xA 0x0 0x3FF 0xFFC00 0x3FF00000 0x0 0x1E 0x0 0x10 0x10 0x10 0x10 0x10 0x0 0x0 0x0 0x0 0x8003 0x8001 0x8000 0xFFFFFFFF 0xFFFFFFFF 0xFFFFFFFF 0xFFFFFFFF 0x0 0x0 0x0 0x1 0x1 0x0 0x0 0x0 0x0 0x0 0x0 0x0 0x8063 0x1 0x1 0x0 0x7 0x1 0x0;
  mk_config (Some 551%nat) false 0x1 0x0 0xA 0xA 0xA 0x0 0x3FF 0xFFC00 0x3FF00000 0x0 0x1E 0x0 0x0 0x0 0x0 0x0 0x10 0x0 0x0 0x0 0x0 0x8003 0x8000 0x8000 0xFFFFFFFF 0xFFFFFFFF 0xFFFFFFFF 0xFFFFFFFF 0x0 0x0 0x0 0x1 0x1 0x0 0x0 0x0 0x0 0x0 0x0 0x0 0x8062 0x1 0x1 0x0 0x7 0x1 0x0;
  mk_config (Some 552%nat) false 0x1 0x0 0xA 0xA 0xA 0x0 0x3FF 0xFFC00 0x3FF00000 0x0 0x1E 0x0 0x10 0x10 0x10 0x10 0x10 0x0 0x0 0x0 0x0 0x8003 0x8001 0x8000 0xFFFFFFFF 0xFFFFFFFF 0xFFFFFFFF 0xFFFFFFFF 0x0 0x0 0x0 0x1 0x1 0x0 0x0 0x0 0x0 0x0 0x0 0x0 0x8062 0x1 0x1 0x0 0x7 0x1 0x0;
  mk_config (Some 553%nat) false 0x0 0x0 0xA 0xA 0xA 0x0 0x3FF 0xFFC00 0x3FF00000 0x0 0x1E 0x0 0x0 0x0 0x0 0x0 0x18 0x0 0x0 0x0 0x0 0x8003 0x8000 0x8000 0xFFFFFFFF 0xFFFFFFFF 0xFFFFFFFF 0xFFFFFFFF 0x0 0x0 0x0 0x1 0x1 0x0 0x0 0x0 0x0 0x0 0x0 0x0 0x8063 0x1 0x1 0x0 0x7 0x1 0x0;
  mk_config (Some 554%nat) false 0x0 0x0 0xA 0xA 0xA 0x0 0x3FF 0xFFC00 0x3FF00000 0x0 0x1E 0x0 0x10 0x10 0x10 0x10 0x18 0x0 0x0 0x0 0x0 0x8003 0x8001 0x8000 0xFFFFFFFF 0xFFFFFFFF 0xFFFFFFFF 0xFFFFFFFF 0x0 0x0 0x0 0x1 0x1 0x0 0x0 0x0 0x0 0x0 0x0 0x0 0x8063 0x1 0x1 0x0 0x7 0x1 0x0;
  mk_config (Some 555%nat) false 0x1 0x0 0xA 0xA 0xA 0x0 0x3FF 0xFFC00 0x3FF00000 0x0 0x1E 0x0 0x0 0x0 0x0 0x0 0x18 0x0 0x0 0x0 0x0 0x8003 0x8000 0x8000 0xFFFFFFFF 0xFFFFFFFF 0xFFFFFFFF 0xFFFFFFFF 0x0 0x0 0x0 0x1 0x1 0x0 0x0 0x0 0x0 0x0 0x0 0x0 0x8063 0x1 0x1 0x0 0x7 0x1 0x0;
  mk_config (Some 556%nat) false 0x1 0x0 0xA 0xA 0xA 0x0 0x3FF 0xFFC00 0x3FF00000 0x0 0x1E 0x0 0x10 0x10 0x10 0x10 0x18 0x0 0x0 0x0 0x0 0x8003 0x8001 0x8000 0xFFFFFFFF 0xFFFFFFFF 0xFFFFFFFF 0xFFFFFFFF 0x0 0x0 0x0 0x1 0x1 0x0 0x0 0x0 0x0 0x0 0x0 0x0 0x8063 0x1 0x1 0x0 0x7 0x1 0x0;
  mk_config (Some 557%nat) false 0x1 0x0 0xA 0xA 0xA 0x0 0x3FF 0xFFC00 0x3FF00000 0x0 0x1E 0x0 0x0 0x0 0x0 0x0 0x18 0x0 0x0 0x0 0x0 0x8003 0x8000 0x8000 0xFFFFFFFF 0xFFFFFFFF 0xFFFFFFFF 0xFFFFFFFF 0x0 0x0 0x0 0x1 0x1 0x0 0x0 0x0 0x0 0x0 0x0 0x0 0x8062 0x1 0x1 0x0 0x7 0x1 0x0;
  mk_config (Some 558%nat) false 0x1 0x0 0xA 0xA 0xA 0x0 0x3FF 0xFFC00 0x3FF00000 0x0 0x1E 0x0 0x10 0x10 0x10 0x10 0x18 0x0 0x0 0x0 0x0 0x8003 0x8001 0x8000 0xFFFFFFFF 0xFFFFFFFF 0xFFFFFFFF 0xFFFFFFFF 0x0 0x0 0x0 0x1 0x1 0x0 0x0 0x0 0x0 0x0 0x0 0x0 0x8062 0x1 0x1 0x0 0x7 0x1 0x0;
  mk_config (Some 559%nat) false 0x0 0x0 0xA 0xA 0xA 0x0 0x3FF 0xFFC00 0x3FF00000 0x0 0x1E 0x0 0x0 0x0 0x0 0x0 0x18 0x8 0x0 0x0 0x0 0x8003 0x8000 0x8000 0xFFFFFFFF 0xFFFFFFFF 0xFFFFFFFF 0xFFFFFFFF 0x0 0x0 0x0 0x1 0x1 0x0 0x0 0x0 0x0 0x0 0x0 0x0 0x8063 0x1 0x1 0x0 0x7 0x1 0x0;
  mk_config (Some 560%nat) false 0x0 0x0 0xA 0xA 0xA 0x0 0x3FF 0xFFC00 0x3FF00000 0x0 0x1E 0x0 0x10 0x10 0x10 0x10 0x18 0x8 0x0 0x0 0x0 0x8003 0x8001 0x8000 0xFFFFFFFF 0xFFFFFFFF 0xFFFFFFFF 0xFFFFFFFF 0x0 0x0 0x0 0x1 0x1 0x0 0x0 0x0 0x0 0x0 0x0 0x0 0x8063 0x1 0x1 0x0 0x7 0x1 0x0;
  mk_config (Some 561%nat) false 0x1 0x0 0xA 0xA 0xA 0x0 0x3FF 0xFFC00 0x3FF00000 0x0 0x1E 0x0 0x0 0x0 0x0 0x0 0x18 0x8 0x0 0x0 0x0 0x8003 0x8000 0x8000 0xFFFFFFFF 0xFFFFFFFF 0xFFFFFFFF 0xFFFFFFFF 0x0 0x0 0x0 0x1 0x1 0x0 0x0 0x0 0x0 0x0 0x0 0x0 0x8063 0x1 0x1 0x0 0x7 0x1 0x0;
  mk_config (Some 562%nat) false 0x1 0x0 0xA 0xA 0xA 0x0 0x3FF 0xFFC00 0x3FF00000 0x0 0x1E 0x0 0x10 0x10 0x10 0x10 0x18 0x8 0x0 0x0 0x0 0x8003 0x8001 0x8000 0xFFFFFFFF 0xFFFFFFFF 0xFFFFFFFF 0xFFFFFFFF 0x0 0x0 0x0 0x1 0x1 0x0 0x0 0x0 0x0 0x0 0x0 0x0 0x8063 0x1 0x1 0x0 0x7 0x1 0x0;
  mk_config (Some 563%nat) false 0x1 0x0 0xA 0xA 0xA 0x0 0x3FF 0xFFC00 0x3FF00000 0x0 0x1E 0x0 0x0 0x0 0x0 0x0 0x18 0x8 0x0 0x0 0x0 0x8003 0x8000 0x8000 0xFFFFFFFF 0xFFFFFFFF 0xFFFFFFFF 0xFFFFFFFF 0x0 0x0 0x0 0x1 0x1 0x0 0x0 0x0 0x0 0x0 0x0 0x0 0x8062 0x1 0x1 0x0 0x7 0x1 0x0;
  mk_config (Some 564%nat) false 0x1 0x0 0xA 0xA 0xA 0x0 0x3FF 0xFFC00 0x3FF00000 0x0 0x1E 0x0 0x10 0x10 0x10 0x10 0x18 0x8 0x0 0x0 0x0 0x8003 0x8001 0x8000 0xFFFFFFFF 0xFFFFFFFF 0xFFFFFFFF 0xFFFFFFFF 0x0 0x0 0x0 0x1 0x1 0x0 0x0 0x0 0x0 0x0 0x0 0x0 0x8062 0x1 0x1 0x0 0x7 0x1 0x0;
  mk_config (Some 565%nat) false 0x0 0x0 0xA 0xA 0xA 0x0 0x3FF 0xFFC00 0x3FF00000 0x0 0x1E 0x0 0x0 0x0 0x0 0x0 0x20 0x0 0x0 0x0 0x0 0x8003 0x8000 0x8000 0xFFFFFFFF 0xFFFFFFFF 0xFFFFFFFF 0xFFFFFFFF 0x0 0x0 0x0 0x1 0x1 0x0 0x0 0x0 0x0 0x0 0x0 0x0 0x8063 0x1 0x1 0x0 0x7 0x1 0x0;
  mk_config (Some 566%nat) false 0x0 0x0 0xA 0xA 0xA 0x0 0x3FF 0xFFC00 0x3FF00000 0x0 0x1E 0x0 0x10 0x10 0x10 0x10 0x20 0x0 0x0 0x0 0x0 0x8003 0x8001 0x8000 0xFFFFFFFF 0xFFFFFFFF 0xFFFFFFFF 0xFFFFFFFF 0x0 0x0 0x0 0x1 0x1 0x0 0x0 0x0 0x0 0x0 0x0 0x0 0x8063 0x1 0x1 0x0 0x7 0x1 0x0;
  mk_config (Some 567%nat) false 0x1 0x0 0xA 0xA 0xA 0x0 0x3FF 0xFFC00 0x3FF00000 0x0 0x1E 0x0 0x0 0x0 0x0 0x0 0x20 0x0 0x0 0x0 0x0 0x8003 0x8000 0x8000 0xFFFFFFFF 0xFFFFFFFF 0xFFFFFFFF 0xFFFFFFFF 0x0 0x0 0x0 0x1 0x1 0x0 0x0 0x0 0x0 0x0 0x0 0x0 0x8063 0x1 0x1 0x0 0x7 0x1 0x0;
  mk_config (Some 568%nat) false 0x1 0x0 0xA 0xA 0xA 0x0 0x3FF 0xFFC00 0x3FF00000 0x0 0x1E 0x0 0x10 0x10 0x10 0x10 0x20 0x0 0x0 0x0 0x0 0x8003 0x8001 0x8000 0xFFFFFFFF 0xFFFFFFFF 0xFFFFFFFF 0xFFFFFFFF 0x0 0x0 0x0 0x1 0x1 0x0 0x0 0x0 0x0 0x0 0x0 0x0 0x8063 0x1 0x1 0x0 0x7 0x1 0x0;
  mk_config (Some 569%nat) false 0x1 0x0 0xA 0xA 0xA 0x0 0x3FF 0xFFC00 0x3FF00000 0x0 0x1E 0x0 0x0 0x0 0x0 0x0 0x20 0x0 0x0 0x0 0x0 0x8003 0x8000 0x8000 0xFFFFFFFF 0xFFFFFFFF 0xFFFFFFFF 0xFFFFFFFF 0x0 0x0 0x0 0x1 0x1 0x0 0x0 0x0 0x0 0x0 0x0 0x0 0x8062 0x1 0x1 0x0 0x7 0x1 0x0;
  mk_config (Some 570%nat) false 0x1 0x0 0xA 0xA 0xA 0x0 0x3FF 0xFFC00 0x3FF00000 0x0 0x1E 0x0 0x10 0x10 0x10 0x10 0x20 0x0 0x0 0x0 0x0 0x8003 0x8001 0x8000 0xFFFFFFFF 0xFFFFFFFF 0xFFFFFFFF 0xFFFFFFFF 0x0 0x0 0x0 0x1 0x1 0x0 0x0 0x0 0x0 0x0 0x0 0x0 0x8062 0x1 0x1 0x0 0x7 0x1 0x0;
  mk_config (Some 571%nat) false 0x0 0x0 0xA 0xA 0xA 0x0 0x3FF 0xFFC00 0x3FF00000 0x0 0x1E 0x0 0x0 0x0 0x0 0x0 0x0 0x0 0x0 0x0 0x0 0x8003 0x8000 0x8000 0xFFFFFFFF 0xFFFFFFFF 0xFFFFFFFF 0xFFFFFFFF 0x0 0x1 0x4 0x1 0x1 0x0 0x0 0x0 0x0 0x0 0x0 0x0 0x8063 0x1 0x1 0x0 0x7 0x1 0x0;
  mk_config (Some 572%nat) false 0x1 0x0 0xA 0xA 0xA 0x0 0x3FF 0xFFC00 0x3FF00000 0x0 0x1E 0x0 0x0 0x0 0x0 0x0 0x0 0x0 0x0 0x0 0x0 0x8003 0x8000 0x8000 0xFFFFFFFF 0xFFFFFFFF 0xFFFFFFFF 0xFFFFFFFF 0x0 0x1 0x4 0x1 0x1 0x0 0x0 0x0 0x0 0x0 0x0 0x0 0x8063 0x1 0x1 0x0 0x7 0x1 0x0;
  mk_config (Some 573%nat) false 0x1 0x0 0xA 0xA 0xA 0x0 0x3FF 0xFFC00 0x3FF00000 0x0 0x1E 0x0 0x0 0x0 0x0 0x0 0x0 0x0 0x0 0x0 0x0 0x8003 0x8000 0x8000 0xFFFFFFFF 0xFFFFFFFF 0xFFFFFFFF 0xFFFFFFFF 0x0 0x1 0x4 0x1 0x1 0x0 0x0 0x0 0x0 0x0 0x0 0x0 0x8062 0x1 0x1 0x0 0x7 0x1 0x0;
  mk_config (Some 574%nat) false 0x0 0x0 0xA 0xA 0xA 0x0 0x3FF 0xFFC00 0x3FF00000 0x0 0x1E 0x0 0x0 0x0 0x0 0x0 0x10 0x0 0x0 0x0 0x0 0x8003 0x8000 0x8000 0xFFFFFFFF 0xFFFFFFFF 0xFFFFFFFF 0xFFFFFFFF 0x0 0x1 0x4 0x1 0x1 0x0 0x0 0x0 0x0 0x0 0x0 0x0 0x8063 0x1 0x1 0x0 0x7 0x1 0x0;
  mk_config (Some 575%nat) false 0x1 0x0 0xA 0xA 0xA 0x0 0x3FF 0xFFC00 0x3FF00000 0x0 0x1E 0x0 0x0 0x0 0x0 0x0 0x10 0x0 0x0 0x0 0x0 0x8003 0x8000 0x8000 0xFFFFFFFF 0xFFFFFFFF 0xFFFFFFFF 0xFFFFFFFF 0x0 0x1 0x4 0x1 0x1 0x0 0x0 0x0 0x0 0x0 0x0 0x0 0x8063 0x1 0x1 0x0 0x7 0x1 0x0;
  mk_config (Some 576%nat) false 0x1 0x0 0xA 0xA 0xA 0x0 0x3FF 0xFFC00 0x3FF00000 0x0 0x1E 0x0 0x0 0x0 0x0 0x0 0x10 0x0 0x0 0x0 0x0 0x8003 0x8000 0x8000 0xFFFFFFFF 0xFFFFFFFF 0xFFFFFFFF 0xFFFFFFFF 0x0 0x1 0x4 0x1 0x1 0x0 0x0 0x0 0x0 0x0 0x0 0x0 0x8062 0x1 0x1 0x0 0x7 0x1 0x0;
  mk_config (Some 577%nat) false 0x0 0x0 0xA 0xA 0xA 0x0 0x3FF 0xFFC00 0x3FF00000 0x0 0x1E 0x0 0x0 0x0 0x0 0x0 0x18 0x0 0x0 0x0 0x0 0x8003 0x8000 0x8000 0xFFFFFFFF 0xFFFFFFFF 0xFFFFFFFF 0xFFFFFFFF 0x0 0x1 0x4 0x1 0x1 0x0 0x0 0x0 0x0 0x0 0x0 0x0 0x8063 0x1 0x1 0x0 0x7 0x1 0x0;
  mk_config (Some 578%nat) false 0x1 0x0 0xA 0xA 0xA 0x0 0x3FF 0xFFC00 0x3FF00000 0x0 0x1E 0x0 0x0 0x0 0x0 0x0 0x18 0x0 0x0 0x0 0x0 0x8003 0x8000 0x8000 0xFFFFFFFF 0xFFFFFFFF 0xFFFFFFFF 0xFFFFFFFF 0x0 0x1 0x4 0x1 0x1 0x0 0x0 0x0 0x0 0x0 0x0 0x0 0x8063 0x1 0x1 0x0 0x7 0x1 0x0;
  mk_config (Some 579%nat) false 0x1 0x0 0xA 0xA 0xA 0x0 0x3FF 0xFFC00 0x3FF00000 0x0 0x1E 0x0 0x0 0x0 0x0 0x0 0x18 0x0 0x0 0x0 0x0 0x8003 0x8000 0x8000 0xFFFFFFFF 0xFFFFFFFF 0xFFFFFFFF 0xFFFFFFFF 0x0 0x1 0x4 0x1 0x1 0x0 0x0 0x0 0x0 0x0 0x0 0x0 0x8062 0x1 0x1 0x0 0x7 0x1 0x0;
  mk_config (Some 580%nat) false 0x0 0x0 0xA 0xA 0xA 0x0 0x3FF 0xFFC00 0x3FF00000 0x0 0x1E 0x0 0x0 0x0 0x0 0x0 0x18 0x8 0x0 0x0 0x0 0x8003 0x8000 0x8000 0xFFFFFFFF 0xFFFFFFFF 0xFFFFFFFF 0xFFFFFFFF 0x0 0x1 0x4 0x1 0x1 0x0 0x0 0x0 0x0 0x0 0x0 0x0 0x8063 0x1 0x1 0x0 0x7 0x1 0x0;
  mk_config (Some 581%nat) false 0x1 0x0 0xA 0xA 0xA 0x0 0x3FF 0xFFC00 0x3FF00000 0x0 0x1E 0x0 0x0 0x0 0x0 0x0 0x18 0x8 0x0 0x0 0x0 0x8003 0x8000 0x8000 0xFFFFFFFF 0xFFFFFFFF 0xFFFFFFFF 0xFFFFFFFF 0x0 0x1 0x4 0x1 0x1 0x0 0x0 0x0 0x0 0x0 0x0 0x0 0x8063 0x1 0x1 0x0 0x7 0x1 0x0;
  mk_config (Some 582%nat) false 0x1 0x0 0xA 0xA 0xA 0x0 0x3FF 0xFFC00 0x3FF00000 0x0 0x1E 0x0 0x0 0x0 0x0 0x0 0x18 0x8 0x0 0x0 0x0 0x8003 0x8000 0x8000 0xFFFFFFFF 0xFFFFFFFF 0xFFFFFFFF 0xFFFFFFFF 0x0 0x1 0x4 0x1 0x1 0x0 0x0 0x0 0x0 0x0 0x0 0x0 0x8062 0x1 0x1 0x0 0x7 0x1 0x0;
  mk_config (Some 583%nat) false 0x0 0x0 0xA 0xA 0xA 0x0 0x3FF 0xFFC00 0x3FF00000 0x0 0x1E 0x0 0x0 0x0 0x0 0x0 0x20 0x0 0x0 0x0 0x0 0x8003 0x8000 0x8000 0xFFFFFFFF 0xFFFFFFFF 0xFFFFFFFF 0xFFFFFFFF 0x0 0x1 0x4 0x1 0x1 0x0 0x0 0x0 0x0 0x0 0x0 0x0 0x8063 0x1 0x1 0x0 0x7 0x1 0x0;
  mk_config (Some 584%nat) false 0x1 0x0 0xA 0xA 0xA 0x0 0x3FF 0xFFC00 0x3FF00000 0x0 0x1E 0x0 0x0 0x0 0x0 0x0 0x20 0x0 0x0 0x0 0x0 0x8003 0x8000 0x8000 0xFFFFFFFF 0xFFFFFFFF 0xFFFFFFFF 0xFFFFFFFF 0x0 0x1 0x4 0x1 0x1 0x0 0x0 0x0 0x0 0x0 0x0 0x0 0x8063 0x1 0x1 0x0 0x7 0x1 0x0;
  mk_config (Some 585%nat) false 0x1 0x0 0xA 0xA 0xA 0x0 0x3FF 0xFFC00 0x3FF00000 0x0 0x1E 0x0 0x0 0x0 0x0 0x0 0x20 0x0 0x0 0x0 0x0 0x8003 0x8000 0x8000 0xFFFFFFFF 0xFFFFFFFF 0xFFFFFFFF 0xFFFFFFFF 0x0 0x1 0x4 0x1 0x1 0x0 0x0 0x0 0x0 0x0 0x0 0x0 0x8062 0x1 0x1 0x0 0x7 0x1 0x0;
  mk_config (Some 586%nat) false 0x0 0x0 0x8 0x8 0x8 0x8 0xFF0000 0xFF00 0xFF 0xFF000000 0x20 0x0 0x0 0x0 0x0 0x0 0x0 0x0 0x0 0x0 0x0 0x8003 0x8000 0x8000 0xFFFFFFFF 0xFFFFFFFF 0xFFFFFFFF 0xFFFFFFFF 0x0 0x0 0x0 0x7 0x1 0x0 0x0 0x0 0x0 0x0 0x0 0x0 0x8063 0x1 0x1 0x0 0x7 0x1 0x0;
  mk_config (Some 587%nat) false 0x0 0x0 0x8 0x8 0x8 0x8 0xFF0000 0xFF00 0xFF 0xFF000000 0x20 0x0 0x10 0x10 0x10 0x10 0x0 0x0 0x0 0x0 0x0 0x8003 0x8001 0x8000 0xFFFFFFFF 0xFFFFFFFF 0xFFFFFFFF 0xFFFFFFFF 0x0 0x0 0x0 0x7 0x1 0x0 0x0 0x0 0x0 0x0 0x0 0x0 0x8063 0x1 0x1 0x0 0x7 0x1 0x0;
  mk_config (Some 588%nat) false 0x1 0x0 0x8 0x8 0x8 0x8 0xFF0000 0xFF00 0xFF 0xFF000000 0x20 0x0 0x0 0x0 0x0 0x0 0x0 0x0 0x0 0x0 0x0 0x8003 0x8000 0x8000 0xFFFFFFFF 0xFFFFFFFF 0xFFFFFFFF 0xFFFFFFFF 0x0 0x0 0x0 0x7 0x1 0x0 0x0 0x0 0x0 0x0 0x0 0x0 0x8063 0x1 0x1 0x0 0x7 0x1 0x0;
  mk_config (Some 589%nat) false 0x1 0x0 0x8 0x8 0x8 0x8 0xFF0000 0xFF00 0xFF 0xFF000000 0x20 0x0 0x10 0x10 0x10 0x10 0x0 0x0 0x0 0x0 0x0 0x8003 0x8001 0x8000 0xFFFFFFFF 0xFFFFFFFF 0xFFFFFFFF 0xFFFFFFFF 0x0 0x0 0x0 0x7 0x1 0x0 0x0 0x0 0x0 0x0 0x0 0x0 0x8063 0x1 0x1 0x0 0x7 0x1 0x0;
  mk_config (Some 590%nat) false 0x1 0x0 0x8 0x8 0x8 0x8 0xFF0000 0xFF00 0xFF 0xFF000000 0x20 0x0 0x0 0x0 0x0 0x0 0x0 0x0 0x0 0x0 0x0 0x8003 0x8000 0x8000 0xFFFFFFFF 0xFFFFFFFF 0xFFFFFFFF 0xFFFFFFFF 0x0 0x0 0x0 0x7 0x1 0x0 0x0 0x0 0x0 0x0 0x0 0x0 0x8062 0x1 0x1 0x0 0x7 0x1 0x0;
  mk_config (Some 591%nat) false 0x1 0x0 0x8 0x8 0x8 0x8 0xFF0000 0xFF00 0xFF 0xFF000000 0x20 0x0 0x10 0x10 0x10 0x10 0x0 0x0 0x0 0x0 0x0 0x8003 0x8001 0x8000 0xFFFFFFFF 0xFFFFFFFF 0xFFFFFFFF 0xFFFFFFFF 0x0 0x0 0x0 0x7 0x1 0x0 0x0 0x0 0x0 0x0 0x0 0x0 0x8062 0x1 0x1 0x0 0x7 0x1 0x0;
  mk_config (Some 592%nat) false 0x0 0x0 0x8 0x8 0x8 0x8 0xFF0000 0xFF00 0xFF 0xFF000000 0x20 0x0 0x0 0x0 0x0 0x0 0x10 0x0 0x0 0x0 0x0 0x8003 0x8000 0x8000 0xFFFFFFFF 0xFFFFFFFF 0xFFFFFFFF 0xFFFFFFFF 0x0 0x0 0x0 0x7 0x1 0x0 0x0 0x0 0x0 0x0 0x0 0x0 0x8063 0x1 0x1 0x0 0x7 0x1 0x0;
  mk_config (Some 593%nat) false 0x0 0x0 0x8 0x8 0x8 0x8 0xFF0000 0xFF00 0xFF 0xFF000000 0x20 0x0 0x10 0x10 0x10 0x10 0x10 0x0 0x0 0x0 0x0 0x8003 0x8001 0x8000 0xFFFFFFFF 0xFFFFFFFF 0xFFFFFFFF 0xFFFFFFFF 0x0 0x0 0x0 0x7 0x1 0x0 0x0 0x0 0x0 0x0 0x0 0x0 0x8063 0x1 0x1 0x0 0x7 0x1 0x0;
  mk_config (Some 594%nat) false 0x1 0x0 0x8 0x8 0x8 0x8 0xFF0000 0xFF00 0xFF 0xFF000000 0x20 0x0 0x0 0x0 0x0 0x0 0x10 0x0 0x0 0x0 0x0 0x8003 0x8000 0x8000 0xFFFFFFFF 0xFFFFFFFF 0xFFFFFFFF 0xFFFFFFFF 0x0 0x0 0x0 0x7 0x1 0x0 0x0 0x0 0x0 0x0 0x0 0x0 0x8063 0x1 0x1 0x0 0x7 0x1 0x0;
  mk_config (Some 595%nat) false 0x1 0x0 0x8 0x8 0x8 0x8 0xFF0000 0xFF00 0xFF 0xFF000000 0x20 0x0 0x10 0x10 0x10 0x10 0x10 0x0 0x0 0x0 0x0 0x8003 0x8001 0x8000 0xFFFFFFFF 0xFFFFFFFF 0xFFFFFFFF 0xFFFFFFFF 0x0 0x0 0x0 0x7 0x1 0x0 0x0 0x0 0x0 0x0 0x0 0x0 0x8063 0x1 0x1 0x0 0x7 0x1 0x0;
  mk_config (Some 596%nat) false 0x1 0x0 0x8 0x8 0x8 0x8 0xFF0000 0xFF00 0xFF 0xFF000000 0x20 0x0 0x0 0x0 0x0 0x0 0x10 0x0 0x0 0x0 0x0 0x8003 0x8000 0x8000 0xFFFFFFFF 0xFFFFFFFF 0xFFFFFFFF 0xFFFFFFFF 0x0 0x0 0x0 0x7 0x1 0x0 0x0 0x0 0x0 0x0 0x0 0x0 0x8062 0x1 0x1 0x0 0x7 0x1 0x0;
  mk_config (Some 597%nat) false 0x1 0x0 0x8 0x8 0x8 0x8 0xFF0000 0xFF00 0xFF 0xFF000000 0x20 0x0 0x10 0x10 0x10 0x10 0x10 0x0 0x0 0x0 0x0 0x8003 0x8001 0x8000 0xFFFFFFFF 0xFFFFFFFF 0xFFFFFFFF 0xFFFFFFFF 0x0 0x0 0x0 0x7 0x1 0x0 0x0 0x0 0x0 0x0 0x0 0x0 0x8062 0x1 0x1 0x0 0x7 0x1 0x0;
  mk_config (Some 598%nat) false 0x0 0x0 0x8 0x8 0x8 0x8 0xFF0000 0xFF00 0xFF 0xFF000000 0x20 0x0 0x0 0x0 0x0 0x0 0x18 0x0 0x0 0x0 0x0 0x8003 0x8000 0x8000 0xFFFFFFFF 0xFFFFFFFF 0xFFFFFFFF 0xFFFFFFFF 0x0 0x0 0x0 0x7 0x1 0x0 0x0 0x0 0x0 0x0 0x0 0x0 0x8063 0x1 0x1 0x0 0x7 0x1 0x0;
  mk_config (Some 599%nat) false 0x0 0x0 0x8 0x8 0x8 0x8 0xFF0000 0xFF00 0xFF 0xFF000000 0x20 0x0 0x10 0x10 0x10 0x10 0x18 0x0 0x0 0x0 0x0 0x8003 0x8001 0x8000 0xFFFFFFFF 0xFFFFFFFF 0xFFFFFFFF 0xFFFFFFFF 0x0 0x0 0x0 0x7 0x1 0x0 0x0 0x0 0x0 0x0 0x0 0x0 0x8063 0x1 0x1 0x0 0x7 0x1 0x0;
  mk_config (Some 600%nat) false 0x1 0x0 0x8 0x8 0x8 0x8 0xFF0000 0xFF00 0xFF 0xFF000000 0x20 0x0 0x0 0x0 0x0 0x0 0x18 0x0 0x0 0x0 0x0 0x8003 0x8000 0x8000 0xFFFFFFFF 0xFFFFFFFF 0xFFFFFFFF 0xFFFFFFFF 0x0 0x0 0x0 0x7 0x1 0x0 0x0 0x0 0x0 0x0 0x0 0x0 0x8063 0x1 0x1 0x0 0x7 0x1 0x0;
  mk_config (Some 601%nat) false 0x1 0x0 0x8 0x8 0x8 0x8 0xFF0000 0xFF00 0xFF 0xFF000000 0x20 0x0 0x10 0x10 0x10 0x10 0x18 0x0 0x0 0x0 0x0 0x8003 0x8001 0x8000 0xFFFFFFFF 0xFFFFFFFF 0xFFFFFFFF 0xFFFFFFFF 0x0 0x0 0x0 0x7 0x1 0x0 0x0 0x0 0x0 0x0 0x0 0x0 0x8063 0x1 0x1 0x0 0x7 0x1 0x0;
  mk_config (Some 602%nat) false 0x1 0x0 0x8 0x8 0x8 0x8 0xFF0000 0xFF00 0xFF 0xFF000000 0x20 0x0 0x0 0x0 0x0 0x0 0x18 0x0 0x0 0x0 0x0 0x8003 0x8000 0x8000 0xFFFFFFFF 0xFFFFFFFF 0xFFFFFFFF 0xFFFFFFFF 0x0 0x0 0x0 0x7 0x1 0x0 0x0 0x0 0x0 0x0 0x0 0x0 0x8062 0x1 0x1 0x0 0x7 0x1 0x0;
  mk_config (Some 603%nat) false 0x1 0x0 0x8 0x8 0x8 0x8 0xFF0000 0xFF00 0xFF 0xFF000000 0x20 0x0 0x10 0x10 0x10 0x10 0x18 0x0 0x0 0x0 0x0 0x8003 0x8001 0x8000 0xFFFFFFFF 0xFFFFFFFF 0xFFFFFFFF 0xFFFFFFFF 0x0 0x0 0x0 0x7 0x1 0x0 0x0 0x0 0x0 0x0 0x0 0x0 0x8062 0x1 0x1 0x0 0x7 0x1 0x0;
  mk_config (Some 604%nat) false 0x0 0x0 0x8 0x8 0x8 0x8 0xFF0000 0xFF00 0xFF 0xFF000000 0x20 0x0 0x0 0x0 0x0 0x0 0x18 0x8 0x0 0x0 0x0 0x8003 0x8000 0x8000 0xFFFFFFFF 0xFFFFFFFF 0xFFFFFFFF 0xFFFFFFFF 0x0 0x0 0x0 0x7 0x1 0x0 0x0 0x0 0x0 0x0 0x0 0x0 0x8063 0x1 0x1 0x0 0x7 0x1 0x0;
  mk_config (Some 605%nat) false 0x0 0x0 0x8 0x8 0x8 0x8 0xFF0000 0xFF00 0xFF 0xFF000000 0x20 0x0 0x10 0x10 0x10 0x10 0x18 0x8 0x0 0x0 0x0 0x8003 0x8001 0x8000 0xFFFFFFFF 0xFFFFFFFF 0xFFFFFFFF 0xFFFFFFFF 0x0 0x0 0x0 0x7 0x1 0x0 0x0 0x0 0x0 0x0 0x0 0x0 0x8063 0x1 0x1 0x0 0x7 0x1 0x0;
  mk_config (Some 606%nat) false 0x1 0x0 0x8 0x8 0x8 0x8 0xFF0000 0xFF00 0xFF 0xFF000000 0x20 0x0 0x0 0x0 0x0 0x0 0x18 0x8 0x0 0x0 0x0 0x8003 0x8000 0x8000 0xFFFFFFFF 0xFFFFFFFF 0xFFFFFFFF 0xFFFFFFFF 0x0 0x0 0x0 0x7 0x1 0x0 0x0 0x0 0x0 0x0 0x0 0x0 0x8063 0x1 0x1 0x0 0x7 0x1 0x0;
  mk_config (Some 607%nat) false 0x1 0x0 0x8 0x8 0x8 0x8 0xFF0000 0xFF00 0xFF 0xFF000000 0x20 0x0 0x10 0x10 0x10 0x10 0x18 0x8 0x0 0x0 0x0 0x8003 0x8001 0x8000 0xFFFFFFFF 0xFFFFFFFF 0xFFFFFFFF 0xFFFFFFFF 0x0 0x0 0x0 0x7 0x1 0x0 0x0 0x0 0x0 0x0 0x0 0x0 0x8063 0x1 0x1 0x0 0x7 0x1 0x0;
  mk_config (Some 608%nat) false 0x1 0x0 0x8 0x8 0x8 0x8 0xFF0000 0xFF00 0xFF 0xFF000000 0x20 0x0 0x0 0x0 0x0 0x0 0x18 0x8 0x0 0x0 0x0 0x8003 0x8000 0x8000 0xFFFFFFFF 0xFFFFFFFF 0xFFFFFFFF 0xFFFFFFFF 0x0 0x0 0x0 0x7 0x1 0x0 0x0 0x0 0x0 0x0 0x0 0x0 0x8062 0x1 0x1 0x0 0x7 0x1 0x0;
  mk_config (Some 609%nat) false 0x1 0x0 0x8 0x8 0x8 0x8 0xFF0000 0xFF00 0xFF 0xFF000000 0x20 0x0 0x10 0x10 0x10 0x10 0x18 0x8 0x0 0x0 0x0 0x8003 0x8001 0x8000 0xFFFFFFFF 0xFFFFFFFF 0xFFFFFFFF 0xFFFFFFFF 0x0 0x0 0x0 0x7 0x1 0x0 0x0 0x0 0x0 0x0 0x0 0x0 0x8062 0x1 0x1 0x0 0x7 0x1 0x0;
  mk_config (Some 610%nat) false 0x0 0x0 0x8 0x8 0x8 0x8 0xFF0000 0xFF00 0xFF 0xFF000000 0x20 0x0 0x0 0x0 0x0 0x0 0x20 0x0 0x0 0x0 0x0 0x8003 0x8000 0x8000 0xFFFFFFFF 0xFFFFFFFF 0xFFFFFFFF 0xFFFFFFFF 0x0 0x0 0x0 0x7 0x1 0x0 0x0 0x0 0x0 0x0 0x0 0x0 0x8063 0x1 0x1 0x0 0x7 0x1 0x0;
  mk_config (Some 611%nat) false 0x0 0x0 0x8 0x8 0x8 0x8 0xFF0000 0xFF00 0xFF 0xFF000000 0x20 0x0 0x10 0x10 0x10 0x10 0x20 0x0 0x0 0x0 0x0 0x8003 0x8001 0x8000 0xFFFFFFFF 0xFFFFFFFF 0xFFFFFFFF 0xFFFFFFFF 0x0 0x0 0x0 0x7 0x1 0x0 0x0 0x0 0x0 0x0 0x0 0x0 0x8063 0x1 0x1 0x0 0x7 0x1 0x0;
  mk_config (Some 612%nat) false 0x1 0x0 0x8 0x8 0x8 0x8 0xFF0000 0xFF00 0xFF 0xFF000000 0x20 0x0 0x0 0x0 0x0 0x0 0x20 0x0 0x0 0x0 0x0 0x8003 0x8000 0x8000 0xFFFFFFFF 0xFFFFFFFF 0xFFFFFFFF 0xFFFFFFFF 0x0 0x0 0x0 0x7 0x1 0x0 0x0 0x0 0x0 0x0 0x0 0x0 0x8063 0x1 0x1 0x0 0x7 0x1 0x0;
  mk_config (Some 613%nat) false 0x1 0x0 0x8 0x8 0x8 0x8 0xFF0000 0xFF00 0xFF 0xFF000000 0x20 0x0 0x10 0x10 0x10 0x10 0x20 0x0 0x0 0x0 0x0 0x8003 0x8001 0x8000 0xFFFFFFFF 0xFFFFFFFF 0xFFFFFFFF 0xFFFFFFFF 0x0 0x0 0x0 0x7 0x1 0x0 0x0 0x0 0x0 0x0 0x0 0x0 0x8063 0x1 0x1 0x0 0x7 0x1 0x0;
  mk_config (Some 614%nat) false 0x1 0x0 0x8 0x8 0x8 0x8 0xFF0000 0xFF00 0xFF 0xFF000000 0x20 0x0 0x0 0x0 0x0 0x0 0x20 0x0 0x0 0x0 0x0 0x8003 0x8000 0x8000 0xFFFFFFFF 0xFFFFFFFF 0xFFFFFFFF 0xFFFFFFFF 0x0 0x0 0x0 0x7 0x1 0x0 0x0 0x0 0x0 0x0 0x0 0x0 0x8062 0x1 0x1 0x0 0x7 0x1 0x0;
  mk_config (Some 615%nat) false 0x1 0x0 0x8 0x8 0x8 0x8 0xFF0000 0xFF00 0xFF 0xFF000000 0x20 0x0 0x10 0x10 0x10 0x10 0x20 0x0 0x0 0x0 0x0 0x8003 0x8001 0x8000 0xFFFFFFFF 0xFFFFFFFF 0xFFFFFFFF 0xFFFFFFFF 0x0 0x0 0x0 0x7 0x1 0x0 0x0 0x0 0x0 0x0 0x0 0x0 0x8062 0x1 0x1 0x0 0x7 0x1 0x0;
  mk_config (Some 616%nat) false 0x0 0x0 0x8 0x8 0x8 0x8 0xFF0000 0xFF00 0xFF 0xFF000000 0x20 0x0 0x0 0x0 0x0 0x0 0x0 0x0 0x0 0x0 0x0 0x8003 0x8000 0x8000 0xFFFFFFFF 0xFFFFFFFF 0xFFFFFFFF 0xFFFFFFFF 0x0 0x1 0x4 0x7 0x1 0x0 0x0 0x0 0x0 0x0 0x0 0x0 0x8063 0x1 0x1 0x0 0x7 0x1 0x0;
  mk_config (Some 617%nat) false 0x1 0x0 0x8 0x8 0x8 0x8 0xFF0000 0xFF00 0xFF 0xFF000000 0x20 0x0 0x0 0x0 0x0 0x0 0x0 0x0 0x0 0x0 0x0 0x8003 0x8000 0x8000 0xFFFFFFFF 0xFFFFFFFF 0xFFFFFFFF 0xFFFFFFFF 0x0 0x1 0x4 0x7 0x1 0x0 0x0 0x0 0x0 0x0 0x0 0x0 0x8063 0x1 0x1 0x0 0x7 0x1 0x0;
  mk_config (Some 618%nat) false 0x1 0x0 0x8 0x8 0x8 0x8 0xFF0000 0xFF00 0xFF 0xFF000000 0x20 0x0 0x0 0x0 0x0 0x0 0x0 0x0 0x0 0x0 0x0 0x8003 0x8000 0x8000 0xFFFFFFFF 0xFFFFFFFF 0xFFFFFFFF 0xFFFFFFFF 0x0 0x1 0x4 0x7 0x1 0x0 0x0 0x0 0x0 0x0 0x0 0x0 0x8062 0x1 0x1 0x0 0x7 0x1 0x0;
  mk_config (Some 619%nat) false 0x0 0x0 0x8 0x8 0x8 0x8 0xFF0000 0xFF00 0xFF 0xFF000000 0x20 0x0 0x0 0x0 0x0 0x0 0x10 0x0 0x0 0x0 0x0 0x8003 0x8000 0x8000 0xFFFFFFFF 0xFFFFFFFF 0xFFFFFFFF 0xFFFFFFFF 0x0 0x1 0x4 0x7 0x1 0x0 0x0 0x0 0x0 0x0 0x0 0x0 0x8063 0x1 0x1 0x0 0x7 0x1 0x0;
  mk_config (Some 620%nat) false 0x1 0x0 0x8 0x8 0x8 0x8 0xFF0000 0xFF00 0xFF 0xFF000000 0x20 0x0 0x0 0x0 0x0 0x0 0x10 0x0 0x0 0x0 0x0 0x8003 0x8000 0x8000 0xFFFFFFFF 0xFFFFFFFF 0xFFFFFFFF 0xFFFFFFFF 0x0 0x1 0x4 0x7 0x1 0x0 0x0 0x0 0x0 0x0 0x0 0x0 0x8063 0x1 0x1 0x0 0x7 0x1 0x0;
  mk_config (Some 621%nat) false 0x1 0x0 0x8 0x8 0x8 0x8 0xFF0000 0xFF00 0xFF 0xFF000000 0x20 0x0 0x0 0x0 0x0 0x0 0x10 0x0 0x0 0x0 0x0 0x8003 0x8000 0x8000 0xFFFFFFFF 0xFFFFFFFF 0xFFFFFFFF 0xFFFFFFFF 0x0 0x1 0x4 0x7 0x1 0x0 0x0 0x0 0x0 0x0 0x0 0x0 0x8062 0x1 0x1 0x0 0x7 0x1 0x0;
  mk_config (Some 622%nat) false 0x0 0x0 0x8 0x8 0x8 0x8 0xFF0000 0xFF00 0xFF 0xFF000000 0x20 0x0 0x0 0x0 0x0 0x0 0x18 0x0 0x0 0x0 0x0 0x8003 0x8000 0x8000 0xFFFFFFFF 0xFFFFFFFF 0xFFFFFFFF 0xFFFFFFFF 0x0 0x1 0x4 0x7 0x1 0x0 0x0 0x0 0x0 0x0 0x0 0x0 0x8063 0x1 0x1 0x0 0x7 0x1 0x0;
  mk_config (Some 623%nat) false 0x1 0x0 0x8 0x8 0x8 0x8 0xFF0000 0xFF00 0xFF 0xFF000000 0x20 0x0 0x0 0x0 0x0 0x0 0x18 0x0 0x0 0x0 0x0 0x8003 0x8000 0x8000 0xFFFFFFFF 0xFFFFFFFF 0xFFFFFFFF 0xFFFFFFFF 0x0 0x1 0x4 0x7 0x1 0x0 0x0 0x0 0x0 0x0 0x0 0x0 0x8063 0x1 0x1 0x0 0x7 0x1 0x0;
  mk_config (Some 624%nat) false 0x1 0x0 0x8 0x8 0x8 0x8 0xFF0000 0xFF00 0xFF 0xFF000000 0x20 0x0 0x0 0x0 0x0 0x0 0x18 0x0 0x0 0x0 0x0 0x8003 0x8000 0x8000 0xFFFFFFFF 0xFFFFFFFF 0xFFFFFFFF 0xFFFFFFFF 0x0 0x1 0x4 0x7 0x1 0x0 0x0 0x0 0x0 0x0 0x0 0x0 0x8062 0x1 0x1 0x0 0x7 0x1 0x0;
  mk_config (Some 625%nat) false 0x0 0x0 0x8 0x8 0x8 0x8 0xFF0000 0xFF00 0xFF 0xFF000000 0x20 0x0 0x0 0x0 0x0 0x0 0x18 0x8 0x0 0x0 0x0 0x8003 0x8000 0x8000 0xFFFFFFFF 0xFFFFFFFF 0xFFFFFFFF 0xFFFFFFFF 0x0 0x1 0x4 0x7 0x1 0x0 0x0 0x0 0x0 0x0 0x0 0x0 0x8063 0x1 0x1 0x0 0x7 0x1 0x0;
  mk_config (Some 626%nat) false 0x1 0x0 0x8 0x8 0x8 0x8 0xFF0000 0xFF00 0xFF 0xFF000000 0x20 0x0 0x0 0x0 0x0 0x0 0x18 0x8 0x0 0x0 0x0 0x8003 0x8000 0x8000 0xFFFFFFFF 0xFFFFFFFF 0xFFFFFFFF 0xFFFFFFFF 0x0 0x1 0x4 0x7 0x1 0x0 0x0 0x0 0x0 0x0 0x0 0x0 0x8063 0x1 0x1 0x0 0x7 0x1 0x0;
  mk_config (Some 627%nat) false 0x1 0x0 0x8 0x8 0x8 0x8 0xFF0000 0xFF00 0xFF 0xFF000000 0x20 0x0 0x0 0x0 0x0 0x0 0x18 0x8 0x0 0x0 0x0 0x8003 0x8000 0x8000 0xFFFFFFFF 0xFFFFFFFF 0xFFFFFFFF 0xFFFFFFFF 0x0 0x1 0x4 0x7 0x1 0x0 0x0 0x0 0x0 0x0 0x0 0x0 0x8062 0x1 0x1 0x0 0x7 0x1 0x0;
  mk_config (Some 628%nat) false 0x0 0x0 0x8 0x8 0x8 0x8 0xFF0000 0xFF00 0xFF 0xFF000000 0x20 0x0 0x0 0x0 0x0 0x0 0x20 0x0 0x0 0x0 0x0 0x8003 0x8000 0x8000 0xFFFFFFFF 0xFFFFFFFF 0xFFFFFFFF 0xFFFFFFFF 0x0 0x1 0x4 0x7 0x1 0x0 0x0 0x0 0x0 0x0 0x0 0x0 0x8063 0x1 0x1 0x0 0x7 0x1 0x0;
  mk_config (Some 629%nat) false 0x1 0x0 0x8 0x8 0x8 0x8 0xFF0000 0xFF00 0xFF 0xFF000000 0x20 0x0 0x0 0x0 0x0 0x0 0x20 0x0 0x0 0x0 0x0 0x8003 0x8000 0x8000 0xFFFFFFFF 0xFFFFFFFF 0xFFFFFFFF 0xFFFFFFFF 0x0 0x1 0x4 0x7 0x1 0x0 0x0 0x0 0x0 0x0 0x0 0x0 0x8063 0x1 0x1 0x0 0x7 0x1 0x0;
  mk_config (Some 630%nat) false 0x1 0x0 0x8 0x8 0x8 0x8 0xFF0000 0xFF00 0xFF 0xFF000000 0x20 0x0 0x0 0x0 0x0 0x0 0x20 0x0 0x0 0x0 0x0 0x8003 0x8000 0x8000 0xFFFFFFFF 0xFFFFFFFF 0xFFFFFFFF 0xFFFFFFFF 0x0 0x1 0x4 0x7 0x1 0x0 0x0 0x0 0x0 0x0 0x0 0x0 0x8062 0x1 0x1 0x0 0x7 0x1 0x0;
  mk_config (Some 631%nat) false 0x0 0x0 0x8 0x8 0x8 0x0 0xFF0000 0xFF00 0xFF 0x0 0x18 0x0 0x0 0x0 0x0 0x0 0x0 0x0 0x0 0x0 0x0 0x8003 0x8000 0x8000 0xFFFFFFFF 0xFFFFFFFF 0xFFFFFFFF 0xFFFFFFFF 0x0 0x0 0x0 0x7 0x1 0x0 0x0 0x0 0x0 0x0 0x0 0x0 0x8063 0x1 0x1 0x0 0x7 0x1 0x0;
  mk_config (Some 632%nat) false 0x0 0x0 0x8 0x8 0x8 0x0 0xFF0000 0xFF00 0xFF 0x0 0x18 0x0 0x10 0x10 0x10 0x10 0x0 0x0 0x0 0x0 0x0 0x8003 0x8001 0x8000 0xFFFFFFFF 0xFFFFFFFF 0xFFFFFFFF 0xFFFFFFFF 0x0 0x0 0x0 0x7 0x1 0x0 0x0 0x0 0x0 0x0 0x0 0x0 0x8063 0x1 0x1 0x0 0x7 0x1 0x0;
  mk_config (Some 633%nat) false 0x1 0x0 0x8 0x8 0x8 0x0 0xFF0000 0xFF00 0xFF 0x0 0x18 0x0 0x0 0x0 0x0 0x0 0x0 0x0 0x0 0x0 0x0 0x8003 0x8000 0x8000 0xFFFFFFFF 0xFFFFFFFF 0xFFFFFFFF 0xFFFFFFFF 0x0 0x0 0x0 0x7 0x1 0x0 0x0 0x0 0x0 0x0 0x0 0x0 0x8063 0x1 0x1 0x0 0x7 0x1 0x0;
  mk_config (Some 634%nat) false 0x1 0x0 0x8 0x8 0x8 0x0 0xFF0000 0xFF00 0xFF 0x0 0x18 0x0 0x10 0x10 0x10 0x10 0x0 0x0 0x0 0x0 0x0 0x8003 0x8001 0x8000 0xFFFFFFFF 0xFFFFFFFF 0xFFFFFFFF 0xFFFFFFFF 0x0 0x0 0x0 0x7 0x1 0x0 0x0 0x0 0x0 0x0 0x0 0x0 0x8063 0x1 0x1 0x0 0x7 0x1 0x0;
  mk_config (Some 635%nat) false 0x1 0x0 0x8 0x8 0x8 0x0 0xFF0000 0xFF00 0xFF 0x0 0x18 0x0 0x0 0x0 0x0 0x0 0x0 0x0 0x0 0x0 0x0 0x8003 0x8000 0x8000 0xFFFFFFFF 0xFFFFFFFF 0xFFFFFFFF 0xFFFFFFFF 0x0 0x0 0x0 0x7 0x1 0x0 0x0 0x0 0x0 0x0 0x0 0x0 0x8062 0x1 0x1 0x0 0x7 0x1 0x0;
  mk_config (Some 636%nat) false 0x1 0x0 0x8 0x8 0x8 0x0 0xFF0000 0xFF00 0xFF 0x0 0x18 0x0 0x10 0x10 0x10 0x10 0x0 0x0 0x0 0x0 0x0 0x8003 0x8001 0x8000 0xFFFFFFFF 0xFFFFFFFF 0xFFFFFFFF 0xFFFFFFFF 0x0 0x0 0x0 0x7 0x1 0x0 0x0 0x0 0x0 0x0 0x0 0x0 0x8062 0x1 0x1 0x0 0x7 0x1 0x0;
  mk_config (Some 637%nat) false 0x0 0x0 0x8 0x8 0x8 0x0 0xFF0000 0xFF00 0xFF 0x0 0x18 0x0 0x0 0x0 0x0 0x0 0x10 0x0 0x0 0x0 0x0 0x8003 0x8000 0x8000 0xFFFFFFFF 0xFFFFFFFF 0xFFFFFFFF 0xFFFFFFFF 0x0 0x0 0x0 0x7 0x1 0x0 0x0 0x0 0x0 0x0 0x0 0x0 0x8063 0x1 0x1 0x0 0x7 0x1 0x0;
  mk_config (Some 638%nat) false 0x0 0x0 0x8 0x8 0x8 0x0 0xFF0000 0xFF00 0xFF 0x0 0x18 0x0 0x10 0x10 0x10 0x10 0x10 0x0 0x0 0x0 0x0 0x8003 0x8001 0x8000 0xFFFFFFFF 0xFFFFFFFF 0xFFFFFFFF 0xFFFFFFFF 0x0 0x0 0x0 0x7 0x1 0x0 0x0 0x0 0x0 0x0 0x0 0x0 0x8063 0x1 0x1 0x0 0x7 0x1 0x0;
  mk_config (Some 639%nat) false 0x1 0x0 0x8 0x8 0x8 0x0 0xFF0000 0xFF00 0xFF 0x0 0x18 0x0 0x0 0x0 0x0 0x0 0x10 0x0 0x0 0x0 0x0 0x8003 0x8000 0x8000 0xFFFFFFFF 0xFFFFFFFF 0xFFFFFFFF 0xFFFFFFFF 0x0 0x0 0x0 0x7 0x1 0x0 0x0 0x0 0x0 0x0 0x0 0x0 0x8063 0x1 0x1 0x0 0x7 0x1 0x0;
  mk_config (Some 640%nat) false 0x1 0x0 0x8 0x8 0x8 0x0 0xFF0000 0xFF00 0xFF 0x0 0x18 0x0 0x10 0x10 0x10 0x10 0x10 0x0 0x0 0x0 0x0 0x8003 0x8001 0x8000 0xFFFFFFFF 0xFFFFFFFF 0xFFFFFFFF 0xFFFFFFFF 0x0 0x0 0x0 0x7 0x1 0x0 0x0 0x0 0x0 0x0 0x0 0x0 0x8063 0x1 0x1 0x0 0x7 0x1 0x0;
  mk_config (Some 641%nat) false 0x1 0x0 0x8 0x8 0x8 0x0 0xFF0000 0xFF00 0xFF 0x0 0x18 0x0 0x0 0x0 0x0 0x0 0x10 0x0 0x0 0x0 0x0 0x8003 0x8000 0x8000 0xFFFFFFFF 0xFFFFFFFF 0xFFFFFFFF 0xFFFFFFFF 0x0 0x0 0x0 0x7 0x1 0x0 0x0 0x0 0x0 0x0 0x0 0x0 0x8062 0x1 0x1 0x0 0x7 0x1 0x0;
  mk_config (Some 642%nat) false 0x1 0x0 0x8 0x8 0x8 0x0 0xFF0000 0xFF00 0xFF 0x0 0x18 0x0 0x10 0x10 0x10 0x10 0x10 0x0 0x0 0x0 0x0 0x8003 0x8001 0x8000 0xFFFFFFFF 0xFFFFFFFF 0xFFFFFFFF 0xFFFFFFFF 0x0 0x0 0x0 0x7 0x1 0x0 0x0 0x0 0x0 0x0 0x0 0x0 0x8062 0x1 0x1 0x0 0x7 0x1 0x0;
  mk_config (Some 643%nat) false 0x0 0x0 0x8 0x8 0x8 0x0 0xFF0000 0xFF00 0xFF 0x0 0x18 0x0 0x0 0x0 0x0 0x0 0x18 0x0 0x0 0x0 0x0 0x8003 0x8000 0x8000 0xFFFFFFFF 0xFFFFFFFF 0xFFFFFFFF 0xFFFFFFFF 0x0 0x0 0x0 0x7 0x1 0x0 0x0 0x0 0x0 0x0 0x0 0x0 0x8063 0x1 0x1 0x0 0x7 0x1 0x0;
  mk_config (Some 644%nat) false 0x0 0x0 0x8 0x8 0x8 0x0 0xFF0000 0xFF00 0xFF 0x0 0x18 0x0 0x10 0x10 0x10 0x10 0x18 0x0 0x0 0x0 0x0 0x8003 0x8001 0x8000 0xFFFFFFFF 0xFFFFFFFF 0xFFFFFFFF 0xFFFFFFFF 0x0 0x0 0x0 0x7 0x1 0x0 0x0 0x0 0x0 0x0 0x0 0x0 0x8063 0x1 0x1 0x0 0x7 0x1 0x0;
  mk_config (Some 645%nat) false 0x1 0x0 0x8 0x8 0x8 0x0 0xFF0000 0xFF00 0xFF 0x0 0x18 0x0 0x0 0x0 0x0 0x0 0x18 0x0 0x0 0x0 0x0 0x8003 0x8000 0x8000 0xFFFFFFFF 0xFFFFFFFF 0xFFFFFFFF 0xFFFFFFFF 0x0 0x0 0x0 0x7 0x1 0x0 0x0 0x0 0x0 0x0 0x0 0x0 0x8063 0x1 0x1 0x0 0x7 0x1 0x0;
  mk_config (Some 646%nat) false 0x1 0x0 0x8 0x8 0x8 0x0 0xFF0000 0xFF00 0xFF 0x0 0x18 0x0 0x10 0x10 0x10 0x10 0x18 0x0 0x0 0x0 0x0 0x8003 0x8001 0x8000 0xFFFFFFFF 0xFFFFFFFF 0xFFFFFFFF 0xFFFFFFFF 0x0 0x0 0x0 0x7 0x1 0x0 0x0 0x0 0x0 0x0 0x0 0x0 0x8063 0x1 0x1 0x0 0x7 0x1 0x0;
  mk_config (Some 647%nat) false 0x1 0x0 0x8 0x8 0x8 0x0 0xFF0000 0xFF00 0xFF 0x0 0x18 0x0 0x0 0x0 0x0 0x0 0x18 0x0 0x0 0x0 0x0 0x8003 0x8000 0x8000 0xFFFFFFFF 0xFFFFFFFF 0xFFFFFFFF 0xFFFFFFFF 0x0 0x0 0x0 0x7 0x1 0x0 0x0 0x0 0x0 0x0 0x0 0x0 0x8062 0x1 0x1 0x0 0x7 0x1 0x0;
  mk_config (Some 648%nat) false 0x1 0x0 0x8 0x8 0x8 0x0 0xFF0000 0xFF00 0xFF 0x0 0x18 0x0 0x10 0x10 0x10 0x10 0x18 0x0 0x0 0x0 0x0 0x8003 0x8001 0x8000 0xFFFFFFFF 0xFFFFFFFF 0xFFFFFFFF 0xFFFFFFFF 0x0 0x0 0x0 0x7 0x1 0x0 0x0 0x0 0x0 0x0 0x0 0x0 0x8062 0x1 0x1 0x0 0x7 0x1 0x0;
  mk_config (Some 649%nat) false 0x0 0x0 0x8 0x8 0x8 0x0 0xFF0000 0xFF00 0xFF 0x0 0x18 0x0 0x0 0x0 0x0 0x0 0x18 0x8 0x0 0x0 0x0 0x8003 0x8000 0x8000 0xFFFFFFFF 0xFFFFFFFF 0xFFFFFFFF 0xFFFFFFFF 0x0 0x0 0x0 0x7 0x1 0x0 0x0 0x0 0x0 0x0 0x0 0x0 0x8063 0x1 0x1 0x0 0x7 0x1 0x0;
  mk_config (Some 650%nat) false 0x0 0x0 0x8 0x8 0x8 0x0 0xFF0000 0xFF00 0xFF 0x0 0x18 0x0 0x10 0x10 0x10 0x10 0x18 0x8 0x0 0x0 0x0 0x8003 0x8001 0x8000 0xFFFFFFFF 0xFFFFFFFF 0xFFFFFFFF 0xFFFFFFFF 0x0 0x0 0x0 0x7 0x1 0x0 0x0 0x0 0x0 0x0 0x0 0x0 0x8063 0x1 0x1 0x0 0x7 0x1 0x0;
  mk_config (Some 651%nat) false 0x1 0x0 0x8 0x8 0x8 0x0 0xFF0000 0xFF00 0xFF 0x0 0x18 0x0 0x0 0x0 0x0 0x0 0x18 0x8 0x0 0x0 0x0 0x8003 0x8000 0x8000 0xFFFFFFFF 0xFFFFFFFF 0xFFFFFFFF 0xFFFFFFFF 0x0 0x0 0x0 0x7 0x1 0x0 0x0 0x0 0x0 0x0 0x0 0x0 0x8063 0x1 0x1 0x0 0x7 0x1 0x0;
  mk_config (Some 652%nat) false 0x1 0x0 0x8 0x8 0x8 0x0 0xFF0000 0xFF00 0xFF 0x0 0x18 0x0 0x10 0x10 0x10 0x10 0x18 0x8 0x0 0x0 0x0 0x8003 0x8001 0x8000 0xFFFFFFFF 0xFFFFFFFF 0xFFFFFFFF 0xFFFFFFFF 0x0 0x0 0x0 0x7 0x1 0x0 0x0 0x0 0x0 0x0 0x0 0x0 0x8063 0x1 0x1 0x0 0x7 0x1 0x0;
  mk_config (Some 653%nat) false 0x1 0x0 0x8 0x8 0x8 0x0 0xFF0000 0xFF00 0xFF 0x0 0x18 0x0 0x0 0x0 0x0 0x0 0x18 0x8 0x0 0x0 0x0 0x8003 0x8000 0x8000 0xFFFFFFFF 0xFFFFFFFF 0xFFFFFFFF 0xFFFFFFFF 0x0 0x0 0x0 0x7 0x1 0x0 0x0 0x0 0x0 0x0 0x0 0x0 0x8062 0x1 0x1 0x0 0x7 0x1 0x0;
  mk_config (Some 654%nat) false 0x1 0x0 0x8 0x8 0x8 0x0 0xFF0000 0xFF00 0xFF 0x0 0x18 0x0 0x10 0x10 0x10 0x10 0x18 0x8 0x0 0x0 0x0 0x8003 0x8001 0x8000 0xFFFFFFFF 0xFFFFFFFF 0xFFFFFFFF 0xFFFFFFFF 0x0 0x0 0x0 0x7 0x1 0x0 0x0 0x0 0x0 0x0 0x0 0x0 0x8062 0x1 0x1 0x0 0x7 0x1 0x0;
  mk_config (Some 655%nat) false 0x0 0x0 0x8 0x8 0x8 0x0 0xFF0000 0xFF00 0xFF 0x0 0x18 0x0 0x0 0x0 0x0 0x0 0x20 0x0 0x0 0x0 0x0 0x8003 0x8000 0x8000 0xFFFFFFFF 0xFFFFFFFF 0xFFFFFFFF 0xFFFFFFFF 0x0 0x0 0x0 0x7 0x1 0x0 0x0 0x0 0x0 0x0 0x0 0x0 0x8063 0x1 0x1 0x0 0x7 0x1 0x0;
  mk_config (Some 656%nat) false 0x0 0x0 0x8 0x8 0x8 0x0 0xFF0000 0xFF00 0xFF 0x0 0x18 0x0 0x10 0x10 0x10 0x10 0x20 0x0 0x0 0x0 0x0 0x8003 0x8001 0x8000 0xFFFFFFFF 0xFFFFFFFF 0xFFFFFFFF 0xFFFFFFFF 0x0 0x0 0x0 0x7 0x1 0x0 0x0 0x0 0x0 0x0 0x0 0x0 0x8063 0x1 0x1 0x0 0x7 0x1 0x0;
  mk_config (Some 657%nat) false 0x1 0x0 0x8 0x8 0x8 0x0 0xFF0000 0xFF00 0xFF 0x0 0x18 0x0 0x0 0x0 0x0 0x0 0x20 0x0 0x0 0x0 0x0 0x8003 0x8000 0x8000 0xFFFFFFFF 0xFFFFFFFF 0xFFFFFFFF 0xFFFFFFFF 0x0 0x0 0x0 0x7 0x1 0x0 0x0 0x0 0x0 0x0 0x0 0x0 0x8063 0x1 0x1 0x0 0x7 0x1 0x0;
  mk_config (Some 658%nat) false 0x1 0x0 0x8 0x8 0x8 0x0 0xFF0000 0xFF00 0xFF 0x0 0x18 0x0 0x10 0x10 0x10 0x10 0x20 0x0 0x0 0x0 0x0 0x8003 0x8001 0x8000 0xFFFFFFFF 0xFFFFFFFF 0xFFFFFFFF 0xFFFFFFFF 0x0 0x0 0x0 0x7 0x1 0x0 0x0 0x0 0x0 0x0 0x0 0x0 0x8063 0x1 0x1 0x0 0x7 0x1 0x0;
  mk_config (Some 659%nat) false 0x1 0x0 0x8 0x8 0x8 0x0 0xFF0000 0xFF00 0xFF 0x0 0x18 0x0 0x0 0x0 0x0 0x0 0x20 0x0 0x0 0x0 0x0 0x8003 0x8000 0x8000 0xFFFFFFFF 0xFFFFFFFF 0xFFFFFFFF 0xFFFFFFFF 0x0 0x0 0x0 0x7 0x1 0x0 0x0 0x0 0x0 0x0 0x0 0x0 0x8062 0x1 0x1 0x0 0x7 0x1 0x0;
  mk_config (Some 660%nat) false 0x1 0x0 0x8 0x8 0x8 0x0 0xFF0000 0xFF00 0xFF 0x0 0x18 0x0 0x10 0x10 0x10 0x10 0x20 0x0 0x0 0x0 0x0 0x8003 0x8001 0x8000 0xFFFFFFFF 0xFFFFFFFF 0xFFFFFFFF 0xFFFFFFFF 0x0 0x0 0x0 0x7 0x1 0x0 0x0 0x0 0x0 0x0 0x0 0x0 0x8062 0x1 0x1 0x0 0x7 0x1 0x0;
  mk_config (Some 661%nat) false 0x0 0x0 0x8 0x8 0x8 0x0 0xFF0000 0xFF00 0xFF 0x0 0x18 0x0 0x0 0x0 0x0 0x0 0x0 0x0 0x0 0x0 0x0 0x8003 0x8000 0x8000 0xFFFFFFFF 0xFFFFFFFF 0xFFFFFFFF 0xFFFFFFFF 0x0 0x1 0x4 0x7 0x1 0x0 0x0 0x0 0x0 0x0 0x0 0x0 0x8063 0x1 0x1 0x0 0x7 0x1 0x0;
  mk_config (Some 662%nat) false 0x1 0x0 0x8 0x8 0x8 0x0 0xFF0000 0xFF00 0xFF 0x0 0x18 0x0 0x0 0x0 0x0 0x0 0x0 0x0 0x0 0x0 0x0 0x8003 0x8000 0x8000 0xFFFFFFFF 0xFFFFFFFF 0xFFFFFFFF 0xFFFFFFFF 0x0 0x1 0x4 0x7 0x1 0x0 0x0 0x0 0x0 0x0 0x0 0x0 0x8063 0x1 0x1 0x0 0x7 0x1 0x0;
  mk_config (Some 663%nat) false 0x1 0x0 0x8 0x8 0x8 0x0 0xFF0000 0xFF00 0xFF 0x0 0x18 0x0 0x0 0x0 0x0 0x0 0x0 0x0 0x0 0x0 0x0 0x8003 0x8000 0x8000 0xFFFFFFFF 0xFFFFFFFF 0xFFFFFFFF 0xFFFFFFFF 0x0 0x1 0x4 0x7 0x1 0x0 0x0 0x0 0x0 0x0 0x0 0x0 0x8062 0x1 0x1 0x0 0x7 0x1 0x0;
  mk_config (Some 664%nat) false 0x0 0x0 0x8 0x8 0x8 0x0 0xFF0000 0xFF00 0xFF 0x0 0x18 0x0 0x0 0x0 0x0 0x0 0x10 0x0 0x0 0x0 0x0 0x8003 0x8000 0x8000 0xFFFFFFFF 0xFFFFFFFF 0xFFFFFFFF 0xFFFFFFFF 0x0 0x1 0x4 0x7 0x1 0x0 0x0 0x0 0x0 0x0 0x0 0x0 0x8063 0x1 0x1 0x0 0x7 0x1 0x0;
  mk_config (Some 665%nat) false 0x1 0x0 0x8 0x8 0x8 0x0 0xFF0000 0xFF00 0xFF 0x0 0x18 0x0 0x0 0x0 0x0 0x0 0x10 0x0 0x0 0x0 0x0 0x8003 0x8000 0x8000 0xFFFFFFFF 0xFFFFFFFF 0xFFFFFFFF 0xFFFFFFFF 0x0 0x1 0x4 0x7 0x1 0x0 0x0 0x0 0x0 0x0 0x0 0x0 0x8063 0x1 0x1 0x0 0x7 0x1 0x0;
  mk_config (Some 666%nat) false 0x1 0x0 0x8 0x8 0x8 0x0 0xFF0000 0xFF00 0xFF 0x0 0x18 0x0 0x0 0x0 0x0 0x0 0x10 0x0 0x0 0x0 0x0 0x8003 0x8000 0x8000 0xFFFFFFFF 0xFFFFFFFF 0xFFFFFFFF 0xFFFFFFFF 0x0 0x1 0x4 0x7 0x1 0x0 0x0 0x0 0x0 0x0 0x0 0x0 0x8062 0x1 0x1 0x0 0x7 0x1 0x0;
  mk_config (Some 667%nat) false 0x0 0x0 0x8 0x8 0x8 0x0 0xFF0000 0xFF00 0xFF 0x0 0x18 0x0 0x0 0x0 0x0 0x0 0x18 0x0 0x0 0x0 0x0 0x8003 0x8000 0x8000 0xFFFFFFFF 0xFFFFFFFF 0xFFFFFFFF 0xFFFFFFFF 0x0 0x1 0x4 0x7 0x1 0x0 0x0 0x0 0x0 0x0 0x0 0x0 0x8063 0x1 0x1 0x0 0x7 0x1 0x0;
  mk_config (Some 668%nat) false 0x1 0x0 0x8 0x8 0x8 0x0 0xFF0000 0xFF00 0xFF 0x0 0x18 0x0 0x0 0x0 0x0 0x0 0x18 0x0 0x0 0x0 0x0 0x8003 0x8000 0x8000 0xFFFFFFFF 0xFFFFFFFF 0xFFFFFFFF 0xFFFFFFFF 0x0 0x1 0x4 0x7 0x1 0x0 0x0 0x0 0x0 0x0 0x0 0x0 0x8063 0x1 0x1 0x0 0x7 0x1 0x0;
  mk_config (Some 669%nat) false 0x1 0x0 0x8 0x8 0x8 0x0 0xFF0000 0xFF00 0xFF 0x0 0x18 0x0 0x0 0x0 0x0 0x0 0x18 0x0 0x0 0x0 0x0 0x8003 0x8000 0x8000 0xFFFFFFFF 0xFFFFFFFF 0xFFFFFFFF 0xFFFFFFFF 0x0 0x1 0x4 0x7 0x1 0x0 0x0 0x0 0x0 0x0 0x0 0x0 0x8062 0x1 0x1 0x0 0x7 0x1 0x0;
  mk_config (Some 670%nat) false 0x0 0x0 0x8 0x8 0x8 0x0 0xFF0000 0xFF00 0xFF 0x0 0x18 0x0 0x0 0x0 0x0 0x0 0x18 0x8 0x0 0x0 0x0 0x8003 0x8000 0x8000 0xFFFFFFFF 0xFFFFFFFF 0xFFFFFFFF 0xFFFFFFFF 0x0 0x1 0x4 0x7 0x1 0x0 0x0 0x0 0x0 0x0 0x0 0x0 0x8063 0x1 0x1 0x0 0x7 0x1 0x0;
  mk_config (Some 671%nat) false 0x1 0x0 0x8 0x8 0x8 0x0 0xFF0000 0xFF00 0xFF 0x0 0x18 0x0 0x0 0x0 0x0 0x0 0x18 0x8 0x0 0x0 0x0 0x8003 0x8000 0x8000 0xFFFFFFFF 0xFFFFFFFF 0xFFFFFFFF 0xFFFFFFFF 0x0 0x1 0x4 0x7 0x1 0x0 0x0 0x0 0x0 0x0 0x0 0x0 0x8063 0x1 0x1 0x0 0x7 0x1 0x0;
  mk_config (Some 672%nat) false 0x1 0x0 0x8 0x8 0x8 0x0 0xFF0000 0xFF00 0xFF 0x0 0x18 0x0 0x0 0x0 0x0 0x0 0x18 0x8 0x0 0x0 0x0 0x8003 0x8000 0x8000 0xFFFFFFFF 0xFFFFFFFF 0xFFFFFFFF 0xFFFFFFFF 0x0 0x1 0x4 0x7 0x1 0x0 0x0 0x0 0x0 0x0 0x0 0x0 0x8062 0x1 0x1 0x0 0x7 0x1 0x0;
  mk_config (Some 673%nat) false 0x0 0x0 0x8 0x8 0x8 0x0 0xFF0000 0xFF00 0xFF 0x0 0x18 0x0 0x0 0x0 0x0 0x0 0x20 0x0 0x0 0x0 0x0 0x8003 0x8000 0x8000 0xFFFFFFFF 0xFFFFFFFF 0xFFFFFFFF 0xFFFFFFFF 0x0 0x1 0x4 0x7 0x1 0x0 0x0 0x0 0x0 0x0 0x0 0x0 0x8063 0x1 0x1 0x0 0x7 0x1 0x0;
  mk_config (Some 674%nat) false 0x1 0x0 0x8 0x8 0x8 0x0 0xFF0000 0xFF00 0xFF 0x0 0x18 0x0 0x0 0x0 0x0 0x0 0x20 0x0 0x0 0x0 0x0 0x8003 0x8000 0x8000 0xFFFFFFFF 0xFFFFFFFF 0xFFFFFFFF 0xFFFFFFFF 0x0 0x1 0x4 0x7 0x1 0x0 0x0 0x0 0x0 0x0 0x0 0x0 0x8063 0x1 0x1 0x0 0x7 0x1 0x0;
  mk_config (Some 675%nat) false 0x1 0x0 0x8 0x8 0x8 0x0 0xFF0000 0xFF00 0xFF 0x0 0x18 0x0 0x0 0x0 0x0 0x0 0x20 0x0 0x0 0x0 0x0 0x8003 0x8000 0x8000 0xFFFFFFFF 0xFFFFFFFF 0xFFFFFFFF 0xFFFFFFFF 0x0 0x1 0x4 0x7 0x1 0x0 0x0 0x0 0x0 0x0 0x0 0x0 0x8062 0x1 0x1 0x0 0x7 0x1 0x0
].

Definition configs_5 : list __GLXconfig := [
  mk_config (Some 676%nat) false 0x0 0x0 0x8 0x8 0x8 0x8 0xFF0000 0xFF00 0xFF 0xFF000000 0x20 0x0 0x0 0x0 0x0 0x0 0x0 0x0 0x0 0x0 0x0 0x8003 0x8000 0x8000 0xFFFFFFFF 0xFFFFFFFF 0xFFFFFFFF 0xFFFFFFFF 0x0 0x0 0x0 0x7 0x1 0x0 0x0 0x0 0x0 0x0 0x0 0x0 0x8063 0x1 0x1 0x0 0x7 0x1 0x1;
  mk_config (Some 677%nat) false 0x0 0x0 0x8 0x8 0x8 0x8 0xFF0000 0xFF00 0xFF 0xFF000000 0x20 0x0 0x10 0x10 0x10 0x10 0x0 0x0 0x0 0x0 0x0 0x8003 0x8001 0x8000 0xFFFFFFFF 0xFFFFFFFF 0xFFFFFFFF 0xFFFFFFFF 0x0 0x0 0x0 0x7 0x1 0x0 0x0 0x0 0x0 0x0 0x0 0x0 0x8063 0x1 0x1 0x0 0x7 0x1 0x1;
  mk_config (Some 678%nat) false 0x1 0x0 0x8 0x8 0x8 0x8 0xFF0000 0xFF00 0xFF 0xFF000000 0x20 0x0 0x0 0x0 0x0 0x0 0x0 0x0 0x0 0x0 0x0 0x8003 0x8000 0x8000 0xFFFFFFFF 0xFFFFFFFF 0xFFFFFFFF 0xFFFFFFFF 0x0 0x0 0x0 0x7 0x1 0x0 0x0 0x0 0x0 0x0 0x0 0x0 0x8063 0x1 0x1 0x0 0x7 0x1 0x1;
  mk_config (Some 679%nat) false 0x1 0x0 0x8 0x8 0x8 0x8 0xFF0000 0xFF00 0xFF 0xFF000000 0x20 0x0 0x10 0x10 0x10 0x10 0x0 0x0 0x0 0x0 0x0 0x8003 0x8001 0x8000 0xFFFFFFFF 0xFFFFFFFF 0xFFFFFFFF 0xFFFFFFFF 0x0 0x0 0x0 0x7 0x1 0x0 0x0 0x0 0x0 0x0 0x0 0x0 0x8063 0x1 0x1 0x0 0x7 0x1 0x1;
  mk_config (Some 680%nat) false 0x1 0x0 0x8 0x8 0x8 0x8 0xFF0000 0xFF00 0xFF 0xFF000000 0x20 0x0 0x0 0x0 0x0 0x0 0x0 0x0 0x0 0x0 0x0 0x8003 0x8000 0x8000 0xFFFFFFFF 0xFFFFFFFF 0xFFFFFFFF 0xFFFFFFFF 0x0 0x0 0x0 0x7 0x1 0x0 0x0 0x0 0x0 0x0 0x0 0x0 0x8062 0x1 0x1 0x0 0x7 0x1 0x1;
  mk_config (Some 681%nat) false 0x1 0x0 0x8 0x8 0x8 0x8 0xFF0000 0xFF00 0xFF 0xFF000000 0x20 0x0 0x10 0x10 0x10 0x10 0x0 0x0 0x0 0x0 0x0 0x8003 0x8001 0x8000 0xFFFFFFFF 0xFFFFFFFF 0xFFFFFFFF 0xFFFFFFFF 0x0 0x0 0x0 0x7 0x1 0x0 0x0 0x0 0x0 0x0 0x0 0x0 0x8062 0x1 0x1 0x0 0x7 0x1 0x1;
  mk_config (Some 682%nat) false 0x0 0x0 0x8 0x8 0x8 0x8 0xFF0000 0xFF00 0xFF 0xFF000000 0x20 0x0 0x0 0x0 0x0 0x0 0x10 0x0 0x0 0x0 0x0 0x8003 0x8000 0x8000 0xFFFFFFFF 0xFFFFFFFF 0xFFFFFFFF 0xFFFFFFFF 0x0 0x0 0x0 0x7 0x1 0x0 0x0 0x0 0x0 0x0 0x0 0x0 0x8063 0x1 0x1 0x0 0x7 0x1 0x1;
  mk_config (Some 683%nat) false 0x0 0x0 0x8 0x8 0x8 0x8 0xFF0000 0xFF00 0xFF 0xFF000000 0x20 0x0 0x10 0x10 0x10 0x10 0x10 0x0 0x0 0x0 0x0 0x8003 0x8001 0x8000 0xFFFFFFFF 0xFFFFFFFF 0xFFFFFFFF 0xFFFFFFFF 0x0 0x0 0x0 0x7 0x1 0x0 0x0 0x0 0x0 0x0 0x0 0x0 0x8063 0x1 0x1 0x0 0x7 0x1 0x1;
  mk_config (Some 684%nat) false 0x1 0x0 0x8 0x8 0x8 0x8 0xFF0000 0xFF00 0xFF 0xFF000000 0x20 0x0 0x0 0x0 0x0 0x0 0x10 0x0 0x0 0x0 0x0 0x8003 0x8000 0x8000 0xFFFFFFFF 0xFFFFFFFF 0xFFFFFFFF 0xFFFFFFFF 0x0 0x0 0x0 0x7 0x1 0x0 0x0 0x0 0x0 0x0 0x0 0x0 0x8063 0x1 0x1 0x0 0x7 0x1 0x1;
  mk_config (Some 685%nat) false 0x1 0x0 0x8 0x8 0x8 0x8 0xFF0000 0xFF00 0xFF 0xFF000000 0x20 0x0 0x10 0x10 0x10 0x10 0x10 0x0 0x0 0x0 0x0 0x8003 0x8001 0x8000 0xFFFFFFFF 0xFFFFFFFF 0xFFFFFFFF 0xFFFFFFFF 0x0 0x0 0x0 0x7 0x1 0x0 0x0 0x0 0x0 0x0 0x0 0x0 0x8063 0x1 0x1 0x0 0x7 0x1 0x1;
  mk_config (Some 686%nat) false 0x1 0x0 0x8 0x8 0x8 0x8 0xFF0000 0xFF00 0xFF 0xFF000000 0x20 0x0 0x0 0x0 0x0 0x0 0x10 0x0 0x0 0x0 0x0 0x8003 0x8000 0x8000 0xFFFFFFFF 0xFFFFFFFF 0xFFFFFFFF 0xFFFFFFFF 0x0 0x0 0x0 0x7 0x1 0x0 0x0 0x0 0x0 0x0 0x0 0x0 0x8062 0x1 0x1 0x0 0x7 0x1 0x1;
  mk_config (Some 687%nat) false 0x1 0x0 0x8 0x8 0x8 0x8 0xFF0000 0xFF00 0xFF 0xFF000000 0x20 0x0 0x10 0x10 0x10 0x10 0x10 0x0 0x0 0x0 0x0 0x8003 0x8001 0x8000 0xFFFFFFFF 0xFFFFFFFF 0xFFFFFFFF 0xFFFFFFFF 0x0 0x0 0x0 0x7 0x1 0x0 0x0 0x0 0x0 0x0 0x0 0x0 0x8062 0x1 0x1 0x0 0x7 0x1 0x1;
  mk_config (Some 688%nat) false 0x0 0x0 0x8 0x8 0x8 0x8 0xFF0000 0xFF00 0xFF 0xFF000000 0x20 0x0 0x0 0x0 0x0 0x0 0x18 0x0 0x0 0x0 0x0 0x8003 0x8000 0x8000 0xFFFFFFFF 0xFFFFFFFF 0xFFFFFFFF 0xFFFFFFFF 0x0 0x0 0x0 0x7 0x1 0x0 0x0 0x0 0x0 0x0 0x0 0x0 0x8063 0x1 0x1 0x0 0x7 0x1 0x1;
  mk_config (Some 689%nat) false 0x0 0x0 0x8 0x8 0x8 0x8 0xFF0000 0xFF00 0xFF 0xFF000000 0x20 0x0 0x10 0x10 0x10 0x10 0x18 0x0 0x0 0x0 0x0 0x8003 0x8001 0x8000 0xFFFFFFFF 0xFFFFFFFF 0xFFFFFFFF 0xFFFFFFFF 0x0 0x0 0x0 0x7 0x1 0x0 0x0 0x0 0x0 0x0 0x0 0x0 0x8063 0x1 0x1 0x0 0x7 0x1 0x1;
  mk_config (Some 690%nat) false 0x1 0x0 0x8 0x8 0x8 0x8 0xFF0000 0xFF00 0xFF 0xFF000000 0x20 0x0 0x0 0x0 0x0 0x0 0x18 0x0 0x0 0x0 0x0 0x8003 0x8000 0x8000 0xFFFFFFFF 0xFFFFFFFF 0xFFFFFFFF 0xFFFFFFFF 0x0 0x0 0x0 0x7 0x1 0x0 0x0 0x0 0x0 0x0 0x0 0x0 0x8063 0x1 0x1 0x0 0x7 0x1 0x1;
  mk_config (Some 691%nat) false 0x1 0x0 0x8 0x8 0x8 0x8 0xFF0000 0xFF00 0xFF 0xFF000000 0x20 0x0 0x10 0x10 0x10 0x10 0x18 0x0 0x0 0x0 0x0 0x8003 0x8001 0x8000 0xFFFFFFFF 0xFFFFFFFF 0xFFFFFFFF 0xFFFFFFFF 0x0 0x0 0x0 0x7 0x1 0x0 0x0 0x0 0x0 0x0 0x0 0x0 0x8063 0x1 0x1 0x0 0x7 0x1 0x1;
  mk_config (Some 692%nat) false 0x1 0x0 0x8 0x8 0x8 0x8 0xFF0000 0xFF00 0xFF 0xFF000000 0x20 0x0 0x0 0x0 0x0 0x0 0x18 0x0 0x0 0x0 0x0 0x8003 0x8000 0x8000 0xFFFFFFFF 0xFFFFFFFF 0xFFFFFFFF 0xFFFFFFFF 0x0 0x0 0x0 0x7 0x1 0x0 0x0 0x0 0x0 0x0 0x0 0x0 0x8062 0x1 0x1 0x0 0x7 0x1 0x1;
  mk_config (Some 693%nat) false 0x1 0x0 0x8 0x8 0x8 0x8 0xFF0000 0xFF00 0xFF 0xFF000000 0x20 0x0 0x10 0x10 0x10 0x10 0x18 0x0 0x0 0x0 0x0 0x8003 0x8001 0x8000 0xFFFFFFFF 0xFFFFFFFF 0xFFFFFFFF 0xFFFFFFFF 0x0 0x0 0x0 0x7 0x1 0x0 0x0 0x0 0x0 0x0 0x0 0x0 0x8062 0x1 0x1 0x0 0x7 0x1 0x1;
  mk_config (Some 694%nat) false 0x0 0x0 0x8 0x8 0x8 0x8 0xFF0000 0xFF00 0xFF 0xFF000000 0x20 0x0 0x0 0x0 0x0 0x0 0x18 0x8 0x0 0x0 0x0 0x8003 0x8000 0x8000 0xFFFFFFFF 0xFFFFFFFF 0xFFFFFFFF 0xFFFFFFFF 0x0 0x0 0x0 0x7 0x1 0x0 0x0 0x0 0x0 0x0 0x0 0x0 0x8063 0x1 0x1 0x0 0x7 0x1 0x1;
  mk_config (Some 695%nat) false 0x0 0x0 0x8 0x8 0x8 0x8 0xFF0000 0xFF00 0xFF 0xFF000000 0x20 0x0 0x10 0x10 0x10 0x10 0x18 0x8 0x0 0x0 0x0 0x8003 0x8001 0x8000 0xFFFFFFFF 0xFFFFFFFF 0xFFFFFFFF 0xFFFFFFFF 0x0 0x0 0x0 0x7 0x1 0x0 0x0 0x0 0x0 0x0 0x0 0x0 0x8063 0x1 0x1 0x0 0x7 0x1 0x1;
  mk_config (Some 696%nat) false 0x1 0x0 0x8 0x8 0x8 0x8 0xFF0000 0xFF00 0xFF 0xFF000000 0x20 0x0 0x0 0x0 0x0 0x0 0x18 0x8 0x0 0x0 0x0 0x8003 0x8000 0x8000 0xFFFFFFFF 0xFFFFFFFF 0xFFFFFFFF 0xFFFFFFFF 0x0 0x0 0x0 0x7 0x1 0x0 0x0 0x0 0x0 0x0 0x0 0x0 0x8063 0x1 0x1 0x0 0x7 0x1 0x1;
  mk_config (Some 697%nat) false 0x1 0x0 0x8 0x8 0x8 0x8 0xFF0000 0xFF00 0xFF 0xFF000000 0x20 0x0 0x10 0x10 0x10 0x10 0x18 0x8 0x0 0x0 0x0 0x8003 0x8001 0x8000 0xFFFFFFFF 0xFFFFFFFF 0xFFFFFFFF 0xFFFFFFFF 0x0 0x0 0x0 0x7 0x1 0x0 0x0 0x0 0x0 0x0 0x0 0x0 0x8063 0x1 0x1 0x0 0x7 0x1 0x1;
  mk_config (Some 698%nat) false 0x1 0x0 0x8 0x8 0x8 0x8 0xFF0000 0xFF00 0xFF 0xFF000000 0x20 0x0 0x0 0x0 0x0 0x0 0x18 0x8 0x0 0x0 0x0 0x8003 0x8000 0x8000 0xFFFFFFFF 0xFFFFFFFF 0xFFFFFFFF 0xFFFFFFFF 0x0 0x0 0x0 0x7 0x1 0x0 0x0 0x0 0x0 0x0 0x0 0x0 0x8062 0x1 0x1 0x0 0x7 0x1 0x1;
  mk_config (Some 699%nat) false 0x1 0x0 0x8 0x8 0x8 0x8 0xFF0000 0xFF00 0xFF 0xFF000000 0x20 0x0 0x10 0x10 0x10 0x10 0x18 0x8 0x0 0x0 0x0 0x8003 0x8001 0x8000 0xFFFFFFFF 0xFFFFFFFF 0xFFFFFFFF 0xFFFFFFFF 0x0 0x0 0x0 0x7 0x1 0x0 0x0 0x0 0x0 0x0 0x0 0x0 0x8062 0x1 0x1 0x0 0x7 0x1 0x1;
  mk_config (Some 700%nat) false 0x0 0x0 0x8 0x8 0x8 0x8 0xFF0000 0xFF00 0xFF 0xFF000000 0x20 0x0 0x0 0x0 0x0 0x0 0x20 0x0 0x0 0x0 0x0 0x8003 0x8000 0x8000 0xFFFFFFFF 0xFFFFFFFF 0xFFFFFFFF 0xFFFFFFFF 0x0 0x0 0x0 0x7 0x1 0x0 0x0 0x0 0x0 0x0 0x0 0x0 0x8063 0x1 0x1 0x0 0x7 0x1 0x1;
  mk_config (Some 701%nat) false 0x0 0x0 0x8 0x8 0x8 0x8 0xFF0000 0xFF00 0xFF 0xFF000000 0x20 0x0 0x10 0x10 0x10 0x10 0x20 0x0 0x0 0x0 0x0 0x8003 0x8001 0x8000 0xFFFFFFFF 0xFFFFFFFF 0xFFFFFFFF 0xFFFFFFFF 0x0 0x0 0x0 0x7 0x1 0x0 0x0 0x0 0x0 0x0 0x0 0x0 0x8063 0x1 0x1 0x0 0x7 0x1 0x1;
  mk_config (Some 702%nat) false 0x1 0x0 0x8 0x8 0x8 0x8 0xFF0000 0xFF00 0xFF 0xFF000000 0x20 0x0 0x0 0x0 0x0 0x0 0x20 0x0 0x0 0x0 0x0 0x8003 0x8000 0x8000 0xFFFFFFFF 0xFFFFFFFF 0xFFFFFFFF 0xFFFFFFFF 0x0 0x0 0x0 0x7 0x1 0x0 0x0 0x0 0x0 0x0 0x0 0x0 0x8063 0x1 0x1 0x0 0x7 0x1 0x1;
  mk_config (Some 703%nat) false 0x1 0x0 0x8 0x8 0x8 0x8 0xFF0000 0xFF00 0xFF 0xFF000000 0x20 0x0 0x10 0x10 0x10 0x10 0x20 0x0 0x0 0x0 0x0 0x8003 0x8001 0x8000 0xFFFFFFFF 0xFFFFFFFF 0xFFFFFFFF 0xFFFFFFFF 0x0 0x0 0x0 0x7 0x1 0x0 0x0 0x0 0x0 0x0 0x0 0x0 0x8063 0x1 0x1 0x0 0x7 0x1 0x1;
  mk_config (Some 704%nat) false 0x1 0x0 0x8 0x8 0x8 0x8 0xFF0000 0xFF00 0xFF 0xFF000000 0x20 0x0 0x0 0x0 0x0 0x0 0x20 0x0 0x0 0x0 0x0 0x8003 0x8000 0x8000 0xFFFFFFFF 0xFFFFFFFF 0xFFFFFFFF 0xFFFFFFFF 0x0 0x0 0x0 0x7 0x1 0x0 0x0 0x0 0x0 0x0 0x0 0x0 0x8062 0x1 0x1 0x0 0x7 0x1 0x1;
  mk_config (Some 705%nat) false 0x1 0x0 0x8 0x8 0x8 0x8 0xFF0000 0xFF00 0xFF 0xFF000000 0x20 0x0 0x10 0x10 0x10 0x10 0x20 0x0 0x0 0x0 0x0 0x8003 0x8001 0x8000 0xFFFFFFFF 0xFFFFFFFF 0xFFFFFFFF 0xFFFFFFFF 0x0 0x0 0x0 0x7 0x1 0x0 0x0 0x0 0x0 0x0 0x0 0x0 0x8062 0x1 0x1 0x0 0x7 0x1 0x1;
  mk_config (Some 706%nat) false 0x0 0x0 0x8 0x8 0x8 0x8 0xFF0000 0xFF00 0xFF 0xFF000000 0x20 0x0 0x0 0x0 0x0 0x0 0x0 0x0 0x0 0x0 0x0 0x8003 0x8000 0x8000 0xFFFFFFFF 0xFFFFFFFF 0xFFFFFFFF 0xFFFFFFFF 0x0 0x1 0x4 0x7 0x1 0x0 0x0 0x0 0x0 0x0 0x0 0x0 0x8063 0x1 0x1 0x0 0x7 0x1 0x1;
  mk_config (Some 707%nat) false 0x1 0x0 0x8 0x8 0x8 0x8 0xFF0000 0xFF00 0xFF 0xFF000000 0x20 0x0 0x0 0x0 0x0 0x0 0x0 0x0 0x0 0x0 0x0 0x8003 0x8000 0x8000 0xFFFFFFFF 0xFFFFFFFF 0xFFFFFFFF 0xFFFFFFFF 0x0 0x1 0x4 0x7 0x1 0x0 0x0 0x0 0x0 0x0 0x0 0x0 0x8063 0x1 0x1 0x0 0x7 0x1 0x1;
  mk_config (Some 708%nat) false 0x1 0x0 0x8 0x8 0x8 0x8 0xFF0000 0xFF00 0xFF 0xFF000000 0x20 0x0 0x0 0x0 0x0 0x0 0x0 0x0 0x0 0x0 0x0 0x8003 0x8000 0x8000 0xFFFFFFFF 0xFFFFFFFF 0xFFFFFFFF 0xFFFFFFFF 0x0 0x1 0x4 0x7 0x1 0x0 0x0 0x0 0x0 0x0 0x0 0x0 0x8062 0x1 0x1 0x0 0x7 0x1 0x1;
  mk_config (Some 709%nat) false 0x0 0x0 0x8 0x8 0x8 0x8 0xFF0000 0xFF00 0xFF 0xFF000000 0x20 0x0 0x0 0x0 0x0 0x0 0x10 0x0 0x0 0x0 0x0 0x8003 0x8000 0x8000 0xFFFFFFFF 0xFFFFFFFF 0xFFFFFFFF 0xFFFFFFFF 0x0 0x1 0x4 0x7 0x1 0x0 0x0 0x0 0x0 0x0 0x0 0x0 0x8063 0x1 0x1 0x0 0x7 0x1 0x1;
  mk_config (Some 710%nat) false 0x1 0x0 0x8 0x8 0x8 0x8 0xFF0000 0xFF00 0xFF 0xFF000000 0x20 0x0 0x0 0x0 0x0 0x0 0x10 0x0 0x0 0x0 0x0 0x8003 0x8000 0x8000 0xFFFFFFFF 0xFFFFFFFF 0xFFFFFFFF 0xFFFFFFFF 0x0 0x1 0x4 0x7 0x1 0x0 0x0 0x0 0x0 0x0 0x0 0x0 0x8063 0x1 0x1 0x0 0x7 0x1 0x1;
  mk_config (Some 711%nat) false 0x1 0x0 0x8 0x8 0x8 0x8 0xFF0000 0xFF00 0xFF 0xFF000000 0x20 0x0 0x0 0x0 0x0 0x0 0x10 0x0 0x0 0x0 0x0 0x8003 0x8000 0x8000 0xFFFFFFFF 0xFFFFFFFF 0xFFFFFFFF 0xFFFFFFFF 0x0 0x1 0x4 0x7 0x1 0x0 0x0 0x0 0x0 0x0 0x0 0x0 0x8062 0x1 0x1 0x0 0x7 0x1 0x1;
  mk_config (Some 712%nat) false 0x0 0x0 0x8 0x8 0x8 0x8 0xFF0000 0xFF00 0xFF 0xFF000000 0x20 0x0 0x0 0x0 0x0 0x0 0x18 0x0 0x0 0x0 0x0 0x8003 0x8000 0x8000 0xFFFFFFFF 0xFFFFFFFF 0xFFFFFFFF 0xFFFFFFFF 0x0 0x1 0x4 0x7 0x1 0x0 0x0 0x0 0x0 0x0 0x0 0x0 0x8063 0x1 0x1 0x0 0x7 0x1 0x1;
  mk_config (Some 713%nat) false 0x1 0x0 0x8 0x8 0x8 0x8 0xFF0000 0xFF00 0xFF 0xFF000000 0x20 0x0 0x0 0x0 0x0 0x0 0x18 0x0 0x0 0x0 0x0 0x8003 0x8000 0x8000 0xFFFFFFFF 0xFFFFFFFF 0xFFFFFFFF 0xFFFFFFFF 0x0 0x1 0x4 0x7 0x1 0x0 0x0 0x0 0x0 0x0 0x0 0x0 0x8063 0x1 0x1 0x0 0x7 0x1 0x1;
  mk_config (Some 714%nat) false 0x1 0x0 0x8 0x8 0x8 0x8 0xFF0000 0xFF00 0xFF 0xFF000000 0x20 0x0 0x0 0x0 0x0 0x0 0x18 0x0 0x0 0x0 0x0 0x8003 0x8000 0x8000 0xFFFFFFFF 0xFFFFFFFF 0xFFFFFFFF 0xFFFFFFFF 0x0 0x1 0x4 0x7 0x1 0x0 0x0 0x0 0x0 0x0 0x0 0x0 0x8062 0x1 0x1 0x0 0x7 0x1 0x1;
  mk_config (Some 715%nat) false 0x0 0x0 0x8 0x8 0x8 0x8 0xFF0000 0xFF00 0xFF 0xFF000000 0x20 0x0 0x0 0x0 0x0 0x0 0x18 0x8 0x0 0x0 0x0 0x8003 0x8000 0x8000 0xFFFFFFFF 0xFFFFFFFF 0xFFFFFFFF 0xFFFFFFFF 0x0 0x1 0x4 0x7 0x1 0x0 0x0 0x0 0x0 0x0 0x0 0x0 0x8063 0x1 0x1 0x0 0x7 0x1 0x1;
  mk_config (Some 716%nat) false 0x1 0x0 0x8 0x8 0x8 0x8 0xFF0000 0xFF00 0xFF 0xFF000000 0x20 0x0 0x0 0x0 0x0 0x0 0x18 0x8 0x0 0x0 0x0 0x8003 0x8000 0x8000 0xFFFFFFFF 0xFFFFFFFF 0xFFFFFFFF 0xFFFFFFFF 0x0 0x1 0x4 0x7 0x1 0x0 0x0 0x0 0x0 0x0 0x0 0x0 0x8063 0x1 0x1 0x0 0x7 0x1 0x1;
  mk_config (Some 717%nat) false 0x1 0x0 0x8 0x8 0x8 0x8 0xFF0000 0xFF00 0xFF 0xFF000000 0x20 0x0 0x0 0x0 0x0 0x0 0x18 0x8 0x0 0x0 0x0 0x8003 0x8000 0x8000 0xFFFFFFFF 0xFFFFFFFF 0xFFFFFFFF 0xFFFFFFFF 0x0 0x1 0x4 0x7 0x1 0x0 0x0 0x0 0x0 0x0 0x0 0x0 0x8062 0x1 0x1 0x0 0x7 0x1 0x1;
  mk_config (Some 718%nat) false 0x0 0x0 0x8 0x8 0x8 0x8 0xFF0000 0xFF00 0xFF 0xFF000000 0x20 0x0 0x0 0x0 0x0 0x0 0x20 0x0 0x0 0x0 0x0 0x8003 0x8000 0x8000 0xFFFFFFFF 0xFFFFFFFF 0xFFFFFFFF 0xFFFFFFFF 0x0 0x1 0x4 0x7 0x1 0x0 0x0 0x0 0x0 0x0 0x0 0x0 0x8063 0x1 0x1 0x0 0x7 0x1 0x1;
  mk_config (Some 719%nat) false 0x1 0x0 0x8 0x8 0x8 0x8 0xFF0000 0xFF00 0xFF 0xFF000000 0x20 0x0 0x0 0x0 0x0 0x0 0x20 0x0 0x0 0x0 0x0 0x8003 0x8000 0x8000 0xFFFFFFFF 0xFFFFFFFF 0xFFFFFFFF 0xFFFFFFFF 0x0 0x1 0x4 0x7 0x1 0x0 0x0 0x0 0x0 0x0 0x0 0x0 0x8063 0x1 0x1 0x0 0x7 0x1 0x1;
  mk_config (Some 720%nat) false 0x1 0x0 0x8 0x8 0x8 0x8 0xFF0000 0xFF00 0xFF 0xFF000000 0x20 0x0 0x0 0x0 0x0 0x0 0x20 0x0 0x0 0x0 0x0 0x8003 0x8000 0x8000 0xFFFFFFFF 0xFFFFFFFF 0xFFFFFFFF 0xFFFFFFFF 0x0 0x1 0x4 0x7 0x1 0x0 0x0 0x0 0x0 0x0 0x0 0x0 0x8062 0x1 0x1 0x0 0x7 0x1 0x1;
  mk_config (Some 721%nat) false 0x0 0x0 0x8 0x8 0x8 0x0 0xFF0000 0xFF00 0xFF 0x0 0x18 0x0 0x0 0x0 0x0 0x0 0x0 0x0 0x0 0x0 0x0 0x8003 0x8000 0x8000 0xFFFFFFFF 0xFFFFFFFF 0xFFFFFFFF 0xFFFFFFFF 0x0 0x0 0x0 0x7 0x1 0x0 0x0 0x0 0x0 0x0 0x0 0x0 0x8063 0x1 0x1 0x0 0x7 0x1 0x1;
  mk_config (Some 722%nat) false 0x0 0x0 0x8 0x8 0x8 0x0 0xFF0000 0xFF00 0xFF 0x0 0x18 0x0 0x10 0x10 0x10 0x10 0x0 0x0 0x0 0x0 0x0 0x8003 0x8001 0x8000 0xFFFFFFFF 0xFFFFFFFF 0xFFFFFFFF 0xFFFFFFFF 0x0 0x0 0x0 0x7 0x1 0x0 0x0 0x0 0x0 0x0 0x0 0x0 0x8063 0x1 0x1 0x0 0x7 0x1 0x1;
  mk_config (Some 723%nat) false 0x1 0x0 0x8 0x8 0x8 0x0 0xFF0000 0xFF00 0xFF 0x0 0x18 0x0 0x0 0x0 0x0 0x0 0x0 0x0 0x0 0x0 0x0 0x8003 0x8000 0x8000 0xFFFFFFFF 0xFFFFFFFF 0xFFFFFFFF 0xFFFFFFFF 0x0 0x0 0x0 0x7 0x1 0x0 0x0 0x0 0x0 0x0 0x0 0x0 0x8063 0x1 0x1 0x0 0x7 0x1 0x1;
  mk_config (Some 724%nat) false 0x1 0x0 0x8 0x8 0x8 0x0 0xFF0000 0xFF00 0xFF 0x0 0x18 0x0 0x10 0x10 0x10 0x10 0x0 0x0 0x0 0x0 0x0 0x8003 0x8001 0x8000 0xFFFFFFFF 0xFFFFFFFF 0xFFFFFFFF 0xFFFFFFFF 0x0 0x0 0x0 0x7 0x1 0x0 0x0 0x0 0x0 0x0 0x0 0x0 0x8063 0x1 0x1 0x0 0x7 0x1 0x1;
  mk_config (Some 725%nat) false 0x1 0x0 0x8 0x8 0x8 0x0 0xFF0000 0xFF00 0xFF 0x0 0x18 0x0 0x0 0x0 0x0 0x0 0x0 0x0 0x0 0x0 0x0 0x8003 0x8000 0x8000 0xFFFFFFFF 0xFFFFFFFF 0xFFFFFFFF 0xFFFFFFFF 0x0 0x0 0x0 0x7 0x1 0x0 0x0 0x0 0x0 0x0 0x0 0x0 0x8062 0x1 0x1 0x0 0x7 0x1 0x1;
  mk_config (Some 726%nat) false 0x1 0x0 0x8 0x8 0x8 0x0 0xFF0000 0xFF00 0xFF 0x0 0x18 0x0 0x10 0x10 0x10 0x10 0x0 0x0 0x0 0x0 0x0 0x8003 0x8001 0x8000 0xFFFFFFFF 0xFFFFFFFF 0xFFFFFFFF 0xFFFFFFFF 0x0 0x0 0x0 0x7 0x1 0x0 0x0 0x0 0x0 0x0 0x0 0x0 0x8062 0x1 0x1 0x0 0x7 0x1 0x1;
  mk_config (Some 727%nat) false 0x0 0x0 0x8 0x8 0x8 0x0 0xFF0000 0xFF00 0xFF 0x0 0x18 0x0 0x0 0x0 0x0 0x0 0x10 0x0 0x0 0x0 0x0 0x8003 0x8000 0x8000 0xFFFFFFFF 0xFFFFFFFF 0xFFFFFFFF 0xFFFFFFFF 0x0 0x0 0x0 0x7 0x1 0x0 0x0 0x0 0x0 0x0 0x0 0x0 0x8063 0x1 0x1 0x0 0x7 0x1 0x1;
  mk_config (Some 728%nat) false 0x0 0x0 0x8 0x8 0x8 0x0 0xFF0000 0xFF00 0xFF 0x0 0x18 0x0 0x10 0x10 0x10 0x10 0x10 0x0 0x0 0x0 0x0 0x8003 0x8001 0x8000 0xFFFFFFFF 0xFFFFFFFF 0xFFFFFFFF 0xFFFFFFFF 0x0 0x0 0x0 0x7 0x1 0x0 0x0 0x0 0x0 0x0 0x0 0x0 0x8063 0x1 0x1 0x0 0x7 0x1 0x1;
  mk_config (Some 729%nat) false 0x1 0x0 0x8 0x8 0x8 0x0 0xFF0000 0xFF00 0xFF 0x0 0x18 0x0 0x0 0x0 0x0 0x0 0x10 0x0 0x0 0x0 0x0 0x8003 0x8000 0x8000 0xFFFFFFFF 0xFFFFFFFF 0xFFFFFFFF 0xFFFFFFFF 0x0 0x0 0x0 0x7 0x1 0x0 0x0 0x0 0x0 0x0 0x0 0x0 0x8063 0x1 0x1 0x0 0x7 0x1 0x1;
  mk_config (Some 730%nat) false 0x1 0x0 0x8 0x8 0x8 0x0 0xFF0000 0xFF00 0xFF 0x0 0x18 0x0 0x10 0x10 0x10 0x10 0x10 0x0 0x0 0x0 0x0 0x8003 0x8001 0x8000 0xFFFFFFFF 0xFFFFFFFF 0xFFFFFFFF 0xFFFFFFFF 0x0 0x0 0x0 0x7 0x1 0x0 0x0 0x0 0x0 0x0 0x0 0x0 0x8063 0x1 0x1 0x0 0x7 0x1 0x1;
  mk_config (Some 731%nat) false 0x1 0x0 0x8 0x8 0x8 0x0 0xFF0000 0xFF00 0xFF 0x0 0x18 0x0 0x0 0x0 0x0 0x0 0x10 0x0 0x0 0x0 0x0 0x8003 0x8000 0x8000 0xFFFFFFFF 0xFFFFFFFF 0xFFFFFFFF 0xFFFFFFFF 0x0 0x0 0x0 0x7 0x1 0x0 0x0 0x0 0x0 0x0 0x0 0x0 0x8062 0x1 0x1 0x0 0x7 0x1 0x1;
  mk_config (Some 732%nat) false 0x1 0x0 0x8 0x8 0x8 0x0 0xFF0000 0xFF00 0xFF 0x0 0x18 0x0 0x10 0x10 0x10 0x10 0x10 0x0 0x0 0x0 0x0 0x8003 0x8001 0x8000 0xFFFFFFFF 0xFFFFFFFF 0xFFFFFFFF 0xFFFFFFFF 0x0 0x0 0x0 0x7 0x1 0x0 0x0 0x0 0x0 0x0 0x0 0x0 0x8062 0x1 0x1 0x0 0x7 0x1 0x1;
  mk_config (Some 733%nat) false 0x0 0x0 0x8 0x8 0x8 0x0 0xFF0000 0xFF00 0xFF 0x0 0x18 0x0 0x0 0x0 0x0 0x0 0x18 0x0 0x0 0x0 0x0 0x8003 0x8000 0x8000 0xFFFFFFFF 0xFFFFFFFF 0xFFFFFFFF 0xFFFFFFFF 0x0 0x0 0x0 0x7 0x1 0x0 0x0 0x0 0x0 0x0 0x0 0x0 0x8063 0x1 0x1 0x0 0x7 0x1 0x1;
  mk_config (Some 734%nat) false 0x0 0x0 0x8 0x8 0x8 0x0 0xFF0000 0xFF00 0xFF 0x0 0x18 0x0 0x10 0x10 0x10 0x10 0x18 0x0 0x0 0x0 0x0 0x8003 0x8001 0x8000 0xFFFFFFFF 0xFFFFFFFF 0xFFFFFFFF 0xFFFFFFFF 0x0 0x0 0x0 0x7 0x1 0x0 0x0 0x0 0x0 0x0 0x0 0x0 0x8063 0x1 0x1 0x0 0x7 0x1 0x1;
  mk_config (Some 735%nat) false 0x1 0x0 0x8 0x8 0x8 0x0 0xFF0000 0xFF00 0xFF 0x0 0x18 0x0 0x0 0x0 0x0 0x0 0x18 0x0 0x0 0x0 0x0 0x8003 0x8000 0x8000 0xFFFFFFFF 0xFFFFFFFF 0xFFFFFFFF 0xFFFFFFFF 0x0 0x0 0x0 0x7 0x1 0x0 0x0 0x0 0x0 0x0 0x0 0x0 0x8063 0x1 0x1 0x0 0x7 0x1 0x1;
  mk_config (Some 736%nat) false 0x1 0x0 0x8 0x8 0x8 0x0 0xFF0000 0xFF00 0xFF 0x0 0x18 0x0 0x10 0x10 0x10 0x10 0x18 0x0 0x0 0x0 0x0 0x8003 0x8001 0x8000 0xFFFFFFFF 0xFFFFFFFF 0xFFFFFFFF 0xFFFFFFFF 0x0 0x0 0x0 0x7 0x1 0x0 0x0 0x0 0x0 0x0 0x0 0x0 0x8063 0x1 0x1 0x0 0x7 0x1 0x1;
  mk_config (Some 737%nat) false 0x1 0x0 0x8 0x8 0x8 0x0 0xFF0000 0xFF00 0xFF 0x0 0x18 0x0 0x0 0x0 0x0 0x0 0x18 0x0 0x0 0x0 0x0 0x8003 0x8000 0x8000 0xFFFFFFFF 0xFFFFFFFF 0xFFFFFFFF 0xFFFFFFFF 0x0 0x0 0x0 0x7 0x1 0x0 0x0 0x0 0x0 0x0 0x0 0x0 0x8062 0x1 0x1 0x0 0x7 0x1 0x1;
  mk_config (Some 738%nat) false 0x1 0x0 0x8 0x8 0x8 0x0 0xFF0000 0xFF00 0xFF 0x0 0x18 0x0 0x10 0x10 0x10 0x10 0x18 0x0 0x0 0x0 0x0 0x8003 0x8001 0x8000 0xFFFFFFFF 0xFFFFFFFF 0xFFFFFFFF 0xFFFFFFFF 0x0 0x0 0x0 0x7 0x1 0x0 0x0 0x0 0x0 0x0 0x0 0x0 0x8062 0x1 0x1 0x0 0x7 0x1 0x1;
  mk_config (Some 739%nat) false 0x0 0x0 0x8 0x8 0x8 0x0 0xFF0000 0xFF00 0xFF 0x0 0x18 0x0 0x0 0x0 0x0 0x0 0x18 0x8 0x0 0x0 0x0 0x8003 0x8000 0x8000 0xFFFFFFFF 0xFFFFFFFF 0xFFFFFFFF 0xFFFFFFFF 0x0 0x0 0x0 0x7 0x1 0x0 0x0 0x0 0x0 0x0 0x0 0x0 0x8063 0x1 0x1 0x0 0x7 0x1 0x1;
  mk_config (Some 740%nat) false 0x0 0x0 0x8 0x8 0x8 0x0 0xFF0000 0xFF00 0xFF 0x0 0x18 0x0 0x10 0x10 0x10 0x10 0x18 0x8 0x0 0x0 0x0 0x8003 0x8001 0x8000 0xFFFFFFFF 0xFFFFFFFF 0xFFFFFFFF 0xFFFFFFFF 0x0 0x0 0x0 0x7 0x1 0x0 0x0 0x0 0x0 0x0 0x0 0x0 0x8063 0x1 0x1 0x0 0x7 0x1 0x1;
  mk_config (Some 741%nat) false 0x1 0x0 0x8 0x8 0x8 0x0 0xFF0000 0xFF00 0xFF 0x0 0x18 0x0 0x0 0x0 0x0 0x0 0x18 0x8 0x0 0x0 0x0 0x8003 0x8000 0x8000 0xFFFFFFFF 0xFFFFFFFF 0xFFFFFFFF 0xFFFFFFFF 0x0 0x0 0x0 0x7 0x1 0x0 0x0 0x0 0x0 0x0 0x0 0x0 0x8063 0x1 0x1 0x0 0x7 0x1 0x1;
  mk_config (Some 742%nat) false 0x1 0x0 0x8 0x8 0x8 0x0 0xFF0000 0xFF00 0xFF 0x0 0x18 0x0 0x10 0x10 0x10 0x10 0x18 0x8 0x0 0x0 0x0 0x8003 0x8001 0x8000 0xFFFFFFFF 0xFFFFFFFF 0xFFFFFFFF 0xFFFFFFFF 0x0 0x0 0x0 0x7 0x1 0x0 0x0 0x0 0x0 0x0 0x0 0x0 0x8063 0x1 0x1 0x0 0x7 0x1 0x1;
  mk_config (Some 743%nat) false 0x1 0x0 0x8 0x8 0x8 0x0 0xFF0000 0xFF00 0xFF 0x0 0x18 0x0 0x0 0x0 0x0 0x0 0x18 0x8 0x0 0x0 0x0 0x8003 0x8000 0x8000 0xFFFFFFFF 0xFFFFFFFF 0xFFFFFFFF 0xFFFFFFFF 0x0 0x0 0x0 0x7 0x1 0x0 0x0 0x0 0x0 0x0 0x0 0x0 0x8062 0x1 0x1 0x0 0x7 0x1 0x1;
  mk_config (Some 744%nat) false 0x1 0x0 0x8 0x8 0x8 0x0 0xFF0000 0xFF00 0xFF 0x0 0x18 0x0 0x10 0x10 0x10 0x10 0x18 0x8 0x0 0x0 0x0 0x8003 0x8001 0x8000 0xFFFFFFFF 0xFFFFFFFF 0xFFFFFFFF 0xFFFFFFFF 0x0 0x0 0x0 0x7 0x1 0x0 0x0 0x0 0x0 0x0 0x0 0x0 0x8062 0x1 0x1 0x0 0x7 0x1 0x1;
  mk_config (Some 745%nat) false 0x0 0x0 0x8 0x8 0x8 0x0 0xFF0000 0xFF00 0xFF 0x0 0x18 0x0 0x0 0x0 0x0 0x0 0x20 0x0 0x0 0x0 0x0 0x8003 0x8000 0x8000 0xFFFFFFFF 0xFFFFFFFF 0xFFFFFFFF 0xFFFFFFFF 0x0 0x0 0x0 0x7 0x1 0x0 0x0 0x0 0x0 0x0 0x0 0x0 0x8063 0x1 0x1 0x0 0x7 0x1 0x1;
  mk_config (Some 746%nat) false 0x0 0x0 0x8 0x8 0x8 0x0 0xFF0000 0xFF00 0xFF 0x0 0x18 0x0 0x10 0x10 0x10 0x10 0x20 0x0 0x0 0x0 0x0 0x8003 0x8001 0x8000 0xFFFFFFFF 0xFFFFFFFF 0xFFFFFFFF 0xFFFFFFFF 0x0 0x0 0x0 0x7 0x1 0x0 0x0 0x0 0x0 0x0 0x0 0x0 0x8063 0x1 0x1 0x0 0x7 0x1 0x1;
  mk_config (Some 747%nat) false 0x1 0x0 0x8 0x8 0x8 0x0 0xFF0000 0xFF00 0xFF 0x0 0x18 0x0 0x0 0x0 0x0 0x0 0x20 0x0 0x0 0x0 0x0 0x8003 0x8000 0x8000 0xFFFFFFFF 0xFFFFFFFF 0xFFFFFFFF 0xFFFFFFFF 0x0 0x0 0x0 0x7 0x1 0x0 0x0 0x0 0x0 0x0 0x0 0x0 0x8063 0x1 0x1 0x0 0x7 0x1 0x1;
  mk_config (Some 748%nat) false 0x1 0x0 0x8 0x8 0x8 0x0 0xFF0000 0xFF00 0xFF 0x0 0x18 0x0 0x10 0x10 0x10 0x10 0x20 0x0 0x0 0x0 0x0 0x8003 0x8001 0x8000 0xFFFFFFFF 0xFFFFFFFF 0xFFFFFFFF 0xFFFFFFFF 0x0 0x0 0x0 0x7 0x1 0x0 0x0 0x0 0x0 0x0 0x0 0x0 0x8063 0x1 0x1 0x0 0x7 0x1 0x1;
  mk_config (Some 749%nat) false 0x1 0x0 0x8 0x8 0x8 0x0 0xFF0000 0xFF00 0xFF 0x0 0x18 0x0 0x0 0x0 0x0 0x0 0x20 0x0 0x0 0x0 0x0 0x8003 0x8000 0x8000 0xFFFFFFFF 0xFFFFFFFF 0xFFFFFFFF 0xFFFFFFFF 0x0 0x0 0x0 0x7 0x1 0x0 0x0 0x0 0x0 0x0 0x0 0x0 0x8062 0x1 0x1 0x0 0x7 0x1 0x1;
  mk_config (Some 750%nat) false 0x1 0x0 0x8 0x8 0x8 0x0 0xFF0000 0xFF00 0xFF 0x0 0x18 0x0 0x10 0x10 0x10 0x10 0x20 0x0 0x0 0x0 0x0 0x8003 0x8001 0x8000 0xFFFFFFFF 0xFFFFFFFF 0xFFFFFFFF 0xFFFFFFFF 0x0 0x0 0x0 0x7 0x1 0x0 0x0 0x0 0x0 0x0 0x0 0x0 0x8062 0x1 0x1 0x0 0x7 0x1 0x1;
  mk_config (Some 751%nat) false 0x0 0x0 0x8 0x8 0x8 0x0 0xFF0000 0xFF00 0xFF 0x0 0x18 0x0 0x0 0x0 0x0 0x0 0x0 0x0 0x0 0x0 0x0 0x8003 0x8000 0x8000 0xFFFFFFFF 0xFFFFFFFF 0xFFFFFFFF 0xFFFFFFFF 0x0 0x1 0x4 0x7 0x1 0x0 0x0 0x0 0x0 0x0 0x0 0x0 0x8063 0x1 0x1 0x0 0x7 0x1 0x1;
  mk_config (Some 752%nat) false 0x1 0x0 0x8 0x8 0x8 0x0 0xFF0000 0xFF00 0xFF 0x0 0x18 0x0 0x0 0x0 0x0 0x0 0x0 0x0 0x0 0x0 0x0 0x8003 0x8000 0x8000 0xFFFFFFFF 0xFFFFFFFF 0xFFFFFFFF 0xFFFFFFFF 0x0 0x1 0x4 0x7 0x1 0x0 0x0 0x0 0x0 0x0 0x0 0x0 0x8063 0x1 0x1 0x0 0x7 0x1 0x1;
  mk_config (Some 753%nat) false 0x1 0x0 0x8 0x8 0x8 0x0 0xFF0000 0xFF00 0xFF 0x0 0x18 0x0 0x0 0x0 0x0 0x0 0x0 0x0 0x0 0x0 0x0 0x8003 0x8000 0x8000 0xFFFFFFFF 0xFFFFFFFF 0xFFFFFFFF 0xFFFFFFFF 0x0 0x1 0x4 0x7 0x1 0x0 0x0 0x0 0x0 0x0 0x0 0x0 0x8062 0x1 0x1 0x0 0x7 0x1 0x1;
  mk_config (Some 754%nat) false 0x0 0x0 0x8 0x8 0x8 0x0 0xFF0000 0xFF00 0xFF 0x0 0x18 0x0 0x0 0x0 0x0 0x0 0x10 0x0 0x0 0x0 0x0 0x8003 0x8000 0x8000 0xFFFFFFFF 0xFFFFFFFF 0xFFFFFFFF 0xFFFFFFFF 0x0 0x1 0x4 0x7 0x1 0x0 0x0 0x0 0x0 0x0 0x0 0x0 0x8063 0x1 0x1 0x0 0x7 0x1 0x1;
  mk_config (Some 755%nat) false 0x1 0x0 0x8 0x8 0x8 0x0 0xFF0000 0xFF00 0xFF 0x0 0x18 0x0 0x0 0x0 0x0 0x0 0x10 0x0 0x0 0x0 0x0 0x8003 0x8000 0x8000 0xFFFFFFFF 0xFFFFFFFF 0xFFFFFFFF 0xFFFFFFFF 0x0 0x1 0x4 0x7 0x1 0x0 0x0 0x0 0x0 0x0 0x0 0x0 0x8063 0x1 0x1 0x0 0x7 0x1 0x1;
  mk_config (Some 756%nat) false 0x1 0x0 0x8 0x8 0x8 0x0 0xFF0000 0xFF00 0xFF 0x0 0x18 0x0 0x0 0x0 0x0 0x0 0x10 0x0 0x0 0x0 0x0 0x8003 0x8000 0x8000 0xFFFFFFFF 0xFFFFFFFF 0xFFFFFFFF 0xFFFFFFFF 0x0 0x1 0x4 0x7 0x1 0x0 0x0 0x0 0x0 0x0 0x0 0x0 0x8062 0x1 0x1 0x0 0x7 0x1 0x1;
  mk_config (Some 757%nat) false 0x0 0x0 0x8 0x8 0x8 0x0 0xFF0000 0xFF00 0xFF 0x0 0x18 0x0 0x0 0x0 0x0 0x0 0x18 0x0 0x0 0x0 0x0 0x8003 0x8000 0x8000 0xFFFFFFFF 0xFFFFFFFF 0xFFFFFFFF 0xFFFFFFFF 0x0 0x1 0x4 0x7 0x1 0x0 0x0 0x0 0x0 0x0 0x0 0x0 0x8063 0x1 0x1 0x0 0x7 0x1 0x1;
  mk_config (Some 758%nat) false 0x1 0x0 0x8 0x8 0x8 0x0 0xFF0000 0xFF00 0xFF 0x0 0x18 0x0 0x0 0x0 0x0 0x0 0x18 0x0 0x0 0x0 0x0 0x8003 0x8000 0x8000 0xFFFFFFFF 0xFFFFFFFF 0xFFFFFFFF 0xFFFFFFFF 0x0 0x1 0x4 0x7 0x1 0x0 0x0 0x0 0x0 0x0 0x0 0x0 0x8063 0x1 0x1 0x0 0x7 0x1 0x1;
  mk_config (Some 759%nat) false 0x1 0x0 0x8 0x8 0x8 0x0 0xFF0000 0xFF00 0xFF 0x0 0x18 0x0 0x0 0x0 0x0 0x0 0x18 0x0 0x0 0x0 0x0 0x8003 0x8000 0x8000 0xFFFFFFFF 0xFFFFFFFF 0xFFFFFFFF 0xFFFFFFFF 0x0 0x1 0x4 0x7 0x1 0x0 0x0 0x0 0x0 0x0 0x0 0x0 0x8062 0x1 0x1 0x0 0x7 0x1 0x1;
  mk_config (Some 760%nat) false 0x0 0x0 0x8 0x8 0x8 0x0 0xFF0000 0xFF00 0xFF 0x0 0x18 0x0 0x0 0x0 0x0 0x0 0x18 0x8 0x0 0x0 0x0 0x8003 0x8000 0x8000 0xFFFFFFFF 0xFFFFFFFF 0xFFFFFFFF 0xFFFFFFFF 0x0 0x1 0x4 0x7 0x1 0x0 0x0 0x0 0x0 0x0 0x0 0x0 0x8063 0x1 0x1 0x0 0x7 0x1 0x1;
  mk_config (Some 761%nat) false 0x1 0x0 0x8 0x8 0x8 0x0 0xFF0000 0xFF00 0xFF 0x0 0x18 0x0 0x0 0x0 0x0 0x0 0x18 0x8 0x0 0x0 0x0 0x8003 0x8000 0x8000 0xFFFFFFFF 0xFFFFFFFF 0xFFFFFFFF 0xFFFFFFFF 0x0 0x1 0x4 0x7 0x1 0x0 0x0 0x0 0x0 0x0 0x0 0x0 0x8063 0x1 0x1 0x0 0x7 0x1 0x1;
  mk_config (Some 762%nat) false 0x1 0x0 0x8 0x8 0x8 0x0 0xFF0000 0xFF00 0xFF 0x0 0x18 0x0 0x0 0x0 0x0 0x0 0x18 0x8 0x0 0x0 0x0 0x8003 0x8000 0x8000 0xFFFFFFFF 0xFFFFFFFF 0xFFFFFFFF 0xFFFFFFFF 0x0 0x1 0x4 0x7 0x1 0x0 0x0 0x0 0x0 0x0 0x0 0x0 0x8062 0x1 0x1 0x0 0x7 0x1 0x1;
  mk_config (Some 763%nat) false 0x0 0x0 0x8 0x8 0x8 0x0 0xFF0000 0xFF00 0xFF 0x0 0x18 0x0 0x0 0x0 0x0 0x0 0x20 0x0 0x0 0x0 0x0 0x8003 0x8000 0x8000 0xFFFFFFFF 0xFFFFFFFF 0xFFFFFFFF 0xFFFFFFFF 0x0 0x1 0x4 0x7 0x1 0x0 0x0 0x0 0x0 0x0 0x0 0x0 0x8063 0x1 0x1 0x0 0x7 0x1 0x1;
  mk_config (Some 764%nat) false 0x1 0x0 0x8 0x8 0x8 0x0 0xFF0000 0xFF00 0xFF 0x0 0x18 0x0 0x0 0x0 0x0 0x0 0x20 0x0 0x0 0x0 0x0 0x8003 0x8000 0x8000 0xFFFFFFFF 0xFFFFFFFF 0xFFFFFFFF 0xFFFFFFFF 0x0 0x1 0x4 0x7 0x1 0x0 0x0 0x0 0x0 0x0 0x0 0x0 0x8063 0x1 0x1 0x0 0x7 0x1 0x1;
  mk_config (Some 765%nat) false 0x1 0x0 0x8 0x8 0x8 0x0 0xFF0000 0xFF00 0xFF 0x0 0x18 0x0 0x0 0x0 0x0 0x0 0x20 0x0 0x0 0x0 0x0 0x8003 0x8000 0x8000 0xFFFFFFFF 0xFFFFFFFF 0xFFFFFFFF 0xFFFFFFFF 0x0 0x1 0x4 0x7 0x1 0x0 0x0 0x0 0x0 0x0 0x0 0x0 0x8062 0x1 0x1 0x0 0x7 0x1 0x1;
  mk_config (Some 766%nat) false 0x0 0x0 0x5 0x6 0x5 0x0 0xF800 0x7E0 0x1F 0x0 0x10 0x0 0x0 0x0 0x0 0x0 0x0 0x0 0x0 0x0 0x0 0x8003 0x8000 0x8000 0xFFFFFFFF 0xFFFFFFFF 0xFFFFFFFF 0xFFFFFFFF 0x0 0x0 0x0 0x7 0x1 0x0 0x0 0x0 0x0 0x0 0x0 0x0 0x8063 0x1 0x1 0x0 0x7 0x1 0x0;
  mk_config (Some 767%nat) false 0x0 0x0 0x5 0x6 0x5 0x0 0xF800 0x7E0 0x1F 0x0 0x10 0x0 0x10 0x10 0x10 0x10 0x0 0x0 0x0 0x0 0x0 0x8003 0x8001 0x8000 0xFFFFFFFF 0xFFFFFFFF 0xFFFFFFFF 0xFFFFFFFF 0x0 0x0 0x0 0x7 0x1 0x0 0x0 0x0 0x0 0x0 0x0 0x0 0x8063 0x1 0x1 0x0 0x7 0x1 0x0;
  mk_config (Some 768%nat) false 0x1 0x0 0x5 0x6 0x5 0x0 0xF800 0x7E0 0x1F 0x0 0x10 0x0 0x0 0x0 0x0 0x0 0x0 0x0 0x0 0x0 0x0 0x8003 0x8000 0x8000 0xFFFFFFFF 0xFFFFFFFF 0xFFFFFFFF 0xFFFFFFFF 0x0 0x0 0x0 0x7 0x1 0x0 0x0 0x0 0x0 0x0 0x0 0x0 0x8063 0x1 0x1 0x0 0x7 0x1 0x0;
  mk_config (Some 769%nat) false 0x1 0x0 0x5 0x6 0x5 0x0 0xF800 0x7E0 0x1F 0x0 0x10 0x0 0x10 0x10 0x10 0x10 0x0 0x0 0x0 0x0 0x0 0x8003 0x8001 0x8000 0xFFFFFFFF 0xFFFFFFFF 0xFFFFFFFF 0xFFFFFFFF 0x0 0x0 0x0 0x7 0x1 0x0 0x0 0x0 0x0 0x0 0x0 0x0 0x8063 0x1 0x1 0x0 0x7 0x1 0x0;
  mk_config (Some 770%nat) false 0x1 0x0 0x5 0x6 0x5 0x0 0xF800 0x7E0 0x1F 0x0 0x10 0x0 0x0 0x0 0x0 0x0 0x0 0x0 0x0 0x0 0x0 0x8003 0x8000 0x8000 0xFFFFFFFF 0xFFFFFFFF 0xFFFFFFFF 0xFFFFFFFF 0x0 0x0 0x0 0x7 0x1 0x0 0x0 0x0 0x0 0x0 0x0 0x0 0x8062 0x1 0x1 0x0 0x7 0x1 0x0;
  mk_config (Some 771%nat) false 0x1 0x0 0x5 0x6 0x5 0x0 0xF800 0x7E0 0x1F 0x0 0x10 0x0 0x10 0x10 0x10 0x10 0x0 0x0 0x0 0x0 0x0 0x8003 0x8001 0x8000 0xFFFFFFFF 0xFFFFFFFF 0xFFFFFFFF 0xFFFFFFFF 0x0 0x0 0x0 0x7 0x1 0x0 0x0 0x0 0x0 0x0 0x0 0x0 0x8062 0x1 0x1 0x0 0x7 0x1 0x0;
  mk_config (Some 772%nat) false 0x0 0x0 0x5 0x6 0x5 0x0 0xF800 0x7E0 0x1F 0x0 0x10 0x0 0x0 0x0 0x0 0x0 0x10 0x0 0x0 0x0 0x0 0x8003 0x8000 0x8000 0xFFFFFFFF 0xFFFFFFFF 0xFFFFFFFF 0xFFFFFFFF 0x0 0x0 0x0 0x7 0x1 0x0 0x0 0x0 0x0 0x0 0x0 0x0 0x8063 0x1 0x1 0x0 0x7 0x1 0x0;
  mk_config (Some 773%nat) false 0x0 0x0 0x5 0x6 0x5 0x0 0xF800 0x7E0 0x1F 0x0 0x10 0x0 0x10 0x10 0x10 0x10 0x10 0x0 0x0 0x0 0x0 0x8003 0x8001 0x8000 0xFFFFFFFF 0xFFFFFFFF 0xFFFFFFFF 0xFFFFFFFF 0x0 0x0 0x0 0x7 0x1 0x0 0x0 0x0 0x0 0x0 0x0 0x0 0x8063 0x1 0x1 0x0 0x7 0x1 0x0;
  mk_config (Some 774%nat) false 0x1 0x0 0x5 0x6 0x5 0x0 0xF800 0x7E0 0x1F 0x0 0x10 0x0 0x0 0x0 0x0 0x0 0x10 0x0 0x0 0x0 0x0 0x8003 0x8000 0x8000 0xFFFFFFFF 0xFFFFFFFF 0xFFFFFFFF 0xFFFFFFFF 0x0 0x0 0x0 0x7 0x1 0x0 0x0 0x0 0x0 0x0 0x0 0x0 0x8063 0x1 0x1 0x0 0x7 0x1 0x0;
  mk_config (Some 775%nat) false 0x1 0x0 0x5 0x6 0x5 0x0 0xF800 0x7E0 0x1F 0x0 0x10 0x0 0x10 0x10 0x10 0x10 0x10 0x0 0x0 0x0 0x0 0x8003 0x8001 0x8000 0xFFFFFFFF 0xFFFFFFFF 0xFFFFFFFF 0xFFFFFFFF 0x0 0x0 0x0 0x7 0x1 0x0 0x0 0x0 0x0 0x0 0x0 0x0 0x8063 0x1 0x1 0x0 0x7 0x1 0x0;
  mk_config (Some 776%nat) false 0x1 0x0 0x5 0x6 0x5 0x0 0xF800 0x7E0 0x1F 0x0 0x10 0x0 0x0 0x0 0x0 0x0 0x10 0x0 0x0 0x0 0x0 0x8003 0x8000 0x8000 0xFFFFFFFF 0xFFFFFFFF 0xFFFFFFFF 0xFFFFFFFF 0x0 0x0 0x0 0x7 0x1 0x0 0x0 0x0 0x0 0x0 0x0 0x0 0x8062 0x1 0x1 0x0 0x7 0x1 0x0;
  mk_config (Some 777%nat) false 0x1 0x0 0x5 0x6 0x5 0x0 0xF800 0x7E0 0x1F 0x0 0x10 0x0 0x10 0x10 0x10 0x10 0x10 0x0 0x0 0x0 0x0 0x8003 0x8001 0x8000 0xFFFFFFFF 0xFFFFFFFF 0xFFFFFFFF 0xFFFFFFFF 0x0 0x0 0x0 0x7 0x1 0x0 0x0 0x0 0x0 0x0 0x0 0x0 0x8062 0x1 0x1 0x0 0x7 0x1 0x0;
  mk_config (Some 778%nat) false 0x0 0x0 0x5 0x6 0x5 0x0 0xF800 0x7E0 0x1F 0x0 0x10 0x0 0x0 0x0 0x0 0x0 0x18 0x0 0x0 0x0 0x0 0x8003 0x8000 0x8000 0xFFFFFFFF 0xFFFFFFFF 0xFFFFFFFF 0xFFFFFFFF 0x0 0x0 0x0 0x7 0x1 0x0 0x0 0x0 0x0 0x0 0x0 0x0 0x8063 0x1 0x1 0x0 0x7 0x1 0x0;
  mk_config (Some 779%nat) false 0x0 0x0 0x5 0x6 0x5 0x0 0xF800 0x7E0 0x1F 0x0 0x10 0x0 0x10 0x10 0x10 0x10 0x18 0x0 0x0 0x0 0x0 0x8003 0x8001 0x8000 0xFFFFFFFF 0xFFFFFFFF 0xFFFFFFFF 0xFFFFFFFF 0x0 0x0 0x0 0x7 0x1 0x0 0x0 0x0 0x0 0x0 0x0 0x0 0x8063 0x1 0x1 0x0 0x7 0x1 0x0;
  mk_config (Some 780%nat) false 0x1 0x0 0x5 0x6 0x5 0x0 0xF800 0x7E0 0x1F 0x0 0x10 0x0 0x0 0x0 0x0 0x0 0x18 0x0 0x0 0x0 0x0 0x8003 0x8000 0x8000 0xFFFFFFFF 0xFFFFFFFF 0xFFFFFFFF 0xFFFFFFFF 0x0 0x0 0x0 0x7 0x1 0x0 0x0 0x0 0x0 0x0 0x0 0x0 0x8063 0x1 0x1 0x0 0x7 0x1 0x0;
  mk_config (Some 781%nat) false 0x1 0x0 0x5 0x6 0x5 0x0 0xF800 0x7E0 0x1F 0x0 0x10 0x0 0x10 0x10 0x10 0x10 0x18 0x0 0x0 0x0 0x0 0x8003 0x8001 0x8000 0xFFFFFFFF 0xFFFFFFFF 0xFFFFFFFF 0xFFFFFFFF 0x0 0x0 0x0 0x7 0x1 0x0 0x0 0x0 0x0 0x0 0x0 0x0 0x8063 0x1 0x1 0x0 0x7 0x1 0x0;
  mk_config (Some 782%nat) false 0x1 0x0 0x5 0x6 0x5 0x0 0xF800 0x7E0 0x1F 0x0 0x10 0x0 0x0 0x0 0x0 0x0 0x18 0x0 0x0 0x0 0x0 0x8003 0x8000 0x8000 0xFFFFFFFF 0xFFFFFFFF 0xFFFFFFFF 0xFFFFFFFF 0x0 0x0 0x0 0x7 0x1 0x0 0x0 0x0 0x0 0x0 0x0 0x0 0x8062 0x1 0x1 0x0 0x7 0x1 0x0;
  mk_config (Some 783%nat) false 0x1 0x0 0x5 0x6 0x5 0x0 0xF800 0x7E0 0x1F 0x0 0x10 0x0 0x10 0x10 0x10 0x10 0x18 0x0 0x0 0x0 0x0 0x8003 0x8001 0x8000 0xFFFFFFFF 0xFFFFFFFF 0xFFFFFFFF 0xFFFFFFFF 0x0 0x0 0x0 0x7 0x1 0x0 0x0 0x0 0x0 0x0 0x0 0x0 0x8062 0x1 0x1 0x0 0x7 0x1 0x0;
  mk_config (Some 784%nat) false 0x0 0x0 0x5 0x6 0x5 0x0 0xF800 0x7E0 0x1F 0x0 0x10 0x0 0x0 0x0 0x0 0x0 0x18 0x8 0x0 0x0 0x0 0x8003 0x8000 0x8000 0xFFFFFFFF 0xFFFFFFFF 0xFFFFFFFF 0xFFFFFFFF 0x0 0x0 0x0 0x7 0x1 0x0 0x0 0x0 0x0 0x0 0x0 0x0 0x8063 0x1 0x1 0x0 0x7 0x1 0x0;
  mk_config (Some 785%nat) false 0x0 0x0 0x5 0x6 0x5 0x0 0xF800 0x7E0 0x1F 0x0 0x10 0x0 0x10 0x10 0x10 0x10 0x18 0x8 0x0 0x0 0x0 0x8003 0x8001 0x8000 0xFFFFFFFF 0xFFFFFFFF 0xFFFFFFFF 0xFFFFFFFF 0x0 0x0 0x0 0x7 0x1 0x0 0x0 0x0 0x0 0x0 0x0 0x0 0x8063 0x1 0x1 0x0 0x7 0x1 0x0;
  mk_config (Some 786%nat) false 0x1 0x0 0x5 0x6 0x5 0x0 0xF800 0x7E0 0x1F 0x0 0x10 0x0 0x0 0x0 0x0 0x0 0x18 0x8 0x0 0x0 0x0 0x8003 0x8000 0x8000 0xFFFFFFFF 0xFFFFFFFF 0xFFFFFFFF 0xFFFFFFFF 0x0 0x0 0x0 0x7 0x1 0x0 0x0 0x0 0x0 0x0 0x0 0x0 0x8063 0x1 0x1 0x0 0x7 0x1 0x0;
  mk_config (Some 787%nat) false 0x1 0x0 0x5 0x6 0x5 0x0 0xF800 0x7E0 0x1F 0x0 0x10 0x0 0x10 0x10 0x10 0x10 0x18 0x8 0x0 0x0 0x0 0x8003 0x8001 0x8000 0xFFFFFFFF 0xFFFFFFFF 0xFFFFFFFF 0xFFFFFFFF 0x0 0x0 0x0 0x7 0x1 0x0 0x0 0x0 0x0 0x0 0x0 0x0 0x8063 0x1 0x1 0x0 0x7 0x1 0x0;
  mk_config (Some 788%nat) false 0x1 0x0 0x5 0x6 0x5 0x0 0xF800 0x7E0 0x1F 0x0 0x10 0x0 0x0 0x0 0x0 0x0 0x18 0x8 0x0 0x0 0x0 0x8003 0x8000 0x8000 0xFFFFFFFF 0xFFFFFFFF 0xFFFFFFFF 0xFFFFFFFF 0x0 0x0 0x0 0x7 0x1 0x0 0x0 0x0 0x0 0x0 0x0 0x0 0x8062 0x1 0x1 0x0 0x7 0x1 0x0;
  mk_config (Some 789%nat) false 0x1 0x0 0x5 0x6 0x5 0x0 0xF800 0x7E0 0x1F 0x0 0x10 0x0 0x10 0x10 0x10 0x10 0x18 0x8 0x0 0x0 0x0 0x8003 0x8001 0x8000 0xFFFFFFFF 0xFFFFFFFF 0xFFFFFFFF 0xFFFFFFFF 0x0 0x0 0x0 0x7 0x1 0x0 0x0 0x0 0x0 0x0 0x0 0x0 0x8062 0x1 0x1 0x0 0x7 0x1 0x0;
  mk_config (Some 790%nat) false 0x0 0x0 0x5 0x6 0x5 0x0 0xF800 0x7E0 0x1F 0x0 0x10 0x0 0x0 0x0 0x0 0x0 0x20 0x0 0x0 0x0 0x0 0x8003 0x8000 0x8000 0xFFFFFFFF 0xFFFFFFFF 0xFFFFFFFF 0xFFFFFFFF 0x0 0x0 0x0 0x7 0x1 0x0 0x0 0x0 0x0 0x0 0x0 0x0 0x8063 0x1 0x1 0x0 0x7 0x1 0x0;
  mk_config (Some 791%nat) false 0x0 0x0 0x5 0x6 0x5 0x0 0xF800 0x7E0 0x1F 0x0 0x10 0x0 0x10 0x10 0x10 0x10 0x20 0x0 0x0 0x0 0x0 0x8003 0x8001 0x8000 0xFFFFFFFF 0xFFFFFFFF 0xFFFFFFFF 0xFFFFFFFF 0x0 0x0 0x0 0x7 0x1 0x0 0x0 0x0 0x0 0x0 0x0 0x0 0x8063 0x1 0x1 0x0 0x7 0x1 0x0;
  mk_config (Some 792%nat) false 0x1 0x0 0x5 0x6 0x5 0x0 0xF800 0x7E0 0x1F 0x0 0x10 0x0 0x0 0x0 0x0 0x0 0x20 0x0 0x0 0x0 0x0 0x8003 0x8000 0x8000 0xFFFFFFFF 0xFFFFFFFF 0xFFFFFFFF 0xFFFFFFFF 0x0 0x0 0x0 0x7 0x1 0x0 0x0 0x0 0x0 0x0 0x0 0x0 0x8063 0x1 0x1 0x0 0x7 0x1 0x0;
  mk_config (Some 793%nat) false 0x1 0x0 0x5 0x6 0x5 0x0 0xF800 0x7E0 0x1F 0x0 0x10 0x0 0x10 0x10 0x10 0x10 0x20 0x0 0x0 0x0 0x0 0x8003 0x8001 0x8000 0xFFFFFFFF 0xFFFFFFFF 0xFFFFFFFF 0xFFFFFFFF 0x0 0x0 0x0 0x7 0x1 0x0 0x0 0x0 0x0 0x0 0x0 0x0 0x8063 0x1 0x1 0x0 0x7 0x1 0x0;
  mk_config (Some 794%nat) false 0x1 0x0 0x5 0x6 0x5 0x0 0xF800 0x7E0 0x1F 0x0 0x10 0x0 0x0 0x0 0x0 0x0 0x20 0x0 0x0 0x0 0x0 0x8003 0x8000 0x8000 0xFFFFFFFF 0xFFFFFFFF 0xFFFFFFFF 0xFFFFFFFF 0x0 0x0 0x0 0x7 0x1 0x0 0x0 0x0 0x0 0x0 0x0 0x0 0x8062 0x1 0x1 0x0 0x7 0x1 0x0;
  mk_config (Some 795%nat) false 0x1 0x0 0x5 0x6 0x5 0x0 0xF800 0x7E0 0x1F 0x0 0x10 0x0 0x10 0x10 0x10 0x10 0x20 0x0 0x0 0x0 0x0 0x8003 0x8001 0x8000 0xFFFFFFFF 0xFFFFFFFF 0xFFFFFFFF 0xFFFFFFFF 0x0 0x0 0x0 0x7 0x1 0x0 0x0 0x0 0x0 0x0 0x0 0x0 0x8062 0x1 0x1 0x0 0x7 0x1 0x0;
  mk_config (Some 796%nat) false 0x0 0x0 0x5 0x6 0x5 0x0 0xF800 0x7E0 0x1F 0x0 0x10 0x0 0x0 0x0 0x0 0x0 0x0 0x0 0x0 0x0 0x0 0x8003 0x8000 0x8000 0xFFFFFFFF 0xFFFFFFFF 0xFFFFFFFF 0xFFFFFFFF 0x0 0x1 0x4 0x7 0x1 0x0 0x0 0x0 0x0 0x0 0x0 0x0 0x8063 0x1 0x1 0x0 0x7 0x1 0x0;
  mk_config (Some 797%nat) false 0x1 0x0 0x5 0x6 0x5 0x0 0xF800 0x7E0 0x1F 0x0 0x10 0x0 0x0 0x0 0x0 0x0 0x0 0x0 0x0 0x0 0x0 0x8003 0x8000 0x8000 0xFFFFFFFF 0xFFFFFFFF 0xFFFFFFFF 0xFFFFFFFF 0x0 0x1 0x4 0x7 0x1 0x0 0x0 0x0 0x0 0x0 0x0 0x0 0x8063 0x1 0x1 0x0 0x7 0x1 0x0;
  mk_config (Some 798%nat) false 0x1 0x0 0x5 0x6 0x5 0x0 0xF800 0x7E0 0x1F 0x0 0x10 0x0 0x0 0x0 0x0 0x0 0x0 0x0 0x0 0x0 0x0 0x8003 0x8000 0x8000 0xFFFFFFFF 0xFFFFFFFF 0xFFFFFFFF 0xFFFFFFFF 0x0 0x1 0x4 0x7 0x1 0x0 0x0 0x0 0x0 0x0 0x0 0x0 0x8062 0x1 0x1 0x0 0x7 0x1 0x0;
  mk_config (Some 799%nat) false 0x0 0x0 0x5 0x6 0x5 0x0 0xF800 0x7E0 0x1F 0x0 0x10 0x0 0x0 0x0 0x0 0x0 0x10 0x0 0x0 0x0 0x0 0x8003 0x8000 0x8000 0xFFFFFFFF 0xFFFFFFFF 0xFFFFFFFF 0xFFFFFFFF 0x0 0x1 0x4 0x7 0x1 0x0 0x0 0x0 0x0 0x0 0x0 0x0 0x8063 0x1 0x1 0x0 0x7 0x1 0x0;
  mk_config (Some 800%nat) false 0x1 0x0 0x5 0x6 0x5 0x0 0xF800 0x7E0 0x1F 0x0 0x10 0x0 0x0 0x0 0x0 0x0 0x10 0x0 0x0 0x0 0x0 0x8003 0x8000 0x8000 0xFFFFFFFF 0xFFFFFFFF 0xFFFFFFFF 0xFFFFFFFF 0x0 0x1 0x4 0x7 0x1 0x0 0x0 0x0 0x0 0x0 0x0 0x0 0x8063 0x1 0x1 0x0 0x7 0x1 0x0;
  mk_config (Some 801%nat) false 0x1 0x0 0x5 0x6 0x5 0x0 0xF800 0x7E0 0x1F 0x0 0x10 0x0 0x0 0x0 0x0 0x0 0x10 0x0 0x0 0x0 0x0 0x8003 0x8000 0x8000 0xFFFFFFFF 0xFFFFFFFF 0xFFFFFFFF 0xFFFFFFFF 0x0 0x1 0x4 0x7 0x1 0x0 0x0 0x0 0x0 0x0 0x0 0x0 0x8062 0x1 0x1 0x0 0x7 0x1 0x0;
  mk_config (Some 802%nat) false 0x0 0x0 0x5 0x6 0x5 0x0 0xF800 0x7E0 0x1F 0x0 0x10 0x0 0x0 0x0 0x0 0x0 0x18 0x0 0x0 0x0 0x0 0x8003 0x8000 0x8000 0xFFFFFFFF 0xFFFFFFFF 0xFFFFFFFF 0xFFFFFFFF 0x0 0x1 0x4 0x7 0x1 0x0 0x0 0x0 0x0 0x0 0x0 0x0 0x8063 0x1 0x1 0x0 0x7 0x1 0x0;
  mk_config (Some 803%nat) false 0x1 0x0 0x5 0x6 0x5 0x0 0xF800 0x7E0 0x1F 0x0 0x10 0x0 0x0 0x0 0x0 0x0 0x18 0x0 0x0 0x0 0x0 0x8003 0x8000 0x8000 0xFFFFFFFF 0xFFFFFFFF 0xFFFFFFFF 0xFFFFFFFF 0x0 0x1 0x4 0x7 0x1 0x0 0x0 0x0 0x0 0x0 0x0 0x0 0x8063 0x1 0x1 0x0 0x7 0x1 0x0;
  mk_config (Some 804%nat) false 0x1 0x0 0x5 0x6 0x5 0x0 0xF800 0x7E0 0x1F 0x0 0x10 0x0 0x0 0x0 0x0 0x0 0x18 0x0 0x0 0x0 0x0 0x8003 0x8000 0x8000 0xFFFFFFFF 0xFFFFFFFF 0xFFFFFFFF 0xFFFFFFFF 0x0 0x1 0x4 0x7 0x1 0x0 0x0 0x0 0x0 0x0 0x0 0x0 0x8062 0x1 0x1 0x0 0x7 0x1 0x0;
  mk_config (Some 805%nat) false 0x0 0x0 0x5 0x6 0x5 0x0 0xF800 0x7E0 0x1F 0x0 0x10 0x0 0x0 0x0 0x0 0x0 0x18 0x8 0x0 0x0 0x0 0x8003 0x8000 0x8000 0xFFFFFFFF 0xFFFFFFFF 0xFFFFFFFF 0xFFFFFFFF 0x0 0x1 0x4 0x7 0x1 0x0 0x0 0x0 0x0 0x0 0x0 0x0 0x8063 0x1 0x1 0x0 0x7 0x1 0x0;
  mk_config (Some 806%nat) false 0x1 0x0 0x5 0x6 0x5 0x0 0xF800 0x7E0 0x1F 0x0 0x10 0x0 0x0 0x0 0x0 0x0 0x18 0x8 0x0 0x0 0x0 0x8003 0x8000 0x8000 0xFFFFFFFF 0xFFFFFFFF 0xFFFFFFFF 0xFFFFFFFF 0x0 0x1 0x4 0x7 0x1 0x0 0x0 0x0 0x0 0x0 0x0 0x0 0x8063 0x1 0x1 0x0 0x7 0x1 0x0;
  mk_config (Some 807%nat) false 0x1 0x0 0x5 0x6 0x5 0x0 0xF800 0x7E0 0x1F 0x0 0x10 0x0 0x0 0x0 0x0 0x0 0x18 0x8 0x0 0x0 0x0 0x8003 0x8000 0x8000 0xFFFFFFFF 0xFFFFFFFF 0xFFFFFFFF 0xFFFFFFFF 0x0 0x1 0x4 0x7 0x1 0x0 0x0 0x0 0x0 0x0 0x0 0x0 0x8062 0x1 0x1 0x0 0x7 0x1 0x0;
  mk_config (Some 808%nat) false 0x0 0x0 0x5 0x6 0x5 0x0 0xF800 0x7E0 0x1F 0x0 0x10 0x0 0x0 0x0 0x0 0x0 0x20 0x0 0x0 0x0 0x0 0x8003 0x8000 0x8000 0xFFFFFFFF 0xFFFFFFFF 0xFFFFFFFF 0xFFFFFFFF 0x0 0x1 0x4 0x7 0x1 0x0 0x0 0x0 0x0 0x0 0x0 0x0 0x8063 0x1 0x1 0x0 0x7 0x1 0x0;
  mk_config (Some 809%nat) false 0x1 0x0 0x5 0x6 0x5 0x0 0xF800 0x7E0 0x1F 0x0 0x10 0x0 0x0 0x0 0x0 0x0 0x20 0x0 0x0 0x0 0x0 0x8003 0x8000 0x8000 0xFFFFFFFF 0xFFFFFFFF 0xFFFFFFFF 0xFFFFFFFF 0x0 0x1 0x4 0x7 0x1 0x0 0x0 0x0 0x0 0x0 0x0 0x0 0x8063 0x1 0x1 0x0 0x7 0x1 0x0;
  mk_config (Some 810%nat) false 0x1 0x0 0x5 0x6 0x5 0x0 0xF800 0x7E0 0x1F 0x0 0x10 0x0 0x0 0x0 0x0 0x0 0x20 0x0 0x0 0x0 0x0 0x8003 0x8000 0x8000 0xFFFFFFFF 0xFFFFFFFF 0xFFFFFFFF 0xFFFFFFFF 0x0 0x1 0x4 0x7 0x1 0x0 0x0 0x0 0x0 0x0 0x0 0x0 0x8062 0x1 0x1 0x0 0x7 0x1 0x0
].

Definition configs_6 : list __GLXconfig := [
  mk_config (Some 811%nat) true 0x0 0x0 0x8 0x8 0x8 0x8 0xFF0000 0xFF00 0xFF 0xFF000000 0x20 0x0 0x0 0x0 0x0 0x0 0x0 0x0 0x0 0x0 0x0 0x8002 0x8000 0x8000 0xFFFFFFFF 0xFFFFFFFF 0xFFFFFFFF 0xFFFFFFFF 0x0 0x0 0x0 0x7 0x1 0x0 0x0 0x0 0x0 0x0 0x0 0x0 0x8063 0x1 0x1 0x0 0x7 0x1 0x0;
  mk_config (Some 812%nat) true 0x1 0x0 0x8 0x8 0x8 0x8 0xFF0000 0xFF00 0xFF 0xFF000000 0x20 0x0 0x0 0x0 0x0 0x0 0x0 0x0 0x0 0x0 0x0 0x8002 0x8000 0x8000 0xFFFFFFFF 0xFFFFFFFF 0xFFFFFFFF 0xFFFFFFFF 0x0 0x0 0x0 0x7 0x1 0x0 0x0 0x0 0x0 0x0 0x0 0x0 0x8063 0x1 0x1 0x0 0x7 0x1 0x0;
  mk_config (Some 813%nat) true 0x1 0x0 0x8 0x8 0x8 0x8 0xFF0000 0xFF00 0xFF 0xFF000000 0x20 0x0 0x0 0x0 0x0 0x0 0x0 0x0 0x0 0x0 0x0 0x8002 0x8000 0x8000 0xFFFFFFFF 0xFFFFFFFF 0xFFFFFFFF 0xFFFFFFFF 0x0 0x0 0x0 0x7 0x1 0x0 0x0 0x0 0x0 0x0 0x0 0x0 0x8062 0x1 0x1 0x0 0x7 0x1 0x0;
  mk_config (Some 814%nat) true 0x0 0x0 0x8 0x8 0x8 0x8 0xFF0000 0xFF00 0xFF 0xFF000000 0x20 0x0 0x0 0x0 0x0 0x0 0x10 0x0 0x0 0x0 0x0 0x8002 0x8000 0x8000 0xFFFFFFFF 0xFFFFFFFF 0xFFFFFFFF 0xFFFFFFFF 0x0 0x0 0x0 0x7 0x1 0x0 0x0 0x0 0x0 0x0 0x0 0x0 0x8063 0x1 0x1 0x0 0x7 0x1 0x0;
  mk_config (Some 815%nat) true 0x1 0x0 0x8 0x8 0x8 0x8 0xFF0000 0xFF00 0xFF 0xFF000000 0x20 0x0 0x0 0x0 0x0 0x0 0x10 0x0 0x0 0x0 0x0 0x8002 0x8000 0x8000 0xFFFFFFFF 0xFFFFFFFF 0xFFFFFFFF 0xFFFFFFFF 0x0 0x0 0x0 0x7 0x1 0x0 0x0 0x0 0x0 0x0 0x0 0x0 0x8063 0x1 0x1 0x0 0x7 0x1 0x0;
  mk_config (Some 816%nat) true 0x1 0x0 0x8 0x8 0x8 0x8 0xFF0000 0xFF00 0xFF 0xFF000000 0x20 0x0 0x0 0x0 0x0 0x0 0x10 0x0 0x0 0x0 0x0 0x8002 0x8000 0x8000 0xFFFFFFFF 0xFFFFFFFF 0xFFFFFFFF 0xFFFFFFFF 0x0 0x0 0x0 0x7 0x1 0x0 0x0 0x0 0x0 0x0 0x0 0x0 0x8062 0x1 0x1 0x0 0x7 0x1 0x0;
  mk_config (Some 817%nat) true 0x0 0x0 0x8 0x8 0x8 0x8 0xFF0000 0xFF00 0xFF 0xFF000000 0x20 0x0 0x0 0x0 0x0 0x0 0x18 0x0 0x0 0x0 0x0 0x8002 0x8000 0x8000 0xFFFFFFFF 0xFFFFFFFF 0xFFFFFFFF 0xFFFFFFFF 0x0 0x0 0x0 0x7 0x1 0x0 0x0 0x0 0x0 0x0 0x0 0x0 0x8063 0x1 0x1 0x0 0x7 0x1 0x0;
  mk_config (Some 818%nat) true 0x1 0x0 0x8 0x8 0x8 0x8 0xFF0000 0xFF00 0xFF 0xFF000000 0x20 0x0 0x0 0x0 0x0 0x0 0x18 0x0 0x0 0x0 0x0 0x8002 0x8000 0x8000 0xFFFFFFFF 0xFFFFFFFF 0xFFFFFFFF 0xFFFFFFFF 0x0 0x0 0x0 0x7 0x1 0x0 0x0 0x0 0x0 0x0 0x0 0x0 0x8063 0x1 0x1 0x0 0x7 0x1 0x0;
  mk_config (Some 819%nat) true 0x1 0x0 0x8 0x8 0x8 0x8 0xFF0000 0xFF00 0xFF 0xFF000000 0x20 0x0 0x0 0x0 0x0 0x0 0x18 0x0 0x0 0x0 0x0 0x8002 0x8000 0x8000 0xFFFFFFFF 0xFFFFFFFF 0xFFFFFFFF 0xFFFFFFFF 0x0 0x0 0x0 0x7 0x1 0x0 0x0 0x0 0x0 0x0 0x0 0x0 0x8062 0x1 0x1 0x0 0x7 0x1 0x0;
  mk_config (Some 820%nat) true 0x0 0x0 0x8 0x8 0x8 0x8 0xFF0000 0xFF00 0xFF 0xFF000000 0x20 0x0 0x0 0x0 0x0 0x0 0x18 0x8 0x0 0x0 0x0 0x8002 0x8000 0x8000 0xFFFFFFFF 0xFFFFFFFF 0xFFFFFFFF 0xFFFFFFFF 0x0 0x0 0x0 0x7 0x1 0x0 0x0 0x0 0x0 0x0 0x0 0x0 0x8063 0x1 0x1 0x0 0x7 0x1 0x0;
  mk_config (Some 821%nat) true 0x1 0x0 0x8 0x8 0x8 0x8 0xFF0000 0xFF00 0xFF 0xFF000000 0x20 0x0 0x0 0x0 0x0 0x0 0x18 0x8 0x0 0x0 0x0 0x8002 0x8000 0x8000 0xFFFFFFFF 0xFFFFFFFF 0xFFFFFFFF 0xFFFFFFFF 0x0 0x0 0x0 0x7 0x1 0x0 0x0 0x0 0x0 0x0 0x0 0x0 0x8063 0x1 0x1 0x0 0x7 0x1 0x0;
  mk_config (Some 822%nat) true 0x1 0x0 0x8 0x8 0x8 0x8 0xFF0000 0xFF00 0xFF 0xFF000000 0x20 0x0 0x0 0x0 0x0 0x0 0x18 0x8 0x0 0x0 0x0 0x8002 0x8000 0x8000 0xFFFFFFFF 0xFFFFFFFF 0xFFFFFFFF 0xFFFFFFFF 0x0 0x0 0x0 0x7 0x1 0x0 0x0 0x0 0x0 0x0 0x0 0x0 0x8062 0x1 0x1 0x0 0x7 0x1 0x0;
  mk_config (Some 823%nat) true 0x0 0x0 0x8 0x8 0x8 0x8 0xFF0000 0xFF00 0xFF 0xFF000000 0x20 0x0 0x0 0x0 0x0 0x0 0x20 0x0 0x0 0x0 0x0 0x8002 0x8000 0x8000 0xFFFFFFFF 0xFFFFFFFF 0xFFFFFFFF 0xFFFFFFFF 0x0 0x0 0x0 0x7 0x1 0x0 0x0 0x0 0x0 0x0 0x0 0x0 0x8063 0x1 0x1 0x0 0x7 0x1 0x0;
  mk_config (Some 824%nat) true 0x1 0x0 0x8 0x8 0x8 0x8 0xFF0000 0xFF00 0xFF 0xFF000000 0x20 0x0 0x0 0x0 0x0 0x0 0x20 0x0 0x0 0x0 0x0 0x8002 0x8000 0x8000 0xFFFFFFFF 0xFFFFFFFF 0xFFFFFFFF 0xFFFFFFFF 0x0 0x0 0x0 0x7 0x1 0x0 0x0 0x0 0x0 0x0 0x0 0x0 0x8063 0x1 0x1 0x0 0x7 0x1 0x0;
  mk_config (Some 825%nat) true 0x1 0x0 0x8 0x8 0x8 0x8 0xFF0000 0xFF00 0xFF 0xFF000000 0x20 0x0 0x0 0x0 0x0 0x0 0x20 0x0 0x0 0x0 0x0 0x8002 0x8000 0x8000 0xFFFFFFFF 0xFFFFFFFF 0xFFFFFFFF 0xFFFFFFFF 0x0 0x0 0x0 0x7 0x1 0x0 0x0 0x0 0x0 0x0 0x0 0x0 0x8062 0x1 0x1 0x0 0x7 0x1 0x0;
  mk_config (Some 826%nat) true 0x0 0x0 0x8 0x8 0x8 0x8 0xFF0000 0xFF00 0xFF 0xFF000000 0x20 0x0 0x0 0x0 0x0 0x0 0x0 0x0 0x0 0x0 0x0 0x8002 0x8000 0x8000 0xFFFFFFFF 0xFFFFFFFF 0xFFFFFFFF 0xFFFFFFFF 0x0 0x0 0x0 0x7 0x1 0x0 0x0 0x0 0x0 0x0 0x0 0x0 0x8063 0x1 0x1 0x0 0x7 0x1 0x1;
  mk_config (Some 827%nat) true 0x1 0x0 0x8 0x8 0x8 0x8 0xFF0000 0xFF00 0xFF 0xFF000000 0x20 0x0 0x0 0x0 0x0 0x0 0x0 0x0 0x0 0x0 0x0 0x8002 0x8000 0x8000 0xFFFFFFFF 0xFFFFFFFF 0xFFFFFFFF 0xFFFFFFFF 0x0 0x0 0x0 0x7 0x1 0x0 0x0 0x0 0x0 0x0 0x0 0x0 0x8063 0x1 0x1 0x0 0x7 0x1 0x1;
  mk_config (Some 828%nat) true 0x1 0x0 0x8 0x8 0x8 0x8 0xFF0000 0xFF00 0xFF 0xFF000000 0x20 0x0 0x0 0x0 0x0 0x0 0x0 0x0 0x0 0x0 0x0 0x8002 0x8000 0x8000 0xFFFFFFFF 0xFFFFFFFF 0xFFFFFFFF 0xFFFFFFFF 0x0 0x0 0x0 0x7 0x1 0x0 0x0 0x0 0x0 0x0 0x0 0x0 0x8062 0x1 0x1 0x0 0x7 0x1 0x1;
  mk_config (Some 829%nat) true 0x0 0x0 0x8 0x8 0x8 0x8 0xFF0000 0xFF00 0xFF 0xFF000000 0x20 0x0 0x0 0x0 0x0 0x0 0x10 0x0 0x0 0x0 0x0 0x8002 0x8000 0x8000 0xFFFFFFFF 0xFFFFFFFF 0xFFFFFFFF 0xFFFFFFFF 0x0 0x0 0x0 0x7 0x1 0x0 0x0 0x0 0x0 0x0 0x0 0x0 0x8063 0x1 0x1 0x0 0x7 0x1 0x1;
  mk_config (Some 830%nat) true 0x1 0x0 0x8 0x8 0x8 0x8 0xFF0000 0xFF00 0xFF 0xFF000000 0x20 0x0 0x0 0x0 0x0 0x0 0x10 0x0 0x0 0x0 0x0 0x8002 0x8000 0x8000 0xFFFFFFFF 0xFFFFFFFF 0xFFFFFFFF 0xFFFFFFFF 0x0 0x0 0x0 0x7 0x1 0x0 0x0 0x0 0x0 0x0 0x0 0x0 0x8063 0x1 0x1 0x0 0x7 0x1 0x1;
  mk_config (Some 831%nat) true 0x1 0x0 0x8 0x8 0x8 0x8 0xFF0000 0xFF00 0xFF 0xFF000000 0x20 0x0 0x0 0x0 0x0 0x0 0x10 0x0 0x0 0x0 0x0 0x8002 0x8000 0x8000 0xFFFFFFFF 0xFFFFFFFF 0xFFFFFFFF 0xFFFFFFFF 0x0 0x0 0x0 0x7 0x1 0x0 0x0 0x0 0x0 0x0 0x0 0x0 0x8062 0x1 0x1 0x0 0x7 0x1 0x1;
  mk_config (Some 832%nat) true 0x0 0x0 0x8 0x8 0x8 0x8 0xFF0000 0xFF00 0xFF 0xFF000000 0x20 0x0 0x0 0x0 0x0 0x0 0x18 0x0 0x0 0x0 0x0 0x8002 0x8000 0x8000 0xFFFFFFFF 0xFFFFFFFF 0xFFFFFFFF 0xFFFFFFFF 0x0 0x0 0x0 0x7 0x1 0x0 0x0 0x0 0x0 0x0 0x0 0x0 0x8063 0x1 0x1 0x0 0x7 0x1 0x1;
  mk_config (Some 833%nat) true 0x1 0x0 0x8 0x8 0x8 0x8 0xFF0000 0xFF00 0xFF 0xFF000000 0x20 0x0 0x0 0x0 0x0 0x0 0x18 0x0 0x0 0x0 0x0 0x8002 0x8000 0x8000 0xFFFFFFFF 0xFFFFFFFF 0xFFFFFFFF 0xFFFFFFFF 0x0 0x0 0x0 0x7 0x1 0x0 0x0 0x0 0x0 0x0 0x0 0x0 0x8063 0x1 0x1 0x0 0x7 0x1 0x1;
  mk_config (Some 834%nat) true 0x1 0x0 0x8 0x8 0x8 0x8 0xFF0000 0xFF00 0xFF 0xFF000000 0x20 0x0 0x0 0x0 0x0 0x0 0x18 0x0 0x0 0x0 0x0 0x8002 0x8000 0x8000 0xFFFFFFFF 0xFFFFFFFF 0xFFFFFFFF 0xFFFFFFFF 0x0 0x0 0x0 0x7 0x1 0x0 0x0 0x0 0x0 0x0 0x0 0x0 0x8062 0x1 0x1 0x0 0x7 0x1 0x1;
  mk_config (Some 835%nat) true 0x0 0x0 0x8 0x8 0x8 0x8 0xFF0000 0xFF00 0xFF 0xFF000000 0x20 0x0 0x0 0x0 0x0 0x0 0x18 0x8 0x0 0x0 0x0 0x8002 0x8000 0x8000 0xFFFFFFFF 0xFFFFFFFF 0xFFFFFFFF 0xFFFFFFFF 0x0 0x0 0x0 0x7 0x1 0x0 0x0 0x0 0x0 0x0 0x0 0x0 0x8063 0x1 0x1 0x0 0x7 0x1 0x1;
  mk_config (Some 836%nat) true 0x1 0x0 0x8 0x8 0x8 0x8 0xFF0000 0xFF00 0xFF 0xFF000000 0x20 0x0 0x0 0x0 0x0 0x0 0x18 0x8 0x0 0x0 0x0 0x8002 0x8000 0x8000 0xFFFFFFFF 0xFFFFFFFF 0xFFFFFFFF 0xFFFFFFFF 0x0 0x0 0x0 0x7 0x1 0x0 0x0 0x0 0x0 0x0 0x0 0x0 0x8063 0x1 0x1 0x0 0x7 0x1 0x1;
  mk_config (Some 837%nat) true 0x1 0x0 0x8 0x8 0x8 0x8 0xFF0000 0xFF00 0xFF 0xFF000000 0x20 0x0 0x0 0x0 0x0 0x0 0x18 0x8 0x0 0x0 0x0 0x8002 0x8000 0x8000 0xFFFFFFFF 0xFFFFFFFF 0xFFFFFFFF 0xFFFFFFFF 0x0 0x0 0x0 0x7 0x1 0x0 0x0 0x0 0x0 0x0 0x0 0x0 0x8062 0x1 0x1 0x0 0x7 0x1 0x1;
  mk_config (Some 838%nat) true 0x0 0x0 0x8 0x8 0x8 0x8 0xFF0000 0xFF00 0xFF 0xFF000000 0x20 0x0 0x0 0x0 0x0 0x0 0x20 0x0 0x0 0x0 0x0 0x8002 0x8000 0x8000 0xFFFFFFFF 0xFFFFFFFF 0xFFFFFFFF 0xFFFFFFFF 0x0 0x0 0x0 0x7 0x1 0x0 0x0 0x0 0x0 0x0 0x0 0x0 0x8063 0x1 0x1 0x0 0x7 0x1 0x1;
  mk_config (Some 839%nat) true 0x1 0x0 0x8 0x8 0x8 0x8 0xFF0000 0xFF00 0xFF 0xFF000000 0x20 0x0 0x0 0x0 0x0 0x0 0x20 0x0 0x0 0x0 0x0 0x8002 0x8000 0x8000 0xFFFFFFFF 0xFFFFFFFF 0xFFFFFFFF 0xFFFFFFFF 0x0 0x0 0x0 0x7 0x1 0x0 0x0 0x0 0x0 0x0 0x0 0x0 0x8063 0x1 0x1 0x0 0x7 0x1 0x1;
  mk_config None true 0x1 0x0 0x8 0x8 0x8 0x8 0xFF0000 0xFF00 0xFF 0xFF000000 0x20 0x0 0x0 0x0 0x0 0x0 0x20 0x0 0x0 0x0 0x0 0x8002 0x8000 0x8000 0xFFFFFFFF 0xFFFFFFFF 0xFFFFFFFF 0xFFFFFFFF 0x0 0x0 0x0 0x7 0x1 0x0 0x0 0x0 0x0 0x0 0x0 0x0 0x8062 0x1 0x1 0x0 0x7 0x1 0x1
].

Definition configs : list __GLXconfig :=
  configs_0 ++ configs_1 ++ configs_2 ++ configs_3 ++ configs_4 ++ configs_5 ++ configs_6.
