(* ===== verification/Glx.v ===== *)
(** * GLX (InitOutput.c 1004-1076, fbconfigs.h)

    The server tells X clients that it has GLX, with the table of [FbConfigs],
    and draws nothing.  First the table against what makes it a consistent one:
    a product of pixel formats, depths, swap methods, accumulation buffers and
    samples.  Then the provider that hands it to the X server. *)
From S2P Require Import Prelude Buffer FbConfigs.

(** ** The table as a product *)

(** GL/glxtokens.h. *)
Definition GLX_NONE : Z := 0x8000.
Definition GLX_SLOW_CONFIG : Z := 0x8001.
Definition GLX_TRUE_COLOR : Z := 0x8002.
Definition GLX_DIRECT_COLOR : Z := 0x8003.
Definition GLX_SWAP_COPY_OML : Z := 0x8062.
Definition GLX_SWAP_UNDEFINED_OML : Z := 0x8063.
Definition GLX_WINDOW_BIT : Z := 1.
Definition GLX_PIXMAP_BIT : Z := 2.
Definition GLX_PBUFFER_BIT : Z := 4.
Definition GLX_RGBA_BIT : Z := 1.

(** A channel has some bits from a position on. *)
Record channel : Type := mk_channel { bits : Z; shift : Z }.
Definition mask_of (c : channel) : Z := Z.shiftl (Z.ones (bits c)) (shift c).

Record pixel_format : Type := mk_format {
  red : channel; green : channel; blue : channel; alpha : channel; sRGB : bool
}.

Definition no_alpha : channel := mk_channel 0 0.
Definition argb8888 : pixel_format :=
  mk_format (mk_channel 8 16) (mk_channel 8 8) (mk_channel 8 0) (mk_channel 8 24) false.
Definition xrgb8888 : pixel_format :=
  mk_format (mk_channel 8 16) (mk_channel 8 8) (mk_channel 8 0) no_alpha false.
Definition in_sRGB (f : pixel_format) : pixel_format := mk_format (red f) (green f) (blue f) (alpha f) true.

Definition pixel_formats : list pixel_format := [
  mk_format (mk_channel 10 20) (mk_channel 10 10) (mk_channel 10 0) (mk_channel 2 30) false;
  mk_format (mk_channel 10 20) (mk_channel 10 10) (mk_channel 10 0) no_alpha false;
  mk_format (mk_channel 10 0) (mk_channel 10 10) (mk_channel 10 20) (mk_channel 2 30) false;
  mk_format (mk_channel 10 0) (mk_channel 10 10) (mk_channel 10 20) no_alpha false;
  argb8888; xrgb8888; in_sRGB argb8888; in_sRGB xrgb8888;
  mk_format (mk_channel 5 11) (mk_channel 6 5) (mk_channel 5 0) no_alpha false
].

(** What varies within a format. *)
Record buffers_of : Type := mk_buffers { depth_stencil : Z * Z; swaps : option Z; accum : bool; multisample : bool }.

Definition depth_sizes : list (Z * Z) := [(0, 0); (16, 0); (24, 0); (24, 8); (32, 0)].
(** Single buffered, or how the back buffer is swapped. *)
Definition swap_methods : list (option Z) := [None; Some GLX_SWAP_UNDEFINED_OML; Some GLX_SWAP_COPY_OML].

(** [full]: with accumulation buffers or several samples, not both. *)
Definition combinations (full : bool) : list buffers_of :=
  ds ← depth_sizes; sw ← swap_methods; ac ← (if full then [false; true] else [false]);
  [mk_buffers ds sw ac false].
Definition multisampled : list buffers_of :=
  ds ← depth_sizes; sw ← swap_methods; [mk_buffers ds sw false true].

Definition flag (b : bool) : Z := if b then 1 else 0.

(** The formats of 30 bits are for windows only. *)
Definition drawables (f : pixel_format) : Z :=
  if (bits (red f) =? 10) && (bits (alpha f) =? 0) then GLX_WINDOW_BIT
  else Z.lor GLX_WINDOW_BIT (Z.lor GLX_PIXMAP_BIT GLX_PBUFFER_BIT).

Definition config_of (dup : bool) (visual : Z) (f : pixel_format) (b : buffers_of) : __GLXconfig :=
  let '(depth, stencil) := depth_stencil b in
  let accumBits := if accum b then 16 else 0 in
  mk_config None dup (flag (bool_decide (is_Some (swaps b)))) 0
    (bits (red f)) (bits (green f)) (bits (blue f)) (bits (alpha f))
    (mask_of (red f)) (mask_of (green f)) (mask_of (blue f)) (mask_of (alpha f))
    (bits (red f) + bits (green f) + bits (blue f) + bits (alpha f)) 0
    accumBits accumBits accumBits accumBits depth stencil 0 0 0 visual
    (if accum b then GLX_SLOW_CONFIG else GLX_NONE)
    GLX_NONE 0xFFFFFFFF 0xFFFFFFFF 0xFFFFFFFF 0xFFFFFFFF 0
    (flag (multisample b)) (if multisample b then 4 else 0) (drawables f) GLX_RGBA_BIT 0 0 0 0 0 0 0
    (default GLX_SWAP_UNDEFINED_OML (swaps b)) 1 1 0 7 1 (flag (sRGB f)).

Definition of_visual (visual : Z) : list __GLXconfig :=
  f ← pixel_formats; config_of false visual f <$> (combinations true ++ multisampled).
(** The visuals for composite managers. *)
Definition duplicates : list __GLXconfig :=
  f ← [argb8888; in_sRGB argb8888]; config_of true GLX_TRUE_COLOR f <$> combinations false.

Definition product : list __GLXconfig :=
  of_visual GLX_TRUE_COLOR ++ of_visual GLX_DIRECT_COLOR ++ duplicates.

(** Each row names the one after it. *)
Definition set_next (n : option nat) (c : __GLXconfig) : __GLXconfig :=
  mk_config n (duplicatedForComp c) (doubleBufferMode c) (stereoMode c)
    (redBits c) (greenBits c) (blueBits c) (alphaBits c) (redMask c) (greenMask c) (blueMask c) (alphaMask c)
    (rgbBits c) (indexBits c) (accumRedBits c) (accumGreenBits c) (accumBlueBits c) (accumAlphaBits c)
    (depthBits c) (stencilBits c) (numAuxBuffers c) (level c) (visualID c) (visualType c) (visualRating c)
    (transparentPixel c) (transparentRed c) (transparentGreen c) (transparentBlue c) (transparentAlpha c)
    (transparentIndex c) (sampleBuffers c) (samples c) (drawableType c) (renderType c) (fbconfigID c)
    (maxPbufferWidth c) (maxPbufferHeight c) (maxPbufferPixels c) (optimalPbufferWidth c)
    (optimalPbufferHeight c) (visualSelectGroup c) (swapMethod c) (bindToTextureRgb c) (bindToTextureRgba c)
    (bindToMipmapTexture c) (bindToTextureTargets c) (yInverted c) (sRGBCapable c).

Fixpoint linked (i : nat) (l : list __GLXconfig) : list __GLXconfig :=
  match l with
  | [] => []
  | [c] => [set_next None c]
  | c :: l => set_next (Some (S i)) c :: linked (S i) l
  end.

(** ** Walking the table *)

(** [for (m = ...; m != NULL; m = m->next)] *)
Fixpoint walk (fuel : nat) (table : list __GLXconfig) (m : option nat) : outcome (list nat) :=
  match m, fuel with
  | None, _ => Ret []
  | Some i, O => Fault FuelExhausted
  | Some i, S fuel =>
      match table !! i with
      | None => Fault OutOfBounds
      | Some c => l ← walk fuel table (next c); Ret (i :: l)
      end
  end.

(** ** What a consistent row is *)

(** [b] bits in one piece. *)
Definition in_one_piece (b m : Z) : bool :=
  existsb (fun s => m =? Z.shiftl (Z.ones b) (Z.of_nat s)) (seq 0 32).

(** The masks of the channels are disjoint pieces that make up the pixel. *)
Definition masks_ok (c : __GLXconfig) : bool :=
  in_one_piece (redBits c) (redMask c) && in_one_piece (greenBits c) (greenMask c)
  && in_one_piece (blueBits c) (blueMask c) && in_one_piece (alphaBits c) (alphaMask c)
  && (rgbBits c =? redBits c + greenBits c + blueBits c + alphaBits c)
  && (redMask c + greenMask c + blueMask c + alphaMask c =? Z.ones (rgbBits c))
  && (Z.lor (redMask c) (Z.lor (greenMask c) (Z.lor (blueMask c) (alphaMask c))) =? Z.ones (rgbBits c)).

(** Only a back buffer is swapped in a defined way; only what has an accumulation
    buffer is slow; several samples go without one. *)
Definition attributes_ok (c : __GLXconfig) : bool :=
  ((doubleBufferMode c =? 1) || ((doubleBufferMode c =? 0) && (swapMethod c =? GLX_SWAP_UNDEFINED_OML)))
  && (accumRedBits c =? accumGreenBits c) && (accumGreenBits c =? accumBlueBits c)
  && (accumBlueBits c =? accumAlphaBits c)
  && (visualRating c =? (if accumRedBits c =? 0 then GLX_NONE else GLX_SLOW_CONFIG))
  && (if sampleBuffers c =? 0 then samples c =? 0
      else (sampleBuffers c =? 1) && (1 <? samples c) && (accumRedBits c =? 0))
  && ((sRGBCapable c =? 0) || (redBits c =? 8))
  && ((stencilBits c =? 0) || (depthBits c =? 24))
  && Z.testbit (drawableType c) 0.

(** Everything but [next]. *)
Definition attributes (c : __GLXconfig) : list Z :=
  [flag (duplicatedForComp c); visualType c; sRGBCapable c; alphaBits c; redMask c; depthBits c; stencilBits c;
   swapMethod c; doubleBufferMode c; accumRedBits c; samples c].

(** ** The provider *)

(** The memory of a screen is at [screen_at]; the other addresses are what the X
    server has put into it; 0 is NULL. *)
Record __GLXscreen : Type := mk_glx {
  screen_at : Z; GLXextensions : Z; GLextensions : Z; visuals : Z;
  fbconfigs : option nat;              (** the row of [configs] *)
  glx_enable_bits : list string
}.

Definition owned_by (addresses : list Z) : list resource :=
  RMem <$> filter (fun a => a <> 0) addresses.

Definition enabled_extensions : list string :=
  ["GLX_MESA_copy_sub_buffer"; "GLX_EXT_no_config_context"; "GLX_ARB_create_context";
   "GLX_ARB_create_context_no_error"; "GLX_ARB_create_context_profile"; "GLX_EXT_create_context_es_profile";
   "GLX_EXT_create_context_es2_profile"; "GLX_EXT_framebuffer_sRGB"; "GLX_ARB_fbconfig_float";
   "GLX_EXT_fbconfig_packed_float"; "GLX_EXT_texture_from_pixmap"]%string.

(** [calloc_] is the result of [calloc]; [initial] is what
    [__glXInitExtensionEnableBits] enables, [strings] what [__glXScreenInit]
    allocates for the two strings and the visuals. *)
Definition glXDRIscreenProbe (calloc_ : Z) (initial : list string) (strings : Z * Z * Z) (held : list resource)
  : option __GLXscreen * list resource :=
  if calloc_ =? 0 then (None, held)
  else
    let '(glx, gl, vis) := strings in
    (Some (mk_glx calloc_ glx gl vis (Some 0%nat) (initial ++ enabled_extensions)),
     owned_by [glx; gl; vis; calloc_] ++ held).

Definition glXDRIscreenDestroy (s : __GLXscreen) (held : list resource) : outcome (list resource) :=
  held ← give_back (owned_by [GLXextensions s]) held;
  held ← give_back (owned_by [GLextensions s]) held;
  held ← give_back (owned_by [visuals s]) held;
  give_back (owned_by [screen_at s]) held.

(** [init] is the result of [__glXDrawableInit]. *)
Definition createDrawable (calloc_ : Z) (init : bool) (held : list resource)
  : outcome (option Z * list resource) :=
  if calloc_ =? 0 then Ret (None, held)
  else
    let held := owned_by [calloc_] ++ held in
    if negb init then held ← give_back (owned_by [calloc_]) held; Ret (None, held)
    else Ret (Some calloc_, held).

(** The drawable's [destroy]. *)
Definition destroy_drawable (private : Z) (held : list resource) : outcome (list resource) :=
  give_back (owned_by [private]) held.

(** ** Lemmas *)
Lemma configs_product_eq : configs = linked 0 product.
Proof. vm_compute. reflexivity. Qed.

Lemma product_complete visual f dp sw :
  visual ∈ [GLX_TRUE_COLOR; GLX_DIRECT_COLOR] -> f ∈ pixel_formats -> dp ∈ depth_sizes -> sw ∈ swap_methods ->
  forall ac ms, ac && ms = false -> config_of false visual f (mk_buffers dp sw ac ms) ∈ product.
Proof.
  intros Hv Hf Hd Hs ac ms Ham. unfold product.
  assert (config_of false visual f (mk_buffers dp sw ac ms) ∈ of_visual visual) as Hin.
  { unfold of_visual. apply list_elem_of_bind. exists f. split; [|done]. apply list_elem_of_fmap_2.
    apply elem_of_app. destruct ms.
    - right. rewrite andb_true_r in Ham. subst ac. unfold multisampled.
      apply list_elem_of_bind. exists dp. split; [|done]. apply list_elem_of_bind. exists sw.
      split; [by apply list_elem_of_singleton|done].
    - left. unfold combinations. apply list_elem_of_bind. exists dp. split; [|done].
      apply list_elem_of_bind. exists sw. split; [|done]. apply list_elem_of_bind. exists ac.
      split; [by apply list_elem_of_singleton|]. destruct ac; set_solver. }
  rewrite !elem_of_cons, elem_of_nil in Hv. destruct Hv as [->|[->|[]]]; rewrite !elem_of_app; auto.
Qed.

Lemma owned_give_back a l held :
  give_back (owned_by [a]) (owned_by (a :: l) ++ held) = Ret (owned_by l ++ held).
Proof. unfold owned_by. rewrite !filter_cons. case_decide; [|done]. cbn. by rewrite decide_True. Qed.

Lemma attributes_set_next n c : attributes (set_next n c) = attributes c.
Proof. done. Qed.

Lemma attributes_linked i l : attributes <$> linked i l = attributes <$> l.
Proof.
  revert i. induction l as [|c l IH]; intros i; [done|]. destruct l as [|c2 l]; [done|].
  change (linked i (c :: c2 :: l)) with (set_next (Some (S i)) c :: linked (S i) (c2 :: l)).
  by rewrite !fmap_cons, IH.
Qed.

(** To compare rows quickly: their attributes as one number. *)
Definition key (l : list Z) : Z := foldr (fun x k => x + 2 ^ 32 * k) 0 l.
Fixpoint distinct (l : list Z) : bool :=
  match l with [] => true | x :: l => negb (existsb (Z.eqb x) l) && distinct l end.

Lemma distinct_NoDup l : distinct l = true -> NoDup l.
Proof.
  induction l as [|x l IH]; [constructor|]. cbn. intros [Hx Hl]%andb_true_iff. constructor; [|by apply IH].
  intros Hin. apply negb_true_iff, not_true_iff_false in Hx. apply Hx, existsb_exists. exists x.
  split; [by apply list_elem_of_In|apply Z.eqb_refl].
Qed.

(** ** Properties *)

(** C34: the table of framebuffer configurations is what it is meant to be. It is
    the product of nine pixel formats, five depths, three ways to swap and two
    visuals, each plain, with an accumulation buffer or with four samples, and
    ends with thirty duplicates for compositing; every combination is in it, and
    none twice. Walking [next] from the first row visits every row once, in
    order, and ends. In each row the channels' masks are disjoint pieces of the
    widths it gives, which make up the pixel, and the other attributes agree. *)
Theorem configs_are_product :
  configs = linked 0 product
  /\ walk (length configs) configs (Some 0%nat) = Ret (seq 0 (length configs))
  /\ Forall (fun c => masks_ok c = true /\ attributes_ok c = true) configs
  /\ NoDup (attributes <$> configs)
  /\ forall visual f dp sw ac ms,
       visual ∈ [GLX_TRUE_COLOR; GLX_DIRECT_COLOR] -> f ∈ pixel_formats -> dp ∈ depth_sizes -> sw ∈ swap_methods ->
       ac && ms = false ->
       attributes (config_of false visual f (mk_buffers dp sw ac ms)) ∈ attributes <$> configs.
Proof.
  split; [exact configs_product_eq|]. split; [vm_compute; reflexivity|]. split; [|split].
  - assert (forallb (fun c => masks_ok c && attributes_ok c) configs = true) as H by (vm_compute; reflexivity).
    rewrite forallb_forall in H. apply Forall_forall. intros c Hc%list_elem_of_In.
    by apply andb_true_iff, H.
  - apply (NoDup_fmap_1 key), distinct_NoDup. vm_compute. reflexivity.
  - intros visual f dp sw ac ms Hv Hf Hd Hs Ham. rewrite configs_product_eq, attributes_linked.
    apply list_elem_of_fmap_2. by apply product_complete.
Qed.

(** A screen that is made points to the table and enables the eleven extensions,
    and what it and the X server allocated for it is given back when it is
    destroyed; without memory there is none. A drawable is made exactly when
    there is memory and the X server accepts it, and leaves nothing behind. *)
Theorem glx_balanced calloc_ initial strings init held :
  match glXDRIscreenProbe calloc_ initial strings held with
  | (Some s, held') =>
      calloc_ <> 0 /\ fbconfigs s = Some 0%nat /\ (forall e, e ∈ enabled_extensions -> e ∈ glx_enable_bits s)
      /\ glXDRIscreenDestroy s held' = Ret held
  | (None, held') => calloc_ = 0 /\ held' = held
  end
  /\ match createDrawable calloc_ init held with
     | Ret (Some p, held') => calloc_ <> 0 /\ init = true /\ destroy_drawable p held' = Ret held
     | Ret (None, held') => (calloc_ = 0 \/ init = false) /\ held' = held
     | Fault _ => False
     end.
Proof.
  split.
  - unfold glXDRIscreenProbe. destruct (Z.eqb_spec calloc_ 0) as [|Hc]; [done|].
    destruct strings as [[glx gl] vis]. split_and!; try done.
    + intros ext He. cbn. apply elem_of_app. by right.
    + unfold glXDRIscreenDestroy. cbn [GLXextensions GLextensions visuals screen_at].
      rewrite owned_give_back. cbind. rewrite owned_give_back. cbind. rewrite owned_give_back. cbind.
      apply owned_give_back.
  - unfold createDrawable. destruct (Z.eqb_spec calloc_ 0) as [|Hc]; [by split; [left|]|].
    destruct init; cbn [negb].
    + split_and!; try done. apply owned_give_back.
    + rewrite owned_give_back. cbind. by split; [right|].
Qed.

Lemma configs_are_product_witness :
  attributes (config_of false GLX_DIRECT_COLOR xrgb8888 (mk_buffers (24, 8) (Some GLX_SWAP_COPY_OML) true false))
  ∈ attributes <$> configs.
Proof.
  refine (proj2 (proj2 (proj2 (proj2 configs_are_product))) GLX_DIRECT_COLOR xrgb8888 (24, 8) (Some GLX_SWAP_COPY_OML)
            true false _ _ _ _ eq_refl).
  - right. left.
  - do 5 right. left.
  - do 3 right. left.
  - right. right. left.
Defined.
