(* ===== verification/Display.v ===== *)
(** * From damage to the screen (InitOutput.c lorieRedraw, renderer.c rendererThread)

    The two processes together: the redraw that the server runs once per frame
    ([Present]) writes its flags into the shared block, where the renderer
    thread ([Renderer]) reads them.  [flags_of] is what the server sees of the
    block, [publish] what its write leaves there.  A redraw of the server is one
    step: it takes no lock, but it runs to its end between two steps of the
    thread. *)
From S2P Require Import Prelude Buffer Cursor GlBuffers Viewport Present Renderer.

(** ** The shared block *)
Definition flags_of (s : server_state) : shared_flags :=
  mk_flags (drawRequested s) (surfaceAvailable s) (waitForNextFrame s) (cur_moved (cursor s))
    (cur_updated (cursor s)) (rootWindowTextureID s).

(** [lorieRedraw] writes three of the fields. *)
Definition publish (f : shared_flags) (s : server_state) : server_state :=
  mk_server (Present.rootWindowTextureID f) (Present.drawRequested f) (surfaceAvailable s)
    (Present.waitForNextFrame f) (renderedFrames s) (cursor s).

(** What the server works on at its next frame. *)
Definition reread (s : server_state) (x : screen_state) : screen_state :=
  mk_screen (present x) (flags_of s) (root x) (damaged x) (signals x).

(** The block after a frame was drawn. *)
Definition shown (s : server_state) : server_state :=
  mk_server (rootWindowTextureID s) false (surfaceAvailable s) true (i32 (renderedFrames s + 1))
    (set_cursor_flags false false (cursor s)).

(** ** The two processes

    [wait] says where the renderer thread is with [pthread_cond_wait] when its
    program counter is [PWait]: it has decided to wait but does not wait yet,
    waits, or was woken.  The signal of the server is sent without [stateLock],
    and so is what the proxy makes of it: a thread that is only about to wait
    misses it. *)
Inductive wait_pc : Type := Awake | FallingAsleep | Asleep.
#[export] Instance wait_pc_eq_dec : EqDecision wait_pc.
Proof. solve_decision. Defined.

Record system : Type := mk_system { server : screen_state; app : renderer; wait : wait_pc }.

Definition wake (w : wait_pc) : wait_pc := match w with Asleep => Awake | _ => w end.

Inductive turn : Type := Frame | Thread.

Section system.
Context (e : Renderer.platform) (p : Buffer.platform) (alive : bool).

(** One frame of the server. *)
Definition server_frame (y : system) : outcome system :=
  s ← deref_state (app y);
  x ← lorieRedraw p alive (reread s (server y));
  Ret (mk_system x (store_at (state (shared (app y))) (publish (flags x) s) (app y))
         (if (signals x =? signals (server y))%nat then wait y else wake (wait y))).

(** One step of the renderer thread. *)
Definition thread_step (y : system) : outcome system :=
  match wait y with
  | FallingAsleep => Ret (mk_system (server y) (app y) Asleep)
  | Asleep => Ret y
  | Awake =>
      r ← rendererThread e (app y);
      Ret (mk_system (server y) r (if decide (pc r = PWait) then FallingAsleep else Awake))
  end.

Fixpoint run_system (l : list turn) (y : system) : outcome system :=
  match l with
  | [] => Ret y
  | Frame :: l => y ← server_frame y; run_system l y
  | Thread :: l => y ← thread_step y; run_system l y
  end.
End system.

(** ** The server's half *)
Lemma redraw_damage p x v b :
  root x = Some v -> Present.buffer v = Some b -> relockable p b ->
  damaged x = true -> Present.surfaceAvailable (flags x) = true ->
  exists v', desc_id (LorieBuffer_description (Present.buffer v')) = desc_id (desc b)
    /\ lorieRedraw p true x
       = Ret (mk_screen (next_frame (present x))
                (mk_flags true true false (cursor_moved (flags x)) (cursor_updated (flags x)) (desc_id (desc b)))
                (Some v') false (S (signals x))).
Proof.
  intros Hv Hb Hr Hd Hs. unfold lorieRedraw. cbn [Present.surfaceAvailable]. rewrite Hs, Hv, Hd, Hb.
  cbn [negb orb andb]. rewrite bool_decide_eq_true_2 by by eexists.
  destruct (locked_ptr v =? 0); cbn [negb].
  - cbind. cbn. rewrite Hb. eexists. by split; [|done]; rewrite Hb.
  - destruct (relock_ok p v b Hb Hr) as (v' & E & Hid & _). rewrite E. cbn [is_ok]. cbind. cbn.
    rewrite Hid. by eexists.
Qed.

(** The request stays until it is served, and every frame repeats the signal. *)
Lemma redraw_again p x v :
  root x = Some v -> damaged x = false -> Present.surfaceAvailable (flags x) = true ->
  Present.drawRequested (flags x) = true ->
  lorieRedraw p true x
  = Ret (mk_screen (next_frame (present x))
           (mk_flags true true false (cursor_moved (flags x)) (cursor_updated (flags x))
              (desc_id (LorieBuffer_description (Present.buffer v))))
           (Some v) false (S (signals x))).
Proof.
  intros Hv Hd Hs Hr. unfold lorieRedraw. cbn [Present.surfaceAvailable]. rewrite Hs, Hv, Hd, Hr. reflexivity.
Qed.

Lemma redraw_nothing p alive x :
  damaged x = false -> Present.drawRequested (flags x) = false -> cursor_moved (flags x) = false ->
  cursor_updated (flags x) = false ->
  exists x', lorieRedraw p alive x = Ret x' /\ signals x' = signals x /\ damaged x' = false
    /\ flags x' = mk_flags false (Present.surfaceAvailable (flags x)) false false false
                     (Present.rootWindowTextureID (flags x)).
Proof.
  intros Hd Hr Hm Hu. unfold lorieRedraw. cbn [Present.surfaceAvailable].
  destruct (negb alive || _); [eexists; split_and!; try done; cbn; by rewrite ?Hr, ?Hm, ?Hu|].
  destruct (root x); [|eexists; split_and!; try done; cbn; by rewrite ?Hr, ?Hm, ?Hu].
  rewrite Hd, Hr. cbn [andb]. cbind. cbn. rewrite Hm, Hu. by eexists.
Qed.

(** ** The renderer's half *)

(** Nothing waits to be taken over, attached or destroyed. *)
Definition settled (r : renderer) : Prop :=
  changed r = false /\ addedBuffers (bufs r) = [] /\ removedBuffers (bufs r) = [].

Section renderer_turn.
Context (e : Renderer.platform).

Lemma test_settled r s :
  settled r -> state (shared r) <> 0 -> mapped (shared r) !! state (shared r) = Some s ->
  pc r = PTest -> (waitingForBuffers r = false \/ lastRequestedBufferId r <> rootWindowTextureID s) ->
  rendererThread e r
  = Ret (with_pc (if wants_frame s then PChanges else PWait)
           (with_waiting false (with_last (rootWindowTextureID s) r))).
Proof.
  destruct r as [bu ws sh v q g wb lst ct fr]. unfold settled, changed. cbn [bufs wins shared pc].
  intros (Hc & Ha & Hrm) H0 Hs -> Hw. cbn in Hw. unfold rendererThread, rendererShouldWait, deref_state. cbn.
  rewrite Hc, Ha, Hrm, (proj2 (Z.eqb_neq _ _) H0), Hs. cbn.
  assert ((if lst =? rootWindowTextureID s then wb else false) = false) as Ew.
  { destruct Hw as [->|Hne]; [by destruct (lst =? _)|by rewrite (proj2 (Z.eqb_neq _ _) Hne)]. }
  destruct (lst =? rootWindowTextureID s); cbn in *; subst; unfold wants_frame.
  all: destruct (surfaceAvailable s), (waitForNextFrame s); cbn; try done.
  all: by destruct (drawRequested s || cur_moved (cursor s) || cur_updated (cursor s)).
Qed.

Lemma changes_settled r : settled r -> pc r = PChanges -> rendererThread e r = Ret (with_pc PAttach r).
Proof.
  intros ([Hc1 Hc2]%orb_false_iff & _) Hpc. unfold rendererThread, take_changes, take_state. rewrite Hpc, Hc1.
  cbind. by rewrite Hc2.
Qed.

Lemma attach_settled r : settled r -> pc r = PAttach -> rendererThread e r = Ret (with_pc PFind r).
Proof.
  destruct r as [bu ws sh v q g wb lst ct fr]. intros (_ & Ha & _). cbn in Ha. cbn [pc]. intros ->.
  unfold rendererThread, attach_pending, attach_all. cbn. rewrite Ha. cbn.
  unfold LorieBufferList_first. cbn. by rewrite Ha.
Qed.

Lemma release_settled r : settled r -> pc r = PRelease -> rendererThread e r = Ret (with_pc PTest r).
Proof.
  destruct r as [bu ws sh v q g wb lst ct fr]. intros (_ & _ & Hrm). cbn in Hrm. cbn [pc]. intros ->.
  unfold rendererThread, destroy_removed, release_removed, references. cbn. rewrite Hrm. cbn.
  unfold LorieBufferList_first. cbn. by rewrite Hrm.
Qed.

Lemma settled_same r r' :
  bufs r' = bufs r -> wins r' = wins r -> stateChanged (shared r') = stateChanged (shared r) ->
  settled r -> settled r'.
Proof. unfold settled, changed. by intros -> -> ->. Qed.

(** The buffer is there, and of the size the activity expects. *)
Definition showable (r : renderer) (bid : Z) : Prop :=
  (exists q b, q ∈ attached (bufs r) /\ heap (bufs r) !! q = Some b /\ desc_id (desc b) = bid)
  /\ forall q b, heap (bufs r) !! q = Some b -> desc_id (desc b) = bid ->
       expected_size (vp r) (desc b) = true.

(** [PFind] and [PDraw]. *)
Lemma find_and_draw rest r s :
  renderer_ok e rest r -> pc r = PFind -> state (shared r) <> 0 ->
  mapped (shared r) !! state (shared r) = Some s -> wants_frame s = true -> showable r (rootWindowTextureID s) ->
  exists q, rendererThread e r = Ret (with_pc (PDraw q) r)
    /\ exists r', rendererThread e (with_pc (PDraw q) r) = Ret r'
    /\ pc r' = PRelease /\ bufs r' = bufs r /\ wins r' = wins r
    /\ shared r' = shared (store_at (state (shared r)) (shown s) r)
    /\ waitingForBuffers r' = waitingForBuffers r
    /\ exists f, frames r' = (rootWindowTextureID s, f) :: frames r.
Proof.
  intros [Hb Hst _ _ _ _ _] Hpc H0 Hs Hw [(q0 & b0 & Hin & Hb0 & Hid0) Hsize].
  assert (deref_state r = Ret s) as Hds by (unfold deref_state; by rewrite Hs).
  unfold rendererThread at 1. rewrite Hpc. unfold find_root. rewrite (proj2 (Z.eqb_neq _ _) H0), Hds. cbind. rewrite Hw.
  destruct (root_buffer_ok rest s (bufs r) Hb) as ([q|] & -> & Ho); [|by destruct (Ho q0 b0 Hin Hb0)].
  cbind. destruct Ho as (_ & b & Hbq & Hid). exists q. split; [reflexivity|].
  unfold rendererThread. cbn [pc with_pc]. unfold draw_root, deref. cbn [bufs with_pc]. rewrite Hbq. cbind.
  change (deref_state (with_pc (PDraw q) r)) with (deref_state r). rewrite Hds. cbind. cbn [vp with_pc cursor_texture].
  rewrite (Hsize q b Hbq Hid). cbn [negb].
  assert (exists t, (if cur_updated (cursor s) then upload_cursor (cursor s) else Ret (cursor_texture r)) = Ret t)
    as (t & ->).
  { destruct (cur_updated (cursor s)); [|by eexists].
    destruct (upload_ok s) as (t & -> & _); [by eapply (sk_fits _ Hst)|by eexists]. }
  cbind. destruct (lay_out _ _ _ _ _ _ _ _ _ _ _) as [f v]. eexists. split_and!; try reflexivity.
  exists f. cbn. by rewrite Hid.
Qed.
End renderer_turn.

(** ** The turn of the renderer thread *)
Section renderer_turns.
Context (e : Renderer.platform) (p : Buffer.platform) (alive : bool).

Lemma run_system_app l l' y y1 :
  run_system e p alive l y = Ret y1 -> run_system e p alive (l ++ l') y = run_system e p alive l' y1.
Proof.
  revert y. induction l as [|t l IH]; intros y; cbn; [by intros [= ->]|].
  destruct t; intros (y2 & -> & E)%outcome_bind_Ret_inv; cbind; by apply IH.
Qed.

Lemma thread_awake x r r' l :
  rendererThread e r = Ret r' -> pc r' <> PWait ->
  run_system e p alive (Thread :: l) (mk_system x r Awake) = run_system e p alive l (mk_system x r' Awake).
Proof. intros E Hne. cbn. rewrite E. cbind. by rewrite decide_False. Qed.

Lemma thread_sleeps x r r' :
  rendererThread e r = Ret r' -> pc r' = PWait ->
  run_system e p alive [Thread; Thread] (mk_system x r Awake) = Ret (mk_system x r' Asleep).
Proof. intros E Hpc. cbn. rewrite E. cbind. by rewrite decide_True. Qed.

Lemma renderer_ok_moved rest r r' :
  renderer_ok e rest r -> bufs r' = bufs r -> wins r' = wins r -> shared r' = shared r -> gui r' = gui r ->
  (forall q, pc r' <> PDraw q) -> renderer_ok e rest r'.
Proof.
  intros [Hb Hs Hw Hpw Hgs Hgw _] Eb Ew Es Eg Hpc.
  constructor; rewrite ?Eb, ?Ew, ?Es, ?Eg; try done. intros q Hq. by destruct (Hpc q).
Qed.

Lemma shown_waits s : wants_frame (shown s) = false.
Proof. unfold wants_frame, shown. cbn. by rewrite andb_false_r. Qed.

Lemma store_at_state s r : mapped (shared (store_at (state (shared r)) s r)) !! state (shared r) = Some s.
Proof. cbn. by rewrite lookup_insert_eq. Qed.

(** A woken thread with a frame to draw draws it and sleeps again. *)
Lemma thread_turn rest x r s :
  renderer_ok e rest r -> pc r = PWait -> settled r -> state (shared r) <> 0 ->
  mapped (shared r) !! state (shared r) = Some s -> wants_frame s = true -> showable r (rootWindowTextureID s) ->
  waitingForBuffers r = false \/ lastRequestedBufferId r <> rootWindowTextureID s ->
  exists r', run_system e p alive (replicate 9 Thread) (mk_system x r Awake) = Ret (mk_system x r' Asleep)
    /\ pc r' = PWait /\ settled r' /\ shared r' = shared (store_at (state (shared r)) (shown s) r)
    /\ exists f, frames r' = (rootWindowTextureID s, f) :: frames r.
Proof.
  intros Hr Hpc Hset H0 Hs Hw Hshow Hwait.
  set (at_ q := with_pc q (with_waiting false (with_last (rootWindowTextureID s) r))).
  assert (renderer_ok e rest (at_ PFind)) as Hfind by by eapply renderer_ok_moved.
  destruct (find_and_draw e rest (at_ PFind) s Hfind eq_refl H0 Hs Hw Hshow)
    as (q & Ef & r1 & Ed & Hp1 & Eb & Ew & Esh & Ewb & f & Efr).
  assert (settled r1) as Hset1 by (eapply settled_same; [exact Eb|exact Ew|by rewrite Esh|exact Hset]).
  assert (state (shared r1) = state (shared r)) as Est by by rewrite Esh.
  eexists. split; [|split; [|split; [|split]]].
  - change (replicate 9 Thread) with (replicate 7 Thread ++ [Thread; Thread]). cbn [replicate List.app].
    rewrite (thread_awake _ r (with_pc PTest r)) by (unfold rendererThread; by rewrite ?Hpc).
    rewrite (thread_awake _ _ (at_ PChanges)); [|by rewrite (test_settled e _ s), Hw|done].
    rewrite (thread_awake _ _ (at_ PAttach)) by (by rewrite ?changes_settled).
    rewrite (thread_awake _ _ (at_ PFind)) by (by rewrite ?attach_settled).
    rewrite (thread_awake _ _ (with_pc (PDraw q) (at_ PFind))) by done.
    rewrite (thread_awake _ _ r1) by (done || by rewrite Hp1).
    rewrite (thread_awake _ _ (with_pc PTest r1)) by (done || by rewrite ?release_settled).
    eapply thread_sleeps.
    + rewrite (test_settled e _ (shown s)); [rewrite shown_waits; reflexivity|done| | |done|].
      * cbn. by rewrite Est.
      * cbn [shared with_pc]. rewrite Est, Esh. by apply (store_at_state (shown s) (at_ PFind)).
      * left. cbn. by rewrite Ewb.
    + done.
  - done.
  - by eapply settled_same; [..|exact Hset1].
  - cbn. by rewrite Esh.
  - exists f. cbn. by rewrite Efr.
Qed.
End renderer_turns.

(** The block after a frame that asks for drawing. *)
Definition requested (bid : Z) (s : server_state) : server_state :=
  mk_server bid true (surfaceAvailable s) false (renderedFrames s) (cursor s).

Definition shows (x : screen_state) (bid : Z) : Prop :=
  exists v, root x = Some v /\ desc_id (LorieBuffer_description (Present.buffer v)) = bid.

Section frames.
Context (e : Renderer.platform) (p : Buffer.platform).

(** New damage, or a request that was not served, asks for drawing. *)
Lemma frame_requests y s bid :
  mapped (shared (app y)) !! state (shared (app y)) = Some s -> surfaceAvailable s = true ->
  shows (server y) bid ->
  (if damaged (server y)
   then forall v b, root (server y) = Some v -> Present.buffer v = Some b -> relockable p b
        else drawRequested s = true) ->
  (damaged (server y) = true -> exists v b, root (server y) = Some v /\ Present.buffer v = Some b) ->
  exists x, server_frame p true y
            = Ret (mk_system x (store_at (state (shared (app y))) (requested bid s) (app y)) (wake (wait y)))
    /\ damaged x = false /\ shows x bid /\ signals x = S (signals (server y)).
Proof.
  intros Hs Hsurf (v & Hv & Hid) Hreq Hbuf. unfold server_frame, deref_state. rewrite Hs. cbind.
  assert (exists v', desc_id (LorieBuffer_description (Present.buffer v')) = bid
    /\ lorieRedraw p true (reread s (server y))
       = Ret (mk_screen (next_frame (present (server y)))
                (mk_flags true true false (cur_moved (cursor s)) (cur_updated (cursor s)) bid)
                (Some v') false (S (signals (server y))))) as (v' & Hid' & ->).
  { destruct (damaged (server y)) eqn:Ed.
    - destruct (Hbuf eq_refl) as (v1 & b & Hv1 & Hb). assert (v1 = v) as -> by congruence.
      rewrite Hb in Hid. cbn in Hid. subst bid.
      destruct (redraw_damage p (reread s (server y)) v b Hv Hb (Hreq v b Hv Hb) Ed Hsurf) as (v' & Hid' & E).
      by exists v'.
    - exists v. split; [done|]. rewrite (redraw_again p (reread s (server y)) v Hv Ed Hsurf Hreq). by rewrite Hid. }
  cbind. cbn [signals flags]. rewrite (proj2 (Nat.eqb_neq _ _)) by lia. eexists. split_and!; try done.
  by exists v'.
Qed.
End frames.

(** A frame in which nothing is new. *)
Lemma frame_idle e p y s :
  wait y = Asleep -> mapped (shared (app y)) !! state (shared (app y)) = Some s ->
  damaged (server y) = false -> drawRequested s = false -> cur_moved (cursor s) = false ->
  cur_updated (cursor s) = false ->
  exists y', run_system e p true [Frame; Thread] y = Ret y' /\ wait y' = Asleep
    /\ frames (app y') = frames (app y) /\ signals (server y') = signals (server y).
Proof.
  intros Hw Hs Hd Hr Hm Hu.
  destruct (redraw_nothing p true (reread s (server y)) Hd Hr Hm Hu) as (x & E & Hsig & _ & _).
  cbn [run_system]. unfold server_frame, deref_state. rewrite Hs. cbind. rewrite E. cbind.
  rewrite Hsig. cbn [signals reread]. rewrite Nat.eqb_refl. unfold thread_step. cbn [wait]. rewrite Hw. cbind.
  by eexists.
Qed.

Lemma requested_again bid s : requested bid (requested bid s) = requested bid s.
Proof. done. Qed.

Lemma store_again q s s' r : store_at q s' (store_at q s r) = store_at q s' r.
Proof. unfold store_at, with_shared. cbn. by rewrite insert_insert_eq. Qed.

Lemma requested_ok e rest bid s r :
  reachable e rest r -> state (shared r) <> 0 -> mapped (shared r) !! state (shared r) = Some s ->
  renderer_ok e rest (store_at (state (shared r)) (requested bid s) r).
Proof.
  intros Hr H0 Hs. apply reachable_ok. eapply (reachable_step _ _ r (ServerWrites _ (requested bid s))); [done| |done].
  cbn. rewrite Hs, bool_decide_eq_true_2 by by eexists. cbn.
  exact (sk_fits _ (rk_states _ _ _ (reachable_ok e rest r Hr)) _ _ Hs).
Qed.

(** The turns of the server after which the thread is awake: the signal of the
    first frame is lost on a thread that does not wait yet. *)
Definition waking (w : wait_pc) : list turn :=
  match w with FallingAsleep => [Frame; Thread; Frame] | _ => [Frame] end.

(** New damage reaches the screen. When the connection lives, the activity has a
    surface and the buffer of the root window in the expected size, and the
    renderer thread has nothing else to do, the frame after the damage (or,
    when its signal was sent between the thread's last test and its wait and is
    lost, the frame after that one) makes the thread draw exactly one frame, of
    the root window's buffer, and wait again; the request and the cursor's flags
    are then served, and the next frame wakes nobody and draws nothing. *)
Theorem damage_shown e p rest y s v b :
  reachable e rest (app y) -> pc (app y) = PWait -> wait y <> Awake -> settled (app y) ->
  state (shared (app y)) <> 0 -> mapped (shared (app y)) !! state (shared (app y)) = Some s ->
  surfaceAvailable s = true ->
  root (server y) = Some v -> Present.buffer v = Some b -> relockable p b -> damaged (server y) = true ->
  showable (app y) (desc_id (desc b)) ->
  waitingForBuffers (app y) = false \/ lastRequestedBufferId (app y) <> desc_id (desc b) ->
  exists y1, run_system e p true (waking (wait y) ++ replicate 9 Thread) y = Ret y1
    /\ wait y1 = Asleep /\ damaged (server y1) = false
    /\ (exists f, frames (app y1) = (desc_id (desc b), f) :: frames (app y))
    /\ mapped (shared (app y1)) !! state (shared (app y)) = Some (shown (requested (desc_id (desc b)) s))
    /\ exists y2, run_system e p true [Frame; Thread] y1 = Ret y2 /\ wait y2 = Asleep
         /\ frames (app y2) = frames (app y1) /\ signals (server y2) = signals (server y1).
Proof.
  intros Hr Hpc Hw Hset H0 Hs Hsurf Hv Hb Hrl Hd Hshow Hwait. set (bid := desc_id (desc b)) in *.
  set (r := store_at (state (shared (app y))) (requested bid s) (app y)).
  assert (exists x, run_system e p true (waking (wait y)) y = Ret (mk_system x r Awake) /\ damaged x = false)
    as (x & Ex & Hdx).
  { destruct (frame_requests p y s bid Hs Hsurf) as (x & E & Hdx & Hsx & _).
    - exists v. by rewrite Hb.
    - rewrite Hd. intros v1 b1 Hv1 Hb1. by simplify_eq.
    - by exists v, b.
    - fold r in E. destruct (wait y) eqn:Ew; [done| |].
      + destruct (frame_requests p (mk_system x r Asleep) (requested bid s) bid) as (x2 & E2 & Hd2 & _);
          [exact (store_at_state (requested bid s) (app y))|done|done|cbn; by rewrite Hdx|cbn; by rewrite Hdx|].
        exists x2. split; [|done]. cbn [waking run_system]. rewrite E. cbind.
        unfold thread_step. cbn [wait wake server app]. cbind. rewrite E2. cbind.
        exact (f_equal (fun z => Ret (mk_system x2 z Awake))
                 (store_again _ (requested bid s) (requested bid s) (app y))).
      + exists x. split; [|done]. cbn [waking run_system]. by rewrite E. }
  destruct (thread_turn e p true rest x r (requested bid s)) as (r2 & Et & Hpc2 & Hset2 & Hsh2 & f & Hf);
    try done; [by apply requested_ok|exact (store_at_state (requested bid s) (app y))|..].
  { unfold wants_frame. cbn. by rewrite Hsurf. }
  assert (mapped (shared r2) !! state (shared (app y)) = Some (shown (requested bid s))) as Hs2.
  { rewrite Hsh2. exact (store_at_state (shown (requested bid s)) r). }
  exists (mk_system x r2 Asleep). split_and!; try done.
  - by rewrite (run_system_app e p true _ _ _ _ Ex).
  - exists f. exact Hf.
  - apply (frame_idle e p _ (shown (requested bid s))); [done| |done..].
    cbn [app]. assert (state (shared r2) = state (shared (app y))) as -> by by rewrite Hsh2.
    exact Hs2.
Qed.

(** ** Witness *)

(** The first frame was drawn and the thread is about to wait. *)
Definition drawn : renderer := after (sample_actions ++ replicate 9 RendererStep).
Definition drawn_root : LorieBuffer := default sample_buffer (heap (bufs drawn) !! 700).
Definition dirty : screen_state :=
  mk_screen (mk_present [] 5 [] []) (flags_of (Renderer.state_at drawn))
    (Some (mk_priv (Some sample_buffer) false false false 0 0)) true 0.

Lemma damage_shown_witness :
  exists y1, run_system sample_platform Buffer.sample_platform true
      (waking FallingAsleep ++ replicate 9 Thread) (mk_system dirty drawn FallingAsleep) = Ret y1
    /\ length (frames drawn) = 1%nat /\ length (frames (app y1)) = 2%nat.
Proof.
  destruct (damage_shown sample_platform Buffer.sample_platform [] (mk_system dirty drawn FallingAsleep)
    (Renderer.state_at drawn) (mk_priv (Some sample_buffer) false false false 0 0) sample_buffer)
    as (y1 & E & _ & _ & [f Hf] & _); try (vm_compute; reflexivity).
  - exact (after_reachable (sample_actions ++ replicate 9 RendererStep) eq_refl).
  - discriminate.
  - split_and!; vm_compute; reflexivity.
  - vm_compute. discriminate.
  - right. by left.
  - split.
    + exists 700, drawn_root. split; [|split; vm_compute; reflexivity].
      assert (attached (bufs drawn) = [700]) as E by (vm_compute; reflexivity).
      cbn [app]. rewrite E. by apply list_elem_of_singleton.
    + intros q b Hq _. revert Hq.
      change (heap (bufs (app (mk_system dirty drawn FallingAsleep)))) with (heap (bufs drawn)).
      assert (heap (bufs drawn) = {[700 := drawn_root]}) as -> by (vm_compute; reflexivity).
      intros [_ <-]%lookup_singleton_Some. vm_compute. reflexivity.
  - left. vm_compute. reflexivity.
  - exists y1. split; [exact E|]. split; [vm_compute; reflexivity|]. rewrite Hf. vm_compute. reflexivity.
Defined.
