(* ===== verification/Pixels.v ===== *)
(** * From the pixels in memory to the colours on the screen
    (renderer.c 110-123, 154-160, 316-318, 708-732 and 895-939, buffer.c 254-265 and 397-426)

    The calls to GL that [GlBuffers], [Viewport] and [Renderer] leave out:
    textures and what is uploaded to them, the two programs and what is drawn
    with them.  What a texture shows beyond its edges is left out: every texel
    drawn is inside.  GL is the class [Gl] of its calls and of what can be seen of its
    context, with the class [GlLaws] of its documented behaviour.  The memory of
    the buffers is an argument: the X server writes to it at any time. *)
From S2P Require Import Prelude Events Buffer Cursor GlBuffers Viewport Renderer AppBuffers GpuInit.
From Stdlib Require Import Ascii String.
#[local] Open Scope string_scope.
#[local] Open Scope list_scope.
#[local] Open Scope Z_scope.

(** ** Colours *)
Record colour : Type := mk_colour { red : Z; green : Z; blue : Z; alpha : Z }.

Definition byte_at (n p : Z) : Z := Z.shiftr p (8 * n) `mod` 256.

(** A pixel of X: 0xAARRGGBB. *)
Definition x_colour (p : Z) : colour := mk_colour (byte_at 2 p) (byte_at 1 p) (byte_at 0 p) (byte_at 3 p).

(** The root window has no alpha channel. *)
Definition same_rgb (c d : colour) : Prop := red c = red d /\ green c = green d /\ blue c = blue d.

(** ** What a fragment shader computes *)

(** The end of the string after its beginning. *)
Fixpoint after_prefix (p s : string) : option string :=
  match p, s with
  | EmptyString, s => Some s
  | String a p, String b s => if Ascii.eqb a b then after_prefix p s else None
  | _, EmptyString => None
  end.

(** The selection of components behind the texel, with its semicolon. *)
Definition texel_selector (src : list string) : option string :=
  head (omap (after_prefix "   gl_FragColor = texture2D(texture, outTexCoords)") src).

Definition component (a : Ascii.ascii) (c : colour) : option Z :=
  if Ascii.eqb a "r"%char then Some (red c) else if Ascii.eqb a "g"%char then Some (green c)
  else if Ascii.eqb a "b"%char then Some (blue c) else if Ascii.eqb a "a"%char then Some (alpha c) else None.

Definition select (s : string) (c : colour) : option colour :=
  match s with
  | String ";" EmptyString => Some c
  | String "." (String r (String g (String b (String a (String ";" EmptyString))))) =>
      r ← component r c; g ← component g c; b ← component b c; a ← component a c; Some (mk_colour r g b a)
  | _ => None
  end.

Definition fragment (src : list string) (c : colour) : option colour := s ← texel_selector src; select s c.

(** ** GL *)
Definition GL_RGBA : Z := 0x1908.
Definition GL_BGRA_EXT : Z := 0x80e1.
Definition GL_LINEAR : Z := 0x2601.

(** What a texture shows: an uploaded picture ([None]: of unknown content) in
    rows of bytes, or a hardware buffer. *)
Inductive picture : Type :=
  | Uploaded (format width height : Z) (bytes : option (list Z))
  | FromImage (i : Z).

(** A program is named by its fragment shader. *)
Record draw : Type := mk_draw {
  dr_picture : option picture; dr_program : list string; dr_blend : bool; dr_quad : quad;
  dr_filter : Z                             (** how texels are enlarged and reduced *)
}.

(** The commands the code gives; a texture command is about the bound texture. *)
Inductive command : Type :=
  | BindTexture (i : Z)
  | TexImage2D (format width height : Z) (bytes : option (list Z))
  | TexSubImage2D (format width height : Z) (bytes : list Z)
  | EGLImageTargetTexture2D (i : Z)
  | DeleteTextures (i : Z)
  | TexFilter (f : Z)                       (** GL_TEXTURE_MIN_FILTER and GL_TEXTURE_MAG_FILTER *)
  | UseProgram (src : list string)
  | Blend (enabled : bool)
  | DrawArrays (q : quad).

Class Gl (world : Type) : Type := {
  exec : command -> world -> world;
  bound : world -> Z;
  picture_of : world -> Z -> option picture;
  program : world -> list string;
  filter_of : world -> Z -> Z;
  blending : world -> bool;
  drawn : world -> list draw;               (** most recent first *)
  image_format : Z -> Z;                    (** of a hardware buffer, by its image *)
  image_bytes : Z -> Z -> Z -> list Z;      (** and the four bytes of a pixel *)
  texture2D : picture -> Z -> Z -> colour
}.

(** The four bytes of a texel in a picture with rows of [w] texels. *)
Definition texel_bytes (w x y : Z) (px : list Z) : list Z := take 4 (drop (Z.to_nat (4 * (y * w + x))) px).

Definition is_sub (c : command) : bool := match c with TexSubImage2D _ _ _ _ => true | _ => false end.

Class GlLaws (world : Type) `{!Gl world} : Prop := {
  bound_exec c w : (forall i, c <> DeleteTextures i) ->
    bound (exec c w) = match c with BindTexture i => i | _ => bound w end;
  program_exec c w : program (exec c w) = match c with UseProgram s => s | _ => program w end;
  blending_exec c w : blending (exec c w) = match c with Blend b => b | _ => blending w end;
  filter_exec c w j : (forall i, c <> DeleteTextures i) ->
    filter_of (exec c w) j = match c with TexFilter f => if j =? bound w then f else filter_of w j | _ => filter_of w j end;
  drawn_exec c w :
    drawn (exec c w) = match c with
                       | DrawArrays q => mk_draw (picture_of w (bound w)) (program w) (blending w) q (filter_of w (bound w)) :: drawn w
                       | _ => drawn w
                       end;
  picture_exec c w j : is_sub c = false ->
    picture_of (exec c w) j
    = match c with
      | TexImage2D f a b px => if j =? bound w then Some (Uploaded f a b px) else picture_of w j
      | EGLImageTargetTexture2D i => if j =? bound w then Some (FromImage i) else picture_of w j
      | DeleteTextures i => if j =? i then None else picture_of w j
      | _ => picture_of w j
      end;
  (** the format and the size must be the texture's *)
  picture_sub f a b px old w : picture_of w (bound w) = Some (Uploaded f a b old) ->
    picture_of (exec (TexSubImage2D f a b px) w) (bound w) = Some (Uploaded f a b (Some px));
  picture_sub_other f a b px w j : j <> bound w ->
    picture_of (exec (TexSubImage2D f a b px) w) j = picture_of w j;
  texel_rgba a b px x y b0 b1 b2 b3 :
    0 <= x < a -> 0 <= y < b -> texel_bytes a x y px = [b0; b1; b2; b3] ->
    texture2D (Uploaded GL_RGBA a b (Some px)) x y = mk_colour b0 b1 b2 b3;
  texel_bgra a b px x y b0 b1 b2 b3 :
    0 <= x < a -> 0 <= y < b -> texel_bytes a x y px = [b0; b1; b2; b3] ->
    texture2D (Uploaded GL_BGRA_EXT a b (Some px)) x y = mk_colour b2 b1 b0 b3;
  (** red comes first, unless the format says that blue does *)
  texel_hardware i x y b0 b1 b2 b3 :
    image_bytes i x y = [b0; b1; b2; b3] ->
    same_rgb (texture2D (FromImage i) x y)
      (if image_format i =? AHARDWAREBUFFER_FORMAT_B8G8R8A8_UNORM then mk_colour b2 b1 b0 b3 else mk_colour b0 b1 b2 b3)
}.

(** ** The commands of the code *)
Definition gl_format (b : LorieBuffer) : Z :=
  if format (desc b) =? AHARDWAREBUFFER_FORMAT_B8G8R8A8_UNORM then GL_BGRA_EXT else GL_RGBA.

(** [LorieBuffer_attachToGL], behind [glGenTextures]. *)
Definition attach_commands (b : LorieBuffer) : list command :=
  BindTexture (texture b)
  :: (if negb (image b =? 0) then [EGLImageTargetTexture2D (image b)]
      else if negb (data (desc b) =? 0) && (0 <? width (desc b)) && (0 <? height (desc b))
      then [TexImage2D (gl_format b) (stride (desc b)) (height (desc b)) None] else []).

(** The memory from an address to the end of its mapping. *)
Abbreviation memory := (Z -> list Z).

Definition read_memory (m : memory) (a n : Z) : outcome (list Z) :=
  if decide (Z.to_nat n <= List.length (m a))%nat then Ret (take (Z.to_nat n) (m a)) else Fault OutOfBounds.

Definition LorieBuffer_bindTexture (m : memory) (b : LorieBuffer) : outcome (list command) :=
  if type (desc b) =? LORIEBUFFER_FD then
    px ← read_memory m (data (desc b)) (stride (desc b) * height (desc b) * 4);
    Ret [BindTexture (texture b); TexSubImage2D (gl_format b) (stride (desc b)) (height (desc b)) px]
  else Ret [BindTexture (texture b)].

Definition draw_region (filtering i : Z) (q : quad) : list command :=
  UseProgram (if flip q then Programs.fragmentShaderBgraSrc else Programs.fragmentShaderSrc)
  :: (if i =? 0 then [] else [BindTexture i]) ++ [TexFilter filtering; DrawArrays q].

Definition bindTexture (filtering i : Z) : list command := [BindTexture i; TexFilter filtering].

Definition words (l : list Z) : list Z := l ≫= le 4.

Section commands.
(** The cursor's texture, and the filter in force. *)
Context (cursor_id filtering : Z).

(** [upload] is what [Renderer.upload_cursor] read from the shared block. *)
Definition cursor_upload (c : shared_cursor) (upload : list Z) : list command :=
  if cur_updated c then bindTexture filtering cursor_id ++ [TexImage2D GL_RGBA (cur_width c) (cur_height c) (Some (words upload))]
  else [].

Definition cursor_commands (q : option quad) : list command :=
  match q with Some q => Blend true :: draw_region filtering cursor_id q ++ [Blend false] | None => [] end.

(** The commands of [rendererRedrawLocked] for the frame [f]. *)
Definition frame_commands (m : memory) (b : LorieBuffer) (c : shared_cursor) (upload : list Z) (f : frame)
  : outcome (list command) :=
  bind ← LorieBuffer_bindTexture m b;
  Ret (bind ++ draw_region filtering 0 (frame_root f) ++ cursor_upload c upload ++ cursor_commands (frame_cursor f)).
End commands.

(** ** The renderer thread with its GL context *)
Section context.
Context {world : Type} `{!Gl world} (cursor_id : Z) (e : Renderer.platform).

Definition run_commands (l : list command) (w : world) : world := foldl (fun w c => exec c w) w l.

(** The loop over [addedBuffers]. *)
Fixpoint attach_turns (fuel : nat) (s : store) (w : world) : outcome (store * world) :=
  match LorieBufferList_first AddedBuffers s, fuel with
  | None, _ => Ret (s, w)
  | Some p, O => Fault FuelExhausted
  | Some p, S fuel =>
      s ← LorieBuffer_attachToGL (gl_calls e) p s;
      b ← deref p s;
      attach_turns fuel (LorieBuffer_addToList p Buffers s) (run_commands (attach_commands b) w)
  end.

(** The loop over [removedBuffers]; [__LorieBuffer_free] deletes the texture. *)
Fixpoint release_turns (fuel : nat) (s : store) (w : world) : outcome (store * world) :=
  match LorieBufferList_first RemovedBuffers s, fuel with
  | None, _ => Ret (s, w)
  | Some p, O => Fault FuelExhausted
  | Some p, S fuel =>
      b ← deref p s;
      s ← release RendererThread p s;
      release_turns fuel s (if refcount b =? 1 then exec (DeleteTextures (texture b)) w else w)
  end.

(** What a step of the thread from [r] to [r'] does to GL. *)
Definition gl_turn (flt : Z) (m : memory) (r r' : renderer) (w : world) : outcome world :=
  match pc r with
  | PAttach => sw ← attach_turns (List.length (addedBuffers (bufs r))) (bufs r) w; Ret sw.2
  | PDraw p =>
      b ← deref p (bufs r);
      s ← deref_state r;
      match frames r' with
      | (_, f) :: _ =>
          if expected_size (vp r) (desc b)
          then cs ← frame_commands cursor_id flt m b (Renderer.cursor s) (cursor_texture r') f; Ret (run_commands cs w)
          else Ret w
      | [] => Ret w
      end
  | PRelease => sw ← release_turns (references RemovedBuffers (bufs r)) (bufs r) w; Ret sw.2
  | PTest | PWait | PChanges | PFind => Ret w
  end.

(** What [LorieBuffer_recvHandleFromUnixSocket] returns for a shared region. *)
Definition shared_ok (b : LorieBuffer) : Prop :=
  type (desc b) = LORIEBUFFER_FD ->
  ahb (desc b) = 0 /\ data (desc b) <> 0 /\ 0 < width (desc b) /\ 0 < height (desc b).

(** The other threads do not draw. *)
Inductive seen (rest : list resource) : renderer -> world -> Prop :=
  | seen_init w : blending w = false -> seen rest (renderer_init e rest) w
  | seen_other r w a r' :
      seen rest r w -> a <> RendererStep -> enabled e a r = true ->
      (forall p b, a = AddBuffer p b -> shared_ok b) -> run e a r = Ret r' -> seen rest r' w
  | seen_turn flt m r w r' w' :
      seen rest r w -> rendererThread e r = Ret r' -> gl_turn flt m r r' w = Ret w' -> seen rest r' w'.

(** [glGenTextures] returns names that are not in use. *)
Definition gl_fresh : Prop :=
  forall l, let t := glGenTextures (gl_calls e) l in t <> 0 -> (GlTexture t ∉ l) /\ t <> cursor_id.

(** ** The invariant *)
Definition gl_name (o : globj) : option Z := match o with GlTexture t => Some t | GlImage _ => None end.

(** What a texture was made for. *)
Definition shows_buffer (w : world) (b : LorieBuffer) : Prop :=
  if negb (image b =? 0) then picture_of w (texture b) = Some (FromImage (image b))
  else if negb (data (desc b) =? 0) && (0 <? width (desc b)) && (0 <? height (desc b))
  then exists old, picture_of w (texture b) = Some (Uploaded (gl_format b) (stride (desc b)) (height (desc b)) old)
  else True.

Record textures_ok (s : store) (w : world) : Prop := {
  to_names : NoDup (omap gl_name (gl s));
  to_cursor : GlTexture cursor_id ∉ gl s;
  to_shows : forall p b, heap s !! p = Some b -> texture b <> 0 -> shows_buffer w b;
  to_images : forall p b, heap s !! p = Some b -> image b <> 0 -> ahb (desc b) <> 0;
  to_shared : forall p b, heap s !! p = Some b -> shared_ok b
}.

(** ** Lemmas on commands *)
Context `{!GlLaws world}.

Lemma run_cons c l w : run_commands (c :: l) w = run_commands l (exec c w).
Proof. done. Qed.
Lemma run_app l l' w : run_commands (l ++ l') w = run_commands l' (run_commands l w).
Proof. apply foldl_app. Qed.

Lemma attach_other b w j : j <> texture b -> picture_of (run_commands (attach_commands b) w) j = picture_of w j.
Proof.
  intros Hj%Z.eqb_neq. unfold attach_commands. rewrite run_cons. repeat case_bool; cbn [run_commands foldl];
    rewrite ?picture_exec by done; rewrite ?bound_exec by done; by rewrite ?Hj.
Qed.

Lemma attach_shows b w : shows_buffer (run_commands (attach_commands b) w) b.
Proof.
  unfold shows_buffer, attach_commands. rewrite run_cons. repeat case_bool; cbn [run_commands foldl]; [| |done].
  all: rewrite picture_exec, bound_exec, Z.eqb_refl by done; eauto.
Qed.

(** What no command of a list changes. *)
Lemma run_same {A} (f : world -> A) l w :
  Forall (fun c => forall w, f (exec c w) = f w) l -> f (run_commands l w) = f w.
Proof. intros Hl. revert w. induction Hl as [|c l Hc _ IH]; intros w; [done|]. rewrite run_cons. by rewrite IH. Qed.

Lemma attach_quiet b w :
  let w' := run_commands (attach_commands b) w in drawn w' = drawn w /\ blending w' = blending w.
Proof.
  cbv zeta. unfold attach_commands. split; apply run_same; repeat case_bool; repeat constructor; intros w0.
  all: by rewrite ?drawn_exec, ?blending_exec.
Qed.

(** ** Textures of a store *)
Lemma heap_texture rest s p b :
  store_ok rest s -> heap s !! p = Some b -> texture b <> 0 -> GlTexture (texture b) ∈ gl s.
Proof.
  intros Hs Hp Ht. rewrite (so_gl rest s Hs), (per_buffer_delete gl_owned _ p b Hp). apply elem_of_app. left.
  unfold gl_owned. rewrite (proj2 (Z.eqb_neq _ _) Ht). by left.
Qed.

Lemma name_in (t : Z) (l : list globj) : t ∈ omap gl_name l <-> GlTexture t ∈ l.
Proof.
  rewrite list_elem_of_omap. split.
  - intros ([t'|] & Hin & E); cbn in E; [by injection E as ->|done].
  - intros H. by exists (GlTexture t).
Qed.

(** Two buffers do not share a texture. *)
Lemma textures_differ rest s w p q b c :
  store_ok rest s -> textures_ok s w -> heap s !! p = Some b -> heap s !! q = Some c -> p <> q ->
  texture c <> 0 -> texture c <> texture b.
Proof.
  intros Hs [Hn _ _ _ _] Hb Hc Hpq Ht E. rewrite (so_gl rest s Hs), (per_buffer_delete gl_owned _ p b Hb) in Hn.
  rewrite omap_app in Hn. apply NoDup_app in Hn as (_ & Hd & _). apply (Hd (texture b)).
  - apply name_in. unfold gl_owned. rewrite <- E, (proj2 (Z.eqb_neq _ _) Ht). by left.
  - apply name_in. rewrite (per_buffer_delete gl_owned _ q c) by (by rewrite lookup_delete_ne).
    rewrite <- E. unfold gl_owned. rewrite (proj2 (Z.eqb_neq _ _) Ht). by left.
Qed.

(** What the other threads do to the buffers. *)
Definition kept (s s' : store) : Prop :=
  gl s' = gl s /\ forall q b', heap s' !! q = Some b' ->
    (texture b' = 0 /\ image b' = 0 /\ shared_ok b')
    \/ exists b, heap s !! q = Some b /\ desc b' = desc b /\ texture b' = texture b /\ image b' = image b.

Lemma shows_same w w' b b' :
  desc b' = desc b -> texture b' = texture b -> image b' = image b ->
  picture_of w' (texture b) = picture_of w (texture b) -> shows_buffer w b -> shows_buffer w' b'.
Proof. unfold shows_buffer, gl_format. intros -> -> -> E. by rewrite !E. Qed.

Lemma textures_ok_kept s s' w : kept s s' -> textures_ok s w -> textures_ok s' w.
Proof.
  intros [Eg Hk] [Hn Hc Hs Hi Hsd]. constructor; rewrite ?Eg; try done; intros p b' Hb'.
  - intros Ht. destruct (Hk p b' Hb') as [(? & ? & ?)|(b & Hb & Ed & Et & Ei)]; [done|].
    apply (shows_same w w b b'); try done. apply (Hs p b Hb). congruence.
  - intros Hz. destruct (Hk p b' Hb') as [(? & ? & ?)|(b & Hb & Ed & Et & Ei)]; [done|]. rewrite Ed. apply (Hi p b Hb). congruence.
  - destruct (Hk p b' Hb') as [(_ & _ & ?)|(b & Hb & Ed & _)]; [done|]. unfold shared_ok. rewrite Ed. by apply (Hsd p).
Qed.

#[local] Instance kept_preorder : PreOrder kept.
Proof.
  split.
  - intros s. split; [done|]. intros q b' Hb. right. by exists b'.
  - intros s1 s2 s3 [E1 H1] [E2 H2]. split; [congruence|]. intros q b' Hb.
    destruct (H2 q b' Hb) as [?|(b & Hb2 & Ed & Et & Ei)]; [by left|].
    destruct (H1 q b Hb2) as [(? & ? & Hsh)|(b1 & Hb1 & Ed1 & Et1 & Ei1)].
    { left. unfold shared_ok. rewrite Ed. split_and!; [congruence..|exact Hsh]. }
    right. exists b1. split_and!; congruence.
Qed.

Lemma kept_heap s s' : gl s' = gl s -> heap s' = heap s -> kept s s'.
Proof. intros Eg Eh. split; [done|]. rewrite Eh. intros q b' Hb. right. by exists b'. Qed.

Lemma release_gui_kept p s s' : release GuiThread p s = Ret s' -> kept s s'.
Proof.
  unfold release, deref. destruct (heap s !! p) as [b|] eqn:Hb; cbn; [|done]. unfold LorieBuffer_release.
  destruct (_ =? 1); cbn.
  - destruct (__LorieBuffer_free _ _); cbn; [|done]. intros [= <-]. split; [done|]. cbn.
    intros q b' [_ Hq]%lookup_delete_Some. right. by exists b'.
  - intros [= <-]. split; [done|]. cbn. intros q b' [[<- <-]|[_ Hq]]%lookup_insert_Some; right; [by exists b|by exists b'].
Qed.

Lemma release_all_gui_kept fuel l s s' : release_all fuel GuiThread l s = Ret s' -> kept s s'.
Proof.
  revert s. induction fuel as [|fuel IH]; intros s; cbn [release_all]; destruct (LorieBufferList_first l s) as [p|];
    try (by intros [= <-]). intros (s1 & E1 & E)%outcome_bind_Ret_inv.
  etrans; [by eapply release_gui_kept|by apply IH].
Qed.

Lemma move_to_removed_kept fuel s s' : move_to_removed fuel s = Ret s' -> kept s s'.
Proof.
  intros E. apply kept_heap; [|by eapply move_to_removed_heap]. revert s E.
  induction fuel as [|fuel IH]; intros s; cbn [move_to_removed]; destruct (LorieBufferList_first Buffers s) as [p|];
    try (by intros [= <-]). intros E%IH. by rewrite E, gl_add.
Qed.

Lemma removeBuffer_kept bid s s' : rendererRemoveBuffer bid s = Ret s' -> kept s s'.
Proof.
  unfold rendererRemoveBuffer. intros (o & _ & E)%outcome_bind_Ret_inv. destruct o as [p|]; [by eapply release_gui_kept|].
  apply outcome_bind_Ret_inv in E as (o & _ & E). destruct o as [p|]; injection E as <-; [|done].
  by apply kept_heap.
Qed.

Lemma removeAll_kept s s' : rendererRemoveAllBuffers s = Ret s' -> kept s s'.
Proof.
  unfold rendererRemoveAllBuffers. intros (s1 & E1 & E)%outcome_bind_Ret_inv.
  etrans; [by eapply release_all_gui_kept|by eapply move_to_removed_kept].
Qed.

Lemma run_kept a r r' :
  a <> RendererStep -> enabled e a r = true -> (forall p b, a = AddBuffer p b -> shared_ok b) -> run e a r = Ret r' -> kept (bufs r) (bufs r').
Proof.
  intros Ha Hen Hsd. destruct a; cbn [run enabled] in *; try done; intros E.
  - injection E as <-. rewrite !andb_true_iff in Hen. destruct Hen as [[_ Ht%Z.eqb_eq] Hi%Z.eqb_eq].
    unfold rendererAddBuffer. cbn [bufs with_bufs]. split; [by rewrite gl_add|]. rewrite heap_add. cbn [heap].
    intros q b' [[_ <-]|[_ Hq]]%lookup_insert_Some; [left; split_and!; eauto|]. right. by exists b'.
  - apply outcome_bind_Ret_inv in E as (b & Eb & [= <-]). by eapply removeBuffer_kept.
  - apply outcome_bind_Ret_inv in E as (b & Eb & [= <-]). by eapply removeAll_kept.
  - injection E as <-. by destruct (p =? 0).
  - by rewrite (set_window_bufs _ _ _ E).
  - by injection E as <-.
  - unfold setViewport in E. by rewrite (when_state_bufs _ _ _ E).
  - unfold setZoom in E. by rewrite (when_state_bufs _ _ _ E).
  - by injection E as <-.
Qed.

(** ** The loops of the thread *)
Hypothesis fresh : gl_fresh.
Context (rest : list resource).

Lemma attach_one p s s1 w :
  store_ok rest s -> textures_ok s w -> p ∈ addedBuffers s ->
  LorieBuffer_attachToGL (gl_calls e) p s = Ret s1 ->
  exists b, heap s1 !! p = Some b /\ textures_ok s1 (run_commands (attach_commands b) w).
Proof.
  intros Hs [Hn Hc Hsh Hi Hsd] Hp. unfold LorieBuffer_attachToGL, deref.
  destruct (heap s !! p) as [b|] eqn:Hb; cbn [mbind outcome_bind]; [|done].
  set (create := (image b =? 0) && negb (ahb (desc b) =? 0)).
  set (i := if create then _ else image b). set (l := if create && negb (i =? 0) then _ else gl s).
  set (t := glGenTextures (gl_calls e) l). intros [= <-]. cbn [heap].
  exists (set_gl t i b). split; [by rewrite lookup_insert_eq|].
  assert (omap gl_name l = omap gl_name (gl s)) as El by (subst l; by destruct (create && _)).
  assert (t <> 0 -> (GlTexture t ∉ gl s) /\ t <> cursor_id) as Hf.
  { intros Ht. destruct (fresh l Ht) as [H1 H2]. split; [|done]. by rewrite <- name_in, <- El, name_in. }
  constructor; cbn [heap gl].
  - destruct (Z.eqb_spec t 0); [by rewrite El|]. cbn. rewrite El. apply NoDup_cons. split; [|done].
    rewrite name_in. by apply Hf.
  - destruct (Z.eqb_spec t 0); rewrite ?not_elem_of_cons, <- name_in, El, name_in; [done|]. split; [|done].
    intros [= E]. by apply (proj2 (Hf ltac:(done))).
  - intros q c [[<- <-]|[Hpq Hq]]%lookup_insert_Some Ht; [apply attach_shows|].
    eapply shows_same; [done..| |by apply (Hsh q)]. apply attach_other. cbn. intros E.
    destruct (Z.eq_dec t 0); [congruence|]. apply (proj1 (Hf ltac:(done))). rewrite <- E. by eapply heap_texture.
  - intros q c [[<- <-]|[Hpq Hq]]%lookup_insert_Some; [|by apply (Hi q)]. cbn. subst i create.
    destruct (image b =? 0) eqn:E0, (ahb (desc b) =? 0) eqn:Ea; cbn; bool_arith; eauto.
  - intros q c [[<- <-]|[Hpq Hq]]%lookup_insert_Some; [exact (Hsd p b Hb)|by apply (Hsd q)].
Qed.

Lemma textures_ok_add p l s w : textures_ok s w -> textures_ok (LorieBuffer_addToList p l s) w.
Proof. intros H. eapply textures_ok_kept; [|exact H]. apply kept_heap; [by rewrite gl_add|by rewrite heap_add]. Qed.

Lemma attach_turns_ok fuel s w :
  store_ok rest s -> textures_ok s w -> (List.length (addedBuffers s) <= fuel)%nat ->
  exists s' w', attach_turns fuel s w = Ret (s', w') /\ attach_loop fuel (gl_calls e) s = Ret s'
    /\ textures_ok s' w' /\ drawn w' = drawn w /\ blending w' = blending w.
Proof.
  revert s w. induction fuel as [|fuel IH]; intros s w Hs Hw Hf.
  all: cbn [attach_turns attach_loop]; unfold LorieBufferList_first; cbn [get_list];
    destruct (addedBuffers s) as [|p l] eqn:El; cbn [head]; [by exists s, w|].
  1: cbn in Hf; lia.
  assert (p ∈ addedBuffers s) as Hp by (rewrite El; set_solver).
  destruct (store_ok_attach rest (gl_calls e) p s Hs Hp) as (s1 & E1 & Hs1 & Ea & _).
  destruct (attach_one p s s1 w Hs Hw Hp E1) as (b & Hb & Hw1). rewrite E1. cbind. unfold deref. rewrite Hb. cbind.
  destruct (IH (LorieBuffer_addToList p Buffers s1) (run_commands (attach_commands b) w) Hs1)
    as (s' & w' & Et & El' & Hw' & Ed & Ebl); [by apply textures_ok_add| |].
  - cbn. rewrite Ea, El. unfold xorg_list_del. rewrite filter_cons_False by naive_solver.
    pose proof (length_filter (fun q => q <> p) l). cbn in Hf. lia.
  - destruct (attach_quiet b w) as [Eq1 Eq2]. exists s', w'. split_and!; try done; by etrans.
Qed.

Lemma release_one p s s1 w b :
  store_ok rest s -> textures_ok s w -> p ∈ removedBuffers s -> heap s !! p = Some b ->
  release RendererThread p s = Ret s1 ->
  textures_ok s1 (if refcount b =? 1 then exec (DeleteTextures (texture b)) w else w).
Proof.
  intros Hs Hw Hp Hb E. pose proof Hw as [Hn Hc Hsh Hi Hsd].
  destruct (store_ok_release rest RendererThread p s Hs) as (s2 & E2 & Hs1 & _); [by apply (list_in_all RemovedBuffers)|done|].
  assert (s2 = s1) as -> by congruence. clear E2.
  unfold release, deref in E. rewrite Hb in E. cbn [mbind outcome_bind] in E. unfold LorieBuffer_release in E.
  destruct (refcount b =? 1).
  - destruct (__LorieBuffer_free _ _) as [h|]; cbn in E; [|done].
    assert (heap s1 = delete p (heap s)) as Eh by by injection E as <-. clear E.
    assert (gl s ≡ₚ gl_owned b ++ gl s1) as Eg.
    { rewrite (so_gl rest s Hs), (so_gl rest s1 Hs1), Eh. by apply per_buffer_delete. }
    constructor.
    + rewrite Eg, omap_app, NoDup_app in Hn. apply Hn.
    + rewrite Eg in Hc. set_solver.
    + rewrite Eh. intros q c [Hpq Hq]%lookup_delete_Some Ht. eapply shows_same; [done..| |by apply (Hsh q)].
      rewrite picture_exec by done. rewrite (proj2 (Z.eqb_neq _ _)); [done|]. by eapply (textures_differ rest s w p q).
    + rewrite Eh. intros q c [Hpq Hq]%lookup_delete_Some. by apply (Hi q).
    + rewrite Eh. intros q c [Hpq Hq]%lookup_delete_Some. by apply (Hsd q).
  - cbn in E. injection E as <-. eapply textures_ok_kept; [|exact Hw]. split; [done|]. cbn.
    intros q b' [[<- <-]|[_ Hq]]%lookup_insert_Some; right; [by exists b|by exists b'].
Qed.

Lemma release_turns_ok fuel s s' w :
  store_ok rest s -> textures_ok s w -> release_all fuel RendererThread RemovedBuffers s = Ret s' ->
  exists w', release_turns fuel s w = Ret (s', w') /\ textures_ok s' w'
    /\ drawn w' = drawn w /\ blending w' = blending w.
Proof.
  revert s w. induction fuel as [|fuel IH]; intros s w Hs Hw.
  all: cbn [release_turns release_all]; unfold LorieBufferList_first; cbn [get_list];
    destruct (removedBuffers s) as [|p l] eqn:El; cbn [head]; try (intros [= <-]; by exists w).
  assert (p ∈ removedBuffers s) as Hp by (rewrite El; set_solver).
  assert (p ∈ all_lists s) as Hpa by (by apply (list_in_all RemovedBuffers)).
  destruct (proj1 (so_heap rest s Hs p) Hpa) as [b Hb].
  destruct (store_ok_release rest RendererThread p s Hs Hpa) as (s1 & E1 & Hs1 & _); [done|].
  pose proof (release_one p s s1 w b Hs Hw Hp Hb E1) as Hw1. rewrite E1. unfold deref. rewrite Hb. cbind. intros E.
  destruct (IH s1 _ Hs1 Hw1 E) as (w' & -> & Hw' & Ed & Ebl). exists w'. split_and!; [done..| |].
  - rewrite Ed. destruct (refcount b =? 1); [by rewrite drawn_exec|done].
  - rewrite Ebl. destruct (refcount b =? 1); [by rewrite blending_exec|done].
Qed.

(** ** Drawing *)

(** Commands that change the picture of the cursor only, and of a buffer that
    still shows what it is for. *)
Lemma textures_ok_drawn s w w' p b :
  store_ok rest s -> heap s !! p = Some b -> (texture b <> 0 -> shows_buffer w' b) ->
  (forall j, j <> 0 -> j <> cursor_id -> j <> texture b -> picture_of w' j = picture_of w j) ->
  textures_ok s w -> textures_ok s w'.
Proof.
  intros Hs Hb Hshow Hp Hw. pose proof Hw as [Hn Hc Hsh Hi Hsd]. constructor; try done. intros q c Hq Ht.
  destruct (decide (p = q)) as [<-|Hpq]; [by assert (c = b) as -> by congruence; apply Hshow|].
  eapply shows_same; [done..| |by apply (Hsh q)]. apply Hp; [done| |by eapply (textures_differ rest s w p q)].
  intros E. apply Hc. rewrite <- E. by eapply heap_texture.
Qed.

(** Binding a buffer's texture, and uploading a shared one. *)
Lemma bind_quiet m b cs w :
  LorieBuffer_bindTexture m b = Ret cs ->
  let w' := run_commands cs w in
  bound w' = texture b /\ drawn w' = drawn w /\ blending w' = blending w
  /\ (forall j, j <> texture b -> picture_of w' j = picture_of w j)
  /\ (type (desc b) <> LORIEBUFFER_FD -> picture_of w' (texture b) = picture_of w (texture b)).
Proof.
  unfold LorieBuffer_bindTexture. intros Hcs. destruct (Z.eqb_spec (type (desc b)) LORIEBUFFER_FD) as [E|N].
  - unfold read_memory in Hcs. destruct (decide _); cbn in Hcs; [|done]. injection Hcs as <-. cbv zeta. cbn [run_commands foldl].
    rewrite !bound_exec, !drawn_exec, !blending_exec by done. split_and!; try done.
    intros j Hj. rewrite picture_sub_other by (by rewrite bound_exec). by rewrite picture_exec.
  - injection Hcs as <-. cbv zeta. cbn [run_commands foldl].
    rewrite !bound_exec, !drawn_exec, !blending_exec by done. split_and!; try done; intros; by rewrite picture_exec.
Qed.

Lemma bind_shows m b cs w :
  LorieBuffer_bindTexture m b = Ret cs -> shows_buffer w b -> shared_ok b -> (image b <> 0 -> ahb (desc b) <> 0) ->
  let w' := run_commands cs w in
  shows_buffer w' b
  /\ (type (desc b) = LORIEBUFFER_FD ->
       picture_of w' (texture b) = Some (Uploaded (gl_format b) (stride (desc b)) (height (desc b))
         (Some (take (Z.to_nat (stride (desc b) * height (desc b) * 4)) (m (data (desc b))))))).
Proof.
  intros Hcs Hsh Hfd Him. destruct (bind_quiet m b cs w Hcs) as (_ & _ & _ & _ & Hno). cbv zeta in *.
  destruct (Z.eqb_spec (type (desc b)) LORIEBUFFER_FD) as [E|N]; [|split; [|done]].
  2:{ eapply shows_same; [..|exact Hsh]; auto. }
  destruct (Hfd E) as (Ha & Hd%Z.eqb_neq & Hw%Z.ltb_lt & Hh%Z.ltb_lt).
  assert (image b = 0) as Hi by (destruct (Z.eq_dec (image b) 0); [done|by apply Him in Ha]).
  unfold LorieBuffer_bindTexture, read_memory in Hcs. rewrite E in Hcs. cbn [Z.eqb LORIEBUFFER_FD Pos.eqb] in Hcs.
  destruct (decide _); cbn in Hcs; [|done]. injection Hcs as <-. cbn [run_commands foldl].
  unfold shows_buffer in Hsh |- *. rewrite Hi, Hd, Hw, Hh in Hsh |- *. cbn [negb andb Z.eqb] in Hsh |- *.
  destruct Hsh as [old Hold].
  assert (bound (exec (BindTexture (texture b)) w) = texture b) as Eb by by rewrite bound_exec.
  assert (picture_of (exec (BindTexture (texture b)) w) (texture b)
          = Some (Uploaded (gl_format b) (stride (desc b)) (height (desc b)) old)) as Ep by by rewrite picture_exec.
  rewrite <- Eb in Ep at 2.
  pose proof (picture_sub _ _ _ (take (Z.to_nat (stride (desc b) * height (desc b) * 4)) (m (data (desc b)))) _ _ Ep) as Es.
  rewrite Eb in Es. split; [eauto|done].
Qed.

(** A quad with the bound texture, or another one. *)
Lemma draw_region_drawn flt i q w :
  let w' := run_commands (draw_region flt i q) w in
  drawn w' = mk_draw (picture_of w (if i =? 0 then bound w else i))
               (if flip q then Programs.fragmentShaderBgraSrc else Programs.fragmentShaderSrc) (blending w) q flt :: drawn w
  /\ (forall j, picture_of w' j = picture_of w j) /\ blending w' = blending w.
Proof.
  cbv zeta. unfold draw_region. destruct (i =? 0); cbn [run_commands foldl List.app].
  all: rewrite !drawn_exec, !blending_exec, !program_exec, filter_exec, !bound_exec, Z.eqb_refl, !picture_exec by done; split_and!; try done.
  all: intros j; by rewrite !picture_exec.
Qed.

(** The cursor: its upload, and its quad. *)
Definition cursor_picture (c : shared_cursor) (upload : list Z) (w : world) : option picture :=
  if cur_updated c then Some (Uploaded GL_RGBA (cur_width c) (cur_height c) (Some (words upload)))
  else picture_of w cursor_id.

Lemma cursor_drawn flt c upload q w :
  cursor_id <> 0 -> blending w = false ->
  let w' := run_commands (cursor_upload cursor_id flt c upload ++ cursor_commands cursor_id flt q) w in
  drawn w' = match q with
             | Some q => mk_draw (cursor_picture c upload w)
                 (if flip q then Programs.fragmentShaderBgraSrc else Programs.fragmentShaderSrc) true q flt :: drawn w
             | None => drawn w
             end
  /\ (forall j, j <> cursor_id -> picture_of w' j = picture_of w j) /\ blending w' = false.
Proof.
  intros H0 Hbl w'. subst w'. rewrite run_app. set (w1 := run_commands (cursor_upload cursor_id flt c upload) w).
  assert (picture_of w1 cursor_id = cursor_picture c upload w /\ drawn w1 = drawn w /\ blending w1 = false
    /\ forall j, j <> cursor_id -> picture_of w1 j = picture_of w j) as (Hc & Hd & Hb & Hj).
  { subst w1. unfold cursor_upload, bindTexture, cursor_picture. destruct (cur_updated c); [|done].
    cbn [run_commands foldl List.app].
    rewrite !drawn_exec, !blending_exec, !picture_exec, !bound_exec, Z.eqb_refl by done. split_and!; try done.
    intros j Hj%Z.eqb_neq. rewrite picture_exec, !bound_exec, Hj by done. by rewrite !picture_exec. }
  destruct q as [q|]; cbn [cursor_commands]; [|done]. rewrite run_cons, run_app.
  destruct (draw_region_drawn flt cursor_id q (exec (Blend true) w1)) as (E1 & E2 & E3). cbv zeta in *.
  set (w2 := run_commands (draw_region flt cursor_id q) _) in *. change (run_commands [Blend false] w2) with (exec (Blend false) w2).
  rewrite (proj2 (Z.eqb_neq _ _) H0), picture_exec, blending_exec, drawn_exec, Hc, Hd in E1 by done.
  split_and!.
  - by rewrite drawn_exec, E1.
  - intros j Hj'. rewrite picture_exec, E2, picture_exec by done. by apply Hj.
  - by rewrite blending_exec.
Qed.

(** A whole frame. *)
Lemma frame_drawn_gl flt m b c upload f cs p s w :
  store_ok rest s -> textures_ok s w -> blending w = false -> cursor_id <> 0 ->
  heap s !! p = Some b -> frame_commands cursor_id flt m b c upload f = Ret cs ->
  let w' := run_commands cs w in
  textures_ok s w' /\ blending w' = false
  /\ exists w1, (forall bind, LorieBuffer_bindTexture m b = Ret bind -> w1 = run_commands bind w)
     /\ drawn w' = match frame_cursor f with
                   | Some q => [mk_draw (cursor_picture c upload w)
                       (if flip q then Programs.fragmentShaderBgraSrc else Programs.fragmentShaderSrc) true q flt]
                   | None => []
                   end ++ mk_draw (picture_of w1 (texture b))
                       (if flip (frame_root f) then Programs.fragmentShaderBgraSrc else Programs.fragmentShaderSrc)
                       false (frame_root f) flt :: drawn w.
Proof.
  intros Hs Hw Hbl H0 Hb Hcs w'. subst w'. unfold frame_commands in Hcs.
  apply outcome_bind_Ret_inv in Hcs as (bind & Hbind & E).
  assert (cs = bind ++ draw_region flt 0 (frame_root f) ++ cursor_upload cursor_id flt c upload
               ++ cursor_commands cursor_id flt (frame_cursor f)) as -> by congruence. clear E. rewrite !run_app.
  destruct (bind_quiet m b bind w Hbind) as (B1 & B2 & B3 & B4 & _). cbv zeta in *.
  set (w1 := run_commands bind w) in *.
  destruct (draw_region_drawn flt 0 (frame_root f) w1) as (D1 & D2 & D3). cbv zeta in *. cbn [Z.eqb] in D1.
  set (w2 := run_commands (draw_region flt 0 (frame_root f)) w1) in *. rewrite <- run_app.
  destruct (cursor_drawn flt c upload (frame_cursor f) w2 H0) as (C1 & C2 & C3); [congruence|]. cbv zeta in *.
  set (w3 := run_commands _ w2) in *. pose proof Hw as [Hn Hc Hsh Hi Hsd].
  assert (texture b <> cursor_id) as Hbc.
  { intros E. apply Hc. rewrite <- E. eapply heap_texture; [done..|congruence]. }
  split_and!; [|done|].
  - apply (textures_ok_drawn s w w3 p b); try done.
    + intros Ht. destruct (bind_shows m b bind w Hbind (Hsh p b Hb Ht) (Hsd p b Hb) (Hi p b Hb)) as [Hx _].
      eapply shows_same; [done..| |exact Hx]. by rewrite C2, D2.
    + intros j Hj Hjc Hjb. by rewrite C2, D2, B4.
  - exists w1. split; [intros bind' E; by assert (bind' = bind) as -> by congruence|].
    rewrite C1, D1, B1, B2, B3, Hbl. unfold cursor_picture. rewrite D2, B4 by done. by destruct (frame_cursor f).
Qed.

(** ** Every turn keeps the invariant *)
Hypothesis cursor_named : cursor_id <> 0.

Lemma quiet_turn_bufs r r' :
  renderer_ok e rest r -> rendererThread e r = Ret r' -> pc r <> PAttach -> pc r <> PRelease -> bufs r' = bufs r.
Proof.
  intros [Hb Hs Hw Hpw _ _ _]. unfold rendererThread. destruct (pc r) as [| | | | |p|]; try done.
  - destruct (should_wait_ok r Hs) as (w & r1 & -> & (E & _) & _). cbn. intros [= <-]. done.
  - by intros [= <-].
  - destruct (take_changes_ok e r Hs Hw Hpw) as (r1 & -> & _ & _ & _ & _ & _ & E). cbn. intros [= <-]. done.
  - intros E _ _. exact (find_root_bufs _ _ E).
  - intros E _ _. exact (draw_root_bufs _ _ _ _ E).
Qed.

Lemma turn_keeps flt m r w r' w' :
  renderer_ok e rest r -> textures_ok (bufs r) w -> blending w = false ->
  rendererThread e r = Ret r' -> gl_turn flt m r r' w = Ret w' ->
  textures_ok (bufs r') w' /\ blending w' = false.
Proof.
  intros Hr Hw Hbl Ht Hg. pose proof (rk_bufs _ _ _ Hr) as Hs. unfold gl_turn in Hg.
  destruct (pc r) as [| | | | |p|] eqn:Epc.
  all: try (injection Hg as <-; by rewrite (quiet_turn_bufs r r' Hr Ht) by (by rewrite Epc)).
  - unfold rendererThread in Ht. rewrite Epc in Ht. unfold attach_pending, attach_all in Ht.
    destruct (attach_turns_ok _ (bufs r) w Hs Hw (Nat.le_refl _)) as (s' & w1 & E1 & E2 & Hw1 & _ & Hb1).
    rewrite E1 in Hg. rewrite E2 in Ht. cbn in Hg, Ht. injection Hg as <-. injection Ht as <-.
    split; [exact Hw1|congruence].
  - rewrite (quiet_turn_bufs r r' Hr Ht) by (by rewrite Epc). unfold deref in Hg.
    destruct (heap (bufs r) !! p) as [b|] eqn:Hb; cbn in Hg; [|done].
    destruct (deref_state r) as [st|]; cbn in Hg; [|done].
    destruct (frames r') as [|[i f] fs]; [by injection Hg as <-|].
    destruct (expected_size _ _); [|by injection Hg as <-].
    apply outcome_bind_Ret_inv in Hg as (cs & Hcs & [= <-]).
    destruct (frame_drawn_gl flt m b _ _ f cs p (bufs r) w Hs Hw Hbl cursor_named Hb Hcs) as (H1 & H2 & _). done.
  - unfold rendererThread in Ht. rewrite Epc in Ht. unfold destroy_removed, release_removed in Ht.
    apply outcome_bind_Ret_inv in Ht as (s' & Es' & [= <-]).
    destruct (release_turns_ok _ (bufs r) s' w Hs Hw Es') as (w1 & E1 & Hw1 & _ & Hb1).
    rewrite E1 in Hg. cbn in Hg. injection Hg as <-. split; [exact Hw1|congruence].
Qed.

Lemma seen_ok r w : seen rest r w -> reachable e rest r /\ textures_ok (bufs r) w /\ blending w = false.
Proof.
  induction 1 as [w Hw|r w a r' _ (Hr & Hw & Hb) Ha Hen Hsd Hrun|flt m r w r' w' _ (Hr & Hw & Hb) Ht Hg].
  - split; [constructor|]. split; [|done]. constructor; cbn; try done; [constructor|apply not_elem_of_nil].
  - split; [by eapply reachable_step|]. split; [|done]. eapply textures_ok_kept; [by eapply run_kept|done].
  - split; [by eapply (reachable_step e rest r RendererStep)|]. eapply turn_keeps; eauto using reachable_ok.
Qed.
End context.

(** ** Bytes of pixels *)
Lemma le_pixel p : le 4 p = [byte_at 0 p; byte_at 1 p; byte_at 2 p; byte_at 3 p].
Proof.
  unfold byte_at. cbn [le]. rewrite !Z.shiftr_div_pow2 by lia. cbn [Z.mul Z.pow Z.pow_pos Pos.iter].
  rewrite !Z.div_div by lia. rewrite Z.div_1_r. done.
Qed.

Lemma take_texel a b x y n (l : list Z) :
  0 <= x < a -> 0 <= y < b -> n = Z.to_nat (a * b * 4) -> texel_bytes a x y (take n l) = texel_bytes a x y l.
Proof.
  intros Hx Hy ->. unfold texel_bytes. rewrite skipn_firstn_comm, take_take. f_equal. nia.
Qed.

Lemma drop_words i l : drop (4 * i) (words l) = words (drop i l).
Proof.
  revert l. induction i as [|i IH]; intros l; [done|]. destruct l as [|z l]; [done|].
  replace (4 * S i)%nat with (4 + 4 * i)%nat by lia. cbn. apply IH.
Qed.

Lemma word_texel w x y l q :
  l !! Z.to_nat (y * w + x) = Some q -> 0 <= y * w + x -> texel_bytes w x y (words l) = le 4 q.
Proof.
  intros Hq Hp. unfold texel_bytes. rewrite Z2Nat.inj_mul by lia. change (Z.to_nat 4) with 4%nat.
  rewrite drop_words. rewrite (drop_S _ _ _ Hq). done.
Qed.

Lemma byte_at_bit n p i : 0 <= n -> 0 <= i -> Z.testbit (byte_at n p) i = (i <? 8) && Z.testbit p (i + 8 * n).
Proof.
  intros Hn Hi. unfold byte_at. change 256 with (2 ^ 8). destruct (Z.ltb_spec i 8); cbn [andb].
  - by rewrite Z.mod_pow2_bits_low, Z.shiftr_spec by lia.
  - by rewrite Z.mod_pow2_bits_high by lia.
Qed.

(** Exchanging red and blue turns the bytes of RGBA into a pixel of X. *)
Lemma x_colour_swapped q : x_colour (swap_rb q) = mk_colour (byte_at 0 q) (byte_at 1 q) (byte_at 2 q) (byte_at 3 q).
Proof.
  unfold x_colour. f_equal; apply Z.bits_inj'; intros i Hi; rewrite !byte_at_bit, swap_rb_bit by lia;
    destruct (Z.ltb_spec i 8); [|done| |done| |done| |done]; cbn [andb]; decide_tests; f_equal; lia.
Qed.

(** ** The programs *)
Lemma plain_program c : fragment Programs.fragmentShaderSrc c = Some c.
Proof. reflexivity. Qed.
Lemma bgra_program c :
  fragment Programs.fragmentShaderBgraSrc c = Some (mk_colour (blue c) (green c) (red c) (alpha c)).
Proof. reflexivity. Qed.

Lemma lay_out_flips sw sh dw dh strd fd rgba ready throws c v f v' :
  lay_out sw sh dw dh strd fd rgba ready throws c v = (f, v') ->
  flip (frame_root f) = rgba /\ (forall q, frame_cursor f = Some q -> flip q = false)
  /\ (cur_width c <> 0 -> cur_height c <> 0 -> is_Some (frame_cursor f)).
Proof.
  unfold lay_out. destruct (destination sw sh v) as [[d sx] sy].
  destruct (source_region dw dh sx sy c v) as [[s l] v1]. destruct (reportRendererViewport _ _ _ _ _) as [called v2].
  intros [= <- _]. split; [done|]. cbn. unfold drawCursor.
  destruct (Z.eqb_spec (cur_width c) 0), (Z.eqb_spec (cur_height c) 0); cbn [orb]; (split; [done || by intros q [= <-]|]); by eauto.
Qed.

Section colours.
Context {world : Type} `{!Gl world} `{!GlLaws world}.

(** The colour of a texel on the screen. *)
Definition shown (d : draw) (x y : Z) : option colour :=
  pic ← dr_picture d; fragment (dr_program d) (texture2D pic x y).

(** The pixel of a shared region, in either of the two formats. *)
Lemma shared_pixel b px x y pixel q blend flt :
  0 <= x < stride (desc b) -> 0 <= y < height (desc b) ->
  texel_bytes (stride (desc b)) x y px = le 4 pixel ->
  exists c, shown (mk_draw (Some (Uploaded (gl_format b) (stride (desc b)) (height (desc b)) (Some px)))
                (if LorieBuffer_isRgba (Some b) then Programs.fragmentShaderBgraSrc else Programs.fragmentShaderSrc)
                blend q flt) x y = Some c
    /\ same_rgb c (x_colour pixel).
Proof.
  intros Hx Hy Ht. rewrite le_pixel in Ht. unfold shown, LorieBuffer_isRgba, gl_format. cbn [dr_picture dr_program].
  cbn [mbind option_bind LorieBuffer_description].
  destruct (Z.eqb_spec (format (desc b)) AHARDWAREBUFFER_FORMAT_B8G8R8A8_UNORM) as [E|N]; cbn [negb].
  - rewrite (texel_bgra _ _ _ _ _ _ _ _ _ Hx Hy Ht), plain_program. by eexists.
  - rewrite (texel_rgba _ _ _ _ _ _ _ _ _ Hx Hy Ht), bgra_program. by eexists.
Qed.

(** The pixel of a hardware buffer. *)
Lemma hardware_pixel b i x y pixel q blend flt :
  image_format i = format (desc b) -> image_bytes i x y = le 4 pixel ->
  exists c, shown (mk_draw (Some (FromImage i))
                (if LorieBuffer_isRgba (Some b) then Programs.fragmentShaderBgraSrc else Programs.fragmentShaderSrc)
                blend q flt) x y = Some c
    /\ same_rgb c (x_colour pixel).
Proof.
  intros Hf Ht. rewrite le_pixel in Ht. pose proof (texel_hardware _ _ _ _ _ _ _ Ht) as (Hr & Hg & Hb).
  unfold shown, LorieBuffer_isRgba. cbn [dr_picture dr_program mbind option_bind LorieBuffer_description].
  rewrite Hf in Hr, Hg, Hb. destruct (format (desc b) =? AHARDWAREBUFFER_FORMAT_B8G8R8A8_UNORM); cbn [negb].
  - rewrite plain_program. by eexists.
  - rewrite bgra_program. eexists. split; [done|]. by split_and!.
Qed.

(** The pixel of an uploaded cursor. *)
Lemma cursor_pixel_shown c upload x y q quad blend flt :
  0 <= x < cur_width c -> 0 <= y < cur_height c ->
  upload !! Z.to_nat (y * cur_width c + x) = Some q ->
  shown (mk_draw (Some (Uploaded GL_RGBA (cur_width c) (cur_height c) (Some (words upload))))
           Programs.fragmentShaderSrc blend quad flt) x y = Some (x_colour (swap_rb q)).
Proof.
  intros Hx Hy Hq. pose proof (word_texel (cur_width c) x y upload q Hq ltac:(nia)) as Ht. rewrite le_pixel in Ht.
  unfold shown. cbn [dr_picture dr_program mbind option_bind].
  by rewrite (texel_rgba _ _ _ _ _ _ _ _ _ Hx Hy Ht), plain_program, x_colour_swapped.
Qed.

Context (cursor_id : Z) (e : Renderer.platform) (rest : list resource).

(** A turn that draws, and the two draws it makes. *)
Lemma drawing_turn flt (m : memory) (r : renderer) (w : world) p b s :
  gl_fresh cursor_id e -> cursor_id <> 0 ->
  seen cursor_id e rest r w -> pc r = PDraw p -> heap (bufs r) !! p = Some b -> texture b <> 0 ->
  mapped (shared r) !! state (shared r) = Some s -> expected_size (vp r) (desc b) = true ->
  (type (desc b) = LORIEBUFFER_FD ->
     (Z.to_nat (stride (desc b) * height (desc b) * 4) <= List.length (m (data (desc b))))%nat) ->
  exists r' w' f root cur, rendererThread e r = Ret r' /\ gl_turn cursor_id e flt m r r' w = Ret w'
    /\ frames r' = (desc_id (desc b), f) :: frames r /\ drawn w' = cur ++ root :: drawn w
    /\ dr_quad root = frame_root f /\ dr_blend root = false /\ dr_filter root = flt
    /\ dr_program root = (if LorieBuffer_isRgba (Some b) then Programs.fragmentShaderBgraSrc else Programs.fragmentShaderSrc)
    /\ (type (desc b) = LORIEBUFFER_FD ->
        dr_picture root = Some (Uploaded (gl_format b) (stride (desc b)) (height (desc b))
          (Some (take (Z.to_nat (stride (desc b) * height (desc b) * 4)) (m (data (desc b)))))))
    /\ (type (desc b) <> LORIEBUFFER_FD -> image b <> 0 -> dr_picture root = Some (FromImage (image b)))
    /\ (cur_width (Renderer.cursor s) <> 0 -> cur_height (Renderer.cursor s) <> 0 -> is_Some (frame_cursor f))
    /\ match frame_cursor f with
       | Some q => exists pic, cur = [mk_draw pic Programs.fragmentShaderSrc true q flt]
           /\ (cur_updated (Renderer.cursor s) = true ->
               pic = Some (Uploaded GL_RGBA (cur_width (Renderer.cursor s)) (cur_height (Renderer.cursor s))
                 (Some (words (take (Z.to_nat (cur_width (Renderer.cursor s) * cur_height (Renderer.cursor s)))
                                 (cur_bits (Renderer.cursor s)))))))
       | None => cur = []
       end.
Proof.
  intros Hf H0 Hseen Hpc Hb Ht Hs Hsize Hmem. destruct (seen_ok cursor_id e Hf rest H0 r w Hseen) as (Hr%reachable_ok & Hw & Hbl).
  pose proof (rk_bufs _ _ _ Hr) as Hst. pose proof Hw as [Hn Hc Hsh Hi Hsd].
  assert (exists cs, LorieBuffer_bindTexture m b = Ret cs) as [bind Hbind].
  { unfold LorieBuffer_bindTexture, read_memory. destruct (Z.eqb_spec (type (desc b)) LORIEBUFFER_FD); [|by eexists].
    rewrite decide_True by auto. by eexists. }
  assert (exists t, (if cur_updated (Renderer.cursor s) then upload_cursor (Renderer.cursor s) else Ret (cursor_texture r)) = Ret t
    /\ (cur_updated (Renderer.cursor s) = true ->
        t = take (Z.to_nat (cur_width (Renderer.cursor s) * cur_height (Renderer.cursor s))) (cur_bits (Renderer.cursor s))))
    as (t & Et & Htx).
  { destruct (cur_updated (Renderer.cursor s)); [|by eexists].
    destruct (upload_ok s) as (t & -> & ->); [eapply (sk_fits _ (rk_states _ _ _ Hr)); eauto|by eexists]. }
  destruct (lay_out (ANativeWindow_getWidth e (win (wins r))) (ANativeWindow_getHeight e (win (wins r)))
    (width (desc b)) (height (desc b)) (stride (desc b)) (type (desc b) =? LORIEBUFFER_FD) (LorieBuffer_isRgba (Some b))
    (jni_ready e) (jni_throws e) (Renderer.cursor s) (vp r)) as [f v] eqn:El.
  destruct (lay_out_flips _ _ _ _ _ _ _ _ _ _ _ _ _ El) as (Hroot & Hcur & Hsome).
  destruct (frame_commands cursor_id flt m b (Renderer.cursor s) t f) as [cs|] eqn:Ecs;
    [|unfold frame_commands in Ecs; by rewrite Hbind in Ecs].
  destruct (frame_drawn_gl cursor_id rest flt m b _ _ f cs p (bufs r) w Hst Hw Hbl H0 Hb Ecs) as (_ & _ & w1 & Hw1 & Hd).
  specialize (Hw1 bind Hbind). subst w1. rewrite Hroot in Hd.
  destruct (bind_shows m b bind w Hbind (Hsh p b Hb Ht) (Hsd p b Hb) (Hi p b Hb)) as [Hx Hfd].
  eexists _, _, f, _, _. split_and!.
  - unfold rendererThread. rewrite Hpc. unfold draw_root, deref, deref_state. rewrite Hb, Hs. cbind.
    rewrite Hsize. cbn [negb]. rewrite Et. cbind. rewrite El. reflexivity.
  - unfold gl_turn, deref, deref_state. rewrite Hpc, Hb, Hs. cbind. cbn [frames]. rewrite Hsize. cbn [cursor_texture].
    rewrite Ecs. reflexivity.
  - reflexivity.
  - exact Hd.
  - done.
  - done.
  - done.
  - done.
  - exact Hfd.
  - intros Hno Himg. unfold shows_buffer in Hx. by rewrite (proj2 (Z.eqb_neq _ _) Himg) in Hx.
  - exact Hsome.
  - destruct (frame_cursor f) as [q|] eqn:Eq; [|done]. rewrite (Hcur q eq_refl). eexists. split; [reflexivity|].
    intros Hu. unfold cursor_picture. by rewrite Hu, (Htx Hu).
Qed.
End colours.

(** ** Properties *)

(** C7: the root window keeps its colours. Whatever the app did with its buffers
    before, a turn of the renderer thread that draws adds one draw for the root
    window, without blending, and every texel of it has on the screen the red,
    green and blue of the X server's pixel at its place in the buffer: for a
    shared region, in either format, those of the pixels that are in its memory
    when the frame is drawn, each row as long as the buffer's stride; for a
    hardware buffer, those of the buffer itself.  Both draws of the turn use the
    filter that is set. *)
Theorem colours_shown {world : Type} `{!Gl world} `{!GlLaws world} cursor_id e rest flt (m : memory) (r : renderer) (w : world) p b s :
  gl_fresh cursor_id e -> cursor_id <> 0 ->
  seen cursor_id e rest r w -> pc r = PDraw p -> heap (bufs r) !! p = Some b -> texture b <> 0 ->
  mapped (shared r) !! state (shared r) = Some s -> expected_size (vp r) (desc b) = true ->
  (type (desc b) = LORIEBUFFER_FD ->
     (Z.to_nat (stride (desc b) * height (desc b) * 4) <= List.length (m (data (desc b))))%nat) ->
  exists r' w' f root cur, rendererThread e r = Ret r' /\ gl_turn cursor_id e flt m r r' w = Ret w'
    /\ frames r' = (desc_id (desc b), f) :: frames r /\ drawn w' = cur ++ root :: drawn w
    /\ (List.length cur <= 1)%nat /\ dr_quad root = frame_root f /\ dr_blend root = false
    /\ Forall (fun d => dr_filter d = flt) (cur ++ [root])
    /\ (type (desc b) = LORIEBUFFER_FD ->
        forall x y pixel, 0 <= x < stride (desc b) -> 0 <= y < height (desc b) ->
        texel_bytes (stride (desc b)) x y (m (data (desc b))) = le 4 pixel ->
        exists c, shown root x y = Some c /\ same_rgb c (x_colour pixel))
    /\ (type (desc b) <> LORIEBUFFER_FD -> image b <> 0 -> image_format (image b) = format (desc b) ->
        forall x y pixel, image_bytes (image b) x y = le 4 pixel ->
        exists c, shown root x y = Some c /\ same_rgb c (x_colour pixel)).
Proof.
  intros Hf H0 Hseen Hpc Hb Ht Hs Hsize Hmem.
  destruct (drawing_turn cursor_id e rest flt m r w p b s Hf H0 Hseen Hpc Hb Ht Hs Hsize Hmem)
    as (r' & w' & f & [pic prog bl q fl] & cur & E1 & E2 & E3 & E4 & E5 & E6 & Ef & E7 & E8 & E9 & _ & E10).
  cbn [dr_picture dr_program dr_blend dr_quad dr_filter] in *. subst prog bl q fl.
  eexists r', w', f, _, cur. split_and!; try done.
  - destruct (frame_cursor f); [by destruct E10 as (? & -> & _)|by rewrite E10; cbn; lia].
  - destruct (frame_cursor f); [destruct E10 as (? & -> & _)|rewrite E10]; by repeat constructor.
  - intros Hfd x y pixel Hx Hy Hpx. rewrite (E8 Hfd). apply shared_pixel; [done..|].
    by rewrite (take_texel _ (height (desc b))).
  - intros Hno Hi Hfm x y pixel Hpx. rewrite (E9 Hno Hi). by apply hardware_pixel.
Qed.

(** What [lorieSetCursor] leaves in the shared block, pixel by pixel. *)
Lemma cursor_published_pixel pad root c px x0 y0 s0 s1 i pixel :
  cursor_ok pad c -> bits_width (bits c) < 512 -> bits_height (bits c) < 512 -> argb (bits c) = Some px ->
  bits_width (bits c) * bits_height (bits c) <= Z.of_nat (List.length (cur_bits s0)) ->
  lorieSetCursor pad root (Some c) x0 y0 s0 = Ret s1 ->
  cur_width s1 = bits_width (bits c) /\ cur_height s1 = bits_height (bits c) /\ cur_updated s1 = true
  /\ (px !! i = Some pixel -> cur_bits s1 !! i = Some (swap_rb pixel)).
Proof.
  intros Hok Hw Hh Ha Hroom. unfold lorieSetCursor. cbn [fmap option_fmap option_map].
  rewrite (proj2 (Z.leb_gt _ _) Hw), (proj2 (Z.leb_gt _ _) Hh). cbn [orb].
  pose proof (ok_size _ _ Hok) as [Hw0 Hh0].
  rewrite convert_cursor_spec by done. cbind. intros [= <-].
  cbn. split_and!; try done. intros Hi. pose proof (lookup_lt_Some _ _ _ Hi) as Hlt.
  pose proof (ok_argb _ _ Hok px Ha).
  rewrite lookup_app_l by (rewrite length_map, length_seq; lia).
  rewrite list_lookup_fmap, lookup_seq_lt by lia. cbn. unfold cursor_pixel. rewrite Ha.
  by rewrite (nth_lookup_Some _ _ _ pixel).
Qed.

(** C14: the cursor keeps its colours. After the X server has set a cursor with an
    image of its own, smaller than 512 x 512, the next frame draws the root
    window and then, blended over it, the cursor, and every texel of that has
    the red, green, blue and alpha of the image's pixel at its place. *)
Theorem cursor_colours_shown {world : Type} `{!Gl world} `{!GlLaws world} cursor_id e rest flt (m : memory) (r : renderer) (w : world) p b s
    pad root c px x0 y0 s0 :
  gl_fresh cursor_id e -> cursor_id <> 0 ->
  seen cursor_id e rest r w -> pc r = PDraw p -> heap (bufs r) !! p = Some b -> texture b <> 0 ->
  mapped (shared r) !! state (shared r) = Some s -> expected_size (vp r) (desc b) = true ->
  (type (desc b) = LORIEBUFFER_FD ->
     (Z.to_nat (stride (desc b) * height (desc b) * 4) <= List.length (m (data (desc b))))%nat) ->
  cursor_ok pad c -> 0 < bits_width (bits c) < 512 -> 0 < bits_height (bits c) < 512 -> argb (bits c) = Some px ->
  bits_width (bits c) * bits_height (bits c) <= Z.of_nat (List.length (cur_bits s0)) ->
  lorieSetCursor pad root (Some c) x0 y0 s0 = Ret (Renderer.cursor s) ->
  exists r' w' cur rt, rendererThread e r = Ret r' /\ gl_turn cursor_id e flt m r r' w = Ret w'
    /\ drawn w' = cur :: rt :: drawn w /\ dr_blend rt = false /\ dr_blend cur = true
    /\ forall x y pixel, 0 <= x < bits_width (bits c) -> 0 <= y < bits_height (bits c) ->
         px !! Z.to_nat (y * bits_width (bits c) + x) = Some pixel -> 0 <= pixel < 2 ^ 32 ->
         shown cur x y = Some (x_colour pixel).
Proof.
  intros Hf H0 Hseen Hpc Hb Ht Hs Hsize Hmem Hok Hw Hh Ha Hroom Hset.
  destruct (drawing_turn cursor_id e rest flt m r w p b s Hf H0 Hseen Hpc Hb Ht Hs Hsize Hmem)
    as (r' & w' & f & rt & cur & E1 & E2 & _ & E4 & _ & E6 & _ & _ & _ & _ & E9 & E10).
  assert (forall i pixel, cur_width (Renderer.cursor s) = bits_width (bits c)
    /\ cur_height (Renderer.cursor s) = bits_height (bits c) /\ cur_updated (Renderer.cursor s) = true
    /\ (px !! i = Some pixel -> cur_bits (Renderer.cursor s) !! i = Some (swap_rb pixel))) as Hpub
    by (intros; by eapply cursor_published_pixel; try done; lia).
  destruct (Hpub 0%nat 0) as (Ew & Eh & Eu & _). destruct E9 as [q Hq]; [lia..|]. rewrite Hq in E10.
  destruct E10 as (pic & -> & Hpic). rewrite (Hpic Eu) in E4. eexists r', w', _, rt. split_and!; [done..| |].
  - reflexivity.
  - intros x y pixel Hx Hy Hp Hr. rewrite <- (swap_rb_involutive pixel Hr) at 1.
    apply cursor_pixel_shown; [lia..|]. rewrite Ew, Eh, lookup_take_lt by nia.
    by apply (Hpub _ pixel).
Qed.

(** ** A concrete GL *)
Record gl_context : Type := mk_context {
  ctx_bound : Z; ctx_pictures : gmap Z picture; ctx_filters : gmap Z Z; ctx_program : list string; ctx_blend : bool; ctx_drawn : list draw
}.

Definition sample_exec (c : command) (w : gl_context) : gl_context :=
  let set p := mk_context (ctx_bound w) (<[ctx_bound w := p]> (ctx_pictures w)) (ctx_filters w) (ctx_program w) (ctx_blend w) (ctx_drawn w) in
  match c with
  | BindTexture i => mk_context i (ctx_pictures w) (ctx_filters w) (ctx_program w) (ctx_blend w) (ctx_drawn w)
  | TexImage2D f a b px => set (Uploaded f a b px)
  | TexSubImage2D f a b px => set (Uploaded f a b (Some px))
  | EGLImageTargetTexture2D i => set (FromImage i)
  | DeleteTextures i => mk_context (if ctx_bound w =? i then 0 else ctx_bound w) (delete i (ctx_pictures w)) (ctx_filters w)
                          (ctx_program w) (ctx_blend w) (ctx_drawn w)
  | TexFilter f => mk_context (ctx_bound w) (ctx_pictures w) (<[ctx_bound w := f]> (ctx_filters w))
                     (ctx_program w) (ctx_blend w) (ctx_drawn w)
  | UseProgram s => mk_context (ctx_bound w) (ctx_pictures w) (ctx_filters w) s (ctx_blend w) (ctx_drawn w)
  | Blend b => mk_context (ctx_bound w) (ctx_pictures w) (ctx_filters w) (ctx_program w) b (ctx_drawn w)
  | DrawArrays q => mk_context (ctx_bound w) (ctx_pictures w) (ctx_filters w) (ctx_program w) (ctx_blend w)
      (mk_draw (ctx_pictures w !! ctx_bound w) (ctx_program w) (ctx_blend w) q
         (default 0 (ctx_filters w !! ctx_bound w)) :: ctx_drawn w)
  end.

(** Hardware buffers are of the format 2, and every pixel is 0x00112233. *)
Definition sample_texture2D (p : picture) (x y : Z) : colour :=
  match p with
  | Uploaded f a _ (Some px) =>
      match texel_bytes a x y px with
      | [b0; b1; b2; b3] => if f =? GL_RGBA then mk_colour b0 b1 b2 b3 else mk_colour b2 b1 b0 b3
      | _ => mk_colour 0 0 0 0
      end
  | Uploaded _ _ _ None => mk_colour 0 0 0 0
  | FromImage _ => mk_colour 0x33 0x22 0x11 0
  end.

#[export] Instance sample_gl : Gl gl_context := {|
  exec := sample_exec; bound := ctx_bound; picture_of w j := ctx_pictures w !! j;
  program := ctx_program; filter_of w j := default 0 (ctx_filters w !! j); blending := ctx_blend; drawn := ctx_drawn;
  image_format _ := 2; image_bytes _ _ _ := le 4 0x00112233; texture2D := sample_texture2D
|}.

#[export] Instance sample_gl_laws : GlLaws gl_context.
Proof.
  constructor; cbn [exec bound picture_of program filter_of blending drawn image_format image_bytes texture2D sample_gl].
  - intros [] w Hc; try done. by destruct (Hc i).
  - by intros [] w.
  - by intros [] w.
  - intros [] w j _; try done; cbn.
    destruct (Z.eqb_spec j (ctx_bound w)) as [->|]; [by rewrite lookup_insert_eq|by rewrite lookup_insert_ne by done].
  - by intros [] w.
  - intros [] w j Hs; try done; cbn.
    1,2: destruct (Z.eqb_spec j (ctx_bound w)) as [->|]; [by rewrite lookup_insert_eq|by rewrite lookup_insert_ne by done].
    destruct (Z.eqb_spec j i) as [->|]; [by rewrite lookup_delete_eq|by rewrite lookup_delete_ne by done].
  - intros f a b px old w _. cbn. by rewrite lookup_insert_eq.
  - intros f a b px w j Hj. cbn. by rewrite lookup_insert_ne by done.
  - intros a b px x y b0 b1 b2 b3 _ _ E. cbn. by rewrite E.
  - intros a b px x y b0 b1 b2 b3 _ _ E. cbn. by rewrite E.
  - intros i x y b0 b1 b2 b3 [= <- <- <- <-]. done.
Qed.

(** ** A concrete run *)
Definition sample_cursor_id : Z := 99.

Definition highest_name (l : list globj) : Z :=
  foldr (fun o n => match o with GlTexture t => Z.max t n | GlImage _ => n end) sample_cursor_id l.

Definition pixel_platform : Renderer.platform :=
  mk_platform (mk_gl (fun l => 1 + highest_name l) (fun h => h + 100)) 1 2
    (fun w => if w =? 1 then 0 else w + 10) (fun _ => true) (fun _ => true) (fun _ => 800) (fun _ => 600) true false.

Lemma highest_name_bound t l : GlTexture t ∈ l -> t <= highest_name l.
Proof.
  unfold highest_name. induction l as [|o l IH]; [by intros ?%elem_of_nil|].
  intros [<-|H%IH]%elem_of_cons; cbn; [|destruct o]; lia.
Qed.

Lemma highest_name_cursor l : sample_cursor_id <= highest_name l.
Proof. unfold highest_name. induction l as [|o l IH]; cbn; [done|]. destruct o; lia. Qed.

Lemma pixel_platform_fresh : gl_fresh sample_cursor_id pixel_platform.
Proof.
  intros l t _. change t with (1 + highest_name l). pose proof (highest_name_cursor l). split; [|lia].
  intros Hin%highest_name_bound. lia.
Qed.

(** A region of 8 x 2 pixels, red first by its format. *)
Definition region : LorieBuffer :=
  mk_buffer 1 (mk_desc 8 2 8 2 LORIEBUFFER_FD 9 0 0x20000) false 0 11 4096 0 0 0.
Definition region_memory : memory := fun _ => words (seqZ 0x00aabb00 16).

(** A block with little room, and an image of one pixel published in it. *)
Definition small_block : shared_cursor := mk_shared 0 0 0 0 0 0 [0; 0] false false.
Definition published : shared_cursor :=
  match lorieSetCursor byte_pad arrow (Some argb_dot) 3 1 small_block with Ret c => c | Fault _ => small_block end.
Definition block : server_state := mk_server 9 true true false 0 published.

Definition watched : list action :=
  [RendererStep; SetSharedState 500 block; RendererStep; RendererStep; RendererStep; RendererStep;
   GuiResumes; SetWindow 40] ++ repeat RendererStep 5
  ++ [GuiResumes; AddBuffer 700 region; SetViewport 0 0 8 2 8 2] ++ repeat RendererStep 6 ++ [ServerWrites 500 block].

Definition addable (a : action) : bool :=
  match a with
  | AddBuffer _ b => (ahb (desc b) =? 0) && negb (data (desc b) =? 0) && (0 <? width (desc b)) && (0 <? height (desc b))
  | _ => true
  end.

Definition is_turn (a : action) : bool := match a with RendererStep => true | _ => false end.

Fixpoint watch (l : list action) (rw : renderer * gl_context) : outcome (renderer * gl_context) :=
  match l with
  | [] => Ret rw
  | a :: l =>
      if is_turn a then
        r ← rendererThread pixel_platform rw.1;
        w ← gl_turn sample_cursor_id pixel_platform GL_LINEAR region_memory rw.1 r rw.2;
        watch l (r, w)
      else if enabled pixel_platform a rw.1 && addable a
      then r ← run pixel_platform a rw.1; watch l (r, rw.2) else Fault FatalExit
  end.

Lemma watch_seen l rw rw' :
  seen sample_cursor_id pixel_platform [] rw.1 rw.2 -> watch l rw = Ret rw' ->
  seen sample_cursor_id pixel_platform [] rw'.1 rw'.2.
Proof.
  revert rw. induction l as [|a l IH]; intros rw Hs; cbn [watch]; [by intros [= <-]|]. destruct (is_turn a) eqn:Et.
  - intros (r & Er & (w & Ew & E)%outcome_bind_Ret_inv)%outcome_bind_Ret_inv. eapply IH; [|exact E].
    by eapply seen_turn.
  - destruct (enabled pixel_platform a rw.1 && addable a) eqn:Ea; [|done]. apply andb_true_iff in Ea as [He Had].
    intros (r & Er & E)%outcome_bind_Ret_inv. eapply IH; [|exact E]. eapply (seen_other _ _ _ rw.1 _ a); [done| |done| |done].
    + by intros ->.
    + intros p b -> _. cbn in Had. rewrite !andb_true_iff, negb_true_iff in Had. destruct Had as [[[? ?] ?] ?].
      repeat split; by bool_arith.
Qed.

Definition at_draw : renderer * gl_context :=
  match watch watched (renderer_init pixel_platform [], mk_context 0 ∅ ∅ [] false []) with
  | Ret rw => rw | Fault _ => (renderer_init pixel_platform [], mk_context 0 ∅ ∅ [] false [])
  end.

(** The region, attached. *)
Definition region_drawn : LorieBuffer := set_gl 100 0 region.

Lemma at_draw_seen : seen sample_cursor_id pixel_platform [] at_draw.1 at_draw.2.
Proof.
  unfold at_draw. destruct (watch _ _) as [rw|] eqn:E; [|by apply seen_init].
  eapply watch_seen; [|exact E]. by apply seen_init.
Qed.

Lemma region_fits : (Z.to_nat (8 * 2 * 4) <= List.length (region_memory 0x20000))%nat.
Proof. vm_compute. repeat constructor. Qed.

Lemma colours_shown_witness :
  exists r' w' root c, rendererThread pixel_platform at_draw.1 = Ret r'
    /\ gl_turn sample_cursor_id pixel_platform GL_LINEAR region_memory at_draw.1 r' at_draw.2 = Ret w'
    /\ In root (ctx_drawn w') /\ shown root 3 1 = Some c /\ red c = 0xaa /\ green c = 0xbb /\ blue c = 0x0b.
Proof.
  destruct (colours_shown sample_cursor_id pixel_platform [] GL_LINEAR region_memory at_draw.1 at_draw.2 700 region_drawn
    (Renderer.state_at at_draw.1)) as (r' & w' & f & root & cur & E1 & E2 & _ & E3 & _ & _ & _ & _ & Hc & _).
  - exact pixel_platform_fresh.
  - discriminate.
  - exact at_draw_seen.
  - vm_compute. reflexivity.
  - vm_compute. reflexivity.
  - vm_compute. discriminate.
  - vm_compute. reflexivity.
  - vm_compute. reflexivity.
  - intros _. exact region_fits.
  - assert (exists c, shown root 3 1 = Some c /\ same_rgb c (x_colour 0x00aabb0b)) as (c & E4 & Hr & Hg & Hb).
    { apply Hc; [reflexivity|split; [discriminate|reflexivity]|split; [discriminate|reflexivity]|vm_compute; reflexivity]. }
    exists r', w', root, c.
    split; [exact E1|].
    split; [exact E2|].
    split; [|split].
    2:{ exact E4. }
    + change (ctx_drawn w') with (drawn w'). rewrite E3. apply in_or_app. right. left. reflexivity.
    + rewrite Hr, Hg, Hb. split_and!; vm_compute; reflexivity.
Defined.

Lemma cursor_colours_shown_witness :
  exists r' w' cur rt, rendererThread pixel_platform at_draw.1 = Ret r'
    /\ gl_turn sample_cursor_id pixel_platform GL_LINEAR region_memory at_draw.1 r' at_draw.2 = Ret w'
    /\ ctx_drawn w' = cur :: rt :: ctx_drawn at_draw.2 /\ shown cur 0 0 = Some (mk_colour 0x11 0x22 0x33 0xff).
Proof.
  destruct (cursor_colours_shown sample_cursor_id pixel_platform [] GL_LINEAR region_memory at_draw.1 at_draw.2 700 region_drawn
    (Renderer.state_at at_draw.1) byte_pad arrow argb_dot [0xff112233] 3 1 small_block)
    as (r' & w' & cur & rt & E1 & E2 & E3 & _ & _ & Hc).
  - exact pixel_platform_fresh.
  - discriminate.
  - exact at_draw_seen.
  - vm_compute. reflexivity.
  - vm_compute. reflexivity.
  - vm_compute. discriminate.
  - vm_compute. reflexivity.
  - vm_compute. reflexivity.
  - intros _. exact region_fits.
  - exact argb_dot_ok.
  - split; reflexivity.
  - split; reflexivity.
  - reflexivity.
  - vm_compute. discriminate.
  - vm_compute. reflexivity.
  - exists r', w', cur, rt. split; [exact E1|]. split; [exact E2|]. split; [exact E3|].
    rewrite (Hc 0 0 0xff112233); [reflexivity|split; [discriminate|reflexivity]..| |split; [discriminate|reflexivity]].
    reflexivity.
Defined.
