(* ===== verification/Relay.v ===== *)
(** * The proxy thread between the server and the renderer (renderer.c 445-461, 800-811 and 941-978)

    In [Display] the server's signal wakes the renderer thread.  In the program
    a third thread hears it: it waits for the server's condition variable and
    signals the renderer's own.  Here are the three together: [Display]'s
    system, [Sync]'s proxy, and the call by which the renderer thread tells the
    proxy about another server.  A condition variable is named by the address of
    the shared state it is in; 0 is the proxy's own. *)
From S2P Require Import Prelude Buffer Cursor GlBuffers Viewport Present Renderer Sync Display.
Import Sync.Proxy.

(** ** State *)

(** [switched]: the call was made for the change that is being taken over. *)
Record relayed : Type := mk_relayed { sys : system; px : proxy; switched : bool }.

Inductive turn3 : Type := FrameTurn | ProxyTurn | ThreadTurn.

Section relayed.
Context (e : Renderer.platform) (p : Buffer.platform) (alive : bool).

(** A signal reaches the proxy only while it waits for that variable. *)
Definition signal (c : Z) (q : proxy) : proxy :=
  mk_proxy (current q) (pending q) (relocked q) (Proxy.wake c (thread q)) (caller q) (Proxy.signals q).

(** [lorieRedraw] signals the variable of the block it writes to. *)
Definition frame_turn (y : relayed) : outcome relayed :=
  y' ← server_frame p alive (sys y);
  if (Present.signals (server y') =? Present.signals (server (sys y)))%nat
  then Ret (mk_relayed y' (px y) (switched y))
  else Ret (mk_relayed (mk_system (server y') (app y') (wait (sys y)))
              (signal (state (shared (app (sys y)))) (px y)) (switched y)).

(** The proxy signals [stateCond] when it was woken. *)
Definition proxy_turn (y : relayed) : relayed :=
  let q := pthreadCondVarProxyThread (px y) in
  let y1 := sys y in
  mk_relayed (mk_system (server y1) (app y1)
                (if (Proxy.signals q =? Proxy.signals (px y))%nat then wait y1 else Display.wake (wait y1)))
    q (switched y).

(** Is the next thing the thread does the call to the proxy? *)
Definition must_switch (y : relayed) : bool :=
  bool_decide (wait (sys y) = Awake) && bool_decide (pc (app (sys y)) = PChanges)
  && stateChanged (shared (app (sys y))) && negb (switched y).

(** The thread that made the call holds [stateLock] and waits in it. *)
Definition thread_turn (y : relayed) : outcome relayed :=
  match caller (px y) with
  | Listening => Ret y
  | CallerWoken => Ret (mk_relayed (sys y) (listen_again (px y)) (switched y))
  | Away =>
      if must_switch y then
        let q := pendingState (shared (app (sys y))) in
        Ret (mk_relayed (sys y)
               (pthreadCondVarProxyListenOtherCondVar (if q =? 0 then None else Some q) (px y)) true)
      else y' ← thread_step e (sys y); Ret (mk_relayed y' (px y) false)
  end.

Fixpoint run_relayed (l : list turn3) (y : relayed) : outcome relayed :=
  match l with
  | [] => Ret y
  | FrameTurn :: l => y ← frame_turn y; run_relayed l y
  | ProxyTurn :: l => run_relayed l (proxy_turn y)
  | ThreadTurn :: l => y ← thread_turn y; run_relayed l y
  end.

(** ** Every interleaving *)

(** The other threads of the app and the server; a signal of any of them, or
    none at all, may end a wait for [stateCond]. *)
Definition stirred (y : relayed) : relayed :=
  mk_relayed (mk_system (server (sys y)) (app (sys y)) (Display.wake (wait (sys y))))
    (mk_proxy (current (px y)) (pending (px y)) (relocked (px y)) (thread (px y))
       (match caller (px y) with Listening => CallerWoken | c => c end) (Proxy.signals (px y))) (switched y).

Definition with_app (r : renderer) (y : relayed) : relayed :=
  mk_relayed (mk_system (server (sys y)) r (wait (sys y))) (px y) (switched y).

Inductive runs (rest : list resource) : relayed -> Prop :=
  | runs_init x : runs rest (mk_relayed (mk_system x (renderer_init e rest) Awake) pthreadCondVarProxyInit false)
  | runs_other y a r :
      runs rest y -> a <> RendererStep -> enabled e a (app (sys y)) = true -> run e a (app (sys y)) = Ret r ->
      runs rest (with_app r y)
  | runs_stir y : runs rest y -> runs rest (stirred y)
  | runs_signal c y : runs rest y -> runs rest (mk_relayed (sys y) (signal c (px y)) (switched y))
  | runs_frame y y' : runs rest y -> state (shared (app (sys y))) <> 0 -> frame_turn y = Ret y' -> runs rest y'
  | runs_proxy y : runs rest y -> runs rest (proxy_turn y)
  | runs_thread y y' : runs rest y -> thread_turn y = Ret y' -> runs rest y'.

(** ** The invariant *)

(** Which variable the proxy is told to wait for. *)
Record relayed_ok (rest : list resource) (y : relayed) : Prop := {
  ro_app : Renderer.reachable e rest (app (sys y));
  ro_waits : forall c, thread (px y) = WaitsOn c -> c = current (px y);
  ro_switch : switched y = true ->
    pc (app (sys y)) = PChanges /\ stateChanged (shared (app (sys y))) = true /\ wait (sys y) = Awake;
  ro_call : caller (px y) <> Away -> switched y = true;
  ro_heard : switched y = true -> (caller (px y) = Away \/ relocked (px y) = true) ->
    pending (px y) = None /\ current (px y) = pendingState (shared (app (sys y)));
  ro_told : switched y = true -> caller (px y) <> Away -> relocked (px y) = false ->
    pending (px y) = Some (pendingState (shared (app (sys y))))
    /\ current (px y) = state (shared (app (sys y)));
  ro_steady : switched y = false -> pending (px y) = None /\ current (px y) = state (shared (app (sys y)))
}.

(** ** Lemmas *)
Lemma when_state_shared f r r' :
  when_state f r = Ret r' ->
  state (shared r') = state (shared r) /\ pendingState (shared r') = pendingState (shared r)
  /\ stateChanged (shared r') = stateChanged (shared r) /\ pc r' = pc r.
Proof.
  unfold when_state. destruct (_ =? 0); [by intros [= <-]|]. destruct (deref_state r); cbn; [by intros [= <-]|done].
Qed.

Lemma other_shared a r r' :
  a <> RendererStep -> run e a r = Ret r' ->
  pc r' = pc r /\ state (shared r') = state (shared r)
  /\ ((forall q s, a <> SetSharedState q s) ->
       pendingState (shared r') = pendingState (shared r) /\ stateChanged (shared r') = stateChanged (shared r)).
Proof.
  intros Ha. destruct a; cbn [run]; try done.
  - by intros [= <-].
  - intros (b & _ & [= <-])%outcome_bind_Ret_inv. done.
  - intros (b & _ & [= <-])%outcome_bind_Ret_inv. done.
  - intros [= <-]. destruct (p0 =? 0); split_and!; try done; intros H; by destruct (H p0 s).
  - unfold rendererSetWindow. destruct (_ && _); intros (b & _ & [= <-])%outcome_bind_Ret_inv; done.
  - by intros [= <-].
  - unfold setViewport. by intros (? & ? & ? & ?)%when_state_shared.
  - unfold setZoom. by intros (? & ? & ? & ?)%when_state_shared.
  - by intros [= <-].
Qed.

Lemma step_state r r' : rendererThread e r = Ret r' -> pc r <> PChanges -> state (shared r') = state (shared r).
Proof.
  unfold rendererThread. destruct (pc r) as [| | | | |q|]; try done; intros E _.
  - apply outcome_bind_Ret_inv in E as ([w r1] & Hw & [= <-]). unfold rendererShouldWait in Hw.
    destruct (_ || _); [by injection Hw as <- <-|]. destruct (_ =? 0); [by injection Hw as <- <-|].
    apply outcome_bind_Ret_inv in Hw as (s & _ & Hw). destruct (_ =? _), (_ || _ || _); by injection Hw as <- <-.
  - by injection E as <-.
  - apply outcome_bind_Ret_inv in E as (r1 & Ha & [= <-]). unfold attach_pending in Ha.
    apply outcome_bind_Ret_inv in Ha as (b & _ & [= <-]). by case_match.
  - unfold find_root in E. destruct (_ =? 0); [by injection E as <-|].
    apply outcome_bind_Ret_inv in E as (s & _ & E). destruct (wants_frame s); [|by injection E as <-].
    by apply outcome_bind_Ret_inv in E as ([q|] & _ & [= <-]).
  - unfold draw_root in E. apply outcome_bind_Ret_inv in E as (b & _ & E).
    apply outcome_bind_Ret_inv in E as (s & _ & E). destruct (negb _); [by injection E as <-|].
    apply outcome_bind_Ret_inv in E as (t & _ & E). destruct (lay_out _ _ _ _ _ _ _ _ _ _ _). by injection E as <-.
  - unfold destroy_removed in E. by apply outcome_bind_Ret_inv in E as (b & _ & [= <-]).
Qed.

Lemma changes_state rest r r' :
  renderer_ok e rest r -> rendererThread e r = Ret r' -> pc r = PChanges ->
  state (shared r') = (if stateChanged (shared r) then pendingState (shared r) else state (shared r)) /\ pc r' = PAttach.
Proof.
  intros Hr E Hpc. unfold rendererThread in E. rewrite Hpc in E.
  apply outcome_bind_Ret_inv in E as (r1 & E1 & [= <-]). split; [|done]. cbn [shared with_pc].
  unfold take_changes in E1. destruct (take_state_ok e r (rk_states _ _ _ Hr)) as (r2 & E2 & Hs2 & _ & _ & Hst & _ & Ew & _).
  rewrite E2 in E1. cbn [mbind outcome_bind] in E1. destruct (windowChanged (wins r2)); [|by injection E1 as <-].
  destruct (refresh_ok e r2 Hs2) as (r3 & E3 & _ & _ & _ & _ & _ & Hst3 & _); [rewrite Ew; apply (rk_windows _ _ _ Hr)|].
  assert (r3 = r1) as -> by congruence. congruence.
Qed.

Lemma server_frame_app y y' :
  server_frame p alive y = Ret y' ->
  exists s f, mapped (shared (app y)) !! state (shared (app y)) = Some s
    /\ app y' = store_at (state (shared (app y))) (publish f s) (app y)
    /\ (wait y' = wait y \/ wait y' = Display.wake (wait y)).
Proof.
  unfold server_frame, deref_state. destruct (_ !! _) as [s|]; cbn; [|done].
  destruct (lorieRedraw _ _ _) as [x|]; cbn; [|done]. intros [= <-]. exists s, (flags x). cbn. split_and!; try done.
  case_match; [by left|by right].
Qed.

(** A write of the server is an action of the renderer's model. *)
Lemma published_reachable rest r s f :
  Renderer.reachable e rest r -> mapped (shared r) !! state (shared r) = Some s ->
  Renderer.reachable e rest (store_at (state (shared r)) (publish f s) r).
Proof.
  intros Hr Hs. eapply (reachable_step _ _ r (ServerWrites _ _)); [done| |done]. cbn.
  rewrite Hs, bool_decide_eq_true_2 by by eexists. exact (sk_fits _ (rk_states _ _ _ (reachable_ok e rest r Hr)) _ _ Hs).
Qed.

(** The proxy's own turn. *)
Lemma proxy_turn_ok rest y : relayed_ok rest y -> relayed_ok rest (proxy_turn y).
Proof.
  intros [Ha Hw Hs Hc Hh Ht Hst]. unfold proxy_turn, pthreadCondVarProxyThread.
  destruct (thread (px y)) as [|c|] eqn:Et.
  - constructor; cbn [sys px switched app wait current pending relocked thread caller]; try done; [congruence|].
    rewrite Nat.eqb_refl. done.
  - rewrite Nat.eqb_refl. constructor; cbn; rewrite ?Et; try done; by destruct y as [[] ? ?].
  - constructor; cbn [sys px switched app wait current pending relocked thread caller]; try done.
    + congruence.
    + intros Hsw. destruct (Hs Hsw) as (? & ? & ->). split_and!; try done. by case_match.
    + intros Hne. destruct (caller (px y)) eqn:Ec; try done; apply Hc; congruence.
    + intros Hsw _. split; [done|]. destruct (caller (px y)) eqn:Ec.
      * destruct (Hh Hsw (or_introl eq_refl)) as [-> ->]. done.
      * destruct (relocked (px y)) eqn:Er; [destruct (Hh Hsw (or_intror eq_refl)) as [-> ->]; done|].
        destruct (Ht Hsw ltac:(done) eq_refl) as [-> _]. done.
      * destruct (relocked (px y)) eqn:Er; [destruct (Hh Hsw (or_intror eq_refl)) as [-> ->]; done|].
        destruct (Ht Hsw ltac:(done) eq_refl) as [-> _]. done.
    + intros Hsw. destruct (Hst Hsw) as [-> ->]. done.
Qed.

(** The app takes a step of another thread. *)
Lemma other_ok rest y a r :
  relayed_ok rest y -> a <> RendererStep -> enabled e a (app (sys y)) = true -> run e a (app (sys y)) = Ret r ->
  relayed_ok rest (with_app r y).
Proof.
  intros [Ha Hw Hs Hc Hh Ht Hst] Hne Hen Hrun.
  destruct (other_shared a (app (sys y)) r Hne Hrun) as (Epc & Est & Eq).
  assert (switched y = true -> pendingState (shared r) = pendingState (shared (app (sys y)))
    /\ stateChanged (shared r) = stateChanged (shared (app (sys y)))) as Hkeep.
  { intros Hsw. apply Eq. intros q s ->. destruct (Hs Hsw) as (_ & Hch & _).
    pose proof (rk_gui_state _ _ _ (reachable_ok _ _ _ Ha) Hch) as Hg. cbn in Hen. unfold gui_ready in Hen.
    by rewrite Hg in Hen. }
  constructor; cbn [with_app sys px switched app wait]; rewrite ?Epc, ?Est; try done.
  - by eapply reachable_step.
  - intros Hsw. destruct (Hs Hsw) as (? & ? & ?). destruct (Hkeep Hsw) as [_ ->]. done.
  - intros Hsw. destruct (Hkeep Hsw) as [-> _]. by apply Hh.
  - intros Hsw. destruct (Hkeep Hsw) as [-> _]. by apply Ht.
Qed.

Lemma frame_turn_ok rest y y' : relayed_ok rest y -> frame_turn y = Ret y' -> relayed_ok rest y'.
Proof.
  intros [Ha Hw Hs Hc Hh Ht Hst] E. unfold frame_turn in E. apply outcome_bind_Ret_inv in E as (y1 & E1 & E).
  destruct (server_frame_app (sys y) y1 E1) as (s & f & Hm & Eapp & Hwt).
  pose proof (published_reachable rest _ s f Ha Hm) as Hr1. rewrite <- Eapp in Hr1.
  assert (pc (app y1) = pc (app (sys y)) /\ state (shared (app y1)) = state (shared (app (sys y)))
    /\ pendingState (shared (app y1)) = pendingState (shared (app (sys y)))
    /\ stateChanged (shared (app y1)) = stateChanged (shared (app (sys y)))) as (Epc & Est & Epe & Ech) by by rewrite Eapp.
  destruct (_ =? _)%nat; injection E as <-;
    constructor; cbn [sys px switched app wait signal current pending relocked thread caller]; rewrite ?Epc, ?Est, ?Epe, ?Ech; try done.
  - intros Hsw. destruct (Hs Hsw) as (? & ? & Haw). split_and!; try done. rewrite Haw in Hwt. by destruct Hwt as [->| ->].
  - intros c Hc'. apply Hw. by eapply wake_waits.
Qed.

Lemma thread_turn_ok rest y y' : relayed_ok rest y -> thread_turn y = Ret y' -> relayed_ok rest y'.
Proof.
  intros Hok. pose proof Hok as [Ha Hw Hs Hc Hh Ht Hst]. unfold thread_turn. destruct (caller (px y)) eqn:Ec; intros E.
  - destruct (must_switch y) eqn:Em.
    + injection E as <-. unfold must_switch in Em. rewrite !andb_true_iff, !bool_decide_eq_true, negb_true_iff in Em.
      destruct Em as [[[Haw Hpc] Hch] Hsw]. destruct (Hst Hsw) as [Hpe Hcu].
      constructor; cbn [sys px switched app wait pthreadCondVarProxyListenOtherCondVar current pending relocked thread caller]; try done.
      * intros c. intros Hc'%wake_waits. by apply Hw.
      * intros _ [?|?]; done.
      * intros _ _ _. split; [|done]. f_equal. by destruct (Z.eqb_spec (pendingState (shared (app (sys y)))) 0) as [->|].
    + apply outcome_bind_Ret_inv in E as (y1 & E1 & [= <-]). unfold thread_step in E1.
      destruct (wait (sys y)) eqn:Ew.
      * apply outcome_bind_Ret_inv in E1 as (r & E1 & [= <-]).
        assert (Renderer.reachable e rest r) as Hr by (by eapply (reachable_step _ _ _ RendererStep)).
        constructor; cbn [sys px switched app wait]; try done. intros _.
        destruct (decide (pc (app (sys y)) = PChanges)) as [Hpc|Hpc].
        -- destruct (changes_state rest _ _ (reachable_ok _ _ _ Ha) E1 Hpc) as [-> _].
           destruct (switched y) eqn:Esw.
           ++ destruct (Hs eq_refl) as (_ & -> & _). apply Hh; [done|by left].
           ++ destruct (stateChanged (shared (app (sys y)))) eqn:Ech; [|by apply Hst].
              unfold must_switch in Em. by rewrite Ew, Hpc, Ech, Esw, !bool_decide_eq_true_2 in Em.
        -- rewrite (step_state _ _ E1 Hpc). destruct (switched y) eqn:Esw; [by destruct (Hs eq_refl)|by apply Hst].
      * injection E1 as <-. assert (switched y = false) as Esw
          by (destruct (switched y); [destruct (Hs eq_refl) as (_ & _ & ?); congruence|done]).
        constructor; cbn [sys px switched app wait]; try done; first [by rewrite Ec|by intros _; apply Hst].
      * injection E1 as <-. assert (switched y = false) as Esw
          by (destruct (switched y); [destruct (Hs eq_refl) as (_ & _ & ?); congruence|done]).
        constructor; cbn [sys px switched app wait]; try done; first [by rewrite Ec|by intros _; apply Hst].
  - by injection E as <-.
  - injection E as <-. assert (switched y = true) as Esw by (apply Hc; congruence).
    constructor; cbn [sys px switched app wait listen_again current pending relocked thread caller]; try done.
    + intros _ [Haw|Hre]; [|by apply Hh; [|right]]. apply Hh; [done|]. right. by destruct (relocked (px y)).
    + intros _ _ Hre. apply Ht; [done|congruence|exact Hre].
Qed.

Lemma runs_ok rest y : runs rest y -> relayed_ok rest y.
Proof.
  induction 1 as [x|y a r _ IH Hne Hen Hrun|y _ [Ha Hw Hs Hc Hh Ht Hst]|c y _ [Ha Hw Hs Hc Hh Ht Hst]|y y' _ IH _ E|y _ IH|y y' _ IH E].
  - constructor; cbn; try done. constructor.
  - by eapply other_ok.
  - constructor; cbn [stirred sys px switched app wait current pending relocked thread caller]; try done.
    + intros Hsw. destruct (Hs Hsw) as (? & ? & ->). done.
    + intros Hne. apply Hc. by destruct (caller (px y)).
    + intros Hsw [Haw|Hre]; [|by apply Hh; [|right]]. apply Hh; [done|]. left. by destruct (caller (px y)).
    + intros Hsw Hne. apply Ht; [done|]. by destruct (caller (px y)).
  - constructor; cbn [sys px switched app wait signal current pending relocked thread caller]; try done.
    intros d Hd%wake_waits. by apply Hw.
  - by eapply frame_turn_ok.
  - by apply proxy_turn_ok.
  - by eapply thread_turn_ok.
Qed.

(** ** The relay is transparent *)

(** The proxy waits for the variable [c], or will before it waits again. *)
Definition hears (q : proxy) (c : Z) : Prop :=
  current q = c /\ pending q = None /\ caller q = Away /\ (thread q = WaitsOn c \/ thread q = Woken).
Definition listens (q : proxy) (c : Z) : Prop := hears q c /\ thread q = WaitsOn c.

(** The turns of [Display], with the proxy's behind each frame. *)
Definition relay (l : list Display.turn) : list turn3 :=
  l ≫= fun t => match t with Frame => [FrameTurn; ProxyTurn] | Thread => [ThreadTurn] end.

Lemma run_relayed_app l l' y y1 : run_relayed l y = Ret y1 -> run_relayed (l ++ l') y = run_relayed l' y1.
Proof.
  revert y. induction l as [|t l IH]; intros y; cbn; [by intros [= ->]|].
  destruct t; [intros (y2 & -> & E)%outcome_bind_Ret_inv; cbind; by apply IH|apply IH|].
  intros (y2 & -> & E)%outcome_bind_Ret_inv; cbind; by apply IH.
Qed.

(** A frame and the proxy's turn are a frame of [Display]. *)
Lemma frame_relayed y y' q :
  server_frame p alive y = Ret y' -> hears q (state (shared (app y))) ->
  (thread q = Woken -> Present.signals (server y') <> Present.signals (server y)) ->
  exists q', run_relayed [FrameTurn; ProxyTurn] (mk_relayed y q false) = Ret (mk_relayed y' q' false)
    /\ listens q' (state (shared (app y'))).
Proof.
  intros E (Hc & Hp & Hca & Ht) Hsig. destruct (server_frame_app y y' E) as (s & f & _ & Eapp & _).
  assert (state (shared (app y')) = state (shared (app y))) as Est by by rewrite Eapp.
  cbn [run_relayed]. unfold frame_turn. cbn [sys px switched]. rewrite E. cbind.
  assert (wait y' = if (Present.signals (server y') =? Present.signals (server y))%nat then wait y else Display.wake (wait y)) as Ew.
  { unfold server_frame, deref_state in E. destruct (_ !! _); cbn in E; [|done].
    destruct (lorieRedraw _ _ _); cbn in E; [|done]. by injection E as <-. }
  destruct (Nat.eqb_spec (Present.signals (server y')) (Present.signals (server y))) as [Es|Ns].
  - destruct Ht as [Ht|Ht]; [|by destruct (Hsig Ht)]. cbind. unfold proxy_turn, pthreadCondVarProxyThread. cbn [px sys].
    rewrite Ht, Nat.eqb_refl. exists q. rewrite Est. split; [by destruct y'|]. split; [|done]. split_and!; by try left.
  - cbind. unfold proxy_turn, pthreadCondVarProxyThread, signal. cbn [px sys thread].
    assert (Proxy.wake (state (shared (app y))) (thread q) = Woken) as ->
      by (unfold Proxy.wake; destruct Ht as [->| ->]; [by rewrite Z.eqb_refl|done]).
    cbn [pending current caller relocked Proxy.signals server app wait]. rewrite Hp, Hc, Hca. cbn [default].
    rewrite (proj2 (Nat.eqb_neq _ _)) by lia. rewrite Est. eexists. split; [rewrite <- Ew; by destruct y'|].
    repeat split. by left.
Qed.

(** A step of the thread that has no other server to tell about. *)
Lemma thread_relayed y y' q :
  thread_step e y = Ret y' -> stateChanged (shared (app y)) = false -> caller q = Away ->
  run_relayed [ThreadTurn] (mk_relayed y q false) = Ret (mk_relayed y' q false).
Proof.
  intros E Hch Hca. cbn [run_relayed]. unfold thread_turn. cbn [px]. rewrite Hca. unfold must_switch. cbn [sys].
  rewrite Hch, andb_false_r. cbn [andb]. by rewrite E.
Qed.

Lemma thread_keeps_state rest y y' :
  Renderer.reachable e rest (app y) -> thread_step e y = Ret y' -> stateChanged (shared (app y)) = false ->
  Renderer.reachable e rest (app y') /\ stateChanged (shared (app y')) = false
  /\ state (shared (app y')) = state (shared (app y)).
Proof.
  intros Hr E Hch. unfold thread_step in E. destruct (wait y); [|by injection E as <-|by injection E as <-].
  apply outcome_bind_Ret_inv in E as (r & E & [= <-]). cbn [app].
  split; [by eapply (reachable_step _ _ _ RendererStep)|].
  destruct (decide (pc (app y) = PChanges)) as [Hpc|Hpc].
  - pose proof (changes_state rest _ _ (reachable_ok _ _ _ Hr) E Hpc) as [Hs _]. rewrite Hch in Hs. split; [|done].
    pose proof (reachable_ok _ _ _ Hr) as Hok.
    unfold rendererThread in E. rewrite Hpc in E. apply outcome_bind_Ret_inv in E as (r1 & E1 & [= <-]).
    destruct (take_changes_ok e _ (rk_states _ _ _ Hok) (rk_windows _ _ _ Hok) (rk_pendingWin _ _ _ Hok))
      as (r2 & E2 & _ & _ & _ & _ & Hc & _). cbn. congruence.
  - split; [|by apply step_state]. destruct (step_frame e _ _ E Hpc) as [(_ & -> & _) _]. done.
Qed.

(** Simulation: what [Display]'s two parties do, the three do. *)
Lemma relay_simulates rest l y y' q :
  Renderer.reachable e rest (app y) -> stateChanged (shared (app y)) = false ->
  run_system e p alive l y = Ret y' -> listens q (state (shared (app y))) ->
  exists q', run_relayed (relay l) (mk_relayed y q false) = Ret (mk_relayed y' q' false)
    /\ listens q' (state (shared (app y'))) /\ state (shared (app y')) = state (shared (app y))
    /\ Renderer.reachable e rest (app y') /\ stateChanged (shared (app y')) = false.
Proof.
  revert y q. induction l as [|t l IH]; intros y q Hr Hch E Hq; [injection E as <-; by exists q|].
  destruct t; cbn [run_system] in E; apply outcome_bind_Ret_inv in E as (y1 & E1 & E).
  - destruct (server_frame_app y y1 E1) as (s & f & Hm & Eapp & _).
    pose proof (published_reachable rest _ s f Hr Hm) as Hr1. rewrite <- Eapp in Hr1.
    destruct (frame_relayed y y1 q E1 (proj1 Hq)) as (q1 & Eq & Hq1).
    { intros Hw. rewrite (proj2 Hq) in Hw. done. }
    destruct (IH y1 q1 Hr1) as (q' & E' & Hq' & Est & Hend); [by rewrite Eapp|done|done|].
    exists q'. split; [|split; [done|split; [by rewrite Est, Eapp|done]]].
    change (relay (Frame :: l)) with ([FrameTurn; ProxyTurn] ++ relay l). by rewrite (run_relayed_app _ _ _ _ Eq).
  - destruct (thread_keeps_state rest y y1 Hr E1 Hch) as (Hr1 & Hch1 & Est1).
    destruct (IH y1 q Hr1 Hch1 E) as (q' & E' & Hq' & Est & Hend); [by rewrite Est1|].
    exists q'. split; [|split; [done|split; [congruence|done]]].
    change (relay (Thread :: l)) with ([ThreadTurn] ++ relay l).
    by rewrite (run_relayed_app _ _ _ _ (thread_relayed y y1 q E1 Hch (proj1 (proj2 (proj2 (proj1 Hq)))))).
Qed.
End relayed.

(** ** Properties *)

(** C5: the proxy thread never waits for a condition variable in a block that was
    unmapped. Whatever the threads of the app, the server and lost or spurious
    wake-ups do, it waits for its own variable or for one in a mapped shared
    state; as long as the renderer thread does not change to another server,
    that is the one the renderer draws for; and when the renderer thread comes
    back from telling it about a new one, it was heard: the old block is
    unmapped behind that. *)
Theorem proxy_waits_on_mapped e p alive rest y :
  runs e p alive rest y ->
  (forall c, thread (px y) = WaitsOn c -> c = Proxy.def \/ is_Some (mapped (shared (app (sys y))) !! c))
  /\ (switched y = false -> caller (px y) = Away /\ pending (px y) = None
        /\ forall c, thread (px y) = WaitsOn c -> c = state (shared (app (sys y))))
  /\ (switched y = true -> caller (px y) = Away ->
        pending (px y) = None
        /\ forall c, thread (px y) = WaitsOn c -> c = pendingState (shared (app (sys y))))
  /\ forall y', thread_turn e y = Ret y' -> stateChanged (shared (app (sys y))) = true ->
        stateChanged (shared (app (sys y'))) = false -> switched y = true /\ caller (px y) = Away.
Proof.
  intros Hr. pose proof (runs_ok e p alive rest y Hr) as [Ha Hw Hs Hc Hh Ht Hst].
  pose proof (rk_states _ _ _ (reachable_ok _ _ _ Ha)) as [Hm _ _].
  assert (forall c, c = state (shared (app (sys y))) \/ c = pendingState (shared (app (sys y))) ->
    c = Proxy.def \/ is_Some (mapped (shared (app (sys y))) !! c)) as Hmap.
  { intros c Hcc. destruct (Z.eq_dec c 0) as [->|N]; [by left|right]. by apply Hm. }
  split; [|split; [|split]].
  - intros c Hc'. rewrite (Hw c Hc'). apply Hmap. destruct (switched y) eqn:Esw.
    + destruct (caller (px y)) eqn:Ec; [right; apply Hh; [done|by left]| |];
        (destruct (relocked (px y)) eqn:Er; [right; apply Hh; [done|by right]|left; by apply Ht]).
    + left. by apply Hst.
  - intros Hsw. destruct (Hst Hsw) as [Hp Hcu]. split; [|split; [done|]].
    + destruct (caller (px y)); [done|..]; by rewrite Hc in Hsw.
    + intros c Hc'. by rewrite (Hw c Hc').
  - intros Hsw Hca. destruct (Hh Hsw (or_introl Hca)) as [Hp Hcu]. split; [done|]. intros c Hc'. by rewrite (Hw c Hc').
  - intros y' E Hch Hch'. unfold thread_turn in E. destruct (caller (px y)) eqn:Ec.
    2,3: injection E as <-; cbn in Hch'; congruence.
    split; [|done]. destruct (must_switch y) eqn:Em; [injection E as <-; cbn in Hch'; congruence|].
    apply outcome_bind_Ret_inv in E as (y1 & E1 & [= <-]). cbn [sys] in Hch'. unfold thread_step in E1.
    destruct (wait (sys y)) eqn:Ew; [|injection E1 as <-; cbn in Hch'; congruence..].
    apply outcome_bind_Ret_inv in E1 as (r & E1 & [= <-]). cbn [app] in Hch'.
    destruct (decide (pc (app (sys y)) = PChanges)) as [Hpc|Hpc].
    + destruct (switched y) eqn:Esw; [done|]. unfold must_switch in Em.
      by rewrite Ew, Hpc, Hch, Esw, !bool_decide_eq_true_2 in Em.
    + destruct (step_frame e _ _ E1 Hpc) as [(_ & Hsc & _) _]. congruence.
Qed.

(** C6: damage reaches the screen through the three threads. In every state the
    program can get to in which the proxy has started, the renderer thread waits
    (or is about to) with nothing else to do, the activity has a surface and the
    root window's buffer in the expected size, and there is new damage: the
    frame and the proxy's turn behind it (or, when the signal is sent between
    the thread's last test and its wait and is lost, the next two) wake the
    thread, which draws exactly one frame, of the root window's buffer, and
    waits again. The request is then served, the proxy listens again, and the
    next frame wakes nobody. *)
Theorem damage_relayed e p rest z s v b :
  runs e p true rest z -> switched z = false -> thread (px z) <> Starting ->
  pc (app (sys z)) = PWait -> wait (sys z) <> Awake -> settled (app (sys z)) ->
  state (shared (app (sys z))) <> 0 -> mapped (shared (app (sys z))) !! state (shared (app (sys z))) = Some s ->
  surfaceAvailable s = true ->
  root (server (sys z)) = Some v -> Present.buffer v = Some b -> relockable p b -> damaged (server (sys z)) = true ->
  showable (app (sys z)) (desc_id (desc b)) ->
  waitingForBuffers (app (sys z)) = false \/ lastRequestedBufferId (app (sys z)) <> desc_id (desc b) ->
  exists z1, run_relayed e p true (relay (waking (wait (sys z)) ++ replicate 9 Thread)) z = Ret z1
    /\ wait (sys z1) = Asleep /\ damaged (server (sys z1)) = false
    /\ (exists f, frames (app (sys z1)) = (desc_id (desc b), f) :: frames (app (sys z)))
    /\ mapped (shared (app (sys z1))) !! state (shared (app (sys z))) = Some (shown (requested (desc_id (desc b)) s))
    /\ listens (px z1) (state (shared (app (sys z))))
    /\ exists z2, run_relayed e p true [FrameTurn; ProxyTurn; ThreadTurn] z1 = Ret z2 /\ wait (sys z2) = Asleep
         /\ frames (app (sys z2)) = frames (app (sys z1)) /\ listens (px z2) (state (shared (app (sys z)))).
Proof.
  destruct z as [y q sw]. cbn [sys px switched].
  intros Hruns -> Hst Hpc Hw Hset H0 Hs Hsurf Hv Hb Hrl Hd Hshow Hwait.
  destruct (runs_ok e p true rest _ Hruns) as [Hr Hws _ Hcall _ _ Hsteady]. cbn [sys px switched] in *.
  destruct (Hsteady eq_refl) as [Hpe Hcu].
  assert (hears q (state (shared (app y)))) as Hq.
  { repeat split; try done; [by destruct (caller q); [done|by specialize (Hcall ltac:(done))..]|].
    destruct (thread q) as [|c|] eqn:Et; [done| |by right]. left. by rewrite (Hws c eq_refl), Hcu. }
  destruct (damage_shown e p rest y s v b) as (y1 & E1 & Ha & Hda & Hf & Hm & y2 & E2 & Hw2 & Hf2 & _); try done.
  assert (stateChanged (shared (app y)) = false) as Hch by (destruct Hset as [[? _]%orb_false_iff _]; done).
  (* the first frame, which may find the proxy woken already *)
  assert (exists l, waking (wait y) ++ replicate 9 Thread = Frame :: l) as [l El] by (by destruct (wait y); eexists).
  rewrite El in E1 |- *. cbn [run_system] in E1. apply outcome_bind_Ret_inv in E1 as (y0 & E0 & E1).
  destruct (frame_requests p y s (desc_id (desc b)) Hs Hsurf) as (x & Ex & _ & _ & Hsig).
  { exists v. by rewrite Hb. }
  { rewrite Hd. intros v1 b1 Hv1 Hb1. by simplify_eq. }
  { by exists v, b. }
  assert (y0 = mk_system x (store_at (state (shared (app y))) (requested (desc_id (desc b)) s) (app y)) (Display.wake (wait y)))
    as Ey0 by congruence.
  destruct (frame_relayed e p true y y0 q E0 Hq) as (q0 & Eq0 & Hq0); [intros _; rewrite Ey0; cbn [server]; lia|].
  destruct (server_frame_app p true y y0 E0) as (s' & f' & Hm' & Eapp & _).
  pose proof (published_reachable e rest _ s' f' Hr Hm') as Hr0. rewrite <- Eapp in Hr0.
  assert (state (shared (app y0)) = state (shared (app y))) as Est0 by by rewrite Eapp.
  destruct (relay_simulates e p true rest l y0 y1 q0 Hr0) as (q1 & Eq1 & Hq1 & Est1 & Hr1 & Hch1); [by rewrite Eapp|done|done|].
  destruct (relay_simulates e p true rest [Frame; Thread] y1 y2 q1 Hr1 Hch1 E2 Hq1) as (q2 & Eq2 & Hq2 & Est2 & _).
  rewrite Est1, Est0 in Est2. rewrite Est1, Est0 in Hq1. rewrite Est2 in Hq2.
  exists (mk_relayed y1 q1 false). cbn [sys px]. split_and!; try done.
  - change (relay (Frame :: l)) with ([FrameTurn; ProxyTurn] ++ relay l). by rewrite (run_relayed_app _ _ _ _ _ _ _ Eq0).
  - exists (mk_relayed y2 q2 false). by split_and!.
Qed.

(** ** A concrete run *)
Inductive move : Type := ByOther (a : action) | ByProxy | ByThread | Stir.

Definition make_move (m : move) (y : relayed) : outcome relayed :=
  match m with
  | ByOther a =>
      if (match a with RendererStep => false | _ => true end) && enabled sample_platform a (app (sys y))
      then r ← run sample_platform a (app (sys y)); Ret (with_app r y) else Fault FatalExit
  | ByProxy => Ret (proxy_turn y)
  | ByThread => thread_turn sample_platform y
  | Stir => Ret (stirred y)
  end.

Fixpoint make_moves (l : list move) (y : relayed) : outcome relayed :=
  match l with [] => Ret y | m :: l => y ← make_move m y; make_moves l y end.

Lemma make_moves_runs p alive rest l y y' :
  runs sample_platform p alive rest y -> make_moves l y = Ret y' -> runs sample_platform p alive rest y'.
Proof.
  revert y. induction l as [|m l IH]; intros y Hy; cbn [make_moves]; [by intros [= <-]|].
  intros (y1 & E1 & E)%outcome_bind_Ret_inv. eapply IH; [|exact E]. destruct m; cbn [make_move] in E1.
  - destruct (_ && _) eqn:Ea; [|done]. apply andb_true_iff in Ea as [Hne Hen].
    apply outcome_bind_Ret_inv in E1 as (r & Er & [= <-]). eapply runs_other; [done| |done..]. by intros ->.
  - injection E1 as <-. by apply runs_proxy.
  - by eapply runs_thread.
  - injection E1 as <-. by apply runs_stir.
Qed.

(** The proxy starts; a server connects, and the thread tells the proxy; then a
    window, a buffer and its size. The last turns draw the first frame. *)
Definition to_connect : list move :=
  [ByProxy; ByThread; ByThread; ByThread; ByOther (SetSharedState 500 sample_state); Stir; ByThread; ByThread; ByThread].
Definition connected : list move :=
  to_connect ++ [ByProxy] ++ replicate 3 ByThread ++ [ByOther GuiResumes] ++ replicate 4 ByThread
  ++ [ByOther (SetWindow 40); Stir] ++ replicate 4 ByThread ++ [ByOther GuiResumes] ++ replicate 4 ByThread
  ++ [ByOther (AddBuffer 700 sample_buffer); ByOther (SetViewport 0 0 800 600 800 600); Stir] ++ replicate 8 ByThread.
Definition start_of_run : relayed := mk_relayed (mk_system dirty (renderer_init sample_platform []) Awake) pthreadCondVarProxyInit false.
Definition moved (l : list move) : relayed := match make_moves l start_of_run with Ret y => y | Fault _ => start_of_run end.

Lemma moved_runs l : runs sample_platform Buffer.sample_platform true [] (moved l).
Proof.
  unfold moved. destruct (make_moves l start_of_run) eqn:E; [|apply runs_init].
  eapply make_moves_runs; [apply runs_init|exact E].
Qed.

Definition last_drawn : relayed := moved connected.

Lemma proxy_waits_on_mapped_witness :
  (forall c, thread (px (moved to_connect)) = WaitsOn c -> c = Proxy.def \/ is_Some (mapped (shared (app (sys (moved to_connect)))) !! c))
  /\ switched (moved to_connect) = true /\ caller (px (moved to_connect)) = Listening
  /\ thread (px last_drawn) = WaitsOn 500 /\ state (shared (app (sys last_drawn))) = 500.
Proof.
  split; [exact (proj1 (proxy_waits_on_mapped _ _ _ _ _ (moved_runs to_connect)))|].
  split_and!; vm_compute; reflexivity.
Defined.

Lemma damage_relayed_witness :
  exists z1, run_relayed sample_platform Buffer.sample_platform true
      (relay (waking FallingAsleep ++ replicate 9 Thread)) last_drawn = Ret z1
    /\ length (frames (app (sys last_drawn))) = 1%nat /\ length (frames (app (sys z1))) = 2%nat.
Proof.
  destruct (damage_relayed sample_platform Buffer.sample_platform [] last_drawn
    (Renderer.state_at (app (sys last_drawn))) (mk_priv (Some sample_buffer) false false false 0 0) sample_buffer)
    as (z1 & E & _ & _ & [f Hf] & _); try (vm_compute; reflexivity).
  - exact (moved_runs connected).
  - vm_compute. discriminate.
  - vm_compute. discriminate.
  - split_and!; vm_compute; reflexivity.
  - vm_compute. discriminate.
  - right. by left.
  - assert (heap (bufs (app (sys last_drawn))) = {[700 := drawn_root]}) as Eh by (vm_compute; reflexivity).
    split.
    + exists 700, drawn_root. rewrite Eh. split; [|split; vm_compute; reflexivity].
      assert (attached (bufs (app (sys last_drawn))) = [700]) as Ea by (vm_compute; reflexivity).
      rewrite Ea. by apply list_elem_of_singleton.
    + intros q b. rewrite Eh. intros [_ <-]%lookup_singleton_Some _. vm_compute. reflexivity.
  - left. vm_compute. reflexivity.
  - exists z1. split; [exact E|]. split; [vm_compute; reflexivity|]. rewrite Hf. vm_compute. reflexivity.
Defined.
