(* ===== verification/Handover.v ===== *)
(** * Handing a shared state or a window to the renderer (renderer.c 429-439 and 477-511)

    [Renderer] lets a thread that waits go on at any time.  Here the GUI thread
    and the renderer thread wait for the signals that are sent: the GUI thread
    signals [stateCond] when it has set a flag and then waits for
    [stateChangeFinishCond]; the renderer thread waits for [stateCond], and while
    it takes a state over it waits for the proxy thread as in [Relay]; it signals
    [stateChangeFinishCond] before it gives [stateLock] back.  The proxy thread
    has started: [Sync] tells what happens when it has not. *)
From S2P Require Import Prelude Buffer Cursor GlBuffers Viewport Present Renderer Sync Display Relay.
Import Sync.Proxy.

#[export] Instance caller_pc_eq_dec : EqDecision caller_pc.
Proof. solve_decision. Defined.

(** [gui_awake]: the GUI thread does not wait for [stateChangeFinishCond]. *)
Record handover : Type := mk_handover { rel : relayed; gui_awake : bool }.
Definition app_of (h : handover) : renderer := app (sys (rel h)).

(** [stateLock] can be taken: the renderer thread has given it back, or gave it
    back when it began to wait. *)
Definition lock_free (h : handover) : bool :=
  stateLock_free (app_of h) && negb (bool_decide (wait (sys (rel h)) = FallingAsleep)).

Definition hands_over (a : action) : bool :=
  match a with SetSharedState _ _ | SetWindow _ => true | _ => false end.

Section handover.
Context (e : Renderer.platform) (p : Buffer.platform) (alive : bool).

(** [rendererSetSharedState] and [rendererSetWindow] up to their first wait. *)
Definition gui_sets (a : action) (h : handover) : outcome handover :=
  r ← run e a (app_of h);
  let y := with_app r (rel h) in
  Ret (if gui_ready r then mk_handover y (gui_awake h) else mk_handover (stirred y) false).

(** The test of their loops after a wait. *)
Definition gui_tests (h : handover) : outcome handover :=
  if enabled e GuiResumes (app_of h)
  then r ← run e GuiResumes (app_of h); Ret (mk_handover (with_app r (rel h)) true)
  else Ret (mk_handover (rel h) false).

(** The step behind [PAttach] ends with the signal. *)
Definition thread_turns (h : handover) : outcome handover :=
  y ← thread_turn e (rel h);
  Ret (mk_handover y (gui_awake h || bool_decide (pc (app_of h) = PAttach))).

Definition proxy_turns (h : handover) : handover := mk_handover (proxy_turn (rel h)) (gui_awake h).

(** A turn of the renderer thread and one of the proxy thread, [n] times. *)
Fixpoint rounds (n : nat) (h : handover) : outcome handover :=
  match n with
  | O => Ret h
  | S n => h ← thread_turns h; rounds n (proxy_turns h)
  end.

(** Every interleaving, with signals of others and spurious ends of waits. *)
Inductive handed (rest : list resource) : handover -> Prop :=
  | handed_init x :
      handed rest (mk_handover (mk_relayed (mk_system x (renderer_init e rest) Awake) running false) true)
  | handed_sets h a h' :
      handed rest h -> hands_over a = true -> enabled e a (app_of h) = true -> lock_free h = true ->
      gui_sets a h = Ret h' -> handed rest h'
  | handed_tests h h' :
      handed rest h -> gui_awake h = true -> gui (app_of h) <> GReady -> lock_free h = true ->
      gui_tests h = Ret h' -> handed rest h'
  | handed_gui_stir h : handed rest h -> handed rest (mk_handover (rel h) true)
  | handed_other h a r :
      handed rest h -> a <> RendererStep -> a <> GuiResumes -> hands_over a = false ->
      enabled e a (app_of h) = true -> run e a (app_of h) = Ret r ->
      handed rest (mk_handover (with_app r (rel h)) (gui_awake h))
  | handed_stir h : handed rest h -> handed rest (mk_handover (stirred (rel h)) (gui_awake h))
  | handed_signal c h :
      handed rest h ->
      handed rest (mk_handover (mk_relayed (sys (rel h)) (signal c (px (rel h))) (switched (rel h))) (gui_awake h))
  | handed_frame h y :
      handed rest h -> state (shared (app_of h)) <> 0 -> frame_turn p alive (rel h) = Ret y ->
      handed rest (mk_handover y (gui_awake h))
  | handed_proxy h : handed rest h -> handed rest (proxy_turns h)
  | handed_thread h h' : handed rest h -> thread_turns h = Ret h' -> handed rest h'.

(** ** The invariant *)

(** A thread that sleeps, or is about to, has seen no flag set; a GUI thread that
    sleeps will be signalled; and the proxy thread is awake as long as the
    renderer thread waits for it. *)
Record handed_ok (rest : list resource) (h : handover) : Prop := {
  hk_runs : runs e p alive rest (rel h);
  hk_asleep : wait (sys (rel h)) <> Awake -> pc (app_of h) = PWait /\ changed (app_of h) = false;
  hk_gui : gui (app_of h) <> GReady -> gui_awake h = true \/ changed (app_of h) = true \/ pc (app_of h) = PAttach;
  hk_started : thread (px (rel h)) <> Starting;
  hk_called : caller (px (rel h)) <> Away -> relocked (px (rel h)) = false -> thread (px (rel h)) = Woken;
  hk_listening : caller (px (rel h)) = Listening -> relocked (px (rel h)) = false
}.

Lemma run_other a r r' :
  a <> RendererStep -> a <> GuiResumes -> hands_over a = false -> run e a r = Ret r' ->
  pc r' = pc r /\ gui r' = gui r /\ changed r' = changed r.
Proof.
  assert (forall f r r', when_state f r = Ret r' -> pc r' = pc r /\ gui r' = gui r /\ changed r' = changed r) as Hwhen.
  { intros f r1 r2 E. destruct (when_state_frame f r1 r2 E) as [(? & E1 & E2) ?]. unfold changed. by rewrite E1, E2. }
  intros H1 H2 H3. destruct a; cbn [run]; try done.
  - by intros [= <-].
  - by intros (b & _ & [= <-])%outcome_bind_Ret_inv.
  - by intros (b & _ & [= <-])%outcome_bind_Ret_inv.
  - unfold setViewport. by intros E%Hwhen.
  - unfold setZoom. by intros E%Hwhen.
  - by intros [= <-].
Qed.

Lemma run_sets a r r' :
  hands_over a = true -> gui r = GReady -> run e a r = Ret r' ->
  pc r' = pc r /\ (if gui_ready r' then changed r' = changed r else changed r' = true).
Proof.
  intros Ha Hg. destruct a; cbn [run]; try done.
  - intros [= <-]. by case_match.
  - unfold rendererSetWindow. destruct (_ && _).
    + intros (b & Eb & [= <-])%outcome_bind_Ret_inv. split; [done|]. unfold gui_ready. cbn. rewrite Hg. cbn.
      unfold release_window in Eb. destruct (list_find _ _) as [[]|]; [|done]. by injection Eb as <-.
    + intros (b & _ & [= <-])%outcome_bind_Ret_inv. split; [done|]. cbn. unfold changed. cbn. apply orb_true_r.
Qed.

(** The thread decides to wait only when no flag is set. *)
Lemma decides_to_wait r r' :
  rendererThread e r = Ret r' -> pc r' = PWait -> pc r = PTest /\ changed r = false /\ changed r' = false.
Proof.
  unfold rendererThread. destruct (pc r) as [| | | | |q|] eqn:Ep; intros E Hpc.
  - split; [done|]. apply outcome_bind_Ret_inv in E as ([w r1] & Hw & [= <-]).
    unfold rendererShouldWait in Hw. fold (changed r) in Hw. destruct (changed r) eqn:Ec; cbn [orb] in Hw.
    + by injection Hw as <- <-.
    + split; [done|]. destruct (_ || _); [injection Hw as <- <-; by cbn in Hpc|].
      destruct (_ =? 0); [by injection Hw as <- <-|].
      apply outcome_bind_Ret_inv in Hw as (s & _ & Hw). destruct (_ =? _), (_ || _ || _); by injection Hw as <- <-.
  - by injection E as <-.
  - by apply outcome_bind_Ret_inv in E as (r1 & _ & [= <-]).
  - by apply outcome_bind_Ret_inv in E as (r1 & _ & [= <-]).
  - unfold find_root in E. destruct (_ =? 0); [by injection E as <-|].
    apply outcome_bind_Ret_inv in E as (s & _ & E). destruct (wants_frame s); [|by injection E as <-].
    by apply outcome_bind_Ret_inv in E as ([q|] & _ & [= <-]).
  - unfold draw_root in E. apply outcome_bind_Ret_inv in E as (b & _ & E).
    apply outcome_bind_Ret_inv in E as (s & _ & E). destruct (negb _); [by injection E as <-|].
    apply outcome_bind_Ret_inv in E as (t & _ & E). destruct (lay_out _ _ _ _ _ _ _ _ _ _ _). by injection E as <-.
  - unfold destroy_removed in E. by apply outcome_bind_Ret_inv in E as (b & _ & [= <-]).
Qed.

(** What a step of the thread does to the flags. *)
Lemma step_changed rest r r' :
  renderer_ok e rest r -> rendererThread e r = Ret r' ->
  gui r' = gui r
  /\ (if decide (pc r = PChanges) then changed r' = false /\ stateChanged (shared r') = false /\ pc r' = PAttach
      else changed r' = changed r /\ stateChanged (shared r') = stateChanged (shared r)).
Proof.
  intros Hr E. case_decide as Ep.
  - destruct (take_changes_frame e rest r Hr Ep) as (r1 & E1 & _ & Hg & Hk). assert (r1 = r') as -> by congruence.
    split; [done|]. destruct (changes_state e rest r r' Hr E Ep) as [_ Hp]. unfold rank in Hk. rewrite Hp in Hk.
    destruct (changed r') eqn:Ec; [done|]. split_and!; try done. by apply orb_false_iff in Ec as [-> _].
  - destruct (step_frame e r r' E Ep) as [(Hg & E1 & E2) _]. split; [done|]. unfold changed. by rewrite E1, E2.
Qed.

(** ** Every step keeps it *)
Lemma sets_ok rest h a h' :
  handed_ok rest h -> hands_over a = true -> enabled e a (app_of h) = true -> lock_free h = true ->
  gui_sets a h = Ret h' -> handed_ok rest h'.
Proof.
  intros [Hruns Hs Hg Hst Hc Hl] Ha Hen [Hfree Hw%negb_true_iff%bool_decide_eq_false]%andb_true_iff E.
  apply outcome_bind_Ret_inv in E as (r & Er & [= <-]).
  assert (gui (app_of h) = GReady) as Hgr.
  { destruct a; try done; cbn in Hen; unfold gui_ready in Hen; rewrite !andb_true_iff, bool_decide_eq_true in Hen; tauto. }
  assert (runs e p alive rest (with_app r (rel h))) as Hr2.
  { eapply runs_other; [done| |exact Hen|exact Er]. by destruct a. }
  destruct (run_sets a _ r Ha Hgr Er) as [Epc Hch].
  destruct (gui_ready r) eqn:Egr.
  - constructor; cbn; try done.
    + intros Hne. destruct (Hs Hne) as [? ?]. split; congruence.
    + unfold gui_ready in Egr. by apply bool_decide_eq_true in Egr.
  - constructor; cbn; try done.
    + by apply runs_stir.
    + intros Hne. destruct (wait (sys (rel h))) eqn:Ew; cbn in Hne; done.
    + intros _. right. by left.
    + intros Hne. apply Hc. by destruct (caller (px (rel h))).
    + by destruct (caller (px (rel h))).
Qed.

Lemma tests_ok rest h h' :
  handed_ok rest h -> gui_tests h = Ret h' -> gui (app_of h) <> GReady -> gui_awake h = true -> lock_free h = true ->
  handed_ok rest h'.
Proof.
  intros Hok E Hne Haw [Hfree _]%andb_true_iff. pose proof Hok as [Hruns Hs Hg Hst Hc Hl]. unfold gui_tests in E.
  destruct (enabled e GuiResumes (app_of h)) eqn:Hen.
  - apply outcome_bind_Ret_inv in E as (r & Er & [= <-]). cbn [run] in Er. injection Er as <-. constructor; cbn; try done.
    eapply runs_other; [done| |exact Hen|done]. done.
  - injection E as <-. constructor; cbn; try done. intros _. right. left.
    pose proof (reachable_ok _ _ _ (ro_app e rest _ (runs_ok e p alive rest _ Hruns))) as Hr.
    unfold app_of in *. cbn [enabled] in Hen. rewrite Hfree in Hen. cbn [andb] in Hen.
    change (changed (app (sys (rel h))) = true). unfold changed.
    destruct (gui (app (sys (rel h)))); [done|apply negb_false_iff in Hen as ->; done|].
    apply negb_false_iff in Hen as ->. apply orb_true_r.
Qed.

Lemma frame_ok rest h y :
  handed_ok rest h -> state (shared (app_of h)) <> 0 -> frame_turn p alive (rel h) = Ret y ->
  handed_ok rest (mk_handover y (gui_awake h)).
Proof.
  intros [Hruns Hs Hg Hst Hc Hl] H0 E. assert (runs e p alive rest y) as Hr2 by by eapply runs_frame.
  unfold frame_turn in E. apply outcome_bind_Ret_inv in E as (y1 & E1 & E).
  destruct (server_frame_app p alive (sys (rel h)) y1 E1) as (s & f & _ & Eapp & Hwt).
  assert (pc (app y1) = pc (app_of h) /\ changed (app y1) = changed (app_of h) /\ gui (app y1) = gui (app_of h))
    as (Epc & Ech & Eg) by by rewrite Eapp.
  assert (wait y1 <> Awake -> wait (sys (rel h)) <> Awake) as Hwa.
  { intros H E2. rewrite E2 in Hwt. by destruct Hwt as [?|?]. }
  destruct (_ =? _)%nat; injection E as <-; constructor; cbn; unfold app_of in *; cbn;
    rewrite ?Epc, ?Ech, ?Eg; try done; auto.
  - intros E2. apply Hst. unfold Proxy.wake in E2. destruct (thread (px (rel h))) as [|c|]; [done| |done].
    by destruct (c =? _).
  - intros Hne Hre. by rewrite (Hc Hne Hre).
Qed.

Lemma proxy_ok rest h : handed_ok rest h -> handed_ok rest (proxy_turns h).
Proof.
  intros [Hruns Hs Hg Hst Hc Hl]. constructor.
  - by apply runs_proxy.
  - cbn. intros Hne. apply Hs. intros E. rewrite E in Hne. by destruct (_ =? _)%nat.
  - done.
  - cbn. unfold pthreadCondVarProxyThread. by destruct (thread (px (rel h))) eqn:Et; rewrite ?Et.
  - cbn. unfold pthreadCondVarProxyThread. destruct (thread (px (rel h))) eqn:Et; [done|by rewrite Et|done].
  - cbn. unfold pthreadCondVarProxyThread. destruct (thread (px (rel h))) eqn:Et; [done|done|].
    cbn. by destruct (caller (px (rel h))).
Qed.

(** In the call to the proxy the thread has [stateLock] and works at [PChanges]. *)
Lemma in_call rest h :
  handed_ok rest h -> caller (px (rel h)) <> Away ->
  switched (rel h) = true /\ pc (app_of h) = PChanges /\ stateChanged (shared (app_of h)) = true
  /\ wait (sys (rel h)) = Awake.
Proof.
  intros [Hruns _ _ _ _ _] Hne. pose proof (runs_ok e p alive rest _ Hruns) as [_ _ Hs Hc _ _ _].
  split; [by apply Hc|]. by apply Hs, Hc.
Qed.

Lemma thread_ok rest h h' : handed_ok rest h -> thread_turns h = Ret h' -> handed_ok rest h'.
Proof.
  intros Hok E. apply outcome_bind_Ret_inv in E as (y & Ey & [= <-]). pose proof Hok as [Hruns Hs Hg Hst Hc Hl].
  assert (runs e p alive rest y) as Hr2 by by eapply runs_thread.
  pose proof (reachable_ok _ _ _ (ro_app e rest _ (runs_ok e p alive rest _ Hruns))) as Hr. fold (app_of h) in Hr.
  pose proof (ro_waits e rest _ (runs_ok e p alive rest _ Hruns)) as Hwaits.
  unfold thread_turn in Ey. destruct (caller (px (rel h))) eqn:Ec.
  - destruct (must_switch (rel h)) eqn:Em.
    + injection Ey as <-. constructor; cbn; try done.
      * intros Hne. destruct (Hg Hne) as [->|[?|?]]; auto.
      * intros E2. apply Hst. unfold Proxy.wake in E2. destruct (thread (px (rel h))) as [|c|]; [done| |done].
        by destruct (c =? _).
      * intros _ _. destruct (thread (px (rel h))) as [|c|] eqn:Et; [done| |done].
        cbn. by rewrite (Hwaits c eq_refl), Z.eqb_refl.
    + apply outcome_bind_Ret_inv in Ey as (y1 & E1 & [= <-]). unfold thread_step in E1.
      destruct (wait (sys (rel h))) eqn:Ew.
      * apply outcome_bind_Ret_inv in E1 as (r & E1 & [= <-]). fold (app_of h) in E1.
        destruct (step_changed rest _ _ Hr E1) as [Egui Hch].
        constructor; cbn [rel gui_awake sys px switched app wait app_of]; unfold app_of; cbn [rel sys app]; try done.
        -- intros Hw. destruct (decide (pc r = PWait)) as [Hp|]; [|done].
           destruct (decides_to_wait _ _ E1 Hp) as (_ & _ & ?). done.
        -- rewrite Egui. intros Hne. destruct (decide (pc (app_of h) = PAttach)) as [Ea|Ea].
           { left. rewrite bool_decide_eq_true_2 by done. apply orb_true_r. }
           case_decide as Ep; [destruct Hch as (_ & _ & ?); by right; right|]. destruct Hch as [-> _].
           destruct (Hg Hne) as [->|[?|?]]; auto.
        -- by rewrite Ec.
      * injection E1 as <-. destruct (Hs ltac:(congruence)) as [? ?].
        constructor; cbn; rewrite ?Ec; try done. intros Hne. destruct (Hg Hne) as [->|[?|?]]; auto.
      * injection E1 as <-. destruct (Hs ltac:(congruence)) as [? ?].
        constructor; cbn; rewrite ?Ec; try done. intros Hne. destruct (Hg Hne) as [->|[?|?]]; auto.
  - injection Ey as <-. constructor; cbn; try done; [|by rewrite Ec..].
    intros Hne. destruct (Hg Hne) as [->|[?|?]]; auto.
  - injection Ey as <-. constructor; cbn; try done.
    + intros Hne. destruct (Hg Hne) as [->|[?|?]]; auto.
    + destruct (relocked (px (rel h))) eqn:Er; [done|]. intros _ _. apply Hc; congruence.
    + by destruct (relocked (px (rel h))).
Qed.

Lemma handed_invariant rest h : handed rest h -> handed_ok rest h.
Proof.
  induction 1 as [x|h a h' _ IH Ha Hen Hf E|h h' _ IH Haw Hne Hf E|h _ IH|h a r _ IH H1 H2 H3 Hen E|h _ IH|c h _ IH|h y _ IH H0 E|h _ IH|h h' _ IH E].
  - constructor; cbn; try done. exact (runs_proxy e p alive rest _ (runs_init e p alive rest x)).
  - by eapply sets_ok.
  - by eapply tests_ok.
  - destruct IH. constructor; cbn; auto.
  - destruct IH as [Hruns Hs Hg Hst Hc Hl]. destruct (run_other a _ r H1 H2 H3 E) as (Ep & Eg & Ech).
    constructor; cbn; unfold app_of in *; cbn; rewrite ?Ep, ?Eg, ?Ech; try done. by eapply runs_other.
  - destruct IH as [Hruns Hs Hg Hst Hc Hl]. constructor; cbn; try done.
    + by apply runs_stir.
    + intros Hne. apply Hs. intros E. by rewrite E in Hne.
    + intros Hne. apply Hc. by destruct (caller (px (rel h))).
    + by destruct (caller (px (rel h))).
  - destruct IH as [Hruns Hs Hg Hst Hc Hl]. constructor; cbn; try done.
    + by apply runs_signal.
    + intros E2. apply Hst. unfold Proxy.wake in E2. destruct (thread (px (rel h))) as [|d|]; [done| |done].
      by destruct (d =? _).
    + intros Hne Hre. by rewrite (Hc Hne Hre).
  - by eapply frame_ok.
  - by apply proxy_ok.
  - by eapply thread_ok.
Qed.

(** ** What is left until the GUI thread can go on *)
Definition handshake (h : handover) : nat :=
  if stateChanged (shared (app_of h)) then
    if switched (rel h) then
      match caller (px (rel h)) with
      | Away => 0
      | CallerWoken => if relocked (px (rel h)) then 1 else 2
      | Listening => 2
      end
    else 3
  else 0.
Definition left_to_do (h : handover) : nat :=
  rank (app_of h) + handshake h + (if bool_decide (wait (sys (rel h)) = FallingAsleep) then 1 else 0).

Lemma proxy_left rest h :
  handed_ok rest h ->
  (left_to_do (proxy_turns h) <= left_to_do h)%nat
  /\ (caller (px (rel h)) <> Away -> relocked (px (rel h)) = false -> (left_to_do (proxy_turns h) < left_to_do h)%nat).
Proof.
  intros Hok. pose proof Hok as [_ _ _ Hst Hc _].
  assert (rank (app_of (proxy_turns h)) = rank (app_of h)) as Er by done.
  assert (bool_decide (wait (sys (rel (proxy_turns h))) = FallingAsleep) = bool_decide (wait (sys (rel h)) = FallingAsleep)) as Ef.
  { cbn. destruct (_ =? _)%nat; [done|]. by destruct (wait (sys (rel h))). }
  unfold left_to_do. rewrite Er, Ef.
  assert ((handshake (proxy_turns h) <= handshake h)%nat /\
    (caller (px (rel h)) <> Away -> relocked (px (rel h)) = false -> (handshake (proxy_turns h) < handshake h)%nat)) as [H1 H2].
  2: { split; [lia|]. intros Hne Hre. specialize (H2 Hne Hre). lia. }
  unfold handshake. change (app_of (proxy_turns h)) with (app_of h). change (switched (rel (proxy_turns h))) with (switched (rel h)).
  destruct (decide (caller (px (rel h)) = Away)) as [Ea|Ea].
  - split; [|done]. destruct (stateChanged (shared (app_of h))), (switched (rel h)); try lia. rewrite Ea. cbn.
    unfold pthreadCondVarProxyThread. destruct (thread (px (rel h))); cbn; rewrite Ea; lia.
  - destruct (in_call rest h Hok Ea) as (-> & _ & -> & _). cbn. unfold pthreadCondVarProxyThread.
    destruct (thread (px (rel h))) as [|c|] eqn:Et; [done| |].
    + split; [lia|]. intros _ Hre. specialize (Hc Ea Hre). congruence.
    + cbn. destruct (caller (px (rel h))); [done|split; [lia|intros; lia]|].
      destruct (relocked (px (rel h))); split; try done; lia.
Qed.

Lemma thread_left rest h :
  handed_ok rest h -> left_to_do h <> 0%nat ->
  exists h1, thread_turns h = Ret h1 /\ gui (app_of h1) = gui (app_of h)
    /\ ((left_to_do h1 < left_to_do h)%nat
        \/ (left_to_do h1 <= left_to_do h)%nat /\ caller (px (rel h1)) <> Away /\ relocked (px (rel h1)) = false).
Proof.
  intros Hok Hn. pose proof Hok as [Hruns Hs _ _ _ Hl].
  pose proof (ro_switch e rest _ (runs_ok e p alive rest _ Hruns)) as Hsw.
  pose proof (reachable_ok _ _ _ (ro_app e rest _ (runs_ok e p alive rest _ Hruns))) as Hr. fold (app_of h) in Hr.
  assert (stateChanged (shared (app_of h)) = true -> rank (app_of h) <> 0%nat) as Hrk.
  { intros E. unfold rank, changed. rewrite E. cbn. destruct (pc (app_of h)); lia. }
  unfold thread_turns, thread_turn. destruct (caller (px (rel h))) eqn:Ec.
  - destruct (must_switch (rel h)) eqn:Em.
    + cbind. eexists. split; [reflexivity|]. split; [done|]. left.
      unfold must_switch in Em. rewrite !andb_true_iff, !bool_decide_eq_true, negb_true_iff in Em.
      destruct Em as [[[Haw Hpc] Hch] Hns]. unfold left_to_do, handshake. cbn. unfold app_of in *. cbn. rewrite Hch, Hns. lia.
    + unfold thread_step. destruct (wait (sys (rel h))) eqn:Ew.
      * assert (rank (app_of h) <> 0%nat) as Hrank.
        { intros E. apply Hn. unfold left_to_do, handshake. rewrite E, Ew.
          destruct (stateChanged (shared (app_of h))) eqn:Es; [by destruct (Hrk eq_refl)|done]. }
        destruct (rank_step e rest _ Hr Hrank) as (r & E & _ & Hg & Hlt). fold (app_of h). rewrite E. cbind.
        eexists. split; [reflexivity|]. split; [done|]. left.
        destruct (step_changed rest _ _ Hr E) as [_ Hch].
        assert (((if stateChanged (shared r) then 3 else 0) <= handshake h)%nat) as Hh.
        { unfold handshake. case_decide as Ep; [destruct Hch as (_ & -> & _); lia|]. destruct Hch as [_ ->].
          destruct (stateChanged (shared (app_of h))); [|done].
          destruct (switched (rel h)) eqn:Esw; [|done]. by destruct (Hsw eq_refl) as (? & _). }
        enough (rank r + (if stateChanged (shared r) then 3 else 0)
                + (if bool_decide ((if decide (pc r = PWait) then FallingAsleep else Awake) = FallingAsleep) then 1 else 0)
                < left_to_do h)%nat as Hx by exact Hx.
        unfold left_to_do. rewrite Ew. change (bool_decide (Awake = FallingAsleep)) with false. cbv iota.
        destruct (decide (pc r = PWait)) as [Hp|Hp]; [|rewrite bool_decide_eq_false_2 by done; lia].
        rewrite bool_decide_eq_true_2 by done. destruct (decides_to_wait _ _ E Hp) as (Ept & Eu & Eu').
        assert (rank (app_of h) = 3%nat) as -> by (unfold rank; by rewrite Ept, Eu).
        assert (rank r = 0%nat) as -> by (unfold rank; by rewrite Hp, Eu'). lia.
      * cbind. eexists. split; [reflexivity|]. split; [done|]. left. destruct (Hs ltac:(done)) as [Hp Hch].
        assert (stateChanged (shared (app_of h)) = false) as Hsc by (by apply orb_false_iff in Hch as [? _]).
        enough (rank (app_of h) + (if stateChanged (shared (app_of h)) then 3 else 0) + 0 < left_to_do h)%nat as Hx by exact Hx.
        unfold left_to_do, handshake. rewrite Hsc, Ew, bool_decide_eq_true_2 by done. lia.
      * exfalso. apply Hn. destruct (Hs ltac:(done)) as [Hp Hch]. unfold left_to_do, handshake, rank.
        rewrite Hch, Hp, Ew. apply orb_false_iff in Hch as [-> _]. done.
  - cbind. eexists. split; [reflexivity|]. split; [done|]. right. split; [done|]. cbn. rewrite Ec. by split; [|apply Hl].
  - cbind. eexists. split; [reflexivity|]. split; [done|].
    destruct (in_call rest h Hok ltac:(congruence)) as (Esw & _ & Ech & _).
    unfold left_to_do, handshake. cbn. unfold app_of in *. cbn. rewrite Esw, Ech, Ec.
    destruct (relocked (px (rel h))) eqn:Ere; [left; lia|right]. split; [lia|done].
Qed.

Lemma gui_goes_on n rest h :
  handed_ok rest h -> (left_to_do h <= n)%nat ->
  exists k h1, (k <= n)%nat /\ rounds k h = Ret h1 /\ handed_ok rest h1 /\ gui (app_of h1) = gui (app_of h)
    /\ left_to_do h1 = 0%nat.
Proof.
  revert h. induction n as [|n IH]; intros h Hok Hn; destruct (decide (left_to_do h = 0%nat)) as [E|E];
    try (by exists 0%nat, h; split_and!; [lia|..]); [lia|].
  destruct (thread_left rest h Hok E) as (h1 & E1 & Hg & Hlt).
  pose proof (thread_ok rest h h1 Hok E1) as Hok1. destruct (proxy_left rest h1 Hok1) as [H1 H2].
  destruct (IH (proxy_turns h1)) as (k & h2 & Hk & Ek & Hok2 & Hg2 & Hz); [by apply proxy_ok| |].
  { destruct Hlt as [|(? & Hne & Hre)]; [lia|]. specialize (H2 Hne Hre). lia. }
  exists (S k), h2. split_and!; [lia|cbn [rounds]; by rewrite E1|done|by etransitivity|done].
Qed.

(** C22: the GUI thread is not left waiting. When it has handed over a shared state
    or a window and waits to be signalled, then at most ten turns of the renderer
    thread, each with one of the proxy thread behind it, and no help from others
    or from a wait that ends by itself, take the change over, signal the GUI
    thread and leave the lock free, so that it comes back from its call. This
    holds in every state the threads and the server can get to by any
    interleaving, once the proxy thread has started. *)
Theorem gui_never_stuck rest h :
  handed rest h -> gui (app_of h) <> GReady ->
  exists k h1 h2, (k <= 10)%nat /\ rounds k h = Ret h1
    /\ gui_awake h1 = true /\ lock_free h1 = true /\ changed (app_of h1) = false
    /\ gui_tests h1 = Ret h2 /\ gui (app_of h2) = GReady.
Proof.
  intros Hh%handed_invariant Hg.
  destruct (gui_goes_on 10 rest h Hh) as (k & h1 & Hk & Ek & Hok & Hg1 & Hz).
  { unfold left_to_do, handshake. destruct Hh as [_ Hs _ _ _ _].
    case_bool_decide as Ew; [destruct (Hs ltac:(congruence)) as [Hp Hch]; unfold rank; rewrite Hch, Hp|].
    - apply orb_false_iff in Hch as [-> _]. lia.
    - assert (rank (app_of h) <= 7)%nat by (unfold rank; destruct (changed _), (pc _); lia).
      repeat case_match; lia. }
  assert (rank (app_of h1) = 0%nat /\ wait (sys (rel h1)) <> FallingAsleep) as [Hr Hw].
  { unfold left_to_do in Hz. case_bool_decide; [lia|]. split; [lia|done]. }
  pose proof Hok as [Hruns _ Hga _ _ _].
  pose proof (reachable_ok _ _ _ (ro_app e rest _ (runs_ok e p alive rest _ Hruns))) as Hro. fold (app_of h1) in Hro.
  assert (enabled e GuiResumes (app_of h1) = true) as Hen by (eapply gui_waits_once; [done|congruence|done]).
  assert (changed (app_of h1) = false /\ pc (app_of h1) <> PAttach) as [Hch Hpa].
  { unfold rank in Hr. destruct (changed (app_of h1)), (pc (app_of h1)); try lia; done. }
  exists k, h1. eexists. split; [done|]. split; [done|]. split; [|split; [|split; [done|]]].
  - destruct Hga as [?|[?|?]]; congruence.
  - unfold lock_free. rewrite bool_decide_eq_false_2 by done. cbn [enabled] in Hen. apply andb_true_iff in Hen as [-> _]. done.
  - unfold gui_tests. rewrite Hen. cbn [run]. cbind. split; [reflexivity|done].
Qed.
End handover.

(** ** A concrete run *)

(** The thread goes to sleep, a shared state is handed over, and the signal wakes it. *)
Definition sleepy : handover := mk_handover (mk_relayed (mk_system dirty (renderer_init sample_platform []) Awake) running false) true.
Definition asleep : handover := match rounds sample_platform 3 sleepy with Ret h => h | Fault _ => sleepy end.
Definition handing : handover :=
  match gui_sets sample_platform (SetSharedState 500 sample_state) asleep with Ret h => h | Fault _ => sleepy end.

Lemma rounds_handed e p alive rest n h h' :
  handed e p alive rest h -> rounds e n h = Ret h' -> handed e p alive rest h'.
Proof.
  revert h. induction n as [|n IH]; intros h Hh; cbn [rounds]; [by intros [= <-]|].
  intros (h1 & E1 & E)%outcome_bind_Ret_inv. eapply IH; [|exact E]. apply handed_proxy. by eapply handed_thread.
Qed.

Lemma gui_never_stuck_witness :
  wait (sys (rel asleep)) = Asleep /\ gui (app_of handing) = GWaitState /\ gui_awake handing = false
  /\ exists k h1 h2, (k <= 10)%nat /\ rounds sample_platform k handing = Ret h1
       /\ gui_tests sample_platform h1 = Ret h2 /\ gui (app_of h2) = GReady.
Proof.
  split; [vm_compute; reflexivity|]. split; [vm_compute; reflexivity|]. split; [vm_compute; reflexivity|].
  assert (handed sample_platform Buffer.sample_platform true [] handing) as Hh.
  { refine (handed_sets _ _ _ _ asleep (SetSharedState 500 sample_state) handing _ eq_refl _ _ _); [|vm_compute; reflexivity..].
    refine (rounds_handed _ _ _ _ 3 sleepy asleep (handed_init _ _ _ _ dirty) _). vm_compute. reflexivity. }
  destruct (gui_never_stuck sample_platform Buffer.sample_platform true [] handing Hh)
    as (k & h1 & h2 & Hk & E1 & _ & _ & _ & E2 & Hg); [vm_compute; discriminate|].
  exists k, h1, h2. split; [exact Hk|]. split; [exact E1|]. split; [exact E2|exact Hg].
Defined.
