(* ===== verification/Resize.v ===== *)
(** * A window of another size, from Android to the screen

    The view of the app gets another size: the message on the socket
    ([Events], [Server]), the server's configuration ([Present]), the screen's
    new pixmap ([Screen]), what the app is told of it ([Wire], [Activity]) and
    the buffers of its renderer ([Renderer]), in one piece.  RRScreenSizeSet is
    the X server's, and calls the screen's function. *)
From S2P Require Import Prelude Buffer GlBuffers Viewport Renderer AppBuffers Events Server Wire Activity Present Screen.

Record display : Type := mk_display { config : root_config; scr : screen; reader : app_state }.

Section resize.
Context `{!Traversal, !TraversalLaws}.
Context (p : Buffer.platform) (legacy : bool) (ienv : input_env).
(** The generator of modes, sizes in millimetres, and what the X server draws. *)
Context (cvt : Z -> Z -> Z -> Z * Z) (mm : Z -> Z) (restore : screen -> screen).

(** ** The server's steps *)

(** What the app wrote is read. *)
Definition server_reads (fd : Z) (l : list Events.message) (y : display) : outcome display :=
  let s := conn (scr y) in
  s ← read_all 2 ienv fd (with_inbox fd (inbox fd s ++ stream l) s);
  Ret (mk_display (config y) (with_conn s (scr y)) (reader y)).

(** The procedure queued for the X server's thread; [q] and [bid] are the address of
    the new pixmap and the number of its buffer. *)
Definition configure (q bid : Z) (e : effect) (y : display) : outcome display :=
  match e with
  | SendConfigureNotify w h rate n name =>
      '(c, size) ← lorieConfigureNotify cvt mm true w h rate n name (config y);
      match size with
      | None => Ret (mk_display c (scr y) (reader y))
      | Some (mw, mh, _, _) =>
          s ← lorieRRScreenSetSize p legacy restore mm true q bid mw mh (scr y);
          Ret (mk_display c s (reader y))
      end
  | _ => Ret y
  end.

(** ** Lemmas *)
Lemma strncpy_returns n src dst :
  (n <= length src)%nat -> (n <= length dst)%nat -> exists r, strncpy n src dst = Ret r.
Proof.
  revert src dst. induction n as [|n IH]; intros [|c src] [|d dst] H1 H2; cbn in *; try lia; eauto.
  destruct (c =? 0); [eauto|]. destruct (IH src dst) as [r ->]; [lia|lia|]. cbind. eauto.
Qed.

(** The rate a request stands for. *)
Definition rate_of (rate : Z) : Z := if rate =? 0 then 30 else rate.

Lemma configure_runs w h rate n name c :
  w <> 0 -> h <> 0 -> (pScreen_width c, pScreen_height c) <> (w, h) ->
  match name with Some name => 0 <= n <= Z.of_nat (length name) | None => True end ->
  exists rn on, lorieConfigureNotify cvt mm true w h rate n name c
    = Ret (mk_root (cvt w h (rate_of rate)).1 (cvt w h (rate_of rate)).2 rn on (rate_of rate) (1000000 / rate_of rate),
           Some ((cvt w h (rate_of rate)).1, (cvt w h (rate_of rate)).2,
                 mm (cvt w h (rate_of rate)).1, mm (cvt w h (rate_of rate)).1)).
Proof.
  intros Hw Hh Hne Hn. unfold lorieConfigureNotify.
  assert ((if negb (rate =? 0) then rate else 30) = rate_of rate) as -> by (unfold rate_of; by destruct (rate =? 0)).
  assert (exists rn on, (match name with
      | Some name =>
          let k := Z.to_nat (if n <? 1024 then n else 1024) in
          rn ← strncpy k name (zeros 1024);
          on ← strncpy k name (zeros 1024);
          Ret (mk_root (pScreen_width c) (pScreen_height c) rn (<[1023%nat := 0]> on) (framerate c) (vblank_interval c))
      | None => Ret c
      end) = Ret (mk_root (pScreen_width c) (pScreen_height c) rn on (framerate c) (vblank_interval c))) as (rn & on & E).
  { destruct name as [name|]; [|exists (root_name c), (output_name c); by destruct c]. cbv zeta.
    destruct (strncpy_returns (Z.to_nat (if n <? 1024 then n else 1024)) name (zeros 1024)) as [r ->];
      [destruct (Z.ltb_spec n 1024); lia|rewrite length_zeros; destruct (Z.ltb_spec n 1024); lia|]. cbind. eauto. }
  exists rn, on. cbv zeta in E |- *. rewrite E. cbind. cbn [pScreen_width pScreen_height framerate root_name output_name andb].
  rewrite (proj2 (Z.eqb_neq _ _) Hw), (proj2 (Z.eqb_neq _ _) Hh). cbn [negb andb].
  assert (negb (pScreen_width c =? w) || negb (pScreen_height c =? h) = true)%bool as ->; [|by destruct (cvt _ _ _)].
  destruct (Z.eqb_spec (pScreen_width c) w), (Z.eqb_spec (pScreen_height c) h); try done. by subst.
Qed.

(** *** The app's side *)
Context (link : LorieBuffer -> list Z) (send_handle : Z -> list cell) (aenv : app_env).
Hypothesis link_size : forall b, length (link b) = 16%nat.
Hypothesis handle_received : forall h l, exists h', recv_handle aenv (send_handle h ++ l) = (h', l).
Hypothesis memory : calloc_buffer (buffer_calls aenv) = true.

(** What the server has written is in the app's socket. *)
Definition arrived (fd : Z) (y : display) : app_state :=
  with_app_inbox (app_inbox (reader y) ++ wire_out link send_handle (written fd (outgoing (conn (scr y))))) (reader y).

(** The connection is idle, and the renderer keeps the buffers that the server
    has registered. *)
Record in_step (fd : Z) (y : display) (r : renderer) : Prop := {
  is_conn : Server.conn_fd (conn (scr y)) = fd;
  is_open : fd <> -1;
  is_read : inbox fd (conn (scr y)) = [];
  is_app : app_conn (reader y) <> -1;
  is_app_read : app_inbox (reader y) = [];
  is_written : outgoing (conn (scr y)) = [];
  is_nodup : NoDup (registeredBuffers (conn (scr y)));
  is_view : live (bufs r) ≡ₚ registeredBuffers (conn (scr y));
  is_single : single (bufs r)
}.

Lemma unregister_fields b s fd :
  registeredBuffers (conn_run (Unregister b) s) = (if connected s then filter (fun j => j <> desc_id (desc b)) (registeredBuffers s)
                                                   else registeredBuffers s)
  /\ Server.conn_fd (conn_run (Unregister b) s) = Server.conn_fd s /\ inbox fd (conn_run (Unregister b) s) = inbox fd s
  /\ connected (conn_run (Unregister b) s) = connected s.
Proof.
  cbn [conn_run]. unfold lorieUnregisterBuffer. case_bool_decide as Hi; cbn [negb].
  - by destruct (connected s) eqn:E.
  - split_and!; try done. case_match; [|done]. symmetry. apply filter_all, Forall_forall. naive_solver.
Qed.

Lemma register_fields b s fd :
  connected s = true -> desc_id (desc b) ∉ registeredBuffers s ->
  registeredBuffers (conn_run (Register b) s) = desc_id (desc b) :: registeredBuffers s
  /\ Server.conn_fd (conn_run (Register b) s) = Server.conn_fd s /\ inbox fd (conn_run (Register b) s) = inbox fd s.
Proof.
  intros Hc Hi. cbn [conn_run]. unfold lorieRegisterBuffer. by rewrite Hc, bool_decide_eq_false_2.
Qed.

(** One buffer takes the place of another in both processes. *)
Lemma replaced fd y r b b' s' :
  in_step fd y r -> desc_id (desc b') ∉ filter (fun j => j <> desc_id (desc b)) (registeredBuffers (conn (scr y))) ->
  shareable aenv b' -> fits 64 (desc_id (desc b)) ->
  s' = lorieRegisterBuffer b' (lorieUnregisterBuffer b (conn (scr y))) ->
  forall c sc, conn sc = s' ->
  let y1 := mk_display c sc (reader y) in
  exists a1 a2 cs, xcallback aenv (app_conn (reader y)) false (arrived fd y1) = Ret a1
    /\ xcallback aenv (app_conn (reader y)) false a1 = Ret a2 /\ calls a2 = calls (reader y) ++ cs
    /\ forall e rest r', renderer_ok e rest r -> performs e cs r r' ->
         in_step fd (mk_display c (with_conn (flushed s') sc) a2) r'
         /\ renderer_ok e rest r'
         /\ live (bufs r') ≡ₚ desc_id (desc b') :: filter (fun j => j <> desc_id (desc b)) (live (bufs r)).
Proof.
  intros [Hfd Hop Hin Ha Hai Hout Hnd Hv H1] Hnew Hsh Hfit -> c sc Hsc y1. set (s := conn (scr y)) in *.
  assert (connected s = true) as Hc by (unfold connected; by rewrite Hfd, (proj2 (Z.eqb_neq _ _) Hop)).
  destruct (unregister_fields b s fd) as (Er & Ef & Ei & Ec). rewrite Hc in Er, Ec.
  destruct (register_fields b' (conn_run (Unregister b) s) fd Ec) as (Er2 & Ef2 & Ei2); [by rewrite Er|].
  set (s' := conn_run (Register b') (conn_run (Unregister b) s)) in *.
  change (lorieRegisterBuffer b' (lorieUnregisterBuffer b s)) with s' in *.
  assert (sends_ok aenv (registeredBuffers s) fd s') as Hs.
  { change s' with (foldl (fun s o => conn_run o s) s [Unregister b; Register b']).
    apply sends_ok_run; [by rewrite !Forall_cons, Forall_nil|]. constructor; rewrite ?Hout; done || constructor. }
  destruct (app_follows aenv link send_handle link_size handle_received memory (registeredBuffers s) fd s' None (arrived fd y1) Hs I Hop)
    as (a1 & a2 & cs & E1 & E2 & Hi2 & Ha2 & Hcs & Hp); [done| |].
  { unfold arrived. cbn. by rewrite Hai, Hsc. }
  exists a1, a2, cs. split_and!; [done..|]. intros e rest r' Hrk Hperf.
  destruct (Hp e rest r r' Hrk H1 Hnd Hv Hperf) as (Hl & Hrk' & H1'). cbn [lorieSendClipboardData] in Hl. rewrite Er2, Er in Hl. split_and!; [|done|by rewrite Hl, Hv].
  constructor; cbn [scr conn with_conn flushed reader Server.conn_fd outgoing registeredBuffers]; try done.
  - by rewrite Ef2, Ef.
  - unfold inbox in *. cbn [inboxes flushed]. by rewrite Ei2, Ei.
  - by rewrite Ha2.
  - rewrite Er2, Er. apply NoDup_cons. split; [done|by apply NoDup_filter].
  - by rewrite Er2, Er.
Qed.

Lemma showing_conn old b rest s c : showing old b rest s -> showing old b rest (with_conn c s).
Proof. by intros [? ? ? ? ? ? ?]. Qed.
Lemma showing_queue old b rest s pr : showing old b rest s -> showing old b rest (with_queue pr s).
Proof. by intros [? ? ? ? ? ? ?]. Qed.

(** The size is read. *)
Lemma size_read fd w h rate name y r :
  in_step fd y r -> 0 < w < 2 ^ 16 -> 0 < h < 2 ^ 16 -> 0 <= rate < 2 ^ 16 -> Z.of_nat (length name) < 2 ^ 32 ->
  exists s e name', server_reads fd (sendWindowChange true w h rate (Some name)) y
      = Ret (mk_display (config y) (with_conn s (scr y)) (reader y))
    /\ e = SendConfigureNotify w h rate (Z.of_nat (length name)) name'
    /\ match name' with Some l => Z.of_nat (length name) <= Z.of_nat (length l) | None => True end
    /\ effects s = e :: effects (conn (scr y)) /\ registeredBuffers s = registeredBuffers (conn (scr y))
    /\ in_step fd (mk_display (config y) (with_conn s (scr y)) (reader y)) r.
Proof.
  intros [Hfd Hop Hin Ha Hai Hout Hnd Hv H1] Hw Hh Hr Hl. set (n := Z.of_nat (length name)).
  assert (sendWindowChange true w h rate (Some name) = [(ScreenSize w h rate n, name)]) as ->.
  { unfold sendWindowChange. rewrite (proj2 (Z.leb_gt _ _)), (proj2 (Z.leb_gt _ _)) by lia. cbn [orb default from_option id].
    by rewrite !wrap_u_small by lia. }
  unfold server_reads. rewrite Hin. cbn [app].
  rewrite (read_one ienv fd (ScreenSize w h rate n, name)); [|split; cbn; unfold fits; lia|done|cbn; by rewrite lookup_insert_eq].
  cbind. rewrite mask_inbox, deliver_inbox, with_inbox_twice.
  set (s := with_inbox fd [] _). exists s. eexists _, _. split; [reflexivity|]. split; [reflexivity|].
  split; [|split; [reflexivity|]; split; [reflexivity|]; constructor; try done; apply inbox_with].
  unfold n in *. cbn [fst snd] in *. repeat case_match; simplify_eq; try done. rewrite length_app. lia.
Qed.

(** C4: the app's window gets another size. On an idle connection the server reads the
    message to the last byte and asks for a mode of that size; the screen and the
    configuration take the size of the mode; every window that showed the old
    picture, before or after the X server restored the screen's pixmap in windows
    that were flipped, shows the new one, the others keep theirs; the
    new picture's buffer is the only one of the screen; and
    when the app has read its socket, in two calls, and its renderer has carried
    out the calls, in any interleaving, it has let the old buffer go and has the
    new one instead, and both sides are in step again. Without memory for
    the new picture the server crashes. *)
Theorem window_resized fd w h rate name y r q bid old b rest :
  in_step fd y r -> 0 < w < 2 ^ 16 -> 0 < h < 2 ^ 16 -> 0 <= rate < 2 ^ 16 -> Z.of_nat (length name) < 2 ^ 32 ->
  (pScreen_width (config y), pScreen_height (config y)) <> (w, h) ->
  let mode := cvt w h (rate_of rate) in
  0 < mode.1 -> 0 < mode.2 -> (forall n, ASharedMemory_create p n <> 0) ->
  (forall s, conn (restore s) = conn s /\ pixmaps (restore s) = pixmaps s /\ tree (restore s) = tree s
             /\ (showing old b rest s -> showing old b rest (restore s))
             /\ (forall j, window_pixmap s !! j = Some old -> window_pixmap (restore s) !! j = Some old)) ->
  showing old b rest (scr y) -> pixmaps (scr y) !! q = None -> fits 64 (desc_id (desc b)) ->
  exists y1 e, server_reads fd (sendWindowChange true w h rate (Some name)) y = Ret y1
    /\ effects (conn (scr y1)) = e :: effects (conn (scr y))
    /\ match configure q bid e y1 with
       | Fault f => f = NullDeref /\ exists s, CreatePixmap p legacy q bid mode.1 mode.2 s = Ret None
       | Ret y2 =>
           (pScreen_width (config y2), pScreen_height (config y2)) = mode /\ pscreen_size (scr y2) = mode
           /\ framerate (config y2) = rate_of rate /\ devPrivate (scr y2) = q
           /\ (forall j, j ∈ ids (tree (scr y)) -> window_pixmap (scr y) !! j = Some old -> window_pixmap (scr y2) !! j = Some q)
           /\ (let restored := window_pixmap (restore (with_queue (loriePerformVblanks (queue (scr y1))) (scr y1))) in
               forall j, j ∈ ids (tree (scr y)) ->
                 window_pixmap (scr y2) !! j = if bool_decide (restored !! j = Some old) then Some q else restored !! j)
           /\ exists b', buffer_of q (pixmaps (scr y2)) = Some b' /\ res (scr y2) ≡ₚ RPriv :: owned b' ++ rest
           /\ (shareable aenv b' ->
               desc_id (desc b') ∉ filter (fun j => j <> desc_id (desc b)) (registeredBuffers (conn (scr y))) ->
               exists a1 a2 cs, xcallback aenv (app_conn (reader y)) false (arrived fd y2) = Ret a1
                 /\ xcallback aenv (app_conn (reader y)) false a1 = Ret a2 /\ calls a2 = calls (reader y) ++ cs
                 /\ forall e held r', renderer_ok e held r -> performs e cs r r' ->
                      in_step fd (mk_display (config y2) (with_conn (flushed (conn (scr y2))) (scr y2)) a2) r'
                      /\ live (bufs r') ≡ₚ desc_id (desc b') :: filter (fun j => j <> desc_id (desc b)) (live (bufs r)))
       end.
Proof.
  intros Hy Hw Hh Hr Hl Hne mode Hm1 Hm2 Hshm Hrestore Hsh Hq Hfit.
  destruct (size_read fd w h rate name y r Hy Hw Hh Hr Hl) as (s & e & name' & E1 & He & Hn & Hef & Hreg & Hy1).
  set (y1 := mk_display (config y) (with_conn s (scr y)) (reader y)) in *. exists y1, e. split; [done|]. split; [done|].
  subst e. cbn [configure].
  destruct (configure_runs w h rate (Z.of_nat (length name)) name' (config y1)) as (rn & on & Ec); [lia|lia|done| |].
  { destruct name'; [lia|done]. }
  rewrite Ec. cbind. fold mode.
  set (s1 := restore (with_queue (loriePerformVblanks (queue (scr y1))) (scr y1))).
  destruct (Hrestore (with_queue (loriePerformVblanks (queue (scr y1))) (scr y1))) as (Rc & Rp & Rt & Rs & Rw). fold s1 in Rc, Rp, Rt, Rs, Rw.
  assert (showing old b rest s1) as Hsh1 by (apply Rs, showing_queue, showing_conn, Hsh).
  assert (forall j, j ∈ ids (tree (scr y)) -> (j ∈ reached old (window_pixmap s1) (tree s1) <-> window_pixmap s1 !! j = Some old)) as Hreach
    by (intros j Hj; apply reached_spec; [apply Hsh1|rewrite Rt; exact Hj]).
  pose proof (resize_run p legacy Hshm restore mm q bid mode.1 mode.2 (scr y1) old b rest Hm1 Hm2 Hsh1) as Hrun.
  fold s1 in Hrun. specialize (Hrun ltac:(by rewrite Rp)).
  destruct (lorieRRScreenSetSize _ _ _ _ _ _ _ _ _ _) as [s2|f]; cbind; [|by destruct Hrun as [-> ?]; eauto].
  destruct Hrun as (b' & Hb' & _ & Hres & _ & Hdev & _ & Hall & _ & Hsz & _ & _ & _ & Hconn & _).
  assert (forall j, j ∈ ids (tree (scr y)) ->
            window_pixmap s2 !! j = if bool_decide (window_pixmap s1 !! j = Some old) then Some q else window_pixmap s1 !! j) as Hwin
    by (intros j Hj; rewrite Hall, (bool_decide_ext _ _ (Hreach j Hj)); done).
  split_and!; cbn [config scr pScreen_width pScreen_height framerate]; try done;
    [symmetry; apply surjective_pairing|rewrite Hsz; symmetry; apply surjective_pairing| |].
  { intros j Hj Ho. rewrite Hwin by done. rewrite bool_decide_eq_true_2; [done|]. apply Rw, Ho. }
  exists b'. split; [done|]. split; [done|]. intros Hshare Hnew. rewrite <- Hreg in Hnew.
  destruct (replaced fd y1 r b b' (conn s2) Hy1 Hnew Hshare Hfit ltac:(by rewrite Hconn, Rc)
              (mk_root mode.1 mode.2 rn on (rate_of rate) (1000000 / rate_of rate)) s2 eq_refl) as (a1 & a2 & cs & Ea1 & Ea2 & Hcs & Hp).
  exists a1, a2, cs. split_and!; [exact Ea1|exact Ea2|exact Hcs|].
  intros pf held r' Hrk Hperf. by destruct (Hp pf held r' Hrk Hperf) as (? & _ & ?).
Qed.
End resize.

(** ** A concrete window *)
Definition sample_display : display :=
  mk_display (mk_root 64 64 (zeros 1024) (zeros 1024) 60 16666) sample_screen (sample_app []).

Lemma sample_in_step : in_step 7 sample_display Activity.sample_showing.
Proof. constructor; try done; [apply NoDup_singleton|apply sample_showing_ok]. Qed.

Lemma new_buffer_shareable :
  shareable (sample_app_env true) (mk_buffer 1 (mk_desc 128 32 128 2 2 10 0 131072) true 131072 11 16384 0 0 0).
Proof.
  constructor; [|done|done|by left|intros _; cbn; lia].
  constructor; cbn; unfold fits, fits_s; cbn; lia.
Qed.

Lemma window_resized_witness :
  exists y1 e y2, server_reads Server.sample_env 7 (sendWindowChange true 128 32 60 (Some [77; 97])) sample_display = Ret y1
    /\ effects (conn (scr y1)) = [e]
    /\ configure Buffer.sample_platform true (fun w h _ => (w, h)) (fun n => n) (fun s => s) 300 10 e y1 = Ret y2
    /\ pscreen_size (scr y2) = (128, 32) /\ window_pixmap (scr y2) !! 3 = Some 300
    /\ exists a1 a2 cs, xcallback (sample_app_env true) 9 false (arrived sample_link sample_handle 7 y2) = Ret a1
         /\ xcallback (sample_app_env true) 9 false a1 = Ret a2 /\ calls a2 = cs
         /\ forall r', performs Renderer.sample_platform cs Activity.sample_showing r' -> live (bufs r') ≡ₚ [10].
Proof.
  destruct (window_resized Buffer.sample_platform true Server.sample_env (fun w h _ => (w, h)) (fun n => n) (fun s => s)
              sample_link sample_handle (sample_app_env true) (fun _ => eq_refl) (sample_handle_received true) eq_refl
              7 128 32 60 [77; 97] sample_display Activity.sample_showing 300 10 100 sample_fd_buffer [])
    as (y1 & e & E1 & Ee & H).
  - exact sample_in_step.
  - lia.
  - lia.
  - lia.
  - cbn; lia.
  - discriminate.
  - cbn; lia.
  - cbn; lia.
  - exact sample_shm.
  - done.
  - exact Screen.sample_showing.
  - reflexivity.
  - cbn; unfold fits; lia.
  - exists y1, e. vm_compute in E1. injection E1 as <-. vm_compute in Ee. injection Ee as <-.
    destruct (configure _ _ _ _ _ _ _ _ _) as [y2|f] eqn:E2.
    2: { vm_compute in E2. discriminate E2. }
    exists y2. destruct H as (_ & Hs & _ & _ & Hw & _ & b' & Hb & _ & Happ).
    assert (b' = mk_buffer 1 (mk_desc 128 32 128 2 2 10 0 131072) true 131072 11 16384 0 0 0) as ->.
    { clear -E2 Hb. vm_compute in E2. injection E2 as <-. vm_compute in Hb. injection Hb as <-. reflexivity. }
    destruct (Happ new_buffer_shareable) as (a1 & a2 & cs & Ea1 & Ea2 & Hcs & Hp).
    { apply not_elem_of_nil. }
    split; [reflexivity|]. split; [reflexivity|]. split; [reflexivity|]. split; [exact Hs|].
    split; [apply Hw; [|reflexivity]; cbn; rewrite !elem_of_cons; tauto|].
    exists a1, a2, cs. split; [exact Ea1|]. split; [exact Ea2|]. split; [exact Hcs|].
    intros r' Hperf. exact (proj2 (Hp Renderer.sample_platform [] r' (proj1 sample_showing_ok) Hperf)).
Defined.
